(* ===== verification/_CoqProject ===== *)
-Q . S2P
Prelude.v
Kernel.v
Tables.v
Flags.v
FlagsFacts.v
Ring.v
RingFacts.v
FillerLib.v
Fillers.v
FillerFacts.v
FillerSpecs.v
FillerSock.v
FillerData.v
FillerTable.v
Hooks.v
HookStores.v
ProcState.v
Events.v
EventCodec.v
EventsFacts.v
Demo.v
FillerProps.v
RecordProps.v
Monitor.v
Pipeline.v
Privil.v
ProcInfo.v
Loader.v
Trace.v
Device.v
DeviceProps.v
ByteMem.v
Mmheap.v
MmheapClass.v
MmheapInv.v
MmheapLayout.v
MmheapPhys.v
MmheapLists.v
MmheapOps.v
MmheapAlloc.v
MmheapRealloc.v
MmheapPools.v
MmheapInit.v
MmheapProps.v
Printf.v
LuaField.v
EventText.v
LuaProps.v
Parse.v
LuaRuntime.v
Elf.v
ElfLoad.v
LoaderInit.v
NodMain.v
Startup.v
StartupProps.v
Relocate.v
FlagNames.v
Ctl.v
CtlProps.v
CtlDevice.v
VisitDevice.v
System.v
RecordPath.v
