(* ===== verification/Prelude.v ===== *)
(** * NoDrop: a verification of its event recorder

    NoDrop records the system calls of Linux processes without losing events.  A
    kernel module hooks the system calls; after each one it writes an event, the
    header and the parameters of the call, to a buffer of the calling process.
    When the buffer is full (or the process ends) the module does not drop: it
    saves the registers and privileges of the process, maps a monitor program
    into it and lets the process run the monitor, which hands the events to a Lua
    script, appends them to a file and returns to the interrupted system call.  A control
    program starts and stops the recording and sets the script.

    ** The parts and the files

    Shared:
    - [Prelude]: machine integers as [Z] with their truncations, byte lists with
      reads and writes that fail outside of their object, little-endian integers,
      and the monad [M] of the code: a computation ends normally ([Done]),
      returns an error code early ([Ret]), or violates an assertion or leaves an
      object ([Bug]).
    - [Kernel]: what the module reads through Linux interfaces that are not part of
      the repository (user memory, the system call's arguments and result, the
      task, its address space, sockets, files) as the classes [UserMem] and
      [Kernel], with their documented behaviour as [UserMemOk] and [KernelOk].
    - [ByteMem]: memory as a map from addresses to bytes.  [Printf]: what is used of C's
      formatted output.
    - [Demo]: a concrete machine on which the witnesses evaluate the definitions.

    Recording in the kernel:
    - [Tables]: [kmodule/tables/events_table.c], [dynamic_params_table.c],
      [kmodule/fillers_table.c] and [kmodule/syscall_table.c] for x86_64.
    - [Flags], [FlagsFacts]: the conversions of [kmodule/flags.h].  [FlagNames]:
      [kmodule/tables/flags_table.c], the names of the converted values.
    - [Ring], [RingFacts]: [val_to_ring] and the readers of user memory
      ([kmodule/fillers.c]); the state [fargs] is [struct event_filler_arguments].
    - [FillerLib], [Fillers]: the helpers and all fillers of [kmodule/fillers.c],
      [nod_autofill] and [nod_filler_callback].
    - [FillerFacts], [FillerSpecs], [FillerSock], [FillerData], [FillerTable]: a
      weakest-precondition calculus for fillers, a specification of each filler and
      the table of what each filler pushes.  [FillerProps] has the properties.
    - [ProcState]: the structures of [kmodule/procinfo.h], [include/events.h],
      [include/common.h] and [include/ioctl.h] that a traced process has.
    - [Events], [EventCodec], [EventsFacts], [RecordProps]: [kmodule/events.c], the
      layout of an event, the refinement of a queue, and the properties.

    Around the traced process:
    - [Hooks]: the part of [kmodule/trace.c] that replaces entries of the system
      call table and puts them back, each operation at once; [HookStores]: the same
      operations as single stores between the loads of calls on other processors.
      [Trace]: the probes and filters around a system call, which decide what is recorded, refused or put off.
    - [Privil]: [kmodule/privil.c].  [ProcInfo]: [kmodule/procinfo.c].  [Loader]:
      the load of the monitor into a process ([kmodule/loader.c]) and [elf_reg_init] of [kmodule/elf.c].
    - [Elf], [ElfLoad]: the rest of [kmodule/elf.c], headers read from the file and segments mapped,
      and the image that results.
    - [LoaderInit], [NodMain]: [loader_init] and [loader_destory], and the module's start
      and stop ([kmodule/nod_main.c]) with the start and the stop of its parts.
    - [Device], [DeviceProps]: [kmodule/proc.c], the file through which the monitor
      and the control program speak to the module, and its properties.

    The monitor:
    - [Relocate]: its entry [_start_c]; [Startup], [StartupProps]: a visit, from the entry to the request
      to leave ([monitor/src/startup.c], [pkeys.h], [dynlink.h]).
    - [Monitor]: [monitor/src/main.c] and [monitor/src/record_writer.c]; [RecordPath]: the names of the
      record's files; [Parse]: the printing of events to a file.
      [Pipeline]: the life of a process, recording and visits in any order; [VisitDevice]: a visit run
      against the model of the module, which is the visit of [Pipeline].
    - [System]: the parts put together: any number of processes that make system calls and exit, on one
      module, each call through the hook, the filters and probes, the load and the visit it causes.
    - [LuaField], [EventText], [LuaProps]: what a script sees of an event ([monitor/src/lua_field.c]);
      [LuaRuntime]: the loading and calling of the script ([monitor/src/lua_runtime.c]).
    - [Mmheap]: [monitor/mmheap/mmheap.c], the monitor's [malloc] (a two-level segregated fit
      allocator), with its block headers and list links in memory.
      [MmheapClass] has the size classes and bitmaps, [MmheapInv] the invariant: the
      blocks [A] tile the pools ([layout]), the memory holds their headers ([phys]),
      every free block is on the list of its class ([lists], [listed]) and no two
      free blocks are neighbours ([coalesced]).  [MmheapLayout], [MmheapPhys],
      [MmheapLists] and [MmheapOps] show what the steps (mark, split, absorb,
      insert, remove) do to it, [MmheapAlloc], [MmheapRealloc], [MmheapPools] and
      [MmheapInit] what the calls do, and [MmheapProps] has the properties.

    The control program:
    - [Ctl], [CtlProps]: [scripts/ctrl/nodrop-ctl.c] and what it asks of any system; [CtlDevice]: the same
      answered by the model of [kmodule/proc.c].

    ** Interfaces

    [MonitorLoader] is the interface between recording and loading: [Events] and
    [EventsFacts] are proved against it and [Loader] discharges it with
    [kernel_loader].  Code that is not in the repository is a class too, with its
    documented behaviour as a class of laws where theorems need it: [Pkeys] (protection keys),
    [LoaderOps] (mapping and copying into the address space), [FileOps] and [AddrSpace] (files and
    mappings of the ELF loader), [LuaVM] (the Lua interpreter), [Outside] (the system calls of a visit) and [Host]
    (the C library and the system under the control program).

    ** What the theorems show

    - The whole: processes that make system calls and exit in any order on a module that records get their
      registers and settings back after each call, an exit visits the monitor and then ends, and the file of each
      process together with what waits in its buffer are the events of its own calls, in order, each once
      ([calls_recorded]).  This holds for events that are recordable and whose attempt does not run out of space behind the
      header, with memory and files that are there.  [exit_event_lost] is a case it excludes: an exit's event that does not fit into the
      buffer any more is never written; [restart_keeps_offset] and [restart_leaves_page] of [RecordProps] are about the attempts it excludes,
      [fcntl_unknown_command_faults] is a call whose event is not recordable.
    - From the probes to the file: in a run of such events and of visits, in any order in which the monitor gets its turn after
      an event had to wait, no event is lost, repeated or reordered, and the file decodes back ([no_event_lost]); a visit run by the start-up code
      on the module, while the mode is START and if the call is not an exit, is such a visit, and the process goes on as if
      nothing had happened ([visit_completes]).  These rest on:
      from a buffer that represents a queue of events, empty if an event waits on the overflow page,
      [do_record_one_event] appends one well-formed event, or uses the overflow
      page, or counts a drop, or restarts ([record_refines_queue]); what the kernel records the
      monitor writes, event by event, as long as the file of its mode is open, and faults otherwise ([monitor_writes_events]).
    - Fillers: one call of [val_to_ring] appends one parameter
      ([val_to_ring_appends]); every event whose tables agree, of a call that meets the precondition of its filler, is recorded with
      exactly its declared parameters and without an assertion violation or a store
      outside of the buffer ([filler_callback_complete]), table-driven events with the
      arguments their table names ([autofill_event_values]); the three tables agree
      for every system call but one ([syscall_tables_agree], a theorem of its file); the conversions of flags
      report what the argument's masks say and nothing else ([flag_conversions_mirror]) and their results have the right
      names ([flag_names_explain]).
    - The switch to the monitor: privileges and registers come back
      ([security_round_trip], [load_and_return]), the table of
      processes has at most one entry per task ([acquire_spec]), the
      monitor's memory is recognised exactly ([mmap_check_exact]), and the mapped
      image holds what the file's headers promise ([load_binary_image]).
    - Hooking: in every reachable state each entry of the system call table is the
      original or leads to it ([hooks_invariant]); starting is safe for calls that
      run meanwhile ([start_while_calls_run]), stopping is not ([stop_while_calls_run]).
    - Around a system call: a call on the monitor's memory from the traced program
      is refused ([monitor_memory_protected]), an exit visits the monitor first and
      then reaches the kernel ([exit_delayed]), and a visit and its return give the
      process its registers and settings back ([visit_transparent]).
    - The module: unless a file is malformed, which is a fault, it starts with every part up or leaves nothing
      behind - but an interpreter path of a bad length is reported as a success with the monitor's file closed -, and its stop
      waits for the processes in their monitors, of which the theorem assumes that they leave, and restores the table ([start_all_or_nothing]).
    - The device: only a task in the monitor may ask to be restored
      ([restore_request_checked]),
      and mapping is limited to the monitor ([mmap_restricted], a theorem of its file).
    - The monitor: the entry relocates the program ([start_relocates]); a visit maps its buffers before its main
      function runs ([main_gets_mapped_buffers]), has its data writable only while it lasts ([data_writable_in_visit_only]) and ends with a
      valid request to leave ([visit_asks_to_leave]).
    - The script: the current event is the address of a variable of [nod_monitor_main] that nothing resets; a request faults exactly
      if it reads this variable after the call returned ([script_calls_safe]).  A field is reported as recorded
      ([requested_field_reported]), the text of an event fits its buffer ([whole_event_text]), and the
      runtime survives any visits, but for a changed script that reads the event of an earlier visit ([visits_keep_runtime], with
      [reloaded_script_faults] for a script that does).
    - The monitor's heap: from its initialisation on ([heap_init_ok]) [malloc],
      [free] and [realloc] keep the invariant, hand out memory that
      overlaps nothing live, keep the contents of the other allocations
      ([malloc_spec], [free_spec], [realloc_spec]), and lose no
      memory ([freed_heap_allocates], [pool_check_accounts]).
    - The control program: it makes only requests that the device knows, and its only fault is a reply to [fetch] that is
      longer than the object it allocated ([ctl_requests_safe]).  The module's reply is, by 16 bytes: with an object that has them to spare
      [fetch] saves the events of the buffers, though not of the overflow pages, and faults without ([ctl_fetch_saves_events]).
      [start] sets the script it was given, or asks nothing if the script is not found or its path too long ([ctl_start_script]).
    - Where the code does not do what it means to, a theorem states what it does; other files have theorems on
      further operations that are not listed here.

    ** Bounds and fuel

    Integers keep their width: [u32], [u64], [s32] and the like are applied where the
    source assigns to or computes in such a type.  Loops over user memory have fuel
    that a theorem shows to be enough: [strncpy_loop] by the space left, [poll_loop]
    ([poll_fuel]) by the size of [str_storage], [count_env] and [put_env] by the
    length of the environment, [monitor_loop] by the number of events (which [life_step]
    gives it).  [record_loop]
    is [goto restart]: with one unit of fuel the refinement theorem gives a result,
    and a theorem shows that no fuel is enough for some calls.  The statistics of the
    heap, [pool_check_loop], need one unit per 32 bytes of a pool.  [read_loop] ends at its
    third look at the file, the loops of [_start_c] one per word they pass.  [wait_leave] waits for a process to leave its monitor:
    the theorem on the module's stop says when any fuel is enough and when none is.  A schedule of [HookStores] is a
    list, and the theorem says how many turns finish a call and a start.

    ** What is not modelled

    Concurrency, but for the hooks and running calls of [HookStores]: the functions of a process are run one at a
    time, without preemption, RCU and per-CPU data; in [System] a call runs to its end, its visit included, before the next one
    starts, the kernel gives the loader what it asks for, and [execve] and the return of a child from [clone] are outside of
    [calls_recorded].  In [Pipeline], [VisitDevice] and [System] a script is a function that returns; the runtime in which it can fail or fault
    is in [LuaRuntime].  A short write to the record file.  Logging.  The kernel, the C library and the Lua interpreter
    (the classes above), how the kernel looks up the system call table and the write protection of that table.  The
    assembly of [_start], and the C library between [_start_c] and [nod_start_main].  Socketcall
    multiplexing, 32-bit compatibility and the shims for other kernel versions, which x86_64 builds do not compile.  The test, stress
    and benchmark programs and the plotting scripts, which are not part of the system. *)

From stdpp Require Export base numbers list strings gmap option.
From Stdlib Require Export ZArith Lia.

(** ** Scope and notations *)

Declare Scope nod_scope.
Delimit Scope nod_scope with nod.

(** C's bitwise operators on unsigned values. *)
Notation "a |! b" := (Z.lor a b) (at level 50, left associativity) : nod_scope.
Notation "a &! b" := (Z.land a b) (at level 40, left associativity) : nod_scope.
Notation "a ^! b" := (Z.lxor a b) (at level 50, left associativity) : nod_scope.

Global Open Scope nod_scope.
Local Open Scope Z_scope.

(** ** Machine integers

    A [w]-bit integer is a [Z]; [uN] is the unsigned wrap-around and [sN] the
    two's-complement reading. *)

Definition unsigned (w x : Z) : Z := x mod 2 ^ w.
Definition signed (w x : Z) : Z :=
  let y := x mod 2 ^ w in if y <? 2 ^ (w - 1) then y else y - 2 ^ w.

Definition u8 (x : Z) : Z := unsigned 8 x.
Definition u16 (x : Z) : Z := unsigned 16 x.
Definition u32 (x : Z) : Z := unsigned 32 x.
Definition u64 (x : Z) : Z := unsigned 64 x.
Definition s8 (x : Z) : Z := signed 8 x.
Definition s16 (x : Z) : Z := signed 16 x.
Definition s32 (x : Z) : Z := signed 32 x.
Definition s64 (x : Z) : Z := signed 64 x.

(** C's truth value of an integer. *)
Definition ctrue (x : Z) : bool := negb (x =? 0).

(** [if (x & m)] *)
Definition has (x m : Z) : bool := ctrue (x &! m).

(** Bytes. *)
Definition byte_ok (b : Z) : Prop := 0 <= b < 256.

Lemma unsigned_bound w x : 0 <= w -> 0 <= unsigned w x < 2 ^ w.
Proof. intros. apply Z.mod_pos_bound. apply Z.pow_pos_nonneg; lia. Qed.

Lemma unsigned_small w x : 0 <= x < 2 ^ w -> unsigned w x = x.
Proof. apply Z.mod_small. Qed.

Lemma signed_bound w x : 0 < w -> - 2 ^ (w - 1) <= signed w x < 2 ^ (w - 1).
Proof.
  intros. unfold signed.
  assert (2 ^ w = 2 * 2 ^ (w - 1)) as E
    by (rewrite <- Z.pow_succ_r by lia; f_equal; lia).
  pose proof (Z.mod_pos_bound x (2 ^ w)).
  pose proof (Z.pow_pos_nonneg 2 (w - 1)).
  destruct (Z.ltb_spec (x mod 2 ^ w) (2 ^ (w - 1))); lia.
Qed.

(** A signed reading of a value that fits is the value itself. *)
Lemma signed_small w x : 0 < w -> - 2 ^ (w - 1) <= x < 2 ^ (w - 1) -> signed w x = x.
Proof.
  intros Hw Hx. unfold signed.
  assert (2 ^ w = 2 * 2 ^ (w - 1)) as E
    by (rewrite <- Z.pow_succ_r by lia; f_equal; lia).
  destruct (Z.ltb_spec x 0) as [Hn|Hn].
  - assert (x mod 2 ^ w = x + 2 ^ w) as ->.
    { symmetry. apply Z.mod_unique with (-1); lia. }
    destruct (Z.ltb_spec (x + 2 ^ w) (2 ^ (w - 1))); lia.
  - rewrite Z.mod_small by lia.
    destruct (Z.ltb_spec x (2 ^ (w - 1))); lia.
Qed.

(** Wrapping does not change a later signed reading of the same width. *)
Lemma signed_unsigned w x : 0 <= w -> signed w (unsigned w x) = signed w x.
Proof.
  intros. unfold signed, unsigned. rewrite Z.mod_mod; [done|].
  apply Z.pow_nonzero; lia.
Qed.

Lemma unsigned_signed w x : 0 < w -> unsigned w (signed w x) = unsigned w x.
Proof.
  intros Hw. unfold signed, unsigned.
  assert (0 < 2 ^ w) by (apply Z.pow_pos_nonneg; lia).
  destruct (_ <? _).
  - by rewrite Z.mod_mod by lia.
  - rewrite <- (Z_mod_plus_full _ 1 (2 ^ w)).
    replace (x mod 2 ^ w - 2 ^ w + 1 * 2 ^ w) with (x mod 2 ^ w) by lia.
    by rewrite Z.mod_mod by lia.
Qed.

(** ** Lists indexed by integers *)

Section zlist.
Context {A : Type}.
Implicit Types l k : list A.

Definition zlen l : Z := Z.of_nat (length l).
Definition ztake (n : Z) l : list A := take (Z.to_nat n) l.
Definition zdrop (n : Z) l : list A := drop (Z.to_nat n) l.

(** The [n] elements of [l] from index [off] on. *)
Definition zslice (off n : Z) l : list A := ztake n (zdrop off l).

(** [memcpy] of [k] to index [off] of the object [l]: [None] is an access
    outside the object. *)
Definition zwrite (off : Z) k l : option (list A) :=
  if (0 <=? off) && (off + zlen k <=? zlen l)
  then Some (ztake off l ++ k ++ zdrop (off + zlen k) l)
  else None.

(** [memcpy] of [n] elements from index [off] of [l]. *)
Definition zread (off n : Z) l : option (list A) :=
  if (0 <=? off) && (0 <=? n) && (off + n <=? zlen l) then Some (zslice off n l) else None.

Lemma zlen_nonneg l : 0 <= zlen l.
Proof. unfold zlen. lia. Qed.

Lemma zlen_app l k : zlen (l ++ k) = zlen l + zlen k.
Proof. unfold zlen. rewrite length_app. lia. Qed.

Lemma zlen_nil : zlen (@nil A) = 0.
Proof. done. Qed.

Lemma zlen_cons x l : zlen (x :: l) = 1 + zlen l.
Proof. unfold zlen. cbn [length]. lia. Qed.

Lemma zlen_ztake n l : 0 <= n <= zlen l -> zlen (ztake n l) = n.
Proof. unfold zlen, ztake. rewrite length_take. lia. Qed.

Lemma zlen_zdrop n l : 0 <= n <= zlen l -> zlen (zdrop n l) = zlen l - n.
Proof. unfold zlen, zdrop. rewrite length_drop. lia. Qed.

Lemma zlen_zslice off n l :
  0 <= off -> 0 <= n -> off + n <= zlen l -> zlen (zslice off n l) = n.
Proof. intros. unfold zslice. rewrite zlen_ztake; [lia|]. rewrite zlen_zdrop; lia. Qed.

Lemma ztake_zdrop n l : ztake n l ++ zdrop n l = l.
Proof. apply take_drop. Qed.

Lemma ztake_app_l n l k : n <= zlen l -> ztake n (l ++ k) = ztake n l.
Proof. unfold ztake, zlen. intros. apply take_app_le. lia. Qed.

Lemma ztake_app_exact l k n : n = zlen l -> ztake n (l ++ k) = l.
Proof. intros ->. unfold ztake, zlen. rewrite Nat2Z.id. by apply take_app_length. Qed.

Lemma zdrop_app_exact l k n : n = zlen l -> zdrop n (l ++ k) = k.
Proof. intros ->. unfold zdrop, zlen. rewrite Nat2Z.id. by apply drop_app_length. Qed.

Lemma zdrop_app_r n l k : zlen l <= n -> zdrop n (l ++ k) = zdrop (n - zlen l) k.
Proof.
  unfold zdrop, zlen. intros. rewrite drop_app_ge by lia. f_equal. lia.
Qed.

Lemma zdrop_app_l n l k : n <= zlen l -> zdrop n (l ++ k) = zdrop n l ++ k.
Proof. unfold zdrop, zlen. intros. apply drop_app_le. lia. Qed.

Lemma ztake_app_r n l k : zlen l <= n -> ztake n (l ++ k) = l ++ ztake (n - zlen l) k.
Proof.
  unfold ztake, zlen. intros. rewrite take_app_ge by lia. f_equal. f_equal. lia.
Qed.

Lemma zdrop_zdrop m n l : 0 <= m -> 0 <= n -> zdrop m (zdrop n l) = zdrop (n + m) l.
Proof. unfold zdrop. intros. rewrite drop_drop. f_equal. lia. Qed.

Lemma ztake_ge n l : zlen l <= n -> ztake n l = l.
Proof. unfold ztake, zlen. intros. apply take_ge. lia. Qed.

Lemma ztake_0 l : ztake 0 l = [].
Proof. done. Qed.

Lemma zdrop_0 l : zdrop 0 l = l.
Proof. done. Qed.

Lemma ztake_ztake m n l : ztake m (ztake n l) = ztake (Z.min m n) l.
Proof. unfold ztake. rewrite take_take. f_equal. lia. Qed.

Lemma zdrop_ztake m n l : 0 <= m <= n -> zdrop m (ztake n l) = ztake (n - m) (zdrop m l).
Proof.
  intros. unfold zdrop, ztake. rewrite skipn_firstn_comm. f_equal. lia.
Qed.

Lemma zwrite_Some off k l :
  0 <= off -> off + zlen k <= zlen l ->
  zwrite off k l = Some (ztake off l ++ k ++ zdrop (off + zlen k) l).
Proof.
  intros. unfold zwrite.
  destruct (Z.leb_spec 0 off); [|lia]. destruct (Z.leb_spec (off + zlen k) (zlen l)); [|lia].
  done.
Qed.

Lemma zwrite_inv off k l l' :
  zwrite off k l = Some l' ->
  0 <= off /\ off + zlen k <= zlen l /\ l' = ztake off l ++ k ++ zdrop (off + zlen k) l.
Proof.
  unfold zwrite. destruct (Z.leb_spec 0 off), (Z.leb_spec (off + zlen k) (zlen l));
    cbn; intros; simplify_eq; auto.
Qed.

Lemma zlen_zwrite off k l l' : zwrite off k l = Some l' -> zlen l' = zlen l.
Proof.
  intros (? & ? & ->)%zwrite_inv. pose proof (zlen_nonneg k).
  rewrite !zlen_app, zlen_ztake, zlen_zdrop by lia. lia.
Qed.

(** A write leaves what lies below it alone... *)
Lemma ztake_zwrite n off k l l' :
  zwrite off k l = Some l' -> n <= off -> ztake n l' = ztake n l.
Proof.
  intros (? & ? & ->)%zwrite_inv ?. pose proof (zlen_nonneg k).
  rewrite ztake_app_l by (rewrite zlen_ztake by lia; lia).
  rewrite ztake_ztake. f_equal. lia.
Qed.

(** ...and what lies above it. *)
Lemma zdrop_zwrite n off k l l' :
  zwrite off k l = Some l' -> off + zlen k <= n -> zdrop n l' = zdrop n l.
Proof.
  intros (? & ? & ->)%zwrite_inv ?. pose proof (zlen_nonneg k).
  rewrite zdrop_app_r by (rewrite zlen_ztake by lia; lia).
  rewrite zlen_ztake by lia. rewrite zdrop_app_r by lia.
  rewrite zdrop_zdrop by lia. f_equal. lia.
Qed.

Lemma zslice_zwrite_same off k l l' :
  zwrite off k l = Some l' -> zslice off (zlen k) l' = k.
Proof.
  intros (? & ? & ->)%zwrite_inv. unfold zslice. pose proof (zlen_nonneg k).
  rewrite zdrop_app_exact by (rewrite zlen_ztake by lia; lia).
  by apply ztake_app_exact.
Qed.

(** Reading back one element of a write. *)
Lemma lookup_zwrite off k l l' i :
  zwrite off k l = Some l' -> 0 <= i < zlen k -> l' !! Z.to_nat (off + i) = k !! Z.to_nat i.
Proof.
  intros (H0 & H1 & ->)%zwrite_inv Hi. unfold ztake, zlen in *.
  rewrite lookup_app_r by (rewrite length_take; lia). rewrite length_take.
  rewrite lookup_app_l by lia. f_equal. lia.
Qed.

Lemma zslice_ztake off n m l : 0 <= off -> 0 <= n -> off + n <= m -> zslice off n (ztake m l) = zslice off n l.
Proof.
  intros. unfold zslice. rewrite zdrop_ztake by lia. rewrite ztake_ztake. f_equal. lia.
Qed.

Lemma zslice_zwrite_below i n off k l l' :
  zwrite off k l = Some l' -> 0 <= i -> 0 <= n -> i + n <= off -> zslice i n l' = zslice i n l.
Proof.
  intros Hw ???. rewrite <- (zslice_ztake i n off l'), <- (zslice_ztake i n off l) by lia.
  by rewrite (ztake_zwrite off off k l l' Hw) by lia.
Qed.

Lemma zslice_zwrite_above i n off k l l' :
  zwrite off k l = Some l' -> off + zlen k <= i -> zslice i n l' = zslice i n l.
Proof. intros Hw ?. unfold zslice. by rewrite (zdrop_zwrite i off k l l' Hw). Qed.

Lemma zread_inv off n l k :
  zread off n l = Some k -> 0 <= off /\ 0 <= n /\ off + n <= zlen l /\ k = zslice off n l.
Proof.
  unfold zread.
  destruct (Z.leb_spec 0 off), (Z.leb_spec 0 n), (Z.leb_spec (off + n) (zlen l));
    cbn; intros; simplify_eq; auto.
Qed.

Lemma zread_Some off n l :
  0 <= off -> 0 <= n -> off + n <= zlen l -> zread off n l = Some (zslice off n l).
Proof.
  intros. unfold zread.
  destruct (Z.leb_spec 0 off), (Z.leb_spec 0 n), (Z.leb_spec (off + n) (zlen l)); cbn; done || lia.
Qed.

(** A static array with designated initializers. *)
Fixpoint table_get (d : A) (t : list (Z * A)) (i : Z) : A :=
  match t with
  | [] => d
  | (k, x) :: t' => if k =? i then x else table_get d t' i
  end.
End zlist.

(** ** Little-endian encoding *)

Fixpoint le_bytes (n : nat) (x : Z) : list Z :=
  match n with
  | O => []
  | S m => x mod 256 :: le_bytes m (x / 256)
  end.

Definition le_val (bs : list Z) : Z := foldr (fun b acc => b + 256 * acc) 0 bs.

Lemma length_le_bytes n x : length (le_bytes n x) = n.
Proof. revert x. induction n; intros; cbn [le_bytes length]; auto. Qed.

Lemma zlen_le_bytes n x : zlen (le_bytes n x) = Z.of_nat n.
Proof. unfold zlen. by rewrite length_le_bytes. Qed.

Lemma le_bytes_ok n x : Forall byte_ok (le_bytes n x).
Proof.
  revert x. induction n; intros; cbn [le_bytes]; constructor; auto.
  apply Z.mod_pos_bound. lia.
Qed.

(** Decoding what was encoded gives the value modulo the width. *)
Lemma le_val_bytes n x : le_val (le_bytes n x) = unsigned (8 * Z.of_nat n) x.
Proof.
  unfold unsigned. revert x. induction n as [|n IH]; intros x; cbn [le_bytes le_val foldr].
  - by rewrite Z.mod_1_r.
  - fold (le_val (le_bytes n (x / 256))). rewrite IH.
    replace (8 * Z.of_nat (S n)) with (8 + 8 * Z.of_nat n) by lia.
    rewrite Z.pow_add_r by lia. change (2 ^ 8) with 256.
    pose proof (Z.pow_pos_nonneg 2 (8 * Z.of_nat n)).
    rewrite Z.rem_mul_r by lia. done.
Qed.

Lemma le_val_bound bs : Forall byte_ok bs -> 0 <= le_val bs < 2 ^ (8 * zlen bs).
Proof.
  induction 1 as [|b bs Hb Hbs IH]; [by vm_compute|].
  rewrite zlen_cons. replace (8 * (1 + zlen bs)) with (8 + 8 * zlen bs) by lia.
  pose proof (zlen_nonneg bs). rewrite Z.pow_add_r by lia.
  cbn [le_val foldr]. fold (le_val bs). unfold byte_ok in Hb. lia.
Qed.

(** Encoding what was decoded gives the bytes back. *)
Lemma le_bytes_val bs : Forall byte_ok bs -> le_bytes (length bs) (le_val bs) = bs.
Proof.
  induction 1 as [|b bs Hb Hbs IH]; [done|].
  cbn [length le_bytes le_val foldr]. fold (le_val bs). unfold byte_ok in Hb.
  assert ((b + 256 * le_val bs) mod 256 = b) as ->.
  { symmetry. apply Z.mod_unique with (le_val bs); lia. }
  assert ((b + 256 * le_val bs) / 256 = le_val bs) as ->.
  { symmetry. apply Z.div_unique with b; lia. }
  by rewrite IH.
Qed.

#[global] Opaque le_bytes.

(** ** Masks *)

Lemma land_high n j x : 0 <= j <= n -> 0 <= x < 2 ^ n -> x &! (2 ^ n - 2 ^ j) = 2 ^ j * (x / 2 ^ j).
Proof.
  intros Hj Hx.
  assert (2 ^ n - 2 ^ j = Z.ldiff (Z.ones n) (Z.ones j)) as ->.
  { rewrite <- Z.sub_nocarry_ldiff; [rewrite !Z.ones_equiv; lia|].
    apply Z.bits_inj'. intros i Hi. rewrite Z.ldiff_spec, !Z.testbit_ones_nonneg, Z.bits_0 by lia.
    destruct (Z.ltb_spec i j), (Z.ltb_spec i n); cbn; lia || done. }
  rewrite Z.mul_comm, <- Z.shiftr_div_pow2, <- Z.shiftl_mul_pow2 by lia.
  rewrite <- Z.ldiff_ones_r by lia.
  apply Z.bits_inj'. intros i Hi. rewrite Z.land_spec, !Z.ldiff_spec, !Z.testbit_ones_nonneg by lia.
  destruct (Z.ltb_spec i n); [by rewrite andb_true_l|].
  destruct (Z.eq_dec x 0) as [->|]; [by rewrite Z.bits_0|].
  rewrite (Z.bits_above_log2 x i); [done|apply Hx|]. apply (proj1 (Z.log2_lt_pow2 x i ltac:(lia))).
  apply Z.lt_le_trans with (2 ^ n); [lia|]. by apply Z.pow_le_mono_r; lia.
Qed.

Lemma u32_land x : u32 x = x &! Z.ones 32.
Proof. by rewrite Z.land_ones. Qed.

Lemma u64_land x : u64 x = x &! Z.ones 64.
Proof. by rewrite Z.land_ones. Qed.

Lemma land_trunc w n x : 0 <= n -> 0 <= w < 2 ^ n -> w &! (x &! Z.ones n) = w &! x.
Proof.
  intros Hn Hw. rewrite (Z.land_comm x), Z.land_assoc, Z.land_ones by lia. by rewrite Z.mod_small.
Qed.

(** ** Text as bytes *)

Definition str_bytes (s : string) : list Z :=
  List.map (fun c => Z.of_nat (Ascii.nat_of_ascii c)) (String.list_ascii_of_string s).

(** ** Tactics *)

(** Case analysis on the comparisons and tests of the code. *)
Ltac cmp_case :=
  match goal with
  | |- context [?a <? ?b] => destruct (Z.ltb_spec a b)
  | |- context [?a <=? ?b] => destruct (Z.leb_spec a b)
  | |- context [?a =? ?b] => destruct (Z.eqb_spec a b)
  | H : context [?a <? ?b] |- _ => destruct (Z.ltb_spec a b)
  | H : context [?a <=? ?b] |- _ => destruct (Z.leb_spec a b)
  | H : context [?a =? ?b] |- _ => destruct (Z.eqb_spec a b)
  end.

(** Length bookkeeping. *)
Create HintDb zlist.
#[export] Hint Rewrite @zlen_app @zlen_nil @zlen_cons @zlen_le_bytes : zlist.
#[export] Hint Resolve zlen_nonneg : zlist.

Ltac zlen_simpl := autorewrite with zlist in *.

(** ** A state monad with early return

    A C function that threads a state and may return early is a function from
    the state to an [outcome]: [Done] falls through to the next statement with a
    value, [Ret] is a [return code;], and [Bug] is a violated [ASSERT]
    ([BUG_ON]) or an access outside the object a pointer points into.  A function
    that returns [int] is an [M S unit]: [Done] is [return NOD_SUCCESS;]. *)

Inductive outcome (S A : Type) : Type :=
  | Done (a : A) (s : S)
  | Ret (code : Z) (s : S)
  | Bug.
Arguments Done {S A} a s.
Arguments Ret {S A} code s.
Arguments Bug {S A}.

Definition M (S A : Type) : Type := S -> outcome S A.

#[export] Instance M_ret {S} : MRet (M S) := fun A a s => Done a s.
#[export] Instance M_bind {S} : MBind (M S) := fun A B f m s =>
  match m s with
  | Done a s' => f a s'
  | Ret c s' => Ret c s'
  | Bug => Bug
  end.

Section monad.
Context {S : Type}.

Definition get : M S S := fun s => Done s s.
Definition gets {A} (f : S -> A) : M S A := fun s => Done (f s) s.
Definition put (s : S) : M S unit := fun _ => Done tt s.
Definition modify (f : S -> S) : M S unit := fun s => Done tt (f s).
Definition fail {A} (code : Z) : M S A := fun s => Ret code s.
Definition bug {A} : M S A := fun _ => Bug.

(** [ASSERT(b)]. *)
Definition assert (b : bool) : M S unit := if b then mret tt else bug.

(** A pointer access that may leave its object. *)
Definition lift {A} (o : option A) : M S A :=
  match o with Some a => mret a | None => bug end.

(** [res = f(); handler(res)]: run [m] and pass on the code it returned. *)
Definition catch (m : M S unit) (h : Z -> M S unit) : M S unit := fun s =>
  match m s with
  | Done _ s' => h 0 s'
  | Ret c s' => h c s'
  | Bug => Bug
  end.
End monad.
