(* ===== verification/Kernel.v ===== *)
(** * Interface to the Linux kernel

    What the module reads through kernel interfaces that are not part of the
    repository: user memory through [access_ok] and
    [__copy_from_user_inatomic], kernel memory behind pointers, the calling
    task, sockets and open files.  Each is a parameter of the model.  The laws
    the code relies on are the classes [UserMemOk] and [KernelOk]; [flat_mem] is
    a concrete memory that satisfies them. *)

From S2P Require Import Prelude.

Local Open Scope Z_scope.

(** Page size of x86_64; [STR_STORAGE_SIZE] of [include/events.h] is one page. *)
Definition PAGE_SIZE : Z := 4096.
Definition PAGE_SHIFT : Z := 12.
Definition STR_STORAGE_SIZE : Z := PAGE_SIZE.

(** [sizeof(struct sockaddr_storage)] *)
Definition SOCKADDR_STORAGE_SIZE : Z := 128.

(** ** User memory *)

(** [um_byte a] is the byte mapped at user address [a], [None] when reading it
    faults; [um_access_ok] is [access_ok]; [um_copy a n] are the bytes
    [__copy_from_user_inatomic] transfers from [a] when asked for [n]: it
    returns the number of bytes it could not copy. *)
Class UserMem := {
  um_byte : Z -> option Z;
  um_access_ok : Z -> Z -> bool;
  um_copy : Z -> Z -> list Z
}.

Class UserMemOk (U : UserMem) : Prop := {
  um_copy_len a n : 0 <= n -> zlen (um_copy a n) <= n;
  um_copy_lookup a n i : 0 <= i < zlen (um_copy a n) ->
    um_copy a n !! Z.to_nat i = um_byte (a + i);
  um_copy_full a n : 0 <= n ->
    (forall i, 0 <= i < n -> is_Some (um_byte (a + i))) -> zlen (um_copy a n) = n;
  um_byte_ok a b : um_byte a = Some b -> byte_ok b;
  um_access_ok_range a n : um_access_ok a n = true -> 0 <= a /\ a + n < 2 ^ 64
}.

(** A user address space made of one mapped segment, used by the witnesses. *)
Fixpoint copy_until (f : Z -> option Z) (a : Z) (n : nat) : list Z :=
  match n with
  | O => []
  | S m => match f a with Some b => b :: copy_until f (a + 1) m | None => [] end
  end.

Definition flat_byte (base : Z) (bs : list Z) (a : Z) : option Z :=
  if (base <=? a) && (a <? base + zlen bs) then bs !! Z.to_nat (a - base) else None.

Definition flat_mem (base : Z) (bs : list Z) : UserMem := {|
  um_byte := flat_byte base bs;
  um_access_ok a n := (0 <=? a) && (a + n <? 2 ^ 47);
  um_copy a n := copy_until (flat_byte base bs) a (Z.to_nat n)
|}.

Lemma copy_until_len f a n : (length (copy_until f a n) <= n)%nat.
Proof. revert a. induction n; intros; cbn [copy_until]; [done|]. case_match; cbn; [|lia]. specialize (IHn (a + 1)). lia. Qed.

Lemma copy_until_lookup f a n i :
  (i < length (copy_until f a n))%nat -> copy_until f a n !! i = f (a + Z.of_nat i).
Proof.
  revert a i. induction n as [|n IH]; intros a i; cbn [copy_until]; [cbn; lia|].
  destruct (f a) as [b|] eqn:E; [|cbn; lia].
  destruct i as [|i]; cbn [lookup list_lookup length].
  - intros _. by rewrite Z.add_0_r, E.
  - intros. rewrite IH by lia. f_equal. lia.
Qed.

Lemma copy_until_full f a n :
  (forall i, 0 <= i < Z.of_nat n -> is_Some (f (a + i))) -> length (copy_until f a n) = n.
Proof.
  revert a. induction n as [|n IH]; intros a H; cbn [copy_until]; [done|].
  destruct (H 0) as [b Hb]; [lia|]. rewrite Z.add_0_r in Hb. rewrite Hb. cbn. f_equal.
  apply IH. intros i Hi. destruct (H (i + 1)) as [c Hc]; [lia|].
  exists c. rewrite <- Hc. f_equal. lia.
Qed.

Lemma flat_mem_ok base bs : Forall byte_ok bs -> UserMemOk (flat_mem base bs).
Proof.
  intros Hbs. constructor; cbn.
  - intros a n Hn. unfold zlen. pose proof (copy_until_len (flat_byte base bs) a (Z.to_nat n)). lia.
  - intros a n i Hi. unfold zlen in Hi. rewrite copy_until_lookup by lia. f_equal. lia.
  - intros a n Hn H. unfold zlen. rewrite copy_until_full by (intros; apply H; lia). lia.
  - intros a b. unfold flat_byte. case_match; [|done].
    intros Hb. rewrite Forall_lookup in Hbs. eauto.
  - intros a n. intros [H1%Z.leb_le H2%Z.ltb_lt]%andb_true_iff. lia.
Qed.

(** ** The calling task and the objects it refers to *)

(** The fields of [mm_struct] the fillers read; the counters are what
    [get_mm_rss] and [get_mm_counter(MM_SWAPENTS)] return. *)
Record mm_struct := mk_mm {
  mm_arg_start : Z; mm_arg_end : Z;
  mm_env_start : Z; mm_env_end : Z;
  mm_total_vm : Z; mm_rss : Z; mm_swap : Z
}.

(** The fields of [current] the fillers read, and the results of the kernel
    functions applied to it. *)
Record task_struct := mk_task {
  t_pid : Z; t_tgid : Z; t_real_parent : option Z;
  t_mm : option mm_struct;
  t_maj_flt : Z; t_min_flt : Z;
  t_comm : Z;                (* address of current->comm *)
  t_rlimit_nofile : Z;       (* rlimit(RLIMIT_NOFILE) *)
  t_euid : Z; t_egid : Z;    (* from_kuid_munged, from_kgid_munged *)
  t_in_pidns : bool;         (* pidns != &init_pid_ns || pid_ns_for_children != pidns *)
  t_vtid : Z; t_vpid : Z;    (* task_pid_vnr, task_tgid_vnr *)
  t_pgid : Z; t_loginuid : Z;
  t_tty : Z;                 (* what nod_get_tty reads *)
  t_exe_writable : bool      (* inode_permission / inode_owner_or_capable on the exe file *)
}.

(** A socket found by [sockfd_lookup]: the family, the [unix_sock] and its peer
    as addresses, the backlog counters and the address bytes [getname] stores
    ([None] is an error). *)
Record sock := mk_sock {
  sk_family : Z;
  sk_us : Z; sk_peer : Z;
  sk_ack_backlog : Z; sk_max_ack_backlog : Z;
  sk_name : option (list Z);
  sk_peername : option (list Z)
}.

Class Kernel := {
  k_user : UserMem;
  k_args : list Z;                   (* the six system-call arguments *)
  k_ret : Z;                         (* syscall_get_return_value, a long *)
  k_str_addr : Z;                    (* address of the str_storage page *)
  k_mem : list (Z * list Z);         (* readable kernel objects *)
  k_lit : string -> Z;               (* address of a string literal *)
  k_task : task_struct;
  k_sockfd : Z -> option (option sock);  (* sockfd_lookup; the inner None is a null sk *)
  k_sockfd_err : Z -> Z;             (* the error code of a failing lookup *)
  k_socketcall_args : list Z;        (* args->socketcall_args *)
  k_stack_addr : list Z;             (* bytes of an uninitialized sockaddr_storage *)
  k_cgroups : list (list Z * list Z);    (* cgroup subsystems: name and path of current *)
  k_has_files : bool;                (* current->files is set *)
  k_max_fds : Z;
  k_fd_sb_dev : Z -> option Z;       (* s_dev of the file behind fdt->fd[fd] *)
  k_fd_ino : Z -> option Z;          (* i_ino of the file fget(fd) returns *)
  k_new_encode_dev : Z -> Z;
  k_defined : string -> bool         (* macros of the kernel headers the build sees *)
}.
#[global] Existing Instance k_user.

(** The bytes of kernel object from address [a] to its end. *)
Fixpoint kseg (segs : list (Z * list Z)) (a : Z) : option (list Z) :=
  match segs with
  | [] => None
  | (base, bs) :: rest =>
      if (base <=? a) && (a <? base + zlen bs) then Some (zdrop (a - base) bs) else kseg rest a
  end.

(** The C string a byte sequence starts with, without its terminator. *)
Fixpoint cstr (bs : list Z) : option (list Z) :=
  match bs with
  | [] => None
  | b :: rest => if b =? 0 then Some [] else match cstr rest with Some s => Some (b :: s) | None => None end
  end.

(** The string literals the fillers pass by address. *)
Definition code_literals : list string := [""; "<NA>"; "<out of bound>"]%string.

(** What the code relies on: well-formed user memory, six 64-bit arguments, a
    [long] return value, a mapped [str_storage] page, literals and [comm] that
    are C strings in kernel memory outside that page, and socket addresses of the
    size of [struct sockaddr_storage]. *)
Class KernelOk (K : Kernel) : Prop := {
  k_user_ok : UserMemOk k_user;
  k_args_len : length k_args = 6%nat;
  k_args_u64 : Forall (fun a => 0 <= a < 2 ^ 64) k_args;
  k_ret_long : - 2 ^ 63 <= k_ret < 2 ^ 63;
  k_str_range : 0 < k_str_addr /\ k_str_addr + STR_STORAGE_SIZE < 2 ^ 64;
  k_mem_bytes a bs : kseg k_mem a = Some bs -> Forall byte_ok bs;
  k_lit_ok s : s ∈ code_literals -> 0 < k_lit s < 2 ^ 64 /\
    (k_lit s < k_str_addr \/ k_str_addr + STR_STORAGE_SIZE < k_lit s) /\
    exists bs, kseg k_mem (k_lit s) = Some (str_bytes s ++ 0 :: bs);
  k_comm_ok : 0 < t_comm k_task < 2 ^ 64 /\
    (t_comm k_task < k_str_addr \/ k_str_addr + STR_STORAGE_SIZE < t_comm k_task) /\
    exists bs s, kseg k_mem (t_comm k_task) = Some bs /\ cstr bs = Some s;
  k_stack_len : zlen k_stack_addr = SOCKADDR_STORAGE_SIZE;
  k_sock_names fd s b : k_sockfd fd = Some (Some s) ->
    sk_name s = Some b \/ sk_peername s = Some b -> zlen b = SOCKADDR_STORAGE_SIZE
}.
#[global] Existing Instance k_user_ok.

(** [syscall_get_arguments_deprecated(current, regs, i, 1, &val)]. *)
Definition sys_arg `{Kernel} (i : nat) : Z := nth i k_args 0.

Lemma sys_arg_u64 `{Kernel} {O : KernelOk _} i : 0 <= sys_arg i < 2 ^ 64.
Proof.
  unfold sys_arg. destruct (decide (i < length k_args)%nat) as [Hi|Hi].
  - pose proof k_args_u64 as F. rewrite Forall_forall in F. apply F.
    apply nth_In, Hi.
  - rewrite nth_overflow by lia. lia.
Qed.
