(* ===== verification/Tables.v ===== *)
(** * Static tables of the kernel module

    The data the recording path is driven by: the enumerations of
    [include/events.h], the event descriptions [g_event_info] of
    [kmodule/tables/events_table.c], the dynamic parameter tables of
    [kmodule/tables/dynamic_params_table.c], the filler table [g_nod_events] of
    [kmodule/fillers_table.c] and the system-call table
    [g_syscall_event_table] of [kmodule/syscall_table.c].

    C enumerations whose values are compared with integers or stored in a header
    field are integers ([Z]); enumerations that are only switched on are
    inductive types.  An array with designated initializers is an association
    list, and a slot without an initializer reads as the all-zero entry, as in
    C. *)

From S2P Require Import Prelude.

Local Open Scope Z_scope.

(** ** Enumerations *)

(** [nod_param_type]: the type of an event parameter. *)
Inductive nod_param_type : Set :=
  | PT_NONE | PT_INT8 | PT_INT16 | PT_INT32 | PT_INT64 | PT_UINT8 | PT_UINT16 | PT_UINT32
  | PT_UINT64 | PT_CHARBUF | PT_BYTEBUF | PT_ERRNO | PT_SOCKADDR | PT_SOCKTUPLE | PT_FD
  | PT_PID | PT_FDLIST | PT_FSPATH | PT_SYSCALLID | PT_SIGTYPE | PT_RELTIME | PT_ABSTIME
  | PT_PORT | PT_L4PROTO | PT_SOCKFAMILY | PT_BOOL | PT_IPV4ADDR | PT_DYN | PT_FLAGS8
  | PT_FLAGS16 | PT_FLAGS32 | PT_UID | PT_GID | PT_DOUBLE | PT_SIGSET | PT_CHARBUFARRAY
  | PT_CHARBUF_PAIR_ARRAY | PT_IPV4NET | PT_IPV6ADDR | PT_IPV6NET | PT_IPADDR | PT_IPNET
  | PT_MODE | PT_FSRELPATH | PT_MAX.

#[export] Instance nod_param_type_eq_dec : EqDecision nod_param_type.
Proof. solve_decision. Defined.

(** [nod_print_format]: how the monitor prints a parameter. *)
Inductive nod_print_format : Set :=
  | PF_NA | PF_DEC | PF_HEX | PF_10_PADDED_DEC | PF_OCT | PF_ID | PF_DIR.

#[export] Instance nod_print_format_eq_dec : EqDecision nod_print_format.
Proof. solve_decision. Defined.

(** The numeric value of a parameter type, as the enumeration gives it. *)
Definition nod_param_type_num (t : nod_param_type) : Z :=
  match t with
  | PT_NONE => 0
  | PT_INT8 => 1
  | PT_INT16 => 2
  | PT_INT32 => 3
  | PT_INT64 => 4
  | PT_UINT8 => 5
  | PT_UINT16 => 6
  | PT_UINT32 => 7
  | PT_UINT64 => 8
  | PT_CHARBUF => 9
  | PT_BYTEBUF => 10
  | PT_ERRNO => 11
  | PT_SOCKADDR => 12
  | PT_SOCKTUPLE => 13
  | PT_FD => 14
  | PT_PID => 15
  | PT_FDLIST => 16
  | PT_FSPATH => 17
  | PT_SYSCALLID => 18
  | PT_SIGTYPE => 19
  | PT_RELTIME => 20
  | PT_ABSTIME => 21
  | PT_PORT => 22
  | PT_L4PROTO => 23
  | PT_SOCKFAMILY => 24
  | PT_BOOL => 25
  | PT_IPV4ADDR => 26
  | PT_DYN => 27
  | PT_FLAGS8 => 28
  | PT_FLAGS16 => 29
  | PT_FLAGS32 => 30
  | PT_UID => 31
  | PT_GID => 32
  | PT_DOUBLE => 33
  | PT_SIGSET => 34
  | PT_CHARBUFARRAY => 35
  | PT_CHARBUF_PAIR_ARRAY => 36
  | PT_IPV4NET => 37
  | PT_IPV6ADDR => 38
  | PT_IPV6NET => 39
  | PT_IPADDR => 40
  | PT_IPNET => 41
  | PT_MODE => 42
  | PT_FSRELPATH => 43
  | PT_MAX => 44
  end.

(** [nod_event_type]: one number per kind of recorded event. *)
Definition NODE_GENERIC : Z := 0.
Definition NODE_SYSCALL_OPEN : Z := 1.
Definition NODE_SYSCALL_CLOSE : Z := 2.
Definition NODE_SYSCALL_READ : Z := 3.
Definition NODE_SYSCALL_WRITE : Z := 4.
Definition NODE_SYSCALL_BRK_1 : Z := 5.
Definition NODE_SYSCALL_EXIT : Z := 6.
Definition NODE_SYSCALL_EXIT_GROUP : Z := 7.
Definition NODE_SYSCALL_EXECVE_8 : Z := 8.
Definition NODE_SYSCALL_CLONE_11 : Z := 9.
Definition NODE_SOCKET_SOCKET : Z := 10.
Definition NODE_SOCKET_BIND : Z := 11.
Definition NODE_SOCKET_CONNECT : Z := 12.
Definition NODE_SOCKET_LISTEN : Z := 13.
Definition NODE_SOCKET_ACCEPT : Z := 14.
Definition NODE_SOCKET_SEND : Z := 15.
Definition NODE_SOCKET_SENDTO : Z := 16.
Definition NODE_SOCKET_RECV : Z := 17.
Definition NODE_SOCKET_RECVFROM : Z := 18.
Definition NODE_SOCKET_SHUTDOWN : Z := 19.
Definition NODE_SOCKET_GETSOCKNAME : Z := 20.
Definition NODE_SOCKET_GETPEERNAME : Z := 21.
Definition NODE_SOCKET_SOCKETPAIR : Z := 22.
Definition NODE_SOCKET_SETSOCKOPT : Z := 23.
Definition NODE_SOCKET_GETSOCKOPT : Z := 24.
Definition NODE_SOCKET_SENDMSG : Z := 25.
Definition NODE_SOCKET_SENDMMSG : Z := 26.
Definition NODE_SOCKET_RECVMSG : Z := 27.
Definition NODE_SOCKET_RECVMMSG : Z := 28.
Definition NODE_SOCKET_ACCEPT4 : Z := 29.
Definition NODE_SYSCALL_CREAT : Z := 30.
Definition NODE_SYSCALL_PIPE : Z := 31.
Definition NODE_SYSCALL_EVENTFD : Z := 32.
Definition NODE_SYSCALL_FUTEX : Z := 33.
Definition NODE_SYSCALL_STAT : Z := 34.
Definition NODE_SYSCALL_LSTAT : Z := 35.
Definition NODE_SYSCALL_FSTAT : Z := 36.
Definition NODE_SYSCALL_STAT64 : Z := 37.
Definition NODE_SYSCALL_LSTAT64 : Z := 38.
Definition NODE_SYSCALL_FSTAT64 : Z := 39.
Definition NODE_SYSCALL_EPOLLWAIT : Z := 40.
Definition NODE_SYSCALL_POLL : Z := 41.
Definition NODE_SYSCALL_SELECT : Z := 42.
Definition NODE_SYSCALL_LSEEK : Z := 43.
Definition NODE_SYSCALL_LLSEEK : Z := 44.
Definition NODE_SYSCALL_IOCTL_2 : Z := 45.
Definition NODE_SYSCALL_GETCWD : Z := 46.
Definition NODE_SYSCALL_CHDIR : Z := 47.
Definition NODE_SYSCALL_FCHDIR : Z := 48.
Definition NODE_SYSCALL_MKDIR : Z := 49.
Definition NODE_SYSCALL_RMDIR : Z := 50.
Definition NODE_SYSCALL_OPENAT : Z := 51.
Definition NODE_SYSCALL_LINK : Z := 52.
Definition NODE_SYSCALL_LINKAT : Z := 53.
Definition NODE_SYSCALL_UNLINK : Z := 54.
Definition NODE_SYSCALL_UNLINKAT : Z := 55.
Definition NODE_SYSCALL_PREAD : Z := 56.
Definition NODE_SYSCALL_PWRITE : Z := 57.
Definition NODE_SYSCALL_READV : Z := 58.
Definition NODE_SYSCALL_WRITEV : Z := 59.
Definition NODE_SYSCALL_PREADV : Z := 60.
Definition NODE_SYSCALL_PWRITEV : Z := 61.
Definition NODE_SYSCALL_DUP : Z := 62.
Definition NODE_SYSCALL_SIGNALFD : Z := 63.
Definition NODE_SYSCALL_KILL : Z := 64.
Definition NODE_SYSCALL_TKILL : Z := 65.
Definition NODE_SYSCALL_TGKILL : Z := 66.
Definition NODE_SYSCALL_NANOSLEEP : Z := 67.
Definition NODE_SYSCALL_TIMERFD_CREATE : Z := 68.
Definition NODE_SYSCALL_INOTIFY_INIT : Z := 69.
Definition NODE_SYSCALL_GETRLIMIT : Z := 70.
Definition NODE_SYSCALL_SETRLIMIT : Z := 71.
Definition NODE_SYSCALL_PRLIMIT : Z := 72.
Definition NODE_SYSCALL_FCNTL : Z := 73.
Definition NODE_SYSCALL_EXECVE_13 : Z := 74.
Definition NODE_SYSCALL_CLONE_16 : Z := 75.
Definition NODE_SYSCALL_BRK_4 : Z := 76.
Definition NODE_SYSCALL_MMAP : Z := 77.
Definition NODE_SYSCALL_MMAP2 : Z := 78.
Definition NODE_SYSCALL_MUNMAP : Z := 79.
Definition NODE_SYSCALL_SPLICE : Z := 80.
Definition NODE_SYSCALL_PTRACE : Z := 81.
Definition NODE_SYSCALL_IOCTL_3 : Z := 82.
Definition NODE_SYSCALL_EXECVE_14 : Z := 83.
Definition NODE_SYSCALL_RENAME : Z := 84.
Definition NODE_SYSCALL_RENAMEAT : Z := 85.
Definition NODE_SYSCALL_SYMLINK : Z := 86.
Definition NODE_SYSCALL_SYMLINKAT : Z := 87.
Definition NODE_SYSCALL_FORK : Z := 88.
Definition NODE_SYSCALL_VFORK : Z := 89.
Definition NODE_SYSCALL_SENDFILE : Z := 90.
Definition NODE_SYSCALL_QUOTACTL : Z := 91.
Definition NODE_SYSCALL_SETRESUID : Z := 92.
Definition NODE_SYSCALL_SETRESGID : Z := 93.
Definition NODE_SYSCALL_SETUID : Z := 94.
Definition NODE_SYSCALL_SETGID : Z := 95.
Definition NODE_SYSCALL_GETUID : Z := 96.
Definition NODE_SYSCALL_GETEUID : Z := 97.
Definition NODE_SYSCALL_GETGID : Z := 98.
Definition NODE_SYSCALL_GETEGID : Z := 99.
Definition NODE_SYSCALL_GETRESUID : Z := 100.
Definition NODE_SYSCALL_GETRESGID : Z := 101.
Definition NODE_SYSCALL_EXECVE_15 : Z := 102.
Definition NODE_SYSCALL_CLONE_17 : Z := 103.
Definition NODE_SYSCALL_FORK_17 : Z := 104.
Definition NODE_SYSCALL_VFORK_17 : Z := 105.
Definition NODE_SYSCALL_CLONE_20 : Z := 106.
Definition NODE_SYSCALL_FORK_20 : Z := 107.
Definition NODE_SYSCALL_VFORK_20 : Z := 108.
Definition NODE_SYSCALL_EXECVE_16 : Z := 109.
Definition NODE_SYSCALL_GETDENTS : Z := 110.
Definition NODE_SYSCALL_GETDENTS64 : Z := 111.
Definition NODE_SYSCALL_SETNS : Z := 112.
Definition NODE_SYSCALL_FLOCK : Z := 113.
Definition NODE_SOCKET_ACCEPT_5 : Z := 114.
Definition NODE_SOCKET_ACCEPT4_5 : Z := 115.
Definition NODE_SYSCALL_SEMOP : Z := 116.
Definition NODE_SYSCALL_SEMCTL : Z := 117.
Definition NODE_SYSCALL_PPOLL : Z := 118.
Definition NODE_SYSCALL_MOUNT : Z := 119.
Definition NODE_SYSCALL_UMOUNT : Z := 120.
Definition NODE_SYSCALL_SEMGET : Z := 121.
Definition NODE_SYSCALL_ACCESS : Z := 122.
Definition NODE_SYSCALL_CHROOT : Z := 123.
Definition NODE_SYSCALL_SETSID : Z := 124.
Definition NODE_SYSCALL_MKDIR_2 : Z := 125.
Definition NODE_SYSCALL_RMDIR_2 : Z := 126.
Definition NODE_SYSCALL_EXECVE_17 : Z := 127.
Definition NODE_SYSCALL_UNSHARE : Z := 128.
Definition NODE_SYSCALL_EXECVE_18 : Z := 129.
Definition NODE_SYSCALL_EXECVE_19 : Z := 130.
Definition NODE_SYSCALL_SETPGID : Z := 131.
Definition NODE_SYSCALL_BPF : Z := 132.
Definition NODE_SYSCALL_SECCOMP : Z := 133.
Definition NODE_SYSCALL_UNLINK_2 : Z := 134.
Definition NODE_SYSCALL_UNLINKAT_2 : Z := 135.
Definition NODE_SYSCALL_MKDIRAT : Z := 136.
Definition NODE_SYSCALL_OPENAT_2 : Z := 137.
Definition NODE_SYSCALL_LINK_2 : Z := 138.
Definition NODE_SYSCALL_LINKAT_2 : Z := 139.
Definition NODE_SYSCALL_FCHMODAT : Z := 140.
Definition NODE_SYSCALL_CHMOD : Z := 141.
Definition NODE_SYSCALL_FCHMOD : Z := 142.
Definition NODE_SYSCALL_RENAMEAT2 : Z := 143.
Definition NODE_SYSCALL_USERFAULTFD : Z := 144.
Definition NODE_SYSCALL_OPENAT2 : Z := 145.
Definition NODE_SYSCALL_MPROTECT : Z := 146.
Definition NODE_SYSCALL_EXECVEAT : Z := 147.
Definition NODE_SYSCALL_COPY_FILE_RANGE : Z := 148.
Definition NODE_SYSCALL_CLONE3 : Z := 149.
Definition NODE_EVENT_MAX : Z := 150.

(** [nod_event_category]. *)
Definition EC_UNKNOWN : Z := 0.
Definition EC_OTHER : Z := 1.
Definition EC_FILE : Z := 2.
Definition EC_NET : Z := 3.
Definition EC_IPC : Z := 4.
Definition EC_MEMORY : Z := 5.
Definition EC_PROCESS : Z := 6.
Definition EC_SLEEP : Z := 7.
Definition EC_SYSTEM : Z := 8.
Definition EC_SIGNAL : Z := 9.
Definition EC_USER : Z := 10.
Definition EC_TIME : Z := 11.
Definition EC_PROCESSING : Z := 12.
Definition EC_IO_BASE : Z := 32.
Definition EC_IO_READ : Z := 32.
Definition EC_IO_WRITE : Z := 33.
Definition EC_IO_OTHER : Z := 34.
Definition EC_WAIT : Z := 64.
Definition EC_SCHEDULER : Z := 128.
Definition EC_INTERNAL : Z := 256.

(** [nod_event_flags]. *)
Definition EF_NONE : Z := 0.
Definition EF_CREATES_FD : Z := 1.
Definition EF_DESTROYS_FD : Z := 2.
Definition EF_USES_FD : Z := 4.
Definition EF_READS_FROM_FD : Z := 8.
Definition EF_WRITES_TO_FD : Z := 16.
Definition EF_MODIFIES_STATE : Z := 32.
Definition EF_UNUSED : Z := 64.
Definition EF_WAITS : Z := 128.
Definition EF_SKIPPARSERESET : Z := 256.
Definition EF_OLD_VERSION : Z := 512.
Definition EF_DROP_SIMPLE_CONS : Z := 1024.
Definition EF_LARGE_PAYLOAD : Z := 2048.

(** [syscall_flags]. *)
Definition UF_NONE : Z := 0.
Definition UF_USED : Z := 1.
Definition UF_NEVER_DROP : Z := 2.
Definition UF_ALWAYS_DROP : Z := 4.
Definition UF_SIMPLEDRIVER_KEEP : Z := 8.
Definition UF_ATOMIC : Z := 16.
Definition UF_UNINTERESTING : Z := 32.

(** [nod_capture_category]. *)
Definition NODC_NONE : Z := 0.
Definition NODC_SYSCALL : Z := 1.

(** Limits and indices of [include/events.h]. *)
Definition SYSCALL_TABLE_SIZE : Z := 512.
Definition NOD_MAX_EVENT_PARAMS : Z := 32.
Definition NOD_MAX_ARG_SIZE : Z := 65000.
Definition NOD_SOCKOPT_IDX_UNKNOWN : Z := 0.
Definition NOD_SOCKOPT_IDX_ERRNO : Z := 1.
Definition NOD_SOCKOPT_IDX_UINT32 : Z := 2.
Definition NOD_SOCKOPT_IDX_UINT64 : Z := 3.
Definition NOD_SOCKOPT_IDX_TIMEVAL : Z := 4.
Definition NOD_SOCKOPT_IDX_MAX : Z := 5.
Definition NOD_PTRACE_IDX_UINT64 : Z := 0.
Definition NOD_PTRACE_IDX_SIGTYPE : Z := 1.
Definition NOD_PTRACE_IDX_MAX : Z := 2.
Definition NOD_BPF_IDX_FD : Z := 0.
Definition NOD_BPF_IDX_RES : Z := 1.
Definition NOD_BPF_IDX_MAX : Z := 2.
Definition NOD_MAX_AUTOFILL_ARGS : Z := 8.
Definition AF_ID_RETVAL : Z := (-1).
Definition AF_ID_USEDEFAULT : Z := (-2).

(** ** Parameter and event descriptions *)

(** What the [info] pointer of a parameter refers to: nothing, a flag-name table,
    the index of the directory-descriptor parameter, or a table of the types a
    dynamic parameter can take. *)
Inductive dyn_table : Set := sockopt_dynamic_param | ptrace_dynamic_param | bpf_dynamic_param.

Inductive param_ref : Set :=
  | INFO_NULL
  | INFO_FLAGS (tbl : string)
  | DIRFD_PARAM (n : Z)
  | INFO_DYN (tbl : dyn_table).

(** [struct nod_param_info]. *)
Record nod_param_info : Set := mk_param {
  pi_name : string;
  pi_type : nod_param_type;
  pi_fmt : nod_print_format;
  pi_info : param_ref;
  pi_ninfo : Z }.

(** [struct nod_event_info]. *)
Record nod_event_info : Set := mk_event {
  ei_name : string;
  ei_category : Z;
  ei_flags : Z;
  ei_nparams : Z;
  ei_params : list nod_param_info }.

(** A slot of a static array without an initializer is filled with zero bytes. *)
Definition zero_param : nod_param_info := mk_param "" PT_NONE PF_NA INFO_NULL 0.
Definition zero_event : nod_event_info := mk_event "" EC_UNKNOWN EF_NONE 0 [].

Definition par (name : string) (t : nod_param_type) (f : nod_print_format) : nod_param_info :=
  mk_param name t f INFO_NULL 0.
Definition par_i (name : string) (t : nod_param_type) (f : nod_print_format)
    (i : param_ref) : nod_param_info :=
  mk_param name t f i 0.
Definition par_d (name : string) (t : nod_param_type) (f : nod_print_format)
    (i : param_ref) (n : Z) : nod_param_info :=
  mk_param name t f i n.

(** The three tables of [dynamic_params_table.c]. *)
Definition dyn_params (tbl : dyn_table) : list nod_param_info :=
  match tbl with
  | sockopt_dynamic_param => [par "" PT_BYTEBUF PF_HEX; par "" PT_ERRNO PF_DEC; par "" PT_UINT32 PF_DEC; par "" PT_UINT64 PF_DEC; par "" PT_RELTIME PF_DEC]
  | ptrace_dynamic_param => [par "" PT_UINT64 PF_HEX; par "" PT_SIGTYPE PF_DEC]
  | bpf_dynamic_param => [par "" PT_FD PF_DEC; par "" PT_ERRNO PF_DEC]
  end.

(** [g_event_info]. *)
Definition g_event_info_init : list (Z * nod_event_info) := [
  (NODE_GENERIC, mk_event "syscall" EC_OTHER (EF_NONE) 1 [par "ID" PT_SYSCALLID PF_DEC]);
  (NODE_SYSCALL_OPEN, mk_event "open" EC_FILE (EF_CREATES_FD |! EF_MODIFIES_STATE) 5 [
      par "fd" PT_FD PF_DEC; par "name" PT_FSPATH PF_NA;
      par_i "flags" PT_FLAGS32 PF_HEX (INFO_FLAGS "file_flags"); par "mode" PT_UINT32 PF_OCT;
      par "dev" PT_UINT32 PF_HEX]);
  (NODE_SYSCALL_CLOSE, mk_event "close" EC_IO_OTHER (EF_DESTROYS_FD |! EF_USES_FD |! EF_MODIFIES_STATE |! EF_DROP_SIMPLE_CONS) 2 [
      par "fd" PT_FD PF_DEC; par "res" PT_ERRNO PF_DEC]);
  (NODE_SYSCALL_READ, mk_event "read" EC_IO_READ (EF_USES_FD |! EF_READS_FROM_FD |! EF_DROP_SIMPLE_CONS) 4 [
      par "fd" PT_FD PF_DEC; par "size" PT_UINT32 PF_DEC; par "res" PT_ERRNO PF_DEC;
      par "data" PT_BYTEBUF PF_NA]);
  (NODE_SYSCALL_WRITE, mk_event "write" EC_IO_WRITE (EF_USES_FD |! EF_WRITES_TO_FD |! EF_DROP_SIMPLE_CONS) 4 [
      par "fd" PT_FD PF_DEC; par "size" PT_UINT32 PF_DEC; par "res" PT_ERRNO PF_DEC;
      par "data" PT_BYTEBUF PF_NA]);
  (NODE_SYSCALL_BRK_1, mk_event "brk" EC_MEMORY (EF_OLD_VERSION) 2 [
      par "size" PT_UINT32 PF_DEC; par "res" PT_UINT64 PF_HEX]);
  (NODE_SYSCALL_EXIT, mk_event "exit" EC_PROCESS (EF_MODIFIES_STATE) 1 [
      par "code" PT_INT32 PF_DEC]);
  (NODE_SYSCALL_EXIT_GROUP, mk_event "exit_group" EC_PROCESS (EF_MODIFIES_STATE) 1 [
      par "code" PT_INT32 PF_DEC]);
  (NODE_SYSCALL_EXECVE_8, mk_event "execve" EC_PROCESS (EF_MODIFIES_STATE) 19 [
      par "filename" PT_FSPATH PF_NA; par "res" PT_ERRNO PF_DEC; par "exe" PT_CHARBUF PF_NA;
      par "args" PT_BYTEBUF PF_NA; par "tid" PT_PID PF_DEC; par "pid" PT_PID PF_DEC;
      par "ptid" PT_PID PF_DEC; par "cwd" PT_CHARBUF PF_NA; par "fdlimit" PT_UINT64 PF_DEC;
      par "pgft_maj" PT_UINT64 PF_DEC; par "pgft_min" PT_UINT64 PF_DEC;
      par "vm_size" PT_UINT32 PF_DEC; par "vm_rss" PT_UINT32 PF_DEC;
      par "vm_swap" PT_UINT32 PF_DEC; par "comm" PT_CHARBUF PF_NA; par "env" PT_BYTEBUF PF_NA;
      par "tty" PT_INT32 PF_DEC; par "pgid" PT_PID PF_DEC; par "loginuid" PT_INT32 PF_DEC]);
  (NODE_SYSCALL_CLONE_11, mk_event "clone" EC_PROCESS (EF_MODIFIES_STATE) 19 [
      par "res" PT_PID PF_DEC; par "exe" PT_CHARBUF PF_NA; par "args" PT_BYTEBUF PF_NA;
      par "tid" PT_PID PF_DEC; par "pid" PT_PID PF_DEC; par "ptid" PT_PID PF_DEC;
      par "cwd" PT_CHARBUF PF_NA; par "fdlimit" PT_INT64 PF_DEC;
      par "pgft_maj" PT_UINT64 PF_DEC; par "pgft_min" PT_UINT64 PF_DEC;
      par "vm_size" PT_UINT32 PF_DEC; par "vm_rss" PT_UINT32 PF_DEC;
      par "vm_swap" PT_UINT32 PF_DEC; par "comm" PT_CHARBUF PF_NA;
      par_i "flags" PT_FLAGS32 PF_HEX (INFO_FLAGS "clone_flags"); par "uid" PT_UINT32 PF_DEC;
      par "gid" PT_UINT32 PF_DEC; par "vtid" PT_PID PF_DEC; par "vpid" PT_PID PF_DEC]);
  (NODE_SOCKET_SOCKET, mk_event "socket" EC_NET (EF_CREATES_FD |! EF_MODIFIES_STATE) 4 [
      par_i "domain" PT_FLAGS32 PF_DEC (INFO_FLAGS "socket_families");
      par "type" PT_UINT32 PF_DEC; par "proto" PT_UINT32 PF_DEC; par "fd" PT_FD PF_DEC]);
  (NODE_SOCKET_BIND, mk_event "bind" EC_NET (EF_USES_FD |! EF_MODIFIES_STATE) 3 [
      par "fd" PT_FD PF_DEC; par "res" PT_ERRNO PF_DEC; par "addr" PT_SOCKADDR PF_NA]);
  (NODE_SOCKET_CONNECT, mk_event "connect" EC_NET (EF_USES_FD |! EF_MODIFIES_STATE) 3 [
      par "fd" PT_FD PF_DEC; par "res" PT_ERRNO PF_DEC; par "tuple" PT_SOCKTUPLE PF_NA]);
  (NODE_SOCKET_LISTEN, mk_event "listen" EC_NET (EF_USES_FD) 3 [par "fd" PT_FD PF_DEC;
      par "backlog" PT_UINT32 PF_DEC; par "res" PT_ERRNO PF_DEC]);
  (NODE_SOCKET_ACCEPT, mk_event "accept" EC_NET (EF_CREATES_FD |! EF_MODIFIES_STATE) 3 [
      par "fd" PT_FD PF_DEC; par "tuple" PT_SOCKTUPLE PF_NA; par "queuepct" PT_UINT8 PF_DEC]);
  (NODE_SOCKET_SEND, mk_event "send" EC_IO_WRITE (EF_USES_FD |! EF_WRITES_TO_FD |! EF_DROP_SIMPLE_CONS) 4 [
      par "fd" PT_FD PF_DEC; par "size" PT_UINT32 PF_DEC; par "res" PT_ERRNO PF_DEC;
      par "data" PT_BYTEBUF PF_NA]);
  (NODE_SOCKET_SENDTO, mk_event "sendto" EC_IO_WRITE (EF_USES_FD |! EF_WRITES_TO_FD |! EF_MODIFIES_STATE) 5 [
      par "fd" PT_FD PF_DEC; par "size" PT_UINT32 PF_DEC; par "tuple" PT_SOCKTUPLE PF_NA;
      par "res" PT_ERRNO PF_DEC; par "data" PT_BYTEBUF PF_NA]);
  (NODE_SOCKET_RECV, mk_event "recv" EC_IO_READ (EF_USES_FD |! EF_READS_FROM_FD |! EF_DROP_SIMPLE_CONS) 4 [
      par "fd" PT_FD PF_DEC; par "size" PT_UINT32 PF_DEC; par "res" PT_ERRNO PF_DEC;
      par "data" PT_BYTEBUF PF_NA]);
  (NODE_SOCKET_RECVFROM, mk_event "recvfrom" EC_IO_READ (EF_USES_FD |! EF_READS_FROM_FD |! EF_MODIFIES_STATE) 5 [
      par "fd" PT_FD PF_DEC; par "size" PT_UINT32 PF_DEC; par "res" PT_ERRNO PF_DEC;
      par "data" PT_BYTEBUF PF_NA; par "tuple" PT_SOCKTUPLE PF_NA]);
  (NODE_SOCKET_SHUTDOWN, mk_event "shutdown" EC_NET (EF_USES_FD |! EF_MODIFIES_STATE |! EF_DROP_SIMPLE_CONS) 3 [
      par "fd" PT_FD PF_DEC; par_i "how" PT_FLAGS8 PF_HEX (INFO_FLAGS "shutdown_how");
      par "res" PT_ERRNO PF_DEC]);
  (NODE_SOCKET_GETSOCKNAME, mk_event "getsockname" EC_NET (EF_DROP_SIMPLE_CONS) 0 []);
  (NODE_SOCKET_GETPEERNAME, mk_event "getpeername" EC_NET (EF_DROP_SIMPLE_CONS) 0 []);
  (NODE_SOCKET_SOCKETPAIR, mk_event "socketpair" EC_IPC (EF_CREATES_FD |! EF_MODIFIES_STATE) 8 [
      par_i "domain" PT_FLAGS32 PF_DEC (INFO_FLAGS "socket_families");
      par "type" PT_UINT32 PF_DEC; par "proto" PT_UINT32 PF_DEC; par "res" PT_ERRNO PF_DEC;
      par "fd1" PT_FD PF_DEC; par "fd2" PT_FD PF_DEC; par "source" PT_UINT64 PF_HEX;
      par "peer" PT_UINT64 PF_HEX]);
  (NODE_SOCKET_SETSOCKOPT, mk_event "setsockopt" EC_NET (EF_USES_FD) 6 [
      par "res" PT_ERRNO PF_DEC; par "fd" PT_FD PF_DEC;
      par_i "level" PT_FLAGS8 PF_DEC (INFO_FLAGS "sockopt_levels");
      par_i "optname" PT_FLAGS8 PF_DEC (INFO_FLAGS "sockopt_options");
      par_d "val" PT_DYN PF_DEC (INFO_DYN sockopt_dynamic_param) NOD_SOCKOPT_IDX_MAX;
      par "optlen" PT_UINT32 PF_DEC]);
  (NODE_SOCKET_GETSOCKOPT, mk_event "getsockopt" EC_NET (EF_USES_FD |! EF_MODIFIES_STATE |! EF_DROP_SIMPLE_CONS) 6 [
      par "res" PT_ERRNO PF_DEC; par "fd" PT_FD PF_DEC;
      par_i "level" PT_FLAGS8 PF_DEC (INFO_FLAGS "sockopt_levels");
      par_i "optname" PT_FLAGS8 PF_DEC (INFO_FLAGS "sockopt_options");
      par_d "val" PT_DYN PF_DEC (INFO_DYN sockopt_dynamic_param) NOD_SOCKOPT_IDX_MAX;
      par "optlen" PT_UINT32 PF_DEC]);
  (NODE_SOCKET_SENDMSG, mk_event "sendmsg" EC_IO_WRITE (EF_USES_FD |! EF_WRITES_TO_FD |! EF_MODIFIES_STATE) 5 [
      par "fd" PT_FD PF_DEC; par "size" PT_UINT32 PF_DEC; par "tuple" PT_SOCKTUPLE PF_NA;
      par "res" PT_ERRNO PF_DEC; par "data" PT_BYTEBUF PF_NA]);
  (NODE_SOCKET_SENDMMSG, mk_event "sendmmsg" EC_IO_WRITE (EF_DROP_SIMPLE_CONS) 0 []);
  (NODE_SOCKET_RECVMSG, mk_event "recvmsg" EC_IO_READ (EF_USES_FD |! EF_READS_FROM_FD |! EF_MODIFIES_STATE) 5 [
      par "fd" PT_FD PF_DEC; par "res" PT_ERRNO PF_DEC; par "size" PT_UINT32 PF_DEC;
      par "data" PT_BYTEBUF PF_NA; par "tuple" PT_SOCKTUPLE PF_NA]);
  (NODE_SOCKET_RECVMMSG, mk_event "recvmmsg" EC_IO_READ (EF_DROP_SIMPLE_CONS) 0 []);
  (NODE_SYSCALL_CREAT, mk_event "creat" EC_FILE (EF_CREATES_FD |! EF_MODIFIES_STATE) 4 [
      par "fd" PT_FD PF_DEC; par "name" PT_FSPATH PF_NA; par "mode" PT_UINT32 PF_OCT;
      par "dev" PT_UINT32 PF_HEX]);
  (NODE_SYSCALL_PIPE, mk_event "pipe" EC_IPC (EF_CREATES_FD |! EF_MODIFIES_STATE) 4 [
      par "res" PT_ERRNO PF_DEC; par "fd1" PT_FD PF_DEC; par "fd2" PT_FD PF_DEC;
      par "ino" PT_UINT64 PF_DEC]);
  (NODE_SYSCALL_EVENTFD, mk_event "eventfd" EC_IPC (EF_CREATES_FD |! EF_MODIFIES_STATE |! EF_DROP_SIMPLE_CONS) 3 [
      par "initval" PT_UINT64 PF_DEC; par "flags" PT_FLAGS32 PF_HEX; par "res" PT_FD PF_DEC]);
  (NODE_SYSCALL_FUTEX, mk_event "futex" EC_IPC (EF_DROP_SIMPLE_CONS) 4 [
      par "addr" PT_UINT64 PF_HEX;
      par_i "op" PT_FLAGS16 PF_HEX (INFO_FLAGS "futex_operations"); par "val" PT_UINT64 PF_DEC;
      par "res" PT_ERRNO PF_DEC]);
  (NODE_SYSCALL_STAT, mk_event "stat" EC_FILE (EF_DROP_SIMPLE_CONS) 2 [
      par "res" PT_ERRNO PF_DEC; par "path" PT_FSPATH PF_NA]);
  (NODE_SYSCALL_LSTAT, mk_event "lstat" EC_FILE (EF_DROP_SIMPLE_CONS) 2 [
      par "res" PT_ERRNO PF_DEC; par "path" PT_FSPATH PF_NA]);
  (NODE_SYSCALL_FSTAT, mk_event "fstat" EC_FILE (EF_USES_FD |! EF_DROP_SIMPLE_CONS) 2 [
      par "fd" PT_FD PF_NA; par "res" PT_ERRNO PF_DEC]);
  (NODE_SYSCALL_STAT64, mk_event "stat64" EC_FILE (EF_DROP_SIMPLE_CONS) 2 [
      par "res" PT_ERRNO PF_DEC; par "path" PT_FSPATH PF_NA]);
  (NODE_SYSCALL_LSTAT64, mk_event "lstat64" EC_FILE (EF_DROP_SIMPLE_CONS) 2 [
      par "res" PT_ERRNO PF_DEC; par "path" PT_FSPATH PF_NA]);
  (NODE_SYSCALL_FSTAT64, mk_event "fstat64" EC_FILE (EF_USES_FD |! EF_DROP_SIMPLE_CONS) 2 [
      par "fd" PT_FD PF_NA; par "res" PT_ERRNO PF_DEC]);
  (NODE_SYSCALL_EPOLLWAIT, mk_event "epoll_wait" EC_WAIT (EF_WAITS |! EF_DROP_SIMPLE_CONS) 2 [
      par "maxevents" PT_ERRNO PF_DEC; par "res" PT_ERRNO PF_DEC]);
  (NODE_SYSCALL_POLL, mk_event "poll" EC_WAIT (EF_WAITS |! EF_DROP_SIMPLE_CONS) 4 [
      par "fds" PT_FDLIST PF_DEC; par "timeout" PT_INT64 PF_DEC; par "res" PT_ERRNO PF_DEC;
      par "fds" PT_FDLIST PF_DEC]);
  (NODE_SYSCALL_SELECT, mk_event "select" EC_WAIT (EF_WAITS |! EF_DROP_SIMPLE_CONS) 1 [
      par "res" PT_ERRNO PF_DEC]);
  (NODE_SYSCALL_LSEEK, mk_event "lseek" EC_FILE (EF_USES_FD |! EF_DROP_SIMPLE_CONS) 4 [
      par "fd" PT_FD PF_DEC; par "offset" PT_UINT64 PF_DEC;
      par_i "whence" PT_FLAGS8 PF_DEC (INFO_FLAGS "lseek_whence"); par "res" PT_ERRNO PF_DEC]);
  (NODE_SYSCALL_LLSEEK, mk_event "llseek" EC_FILE (EF_USES_FD |! EF_DROP_SIMPLE_CONS) 4 [
      par "fd" PT_FD PF_DEC; par "offset" PT_UINT64 PF_DEC;
      par_i "whence" PT_FLAGS8 PF_DEC (INFO_FLAGS "lseek_whence"); par "res" PT_ERRNO PF_DEC]);
  (NODE_SYSCALL_GETCWD, mk_event "getcwd" EC_FILE (EF_DROP_SIMPLE_CONS) 2 [
      par "res" PT_ERRNO PF_DEC; par "path" PT_CHARBUF PF_NA]);
  (NODE_SYSCALL_CHDIR, mk_event "chdir" EC_FILE (EF_MODIFIES_STATE) 2 [
      par "res" PT_ERRNO PF_DEC; par "path" PT_CHARBUF PF_NA]);
  (NODE_SYSCALL_FCHDIR, mk_event "fchdir" EC_FILE (EF_USES_FD |! EF_MODIFIES_STATE) 2 [
      par "fd" PT_FD PF_NA; par "res" PT_ERRNO PF_DEC]);
  (NODE_SYSCALL_MKDIR, mk_event "mkdir" EC_FILE (EF_NONE) 3 [par "path" PT_FSPATH PF_NA;
      par "mode" PT_UINT32 PF_HEX; par "res" PT_ERRNO PF_DEC]);
  (NODE_SYSCALL_RMDIR, mk_event "rmdir" EC_FILE (EF_NONE) 2 [par "path" PT_FSPATH PF_NA;
      par "res" PT_ERRNO PF_DEC]);
  (NODE_SYSCALL_OPENAT, mk_event "openat" EC_FILE (EF_CREATES_FD |! EF_MODIFIES_STATE |! EF_OLD_VERSION) 5 [
      par "dirfd" PT_FD PF_DEC; par "name" PT_CHARBUF PF_NA;
      par_i "flags" PT_FLAGS32 PF_HEX (INFO_FLAGS "file_flags"); par "mode" PT_UINT32 PF_OCT;
      par "res" PT_ERRNO PF_DEC]);
  (NODE_SYSCALL_LINK, mk_event "link" EC_FILE (EF_OLD_VERSION) 3 [
      par "oldpath" PT_FSPATH PF_NA; par "newpath" PT_FSPATH PF_NA; par "res" PT_ERRNO PF_DEC]);
  (NODE_SYSCALL_LINKAT, mk_event "linkat" EC_FILE (EF_OLD_VERSION) 5 [
      par "olddir" PT_FD PF_DEC; par "oldpath" PT_CHARBUF PF_NA; par "newdir" PT_FD PF_DEC;
      par "newpath" PT_CHARBUF PF_NA; par "res" PT_ERRNO PF_DEC]);
  (NODE_SYSCALL_UNLINK, mk_event "unlink" EC_FILE (EF_OLD_VERSION) 2 [
      par "path" PT_FSPATH PF_NA; par "res" PT_ERRNO PF_DEC]);
  (NODE_SYSCALL_UNLINKAT, mk_event "unlinkat" EC_FILE (EF_OLD_VERSION) 3 [
      par "dirfd" PT_FD PF_DEC; par "name" PT_CHARBUF PF_NA; par "res" PT_ERRNO PF_DEC]);
  (NODE_SYSCALL_PREAD, mk_event "pread" EC_IO_READ (EF_USES_FD |! EF_READS_FROM_FD |! EF_DROP_SIMPLE_CONS) 5 [
      par "fd" PT_FD PF_DEC; par "size" PT_UINT32 PF_DEC; par "pos" PT_UINT64 PF_DEC;
      par "res" PT_ERRNO PF_DEC; par "data" PT_BYTEBUF PF_NA]);
  (NODE_SYSCALL_PWRITE, mk_event "pwrite" EC_IO_WRITE (EF_USES_FD |! EF_WRITES_TO_FD |! EF_DROP_SIMPLE_CONS) 5 [
      par "fd" PT_FD PF_DEC; par "size" PT_UINT32 PF_DEC; par "pos" PT_UINT64 PF_DEC;
      par "res" PT_ERRNO PF_DEC; par "data" PT_BYTEBUF PF_NA]);
  (NODE_SYSCALL_READV, mk_event "readv" EC_IO_READ (EF_USES_FD |! EF_READS_FROM_FD |! EF_DROP_SIMPLE_CONS) 4 [
      par "fd" PT_FD PF_DEC; par "res" PT_ERRNO PF_DEC; par "size" PT_UINT32 PF_DEC;
      par "data" PT_BYTEBUF PF_NA]);
  (NODE_SYSCALL_WRITEV, mk_event "writev" EC_IO_WRITE (EF_USES_FD |! EF_WRITES_TO_FD |! EF_DROP_SIMPLE_CONS) 4 [
      par "fd" PT_FD PF_DEC; par "size" PT_UINT32 PF_DEC; par "res" PT_ERRNO PF_DEC;
      par "data" PT_BYTEBUF PF_NA]);
  (NODE_SYSCALL_PREADV, mk_event "preadv" EC_IO_READ (EF_USES_FD |! EF_READS_FROM_FD |! EF_DROP_SIMPLE_CONS) 5 [
      par "fd" PT_FD PF_DEC; par "pos" PT_UINT64 PF_DEC; par "res" PT_ERRNO PF_DEC;
      par "size" PT_UINT32 PF_DEC; par "data" PT_BYTEBUF PF_NA]);
  (NODE_SYSCALL_PWRITEV, mk_event "pwritev" EC_IO_WRITE (EF_USES_FD |! EF_WRITES_TO_FD |! EF_DROP_SIMPLE_CONS) 5 [
      par "fd" PT_FD PF_DEC; par "size" PT_UINT32 PF_DEC; par "pos" PT_UINT64 PF_DEC;
      par "res" PT_ERRNO PF_DEC; par "data" PT_BYTEBUF PF_NA]);
  (NODE_SYSCALL_DUP, mk_event "dup" EC_IO_OTHER (EF_CREATES_FD |! EF_USES_FD |! EF_MODIFIES_STATE) 2 [
      par "fd" PT_FD PF_DEC; par "res" PT_FD PF_DEC]);
  (NODE_SYSCALL_SIGNALFD, mk_event "signalfd" EC_SIGNAL (EF_CREATES_FD |! EF_MODIFIES_STATE) 4 [
      par "fd" PT_FD PF_DEC; par "mask" PT_UINT32 PF_HEX; par "flags" PT_FLAGS8 PF_HEX;
      par "res" PT_FD PF_DEC]);
  (NODE_SYSCALL_KILL, mk_event "kill" EC_SIGNAL (EF_NONE) 3 [par "pid" PT_PID PF_DEC;
      par "sig" PT_SIGTYPE PF_DEC; par "res" PT_ERRNO PF_DEC]);
  (NODE_SYSCALL_TKILL, mk_event "tkill" EC_SIGNAL (EF_NONE) 3 [par "tid" PT_PID PF_DEC;
      par "sig" PT_SIGTYPE PF_DEC; par "res" PT_ERRNO PF_DEC]);
  (NODE_SYSCALL_TGKILL, mk_event "tgkill" EC_SIGNAL (EF_NONE) 4 [par "pid" PT_PID PF_DEC;
      par "tid" PT_PID PF_DEC; par "sig" PT_SIGTYPE PF_DEC; par "res" PT_ERRNO PF_DEC]);
  (NODE_SYSCALL_NANOSLEEP, mk_event "nanosleep" EC_SLEEP (EF_WAITS |! EF_DROP_SIMPLE_CONS) 2 [
      par "interval" PT_RELTIME PF_DEC; par "res" PT_ERRNO PF_DEC]);
  (NODE_SYSCALL_TIMERFD_CREATE, mk_event "timerfd_create" EC_TIME (EF_CREATES_FD |! EF_MODIFIES_STATE |! EF_DROP_SIMPLE_CONS) 3 [
      par "clockid" PT_UINT8 PF_DEC; par "flags" PT_FLAGS8 PF_HEX; par "res" PT_FD PF_DEC]);
  (NODE_SYSCALL_INOTIFY_INIT, mk_event "inotify_init" EC_IPC (EF_CREATES_FD |! EF_MODIFIES_STATE) 2 [
      par "flags" PT_FLAGS8 PF_HEX; par "res" PT_FD PF_DEC]);
  (NODE_SYSCALL_GETRLIMIT, mk_event "getrlimit" EC_PROCESS (EF_DROP_SIMPLE_CONS) 4 [
      par_i "resource" PT_FLAGS8 PF_DEC (INFO_FLAGS "rlimit_resources");
      par "res" PT_ERRNO PF_DEC; par "cur" PT_INT64 PF_DEC; par "max" PT_INT64 PF_DEC]);
  (NODE_SYSCALL_SETRLIMIT, mk_event "setrlimit" EC_PROCESS (EF_DROP_SIMPLE_CONS) 4 [
      par_i "resource" PT_FLAGS8 PF_DEC (INFO_FLAGS "rlimit_resources");
      par "res" PT_ERRNO PF_DEC; par "cur" PT_INT64 PF_DEC; par "max" PT_INT64 PF_DEC]);
  (NODE_SYSCALL_PRLIMIT, mk_event "prlimit" EC_PROCESS (EF_NONE) 7 [par "pid" PT_PID PF_DEC;
      par_i "resource" PT_FLAGS8 PF_DEC (INFO_FLAGS "rlimit_resources");
      par "res" PT_ERRNO PF_DEC; par "newcur" PT_INT64 PF_DEC; par "newmax" PT_INT64 PF_DEC;
      par "oldcur" PT_INT64 PF_DEC; par "oldmax" PT_INT64 PF_DEC]);
  (NODE_SYSCALL_FCNTL, mk_event "fcntl" EC_IO_OTHER (EF_USES_FD |! EF_MODIFIES_STATE |! EF_DROP_SIMPLE_CONS) 3 [
      par "fd" PT_FD PF_DEC; par_i "cmd" PT_FLAGS8 PF_DEC (INFO_FLAGS "fcntl_commands");
      par "res" PT_FD PF_DEC]);
  (NODE_SYSCALL_BRK_4, mk_event "brk" EC_MEMORY (EF_DROP_SIMPLE_CONS) 5 [
      par "addr" PT_UINT64 PF_HEX; par "res" PT_UINT64 PF_HEX; par "vm_size" PT_UINT32 PF_DEC;
      par "vm_rss" PT_UINT32 PF_DEC; par "vm_swap" PT_UINT32 PF_DEC]);
  (NODE_SYSCALL_MMAP, mk_event "mmap" EC_MEMORY (EF_DROP_SIMPLE_CONS) 10 [
      par "addr" PT_UINT64 PF_HEX; par "length" PT_UINT64 PF_DEC;
      par_i "prot" PT_FLAGS32 PF_HEX (INFO_FLAGS "prot_flags");
      par_i "flags" PT_FLAGS32 PF_HEX (INFO_FLAGS "mmap_flags"); par "fd" PT_FD PF_DEC;
      par "offset" PT_UINT64 PF_DEC; par "res" PT_UINT64 PF_HEX;
      par "vm_size" PT_UINT32 PF_DEC; par "vm_rss" PT_UINT32 PF_DEC;
      par "vm_swap" PT_UINT32 PF_DEC]);
  (NODE_SYSCALL_MMAP2, mk_event "mmap2" EC_MEMORY (EF_DROP_SIMPLE_CONS) 10 [
      par "addr" PT_UINT64 PF_HEX; par "length" PT_UINT64 PF_DEC;
      par_i "prot" PT_FLAGS32 PF_HEX (INFO_FLAGS "prot_flags");
      par_i "flags" PT_FLAGS32 PF_HEX (INFO_FLAGS "mmap_flags"); par "fd" PT_FD PF_DEC;
      par "pgoffset" PT_UINT64 PF_DEC; par "res" PT_UINT64 PF_HEX;
      par "vm_size" PT_UINT32 PF_DEC; par "vm_rss" PT_UINT32 PF_DEC;
      par "vm_swap" PT_UINT32 PF_DEC; par "res" PT_UINT64 PF_HEX;
      par "vm_size" PT_UINT32 PF_DEC; par "vm_rss" PT_UINT32 PF_DEC;
      par "vm_swap" PT_UINT32 PF_DEC]);
  (NODE_SYSCALL_MUNMAP, mk_event "munmap" EC_MEMORY (EF_DROP_SIMPLE_CONS) 6 [
      par "addr" PT_UINT64 PF_HEX; par "length" PT_UINT64 PF_DEC; par "res" PT_ERRNO PF_DEC;
      par "vm_size" PT_UINT32 PF_DEC; par "vm_rss" PT_UINT32 PF_DEC;
      par "vm_swap" PT_UINT32 PF_DEC]);
  (NODE_SYSCALL_SPLICE, mk_event "splice" EC_IO_OTHER (EF_USES_FD |! EF_DROP_SIMPLE_CONS) 4 [
      par "fd_in" PT_FD PF_DEC; par "fd_out" PT_FD PF_DEC; par "size" PT_UINT64 PF_DEC;
      par_i "flags" PT_FLAGS32 PF_HEX (INFO_FLAGS "splice_flags"); par "res" PT_ERRNO PF_DEC]);
  (NODE_SYSCALL_PTRACE, mk_event "ptrace" EC_PROCESS (EF_NONE) 5 [
      par_i "request" PT_FLAGS16 PF_DEC (INFO_FLAGS "ptrace_requests");
      par "pid" PT_PID PF_DEC; par "res" PT_ERRNO PF_DEC;
      par_d "addr" PT_DYN PF_HEX (INFO_DYN ptrace_dynamic_param) NOD_PTRACE_IDX_MAX;
      par_d "data" PT_DYN PF_HEX (INFO_DYN ptrace_dynamic_param) NOD_PTRACE_IDX_MAX]);
  (NODE_SYSCALL_IOCTL_3, mk_event "ioctl" EC_IO_OTHER (EF_USES_FD) 4 [par "fd" PT_FD PF_DEC;
      par "request" PT_UINT64 PF_HEX; par "argument" PT_UINT64 PF_HEX; par "res" PT_ERRNO PF_DEC]);
  (NODE_SYSCALL_EXECVE_14, mk_event "execve" EC_PROCESS (EF_MODIFIES_STATE |! EF_OLD_VERSION) 14 [
      par "res" PT_ERRNO PF_DEC; par "exe" PT_CHARBUF PF_NA; par "args" PT_BYTEBUF PF_NA;
      par "tid" PT_PID PF_DEC; par "pid" PT_PID PF_DEC; par "ptid" PT_PID PF_DEC;
      par "cwd" PT_CHARBUF PF_NA; par "fdlimit" PT_UINT64 PF_DEC;
      par "pgft_maj" PT_UINT64 PF_DEC; par "pgft_min" PT_UINT64 PF_DEC;
      par "vm_size" PT_UINT32 PF_DEC; par "vm_rss" PT_UINT32 PF_DEC;
      par "vm_swap" PT_UINT32 PF_DEC; par "env" PT_BYTEBUF PF_NA]);
  (NODE_SYSCALL_RENAME, mk_event "rename" EC_FILE (EF_NONE) 3 [par "res" PT_ERRNO PF_DEC;
      par "oldpath" PT_FSPATH PF_NA; par "newpath" PT_FSPATH PF_NA]);
  (NODE_SYSCALL_RENAMEAT, mk_event "renameat" EC_FILE (EF_NONE) 5 [par "res" PT_ERRNO PF_DEC;
      par "olddirfd" PT_FD PF_DEC; par_i "oldpath" PT_FSRELPATH PF_NA (DIRFD_PARAM 1);
      par "newdirfd" PT_FD PF_DEC; par_i "newpath" PT_FSRELPATH PF_NA (DIRFD_PARAM 3)]);
  (NODE_SYSCALL_SYMLINK, mk_event "symlink" EC_FILE (EF_NONE) 3 [par "res" PT_ERRNO PF_DEC;
      par "target" PT_CHARBUF PF_NA; par "linkpath" PT_FSPATH PF_NA]);
  (NODE_SYSCALL_SYMLINKAT, mk_event "symlinkat" EC_FILE (EF_NONE) 4 [par "res" PT_ERRNO PF_DEC;
      par "target" PT_CHARBUF PF_NA; par "linkdirfd" PT_FD PF_DEC;
      par_i "linkpath" PT_FSRELPATH PF_NA (DIRFD_PARAM 2)]);
  (NODE_SYSCALL_FORK, mk_event "fork" EC_PROCESS (EF_MODIFIES_STATE) 19 [
      par "res" PT_PID PF_DEC; par "exe" PT_CHARBUF PF_NA; par "args" PT_BYTEBUF PF_NA;
      par "tid" PT_PID PF_DEC; par "pid" PT_PID PF_DEC; par "ptid" PT_PID PF_DEC;
      par "cwd" PT_CHARBUF PF_NA; par "fdlimit" PT_INT64 PF_DEC;
      par "pgft_maj" PT_UINT64 PF_DEC; par "pgft_min" PT_UINT64 PF_DEC;
      par "vm_size" PT_UINT32 PF_DEC; par "vm_rss" PT_UINT32 PF_DEC;
      par "vm_swap" PT_UINT32 PF_DEC; par "comm" PT_CHARBUF PF_NA;
      par_i "flags" PT_FLAGS32 PF_HEX (INFO_FLAGS "clone_flags"); par "uid" PT_UINT32 PF_DEC;
      par "gid" PT_UINT32 PF_DEC; par "vtid" PT_PID PF_DEC; par "vpid" PT_PID PF_DEC]);
  (NODE_SYSCALL_VFORK, mk_event "vfork" EC_PROCESS (EF_MODIFIES_STATE) 19 [
      par "res" PT_PID PF_DEC; par "exe" PT_CHARBUF PF_NA; par "args" PT_BYTEBUF PF_NA;
      par "tid" PT_PID PF_DEC; par "pid" PT_PID PF_DEC; par "ptid" PT_PID PF_DEC;
      par "cwd" PT_CHARBUF PF_NA; par "fdlimit" PT_INT64 PF_DEC;
      par "pgft_maj" PT_UINT64 PF_DEC; par "pgft_min" PT_UINT64 PF_DEC;
      par "vm_size" PT_UINT32 PF_DEC; par "vm_rss" PT_UINT32 PF_DEC;
      par "vm_swap" PT_UINT32 PF_DEC; par "comm" PT_CHARBUF PF_NA;
      par_i "flags" PT_FLAGS32 PF_HEX (INFO_FLAGS "clone_flags"); par "uid" PT_UINT32 PF_DEC;
      par "gid" PT_UINT32 PF_DEC; par "vtid" PT_PID PF_DEC; par "vpid" PT_PID PF_DEC]);
  (NODE_SYSCALL_SENDFILE, mk_event "sendfile" EC_IO_WRITE (EF_USES_FD |! EF_DROP_SIMPLE_CONS) 6 [
      par "out_fd" PT_FD PF_DEC; par "in_fd" PT_FD PF_DEC; par "offset" PT_UINT64 PF_DEC;
      par "size" PT_UINT64 PF_DEC; par "res" PT_ERRNO PF_DEC; par "offset" PT_UINT64 PF_DEC]);
  (NODE_SYSCALL_QUOTACTL, mk_event "quotactl" EC_USER (EF_NONE) 18 [
      par_i "cmd" PT_FLAGS16 PF_DEC (INFO_FLAGS "quotactl_cmds");
      par_i "type" PT_FLAGS8 PF_DEC (INFO_FLAGS "quotactl_types"); par "id" PT_UINT32 PF_DEC;
      par_i "quota_fmt" PT_FLAGS8 PF_DEC (INFO_FLAGS "quotactl_quota_fmts");
      par "res" PT_ERRNO PF_DEC; par "special" PT_CHARBUF PF_NA;
      par "quotafilepath" PT_CHARBUF PF_NA; par "dqb_bhardlimit" PT_UINT64 PF_DEC;
      par "dqb_bsoftlimit" PT_UINT64 PF_DEC; par "dqb_curspace" PT_UINT64 PF_DEC;
      par "dqb_ihardlimit" PT_UINT64 PF_DEC; par "dqb_isoftlimit" PT_UINT64 PF_DEC;
      par "dqb_btime" PT_RELTIME PF_DEC; par "dqb_itime" PT_RELTIME PF_DEC;
      par "dqi_bgrace" PT_RELTIME PF_DEC; par "dqi_igrace" PT_RELTIME PF_DEC;
      par_i "dqi_flags" PT_FLAGS8 PF_DEC (INFO_FLAGS "quotactl_dqi_flags");
      par_i "quota_fmt_out" PT_FLAGS8 PF_DEC (INFO_FLAGS "quotactl_quota_fmts")]);
  (NODE_SYSCALL_SETRESUID, mk_event "setresuid" EC_USER (EF_MODIFIES_STATE) 4 [
      par "ruid" PT_UID PF_DEC; par "euid" PT_UID PF_DEC; par "suid" PT_UID PF_DEC;
      par "res" PT_ERRNO PF_DEC]);
  (NODE_SYSCALL_SETRESGID, mk_event "setresgid" EC_USER (EF_MODIFIES_STATE) 4 [
      par "rgid" PT_GID PF_DEC; par "egid" PT_GID PF_DEC; par "sgid" PT_GID PF_DEC;
      par "res" PT_ERRNO PF_DEC]);
  (NODE_SYSCALL_SETUID, mk_event "setuid" EC_USER (EF_MODIFIES_STATE) 2 [
      par "uid" PT_UID PF_DEC; par "res" PT_ERRNO PF_DEC]);
  (NODE_SYSCALL_SETGID, mk_event "setgid" EC_USER (EF_MODIFIES_STATE) 2 [
      par "gid" PT_GID PF_DEC; par "res" PT_ERRNO PF_DEC]);
  (NODE_SYSCALL_GETUID, mk_event "getuid" EC_USER (EF_DROP_SIMPLE_CONS) 1 [
      par "uid" PT_UID PF_DEC]);
  (NODE_SYSCALL_GETEUID, mk_event "geteuid" EC_USER (EF_DROP_SIMPLE_CONS) 1 [
      par "euid" PT_UID PF_DEC]);
  (NODE_SYSCALL_GETGID, mk_event "getgid" EC_USER (EF_DROP_SIMPLE_CONS) 1 [
      par "gid" PT_GID PF_DEC]);
  (NODE_SYSCALL_GETEGID, mk_event "getegid" EC_USER (EF_DROP_SIMPLE_CONS) 1 [
      par "egid" PT_GID PF_DEC]);
  (NODE_SYSCALL_GETRESUID, mk_event "getresuid" EC_USER (EF_DROP_SIMPLE_CONS) 4 [
      par "res" PT_ERRNO PF_DEC; par "ruid" PT_UID PF_DEC; par "euid" PT_UID PF_DEC;
      par "suid" PT_UID PF_DEC]);
  (NODE_SYSCALL_GETRESGID, mk_event "getresgid" EC_USER (EF_DROP_SIMPLE_CONS) 4 [
      par "res" PT_ERRNO PF_DEC; par "rgid" PT_GID PF_DEC; par "egid" PT_GID PF_DEC;
      par "sgid" PT_GID PF_DEC]);
  (NODE_SYSCALL_EXECVE_15, mk_event "execve" EC_PROCESS (EF_MODIFIES_STATE |! EF_OLD_VERSION) 15 [
      par "res" PT_ERRNO PF_DEC; par "exe" PT_CHARBUF PF_NA; par "args" PT_BYTEBUF PF_NA;
      par "tid" PT_PID PF_DEC; par "pid" PT_PID PF_DEC; par "ptid" PT_PID PF_DEC;
      par "cwd" PT_CHARBUF PF_NA; par "fdlimit" PT_UINT64 PF_DEC;
      par "pgft_maj" PT_UINT64 PF_DEC; par "pgft_min" PT_UINT64 PF_DEC;
      par "vm_size" PT_UINT32 PF_DEC; par "vm_rss" PT_UINT32 PF_DEC;
      par "vm_swap" PT_UINT32 PF_DEC; par "comm" PT_CHARBUF PF_NA; par "env" PT_BYTEBUF PF_NA]);
  (NODE_SYSCALL_CLONE_17, mk_event "clone" EC_PROCESS (EF_MODIFIES_STATE |! EF_OLD_VERSION) 17 [
      par "res" PT_PID PF_DEC; par "exe" PT_CHARBUF PF_NA; par "args" PT_BYTEBUF PF_NA;
      par "tid" PT_PID PF_DEC; par "pid" PT_PID PF_DEC; par "ptid" PT_PID PF_DEC;
      par "cwd" PT_CHARBUF PF_NA; par "fdlimit" PT_INT64 PF_DEC;
      par "pgft_maj" PT_UINT64 PF_DEC; par "pgft_min" PT_UINT64 PF_DEC;
      par "vm_size" PT_UINT32 PF_DEC; par "vm_rss" PT_UINT32 PF_DEC;
      par "vm_swap" PT_UINT32 PF_DEC; par "comm" PT_CHARBUF PF_NA;
      par_i "flags" PT_FLAGS32 PF_HEX (INFO_FLAGS "clone_flags"); par "uid" PT_UINT32 PF_DEC;
      par "gid" PT_UINT32 PF_DEC]);
  (NODE_SYSCALL_FORK_17, mk_event "fork" EC_PROCESS (EF_MODIFIES_STATE |! EF_OLD_VERSION) 17 [
      par "res" PT_PID PF_DEC; par "exe" PT_CHARBUF PF_NA; par "args" PT_BYTEBUF PF_NA;
      par "tid" PT_PID PF_DEC; par "pid" PT_PID PF_DEC; par "ptid" PT_PID PF_DEC;
      par "cwd" PT_CHARBUF PF_NA; par "fdlimit" PT_INT64 PF_DEC;
      par "pgft_maj" PT_UINT64 PF_DEC; par "pgft_min" PT_UINT64 PF_DEC;
      par "vm_size" PT_UINT32 PF_DEC; par "vm_rss" PT_UINT32 PF_DEC;
      par "vm_swap" PT_UINT32 PF_DEC; par "comm" PT_CHARBUF PF_NA;
      par_i "flags" PT_FLAGS32 PF_HEX (INFO_FLAGS "clone_flags"); par "uid" PT_UINT32 PF_DEC;
      par "gid" PT_UINT32 PF_DEC]);
  (NODE_SYSCALL_VFORK_17, mk_event "vfork" EC_PROCESS (EF_MODIFIES_STATE |! EF_OLD_VERSION) 17 [
      par "res" PT_PID PF_DEC; par "exe" PT_CHARBUF PF_NA; par "args" PT_BYTEBUF PF_NA;
      par "tid" PT_PID PF_DEC; par "pid" PT_PID PF_DEC; par "ptid" PT_PID PF_DEC;
      par "cwd" PT_CHARBUF PF_NA; par "fdlimit" PT_INT64 PF_DEC;
      par "pgft_maj" PT_UINT64 PF_DEC; par "pgft_min" PT_UINT64 PF_DEC;
      par "vm_size" PT_UINT32 PF_DEC; par "vm_rss" PT_UINT32 PF_DEC;
      par "vm_swap" PT_UINT32 PF_DEC; par "comm" PT_CHARBUF PF_NA;
      par_i "flags" PT_FLAGS32 PF_HEX (INFO_FLAGS "clone_flags"); par "uid" PT_UINT32 PF_DEC;
      par "gid" PT_UINT32 PF_DEC]);
  (NODE_SYSCALL_CLONE_20, mk_event "clone" EC_PROCESS (EF_MODIFIES_STATE) 20 [
      par "res" PT_PID PF_DEC; par "exe" PT_CHARBUF PF_NA; par "args" PT_BYTEBUF PF_NA;
      par "tid" PT_PID PF_DEC; par "pid" PT_PID PF_DEC; par "ptid" PT_PID PF_DEC;
      par "cwd" PT_CHARBUF PF_NA; par "fdlimit" PT_INT64 PF_DEC;
      par "pgft_maj" PT_UINT64 PF_DEC; par "pgft_min" PT_UINT64 PF_DEC;
      par "vm_size" PT_UINT32 PF_DEC; par "vm_rss" PT_UINT32 PF_DEC;
      par "vm_swap" PT_UINT32 PF_DEC; par "comm" PT_CHARBUF PF_NA;
      par "cgroups" PT_BYTEBUF PF_NA;
      par_i "flags" PT_FLAGS32 PF_HEX (INFO_FLAGS "clone_flags"); par "uid" PT_UINT32 PF_DEC;
      par "gid" PT_UINT32 PF_DEC; par "vtid" PT_PID PF_DEC; par "vpid" PT_PID PF_DEC]);
  (NODE_SYSCALL_FORK_20, mk_event "fork" EC_PROCESS (EF_MODIFIES_STATE) 20 [
      par "res" PT_PID PF_DEC; par "exe" PT_CHARBUF PF_NA; par "args" PT_BYTEBUF PF_NA;
      par "tid" PT_PID PF_DEC; par "pid" PT_PID PF_DEC; par "ptid" PT_PID PF_DEC;
      par "cwd" PT_CHARBUF PF_NA; par "fdlimit" PT_INT64 PF_DEC;
      par "pgft_maj" PT_UINT64 PF_DEC; par "pgft_min" PT_UINT64 PF_DEC;
      par "vm_size" PT_UINT32 PF_DEC; par "vm_rss" PT_UINT32 PF_DEC;
      par "vm_swap" PT_UINT32 PF_DEC; par "comm" PT_CHARBUF PF_NA;
      par "cgroups" PT_BYTEBUF PF_NA;
      par_i "flags" PT_FLAGS32 PF_HEX (INFO_FLAGS "clone_flags"); par "uid" PT_UINT32 PF_DEC;
      par "gid" PT_UINT32 PF_DEC; par "vtid" PT_PID PF_DEC; par "vpid" PT_PID PF_DEC]);
  (NODE_SYSCALL_VFORK_20, mk_event "vfork" EC_PROCESS (EF_MODIFIES_STATE) 20 [
      par "res" PT_PID PF_DEC; par "exe" PT_CHARBUF PF_NA; par "args" PT_BYTEBUF PF_NA;
      par "tid" PT_PID PF_DEC; par "pid" PT_PID PF_DEC; par "ptid" PT_PID PF_DEC;
      par "cwd" PT_CHARBUF PF_NA; par "fdlimit" PT_INT64 PF_DEC;
      par "pgft_maj" PT_UINT64 PF_DEC; par "pgft_min" PT_UINT64 PF_DEC;
      par "vm_size" PT_UINT32 PF_DEC; par "vm_rss" PT_UINT32 PF_DEC;
      par "vm_swap" PT_UINT32 PF_DEC; par "comm" PT_CHARBUF PF_NA;
      par "cgroups" PT_BYTEBUF PF_NA;
      par_i "flags" PT_FLAGS32 PF_HEX (INFO_FLAGS "clone_flags"); par "uid" PT_UINT32 PF_DEC;
      par "gid" PT_UINT32 PF_DEC; par "vtid" PT_PID PF_DEC; par "vpid" PT_PID PF_DEC]);
  (NODE_SYSCALL_EXECVE_16, mk_event "execve" EC_PROCESS (EF_MODIFIES_STATE) 16 [
      par "res" PT_ERRNO PF_DEC; par "exe" PT_CHARBUF PF_NA; par "args" PT_BYTEBUF PF_NA;
      par "tid" PT_PID PF_DEC; par "pid" PT_PID PF_DEC; par "ptid" PT_PID PF_DEC;
      par "cwd" PT_CHARBUF PF_NA; par "fdlimit" PT_UINT64 PF_DEC;
      par "pgft_maj" PT_UINT64 PF_DEC; par "pgft_min" PT_UINT64 PF_DEC;
      par "vm_size" PT_UINT32 PF_DEC; par "vm_rss" PT_UINT32 PF_DEC;
      par "vm_swap" PT_UINT32 PF_DEC; par "comm" PT_CHARBUF PF_NA;
      par "cgroups" PT_BYTEBUF PF_NA; par "env" PT_BYTEBUF PF_NA]);
  (NODE_SYSCALL_GETDENTS, mk_event "getdents" EC_FILE (EF_USES_FD |! EF_DROP_SIMPLE_CONS) 2 [
      par "fd" PT_FD PF_NA; par "res" PT_ERRNO PF_DEC]);
  (NODE_SYSCALL_GETDENTS64, mk_event "getdents64" EC_FILE (EF_USES_FD |! EF_DROP_SIMPLE_CONS) 2 [
      par "fd" PT_FD PF_NA; par "res" PT_ERRNO PF_DEC]);
  (NODE_SYSCALL_SETNS, mk_event "setns" EC_PROCESS (EF_USES_FD) 3 [par "fd" PT_FD PF_NA;
      par_i "nstype" PT_FLAGS32 PF_HEX (INFO_FLAGS "clone_flags"); par "res" PT_ERRNO PF_DEC]);
  (NODE_SYSCALL_FLOCK, mk_event "flock" EC_FILE (EF_USES_FD) 3 [par "fd" PT_FD PF_NA;
      par_i "operation" PT_FLAGS32 PF_HEX (INFO_FLAGS "flock_flags"); par "res" PT_ERRNO PF_DEC]);
  (NODE_SOCKET_ACCEPT_5, mk_event "accept" EC_NET (EF_CREATES_FD |! EF_MODIFIES_STATE) 5 [
      par "fd" PT_FD PF_DEC; par "tuple" PT_SOCKTUPLE PF_NA; par "queuepct" PT_UINT8 PF_DEC;
      par "queuelen" PT_UINT32 PF_DEC; par "queuemax" PT_UINT32 PF_DEC]);
  (NODE_SOCKET_ACCEPT4_5, mk_event "accept" EC_NET (EF_CREATES_FD |! EF_MODIFIES_STATE) 6 [
      par "flags" PT_INT32 PF_HEX; par "fd" PT_FD PF_DEC; par "tuple" PT_SOCKTUPLE PF_NA;
      par "queuepct" PT_UINT8 PF_DEC; par "queuelen" PT_UINT32 PF_DEC;
      par "queuemax" PT_UINT32 PF_DEC]);
  (NODE_SYSCALL_SEMOP, mk_event "semop" EC_PROCESS (EF_DROP_SIMPLE_CONS) 9 [
      par "semid" PT_INT32 PF_DEC; par "res" PT_ERRNO PF_DEC; par "nsops" PT_UINT32 PF_DEC;
      par "sem_num_0" PT_UINT16 PF_DEC; par "sem_op_0" PT_INT16 PF_DEC;
      par_i "sem_flg_0" PT_FLAGS16 PF_HEX (INFO_FLAGS "semop_flags");
      par "sem_num_1" PT_UINT16 PF_DEC; par "sem_op_1" PT_INT16 PF_DEC;
      par_i "sem_flg_1" PT_FLAGS16 PF_HEX (INFO_FLAGS "semop_flags")]);
  (NODE_SYSCALL_SEMCTL, mk_event "semctl" EC_PROCESS (EF_DROP_SIMPLE_CONS) 5 [
      par "semid" PT_INT32 PF_DEC; par "semnum" PT_INT32 PF_DEC;
      par_i "cmd" PT_FLAGS16 PF_HEX (INFO_FLAGS "semctl_commands"); par "val" PT_INT32 PF_DEC;
      par "res" PT_ERRNO PF_DEC]);
  (NODE_SYSCALL_PPOLL, mk_event "ppoll" EC_WAIT (EF_WAITS |! EF_DROP_SIMPLE_CONS) 5 [
      par "fds" PT_FDLIST PF_DEC; par "timeout" PT_RELTIME PF_DEC;
      par "sigmask" PT_SIGSET PF_DEC; par "res" PT_ERRNO PF_DEC; par "fds" PT_FDLIST PF_DEC]);
  (NODE_SYSCALL_MOUNT, mk_event "mount" EC_FILE (EF_MODIFIES_STATE) 5 [
      par_i "flags" PT_FLAGS32 PF_HEX (INFO_FLAGS "mount_flags"); par "res" PT_ERRNO PF_DEC;
      par "dev" PT_CHARBUF PF_NA; par "dir" PT_FSPATH PF_NA; par "type" PT_CHARBUF PF_NA]);
  (NODE_SYSCALL_UMOUNT, mk_event "umount" EC_FILE (EF_MODIFIES_STATE) 3 [
      par_i "flags" PT_FLAGS32 PF_HEX (INFO_FLAGS "umount_flags"); par "res" PT_ERRNO PF_DEC;
      par "name" PT_FSPATH PF_NA]);
  (NODE_SYSCALL_SEMGET, mk_event "semget" EC_PROCESS (EF_DROP_SIMPLE_CONS) 4 [
      par "key" PT_INT32 PF_HEX; par "nsems" PT_INT32 PF_DEC;
      par_i "semflg" PT_FLAGS32 PF_HEX (INFO_FLAGS "semget_flags"); par "res" PT_ERRNO PF_DEC]);
  (NODE_SYSCALL_ACCESS, mk_event "access" EC_FILE (EF_DROP_SIMPLE_CONS) 3 [
      par_i "mode" PT_FLAGS32 PF_HEX (INFO_FLAGS "access_flags"); par "res" PT_ERRNO PF_DEC;
      par "name" PT_FSPATH PF_NA]);
  (NODE_SYSCALL_CHROOT, mk_event "chroot" EC_PROCESS (EF_MODIFIES_STATE) 2 [
      par "res" PT_ERRNO PF_DEC; par "path" PT_FSPATH PF_NA]);
  (NODE_SYSCALL_SETSID, mk_event "setsid" EC_PROCESS (EF_MODIFIES_STATE) 1 [
      par "res" PT_PID PF_DEC]);
  (NODE_SYSCALL_MKDIR_2, mk_event "mkdir" EC_FILE (EF_NONE) 3 [par "mode" PT_UINT32 PF_HEX;
      par "res" PT_ERRNO PF_DEC; par "path" PT_FSPATH PF_NA]);
  (NODE_SYSCALL_RMDIR_2, mk_event "rmdir" EC_FILE (EF_NONE) 2 [par "res" PT_ERRNO PF_DEC;
      par "path" PT_FSPATH PF_NA]);
  (NODE_SYSCALL_EXECVE_17, mk_event "execve" EC_PROCESS (EF_MODIFIES_STATE |! EF_OLD_VERSION) 17 [
      par "res" PT_ERRNO PF_DEC; par "exe" PT_CHARBUF PF_NA; par "args" PT_BYTEBUF PF_NA;
      par "tid" PT_PID PF_DEC; par "pid" PT_PID PF_DEC; par "ptid" PT_PID PF_DEC;
      par "cwd" PT_CHARBUF PF_NA; par "fdlimit" PT_UINT64 PF_DEC;
      par "pgft_maj" PT_UINT64 PF_DEC; par "pgft_min" PT_UINT64 PF_DEC;
      par "vm_size" PT_UINT32 PF_DEC; par "vm_rss" PT_UINT32 PF_DEC;
      par "vm_swap" PT_UINT32 PF_DEC; par "comm" PT_CHARBUF PF_NA;
      par "cgroups" PT_BYTEBUF PF_NA; par "env" PT_BYTEBUF PF_NA; par "tty" PT_INT32 PF_DEC]);
  (NODE_SYSCALL_UNSHARE, mk_event "unshare" EC_PROCESS (EF_NONE) 2 [
      par_i "flags" PT_FLAGS32 PF_HEX (INFO_FLAGS "clone_flags"); par "res" PT_ERRNO PF_DEC]);
  (NODE_SYSCALL_EXECVE_18, mk_event "execve" EC_PROCESS (EF_MODIFIES_STATE |! EF_OLD_VERSION) 18 [
      par "filename" PT_FSPATH PF_NA; par "res" PT_ERRNO PF_DEC; par "exe" PT_CHARBUF PF_NA;
      par "args" PT_BYTEBUF PF_NA; par "tid" PT_PID PF_DEC; par "pid" PT_PID PF_DEC;
      par "ptid" PT_PID PF_DEC; par "cwd" PT_CHARBUF PF_NA; par "fdlimit" PT_UINT64 PF_DEC;
      par "pgft_maj" PT_UINT64 PF_DEC; par "pgft_min" PT_UINT64 PF_DEC;
      par "vm_size" PT_UINT32 PF_DEC; par "vm_rss" PT_UINT32 PF_DEC;
      par "vm_swap" PT_UINT32 PF_DEC; par "comm" PT_CHARBUF PF_NA;
      par "cgroups" PT_BYTEBUF PF_NA; par "env" PT_BYTEBUF PF_NA; par "tty" PT_INT32 PF_DEC]);
  (NODE_SYSCALL_EXECVE_19, mk_event "execve" EC_PROCESS (EF_MODIFIES_STATE) 21 [
      par "filename" PT_FSPATH PF_NA; par "res" PT_ERRNO PF_DEC; par "exe" PT_CHARBUF PF_NA;
      par "args" PT_BYTEBUF PF_NA; par "tid" PT_PID PF_DEC; par "pid" PT_PID PF_DEC;
      par "ptid" PT_PID PF_DEC; par "cwd" PT_CHARBUF PF_NA; par "fdlimit" PT_UINT64 PF_DEC;
      par "pgft_maj" PT_UINT64 PF_DEC; par "pgft_min" PT_UINT64 PF_DEC;
      par "vm_size" PT_UINT32 PF_DEC; par "vm_rss" PT_UINT32 PF_DEC;
      par "vm_swap" PT_UINT32 PF_DEC; par "comm" PT_CHARBUF PF_NA;
      par "cgroups" PT_BYTEBUF PF_NA; par "env" PT_BYTEBUF PF_NA; par "tty" PT_INT32 PF_DEC;
      par "pgid" PT_PID PF_DEC; par "loginuid" PT_INT32 PF_DEC;
      par_i "flags" PT_FLAGS32 PF_HEX (INFO_FLAGS "execve_flags")]);
  (NODE_SYSCALL_SETPGID, mk_event "setpgid" EC_PROCESS (EF_MODIFIES_STATE) 3 [
      par "pid" PT_PID PF_DEC; par "pgid" PT_PID PF_DEC; par "res" PT_PID PF_DEC]);
  (NODE_SYSCALL_BPF, mk_event "bpf" EC_OTHER (EF_CREATES_FD) 2 [par "cmd" PT_INT64 PF_DEC;
      par_d "res_or_fd" PT_DYN PF_DEC (INFO_DYN bpf_dynamic_param) NOD_BPF_IDX_MAX]);
  (NODE_SYSCALL_SECCOMP, mk_event "seccomp" EC_OTHER (EF_NONE) 3 [par "op" PT_UINT64 PF_DEC;
      par "flags" PT_UINT64 PF_HEX; par "res" PT_ERRNO PF_DEC]);
  (NODE_SYSCALL_UNLINK_2, mk_event "unlink" EC_FILE (EF_NONE) 2 [par "res" PT_ERRNO PF_DEC;
      par "path" PT_FSPATH PF_NA]);
  (NODE_SYSCALL_UNLINKAT_2, mk_event "unlinkat" EC_FILE (EF_NONE) 4 [par "res" PT_ERRNO PF_DEC;
      par "dirfd" PT_FD PF_DEC; par_i "name" PT_FSRELPATH PF_NA (DIRFD_PARAM 1);
      par_i "flags" PT_FLAGS32 PF_HEX (INFO_FLAGS "unlinkat_flags")]);
  (NODE_SYSCALL_MKDIRAT, mk_event "mkdirat" EC_FILE (EF_NONE) 4 [par "res" PT_ERRNO PF_DEC;
      par "dirfd" PT_FD PF_DEC; par_i "path" PT_FSRELPATH PF_NA (DIRFD_PARAM 1);
      par "mode" PT_UINT32 PF_HEX]);
  (NODE_SYSCALL_OPENAT_2, mk_event "openat" EC_FILE (EF_CREATES_FD |! EF_MODIFIES_STATE) 6 [
      par "fd" PT_FD PF_DEC; par "dirfd" PT_FD PF_DEC;
      par_i "name" PT_FSRELPATH PF_NA (DIRFD_PARAM 1);
      par_i "flags" PT_FLAGS32 PF_HEX (INFO_FLAGS "file_flags"); par "mode" PT_UINT32 PF_OCT;
      par "dev" PT_UINT32 PF_HEX]);
  (NODE_SYSCALL_LINK_2, mk_event "link" EC_FILE (EF_NONE) 3 [par "res" PT_ERRNO PF_DEC;
      par "oldpath" PT_FSPATH PF_NA; par "newpath" PT_FSPATH PF_NA]);
  (NODE_SYSCALL_LINKAT_2, mk_event "linkat" EC_FILE (EF_NONE) 6 [par "res" PT_ERRNO PF_DEC;
      par "olddir" PT_FD PF_DEC; par_i "oldpath" PT_FSRELPATH PF_NA (DIRFD_PARAM 1);
      par "newdir" PT_FD PF_DEC; par_i "newpath" PT_FSRELPATH PF_NA (DIRFD_PARAM 3);
      par_i "flags" PT_FLAGS32 PF_HEX (INFO_FLAGS "linkat_flags")]);
  (NODE_SYSCALL_FCHMODAT, mk_event "fchmodat" EC_FILE (EF_NONE) 4 [par "res" PT_ERRNO PF_DEC;
      par "dirfd" PT_FD PF_DEC; par_i "filename" PT_FSRELPATH PF_NA (DIRFD_PARAM 1);
      par_i "mode" PT_MODE PF_OCT (INFO_FLAGS "chmod_mode")]);
  (NODE_SYSCALL_CHMOD, mk_event "chmod" EC_FILE (EF_NONE) 3 [par "res" PT_ERRNO PF_DEC;
      par "filename" PT_FSPATH PF_NA; par_i "mode" PT_MODE PF_OCT (INFO_FLAGS "chmod_mode")]);
  (NODE_SYSCALL_FCHMOD, mk_event "fchmod" EC_FILE (EF_NONE) 3 [par "res" PT_ERRNO PF_DEC;
      par "fd" PT_FD PF_DEC; par_i "mode" PT_MODE PF_OCT (INFO_FLAGS "chmod_mode")]);
  (NODE_SYSCALL_RENAMEAT2, mk_event "renameat2" EC_FILE (EF_NONE) 6 [par "res" PT_ERRNO PF_DEC;
      par "olddirfd" PT_FD PF_DEC; par_i "oldpath" PT_FSRELPATH PF_NA (DIRFD_PARAM 1);
      par "newdirfd" PT_FD PF_DEC; par_i "newpath" PT_FSRELPATH PF_NA (DIRFD_PARAM 3);
      par_i "flags" PT_FLAGS32 PF_HEX (INFO_FLAGS "renameat2_flags")]);
  (NODE_SYSCALL_USERFAULTFD, mk_event "userfaultfd" EC_FILE (EF_CREATES_FD |! EF_MODIFIES_STATE) 2 [
      par "res" PT_ERRNO PF_DEC; par_i "flags" PT_FLAGS32 PF_HEX (INFO_FLAGS "file_flags")]);
  (NODE_SYSCALL_OPENAT2, mk_event "openat2" EC_FILE (EF_CREATES_FD |! EF_MODIFIES_STATE) 6 [
      par "fd" PT_FD PF_DEC; par "dirfd" PT_FD PF_DEC;
      par_i "name" PT_FSRELPATH PF_NA (DIRFD_PARAM 1);
      par_i "flags" PT_FLAGS32 PF_HEX (INFO_FLAGS "file_flags"); par "mode" PT_UINT32 PF_OCT;
      par_i "resolve" PT_FLAGS32 PF_HEX (INFO_FLAGS "openat2_flags")]);
  (NODE_SYSCALL_MPROTECT, mk_event "mprotect" EC_MEMORY (EF_DROP_SIMPLE_CONS) 4 [
      par "addr" PT_UINT64 PF_HEX; par "length" PT_UINT64 PF_DEC;
      par_i "prot" PT_FLAGS32 PF_HEX (INFO_FLAGS "prot_flags"); par "res" PT_ERRNO PF_DEC]);
  (NODE_SYSCALL_EXECVEAT, mk_event "execveat" EC_PROCESS (EF_MODIFIES_STATE) 23 [
      par "dirfd" PT_FD PF_DEC; par_i "pathname" PT_FSRELPATH PF_NA (DIRFD_PARAM 0);
      par_i "flags" PT_FLAGS32 PF_HEX (INFO_FLAGS "execveat_flags"); par "res" PT_ERRNO PF_DEC;
      par "exe" PT_CHARBUF PF_NA; par "args" PT_BYTEBUF PF_NA; par "tid" PT_PID PF_DEC;
      par "pid" PT_PID PF_DEC; par "ptid" PT_PID PF_DEC; par "cwd" PT_CHARBUF PF_NA;
      par "fdlimit" PT_UINT64 PF_DEC; par "pgft_maj" PT_UINT64 PF_DEC;
      par "pgft_min" PT_UINT64 PF_DEC; par "vm_size" PT_UINT32 PF_DEC;
      par "vm_rss" PT_UINT32 PF_DEC; par "vm_swap" PT_UINT32 PF_DEC;
      par "comm" PT_CHARBUF PF_NA; par "cgroups" PT_BYTEBUF PF_NA; par "env" PT_BYTEBUF PF_NA;
      par "tty" PT_INT32 PF_DEC; par "pgid" PT_PID PF_DEC; par "loginuid" PT_INT32 PF_DEC;
      par_i "flags" PT_FLAGS32 PF_HEX (INFO_FLAGS "execve_flags")]);
  (NODE_SYSCALL_COPY_FILE_RANGE, mk_event "copy_file_range" EC_FILE (EF_USES_FD |! EF_READS_FROM_FD |! EF_WRITES_TO_FD) 6 [
      par "fdin" PT_FD PF_DEC; par "offin" PT_UINT64 PF_DEC; par "len" PT_UINT64 PF_DEC;
      par "res" PT_ERRNO PF_DEC; par "fdout" PT_FD PF_DEC; par "offout" PT_UINT64 PF_DEC]);
  (NODE_SYSCALL_CLONE3, mk_event "clone3" EC_PROCESS (EF_MODIFIES_STATE) 20 [
      par "res" PT_PID PF_DEC; par "exe" PT_CHARBUF PF_NA; par "args" PT_BYTEBUF PF_NA;
      par "tid" PT_PID PF_DEC; par "pid" PT_PID PF_DEC; par "ptid" PT_PID PF_DEC;
      par "cwd" PT_CHARBUF PF_NA; par "fdlimit" PT_INT64 PF_DEC;
      par "pgft_maj" PT_UINT64 PF_DEC; par "pgft_min" PT_UINT64 PF_DEC;
      par "vm_size" PT_UINT32 PF_DEC; par "vm_rss" PT_UINT32 PF_DEC;
      par "vm_swap" PT_UINT32 PF_DEC; par "comm" PT_CHARBUF PF_NA;
      par "cgroups" PT_BYTEBUF PF_NA;
      par_i "flags" PT_FLAGS32 PF_HEX (INFO_FLAGS "clone_flags"); par "uid" PT_UINT32 PF_DEC;
      par "gid" PT_UINT32 PF_DEC; par "vtid" PT_PID PF_DEC; par "vpid" PT_PID PF_DEC])].

(** [g_event_info[type]]. *)
Definition g_event_info (type : Z) : nod_event_info := table_get zero_event g_event_info_init type.

(** [g_event_info[type].params[i]], an array of [NOD_MAX_EVENT_PARAMS] slots;
    [None] is an index outside it. *)
Definition event_param (type i : Z) : option nod_param_info :=
  if (0 <=? i) && (i <? NOD_MAX_EVENT_PARAMS)
  then Some (default zero_param (ei_params (g_event_info type) !! Z.to_nat i))
  else None.

(** ** Fillers *)

(** The fillers of [FILLER_LIST_MAPPER]. *)
Inductive nod_filler_id : Set :=
  | F_sys_generic | F_sys_open | F_sys_empty | F_sys_read | F_sys_write | F_sys_execve
  | F_sys_procstart | F_sys_socket_bind | F_sys_connect | F_sys_send | F_sys_sendto | F_sys_recv
  | F_sys_recvfrom | F_sys_shutdown | F_sys_socketpair | F_sys_setsockopt | F_sys_getsockopt
  | F_sys_sendmsg | F_sys_recvmsg | F_sys_creat | F_sys_pipe | F_sys_eventfd | F_sys_futex
  | F_sys_poll | F_sys_lseek | F_sys_llseek | F_sys_pread | F_sys_pwrite | F_sys_readv_preadv
  | F_sys_writev | F_sys_preadv | F_sys_pwritev | F_sys_nanosleep | F_sys_getrlimit_setrlrimit
  | F_sys_prlimit | F_sys_fcntl | F_sys_brk_munmap_mmap | F_sys_ptrace | F_sys_renameat
  | F_sys_symlinkat | F_sys_sendfile | F_sys_quotactl | F_sys_getresuid_and_gid | F_proc_startupdate
  | F_sys_setns | F_sys_flock | F_sys_accept | F_sys_accept4 | F_sys_semop | F_sys_semctl
  | F_sys_ppoll | F_sys_mount | F_sys_semget | F_sys_access | F_sys_unshare | F_sys_bpf
  | F_sys_unlinkat | F_sys_mkdirat | F_sys_openat | F_sys_linkat | F_sys_fchmodat | F_sys_chmod
  | F_sys_fchmod | F_sys_renameat2 | F_sys_openat2 | F_sys_mprotect | F_sys_execveat
  | F_sys_copy_file_range | F_terminate_filler.

#[export] Instance nod_filler_id_eq_dec : EqDecision nod_filler_id.
Proof. solve_decision. Defined.

(** [struct nod_autofill_arg] and [struct nod_event_entry].  The fillers are weak
    symbols: one that no source file defines is a null callback. *)
Record nod_autofill_arg : Set := mk_af { af_id : Z; af_default : Z }.

Inductive autofill_paramtype : Set := APT_REG | APT_SOCK.

Record nod_event_entry : Set := mk_entry {
  filler_callback : option nod_filler_id;
  n_autofill_args : Z;
  paramtype : autofill_paramtype;
  autofill_args : list nod_autofill_arg }.

Definition zero_entry : nod_event_entry := mk_entry None 0 APT_REG [].

(** [FILLER_REF(x)]: the fillers with a definition in [fillers.c]. *)
Definition filler_defined (f : nod_filler_id) : bool :=
  match f with
  | F_sys_procstart | F_terminate_filler => false
  | _ => true
  end.

Definition fref (f : nod_filler_id) : option nod_filler_id :=
  if filler_defined f then Some f else None.

Definition ent (f : nod_filler_id) : nod_event_entry := mk_entry (fref f) 0 APT_REG [].
Definition ent_a (f : nod_filler_id) (n : Z) (pt : autofill_paramtype)
    (l : list nod_autofill_arg) : nod_event_entry :=
  mk_entry (fref f) n pt l.
Definition af (id : Z) : nod_autofill_arg := mk_af id 0.

(** [autofill_args[j]], an array of [NOD_MAX_AUTOFILL_ARGS] slots. *)
Definition autofill_arg (e : nod_event_entry) (j : Z) : option nod_autofill_arg :=
  if (0 <=? j) && (j <? NOD_MAX_AUTOFILL_ARGS)
  then Some (default (mk_af 0 0) (autofill_args e !! Z.to_nat j))
  else None.

(** [g_nod_events], compiled without [_64BIT_ARGS_SINGLE_REGISTER], which no file
    of the repository defines. *)
Definition g_nod_events_init : list (Z * nod_event_entry) := [
  (NODE_GENERIC, ent F_sys_generic);
  (NODE_SYSCALL_OPEN, ent F_sys_open);
  (NODE_SYSCALL_CLOSE, ent_a F_sys_empty 2 APT_SOCK [af 0; af AF_ID_RETVAL]);
  (NODE_SYSCALL_READ, ent_a F_sys_read 2 APT_REG [af 0; af 2]);
  (NODE_SYSCALL_WRITE, ent_a F_sys_write 2 APT_REG [af 0; af 2]);
  (NODE_SYSCALL_BRK_1, ent_a F_sys_empty 2 APT_REG [af 0; af AF_ID_RETVAL]);
  (NODE_SYSCALL_EXIT, ent_a F_sys_empty 1 APT_REG [af 0]);
  (NODE_SYSCALL_EXIT_GROUP, ent_a F_sys_empty 1 APT_REG [af 0]);
  (NODE_SYSCALL_EXECVE_8, ent F_sys_execve);
  (NODE_SYSCALL_CLONE_11, ent F_sys_procstart);
  (NODE_SOCKET_SOCKET, ent_a F_sys_empty 4 APT_SOCK [af 0; af 1; af 2; af AF_ID_RETVAL]);
  (NODE_SOCKET_BIND, ent_a F_sys_socket_bind 1 APT_SOCK [af 0]);
  (NODE_SOCKET_CONNECT, ent_a F_sys_connect 1 APT_SOCK [af 0]);
  (NODE_SOCKET_LISTEN, ent_a F_sys_empty 3 APT_SOCK [af 0; af 1; af AF_ID_RETVAL]);
  (NODE_SOCKET_SEND, ent F_sys_send);
  (NODE_SOCKET_SENDTO, ent F_sys_sendto);
  (NODE_SOCKET_RECV, ent_a F_sys_recv 2 APT_SOCK [af 0; af 2]);
  (NODE_SOCKET_RECVFROM, ent_a F_sys_recvfrom 2 APT_SOCK [af 0; af 2]);
  (NODE_SOCKET_SHUTDOWN, ent_a F_sys_shutdown 1 APT_REG [af AF_ID_RETVAL]);
  (NODE_SOCKET_GETSOCKNAME, ent F_sys_empty);
  (NODE_SOCKET_GETPEERNAME, ent F_sys_empty);
  (NODE_SOCKET_SOCKETPAIR, ent_a F_sys_socketpair 3 APT_SOCK [af 0; af 1; af 2]);
  (NODE_SOCKET_SETSOCKOPT, ent F_sys_setsockopt);
  (NODE_SOCKET_GETSOCKOPT, ent F_sys_getsockopt);
  (NODE_SOCKET_SENDMSG, ent F_sys_sendmsg);
  (NODE_SOCKET_SENDMMSG, ent F_sys_empty);
  (NODE_SOCKET_RECVMSG, ent_a F_sys_recvmsg 1 APT_SOCK [af 0]);
  (NODE_SOCKET_RECVMMSG, ent F_sys_empty);
  (NODE_SYSCALL_CREAT, ent F_sys_creat);
  (NODE_SYSCALL_PIPE, ent F_sys_pipe);
  (NODE_SYSCALL_EVENTFD, ent_a F_sys_eventfd 1 APT_REG [af AF_ID_RETVAL]);
  (NODE_SYSCALL_FUTEX, ent_a F_sys_futex 1 APT_REG [af AF_ID_RETVAL]);
  (NODE_SYSCALL_STAT, ent_a F_sys_empty 2 APT_REG [af AF_ID_RETVAL; af 0]);
  (NODE_SYSCALL_LSTAT, ent_a F_sys_empty 2 APT_REG [af AF_ID_RETVAL; af 0]);
  (NODE_SYSCALL_FSTAT, ent_a F_sys_empty 2 APT_REG [af AF_ID_RETVAL; af 0]);
  (NODE_SYSCALL_STAT64, ent_a F_sys_empty 2 APT_REG [af AF_ID_RETVAL; af 0]);
  (NODE_SYSCALL_LSTAT64, ent_a F_sys_empty 2 APT_REG [af AF_ID_RETVAL; af 0]);
  (NODE_SYSCALL_FSTAT64, ent_a F_sys_empty 2 APT_REG [af 0; af AF_ID_RETVAL]);
  (NODE_SYSCALL_EPOLLWAIT, ent_a F_sys_empty 2 APT_REG [af 2; af AF_ID_RETVAL]);
  (NODE_SYSCALL_POLL, ent F_sys_poll);
  (NODE_SYSCALL_SELECT, ent_a F_sys_empty 1 APT_REG [af AF_ID_RETVAL]);
  (NODE_SYSCALL_LSEEK, ent_a F_sys_lseek 1 APT_REG [af AF_ID_RETVAL]);
  (NODE_SYSCALL_LLSEEK, ent_a F_sys_llseek 1 APT_REG [af AF_ID_RETVAL]);
  (NODE_SYSCALL_GETCWD, ent_a F_sys_empty 2 APT_REG [af AF_ID_RETVAL; af 0]);
  (NODE_SYSCALL_CHDIR, ent_a F_sys_empty 2 APT_REG [af AF_ID_RETVAL; af 0]);
  (NODE_SYSCALL_FCHDIR, ent_a F_sys_empty 2 APT_REG [af 0; af AF_ID_RETVAL]);
  (NODE_SYSCALL_UNLINK, ent_a F_sys_empty 2 APT_REG [af 0; af AF_ID_RETVAL]);
  (NODE_SYSCALL_UNLINKAT, ent_a F_sys_empty 3 APT_REG [af 0; af 1; af AF_ID_RETVAL]);
  (NODE_SYSCALL_PREAD, ent F_sys_pread);
  (NODE_SYSCALL_PWRITE, ent F_sys_pwrite);
  (NODE_SYSCALL_READV, ent_a F_sys_readv_preadv 1 APT_REG [af 0]);
  (NODE_SYSCALL_WRITEV, ent F_sys_writev);
  (NODE_SYSCALL_PREADV, ent F_sys_preadv);
  (NODE_SYSCALL_PWRITEV, ent F_sys_pwritev);
  (NODE_SYSCALL_DUP, ent_a F_sys_empty 2 APT_REG [af 0; af AF_ID_RETVAL]);
  (NODE_SYSCALL_SIGNALFD, ent_a F_sys_empty 4 APT_REG [af 0; mk_af AF_ID_USEDEFAULT 0; mk_af AF_ID_USEDEFAULT 0]);
  (NODE_SYSCALL_KILL, ent_a F_sys_empty 3 APT_REG [af 0; af 1; af AF_ID_RETVAL]);
  (NODE_SYSCALL_TKILL, ent_a F_sys_empty 3 APT_REG [af 0; af 1; af AF_ID_RETVAL]);
  (NODE_SYSCALL_TGKILL, ent_a F_sys_empty 4 APT_REG [af 0; af 1; af 2; af AF_ID_RETVAL]);
  (NODE_SYSCALL_NANOSLEEP, ent_a F_sys_nanosleep 1 APT_REG [af AF_ID_RETVAL]);
  (NODE_SYSCALL_TIMERFD_CREATE, ent_a F_sys_empty 3 APT_REG [mk_af AF_ID_USEDEFAULT 0; mk_af AF_ID_USEDEFAULT 0; af AF_ID_RETVAL]);
  (NODE_SYSCALL_INOTIFY_INIT, ent_a F_sys_empty 2 APT_REG [mk_af AF_ID_USEDEFAULT 0; af AF_ID_RETVAL]);
  (NODE_SYSCALL_GETRLIMIT, ent F_sys_getrlimit_setrlrimit);
  (NODE_SYSCALL_SETRLIMIT, ent F_sys_getrlimit_setrlrimit);
  (NODE_SYSCALL_PRLIMIT, ent F_sys_prlimit);
  (NODE_SYSCALL_FCNTL, ent_a F_sys_fcntl 1 APT_REG [af AF_ID_RETVAL]);
  (NODE_SYSCALL_BRK_4, ent_a F_sys_brk_munmap_mmap 1 APT_REG [af 0]);
  (NODE_SYSCALL_MMAP, ent F_sys_brk_munmap_mmap);
  (NODE_SYSCALL_MMAP2, ent F_sys_brk_munmap_mmap);
  (NODE_SYSCALL_MUNMAP, ent_a F_sys_brk_munmap_mmap 2 APT_REG [af 0; af 1]);
  (NODE_SYSCALL_SPLICE, ent_a F_sys_empty 5 APT_REG [af 0; af 2; af 4; af 5; af AF_ID_RETVAL]);
  (NODE_SYSCALL_PTRACE, ent F_sys_ptrace);
  (NODE_SYSCALL_IOCTL_3, ent_a F_sys_empty 4 APT_REG [af 0; af 1; af 2; af AF_ID_RETVAL]);
  (NODE_SYSCALL_RENAME, ent_a F_sys_empty 3 APT_REG [af AF_ID_RETVAL; af 0; af 1]);
  (NODE_SYSCALL_RENAMEAT, ent F_sys_renameat);
  (NODE_SYSCALL_SYMLINK, ent_a F_sys_empty 3 APT_REG [af AF_ID_RETVAL; af 0; af 1]);
  (NODE_SYSCALL_SYMLINKAT, ent F_sys_symlinkat);
  (NODE_SYSCALL_SENDFILE, ent F_sys_sendfile);
  (NODE_SYSCALL_QUOTACTL, ent F_sys_quotactl);
  (NODE_SYSCALL_SETRESUID, ent_a F_sys_empty 4 APT_REG [af 0; af 1; af 2; af AF_ID_RETVAL]);
  (NODE_SYSCALL_SETRESGID, ent_a F_sys_empty 4 APT_REG [af 0; af 1; af 2; af AF_ID_RETVAL]);
  (NODE_SYSCALL_SETUID, ent_a F_sys_empty 2 APT_REG [af 0; af AF_ID_RETVAL]);
  (NODE_SYSCALL_SETGID, ent_a F_sys_empty 2 APT_REG [af 0; af AF_ID_RETVAL]);
  (NODE_SYSCALL_GETUID, ent_a F_sys_empty 1 APT_REG [af AF_ID_RETVAL]);
  (NODE_SYSCALL_GETEUID, ent_a F_sys_empty 1 APT_REG [af AF_ID_RETVAL]);
  (NODE_SYSCALL_GETGID, ent_a F_sys_empty 1 APT_REG [af AF_ID_RETVAL]);
  (NODE_SYSCALL_GETEGID, ent_a F_sys_empty 1 APT_REG [af AF_ID_RETVAL]);
  (NODE_SYSCALL_GETRESUID, ent F_sys_getresuid_and_gid);
  (NODE_SYSCALL_GETRESGID, ent F_sys_getresuid_and_gid);
  (NODE_SYSCALL_CLONE_20, ent F_proc_startupdate);
  (NODE_SYSCALL_FORK_20, ent F_proc_startupdate);
  (NODE_SYSCALL_VFORK_20, ent F_proc_startupdate);
  (NODE_SYSCALL_GETDENTS, ent_a F_sys_empty 2 APT_REG [af 0; af AF_ID_RETVAL]);
  (NODE_SYSCALL_GETDENTS64, ent_a F_sys_empty 2 APT_REG [af 0; af AF_ID_RETVAL]);
  (NODE_SYSCALL_SETNS, ent_a F_sys_setns 1 APT_REG [af AF_ID_RETVAL]);
  (NODE_SYSCALL_FLOCK, ent_a F_sys_flock 1 APT_REG [af AF_ID_RETVAL]);
  (NODE_SOCKET_ACCEPT_5, ent F_sys_accept);
  (NODE_SOCKET_ACCEPT4_5, ent F_sys_accept4);
  (NODE_SYSCALL_SEMOP, ent_a F_sys_semop 1 APT_REG [af 0]);
  (NODE_SYSCALL_SEMCTL, ent_a F_sys_semctl 1 APT_REG [af AF_ID_RETVAL]);
  (NODE_SYSCALL_PPOLL, ent F_sys_ppoll);
  (NODE_SYSCALL_MOUNT, ent_a F_sys_mount 4 APT_REG [af AF_ID_RETVAL; af 0; af 1; af 2]);
  (NODE_SYSCALL_UMOUNT, ent_a F_sys_empty 3 APT_REG [af 1; af AF_ID_RETVAL; af 0]);
  (NODE_SYSCALL_SEMGET, ent_a F_sys_semget 1 APT_REG [af AF_ID_RETVAL]);
  (NODE_SYSCALL_ACCESS, ent_a F_sys_access 2 APT_REG [af AF_ID_RETVAL; af 0]);
  (NODE_SYSCALL_CHROOT, ent_a F_sys_empty 2 APT_REG [af AF_ID_RETVAL; af 0]);
  (NODE_SYSCALL_SETSID, ent_a F_sys_empty 1 APT_REG [af AF_ID_RETVAL]);
  (NODE_SYSCALL_SETPGID, ent_a F_sys_empty 3 APT_REG [af 0; af 1; af AF_ID_RETVAL]);
  (NODE_SYSCALL_MKDIR_2, ent_a F_sys_empty 3 APT_REG [mk_af AF_ID_USEDEFAULT 0; af AF_ID_RETVAL; af 0]);
  (NODE_SYSCALL_RMDIR_2, ent_a F_sys_empty 2 APT_REG [af AF_ID_RETVAL; af 0]);
  (NODE_SYSCALL_UNSHARE, ent_a F_sys_unshare 1 APT_REG [af AF_ID_RETVAL]);
  (NODE_SYSCALL_EXECVE_19, ent F_sys_execve);
  (NODE_SYSCALL_BPF, ent_a F_sys_bpf 1 APT_REG [af 0]);
  (NODE_SYSCALL_SECCOMP, ent_a F_sys_empty 3 APT_REG [af 0; af 1; af AF_ID_RETVAL]);
  (NODE_SYSCALL_UNLINK_2, ent_a F_sys_empty 2 APT_REG [af AF_ID_RETVAL; af 0]);
  (NODE_SYSCALL_UNLINKAT_2, ent F_sys_unlinkat);
  (NODE_SYSCALL_MKDIRAT, ent F_sys_mkdirat);
  (NODE_SYSCALL_OPENAT_2, ent F_sys_openat);
  (NODE_SYSCALL_LINK_2, ent_a F_sys_empty 3 APT_REG [af AF_ID_RETVAL; af 0; af 1]);
  (NODE_SYSCALL_LINKAT_2, ent F_sys_linkat);
  (NODE_SYSCALL_FCHMODAT, ent F_sys_fchmodat);
  (NODE_SYSCALL_CHMOD, ent F_sys_chmod);
  (NODE_SYSCALL_FCHMOD, ent F_sys_fchmod);
  (NODE_SYSCALL_RENAMEAT2, ent F_sys_renameat2);
  (NODE_SYSCALL_USERFAULTFD, ent_a F_sys_empty 2 APT_REG [af AF_ID_RETVAL; af 0]);
  (NODE_SYSCALL_OPENAT2, ent F_sys_openat2);
  (NODE_SYSCALL_MPROTECT, ent F_sys_mprotect);
  (NODE_SYSCALL_EXECVEAT, ent F_sys_execveat);
  (NODE_SYSCALL_COPY_FILE_RANGE, ent F_sys_copy_file_range);
  (NODE_SYSCALL_CLONE3, ent F_proc_startupdate)].

(** [g_nod_events[type]]. *)
Definition g_nod_events (type : Z) : nod_event_entry := table_get zero_entry g_nod_events_init type.

(** ** System calls *)

(** [struct syscall_evt_pair]. *)
Record syscall_evt_pair : Set := mk_sys { sep_flags : Z; event_type : Z }.

(** [g_syscall_event_table] for x86_64, where the [__NR_] constants of the
    comments have the values of the first components; in three parts, in the order of the code. *)
Definition g_syscall_event_table_files : list (Z * syscall_evt_pair) := [
  (2 (* open *), mk_sys (UF_USED |! UF_NEVER_DROP) NODE_SYSCALL_OPEN);
  (85 (* creat *), mk_sys (UF_USED |! UF_NEVER_DROP) NODE_SYSCALL_CREAT);
  (3 (* close *), mk_sys (UF_USED |! UF_NEVER_DROP |! UF_SIMPLEDRIVER_KEEP) NODE_SYSCALL_CLOSE);
  (12 (* brk *), mk_sys (UF_USED |! UF_ALWAYS_DROP) NODE_SYSCALL_BRK_4);
  (0 (* read *), mk_sys (UF_USED) NODE_SYSCALL_READ);
  (1 (* write *), mk_sys (UF_USED) NODE_SYSCALL_WRITE);
  (59 (* execve *), mk_sys (UF_USED |! UF_NEVER_DROP |! UF_SIMPLEDRIVER_KEEP) NODE_SYSCALL_EXECVE_19);
  (56 (* clone *), mk_sys (UF_USED |! UF_NEVER_DROP |! UF_SIMPLEDRIVER_KEEP) NODE_SYSCALL_CLONE_20);
  (57 (* fork *), mk_sys (UF_USED |! UF_NEVER_DROP |! UF_SIMPLEDRIVER_KEEP) NODE_SYSCALL_FORK_20);
  (58 (* vfork *), mk_sys (UF_USED |! UF_NEVER_DROP |! UF_SIMPLEDRIVER_KEEP) NODE_SYSCALL_VFORK_20);
  (22 (* pipe *), mk_sys (UF_USED |! UF_NEVER_DROP) NODE_SYSCALL_PIPE);
  (293 (* pipe2 *), mk_sys (UF_USED |! UF_NEVER_DROP) NODE_SYSCALL_PIPE);
  (284 (* eventfd *), mk_sys (UF_USED |! UF_NEVER_DROP) NODE_SYSCALL_EVENTFD);
  (290 (* eventfd2 *), mk_sys (UF_USED |! UF_NEVER_DROP) NODE_SYSCALL_EVENTFD);
  (202 (* futex *), mk_sys (UF_USED |! UF_ALWAYS_DROP) NODE_SYSCALL_FUTEX);
  (4 (* stat *), mk_sys (UF_USED |! UF_ALWAYS_DROP) NODE_SYSCALL_STAT);
  (6 (* lstat *), mk_sys (UF_USED |! UF_ALWAYS_DROP) NODE_SYSCALL_LSTAT);
  (5 (* fstat *), mk_sys (UF_USED |! UF_ALWAYS_DROP) NODE_SYSCALL_FSTAT);
  (232 (* epoll_wait *), mk_sys (UF_USED |! UF_ALWAYS_DROP) NODE_SYSCALL_EPOLLWAIT);
  (7 (* poll *), mk_sys (UF_USED |! UF_ALWAYS_DROP) NODE_SYSCALL_POLL);
  (23 (* select *), mk_sys (UF_USED |! UF_ALWAYS_DROP) NODE_SYSCALL_SELECT);
  (8 (* lseek *), mk_sys (UF_USED |! UF_ALWAYS_DROP) NODE_SYSCALL_LSEEK);
  (16 (* ioctl *), mk_sys (UF_USED |! UF_ALWAYS_DROP) NODE_SYSCALL_IOCTL_3);
  (79 (* getcwd *), mk_sys (UF_USED |! UF_ALWAYS_DROP) NODE_SYSCALL_GETCWD);
  (80 (* chdir *), mk_sys (UF_USED |! UF_NEVER_DROP |! UF_SIMPLEDRIVER_KEEP) NODE_SYSCALL_CHDIR);
  (81 (* fchdir *), mk_sys (UF_USED |! UF_NEVER_DROP |! UF_SIMPLEDRIVER_KEEP) NODE_SYSCALL_FCHDIR);
  (83 (* mkdir *), mk_sys (UF_USED) NODE_SYSCALL_MKDIR_2);
  (84 (* rmdir *), mk_sys (UF_USED) NODE_SYSCALL_RMDIR_2);
  (257 (* openat *), mk_sys (UF_USED |! UF_NEVER_DROP) NODE_SYSCALL_OPENAT_2);
  (258 (* mkdirat *), mk_sys (UF_USED) NODE_SYSCALL_MKDIRAT);
  (86 (* link *), mk_sys (UF_USED) NODE_SYSCALL_LINK_2);
  (265 (* linkat *), mk_sys (UF_USED) NODE_SYSCALL_LINKAT_2);
  (87 (* unlink *), mk_sys (UF_USED) NODE_SYSCALL_UNLINK_2);
  (263 (* unlinkat *), mk_sys (UF_USED) NODE_SYSCALL_UNLINKAT_2);
  (17 (* pread64 *), mk_sys (UF_USED) NODE_SYSCALL_PREAD);
  (18 (* pwrite64 *), mk_sys (UF_USED) NODE_SYSCALL_PWRITE);
  (19 (* readv *), mk_sys (UF_USED) NODE_SYSCALL_READV);
  (20 (* writev *), mk_sys (UF_USED) NODE_SYSCALL_WRITEV);
  (295 (* preadv *), mk_sys (UF_USED) NODE_SYSCALL_PREADV);
  (296 (* pwritev *), mk_sys (UF_USED) NODE_SYSCALL_PWRITEV);
  (32 (* dup *), mk_sys (UF_USED |! UF_NEVER_DROP |! UF_SIMPLEDRIVER_KEEP) NODE_SYSCALL_DUP);
  (33 (* dup2 *), mk_sys (UF_USED |! UF_NEVER_DROP |! UF_SIMPLEDRIVER_KEEP) NODE_SYSCALL_DUP);
  (292 (* dup3 *), mk_sys (UF_USED |! UF_NEVER_DROP |! UF_SIMPLEDRIVER_KEEP) NODE_SYSCALL_DUP);
  (282 (* signalfd *), mk_sys (UF_USED |! UF_NEVER_DROP) NODE_SYSCALL_SIGNALFD);
  (289 (* signalfd4 *), mk_sys (UF_USED |! UF_NEVER_DROP) NODE_SYSCALL_SIGNALFD);
  (62 (* kill *), mk_sys (UF_USED) NODE_SYSCALL_KILL);
  (200 (* tkill *), mk_sys (UF_USED) NODE_SYSCALL_TKILL);
  (234 (* tgkill *), mk_sys (UF_USED) NODE_SYSCALL_TGKILL);
  (35 (* nanosleep *), mk_sys (UF_USED |! UF_ALWAYS_DROP) NODE_SYSCALL_NANOSLEEP);
  (283 (* timerfd_create *), mk_sys (UF_USED |! UF_NEVER_DROP) NODE_SYSCALL_TIMERFD_CREATE);
  (253 (* inotify_init *), mk_sys (UF_USED |! UF_NEVER_DROP) NODE_SYSCALL_INOTIFY_INIT);
  (294 (* inotify_init1 *), mk_sys (UF_USED |! UF_NEVER_DROP) NODE_SYSCALL_INOTIFY_INIT);
  (268 (* fchmodat *), mk_sys (UF_USED) NODE_SYSCALL_FCHMODAT);
  (91 (* fchmod *), mk_sys (UF_USED) NODE_SYSCALL_FCHMOD);
  (97 (* getrlimit *), mk_sys (UF_USED |! UF_NEVER_DROP) NODE_SYSCALL_GETRLIMIT);
  (160 (* setrlimit *), mk_sys (UF_USED |! UF_NEVER_DROP) NODE_SYSCALL_SETRLIMIT);
  (302 (* prlimit64 *), mk_sys (UF_USED |! UF_NEVER_DROP) NODE_SYSCALL_PRLIMIT);
  (72 (* fcntl *), mk_sys (UF_USED) NODE_SYSCALL_FCNTL);
  (270 (* pselect6 *), mk_sys (UF_USED |! UF_ALWAYS_DROP) NODE_GENERIC);
  (213 (* epoll_create *), mk_sys (UF_USED |! UF_ALWAYS_DROP) NODE_GENERIC);
  (233 (* epoll_ctl *), mk_sys (UF_USED |! UF_ALWAYS_DROP) NODE_GENERIC);
  (134 (* uselib *), mk_sys (UF_USED |! UF_ALWAYS_DROP) NODE_GENERIC);
  (142 (* sched_setparam *), mk_sys (UF_USED |! UF_ALWAYS_DROP) NODE_GENERIC);
  (143 (* sched_getparam *), mk_sys (UF_USED |! UF_ALWAYS_DROP) NODE_GENERIC);
  (103 (* syslog *), mk_sys (UF_USED |! UF_ALWAYS_DROP) NODE_GENERIC);
  (90 (* chmod *), mk_sys (UF_USED) NODE_SYSCALL_CHMOD);
  (94 (* lchown *), mk_sys (UF_USED) NODE_GENERIC);
  (132 (* utime *), mk_sys (UF_USED |! UF_ALWAYS_DROP) NODE_GENERIC);
  (165 (* mount *), mk_sys (UF_USED) NODE_SYSCALL_MOUNT);
  (166 (* umount2 *), mk_sys (UF_USED) NODE_SYSCALL_UMOUNT)].

Definition g_syscall_event_table_calls : list (Z * syscall_evt_pair) := [
  (101 (* ptrace *), mk_sys (UF_USED) NODE_SYSCALL_PTRACE);
  (37 (* alarm *), mk_sys (UF_USED |! UF_ALWAYS_DROP) NODE_GENERIC);
  (34 (* pause *), mk_sys (UF_USED |! UF_ALWAYS_DROP) NODE_GENERIC);
  (41 (* socket *), mk_sys (UF_USED |! UF_NEVER_DROP |! UF_SIMPLEDRIVER_KEEP) NODE_SOCKET_SOCKET);
  (49 (* bind *), mk_sys (UF_USED |! UF_NEVER_DROP) NODE_SOCKET_BIND);
  (42 (* connect *), mk_sys (UF_USED |! UF_SIMPLEDRIVER_KEEP) NODE_SOCKET_CONNECT);
  (50 (* listen *), mk_sys (UF_USED) NODE_SOCKET_LISTEN);
  (43 (* accept *), mk_sys (UF_USED |! UF_SIMPLEDRIVER_KEEP) NODE_SOCKET_ACCEPT_5);
  (51 (* getsockname *), mk_sys (UF_USED |! UF_ALWAYS_DROP) NODE_SOCKET_GETSOCKNAME);
  (52 (* getpeername *), mk_sys (UF_USED |! UF_ALWAYS_DROP) NODE_SOCKET_GETPEERNAME);
  (53 (* socketpair *), mk_sys (UF_USED |! UF_NEVER_DROP) NODE_SOCKET_SOCKETPAIR);
  (44 (* sendto *), mk_sys (UF_USED) NODE_SOCKET_SENDTO);
  (45 (* recvfrom *), mk_sys (UF_USED) NODE_SOCKET_RECVFROM);
  (48 (* shutdown *), mk_sys (UF_USED) NODE_SOCKET_SHUTDOWN);
  (54 (* setsockopt *), mk_sys (UF_USED |! UF_ALWAYS_DROP) NODE_SOCKET_SETSOCKOPT);
  (55 (* getsockopt *), mk_sys (UF_USED) NODE_SOCKET_GETSOCKOPT);
  (46 (* sendmsg *), mk_sys (UF_USED) NODE_SOCKET_SENDMSG);
  (288 (* accept4 *), mk_sys (UF_USED |! UF_SIMPLEDRIVER_KEEP) NODE_SOCKET_ACCEPT4_5);
  (307 (* sendmmsg *), mk_sys (UF_USED) NODE_SOCKET_SENDMMSG);
  (47 (* recvmsg *), mk_sys (UF_USED) NODE_SOCKET_RECVMSG);
  (299 (* recvmmsg *), mk_sys (UF_USED) NODE_SOCKET_RECVMMSG);
  (9 (* mmap *), mk_sys (UF_USED |! UF_ALWAYS_DROP) NODE_SYSCALL_MMAP);
  (11 (* munmap *), mk_sys (UF_USED |! UF_ALWAYS_DROP) NODE_SYSCALL_MUNMAP);
  (275 (* splice *), mk_sys (UF_USED) NODE_SYSCALL_SPLICE);
  (310 (* process_vm_readv *), mk_sys (UF_USED) NODE_GENERIC);
  (311 (* process_vm_writev *), mk_sys (UF_USED) NODE_GENERIC);
  (82 (* rename *), mk_sys (UF_USED) NODE_SYSCALL_RENAME);
  (264 (* renameat *), mk_sys (UF_USED) NODE_SYSCALL_RENAMEAT);
  (88 (* symlink *), mk_sys (UF_USED) NODE_SYSCALL_SYMLINK);
  (266 (* symlinkat *), mk_sys (UF_USED) NODE_SYSCALL_SYMLINKAT);
  (40 (* sendfile *), mk_sys (UF_USED) NODE_SYSCALL_SENDFILE);
  (179 (* quotactl *), mk_sys (UF_USED) NODE_SYSCALL_QUOTACTL);
  (117 (* setresuid *), mk_sys (UF_USED) NODE_SYSCALL_SETRESUID);
  (119 (* setresgid *), mk_sys (UF_USED) NODE_SYSCALL_SETRESGID);
  (105 (* setuid *), mk_sys (UF_USED) NODE_SYSCALL_SETUID);
  (106 (* setgid *), mk_sys (UF_USED) NODE_SYSCALL_SETGID)].

Definition g_syscall_event_table_ids : list (Z * syscall_evt_pair) := [
  (102 (* getuid *), mk_sys (UF_USED) NODE_SYSCALL_GETUID);
  (107 (* geteuid *), mk_sys (UF_USED) NODE_SYSCALL_GETEUID);
  (104 (* getgid *), mk_sys (UF_USED) NODE_SYSCALL_GETGID);
  (108 (* getegid *), mk_sys (UF_USED) NODE_SYSCALL_GETEGID);
  (118 (* getresuid *), mk_sys (UF_USED) NODE_SYSCALL_GETRESUID);
  (120 (* getresgid *), mk_sys (UF_USED) NODE_SYSCALL_GETRESGID);
  (78 (* getdents *), mk_sys (UF_USED |! UF_ALWAYS_DROP) NODE_SYSCALL_GETDENTS);
  (217 (* getdents64 *), mk_sys (UF_USED |! UF_ALWAYS_DROP) NODE_SYSCALL_GETDENTS64);
  (308 (* setns *), mk_sys (UF_USED) NODE_SYSCALL_SETNS);
  (272 (* unshare *), mk_sys (UF_USED |! UF_ALWAYS_DROP) NODE_SYSCALL_UNSHARE);
  (73 (* flock *), mk_sys (UF_USED |! UF_ALWAYS_DROP) NODE_SYSCALL_FLOCK);
  (65 (* semop *), mk_sys (UF_USED |! UF_ALWAYS_DROP) NODE_SYSCALL_SEMOP);
  (64 (* semget *), mk_sys (UF_USED |! UF_ALWAYS_DROP) NODE_SYSCALL_SEMGET);
  (66 (* semctl *), mk_sys (UF_USED |! UF_ALWAYS_DROP) NODE_SYSCALL_SEMCTL);
  (271 (* ppoll *), mk_sys (UF_USED |! UF_ALWAYS_DROP) NODE_SYSCALL_PPOLL);
  (21 (* access *), mk_sys (UF_USED |! UF_ALWAYS_DROP) NODE_SYSCALL_ACCESS);
  (161 (* chroot *), mk_sys (UF_USED |! UF_NEVER_DROP) NODE_SYSCALL_CHROOT);
  (112 (* setsid *), mk_sys (UF_USED |! UF_ALWAYS_DROP) NODE_SYSCALL_SETSID);
  (109 (* setpgid *), mk_sys (UF_USED |! UF_ALWAYS_DROP) NODE_SYSCALL_SETPGID);
  (321 (* bpf *), mk_sys (UF_USED) NODE_SYSCALL_BPF);
  (317 (* seccomp *), mk_sys (UF_USED) NODE_SYSCALL_SECCOMP);
  (316 (* renameat2 *), mk_sys (UF_USED) NODE_SYSCALL_RENAMEAT2);
  (323 (* userfaultfd *), mk_sys (UF_USED |! UF_NEVER_DROP) NODE_SYSCALL_USERFAULTFD);
  (437 (* openat2 *), mk_sys (UF_USED) NODE_SYSCALL_OPENAT2);
  (435 (* clone3 *), mk_sys (UF_USED |! UF_NEVER_DROP |! UF_SIMPLEDRIVER_KEEP) NODE_SYSCALL_CLONE3);
  (10 (* mprotect *), mk_sys (UF_USED) NODE_SYSCALL_MPROTECT);
  (322 (* execveat *), mk_sys (UF_USED |! UF_NEVER_DROP |! UF_SIMPLEDRIVER_KEEP) NODE_SYSCALL_EXECVEAT);
  (326 (* copy_file_range *), mk_sys (UF_USED) NODE_SYSCALL_COPY_FILE_RANGE)].

Definition g_syscall_event_table_init : list (Z * syscall_evt_pair) :=
  g_syscall_event_table_files ++ g_syscall_event_table_calls ++ g_syscall_event_table_ids.

(** [g_syscall_event_table[table_index]]. *)
Definition g_syscall_event_table (table_index : Z) : syscall_evt_pair :=
  table_get (mk_sys UF_NONE NODE_GENERIC) g_syscall_event_table_init table_index.
