(* ===== verification/Flags.v ===== *)
(** * Portable flags: [kmodule/flags.h]

    The conversions of system-call flags and commands into the portable
    representation of [include/events.h].  A chain of
    [if (flags & A) res |= B;] is a table folded by [or_flags]; a [switch] (or a
    chain of [else if (x == A)]) is a table searched by [switch].  The values of
    the kernel constants are those of the x86_64 ABI; cases under an [#ifdef]
    whose macro the headers of Linux 5.11 to 6.0 do not define are absent, and
    [ifdef] keeps those that depend on the headers the module is built with. *)

From S2P Require Import Prelude Kernel.

Local Open Scope Z_scope.

(** ** Constants of the kernel ABI (x86_64) *)

Definition O_CREAT : Z := 64.
Definition O_TMPFILE : Z := 0x410000.
Definition O_APPEND : Z := 0x400.
Definition O_DSYNC : Z := 0x1000.
Definition O_EXCL : Z := 128.
Definition O_NONBLOCK : Z := 0x800.
Definition O_SYNC : Z := 0x101000.
Definition O_TRUNC : Z := 0x200.
Definition O_DIRECT : Z := 0x4000.
Definition O_DIRECTORY : Z := 0x10000.
Definition O_LARGEFILE : Z := 0x8000.
Definition O_CLOEXEC : Z := 0x80000.
Definition O_RDONLY : Z := 0.
Definition O_WRONLY : Z := 1.
Definition O_RDWR : Z := 2.
Definition S_IRUSR : Z := 0x100.
Definition S_IWUSR : Z := 128.
Definition S_IXUSR : Z := 64.
Definition S_IRGRP : Z := 32.
Definition S_IWGRP : Z := 16.
Definition S_IXGRP : Z := 8.
Definition S_IROTH : Z := 4.
Definition S_IWOTH : Z := 2.
Definition S_IXOTH : Z := 1.
Definition S_ISUID : Z := 0x800.
Definition S_ISGID : Z := 0x400.
Definition S_ISVTX : Z := 0x200.
Definition CLONE_FILES : Z := 0x400.
Definition CLONE_FS : Z := 0x200.
Definition CLONE_IO : Z := 0x80000000.
Definition CLONE_NEWIPC : Z := 0x8000000.
Definition CLONE_NEWNET : Z := 0x40000000.
Definition CLONE_NEWNS : Z := 0x20000.
Definition CLONE_NEWPID : Z := 0x20000000.
Definition CLONE_NEWUTS : Z := 0x4000000.
Definition CLONE_PARENT_SETTID : Z := 0x100000.
Definition CLONE_PARENT : Z := 0x8000.
Definition CLONE_PTRACE : Z := 0x2000.
Definition CLONE_SIGHAND : Z := 0x800.
Definition CLONE_SYSVSEM : Z := 0x40000.
Definition CLONE_THREAD : Z := 0x10000.
Definition CLONE_UNTRACED : Z := 0x800000.
Definition CLONE_VM : Z := 0x100.
Definition CLONE_NEWUSER : Z := 0x10000000.
Definition CLONE_CHILD_CLEARTID : Z := 0x200000.
Definition CLONE_CHILD_SETTID : Z := 0x1000000.
Definition CLONE_SETTLS : Z := 0x80000.
Definition CLONE_VFORK : Z := 0x4000.
Definition CLONE_NEWCGROUP : Z := 0x2000000.
Definition AF_INET : Z := 2.
Definition AF_INET6 : Z := 10.
Definition AF_UNIX : Z := 1.
Definition AF_NETLINK : Z := 16.
Definition AF_PACKET : Z := 17.
Definition AF_UNSPEC : Z := 0.
Definition AF_AX25 : Z := 3.
Definition AF_IPX : Z := 4.
Definition AF_APPLETALK : Z := 5.
Definition AF_NETROM : Z := 6.
Definition AF_BRIDGE : Z := 7.
Definition AF_ATMPVC : Z := 8.
Definition AF_X25 : Z := 9.
Definition AF_ROSE : Z := 11.
Definition AF_DECnet : Z := 12.
Definition AF_NETBEUI : Z := 13.
Definition AF_SECURITY : Z := 14.
Definition AF_KEY : Z := 15.
Definition AF_ROUTE : Z := 16.
Definition AF_ASH : Z := 18.
Definition AF_ECONET : Z := 19.
Definition AF_ATMSVC : Z := 20.
Definition AF_RDS : Z := 21.
Definition AF_SNA : Z := 22.
Definition AF_IRDA : Z := 23.
Definition AF_PPPOX : Z := 24.
Definition AF_WANPIPE : Z := 25.
Definition AF_LLC : Z := 26.
Definition AF_CAN : Z := 29.
Definition AF_TIPC : Z := 30.
Definition AF_BLUETOOTH : Z := 31.
Definition AF_IUCV : Z := 32.
Definition AF_RXRPC : Z := 33.
Definition AF_ISDN : Z := 34.
Definition AF_PHONET : Z := 35.
Definition AF_IEEE802154 : Z := 36.
Definition AF_CAIF : Z := 37.
Definition AF_ALG : Z := 38.
Definition AF_NFC : Z := 39.
Definition PROT_READ : Z := 1.
Definition PROT_WRITE : Z := 2.
Definition PROT_EXEC : Z := 4.
Definition PROT_SEM : Z := 8.
Definition PROT_GROWSDOWN : Z := 0x1000000.
Definition PROT_GROWSUP : Z := 0x2000000.
Definition MAP_SHARED : Z := 1.
Definition MAP_PRIVATE : Z := 2.
Definition MAP_FIXED : Z := 16.
Definition MAP_ANONYMOUS : Z := 32.
Definition MAP_32BIT : Z := 64.
Definition MAP_NORESERVE : Z := 0x4000.
Definition MAP_POPULATE : Z := 0x8000.
Definition MAP_NONBLOCK : Z := 0x10000.
Definition MAP_GROWSDOWN : Z := 0x100.
Definition MAP_DENYWRITE : Z := 0x800.
Definition MAP_EXECUTABLE : Z := 0x1000.
Definition MAP_FILE : Z := 0.
Definition MAP_LOCKED : Z := 0x2000.
Definition F_DUPFD : Z := 0.
Definition F_GETFD : Z := 1.
Definition F_SETFD : Z := 2.
Definition F_GETFL : Z := 3.
Definition F_SETFL : Z := 4.
Definition F_GETLK : Z := 5.
Definition F_SETLK : Z := 6.
Definition F_SETLKW : Z := 7.
Definition F_SETOWN : Z := 8.
Definition F_GETOWN : Z := 9.
Definition F_SETSIG : Z := 10.
Definition F_GETSIG : Z := 11.
Definition F_SETOWN_EX : Z := 15.
Definition F_GETOWN_EX : Z := 16.
Definition F_SETLEASE : Z := 0x400.
Definition F_GETLEASE : Z := 0x401.
Definition F_CANCELLK : Z := 0x405.
Definition F_DUPFD_CLOEXEC : Z := 0x406.
Definition F_NOTIFY : Z := 0x402.
Definition F_SETPIPE_SZ : Z := 0x407.
Definition F_GETPIPE_SZ : Z := 0x408.
Definition F_OFD_GETLK : Z := 36.
Definition F_OFD_SETLK : Z := 37.
Definition F_OFD_SETLKW : Z := 38.
Definition SOL_SOCKET : Z := 1.
Definition SOL_TCP : Z := 6.
Definition SO_DEBUG : Z := 1.
Definition SO_REUSEADDR : Z := 2.
Definition SO_TYPE : Z := 3.
Definition SO_ERROR : Z := 4.
Definition SO_DONTROUTE : Z := 5.
Definition SO_BROADCAST : Z := 6.
Definition SO_SNDBUF : Z := 7.
Definition SO_RCVBUF : Z := 8.
Definition SO_SNDBUFFORCE : Z := 32.
Definition SO_RCVBUFFORCE : Z := 33.
Definition SO_KEEPALIVE : Z := 9.
Definition SO_OOBINLINE : Z := 10.
Definition SO_NO_CHECK : Z := 11.
Definition SO_PRIORITY : Z := 12.
Definition SO_LINGER : Z := 13.
Definition SO_BSDCOMPAT : Z := 14.
Definition SO_REUSEPORT : Z := 15.
Definition SO_PASSCRED : Z := 16.
Definition SO_PEERCRED : Z := 17.
Definition SO_RCVLOWAT : Z := 18.
Definition SO_SNDLOWAT : Z := 19.
Definition SO_RCVTIMEO : Z := 20.
Definition SO_SNDTIMEO : Z := 21.
Definition SO_SECURITY_AUTHENTICATION : Z := 22.
Definition SO_SECURITY_ENCRYPTION_TRANSPORT : Z := 23.
Definition SO_SECURITY_ENCRYPTION_NETWORK : Z := 24.
Definition SO_BINDTODEVICE : Z := 25.
Definition SO_ATTACH_FILTER : Z := 26.
Definition SO_DETACH_FILTER : Z := 27.
Definition SO_PEERNAME : Z := 28.
Definition SO_TIMESTAMP : Z := 29.
Definition SO_ACCEPTCONN : Z := 30.
Definition SO_PEERSEC : Z := 31.
Definition SO_PASSSEC : Z := 34.
Definition SO_TIMESTAMPNS : Z := 35.
Definition SO_MARK : Z := 36.
Definition SO_TIMESTAMPING : Z := 37.
Definition SO_PROTOCOL : Z := 38.
Definition SO_DOMAIN : Z := 39.
Definition SO_RXQ_OVFL : Z := 40.
Definition SO_WIFI_STATUS : Z := 41.
Definition SO_PEEK_OFF : Z := 42.
Definition SO_NOFCS : Z := 43.
Definition SO_LOCK_FILTER : Z := 44.
Definition SO_SELECT_ERR_QUEUE : Z := 45.
Definition SO_BUSY_POLL : Z := 46.
Definition SO_MAX_PACING_RATE : Z := 47.
Definition SO_BPF_EXTENSIONS : Z := 48.
Definition SO_INCOMING_CPU : Z := 49.
Definition SO_ATTACH_BPF : Z := 50.
Definition SO_PEERGROUPS : Z := 59.
Definition SO_MEMINFO : Z := 55.
Definition SO_COOKIE : Z := 57.
Definition POLLIN : Z := 1.
Definition POLLOUT : Z := 4.
Definition POLLRDHUP : Z := 0x2000.
Definition POLLERR : Z := 8.
Definition POLLHUP : Z := 16.
Definition POLLNVAL : Z := 32.
Definition POLLRDNORM : Z := 64.
Definition POLLRDBAND : Z := 128.
Definition POLLWRNORM : Z := 0x100.
Definition POLLWRBAND : Z := 0x200.
Definition FUTEX_WAIT : Z := 0.
Definition FUTEX_WAKE : Z := 1.
Definition FUTEX_FD : Z := 2.
Definition FUTEX_REQUEUE : Z := 3.
Definition FUTEX_CMP_REQUEUE : Z := 4.
Definition FUTEX_WAKE_OP : Z := 5.
Definition FUTEX_LOCK_PI : Z := 6.
Definition FUTEX_UNLOCK_PI : Z := 7.
Definition FUTEX_TRYLOCK_PI : Z := 8.
Definition FUTEX_WAIT_BITSET : Z := 9.
Definition FUTEX_WAKE_BITSET : Z := 10.
Definition FUTEX_WAIT_REQUEUE_PI : Z := 11.
Definition FUTEX_CMP_REQUEUE_PI : Z := 12.
Definition FUTEX_PRIVATE_FLAG : Z := 128.
Definition FUTEX_CLOCK_REALTIME : Z := 0x100.
Definition MAY_EXEC : Z := 1.
Definition MAY_READ : Z := 4.
Definition MAY_WRITE : Z := 2.
Definition RLIMIT_CPU : Z := 0.
Definition RLIMIT_FSIZE : Z := 1.
Definition RLIMIT_DATA : Z := 2.
Definition RLIMIT_STACK : Z := 3.
Definition RLIMIT_CORE : Z := 4.
Definition RLIMIT_RSS : Z := 5.
Definition RLIMIT_NPROC : Z := 6.
Definition RLIMIT_NOFILE : Z := 7.
Definition RLIMIT_MEMLOCK : Z := 8.
Definition RLIMIT_AS : Z := 9.
Definition RLIMIT_LOCKS : Z := 10.
Definition RLIMIT_SIGPENDING : Z := 11.
Definition RLIMIT_MSGQUEUE : Z := 12.
Definition RLIMIT_NICE : Z := 13.
Definition RLIMIT_RTPRIO : Z := 14.
Definition RLIMIT_RTTIME : Z := 15.
Definition SHUT_RD : Z := 0.
Definition SHUT_WR : Z := 1.
Definition SHUT_RDWR : Z := 2.
Definition SEEK_SET : Z := 0.
Definition SEEK_CUR : Z := 1.
Definition SEEK_END : Z := 2.
Definition IPC_NOWAIT : Z := 0x800.
Definition SEM_UNDO : Z := 0x1000.
Definition LOCK_EX : Z := 2.
Definition LOCK_SH : Z := 1.
Definition LOCK_UN : Z := 8.
Definition LOCK_NB : Z := 4.
Definition USRQUOTA : Z := 0.
Definition GRPQUOTA : Z := 1.
Definition SUBCMDMASK : Z := 255.
Definition SUBCMDSHIFT : Z := 8.
Definition Q_SYNC : Z := 0x800001.
Definition Q_QUOTAON : Z := 0x800002.
Definition Q_QUOTAOFF : Z := 0x800003.
Definition Q_GETFMT : Z := 0x800004.
Definition Q_GETINFO : Z := 0x800005.
Definition Q_SETINFO : Z := 0x800006.
Definition Q_GETQUOTA : Z := 0x800007.
Definition Q_SETQUOTA : Z := 0x800008.
Definition Q_XQUOTAON : Z := 0x5801.
Definition Q_XQUOTAOFF : Z := 0x5802.
Definition Q_XGETQUOTA : Z := 0x5803.
Definition Q_XSETQLIM : Z := 0x5804.
Definition Q_XGETQSTAT : Z := 0x5805.
Definition Q_XQUOTARM : Z := 0x5806.
Definition Q_XQUOTASYNC : Z := 0x5807.
Definition QFMT_VFS_OLD : Z := 1.
Definition QFMT_VFS_V0 : Z := 2.
Definition QFMT_VFS_V1 : Z := 4.
Definition IPC_CREAT : Z := 0x200.
Definition IPC_EXCL : Z := 0x400.
Definition IPC_STAT : Z := 2.
Definition IPC_SET : Z := 1.
Definition IPC_RMID : Z := 0.
Definition IPC_INFO : Z := 3.
Definition SEM_INFO : Z := 19.
Definition SEM_STAT : Z := 18.
Definition GETALL : Z := 13.
Definition GETNCNT : Z := 14.
Definition GETPID : Z := 11.
Definition GETVAL : Z := 12.
Definition GETZCNT : Z := 15.
Definition SETALL : Z := 17.
Definition SETVAL : Z := 16.
Definition PTRACE_SINGLEBLOCK : Z := 33.
Definition PTRACE_SYSEMU_SINGLESTEP : Z := 32.
Definition PTRACE_SYSEMU : Z := 31.
Definition PTRACE_ARCH_PRCTL : Z := 30.
Definition PTRACE_SET_THREAD_AREA : Z := 26.
Definition PTRACE_GET_THREAD_AREA : Z := 25.
Definition PTRACE_OLDSETOPTIONS : Z := 21.
Definition PTRACE_SETFPXREGS : Z := 19.
Definition PTRACE_GETFPXREGS : Z := 18.
Definition PTRACE_SETFPREGS : Z := 15.
Definition PTRACE_GETFPREGS : Z := 14.
Definition PTRACE_SETREGS : Z := 13.
Definition PTRACE_GETREGS : Z := 12.
Definition PTRACE_SETSIGMASK : Z := 0x420b.
Definition PTRACE_GETSIGMASK : Z := 0x420a.
Definition PTRACE_PEEKSIGINFO : Z := 0x4209.
Definition PTRACE_LISTEN : Z := 0x4208.
Definition PTRACE_INTERRUPT : Z := 0x4207.
Definition PTRACE_SEIZE : Z := 0x4206.
Definition PTRACE_SETREGSET : Z := 0x4205.
Definition PTRACE_GETREGSET : Z := 0x4204.
Definition PTRACE_SETSIGINFO : Z := 0x4203.
Definition PTRACE_GETSIGINFO : Z := 0x4202.
Definition PTRACE_GETEVENTMSG : Z := 0x4201.
Definition PTRACE_SETOPTIONS : Z := 0x4200.
Definition PTRACE_SYSCALL : Z := 24.
Definition PTRACE_DETACH : Z := 17.
Definition PTRACE_ATTACH : Z := 16.
Definition PTRACE_SINGLESTEP : Z := 9.
Definition PTRACE_KILL : Z := 8.
Definition PTRACE_CONT : Z := 7.
Definition PTRACE_POKEUSR : Z := 6.
Definition PTRACE_POKEDATA : Z := 5.
Definition PTRACE_POKETEXT : Z := 4.
Definition PTRACE_PEEKUSR : Z := 3.
Definition PTRACE_PEEKDATA : Z := 2.
Definition PTRACE_PEEKTEXT : Z := 1.
Definition PTRACE_TRACEME : Z := 0.
Definition AT_EMPTY_PATH : Z := 0x1000.
Definition AT_SYMLINK_NOFOLLOW : Z := 0x100.
Definition AT_REMOVEDIR : Z := 0x200.
Definition AT_SYMLINK_FOLLOW : Z := 0x400.
Definition RESOLVE_NO_XDEV : Z := 1.
Definition RESOLVE_NO_MAGICLINKS : Z := 2.
Definition RESOLVE_NO_SYMLINKS : Z := 4.
Definition RESOLVE_BENEATH : Z := 8.
Definition RESOLVE_IN_ROOT : Z := 16.
Definition RESOLVE_CACHED : Z := 32.
Definition QIF_BLIMITS : Z := 1.
Definition QIF_SPACE : Z := 2.
Definition QIF_ILIMITS : Z := 4.
Definition QIF_BTIME : Z := 16.
Definition QIF_ITIME : Z := 32.
Definition IIF_BGRACE : Z := 1.
Definition IIF_IGRACE : Z := 2.
Definition IIF_FLAGS : Z := 4.
Definition AT_FDCWD : Z := (-100).
Definition BPF_MAP_CREATE : Z := 0.
Definition BPF_PROG_LOAD : Z := 5.
Definition UNIX_PATH_MAX : Z := 108.

(** ** Portable constants of [include/events.h] *)

Definition NOD_O_CREAT : Z := 4.
Definition NOD_O_TMPFILE : Z := 0x2000.
Definition NOD_O_APPEND : Z := 8.
Definition NOD_O_DSYNC : Z := 16.
Definition NOD_O_EXCL : Z := 32.
Definition NOD_O_NONBLOCK : Z := 64.
Definition NOD_O_SYNC : Z := 128.
Definition NOD_O_TRUNC : Z := 0x100.
Definition NOD_O_DIRECT : Z := 0x200.
Definition NOD_O_DIRECTORY : Z := 0x400.
Definition NOD_O_LARGEFILE : Z := 0x800.
Definition NOD_O_CLOEXEC : Z := 0x1000.
Definition NOD_O_WRONLY : Z := 2.
Definition NOD_O_RDWR : Z := 3.
Definition NOD_O_RDONLY : Z := 1.
Definition NOD_S_IRUSR : Z := 0x100.
Definition NOD_S_IWUSR : Z := 128.
Definition NOD_S_IXUSR : Z := 64.
Definition NOD_S_IRGRP : Z := 32.
Definition NOD_S_IWGRP : Z := 16.
Definition NOD_S_IXGRP : Z := 8.
Definition NOD_S_IROTH : Z := 4.
Definition NOD_S_IWOTH : Z := 2.
Definition NOD_S_IXOTH : Z := 1.
Definition NOD_S_ISUID : Z := 0x800.
Definition NOD_S_ISGID : Z := 0x400.
Definition NOD_S_ISVTX : Z := 0x200.
Definition NOD_CL_CLONE_FILES : Z := 1.
Definition NOD_CL_CLONE_FS : Z := 2.
Definition NOD_CL_CLONE_IO : Z := 4.
Definition NOD_CL_CLONE_NEWIPC : Z := 8.
Definition NOD_CL_CLONE_NEWNET : Z := 16.
Definition NOD_CL_CLONE_NEWNS : Z := 32.
Definition NOD_CL_CLONE_NEWPID : Z := 64.
Definition NOD_CL_CLONE_NEWUTS : Z := 128.
Definition NOD_CL_CLONE_PARENT_SETTID : Z := 0x200.
Definition NOD_CL_CLONE_PARENT : Z := 0x100.
Definition NOD_CL_CLONE_PTRACE : Z := 0x400.
Definition NOD_CL_CLONE_SIGHAND : Z := 0x800.
Definition NOD_CL_CLONE_SYSVSEM : Z := 0x1000.
Definition NOD_CL_CLONE_THREAD : Z := 0x2000.
Definition NOD_CL_CLONE_UNTRACED : Z := 0x4000.
Definition NOD_CL_CLONE_VM : Z := 0x8000.
Definition NOD_CL_CLONE_NEWUSER : Z := 0x100000.
Definition NOD_CL_CLONE_CHILD_CLEARTID : Z := 0x800000.
Definition NOD_CL_CLONE_CHILD_SETTID : Z := 0x1000000.
Definition NOD_CL_CLONE_SETTLS : Z := 0x2000000.
Definition NOD_CL_CLONE_VFORK : Z := 0x8000000.
Definition NOD_CL_CLONE_NEWCGROUP : Z := 0x10000000.
Definition NOD_AF_INET : Z := 2.
Definition NOD_AF_INET6 : Z := 10.
Definition NOD_AF_UNIX : Z := 1.
Definition NOD_AF_NETLINK : Z := 16.
Definition NOD_AF_PACKET : Z := 17.
Definition NOD_AF_UNSPEC : Z := 0.
Definition NOD_AF_AX25 : Z := 3.
Definition NOD_AF_IPX : Z := 4.
Definition NOD_AF_APPLETALK : Z := 5.
Definition NOD_AF_NETROM : Z := 6.
Definition NOD_AF_BRIDGE : Z := 7.
Definition NOD_AF_ATMPVC : Z := 8.
Definition NOD_AF_X25 : Z := 9.
Definition NOD_AF_ROSE : Z := 11.
Definition NOD_AF_DECnet : Z := 12.
Definition NOD_AF_NETBEUI : Z := 13.
Definition NOD_AF_SECURITY : Z := 14.
Definition NOD_AF_KEY : Z := 15.
Definition NOD_AF_ROUTE : Z := 16.
Definition NOD_AF_ASH : Z := 18.
Definition NOD_AF_ECONET : Z := 19.
Definition NOD_AF_ATMSVC : Z := 20.
Definition NOD_AF_RDS : Z := 21.
Definition NOD_AF_SNA : Z := 22.
Definition NOD_AF_IRDA : Z := 23.
Definition NOD_AF_PPPOX : Z := 24.
Definition NOD_AF_WANPIPE : Z := 25.
Definition NOD_AF_LLC : Z := 26.
Definition NOD_AF_CAN : Z := 29.
Definition NOD_AF_TIPC : Z := 30.
Definition NOD_AF_BLUETOOTH : Z := 31.
Definition NOD_AF_IUCV : Z := 32.
Definition NOD_AF_RXRPC : Z := 33.
Definition NOD_AF_ISDN : Z := 34.
Definition NOD_AF_PHONET : Z := 35.
Definition NOD_AF_IEEE802154 : Z := 36.
Definition NOD_AF_CAIF : Z := 37.
Definition NOD_AF_ALG : Z := 38.
Definition NOD_AF_NFC : Z := 39.
Definition NOD_PROT_READ : Z := 1.
Definition NOD_PROT_WRITE : Z := 2.
Definition NOD_PROT_EXEC : Z := 4.
Definition NOD_PROT_SEM : Z := 8.
Definition NOD_PROT_GROWSDOWN : Z := 16.
Definition NOD_PROT_GROWSUP : Z := 32.
Definition NOD_MAP_SHARED : Z := 1.
Definition NOD_MAP_PRIVATE : Z := 2.
Definition NOD_MAP_FIXED : Z := 4.
Definition NOD_MAP_ANONYMOUS : Z := 8.
Definition NOD_MAP_32BIT : Z := 16.
Definition NOD_MAP_NORESERVE : Z := 64.
Definition NOD_MAP_POPULATE : Z := 128.
Definition NOD_MAP_NONBLOCK : Z := 0x100.
Definition NOD_MAP_GROWSDOWN : Z := 0x200.
Definition NOD_MAP_DENYWRITE : Z := 0x400.
Definition NOD_MAP_EXECUTABLE : Z := 0x800.
Definition NOD_MAP_FILE : Z := 0x2000.
Definition NOD_MAP_LOCKED : Z := 0x4000.
Definition NOD_FCNTL_F_DUPFD : Z := 1.
Definition NOD_FCNTL_F_GETFD : Z := 2.
Definition NOD_FCNTL_F_SETFD : Z := 3.
Definition NOD_FCNTL_F_GETFL : Z := 4.
Definition NOD_FCNTL_F_SETFL : Z := 5.
Definition NOD_FCNTL_F_GETLK : Z := 6.
Definition NOD_FCNTL_F_SETLK : Z := 8.
Definition NOD_FCNTL_F_SETLKW : Z := 9.
Definition NOD_FCNTL_F_SETOWN : Z := 10.
Definition NOD_FCNTL_F_GETOWN : Z := 12.
Definition NOD_FCNTL_F_SETSIG : Z := 13.
Definition NOD_FCNTL_F_GETSIG : Z := 15.
Definition NOD_FCNTL_F_SETOWN_EX : Z := 21.
Definition NOD_FCNTL_F_GETOWN_EX : Z := 22.
Definition NOD_FCNTL_F_SETLEASE : Z := 23.
Definition NOD_FCNTL_F_GETLEASE : Z := 24.
Definition NOD_FCNTL_F_CANCELLK : Z := 25.
Definition NOD_FCNTL_F_DUPFD_CLOEXEC : Z := 26.
Definition NOD_FCNTL_F_NOTIFY : Z := 27.
Definition NOD_FCNTL_F_SETPIPE_SZ : Z := 28.
Definition NOD_FCNTL_F_GETPIPE_SZ : Z := 29.
Definition NOD_FCNTL_F_OFD_GETLK : Z := 30.
Definition NOD_FCNTL_F_OFD_SETLK : Z := 31.
Definition NOD_FCNTL_F_OFD_SETLKW : Z := 32.
Definition NOD_SOCKOPT_LEVEL_SOL_SOCKET : Z := 1.
Definition NOD_SOCKOPT_LEVEL_SOL_TCP : Z := 2.
Definition NOD_SOCKOPT_LEVEL_UNKNOWN : Z := 0.
Definition NOD_SOCKOPT_SO_DEBUG : Z := 1.
Definition NOD_SOCKOPT_SO_REUSEADDR : Z := 2.
Definition NOD_SOCKOPT_SO_TYPE : Z := 3.
Definition NOD_SOCKOPT_SO_ERROR : Z := 4.
Definition NOD_SOCKOPT_SO_DONTROUTE : Z := 5.
Definition NOD_SOCKOPT_SO_BROADCAST : Z := 6.
Definition NOD_SOCKOPT_SO_SNDBUF : Z := 7.
Definition NOD_SOCKOPT_SO_RCVBUF : Z := 8.
Definition NOD_SOCKOPT_SO_SNDBUFFORCE : Z := 32.
Definition NOD_SOCKOPT_SO_RCVBUFFORCE : Z := 33.
Definition NOD_SOCKOPT_SO_KEEPALIVE : Z := 9.
Definition NOD_SOCKOPT_SO_OOBINLINE : Z := 10.
Definition NOD_SOCKOPT_SO_NO_CHECK : Z := 11.
Definition NOD_SOCKOPT_SO_PRIORITY : Z := 12.
Definition NOD_SOCKOPT_SO_LINGER : Z := 13.
Definition NOD_SOCKOPT_SO_BSDCOMPAT : Z := 14.
Definition NOD_SOCKOPT_SO_REUSEPORT : Z := 15.
Definition NOD_SOCKOPT_SO_PASSCRED : Z := 16.
Definition NOD_SOCKOPT_SO_PEERCRED : Z := 17.
Definition NOD_SOCKOPT_SO_RCVLOWAT : Z := 18.
Definition NOD_SOCKOPT_SO_SNDLOWAT : Z := 19.
Definition NOD_SOCKOPT_SO_RCVTIMEO : Z := 20.
Definition NOD_SOCKOPT_SO_SNDTIMEO : Z := 21.
Definition NOD_SOCKOPT_SO_SECURITY_AUTHENTICATION : Z := 22.
Definition NOD_SOCKOPT_SO_SECURITY_ENCRYPTION_TRANSPORT : Z := 23.
Definition NOD_SOCKOPT_SO_SECURITY_ENCRYPTION_NETWORK : Z := 24.
Definition NOD_SOCKOPT_SO_BINDTODEVICE : Z := 25.
Definition NOD_SOCKOPT_SO_ATTACH_FILTER : Z := 26.
Definition NOD_SOCKOPT_SO_DETACH_FILTER : Z := 27.
Definition NOD_SOCKOPT_SO_PEERNAME : Z := 28.
Definition NOD_SOCKOPT_SO_TIMESTAMP : Z := 29.
Definition NOD_SOCKOPT_SO_ACCEPTCONN : Z := 30.
Definition NOD_SOCKOPT_SO_PEERSEC : Z := 31.
Definition NOD_SOCKOPT_SO_PASSSEC : Z := 34.
Definition NOD_SOCKOPT_SO_TIMESTAMPNS : Z := 35.
Definition NOD_SOCKOPT_SO_MARK : Z := 36.
Definition NOD_SOCKOPT_SO_TIMESTAMPING : Z := 37.
Definition NOD_SOCKOPT_SO_PROTOCOL : Z := 38.
Definition NOD_SOCKOPT_SO_DOMAIN : Z := 39.
Definition NOD_SOCKOPT_SO_RXQ_OVFL : Z := 40.
Definition NOD_SOCKOPT_SO_WIFI_STATUS : Z := 41.
Definition NOD_SOCKOPT_SO_PEEK_OFF : Z := 42.
Definition NOD_SOCKOPT_SO_NOFCS : Z := 43.
Definition NOD_SOCKOPT_SO_LOCK_FILTER : Z := 44.
Definition NOD_SOCKOPT_SO_SELECT_ERR_QUEUE : Z := 45.
Definition NOD_SOCKOPT_SO_BUSY_POLL : Z := 46.
Definition NOD_SOCKOPT_SO_MAX_PACING_RATE : Z := 47.
Definition NOD_SOCKOPT_SO_BPF_EXTENSIONS : Z := 48.
Definition NOD_SOCKOPT_SO_INCOMING_CPU : Z := 49.
Definition NOD_SOCKOPT_SO_ATTACH_BPF : Z := 50.
Definition NOD_SOCKOPT_SO_PEERGROUPS : Z := 51.
Definition NOD_SOCKOPT_SO_MEMINFO : Z := 52.
Definition NOD_SOCKOPT_SO_COOKIE : Z := 53.
Definition NOD_POLLIN : Z := 1.
Definition NOD_POLLPRI : Z := 2.
Definition NOD_POLLOUT : Z := 4.
Definition NOD_POLLRDHUP : Z := 8.
Definition NOD_POLLERR : Z := 16.
Definition NOD_POLLHUP : Z := 32.
Definition NOD_POLLNVAL : Z := 64.
Definition NOD_POLLRDNORM : Z := 128.
Definition NOD_POLLRDBAND : Z := 0x100.
Definition NOD_POLLWRNORM : Z := 0x200.
Definition NOD_POLLWRBAND : Z := 0x400.
Definition NOD_FU_FUTEX_WAIT : Z := 0.
Definition NOD_FU_FUTEX_WAKE : Z := 1.
Definition NOD_FU_FUTEX_FD : Z := 2.
Definition NOD_FU_FUTEX_REQUEUE : Z := 3.
Definition NOD_FU_FUTEX_CMP_REQUEUE : Z := 4.
Definition NOD_FU_FUTEX_WAKE_OP : Z := 5.
Definition NOD_FU_FUTEX_LOCK_PI : Z := 6.
Definition NOD_FU_FUTEX_UNLOCK_PI : Z := 7.
Definition NOD_FU_FUTEX_TRYLOCK_PI : Z := 8.
Definition NOD_FU_FUTEX_WAIT_BITSET : Z := 9.
Definition NOD_FU_FUTEX_WAKE_BITSET : Z := 10.
Definition NOD_FU_FUTEX_WAIT_REQUEUE_PI : Z := 11.
Definition NOD_FU_FUTEX_CMP_REQUEUE_PI : Z := 12.
Definition NOD_FU_FUTEX_PRIVATE_FLAG : Z := 128.
Definition NOD_FU_FUTEX_CLOCK_REALTIME : Z := 0x100.
Definition NOD_X_OK : Z := 1.
Definition NOD_R_OK : Z := 4.
Definition NOD_W_OK : Z := 2.
Definition NOD_F_OK : Z := 0.
Definition NOD_RLIMIT_CPU : Z := 0.
Definition NOD_RLIMIT_FSIZE : Z := 1.
Definition NOD_RLIMIT_DATA : Z := 2.
Definition NOD_RLIMIT_STACK : Z := 3.
Definition NOD_RLIMIT_CORE : Z := 4.
Definition NOD_RLIMIT_RSS : Z := 5.
Definition NOD_RLIMIT_NPROC : Z := 6.
Definition NOD_RLIMIT_NOFILE : Z := 7.
Definition NOD_RLIMIT_MEMLOCK : Z := 8.
Definition NOD_RLIMIT_AS : Z := 9.
Definition NOD_RLIMIT_LOCKS : Z := 10.
Definition NOD_RLIMIT_SIGPENDING : Z := 11.
Definition NOD_RLIMIT_MSGQUEUE : Z := 12.
Definition NOD_RLIMIT_NICE : Z := 13.
Definition NOD_RLIMIT_RTPRIO : Z := 14.
Definition NOD_RLIMIT_RTTIME : Z := 15.
Definition NOD_RLIMIT_UNKNOWN : Z := 255.
Definition NOD_SHUT_RD : Z := 0.
Definition NOD_SEEK_SET : Z := 0.
Definition NOD_SEEK_CUR : Z := 1.
Definition NOD_SEEK_END : Z := 2.
Definition NOD_IPC_NOWAIT : Z := 1.
Definition NOD_SEM_UNDO : Z := 2.
Definition NOD_PF_PROTECTION_VIOLATION : Z := 1.
Definition NOD_PF_PAGE_NOT_PRESENT : Z := 2.
Definition NOD_PF_WRITE_ACCESS : Z := 4.
Definition NOD_PF_READ_ACCESS : Z := 8.
Definition NOD_PF_USER_FAULT : Z := 16.
Definition NOD_PF_SUPERVISOR_FAULT : Z := 32.
Definition NOD_PF_RESERVED_PAGE : Z := 64.
Definition NOD_PF_INSTRUCTION_FETCH : Z := 128.
Definition NOD_LOCK_EX : Z := 2.
Definition NOD_LOCK_SH : Z := 1.
Definition NOD_LOCK_UN : Z := 8.
Definition NOD_LOCK_NB : Z := 4.
Definition NOD_USRQUOTA : Z := 1.
Definition NOD_GRPQUOTA : Z := 2.
Definition NOD_Q_SYNC : Z := 128.
Definition NOD_Q_QUOTAON : Z := 1.
Definition NOD_Q_QUOTAOFF : Z := 2.
Definition NOD_Q_GETFMT : Z := 4.
Definition NOD_Q_GETINFO : Z := 8.
Definition NOD_Q_SETINFO : Z := 16.
Definition NOD_Q_GETQUOTA : Z := 32.
Definition NOD_Q_SETQUOTA : Z := 64.
Definition NOD_Q_XQUOTAON : Z := 0x100.
Definition NOD_Q_XQUOTAOFF : Z := 0x200.
Definition NOD_Q_XGETQUOTA : Z := 0x400.
Definition NOD_Q_XSETQLIM : Z := 0x800.
Definition NOD_Q_XGETQSTAT : Z := 0x1000.
Definition NOD_Q_XQUOTARM : Z := 0x2000.
Definition NOD_Q_XQUOTASYNC : Z := 0x4000.
Definition NOD_QFMT_VFS_OLD : Z := 2.
Definition NOD_QFMT_VFS_V0 : Z := 4.
Definition NOD_QFMT_VFS_V1 : Z := 8.
Definition NOD_QFMT_NOT_USED : Z := 1.
Definition NOD_IPC_CREAT : Z := 0x2000.
Definition NOD_IPC_EXCL : Z := 0x4000.
Definition NOD_IPC_STAT : Z := 1.
Definition NOD_IPC_SET : Z := 2.
Definition NOD_IPC_RMID : Z := 4.
Definition NOD_IPC_INFO : Z := 8.
Definition NOD_SEM_INFO : Z := 16.
Definition NOD_SEM_STAT : Z := 32.
Definition NOD_GETALL : Z := 64.
Definition NOD_GETNCNT : Z := 128.
Definition NOD_GETPID : Z := 0x100.
Definition NOD_GETVAL : Z := 0x200.
Definition NOD_GETZCNT : Z := 0x400.
Definition NOD_SETALL : Z := 0x800.
Definition NOD_SETVAL : Z := 0x1000.
Definition NOD_PTRACE_SINGLEBLOCK : Z := 38.
Definition NOD_PTRACE_SYSEMU_SINGLESTEP : Z := 37.
Definition NOD_PTRACE_SYSEMU : Z := 36.
Definition NOD_PTRACE_ARCH_PRCTL : Z := 35.
Definition NOD_PTRACE_SET_THREAD_AREA : Z := 34.
Definition NOD_PTRACE_GET_THREAD_AREA : Z := 33.
Definition NOD_PTRACE_OLDSETOPTIONS : Z := 32.
Definition NOD_PTRACE_SETFPXREGS : Z := 31.
Definition NOD_PTRACE_GETFPXREGS : Z := 30.
Definition NOD_PTRACE_SETFPREGS : Z := 29.
Definition NOD_PTRACE_GETFPREGS : Z := 28.
Definition NOD_PTRACE_SETREGS : Z := 27.
Definition NOD_PTRACE_GETREGS : Z := 26.
Definition NOD_PTRACE_SETSIGMASK : Z := 25.
Definition NOD_PTRACE_GETSIGMASK : Z := 24.
Definition NOD_PTRACE_PEEKSIGINFO : Z := 23.
Definition NOD_PTRACE_LISTEN : Z := 22.
Definition NOD_PTRACE_INTERRUPT : Z := 21.
Definition NOD_PTRACE_SEIZE : Z := 20.
Definition NOD_PTRACE_SETREGSET : Z := 19.
Definition NOD_PTRACE_GETREGSET : Z := 18.
Definition NOD_PTRACE_SETSIGINFO : Z := 17.
Definition NOD_PTRACE_GETSIGINFO : Z := 16.
Definition NOD_PTRACE_GETEVENTMSG : Z := 15.
Definition NOD_PTRACE_SETOPTIONS : Z := 14.
Definition NOD_PTRACE_SYSCALL : Z := 13.
Definition NOD_PTRACE_DETACH : Z := 12.
Definition NOD_PTRACE_ATTACH : Z := 11.
Definition NOD_PTRACE_SINGLESTEP : Z := 10.
Definition NOD_PTRACE_KILL : Z := 9.
Definition NOD_PTRACE_CONT : Z := 8.
Definition NOD_PTRACE_POKEUSR : Z := 7.
Definition NOD_PTRACE_POKEDATA : Z := 6.
Definition NOD_PTRACE_POKETEXT : Z := 5.
Definition NOD_PTRACE_PEEKUSR : Z := 4.
Definition NOD_PTRACE_PEEKDATA : Z := 3.
Definition NOD_PTRACE_PEEKTEXT : Z := 2.
Definition NOD_PTRACE_TRACEME : Z := 1.
Definition NOD_PTRACE_UNKNOWN : Z := 0.
Definition NOD_EXVAT_AT_EMPTY_PATH : Z := 1.
Definition NOD_EXVAT_AT_SYMLINK_NOFOLLOW : Z := 2.
Definition NOD_AT_REMOVEDIR : Z := 0x200.
Definition NOD_AT_SYMLINK_FOLLOW : Z := 0x400.
Definition NOD_AT_EMPTY_PATH : Z := 0x1000.
Definition NOD_RESOLVE_NO_XDEV : Z := 16.
Definition NOD_RESOLVE_NO_MAGICLINKS : Z := 4.
Definition NOD_RESOLVE_NO_SYMLINKS : Z := 8.
Definition NOD_RESOLVE_BENEATH : Z := 1.
Definition NOD_RESOLVE_IN_ROOT : Z := 2.
Definition NOD_RESOLVE_CACHED : Z := 32.
Definition NOD_AT_FDCWD : Z := (-100).
Definition NOD_CL_CHILD_IN_PIDNS : Z := 0x20000000.
Definition NOD_EXE_WRITABLE : Z := 1.

(** ** Combinators *)

(** [if (flags & A) res |= B;] for each [(A, B)] of the table. *)
Definition or_flags (flags : Z) (tbl : list (Z * Z)) (res : Z) : Z :=
  fold_left (fun res ab => if has flags ab.1 then res |! ab.2 else res) tbl res.

(** [switch (x) { case A: return B; ... default: return d; }] *)
Fixpoint switch {A : Type} (x : Z) (cases : list (Z * A)) (d : A) : A :=
  match cases with
  | [] => d
  | (a, b) :: rest => if x =? a then b else switch x rest d
  end.

(** Cases that return [b], where falling through is an [ASSERT(false)]. *)
Definition some_cases (cases : list (Z * Z)) : list (Z * option Z) :=
  List.map (fun ab => (ab.1, Some ab.2)) cases.

(** ** The conversions *)

Section flags.
Context {K : Kernel}.

(** [#ifdef macro] *)
Definition ifdef {A : Type} (macro : string) (cases : list A) : list A :=
if k_defined macro then cases else [].

(** [open_flags_to_scap] *)
Definition open_flags_to_scap_tbl : list (Z * Z) :=
  [(O_CREAT, NOD_O_CREAT); (O_TMPFILE, NOD_O_TMPFILE); (O_APPEND, NOD_O_APPEND);
   (O_DSYNC, NOD_O_DSYNC); (O_EXCL, NOD_O_EXCL); (O_NONBLOCK, NOD_O_NONBLOCK);
   (O_SYNC, NOD_O_SYNC); (O_TRUNC, NOD_O_TRUNC); (O_DIRECT, NOD_O_DIRECT);
   (O_DIRECTORY, NOD_O_DIRECTORY); (O_LARGEFILE, NOD_O_LARGEFILE);
   (O_CLOEXEC, NOD_O_CLOEXEC)].

Definition open_flags_to_scap (flags : Z) : Z :=
let res := switch (flags &! (O_RDONLY |! O_WRONLY |! O_RDWR))
             [(O_WRONLY, NOD_O_WRONLY); (O_RDWR, NOD_O_RDWR)] NOD_O_RDONLY in
u32 (or_flags flags open_flags_to_scap_tbl res).

(** [open_modes_to_scap] *)
Definition open_modes_to_scap_tbl : list (Z * Z) :=
  [(S_IRUSR, NOD_S_IRUSR); (S_IWUSR, NOD_S_IWUSR); (S_IXUSR, NOD_S_IXUSR);
   (S_IRGRP, NOD_S_IRGRP); (S_IWGRP, NOD_S_IWGRP); (S_IXGRP, NOD_S_IXGRP);
   (S_IROTH, NOD_S_IROTH); (S_IWOTH, NOD_S_IWOTH); (S_IXOTH, NOD_S_IXOTH);
   (S_ISUID, NOD_S_ISUID); (S_ISGID, NOD_S_ISGID); (S_ISVTX, NOD_S_ISVTX)].

Definition open_modes_to_scap (flags modes : Z) : Z :=
let flags_mask := O_CREAT |! O_TMPFILE in
if (flags &! flags_mask) =? 0 then 0
else u32 (or_flags modes open_modes_to_scap_tbl 0).

(** [clone_flags_to_scap] *)
Definition clone_flags_to_scap_tbl : list (Z * Z) :=
  [(CLONE_FILES, NOD_CL_CLONE_FILES); (CLONE_FS, NOD_CL_CLONE_FS);
   (CLONE_IO, NOD_CL_CLONE_IO); (CLONE_NEWIPC, NOD_CL_CLONE_NEWIPC);
   (CLONE_NEWNET, NOD_CL_CLONE_NEWNET); (CLONE_NEWNS, NOD_CL_CLONE_NEWNS);
   (CLONE_NEWPID, NOD_CL_CLONE_NEWPID); (CLONE_NEWUTS, NOD_CL_CLONE_NEWUTS);
   (CLONE_PARENT_SETTID, NOD_CL_CLONE_PARENT_SETTID); (CLONE_PARENT, NOD_CL_CLONE_PARENT);
   (CLONE_PTRACE, NOD_CL_CLONE_PTRACE); (CLONE_SIGHAND, NOD_CL_CLONE_SIGHAND);
   (CLONE_SYSVSEM, NOD_CL_CLONE_SYSVSEM); (CLONE_THREAD, NOD_CL_CLONE_THREAD);
   (CLONE_UNTRACED, NOD_CL_CLONE_UNTRACED); (CLONE_VM, NOD_CL_CLONE_VM);
   (CLONE_NEWUSER, NOD_CL_CLONE_NEWUSER);
   (CLONE_CHILD_CLEARTID, NOD_CL_CLONE_CHILD_CLEARTID);
   (CLONE_CHILD_SETTID, NOD_CL_CLONE_CHILD_SETTID); (CLONE_SETTLS, NOD_CL_CLONE_SETTLS);
   (CLONE_VFORK, NOD_CL_CLONE_VFORK); (CLONE_NEWCGROUP, NOD_CL_CLONE_NEWCGROUP)].

Definition clone_flags_to_scap (flags : Z) : Z :=
u32 (or_flags flags clone_flags_to_scap_tbl 0).

(** [socket_family_to_scap]; an unknown family violates the [ASSERT]. *)
Definition socket_family_to_scap_tbl : list (Z * Z) :=
  [(AF_INET, NOD_AF_INET); (AF_INET6, NOD_AF_INET6); (AF_UNIX, NOD_AF_UNIX);
   (AF_NETLINK, NOD_AF_NETLINK); (AF_PACKET, NOD_AF_PACKET); (AF_UNSPEC, NOD_AF_UNSPEC);
   (AF_AX25, NOD_AF_AX25); (AF_IPX, NOD_AF_IPX); (AF_APPLETALK, NOD_AF_APPLETALK);
   (AF_NETROM, NOD_AF_NETROM); (AF_BRIDGE, NOD_AF_BRIDGE); (AF_ATMPVC, NOD_AF_ATMPVC);
   (AF_X25, NOD_AF_X25); (AF_ROSE, NOD_AF_ROSE); (AF_DECnet, NOD_AF_DECnet);
   (AF_NETBEUI, NOD_AF_NETBEUI); (AF_SECURITY, NOD_AF_SECURITY); (AF_KEY, NOD_AF_KEY);
   (AF_ROUTE, NOD_AF_ROUTE); (AF_ASH, NOD_AF_ASH); (AF_ECONET, NOD_AF_ECONET);
   (AF_ATMSVC, NOD_AF_ATMSVC); (AF_RDS, NOD_AF_RDS); (AF_SNA, NOD_AF_SNA);
   (AF_IRDA, NOD_AF_IRDA); (AF_PPPOX, NOD_AF_PPPOX); (AF_WANPIPE, NOD_AF_WANPIPE);
   (AF_LLC, NOD_AF_LLC); (AF_CAN, NOD_AF_CAN); (AF_TIPC, NOD_AF_TIPC);
   (AF_BLUETOOTH, NOD_AF_BLUETOOTH); (AF_IUCV, NOD_AF_IUCV); (AF_RXRPC, NOD_AF_RXRPC);
   (AF_ISDN, NOD_AF_ISDN); (AF_PHONET, NOD_AF_PHONET); (AF_IEEE802154, NOD_AF_IEEE802154);
   (AF_CAIF, NOD_AF_CAIF); (AF_ALG, NOD_AF_ALG); (AF_NFC, NOD_AF_NFC)].

Definition socket_family_to_scap (family : Z) : option Z :=
switch (u8 family) (some_cases socket_family_to_scap_tbl) None.

(** [prot_flags_to_scap] *)
Definition prot_flags_to_scap_tbl : list (Z * Z) :=
  [(PROT_READ, NOD_PROT_READ); (PROT_WRITE, NOD_PROT_WRITE); (PROT_EXEC, NOD_PROT_EXEC);
   (PROT_SEM, NOD_PROT_SEM); (PROT_GROWSDOWN, NOD_PROT_GROWSDOWN);
   (PROT_GROWSUP, NOD_PROT_GROWSUP)].

Definition prot_flags_to_scap (prot : Z) : Z :=
u32 (or_flags (s32 prot) prot_flags_to_scap_tbl 0).

(** [mmap_flags_to_scap] *)
Definition mmap_flags_to_scap_tbl : list (Z * Z) :=
  [(MAP_SHARED, NOD_MAP_SHARED); (MAP_PRIVATE, NOD_MAP_PRIVATE);
   (MAP_FIXED, NOD_MAP_FIXED); (MAP_ANONYMOUS, NOD_MAP_ANONYMOUS);
   (MAP_32BIT, NOD_MAP_32BIT); (MAP_NORESERVE, NOD_MAP_NORESERVE);
   (MAP_POPULATE, NOD_MAP_POPULATE); (MAP_NONBLOCK, NOD_MAP_NONBLOCK);
   (MAP_GROWSDOWN, NOD_MAP_GROWSDOWN); (MAP_DENYWRITE, NOD_MAP_DENYWRITE);
   (MAP_EXECUTABLE, NOD_MAP_EXECUTABLE); (MAP_FILE, NOD_MAP_FILE);
   (MAP_LOCKED, NOD_MAP_LOCKED)].

Definition mmap_flags_to_scap (flags : Z) : Z :=
u32 (or_flags (s32 flags) mmap_flags_to_scap_tbl 0).

(** [fcntl_cmd_to_scap]; an unknown command violates the [ASSERT]. *)
Definition fcntl_cmd_to_scap_tbl : list (Z * Z) :=
  [(F_DUPFD, NOD_FCNTL_F_DUPFD); (F_GETFD, NOD_FCNTL_F_GETFD);
   (F_SETFD, NOD_FCNTL_F_SETFD); (F_GETFL, NOD_FCNTL_F_GETFL);
   (F_SETFL, NOD_FCNTL_F_SETFL); (F_GETLK, NOD_FCNTL_F_GETLK);
   (F_SETLK, NOD_FCNTL_F_SETLK); (F_SETLKW, NOD_FCNTL_F_SETLKW);
   (F_SETOWN, NOD_FCNTL_F_SETOWN); (F_GETOWN, NOD_FCNTL_F_GETOWN);
   (F_SETSIG, NOD_FCNTL_F_SETSIG); (F_GETSIG, NOD_FCNTL_F_GETSIG);
   (F_SETOWN_EX, NOD_FCNTL_F_SETOWN_EX); (F_GETOWN_EX, NOD_FCNTL_F_GETOWN_EX);
   (F_SETLEASE, NOD_FCNTL_F_SETLEASE); (F_GETLEASE, NOD_FCNTL_F_GETLEASE);
   (F_CANCELLK, NOD_FCNTL_F_CANCELLK); (F_DUPFD_CLOEXEC, NOD_FCNTL_F_DUPFD_CLOEXEC);
   (F_NOTIFY, NOD_FCNTL_F_NOTIFY); (F_SETPIPE_SZ, NOD_FCNTL_F_SETPIPE_SZ);
   (F_GETPIPE_SZ, NOD_FCNTL_F_GETPIPE_SZ); (F_OFD_GETLK, NOD_FCNTL_F_OFD_GETLK);
   (F_OFD_SETLK, NOD_FCNTL_F_OFD_SETLK); (F_OFD_SETLKW, NOD_FCNTL_F_OFD_SETLKW)].

Definition fcntl_cmd_to_scap (cmd : Z) : option Z :=
switch cmd (some_cases fcntl_cmd_to_scap_tbl) None.

(** [sockopt_level_to_scap] *)
Definition sockopt_level_to_scap (level : Z) : Z :=
u8 (switch (s32 level) [(SOL_SOCKET, NOD_SOCKOPT_LEVEL_SOL_SOCKET); (SOL_TCP, NOD_SOCKOPT_LEVEL_SOL_TCP)] NOD_SOCKOPT_LEVEL_UNKNOWN).

(** [sockopt_optname_to_scap]; an unknown option violates the [ASSERT]. *)
Definition sockopt_optname_to_scap_tbl : list (Z * Z) :=
  [(SO_DEBUG, NOD_SOCKOPT_SO_DEBUG); (SO_REUSEADDR, NOD_SOCKOPT_SO_REUSEADDR);
   (SO_TYPE, NOD_SOCKOPT_SO_TYPE); (SO_ERROR, NOD_SOCKOPT_SO_ERROR);
   (SO_DONTROUTE, NOD_SOCKOPT_SO_DONTROUTE); (SO_BROADCAST, NOD_SOCKOPT_SO_BROADCAST);
   (SO_SNDBUF, NOD_SOCKOPT_SO_SNDBUF); (SO_RCVBUF, NOD_SOCKOPT_SO_RCVBUF);
   (SO_SNDBUFFORCE, NOD_SOCKOPT_SO_SNDBUFFORCE);
   (SO_RCVBUFFORCE, NOD_SOCKOPT_SO_RCVBUFFORCE); (SO_KEEPALIVE, NOD_SOCKOPT_SO_KEEPALIVE);
   (SO_OOBINLINE, NOD_SOCKOPT_SO_OOBINLINE); (SO_NO_CHECK, NOD_SOCKOPT_SO_NO_CHECK);
   (SO_PRIORITY, NOD_SOCKOPT_SO_PRIORITY); (SO_LINGER, NOD_SOCKOPT_SO_LINGER);
   (SO_BSDCOMPAT, NOD_SOCKOPT_SO_BSDCOMPAT); (SO_REUSEPORT, NOD_SOCKOPT_SO_REUSEPORT);
   (SO_PASSCRED, NOD_SOCKOPT_SO_PASSCRED); (SO_PEERCRED, NOD_SOCKOPT_SO_PEERCRED);
   (SO_RCVLOWAT, NOD_SOCKOPT_SO_RCVLOWAT); (SO_SNDLOWAT, NOD_SOCKOPT_SO_SNDLOWAT)] ++
   ifdef "SO_RCVTIMEO" [(SO_RCVTIMEO, NOD_SOCKOPT_SO_RCVTIMEO)] ++
   ifdef "SO_SNDTIMEO" [(SO_SNDTIMEO, NOD_SOCKOPT_SO_SNDTIMEO)] ++
   [(SO_SECURITY_AUTHENTICATION, NOD_SOCKOPT_SO_SECURITY_AUTHENTICATION);
   (SO_SECURITY_ENCRYPTION_TRANSPORT, NOD_SOCKOPT_SO_SECURITY_ENCRYPTION_TRANSPORT);
   (SO_SECURITY_ENCRYPTION_NETWORK, NOD_SOCKOPT_SO_SECURITY_ENCRYPTION_NETWORK);
   (SO_BINDTODEVICE, NOD_SOCKOPT_SO_BINDTODEVICE);
   (SO_ATTACH_FILTER, NOD_SOCKOPT_SO_ATTACH_FILTER);
   (SO_DETACH_FILTER, NOD_SOCKOPT_SO_DETACH_FILTER);
   (SO_PEERNAME, NOD_SOCKOPT_SO_PEERNAME)] ++
   ifdef "SO_TIMESTAMP" [(SO_TIMESTAMP, NOD_SOCKOPT_SO_TIMESTAMP)] ++
   [(SO_ACCEPTCONN, NOD_SOCKOPT_SO_ACCEPTCONN); (SO_PEERSEC, NOD_SOCKOPT_SO_PEERSEC);
   (SO_PASSSEC, NOD_SOCKOPT_SO_PASSSEC)] ++
   ifdef "SO_TIMESTAMPNS" [(SO_TIMESTAMPNS, NOD_SOCKOPT_SO_TIMESTAMPNS)] ++
   [(SO_MARK, NOD_SOCKOPT_SO_MARK)] ++
   ifdef "SO_TIMESTAMPING" [(SO_TIMESTAMPING, NOD_SOCKOPT_SO_TIMESTAMPING)] ++
   [(SO_PROTOCOL, NOD_SOCKOPT_SO_PROTOCOL); (SO_DOMAIN, NOD_SOCKOPT_SO_DOMAIN);
   (SO_RXQ_OVFL, NOD_SOCKOPT_SO_RXQ_OVFL); (SO_WIFI_STATUS, NOD_SOCKOPT_SO_WIFI_STATUS);
   (SO_PEEK_OFF, NOD_SOCKOPT_SO_PEEK_OFF); (SO_NOFCS, NOD_SOCKOPT_SO_NOFCS);
   (SO_LOCK_FILTER, NOD_SOCKOPT_SO_LOCK_FILTER);
   (SO_SELECT_ERR_QUEUE, NOD_SOCKOPT_SO_SELECT_ERR_QUEUE);
   (SO_BUSY_POLL, NOD_SOCKOPT_SO_BUSY_POLL);
   (SO_MAX_PACING_RATE, NOD_SOCKOPT_SO_MAX_PACING_RATE);
   (SO_BPF_EXTENSIONS, NOD_SOCKOPT_SO_BPF_EXTENSIONS);
   (SO_INCOMING_CPU, NOD_SOCKOPT_SO_INCOMING_CPU);
   (SO_ATTACH_BPF, NOD_SOCKOPT_SO_ATTACH_BPF); (SO_PEERGROUPS, NOD_SOCKOPT_SO_PEERGROUPS);
   (SO_MEMINFO, NOD_SOCKOPT_SO_MEMINFO); (SO_COOKIE, NOD_SOCKOPT_SO_COOKIE)].

Definition sockopt_optname_to_scap (level optname : Z) : option Z :=
if negb (s32 level =? SOL_SOCKET) then Some NOD_SOCKOPT_LEVEL_UNKNOWN
else switch (s32 optname) (some_cases sockopt_optname_to_scap_tbl) None.

(** [poll_events_to_scap] *)
Definition poll_events_to_scap_tbl : list (Z * Z) :=
  [(POLLIN, NOD_POLLIN); (NOD_POLLPRI, NOD_POLLPRI); (POLLOUT, NOD_POLLOUT);
   (POLLRDHUP, NOD_POLLRDHUP); (POLLERR, NOD_POLLERR); (POLLHUP, NOD_POLLHUP);
   (POLLNVAL, NOD_POLLNVAL); (POLLRDNORM, NOD_POLLRDNORM); (POLLRDBAND, NOD_POLLRDBAND);
   (POLLWRNORM, NOD_POLLWRNORM); (POLLWRBAND, NOD_POLLWRBAND)].

Definition poll_events_to_scap (revents : Z) : Z :=
u16 (or_flags (s16 revents) poll_events_to_scap_tbl 0).

(** [futex_op_to_scap] *)
Definition futex_op_to_scap (op : Z) : Z :=
let flt_op := op &! 127 in
let res := switch flt_op
  [(FUTEX_WAIT, NOD_FU_FUTEX_WAIT); (FUTEX_WAKE, NOD_FU_FUTEX_WAKE);
   (FUTEX_FD, NOD_FU_FUTEX_FD); (FUTEX_REQUEUE, NOD_FU_FUTEX_REQUEUE);
   (FUTEX_CMP_REQUEUE, NOD_FU_FUTEX_CMP_REQUEUE); (FUTEX_WAKE_OP, NOD_FU_FUTEX_WAKE_OP);
   (FUTEX_LOCK_PI, NOD_FU_FUTEX_LOCK_PI); (FUTEX_UNLOCK_PI, NOD_FU_FUTEX_UNLOCK_PI);
   (FUTEX_TRYLOCK_PI, NOD_FU_FUTEX_TRYLOCK_PI);
   (FUTEX_WAIT_BITSET, NOD_FU_FUTEX_WAIT_BITSET);
   (FUTEX_WAKE_BITSET, NOD_FU_FUTEX_WAKE_BITSET);
   (FUTEX_WAIT_REQUEUE_PI, NOD_FU_FUTEX_WAIT_REQUEUE_PI);
   (FUTEX_CMP_REQUEUE_PI, NOD_FU_FUTEX_CMP_REQUEUE_PI)] 0 in
u16 (or_flags op [(FUTEX_PRIVATE_FLAG, NOD_FU_FUTEX_PRIVATE_FLAG);
                  (FUTEX_CLOCK_REALTIME, NOD_FU_FUTEX_CLOCK_REALTIME)] res).

(** [access_flags_to_scap] *)
Definition access_flags_to_scap (flags : Z) : Z :=
let flags := u32 flags in
if flags =? 0 then NOD_F_OK
else or_flags flags [(MAY_EXEC, NOD_X_OK); (MAY_READ, NOD_R_OK); (MAY_WRITE, NOD_W_OK)] 0.

(** [rlimit_resource_to_scap] *)
Definition rlimit_resource_to_scap (rresource : Z) : Z :=
u8 (switch rresource
  [(RLIMIT_CPU, NOD_RLIMIT_CPU); (RLIMIT_FSIZE, NOD_RLIMIT_FSIZE);
   (RLIMIT_DATA, NOD_RLIMIT_DATA); (RLIMIT_STACK, NOD_RLIMIT_STACK);
   (RLIMIT_CORE, NOD_RLIMIT_CORE); (RLIMIT_RSS, NOD_RLIMIT_RSS);
   (RLIMIT_NPROC, NOD_RLIMIT_NPROC); (RLIMIT_NOFILE, NOD_RLIMIT_NOFILE);
   (RLIMIT_MEMLOCK, NOD_RLIMIT_MEMLOCK); (RLIMIT_AS, NOD_RLIMIT_AS);
   (RLIMIT_LOCKS, NOD_RLIMIT_LOCKS); (RLIMIT_SIGPENDING, NOD_RLIMIT_SIGPENDING);
   (RLIMIT_MSGQUEUE, NOD_RLIMIT_MSGQUEUE); (RLIMIT_NICE, NOD_RLIMIT_NICE);
   (RLIMIT_RTPRIO, NOD_RLIMIT_RTPRIO); (RLIMIT_RTTIME, NOD_RLIMIT_RTTIME)] NOD_RLIMIT_UNKNOWN).

(** [shutdown_how_to_scap] *)
Definition shutdown_how_to_scap (how : Z) : option Z :=
if k_defined "SHUT_RD"
then switch how [(SHUT_RD, Some NOD_SHUT_RD); (SHUT_WR, Some SHUT_WR); (SHUT_RDWR, Some SHUT_RDWR)] None
else Some (u16 how).

(** [lseek_whence_to_scap] *)
Definition lseek_whence_to_scap (whence : Z) : Z :=
switch whence [(SEEK_SET, NOD_SEEK_SET); (SEEK_CUR, NOD_SEEK_CUR); (SEEK_END, NOD_SEEK_END)] 0.

(** [semop_flags_to_scap] *)
Definition semop_flags_to_scap_tbl : list (Z * Z) :=
  [(IPC_NOWAIT, NOD_IPC_NOWAIT); (SEM_UNDO, NOD_SEM_UNDO)].

Definition semop_flags_to_scap (flags : Z) : Z :=
u16 (or_flags (s16 flags) semop_flags_to_scap_tbl 0).

(** [pf_flags_to_scap] *)
Definition pf_flags_to_scap (flags : Z) : Z :=
let res := if has flags 0x1 then NOD_PF_PROTECTION_VIOLATION else NOD_PF_PAGE_NOT_PRESENT in
let res := res |! if has flags 0x2 then NOD_PF_WRITE_ACCESS else NOD_PF_READ_ACCESS in
let res := res |! if has flags 0x4 then NOD_PF_USER_FAULT else NOD_PF_SUPERVISOR_FAULT in
or_flags flags [(0x8, NOD_PF_RESERVED_PAGE); (0x10, NOD_PF_INSTRUCTION_FETCH)] res.

(** [flock_flags_to_scap] *)
Definition flock_flags_to_scap_tbl : list (Z * Z) :=
  [(LOCK_EX, NOD_LOCK_EX); (LOCK_SH, NOD_LOCK_SH); (LOCK_UN, NOD_LOCK_UN);
   (LOCK_NB, NOD_LOCK_NB)].

Definition flock_flags_to_scap (flags : Z) : Z :=
u32 (or_flags flags flock_flags_to_scap_tbl 0).

(** [quotactl_type_to_scap] *)
Definition quotactl_type_to_scap (cmd : Z) : Z :=
u8 (switch (cmd &! SUBCMDMASK) [(USRQUOTA, NOD_USRQUOTA); (GRPQUOTA, NOD_GRPQUOTA)] 0).

(** [quotactl_cmd_to_scap] *)
Definition quotactl_cmd_to_scap (cmd : Z) : Z :=
u16 (switch (Z.shiftr cmd SUBCMDSHIFT)
  [(Q_SYNC, NOD_Q_SYNC); (Q_QUOTAON, NOD_Q_QUOTAON); (Q_QUOTAOFF, NOD_Q_QUOTAOFF);
   (Q_GETFMT, NOD_Q_GETFMT); (Q_GETINFO, NOD_Q_GETINFO); (Q_SETINFO, NOD_Q_SETINFO);
   (Q_GETQUOTA, NOD_Q_GETQUOTA); (Q_SETQUOTA, NOD_Q_SETQUOTA);
   (Q_XQUOTAON, NOD_Q_XQUOTAON); (Q_XQUOTAOFF, NOD_Q_XQUOTAOFF);
   (Q_XGETQUOTA, NOD_Q_XGETQUOTA); (Q_XSETQLIM, NOD_Q_XSETQLIM);
   (Q_XGETQSTAT, NOD_Q_XGETQSTAT); (Q_XQUOTARM, NOD_Q_XQUOTARM);
   (Q_XQUOTASYNC, NOD_Q_XQUOTASYNC)] 0).

(** [quotactl_fmt_to_scap] *)
Definition quotactl_fmt_to_scap (fmt : Z) : Z :=
u8 (switch fmt [(QFMT_VFS_OLD, NOD_QFMT_VFS_OLD); (QFMT_VFS_V0, NOD_QFMT_VFS_V0);
   (QFMT_VFS_V1, NOD_QFMT_VFS_V1)] NOD_QFMT_NOT_USED).

(** [semget_flags_to_scap] *)
Definition semget_flags_to_scap_tbl : list (Z * Z) :=
  [(IPC_CREAT, NOD_IPC_CREAT); (IPC_EXCL, NOD_IPC_EXCL)].

Definition semget_flags_to_scap (flags : Z) : Z :=
u32 (or_flags (u32 flags) semget_flags_to_scap_tbl 0).

(** [semctl_cmd_to_scap] *)
Definition semctl_cmd_to_scap (cmd : Z) : Z :=
u32 (switch (u32 cmd)
  [(IPC_STAT, NOD_IPC_STAT); (IPC_SET, NOD_IPC_SET); (IPC_RMID, NOD_IPC_RMID);
   (IPC_INFO, NOD_IPC_INFO); (SEM_INFO, NOD_SEM_INFO); (SEM_STAT, NOD_SEM_STAT);
   (GETALL, NOD_GETALL); (GETNCNT, NOD_GETNCNT); (GETPID, NOD_GETPID);
   (GETVAL, NOD_GETVAL); (GETZCNT, NOD_GETZCNT); (SETALL, NOD_SETALL);
   (SETVAL, NOD_SETVAL)] 0).

(** [ptrace_requests_to_scap] *)
Definition ptrace_requests_to_scap (req : Z) : Z :=
u16 (switch req
  [(PTRACE_SINGLEBLOCK, NOD_PTRACE_SINGLEBLOCK);
   (PTRACE_SYSEMU_SINGLESTEP, NOD_PTRACE_SYSEMU_SINGLESTEP);
   (PTRACE_SYSEMU, NOD_PTRACE_SYSEMU); (PTRACE_ARCH_PRCTL, NOD_PTRACE_ARCH_PRCTL);
   (PTRACE_SET_THREAD_AREA, NOD_PTRACE_SET_THREAD_AREA);
   (PTRACE_GET_THREAD_AREA, NOD_PTRACE_GET_THREAD_AREA);
   (PTRACE_OLDSETOPTIONS, NOD_PTRACE_OLDSETOPTIONS);
   (PTRACE_SETFPXREGS, NOD_PTRACE_SETFPXREGS); (PTRACE_GETFPXREGS, NOD_PTRACE_GETFPXREGS);
   (PTRACE_SETFPREGS, NOD_PTRACE_SETFPREGS); (PTRACE_GETFPREGS, NOD_PTRACE_GETFPREGS);
   (PTRACE_SETREGS, NOD_PTRACE_SETREGS); (PTRACE_GETREGS, NOD_PTRACE_GETREGS);
   (PTRACE_SETSIGMASK, NOD_PTRACE_SETSIGMASK); (PTRACE_GETSIGMASK, NOD_PTRACE_GETSIGMASK);
   (PTRACE_PEEKSIGINFO, NOD_PTRACE_PEEKSIGINFO); (PTRACE_LISTEN, NOD_PTRACE_LISTEN);
   (PTRACE_INTERRUPT, NOD_PTRACE_INTERRUPT); (PTRACE_SEIZE, NOD_PTRACE_SEIZE);
   (PTRACE_SETREGSET, NOD_PTRACE_SETREGSET); (PTRACE_GETREGSET, NOD_PTRACE_GETREGSET);
   (PTRACE_SETSIGINFO, NOD_PTRACE_SETSIGINFO); (PTRACE_GETSIGINFO, NOD_PTRACE_GETSIGINFO);
   (PTRACE_GETEVENTMSG, NOD_PTRACE_GETEVENTMSG);
   (PTRACE_SETOPTIONS, NOD_PTRACE_SETOPTIONS); (PTRACE_SYSCALL, NOD_PTRACE_SYSCALL);
   (PTRACE_DETACH, NOD_PTRACE_DETACH); (PTRACE_ATTACH, NOD_PTRACE_ATTACH);
   (PTRACE_SINGLESTEP, NOD_PTRACE_SINGLESTEP); (PTRACE_KILL, NOD_PTRACE_KILL);
   (PTRACE_CONT, NOD_PTRACE_CONT); (PTRACE_POKEUSR, NOD_PTRACE_POKEUSR);
   (PTRACE_POKEDATA, NOD_PTRACE_POKEDATA); (PTRACE_POKETEXT, NOD_PTRACE_POKETEXT);
   (PTRACE_PEEKUSR, NOD_PTRACE_PEEKUSR); (PTRACE_PEEKDATA, NOD_PTRACE_PEEKDATA);
   (PTRACE_PEEKTEXT, NOD_PTRACE_PEEKTEXT); (PTRACE_TRACEME, NOD_PTRACE_TRACEME)] NOD_PTRACE_UNKNOWN).

(** [execveat_flags_to_scap] *)
Definition execveat_flags_to_scap_tbl : list (Z * Z) :=
  [(AT_EMPTY_PATH, NOD_EXVAT_AT_EMPTY_PATH);
   (AT_SYMLINK_NOFOLLOW, NOD_EXVAT_AT_SYMLINK_NOFOLLOW)].

Definition execveat_flags_to_scap (flags : Z) : Z :=
u32 (or_flags flags execveat_flags_to_scap_tbl 0).

(** [unlinkat_flags_to_scap] *)
Definition unlinkat_flags_to_scap_tbl : list (Z * Z) :=
  [(AT_REMOVEDIR, NOD_AT_REMOVEDIR)].

Definition unlinkat_flags_to_scap (flags : Z) : Z :=
u32 (or_flags flags unlinkat_flags_to_scap_tbl 0).

(** [linkat_flags_to_scap] *)
Definition linkat_flags_to_scap_tbl : list (Z * Z) :=
  [(AT_SYMLINK_FOLLOW, NOD_AT_SYMLINK_FOLLOW); (AT_EMPTY_PATH, NOD_AT_EMPTY_PATH)].

Definition linkat_flags_to_scap (flags : Z) : Z :=
u32 (or_flags flags linkat_flags_to_scap_tbl 0).

(** [chmod_mode_to_scap] *)
Definition chmod_mode_to_scap_tbl : list (Z * Z) :=
  [(S_IRUSR, NOD_S_IRUSR); (S_IWUSR, NOD_S_IWUSR); (S_IXUSR, NOD_S_IXUSR);
   (S_IRGRP, NOD_S_IRGRP); (S_IWGRP, NOD_S_IWGRP); (S_IXGRP, NOD_S_IXGRP);
   (S_IROTH, NOD_S_IROTH); (S_IWOTH, NOD_S_IWOTH); (S_IXOTH, NOD_S_IXOTH);
   (S_ISUID, NOD_S_ISUID); (S_ISGID, NOD_S_ISGID); (S_ISVTX, NOD_S_ISVTX)].

Definition chmod_mode_to_scap (modes : Z) : Z :=
u32 (or_flags modes chmod_mode_to_scap_tbl 0).

(** [openat2_resolve_to_scap] of [fillers.c] *)
Definition openat2_resolve_to_scap_tbl : list (Z * Z) :=
  [(RESOLVE_NO_XDEV, NOD_RESOLVE_NO_XDEV);
   (RESOLVE_NO_MAGICLINKS, NOD_RESOLVE_NO_MAGICLINKS);
   (RESOLVE_NO_SYMLINKS, NOD_RESOLVE_NO_SYMLINKS); (RESOLVE_BENEATH, NOD_RESOLVE_BENEATH);
   (RESOLVE_IN_ROOT, NOD_RESOLVE_IN_ROOT); (RESOLVE_CACHED, NOD_RESOLVE_CACHED)].

Definition openat2_resolve_to_scap (flags : Z) : Z :=
u32 (or_flags flags openat2_resolve_to_scap_tbl 0).
End flags.

