(* ===== verification/FlagsFacts.v ===== *)
(** * What the flag conversions preserve

    A table of masks is [exact] when no two of its portable flags share a bit;
    then a portable flag is set exactly when the kernel flag it stands for is,
    and no other bit appears.  The commands of a [switch] that falls through to
    an [ASSERT] are exactly the listed ones. *)

From S2P Require Import Prelude Kernel Flags.

Local Open Scope Z_scope.

(** ** Masks *)

Definition disjoint_bits (a b : Z) : bool := (a &! b) =? 0.

(** No two entries share a bit of their portable flag, and every portable flag is
    a non-empty set of bits below [w]. *)
Fixpoint exact (w : Z) (tbl : list (Z * Z)) : bool :=
  match tbl with
  | [] => true
  | (_, b) :: rest =>
      (0 <? b) && (b <? 2 ^ w) && forallb (fun cd => disjoint_bits b cd.2) rest && exact w rest
  end.

(** All the portable flags of a table. *)
Definition all_flags (tbl : list (Z * Z)) : Z := fold_right (fun ab acc => ab.2 |! acc) 0 tbl.

Lemma has_lor x y m : has (x |! y) m = has x m || has y m.
Proof.
  unfold has, ctrue. rewrite Z.land_lor_distr_l.
  destruct (Z.eqb_spec (x &! m) 0), (Z.eqb_spec (y &! m) 0), (Z.eqb_spec ((x &! m) |! (y &! m)) 0) as [E|E];
    try done; exfalso.
  - apply E. by rewrite e, e0.
  - apply Z.lor_eq_0_iff in E. tauto.
  - apply Z.lor_eq_0_iff in E. tauto.
  - apply Z.lor_eq_0_iff in E. tauto.
Qed.

Lemma has_0_l m : has 0 m = false.
Proof. done. Qed.

Lemma has_disjoint a b : disjoint_bits a b = true -> has b a = false.
Proof. unfold disjoint_bits, has, ctrue. rewrite Z.land_comm. by intros ->. Qed.

Lemma or_flags_app flags tbl res m :
  has (or_flags flags tbl res) m = has res m || has (or_flags flags tbl 0) m.
Proof.
  revert res. induction tbl as [|[a b] tbl IH]; intros res.
  - cbn. by rewrite orb_false_r.
  - change (or_flags flags ((a, b) :: tbl) res) with (or_flags flags tbl (if has flags a then res |! b else res)).
    change (or_flags flags ((a, b) :: tbl) 0) with (or_flags flags tbl (if has flags a then 0 |! b else 0)).
    rewrite IH, (IH (if has flags a then 0 |! b else 0)). destruct (has flags a); rewrite ?has_lor, ?has_0_l;
      by destruct (has res m), (has b m).
Qed.

Lemma or_flags_cons flags a b tbl res :
  or_flags flags ((a, b) :: tbl) res = or_flags flags tbl (if has flags a then res |! b else res).
Proof. done. Qed.

(** A flag no entry shares a bit with stays clear. *)
Lemma or_flags_disjoint flags tbl m :
  forallb (fun cd => disjoint_bits m cd.2) tbl = true -> has (or_flags flags tbl 0) m = false.
Proof.
  induction tbl as [|[a b] tbl IH]; [done|]. cbn [forallb snd].
  intros [Hb Ht]%andb_true_iff. rewrite or_flags_cons.
  rewrite or_flags_app, IH, orb_false_r by done. destruct (has flags a); [|done].
  rewrite has_lor, has_0_l. by apply has_disjoint.
Qed.

(** In an exact table each portable flag mirrors its kernel flag. *)
Lemma or_flags_exact w flags tbl a b :
  exact w tbl = true -> (a, b) ∈ tbl -> has (or_flags flags tbl 0) b = has flags a.
Proof.
  induction tbl as [|[c d] tbl IH]; [by intros _ ?%not_elem_of_nil|]. cbn [exact].
  intros [[[Hd _]%andb_true_iff Hdis]%andb_true_iff Hex]%andb_true_iff Hin.
  rewrite or_flags_cons, or_flags_app. apply elem_of_cons in Hin as [[= -> ->]|Hin].
  - rewrite or_flags_disjoint, orb_false_r by done. destruct (has flags c); [|done].
    unfold has, ctrue. rewrite Z.lor_0_l, Z.land_diag. apply Z.ltb_lt in Hd. cmp_case; [lia|done].
  - rewrite IH by done. destruct (has flags c); [|done]. rewrite has_lor, has_0_l.
    rewrite forallb_forall in Hdis. specialize (Hdis (a, b) (proj1 (list_elem_of_In _ _) Hin)).
    unfold disjoint_bits in Hdis. cbn [snd] in Hdis. unfold has at 1. unfold ctrue. by rewrite Hdis.
Qed.

(** No bit outside the portable flags of the table is set. *)
Lemma or_flags_subset flags tbl res :
  Z.land (or_flags flags tbl res) (all_flags tbl |! res) = or_flags flags tbl res.
Proof.
  revert res. induction tbl as [|[a b] tbl IH]; intros res.
  - cbn. by rewrite Z.land_diag.
  - rewrite or_flags_cons. change (all_flags ((a, b) :: tbl)) with (b |! all_flags tbl). set (res' := if has flags a then res |! b else res). rewrite <- (IH res') at 1 2. unfold res'.
    rewrite <- Z.land_assoc. f_equal. apply Z.bits_inj'. intros n Hn.
    destruct (has flags a); rewrite !Z.land_spec, !Z.lor_spec;
      by destruct (Z.testbit res n), (Z.testbit b n), (Z.testbit (all_flags tbl) n).
Qed.

Lemma all_flags_bound w tbl : 0 <= w -> exact w tbl = true -> 0 <= all_flags tbl < 2 ^ w.
Proof.
  intros Hw. induction tbl as [|[a b] tbl IH]; cbn [exact].
  - intros _. cbn. pose proof (Z.pow_pos_nonneg 2 w). lia.
  - intros [[[H1 H2]%andb_true_iff _]%andb_true_iff Hex]%andb_true_iff.
    apply Z.ltb_lt in H1, H2. specialize (IH Hex).
    change (all_flags ((a, b) :: tbl)) with (b |! all_flags tbl).
    split; [apply Z.lor_nonneg; lia|].
    destruct (Z.eqb_spec (b |! all_flags tbl) 0) as [->|Hnz]; [apply Z.pow_pos_nonneg; lia|].
    assert (0 <= b |! all_flags tbl) by (apply Z.lor_nonneg; lia).
    apply Z.log2_lt_pow2; [lia|]. rewrite Z.log2_lor by lia.
    destruct (Z.eqb_spec (all_flags tbl) 0) as [->|].
    + apply Z.max_lub_lt; [apply Z.log2_lt_pow2; lia|].
      assert (0 <= Z.log2 b) by apply Z.log2_nonneg.
      assert (Z.log2 b < w) by (apply Z.log2_lt_pow2; lia). cbn. lia.
    + apply Z.max_lub_lt; apply Z.log2_lt_pow2; lia.
Qed.

Lemma or_flags_bound w flags tbl : 0 <= w -> exact w tbl = true -> 0 <= or_flags flags tbl 0 < 2 ^ w.
Proof.
  intros Hw Hex. pose proof (all_flags_bound w tbl Hw Hex) as [H0 H1].
  rewrite <- or_flags_subset, Z.lor_0_r. split; [by apply Z.land_nonneg; right|].
  destruct (Z.eqb_spec (all_flags tbl) 0) as [->|]; [rewrite Z.land_0_r; apply Z.pow_pos_nonneg; lia|].
  assert (0 <= or_flags flags tbl 0) as Hnn.
  { rewrite <- or_flags_subset, Z.lor_0_r. by apply Z.land_nonneg; right. }
  destruct (Z.eqb_spec (or_flags flags tbl 0 &! all_flags tbl) 0) as [->|]; [apply Z.pow_pos_nonneg; lia|].
  assert (0 <= or_flags flags tbl 0 &! all_flags tbl) by (by apply Z.land_nonneg; right).
  apply Z.log2_lt_pow2; [lia|]. pose proof (Z.log2_land (or_flags flags tbl 0) (all_flags tbl) Hnn H0).
  assert (Z.log2 (all_flags tbl) < w) by (apply Z.log2_lt_pow2; lia). lia.
Qed.

(** The two together: what an exact table means for a conversion of width [w]. *)
Definition mirrors (conv : Z -> Z) (cast : Z -> Z) (tbl : list (Z * Z)) : Prop :=
  forall flags,
    (forall a b, (a, b) ∈ tbl -> has (conv flags) b = has (cast flags) a) /\
    Z.land (conv flags) (all_flags tbl) = conv flags.

Lemma or_flags_mirrors w (conv cast : Z -> Z) tbl :
  0 <= w -> (forall flags, conv flags = unsigned w (or_flags (cast flags) tbl 0)) ->
  exact w tbl = true -> mirrors conv cast tbl.
Proof.
  intros Hw Hc Hex flags. rewrite Hc. pose proof (or_flags_bound w (cast flags) tbl Hw Hex).
  rewrite unsigned_small by done. split.
  - intros a b Hin. by eapply or_flags_exact.
  - pose proof (or_flags_subset (cast flags) tbl 0) as E. by rewrite Z.lor_0_r in E.
Qed.

(** ** Commands *)

Lemma switch_in {A} x (cases : list (Z * A)) d :
  switch x cases d = d \/ exists v, (x, v) ∈ cases /\ switch x cases d = v.
Proof.
  induction cases as [|[a b] cases IH]; cbn [switch]; [by left|].
  destruct (Z.eqb_spec x a) as [->|].
  - right. exists b. split; [constructor|done].
  - destruct IH as [?|(v & ? & ?)]; [by left|]. right. exists v. split; [by constructor|done].
Qed.

Lemma switch_not_in {A} x (cases : list (Z * A)) d :
  existsb (fun ab => ab.1 =? x) cases = false -> switch x cases d = d.
Proof.
  induction cases as [|[a b] cases IH]; cbn [switch existsb fst]; [done|].
  intros [H1 H2]%orb_false_iff. rewrite Z.eqb_sym, H1. auto.
Qed.

(** A command of the table is converted, any other one reaches the [ASSERT]. *)
Lemma switch_some_iff x cases :
  is_Some (switch x (some_cases cases) None) <-> existsb (fun ab => ab.1 =? x) cases = true.
Proof.
  unfold some_cases. induction cases as [|[a b] cases IH]; cbn [List.map switch existsb fst snd].
  - split; [by intros [? ?]|done].
  - rewrite Z.eqb_sym. destruct (Z.eqb_spec a x); cbn [orb]; [|done]. split; [done|by eexists].
Qed.

(** Two commands of a table whose codes are all different are told apart. *)
Fixpoint distinct_codes (cases : list (Z * Z)) : bool :=
  match cases with
  | [] => true
  | (_, b) :: rest => forallb (fun cd => negb (cd.2 =? b)) rest && distinct_codes rest
  end.

Lemma switch_some_inj cases x y v :
  distinct_codes cases = true ->
  switch x (some_cases cases) None = Some v -> switch y (some_cases cases) None = Some v -> x = y.
Proof.
  unfold some_cases. induction cases as [|[a b] cases IH]; cbn [distinct_codes List.map switch fst snd]; [done|].
  intros [Hd Hr]%andb_true_iff. rewrite forallb_forall in Hd.
  assert (forall z, switch z (List.map (fun ab => (ab.1, Some ab.2)) cases) None = Some b -> False) as Hno.
  { intros z Hz. destruct (switch_in z (List.map (fun ab => (ab.1, Some ab.2)) cases) None) as [E|(w & Hw & E)];
      [congruence|]. rewrite Hz in E. subst w. apply list_elem_of_In, in_map_iff in Hw as ([c d] & [= _ ->] & Hin).
    specialize (Hd _ Hin). cbn in Hd. by rewrite Z.eqb_refl in Hd. }
  destruct (Z.eqb_spec x a) as [->|], (Z.eqb_spec y a) as [->|]; intros H1 H2; simplify_eq; try done.
  - exfalso; eauto.
  - exfalso; eauto.
  - eauto.
Qed.

(** ** The conversions of [flags.h] *)

Section conversions.
Context {K : Kernel}.

Definition id_cast (x : Z) : Z := x.

Lemma or_flags_res flags tbl r : or_flags flags tbl r = or_flags flags tbl 0 |! r.
Proof.
unfold or_flags. revert r. induction tbl as [|[a b] tbl IH] using rev_ind; intros r; [done|].
rewrite !fold_left_app, IH. cbn. destruct (has flags a); [|done].
rewrite <- !Z.lor_assoc. f_equal. apply Z.lor_comm.
Qed.

(** The access mode that [open_flags_to_scap] reports, and its flags without the cast. *)
Definition access_mode (flags : Z) : Z := switch (Z.land flags 3) [(O_WRONLY, NOD_O_WRONLY); (O_RDWR, NOD_O_RDWR)] NOD_O_RDONLY.

Lemma access_mode_cases flags : access_mode flags = 1 \/ access_mode flags = 2 \/ access_mode flags = 3.
Proof. unfold access_mode. cbn [switch]. do 2 (case_match; [tauto|]); tauto. Qed.

Lemma open_flags_or flags : open_flags_to_scap flags = or_flags flags open_flags_to_scap_tbl 0 |! access_mode flags.
Proof.
unfold open_flags_to_scap. change (O_RDONLY |! O_WRONLY |! O_RDWR) with 3. fold (access_mode flags). rewrite or_flags_res.
pose proof (or_flags_bound 32 flags open_flags_to_scap_tbl ltac:(lia) ltac:(by vm_compute)) as Hb. pose proof (access_mode_cases flags) as Hm.
apply unsigned_small. split; [apply Z.lor_nonneg; lia|].
destruct (Z.eqb_spec (or_flags flags open_flags_to_scap_tbl 0) 0) as [->|]; [rewrite Z.lor_0_l; lia|].
apply Z.log2_lt_pow2; [assert (0 <= or_flags flags open_flags_to_scap_tbl 0 |! access_mode flags) by (apply Z.lor_nonneg; lia);
  assert (or_flags flags open_flags_to_scap_tbl 0 |! access_mode flags <> 0) by (rewrite Z.lor_eq_0_iff; lia); lia|].
rewrite Z.log2_lor by lia. apply Z.max_lub_lt; apply Z.log2_lt_pow2; lia.
Qed.

(** [open_flags_to_scap] reports the access mode of [flags & 3] in the two low
  bits, every other portable flag exactly when the kernel's mask intersects
  the argument, and nothing else. *)
Lemma open_flags_reported flags :
Z.land (open_flags_to_scap flags) 3 = access_mode flags /\
(forall a b, (a, b) ∈ open_flags_to_scap_tbl -> has (open_flags_to_scap flags) b = has flags a) /\
Z.land (open_flags_to_scap flags) (all_flags open_flags_to_scap_tbl |! 3) = open_flags_to_scap flags.
Proof.
rewrite open_flags_or. pose proof (access_mode_cases flags) as Hres. set (res := access_mode flags) in *.
assert (Z.land (or_flags flags open_flags_to_scap_tbl 0) 3 = 0) as H3.
{ pose proof (or_flags_disjoint flags open_flags_to_scap_tbl 3 ltac:(by vm_compute)) as H.
  unfold has, ctrue in H. apply negb_false_iff, Z.eqb_eq in H. done. }
split; [|split].
- rewrite Z.land_lor_distr_l, H3, Z.lor_0_l. destruct Hres as [->|[->| ->]]; done.
- intros a b Hin. rewrite has_lor, (or_flags_exact 32 _ _ a b) by (done || by vm_compute).
  assert (has res b = false) as ->; [|by rewrite orb_false_r].
  assert (forallb (fun ab => negb (has 1 ab.2) && negb (has 2 ab.2) && negb (has 3 ab.2)) open_flags_to_scap_tbl = true) as F
    by by vm_compute.
  rewrite forallb_forall in F. specialize (F (a, b) (proj1 (list_elem_of_In _ _) Hin)). cbn [snd] in F.
  apply andb_true_iff in F as [[F1%negb_true_iff F2%negb_true_iff]%andb_true_iff F3%negb_true_iff].
  by destruct Hres as [->|[->| ->]].
- pose proof (or_flags_subset flags open_flags_to_scap_tbl 0) as E. rewrite Z.lor_0_r in E.
  rewrite Z.land_lor_distr_l, Z.land_lor_distr_r, E, H3, Z.lor_0_r. f_equal. by destruct Hres as [->|[->| ->]].
Qed.

Lemma access_mirrors : mirrors access_flags_to_scap u32 [(MAY_EXEC, NOD_X_OK); (MAY_READ, NOD_R_OK); (MAY_WRITE, NOD_W_OK)].
Proof.
apply (or_flags_mirrors 32); [done| |by vm_compute]. intros flags. unfold access_flags_to_scap. set (tbl := [_; _; _]).
assert ((if u32 flags =? 0 then NOD_F_OK else or_flags (u32 flags) tbl 0) = or_flags (u32 flags) tbl 0) as ->
  by (destruct (Z.eqb_spec (u32 flags) 0) as [->|]; done).
symmetry. apply unsigned_small, or_flags_bound; [done|by vm_compute].
Qed.

Lemma pf_flags_reported flags (r := pf_flags_to_scap flags) :
has r NOD_PF_PROTECTION_VIOLATION = has flags 0x1 /\ has r NOD_PF_PAGE_NOT_PRESENT = negb (has flags 0x1) /\
has r NOD_PF_WRITE_ACCESS = has flags 0x2 /\ has r NOD_PF_READ_ACCESS = negb (has flags 0x2) /\
has r NOD_PF_USER_FAULT = has flags 0x4 /\ has r NOD_PF_SUPERVISOR_FAULT = negb (has flags 0x4) /\
has r NOD_PF_RESERVED_PAGE = has flags 0x8 /\ has r NOD_PF_INSTRUCTION_FETCH = has flags 0x10 /\ Z.land r 255 = r.
Proof.
subst r. unfold pf_flags_to_scap. cbn [or_flags fold_left fst snd].
by destruct (has flags 0x1), (has flags 0x2), (has flags 0x4), (has flags 0x8), (has flags 0x10).
Qed.

(** C39: The mask conversions lose and invent nothing: for every entry [(A, B)] of
  the conversion the portable flag [B] is set in the result exactly when the
  kernel flag [A] is set in the argument (after the cast to the parameter's C
  type), and the result has no bit outside the listed portable flags.  "Set" means that
  the argument meets the mask, as the code tests it; the kernel's [O_TMPFILE] and [O_SYNC], the only
  masks of several bits, are thus also reported for [O_DIRECTORY] and [O_DSYNC] alone.
  [open_flags_to_scap] adds the access mode in its two low bits, [open_modes_to_scap] gives 0
  unless the flags of the call meet [O_CREAT] or [O_TMPFILE], and [pf_flags_to_scap] has a portable flag for each of
  the three low bits being clear as well.  The conversions of commands and numbers
  are not masks. *)
Theorem flag_conversions_mirror :
mirrors clone_flags_to_scap id_cast clone_flags_to_scap_tbl /\
mirrors prot_flags_to_scap s32 prot_flags_to_scap_tbl /\
mirrors mmap_flags_to_scap s32 mmap_flags_to_scap_tbl /\
mirrors poll_events_to_scap s16 poll_events_to_scap_tbl /\
mirrors semop_flags_to_scap s16 semop_flags_to_scap_tbl /\
mirrors flock_flags_to_scap id_cast flock_flags_to_scap_tbl /\
mirrors semget_flags_to_scap u32 semget_flags_to_scap_tbl /\
mirrors execveat_flags_to_scap id_cast execveat_flags_to_scap_tbl /\
mirrors unlinkat_flags_to_scap id_cast unlinkat_flags_to_scap_tbl /\
mirrors linkat_flags_to_scap id_cast linkat_flags_to_scap_tbl /\
mirrors chmod_mode_to_scap id_cast chmod_mode_to_scap_tbl /\
mirrors openat2_resolve_to_scap id_cast openat2_resolve_to_scap_tbl /\
mirrors access_flags_to_scap u32 [(MAY_EXEC, NOD_X_OK); (MAY_READ, NOD_R_OK); (MAY_WRITE, NOD_W_OK)] /\
(forall flags, if has flags (O_CREAT |! O_TMPFILE) then mirrors (open_modes_to_scap flags) id_cast open_modes_to_scap_tbl
  else forall modes, open_modes_to_scap flags modes = 0) /\
(forall flags, let r := open_flags_to_scap flags in
  Z.land r 3 = switch (Z.land flags 3) [(O_WRONLY, NOD_O_WRONLY); (O_RDWR, NOD_O_RDWR)] NOD_O_RDONLY /\
  (forall a b, (a, b) ∈ open_flags_to_scap_tbl -> has r b = has flags a) /\ Z.land r (all_flags open_flags_to_scap_tbl |! 3) = r) /\
(forall flags, let r := pf_flags_to_scap flags in
  has r NOD_PF_PROTECTION_VIOLATION = has flags 0x1 /\ has r NOD_PF_PAGE_NOT_PRESENT = negb (has flags 0x1) /\
  has r NOD_PF_WRITE_ACCESS = has flags 0x2 /\ has r NOD_PF_READ_ACCESS = negb (has flags 0x2) /\
  has r NOD_PF_USER_FAULT = has flags 0x4 /\ has r NOD_PF_SUPERVISOR_FAULT = negb (has flags 0x4) /\
  has r NOD_PF_RESERVED_PAGE = has flags 0x8 /\ has r NOD_PF_INSTRUCTION_FETCH = has flags 0x10 /\ Z.land r 255 = r).
Proof.
split_and!;
  try solve [ apply (or_flags_mirrors 32); [done|by intros|by vm_compute]
        | apply (or_flags_mirrors 16); [done|by intros|by vm_compute] ].
- apply access_mirrors.
- intros flags. unfold open_modes_to_scap, has, ctrue. destruct (flags &! _ =? 0); cbn [negb]; [done|].
  apply (or_flags_mirrors 32); [done|by intros|by vm_compute].
- exact open_flags_reported.
- exact pf_flags_reported.
Qed.

(** The kernel's [O_TMPFILE] and [O_SYNC] are masks of several bits, and the
  conversion tests them with [&]: opening with [O_DIRECTORY] alone reports the
  portable [O_TMPFILE] (and passes the mode on), and [O_DSYNC] alone reports the
  portable [O_SYNC]. *)
Theorem open_flags_multibit_masks :
has (open_flags_to_scap O_DIRECTORY) NOD_O_TMPFILE = true /\
Z.land O_DIRECTORY O_TMPFILE <> O_TMPFILE /\
open_modes_to_scap O_DIRECTORY S_IRUSR = NOD_S_IRUSR /\
has (open_flags_to_scap O_DSYNC) NOD_O_SYNC = true /\
Z.land O_DSYNC O_SYNC <> O_SYNC.
Proof. by vm_compute. Qed.

(** [fcntl_cmd_to_scap] converts exactly the 24 listed commands and gives no
  two of them the same code; every other command, [F_ADD_SEALS] (1033) for
  one, violates its [ASSERT]. *)
Theorem fcntl_cmd_known cmd cmd' v :
(is_Some (fcntl_cmd_to_scap cmd) <-> existsb (fun ab => ab.1 =? cmd) fcntl_cmd_to_scap_tbl = true) /\
(fcntl_cmd_to_scap cmd = Some v -> fcntl_cmd_to_scap cmd' = Some v -> cmd = cmd') /\
fcntl_cmd_to_scap 1033 = None.
Proof.
split_and!; [apply switch_some_iff| |by vm_compute].
apply switch_some_inj. by vm_compute.
Qed.
End conversions.
