(* ===== verification/Ring.v ===== *)
(** * Serializing event parameters: [val_to_ring] and the user-memory readers

    [kmodule/fillers.c], lines 52-160 and 678-972: the state a filler works on
    ([struct event_filler_arguments]), the page-fault-safe readers of user
    memory, and [val_to_ring], which appends one parameter to the event under
    construction.  The region [buf_ptr .. buf_ptr + buffer_size) is the byte list
    [fa_buf]; a store outside it is the outcome [Bug].

    [ring_rep st ps] says that the region holds exactly the parameters [ps]:
    their 16-bit sizes in the first [2 * curarg] bytes and their bytes from
    [2 * nargs] on. *)

From S2P Require Import Prelude Kernel Tables.

Local Open Scope Z_scope.

(** ** Return codes of [kmodule/nodrop.h] *)

Definition NOD_SUCCESS : Z := 0.
Definition NOD_SUCCESS_LOAD : Z := 1.
Definition NOD_FAILURE_BUG : Z := -1.
Definition NOD_FAILURE_BUFFER_FULL : Z := -2.
Definition NOD_FAILURE_INVALID_EVENT : Z := -3.
Definition NOD_FAILURE_INVALID_USER_MEMORY : Z := -4.

(** ** [struct event_filler_arguments] *)

Record fargs := mk_fargs {
  fa_buf : list Z;
  fa_str : list Z;
  fa_event_type : Z;
  fa_nevents : Z;
  fa_buffer_size : Z;
  fa_syscall_nr : Z;
  fa_curarg : Z;
  fa_nargs : Z;
  fa_arg_data_offset : Z;
  fa_arg_data_size : Z;
  fa_snaplen : Z;
  fa_is_socketcall : bool;
  fa_fd : Z
}.

Definition set_buf (b : list Z) (st : fargs) : fargs :=
  mk_fargs b (fa_str st) (fa_event_type st) (fa_nevents st) (fa_buffer_size st)
    (fa_syscall_nr st) (fa_curarg st) (fa_nargs st) (fa_arg_data_offset st)
    (fa_arg_data_size st) (fa_snaplen st) (fa_is_socketcall st) (fa_fd st).

Definition set_str (b : list Z) (st : fargs) : fargs :=
  mk_fargs (fa_buf st) b (fa_event_type st) (fa_nevents st) (fa_buffer_size st)
    (fa_syscall_nr st) (fa_curarg st) (fa_nargs st) (fa_arg_data_offset st)
    (fa_arg_data_size st) (fa_snaplen st) (fa_is_socketcall st) (fa_fd st).

Definition set_fd (fd : Z) (st : fargs) : fargs :=
  mk_fargs (fa_buf st) (fa_str st) (fa_event_type st) (fa_nevents st) (fa_buffer_size st)
    (fa_syscall_nr st) (fa_curarg st) (fa_nargs st) (fa_arg_data_offset st)
    (fa_arg_data_size st) (fa_snaplen st) (fa_is_socketcall st) fd.

(** [arg_data_offset += n; arg_data_size -= n] on [uint32_t] fields. *)
Definition advance (n : Z) (st : fargs) : fargs :=
  mk_fargs (fa_buf st) (fa_str st) (fa_event_type st) (fa_nevents st) (fa_buffer_size st)
    (fa_syscall_nr st) (fa_curarg st) (fa_nargs st) (u32 (fa_arg_data_offset st + n))
    (u32 (fa_arg_data_size st - n)) (fa_snaplen st) (fa_is_socketcall st) (fa_fd st).

Definition next_arg (st : fargs) : fargs :=
  mk_fargs (fa_buf st) (fa_str st) (fa_event_type st) (fa_nevents st) (fa_buffer_size st)
    (fa_syscall_nr st) (u32 (fa_curarg st + 1)) (fa_nargs st) (fa_arg_data_offset st)
    (fa_arg_data_size st) (fa_snaplen st) (fa_is_socketcall st) (fa_fd st).

(** A computation of a filler. *)
Notation F := (M fargs).

(** ** Reading user memory *)

Section user.
Context {U : UserMem}.

(** [nod_copy_from_user]: the number of bytes not read, and the bytes stored at
    the destination. *)
Definition nod_copy_from_user (from n : Z) : Z * list Z :=
  if um_access_ok from n
  then let got := um_copy from n in (n - zlen got, got)
  else (n, []).

(** The inner loop of [nod_strncpy_from_user]: [inl] is the string length at
    which the terminator was found, [inr] the length counted so far. *)
Fixpoint scan_nul (bs : list Z) (string_length : Z) : Z + Z :=
  match bs with
  | [] => inr string_length
  | b :: rest =>
      let string_length := string_length + 1 in
      if b =? 0 then inl string_length else scan_nul rest string_length
  end.

(** The outer loop; [acc] is what has been stored at [to].  Every iteration
    takes at least one byte off [n], so [n] is enough fuel. *)
Fixpoint strncpy_loop (fuel : nat) (from n bytes_to_read string_length : Z)
    (acc : list Z) : Z * list Z :=
  match fuel with
  | O => (-1, acc)
  | S fuel =>
      if n =? 0 then (-1, acc) else
      let bytes_to_read := if n <? bytes_to_read then n else bytes_to_read in
      if negb (um_access_ok from bytes_to_read) then (-1, acc) else
      let got := um_copy from bytes_to_read in
      if ctrue (bytes_to_read - zlen got) then (-1, acc ++ got) else
      match scan_nul got string_length with
      | inl len => (len, acc ++ got)
      | inr string_length =>
          strncpy_loop fuel (u64 (from + bytes_to_read)) (n - bytes_to_read)
            bytes_to_read string_length (acc ++ got)
      end
  end.

(** [nod_strncpy_from_user]: the returned length (terminator included) or -1,
    and the bytes stored at the destination. *)
Definition nod_strncpy_from_user (from n : Z) : Z * list Z :=
  strncpy_loop (S (Z.to_nat n)) from n 4 0 [].
End user.

(** [strlcpy(dst, src, size)]: the bytes stored at [dst]; the result is
    [strlen(src)]. *)
Definition strlcpy (src : list Z) (size : Z) : list Z :=
  if size =? 0 then [] else ztake (Z.min (zlen src) (size - 1)) src ++ [0].

(** ** [val_to_ring] *)

Section ring.
Context {K : Kernel}.

(** The bytes of the kernel object at address [a], [str_storage] and the address
    one past its end included. *)
Definition kbytes (st : fargs) (a : Z) : option (list Z) :=
  if (k_str_addr <=? a) && (a <=? k_str_addr + zlen (fa_str st))
  then Some (zdrop (a - k_str_addr) (fa_str st))
  else kseg k_mem a.

(** Store [bs] at [buf_ptr + off]. *)
Definition ring_put (off : Z) (bs : list Z) : F unit :=
  st ← get; b ← lift (zwrite off bs (fa_buf st)); put (set_buf b st).

(** Store [bs] at [str_storage + off]. *)
Definition str_put (off : Z) (bs : list Z) : F unit :=
  st ← get; b ← lift (zwrite off bs (fa_str st)); put (set_str b st).

(** [*psize = v] and [*psize += v], where
    [psize = (u16 * )(buf_ptr + curarg * sizeof(u16))]. *)
Definition psize_set (v : Z) : F unit :=
  st ← get; ring_put (2 * fa_curarg st) (le_bytes 2 v).

Definition psize_add (v : Z) : F unit :=
  st ← get;
  old ← lift (zread (2 * fa_curarg st) 2 (fa_buf st));
  ring_put (2 * fa_curarg st) (le_bytes 2 (le_val old + v)).

(** [len = strlcpy(buf_ptr + arg_data_offset, src, max_arg_size);
    if (++len > max_arg_size) len = max_arg_size;] *)
Definition ring_strlcpy (src : list Z) (max_arg_size : Z) : F Z :=
  st ← get;
  ring_put (fa_arg_data_offset st) (strlcpy src max_arg_size);;
  let len := zlen src + 1 in
  mret (if max_arg_size <? len then max_arg_size else len).

(** The macro [INVALID_USER_MEMORY]. *)
Definition INVALID_USER_MEMORY (max_arg_size : Z) : F Z :=
  ring_strlcpy (str_bytes "(INVAL)") max_arg_size.

(** [case PT_CHARBUF: case PT_FSPATH: case PT_FSRELPATH:] *)
Definition ring_charbuf (val : Z) (fromuser : bool) (max_arg_size : Z) : F Z :=
  st ← get;
  if ctrue val then
    if fromuser then
      let '(len, stored) := nod_strncpy_from_user val max_arg_size in
      ring_put (fa_arg_data_offset st) stored;;
      if s32 len <? 0 then INVALID_USER_MEMORY max_arg_size else mret (s32 len)
    else
      src ← lift (kbytes st val ≫= cstr);
      ring_strlcpy src max_arg_size
  else ring_strlcpy (str_bytes "(NULL)") max_arg_size.

(** [case PT_BYTEBUF:] *)
Definition ring_bytebuf (val val_len : Z) (fromuser : bool) (max_arg_size : Z) : F Z :=
  st ← get;
  let snap (l : Z) := if (0 <? fa_snaplen st) && (fa_snaplen st <? l) then fa_snaplen st else l in
  if ctrue val then
    if fromuser then
      let dpi_lookahead_size := if val_len <? 16 then val_len else 16 in
      if max_arg_size <=? dpi_lookahead_size then fail NOD_FAILURE_BUFFER_FULL else
      let '(len, stored) := nod_copy_from_user val dpi_lookahead_size in
      ring_put (fa_arg_data_offset st) stored;;
      if ctrue len then INVALID_USER_MEMORY max_arg_size else
      if negb (dpi_lookahead_size =? val_len) then
        let val_len := snap val_len in
        let val_len := if max_arg_size <=? val_len then max_arg_size else val_len in
        (if dpi_lookahead_size <? val_len then
           let '(len, stored) := nod_copy_from_user (u64 (val + dpi_lookahead_size))
                                   (val_len - dpi_lookahead_size) in
           ring_put (fa_arg_data_offset st + dpi_lookahead_size) stored;;
           if ctrue len then (_ ← INVALID_USER_MEMORY max_arg_size; mret tt) else mret tt
         else mret tt);;
        mret val_len
      else mret val_len
    else
      let val_len := snap val_len in
      if max_arg_size <=? val_len then fail NOD_FAILURE_BUFFER_FULL else
      src ← lift (kbytes st val ≫= zread 0 val_len);
      ring_put (fa_arg_data_offset st) src;;
      mret val_len
  else mret 0.

(** [case PT_SOCKADDR: case PT_SOCKTUPLE: case PT_FDLIST:] *)
Definition ring_blob (val val_len : Z) (fromuser : bool) (max_arg_size : Z) : F Z :=
  st ← get;
  if ctrue val then
    if max_arg_size <=? val_len then fail NOD_FAILURE_BUFFER_FULL else
    if fromuser then
      let '(len, stored) := nod_copy_from_user val val_len in
      ring_put (fa_arg_data_offset st) stored;;
      if ctrue len then INVALID_USER_MEMORY max_arg_size else mret val_len
    else
      src ← lift (kbytes st val ≫= zread 0 val_len);
      ring_put (fa_arg_data_offset st) src;;
      mret val_len
  else mret 0.

(** The integer cases, of [n] bytes. *)
Definition ring_int (n : nat) (val max_arg_size : Z) : F Z :=
  st ← get;
  if Z.of_nat n <=? max_arg_size
  then ring_put (fa_arg_data_offset st) (le_bytes n val);; mret (Z.of_nat n)
  else fail NOD_FAILURE_BUFFER_FULL.

(** [switch (param_info->type)]: the number of bytes stored. *)
Definition ring_value (t : nod_param_type) (val val_len : Z) (fromuser : bool)
    (max_arg_size : Z) : F Z :=
  match t with
  | PT_CHARBUF | PT_FSPATH | PT_FSRELPATH => ring_charbuf val fromuser max_arg_size
  | PT_BYTEBUF => ring_bytebuf val val_len fromuser max_arg_size
  | PT_SOCKADDR | PT_SOCKTUPLE | PT_FDLIST => ring_blob val val_len fromuser max_arg_size
  | PT_FLAGS8 | PT_UINT8 | PT_SIGTYPE => ring_int 1 val max_arg_size
  | PT_FLAGS16 | PT_UINT16 | PT_SYSCALLID => ring_int 2 val max_arg_size
  | PT_FLAGS32 | PT_UINT32 | PT_MODE | PT_UID | PT_GID | PT_SIGSET => ring_int 4 val max_arg_size
  | PT_RELTIME | PT_ABSTIME | PT_UINT64 => ring_int 8 val max_arg_size
  | PT_INT8 => ring_int 1 val max_arg_size
  | PT_INT16 => ring_int 2 val max_arg_size
  | PT_INT32 => ring_int 4 val max_arg_size
  | PT_INT64 | PT_ERRNO | PT_FD | PT_PID => ring_int 8 val max_arg_size
  | _ => fail NOD_FAILURE_BUG
  end.

(** The handling of a [PT_DYN] parameter: the type to store and the remaining
    [max_arg_size]. *)
Definition ring_dyn (p : nod_param_info) (dyn_idx max_arg_size : Z) : F (nod_param_type * Z) :=
  match pi_type p, pi_info p with
  | PT_DYN, INFO_DYN tbl =>
      if pi_ninfo p <=? dyn_idx then fail NOD_FAILURE_BUG else
      q ← lift (dyn_params tbl !! Z.to_nat dyn_idx);
      if 1 <=? max_arg_size then
        st ← get;
        ring_put (fa_arg_data_offset st) (le_bytes 1 dyn_idx);;
        modify (advance 1);;
        psize_set 1;;
        mret (pi_type q, max_arg_size - 1)
      else fail NOD_FAILURE_BUFFER_FULL
  | PT_DYN, (INFO_FLAGS _ | DIRFD_PARAM _) => bug
  | t, _ => psize_set 0;; mret (t, max_arg_size)
  end.

(** [val_to_ring(args, val, val_len, fromuser, dyn_idx)]; the parameters are
    [uint64_t], [u32], [bool] and [u8]. *)
Definition val_to_ring (val val_len : Z) (fromuser : bool) (dyn_idx : Z) : F unit :=
  let val := u64 val in let val_len := u32 val_len in let dyn_idx := u8 dyn_idx in
  st ← get;
  if fa_nargs st <=? fa_curarg st then fail NOD_FAILURE_BUG else
  if fa_arg_data_size st =? 0 then fail NOD_FAILURE_BUFFER_FULL else
  let max_arg_size :=
    if NOD_MAX_ARG_SIZE <? fa_arg_data_size st then NOD_MAX_ARG_SIZE else fa_arg_data_size st in
  p ← lift (event_param (fa_event_type st) (fa_curarg st));
  '(t, max_arg_size) ← ring_dyn p dyn_idx max_arg_size;
  len ← ring_value t val val_len fromuser max_arg_size;
  assert (len <=? NOD_MAX_ARG_SIZE);;
  assert (len <=? max_arg_size);;
  psize_add (u16 len);;
  modify next_arg;;
  modify (advance len).
End ring.
