(* ===== verification/RingFacts.v ===== *)
(** * What [val_to_ring] does

    The representation invariant of the event under construction, the proof that
    [val_to_ring] appends exactly one parameter to it and stays inside the
    region, and the correctness of the chunked user-string reader. *)

From S2P Require Import Prelude Kernel Tables Ring.

Local Open Scope Z_scope.

(** ** Invariants *)

(** The parameter sizes at the start of an event. *)
Definition size_bytes (ps : list (list Z)) : list Z :=
  concat (List.map (fun p => le_bytes 2 (zlen p)) ps).

(** Bounds every operation preserves, also on its error paths. *)
Record ring_inv (st : fargs) : Prop := {
  ri_len : zlen (fa_buf st) = fa_buffer_size st;
  ri_str : zlen (fa_str st) = STR_STORAGE_SIZE;
  ri_max : fa_buffer_size st < 2 ^ 32;
  ri_cur : 0 <= fa_curarg st <= fa_nargs st;
  ri_nargs : fa_nargs st <= NOD_MAX_EVENT_PARAMS;
  ri_off : 2 * fa_nargs st <= fa_arg_data_offset st;
  ri_size : 0 <= fa_arg_data_size st;
  ri_sum : fa_arg_data_offset st + fa_arg_data_size st = fa_buffer_size st;
  ri_snap : 0 <= fa_snaplen st
}.

(** The region holds the parameters [ps] and, of the one under construction, the
    bytes [q]. *)
Record ring_part (st : fargs) (ps : list (list Z)) (q : list Z) : Prop := {
  rp_inv : ring_inv st;
  rp_cur : fa_curarg st = zlen ps;
  rp_off : fa_arg_data_offset st = 2 * fa_nargs st + zlen (concat ps) + zlen q;
  rp_sizes : ztake (2 * zlen ps) (fa_buf st) = size_bytes ps;
  rp_data : zslice (2 * fa_nargs st) (zlen (concat ps) + zlen q) (fa_buf st) = concat ps ++ q;
  rp_small : Forall (fun p => zlen p < 2 ^ 16) ps
}.

Definition ring_rep (st : fargs) (ps : list (list Z)) : Prop := ring_part st ps [].

(** The fields no operation on the ring changes. *)
Record env_eq (st st' : fargs) : Prop := {
  ee_type : fa_event_type st' = fa_event_type st;
  ee_nargs : fa_nargs st' = fa_nargs st;
  ee_bsize : fa_buffer_size st' = fa_buffer_size st;
  ee_snap : fa_snaplen st' = fa_snaplen st;
  ee_nr : fa_syscall_nr st' = fa_syscall_nr st;
  ee_sock : fa_is_socketcall st' = fa_is_socketcall st;
  ee_fd : fa_fd st' = fa_fd st;
  ee_str : fa_str st' = fa_str st
}.

#[export] Instance env_eq_refl : Reflexive env_eq.
Proof. by constructor. Qed.
#[export] Instance env_eq_trans : Transitive env_eq.
Proof. intros x y z [] []. constructor; congruence. Qed.

(** [touch st st']: only bytes from [arg_data_offset] on differ. *)
Definition touch (st st' : fargs) : Prop :=
  exists b, st' = set_buf b st /\ zlen b = zlen (fa_buf st) /\
    ztake (fa_arg_data_offset st) b = ztake (fa_arg_data_offset st) (fa_buf st).

#[export] Instance touch_refl : Reflexive touch.
Proof. intros st. exists (fa_buf st). by destruct st. Qed.

#[export] Instance touch_trans : Transitive touch.
Proof.
  intros x y z (b & -> & Hl & Ht) (c & -> & Hl' & Ht').
  exists c. split; [done|]. cbn in *. split; congruence.
Qed.

Lemma touch_env st st' : touch st st' -> env_eq st st'.
Proof. intros (b & -> & _). by constructor. Qed.

Lemma touch_inv st st' : touch st st' -> ring_inv st -> ring_inv st'.
Proof. intros (b & -> & Hl & _) []. constructor; cbn in *; congruence. Qed.

Lemma touch_part st st' ps q : touch st st' -> ring_part st ps q -> ring_part st' ps q.
Proof.
  intros Ht Hp. pose proof (touch_inv _ _ Ht (rp_inv _ _ _ Hp)) as Hi.
  destruct Ht as (b & -> & Hl & Ht), Hp as [[] Hc Ho Hs Hd Hb].
  pose proof (zlen_nonneg ps). pose proof (zlen_nonneg (concat ps)). pose proof (zlen_nonneg q).
  constructor; cbn in *; [done..| | |done].
  - rewrite <- Hs. apply (f_equal (ztake (2 * zlen ps))) in Ht.
    rewrite !ztake_ztake, !Z.min_l in Ht by lia. done.
  - rewrite <- Hd, <- (zslice_ztake _ _ (fa_arg_data_offset st) b), Ht by lia.
    by apply zslice_ztake; lia.
Qed.

(** ** The primitive stores *)

Section facts.
Context {K : Kernel} {KO : KernelOk K}.

(** A store at or above [arg_data_offset] inside the region only touches. *)
Lemma ring_put_touch off bs st :
  ring_inv st -> fa_arg_data_offset st <= off -> off + zlen bs <= fa_buffer_size st ->
  exists st', ring_put off bs st = Done tt st' /\ touch st st' /\
    zslice off (zlen bs) (fa_buf st') = bs /\ ztake off (fa_buf st') = ztake off (fa_buf st).
Proof.
  intros [] Ho Hb. unfold ring_put, get, mbind, M_bind, lift.
  pose proof (zlen_nonneg bs).
  destruct (zwrite off bs (fa_buf st)) as [b|] eqn:E.
  - exists (set_buf b st). split; [done|]. split.
    + exists b. split; [done|]. split; [by eapply zlen_zwrite|]. by eapply ztake_zwrite.
    + split; [by apply zslice_zwrite_same in E|]. by eapply ztake_zwrite.
  - rewrite zwrite_Some in E by lia. done.
Qed.

(** A store of the size slot of the current parameter. *)
Lemma psize_put_part v st ps q :
  ring_part st ps q -> fa_curarg st < fa_nargs st ->
  exists st', ring_put (2 * fa_curarg st) (le_bytes 2 v) st = Done tt st' /\
    ring_part st' ps q /\ env_eq st st' /\
    fa_curarg st' = fa_curarg st /\ fa_arg_data_offset st' = fa_arg_data_offset st /\
    fa_arg_data_size st' = fa_arg_data_size st /\
    zslice (fa_arg_data_offset st) (fa_arg_data_size st) (fa_buf st') =
    zslice (fa_arg_data_offset st) (fa_arg_data_size st) (fa_buf st) /\
    zslice (2 * fa_curarg st) 2 (fa_buf st') = le_bytes 2 v.
Proof.
  intros [[] Hc Ho Hs Hd Hb] Hlt. unfold ring_put, get, mbind, M_bind, lift.
  pose proof (zlen_nonneg ps). pose proof (zlen_nonneg (concat ps)). pose proof (zlen_nonneg q).
  assert (zlen (le_bytes 2 v) = 2) as L by apply zlen_le_bytes.
  destruct (zwrite (2 * fa_curarg st) (le_bytes 2 v) (fa_buf st)) as [b|] eqn:E.
  2: { rewrite zwrite_Some in E by lia. done. }
  exists (set_buf b st). split; [done|]. split; [|split; [done|]].
  - constructor; cbn; try done.
    + constructor; cbn; try done; rewrite (zlen_zwrite _ _ _ _ E); done.
    + rewrite <- Hs. eapply ztake_zwrite; [exact E|lia].
    + rewrite <- Hd. eapply zslice_zwrite_above; [exact E|lia].
  - cbn. repeat split; try done.
    + eapply zslice_zwrite_above; [exact E|lia].
    + apply zslice_zwrite_same in E. by rewrite L in E.
Qed.

(** ** The user-memory readers *)

Lemma copy_from_user_len from n l bs :
  0 <= n -> nod_copy_from_user from n = (l, bs) -> zlen bs <= n /\ l = n - zlen bs.
Proof.
  unfold nod_copy_from_user. intros Hn E. case_match; simplify_eq.
  - split; [by apply um_copy_len|done].
  - rewrite zlen_nil. lia.
Qed.

Lemma scan_nul_inl bs sl r : scan_nul bs sl = inl r -> sl < r <= sl + zlen bs.
Proof.
  revert sl. induction bs as [|b bs IH]; cbn [scan_nul]; intros sl; [done|].
  rewrite zlen_cons. pose proof (zlen_nonneg bs). cmp_case; intros E; [simplify_eq; lia|].
  apply IH in E. lia.
Qed.

(** The length counted ends at the terminator. *)
Lemma scan_nul_zero bs sl r : scan_nul bs sl = inl r -> bs !! Z.to_nat (r - sl - 1) = Some 0.
Proof.
  revert sl. induction bs as [|b bs IH]; cbn [scan_nul]; intros sl; [done|].
  destruct (Z.eqb_spec b 0) as [->|]; intros E.
  - simplify_eq. by replace (sl + 1 - sl - 1) with 0 by lia.
  - pose proof (scan_nul_inl _ _ _ E). apply IH in E.
    replace (Z.to_nat (r - sl - 1)) with (S (Z.to_nat (r - (sl + 1) - 1))) by lia. done.
Qed.

Lemma scan_nul_inr bs sl r : scan_nul bs sl = inr r -> r = sl + zlen bs.
Proof.
  revert sl. induction bs as [|b bs IH]; cbn [scan_nul]; intros sl; [rewrite zlen_nil; intros; simplify_eq; lia|].
  rewrite zlen_cons. cmp_case; intros E; [done|]. apply IH in E. lia.
Qed.

Lemma strncpy_loop_len fuel from n btr sl acc r bs :
  0 <= n -> 0 < btr -> 0 <= sl -> strncpy_loop fuel from n btr sl acc = (r, bs) ->
  zlen acc <= zlen bs <= zlen acc + n /\ (r = -1 \/ sl < r <= sl + n /\ r - sl <= zlen bs - zlen acc).
Proof.
  revert from n btr sl acc. induction fuel as [|fuel IH]; intros from n btr sl acc Hn Hb Hsl;
    cbn [strncpy_loop]; [intros; simplify_eq; lia|].
  destruct (Z.eqb_spec n 0); [intros; simplify_eq; lia|].
  set (btr' := if n <? btr then n else btr).
  assert (0 < btr' <= n) as Hb' by (unfold btr'; cmp_case; lia).
  clearbody btr'. case_match; [intros; simplify_eq; lia|].
  pose proof (um_copy_len from btr' ltac:(lia)) as Hg.
  pose proof (zlen_nonneg (um_copy from btr')).
  unfold ctrue. destruct (Z.eqb_spec (btr' - zlen (um_copy from btr')) 0); cbn [negb].
  2: { intros; simplify_eq. rewrite zlen_app. lia. }
  destruct (scan_nul (um_copy from btr') sl) eqn:Es.
  - intros; simplify_eq. apply scan_nul_inl in Es. rewrite zlen_app. lia.
  - apply scan_nul_inr in Es. intros E. apply IH in E; try lia.
    rewrite zlen_app in E. lia.
Qed.

Lemma nod_strncpy_from_user_len from n r bs :
  0 <= n -> nod_strncpy_from_user from n = (r, bs) -> zlen bs <= n /\ (r = -1 \/ 0 < r <= zlen bs).
Proof.
  intros Hn E. apply strncpy_loop_len in E; try lia. rewrite zlen_nil in E. lia.
Qed.

Lemma strncpy_loop_zero fuel from n btr sl acc r bs :
  sl = zlen acc -> 0 <= n -> 0 < btr -> strncpy_loop fuel from n btr sl acc = (r, bs) -> 0 < r ->
  bs !! Z.to_nat (r - 1) = Some 0.
Proof.
  revert from n btr sl acc. induction fuel as [|fuel IH]; intros from n btr sl acc Hsl Hn Hb;
    cbn [strncpy_loop]; [intros; simplify_eq; lia|].
  destruct (Z.eqb_spec n 0); [intros; simplify_eq; lia|].
  set (btr' := if n <? btr then n else btr).
  assert (0 < btr' <= n) as Hb' by (unfold btr'; cmp_case; lia). clearbody btr'.
  case_match; [intros; simplify_eq; lia|].
  unfold ctrue. destruct (Z.eqb_spec (btr' - zlen (um_copy from btr')) 0); cbn [negb];
    [|intros; simplify_eq; lia].
  destruct (scan_nul (um_copy from btr') sl) eqn:Es.
  - intros [= -> <-] Hr. pose proof (scan_nul_inl _ _ _ Es). apply scan_nul_zero in Es.
    rewrite lookup_app_r by (unfold zlen in *; lia).
    replace (Z.to_nat (r - 1) - length acc)%nat with (Z.to_nat (r - sl - 1)) by (unfold zlen in *; lia). done.
  - apply scan_nul_inr in Es. intros E Hr. eapply IH in E; try done; try lia.
    rewrite zlen_app. lia.
Qed.

(** A positive result of [nod_strncpy_from_user] counts the terminator. *)
Lemma nod_strncpy_from_user_zero from n r bs :
  0 <= n -> nod_strncpy_from_user from n = (r, bs) -> 0 < r -> bs !! Z.to_nat (r - 1) = Some 0.
Proof. intros Hn E Hr. by eapply strncpy_loop_zero in E. Qed.

(** ** Storing a value *)

(** Which types read memory through [val]. *)
Inductive ptr_kind := PK_int | PK_str | PK_blob.

Definition kind_of (t : nod_param_type) : ptr_kind :=
  match t with
  | PT_CHARBUF | PT_FSPATH | PT_FSRELPATH => PK_str
  | PT_BYTEBUF | PT_SOCKADDR | PT_SOCKTUPLE | PT_FDLIST => PK_blob
  | _ => PK_int
  end.

(** A kernel pointer passed with [fromuser = false] must point to a C string or
    to [val_len] bytes when the parameter type reads through it. *)
Definition arg_safe (st : fargs) (k : ptr_kind) (val val_len : Z) (fromuser : bool) : Prop :=
  fromuser = true \/ val = 0 \/
  match k with
  | PK_int => True
  | PK_str => exists s, kbytes st val ≫= cstr = Some s
  | PK_blob => exists bs, kbytes st val = Some bs /\ val_len <= zlen bs
  end.

(** What a stored value of type [t] looks like: the bytes [p] a successful
    store leaves in the region, in terms of what the readers of user memory
    returned.  Faulting reads leave the marker [(INVAL)]; a fault in the second
    part of a [PT_BYTEBUF] leaves bytes of the announced length only. *)
Definition int_width (t : nod_param_type) : option nat :=
  match t with
  | PT_FLAGS8 | PT_UINT8 | PT_SIGTYPE | PT_INT8 => Some 1%nat
  | PT_FLAGS16 | PT_UINT16 | PT_SYSCALLID | PT_INT16 => Some 2%nat
  | PT_FLAGS32 | PT_UINT32 | PT_MODE | PT_UID | PT_GID | PT_SIGSET | PT_INT32 => Some 4%nat
  | PT_RELTIME | PT_ABSTIME | PT_UINT64 | PT_INT64 | PT_ERRNO | PT_FD | PT_PID => Some 8%nat
  | _ => None
  end.

Definition str_val (st : fargs) (val : Z) (fromuser : bool) (max : Z) (p : list Z) : Prop :=
  if ctrue val then
    if fromuser then
      let '(len, bs) := nod_strncpy_from_user val max in
      p = if len <? 0 then strlcpy (str_bytes "(INVAL)") max else ztake len bs
    else forall s, kbytes st val ≫= cstr = Some s -> p = strlcpy s max
  else p = strlcpy (str_bytes "(NULL)") max.

Definition blob_val (st : fargs) (val val_len : Z) (fromuser : bool) (max : Z) (p : list Z) : Prop :=
  if ctrue val then
    if fromuser then
      let '(miss, bs) := nod_copy_from_user val val_len in
      p = if ctrue miss then strlcpy (str_bytes "(INVAL)") max else bs
    else forall bs, kbytes st val = Some bs -> p = ztake val_len bs
  else p = [].

(** The bytes of a buffer that are kept: [snaplen], then the space left. *)
Definition snapped (st : fargs) (val_len : Z) : Z :=
  if (0 <? fa_snaplen st) && (fa_snaplen st <? val_len) then fa_snaplen st else val_len.

Definition buf_val (st : fargs) (val val_len : Z) (fromuser : bool) (max : Z) (p : list Z) : Prop :=
  if ctrue val then
    if fromuser then
      let look := Z.min val_len 16 in
      let '(miss, bs) := nod_copy_from_user val look in
      if ctrue miss then p = strlcpy (str_bytes "(INVAL)") max else
      if look =? val_len then p = bs else
      let keep := Z.min (snapped st val_len) max in
      zlen p = keep /\
      (keep <= look -> p = ztake keep bs) /\
      (look < keep ->
       let '(miss, bs') := nod_copy_from_user (u64 (val + look)) (keep - look) in
       miss = 0 -> p = bs ++ bs')
    else forall bs, kbytes st val = Some bs -> p = ztake (snapped st val_len) bs
  else p = [].

Definition stored (st : fargs) (t : nod_param_type) (val val_len : Z) (fromuser : bool)
    (max : Z) (p : list Z) : Prop :=
  match t with
  | PT_CHARBUF | PT_FSPATH | PT_FSRELPATH => str_val st val fromuser max p
  | PT_BYTEBUF => buf_val st val val_len fromuser max p
  | PT_SOCKADDR | PT_SOCKTUPLE | PT_FDLIST => blob_val st val val_len fromuser max p
  | _ => match int_width t with Some n => p = le_bytes n val | None => False end
  end.

(** The postcondition of the cases of [val_to_ring]: on success [len] bytes that
    satisfy [P] lie at [arg_data_offset]. *)
Definition value_post (st : fargs) (max : Z) (P : list Z -> Prop) (o : outcome fargs Z) : Prop :=
  match o with
  | Done len st' => touch st st' /\ 0 <= len <= max /\
      P (zslice (fa_arg_data_offset st) len (fa_buf st'))
  | Ret c st' => touch st st' /\ (c = NOD_FAILURE_BUFFER_FULL \/ c = NOD_FAILURE_BUG)
  | Bug => False
  end.

Lemma touch_fields st st' : touch st st' ->
  fa_arg_data_offset st' = fa_arg_data_offset st /\ fa_arg_data_size st' = fa_arg_data_size st /\
  fa_curarg st' = fa_curarg st /\ fa_buffer_size st' = fa_buffer_size st /\
  fa_str st' = fa_str st /\ fa_snaplen st' = fa_snaplen st.
Proof. by intros (b & -> & _). Qed.

Lemma value_post_touch st st' max P o :
  touch st st' -> value_post st' max P o -> value_post st max P o.
Proof.
  intros Ht. destruct (touch_fields _ _ Ht) as (E & _).
  destruct o; cbn; [rewrite E| |done]; intros [Ht' ?]; (split; [by etrans|done]).
Qed.

(** Store the bytes and continue. *)
Lemma put_then_post off bs (k : F Z) st max P :
  ring_inv st -> fa_arg_data_offset st <= off -> off + zlen bs <= fa_buffer_size st ->
  (forall st', touch st st' -> zslice off (zlen bs) (fa_buf st') = bs ->
     ztake off (fa_buf st') = ztake off (fa_buf st) -> value_post st' max P (k st')) ->
  value_post st max P ((ring_put off bs;; k) st).
Proof.
  intros Hi Ho Hb Hk. destruct (ring_put_touch off bs st Hi Ho Hb) as (st' & E & Ht & Hz & Hl).
  unfold mbind, M_bind. rewrite E. eapply value_post_touch; [exact Ht|]. by apply Hk.
Qed.

Lemma strlcpy_len src max : 0 <= max ->
  zlen (strlcpy src max) = if max <? zlen src + 1 then max else zlen src + 1.
Proof.
  intros. unfold strlcpy. pose proof (zlen_nonneg src).
  destruct (Z.eqb_spec max 0) as [->|]; [cmp_case; [done|lia]|].
  rewrite zlen_app, zlen_ztake, zlen_cons, zlen_nil by lia. cmp_case; lia.
Qed.

Lemma ring_strlcpy_post src st max (P : list Z -> Prop) :
  ring_inv st -> 0 <= max <= fa_arg_data_size st -> P (strlcpy src max) ->
  value_post st max P (ring_strlcpy src max st).
Proof.
  intros Hi Hm HP. unfold ring_strlcpy, get. unfold mbind at 1, M_bind at 1.
  destruct Hi as [] eqn:Ei. clear Ei. pose proof (strlcpy_len src max) as L.
  pose proof (zlen_nonneg (strlcpy src max)).
  apply put_then_post; [done|lia| |].
  - pose proof (zlen_nonneg src). destruct (_ <? _) eqn:?; lia.
  - intros st' Ht Hz _. destruct (touch_fields _ _ Ht) as (E & _).
    unfold mret, M_ret. cbn [value_post]. rewrite E, <- L by lia. rewrite Hz.
    split; [done|]. pose proof (zlen_nonneg src). destruct (_ <? _) eqn:?; split; try done; lia.
Qed.

(** Finish with the length of bytes that lie at [arg_data_offset]. *)
Lemma ret_post st st' max (P : list Z -> Prop) p :
  touch st st' -> zlen p <= max -> P p ->
  zslice (fa_arg_data_offset st) (zlen p) (fa_buf st') = p ->
  value_post st max P (Done (zlen p) st').
Proof. intros Ht Hl HP E. cbn. rewrite E. pose proof (zlen_nonneg p). split_and!; done || lia. Qed.

(** The prefix of a stored byte string. *)
Lemma zslice_prefix off n bs (b : list Z) :
  0 <= n <= zlen bs -> zslice off (zlen bs) b = bs -> zslice off n b = ztake n bs.
Proof.
  intros Hn <-. unfold zslice. rewrite ztake_ztake. f_equal. lia.
Qed.

Lemma ring_charbuf_post val fromuser st max :
  ring_inv st -> 0 <= max <= fa_arg_data_size st -> max <= NOD_MAX_ARG_SIZE ->
  arg_safe st PK_str val 0 fromuser ->
  value_post st max (str_val st val fromuser max) (ring_charbuf val fromuser max st).
Proof.
  intros Hi Hm Hx Hs. unfold ring_charbuf, get. unfold mbind at 1, M_bind at 1. unfold str_val.
  unfold ctrue in *. destruct (Z.eqb_spec val 0) as [->|Hv]; cbn [negb]; [by apply ring_strlcpy_post|].
  destruct fromuser.
  - destruct (nod_strncpy_from_user val max) as [r bs] eqn:E.
    pose proof E as E'. apply nod_strncpy_from_user_len in E as (Hl & Hr); [|lia].
    destruct Hi as [] eqn:Ei. clear Ei. unfold NOD_MAX_ARG_SIZE in Hx.
    assert (s32 r = r) as -> by (apply signed_small; lia).
    apply put_then_post; [done|lia|lia|]. intros st' Ht Hz _.
    destruct (touch_fields _ _ Ht) as (Eo & ? & ? & ? & ?). cmp_case.
    + apply ring_strlcpy_post; [by eapply touch_inv|lia|done].
    + cbn. rewrite Eo. split; [done|]. split; [lia|]. by apply zslice_prefix; [lia|].
  - destruct Hs as [?|[?|[s Hs]]]; [done..|]. rewrite Hs. apply ring_strlcpy_post; [done..|].
    intros s' [= <-]. done.
Qed.

Lemma ring_blob_post val val_len fromuser st max :
  ring_inv st -> 0 <= max <= fa_arg_data_size st -> 0 <= val_len ->
  arg_safe st PK_blob val val_len fromuser ->
  value_post st max (blob_val st val val_len fromuser max) (ring_blob val val_len fromuser max st).
Proof.
  intros Hi Hm Hl Hs. unfold ring_blob, get. unfold mbind at 1, M_bind at 1. unfold blob_val.
  destruct Hi as [] eqn:Ei. clear Ei.
  unfold ctrue in *. destruct (Z.eqb_spec val 0) as [->|Hv]; cbn [negb];
    [by apply (ret_post st st max _ []); [done|rewrite zlen_nil; lia|..]|].
  destruct (Z.leb_spec max val_len); [cbn; split; [done|by left]|].
  destruct fromuser.
  - destruct (nod_copy_from_user val val_len) as [r bs] eqn:E.
    apply copy_from_user_len in E as [Hb ->]; [|done].
    apply put_then_post; [done|lia|lia|]. intros st' Ht Hz _.
    destruct (touch_fields _ _ Ht) as (Eo & ? & ? & ? & ?).
    destruct (Z.eqb_spec (val_len - zlen bs) 0); cbn [negb].
    + assert (val_len = zlen bs) as -> by lia.
      apply ret_post; [done|lia|done|congruence].
    + apply ring_strlcpy_post; [by eapply touch_inv|lia|done].
  - destruct Hs as [?|[?|(bs & Hs & Hb)]]; [done..|]. rewrite Hs. cbn [mbind option_bind].
    rewrite zread_Some by lia. cbn [lift]. unfold mbind at 1, M_bind at 1, mret at 1, M_ret at 1.
    assert (zlen (zslice 0 val_len bs) = val_len) as L by (apply zlen_zslice; lia).
    apply put_then_post; [done|lia|lia|].
    intros st' Ht Hz _. destruct (touch_fields _ _ Ht) as (Eo & _).
    rewrite <- L. apply ret_post; [done|lia| |congruence]. rewrite L. by intros ? [= <-].
Qed.

Lemma ring_int_post n val st max :
  ring_inv st -> 0 <= max <= fa_arg_data_size st ->
  value_post st max (fun p => p = le_bytes n val) (ring_int n val max st).
Proof.
  intros Hi Hm. unfold ring_int, get. unfold mbind at 1, M_bind at 1.
  destruct Hi as [] eqn:Ei. clear Ei. cmp_case.
  - pose proof (zlen_le_bytes n val) as L.
    apply put_then_post; [done|lia|lia|].
    intros st' Ht Hz _. destruct (touch_fields _ _ Ht) as (Eo & _).
    rewrite <- L. apply ret_post; [done|lia|done|congruence].
  - cbn. split; [done|by left].
Qed.

(** The second part of a [PT_BYTEBUF]: [keep - look] more bytes after the [look]
    bytes [bs] already stored. *)
Lemma bytebuf_tail_post st val look keep bs max (P : list Z -> Prop) :
  ring_inv st -> 0 <= max <= fa_arg_data_size st -> zlen bs = look -> look < keep <= max ->
  zslice (fa_arg_data_offset st) look (fa_buf st) = bs ->
  (forall p, zlen p = keep ->
     (let '(miss, bs') := nod_copy_from_user (u64 (val + look)) (keep - look) in
      miss = 0 -> p = bs ++ bs') -> P p) ->
  value_post st max P
    ((let '(len, got) := nod_copy_from_user (u64 (val + look)) (keep - look) in
      ring_put (fa_arg_data_offset st + look) got;;
      (if ctrue len then (_ ← INVALID_USER_MEMORY max; mret tt) else mret tt);; mret keep) st).
Proof.
  intros Hi Hm Hb Hk Hz HP. pose proof (zlen_nonneg bs).
  destruct (nod_copy_from_user (u64 (val + look)) (keep - look)) as [miss got] eqn:E.
  apply copy_from_user_len in E as [Hg ->]; [|lia].
  pose proof (zlen_nonneg got). destruct Hi as [] eqn:Ei. clear Ei.
  apply put_then_post; [done|lia|lia|]. intros st' Ht Hz' Hbelow.
  destruct (touch_fields _ _ Ht) as (Eo & Es & ? & Ebs & ?).
  pose proof (touch_inv _ _ Ht ltac:(done)) as Hi'. unfold ctrue. cmp_case; cbn [negb].
  - unfold mbind, M_bind, mret, M_ret. cbn. rewrite Eo. split; [done|]. split; [lia|].
    assert (ztake look (zslice (fa_arg_data_offset st) keep (fa_buf st')) = bs) as Hpre.
    { rewrite <- Hz. unfold zslice. rewrite ztake_ztake, Z.min_l by lia.
      apply (f_equal (zdrop (fa_arg_data_offset st))) in Hbelow.
      rewrite !zdrop_ztake in Hbelow by lia.
      by replace (fa_arg_data_offset st + look - fa_arg_data_offset st) with look in Hbelow by lia. }
    assert (zdrop look (zslice (fa_arg_data_offset st) keep (fa_buf st')) = got) as Hsuf.
    { unfold zslice. rewrite zdrop_ztake by lia. rewrite zdrop_zdrop by lia.
      unfold zslice in Hz'. rewrite <- Hz'. f_equal; lia. }
    apply HP; [destruct Hi'; apply zlen_zslice; lia|]. intros _.
    by rewrite <- Hpre, <- Hsuf, ztake_zdrop.
  - assert (value_post st' max (fun _ => True) (INVALID_USER_MEMORY max st')) as Hv
      by (apply ring_strlcpy_post; [done|lia|done]).
    unfold mbind, M_bind, mret, M_ret.
    destruct (INVALID_USER_MEMORY max st') as [l st''|c st''|]; cbn in *; [|tauto..].
    destruct Hv as (Ht' & _). split; [done|]. split; [lia|].
    pose proof (touch_inv _ _ Ht' Hi') as []. destruct (touch_fields _ _ Ht') as (? & ? & ? & ? & ?).
    apply HP; [apply zlen_zslice; lia|lia].
Qed.

Lemma bind_assoc {S A B C} (m : M S A) (f : A -> M S B) (g : B -> M S C) s :
  ((m ≫= f) ≫= g) s = (m ≫= (fun a => f a ≫= g)) s.
Proof. unfold mbind, M_bind. by destruct (m s). Qed.

Lemma ring_bytebuf_post val val_len fromuser st max :
  ring_inv st -> 0 <= max <= fa_arg_data_size st -> 0 <= val_len ->
  arg_safe st PK_blob val val_len fromuser ->
  value_post st max (buf_val st val val_len fromuser max) (ring_bytebuf val val_len fromuser max st).
Proof.
  intros Hi Hm Hl Hs. unfold ring_bytebuf, get. unfold mbind at 1, M_bind at 1. unfold buf_val.
  destruct Hi as [] eqn:Ei. clear Ei.
  change (if (0 <? fa_snaplen st) && (fa_snaplen st <? val_len) then fa_snaplen st else val_len)
    with (snapped st val_len).
  assert (0 <= snapped st val_len <= val_len) as Hsn
    by (unfold snapped; destruct (Z.ltb_spec 0 (fa_snaplen st)), (Z.ltb_spec (fa_snaplen st) val_len); cbn; lia).
  unfold ctrue at 1 3. destruct (Z.eqb_spec val 0) as [->|Hv]; cbn [negb];
    [by apply (ret_post st st max _ []); [done|rewrite zlen_nil; lia|..]|].
  destruct fromuser.
  - assert ((if val_len <? 16 then val_len else 16) = Z.min val_len 16) as -> by (cmp_case; lia).
    set (look := Z.min val_len 16). assert (0 <= look <= val_len) by lia. clearbody look.
    destruct (Z.leb_spec max look); [cbn; split; [done|by left]|].
    destruct (nod_copy_from_user val look) as [r bs] eqn:E.
    apply copy_from_user_len in E as [Hb ->]; [|lia].
    apply put_then_post; [done|lia|lia|]. intros st' Ht Hz _.
    pose proof (touch_inv _ _ Ht ltac:(done)) as Hi'. destruct (touch_fields _ _ Ht) as (Eo & ? & ? & ? & ?).
    unfold ctrue. destruct (Z.eqb_spec (look - zlen bs) 0); cbn [negb];
      [|by apply ring_strlcpy_post; [done|lia|]].
    assert (look = zlen bs) as -> by lia.
    destruct (Z.eqb_spec (zlen bs) val_len) as [<-|]; cbn [negb].
    { apply ret_post; [done|lia|done|congruence]. }
    assert ((if max <=? snapped st val_len then max else snapped st val_len)
      = Z.min (snapped st val_len) max) as -> by (cmp_case; lia).
    set (keep := Z.min (snapped st val_len) max).
    destruct (Z.ltb_spec (zlen bs) keep).
    + rewrite <- Eo in Hz |- *.
      pose proof (bytebuf_tail_post st' val (zlen bs) keep bs max
        (fun p => zlen p = keep /\ (keep <= zlen bs -> p = ztake keep bs) /\ (zlen bs < keep ->
           let '(miss, bs') := nod_copy_from_user (u64 (val + zlen bs)) (keep - zlen bs) in
           miss = 0 -> p = bs ++ bs'))) as HT.
      destruct (nod_copy_from_user (u64 (val + zlen bs)) (keep - zlen bs)) as [r' bs'] eqn:E'.
      rewrite bind_assoc. apply HT; try done; try lia.
      intros p Hp1 Hp2. split_and!; [done|lia|by intros _].
    + unfold mbind, M_bind, mret, M_ret. cbn. rewrite Eo. split; [done|]. split; [lia|].
      split; [destruct Hi'; apply zlen_zslice; lia|]. split; [|lia]. intros _.
      apply zslice_prefix; [lia|done].
  - destruct (Z.leb_spec max (snapped st val_len)); [cbn; split; [done|by left]|].
    destruct Hs as [?|[?|(bs & Hs & Hb)]]; [done..|]. rewrite Hs. cbn [mbind option_bind].
    rewrite zread_Some by lia. cbn [lift]. unfold mbind at 1, M_bind at 1, mret at 1, M_ret at 1.
    assert (zlen (zslice 0 (snapped st val_len) bs) = snapped st val_len) as L by (apply zlen_zslice; lia).
    apply put_then_post; [done|lia|lia|].
    intros st' Ht Hz _. destruct (touch_fields _ _ Ht) as (Eo & _).
    rewrite <- L. apply ret_post; [done|lia| |congruence]. rewrite L. by intros ? [= <-].
Qed.

(** ** One parameter *)

(** A [PT_DYN] slot of the tables always refers to a table of that many types. *)
Definition dyn_ok (p : nod_param_info) : bool :=
  match pi_type p, pi_info p with
  | PT_DYN, INFO_DYN tbl => pi_ninfo p <=? zlen (dyn_params tbl)
  | PT_DYN, (INFO_FLAGS _ | DIRFD_PARAM _) => false
  | _, _ => true
  end.

Lemma table_get_prop {A} (P : A -> bool) d t i :
  P d = true -> forallb (fun kv => P kv.2) t = true -> P (table_get d t i) = true.
Proof.
  intros Hd. induction t as [|[k x] t IH]; cbn; [done|].
  intros [? ?]%andb_true_iff. case_match; auto.
Qed.

Lemma event_param_dyn_ok type i p : event_param type i = Some p -> dyn_ok p = true.
Proof.
  unfold event_param. case_match; [|done]. intros [= <-].
  assert (forallb dyn_ok (ei_params (g_event_info type)) = true) as F.
  { apply (table_get_prop (fun e => forallb dyn_ok (ei_params e))); by vm_compute. }
  destruct (ei_params (g_event_info type) !! Z.to_nat i) eqn:E; [cbn|done].
  rewrite forallb_forall in F. apply F. by eapply list_elem_of_In, list_elem_of_lookup_2.
Qed.

(** The type a slot is stored with and the byte that precedes a [PT_DYN] value. *)
Definition slot_type (p : nod_param_info) (dyn_idx : Z) : nod_param_type * list Z :=
  match pi_type p, pi_info p with
  | PT_DYN, INFO_DYN tbl =>
      (match dyn_params tbl !! Z.to_nat dyn_idx with Some q => pi_type q | None => PT_NONE end,
       le_bytes 1 dyn_idx)
  | t, _ => (t, [])
  end.

Lemma ring_value_post t val val_len fromuser st max :
  ring_inv st -> 0 <= max <= fa_arg_data_size st -> max <= NOD_MAX_ARG_SIZE -> 0 <= val_len ->
  arg_safe st (kind_of t) val val_len fromuser ->
  value_post st max (stored st t val val_len fromuser max) (ring_value t val val_len fromuser max st).
Proof.
  intros Hi Hm Hx Hl Hs.
  assert (arg_safe st PK_str val val_len fromuser -> arg_safe st PK_str val 0 fromuser) as Hw by done.
  destruct t; cbn [ring_value stored kind_of] in *;
    solve [ by apply ring_charbuf_post; auto | by apply ring_blob_post
          | by apply ring_bytebuf_post | by apply ring_int_post
          | cbn; split; [done|by right] ].
Qed.

(** The parameter under construction grows by bytes already in place. *)
Lemma advance_part st ps q r :
  ring_part st ps q -> zlen r <= fa_arg_data_size st ->
  zslice (fa_arg_data_offset st) (zlen r) (fa_buf st) = r ->
  ring_part (advance (zlen r) st) ps (q ++ r).
Proof.
  intros [[] Hc Ho Hs Hd Hb] Hr Hz.
  pose proof (zlen_nonneg r). pose proof (zlen_nonneg q). pose proof (zlen_nonneg (concat ps)).
  assert (u32 (fa_arg_data_offset st + zlen r) = fa_arg_data_offset st + zlen r) as Eo
    by (apply unsigned_small; lia).
  assert (u32 (fa_arg_data_size st - zlen r) = fa_arg_data_size st - zlen r) as Es
    by (apply unsigned_small; lia).
  constructor; cbn; [constructor; cbn; rewrite ?Eo, ?Es; done || lia|done|rewrite Eo, zlen_app; lia|done| |done].
  rewrite zlen_app.
  replace (zlen (concat ps) + (zlen q + zlen r)) with ((zlen (concat ps) + zlen q) + zlen r) by lia.
  assert (forall a n m (b : list Z), 0 <= a -> 0 <= n -> 0 <= m -> a + n + m <= zlen b ->
    zslice a (n + m) b = zslice a n b ++ zslice (a + n) m b) as Hsplit.
  { intros a n m b ????. unfold zslice. rewrite <- (ztake_zdrop n (ztake (n + m) (zdrop a b))).
    rewrite ztake_ztake, Z.min_l by lia. f_equal. rewrite zdrop_ztake by lia.
    rewrite zdrop_zdrop by lia. f_equal; lia. }
  rewrite Hsplit by lia. rewrite Hd, app_assoc. f_equal.
  rewrite <- Hz at 2. f_equal. lia.
Qed.

(** Closing the parameter under construction. *)
Lemma finish_part st ps q :
  ring_part st ps q -> fa_curarg st < fa_nargs st -> zlen q < 2 ^ 16 ->
  zslice (2 * fa_curarg st) 2 (fa_buf st) = le_bytes 2 (zlen q) ->
  ring_rep (next_arg st) (ps ++ [q]).
Proof.
  intros [[] Hc Ho Hs Hd Hb] Hlt Hq Hz.
  pose proof (zlen_nonneg q). pose proof (zlen_nonneg ps). unfold NOD_MAX_EVENT_PARAMS in *.
  assert (u32 (fa_curarg st + 1) = fa_curarg st + 1) as Ec by (apply unsigned_small; lia).
  assert (concat (ps ++ [q]) = concat ps ++ q) as Ecat by (rewrite concat_app; cbn; by rewrite app_nil_r).
  constructor; cbn; rewrite ?Ecat, ?zlen_app, ?zlen_cons, ?zlen_nil.
  - constructor; cbn; rewrite ?Ec; done || lia.
  - rewrite Ec. lia.
  - lia.
  - unfold size_bytes. rewrite map_app, concat_app. cbn. rewrite app_nil_r.
    fold (size_bytes ps). rewrite <- Hs, <- Hz, Hc. unfold zslice.
    rewrite <- (ztake_zdrop (2 * zlen ps) (ztake _ (fa_buf st))).
    rewrite ztake_ztake, Z.min_l by lia. f_equal. rewrite zdrop_ztake by lia. f_equal. lia.
  - rewrite app_nil_r, Z.add_0_r. done.
  - apply Forall_app. by repeat constructor.
Qed.

Lemma ring_dyn_post p dyn st ps max :
  ring_rep st ps -> fa_curarg st < fa_nargs st -> dyn_ok p = true -> 0 <= dyn ->
  1 <= max <= fa_arg_data_size st ->
  match ring_dyn p dyn max st with
  | Done (t, max') st' =>
      let pre := (slot_type p dyn).2 in
      t = (slot_type p dyn).1 /\ ring_part st' ps pre /\ env_eq st st' /\
      fa_curarg st' = fa_curarg st /\ max' = max - zlen pre /\ 0 <= max' /\ zlen pre <= 1 /\
      fa_arg_data_size st' = fa_arg_data_size st - zlen pre /\
      zslice (2 * fa_curarg st') 2 (fa_buf st') = le_bytes 2 (zlen pre)
  | Ret c st' => c = NOD_FAILURE_BUG /\ st' = st
  | Bug => False
  end.
Proof.
  intros Hr Hlt Hok Hdyn Hmax.
  assert (ring_inv st) as Hi by apply Hr.
  assert (forall t : nod_param_type, match (psize_set 0;; mret (t, max) : F (nod_param_type * Z)) st with
    | Done (t', max') st' =>
      t' = t /\ ring_part st' ps [] /\ env_eq st st' /\
      fa_curarg st' = fa_curarg st /\ max' = max - 0 /\ 0 <= max' /\ 0 <= 1 /\
      fa_arg_data_size st' = fa_arg_data_size st - 0 /\
      zslice (2 * fa_curarg st') 2 (fa_buf st') = le_bytes 2 0
    | Ret c st' => c = NOD_FAILURE_BUG /\ st' = st
    | Bug => False end) as Hplain.
  { intros t. unfold psize_set. unfold mbind, M_bind, get.
    destruct (psize_put_part 0 st ps [] Hr Hlt) as (st' & E & Hp & He & Hc & Ho & Hs & _ & Hz).
    unfold mbind, M_bind in E. rewrite E. unfold mret, M_ret. rewrite Hc.
    split_and!; done || lia. }
  unfold ring_dyn, slot_type, dyn_ok in *.
  destruct (pi_type p); cbn [fst snd]; try apply Hplain.
  destruct (pi_info p) as [|?|tbl|?]; cbn [fst snd]; try apply Hplain; try done. clear Hplain.
  destruct (Z.leb_spec (pi_ninfo p) dyn); [done|]. apply Z.leb_le in Hok.
  destruct (dyn_params tbl !! Z.to_nat dyn) as [q|] eqn:Eq.
  2: { apply lookup_ge_None in Eq. unfold zlen in Hok. lia. }
  destruct (Z.leb_spec 1 max); [|lia].
  pose proof (zlen_le_bytes 1 dyn) as L. destruct Hi as [] eqn:Ei. clear Ei.
  destruct (ring_put_touch (fa_arg_data_offset st) (le_bytes 1 dyn) st) as (st1 & E1 & Ht & Hz1 & _);
    [done|lia|lia|].
  unfold lift, mret, M_ret, mbind, M_bind, get in *. rewrite E1. cbn [modify].
  pose proof (touch_part _ _ _ _ Ht Hr) as Hr1. destruct (touch_fields _ _ Ht) as (Eo & Es & Ec & _).
  pose proof (touch_env _ _ Ht) as He1.
  pose proof (advance_part st1 ps [] (le_bytes 1 dyn) Hr1 ltac:(lia) ltac:(congruence)) as Ha.
  rewrite L in Ha. cbn [app] in Ha. change (Z.of_nat 1) with 1 in Ha.
  unfold modify. unfold psize_set. unfold mbind, M_bind, get.
  assert (fa_curarg (advance 1 st1) < fa_nargs (advance 1 st1)) as Hlt1
    by (cbn; rewrite Ec, (ee_nargs _ _ He1); lia).
  destruct (psize_put_part 1 _ _ _ Ha Hlt1) as (st2 & E2 & Hp & He & Hc2 & Ho2 & Hs2 & _ & Hz2).
  unfold mbind, M_bind, get in E2. rewrite E2. rewrite L. change (Z.of_nat 1) with 1. rewrite Hc2.
  assert (fa_arg_data_size (advance 1 st1) = fa_arg_data_size st - 1) as Ez.
  { cbn. rewrite Es. apply unsigned_small. lia. }
  split_and!; try done; try lia.
  - etrans; [exact He1|]. etrans; [|exact He]. by constructor.
Qed.

Lemma env_stored st st' t val val_len fu max p : env_eq st st' ->
  stored st' t val val_len fu max p -> stored st t val val_len fu max p.
Proof.
  intros []. unfold stored, str_val, buf_val, blob_val, snapped, kbytes.
  by rewrite ee_snap0, ee_str0.
Qed.

Lemma env_arg_safe st st' k val val_len fu : env_eq st st' ->
  arg_safe st k val val_len fu -> arg_safe st' k val val_len fu.
Proof. intros []. unfold arg_safe, kbytes. by rewrite ee_str0. Qed.

(** The space the next parameter may use. *)
Definition arg_space (st : fargs) : Z := Z.min (fa_arg_data_size st) NOD_MAX_ARG_SIZE.

(** The safety condition of a call: if the slot reads through [val], the pointer
    is good. *)
Definition call_safe (st : fargs) (val val_len : Z) (fromuser : bool) (dyn : Z) : Prop :=
  forall p, event_param (fa_event_type st) (fa_curarg st) = Some p ->
  arg_safe st (kind_of (slot_type p (u8 dyn)).1) (u64 val) (u32 val_len) fromuser.

(** One call appends one parameter: the type byte of a [PT_DYN] slot and the
    value.  On an error nothing that was recorded before is lost, and the bytes
    of the abandoned parameter are at most its type byte. *)
Definition append_post (st : fargs) (ps : list (list Z)) (val val_len : Z) (fromuser : bool)
    (dyn : Z) (o : outcome fargs unit) : Prop :=
  match o with
  | Done _ st' =>
      exists info body, event_param (fa_event_type st) (fa_curarg st) = Some info /\
      let '(t, pre) := slot_type info (u8 dyn) in
      ring_rep st' (ps ++ [pre ++ body]) /\ env_eq st st' /\
      stored st t (u64 val) (u32 val_len) fromuser (arg_space st - zlen pre) body
  | Ret c st' => (c = NOD_FAILURE_BUFFER_FULL \/ c = NOD_FAILURE_BUG) /\ env_eq st st' /\
      exists pre, ring_part st' ps pre /\ (pre = [] \/
        exists info, event_param (fa_event_type st) (fa_curarg st) = Some info /\
          pre = (slot_type info (u8 dyn)).2)
  | Bug => False
  end.

Lemma psize_add_finish st ps q r :
  ring_part st ps q -> fa_curarg st < fa_nargs st -> zlen q + zlen r < 2 ^ 16 ->
  zlen r <= fa_arg_data_size st ->
  zslice (2 * fa_curarg st) 2 (fa_buf st) = le_bytes 2 (zlen q) ->
  zslice (fa_arg_data_offset st) (zlen r) (fa_buf st) = r ->
  exists st', (psize_add (u16 (zlen r));; modify next_arg;; modify (advance (zlen r))) st = Done tt st' /\
    ring_rep st' (ps ++ [q ++ r]) /\ env_eq st st'.
Proof.
  intros Hp Hlt Hsm Hsz Hq Hz. pose proof (zlen_nonneg q). pose proof (zlen_nonneg r).
  pose proof (rp_inv _ _ _ Hp) as []. unfold psize_add.
  unfold mbind at 1, M_bind at 1. unfold get, mbind at 1, M_bind at 1.
  rewrite zread_Some by lia. cbn [lift]. unfold mret at 1, M_ret at 1, mbind at 1, M_bind at 1.
  rewrite Hq, le_val_bytes. change (8 * Z.of_nat 2) with 16. rewrite unsigned_small by lia.
  unfold u16. rewrite unsigned_small by lia.
  destruct (psize_put_part (zlen q + zlen r) _ _ _ Hp Hlt) as (st1 & E & Hp1 & He & Hc & Ho & Hs & Hd & Hz1).
  rewrite E. clear E. unfold mbind, M_bind, modify.
  assert (zslice (fa_arg_data_offset st1) (zlen r) (fa_buf st1) = r) as Hz2.
  { rewrite Ho. apply (f_equal (ztake (zlen r))) in Hd. unfold zslice in *.
    rewrite !ztake_ztake, !Z.min_l in Hd by lia. by rewrite Hd. }
  pose proof (advance_part st1 ps q r Hp1 ltac:(lia) Hz2) as Ha.
  exists (advance (zlen r) (next_arg st1)). split; [done|].
  pose proof (finish_part _ _ _ Ha) as Hf. cbn in Hf. split; [|destruct He; by constructor].
  apply Hf.
  - rewrite Hc, (ee_nargs _ _ He). done.
  - rewrite zlen_app. lia.
  - rewrite Hc, Hz1, zlen_app. done.
Qed.

(** The last steps of a call: the value a reader left behind the offset becomes the rest of the parameter. *)
Lemma finish_value st1 st2 ps pre len max : ring_part st1 ps pre -> touch st1 st2 -> fa_curarg st1 < fa_nargs st1 ->
  0 <= len <= max -> max <= fa_arg_data_size st1 -> zlen pre + max < 2 ^ 16 ->
  zslice (2 * fa_curarg st1) 2 (fa_buf st1) = le_bytes 2 (zlen pre) ->
  exists st3, (psize_add (u16 len);; modify next_arg;; modify (advance len)) st2 = Done tt st3 /\
    ring_rep st3 (ps ++ [pre ++ zslice (fa_arg_data_offset st1) len (fa_buf st2)]) /\ env_eq st1 st3.
Proof.
  intros Hp1 Ht Hlt Hlen Hmax Hsm Hz1. destruct (touch_fields _ _ Ht) as (Eo & Es & Ec & _).
  pose proof (rp_inv _ _ _ Hp1) as Hi1. pose proof (touch_part _ _ _ _ Ht Hp1) as Hp2. pose proof (rp_inv _ _ _ Hp2) as Hi2.
  set (r := zslice (fa_arg_data_offset st1) len (fa_buf st2)). assert (zlen r = len) as Lr by (destruct Hi2; apply zlen_zslice; destruct Hi1; lia).
  destruct (psize_add_finish st2 ps pre r) as (st3 & E3 & Hr3 & He3); [done| | |by rewrite Es; lia| |by rewrite Eo, Lr|].
  - by rewrite Ec, (ee_nargs _ _ (touch_env _ _ Ht)).
  - lia.
  - rewrite Ec, <- Hz1. destruct Ht as (b & -> & _ & Hb). cbn.
    assert (forall x : list Z, zslice (2 * fa_curarg st1) 2 x = zslice (2 * fa_curarg st1) 2 (ztake (fa_arg_data_offset st1) x)) as Hz
      by (intros x; destruct Hi1; symmetry; apply zslice_ztake; lia).
    by rewrite Hz, Hb, <- Hz.
  - rewrite Lr in E3. exists st3. split; [done|]. split; [done|]. etrans; [by apply touch_env|done].
Qed.

Lemma val_to_ring_post val val_len fromuser dyn st ps :
  ring_rep st ps -> call_safe st val val_len fromuser dyn ->
  append_post st ps val val_len fromuser dyn (val_to_ring val val_len fromuser dyn st).
Proof.
  intros Hr Hsafe. pose proof (rp_inv _ _ _ Hr) as Hi. pose proof Hi as [].
  unfold val_to_ring, get. unfold mbind at 1, M_bind at 1.
  destruct (Z.leb_spec (fa_nargs st) (fa_curarg st));
    [cbn [append_post fail]; split_and!; [by right|done|exists []; auto]|].
  destruct (Z.eqb_spec (fa_arg_data_size st) 0);
    [cbn [append_post fail]; split_and!; [by left|done|exists []; auto]|].
  assert ((if NOD_MAX_ARG_SIZE <? fa_arg_data_size st then NOD_MAX_ARG_SIZE else fa_arg_data_size st)
    = arg_space st) as -> by (unfold arg_space; cmp_case; lia).
  assert (1 <= arg_space st <= fa_arg_data_size st /\ arg_space st <= NOD_MAX_ARG_SIZE) as [Hsp Hsp']
    by (unfold arg_space, NOD_MAX_ARG_SIZE; lia).
  destruct (event_param (fa_event_type st) (fa_curarg st)) as [info|] eqn:Einfo.
  2: { exfalso. unfold event_param in Einfo.
    destruct (Z.leb_spec 0 (fa_curarg st)), (Z.ltb_spec (fa_curarg st) NOD_MAX_EVENT_PARAMS); done || lia. }
  cbn [lift]. unfold mret at 1, M_ret at 1. unfold mbind at 1, M_bind at 1.
  assert (0 <= u8 dyn) as Hd by (apply unsigned_bound; lia).
  pose proof (ring_dyn_post info (u8 dyn) st ps (arg_space st) Hr ltac:(lia)
    (event_param_dyn_ok _ _ _ Einfo) Hd Hsp) as HD.
  unfold mbind at 1, M_bind at 1.
  destruct (ring_dyn info (u8 dyn) (arg_space st) st) as [[t max] st1|c st1|]; [| |done].
  2: { destruct HD as [-> ->]. cbn [append_post]. split_and!; [by right|done|exists []; auto]. }
  cbv zeta in HD. destruct (slot_type info (u8 dyn)) as [t' pre] eqn:Eslot. cbn [fst snd] in HD.
  destruct HD as (-> & Hp1 & He1 & Hc1 & -> & Hmx & Hpre & Hs1 & Hz1).
  pose proof (rp_inv _ _ _ Hp1) as Hi1. pose proof (zlen_nonneg pre).
  specialize (Hsafe info Einfo). rewrite Eslot in Hsafe.
  pose proof (ring_value_post t' (u64 val) (u32 val_len) fromuser st1 (arg_space st - zlen pre) Hi1
    ltac:(lia) ltac:(lia) ltac:(apply unsigned_bound; lia)
    (env_arg_safe _ _ _ _ _ _ He1 Hsafe)) as HV.
  unfold mbind at 1, M_bind at 1.
  destruct (ring_value _ _ _ _ _ st1) as [len st2|c st2|]; cbn [value_post] in HV; [| |done].
  2: { destruct HV as [Ht Hc]. cbn [append_post]. split; [done|]. split; [etrans; [done|by apply touch_env]|].
       exists pre. split; [by eapply touch_part|]. right. exists info. by rewrite Eslot. }
  destruct HV as (Ht & Hlen & HP). destruct (Z.leb_spec len NOD_MAX_ARG_SIZE); [|lia].
  destruct (Z.leb_spec len (arg_space st - zlen pre)); [|lia]. cbn [assert].
  do 2 (unfold mbind at 1, M_bind at 1, mret at 1, M_ret at 1).
  destruct (finish_value st1 st2 ps pre len (arg_space st - zlen pre) Hp1 Ht) as (st3 & E3 & Hr3 & He3); try done; try lia.
  { rewrite Hc1, (ee_nargs _ _ He1). done. }
  { unfold NOD_MAX_ARG_SIZE in *. lia. }
  rewrite E3. cbn [append_post]. eexists info, _. rewrite Eslot. split; [done|]. split; [exact Hr3|].
  split; [by etrans|]. by eapply env_stored.
Qed.

(** ** Strings in user memory *)

(** The bytes [s] lie at user address [a]. *)
Definition user_bytes (a : Z) (s : list Z) : Prop :=
  forall i b, s !! i = Some b -> um_byte (a + Z.of_nat i) = Some b.

(** Every byte of [a .. a + n) can be read, and [access_ok] holds inside it. *)
Definition user_readable (a n : Z) : Prop :=
  (forall i, 0 <= i < n -> is_Some (um_byte (a + i))) /\
  (forall i m, 0 <= i -> 0 <= m -> i + m <= n -> um_access_ok (a + i) m = true).

Lemma user_readable_sub a n i m :
  user_readable a n -> 0 <= i -> i + m <= n -> user_readable (a + i) m.
Proof.
  intros [H1 H2] Hi Hm. split.
  - intros j Hj. replace (a + i + j) with (a + (i + j)) by lia. apply H1. lia.
  - intros j k Hj Hk Hjk. replace (a + i + j) with (a + (i + j)) by lia. apply H2; lia.
Qed.

(** A copy of readable memory starts with the bytes known to lie there. *)
Lemma um_copy_prefix a m s :
  user_readable a m -> 0 <= m -> user_bytes a s ->
  zlen (um_copy a m) = m /\
  ztake (Z.min m (zlen s)) (um_copy a m) = ztake (Z.min m (zlen s)) s.
Proof.
  intros [Hr _] Hm Hs. pose proof (um_copy_full a m Hm Hr) as L. split; [done|].
  apply list_eq. intros i. unfold ztake. unfold zlen in *.
  destruct (decide (i < Z.to_nat (Z.min m (Z.of_nat (length s))))%nat) as [Hi|Hi].
  - rewrite !lookup_take_lt by lia.
    destruct (lookup_lt_is_Some_2 s i) as [b Hb]; [lia|].
    rewrite Hb, <- (Hs i b Hb). rewrite <- (um_copy_lookup a m (Z.of_nat i)) by (unfold zlen; lia).
    by rewrite Nat2Z.id.
  - rewrite !lookup_take_ge by lia. done.
Qed.

Lemma scan_nul_nonzero cs rest sl :
  Forall (fun b => b <> 0) cs -> scan_nul (cs ++ rest) sl = scan_nul rest (sl + zlen cs).
Proof.
  intros H. revert sl. induction H as [|b cs Hb H IH]; intros sl; cbn [app scan_nul].
  - by rewrite zlen_nil, Z.add_0_r.
  - destruct (Z.eqb_spec b 0); [done|]. rewrite IH, zlen_cons. f_equal. lia.
Qed.

(** The end of the chunk of four in which a string of [k] characters ends. *)
Definition chunk_end (k : Z) : Z := 4 * (k / 4 + 1).

Lemma strncpy_loop_spec fuel cs from n sl acc :
  (Z.to_nat n < fuel)%nat -> Forall (fun b => b <> 0) cs -> zlen cs < n ->
  user_bytes from (cs ++ [0]) -> user_readable from (Z.min n (chunk_end (zlen cs))) ->
  0 <= from -> from + n < 2 ^ 64 ->
  exists got, strncpy_loop fuel from n 4 sl acc = (sl + zlen cs + 1, acc ++ got) /\
    ztake (zlen cs + 1) got = cs ++ [0].
Proof.
  revert cs from n sl acc. induction fuel as [|fuel IH]; intros cs from n sl acc Hf Hcs Hn Hb Hr H0 Hmax; [lia|].
  cbn [strncpy_loop]. pose proof (zlen_nonneg cs).
  destruct (Z.eqb_spec n 0); [lia|].
  set (m := if n <? 4 then n else 4).
  assert (0 < m /\ m = Z.min n 4) as [Hm Em] by (unfold m; cmp_case; lia).
  assert (m <= Z.min n (chunk_end (zlen cs))) as Hmc.
  { unfold chunk_end. pose proof (Z.div_pos (zlen cs) 4). lia. }
  assert (user_readable from m) as Hrm.
  { replace from with (from + 0) by lia. eapply user_readable_sub; [exact Hr|lia|lia]. }
  assert (um_access_ok from m = true) as ->.
  { destruct Hr as [_ Ha]. specialize (Ha 0 m). rewrite Z.add_0_r in Ha. apply Ha; lia. }
  cbn [negb].
  destruct (um_copy_prefix from m (cs ++ [0]) Hrm ltac:(lia) Hb) as [L E].
  rewrite L, Z.sub_diag. cbn [ctrue negb Z.eqb].
  rewrite zlen_app in E. change (zlen [0]) with 1 in E.
  destruct (Z.ltb_spec (zlen cs) m).
  - rewrite Z.min_r in E by lia. rewrite (ztake_ge _ (cs ++ [0])) in E by (zlen_simpl; lia).
    rewrite <- (ztake_zdrop (zlen cs + 1) (um_copy from m)), E.
    rewrite <- app_assoc. rewrite scan_nul_nonzero by done. cbn [app scan_nul].
    change (0 =? 0) with true. cbv iota. eexists. split; [done|].
    match goal with |- ztake _ (cs ++ 0 :: ?x) = _ => change (cs ++ 0 :: x) with (cs ++ [0] ++ x) end.
    rewrite (app_assoc cs [0]). by rewrite ztake_app_exact by (zlen_simpl; lia).
  - assert (m = 4) as E4 by lia.
    assert (um_copy from m = ztake 4 cs) as Eg.
    { rewrite Z.min_l in E by lia. rewrite ztake_ge in E by lia. rewrite E, E4.
      apply ztake_app_l. lia. }
    pose proof (scan_nul_nonzero (ztake 4 cs) [] sl ltac:(by apply Forall_take)) as Esc.
    rewrite app_nil_r, zlen_ztake in Esc by lia.
    rewrite Eg, Esc. cbn [scan_nul]. rewrite E4. unfold u64. rewrite unsigned_small by lia.
    assert (zlen (zdrop 4 cs) = zlen cs - 4) as Ld by (apply zlen_zdrop; lia).
    destruct (IH (zdrop 4 cs) (from + 4) (n - 4) (sl + 4) (acc ++ ztake 4 cs)) as (got & Hl & Hg);
      [lia|by apply Forall_drop|lia| | |lia|lia|].
    + intros i b Hi. replace (from + 4 + Z.of_nat i) with (from + Z.of_nat (4 + i)) by lia.
      apply Hb. rewrite <- (zdrop_app_l 4 cs [0]) in Hi by lia. unfold zdrop in Hi.
      by rewrite lookup_drop in Hi.
    + eapply user_readable_sub; [exact Hr|lia|]. rewrite Ld. unfold chunk_end.
      replace (zlen cs) with (zlen cs - 4 + 1 * 4) at 2 by lia. rewrite Z.div_add by lia. lia.
    + exists (ztake 4 cs ++ got). rewrite Hl, Ld, app_assoc. split; [f_equal; lia|].
      rewrite ztake_app_r by (rewrite zlen_ztake by lia; lia).
      rewrite zlen_ztake by lia. rewrite Ld in Hg.
      replace (zlen cs + 1 - 4) with (zlen cs - 4 + 1) by lia. rewrite Hg, app_assoc.
      by rewrite ztake_zdrop.
Qed.
End facts.
