(* ===== verification/FillerLib.v ===== *)
(** * Helpers of the fillers: [kmodule/fillers.c], lines 61 and 160-1620

    The functions the fillers share: reading structures and string vectors from
    user memory, packing socket addresses and tuples into [str_storage], and the
    parsers of socket options, I/O vectors, [ptrace] arguments, poll sets and
    time values.  A helper that returns an [int] error code is an [F unit]; one
    that returns a value is an [F Z]. *)

From S2P Require Import Prelude Kernel Tables Flags Ring.

Local Open Scope Z_scope.

(** ** Constants *)

Definition EINVAL : Z := 22.
Definition EFAULT : Z := 14.
Definition SECOND_IN_NS : Z := 1000000000.
Definition PRB_FLAG_PUSH_SIZE : Z := 1.
Definition PRB_FLAG_PUSH_DATA : Z := 2.
Definition PRB_FLAG_PUSH_ALL : Z := PRB_FLAG_PUSH_SIZE |! PRB_FLAG_PUSH_DATA.
Definition PRB_FLAG_IS_WRITE : Z := 4.
Definition NOD_MS_MGC_MSK : Z := 0xffff0000.
Definition NOD_MS_MGC_VAL : Z := 0xC0ED0000.

(** The macro [merge_64]. *)
Definition merge_64 (hi lo : Z) : Z := u64 (Z.shiftl hi 32 + Z.land lo 0xffffffff).

(** [ntohs] on a little-endian machine. *)
Definition ntohs (x : Z) : Z := (x mod 256) * 256 + (x / 256) mod 256.

(** The unsigned field of [n] bytes at offset [off] of a structure. *)
Definition fld (off n : Z) (bs : list Z) : Z := unsigned (8 * n) (le_val (zslice off n bs)).

(** [strnlen] on the bytes of an object. *)
Fixpoint strnlen (bs : list Z) (n : nat) : Z :=
  match bs, n with
  | b :: rest, S m => if b =? 0 then 0 else 1 + strnlen rest m
  | _, _ => 0
  end.

(** [strncpy(dst, src, n)]: the [n] bytes stored. *)
Fixpoint strncpy (src : list Z) (n : nat) {struct n} : list Z :=
  match n with
  | O => []
  | S m => match src with
           | b :: rest => if b =? 0 then replicate (S m) 0 else b :: strncpy rest m
           | [] => replicate (S m) 0
           end
  end.

Section lib.
Context {K : Kernel}.

(** [val_to_ring(args, val, 0, false, 0)] and [val_to_ring(args, val, 0, true, 0)]. *)
Definition push (val : Z) : F unit := val_to_ring val 0 false 0.
Definition push_user (val : Z) : F unit := val_to_ring val 0 true 0.

(** [return res;] *)
Definition code (res : Z) : F unit := if res =? 0 then mret tt else fail res.

(** [is_socketcall ? socketcall_args[j] : the i-th argument]. *)
Definition sc_arg (i j : nat) : F Z :=
  st ← get; mret (if fa_is_socketcall st then nth j k_socketcall_args 0 else sys_arg i).

(** [nod_copy_from_user] into a local object, [None] when it was not complete. *)
Definition read_user (from n : Z) : option (list Z) :=
  let '(miss, bs) := nod_copy_from_user from n in if ctrue miss then None else Some bs.

(** ... with [return NOD_FAILURE_INVALID_USER_MEMORY] in that case. *)
Definition fetch_user (from n : Z) : F (list Z) :=
  match read_user from n with
  | Some bs => mret bs
  | None => fail NOD_FAILURE_INVALID_USER_MEMORY
  end.

(** [nod_copy_from_user(str_storage + off, from, n)]: the bytes not copied. *)
Definition str_copy_user (off from n : Z) : F Z :=
  let '(miss, bs) := nod_copy_from_user from n in str_put off bs;; mret miss.

(** Read [n] bytes of [str_storage]. *)
Definition str_get (off n : Z) : F (list Z) := st ← get; lift (zread off n (fa_str st)).

(** [accumulate_argv_or_env]: the length accumulated or a negative error code.
    Every string takes at least one byte of [available]. *)
Fixpoint accumulate_loop (fuel : nat) (argv available len : Z) : F Z :=
  match fuel with
  | O => bug
  | S fuel =>
      match read_user argv 8 with
      | None => mret NOD_FAILURE_INVALID_USER_MEMORY
      | Some bs =>
          let p := le_val bs in
          if p =? 0 then mret len else
          if available <? 1 then mret NOD_FAILURE_BUFFER_FULL else
          let '(n, stored) := nod_strncpy_from_user p available in
          str_put len stored;;
          let n_bytes_copied := s32 n - 1 in
          if n_bytes_copied <? 0 then mret NOD_FAILURE_INVALID_USER_MEMORY else
          if available <=? n_bytes_copied then mret NOD_FAILURE_BUFFER_FULL else
          accumulate_loop fuel (u64 (argv + 8)) (available - (n_bytes_copied + 1))
            (len + (n_bytes_copied + 1))
      end
  end.

Definition accumulate_argv_or_env (argv available : Z) : F Z :=
  if argv =? 0 then mret 0 else accumulate_loop (S (Z.to_nat available)) argv available 0.

(** [nod_get_mm_rss(mm) << (PAGE_SHIFT - 10)] and the like. *)
Definition kib (pages : Z) : Z := Z.shiftl pages (PAGE_SHIFT - 10).

(** ** Socket addresses *)

(** [pack_addr]: [address] is the kernel copy of the user's address of [ulen]
    bytes; the result is the size stored at [str_storage]. *)
Definition pack_addr (address : list Z) (ulen : Z) : F Z :=
  let family := fld 0 2 address in
  if family =? AF_INET then
    f ← lift (socket_family_to_scap family);
    str_put 0 (le_bytes 1 f);;
    str_put 1 (zslice 4 4 address);;
    str_put 5 (le_bytes 2 (ntohs (fld 2 2 address)));;
    mret (1 + 4 + 2)
  else if family =? AF_INET6 then
    f ← lift (socket_family_to_scap family);
    str_put 0 (le_bytes 1 f);;
    str_put 1 (zslice 8 16 address);;
    str_put 17 (le_bytes 2 (ntohs (fld 2 2 address)));;
    mret (1 + 16 + 2)
  else if family =? AF_UNIX then
    address ← lift (zwrite (if ulen =? SOCKADDR_STORAGE_SIZE then ulen - 1 else ulen) [0] address);
    f ← lift (socket_family_to_scap family);
    str_put 0 (le_bytes 1 f);;
    str_put 1 (strncpy (zdrop 2 address) (Z.to_nat UNIX_PATH_MAX));;
    str_put (1 + (UNIX_PATH_MAX - 1)) [0];;
    dest ← str_get 1 UNIX_PATH_MAX;
    mret (u16 (1 + (strnlen dest (Z.to_nat UNIX_PATH_MAX) + 1)))
  else mret 0.

(** [addr_to_kernel] into an uninitialized [sockaddr_storage]: [None] is a
    negative result. *)
Definition addr_to_kernel (uaddr ulen : Z) : option (list Z) :=
  if (ulen <? 0) || (SOCKADDR_STORAGE_SIZE <? ulen) then None else
  if ulen =? 0 then Some k_stack_addr else
  match read_user uaddr ulen with
  | Some bs => zwrite 0 bs k_stack_addr
  | None => None
  end.

(** [get_fd_dev]; [fdt->fd] has [max_fds] entries. *)
Definition get_fd_dev (fd : Z) : F Z :=
  if fd <? 0 then mret 0 else
  if negb k_has_files then mret 0 else
  if k_max_fds <? fd then mret 0 else
  if fd =? k_max_fds then bug else
  match k_fd_sb_dev fd with
  | Some dev => mret (u32 (k_new_encode_dev dev))
  | None => mret 0
  end.

(** The endpoints of an [AF_INET] tuple: [(sip, sport, dip, dport)], the ports
    in host order. *)
Definition inet_ends (src dst : list Z) : list Z :=
  zslice 4 4 src ++ le_bytes 2 (ntohs (fld 2 2 src)) ++
  zslice 4 4 dst ++ le_bytes 2 (ntohs (fld 2 2 dst)).

Definition inet6_ends (src dst : list Z) : list Z :=
  zslice 8 16 src ++ le_bytes 2 (ntohs (fld 2 2 src)) ++
  zslice 8 16 dst ++ le_bytes 2 (ntohs (fld 2 2 dst)).

(** [fd_to_socktuple]: [usr] is the kernel copy of the user's address, read
    when [use_userdata]; the result is the size stored at [str_storage].  The
    stores of the tuple are consecutive from offset 1 on. *)
Definition fd_to_socktuple (fd : Z) (usr : list Z) (ulen : Z) (use_userdata is_inbound : bool) : F Z :=
  match k_sockfd fd with
  | Some (Some sk) =>
      sock_address ← lift (sk_name sk);
      let family := u16 (sk_family sk) in
      if family =? AF_INET then
        ends ← (if negb use_userdata then
                  match sk_peername sk with
                  | Some peer => mret (if is_inbound then inet_ends peer sock_address
                                       else inet_ends sock_address peer)
                  | None => mret (replicate 12 0)
                  end
                else mret (if is_inbound then inet_ends usr sock_address
                           else inet_ends sock_address usr));
        f ← lift (socket_family_to_scap family);
        str_put 0 (le_bytes 1 f);;
        str_put 1 ends;;
        mret (1 + 4 + 4 + 2 + 2)
      else if family =? AF_INET6 then
        ends ← (if negb use_userdata then
                  peer ← lift (sk_peername sk);
                  mret (if is_inbound then inet6_ends peer sock_address
                        else inet6_ends sock_address peer)
                else mret (if is_inbound then inet6_ends usr sock_address
                           else inet6_ends sock_address usr));
        f ← lift (socket_family_to_scap family);
        str_put 0 (le_bytes 1 f);;
        str_put 1 ends;;
        mret (1 + 16 + 16 + 2 + 2)
      else if family =? AF_UNIX then
        f ← lift (socket_family_to_scap family);
        str_put 0 (le_bytes 1 f);;
        str_put 1 (le_bytes 8 (if is_inbound then sk_us sk else sk_peer sk));;
        str_put (1 + 8) (le_bytes 8 (if is_inbound then sk_peer sk else sk_us sk));;
        us_name ← (if negb use_userdata then
                     if is_inbound then mret (zdrop 2 sock_address)
                     else peer ← lift (sk_peername sk); mret (zdrop 2 peer)
                   else
                     usr ← lift (zwrite (if ulen =? SOCKADDR_STORAGE_SIZE then ulen - 1 else ulen) [0] usr);
                     mret (zdrop 2 (if is_inbound then sock_address else usr)));
        str_put (1 + 8 + 8) (strncpy us_name (Z.to_nat UNIX_PATH_MAX));;
        str_put (1 + 8 + 8 + (UNIX_PATH_MAX - 1)) [0];;
        dest ← str_get (1 + 8 + 8) UNIX_PATH_MAX;
        mret (u16 (1 + 8 + 8 + strnlen dest (Z.to_nat UNIX_PATH_MAX) + 1))
      else mret 0
  | _ => mret 0
  end.

(** The part the socket fillers share: with a user address [usrsockaddr] of
    [ulen] bytes, convert it with [conv]; the size is 0 when there is none or it
    cannot be read. *)
Definition with_sockaddr (usrsockaddr ulen : Z) (conv : list Z -> F Z) : F Z :=
  match addr_to_kernel usrsockaddr ulen with
  | Some address => conv address
  | None => mret 0
  end.

(** ** Parsers *)

(** The options of [parse_sockopt] that carry an [uint32_t]. *)
Definition sockopt_u32_options : list Z :=
  [SO_DEBUG; SO_REUSEADDR; SO_TYPE; SO_DONTROUTE; SO_BROADCAST; SO_SNDBUF; SO_RCVBUF;
   SO_SNDBUFFORCE; SO_RCVBUFFORCE; SO_KEEPALIVE; SO_OOBINLINE; SO_NO_CHECK; SO_PRIORITY;
   SO_BSDCOMPAT; SO_REUSEPORT; SO_PASSCRED; SO_RCVLOWAT; SO_SNDLOWAT;
   SO_SECURITY_AUTHENTICATION; SO_SECURITY_ENCRYPTION_TRANSPORT;
   SO_SECURITY_ENCRYPTION_NETWORK; SO_BINDTODEVICE; SO_DETACH_FILTER] ++
  ifdef "SO_TIMESTAMP" [SO_TIMESTAMP] ++
  [SO_ACCEPTCONN; SO_PEERSEC; SO_PASSSEC] ++
  ifdef "SO_TIMESTAMPNS" [SO_TIMESTAMPNS] ++ [SO_MARK] ++
  ifdef "SO_TIMESTAMPING" [SO_TIMESTAMPING] ++
  [SO_PROTOCOL; SO_DOMAIN; SO_RXQ_OVFL; SO_WIFI_STATUS; SO_PEEK_OFF; SO_NOFCS;
   SO_LOCK_FILTER; SO_SELECT_ERR_QUEUE; SO_BUSY_POLL; SO_MAX_PACING_RATE;
   SO_BPF_EXTENSIONS; SO_INCOMING_CPU].

(** [parse_sockopt]; [struct timeval] has two [int32_t] fields. *)
Definition parse_sockopt (level optname optval optlen : Z) : F unit :=
  let level := s32 level in let optname := s32 optname in let optlen := s32 optlen in
  if level =? SOL_SOCKET then
    if optname =? SO_ERROR then
      bs ← fetch_user optval 4;
      val_to_ring (- s32 (le_val bs)) 0 false NOD_SOCKOPT_IDX_ERRNO
    else if existsb (Z.eqb optname) (ifdef "SO_RCVTIMEO" [SO_RCVTIMEO] ++ ifdef "SO_SNDTIMEO" [SO_SNDTIMEO]) then
      bs ← fetch_user optval 8;
      let ns := s32 (s32 (fld 0 4 bs) * SECOND_IN_NS + s32 (fld 4 4 bs) * 1000) in
      val_to_ring ns 0 false NOD_SOCKOPT_IDX_TIMEVAL
    else if optname =? SO_COOKIE then
      bs ← fetch_user optval 8;
      val_to_ring (le_val bs) 0 false NOD_SOCKOPT_IDX_UINT64
    else if existsb (Z.eqb optname) sockopt_u32_options then
      bs ← fetch_user optval 4;
      val_to_ring (le_val bs) 0 false NOD_SOCKOPT_IDX_UINT32
    else val_to_ring optval optlen true NOD_SOCKOPT_IDX_UNKNOWN
  else val_to_ring optval optlen true NOD_SOCKOPT_IDX_UNKNOWN.

(** [size += iov[j].iov_len] over the vector at the start of [str_storage]. *)
Fixpoint iov_size (n : nat) (j size : Z) : F Z :=
  match n with
  | O => mret size
  | S n =>
      iov ← str_get (16 * j) 16;
      iov_size n (j + 1) (u64 (size + fld 8 8 iov))
  end.

(** The loop that merges the buffers at [str_storage + base]; the result is
    [bufsize]. *)
Fixpoint iov_merge (n : nat) (j bufsize base targetbuflen retval : Z) (is_write : bool) : F Z :=
  match n with
  | O => mret bufsize
  | S n =>
      if negb is_write && (u64 retval <=? bufsize) then mret bufsize else
      iov ← str_get (16 * j) 16;
      let iov_base := fld 0 8 iov in let iov_len := fld 8 8 iov in
      let tocopy_len :=
        if negb is_write
        then Z.min (Z.min iov_len (u64 (retval - bufsize))) (u64 (targetbuflen - bufsize - 1))
        else Z.min iov_len (u64 (targetbuflen - bufsize - 1)) in
      miss ← str_copy_user (base + bufsize) iov_base tocopy_len;
      if ctrue (u32 miss) then fail NOD_FAILURE_INVALID_USER_MEMORY else
      let bufsize := bufsize + tocopy_len in
      if negb (tocopy_len =? iov_len) then mret bufsize
      else iov_merge n (j + 1) bufsize base targetbuflen retval is_write
  end.

(** [parse_readv_writev_bufs] *)
Definition parse_readv_writev_bufs (iovsrc iovcnt retval flags : Z) : F unit :=
  let copylen := u64 (iovcnt * 16) in
  if 0xffffffff <=? iovcnt then fail NOD_FAILURE_BUFFER_FULL else
  if STR_STORAGE_SIZE <=? copylen then fail NOD_FAILURE_BUFFER_FULL else
  miss ← str_copy_user 0 iovsrc copylen;
  if ctrue miss then fail NOD_FAILURE_INVALID_USER_MEMORY else
  let targetbuf := copylen in
  let targetbuflen := u32 (STR_STORAGE_SIZE - copylen) in
  (if has flags PRB_FLAG_PUSH_SIZE then
     size ← iov_size (Z.to_nat iovcnt) 0 0;
     let size := if negb (has flags PRB_FLAG_IS_WRITE) && (u64 retval <? size) then u64 retval else size in
     push size
   else mret tt);;
  (if has flags PRB_FLAG_PUSH_DATA then
     if (0 <? retval) && (0 <? iovcnt) then
       bufsize ← iov_merge (Z.to_nat iovcnt) 0 0 targetbuf targetbuflen retval (has flags PRB_FLAG_IS_WRITE);
       val_to_ring (k_str_addr + targetbuf) bufsize false 0
     else push 0
   else mret tt).

Definition parse_ptrace_addr (request : Z) : F unit :=
  val_to_ring (sys_arg 2) 0 false NOD_PTRACE_IDX_UINT64.

Definition parse_ptrace_data (request : Z) : F unit :=
  let val := sys_arg 3 in
  if existsb (Z.eqb request) [NOD_PTRACE_PEEKTEXT; NOD_PTRACE_PEEKDATA; NOD_PTRACE_PEEKUSR] then
    bs ← fetch_user val 8;
    val_to_ring (le_val bs) 0 false NOD_PTRACE_IDX_UINT64
  else if existsb (Z.eqb request)
            [NOD_PTRACE_CONT; NOD_PTRACE_SINGLESTEP; NOD_PTRACE_DETACH; NOD_PTRACE_SYSCALL] then
    val_to_ring val 0 false NOD_PTRACE_IDX_SIGTYPE
  else val_to_ring val 0 false NOD_PTRACE_IDX_UINT64.

(** The loop of [poll_parse_fds] over [struct pollfd]s at the start of
    [str_storage]; [base] is the offset of [targetbuf].  The read of entry 512
    leaves the page, so 513 iterations are enough. *)
Fixpoint poll_loop (fuel : nat) (nfds base : Z) (enter_event : bool) (j pos fds_count : Z) : F (Z * Z) :=
  match fuel with
  | O => bug
  | S fuel =>
      if negb (j <? nfds) then mret (pos, fds_count) else
      e ← str_get (8 * j) 8;
      let events := s16 (fld 4 2 e) in let revents := s16 (fld 6 2 e) in
      if negb enter_event && (revents =? 0)
      then poll_loop fuel nfds base enter_event (u32 (j + 1)) pos fds_count
      else
        let flags := poll_events_to_scap (if enter_event then events else revents) in
        str_put (base + pos) (le_bytes 8 (s32 (fld 0 4 e)));;
        str_put (base + pos + 8) (le_bytes 2 flags);;
        poll_loop fuel nfds base enter_event (u32 (j + 1)) (u32 (pos + 10)) (fds_count + 1)
  end.

Definition poll_fuel : nat := 513.

(** [poll_parse_fds] *)
Definition poll_parse_fds (enter_event : bool) : F unit :=
  let nfds := sys_arg 1 in
  if STR_STORAGE_SIZE <? u64 (8 * nfds + 2 + 10 * nfds) then fail NOD_FAILURE_BUFFER_FULL else
  miss ← str_copy_user 0 (sys_arg 0) (u64 (nfds * 8));
  if ctrue miss then fail NOD_FAILURE_INVALID_USER_MEMORY else
  let base := u64 (nfds * 8) + 2 in
  '(pos, fds_count) ← poll_loop poll_fuel nfds base enter_event 0 2 0;
  str_put base (le_bytes 2 fds_count);;
  val_to_ring (k_str_addr + base) pos false 0.

(** [timespec_parse]; the [struct timespec] of [nodrop.h] has two [int32_t]
    fields. *)
Definition timespec_parse (val : Z) : F unit :=
  cfulen ← str_copy_user 0 val 8;
  if ctrue cfulen then fail NOD_FAILURE_INVALID_USER_MEMORY else
  tts ← str_get 0 8;
  push (u64 (u64 (s32 (fld 0 4 tts)) * 1000000000 + s32 (fld 4 4 tts))).

(** [append_cgroup(name, .., str_storage + STR_STORAGE_SIZE - available,
    &available)]: the remaining space, [None] when the entry does not fit.
    [cgroup_path] stores the path truncated to the space. *)
Definition append_cgroup (name path : list Z) (available : Z) : F (option Z) :=
  let off := STR_STORAGE_SIZE - available in
  str_put off (strlcpy path available);;
  st ← get;
  path ← lift (cstr (zdrop off (fa_str st)));
  if available <? zlen name + 1 + zlen path + 1 then mret None else
  str_put (off + zlen name + 1) path;;
  str_put off name;;
  str_put (off + zlen name) [61];;
  str_put (off + zlen name + 1 + zlen path) [0];;
  mret (Some (available - (zlen name + 1 + zlen path + 1))).

(** [#include <linux/cgroup_subsys.h>] *)
Fixpoint append_cgroups (subsys : list (list Z * list Z)) (available : Z) : F Z :=
  match subsys with
  | [] => mret available
  | (name, path) :: rest =>
      r ← append_cgroup name path available;
      match r with
      | Some available => append_cgroups rest available
      | None => mret available
      end
  end.
End lib.
