(* ===== verification/Fillers.v ===== *)
(** * The fillers: [kmodule/fillers.c], lines 1516-5789

    One definition per filler, named as in the source.  A filler reads the
    arguments and the result of the system call and pushes the parameters of its
    event; each [push] stands for a call of [val_to_ring] whose error is
    returned.  [run_filler] is the table of callbacks, [nod_autofill] and
    [nod_filler_callback] drive them. *)

From S2P Require Import Prelude Kernel Tables Flags Ring FillerLib.

Local Open Scope Z_scope.

Section fillers.
Context {K : Kernel}.

(** [if ((int)val == AT_FDCWD) val = NOD_AT_FDCWD;] *)
Definition dirfd (val : Z) : Z := if s32 val =? AT_FDCWD then NOD_AT_FDCWD else val.

(** ** Process creation *)

(** The [exe] and [args] parameters from [args_len] bytes of [str_storage]. *)
Definition push_exe_args (args_len : Z) : F unit :=
  (if args_len =? 0 then str_put 0 [0] else mret tt);;
  st ← get;
  let exe_len := strnlen (fa_str st) (Z.to_nat args_len) in
  let exe_len := if exe_len <? args_len then exe_len + 1 else exe_len in
  push k_str_addr;;
  val_to_ring (k_str_addr + exe_len) (args_len - exe_len) false 0.

(** Copy [to - from] bytes of the process' argument or environment area, at most
    a page, and terminate them: the length, 0 on a fault. *)
Definition copy_area (from len : Z) : F Z :=
  if ctrue len then
    let len := if PAGE_SIZE <? u64 len then PAGE_SIZE else len in
    miss ← str_copy_user 0 from len;
    if ctrue miss then mret 0 else str_put (len - 1) [0];; mret len
  else mret 0.

(** The first part of [f_proc_startupdate]: result, exe and args. *)
Definition startupdate_exe : F unit :=
  let retval := k_ret in
  push retval;;
  st ← get;
  let et := fa_event_type st in
  let is_exec := (et =? NODE_SYSCALL_EXECVE_19) || (et =? NODE_SYSCALL_EXECVEAT) in
  if (retval <? 0) && negb is_exec then
    str_put 0 [0];;
    push k_str_addr;;
    push k_str_addr
  else
    args_len ← (if 0 <=? retval then
      match t_mm k_task with
      | None => str_put 0 [0];; fail NOD_FAILURE_BUG
      | Some mm =>
          if mm_arg_end mm =? 0 then str_put 0 [0];; fail NOD_FAILURE_BUG else
          copy_area (mm_arg_start mm) (s32 (mm_arg_end mm - mm_arg_start mm))
      end
    else
      str_put 0 [0];;
      let val := if et =? NODE_SYSCALL_EXECVE_19 then sys_arg 1
                 else if et =? NODE_SYSCALL_EXECVEAT then sys_arg 2 else 0 in
      args_len ← accumulate_argv_or_env val STR_STORAGE_SIZE;
      mret (if args_len <? 0 then 0 else args_len));
    push_exe_args args_len.

(** The identifiers, limits, counters and the command name. *)
Definition startupdate_ids : F unit :=
  let t := k_task in
  push (t_pid t);;
  push (t_tgid t);;
  push (default 0 (t_real_parent t));;
  push (k_lit "");;
  push (t_rlimit_nofile t);;
  push (t_maj_flt t);;
  push (t_min_flt t);;
  let '(total_vm, total_rss, swap) :=
    match t_mm t with
    | Some mm => (kib (mm_total_vm mm), kib (mm_rss mm), kib (mm_swap mm))
    | None => (0, 0, 0)
    end in
  push total_vm;;
  push total_rss;;
  push swap;;
  push (t_comm t).

(** The [cgroups] parameter; the result is [available]. *)
Definition startupdate_cgroups : F Z :=
  str_put 0 [0];;
  available ← append_cgroups k_cgroups STR_STORAGE_SIZE;
  val_to_ring k_str_addr (STR_STORAGE_SIZE - available) false 0;;
  mret available.

(** The parameters of the clone family. *)
Definition startupdate_clone (et : Z) : F unit :=
  let t := k_task in
  val ← (if et =? NODE_SYSCALL_CLONE_20 then mret (sys_arg 0)
         else if et =? NODE_SYSCALL_CLONE3 then
           cl_args ← fetch_user (sys_arg 0) 88; mret (fld 0 8 cl_args)
         else mret 0);
  let in_pidns := if t_in_pidns t then NOD_CL_CHILD_IN_PIDNS else 0 in
  push (clone_flags_to_scap val |! in_pidns);;
  push (t_euid t);;
  push (t_egid t);;
  push (t_vtid t);;
  push (t_vpid t).

(** The parameters of the execve family. *)
Definition startupdate_exec (et available : Z) : F unit :=
  let t := k_task in
  env_len ← (if 0 <=? k_ret then
               mm ← lift (t_mm t);
               copy_area (mm_env_start mm) (s64 (mm_env_end mm - mm_env_start mm))
             else
               let val := if et =? NODE_SYSCALL_EXECVE_19 then sys_arg 2
                          else if et =? NODE_SYSCALL_EXECVEAT then sys_arg 3 else 0 in
               env_len ← accumulate_argv_or_env val available;
               mret (if env_len <? 0 then 0 else env_len));
  (if env_len =? 0 then str_put 0 [0] else mret tt);;
  val_to_ring k_str_addr env_len false 0;;
  push (t_tty t);;
  push (t_pgid t);;
  push (t_loginuid t);;
  _ ← lift (t_mm t);
  push (if t_exe_writable t then NOD_EXE_WRITABLE else 0).

Definition f_proc_startupdate : F unit :=
  startupdate_exe;;
  startupdate_ids;;
  available ← startupdate_cgroups;
  st ← get;
  let et := fa_event_type st in
  if (et =? NODE_SYSCALL_CLONE_20) || (et =? NODE_SYSCALL_FORK_20)
     || (et =? NODE_SYSCALL_VFORK_20) || (et =? NODE_SYSCALL_CLONE3)
  then startupdate_clone et
  else if (et =? NODE_SYSCALL_EXECVE_19) || (et =? NODE_SYSCALL_EXECVEAT)
  then startupdate_exec et available
  else mret tt.

Definition f_sys_empty : F unit := mret tt.

Definition f_sys_generic : F unit :=
  st ← get;
  let table_index := fa_syscall_nr st in
  if (0 <=? table_index) && (table_index <? SYSCALL_TABLE_SIZE)
  then push table_index
  else assert false;; push (k_lit "<out of bound>").

Definition f_sys_open : F unit :=
  push k_ret;;
  push_user (sys_arg 0);;
  let flags := sys_arg 1 in
  push (open_flags_to_scap flags);;
  push (open_modes_to_scap flags (sys_arg 2));;
  dev ← get_fd_dev k_ret;
  push dev.

Definition f_sys_read : F unit :=
  modify (set_fd (s32 (sys_arg 0)));;
  push k_ret;;
  let '(val, bufsize) := if k_ret <? 0 then (0, 0) else (sys_arg 1, k_ret) in
  val_to_ring val bufsize true 0.

Definition f_sys_write : F unit :=
  modify (set_fd (s32 (sys_arg 0)));;
  push k_ret;;
  let bufsize := sys_arg 2 in
  val_to_ring (sys_arg 1) bufsize true 0.

(** The file name of the execve family, with its fallback. *)
Definition push_filename (val : Z) : F unit :=
  catch (push_user val) (fun res =>
    if res =? NOD_FAILURE_INVALID_USER_MEMORY then push (k_lit "<NA>") else code res).

Definition f_sys_execve : F unit :=
  push_filename (sys_arg 0);;
  f_proc_startupdate.

Definition f_sys_execveat : F unit :=
  push (dirfd (sys_arg 0));;
  push_filename (sys_arg 1);;
  push (execveat_flags_to_scap (sys_arg 4));;
  f_proc_startupdate.

(** ** Sockets *)

(** [res = val_to_ring(...);], the result not checked. *)
Definition push_unchecked (val : Z) : F unit := catch (push val) (fun _ => mret tt).

Definition f_sys_socket_bind : F unit :=
  push_unchecked k_ret;;
  usrsockaddr ← sc_arg 1 1;
  val ← sc_arg 2 2;
  size ← (if ctrue usrsockaddr && ctrue val
          then with_sockaddr usrsockaddr (s32 val) (fun address => pack_addr address (s32 val))
          else mret 0);
  val_to_ring k_str_addr size false 0.

Definition f_sys_connect : F unit :=
  push_unchecked k_ret;;
  fd ← sc_arg 0 0;
  let fd := s32 fd in
  size ← (if 0 <=? fd then
            usrsockaddr ← sc_arg 1 1;
            val ← sc_arg 2 2;
            if ctrue usrsockaddr && ctrue val
            then with_sockaddr usrsockaddr (s32 val) (fun address =>
                   fd_to_socktuple fd address (s32 val) true false)
            else mret 0
          else mret 0);
  val_to_ring k_str_addr size false 0.

(** [f_sys_send_e_common]; the result is [*fd]. *)
Definition f_sys_send_e_common : F Z :=
  val ← sc_arg 0 0;
  push val;;
  size ← sc_arg 2 2;
  push size;;
  mret (s32 val).

Definition f_sys_send_x_common : F unit :=
  val ← sc_arg 0 0;
  modify (set_fd (s32 val));;
  push k_ret;;
  '(val, bufsize) ← (if k_ret <? 0 then mret (0, 0) else val ← sc_arg 1 1; mret (val, k_ret));
  val_to_ring val bufsize true 0.

Definition f_sys_send : F unit :=
  _ ← f_sys_send_e_common;
  f_sys_send_x_common.

Definition f_sys_sendto : F unit :=
  str_put 0 [250];;
  fd ← f_sys_send_e_common;
  usrsockaddr ← sc_arg 4 4;
  val ← sc_arg 5 5;
  size ← (if ctrue usrsockaddr && ctrue val
          then with_sockaddr usrsockaddr (s32 val) (fun address =>
                 fd_to_socktuple fd address (s32 val) true false)
          else mret 0);
  val_to_ring k_str_addr size false 0;;
  f_sys_send_x_common.

(** [f_sys_recv_common]; the result is [*retval]. *)
Definition f_sys_recv_common : F Z :=
  val ← sc_arg 0 1;
  modify (set_fd (s32 val));;
  push k_ret;;
  '(val, bufsize) ← (if k_ret <? 0 then mret (0, 0) else val ← sc_arg 1 1; mret (val, k_ret));
  val_to_ring val bufsize true 0;;
  mret k_ret.

Definition f_sys_recv : F unit := _ ← f_sys_recv_common; mret tt.

Definition f_sys_recvfrom : F unit :=
  retval ← f_sys_recv_common;
  size ← (if 0 <=? retval then
            fd ← sc_arg 0 0;
            let fd := s32 fd in
            usrsockaddr ← sc_arg 4 4;
            val ← sc_arg 5 5;
            if ctrue usrsockaddr && ctrue val then
              bs ← fetch_user val 4;
              let addrlen := s32 (le_val bs) in
              with_sockaddr usrsockaddr addrlen (fun address =>
                fd_to_socktuple fd address addrlen true true)
            else mret 0
          else mret 0);
  val_to_ring k_str_addr size false 0.

Definition f_sys_shutdown : F unit :=
  val ← sc_arg 0 0;
  push val;;
  val ← sc_arg 1 1;
  how ← lift (shutdown_how_to_scap val);
  push how.

Definition f_sys_socketpair : F unit :=
  push k_ret;;
  if 0 <=? k_ret then
    val ← sc_arg 3 3;
    fds ← fetch_user val 8;
    let fd0 := s32 (fld 0 4 fds) in
    push fd0;;
    push (s32 (fld 4 4 fds));;
    match k_sockfd fd0 with
    | Some sk =>
        sk ← lift sk;
        push (sk_us sk);;
        push (sk_peer sk)
    | None => code (k_sockfd_err fd0)
    end
  else push 0;; push 0;; push 0;; push 0.

Definition f_sys_setsockopt : F unit :=
  push k_ret;;
  push_user (sys_arg 0);;
  push_user (sockopt_level_to_scap (sys_arg 1));;
  optname ← lift (sockopt_optname_to_scap (sys_arg 1) (sys_arg 2));
  push_user optname;;
  parse_sockopt (sys_arg 1) (sys_arg 2) (sys_arg 3) (sys_arg 4);;
  push_user (sys_arg 4).

Definition f_sys_getsockopt : F unit :=
  push k_ret;;
  push_user (sys_arg 0);;
  push_user (sockopt_level_to_scap (sys_arg 1));;
  optname ← lift (sockopt_optname_to_scap (sys_arg 1) (sys_arg 2));
  push_user optname;;
  bs ← fetch_user (sys_arg 4) 4;
  let optlen := le_val bs in
  parse_sockopt (sys_arg 1) (sys_arg 2) (sys_arg 3) optlen;;
  push_user optlen.

(** [struct user_msghdr]: [msg_name], [msg_namelen], [msg_iov], [msg_iovlen]. *)
Definition msg_name (mh : list Z) : Z := fld 0 8 mh.
Definition msg_namelen (mh : list Z) : Z := s32 (fld 8 4 mh).
Definition msg_iov (mh : list Z) : Z := fld 16 8 mh.
Definition msg_iovlen (mh : list Z) : Z := fld 24 8 mh.

Definition f_sys_sendmsg : F unit :=
  val ← sc_arg 0 0;
  let fd := s32 val in
  push val;;
  val ← sc_arg 1 1;
  mh ← fetch_user val 56;
  st ← get;
  parse_readv_writev_bufs (msg_iov mh) (msg_iovlen mh) (fa_snaplen st) (PRB_FLAG_PUSH_SIZE |! PRB_FLAG_IS_WRITE);;
  let usrsockaddr := msg_name mh in
  let addrlen := msg_namelen mh in
  size ← (if ctrue usrsockaddr && ctrue addrlen
          then with_sockaddr usrsockaddr addrlen (fun address =>
                 fd_to_socktuple fd address addrlen true false)
          else mret 0);
  val_to_ring k_str_addr size false 0;;
  push k_ret;;
  val ← sc_arg 1 1;
  mh ← fetch_user val 56;
  st ← get;
  parse_readv_writev_bufs (msg_iov mh) (msg_iovlen mh) (fa_snaplen st) (PRB_FLAG_PUSH_DATA |! PRB_FLAG_IS_WRITE).

Definition f_sys_recvmsg : F unit :=
  push k_ret;;
  val ← sc_arg 1 1;
  mh ← fetch_user val 56;
  parse_readv_writev_bufs (msg_iov mh) (msg_iovlen mh) k_ret PRB_FLAG_PUSH_ALL;;
  size ← (if 0 <=? k_ret then
            fd ← sc_arg 0 0;
            let fd := s32 fd in
            let usrsockaddr := msg_name mh in
            let addrlen := msg_namelen mh in
            if ctrue usrsockaddr && ctrue addrlen
            then with_sockaddr usrsockaddr addrlen (fun address =>
                   fd_to_socktuple fd address addrlen true true)
            else mret 0
          else mret 0);
  val_to_ring k_str_addr size false 0.

(** ** Files and descriptors *)

Definition f_sys_creat : F unit :=
  push k_ret;;
  push_user (sys_arg 0);;
  push (open_modes_to_scap O_CREAT (sys_arg 1));;
  dev ← get_fd_dev k_ret;
  push dev.

Definition f_sys_pipe : F unit :=
  push k_ret;;
  fds ← fetch_user (sys_arg 0) 8;
  let fd0 := s32 (fld 0 4 fds) in
  push fd0;;
  push (s32 (fld 4 4 fds));;
  push (default 0 (k_fd_ino fd0)).

Definition f_sys_eventfd : F unit :=
  push (sys_arg 0);;
  push 0.

Definition f_sys_futex : F unit :=
  push (sys_arg 0);;
  push (futex_op_to_scap (sys_arg 1));;
  push (sys_arg 2).

Definition f_sys_poll_x_common : F unit :=
  push k_ret;;
  poll_parse_fds false.

Definition f_sys_poll : F unit :=
  poll_parse_fds true;;
  push (sys_arg 2);;
  push k_ret;;
  poll_parse_fds false.

Definition f_sys_lseek : F unit :=
  push (sys_arg 0);;
  push (sys_arg 1);;
  push (lseek_whence_to_scap (sys_arg 2)).

Definition f_sys_llseek : F unit :=
  push (sys_arg 0);;
  let oh := sys_arg 1 in
  let ol := sys_arg 2 in
  push (u64 (u64 (Z.shiftl oh 32) + ol));;
  push (lseek_whence_to_scap (sys_arg 4)).

Definition f_sys_pread : F unit :=
  push (sys_arg 0);;
  push (sys_arg 2);;
  let pos0 := sys_arg 3 in
  let pos1 := sys_arg 4 in
  push (merge_64 pos1 pos0);;
  f_sys_read.

Definition f_sys_pwrite : F unit :=
  push (sys_arg 0);;
  push (sys_arg 2);;
  let pos0 := sys_arg 3 in
  let pos1 := sys_arg 4 in
  push (merge_64 pos1 pos0);;
  f_sys_write.

Definition f_sys_readv_preadv : F unit :=
  push k_ret;;
  parse_readv_writev_bufs (sys_arg 1) (sys_arg 2) k_ret PRB_FLAG_PUSH_ALL.

Definition f_sys_writev_pwritev : F unit :=
  push k_ret;;
  st ← get;
  parse_readv_writev_bufs (sys_arg 1) (sys_arg 2) (fa_snaplen st) (PRB_FLAG_PUSH_DATA |! PRB_FLAG_IS_WRITE).

Definition f_sys_writev : F unit :=
  push (sys_arg 0);;
  st ← get;
  parse_readv_writev_bufs (sys_arg 1) (sys_arg 2) (fa_snaplen st) (PRB_FLAG_PUSH_SIZE |! PRB_FLAG_IS_WRITE);;
  f_sys_writev_pwritev.

Definition f_sys_preadv : F unit :=
  push (sys_arg 0);;
  let pos0 := sys_arg 3 in
  let pos1 := sys_arg 4 in
  push (merge_64 pos1 pos0);;
  f_sys_readv_preadv.

Definition f_sys_pwritev : F unit :=
  push (sys_arg 0);;
  st ← get;
  parse_readv_writev_bufs (sys_arg 1) (sys_arg 2) (fa_snaplen st) (PRB_FLAG_PUSH_SIZE |! PRB_FLAG_IS_WRITE);;
  let pos0 := sys_arg 3 in
  let pos1 := sys_arg 4 in
  push (merge_64 pos1 pos0);;
  f_sys_writev_pwritev.

Definition f_sys_nanosleep : F unit := timespec_parse (sys_arg 0).

(** [struct rlimit]: the two [int64_t] values, or [-1] twice. *)
Definition rlimit_vals (bs : list Z) : Z * Z := (fld 0 8 bs, fld 8 8 bs).

Definition f_sys_getrlimit_setrlrimit : F unit :=
  push (rlimit_resource_to_scap (sys_arg 0));;
  push k_ret;;
  st ← get;
  '(cur, max) ← (if (0 <=? k_ret) || (fa_event_type st =? NODE_SYSCALL_SETRLIMIT)
                 then rl ← fetch_user (sys_arg 1) 16; mret (rlimit_vals rl)
                 else mret (-1, -1));
  push cur;;
  push max.

Definition f_sys_prlimit : F unit :=
  push (sys_arg 0);;
  push (rlimit_resource_to_scap (sys_arg 1));;
  push k_ret;;
  let read (addr : Z) := match read_user addr 16 with
                         | Some rl => rlimit_vals rl
                         | None => (-1, -1)
                         end in
  let '(newcur, newmax) := if 0 <=? k_ret then read (sys_arg 2) else (-1, -1) in
  let '(oldcur, oldmax) := read (sys_arg 3) in
  push newcur;;
  push newmax;;
  push oldcur;;
  push oldmax.

Definition f_sys_fcntl : F unit :=
  push (sys_arg 0);;
  cmd ← lift (fcntl_cmd_to_scap (sys_arg 1));
  push cmd.

Definition f_sys_mmap : F unit :=
  push (sys_arg 0);;
  push (sys_arg 1);;
  push (prot_flags_to_scap (sys_arg 2));;
  push (mmap_flags_to_scap (sys_arg 3));;
  push (sys_arg 4);;
  push (sys_arg 5).

Definition f_sys_brk_munmap_mmap : F unit :=
  st ← get;
  let et := fa_event_type st in
  (if (et =? NODE_SYSCALL_MMAP) || (et =? NODE_SYSCALL_MMAP2) then f_sys_mmap else mret tt);;
  push k_ret;;
  let '(total_vm, total_rss, swap) :=
    match t_mm k_task with
    | Some mm => (kib (mm_total_vm mm), kib (mm_rss mm), kib (mm_swap mm))
    | None => (0, 0, 0)
    end in
  push total_vm;;
  push total_rss;;
  push swap.

Definition f_sys_ptrace : F unit :=
  push (ptrace_requests_to_scap (sys_arg 0));;
  push (sys_arg 1);;
  push k_ret;;
  if k_ret <? 0 then push 0;; push 0
  else
    let request := ptrace_requests_to_scap (sys_arg 0) in
    parse_ptrace_addr request;;
    parse_ptrace_data request.

Definition f_sys_renameat : F unit :=
  push k_ret;;
  push (dirfd (sys_arg 0));;
  push_user (sys_arg 1);;
  push (dirfd (sys_arg 2));;
  push_user (sys_arg 3).

Definition f_sys_symlinkat : F unit :=
  push k_ret;;
  push_user (sys_arg 0);;
  push (dirfd (sys_arg 1));;
  push_user (sys_arg 2).

(** The offset behind a pointer argument, 0 when there is none or it cannot be
    read. *)
Definition user_off (val : Z) : Z :=
  if ctrue val then match read_user val 8 with Some bs => le_val bs | None => 0 end else val.

Definition f_sys_sendfile : F unit :=
  push_user (sys_arg 0);;
  push_user (sys_arg 1);;
  push_user (user_off (sys_arg 2));;
  push_user (sys_arg 3);;
  push k_ret;;
  push_user (user_off (sys_arg 2)).

(** Fields of [struct if_dqblk] and [struct if_dqinfo] pushed when valid. *)
Definition push_if (valid mask val : Z) : F unit := push (if has valid mask then val else 0).

Definition f_sys_quotactl : F unit :=
  let cmd := quotactl_cmd_to_scap (sys_arg 0) in
  push cmd;;
  push (quotactl_type_to_scap (sys_arg 0));;
  let val := sys_arg 2 in
  let id := if existsb (Z.eqb cmd) [NOD_Q_GETQUOTA; NOD_Q_SETQUOTA; NOD_Q_XGETQUOTA; NOD_Q_XSETQLIM]
            then u32 val else 0 in
  push id;;
  let quota_fmt := if cmd =? NOD_Q_QUOTAON then quotactl_fmt_to_scap val else u8 NOD_QFMT_NOT_USED in
  push quota_fmt;;
  let cmd := quotactl_cmd_to_scap (sys_arg 0) in
  push k_ret;;
  push_user (sys_arg 1);;
  let val := sys_arg 3 in
  (if cmd =? NOD_Q_QUOTAON then push_user val else push (k_lit ""));;
  dqblk ← (if (cmd =? NOD_Q_GETQUOTA) || (cmd =? NOD_Q_SETQUOTA) then fetch_user val 72
           else mret (replicate 72 0));
  let dqb_valid := fld 64 4 dqblk in
  push_if dqb_valid QIF_BLIMITS (fld 0 8 dqblk);;
  push_if dqb_valid QIF_BLIMITS (fld 8 8 dqblk);;
  push_if dqb_valid QIF_SPACE (fld 16 8 dqblk);;
  push_if dqb_valid QIF_ILIMITS (fld 24 8 dqblk);;
  push_if dqb_valid QIF_ILIMITS (fld 32 8 dqblk);;
  push_if dqb_valid QIF_BTIME (fld 48 8 dqblk);;
  push_if dqb_valid QIF_ITIME (fld 56 8 dqblk);;
  dqinfo ← (if (cmd =? NOD_Q_GETINFO) || (cmd =? NOD_Q_SETINFO) then fetch_user val 24
            else mret (replicate 24 0));
  let dqi_valid := fld 20 4 dqinfo in
  push_if dqi_valid IIF_BGRACE (fld 0 8 dqinfo);;
  push_if dqi_valid IIF_IGRACE (fld 8 8 dqinfo);;
  push_if dqi_valid IIF_FLAGS (fld 16 4 dqinfo);;
  quota_fmt_out ← (if cmd =? NOD_Q_GETFMT
                   then bs ← fetch_user val 4; mret (quotactl_fmt_to_scap (le_val bs))
                   else mret NOD_QFMT_NOT_USED);
  push quota_fmt_out.

Definition f_sys_getresuid_and_gid : F unit :=
  push (s16 k_ret);;
  uid ← fetch_user (sys_arg 0) 4;
  push (le_val uid);;
  uid ← fetch_user (sys_arg 1) 4;
  push (le_val uid);;
  uid ← fetch_user (sys_arg 2) 4;
  push (le_val uid).

Definition f_sys_setns : F unit :=
  push_user (sys_arg 0);;
  push_user (clone_flags_to_scap (sys_arg 1)).

Definition f_sys_flock : F unit :=
  push (sys_arg 0);;
  push (flock_flags_to_scap (sys_arg 1)).

Definition f_sys_accept_common : F unit :=
  let fd := s32 k_ret in
  push fd;;
  size ← fd_to_socktuple fd [] 0 false true;
  val_to_ring k_str_addr size false 0;;
  let '(ack_backlog, max_ack_backlog) :=
    match k_sockfd (s32 (sys_arg 0)) with
    | Some (Some sk) => (sk_ack_backlog sk, sk_max_ack_backlog sk)
    | _ => (0, 0)
    end in
  let queuepct := if ctrue max_ack_backlog then u64 (ack_backlog * 100) / max_ack_backlog else 0 in
  push queuepct;;
  push ack_backlog;;
  push max_ack_backlog.

Definition f_sys_accept : F unit := f_sys_accept_common.

Definition f_sys_accept4 : F unit :=
  push 0;;
  f_sys_accept_common.

(** One entry of the [sembuf] array of [f_sys_semop]. *)
Definition semop_entry (nsops ptr : Z) : F unit :=
  sops ← (if ctrue nsops then fetch_user ptr 6 else mret (replicate 6 0));
  push_user (fld 0 2 sops);;
  push_user (s16 (fld 2 2 sops));;
  push_user (semop_flags_to_scap (s16 (fld 4 2 sops))).

Definition f_sys_semop : F unit :=
  push k_ret;;
  let nsops := sys_arg 2 in
  push_user nsops;;
  let ptr := sys_arg 1 in
  if ctrue nsops && ctrue ptr then
    semop_entry nsops ptr;;
    semop_entry (u64 (nsops - 1)) (u64 (ptr + 6))
  else mret tt.

Definition f_sys_semctl : F unit :=
  push_user (sys_arg 0);;
  push_user (sys_arg 1);;
  push_user (semctl_cmd_to_scap (sys_arg 2));;
  push_user (if sys_arg 2 =? SETVAL then sys_arg 3 else 0).

Definition f_sys_ppoll : F unit :=
  poll_parse_fds true;;
  let val := sys_arg 2 in
  (if val =? 0 then push (u64 (-1)) else timespec_parse val);;
  let val := sys_arg 3 in
  val ← (if ctrue val then bs ← fetch_user val 8; mret (le_val bs) else mret val);
  push val;;
  f_sys_poll_x_common.

Definition f_sys_mount : F unit :=
  let val := sys_arg 3 in
  push (if (val &! NOD_MS_MGC_MSK) =? NOD_MS_MGC_VAL
        then val &! u32 (Z.lnot NOD_MS_MGC_MSK) else val).

Definition f_sys_semget : F unit :=
  push_user (sys_arg 0);;
  push_user (sys_arg 1);;
  push_user (semget_flags_to_scap (sys_arg 2)).

Definition f_sys_access : F unit := push_user (access_flags_to_scap (sys_arg 1)).

Definition f_sys_unshare : F unit := push_user (clone_flags_to_scap (sys_arg 0)).

Definition f_sys_bpf : F unit :=
  if k_ret <? 0 then val_to_ring k_ret 0 false NOD_BPF_IDX_RES
  else
    let cmd := sys_arg 0 in
    if (cmd =? BPF_MAP_CREATE) || (cmd =? BPF_PROG_LOAD)
    then val_to_ring k_ret 0 false NOD_BPF_IDX_FD
    else val_to_ring k_ret 0 false NOD_BPF_IDX_RES.

Definition f_sys_unlinkat : F unit :=
  push k_ret;;
  push (dirfd (sys_arg 0));;
  push_user (sys_arg 1);;
  push (unlinkat_flags_to_scap (sys_arg 2)).

Definition f_sys_mkdirat : F unit :=
  push k_ret;;
  push (dirfd (sys_arg 0));;
  push_user (sys_arg 1);;
  push (sys_arg 2).

Definition f_sys_openat : F unit :=
  push k_ret;;
  push (dirfd (sys_arg 0));;
  push_user (sys_arg 1);;
  let flags := sys_arg 2 in
  push (open_flags_to_scap flags);;
  push (open_modes_to_scap flags (sys_arg 3));;
  dev ← get_fd_dev k_ret;
  push dev.

Definition f_sys_linkat : F unit :=
  push k_ret;;
  push (dirfd (sys_arg 0));;
  push_user (sys_arg 1);;
  push (dirfd (sys_arg 2));;
  push_user (sys_arg 3);;
  push (linkat_flags_to_scap (sys_arg 4)).

Definition f_sys_fchmodat : F unit :=
  push k_ret;;
  push (dirfd (sys_arg 0));;
  push_user (sys_arg 1);;
  push (chmod_mode_to_scap (sys_arg 2)).

Definition f_sys_chmod : F unit :=
  push k_ret;;
  push_user (sys_arg 0);;
  push (chmod_mode_to_scap (sys_arg 1)).

Definition f_sys_fchmod : F unit :=
  push k_ret;;
  push (sys_arg 0);;
  push (chmod_mode_to_scap (sys_arg 1)).

Definition f_sys_renameat2 : F unit :=
  push k_ret;;
  push (dirfd (sys_arg 0));;
  push_user (sys_arg 1);;
  push (dirfd (sys_arg 2));;
  push_user (sys_arg 3);;
  push (sys_arg 4).

(** [struct open_how]: flags, mode, resolve. *)
Definition f_sys_openat2 : F unit :=
  push k_ret;;
  push (dirfd (sys_arg 0));;
  push_user (sys_arg 1);;
  how ← fetch_user (sys_arg 2) 24;
  let flags := open_flags_to_scap (fld 0 8 how) in
  let mode := open_modes_to_scap (fld 0 8 how) (fld 8 8 how) in
  let resolve := openat2_resolve_to_scap (fld 16 8 how) in
  push_user flags;;
  push_user mode;;
  push_user resolve.

Definition f_sys_mprotect : F unit :=
  push (sys_arg 0);;
  push (sys_arg 1);;
  push (prot_flags_to_scap (sys_arg 2));;
  push k_ret.

Definition f_sys_copy_file_range : F unit :=
  push (sys_arg 0);;
  push (sys_arg 1);;
  push (sys_arg 4);;
  push k_ret;;
  push (sys_arg 2);;
  push (sys_arg 3).

(** ** The callbacks *)

(** [filler_callback(args)] *)
Definition run_filler (f : nod_filler_id) : F unit :=
  match f with
  | F_sys_generic => f_sys_generic | F_sys_open => f_sys_open | F_sys_empty => f_sys_empty
  | F_sys_read => f_sys_read | F_sys_write => f_sys_write | F_sys_execve => f_sys_execve
  | F_sys_socket_bind => f_sys_socket_bind | F_sys_connect => f_sys_connect
  | F_sys_send => f_sys_send | F_sys_sendto => f_sys_sendto | F_sys_recv => f_sys_recv
  | F_sys_recvfrom => f_sys_recvfrom | F_sys_shutdown => f_sys_shutdown
  | F_sys_socketpair => f_sys_socketpair | F_sys_setsockopt => f_sys_setsockopt
  | F_sys_getsockopt => f_sys_getsockopt | F_sys_sendmsg => f_sys_sendmsg
  | F_sys_recvmsg => f_sys_recvmsg | F_sys_creat => f_sys_creat | F_sys_pipe => f_sys_pipe
  | F_sys_eventfd => f_sys_eventfd | F_sys_futex => f_sys_futex | F_sys_poll => f_sys_poll
  | F_sys_lseek => f_sys_lseek | F_sys_llseek => f_sys_llseek | F_sys_pread => f_sys_pread
  | F_sys_pwrite => f_sys_pwrite | F_sys_readv_preadv => f_sys_readv_preadv
  | F_sys_writev => f_sys_writev | F_sys_preadv => f_sys_preadv | F_sys_pwritev => f_sys_pwritev
  | F_sys_nanosleep => f_sys_nanosleep
  | F_sys_getrlimit_setrlrimit => f_sys_getrlimit_setrlrimit | F_sys_prlimit => f_sys_prlimit
  | F_sys_fcntl => f_sys_fcntl | F_sys_brk_munmap_mmap => f_sys_brk_munmap_mmap
  | F_sys_ptrace => f_sys_ptrace | F_sys_renameat => f_sys_renameat
  | F_sys_symlinkat => f_sys_symlinkat | F_sys_sendfile => f_sys_sendfile
  | F_sys_quotactl => f_sys_quotactl | F_sys_getresuid_and_gid => f_sys_getresuid_and_gid
  | F_proc_startupdate => f_proc_startupdate | F_sys_setns => f_sys_setns
  | F_sys_flock => f_sys_flock | F_sys_accept => f_sys_accept | F_sys_accept4 => f_sys_accept4
  | F_sys_semop => f_sys_semop | F_sys_semctl => f_sys_semctl | F_sys_ppoll => f_sys_ppoll
  | F_sys_mount => f_sys_mount | F_sys_semget => f_sys_semget | F_sys_access => f_sys_access
  | F_sys_unshare => f_sys_unshare | F_sys_bpf => f_sys_bpf | F_sys_unlinkat => f_sys_unlinkat
  | F_sys_mkdirat => f_sys_mkdirat | F_sys_openat => f_sys_openat | F_sys_linkat => f_sys_linkat
  | F_sys_fchmodat => f_sys_fchmodat | F_sys_chmod => f_sys_chmod | F_sys_fchmod => f_sys_fchmod
  | F_sys_renameat2 => f_sys_renameat2 | F_sys_openat2 => f_sys_openat2
  | F_sys_mprotect => f_sys_mprotect | F_sys_execveat => f_sys_execveat
  | F_sys_copy_file_range => f_sys_copy_file_range
  | F_sys_procstart | F_terminate_filler => bug
  end.

(** The loop of [nod_autofill] over [n] slots from [j] on. *)
Fixpoint autofill_loop (evinfo : nod_event_entry) (n : nat) (j : Z) : F unit :=
  match n with
  | O => mret tt
  | S n =>
      a ← lift (autofill_arg evinfo j);
      (if 0 <=? af_id a then
         val ← lift (k_args !! Z.to_nat (af_id a)); push_user val
       else if af_id a =? AF_ID_RETVAL then push k_ret
       else if af_id a =? AF_ID_USEDEFAULT then push (af_default a)
       else assert false);;
      autofill_loop evinfo n (j + 1)
  end.

Definition nod_autofill (start_index end_index : Z) : F unit :=
  st ← get;
  let evinfo := g_nod_events (fa_event_type st) in
  assert ((n_autofill_args evinfo <=? NOD_MAX_AUTOFILL_ARGS) && (0 <=? start_index)
          && (end_index <=? n_autofill_args evinfo));;
  autofill_loop evinfo (Z.to_nat (end_index - start_index)) start_index.

(** The index of the first slot with a negative id, [n] when there is none. *)
Fixpoint first_negative (evinfo : nod_event_entry) (n : nat) (i : Z) : option Z :=
  match n with
  | O => Some i
  | S n => match autofill_arg evinfo i with
           | Some a => if af_id a <? 0 then Some i else first_negative evinfo n (i + 1)
           | None => None
           end
  end.

Definition nod_filler_callback : F unit :=
  st ← get;
  let event_type := fa_event_type st in
  if (event_type <? 0) || (NODE_EVENT_MAX <=? event_type) then fail NOD_FAILURE_BUG else
  let evinfo := g_nod_events event_type in
  match filler_callback evinfo with
  | None => fail NOD_FAILURE_BUG
  | Some f =>
      let n := n_autofill_args evinfo in
      if n =? 0 then run_filler f
      else
        end_index ← lift (first_negative evinfo (Z.to_nat n) 0);
        nod_autofill 0 end_index;;
        run_filler f;;
        nod_autofill end_index n
  end.
End fillers.
