(* ===== verification/FillerFacts.v ===== *)
(** * A program logic for the fillers

    [wp m Q st]: running [m] from [st] does not violate an [ASSERT] and stays
    inside its objects; if it falls through, [Q] holds, and if it returns an
    error, its code is not [NOD_SUCCESS] and the event under construction is still
    within its bounds.  [at_arg et i
    st] says that [st] holds [i] parameters of an event of type [et]. *)

From S2P Require Import Prelude Kernel Tables Flags FlagsFacts Ring RingFacts FillerLib Fillers.

Local Open Scope Z_scope.

(** ** Frames *)

(** The fields no filler changes. *)
Record frame (st st' : fargs) : Prop := {
  fr_type : fa_event_type st' = fa_event_type st;
  fr_nargs : fa_nargs st' = fa_nargs st;
  fr_bsize : fa_buffer_size st' = fa_buffer_size st;
  fr_snap : fa_snaplen st' = fa_snaplen st;
  fr_nr : fa_syscall_nr st' = fa_syscall_nr st;
  fr_sock : fa_is_socketcall st' = fa_is_socketcall st
}.

#[export] Instance frame_refl : Reflexive frame.
Proof. by constructor. Qed.
#[export] Instance frame_trans : Transitive frame.
Proof. intros x y z [] []. constructor; congruence. Qed.

Lemma env_frame st st' : env_eq st st' -> frame st st'.
Proof. intros []. by constructor. Qed.

Section wp.
Context {K : Kernel} {KO : KernelOk K}.

Definition wp {A} (m : F A) (Q : A -> fargs -> Prop) (st : fargs) : Prop :=
  match m st with
  | Done a st' => frame st st' /\ Q a st'
  | Ret c st' => frame st st' /\ ring_inv st' /\ c <> NOD_SUCCESS
  | Bug => False
  end.

Definition at_arg (et i : Z) (st : fargs) : Prop :=
  fa_event_type st = et /\ exists ps, ring_rep st ps /\ zlen ps = i.

(** ** Structural rules *)

Lemma wp_bind {A B} (m : F A) (f : A -> F B) Q st :
  wp m (fun a st' => wp (f a) Q st') st -> wp (m ≫= f) Q st.
Proof.
  unfold wp, mbind, M_bind. destruct (m st) as [a st'|c st'|]; [|done..].
  intros [Hf H]. destruct (f a st') as [b st''|c st''|]; [| |done]; destruct H; split; try done; by etrans.
Qed.

Lemma wp_ret {A} (a : A) (Q : A -> fargs -> Prop) st : Q a st -> wp (mret a) Q st.
Proof. by split. Qed.

Lemma wp_get (Q : fargs -> fargs -> Prop) st : Q st st -> wp get Q st.
Proof. by split. Qed.

Lemma wp_mono {A} (m : F A) (Q Q' : A -> fargs -> Prop) st :
  wp m Q st -> (forall a st', frame st st' -> Q a st' -> Q' a st') -> wp m Q' st.
Proof. unfold wp. destruct (m st); [|done..]. intros [? ?] HQ. auto. Qed.

Lemma wp_fail {A} c (Q : A -> fargs -> Prop) st :
  ring_inv st -> c <> NOD_SUCCESS -> wp (fail c) Q st.
Proof. by split. Qed.

Lemma wp_lift {A} (o : option A) a (Q : A -> fargs -> Prop) st : o = Some a -> Q a st -> wp (lift o) Q st.
Proof. intros -> ?. by split. Qed.

Lemma at_inv et i st : at_arg et i st -> ring_inv st.
Proof. intros (_ & ps & H & _). apply H. Qed.

Lemma at_str et i st : at_arg et i st -> zlen (fa_str st) = STR_STORAGE_SIZE.
Proof. intros H. apply (at_inv et i). done. Qed.

Lemma at_eq et i j st : at_arg et i st -> i = j -> at_arg et j st.
Proof. by intros H <-. Qed.

(** A change of [str_storage] or [fd] leaves the ring alone. *)
Lemma at_set_str et i st b : at_arg et i st -> zlen b = STR_STORAGE_SIZE -> at_arg et i (set_str b st).
Proof.
  intros (He & ps & [[] ? ? ? ? ?] & Hz) Hb. split; [done|]. exists ps. split; [|done].
  constructor; (done || by constructor).
Qed.

Lemma at_set_fd et i st fd : at_arg et i st -> at_arg et i (set_fd fd st).
Proof.
  intros (He & ps & [[] ? ? ? ? ?] & Hz). split; [done|]. exists ps. split; [|done].
  constructor; (done || by constructor).
Qed.

Lemma wp_set_fd et i fd (Q : unit -> fargs -> Prop) st :
  at_arg et i st -> (at_arg et i (set_fd fd st) -> Q tt (set_fd fd st)) -> wp (modify (set_fd fd)) Q st.
Proof. intros Ha HQ. split; [by constructor|]. by apply HQ, at_set_fd. Qed.

(** Properties of the state that a change of [str_storage] preserves. *)
Class StrStable (I : fargs -> Prop) : Prop := {
  ss_inv st : I st -> ring_inv st;
  ss_set st b : I st -> zlen b = STR_STORAGE_SIZE -> I (set_str b st)
}.

#[global] Instance at_arg_stable et i : StrStable (at_arg et i).
Proof. constructor; [by apply at_inv|by apply at_set_str]. Qed.

Lemma ss_str I `{!StrStable I} st : I st -> zlen (fa_str st) = STR_STORAGE_SIZE.
Proof. intros H. apply ss_inv in H. apply H. Qed.

Lemma wp_str_put I `{!StrStable I} off bs (Q : unit -> fargs -> Prop) st :
  I st -> 0 <= off -> off + zlen bs <= STR_STORAGE_SIZE ->
  (forall st', I st' -> zwrite off bs (fa_str st) = Some (fa_str st') -> Q tt st') ->
  wp (str_put off bs) Q st.
Proof.
  intros Ha Ho Hb HQ. pose proof (ss_str I st Ha) as L.
  unfold wp, str_put, get, mbind, M_bind, lift.
  destruct (zwrite off bs (fa_str st)) as [b|] eqn:E; [|rewrite zwrite_Some in E by lia; done].
  cbn. split; [by constructor|]. apply HQ; [|done].
  apply ss_set; [done|]. by rewrite (zlen_zwrite _ _ _ _ E).
Qed.

Lemma wp_str_get I `{!StrStable I} off n (Q : list Z -> fargs -> Prop) st :
  I st -> 0 <= off -> 0 <= n -> off + n <= STR_STORAGE_SIZE ->
  Q (zslice off n (fa_str st)) st -> wp (str_get off n) Q st.
Proof.
  intros Ha ??? HQ. pose proof (ss_str I st Ha). unfold wp, str_get, get, mbind, M_bind.
  rewrite zread_Some by lia. by split.
Qed.

(** ** Pushing *)

Lemma wp_val_to_ring et i val val_len fu dyn (Q : unit -> fargs -> Prop) st :
  at_arg et i st ->
  (forall info, event_param et i = Some info ->
     arg_safe st (kind_of (slot_type info (u8 dyn)).1) (u64 val) (u32 val_len) fu) ->
  (forall st', at_arg et (i + 1) st' -> fa_str st' = fa_str st -> Q tt st') ->
  wp (val_to_ring val val_len fu dyn) Q st.
Proof.
  intros (He & ps & Hr & Hi) Hs HQ.
  assert (call_safe st val val_len fu dyn) as Hc.
  { intros info. rewrite He, (rp_cur _ _ _ Hr), Hi. apply Hs. }
  pose proof (val_to_ring_post val val_len fu dyn st ps Hr Hc) as H. unfold wp.
  assert (fa_curarg st = i) as Ec by (rewrite (rp_cur _ _ _ Hr); done).
  destruct (val_to_ring val val_len fu dyn st) as [[] st'|c st'|]; cbn [append_post] in H; [| |done].
  - destruct H as (info & body & _ & H). destruct (slot_type info (u8 dyn)) as [t pre].
    destruct H as (Hr' & Hf & _). split; [by apply env_frame|].
    apply HQ; [|by apply Hf]. split; [rewrite (ee_type _ _ Hf); done|].
    eexists; split; [done|]. zlen_simpl. lia.
  - destruct H as (Hcode & Hf & H). split; [by apply env_frame|].
    destruct H as (pre & Hp & _). split; [apply Hp|]. by destruct Hcode as [-> | ->].
Qed.

(** ** What the slots of an event accept *)

Definition slot_kind (et i dyn : Z) : ptr_kind :=
  match event_param et i with
  | Some info => kind_of (slot_type info dyn).1
  | None => PK_int
  end.

Inductive slot_want := Any | Int | Blob.

Definition slot_is (w : slot_want) (k : ptr_kind) : bool :=
  match w, k with
  | Any, _ | Int, PK_int | Blob, PK_blob | Blob, PK_int => true
  | _, _ => false
  end.

(** The slots of [et] from [i] on accept values of the given kinds. *)
Fixpoint slots (et i : Z) (ws : list slot_want) : Prop :=
  match ws with
  | [] => True
  | w :: ws => slot_is w (slot_kind et i 0) = true /\ slots et (i + 1) ws
  end.

Lemma wp_push_user et i val len (Q : unit -> fargs -> Prop) st :
  at_arg et i st ->
  (forall st', at_arg et (i + 1) st' -> fa_str st' = fa_str st -> Q tt st') ->
  forall dyn, wp (val_to_ring val len true dyn) Q st.
Proof. intros Ha HQ dyn. eapply wp_val_to_ring; [done| |done]. intros. by left. Qed.

Lemma wp_push_dyn et i val len dyn (Q : unit -> fargs -> Prop) st :
  at_arg et i st -> slot_is Int (slot_kind et i (u8 dyn)) = true ->
  (forall st', at_arg et (i + 1) st' -> fa_str st' = fa_str st -> Q tt st') ->
  wp (val_to_ring val len false dyn) Q st.
Proof.
  intros Ha Hk HQ. eapply wp_val_to_ring; [done| |done]. intros info Hi.
  unfold slot_kind in Hk. rewrite Hi in Hk. right. right.
  by destruct (kind_of (slot_type info (u8 dyn)).1).
Qed.

Lemma wp_push_int et i val (Q : unit -> fargs -> Prop) st :
  at_arg et i st -> slot_is Int (slot_kind et i 0) = true ->
  (forall st', at_arg et (i + 1) st' -> fa_str st' = fa_str st -> Q tt st') ->
  wp (push val) Q st.
Proof. intros. by apply (wp_push_dyn et i val 0 0). Qed.

Lemma wp_push_zero et i (Q : unit -> fargs -> Prop) st :
  at_arg et i st ->
  (forall st', at_arg et (i + 1) st' -> fa_str st' = fa_str st -> Q tt st') ->
  wp (push 0) Q st.
Proof. intros Ha HQ. apply (wp_val_to_ring et i 0 0 false 0); [done| |done]. intros. right. by left. Qed.

(** A kernel pointer to a C string fits every kind of slot. *)
Lemma wp_push_cstr et i a (Q : unit -> fargs -> Prop) st :
  at_arg et i st -> 0 <= a < 2 ^ 64 -> is_Some (kbytes st a ≫= cstr) ->
  (forall st', at_arg et (i + 1) st' -> fa_str st' = fa_str st -> Q tt st') ->
  wp (push a) Q st.
Proof.
  intros Ha Hr [s Hs] HQ. apply (wp_val_to_ring et i a 0 false 0); [done| |done]. intros info _.
  right. right. unfold u64. rewrite unsigned_small by done.
  destruct (kind_of _); [done|by exists s|].
  destruct (kbytes st a) as [bs|]; [|done]. exists bs. split; [done|]. change (u32 0) with 0.
  apply zlen_nonneg.
Qed.

Lemma kbytes_outside et i st a :
  at_arg et i st -> a < k_str_addr \/ k_str_addr + STR_STORAGE_SIZE < a -> kbytes st a = kseg k_mem a.
Proof.
  intros Ha Ho. unfold kbytes. rewrite (at_str _ _ _ Ha).
  destruct (Z.leb_spec k_str_addr a), (Z.leb_spec a (k_str_addr + STR_STORAGE_SIZE)); cbn; done || lia.
Qed.

Lemma cstr_app s bs : Forall (fun b => b <> 0) s -> cstr (s ++ 0 :: bs) = Some s.
Proof.
  induction 1 as [|b s Hb Hs IH]; cbn; [done|]. rewrite IH. by destruct (Z.eqb_spec b 0).
Qed.

Lemma wp_push_lit et i s (Q : unit -> fargs -> Prop) st :
  at_arg et i st -> s ∈ code_literals ->
  (forall st', at_arg et (i + 1) st' -> fa_str st' = fa_str st -> Q tt st') ->
  wp (push (k_lit s)) Q st.
Proof.
  intros Ha Hin HQ. destruct (k_lit_ok s Hin) as (Hr & Ho & bs & Hk).
  eapply wp_push_cstr; [done|lia| |done]. rewrite (kbytes_outside et i st) by done.
  rewrite Hk. cbn. eexists. apply cstr_app.
  unfold code_literals in Hin. repeat (apply elem_of_cons in Hin as [->|Hin]; [by repeat constructor|]).
  by apply not_elem_of_nil in Hin.
Qed.

Lemma wp_push_comm et i (Q : unit -> fargs -> Prop) st :
  at_arg et i st ->
  (forall st', at_arg et (i + 1) st' -> fa_str st' = fa_str st -> Q tt st') ->
  wp (push (t_comm k_task)) Q st.
Proof.
  intros Ha HQ. destruct k_comm_ok as (Hr & Ho & bs & s & Hk & Hs).
  eapply wp_push_cstr; [done|lia| |done]. rewrite (kbytes_outside et i st) by done.
  rewrite Hk. cbn. rewrite Hs. by eexists.
Qed.

Lemma kbytes_str et i st off :
  at_arg et i st -> 0 <= off <= STR_STORAGE_SIZE ->
  kbytes st (k_str_addr + off) = Some (zdrop off (fa_str st)).
Proof.
  intros Ha Ho. unfold kbytes. rewrite (at_str _ _ _ Ha).
  destruct (Z.leb_spec k_str_addr (k_str_addr + off)); [|lia].
  destruct (Z.leb_spec (k_str_addr + off) (k_str_addr + STR_STORAGE_SIZE)); [|lia].
  cbn. do 2 f_equal. lia.
Qed.

(** A pointer into [str_storage]: a slot for bytes takes what lies there, a
    string slot needs a terminator. *)
Lemma wp_push_str et i off len (Q : unit -> fargs -> Prop) st :
  at_arg et i st -> 0 <= off -> 0 <= len -> off + len <= STR_STORAGE_SIZE ->
  slot_is Blob (slot_kind et i 0) = true \/ is_Some (cstr (zdrop off (fa_str st))) ->
  (forall st', at_arg et (i + 1) st' -> fa_str st' = fa_str st -> Q tt st') ->
  wp (val_to_ring (k_str_addr + off) len false 0) Q st.
Proof.
  intros Ha Ho Hl Hlen Hk HQ. eapply wp_val_to_ring; [done| |done]. intros info Hi.
  right. right. pose proof k_str_range as [Hs1 Hs2]. unfold STR_STORAGE_SIZE, PAGE_SIZE in *.
  unfold u64. rewrite unsigned_small by lia. unfold u32. rewrite unsigned_small by lia.
  pose proof (kbytes_str et i st off Ha ltac:(unfold STR_STORAGE_SIZE, PAGE_SIZE; lia)) as Hkb.
  unfold slot_kind in Hk. rewrite Hi in Hk. change (u8 0) with 0.
  destruct (kind_of (slot_type info 0).1); [done| |].
  - destruct Hk as [?|[s Hs]]; [done|]. exists s. rewrite Hkb. done.
  - exists (zdrop off (fa_str st)). split; [done|]. rewrite zlen_zdrop by (rewrite (at_str _ _ _ Ha); unfold STR_STORAGE_SIZE, PAGE_SIZE; lia).
    rewrite (at_str _ _ _ Ha). unfold STR_STORAGE_SIZE, PAGE_SIZE. lia.
Qed.
End wp.
