(* ===== verification/FillerSpecs.v ===== *)
(** * Specifications of the fillers

    For each filler: from [i] parameters it goes to [i + n] parameters, where [n]
    is the number of parameters of its own, provided the slots of the event accept
    what it pushes.  The conditions under which a filler cannot violate an
    [ASSERT] are hypotheses of the filler concerned. *)

From S2P Require Import Prelude Kernel Tables Flags FlagsFacts Ring RingFacts FillerLib Fillers FillerFacts.

Local Open Scope Z_scope.

#[local] Opaque val_to_ring str_put str_get.

(** The postcondition of a filler that ends with [n] parameters. *)
Definition pushed `{Kernel} (et n : Z) : unit -> fargs -> Prop := fun _ st => at_arg et n st.

Section helpers.
Context {K : Kernel} {KO : KernelOk K}.

Lemma wp_sc_arg i j (Q : Z -> fargs -> Prop) st : (forall v, Q v st) -> wp (sc_arg i j) Q st.
Proof. intros HQ. unfold sc_arg. apply wp_bind, wp_get, wp_ret, HQ. Qed.

Lemma read_user_len from n bs : 0 <= n -> read_user from n = Some bs -> zlen bs = n.
Proof.
  intros Hn. unfold read_user. destruct (nod_copy_from_user from n) as [miss b] eqn:E.
  apply copy_from_user_len in E as [Hl ->]; [|done]. unfold ctrue. cmp_case; [|done].
  intros [= <-]. lia.
Qed.

Lemma wp_fetch_user I `{!StrStable I} from n (Q : list Z -> fargs -> Prop) st :
  I st -> 0 <= n -> (forall bs, zlen bs = n -> Q bs st) -> wp (fetch_user from n) Q st.
Proof.
  intros Ha Hn HQ. unfold fetch_user. destruct (read_user from n) as [bs|] eqn:E.
  - apply wp_ret, HQ. by eapply read_user_len.
  - apply wp_fail; [by eapply ss_inv|done].
Qed.

Lemma wp_str_copy_user I `{!StrStable I} off from n (Q : Z -> fargs -> Prop) st :
  I st -> 0 <= off -> 0 <= n -> off + n <= STR_STORAGE_SIZE ->
  (forall miss st', I st' -> 0 <= miss <= n ->
     ztake off (fa_str st') = ztake off (fa_str st) -> Q miss st') ->
  wp (str_copy_user off from n) Q st.
Proof.
  intros Ha Ho Hn Hb HQ. unfold str_copy_user.
  destruct (nod_copy_from_user from n) as [miss bs] eqn:E.
  apply copy_from_user_len in E as [Hl ->]; [|done]. pose proof (zlen_nonneg bs).
  apply wp_bind. eapply wp_str_put; [done|exact Ha|done|lia|]. intros st' Ha' Hw. apply wp_ret.
  apply HQ; [done|lia|]. eapply ztake_zwrite; [exact Hw|lia].
Qed.

Lemma wp_get_fd_dev et i fd (Q : Z -> fargs -> Prop) st :
  at_arg et i st -> fd <> k_max_fds -> (forall v, Q v st) -> wp (get_fd_dev fd) Q st.
Proof.
  intros Ha Hfd HQ. unfold get_fd_dev.
  destruct (fd <? 0); [by apply wp_ret|]. destruct (negb k_has_files); [by apply wp_ret|].
  destruct (k_max_fds <? fd); [by apply wp_ret|]. destruct (Z.eqb_spec fd k_max_fds); [done|].
  destruct (k_fd_sb_dev fd); by apply wp_ret.
Qed.
End helpers.

(** ** Automation *)

(** Normalize the number of parameters pushed. *)
Ltac at_done := eapply at_eq; [eassumption|lia].

(** One push at the current slot. *)
Ltac push_tac Ha Hk :=
  match goal with
  | |- wp (push_user _) _ _ => eapply wp_push_user; [exact Ha|]
  | |- wp (val_to_ring _ _ true _) _ _ => eapply wp_push_user; [exact Ha|]
  | |- wp (push 0) _ _ => eapply wp_push_zero; [exact Ha|]
  | |- wp (push (k_lit _)) _ _ => eapply wp_push_lit; [exact Ha|by repeat constructor|]
  | |- wp (push (t_comm _)) _ _ => eapply wp_push_comm; [exact Ha|]
  | |- wp (push _) _ _ => eapply wp_push_int; [exact Ha|exact Hk|]
  end.

Ltac push_step :=
  match goal with
  | Ha : at_arg ?et ?i ?st, Hs : slots ?et ?i (?w :: ?ws) |- wp _ _ ?st =>
      let Hk := fresh "Hk" in let Ht := fresh "Ht" in
      destruct Hs as [Hk Ht]; push_tac Ha Hk; cbv beta;
      let st' := fresh "st" in let Ha' := fresh "Ha" in let Hstr := fresh "Hstr" in
      intros st' Ha' Hstr; clear Ha Hk
  end.

Ltac wp_step :=
  lazymatch goal with
  | |- wp (mbind _ _) _ _ => apply wp_bind; cbv beta
  | |- wp (mret _) _ _ => apply wp_ret; cbv beta
  | |- wp get _ _ => apply wp_get; cbv beta
  | |- wp (fail _) _ _ => apply wp_fail; [eapply at_inv; eassumption|done]
  | |- wp (push_user _) _ _ => push_step
  | |- wp (push _) _ _ => push_step
  | |- wp (push_if _ _ _) _ _ => unfold push_if
  | |- wp (val_to_ring _ _ true _) _ _ => push_step
  | |- wp (modify (set_fd _)) _ _ =>
      match goal with Ha : at_arg ?et ?i ?st |- wp _ _ ?st =>
        eapply wp_set_fd; [exact Ha|]; cbv beta; let H := fresh "Ha" in intros H; clear Ha end
  | |- wp (sc_arg _ _) _ _ => apply wp_sc_arg; intros ?
  | |- wp (fetch_user _ _) _ _ => 
      match goal with Ha : at_arg ?et ?i ?st |- wp _ _ ?st =>
        apply (wp_fetch_user (at_arg et i)); [exact Ha|lia|]; intros ? ? end
  | |- wp (get_fd_dev _) _ _ => eapply wp_get_fd_dev; [eassumption|done|]; intros ?
  | |- wp (lift ?o) _ _ =>
      match goal with H : is_Some o |- _ =>
        let v := fresh "v" in let E := fresh "E" in
        destruct H as [v E]; eapply wp_lift; [exact E|]; cbv beta end
  | |- wp (let '(_, _) := ?p in _) _ _ => destruct p
  | |- wp (if ?b then _ else _) _ _ => destruct b eqn:?
  | |- wp (let _ := _ in _) _ _ => cbv zeta
  | |- at_arg _ _ _ => at_done
  | |- pushed _ _ _ _ => unfold pushed
  end.

Ltac wp_go := repeat wp_step.
Tactic Notation "filler" reference(f) := intros; unfold f; wp_go.

Section specs.
Context {K : Kernel} {KO : KernelOk K}.

(** ** Fillers that push values and user pointers *)

Implicit Types et i : Z.

Lemma f_sys_read_ok et i st : at_arg et i st -> slots et i [Int; Any] ->
  wp f_sys_read (pushed et (i + 2)) st.
Proof. filler f_sys_read. Qed.

Lemma f_sys_write_ok et i st : at_arg et i st -> slots et i [Int; Any] ->
  wp f_sys_write (pushed et (i + 2)) st.
Proof. filler f_sys_write. Qed.

Lemma f_sys_open_ok et i st : at_arg et i st -> slots et i [Int; Any; Int; Int; Int] ->
  k_ret <> k_max_fds -> wp f_sys_open (pushed et (i + 5)) st.
Proof. filler f_sys_open. Qed.

Lemma f_sys_generic_ok et i st : at_arg et i st -> slots et i [Int] ->
  0 <= fa_syscall_nr st < SYSCALL_TABLE_SIZE -> wp f_sys_generic (pushed et (i + 1)) st.
Proof.
  intros Ha Hs Hnr. unfold f_sys_generic. wp_step. wp_step.
  destruct (Z.leb_spec 0 (fa_syscall_nr st)); [|lia].
  destruct (Z.ltb_spec (fa_syscall_nr st) SYSCALL_TABLE_SIZE); [|lia]. cbn [andb]. wp_go.
Qed.

Lemma f_sys_creat_ok et i st : at_arg et i st -> slots et i [Int; Any; Int; Int] ->
  k_ret <> k_max_fds -> wp f_sys_creat (pushed et (i + 4)) st.
Proof. filler f_sys_creat. Qed.

Lemma f_sys_pipe_ok et i st : at_arg et i st -> slots et i [Int; Int; Int; Int] ->
  wp f_sys_pipe (pushed et (i + 4)) st.
Proof. filler f_sys_pipe. Qed.

Lemma f_sys_eventfd_ok et i st : at_arg et i st -> slots et i [Int; Int] ->
  wp f_sys_eventfd (pushed et (i + 2)) st.
Proof. filler f_sys_eventfd. Qed.

Lemma f_sys_futex_ok et i st : at_arg et i st -> slots et i [Int; Int; Int] ->
  wp f_sys_futex (pushed et (i + 3)) st.
Proof. filler f_sys_futex. Qed.

Lemma f_sys_lseek_ok et i st : at_arg et i st -> slots et i [Int; Int; Int] ->
  wp f_sys_lseek (pushed et (i + 3)) st.
Proof. filler f_sys_lseek. Qed.

Lemma f_sys_llseek_ok et i st : at_arg et i st -> slots et i [Int; Int; Int] ->
  wp f_sys_llseek (pushed et (i + 3)) st.
Proof. filler f_sys_llseek. Qed.

Lemma slots_app et i ws ws' : slots et i (ws ++ ws') <-> slots et i ws /\ slots et (i + zlen ws) ws'.
Proof.
  revert i. induction ws as [|w ws IH]; intros i; cbn [slots app].
  - rewrite zlen_nil, Z.add_0_r. tauto.
  - rewrite IH, zlen_cons, Z.add_assoc. tauto.
Qed.

Lemma f_sys_pread_ok et i st : at_arg et i st -> slots et i [Int; Int; Int; Int; Any] ->
  wp f_sys_pread (pushed et (i + 5)) st.
Proof.
  filler f_sys_pread. eapply wp_mono; [by apply f_sys_read_ok|]. intros [] st' _ Ha'. wp_go.
Qed.

Lemma f_sys_pwrite_ok et i st : at_arg et i st -> slots et i [Int; Int; Int; Int; Any] ->
  wp f_sys_pwrite (pushed et (i + 5)) st.
Proof.
  filler f_sys_pwrite. eapply wp_mono; [by apply f_sys_write_ok|]. intros [] st' _ Ha'. wp_go.
Qed.

Lemma f_sys_getrlimit_ok et i st : at_arg et i st -> slots et i [Int; Int; Int; Int] ->
  wp f_sys_getrlimit_setrlrimit (pushed et (i + 4)) st.
Proof. filler f_sys_getrlimit_setrlrimit. Qed.

Lemma f_sys_prlimit_ok et i st : at_arg et i st -> slots et i [Int; Int; Int; Int; Int; Int; Int] ->
  wp f_sys_prlimit (pushed et (i + 7)) st.
Proof. filler f_sys_prlimit. Qed.

Lemma f_sys_fcntl_ok et i st : at_arg et i st -> slots et i [Int; Int] ->
  is_Some (fcntl_cmd_to_scap (sys_arg 1)) -> wp f_sys_fcntl (pushed et (i + 2)) st.
Proof. filler f_sys_fcntl. Qed.

Lemma f_sys_mmap_ok et i st : at_arg et i st -> slots et i [Int; Int; Int; Int; Int; Int] ->
  wp f_sys_mmap (pushed et (i + 6)) st.
Proof. filler f_sys_mmap. Qed.

Lemma f_sys_renameat_ok et i st : at_arg et i st -> slots et i [Int; Int; Any; Int; Any] ->
  wp f_sys_renameat (pushed et (i + 5)) st.
Proof. filler f_sys_renameat. Qed.

Lemma f_sys_symlinkat_ok et i st : at_arg et i st -> slots et i [Int; Any; Int; Any] ->
  wp f_sys_symlinkat (pushed et (i + 4)) st.
Proof. filler f_sys_symlinkat. Qed.

Lemma f_sys_sendfile_ok et i st : at_arg et i st -> slots et i [Any; Any; Any; Any; Int; Any] ->
  wp f_sys_sendfile (pushed et (i + 6)) st.
Proof. filler f_sys_sendfile. Qed.

Lemma f_sys_getresuid_ok et i st : at_arg et i st -> slots et i [Int; Int; Int; Int] ->
  wp f_sys_getresuid_and_gid (pushed et (i + 4)) st.
Proof. filler f_sys_getresuid_and_gid. Qed.

Lemma f_sys_setns_ok et i st : at_arg et i st -> slots et i [Any; Any] ->
  wp f_sys_setns (pushed et (i + 2)) st.
Proof. filler f_sys_setns. Qed.

Lemma f_sys_flock_ok et i st : at_arg et i st -> slots et i [Int; Int] ->
  wp f_sys_flock (pushed et (i + 2)) st.
Proof. filler f_sys_flock. Qed.

Lemma semop_entry_ok et i nsops ptr st : at_arg et i st -> slots et i [Any; Any; Any] ->
  wp (semop_entry nsops ptr) (pushed et (i + 3)) st.
Proof. filler semop_entry. Qed.

Lemma f_sys_semctl_ok et i st : at_arg et i st -> slots et i [Any; Any; Any; Any] ->
  wp f_sys_semctl (pushed et (i + 4)) st.
Proof. filler f_sys_semctl. Qed.

Lemma f_sys_mount_ok et i st : at_arg et i st -> slots et i [Int] ->
  wp f_sys_mount (pushed et (i + 1)) st.
Proof. filler f_sys_mount. Qed.

Lemma f_sys_semget_ok et i st : at_arg et i st -> slots et i [Any; Any; Any] ->
  wp f_sys_semget (pushed et (i + 3)) st.
Proof. filler f_sys_semget. Qed.

Lemma f_sys_access_ok et i st : at_arg et i st -> slots et i [Any] ->
  wp f_sys_access (pushed et (i + 1)) st.
Proof. filler f_sys_access. Qed.

Lemma f_sys_unshare_ok et i st : at_arg et i st -> slots et i [Any] ->
  wp f_sys_unshare (pushed et (i + 1)) st.
Proof. filler f_sys_unshare. Qed.

Lemma f_sys_unlinkat_ok et i st : at_arg et i st -> slots et i [Int; Int; Any; Int] ->
  wp f_sys_unlinkat (pushed et (i + 4)) st.
Proof. filler f_sys_unlinkat. Qed.

Lemma f_sys_mkdirat_ok et i st : at_arg et i st -> slots et i [Int; Int; Any; Int] ->
  wp f_sys_mkdirat (pushed et (i + 4)) st.
Proof. filler f_sys_mkdirat. Qed.

Lemma f_sys_openat_ok et i st : at_arg et i st -> slots et i [Int; Int; Any; Int; Int; Int] ->
  k_ret <> k_max_fds -> wp f_sys_openat (pushed et (i + 6)) st.
Proof. filler f_sys_openat. Qed.

Lemma f_sys_linkat_ok et i st : at_arg et i st -> slots et i [Int; Int; Any; Int; Any; Int] ->
  wp f_sys_linkat (pushed et (i + 6)) st.
Proof. filler f_sys_linkat. Qed.

Lemma f_sys_fchmodat_ok et i st : at_arg et i st -> slots et i [Int; Int; Any; Int] ->
  wp f_sys_fchmodat (pushed et (i + 4)) st.
Proof. filler f_sys_fchmodat. Qed.

Lemma f_sys_chmod_ok et i st : at_arg et i st -> slots et i [Int; Any; Int] ->
  wp f_sys_chmod (pushed et (i + 3)) st.
Proof. filler f_sys_chmod. Qed.

Lemma f_sys_fchmod_ok et i st : at_arg et i st -> slots et i [Int; Int; Int] ->
  wp f_sys_fchmod (pushed et (i + 3)) st.
Proof. filler f_sys_fchmod. Qed.

Lemma f_sys_renameat2_ok et i st : at_arg et i st -> slots et i [Int; Int; Any; Int; Any; Int] ->
  wp f_sys_renameat2 (pushed et (i + 6)) st.
Proof. filler f_sys_renameat2. Qed.

Lemma f_sys_openat2_ok et i st : at_arg et i st -> slots et i [Int; Int; Any; Any; Any; Any] ->
  wp f_sys_openat2 (pushed et (i + 6)) st.
Proof. filler f_sys_openat2. Qed.

Lemma f_sys_mprotect_ok et i st : at_arg et i st -> slots et i [Int; Int; Int; Int] ->
  wp f_sys_mprotect (pushed et (i + 4)) st.
Proof. filler f_sys_mprotect. Qed.

Lemma f_sys_copy_file_range_ok et i st : at_arg et i st -> slots et i [Int; Int; Int; Int; Int; Int] ->
  wp f_sys_copy_file_range (pushed et (i + 6)) st.
Proof. filler f_sys_copy_file_range. Qed.
End specs.
