(* ===== verification/FillerSock.v ===== *)
(** * Specifications of the socket fillers

    The conversions of socket addresses stay inside [str_storage] and the sizes
    they return describe bytes of it; with that, the fillers of the socket calls
    push the parameters of their events. *)

From S2P Require Import Prelude Kernel Tables Flags FlagsFacts Ring RingFacts FillerLib Fillers FillerFacts FillerSpecs.

Local Open Scope Z_scope.

#[local] Opaque val_to_ring str_put str_get.

(** [getname] succeeds for the local end of every socket. *)
Definition socks_ok `{Kernel} : Prop :=
  forall fd sk, k_sockfd fd = Some (Some sk) -> is_Some (sk_name sk).

(** ... and for the remote end where [fd_to_socktuple] asserts it. *)
Definition peer_ok `{Kernel} (fd : Z) (is_inbound : bool) : Prop :=
  forall sk, k_sockfd fd = Some (Some sk) ->
    u16 (sk_family sk) = AF_INET6 \/ (u16 (sk_family sk) = AF_UNIX /\ is_inbound = false) ->
    is_Some (sk_peername sk).

Lemma length_strncpy src n : length (strncpy src n) = n.
Proof.
  revert src. induction n as [|n IH]; intros src; [done|].
  destruct src as [|b src]; cbn [strncpy]; [apply length_replicate|].
  destruct (b =? 0); [apply length_replicate|]. cbn [length]. by rewrite IH.
Qed.

Lemma zlen_strncpy src n : zlen (strncpy src n) = Z.of_nat n.
Proof. unfold zlen. by rewrite length_strncpy. Qed.

Lemma strnlen_bound bs n : 0 <= strnlen bs n <= Z.of_nat n.
Proof.
  revert n. induction bs as [|b bs IH]; intros [|n]; cbn [strnlen]; try lia.
  case_match; [lia|]. specialize (IH n). lia.
Qed.

Lemma family_known `{Kernel} f : f = AF_INET \/ f = AF_INET6 \/ f = AF_UNIX -> is_Some (socket_family_to_scap f).
Proof. intros [->|[->| ->]]; by eexists. Qed.

#[export] Hint Rewrite zlen_strncpy @zlen_app @zlen_cons @zlen_nil @zlen_le_bytes : zlist.

(** A store of known length into [str_storage]. *)
Ltac str_put_step :=
  lazymatch goal with
  | |- wp (str_put _ _) _ ?st =>
      match goal with Ha : ?I st |- _ =>
        apply (wp_str_put I); [exact Ha|try lia
          |try (autorewrite with zlist; unfold STR_STORAGE_SIZE, PAGE_SIZE in *; lia)
          |let st' := fresh "st" in let Ha' := fresh "Ha" in let Hw := fresh "Hw" in
           intros st' Ha' Hw; clear Ha Hw; cbv beta] end
  end.

(** Continue behind a specified part of a filler. *)
Ltac wp_call lem := eapply wp_mono; [by apply lem|]; intros ? ? _ ?.

Section sock.
Context {K : Kernel} {KO : KernelOk K}.

(** What the conversions guarantee: [str_storage] only, and a size within it. *)
Definition sized (I : fargs -> Prop) : Z -> fargs -> Prop :=
  fun size st => I st /\ 0 <= size <= STR_STORAGE_SIZE.

Lemma addr_to_kernel_len uaddr ulen address :
  addr_to_kernel uaddr ulen = Some address ->
  zlen address = SOCKADDR_STORAGE_SIZE /\ 0 <= ulen <= SOCKADDR_STORAGE_SIZE.
Proof.
  unfold addr_to_kernel. destruct (Z.ltb_spec ulen 0); [done|].
  destruct (Z.ltb_spec SOCKADDR_STORAGE_SIZE ulen); [done|]. cbn [orb].
  destruct (Z.eqb_spec ulen 0); [intros [= <-]; rewrite k_stack_len; lia|].
  destruct (read_user uaddr ulen) as [bs|]; [|done]. intros E.
  rewrite (zlen_zwrite _ _ _ _ E), k_stack_len. lia.
Qed.

(** The terminator the code puts behind the user's address. *)
Lemma terminate_addr address ulen :
  zlen address = SOCKADDR_STORAGE_SIZE -> 0 <= ulen <= SOCKADDR_STORAGE_SIZE ->
  exists address', zwrite (if ulen =? SOCKADDR_STORAGE_SIZE then ulen - 1 else ulen) [0] address = Some address'
    /\ zlen address' = SOCKADDR_STORAGE_SIZE.
Proof.
  intros La Hu. destruct (zwrite _ [0] address) as [a|] eqn:E.
  - exists a. split; [done|]. by rewrite (zlen_zwrite _ _ _ _ E).
  - exfalso. unfold SOCKADDR_STORAGE_SIZE in *. rewrite zwrite_Some in E; [done| |];
      zlen_simpl; cmp_case; lia.
Qed.

Lemma pack_addr_ok I `{!StrStable I} address ulen st :
  I st -> zlen address = SOCKADDR_STORAGE_SIZE -> 0 <= ulen <= SOCKADDR_STORAGE_SIZE ->
  wp (pack_addr address ulen) (sized I) st.
Proof.
  intros Ha La Hu. unfold pack_addr. pose proof La as La'. unfold SOCKADDR_STORAGE_SIZE in La'.
  destruct (Z.eqb_spec (fld 0 2 address) AF_INET) as [E|_].
  { apply wp_bind. destruct (family_known (fld 0 2 address)) as [f Ef]; [auto|].
    eapply wp_lift; [exact Ef|].
    apply wp_bind; str_put_step. apply wp_bind; str_put_step; [rewrite zlen_zslice by lia; unfold STR_STORAGE_SIZE, PAGE_SIZE; lia|].
    apply wp_bind; str_put_step. apply wp_ret. split; [done|]. unfold STR_STORAGE_SIZE, PAGE_SIZE. lia. }
  destruct (Z.eqb_spec (fld 0 2 address) AF_INET6) as [E|_].
  { apply wp_bind. destruct (family_known (fld 0 2 address)) as [f Ef]; [auto|].
    eapply wp_lift; [exact Ef|].
    apply wp_bind; str_put_step. apply wp_bind; str_put_step; [rewrite zlen_zslice by lia; unfold STR_STORAGE_SIZE, PAGE_SIZE; lia|].
    apply wp_bind; str_put_step. apply wp_ret. split; [done|]. unfold STR_STORAGE_SIZE, PAGE_SIZE. lia. }
  destruct (Z.eqb_spec (fld 0 2 address) AF_UNIX) as [E|_]; [|apply wp_ret; split; [done|by vm_compute]].
  apply wp_bind. destruct (terminate_addr address ulen La Hu) as (address' & Et & Lt).
  eapply wp_lift; [exact Et|]. apply wp_bind.
  destruct (family_known (fld 0 2 address)) as [f Ef]; [auto|].
  eapply wp_lift; [exact Ef|]. unfold UNIX_PATH_MAX.
  apply wp_bind; str_put_step. apply wp_bind; str_put_step. apply wp_bind; str_put_step.
  apply wp_bind. apply (wp_str_get I); [done|lia|lia|unfold STR_STORAGE_SIZE, PAGE_SIZE; lia|]. apply wp_ret. split; [done|].
  pose proof (unsigned_bound 16 (1 + (strnlen (zslice 1 108 (fa_str st2)) (Z.to_nat 108) + 1)) ltac:(lia)).
  pose proof (strnlen_bound (zslice 1 108 (fa_str st2)) (Z.to_nat 108)).
  unfold u16. rewrite unsigned_small by lia. unfold STR_STORAGE_SIZE, PAGE_SIZE. lia.
Qed.

Lemma zlen_inet_ends a b :
  zlen a = SOCKADDR_STORAGE_SIZE -> zlen b = SOCKADDR_STORAGE_SIZE -> zlen (inet_ends a b) = 12.
Proof.
  unfold SOCKADDR_STORAGE_SIZE. intros. unfold inet_ends.
  rewrite !zlen_app, !zlen_le_bytes, !zlen_zslice by lia. done.
Qed.

Lemma zlen_inet6_ends a b :
  zlen a = SOCKADDR_STORAGE_SIZE -> zlen b = SOCKADDR_STORAGE_SIZE -> zlen (inet6_ends a b) = 36.
Proof.
  unfold SOCKADDR_STORAGE_SIZE. intros. unfold inet6_ends.
  rewrite !zlen_app, !zlen_le_bytes, !zlen_zslice by lia. done.
Qed.

(** The tuple is stored behind the family byte. *)
Lemma store_tuple_ok I `{!StrStable I} family ends size st :
  I st -> family = AF_INET \/ family = AF_INET6 \/ family = AF_UNIX ->
  zlen ends <= 36 -> 0 <= size <= STR_STORAGE_SIZE ->
  wp ((f ← (lift (socket_family_to_scap family) : F Z);
       str_put 0 (le_bytes 1 f);; str_put 1 ends;; mret size) : F Z) (sized I) st.
Proof.
  intros Ha Hf Hl Hs. pose proof (zlen_nonneg ends). destruct (family_known family Hf) as [f Ef].
  apply wp_bind. eapply wp_lift; [exact Ef|]. apply wp_bind; str_put_step.
  apply wp_bind; str_put_step. by apply wp_ret.
Qed.

Lemma fd_to_socktuple_ok I `{!StrStable I} fd usr ulen (use_userdata is_inbound : bool) st :
  I st -> socks_ok ->
  (if use_userdata then zlen usr = SOCKADDR_STORAGE_SIZE /\ 0 <= ulen <= SOCKADDR_STORAGE_SIZE
   else peer_ok fd is_inbound) ->
  wp (fd_to_socktuple fd usr ulen use_userdata is_inbound) (sized I) st.
Proof.
  intros Ha Hso Hu. unfold fd_to_socktuple.
  destruct (k_sockfd fd) as [[sk|]|] eqn:Esk; [|apply wp_ret; split; [done|by vm_compute]..].
  destruct (Hso fd sk Esk) as [b Eb]. pose proof (k_sock_names fd sk b Esk (or_introl Eb)) as Lb.
  apply wp_bind. eapply wp_lift; [exact Eb|]. cbv beta zeta.
  assert (forall p, sk_peername sk = Some p -> zlen p = SOCKADDR_STORAGE_SIZE) as Lp
    by (intros p Hp; eapply k_sock_names; [exact Esk|by right]).
  destruct (Z.eqb_spec (u16 (sk_family sk)) AF_INET) as [E|_].
  { apply wp_bind.
    apply (wp_mono _ (fun ends st' => I st' /\ zlen ends = 12)).
    - destruct use_userdata; cbn [negb].
      + apply wp_ret. split; [done|]. destruct Hu. destruct is_inbound; by apply zlen_inet_ends.
      + destruct (sk_peername sk) as [p|]; apply wp_ret; (split; [done|]); [|done].
        destruct is_inbound; apply zlen_inet_ends; auto.
    - intros ends st' _ [Ha' Le]. apply store_tuple_ok; [done|done|auto|lia|by vm_compute]. }
  destruct (Z.eqb_spec (u16 (sk_family sk)) AF_INET6) as [E|_].
  { apply wp_bind.
    apply (wp_mono _ (fun ends st' => I st' /\ zlen ends = 36)).
    - destruct use_userdata; cbn [negb].
      + apply wp_ret. split; [done|]. destruct Hu. destruct is_inbound; by apply zlen_inet6_ends.
      + destruct (Hu sk Esk ltac:(auto)) as [p Ep]. apply wp_bind. eapply wp_lift; [exact Ep|].
        apply wp_ret. split; [done|]. destruct is_inbound; apply zlen_inet6_ends; auto.
    - intros ends st' _ [Ha' Le]. apply store_tuple_ok; [done|done|auto|lia|by vm_compute]. }
  destruct (Z.eqb_spec (u16 (sk_family sk)) AF_UNIX) as [E|_]; [|apply wp_ret; split; [done|by vm_compute]].
  destruct (family_known (u16 (sk_family sk))) as [f Ef]; [auto|].
  apply wp_bind. eapply wp_lift; [exact Ef|]. unfold UNIX_PATH_MAX.
  do 3 (apply wp_bind; str_put_step). apply wp_bind.
  apply (wp_mono _ (fun _ st' => I st')).
  - destruct use_userdata; cbn [negb].
    + destruct Hu as [Lu Hu]. destruct (terminate_addr usr ulen Lu Hu) as (u & Eu & _).
      apply wp_bind. eapply wp_lift; [exact Eu|]. by apply wp_ret.
    + destruct is_inbound; [by apply wp_ret|].
      destruct (Hu sk Esk ltac:(auto)) as [p Ep]. apply wp_bind. eapply wp_lift; [exact Ep|]. by apply wp_ret.
  - intros us_name st' _ Ha'. do 2 (apply wp_bind; str_put_step).
    apply wp_bind. apply (wp_str_get I); [done|lia|lia|unfold STR_STORAGE_SIZE, PAGE_SIZE; lia|].
    apply wp_ret. split; [done|].
    match goal with |- context [strnlen ?x ?n] => pose proof (strnlen_bound x n) end.
    unfold u16. rewrite unsigned_small by lia. unfold STR_STORAGE_SIZE, PAGE_SIZE. lia.
Qed.

Lemma with_sockaddr_ok I `{!StrStable I} uaddr ulen conv st :
  I st ->
  (forall address, zlen address = SOCKADDR_STORAGE_SIZE -> 0 <= ulen <= SOCKADDR_STORAGE_SIZE ->
     wp (conv address) (sized I) st) ->
  wp (with_sockaddr uaddr ulen conv) (sized I) st.
Proof.
  intros Ha Hc. unfold with_sockaddr. destruct (addr_to_kernel uaddr ulen) as [a|] eqn:E.
  - apply addr_to_kernel_len in E as [? ?]. by apply Hc.
  - apply wp_ret. split; [done|by vm_compute].
Qed.

(** ** Unchecked pushes

    [f_sys_socket_bind] and [f_sys_connect] ignore the result of their first
    push.  If it failed, the slot is still the current one and the push that
    follows fails as well. *)

(** The width of an integer slot. *)
Definition int_slot (et i : Z) : option nat :=
  match event_param et i with
  | Some p => match pi_type p with PT_DYN => None | t => int_width t end
  | None => None
  end.

(** No value fits the current slot any more. *)
Definition stuck (et i : Z) (st : fargs) : Prop :=
  at_arg et i st /\ exists w, int_slot et i = Some w /\ (fa_nargs st <= i \/ fa_arg_data_size st < Z.of_nat w).

#[global] Instance stuck_stable et i : StrStable (stuck et i).
Proof.
  constructor.
  - intros st [H _]. by eapply at_inv.
  - intros st b [H (w & Hw & Hs)] Hb. split; [by apply at_set_str|]. by exists w.
Qed.

Lemma int_slot_type et i w info dyn :
  event_param et i = Some info -> int_slot et i = Some w ->
  slot_type info dyn = (pi_type info, []) /\ int_width (pi_type info) = Some w /\ (1 <= w <= 8)%nat.
Proof.
  intros E. unfold int_slot, slot_type. rewrite E.
  destruct (pi_type info); cbn; try done; intros [= <-]; repeat split; lia.
Qed.

Lemma ring_value_int t w val len fu max :
  int_width t = Some w -> ring_value t val len fu max = ring_int w val max.
Proof. destruct t; cbn; try done; by intros [= <-]. Qed.

(** The steps after the value has been stored do not return an error. *)
Lemma finish_no_ret (l m : bool) v len st c st' :
  (assert l;; assert m;; psize_add v;; modify next_arg;; modify (advance len)) st <> Ret c st'.
Proof.
  destruct l; [|done]. destruct m; [|done].
  cbn [assert]. unfold psize_add, ring_put, mret, M_ret, mbind, M_bind, get, put, lift, modify.
  repeat case_match; simplify_eq; done.
Qed.

Lemma int_push_ret et i w val len fu dyn st c st' :
  at_arg et i st -> int_slot et i = Some w -> val_to_ring val len fu dyn st = Ret c st' ->
  fa_nargs st <= i \/ fa_arg_data_size st < Z.of_nat w.
Proof.
  intros (He & ps & Hr & Hi) Hw E. pose proof (rp_inv _ _ _ Hr) as Hinv. pose proof Hinv as [].
  assert (fa_curarg st = i) as Ec by (rewrite (rp_cur _ _ _ Hr); done).
  Transparent val_to_ring. unfold val_to_ring, get in E. Opaque val_to_ring.
  unfold mbind at 1, M_bind at 1 in E.
  destruct (Z.leb_spec (fa_nargs st) (fa_curarg st)); [lia|].
  destruct (Z.eqb_spec (fa_arg_data_size st) 0).
  { right. unfold int_slot in Hw. case_match; [|done].
    destruct (pi_type _); cbn in Hw; try done; injection Hw as <-; lia. }
  destruct (event_param (fa_event_type st) (fa_curarg st)) as [info|] eqn:Einfo; [|done].
  rewrite He, Ec in Einfo. destruct (int_slot_type _ _ _ _ (u8 dyn) Einfo Hw) as (Est & Ew & Hb).
  cbn [lift] in E. unfold mret at 1, M_ret at 1 in E. unfold mbind at 1, M_bind at 1 in E.
  set (max := if _ <? _ then _ else _) in E.
  assert (1 <= max <= fa_arg_data_size st /\ (max = fa_arg_data_size st \/ 8 < max)) as [Hm Hm'].
  { unfold max, NOD_MAX_ARG_SIZE. cmp_case; lia. }
  pose proof (ring_dyn_post info (u8 dyn) st ps max Hr ltac:(lia) (event_param_dyn_ok _ _ _ Einfo)
    ltac:(apply unsigned_bound; lia) Hm) as HD.
  unfold mbind at 1, M_bind at 1 in E.
  destruct (ring_dyn info (u8 dyn) max st) as [[t max'] st1|c1 st1|] eqn:ED; [| |done].
  2: { unfold ring_dyn in ED. unfold slot_type in Est.
       destruct HD as [-> ->]. exfalso. unfold int_slot in Hw. rewrite Einfo in Hw.
       destruct (pi_type info); try done; unfold psize_set, ring_put, mret, M_ret, mbind, M_bind, get, put, lift in ED;
         repeat case_match; simplify_eq. }
  rewrite Est in HD. cbn [fst snd] in HD. rewrite zlen_nil in HD.
  destruct HD as (-> & Hp1 & _ & _ & -> & _ & _ & Hs1 & _).
  rewrite (ring_value_int _ w) in E by done. unfold ring_int, get in E.
  unfold mbind at 1, M_bind at 1 in E. unfold mbind at 1, M_bind at 1 in E.
  destruct (Z.leb_spec (Z.of_nat w) (max - 0)); [|right; lia].
  exfalso. pose proof (rp_inv _ _ _ Hp1) as Hi1. pose proof Hi1 as [].
  destruct (ring_put_touch (fa_arg_data_offset st1) (le_bytes w (u64 val)) st1 Hi1 ltac:(lia)) as (st2 & E2 & _).
  { rewrite zlen_le_bytes. lia. }
  unfold mbind at 1, M_bind at 1 in E. rewrite E2 in E. unfold mret at 1, M_ret at 1 in E.
  by apply finish_no_ret in E.
Qed.

Lemma int_slot_safe et i w dyn st info val len fu :
  int_slot et i = Some w -> event_param et i = Some info ->
  arg_safe st (kind_of (slot_type info dyn).1) val len fu.
Proof.
  intros Hw Hi. destruct (int_slot_type _ _ _ _ dyn Hi Hw) as (-> & Ew & _). cbn [fst].
  right. right. by destruct (pi_type info).
Qed.

Lemma wp_push_unchecked et i w val (Q : unit -> fargs -> Prop) st :
  at_arg et i st -> int_slot et i = Some w ->
  (forall st', at_arg et (i + 1) st' \/ stuck et i st' -> Q tt st') -> wp (push_unchecked val) Q st.
Proof.
  intros Ha Hw HQ. pose proof Ha as (He & ps & Hr & Hi).
  pose proof (wp_val_to_ring et i val 0 false 0 (fun _ st' => at_arg et (i + 1) st') st Ha
    ltac:(intros; by eapply int_slot_safe) ltac:(by intros)) as Hwp.
  pose proof (val_to_ring_post val 0 false 0 st ps Hr) as Hpost.
  assert (fa_curarg st = i) as Ec by (rewrite (rp_cur _ _ _ Hr); done).
  unfold wp, push_unchecked, push, catch in *.
  destruct (val_to_ring val 0 false 0 st) as [[] st'|c st'|] eqn:E; [|cbn|done].
  - split; [apply Hwp|]. apply HQ. left. apply Hwp.
  - split; [apply Hwp|]. apply HQ. right.
    destruct Hpost as (_ & Hf & pre & Hp & Hpre).
    { intros info. rewrite He, Ec. intros Hinfo. by eapply int_slot_safe. }
    assert (pre = []) as ->.
    { destruct Hpre as [->|(info & Hinfo & ->)]; [done|]. rewrite He, Ec in Hinfo.
      by destruct (int_slot_type _ _ _ _ (u8 0) Hinfo Hw) as (-> & _). }
    split; [split; [rewrite (ee_type _ _ Hf); done|by exists ps]|].
    exists w. split; [done|]. pose proof (int_push_ret _ _ _ _ _ _ _ _ _ _ Ha Hw E) as [?|?].
    + left. by rewrite (ee_nargs _ _ Hf).
    + right. destruct Hp as [[] _ Ho _ _ _], Hr as [[] _ Ho' _ _ _].
      pose proof (ee_nargs _ _ Hf). pose proof (ee_bsize _ _ Hf). lia.
Qed.

Lemma wp_push_stuck et i val len fu (Q : unit -> fargs -> Prop) st :
  stuck et i st -> wp (val_to_ring val len fu 0) Q st.
Proof.
  intros [Ha (w & Hw & Hs)]. pose proof Ha as (He & ps & Hr & Hi).
  pose proof (wp_val_to_ring et i val len fu 0 (fun _ _ => True) st Ha
    ltac:(intros; by eapply int_slot_safe) ltac:(by intros)) as Hwp.
  assert (fa_curarg st = i) as Ec by (rewrite (rp_cur _ _ _ Hr); done).
  pose proof (val_to_ring_post val len fu 0 st ps Hr) as Hpost.
  unfold wp in *. destruct (val_to_ring val len fu 0 st) as [[] st'|c st'|] eqn:E; [|done|done].
  exfalso. destruct Hpost as (info & body & Hinfo & H).
  { intros info. rewrite He, Ec. intros Hinfo. by eapply int_slot_safe. }
  rewrite He, Ec in Hinfo. destruct (int_slot_type _ _ _ _ (u8 0) Hinfo Hw) as (Es & Ew & _).
  rewrite Es in H. destruct H as (Hr' & Hf & Hst). cbn [app] in Hr'.
  assert (zlen body = Z.of_nat w) as Lb.
  { destruct (pi_type info); cbn in Ew, Hst; try done; injection Ew as <-; rewrite Hst; apply zlen_le_bytes. }
  destruct Hr' as [[] Hc' Ho' _ _ _], Hr as [[] Hc Ho _ _ _].
  pose proof (ee_nargs _ _ Hf). pose proof (ee_bsize _ _ Hf).
  rewrite concat_app in Ho'. cbn in Ho'. rewrite app_nil_r in Ho'. zlen_simpl. lia.
Qed.

Lemma wp_push_base et i size (Q : unit -> fargs -> Prop) st :
  at_arg et i st -> slot_is Blob (slot_kind et i 0) = true -> 0 <= size <= STR_STORAGE_SIZE ->
  (forall st', at_arg et (i + 1) st' -> fa_str st' = fa_str st -> Q tt st') ->
  wp (val_to_ring k_str_addr size false 0) Q st.
Proof.
  intros Ha Hk Hs HQ. rewrite <- (Z.add_0_r k_str_addr).
  eapply wp_push_str; [exact Ha|lia|lia|lia|by left|done].
Qed.

(** ** The fillers *)

Lemma f_sys_socket_bind_ok et i w st : at_arg et i st -> int_slot et i = Some w ->
  slot_is Blob (slot_kind et (i + 1) 0) = true -> wp f_sys_socket_bind (pushed et (i + 2)) st.
Proof.
  intros Ha Hw Hb. unfold f_sys_socket_bind. apply wp_bind. eapply wp_push_unchecked; [done..|].
  intros st' Hst. do 2 (apply wp_bind, wp_sc_arg; intros ?). apply wp_bind.
  assert (forall I, StrStable I -> I st' -> wp (if ctrue v && ctrue v0 then with_sockaddr v (s32 v0)
    (fun address => pack_addr address (s32 v0)) else mret 0) (sized I) st') as Hconv.
  { intros I HI HIst. case_match; [|apply wp_ret; split; [done|by vm_compute]].
    apply with_sockaddr_ok; [done..|]. intros address La Hu. by apply pack_addr_ok. }
  destruct Hst as [Hst|Hst].
  - eapply wp_mono; [apply (Hconv (at_arg et (i + 1))); [apply _|done]|]. intros size st'' _ [Ha' Hs].
    eapply wp_push_base; [done..|]. intros st3 Ha3 _. wp_go.
  - eapply wp_mono; [apply (Hconv (stuck et i)); [apply _|done]|]. intros size st'' _ [Ha' Hs].
    by eapply wp_push_stuck.
Qed.

Lemma f_sys_connect_ok et i w st : at_arg et i st -> int_slot et i = Some w ->
  slot_is Blob (slot_kind et (i + 1) 0) = true -> socks_ok -> wp f_sys_connect (pushed et (i + 2)) st.
Proof.
  intros Ha Hw Hb Hso. unfold f_sys_connect. apply wp_bind. eapply wp_push_unchecked; [done..|].
  intros st' Hst. apply wp_bind, wp_sc_arg; intros fd. cbv zeta. apply wp_bind.
  match goal with |- wp ?m _ _ => assert (forall I, StrStable I -> I st' -> wp m (sized I) st') as Hconv end.
  { intros I HI HIst. case_match; [|apply wp_ret; split; [done|by vm_compute]].
    do 2 (apply wp_bind, wp_sc_arg; intros ?). case_match; [|apply wp_ret; split; [done|by vm_compute]].
    apply with_sockaddr_ok; [done..|]. intros address La Hu. by apply fd_to_socktuple_ok. }
  destruct Hst as [Hst|Hst].
  - eapply wp_mono; [apply (Hconv (at_arg et (i + 1))); [apply _|done]|]. intros size st'' _ [Ha' Hs].
    eapply wp_push_base; [done..|]. intros st3 Ha3 _. wp_go.
  - eapply wp_mono; [apply (Hconv (stuck et i)); [apply _|done]|]. intros size st'' _ [Ha' Hs].
    by eapply wp_push_stuck.
Qed.

Lemma f_sys_send_e_common_ok et i st : at_arg et i st -> slots et i [Int; Int] ->
  wp f_sys_send_e_common (fun _ => at_arg et (i + 2)) st.
Proof. filler f_sys_send_e_common. Qed.

Lemma f_sys_send_x_common_ok et i st : at_arg et i st -> slots et i [Int; Any] ->
  wp f_sys_send_x_common (pushed et (i + 2)) st.
Proof. filler f_sys_send_x_common. Qed.

Lemma f_sys_recv_common_ok et i st : at_arg et i st -> slots et i [Int; Any] ->
  wp f_sys_recv_common (fun _ => at_arg et (i + 2)) st.
Proof. filler f_sys_recv_common. Qed.

Lemma f_sys_send_ok et i st : at_arg et i st -> slots et i [Int; Int; Int; Any] ->
  wp f_sys_send (pushed et (i + 4)) st.
Proof.
  intros Ha (H1 & H2 & Hs). unfold f_sys_send. apply wp_bind.
  wp_call (f_sys_send_e_common_ok et i). rewrite <- Z.add_assoc in Hs.
  wp_call (f_sys_send_x_common_ok et (i + 2)). wp_go.
Qed.

(** The optional address of a socket call, as a tuple. *)
Lemma user_tuple_ok et i fd ua ulen is_inbound st :
  at_arg et i st -> socks_ok ->
  wp (if ctrue ua && ctrue ulen
      then with_sockaddr ua (s32 ulen) (fun a => fd_to_socktuple fd a (s32 ulen) true is_inbound)
      else mret 0) (sized (at_arg et i)) st.
Proof.
  intros Ha Hso. case_match; [|apply wp_ret; split; [done|by vm_compute]].
  apply with_sockaddr_ok; [apply _|done|]. intros a La Hu.
  apply fd_to_socktuple_ok; [apply _|done..].
Qed.

Lemma s32_idem x : s32 (s32 x) = s32 x.
Proof. apply signed_small; [lia|]. apply (signed_bound 32). lia. Qed.

(** The same with a length that already is an [int]. *)
Lemma user_tuple_int_ok et i fd ua addrlen is_inbound st :
  at_arg et i st -> socks_ok ->
  wp (if ctrue ua && ctrue addrlen
      then with_sockaddr ua addrlen (fun a => fd_to_socktuple fd a addrlen true is_inbound)
      else mret 0) (sized (at_arg et i)) st.
Proof.
  intros Ha Hso. case_match; [|apply wp_ret; split; [done|by vm_compute]].
  apply with_sockaddr_ok; [apply _|done|]. intros a La Hu.
  apply fd_to_socktuple_ok; [apply _|done..].
Qed.

Lemma f_sys_sendto_ok et i st : at_arg et i st -> slots et i [Int; Int; Blob; Int; Any] ->
  socks_ok -> wp f_sys_sendto (pushed et (i + 5)) st.
Proof.
  intros Ha (H1 & H2 & H3 & Hs) Hso. unfold f_sys_sendto. apply wp_bind.
  apply (wp_str_put (at_arg et i)); [done|lia|by vm_compute|]. intros st' Ha' _. apply wp_bind.
  wp_call (f_sys_send_e_common_ok et i). do 2 (apply wp_bind, wp_sc_arg; intros ?). apply wp_bind.
  eapply wp_mono; [by apply (user_tuple_ok et (i + 2))|]. intros size st2 _ [Ha2 Hsz]. rewrite <- !Z.add_assoc in *.
  apply wp_bind. eapply (wp_push_base et (i + 2)); [done..|]. intros st3 Ha3 _. rewrite <- Z.add_assoc in Ha3.
  wp_call (f_sys_send_x_common_ok et (i + 3)). wp_go.
Qed.

Lemma f_sys_recv_ok et i st : at_arg et i st -> slots et i [Int; Any] ->
  wp f_sys_recv (pushed et (i + 2)) st.
Proof. intros. unfold f_sys_recv. apply wp_bind. wp_call (f_sys_recv_common_ok et i). by apply wp_ret. Qed.

Lemma f_sys_recvfrom_ok et i st : at_arg et i st -> slots et i [Int; Any; Blob] ->
  socks_ok -> wp f_sys_recvfrom (pushed et (i + 3)) st.
Proof.
  intros Ha (H1 & H2 & H3 & _) Hso. unfold f_sys_recvfrom. apply wp_bind.
  wp_call (f_sys_recv_common_ok et i). rewrite <- Z.add_assoc in H3. apply wp_bind.
  apply (wp_mono _ (sized (at_arg et (i + 2)))).
  - case_match; [|apply wp_ret; split; [done|by vm_compute]].
    do 3 (apply wp_bind, wp_sc_arg; intros ?). cbv zeta.
    destruct (ctrue v0 && ctrue v1); [|apply wp_ret; split; [done|by vm_compute]].
    apply wp_bind. apply (wp_fetch_user (at_arg et (i + 2))); [done|lia|]. intros bs Lbs.
    apply with_sockaddr_ok; [apply _|done|]. intros b La Hu.
    apply fd_to_socktuple_ok; [apply _|done..].
  - intros size st'' _ [Ha2 Hsz]. eapply wp_push_base; [done..|]. intros st3 Ha3 _. wp_go.
Qed.

Lemma f_sys_shutdown_ok et i st : at_arg et i st -> slots et i [Int; Int] ->
  (forall v, is_Some (shutdown_how_to_scap v)) \/
  (fa_is_socketcall st = false /\ is_Some (shutdown_how_to_scap (sys_arg 1))) ->
  wp f_sys_shutdown (pushed et (i + 2)) st.
Proof.
  intros Ha (H1 & H2 & _) Hsh. unfold f_sys_shutdown. apply wp_bind.
  unfold sc_arg. apply wp_bind, wp_get, wp_ret. apply wp_bind.
  apply (wp_mono _ (pushed et (i + 1))); [eapply wp_push_int; [done..|]; by intros|].
  intros [] st' Hf Ha'. apply wp_bind, wp_bind, wp_get, wp_ret, wp_bind.
  assert (is_Some (shutdown_how_to_scap (if fa_is_socketcall st' then nth 1 k_socketcall_args 0 else sys_arg 1))) as Hv.
  { destruct Hsh as [Hsh|[Hf' Hsh]]; [apply Hsh|]. by rewrite (fr_sock _ _ Hf), Hf'. }
  destruct Hv as [v Ev]. eapply wp_lift; [exact Ev|].
  eapply wp_push_int; [done..|]. intros st3 Ha3 _. wp_go.
Qed.

Lemma f_sys_socketpair_ok et i st : at_arg et i st -> slots et i [Int; Int; Int; Int; Int] ->
  (forall fd, k_sockfd fd <> Some None) ->
  (forall fd, k_sockfd fd = None -> k_sockfd_err fd <> 0) ->
  wp f_sys_socketpair (pushed et (i + 5)) st.
Proof.
  intros Ha Hs Hsk Herr. unfold f_sys_socketpair. wp_go.
  destruct (k_sockfd (s32 (fld 0 4 bs))) as [[sk|]|] eqn:E.
  - apply wp_bind. eapply wp_lift; [done|]. wp_go.
  - by apply Hsk in E.
  - unfold code. destruct (Z.eqb_spec (k_sockfd_err (s32 (fld 0 4 bs))) 0); [by apply Herr in E|].
    wp_go.
Qed.

(** [PT_DYN] slots take an integer with every index but that of raw bytes. *)
Definition dyn_slot (et i : Z) (idxs : list Z) : Prop :=
  Forall (fun d => slot_is Int (slot_kind et i (u8 d)) = true) idxs.

Lemma parse_sockopt_ok et i level optname optval optlen st : at_arg et i st ->
  dyn_slot et i [NOD_SOCKOPT_IDX_ERRNO; NOD_SOCKOPT_IDX_UINT32; NOD_SOCKOPT_IDX_UINT64; NOD_SOCKOPT_IDX_TIMEVAL] ->
  wp (parse_sockopt level optname optval optlen) (pushed et (i + 1)) st.
Proof.
  intros Ha Hd. unfold dyn_slot in Hd. rewrite Forall_forall in Hd. unfold parse_sockopt. cbv zeta.
  repeat (case_match; [first
    [ apply wp_bind; apply (wp_fetch_user (at_arg et i)); [exact Ha|lia|]; intros bs _;
      eapply wp_push_dyn; [exact Ha|apply Hd; cbn; tauto|]; intros st' Ha' _; wp_go | idtac ]|]).
  all: eapply wp_push_user; [exact Ha|]; intros st' Ha' _; wp_go.
Qed.
End sock.
