(* ===== verification/FillerData.v ===== *)
(** * Specifications of the fillers that move data through [str_storage]

    I/O vectors, poll sets, time values, [ptrace], socket options and messages,
    and process creation with its argument, environment and cgroup strings. *)

From S2P Require Import Prelude Kernel Tables Flags FlagsFacts Ring RingFacts FillerLib Fillers FillerFacts FillerSpecs FillerSock.

Local Open Scope Z_scope.

#[local] Opaque val_to_ring str_put str_get.

Ltac page := unfold STR_STORAGE_SIZE, PAGE_SIZE in *; lia.

Section data.
Context {K : Kernel} {KO : KernelOk K}.

Lemma fld_bound off n bs : 0 <= n -> 0 <= fld off n bs < 2 ^ (8 * n).
Proof. intros. apply unsigned_bound. lia. Qed.

Lemma fld8_bound off bs : 0 <= fld off 8 bs < 2 ^ 64.
Proof. by apply (fld_bound off 8). Qed.

Lemma u64_bound x : 0 <= u64 x < 2 ^ 64.
Proof. by apply unsigned_bound. Qed.

(** ** I/O vectors *)

Lemma iov_size_ok I `{!StrStable I} n j size st :
  I st -> 0 <= j -> 16 * (j + Z.of_nat n) <= STR_STORAGE_SIZE ->
  wp (iov_size n j size) (fun _ => I) st.
Proof.
  revert j size. induction n as [|n IH]; intros j size Ha Hj Hn; cbn [iov_size]; [by apply wp_ret|].
  apply wp_bind. apply (wp_str_get I); [done|lia|lia|lia|]. apply IH; [done|lia|lia].
Qed.

Lemma iov_merge_ok I `{!StrStable I} n j bufsize base tlen retval is_write st :
  I st -> 0 <= j -> 16 * (j + Z.of_nat n) <= base -> base + tlen = STR_STORAGE_SIZE ->
  0 <= bufsize < tlen ->
  wp (iov_merge n j bufsize base tlen retval is_write) (fun r st' => I st' /\ 0 <= r < tlen) st.
Proof.
  revert j bufsize st. induction n as [|n IH]; intros j bufsize st Ha Hj Hn Hb Hs; cbn [iov_merge]; [by apply wp_ret|].
  case_match; [by apply wp_ret|]. apply wp_bind. apply (wp_str_get I); [done|lia|lia|lia|]. cbv zeta.
  set (iov := zslice (16 * j) 16 (fa_str st)).
  assert (u64 (tlen - bufsize - 1) = tlen - bufsize - 1) as Et by (apply unsigned_small; page).
  set (len := if negb is_write then _ else _).
  assert (0 <= len <= tlen - bufsize - 1) as Hlen.
  { unfold len. rewrite Et. pose proof (fld8_bound 8 iov). pose proof (u64_bound (retval - bufsize)).
    destruct is_write; cbn [negb]; lia. }
  clearbody len iov. apply wp_bind. apply (wp_str_copy_user I); [done|lia|lia|lia|].
  intros miss st' Ha' _ _. destruct (ctrue (u32 miss)); [apply wp_fail; [by apply ss_inv|done]|].
  destruct (negb (_ =? _)); [apply wp_ret; split; [done|lia]|]. apply IH; [done|lia|lia|done|lia].
Qed.

Lemma parse_readv_writev_bufs_ok et i src cnt retval flags st :
  at_arg et i st -> 0 <= cnt ->
  slots et i ((if has flags PRB_FLAG_PUSH_SIZE then [Int] else []) ++
              (if has flags PRB_FLAG_PUSH_DATA then [Blob] else [])) ->
  wp (parse_readv_writev_bufs src cnt retval flags)
    (pushed et (i + (if has flags PRB_FLAG_PUSH_SIZE then 1 else 0)
                  + (if has flags PRB_FLAG_PUSH_DATA then 1 else 0))) st.
Proof.
  intros Ha Hc Hs. unfold parse_readv_writev_bufs. cbv zeta.
  set (wants_size := has flags PRB_FLAG_PUSH_SIZE) in *. clearbody wants_size.
  set (wants_data := has flags PRB_FLAG_PUSH_DATA) in *. clearbody wants_data.
  destruct (Z.leb_spec 0xffffffff cnt); [apply wp_fail; [by eapply at_inv|done]|].
  assert (u64 (cnt * 16) = cnt * 16) as -> by (apply unsigned_small; lia).
  destruct (Z.leb_spec STR_STORAGE_SIZE (cnt * 16)); [apply wp_fail; [by eapply at_inv|done]|].
  assert (u32 (STR_STORAGE_SIZE - cnt * 16) = STR_STORAGE_SIZE - cnt * 16) as -> by (apply unsigned_small; page).
  apply wp_bind. apply (wp_str_copy_user (at_arg et i)); [done|lia|lia|lia|]. intros miss st1 Ha1 _ _.
  destruct (ctrue miss); [apply wp_fail; [by eapply at_inv|done]|]. apply wp_bind.
  apply slots_app in Hs as [Hs1 Hs2].
  apply (wp_mono _ (fun _ => at_arg et (i + (if wants_size then 1 else 0)))).
  { destruct wants_size; [|apply wp_ret; wp_go].
    apply wp_bind. eapply wp_mono; [apply (iov_size_ok (at_arg et i)); [exact Ha1|lia|page]|].
    intros size st2 _ Ha2. cbv beta in Ha2. wp_go. }
  intros [] st2 _ Ha2.
  assert (zlen (if wants_size then [Int] else []) =
    if wants_size then 1 else 0) as E by by destruct wants_size.
  rewrite E in Hs2. destruct wants_data; [|apply wp_ret; wp_go].
  destruct Hs2 as [Hb _]. destruct ((0 <? retval) && (0 <? cnt)).
  - apply wp_bind. eapply wp_mono.
    { eapply (iov_merge_ok (at_arg et _)); [exact Ha2|lia| |..].
      - rewrite Z2Nat.id by lia. reflexivity || lia.
      - lia.
      - page. }
    intros n st3 _ [Ha3 Hn]. eapply wp_push_str; [exact Ha3|lia|lia|lia|by left|].
    intros st4 Ha4 _. unfold pushed. at_done.
  - eapply wp_push_zero; [exact Ha2|]. intros st3 Ha3 _. unfold pushed. at_done.
Qed.

(** The three ways the fillers call it. *)
Lemma parse_all_ok et i src cnt retval st : at_arg et i st -> 0 <= cnt -> slots et i [Int; Blob] ->
  wp (parse_readv_writev_bufs src cnt retval PRB_FLAG_PUSH_ALL) (pushed et (i + 2)) st.
Proof.
  intros. replace (i + 2) with (i + 1 + 1) by lia.
  by apply (parse_readv_writev_bufs_ok et i src cnt retval PRB_FLAG_PUSH_ALL).
Qed.

Lemma parse_size_ok et i src cnt retval st : at_arg et i st -> 0 <= cnt -> slots et i [Int] ->
  wp (parse_readv_writev_bufs src cnt retval (PRB_FLAG_PUSH_SIZE |! PRB_FLAG_IS_WRITE)) (pushed et (i + 1)) st.
Proof.
  intros. replace (i + 1) with (i + 1 + 0) by lia.
  by apply (parse_readv_writev_bufs_ok et i src cnt retval (PRB_FLAG_PUSH_SIZE |! PRB_FLAG_IS_WRITE)).
Qed.

Lemma parse_data_ok et i src cnt retval st : at_arg et i st -> 0 <= cnt -> slots et i [Blob] ->
  wp (parse_readv_writev_bufs src cnt retval (PRB_FLAG_PUSH_DATA |! PRB_FLAG_IS_WRITE)) (pushed et (i + 1)) st.
Proof.
  intros. replace (i + 1) with (i + 0 + 1) by lia.
  by apply (parse_readv_writev_bufs_ok et i src cnt retval (PRB_FLAG_PUSH_DATA |! PRB_FLAG_IS_WRITE)).
Qed.

Lemma f_sys_readv_preadv_ok et i st : at_arg et i st -> slots et i [Int; Int; Blob] ->
  wp f_sys_readv_preadv (pushed et (i + 3)) st.
Proof.
  intros Ha Hs. unfold f_sys_readv_preadv. wp_go. pose proof (sys_arg_u64 2).
  eapply wp_mono; [apply (parse_all_ok et (i + 1)); [done|lia|done]|]. intros [] st1 _ Ha1. wp_go.
Qed.

Lemma f_sys_writev_pwritev_ok et i st : at_arg et i st -> slots et i [Int; Blob] ->
  wp f_sys_writev_pwritev (pushed et (i + 2)) st.
Proof.
  intros Ha Hs. unfold f_sys_writev_pwritev. wp_go. pose proof (sys_arg_u64 2).
  eapply wp_mono; [apply (parse_data_ok et (i + 1)); [done|lia|done]|]. intros [] st1 _ Ha1. wp_go.
Qed.

Lemma f_sys_writev_ok et i st : at_arg et i st -> slots et i [Int; Int; Int; Blob] ->
  wp f_sys_writev (pushed et (i + 4)) st.
Proof.
  intros Ha Hs. unfold f_sys_writev. wp_go. pose proof (sys_arg_u64 2). destruct Ht as [Hk Ht].
  eapply wp_mono; [apply (parse_size_ok et (i + 1)); [done|lia|done]|]. intros [] st1 _ Ha1.
  wp_call (f_sys_writev_pwritev_ok et (i + 1 + 1)). wp_go.
Qed.

Lemma f_sys_preadv_ok et i st : at_arg et i st -> slots et i [Int; Int; Int; Int; Blob] ->
  wp f_sys_preadv (pushed et (i + 5)) st.
Proof.
  intros Ha Hs. unfold f_sys_preadv. wp_go. wp_call (f_sys_readv_preadv_ok et (i + 1 + 1)). wp_go.
Qed.

Lemma f_sys_pwritev_ok et i st : at_arg et i st -> slots et i [Int; Int; Int; Int; Blob] ->
  wp f_sys_pwritev (pushed et (i + 5)) st.
Proof.
  intros Ha Hs. unfold f_sys_pwritev. wp_go. pose proof (sys_arg_u64 2). destruct Ht as [Hk Ht].
  eapply wp_mono; [apply (parse_size_ok et (i + 1)); [done|lia|done]|]. intros [] st1 _ Ha1.
  unfold pushed in Ha1. wp_go. wp_call (f_sys_writev_pwritev_ok et (i + 1 + 1 + 1)). wp_go.
Qed.

(** ** Messages and socket options *)

Lemma f_sys_sendmsg_ok et i st : at_arg et i st -> slots et i [Int; Int; Blob; Int; Blob] ->
  socks_ok -> wp f_sys_sendmsg (pushed et (i + 5)) st.
Proof.
  intros Ha Hs Hso. unfold f_sys_sendmsg. wp_go. destruct Ht as (H1 & H2 & Ht).
  pose proof (fld8_bound 24 bs).
  eapply wp_mono; [apply (parse_size_ok et (i + 1)); [done|apply fld8_bound|done]|]. intros [] st1 _ Ha1.
  unfold pushed in Ha1. wp_step.
  eapply wp_mono; [by apply (user_tuple_int_ok et (i + 1 + 1))|]. intros size st2 _ [Ha2 Hsz].
  apply wp_bind. eapply wp_push_base; [done..|]. intros st3 Ha3 _. wp_go.
  eapply wp_mono; [apply (parse_data_ok et (i + 1 + 1 + 1 + 1)); [done|apply fld8_bound|done]|].
  intros [] st5 _ Ha5. wp_go.
Qed.

Lemma f_sys_recvmsg_ok et i st : at_arg et i st -> slots et i [Int; Int; Blob; Blob] ->
  socks_ok -> wp f_sys_recvmsg (pushed et (i + 4)) st.
Proof.
  intros Ha Hs Hso. unfold f_sys_recvmsg. wp_go. destruct Ht as (H1 & H2 & H3 & _).
  eapply wp_mono; [apply (parse_all_ok et (i + 1)); [done|apply fld8_bound|done]|]. intros [] st1 _ Ha1.
  unfold pushed in Ha1. wp_step. apply (wp_mono _ (sized (at_arg et (i + 1 + 2)))).
  - case_match; [|apply wp_ret; split; [done|by vm_compute]].
    apply wp_bind, wp_sc_arg; intros ?. cbv zeta. by apply user_tuple_int_ok.
  - intros size st2 _ [Ha2 Hsz]. eapply wp_push_base; [exact Ha2| |done|].
    + by replace (i + 1 + 2) with (i + 1 + 1 + 1) by lia.
    + intros st3 Ha3 _. wp_go.
Qed.

Lemma f_sys_setsockopt_ok et i st : at_arg et i st -> slots et i [Int; Any; Any; Any] ->
  dyn_slot et (i + 4) [NOD_SOCKOPT_IDX_ERRNO; NOD_SOCKOPT_IDX_UINT32; NOD_SOCKOPT_IDX_UINT64; NOD_SOCKOPT_IDX_TIMEVAL] ->
  is_Some (sockopt_optname_to_scap (sys_arg 1) (sys_arg 2)) ->
  wp f_sys_setsockopt (pushed et (i + 6)) st.
Proof.
  intros Ha Hs Hd Ho. unfold f_sys_setsockopt. wp_go.
  eapply wp_mono; [apply (parse_sockopt_ok et (i + 4)); [at_done|done]|]. intros [] st4 _ Ha4. unfold pushed in Ha4.
  eapply wp_push_user; [exact Ha4|]. intros st5 Ha5 _. wp_go.
Qed.

Lemma f_sys_getsockopt_ok et i st : at_arg et i st -> slots et i [Int; Any; Any; Any] ->
  dyn_slot et (i + 4) [NOD_SOCKOPT_IDX_ERRNO; NOD_SOCKOPT_IDX_UINT32; NOD_SOCKOPT_IDX_UINT64; NOD_SOCKOPT_IDX_TIMEVAL] ->
  is_Some (sockopt_optname_to_scap (sys_arg 1) (sys_arg 2)) ->
  wp f_sys_getsockopt (pushed et (i + 6)) st.
Proof.
  intros Ha Hs Hd Ho. unfold f_sys_getsockopt. wp_go.
  eapply wp_mono; [apply (parse_sockopt_ok et (i + 4)); [at_done|done]|]. intros [] st4 _ Ha4. unfold pushed in Ha4.
  eapply wp_push_user; [exact Ha4|]. intros st5 Ha5 _. wp_go.
Qed.

(** ** Poll sets and times *)

Lemma poll_loop_ok I `{!StrStable I} fuel nfds base enter j pos count st :
  I st -> 0 <= nfds <= 227 -> base = 8 * nfds + 2 -> 0 <= count <= j -> j <= nfds -> pos = 2 + 10 * count ->
  nfds - j < Z.of_nat fuel ->
  wp (poll_loop fuel nfds base enter j pos count)
    (fun r st' => I st' /\ r.1 = 2 + 10 * r.2 /\ 0 <= r.2 <= nfds) st.
Proof.
  revert j pos count st. induction fuel as [|fuel IH]; intros j pos count st Ha Hn Hb Hc Hj Hp Hf; [lia|].
  cbn [poll_loop]. destruct (Z.ltb_spec j nfds); cbn [negb].
  2: { apply wp_ret. cbn [fst snd]. split_and!; done || lia. }
  apply wp_bind. apply (wp_str_get I); [done|lia|lia|page|]. cbv zeta.
  assert (u32 (j + 1) = j + 1) as -> by (apply unsigned_small; lia).
  destruct (negb enter && _); [apply IH; done || lia|].
  assert (u32 (pos + 10) = pos + 10) as -> by (apply unsigned_small; lia).
  apply wp_bind. apply (wp_str_put I); [done|lia|rewrite zlen_le_bytes; page|]. intros st1 Ha1 _.
  apply wp_bind. apply (wp_str_put I); [done|lia|rewrite zlen_le_bytes; page|]. intros st2 Ha2 _.
  apply IH; done || lia.
Qed.

Lemma poll_parse_fds_ok et i enter st : at_arg et i st -> slots et i [Blob] -> sys_arg 1 < 2 ^ 32 ->
  wp (poll_parse_fds enter) (pushed et (i + 1)) st.
Proof.
  intros Ha [Hk _] Hn. pose proof (sys_arg_u64 1). unfold poll_parse_fds. cbv zeta.
  assert (u64 (8 * sys_arg 1 + 2 + 10 * sys_arg 1) = 18 * sys_arg 1 + 2) as ->.
  { unfold u64. rewrite unsigned_small by lia. lia. }
  destruct (Z.ltb_spec STR_STORAGE_SIZE (18 * sys_arg 1 + 2)); [apply wp_fail; [by eapply at_inv|done]|].
  assert (u64 (sys_arg 1 * 8) = 8 * sys_arg 1) as -> by (unfold u64; rewrite unsigned_small by lia; lia).
  assert (sys_arg 1 <= 227) by page.
  apply wp_bind. apply (wp_str_copy_user (at_arg et i)); [done|lia|lia|page|]. intros miss st1 Ha1 _ _.
  destruct (ctrue miss); [apply wp_fail; [by eapply at_inv|done]|]. apply wp_bind.
  eapply wp_mono.
  { apply (poll_loop_ok (at_arg et i)); [exact Ha1|lia|lia|lia|lia|done|unfold poll_fuel; lia]. }
  intros [pos count] st2 _ (Ha2 & Hp & Hc). cbn [fst snd] in *. apply wp_bind.
  apply (wp_str_put (at_arg et i)); [done|lia|rewrite zlen_le_bytes; page|]. intros st3 Ha3 _.
  eapply wp_push_str; [exact Ha3|lia|lia|page|by left|]. intros st4 Ha4 _. wp_go.
Qed.

Lemma timespec_parse_ok et i val st : at_arg et i st -> slots et i [Int] ->
  wp (timespec_parse val) (pushed et (i + 1)) st.
Proof.
  intros Ha Hs. unfold timespec_parse. apply wp_bind.
  apply (wp_str_copy_user (at_arg et i)); [done|lia|lia|page|]. intros miss st1 Ha1 _ _.
  destruct (ctrue miss); [apply wp_fail; [by eapply at_inv|done]|]. apply wp_bind.
  apply (wp_str_get (at_arg et i)); [done|lia|lia|page|]. wp_go.
Qed.

Lemma f_sys_nanosleep_ok et i st : at_arg et i st -> slots et i [Int] ->
  wp f_sys_nanosleep (pushed et (i + 1)) st.
Proof. apply timespec_parse_ok. Qed.

Lemma f_sys_poll_x_common_ok et i st : at_arg et i st -> slots et i [Int; Blob] -> sys_arg 1 < 2 ^ 32 ->
  wp f_sys_poll_x_common (pushed et (i + 2)) st.
Proof.
  intros Ha Hs Hn. unfold f_sys_poll_x_common. wp_go. wp_call (poll_parse_fds_ok et (i + 1)). wp_go.
Qed.

Lemma f_sys_poll_ok et i st : at_arg et i st -> slots et i [Blob; Int; Int; Blob] -> sys_arg 1 < 2 ^ 32 ->
  wp f_sys_poll (pushed et (i + 4)) st.
Proof.
  intros Ha (H1 & Hs) Hn. unfold f_sys_poll. wp_step. eapply wp_mono; [by apply (poll_parse_fds_ok et i)|].
  intros [] st1 _ Ha1. unfold pushed in Ha1. wp_go. wp_call (poll_parse_fds_ok et (i + 1 + 1 + 1)). wp_go.
Qed.

Lemma f_sys_ppoll_ok et i st : at_arg et i st -> slots et i [Blob; Int; Int; Int; Blob] -> sys_arg 1 < 2 ^ 32 ->
  wp f_sys_ppoll (pushed et (i + 5)) st.
Proof.
  intros Ha (H1 & H2 & Hs) Hn. unfold f_sys_ppoll. wp_step. eapply wp_mono; [by apply (poll_parse_fds_ok et i)|].
  intros [] st1 _ Ha1. unfold pushed in Ha1. cbv zeta. wp_step.
  apply (wp_mono _ (pushed et (i + 1 + 1))).
  { destruct (sys_arg 2 =? 0); [|by apply timespec_parse_ok].
    eapply wp_push_int; [done..|]. by intros. }
  intros [] st2 _ Ha2. unfold pushed in Ha2. wp_go;
    (wp_call (f_sys_poll_x_common_ok et (i + 1 + 1 + 1)); wp_go).
Qed.

(** ** [ptrace], [bpf] and others with typed parameters *)

Lemma f_sys_ptrace_ok et i st : at_arg et i st -> slots et i [Int; Int; Int; Any; Any] ->
  dyn_slot et (i + 3) [NOD_PTRACE_IDX_UINT64] ->
  dyn_slot et (i + 4) [NOD_PTRACE_IDX_UINT64; NOD_PTRACE_IDX_SIGTYPE] ->
  wp f_sys_ptrace (pushed et (i + 5)) st.
Proof.
  intros Ha Hs H3 H4. unfold f_sys_ptrace. wp_go.
  unfold dyn_slot in *. rewrite Forall_forall in H3, H4. unfold parse_ptrace_addr.
  eapply (wp_push_dyn et (i + 3)); [at_done|apply H3; cbn; tauto|]. intros st3 Ha3 _.
  unfold parse_ptrace_data. cbv zeta.
  assert (forall v d st', at_arg et (i + 3 + 1) st' -> In d [NOD_PTRACE_IDX_UINT64; NOD_PTRACE_IDX_SIGTYPE] ->
    wp (val_to_ring v 0 false d) (pushed et (i + 5)) st') as Hp.
  { intros v d st' Ha' Hd. eapply (wp_push_dyn et (i + 4)); [at_done|by apply H4|]. intros st4 Ha4 _. wp_go. }
  destruct (existsb _ _).
  - apply wp_bind. apply (wp_fetch_user (at_arg et (i + 3 + 1))); [done|lia|]. intros bs _.
    apply Hp; [done|cbn; tauto].
  - destruct (existsb _ _); (apply Hp; [done|cbn; tauto]).
Qed.

Lemma f_sys_bpf_ok et i st : at_arg et i st -> dyn_slot et i [NOD_BPF_IDX_FD; NOD_BPF_IDX_RES] ->
  wp f_sys_bpf (pushed et (i + 1)) st.
Proof.
  intros Ha Hd. unfold dyn_slot in Hd. rewrite Forall_forall in Hd. unfold f_sys_bpf. cbv zeta.
  destruct (_ <? _); [|destruct (_ || _)];
    (eapply wp_push_dyn; [exact Ha|apply Hd; cbn; tauto|]; intros st1 Ha1 _; wp_go).
Qed.

Lemma f_sys_brk_ok et i st : at_arg et i st ->
  slots et i ((if (et =? NODE_SYSCALL_MMAP) || (et =? NODE_SYSCALL_MMAP2)
               then [Int; Int; Int; Int; Int; Int] else []) ++ [Int; Int; Int; Int]) ->
  wp f_sys_brk_munmap_mmap
    (pushed et (i + (if (et =? NODE_SYSCALL_MMAP) || (et =? NODE_SYSCALL_MMAP2) then 10 else 4))) st.
Proof.
  intros Ha Hs. unfold f_sys_brk_munmap_mmap. wp_go.
  - assert (fa_event_type st = et) as E by apply Ha. rewrite <- E in *. rewrite Heqb in *.
    eapply wp_mono; [apply (f_sys_mmap_ok (fa_event_type st) i); [done|]|].
    { apply slots_app in Hs. apply Hs. }
    intros [] st1 _ Ha1. unfold pushed in Ha1. apply slots_app in Hs as [_ Hs].
    change (zlen [Int; Int; Int; Int; Int; Int]) with 6 in Hs. wp_go.
  - assert (fa_event_type st = et) as E by apply Ha. rewrite E in *. rewrite Heqb in *. cbn [app] in Hs. wp_go.
Qed.

Lemma f_sys_quotactl_ok et i st : at_arg et i st ->
  slots et i [Int; Int; Int; Int; Int; Any; Any; Int; Int; Int; Int; Int; Int; Int; Int; Int; Int; Int] ->
  wp f_sys_quotactl (pushed et (i + 18)) st.
Proof. filler f_sys_quotactl. Qed.

Lemma f_sys_accept_common_ok et i st : at_arg et i st -> slots et i [Int; Blob; Int; Int; Int] ->
  socks_ok -> peer_ok (s32 k_ret) true -> wp f_sys_accept_common (pushed et (i + 5)) st.
Proof.
  intros Ha Hs Hso Hp. unfold f_sys_accept_common. cbv zeta. wp_step. wp_step. destruct Ht as [Hk Ht].
  apply wp_bind. eapply wp_mono; [apply (fd_to_socktuple_ok (at_arg et (i + 1))); done|].
  intros size st1 _ [Ha1 Hsz]. apply wp_bind. eapply wp_push_base; [done..|]. intros st2 Ha2 _.
  wp_go.
Qed.

Lemma f_sys_accept4_ok et i st : at_arg et i st -> slots et i [Int; Int; Blob; Int; Int; Int] ->
  socks_ok -> peer_ok (s32 k_ret) true -> wp f_sys_accept4 (pushed et (i + 6)) st.
Proof.
  intros Ha Hs Hso Hp. unfold f_sys_accept4. wp_go. wp_call (f_sys_accept_common_ok et (i + 1)). wp_go.
Qed.

(** [f_sys_semop] pushes the entries only when it has a pointer and a count. *)
Lemma f_sys_semop_ok et i st : at_arg et i st -> slots et i [Int; Any; Any; Any; Any; Any; Any; Any] ->
  wp f_sys_semop (pushed et (i + (if ctrue (sys_arg 2) && ctrue (sys_arg 1) then 8 else 2))) st.
Proof.
  intros Ha Hs. unfold f_sys_semop. cbv zeta. do 4 wp_step. destruct (ctrue (sys_arg 2) && ctrue (sys_arg 1)); [|wp_go].
  destruct Ht0 as (H1 & H2 & H3 & H4 & H5 & H6 & _).
  wp_step. eapply wp_mono; [by apply (semop_entry_ok et (i + 1 + 1))|]. intros [] st2 _ Ha2.
  eapply wp_mono; [apply (semop_entry_ok et (i + 1 + 1 + 3)); [done|]|].
  { replace (i + 1 + 1 + 3) with (i + 1 + 1 + 1 + 1 + 1) by lia. done. }
  intros [] st3 _ Ha3. wp_go.
Qed.

(** ** Process creation *)

(** The first [n] bytes of [str_storage] end with a terminator. *)
Definition terminated (n : Z) (st : fargs) : Prop :=
  0 < n -> fa_str st !! Z.to_nat (n - 1) = Some 0.

Lemma cstr_within (l : list Z) n : l !! n = Some 0 -> exists s, cstr l = Some s /\ zlen s <= Z.of_nat n.
Proof.
  revert n. induction l as [|b l IH]; intros n; [done|]. destruct n as [|n]; cbn [lookup list_lookup cstr].
  - intros [= ->]. by exists [].
  - intros H. apply IH in H as (s & Hs & Hl). destruct (b =? 0); [exists []|exists (b :: s)]; zlen_simpl.
    + split; [done|lia].
    + rewrite Hs. split; [done|lia].
Qed.

Lemma cstr_lookup (l : list Z) n : l !! n = Some 0 -> is_Some (cstr l).
Proof. intros (s & Hs & _)%cstr_within. by exists s. Qed.

Lemma copy_area_ok I `{!StrStable I} from len st : I st -> - 2 ^ 63 <= len < 2 ^ 63 ->
  wp (copy_area from len) (fun r st' => I st' /\ 0 <= r <= STR_STORAGE_SIZE /\ terminated r st') st.
Proof.
  intros Ha Hl. assert (wp (mret 0 : F Z) (fun r st' => I st' /\ 0 <= r <= STR_STORAGE_SIZE /\ terminated r st') st) as H0.
  { apply wp_ret. split; [done|]. split; [page|]. unfold terminated. lia. }
  unfold copy_area, ctrue at 1. destruct (Z.eqb_spec len 0) as [|Hnz]; cbn [negb]; [done|]. cbv zeta.
  set (n := if PAGE_SIZE <? u64 len then PAGE_SIZE else len).
  assert (1 <= n <= STR_STORAGE_SIZE) as Hn.
  { unfold n, u64, unsigned. destruct (Z.ltb_spec PAGE_SIZE (len mod 2 ^ 64)) as [|Hs]; [page|].
    destruct (Z.ltb_spec len 0).
    - exfalso. assert (len mod 2 ^ 64 = len + 2 ^ 64) as E by (symmetry; apply Z.mod_unique with (-1); lia).
      rewrite E in Hs. page.
    - rewrite Z.mod_small in Hs by lia. page. }
  clearbody n. apply wp_bind. apply (wp_str_copy_user I); [done|lia|lia|lia|]. intros miss st1 Ha1 _ _.
  destruct (ctrue miss).
  { apply wp_ret. split; [done|]. split; [page|]. unfold terminated. lia. }
  apply wp_bind. apply (wp_str_put I); [done|lia|zlen_simpl; lia|]. intros st2 Ha2 Hw. apply wp_ret.
  split; [done|]. split; [lia|]. intros _.
  pose proof (lookup_zwrite _ _ _ _ 0 Hw ltac:(zlen_simpl; lia)) as E. by rewrite Z.add_0_r in E.
Qed.

Lemma accumulate_loop_ok I `{!StrStable I} fuel argv available len cap st :
  I st -> available < Z.of_nat fuel -> 0 <= available -> 0 <= len -> len + available = cap ->
  cap <= STR_STORAGE_SIZE -> terminated len st ->
  wp (accumulate_loop fuel argv available len) (fun r st' => I st' /\ r <= cap /\ terminated r st') st.
Proof.
  revert argv available len st. induction fuel as [|fuel IH]; intros argv available len st Ha Hf Hav Hl Hc Hcap Ht; [lia|].
  cbn [accumulate_loop]. assert (forall c st', c < 0 -> I st' ->
    wp (mret c : F Z) (fun r st' => I st' /\ r <= cap /\ terminated r st') st') as Herr.
  { intros c st' Hneg Hst. apply wp_ret. split; [done|]. split; [lia|]. unfold terminated. lia. }
  destruct (read_user argv 8) as [bs|]; [|by apply Herr]. cbv zeta.
  destruct (le_val bs =? 0); [apply wp_ret; split_and!; done || lia|].
  destruct (Z.ltb_spec available 1); [by apply Herr|].
  destruct (nod_strncpy_from_user (le_val bs) available) as [n stored] eqn:E.
  pose proof E as E0. apply nod_strncpy_from_user_len in E as [Hs Hn]; [|lia].
  assert (s32 n = n) as -> by (apply signed_small; page).
  apply wp_bind. apply (wp_str_put I); [done|lia|lia|]. intros st1 Ha1 Hw.
  destruct (Z.ltb_spec (n - 1) 0); [by apply Herr|].
  destruct (Z.leb_spec available (n - 1)); [by apply Herr|].
  apply IH; [done|lia|lia|lia|lia|done|]. intros _.
  assert (stored !! Z.to_nat (n - 1) = Some 0) as Hz by (eapply nod_strncpy_from_user_zero; [|exact E0|]; lia).
  pose proof (lookup_zwrite _ _ _ _ (n - 1) Hw ltac:(lia)) as El. rewrite Hz in El.
  rewrite <- El. f_equal. lia.
Qed.

Lemma accumulate_ok I `{!StrStable I} argv available st :
  I st -> 0 <= available <= STR_STORAGE_SIZE ->
  wp (len ← accumulate_argv_or_env argv available; mret (if len <? 0 then 0 else len) : F Z)
    (fun r st' => I st' /\ 0 <= r <= STR_STORAGE_SIZE /\ terminated r st') st.
Proof.
  intros Ha Hav. apply wp_bind. unfold accumulate_argv_or_env.
  destruct (argv =? 0).
  { do 2 apply wp_ret. cbn. split; [done|]. split; [page|]. unfold terminated. lia. }
  eapply wp_mono; [apply (accumulate_loop_ok I _ _ _ _ available); [done|lia|lia|lia|lia|lia|unfold terminated; lia]|].
  intros r st' _ (Ha' & Hr & Ht). apply wp_ret. destruct (Z.ltb_spec r 0).
  - split; [done|]. split; [page|]. unfold terminated. lia.
  - split; [done|]. split; [lia|done].
Qed.

(** A pointer to the terminated start of [str_storage] fits every slot. *)
Lemma wp_push_start et i (Q : unit -> fargs -> Prop) st :
  at_arg et i st -> is_Some (cstr (fa_str st)) ->
  (forall st', at_arg et (i + 1) st' -> fa_str st' = fa_str st -> Q tt st') ->
  wp (push k_str_addr) Q st.
Proof.
  intros Ha Hc HQ. unfold push. rewrite <- (Z.add_0_r k_str_addr).
  eapply wp_push_str; [exact Ha|lia|lia|page|by right|done].
Qed.

(** [str_storage[0] = 0] makes it the empty string. *)
Lemma wp_str_zero et i (Q : unit -> fargs -> Prop) st :
  at_arg et i st -> (forall st', at_arg et i st' -> is_Some (cstr (fa_str st')) -> Q tt st') ->
  wp (str_put 0 [0]) Q st.
Proof.
  intros Ha HQ. apply (wp_str_put (at_arg et i)); [done|lia|by vm_compute|]. intros st' Ha' Hw.
  apply HQ; [done|]. apply (cstr_lookup _ 0). by apply (lookup_zwrite _ _ _ _ 0) in Hw.
Qed.

Lemma push_exe_args_ok et i args_len st : at_arg et i st -> slots et i [Any; Blob] ->
  0 <= args_len <= STR_STORAGE_SIZE -> terminated args_len st ->
  wp (push_exe_args args_len) (pushed et (i + 2)) st.
Proof.
  intros Ha (H1 & H2 & _) Hl Ht. unfold push_exe_args. apply wp_bind.
  apply (wp_mono _ (fun _ st' => at_arg et i st' /\ is_Some (cstr (fa_str st')))).
  { destruct (Z.eqb_spec args_len 0); [by eapply wp_str_zero|]. apply wp_ret. split; [done|].
    eapply cstr_lookup, Ht. lia. }
  intros [] st1 _ [Ha1 Hc]. apply wp_bind, wp_get. cbv zeta.
  pose proof (strnlen_bound (fa_str st1) (Z.to_nat args_len)).
  set (exe_len := if _ <? _ then _ else _).
  assert (0 <= exe_len <= args_len) by (unfold exe_len; cmp_case; lia). clearbody exe_len.
  apply wp_bind. eapply wp_push_start; [done..|]. intros st2 Ha2 _.
  eapply wp_push_str; [exact Ha2|lia|lia|lia|by left|]. intros st3 Ha3 _. wp_go.
Qed.

Lemma startupdate_exe_ok et i st : at_arg et i st -> slots et i [Int; Any; Blob] ->
  wp startupdate_exe (pushed et (i + 3)) st.
Proof.
  intros Ha Hs. unfold startupdate_exe. cbv zeta. do 4 wp_step. destruct Ht as (H1 & H2 & _). wp_step.
  - wp_step. eapply wp_str_zero; [done|]. intros st1 Ha1 Hc. wp_step.
    eapply wp_push_start; [done..|]. intros st2 Ha2 E2. rewrite <- E2 in Hc.
    eapply wp_push_start; [done..|]. intros st3 Ha3 _. wp_go.
  - wp_step.
    apply (wp_mono _ (fun r st' => at_arg et (i + 1) st' /\ 0 <= r <= STR_STORAGE_SIZE /\ terminated r st')).
    + destruct (0 <=? k_ret).
      * destruct (t_mm k_task) as [mm|].
        -- destruct (mm_arg_end mm =? 0).
           ++ wp_step. eapply wp_str_zero; [done|]. intros st1 Ha1 _. wp_go.
           ++ apply copy_area_ok; [apply _|done|].
              pose proof (signed_bound 32 (mm_arg_end mm - mm_arg_start mm)). unfold s32. lia.
        -- wp_step. eapply wp_str_zero; [done|]. intros st1 Ha1 _. wp_go.
      * wp_step. eapply wp_str_zero; [done|]. intros st1 Ha1 _. by apply accumulate_ok; [apply _|..].
    + intros r st1 _ (Ha1 & Hr & Ht). eapply wp_mono; [by apply (push_exe_args_ok et (i + 1))|].
      intros [] st2 _ Ha2. wp_go.
Qed.

Lemma startupdate_ids_ok et i st : at_arg et i st ->
  slots et i [Int; Int; Int; Any; Int; Int; Int; Int; Int; Int; Any] ->
  wp startupdate_ids (pushed et (i + 11)) st.
Proof.
  intros Ha Hs. unfold startupdate_ids. cbv zeta. do 21 wp_step. destruct (t_mm k_task); wp_go.
Qed.

(** The space the cgroup list needs. *)
Definition cgroups_size (subsys : list (list Z * list Z)) : Z :=
  foldr (fun '(name, path) n => zlen name + 1 + zlen path + 1 + n) 0 subsys.

Lemma append_cgroup_ok I `{!StrStable I} name path available st :
  I st -> zlen name + 1 + zlen path + 1 < available <= STR_STORAGE_SIZE ->
  wp (append_cgroup name path available)
    (fun r st' => I st' /\ exists a, r = Some a /\ available - (zlen name + 1 + zlen path + 1) <= a <= available) st.
Proof.
  intros Ha Hav. pose proof (zlen_nonneg name). pose proof (zlen_nonneg path).
  unfold append_cgroup, strlcpy. cbv zeta. destruct (Z.eqb_spec available 0); [lia|].
  rewrite Z.min_l by lia. rewrite ztake_ge by lia. apply wp_bind.
  apply (wp_str_put I); [done|lia|zlen_simpl; lia|]. intros st1 Ha1 Hw.
  apply wp_bind, wp_get. apply wp_bind.
  assert (fa_str st1 !! Z.to_nat (STR_STORAGE_SIZE - available + zlen path) = Some 0) as El.
  { rewrite (lookup_zwrite _ _ _ _ (zlen path) Hw) by (zlen_simpl; lia).
    rewrite lookup_app_r by (unfold zlen; lia). unfold zlen. by rewrite Nat2Z.id, Nat.sub_diag. }
  destruct (cstr_within (zdrop (STR_STORAGE_SIZE - available) (fa_str st1)) (Z.to_nat (zlen path))) as (s & Es & Ls).
  { unfold zdrop. rewrite lookup_drop. rewrite <- El. f_equal. lia. }
  eapply wp_lift; [exact Es|]. pose proof (zlen_nonneg s).
  destruct (Z.ltb_spec available (zlen name + 1 + zlen s + 1)); [lia|].
  apply wp_bind. apply (wp_str_put I); [done|lia|lia|]. intros st2 Ha2 _.
  apply wp_bind. apply (wp_str_put I); [done|lia|lia|]. intros st3 Ha3 _.
  apply wp_bind. apply (wp_str_put I); [done|lia|zlen_simpl; lia|]. intros st4 Ha4 _.
  apply wp_bind. apply (wp_str_put I); [done|lia|zlen_simpl; lia|]. intros st5 Ha5 _.
  apply wp_ret. split; [done|]. eexists. split; [done|]. lia.
Qed.

Lemma cgroups_size_nonneg subsys : 0 <= cgroups_size subsys.
Proof.
  induction subsys as [|[name path] rest IH]; unfold cgroups_size in *; cbn [foldr]; [lia|].
  pose proof (zlen_nonneg name). pose proof (zlen_nonneg path). lia.
Qed.

Lemma append_cgroups_ok I `{!StrStable I} subsys available st :
  I st -> cgroups_size subsys < available <= STR_STORAGE_SIZE ->
  wp (append_cgroups subsys available) (fun r st' => I st' /\ 0 < r <= STR_STORAGE_SIZE) st.
Proof.
  revert available st. induction subsys as [|[name path] rest IH]; intros available st Ha Hav; cbn [append_cgroups].
  - apply wp_ret. split; [done|]. cbn in Hav. lia.
  - change (cgroups_size ((name, path) :: rest)) with (zlen name + 1 + zlen path + 1 + cgroups_size rest) in Hav. pose proof (cgroups_size_nonneg rest).
    apply wp_bind. eapply wp_mono; [apply append_cgroup_ok; [done|done|lia]|].
    intros r st' _ (Ha' & a & -> & Hr). apply IH; [done|lia].
Qed.

Lemma startupdate_cgroups_ok et i st : at_arg et i st -> slots et i [Blob] ->
  cgroups_size k_cgroups < STR_STORAGE_SIZE ->
  wp startupdate_cgroups (fun r st' => at_arg et (i + 1) st' /\ 0 < r <= STR_STORAGE_SIZE) st.
Proof.
  intros Ha (H1 & _) Hc. unfold startupdate_cgroups. apply wp_bind.
  apply (wp_str_put (at_arg et i)); [done|lia|by vm_compute|]. intros st1 Ha1 _. apply wp_bind.
  eapply wp_mono; [apply (append_cgroups_ok (at_arg et i)); [done|lia]|]. intros r st2 _ [Ha2 Hr].
  apply wp_bind. rewrite <- (Z.add_0_r k_str_addr).
  eapply wp_push_str; [exact Ha2|lia|lia|lia|by left|]. intros st3 Ha3 _. by apply wp_ret.
Qed.

Lemma startupdate_clone_ok et e i st : at_arg et i st -> slots et i [Int; Int; Int; Int; Int] ->
  wp (startupdate_clone e) (pushed et (i + 5)) st.
Proof.
  intros Ha Hs. unfold startupdate_clone. cbv zeta. apply wp_bind.
  apply (wp_mono _ (fun _ st' => at_arg et i st')).
  - wp_go; done.
  - intros v st1 _ Ha1. wp_go.
Qed.

Lemma startupdate_exec_ok et e i available st : at_arg et i st -> slots et i [Blob; Int; Int; Int; Int] ->
  is_Some (t_mm k_task) -> 0 <= available <= STR_STORAGE_SIZE ->
  wp (startupdate_exec e available) (pushed et (i + 5)) st.
Proof.
  intros Ha (H1 & Hs) [mm Emm] Hav. unfold startupdate_exec. cbv zeta. apply wp_bind.
  apply (wp_mono _ (fun r st' => at_arg et i st' /\ 0 <= r <= STR_STORAGE_SIZE /\ terminated r st')).
  - destruct (0 <=? k_ret).
    + apply wp_bind. eapply wp_lift; [exact Emm|]. apply copy_area_ok; [apply _|done|].
      pose proof (signed_bound 64 (mm_env_end mm - mm_env_start mm)). unfold s64. lia.
    + by apply accumulate_ok; [apply _|..].
  - intros r st1 _ (Ha1 & Hr & _). apply wp_bind. apply (wp_mono _ (fun _ st' => at_arg et i st')).
    + destruct (r =? 0); [|by apply wp_ret].
      by apply (wp_str_put (at_arg et i)); [done|lia|by vm_compute|].
    + intros [] st2 _ Ha2. apply wp_bind. rewrite <- (Z.add_0_r k_str_addr).
      eapply wp_push_str; [exact Ha2|lia|lia|lia|by left|]. intros st3 Ha3 _. wp_go.
      eapply wp_lift; [exact Emm|]. wp_go.
Qed.

(** What the process events need of the task. *)
Definition task_ok : Prop := is_Some (t_mm k_task) /\ cgroups_size k_cgroups < STR_STORAGE_SIZE.

(** The slots of the part every process event has. *)
Definition startupdate_slots : list slot_want :=
  [Int; Any; Blob; Int; Int; Int; Any; Int; Int; Int; Int; Int; Int; Any; Blob].

(** ... and of the part of the clone and of the execve family. *)
Definition startupdate_tail (et : Z) : list slot_want :=
  if (et =? NODE_SYSCALL_CLONE_20) || (et =? NODE_SYSCALL_FORK_20)
     || (et =? NODE_SYSCALL_VFORK_20) || (et =? NODE_SYSCALL_CLONE3) then [Int; Int; Int; Int; Int]
  else if (et =? NODE_SYSCALL_EXECVE_19) || (et =? NODE_SYSCALL_EXECVEAT) then [Blob; Int; Int; Int; Int]
  else [].

Lemma f_proc_startupdate_ok et i st : at_arg et i st ->
  slots et i (startupdate_slots ++ startupdate_tail et) -> task_ok ->
  wp f_proc_startupdate (pushed et (i + zlen (startupdate_slots ++ startupdate_tail et))) st.
Proof.
  intros Ha [Hs Hw]%slots_app [Hmm Hcg]. rewrite zlen_app. apply (slots_app et i [Int; Any; Blob] _) in Hs as [Hs1 Hs2].
  apply (slots_app et _ [Int; Int; Int; Any; Int; Int; Int; Int; Int; Int; Any] _) in Hs2 as [Hs2 Hs3].
  change (zlen startupdate_slots) with 15 in *. change (zlen [Int; Any; Blob]) with 3 in *.
  change (zlen [Int; Int; Int; Any; Int; Int; Int; Int; Int; Int; Any]) with 11 in *.
  unfold f_proc_startupdate. apply wp_bind. eapply wp_mono; [by apply startupdate_exe_ok|]. intros [] st1 _ Ha1.
  apply wp_bind. eapply wp_mono; [by apply startupdate_ids_ok|]. intros [] st2 _ Ha2.
  apply wp_bind. eapply wp_mono; [by apply startupdate_cgroups_ok|]. intros av st3 _ [Ha3 Hav].
  apply wp_bind, wp_get. cbv zeta. destruct Ha3 as [He Hps]. rewrite He.
  assert (at_arg et (i + 15) st3) as Ha4 by (split; [done|]; by replace (i + 15) with (i + 3 + 11 + 1) by lia).
  unfold startupdate_tail in *. destruct (_ || _ || _ || _).
  - eapply wp_mono; [by apply startupdate_clone_ok|]. intros [] st5 _ Ha5.
    eapply at_eq; [exact Ha5|by rewrite !zlen_cons, zlen_nil; lia].
  - destruct (_ || _).
    + eapply wp_mono; [apply startupdate_exec_ok; [exact Ha4|done|done|lia]|]. intros [] st5 _ Ha5.
      eapply at_eq; [exact Ha5|by rewrite !zlen_cons, zlen_nil; lia].
    + apply wp_ret. eapply at_eq; [exact Ha4|by rewrite zlen_nil; lia].
Qed.

Lemma push_filename_ok et i val st : at_arg et i st -> wp (push_filename val) (pushed et (i + 1)) st.
Proof.
  intros Ha. unfold push_filename.
  pose proof (wp_push_user et i val 0 (pushed et (i + 1)) st Ha ltac:(by intros) 0) as H.
  pose proof Ha as (He & ps & Hr & Hi).
  pose proof (val_to_ring_post val 0 true 0 st ps Hr ltac:(intros ? _; by left)) as Hp.
  unfold push_user, wp, catch in *. destruct (val_to_ring val 0 true 0 st) as [[] st1|c st1|]; [done| |done].
  destruct Hp as [[-> | ->] _]; exact H.
Qed.

Lemma f_sys_execve_ok et i st : at_arg et i st ->
  slots et i (Any :: startupdate_slots ++ startupdate_tail et) -> task_ok ->
  wp f_sys_execve (pushed et (i + zlen (Any :: startupdate_slots ++ startupdate_tail et))) st.
Proof.
  intros Ha [_ Hs] Ht. unfold f_sys_execve. apply wp_bind.
  eapply wp_mono; [by apply push_filename_ok|]. intros [] st1 _ Ha1.
  eapply wp_mono; [by apply (f_proc_startupdate_ok et (i + 1))|]. intros [] st2 _ Ha2.
  eapply at_eq; [exact Ha2|by rewrite zlen_cons; lia].
Qed.

Lemma f_sys_execveat_ok et i st : at_arg et i st ->
  slots et i (Int :: Any :: Int :: startupdate_slots ++ startupdate_tail et) -> task_ok ->
  wp f_sys_execveat (pushed et (i + zlen (Int :: Any :: Int :: startupdate_slots ++ startupdate_tail et))) st.
Proof.
  intros Ha (H1 & _ & H3 & Hs) Ht. unfold f_sys_execveat. apply wp_bind.
  eapply wp_push_int; [exact Ha|done|]. intros st1 Ha1 _. apply wp_bind.
  eapply wp_mono; [by apply push_filename_ok|]. intros [] st2 _ Ha2. apply wp_bind.
  eapply wp_push_int; [exact Ha2|done|]. intros st3 Ha3 _.
  eapply wp_mono; [by apply (f_proc_startupdate_ok et (i + 1 + 1 + 1))|]. intros [] st4 _ Ha4.
  eapply at_eq; [exact Ha4|by rewrite !zlen_cons; lia].
Qed.
End data.
