(* ===== verification/FillerTable.v ===== *)
(** * The filler table

    What every filler pushes and needs, in one table, and its agreement with the
    event descriptions: for each event whose table entries are consistent,
    [nod_filler_callback] pushes exactly the parameters the event declares and
    violates no assertion.  The inconsistent entries are listed. *)

From S2P Require Import Prelude Kernel Tables Flags FlagsFacts Ring RingFacts FillerLib Fillers.
From S2P Require Import FillerFacts FillerSpecs FillerSock FillerData.

Local Open Scope Z_scope.

#[local] Opaque val_to_ring str_put str_get.

Definition slots_ok (et i : Z) (ws : list slot_want) : bool :=
  forallb (fun '(j, w) => slot_is w (slot_kind et (i + Z.of_nat j) 0)) (imap pair ws).

Lemma slots_okP et i ws : slots_ok et i ws = true -> slots et i ws.
Proof.
  unfold slots_ok. revert i. induction ws as [|w ws IH]; intros i; cbn; [done|].
  rewrite Z.add_0_r, andb_true_iff. intros [Hw Hs]. split; [done|]. apply IH.
  rewrite forallb_forall in *. intros [j v] Hin.
  apply list_elem_of_In, elem_of_lookup_imap in Hin as (k & x & [= -> ->] & Hx).
  specialize (Hs (S k, x)). rewrite <- Z.add_assoc.
  replace (1 + Z.of_nat k) with (Z.of_nat (S k)) by lia. apply Hs.
  apply list_elem_of_In, elem_of_lookup_imap. by exists k, x.
Qed.

(** ** What a filler pushes *)

(** The kinds of the parameters. *)
Definition filler_slots (f : nod_filler_id) (et : Z) : list slot_want :=
  match f with
  | F_sys_empty | F_sys_procstart | F_terminate_filler => []
  | F_sys_generic | F_sys_nanosleep | F_sys_mount => [Int]
  | F_sys_access | F_sys_unshare | F_sys_bpf => [Any]
  | F_sys_read | F_sys_write | F_sys_recv => [Int; Any]
  | F_sys_socket_bind | F_sys_connect => [Int; Blob]
  | F_sys_shutdown | F_sys_eventfd | F_sys_fcntl | F_sys_flock => [Int; Int]
  | F_sys_setns => [Any; Any]
  | F_sys_futex | F_sys_lseek | F_sys_llseek | F_sys_fchmod => [Int; Int; Int]
  | F_sys_chmod => [Int; Any; Int]
  | F_sys_semget => [Any; Any; Any]
  | F_sys_recvfrom => [Int; Any; Blob]
  | F_sys_readv_preadv => [Int; Int; Blob]
  | F_sys_creat => [Int; Any; Int; Int]
  | F_sys_pipe | F_sys_getrlimit_setrlrimit | F_sys_getresuid_and_gid | F_sys_mprotect => [Int; Int; Int; Int]
  | F_sys_symlinkat => [Int; Any; Int; Any]
  | F_sys_semctl => [Any; Any; Any; Any]
  | F_sys_unlinkat | F_sys_mkdirat | F_sys_fchmodat => [Int; Int; Any; Int]
  | F_sys_send => [Int; Int; Int; Any]
  | F_sys_writev => [Int; Int; Int; Blob]
  | F_sys_recvmsg => [Int; Int; Blob; Blob]
  | F_sys_poll => [Blob; Int; Int; Blob]
  | F_sys_open => [Int; Any; Int; Int; Int]
  | F_sys_socketpair => [Int; Int; Int; Int; Int]
  | F_sys_pread | F_sys_pwrite => [Int; Int; Int; Int; Any]
  | F_sys_preadv | F_sys_pwritev => [Int; Int; Int; Int; Blob]
  | F_sys_renameat => [Int; Int; Any; Int; Any]
  | F_sys_sendto => [Int; Int; Blob; Int; Any]
  | F_sys_sendmsg => [Int; Int; Blob; Int; Blob]
  | F_sys_ppoll => [Blob; Int; Int; Int; Blob]
  | F_sys_ptrace => [Int; Int; Int; Any; Any]
  | F_sys_accept => [Int; Blob; Int; Int; Int]
  | F_sys_accept4 => [Int; Int; Blob; Int; Int; Int]
  | F_sys_sendfile => [Any; Any; Any; Any; Int; Any]
  | F_sys_openat => [Int; Int; Any; Int; Int; Int]
  | F_sys_linkat | F_sys_renameat2 => [Int; Int; Any; Int; Any; Int]
  | F_sys_openat2 => [Int; Int; Any; Any; Any; Any]
  | F_sys_copy_file_range => [Int; Int; Int; Int; Int; Int]
  | F_sys_setsockopt | F_sys_getsockopt => [Int; Any; Any; Any; Any; Any]
  | F_sys_prlimit => [Int; Int; Int; Int; Int; Int; Int]
  | F_sys_semop => [Int; Any; Any; Any; Any; Any; Any; Any]
  | F_sys_brk_munmap_mmap =>
      (if (et =? NODE_SYSCALL_MMAP) || (et =? NODE_SYSCALL_MMAP2)
       then [Int; Int; Int; Int; Int; Int] else []) ++ [Int; Int; Int; Int]
  | F_sys_quotactl =>
      [Int; Int; Int; Int; Int; Any; Any; Int; Int; Int; Int; Int; Int; Int; Int; Int; Int; Int]
  | F_proc_startupdate => startupdate_slots ++ startupdate_tail et
  | F_sys_execve => Any :: startupdate_slots ++ startupdate_tail et
  | F_sys_execveat => Int :: Any :: Int :: startupdate_slots ++ startupdate_tail et
  end.

(** The indices it pushes with into [PT_DYN] slots. *)
Definition filler_dyn (f : nod_filler_id) : list (Z * list Z) :=
  match f with
  | F_sys_setsockopt | F_sys_getsockopt =>
      [(4, [NOD_SOCKOPT_IDX_ERRNO; NOD_SOCKOPT_IDX_UINT32; NOD_SOCKOPT_IDX_UINT64; NOD_SOCKOPT_IDX_TIMEVAL])]
  | F_sys_ptrace => [(3, [NOD_PTRACE_IDX_UINT64]); (4, [NOD_PTRACE_IDX_UINT64; NOD_PTRACE_IDX_SIGTYPE])]
  | F_sys_bpf => [(0, [NOD_BPF_IDX_FD; NOD_BPF_IDX_RES])]
  | _ => []
  end.

Definition is_Someb {A} (o : option A) : bool := match o with Some _ => true | None => false end.

(** The slots of [et] from [i] on are those of the filler. *)
Definition filler_fits (f : nod_filler_id) (et i : Z) : bool :=
  slots_ok et i (filler_slots f et)
  && forallb (fun '(o, ds) => forallb (fun d => slot_is Int (slot_kind et (i + o) (u8 d))) ds) (filler_dyn f)
  && match f with F_sys_socket_bind | F_sys_connect => is_Someb (int_slot et i) | _ => filler_defined f end.

(** ** What an event entry pushes *)

Definition auto_want (a : nod_autofill_arg) : slot_want := if 0 <=? af_id a then Any else Int.

(** The [n] autofill slots from [j] on; [None] when one does not exist or has an id
    that is neither a system-call argument nor [AF_ID_RETVAL] nor
    [AF_ID_USEDEFAULT]. *)
Fixpoint autofill_slots (e : nod_event_entry) (n : nat) (j : Z) : option (list slot_want) :=
  match n with
  | O => Some []
  | S n =>
      match autofill_arg e j, autofill_slots e n (j + 1) with
      | Some a, Some ws =>
          if (af_id a <? 6) && ((0 <=? af_id a) || (af_id a =? AF_ID_RETVAL) || (af_id a =? AF_ID_USEDEFAULT))
          then Some (auto_want a :: ws) else None
      | _, _ => None
      end
  end.

(** The entry of [et] in [g_nod_events] pushes exactly the parameters that
    [g_event_info] declares, each of the kind of its slot. *)
Definition event_fits (et : Z) : bool :=
  let e := g_nod_events et in
  let nparams := ei_nparams (g_event_info et) in
  match filler_callback e with
  | None => false
  | Some f =>
      let n := n_autofill_args e in
      let k := zlen (filler_slots f et) in
      if n =? 0 then filler_fits f et 0 && (k =? nparams)
      else
        match first_negative e (Z.to_nat n) 0 with
        | None => false
        | Some m =>
            (0 <=? m) && (m <=? n) && (n <=? NOD_MAX_AUTOFILL_ARGS) && filler_fits f et m && (n + k =? nparams)
            && match autofill_slots e (Z.to_nat m) 0, autofill_slots e (Z.to_nat (n - m)) m with
               | Some before, Some after => slots_ok et 0 before && slots_ok et (m + k) after
               | _, _ => false
               end
        end
  end.

Definition all_events : list Z := map Z.of_nat (seq 0 (Z.to_nat NODE_EVENT_MAX)).

Create HintDb filler.
#[export] Hint Resolve f_sys_read_ok f_sys_write_ok f_sys_open_ok f_sys_generic_ok f_sys_creat_ok
  f_sys_pipe_ok f_sys_eventfd_ok f_sys_futex_ok f_sys_lseek_ok f_sys_llseek_ok f_sys_pread_ok
  f_sys_pwrite_ok f_sys_getrlimit_ok f_sys_prlimit_ok f_sys_fcntl_ok f_sys_renameat_ok
  f_sys_symlinkat_ok f_sys_sendfile_ok f_sys_getresuid_ok f_sys_setns_ok f_sys_flock_ok
  f_sys_semctl_ok f_sys_mount_ok f_sys_semget_ok f_sys_access_ok f_sys_unshare_ok f_sys_unlinkat_ok
  f_sys_mkdirat_ok f_sys_openat_ok f_sys_linkat_ok f_sys_fchmodat_ok f_sys_chmod_ok f_sys_fchmod_ok
  f_sys_renameat2_ok f_sys_openat2_ok f_sys_mprotect_ok f_sys_copy_file_range_ok f_sys_send_ok
  f_sys_sendto_ok f_sys_recv_ok f_sys_recvfrom_ok f_sys_readv_preadv_ok f_sys_writev_ok
  f_sys_preadv_ok f_sys_pwritev_ok f_sys_sendmsg_ok f_sys_recvmsg_ok f_sys_nanosleep_ok
  f_sys_poll_ok f_sys_ppoll_ok f_sys_quotactl_ok f_sys_accept_common_ok f_sys_accept4_ok
  f_sys_execve_ok f_sys_execveat_ok f_proc_startupdate_ok : filler.

Section table.
Context {K : Kernel} {KO : KernelOk K}.

(** What a filler needs of the system call to stay clear of its assertions. *)
Definition filler_pre (f : nod_filler_id) (syscall_nr : Z) (is_socketcall : bool) : Prop :=
  match f with
  | F_sys_generic => 0 <= syscall_nr < SYSCALL_TABLE_SIZE
  | F_sys_open | F_sys_creat | F_sys_openat => k_ret <> k_max_fds
  | F_sys_connect | F_sys_sendto | F_sys_recvfrom | F_sys_sendmsg | F_sys_recvmsg => socks_ok
  | F_sys_accept | F_sys_accept4 => socks_ok /\ peer_ok (s32 k_ret) true
  | F_sys_shutdown => is_socketcall = false /\ is_Some (shutdown_how_to_scap (sys_arg 1))
  | F_sys_socketpair =>
      (forall fd, k_sockfd fd <> Some None) /\ (forall fd, k_sockfd fd = None -> k_sockfd_err fd <> 0)
  | F_sys_setsockopt | F_sys_getsockopt => is_Some (sockopt_optname_to_scap (sys_arg 1) (sys_arg 2))
  | F_sys_poll | F_sys_ppoll => sys_arg 1 < 2 ^ 32
  | F_sys_fcntl => is_Some (fcntl_cmd_to_scap (sys_arg 1))
  | F_sys_semop => sys_arg 1 <> 0 /\ sys_arg 2 <> 0
  | F_proc_startupdate | F_sys_execve | F_sys_execveat => task_ok
  | _ => True
  end.

Lemma filler_fits_dyn f et i o ds :
  filler_fits f et i = true -> In (o, ds) (filler_dyn f) -> dyn_slot et (i + o) ds.
Proof.
  unfold filler_fits. intros [[_ H]%andb_true_iff _]%andb_true_iff Hin.
  rewrite forallb_forall in H. specialize (H _ Hin). cbv beta iota in H. rewrite forallb_forall in H.
  apply Forall_forall. done.
Qed.

Lemma slots_prefix et i ws ws' : slots et i (ws ++ ws') -> slots et i ws.
Proof. by intros [? _]%slots_app. Qed.

Lemma wp_pushed_eq et n n' m st : wp m (pushed et n) st -> n = n' -> wp m (pushed et n') st.
Proof. by intros H <-. Qed.

Lemma first_int f et i : filler_fits f et i = true ->
  (match f with F_sys_socket_bind | F_sys_connect => true | _ => false end) = true ->
  exists w, int_slot et i = Some w.
Proof.
  unfold filler_fits. intros [_ H]%andb_true_iff Hf.
  destruct f; try done; destruct (int_slot et i) as [w|]; try done; by exists w.
Qed.

Lemma run_filler_ok f et i st :
  at_arg et i st -> filler_fits f et i = true -> filler_pre f (fa_syscall_nr st) (fa_is_socketcall st) ->
  wp (run_filler f) (pushed et (i + zlen (filler_slots f et))) st.
Proof.
  intros Ha Hf Hp. pose proof (fun o ds => filler_fits_dyn f et i o ds Hf) as Hd.
  assert (slots et i (filler_slots f et)) as Hs.
  { apply slots_okP. by apply andb_true_iff in Hf as [[? _]%andb_true_iff _]. }
  destruct f; cbn [run_filler filler_slots filler_pre] in *.
  all: try (eapply wp_pushed_eq; [by eauto 3 with filler|done]).
  - apply wp_ret. eapply at_eq; [exact Ha|rewrite zlen_nil; lia].
  - destruct (first_int _ _ _ Hf eq_refl) as [w Hw]. destruct Hs as (_ & Hb & _).
    eapply wp_pushed_eq; [by eapply f_sys_socket_bind_ok|done].
  - destruct (first_int _ _ _ Hf eq_refl) as [w Hw]. destruct Hs as (_ & Hb & _).
    eapply wp_pushed_eq; [by eapply f_sys_connect_ok|done].
  - eapply wp_pushed_eq; [apply f_sys_shutdown_ok; [done|done|by right]|done].
  - eapply wp_pushed_eq; [by apply f_sys_socketpair_ok; [..|apply Hp|apply Hp]|done].
  - apply (slots_prefix et i [Int; Any; Any; Any] [Any; Any]) in Hs.
    eapply wp_pushed_eq; [apply f_sys_setsockopt_ok; [done|done|apply Hd; by left|done]|done].
  - apply (slots_prefix et i [Int; Any; Any; Any] [Any; Any]) in Hs.
    eapply wp_pushed_eq; [apply f_sys_getsockopt_ok; [done|done|apply Hd; by left|done]|done].
  - eapply wp_pushed_eq; [by apply f_sys_brk_ok|]. destruct (_ || _); done.
  - eapply wp_pushed_eq; [apply f_sys_ptrace_ok; [done|done|apply Hd; by left|apply Hd; right; by left]|done].
  - eapply wp_pushed_eq; [by apply f_sys_accept_common_ok; [..|apply Hp|apply Hp]|done].
  - eapply wp_pushed_eq; [by apply f_sys_accept4_ok; [..|apply Hp|apply Hp]|done].
  - eapply wp_pushed_eq; [by apply f_sys_semop_ok|]. destruct Hp as [H1 H2]. unfold ctrue.
    destruct (Z.eqb_spec (sys_arg 2) 0), (Z.eqb_spec (sys_arg 1) 0); done.
  - eapply wp_pushed_eq; [apply f_sys_bpf_ok; [done|]|done]. rewrite <- (Z.add_0_r i). apply Hd. by left.
Qed.

Lemma autofill_loop_ok et e n j i ws st :
  at_arg et i st -> autofill_slots e n j = Some ws -> slots et i ws ->
  wp (autofill_loop e n j) (pushed et (i + Z.of_nat n)) st.
Proof.
  revert j i ws st. induction n as [|n IH]; intros j i ws st Ha Hw Hs; cbn [autofill_loop autofill_slots] in *.
  - apply wp_ret. eapply at_eq; [exact Ha|lia].
  - destruct (autofill_arg e j) as [a|] eqn:Ea; [|done].
    destruct (autofill_slots e n (j + 1)) as [ws'|] eqn:Ew; [|done].
    destruct ((af_id a <? 6) && _) eqn:Eid; [|done]. injection Hw as <-. destruct Hs as [Hk Hs].
    apply andb_true_iff in Eid as [H6%Z.ltb_lt Eid].
    apply wp_bind. eapply wp_lift; [done|]. apply wp_bind.
    apply (wp_mono _ (pushed et (i + 1))).
    + unfold auto_want in Hk. destruct (Z.leb_spec 0 (af_id a)).
      * assert (is_Some (k_args !! Z.to_nat (af_id a))) as [v Hv]
          by (apply lookup_lt_is_Some_2; rewrite k_args_len; lia).
        apply wp_bind. eapply wp_lift; [exact Hv|]. eapply wp_push_user; [exact Ha|]. by intros.
      * destruct (af_id a =? AF_ID_RETVAL); [eapply wp_push_int; [exact Ha|done|]; by intros|].
        destruct (af_id a =? AF_ID_USEDEFAULT); [eapply wp_push_int; [exact Ha|done|]; by intros|]. done.
    + intros [] st1 _ Ha1. eapply wp_mono; [by apply (IH (j + 1) (i + 1) ws')|]. intros [] st2 _ Ha2.
      eapply at_eq; [exact Ha2|lia].
Qed.

Lemma nod_autofill_ok et lo hi i ws st :
  at_arg et i st -> autofill_slots (g_nod_events et) (Z.to_nat (hi - lo)) lo = Some ws -> slots et i ws ->
  n_autofill_args (g_nod_events et) <= NOD_MAX_AUTOFILL_ARGS -> 0 <= lo <= hi ->
  hi <= n_autofill_args (g_nod_events et) ->
  wp (nod_autofill lo hi) (pushed et (i + (hi - lo))) st.
Proof.
  intros Ha Hw Hs Hn Hlo Hhi. unfold nod_autofill. apply wp_bind, wp_get. cbv zeta.
  pose proof Ha as [-> _]. apply wp_bind.
  rewrite (proj2 (Z.leb_le _ _) Hn), (proj2 (Z.leb_le 0 lo)), (proj2 (Z.leb_le _ _) Hhi) by lia.
  cbn [andb assert]. apply wp_ret. eapply wp_pushed_eq; [by eapply autofill_loop_ok|lia].
Qed.

Lemma nod_filler_callback_ok et st :
  0 <= et < NODE_EVENT_MAX -> event_fits et = true -> at_arg et 0 st ->
  (forall f, filler_callback (g_nod_events et) = Some f -> filler_pre f (fa_syscall_nr st) (fa_is_socketcall st)) ->
  wp nod_filler_callback (pushed et (ei_nparams (g_event_info et))) st.
Proof.
  intros Het Hfit Ha Hpre. unfold nod_filler_callback. apply wp_bind, wp_get. cbv zeta.
  pose proof Ha as [E _]. rewrite E.
  rewrite (proj2 (Z.ltb_ge et 0)), (proj2 (Z.leb_gt NODE_EVENT_MAX et)) by lia. cbn [orb].
  unfold event_fits in Hfit. cbv zeta in Hfit.
  destruct (filler_callback (g_nod_events et)) as [f|] eqn:Ef; [|done]. specialize (Hpre f eq_refl).
  destruct (n_autofill_args (g_nod_events et) =? 0).
  - apply andb_true_iff in Hfit as [Hf Hk%Z.eqb_eq]. eapply wp_pushed_eq; [by apply run_filler_ok|]. lia.
  - destruct (first_negative (g_nod_events et) _ 0) as [m|]; [|done].
    destruct (autofill_slots (g_nod_events et) (Z.to_nat m) 0) as [b|] eqn:Eb; [|by rewrite andb_false_r in Hfit].
    destruct (autofill_slots (g_nod_events et) (Z.to_nat (_ - m)) m) as [a|] eqn:Eaf; [|by rewrite andb_false_r in Hfit].
    rewrite !andb_true_iff, !Z.leb_le, Z.eqb_eq in Hfit. destruct Hfit as (((((H0 & Hm) & Hn) & Hf) & Hk) & Hb & Haf).
    apply slots_okP in Hb, Haf. apply wp_bind. eapply wp_lift; [done|]. apply wp_bind.
    eapply wp_mono; [eapply (nod_autofill_ok et 0 m 0 b); [done|by rewrite Z.sub_0_r|done|done|lia|done]|].
    intros [] st1 Hfr Ha1. apply (at_eq _ _ m) in Ha1; [|lia]. apply wp_bind.
    eapply wp_mono; [apply (run_filler_ok f et m); [done|done|]|].
    { rewrite (fr_nr _ _ Hfr), (fr_sock _ _ Hfr). done. }
    intros [] st2 _ Ha2. eapply wp_pushed_eq; [by eapply nod_autofill_ok|]. lia.
Qed.
End table.
