(* ===== verification/Hooks.v ===== *)
(** * Hooking the system-call table: [kmodule/trace.c], lines 30-64 and 366-540

    [trace_syscall] registers the probes and replaces five entries of the kernel's
    system-call table by [hook_general]; [untrace_syscall] puts them back.  The
    table and [syscall_filters] are lists of [SYSCALL_TABLE_SIZE] entries, a
    function pointer is a constructor or an address. *)

From S2P Require Import Prelude Tables Kernel FillerLib.

Local Open Scope Z_scope.

(** A [sys_call_ptr_t]: [hook_general] or another function, 0 being null. *)
Inductive sys_call_ptr : Set := HookGeneral | SysCall (addr : Z).

#[export] Instance sys_call_ptr_eq_dec : EqDecision sys_call_ptr.
Proof. solve_decision. Defined.

(** The functions [hook_syscall] is given. *)
Inductive filter_fn : Set := ExitFilter | MmRangeFilter.

Record nod_syscall_filter := mk_filter {
  sf_enable : Z;
  sf_hooked : Z;
  sf_filter : option filter_fn;
  sf_oldsyscall : sys_call_ptr
}.

(** The static variables of [trace.c] and whether the probes are registered. *)
Record hooks := mk_hooks {
  hk_registered : Z;
  hk_table : list sys_call_ptr;
  hk_filters : list nod_syscall_filter;
  hk_sys_exit : bool;
  hk_process_exit : bool
}.

Definition __NR_mprotect : Z := 10.
Definition __NR_munmap : Z := 11.
Definition __NR_mremap : Z := 25.
Definition __NR_clone : Z := 56.
Definition __NR_execve : Z := 59.
Definition __NR_exit : Z := 60.
Definition __NR_exit_group : Z := 231.
Definition __NR_execveat : Z := 322.

Definition in_table (id : Z) : bool := (0 <=? id) && (id <? SYSCALL_TABLE_SIZE).

(** [hook_syscall(id, filter)] *)
Definition hook_syscall (id : Z) (filter : filter_fn) (s : hooks) : option hooks :=
  if negb (in_table id) then Some s else
  let i := Z.to_nat id in
  f ← hk_filters s !! i;
  old ← hk_table s !! i;
  Some (if sf_hooked f =? 0
        then mk_hooks (hk_registered s) (<[i := HookGeneral]> (hk_table s))
               (<[i := mk_filter (sf_enable f) 1 (Some filter) old]> (hk_filters s))
               (hk_sys_exit s) (hk_process_exit s)
        else mk_hooks (hk_registered s) (hk_table s)
               (<[i := mk_filter (sf_enable f) (sf_hooked f) (Some filter) (sf_oldsyscall f)]> (hk_filters s))
               (hk_sys_exit s) (hk_process_exit s)).

(** [unhook_syscall(id)] *)
Definition unhook_syscall (id : Z) (s : hooks) : option hooks :=
  if negb (in_table id) then Some s else
  let i := Z.to_nat id in
  f ← hk_filters s !! i;
  Some (if sf_hooked f =? 0 then s
        else mk_hooks (hk_registered s) (<[i := sf_oldsyscall f]> (hk_table s))
               (<[i := mk_filter (sf_enable f) 0 (sf_filter f) (SysCall 0)]> (hk_filters s))
               (hk_sys_exit s) (hk_process_exit s)).

Definition set_probes (registered : Z) (sys_exit process_exit : bool) (s : hooks) : hooks :=
  mk_hooks registered (hk_table s) (hk_filters s) sys_exit process_exit.

(** The calls [trace_syscall] hooks, in order. *)
Definition hooked_calls : list (Z * filter_fn) :=
  [(__NR_exit, ExitFilter); (__NR_exit_group, ExitFilter); (__NR_munmap, MmRangeFilter);
   (__NR_mprotect, MmRangeFilter); (__NR_mremap, MmRangeFilter)].

Fixpoint hook_all (l : list (Z * filter_fn)) (s : hooks) : option hooks :=
  match l with
  | [] => Some s
  | (id, f) :: l => s ← hook_syscall id f s; hook_all l s
  end.

Fixpoint unhook_all (l : list (Z * filter_fn)) (s : hooks) : option hooks :=
  match l with
  | [] => Some s
  | (id, _) :: l => s ← unhook_syscall id s; unhook_all l s
  end.

(** [trace_syscall()], where [r1] and [r2] are the results of registering the two
    probes; [None] is an access outside of the tables. *)
Definition trace_syscall (r1 r2 : Z) (s : hooks) : option (Z * hooks) :=
  if hk_registered s =? 1 then Some (0, s) else
  if ctrue r1 then Some (r1, s) else
  if ctrue r2 then Some (r2, set_probes (hk_registered s) false (hk_process_exit s) s) else
  s ← hook_all hooked_calls (set_probes (hk_registered s) true true s);
  Some (0, set_probes 1 (hk_sys_exit s) (hk_process_exit s) s).

(** [untrace_syscall()] *)
Definition untrace_syscall (s : hooks) : option hooks :=
  if hk_registered s =? 0 then Some s else
  s ← unhook_all hooked_calls s;
  Some (set_probes 0 false false s).

(** The static variables when the module is loaded and the table was found. *)
Definition init_hooks (table : list sys_call_ptr) : hooks :=
  mk_hooks 0 table (replicate (Z.to_nat SYSCALL_TABLE_SIZE) (mk_filter 0 0 None (SysCall 0))) false false.

Definition ENOENT : Z := 2.

(** [tp_sys_exit] and [tp_sched_process_exit]: a tracepoint is its place among the kernel's. *)
Record tracepoints := mk_tps { tp_sys_exit : option nat; tp_sched_process_exit : option nat }.

(** [visit_tracepoint(tp, priv)], where [name] is [tp->name]. *)
Definition visit_tracepoint (tp : nat) (name : string) (s : tracepoints) : tracepoints :=
  if String.eqb name "sys_exit" then mk_tps (Some tp) (tp_sched_process_exit s)
  else if String.eqb name "sched_process_exit" then mk_tps (tp_sys_exit s) (Some tp)
  else s.

(** [for_each_kernel_tracepoint(visit_tracepoint, NULL)] *)
Fixpoint for_each_tracepoint (tp : nat) (names : list string) (s : tracepoints) : tracepoints :=
  match names with
  | [] => s
  | name :: names => for_each_tracepoint (S tp) names (visit_tracepoint tp name s)
  end.

(** [get_tracepoint_handles()], in a kernel whose tracepoints have the names [names]. *)
Definition get_tracepoint_handles (names : list string) : Z * tracepoints :=
  let s := for_each_tracepoint 0 names (mk_tps None None) in
  (match tp_sys_exit s with None => - ENOENT | Some _ => 0 end, s).

(** [tracepoint_init()]: [table] is what [nod_lookup_name] finds for [sys_call_table]. *)
Definition tracepoint_init (table : option (list sys_call_ptr)) (names : list string) : Z * option hooks :=
  match table with
  | None => (- EINVAL, None)
  | Some table => ((get_tracepoint_handles names).1, Some (init_hooks table))
  end.

(** The tracepoint of the system calls' ends is found exactly if the kernel has it. *)
Lemma for_each_tracepoint_sys_exit tp names s :
  tp_sys_exit (for_each_tracepoint tp names s) = None <-> tp_sys_exit s = None /\ ~ In "sys_exit"%string names.
Proof.
  revert tp s. induction names as [|name names IH]; intros tp s; cbn [for_each_tracepoint In]; [tauto|]. rewrite IH. unfold visit_tracepoint.
  destruct (String.eqb_spec name "sys_exit") as [->|Hn]; [cbn; split; [by intros [? _]|tauto]|].
  destruct (String.eqb_spec name "sched_process_exit"); cbn; tauto.
Qed.

Lemma get_tracepoint_handles_spec names :
  (get_tracepoint_handles names).1 = 0 /\ In "sys_exit"%string names \/ (get_tracepoint_handles names).1 = - ENOENT /\ ~ In "sys_exit"%string names.
Proof.
  unfold get_tracepoint_handles. cbn [fst]. pose proof (for_each_tracepoint_sys_exit 0 names (mk_tps None None)) as H.
  destruct (tp_sys_exit _); [left|right]; (split; [done|]).
  - destruct (in_dec String.string_dec "sys_exit"%string names); [done|]. exfalso. assert (Some n = None) by (apply H; done). done.
  - by apply H.
Qed.

(** ** Histories *)

(** What the control device can do to the hooks. *)
Inductive hook_step : hooks -> hooks -> Prop :=
  | step_trace r1 r2 ret s s' : trace_syscall r1 r2 s = Some (ret, s') -> hook_step s s'
  | step_untrace s s' : untrace_syscall s = Some s' -> hook_step s s'.

Inductive hook_reach (table : list sys_call_ptr) : hooks -> Prop :=
  | reach_init names s : tracepoint_init (Some table) names = (0, Some s) -> hook_reach table s
  | reach_step s s' : hook_reach table s -> hook_step s s' -> hook_reach table s'.

(** The filter of a hooked call. *)
Definition filter_of (id : Z) : option filter_fn :=
  if (id =? __NR_exit) || (id =? __NR_exit_group) then Some ExitFilter
  else if (id =? __NR_munmap) || (id =? __NR_mprotect) || (id =? __NR_mremap) then Some MmRangeFilter
  else None.

(** ** The invariant *)

(** The hooks in place are those of [act]: a hooked entry leads to [hook_general] and
    keeps the pointer of the original [table]; the others are the original ones. *)
Definition entry_ok (table : list sys_call_ptr) (s : hooks) (id : Z) (a : option filter_fn) : Prop :=
  let i := Z.to_nat id in
  match a with
  | Some f => hk_table s !! i = Some HookGeneral /\
      exists e old, hk_filters s !! i = Some (mk_filter e 1 (Some f) old) /\ table !! i = Some old
  | None => hk_table s !! i = table !! i /\ exists f, hk_filters s !! i = Some f /\ sf_hooked f = 0
  end.

Record hooked_by (table : list sys_call_ptr) (act : Z -> option filter_fn) (s : hooks) : Prop := {
  hb_table : length (hk_table s) = Z.to_nat SYSCALL_TABLE_SIZE;
  hb_filters : length (hk_filters s) = Z.to_nat SYSCALL_TABLE_SIZE;
  hb_entry id : in_table id = true -> entry_ok table s id (act id)
}.

#[export] Instance hooked_by_proper table : Proper (pointwise_relation _ (=) ==> (=) ==> iff) (hooked_by table).
Proof.
  intros f g Hfg s ? <-. split; intros [Ht Hf He]; constructor; try done; intros id Hid.
  - rewrite <- Hfg. by apply He.
  - rewrite Hfg. by apply He.
Qed.

Definition update (id : Z) (a : option filter_fn) (act : Z -> option filter_fn) : Z -> option filter_fn :=
  fun x => if x =? id then a else act x.

Lemma in_table_lt id : in_table id = true -> (Z.to_nat id < Z.to_nat SYSCALL_TABLE_SIZE)%nat.
Proof. unfold in_table. rewrite andb_true_iff, Z.leb_le, Z.ltb_lt. lia. Qed.

Lemma in_table_ne x id : in_table x = true -> in_table id = true -> x <> id -> Z.to_nat id <> Z.to_nat x.
Proof. unfold in_table. rewrite !andb_true_iff, !Z.leb_le. lia. Qed.

(** A change of entry [id] of both tables. *)
Lemma update_entry table act s id a t f :
  hooked_by table act s -> in_table id = true ->
  let s' := mk_hooks (hk_registered s) (<[Z.to_nat id := t]> (hk_table s)) (<[Z.to_nat id := f]> (hk_filters s))
              (hk_sys_exit s) (hk_process_exit s) in
  entry_ok table s' id a -> hooked_by table (update id a act) s'.
Proof.
  intros [Ht Hf He] Hid s' Ha. constructor; cbn [hk_table hk_filters s']; try (by rewrite length_insert).
  intros x Hx. unfold update. destruct (Z.eqb_spec x id) as [->|Hne]; [done|].
  pose proof (in_table_ne _ _ Hx Hid Hne). specialize (He x Hx). unfold entry_ok in *. cbn [hk_table hk_filters s'].
  by rewrite !list_lookup_insert_ne.
Qed.

Definition probes_of (s : hooks) : Z * bool * bool := (hk_registered s, hk_sys_exit s, hk_process_exit s).

Lemma hook_syscall_ok table act s id f :
  hooked_by table act s -> in_table id = true -> act id = None ->
  exists s', hook_syscall id f s = Some s' /\ hooked_by table (update id (Some f) act) s' /\ probes_of s' = probes_of s.
Proof.
  intros Hs Hid Ha. pose proof (hb_entry _ _ _ Hs id Hid) as He. rewrite Ha in He. destruct He as [Et (g & Eg & Hg)].
  unfold hook_syscall. rewrite Hid. cbn [negb]. cbv zeta. rewrite Eg. cbn [mbind option_bind].
  pose proof (in_table_lt id Hid) as Hlt.
  destruct (lookup_lt_is_Some_2 (hk_table s) (Z.to_nat id)) as [old Eo]; [by rewrite (hb_table _ _ _ Hs)|].
  rewrite Eo, Hg. cbn [mbind option_bind Z.eqb]. eexists. split; [reflexivity|]. split; [|done].
  apply update_entry; [done|done|]. unfold entry_ok. cbn [hk_table hk_filters].
  rewrite !list_lookup_insert_eq by (rewrite ?(hb_table _ _ _ Hs), ?(hb_filters _ _ _ Hs); done).
  split; [done|]. eexists _, _. split; [reflexivity|]. by rewrite <- Et.
Qed.

Lemma unhook_syscall_ok table act s id f :
  hooked_by table act s -> in_table id = true -> act id = Some f ->
  exists s', unhook_syscall id s = Some s' /\ hooked_by table (update id None act) s' /\ probes_of s' = probes_of s.
Proof.
  intros Hs Hid Ha. pose proof (hb_entry _ _ _ Hs id Hid) as He. rewrite Ha in He. destruct He as [Et (e & old & Eg & Eo)].
  unfold unhook_syscall. rewrite Hid. cbn [negb]. cbv zeta. rewrite Eg. cbn [mbind option_bind sf_hooked Z.eqb].
  eexists. split; [reflexivity|]. split; [|done]. pose proof (in_table_lt id Hid) as Hlt.
  apply update_entry; [done|done|]. unfold entry_ok. cbn [hk_table hk_filters].
  rewrite !list_lookup_insert_eq by (rewrite ?(hb_table _ _ _ Hs), ?(hb_filters _ _ _ Hs); done).
  split; [done|]. by eexists.
Qed.

Lemma set_probes_hooked table act s r a b : hooked_by table act s -> hooked_by table act (set_probes r a b s).
Proof. intros [Ht Hf He]. by constructor. Qed.

(** The calls of [l] are hooked one after the other. *)
Lemma hook_all_ok table l act s :
  hooked_by table act s -> NoDup l.*1 -> Forall (fun idf => in_table idf.1 = true /\ act idf.1 = None) l ->
  exists s', hook_all l s = Some s' /\
    hooked_by table (foldl (fun act idf => update idf.1 (Some idf.2) act) act l) s' /\ probes_of s' = probes_of s.
Proof.
  revert act s. induction l as [|[id f] l IH]; intros act s Hs Hnd Hl; cbn [hook_all foldl]; [by exists s|].
  apply Forall_cons_1 in Hl as [[Hid Ha] Hl]. cbn [fmap list_fmap fst] in Hnd. inversion Hnd as [|? ? Hni Hnd']; subst.
  destruct (hook_syscall_ok table act s id f Hs Hid Ha) as (s1 & -> & Hs1 & E1). cbn [mbind option_bind fst snd].
  destruct (IH _ _ Hs1 Hnd') as (s2 & -> & Hs2 & E2); [|exists s2; by rewrite E2].
  rewrite Forall_forall in Hl. apply Forall_forall. intros [x g] Hin. destruct (Hl _ Hin) as [Hx Hax]. split; [done|].
  cbn [fst] in *. unfold update. destruct (Z.eqb_spec x id) as [->|]; [|done].
  exfalso. apply Hni. apply list_elem_of_fmap. exists (id, g). split; [done|]. by apply list_elem_of_In.
Qed.

Lemma unhook_all_ok table l act s :
  hooked_by table act s -> NoDup l.*1 -> Forall (fun idf => in_table idf.1 = true /\ act idf.1 = Some idf.2) l ->
  exists s', unhook_all l s = Some s' /\
    hooked_by table (foldl (fun act idf => update idf.1 None act) act l) s' /\ probes_of s' = probes_of s.
Proof.
  revert act s. induction l as [|[id f] l IH]; intros act s Hs Hnd Hl; cbn [unhook_all foldl]; [by exists s|].
  apply Forall_cons_1 in Hl as [[Hid Ha] Hl]. cbn [fmap list_fmap fst snd] in *. inversion Hnd as [|? ? Hni Hnd']; subst.
  destruct (unhook_syscall_ok table act s id f Hs Hid Ha) as (s1 & -> & Hs1 & E1). cbn [mbind option_bind fst snd].
  destruct (IH _ _ Hs1 Hnd') as (s2 & -> & Hs2 & E2); [|exists s2; by rewrite E2].
  rewrite Forall_forall in Hl. apply Forall_forall. intros [x g] Hin. destruct (Hl _ Hin) as [Hx Hax]. split; [done|].
  cbn [fst snd] in *. unfold update. destruct (Z.eqb_spec x id) as [->|]; [|done].
  exfalso. apply Hni. apply list_elem_of_fmap. exists (id, g). split; [done|]. by apply list_elem_of_In.
Qed.

Definition no_filter : Z -> option filter_fn := fun _ => None.

(** The state of the hooks between two calls of the control device. *)
Record hooks_inv (table : list sys_call_ptr) (s : hooks) : Prop := {
  hi_registered : hk_registered s = 0 \/ hk_registered s = 1;
  hi_probes : hk_sys_exit s = (hk_registered s =? 1) /\ hk_process_exit s = (hk_registered s =? 1);
  hi_hooked : hooked_by table (if hk_registered s =? 1 then filter_of else no_filter) s
}.

Lemma hooked_calls_nodup : NoDup (hooked_calls.*1).
Proof. by apply (bool_decide_unpack (NoDup (hooked_calls.*1))); vm_compute. Qed.

Lemma hooked_calls_all : pointwise_relation _ (=) (foldl (fun act idf => update idf.1 (Some idf.2) act) no_filter hooked_calls) filter_of.
Proof.
  intros id. unfold hooked_calls, filter_of, no_filter. cbn [foldl fst snd]. unfold update.
  destruct (Z.eqb_spec id __NR_mremap) as [->|]; [done|]. destruct (Z.eqb_spec id __NR_mprotect) as [->|]; [done|].
  destruct (Z.eqb_spec id __NR_munmap) as [->|]; [done|]. destruct (Z.eqb_spec id __NR_exit_group) as [->|]; [done|].
  by destruct (Z.eqb_spec id __NR_exit) as [->|].
Qed.

Lemma hooked_calls_none : pointwise_relation _ (=) (foldl (fun act idf => update idf.1 None act) filter_of hooked_calls) no_filter.
Proof.
  intros id. unfold hooked_calls, filter_of, no_filter. cbn [foldl fst snd]. unfold update.
  repeat match goal with |- context [id =? ?n] => destruct (id =? n); [done|] end. done.
Qed.

Lemma trace_syscall_ok table r1 r2 s : hooks_inv table s ->
  exists ret s', trace_syscall r1 r2 s = Some (ret, s') /\ hooks_inv table s' /\
    hk_registered s' = if (hk_registered s =? 1) || ((r1 =? 0) && (r2 =? 0)) then 1 else 0.
Proof.
  intros [Hr Hp Hh]. unfold trace_syscall. destruct (Z.eqb_spec (hk_registered s) 1) as [E|E].
  { exists 0, s. split; [done|]. split; [constructor; [by right| |]; by rewrite ?E|]. done. }
  assert (hk_registered s = 0) as E0 by lia. rewrite E0 in *. cbn [Z.eqb Pos.eqb orb] in *. unfold ctrue.
  destruct (Z.eqb_spec r1 0) as [->|]; cbn [negb andb].
  2:{ exists r1, s. split; [done|]. split; [constructor; [by left| |]; by rewrite E0|done]. }
  destruct (Z.eqb_spec r2 0) as [->|]; cbn [negb].
  2:{ eexists r2, _. split; [reflexivity|]. split; [|done]. destruct Hp as [_ Hp].
      constructor; cbn; [by left|by split|]. by apply set_probes_hooked. }
  destruct (hook_all_ok table hooked_calls no_filter (set_probes 0 true true s)) as (s1 & -> & Hs1 & E1).
  { by apply set_probes_hooked. } { apply hooked_calls_nodup. } { repeat constructor. }
  rewrite hooked_calls_all in Hs1. cbn [mbind option_bind]. eexists 0, _. split; [reflexivity|]. split; [|done].
  injection E1 as _ Ea Eb. constructor; cbn; [by right|by split|]. by apply set_probes_hooked.
Qed.

Lemma untrace_syscall_ok table s : hooks_inv table s ->
  exists s', untrace_syscall s = Some s' /\ hooks_inv table s' /\ hk_registered s' = 0.
Proof.
  intros [Hr Hp Hh]. unfold untrace_syscall. destruct (Z.eqb_spec (hk_registered s) 0) as [E|E].
  { exists s. split; [done|]. split; [|done]. constructor; [by left| |]; by rewrite ?E in *. }
  assert (hk_registered s = 1) as E1 by lia. rewrite E1 in Hh. cbn [Z.eqb Pos.eqb] in Hh.
  destruct (unhook_all_ok table hooked_calls filter_of s Hh hooked_calls_nodup) as (s1 & -> & Hs1 & _); [repeat constructor|].
  rewrite hooked_calls_none in Hs1. cbn [mbind option_bind]. eexists. split; [reflexivity|]. split; [|done].
  constructor; cbn; [by left|done|]. by apply set_probes_hooked.
Qed.

Lemma reach_inv table s : length table = Z.to_nat SYSCALL_TABLE_SIZE -> hook_reach table s -> hooks_inv table s.
Proof.
  intros Hl. induction 1 as [names s [= _ <-]|s s' _ IH Hstep].
  - constructor; [by left|done|]. constructor; [done|by apply length_replicate|].
    intros id Hid. pose proof (in_table_lt id Hid). split; [done|].
    exists (mk_filter 0 0 None (SysCall 0)). split; [by apply lookup_replicate_2|done].
  - destruct Hstep as [r1 r2 ret s s' E|s s' E].
    + destruct (trace_syscall_ok table r1 r2 s IH) as (? & ? & E' & Hi & _). rewrite E in E'. by injection E' as _ <-.
    + destruct (untrace_syscall_ok table s IH) as (? & E' & Hi & _). rewrite E in E'. by injection E' as <-.
Qed.

(** Without hooks the table is the original one. *)
Lemma unhooked_table table s :
  length table = Z.to_nat SYSCALL_TABLE_SIZE -> hooked_by table no_filter s -> hk_table s = table.
Proof.
  intros Hl [Ht _ He]. apply list_eq_same_length with (n := Z.to_nat SYSCALL_TABLE_SIZE); [done|done|].
  intros i x y Hi Hx Hy. destruct (He (Z.of_nat i)) as [E _].
  { unfold in_table. rewrite andb_true_iff, Z.leb_le, Z.ltb_lt. lia. }
  rewrite Nat2Z.id in E. congruence.
Qed.

(** C11: Whatever sequence of starts, failed starts and stops the control device asks
    for, the system-call table never loses an entry: while recording, exactly
    [exit], [exit_group], [munmap], [mprotect] and [mremap] lead to
    [hook_general], each with its filter and with the original pointer behind it;
    otherwise every entry is the original one.  Both probes are registered exactly
    while recording. *)
Theorem hooks_invariant table s :
  length table = Z.to_nat SYSCALL_TABLE_SIZE -> hook_reach table s -> hooks_inv table s.
Proof. apply reach_inv. Qed.

(** Starting and stopping never faults, from any state the module can be in.  A
    start whose probes can be registered hooks the table, one whose probes cannot
    leaves the hooks as they were, and a stop gives the kernel its original table
    back. *)
Theorem start_stop_restores table s :
  length table = Z.to_nat SYSCALL_TABLE_SIZE -> hook_reach table s ->
  (forall r1 r2, exists ret s', trace_syscall r1 r2 s = Some (ret, s') /\ hooks_inv table s' /\
     hk_registered s' = if (hk_registered s =? 1) || ((r1 =? 0) && (r2 =? 0)) then 1 else 0) /\
  exists s', untrace_syscall s = Some s' /\ hk_table s' = table /\ hk_sys_exit s' = false /\ hk_process_exit s' = false.
Proof.
  intros Hl Hs. apply reach_inv in Hs; [|done]. split.
  - intros r1 r2. by apply trace_syscall_ok.
  - destruct (untrace_syscall_ok table s Hs) as (s' & E & [_ Hp Hh] & Er). exists s'. rewrite Er in *.
    cbn [Z.eqb] in *. split; [done|]. split; [by apply unhooked_table|]. done.
Qed.

(** ** The properties at work *)

Definition demo_table : list sys_call_ptr := (fun n => SysCall (Z.of_nat n + 1)) <$> seq 0 (Z.to_nat SYSCALL_TABLE_SIZE).

Definition demo_hooks : hooks :=
  match trace_syscall 0 0 (init_hooks demo_table) with Some (_, s) => s | None => init_hooks demo_table end.

Lemma demo_reach : hook_reach demo_table demo_hooks.
Proof.
  apply (reach_step _ (init_hooks demo_table)); [by apply (reach_init _ ["sys_exit"%string])|]. apply (step_trace 0 0 0). by vm_compute.
Qed.

Lemma hooks_invariant_witness : hk_registered demo_hooks = 1 /\ hooks_inv demo_table demo_hooks.
Proof. split; [reflexivity|]. apply (hooks_invariant demo_table demo_hooks); [reflexivity|exact demo_reach]. Defined.

Lemma start_stop_restores_witness : hk_registered demo_hooks = 1 /\
  exists s', untrace_syscall demo_hooks = Some s' /\ hk_table s' = demo_table.
Proof.
  split; [reflexivity|].
  destruct (start_stop_restores demo_table demo_hooks eq_refl demo_reach) as (_ & s' & E & Ht & _). by exists s'.
Defined.
