(* ===== verification/HookStores.v ===== *)
(** * Hooking while system calls run: the stores of [hook_syscall] and [unhook_syscall]

    The control device hooks and unhooks the system-call table while other processors make
    system calls through it.  Here an operation is the sequence of its stores, a
    call in the table is a sequence of its loads, and a schedule says whose turn it is. *)

From S2P Require Import Prelude Tables Kernel FillerLib Hooks.

Local Open Scope Z_scope.

(** ** Stores *)

(** What is kept for a system call: its entries of [syscall_filters] and of [syscall_table]. *)
Definition cell : Type := nod_syscall_filter * sys_call_ptr.

Definition cell_at (s : hooks) (id : Z) : option cell :=
  f ← hk_filters s !! Z.to_nat id; t ← hk_table s !! Z.to_nat id; Some (f, t).

(** The assignments of [hook_syscall] and [unhook_syscall], in the order of the code:
    [hooked = 1], [oldsyscall = syscall_table[id]], [syscall_table[id] = hook_general],
    [filter = filter]; and [syscall_table[id] = oldsyscall], [hooked = 0], [oldsyscall = 0]. *)
Inductive assign : Set := MarkHooked | SaveOld | PutHook | SetFilter (f : filter_fn) | PutOld | MarkUnhooked | ForgetOld.

Definition do_assign (a : assign) (c : cell) : cell :=
  let '(f, t) := c in
  match a with
  | MarkHooked => (mk_filter (sf_enable f) 1 (sf_filter f) (sf_oldsyscall f), t)
  | SaveOld => (mk_filter (sf_enable f) (sf_hooked f) (sf_filter f) t, t)
  | PutHook => (f, HookGeneral)
  | SetFilter g => (mk_filter (sf_enable f) (sf_hooked f) (Some g) (sf_oldsyscall f), t)
  | PutOld => (f, sf_oldsyscall f)
  | MarkUnhooked => (mk_filter (sf_enable f) 0 (sf_filter f) (sf_oldsyscall f), t)
  | ForgetOld => (mk_filter (sf_enable f) (sf_hooked f) (sf_filter f) (SysCall 0), t)
  end.

Definition put_cell (id : Z) (c : cell) (s : hooks) : hooks :=
  mk_hooks (hk_registered s) (<[Z.to_nat id := c.2]> (hk_table s)) (<[Z.to_nat id := c.1]> (hk_filters s))
    (hk_sys_exit s) (hk_process_exit s).

(** An assignment to the entries of [id]. *)
Definition store : Type := Z * assign.
Definition do_store (st : store) (s : hooks) : option hooks := c ← cell_at s st.1; Some (put_cell st.1 (do_assign st.2 c) s).

Fixpoint do_stores (l : list store) (s : hooks) : option hooks :=
  match l with
  | [] => Some s
  | st :: l => s ← do_store st s; do_stores l s
  end.

(** A call of [hook_syscall] or [unhook_syscall], and the assignments it makes from a state. *)
Inductive hook_op : Set := Hook (id : Z) (f : filter_fn) | Unhook (id : Z).

Definition op_stores (o : hook_op) (s : hooks) : option (list store) :=
  match o with
  | Hook id f =>
      if negb (in_table id) then Some [] else
      c ← cell_at s id;
      Some (if sf_hooked c.1 =? 0 then [(id, MarkHooked); (id, SaveOld); (id, PutHook); (id, SetFilter f)] else [(id, SetFilter f)])
  | Unhook id =>
      if negb (in_table id) then Some [] else
      c ← cell_at s id;
      Some (if sf_hooked c.1 =? 0 then [] else [(id, PutOld); (id, MarkUnhooked); (id, ForgetOld)])
  end.

Definition do_op (o : hook_op) : hooks -> option hooks :=
  match o with Hook id f => hook_syscall id f | Unhook id => unhook_syscall id end.

Fixpoint do_ops (l : list hook_op) (s : hooks) : option hooks :=
  match l with
  | [] => Some s
  | o :: l => s ← do_op o s; do_ops l s
  end.

(** ** Calls *)

(** A call in the system-call table: whether its task is traced, and what its filter answers. *)
Record call : Type := mk_call { cl_id : Z; cl_traced : bool; cl_answer : filter_fn -> Z }.

(** Where it is: before the table is read; in [hook_general] before the filter is read, and
    after the filter returned 0; or at its end: the function it goes on with, the
    filter's refusal, or a failed assertion or null filter. *)
Inductive phase : Set := Dispatch | Enter | Filtered | Calls (f : sys_call_ptr) | Refused (ret : Z) | Faults.

Definition phase_step (c : call) (s : hooks) (ph : phase) : phase :=
  match ph, cell_at s (cl_id c) with
  | Dispatch, Some (_, HookGeneral) => Enter
  | Dispatch, Some (_, f) => Calls f
  | Enter, Some (f, _) =>
      if negb (cl_traced c) then Filtered else
      if negb (sf_hooked f =? 1) then Faults else
      match sf_filter f with
      | None => Faults
      | Some g => if ctrue (cl_answer c g) then Refused (cl_answer c g) else Filtered
      end
  | Filtered, Some (f, _) => Calls (sf_oldsyscall f)
  | Dispatch, None | Enter, None | Filtered, None => Faults
  | ph, _ => ph
  end.

(** ** Schedules *)

(** The control device: the assignments to make and the operations after them; and the calls. *)
Record system : Type := mk_system { sy_stores : list store; sy_ops : list hook_op; sy_hooks : hooks; sy_calls : list (call * phase) }.

Inductive turn : Set := Device | Call (i : nat).

Definition take_turn (t : turn) (y : system) : option system :=
  match t with
  | Device =>
      match sy_stores y, sy_ops y with
      | st :: l, ops => s ← do_store st (sy_hooks y); Some (mk_system l ops s (sy_calls y))
      | [], o :: ops => l ← op_stores o (sy_hooks y); Some (mk_system l ops (sy_hooks y) (sy_calls y))
      | [], [] => Some y
      end
  | Call i =>
      Some (mk_system (sy_stores y) (sy_ops y) (sy_hooks y)
        (alter (fun cp => (cp.1, phase_step cp.1 (sy_hooks y) cp.2)) i (sy_calls y)))
  end.

Fixpoint run_schedule (l : list turn) (y : system) : option system :=
  match l with
  | [] => Some y
  | t :: l => y ← take_turn t y; run_schedule l y
  end.

Definition finished (ph : phase) : bool := match ph with Calls _ | Refused _ | Faults => true | _ => false end.

(** ** The stores of an operation are the operation *)

Lemma cell_at_put s id c c0 : cell_at s id = Some c0 -> cell_at (put_cell id c s) id = Some c.
Proof.
  unfold cell_at, put_cell. cbn [hk_filters hk_table].
  destruct (hk_filters s !! Z.to_nat id) eqn:Ef; [|done]. destruct (hk_table s !! Z.to_nat id) eqn:Et; [|done]. intros _.
  rewrite !list_lookup_insert_eq by (by eapply lookup_lt_Some). by destruct c.
Qed.

Lemma cell_at_put_ne s id x c : in_table id = true -> in_table x = true -> x <> id -> cell_at (put_cell id c s) x = cell_at s x.
Proof.
  intros Hid Hx Hne. pose proof (in_table_ne _ _ Hx Hid Hne). unfold cell_at, put_cell. cbn [hk_filters hk_table].
  by rewrite !list_lookup_insert_ne.
Qed.

Lemma put_put id c c' s : put_cell id c (put_cell id c' s) = put_cell id c s.
Proof. unfold put_cell. cbn. by rewrite !list_insert_insert_eq. Qed.

(** The assignments of one entry are composed. *)
Lemma do_stores_cell id l s c : cell_at s id = Some c -> l <> [] ->
  do_stores (map (pair id) l) s = Some (put_cell id (foldl (fun c a => do_assign a c) c l) s).
Proof.
  revert s c. induction l as [|a l IH]; intros s c Hc Hne; [done|]. cbn [map do_stores foldl]. unfold do_store at 1. cbn [fst snd].
  rewrite Hc. cbn [mbind option_bind]. destruct l as [|a' l]; [done|].
  rewrite (IH _ (do_assign a c)) by (by (eapply cell_at_put) || done). by rewrite put_put.
Qed.

Lemma cell_at_Some s id f t : cell_at s id = Some (f, t) -> hk_filters s !! Z.to_nat id = Some f /\ hk_table s !! Z.to_nat id = Some t.
Proof.
  unfold cell_at. destruct (hk_filters s !! _); [|done]. destruct (hk_table s !! _); [|done]. by intros [= <- <-].
Qed.

Lemma cell_at_table s id c : cell_at s id = Some c -> hk_table s !! Z.to_nat id = Some c.2.
Proof. destruct c as [f t]. intros E. by apply cell_at_Some in E as [_ ->]. Qed.

Lemma op_stores_do o s l s' : op_stores o s = Some l -> do_stores l s = Some s' -> do_op o s = Some s'.
Proof.
  destruct o as [id g|id]; cbn [op_stores do_op]; unfold hook_syscall, unhook_syscall; (destruct (in_table id); cbn [negb]; [|by intros [= <-]]);
    (destruct (cell_at s id) as [[f t]|] eqn:Hc; cbn [mbind option_bind fst]; [|done]);
    apply cell_at_Some in Hc as Hft; destruct Hft as [-> Et]; cbn [mbind option_bind]; rewrite ?Et; cbn [mbind option_bind];
    intros [= <-]; destruct (sf_hooked f =? 0).
  - intros E. pose proof (do_stores_cell id [MarkHooked; SaveOld; PutHook; SetFilter g] s _ Hc ltac:(done)) as E'. cbn [map] in E'. rewrite E' in E. revert E. by intros [= <-].
  - intros E. pose proof (do_stores_cell id [SetFilter g] s _ Hc ltac:(done)) as E'. cbn [map] in E'. rewrite E' in E. revert E. intros [= <-]. unfold put_cell. cbn. by rewrite (list_insert_id _ _ _ Et).
  - by intros [= <-].
  - intros E. pose proof (do_stores_cell id [PutOld; MarkUnhooked; ForgetOld] s _ Hc ltac:(done)) as E'. cbn [map] in E'. rewrite E' in E. revert E. by intros [= <-].
Qed.

(** ** The device's turns *)

Definition finish (y : system) : option hooks := s ← do_stores (sy_stores y) (sy_hooks y); do_ops (sy_ops y) s.
Definition todo (y : system) : nat := length (sy_stores y) + 5 * length (sy_ops y).
Definition idle (y : system) : Prop := sy_stores y = [] /\ sy_ops y = [].

Lemma op_stores_short o s l : op_stores o s = Some l -> (length l <= 4)%nat.
Proof. destruct o; cbn; destruct (in_table id); cbn; try (by intros [= <-]; cbn; lia); destruct (cell_at s id); cbn; try done; destruct (_ =? _); intros [= <-]; cbn; lia. Qed.

(** What remains to be done leads to the same hooks after any turn. *)
Lemma turn_finish t y y' s' : take_turn t y = Some y' -> finish y' = Some s' -> finish y = Some s'.
Proof.
  destruct y as [l ops s cs]. destruct t as [|i]; cbn [take_turn sy_stores sy_ops sy_hooks sy_calls]; [|by intros [= <-]].
  destruct l as [|st l]; [destruct ops as [|o ops]|].
  - by intros [= <-].
  - destruct (op_stores o s) as [l|] eqn:Eo; cbn [mbind option_bind]; [|done]. intros [= <-]. unfold finish. cbn [sy_stores sy_ops sy_hooks do_stores do_ops mbind option_bind].
    destruct (do_stores l s) as [s1|] eqn:Es; cbn [mbind option_bind]; [|done]. by rewrite (op_stores_do _ _ _ _ Eo Es).
  - destruct (do_store st s) as [s1|] eqn:Es; cbn [mbind option_bind]; [|done]. intros [= <-]. unfold finish. cbn [sy_stores sy_ops sy_hooks do_stores]. by rewrite Es.
Qed.

Lemma schedule_finish l y y' s' : run_schedule l y = Some y' -> finish y' = Some s' -> finish y = Some s'.
Proof.
  revert y. induction l as [|t l IH]; intros y; cbn [run_schedule]; [by intros [= ->]|].
  destruct (take_turn t y) as [y1|] eqn:E; cbn [mbind option_bind]; [|done]. intros Hr Hf. eapply turn_finish; [done|by eapply IH].
Qed.

Lemma turn_todo t y y' : take_turn t y = Some y' -> (todo y' + (if t then 1 else 0) <= todo y)%nat \/ (idle y /\ idle y').
Proof.
  destruct y as [l ops s cs]. destruct t as [|i]; cbn [take_turn sy_stores sy_ops sy_hooks sy_calls]; [|intros [= <-]; left; unfold todo; cbn; lia].
  destruct l as [|st l]; [destruct ops as [|o ops]|].
  - intros [= <-]. by right.
  - destruct (op_stores o s) as [l|] eqn:Eo; cbn [mbind option_bind]; [|done]. intros [= <-]. left. unfold todo. cbn.
    pose proof (op_stores_short _ _ _ Eo). lia.
  - destruct (do_store st s) as [s1|] eqn:Es; cbn [mbind option_bind]; [|done]. intros [= <-]. left. unfold todo. cbn. lia.
Qed.

Fixpoint turns (which : turn -> bool) (l : list turn) : nat :=
  match l with [] => 0 | t :: l => (if which t then 1 else 0) + turns which l end.
Definition is_device (t : turn) : bool := match t with Device => true | Call _ => false end.
Definition is_call (i : nat) (t : turn) : bool := match t with Device => false | Call j => bool_decide (i = j) end.

(** Enough turns of the device finish what it has to do. *)
Lemma schedule_idle l y y' : run_schedule l y = Some y' -> (todo y <= turns is_device l)%nat -> idle y'.
Proof.
  assert (forall y, todo y = 0%nat -> idle y) as H0.
  { intros [[|a la] [|b lb] s cs]; unfold todo; cbn; try lia. done. }
  revert y. induction l as [|t l IH]; intros y; cbn [run_schedule turns]; [intros [= <-] H; apply H0; lia|].
  destruct (take_turn t y) as [y1|] eqn:E; cbn [mbind option_bind]; [|done]. intros Hr Ht. apply (IH y1 Hr).
  destruct (turn_todo _ _ _ E) as [Hd|[_ [E1 E2]]]; [destruct t; cbn in *; lia|]. unfold todo. rewrite E1, E2. cbn. lia.
Qed.

(** ** Starting while calls run *)

(** An entry that is as the kernel made it, or hooked in full. *)
Definition settled (table : list sys_call_ptr) (s : hooks) (id : Z) : Prop := exists f t old,
  cell_at s id = Some (f, t) /\ table !! Z.to_nat id = Some old /\ old <> HookGeneral /\
  ((sf_hooked f = 0 /\ t = old) \/ (sf_hooked f = 1 /\ t = HookGeneral /\ sf_oldsyscall f = old /\ filter_of id <> None)).

(** An entry marked as hooked that is not replaced yet; [saved] says whether its pointer is kept. *)
Definition midway (table : list sys_call_ptr) (s : hooks) (id : Z) (saved : bool) : Prop := exists f old,
  cell_at s id = Some (f, old) /\ table !! Z.to_nat id = Some old /\ old <> HookGeneral /\ sf_hooked f = 1 /\
  (saved = true -> sf_oldsyscall f = old).

Definition all_settled table s : Prop := forall id, in_table id = true -> settled table s id.
Definition others_settled table s id0 : Prop := forall id, in_table id = true -> id <> id0 -> settled table s id.

(** What is to be stored next, and the state it is stored in. *)
Inductive pending_ok (table : list sys_call_ptr) (s : hooks) : list store -> Prop :=
  | pending_none : all_settled table s -> pending_ok table s []
  | pending_mark id g f t : in_table id = true -> filter_of id <> None -> all_settled table s -> cell_at s id = Some (f, t) -> sf_hooked f = 0 ->
      pending_ok table s [(id, MarkHooked); (id, SaveOld); (id, PutHook); (id, SetFilter g)]
  | pending_save id g : in_table id = true -> filter_of id <> None -> others_settled table s id -> midway table s id false ->
      pending_ok table s [(id, SaveOld); (id, PutHook); (id, SetFilter g)]
  | pending_put id g : in_table id = true -> filter_of id <> None -> others_settled table s id -> midway table s id true ->
      pending_ok table s [(id, PutHook); (id, SetFilter g)]
  | pending_filter id g : in_table id = true -> all_settled table s -> pending_ok table s [(id, SetFilter g)].

(** What a call can read of an entry meanwhile. *)
Definition view (table : list sys_call_ptr) (s : hooks) (id : Z) : Prop := exists f t old,
  cell_at s id = Some (f, t) /\ table !! Z.to_nat id = Some old /\ old <> HookGeneral /\
  (t = old \/ (sf_hooked f = 1 /\ t = HookGeneral /\ sf_oldsyscall f = old /\ filter_of id <> None)).

Lemma settled_view table s id : settled table s id -> view table s id.
Proof. intros (f & t & old & E & Eo & Hn & [[_ ->]|H]); exists f; eexists _, old; (split; [done|]); (split; [done|]); (split; [done|]); tauto. Qed.

Lemma midway_view table s id b : midway table s id b -> view table s id.
Proof. intros (f & old & E & Eo & Hn & _). exists f, old, old. tauto. Qed.

Lemma pending_view table s l id : pending_ok table s l -> in_table id = true -> view table s id.
Proof.
  intros H Hid. destruct H as [Ha|? ? ? ? _ _ Ha|id0 ? _ _ Ho Hm|id0 ? _ _ Ho Hm|? ? _ Ha]; try (by apply settled_view, Ha);
    (destruct (decide (id = id0)) as [->|Hne]; [by eapply midway_view|by apply settled_view, Ho]).
Qed.

(** A store changes its own entry. *)
Lemma do_store_at id a s f t : cell_at s id = Some (f, t) -> do_store (id, a) s = Some (put_cell id (do_assign a (f, t)) s).
Proof. intros E. unfold do_store. cbn [fst snd]. by rewrite E. Qed.

Lemma settled_ne table s id c x : in_table id = true -> in_table x = true -> x <> id -> settled table s x -> settled table (put_cell id c s) x.
Proof. intros Hid Hx Hne (f & t & old & E & H). exists f, t, old. by rewrite cell_at_put_ne. Qed.

Lemma all_settled_put table s id c : in_table id = true -> others_settled table s id -> settled table (put_cell id c s) id -> all_settled table (put_cell id c s).
Proof. intros Hid Ho Hs x Hx. destruct (decide (x = id)) as [->|Hne]; [done|]. by apply settled_ne, Ho. Qed.

Lemma others_settled_put table s id c : in_table id = true -> others_settled table s id -> others_settled table (put_cell id c s) id.
Proof. intros Hid Ho x Hx Hne. by apply settled_ne, Ho. Qed.

Lemma all_others table s id : all_settled table s -> others_settled table s id.
Proof. intros H x Hx _. by apply H. Qed.

(** What hooking does not take back. *)
Definition grows (c c' : cell) : Prop := (c.2 = HookGeneral -> c'.2 = HookGeneral) /\ (sf_filter c.1 <> None -> sf_filter c'.1 <> None).
Definition state_grows (s s' : hooks) : Prop := forall id c, in_table id = true -> cell_at s id = Some c -> exists c', cell_at s' id = Some c' /\ grows c c'.

Lemma put_grows s id c c' : in_table id = true -> cell_at s id = Some c -> grows c c' -> state_grows s (put_cell id c' s).
Proof.
  intros Hid E Hg x cx Hx Ex. destruct (decide (x = id)) as [->|Hne].
  - exists c'. split; [by eapply cell_at_put|]. rewrite E in Ex. by injection Ex as <-.
  - exists cx. rewrite cell_at_put_ne by done. split; [done|]. by split.
Qed.

(** The device stores. *)
Lemma pending_step table s st l : pending_ok table s (st :: l) -> exists s', do_store st s = Some s' /\ pending_ok table s' l /\ state_grows s s'.
Proof.
  inversion 1 as [|id g f t Hid Hf Ha E Hz|id g Hid Hf Ho Hm|id g Hid Hf Ho Hm|id g Hid Ha]; subst.
  - rewrite (do_store_at _ _ _ _ _ E). eexists. split; [done|]. split; [|eapply put_grows; [done|exact E|by split]].
    apply pending_save; [done|done|by apply others_settled_put, all_others|].
    destruct (Ha id Hid) as (f' & t' & old & E' & Eo & Hn & Hc). rewrite E in E'. injection E' as <- <-.
    destruct Hc as [[_ ->]|[Hc _]]; [|congruence]. eexists _, old. split; [by eapply cell_at_put|]. done.
  - destruct Hm as (f & old & E & Eo & Hn & Hk & _). rewrite (do_store_at _ _ _ _ _ E). eexists. split; [done|].
    split; [|eapply put_grows; [done|exact E|by split]].
    apply pending_put; [done|done|by apply others_settled_put|]. eexists _, old. split; [by eapply cell_at_put|]. done.
  - destruct Hm as (f & old & E & Eo & Hn & Hk & Hs). rewrite (do_store_at _ _ _ _ _ E). eexists. split; [done|].
    split; [|eapply put_grows; [done|exact E|by split]]. apply pending_filter; [done|]. apply all_settled_put; [done|done|].
    eexists _, _, old. split; [by eapply cell_at_put|]. split; [done|]. split; [done|]. right. cbn. by rewrite Hs.
  - destruct (Ha id Hid) as (f & t & old & E & Eo & Hn & Hc). rewrite (do_store_at _ _ _ _ _ E). eexists. split; [done|].
    split; [|eapply put_grows; [done|exact E|by split]]. apply pending_none. apply all_settled_put; [done|by apply all_others|].
    eexists _, t, old. split; [by eapply cell_at_put|]. done.
Qed.

(** A traced call of a system call that is hooked finds a filter: the call was hooked before. *)
Definition has_filter (s : hooks) (c : call) : Prop :=
  cl_traced c = true -> filter_of (cl_id c) <> None -> forall f t, cell_at s (cl_id c) = Some (f, t) -> sf_filter f <> None.

(** The call as it goes on: it ends with the function the kernel had in the table, or is refused by its filter. *)
Definition call_ok (table : list sys_call_ptr) (s : hooks) (cp : call * phase) : Prop :=
  let '(c, ph) := cp in in_table (cl_id c) = true /\ has_filter s c /\
  match ph with
  | Dispatch => True
  | Enter | Filtered => exists f, cell_at s (cl_id c) = Some (f, HookGeneral)
  | Calls f => table !! Z.to_nat (cl_id c) = Some f
  | Refused r => cl_traced c = true /\ r <> 0 /\ exists g, r = cl_answer c g
  | Faults => False
  end.

Definition op_ok (o : hook_op) : Prop := match o with Hook id g => in_table id = true /\ filter_of id = Some g | Unhook _ => False end.

Record system_ok (table : list sys_call_ptr) (y : system) : Prop := {
  so_pending : pending_ok table (sy_hooks y) (sy_stores y);
  so_ops : Forall op_ok (sy_ops y);
  so_calls : Forall (call_ok table (sy_hooks y)) (sy_calls y)
}.

Lemma call_ok_grows table s s' cp : (forall id, in_table id = true -> view table s id) -> state_grows s s' -> call_ok table s cp -> call_ok table s' cp.
Proof.
  intros Hv Hg. destruct cp as [c ph]. intros (Hid & Hf & Hph). destruct (Hv _ Hid) as (f & t & old & E & _).
  destruct (Hg _ _ Hid E) as ([f' t'] & E' & Ht & Hsf). cbn [fst snd] in *. split; [done|]. split.
  - intros H1 H2 f1 t1 E1. rewrite E' in E1. injection E1 as <- <-. apply Hsf. by eapply Hf.
  - assert ((exists f, cell_at s (cl_id c) = Some (f, HookGeneral)) -> exists f, cell_at s' (cl_id c) = Some (f, HookGeneral)) as Hin.
    { intros [f1 E1]. rewrite E in E1. injection E1 as -> ->. exists f'. rewrite E'. by rewrite Ht. }
    destruct ph; try done; by apply Hin.
Qed.

(** The call's own turn. *)
Lemma call_step_ok table s c ph : view table s (cl_id c) -> call_ok table s (c, ph) -> call_ok table s (c, phase_step c s ph).
Proof.
  intros (f & t & old & E & Eo & Hn & Ht) (Hid & Hf & Hph). split; [done|]. split; [done|]. unfold phase_step. rewrite E.
  destruct ph as [| | |g|r|]; try done.
  - destruct Ht as [->|(_ & -> & _)]; [|by exists f]. by destruct old.
  - destruct Hph as [f0 E0]. rewrite E in E0. injection E0 as -> ->. destruct Ht as [<-|(Hk & _ & _ & Hfo)]; [done|].
    destruct (cl_traced c) eqn:Htr; cbn [negb]; [|by exists f0]. rewrite Hk. cbn [Z.eqb Pos.eqb negb].
    pose proof (Hf Htr Hfo _ _ E) as Hsf. destruct (sf_filter f0) as [g|]; [|done]. unfold ctrue.
    destruct (Z.eqb_spec (cl_answer c g) 0) as [_|Hr]; cbn [negb]; [by exists f0|]. split; [done|]. split; [done|]. by exists g.
  - destruct Hph as [f0 E0]. rewrite E in E0. injection E0 as -> ->. destruct Ht as [<-|(_ & _ & -> & _)]; done.
Qed.

(** Any turn. *)
Lemma turn_ok table t y : system_ok table y ->
  exists y', take_turn t y = Some y' /\ system_ok table y' /\ (sy_calls y').*1 = (sy_calls y).*1.
Proof.
  destruct y as [l ops s cs]. intros [Hp Ho Hc]. cbn [sy_stores sy_ops sy_hooks sy_calls] in *.
  assert (forall id, in_table id = true -> view table s id) as Hv by (intros id; by eapply pending_view).
  destruct t as [|i]; cbn [take_turn sy_stores sy_ops sy_hooks sy_calls].
  - destruct l as [|st l]; [destruct ops as [|o ops]|].
    + eexists. by split.
    + apply Forall_cons_1 in Ho as [Ho Hos]. destruct o as [id g|]; [|done]. destruct Ho as [Hid Hg]. cbn [op_stores]. rewrite Hid. cbn [negb].
      inversion Hp as [Ha| | | |]; subst. destruct (Ha id Hid) as (f & t & old & E & Eo & Hn & Hk). rewrite E. cbn [mbind option_bind fst].
      eexists. split; [done|]. split; [|done]. constructor; cbn [sy_stores sy_ops sy_hooks sy_calls]; [|done|done].
      destruct (Z.eqb_spec (sf_hooked f) 0) as [E0|E0]; [|by apply pending_filter]. eapply pending_mark; [done|congruence|done|exact E|done].
    + destruct (pending_step _ _ _ _ Hp) as (s' & E & Hp' & Hg). rewrite E. cbn [mbind option_bind]. eexists. split; [done|]. split; [|done].
      constructor; cbn [sy_stores sy_ops sy_hooks sy_calls]; [done|done|]. eapply Forall_impl; [|exact Hc]. intros cp. by apply call_ok_grows.
  - eexists. split; [done|]. cbn [sy_calls]. split.
    + constructor; cbn [sy_stores sy_ops sy_hooks sy_calls]; [done|done|]. apply Forall_alter; [done|]. intros [c ph] _ Hcp.
      apply call_step_ok; [|done]. by apply Hv, Hcp.
    + apply list_eq. intros j. rewrite !list_lookup_fmap. destruct (decide (i = j)) as [->|Hne].
      * rewrite list_lookup_alter_eq. by destruct (cs !! j).
      * by rewrite list_lookup_alter_ne.
Qed.

Lemma schedule_ok table l y : system_ok table y -> exists y', run_schedule l y = Some y' /\ system_ok table y' /\ (sy_calls y').*1 = (sy_calls y).*1.
Proof.
  revert y. induction l as [|t l IH]; intros y Hy; [by exists y|]. cbn [run_schedule].
  destruct (turn_ok table t y Hy) as (y1 & E & Hy1 & E1). rewrite E. cbn [mbind option_bind].
  destruct (IH y1 Hy1) as (y2 & E2 & Hy2 & Ec). exists y2. by rewrite Ec, E1.
Qed.

(** ** Calls come to an end *)

Definition rank (ph : phase) : nat := match ph with Dispatch => 3 | Enter => 2 | Filtered => 1 | _ => 0 end.

Lemma phase_step_rank c s ph : (rank (phase_step c s ph) <= rank ph - 1)%nat.
Proof.
  unfold phase_step. destruct ph as [| | |g|r|]; try (cbn; lia); destruct (cell_at s (cl_id c)) as [[f t]|]; try (cbn; lia).
  - destruct t; cbn; lia.
  - destruct (negb (cl_traced c)); cbn; [lia|]. destruct (negb (_ =? _)); cbn; [lia|]. destruct (sf_filter f); cbn; [|lia]. destruct (ctrue _); cbn; lia.
Qed.

Lemma schedule_rank l y y' i c ph : run_schedule l y = Some y' -> sy_calls y !! i = Some (c, ph) ->
  exists ph', sy_calls y' !! i = Some (c, ph') /\ (rank ph' <= rank ph - turns (is_call i) l)%nat.
Proof.
  revert y ph. induction l as [|t l IH]; intros y ph; cbn [run_schedule turns]; [intros [= <-] E; exists ph; split; [done|lia]|].
  destruct (take_turn t y) as [y1|] eqn:E; cbn [mbind option_bind]; [|done]. intros Hr Hi.
  assert (exists ph1, sy_calls y1 !! i = Some (c, ph1) /\ (rank ph1 <= rank ph - (if is_call i t then 1 else 0))%nat) as (ph1 & E1 & Hr1).
  { destruct t as [|j]; cbn [take_turn is_call] in *.
    - exists ph. split; [|cbn; lia]. destruct (sy_stores y) as [|st la]; [destruct (sy_ops y) as [|o ops]|].
      + by injection E as <-.
      + destruct (op_stores _ _); cbn [mbind option_bind] in E; [|done]. by injection E as <-.
      + destruct (do_store _ _); cbn [mbind option_bind] in E; [|done]. by injection E as <-.
    - injection E as <-. cbn [sy_calls]. case_bool_decide as Hij.
      + subst j. rewrite list_lookup_alter_eq, Hi. eexists. split; [done|]. apply phase_step_rank.
      + rewrite list_lookup_alter_ne by done. exists ph. split; [done|lia]. }
  destruct (IH y1 ph1 Hr E1) as (ph' & E' & Hr'). exists ph'. split; [done|]. lia.
Qed.

Lemma rank_finished ph : rank ph = 0%nat -> finished ph = true.
Proof. by destruct ph. Qed.

(** The operations of [trace_syscall] and [untrace_syscall]. *)
Definition start_ops : list hook_op := map (fun idf => Hook idf.1 idf.2) hooked_calls.
Definition stop_ops : list hook_op := map (fun idf => Unhook idf.1) hooked_calls.

Lemma do_start_ops s : do_ops start_ops s = hook_all hooked_calls s.
Proof. reflexivity. Qed.

Lemma do_stop_ops s : do_ops stop_ops s = unhook_all hooked_calls s.
Proof. reflexivity. Qed.

(** The device, about to carry out [ops], and calls that have not read the table yet. *)
Definition calls_with (ops : list hook_op) (s : hooks) (cs : list call) : system :=
  mk_system [] ops s (map (fun c => (c, Dispatch)) cs).

Lemma stopped_settled table s : hook_reach table s -> length table = Z.to_nat SYSCALL_TABLE_SIZE -> Forall (fun f => f <> HookGeneral) table ->
  hk_registered s = 0 -> all_settled table s.
Proof.
  intros Hr Hl Ht E0 id Hid. destruct (reach_inv table s Hl Hr) as [_ _ Hh]. rewrite E0 in Hh. cbn [Z.eqb] in Hh.
  destruct (hb_entry _ _ _ Hh id Hid) as [Et (f & Ef & Hf)]. cbn in Et, Ef.
  destruct (lookup_lt_is_Some_2 table (Z.to_nat id)) as [old Eo]; [rewrite Hl; by apply in_table_lt|].
  exists f, old, old. unfold cell_at. rewrite Ef, Et, Eo. split; [done|]. split; [done|]. split; [|by left].
  rewrite List.Forall_forall in Ht. apply Ht. eapply list_elem_of_In, list_elem_of_lookup_2, Eo.
Qed.

(** C12: Starting to record is safe while system calls run.  Let any calls, on other processors, interleave
    their loads with the stores of [trace_syscall], in any order; each traced call of a hooked
    system call finds the filter of an earlier start. Then no
    assertion fails and no null pointer is called: each call goes on with the function the kernel had in the
    table or, if it is traced, is refused with what its filter answers, and three turns of its own are enough for that.
    When the device has had its turns the table is as [trace_syscall] leaves it when
    nothing else runs. *)
Theorem start_while_calls_run table s cs sched :
  length table = Z.to_nat SYSCALL_TABLE_SIZE -> Forall (fun f => f <> HookGeneral) table -> hook_reach table s -> hk_registered s = 0 ->
  Forall (fun c => in_table (cl_id c) = true /\ has_filter s c) cs ->
  exists y, run_schedule sched (calls_with start_ops s cs) = Some y /\
    (forall i c, cs !! i = Some c -> exists ph, sy_calls y !! i = Some (c, ph) /\ ph <> Faults /\
       (forall f, ph = Calls f -> table !! Z.to_nat (cl_id c) = Some f) /\
       (forall r, ph = Refused r -> cl_traced c = true /\ r <> 0 /\ exists g, r = cl_answer c g) /\
       ((3 <= turns (is_call i) sched)%nat -> finished ph = true)) /\
    ((25 <= turns is_device sched)%nat -> hook_all hooked_calls s = Some (sy_hooks y)).
Proof.
  intros Hl Ht Hr E0 Hcs. pose proof (stopped_settled table s Hr Hl Ht E0) as Hset.
  destruct (schedule_ok table sched (calls_with start_ops s cs)) as (y & E & [_ _ Hc] & _).
  { constructor; cbn [calls_with sy_stores sy_ops sy_hooks sy_calls]; [by constructor|by repeat constructor|].
    apply Forall_fmap. eapply Forall_impl; [|exact Hcs]. intros c [Hid Hf]. by repeat split. }
  exists y. split; [done|]. split.
  - intros i c Hi. destruct (schedule_rank _ _ _ i c Dispatch E) as (ph & E' & Hrk).
    { cbn [calls_with sy_calls]. rewrite list_lookup_fmap. by rewrite Hi. }
    exists ph. split; [done|]. pose proof (Forall_lookup_1 _ _ _ _ Hc E') as (_ & _ & Hph).
    split; [by intros ->|]. split; [by intros f ->|]. split; [by intros r ->|]. intros H3. apply rank_finished. cbn in Hrk. lia.
  - intros Hd. rewrite <- do_start_ops. destruct (schedule_idle _ _ _ E) as [E1 E2]; [exact Hd|].
    apply (schedule_finish _ _ _ (sy_hooks y) E). unfold finish. by rewrite E1, E2.
Qed.

(** ** Stopping while calls run *)

Definition full (s : hooks) : Prop := length (hk_table s) = Z.to_nat SYSCALL_TABLE_SIZE /\ length (hk_filters s) = Z.to_nat SYSCALL_TABLE_SIZE.

Lemma full_cell s id : full s -> in_table id = true -> exists c, cell_at s id = Some c.
Proof.
  intros [Ht Hf] Hid. pose proof (in_table_lt id Hid). unfold cell_at.
  destruct (lookup_lt_is_Some_2 (hk_filters s) (Z.to_nat id)) as [f ->]; [by rewrite Hf|].
  destruct (lookup_lt_is_Some_2 (hk_table s) (Z.to_nat id)) as [t ->]; [by rewrite Ht|]. by exists (f, t).
Qed.

Lemma full_put s id c : full s -> full (put_cell id c s).
Proof. intros [Ht Hf]. split; cbn; by rewrite length_insert. Qed.

(** An entry after [unhook_syscall]. *)
Definition unhooked (c : cell) : cell :=
  if sf_hooked c.1 =? 0 then c else (mk_filter (sf_enable c.1) 0 (sf_filter c.1) (SysCall 0), sf_oldsyscall c.1).

Lemma unhook_cell s id : full s -> in_table id = true ->
  exists c s', cell_at s id = Some c /\ unhook_syscall id s = Some s' /\ full s' /\ cell_at s' id = Some (unhooked c) /\
    (forall x, in_table x = true -> x <> id -> cell_at s' x = cell_at s x) /\
    exists l, op_stores (Unhook id) s = Some l /\ do_stores l s = Some s'.
Proof.
  intros Hs Hid. destruct (full_cell s id Hs Hid) as [[f t] E]. exists (f, t). unfold unhooked, unhook_syscall. cbn [op_stores fst]. rewrite Hid, E.
  cbn [negb mbind option_bind fst]. pose proof (cell_at_Some _ _ _ _ E) as [-> _]. cbn [mbind option_bind].
  destruct (sf_hooked f =? 0); [exists s; repeat (split; [done|]); by eexists|].
  set (c' := (mk_filter (sf_enable f) 0 (sf_filter f) (SysCall 0), sf_oldsyscall f)). exists (put_cell id c' s).
  split; [done|]. split; [done|]. split; [by apply full_put|]. split; [by eapply cell_at_put|].
  split; [intros x Hx Hne; by apply cell_at_put_ne|]. eexists. split; [done|].
  exact (do_stores_cell id [PutOld; MarkUnhooked; ForgetOld] s _ E ltac:(done)).
Qed.

Lemma unhooked_twice c : unhooked (unhooked c) = unhooked c.
Proof. unfold unhooked at 2 3. destruct (sf_hooked c.1 =? 0) eqn:E; [|done]. unfold unhooked. by rewrite E. Qed.

Lemma run_schedule_app l1 l2 y : run_schedule (l1 ++ l2) y = (y ← run_schedule l1 y; run_schedule l2 y).
Proof. revert y. induction l1 as [|t l1 IH]; intros y; [done|]. cbn [app run_schedule]. destruct (take_turn t y); cbn [mbind option_bind]; [apply IH|done]. Qed.

Lemma device_stores_app l l2 ops s s' cs :
  do_stores l s = Some s' -> run_schedule (replicate (length l) Device) (mk_system (l ++ l2) ops s cs) = Some (mk_system l2 ops s' cs).
Proof.
  revert s. induction l as [|st l IH]; intros s; cbn [do_stores app length replicate run_schedule take_turn sy_stores sy_ops sy_hooks sy_calls]; [by intros [= ->]|].
  destruct (do_store st s); cbn [mbind option_bind]; [apply IH|done].
Qed.

Lemma device_stores l ops s s' cs : do_stores l s = Some s' -> run_schedule (replicate (length l) Device) (mk_system l ops s cs) = Some (mk_system [] ops s' cs).
Proof. intros E. rewrite <- (app_nil_r l) at 2. by apply device_stores_app. Qed.

(** The device alone: it unhooks the entries of [ids] one after the other. *)
Lemma device_unhooks ids s : full s -> Forall (fun id => in_table id = true) ids ->
  exists n s', (forall cs, run_schedule (replicate n Device) (mk_system [] (map Unhook ids) s cs) = Some (mk_system [] [] s' cs)) /\
    forall id, in_table id = true -> cell_at s' id = (if decide (id ∈ ids) then unhooked <$> cell_at s id else cell_at s id).
Proof.
  intros Hs Hids. revert s Hs. induction Hids as [|id ids Hid Hids IH]; intros s Hs.
  - exists 0%nat, s. split; [done|]. intros x _. rewrite decide_False; [done|]. by apply not_elem_of_nil.
  - destruct (unhook_cell s id Hs Hid) as (c & s1 & Ec & _ & Hs1 & Ec1 & Hne & l & El & Edo).
    destruct (IH s1 Hs1) as (n & s' & Erun & Hcell). exists (S (length l + n))%nat, s'. split.
    + intros cs. cbn [replicate run_schedule map take_turn sy_stores sy_ops sy_hooks sy_calls]. rewrite El. cbn [mbind option_bind].
      rewrite replicate_add, run_schedule_app, (device_stores _ _ _ _ _ Edo). apply Erun.
    + intros x Hx. rewrite (Hcell x Hx). destruct (decide (x = id)) as [->|Hxe].
      * rewrite (decide_True (P := id ∈ id :: ids)) by (by left). rewrite Ec1, Ec. cbn. case_decide; [by rewrite unhooked_twice|done].
      * rewrite (Hne x Hx Hxe). assert (x ∈ id :: ids <-> x ∈ ids) as H by (rewrite elem_of_cons; tauto).
        by rewrite (decide_ext _ _ _ _ H).
Qed.

(** The call has [k] turns, then the device [n], then the call [m]. *)
Definition stop_between (k n m : nat) (s : hooks) (c : call) : option system :=
  run_schedule (replicate k (Call 0) ++ replicate n Device ++ replicate m (Call 0)) (calls_with stop_ops s [c]).

Lemma stop_between_run k n m s c ph s' :
  run_schedule (replicate k (Call 0)) (calls_with stop_ops s [c]) = Some (mk_system [] stop_ops s [(c, ph)]) ->
  run_schedule (replicate n Device) (mk_system [] stop_ops s [(c, ph)]) = Some (mk_system [] [] s' [(c, ph)]) ->
  stop_between k n m s c = run_schedule (replicate m (Call 0)) (mk_system [] [] s' [(c, ph)]).
Proof. intros E1 E2. unfold stop_between. rewrite run_schedule_app, E1. cbn [mbind option_bind]. by rewrite run_schedule_app, E2. Qed.

Lemma call_turn l ops s c ph t : run_schedule (Call 0 :: t) (mk_system l ops s [(c, ph)]) = run_schedule t (mk_system l ops s [(c, phase_step c s ph)]).
Proof. reflexivity. Qed.

Lemma hooked_in_table id g : filter_of id = Some g -> id ∈ hooked_calls.*1 /\ in_table id = true.
Proof.
  unfold filter_of. repeat (match goal with |- context [id =? ?n] => destruct (Z.eqb_spec id n) as [->|_] end); intros E; try done;
    (split; [apply (bool_decide_unpack _); by vm_compute|done]).
Qed.

(** The entry of a hooked call, before and after a stop. *)
Lemma stop_cells table s : length table = Z.to_nat SYSCALL_TABLE_SIZE -> hook_reach table s -> hk_registered s = 1 ->
  forall id old, in_table id = true -> table !! Z.to_nat id = Some old ->
    exists f t, cell_at s id = Some (f, t) /\ (if decide (id ∈ hooked_calls.*1) then unhooked (f, t) else (f, t)).2 = old /\
      forall g, filter_of id = Some g -> t = HookGeneral /\ exists e, f = mk_filter e 1 (Some g) old.
Proof.
  intros Hl Hr E1 id old Hid Eo. destruct (reach_inv table s Hl Hr) as [_ _ Hh]. rewrite E1 in Hh. cbn [Z.eqb Pos.eqb] in Hh.
  pose proof (hb_entry _ _ _ Hh id Hid) as He. unfold entry_ok in He. cbv zeta in He. unfold cell_at.
  destruct (filter_of id) as [g|] eqn:Eg.
  - destruct He as [-> (e & old' & -> & Eo')]. rewrite Eo in Eo'. injection Eo' as <-. cbn [mbind option_bind]. eexists _, _. split; [done|].
    rewrite decide_True by (by eapply hooked_in_table). split; [done|]. intros g' [= <-]. split; [done|by exists e].
  - destruct He as [-> (f & -> & Hf)]. rewrite Eo. cbn [mbind option_bind]. exists f, old. split; [done|]. split; [|done].
    unfold unhooked. cbn [fst]. rewrite Hf. by case_decide.
Qed.

(** C13: Stopping the recording is not safe while system calls run.  The stores of [untrace_syscall] can all fall between two loads
    of a call of a hooked system call that is in [hook_general]: such a call, if its task is not traced or its filter let it
    pass, jumps to address 0, and if it is traced and about to check its entry the
    assertion fails.  The table itself is the original one afterwards. *)
Theorem stop_while_calls_run table s c g :
  length table = Z.to_nat SYSCALL_TABLE_SIZE -> hook_reach table s -> hk_registered s = 1 -> filter_of (cl_id c) = Some g ->
  exists n s', (forall id old, in_table id = true -> table !! Z.to_nat id = Some old -> hk_table s' !! Z.to_nat id = Some old) /\
    let ends ph := Some (mk_system [] [] s' [(c, ph)]) in
    (cl_traced c = false \/ cl_answer c g = 0 -> stop_between 2 n 1 s c = ends (Calls (SysCall 0))) /\
    (cl_traced c = false -> stop_between 1 n 2 s c = ends (Calls (SysCall 0))) /\
    (cl_traced c = true -> stop_between 1 n 1 s c = ends Faults).
Proof.
  intros Hl Hr E1 Hg. destruct (hooked_in_table _ _ Hg) as [Hin Hid].
  destruct (lookup_lt_is_Some_2 table (Z.to_nat (cl_id c))) as [old Eo]; [rewrite Hl; by apply in_table_lt|].
  pose proof (stop_cells table s Hl Hr E1) as Hcells.
  destruct (Hcells _ _ Hid Eo) as (f & t & Ec & _ & Hf). destruct (Hf g Hg) as [-> [e ->]].
  assert (full s) as Hs by (destruct (reach_inv table s Hl Hr) as [_ _ [Ht Hfl _]]; by split).
  assert (Forall (fun id => in_table id = true) hooked_calls.*1) as Hall by (apply Forall_fmap; unfold hooked_calls; repeat constructor).
  destruct (device_unhooks hooked_calls.*1 s Hs Hall) as (n & s' & Hrun & Hcell).
  exists n, s'. split.
  - intros id old' Hid' Eo'. destruct (Hcells _ _ Hid' Eo') as (f & t & Ex & Hold & _). pose proof (Hcell id Hid') as E'. rewrite Ex in E'.
    cbn [fmap option_fmap option_map] in E'. case_decide; by rewrite (cell_at_table _ _ _ E'), Hold.
  - pose proof (Hcell _ Hid) as E'. rewrite decide_True, Ec in E' by done. cbn [fmap option_fmap option_map] in E'. unfold unhooked in E'. cbn in E'.
    assert (forall ph, phase_step c s Dispatch = ph -> ph = Enter) as Hd by (unfold phase_step; rewrite Ec; by intros ? <-).
    assert (cl_traced c = false \/ cl_answer c g = 0 -> phase_step c s Enter = Filtered) as Hfl.
    { unfold phase_step. rewrite Ec. cbn. intros [->|H]; [done|]. destruct (cl_traced c); [|done]. cbn. by rewrite H. }
    split; [|split].
    + intros Hpass. rewrite (stop_between_run 2 n 1 s c Filtered s'); [|cbn [replicate]; unfold calls_with; cbn [map]; rewrite !call_turn|apply Hrun].
      * cbn [replicate]. rewrite call_turn. unfold phase_step. by rewrite E'.
      * by rewrite (Hd _ eq_refl), Hfl.
    + intros Hpass. rewrite (stop_between_run 1 n 2 s c Enter s'); [|cbn [replicate]; unfold calls_with; cbn [map]; rewrite !call_turn|apply Hrun].
      * cbn [replicate]. rewrite !call_turn. unfold phase_step. rewrite E', Hpass. done.
      * by rewrite (Hd _ eq_refl).
    + intros Htr. rewrite (stop_between_run 1 n 1 s c Enter s'); [|cbn [replicate]; unfold calls_with; cbn [map]; rewrite !call_turn|apply Hrun].
      * cbn [replicate]. rewrite call_turn. unfold phase_step. by rewrite E', Htr.
      * by rewrite (Hd _ eq_refl).
Qed.

(** The condition of [start_while_calls_run] is needed: at the first start of all, a
    traced process that exits between the last two stores for [exit] calls a null filter. *)
Theorem first_start_null_filter table s c f t :
  length table = Z.to_nat SYSCALL_TABLE_SIZE -> Forall (fun f => f <> HookGeneral) table -> hook_reach table s -> hk_registered s = 0 ->
  cl_id c = __NR_exit -> cl_traced c = true -> cell_at s __NR_exit = Some (f, t) -> sf_filter f = None ->
  sy_calls <$> run_schedule (replicate 4 Device ++ [Call 0; Call 0]) (calls_with start_ops s [c]) = Some [(c, Faults)].
Proof.
  intros Hl Ht Hr E0 Eid Htr Ec Hf. destruct (stopped_settled table s Hr Hl Ht E0 __NR_exit eq_refl) as (f' & t' & old & Ec' & Eo & Hn & Hk).
  rewrite Ec in Ec'. injection Ec' as <- <-. destruct Hk as [[Hk ->]|(Hk & Hh & _)].
  2:{ destruct (reach_inv table s Hl Hr) as [_ _ Hh']. rewrite E0 in Hh'. destruct (hb_entry _ _ _ Hh' __NR_exit eq_refl) as [_ (f1 & E1 & H1)].
      apply cell_at_Some in Ec as [Ef _]. rewrite Ef in E1. injection E1 as <-. congruence. }
  set (l := [MarkHooked; SaveOld; PutHook]). set (c1 := (mk_filter (sf_enable f) 1 (sf_filter f) old, HookGeneral)).
  assert (do_stores (map (pair __NR_exit) l) s = Some (put_cell __NR_exit c1 s)) as Es by exact (do_stores_cell __NR_exit l s _ Ec ltac:(done)).
  assert (op_stores (Hook __NR_exit ExitFilter) s = Some (map (pair __NR_exit) l ++ [(__NR_exit, SetFilter ExitFilter)])) as Eop
    by (cbn [op_stores]; change (in_table __NR_exit) with true; cbn [negb]; rewrite Ec; cbn [mbind option_bind fst]; by rewrite Hk).
  assert (cell_at (put_cell __NR_exit c1 s) __NR_exit = Some c1) as E1 by (by eapply cell_at_put).
  set (t2 := [Call 0; Call 0]). rewrite run_schedule_app. change (replicate 4 Device) with (Device :: replicate (length (map (pair __NR_exit) l)) Device).
  unfold calls_with. change start_ops with (Hook __NR_exit ExitFilter :: tail start_ops).
  cbn [run_schedule take_turn sy_stores sy_ops sy_hooks sy_calls]. rewrite Eop. cbn [mbind option_bind].
  rewrite (device_stores_app _ _ _ _ _ _ Es). cbn [mbind option_bind map]. unfold t2. rewrite !call_turn.
  assert (phase_step c (put_cell __NR_exit c1 s) Dispatch = Enter) as -> by (unfold phase_step; by rewrite Eid, E1).
  assert (phase_step c (put_cell __NR_exit c1 s) Enter = Faults) as ->; [|done].
  unfold phase_step. rewrite Eid, E1. cbn [c1]. by rewrite Htr, Hf.
Qed.

(** ** The properties at work *)

(** The hooks after a start and a stop. *)
Definition demo_stopped : hooks := match untrace_syscall demo_hooks with Some s => s | None => demo_hooks end.

Lemma demo_stopped_reach : hook_reach demo_table demo_stopped.
Proof. apply (reach_step _ demo_hooks); [exact demo_reach|]. apply step_untrace. by vm_compute. Qed.

Definition demo_exit : call := mk_call __NR_exit true (fun _ => 0).
Definition demo_munmap : call := mk_call __NR_munmap true (fun _ => - EINVAL).
Definition demo_sched : list turn := [Device; Device; Device; Call 1; Device; Call 0; Call 0; Call 1; Device; Call 0; Device] ++ replicate 19 Device ++ [Call 1].

Lemma demo_tables : length demo_table = Z.to_nat SYSCALL_TABLE_SIZE /\ Forall (fun f => f <> HookGeneral) demo_table.
Proof. split; [reflexivity|]. unfold demo_table. apply Forall_fmap, List.Forall_forall. by intros. Qed.

(** [has_filter] as a test. *)
Lemma has_filter_test s c : match cell_at s (cl_id c) with Some (f, _) => bool_decide (sf_filter f <> None) | None => true end = true -> has_filter s c.
Proof. intros H _ _ f t E. rewrite E in H. by apply bool_decide_eq_true in H. Qed.

Lemma start_while_calls_run_witness :
  hk_registered demo_stopped = 0 /\ Forall (fun c => in_table (cl_id c) = true /\ has_filter demo_stopped c) [demo_exit; demo_munmap] /\
  exists y, run_schedule demo_sched (calls_with start_ops demo_stopped [demo_exit; demo_munmap]) = Some y /\
  (forall i c, [demo_exit; demo_munmap] !! i = Some c -> exists ph, sy_calls y !! i = Some (c, ph) /\ ph <> Faults /\
  (forall f, ph = Calls f -> demo_table !! Z.to_nat (cl_id c) = Some f) /\
  (forall r, ph = Refused r -> cl_traced c = true /\ r <> 0 /\ exists g, r = cl_answer c g) /\
  ((3 <= turns (is_call i) demo_sched)%nat -> finished ph = true)) /\
  ((25 <= turns is_device demo_sched)%nat -> hook_all hooked_calls demo_stopped = Some (sy_hooks y)).
Proof.
  destruct demo_tables as [Hl Ht].
  assert (Forall (fun c => in_table (cl_id c) = true /\ has_filter demo_stopped c) [demo_exit; demo_munmap]) as Hc.
  { repeat constructor; apply has_filter_test; vm_compute; reflexivity. }
  assert (hk_registered demo_stopped = 0) as E0 by (vm_compute; reflexivity).
  split; [exact E0|]. split; [exact Hc|].
  exact (start_while_calls_run demo_table demo_stopped [demo_exit; demo_munmap] demo_sched Hl Ht demo_stopped_reach E0 Hc).
Defined.

Lemma stop_while_calls_run_witness : hk_registered demo_hooks = 1 /\
  exists n s', (forall id old, in_table id = true -> demo_table !! Z.to_nat id = Some old -> hk_table s' !! Z.to_nat id = Some old) /\
  let ends ph := Some (mk_system [] [] s' [(demo_exit, ph)]) in
    (cl_traced demo_exit = false \/ cl_answer demo_exit ExitFilter = 0 -> stop_between 2 n 1 demo_hooks demo_exit = ends (Calls (SysCall 0))) /\
  (cl_traced demo_exit = false -> stop_between 1 n 2 demo_hooks demo_exit = ends (Calls (SysCall 0))) /\
  (cl_traced demo_exit = true -> stop_between 1 n 1 demo_hooks demo_exit = ends Faults).
Proof.
  destruct demo_tables as [Hl _]. split; [reflexivity|].
  exact (stop_while_calls_run demo_table demo_hooks demo_exit ExitFilter Hl demo_reach eq_refl eq_refl).
Defined.
