(* ===== verification/ProcState.v ===== *)
(** * The state of a traced process

    [struct nod_buffer], [struct nod_buffer_info] and [struct nod_event_statistic]
    of [include/events.h] and [include/ioctl.h], [struct nod_stack_info] of
    [include/common.h], and the structures of [kmodule/procinfo.h].  A pointer to
    an allocation is an [option]; [None] is [NULL]. *)

From S2P Require Import Prelude Kernel Tables.

Local Open Scope Z_scope.

(** ** Buffers *)

Record nod_buffer_info := mk_info {
  nevents : Z;
  tail : Z;
  n_solved_evts : Z;
  buffer_size : Z
}.

(** [overflow.addr] and [overflow.filled] are the last two fields. *)
Record nod_buffer := mk_buffer {
  nb_buffer : option (list Z);
  nb_str_storage : option (list Z);
  nb_info : option nod_buffer_info;
  nb_event_count : Z;
  nb_overflow : option (list Z);
  nb_filled : Z
}.

(** [memset(p, 0, sizeof(struct nod_proc_info))] on the buffer. *)
Definition zero_buffer : nod_buffer := mk_buffer None None None 0 None 0.

Record nod_event_statistic := mk_stat {
  n_evts : Z;
  n_drop_evts : Z;
  n_drop_evts_unsolved : Z
}.

(** ** Registers and credentials *)

(** [struct pt_regs] of x86_64. *)
Record pt_regs := mk_regs {
  r_r15 : Z; r_r14 : Z; r_r13 : Z; r_r12 : Z; r_bp : Z; r_bx : Z; r_r11 : Z; r_r10 : Z;
  r_r9 : Z; r_r8 : Z; r_ax : Z; r_cx : Z; r_dx : Z; r_si : Z; r_di : Z; r_orig_ax : Z;
  r_ip : Z; r_cs : Z; r_flags : Z; r_sp : Z; r_ss : Z
}.

Definition zero_regs : pt_regs := mk_regs 0 0 0 0 0 0 0 0 0 0 0 0 0 0 0 0 0 0 0 0 0.

(** [struct nod_proc_context] *)
Record nod_proc_context := mk_ctx {
  ctx_available : Z;
  ctx_fsbase : Z;
  ctx_gsbase : Z;
  ctx_regs : pt_regs
}.

(** [struct nod_proc_security]; a [struct path] is the identity of a dentry, 0 for
    the null dentry; a resource limit is the pair of its soft and hard value. *)
Record nod_proc_security := mk_sec {
  sec_available : Z;
  sec_child_tid : Z;
  sec_seccomp_mode : Z;
  sec_sigset : Z;
  sec_cap_permitted : Z;
  sec_cap_effective : Z;
  sec_root_path : Z;
  sec_rlim : list (Z * Z)
}.

Definition RLIM_NLIMITS : Z := 16.

Definition zero_ctx : nod_proc_context := mk_ctx 0 0 0 zero_regs.
Definition zero_sec : nod_proc_security :=
  mk_sec 0 0 0 0 0 0 0 (replicate (Z.to_nat RLIM_NLIMITS) (0, 0)).

(** [struct nod_stack_info]; the last two fields are user addresses. *)
Record nod_stack_info := mk_stack {
  si_ioctl_fd : Z;
  si_pkey : Z;
  si_syscall_nr : Z;
  si_exit_code : Z;
  si_fsbase : Z;
  si_hash : Z;
  si_stack_start : Z;
  si_stack_end : Z;
  si_buffer : Z;
  si_buffer_info : Z
}.

Definition zero_stack : nod_stack_info := mk_stack 0 0 0 0 0 0 0 0 0 0.

(** ** Processes *)

(** [enum nod_proc_status] *)
Inductive nod_proc_status : Set :=
  | NOD_UNKNOWN | NOD_IN | NOD_OUT | NOD_CLONE | NOD_SHARE | NOD_RESTORE_CONTEXT | NOD_RESTORE_SECURITY.

#[export] Instance nod_proc_status_eq_dec : EqDecision nod_proc_status.
Proof. solve_decision. Defined.

Record nod_proc_info := mk_proc {
  p_pid : Z;
  p_mm : Z;
  p_buffer : nod_buffer;
  p_ioctl_fd : Z;
  p_entry_addr : Z;
  p_stack_addr : Z;
  p_stack_info_addr : Z;
  p_status : nod_proc_status;
  p_ctx : nod_proc_context;
  p_sec : nod_proc_security;
  p_stack_info : nod_stack_info
}.

Definition set_buffer (b : nod_buffer) (p : nod_proc_info) : nod_proc_info :=
  mk_proc (p_pid p) (p_mm p) b (p_ioctl_fd p) (p_entry_addr p) (p_stack_addr p)
    (p_stack_info_addr p) (p_status p) (p_ctx p) (p_sec p) (p_stack_info p).

(** The macro [nod_proc_set_status]. *)
Definition nod_proc_set_status (s : nod_proc_status) (fd : Z) (p : nod_proc_info) : nod_proc_info :=
  mk_proc (p_pid p) (p_mm p) (p_buffer p) fd (p_entry_addr p) (p_stack_addr p)
    (p_stack_info_addr p) s (p_ctx p) (p_sec p) (p_stack_info p).

Definition nod_proc_set_in : nod_proc_info -> nod_proc_info := nod_proc_set_status NOD_IN (-1).
Definition nod_proc_set_out : nod_proc_info -> nod_proc_info := nod_proc_set_status NOD_OUT (-1).
Definition nod_proc_set_security (fd : Z) : nod_proc_info -> nod_proc_info :=
  nod_proc_set_status NOD_RESTORE_SECURITY fd.
Definition nod_proc_set_context (fd : Z) : nod_proc_info -> nod_proc_info :=
  nod_proc_set_status NOD_RESTORE_CONTEXT fd.

Definition set_entry (entry : Z) (si : nod_stack_info) (p : nod_proc_info) : nod_proc_info :=
  mk_proc (p_pid p) (p_mm p) (p_buffer p) (p_ioctl_fd p) entry (p_stack_addr p)
    (p_stack_info_addr p) (p_status p) (p_ctx p) (p_sec p) si.

Definition set_stack_info (si : nod_stack_info) (p : nod_proc_info) : nod_proc_info :=
  set_entry (p_entry_addr p) si p.

Definition set_ctx (c : nod_proc_context) (p : nod_proc_info) : nod_proc_info :=
  mk_proc (p_pid p) (p_mm p) (p_buffer p) (p_ioctl_fd p) (p_entry_addr p) (p_stack_addr p)
    (p_stack_info_addr p) (p_status p) c (p_sec p) (p_stack_info p).

Definition set_sec (s : nod_proc_security) (p : nod_proc_info) : nod_proc_info :=
  mk_proc (p_pid p) (p_mm p) (p_buffer p) (p_ioctl_fd p) (p_entry_addr p) (p_stack_addr p)
    (p_stack_info_addr p) (p_status p) (p_ctx p) s (p_stack_info p).

Definition set_ioctl_fd (fd : Z) (p : nod_proc_info) : nod_proc_info :=
  nod_proc_set_status (p_status p) fd p.
