(* ===== verification/Events.v ===== *)
(** * Recording events: [kmodule/events.c]

    The life cycle of a process' buffer and [do_record_one_event], which writes
    one event: a 28-byte header, the 16-bit sizes of its parameters and their
    bytes.  An event whose header does not fit, or whose filler runs out of
    space, goes to the overflow page, and the monitor is loaded.

    [nod_load_monitor] belongs to the loader; here it is the operation of the
    class [MonitorLoader], whose law is what recording relies on. *)

From S2P Require Import Prelude Kernel Tables Ring FillerLib Fillers ProcState.

Local Open Scope Z_scope.

Definition ENOMEM : Z := 12.
Definition NOD_INIT_INFO : Z := 2.
Definition NOD_INIT_COUNT : Z := 4.
Definition NOD_EVENT_HDR_MAGIC : Z := 0xCAFEBABE.
Definition HDR_SIZE : Z := 28.

(** ** The configured size *)

Section size.
Local Notation config := Z.

(** [nod_event_set_buffer_size]: the result and the new [nod_buffer_size]. *)
Definition nod_event_set_buffer_size (size : Z) (nod_buffer_size : config) : Z * config :=
  if size <? PAGE_SIZE then (-1, nod_buffer_size) else
  if ctrue (Z.land size (PAGE_SIZE - 1)) then (-1, nod_buffer_size) else
  (0, size).

(** [nod_event_get_buffer_size(size)], where [size] may be null. *)
Definition nod_event_get_buffer_size (size_null : bool) (nod_buffer_size : config) : Z * option Z :=
  if size_null then (-1, None) else (0, Some nod_buffer_size).
End size.

(** ** Buffers *)

Definition reset_buffer (flags : Z) (b : nod_buffer) : option nod_buffer :=
  b1 ← (if ctrue (Z.land flags NOD_INIT_INFO) then
          i ← nb_info b;
          Some (mk_buffer (nb_buffer b) (nb_str_storage b)
                  (Some (mk_info 0 0 (n_solved_evts i) (buffer_size i)))
                  (nb_event_count b) (nb_overflow b) 0)
        else Some b);
  Some (if ctrue (Z.land flags NOD_INIT_COUNT)
        then mk_buffer (nb_buffer b1) (nb_str_storage b1) (nb_info b1) 0 (nb_overflow b1) (nb_filled b1)
        else b1).

Definition free_buffer (b : nod_buffer) : nod_buffer :=
  mk_buffer None None None (nb_event_count b) None
    (match nb_overflow b with Some _ => 0 | None => nb_filled b end).

(** What the allocator returns: two pages of arbitrary bytes, the memory of
    [vmalloc_user] (zeroed) for the info block and for the buffer. *)
Record allocator := mk_alloc {
  al_str : option (list Z);
  al_overflow : option (list Z);
  al_info : bool;
  al_buffer : bool
}.

(** [init_buffer] on a buffer of null pointers: the result and the buffer. *)
Definition init_buffer (al : allocator) (nod_buffer_size : Z) (b : nod_buffer) : option (Z * nod_buffer) :=
  if ctrue (Z.land nod_buffer_size (PAGE_SIZE - 1)) then Some (- EINVAL, free_buffer b) else
  match al_str al with
  | None => Some (- ENOMEM, free_buffer b)
  | Some str =>
      let b := mk_buffer (nb_buffer b) (Some str) (nb_info b) (nb_event_count b) (nb_overflow b) (nb_filled b) in
      match al_overflow al with
      | None => Some (- ENOMEM, free_buffer b)
      | Some page =>
          let b := mk_buffer (nb_buffer b) (nb_str_storage b) (nb_info b) (nb_event_count b) (Some page) 0 in
          if negb (al_info al) then Some (- ENOMEM, free_buffer b) else
          let b := mk_buffer (nb_buffer b) (nb_str_storage b) (Some (mk_info 0 0 0 0))
                     (nb_event_count b) (nb_overflow b) (nb_filled b) in
          if negb (al_buffer al) then Some (- ENOMEM, free_buffer b) else
          let b := mk_buffer (Some (replicate (Z.to_nat nod_buffer_size) 0)) (nb_str_storage b)
                     (Some (mk_info 0 0 0 nod_buffer_size))
                     (nb_event_count b) (nb_overflow b) (nb_filled b) in
          b ← reset_buffer (NOD_INIT_INFO |! NOD_INIT_COUNT) b;
          Some (0, b)
      end
  end.

(** ** Recording *)

(** [enum nod_capture_category] and the part of [struct nod_event_data] that is
    not the registers (which are the system call of the [Kernel] instance). *)
Record nod_event_data := mk_data {
  ed_category : Z;
  ed_id : Z;
  ed_force : Z
}.

(** What the recording of one event takes from its environment: [nod_nsecs()],
    [current->pid], [smp_processor_id()] and the uninitialized [args.fd]. *)
Record rec_env := mk_env {
  re_ts : Z;
  re_pid : Z;
  re_cpu : Z;
  re_fd : Z
}.

(** The buffer with its pointers resolved. *)
Record rbuf := mk_rbuf {
  rb_buffer : list Z;
  rb_info : nod_buffer_info;
  rb_over : list Z;
  rb_filled : Z;
  rb_stat : nod_event_statistic
}.

Definition count_event (s : nod_event_statistic) : nod_event_statistic :=
  mk_stat (u64 (n_evts s + 1)) (n_drop_evts s) (n_drop_evts_unsolved s).
Definition count_drop (s : nod_event_statistic) : nod_event_statistic :=
  mk_stat (n_evts s) (u64 (n_drop_evts s + 1)) (n_drop_evts_unsolved s).

(** The first part of [do_record_one_event]: the event of the overflow page moves
    to the start of the buffer. *)
Definition flush_overflow (b : rbuf) : option rbuf :=
  if rb_filled b =? 1 then
    let i := rb_info b in
    let len := le_val (zslice 16 4 (rb_over b)) in
    ev ← zread 0 len (rb_over b);
    buf ← zwrite 0 ev (rb_buffer b);
    Some (mk_rbuf buf (mk_info (u64 (nevents i + 1)) len (n_solved_evts i) (buffer_size i))
            (rb_over b) 0 (count_event (rb_stat b)))
  else Some b.

(** The stores to [hdr] before the filler runs: all fields but [len]. *)
Definition hdr_fields (env : rec_env) (event_type : Z) : list Z :=
  le_bytes 8 (re_ts env) ++ le_bytes 4 (re_pid env) ++ le_bytes 2 (re_cpu env) ++ le_bytes 2 event_type.

Definition write_hdr (env : rec_env) (event_type nargs at_ : Z) (mem : list Z) : option (list Z) :=
  mem ← zwrite at_ (hdr_fields env event_type) mem;
  zwrite (at_ + 20) (le_bytes 4 nargs ++ le_bytes 4 NOD_EVENT_HDR_MAGIC) mem.

(** The fields of [args] that do not change between attempts. *)
Definition init_args (b : rbuf) (str : list Z) (event_type nargs : Z) (data : nod_event_data)
    (env : rec_env) : fargs :=
  mk_fargs [] str event_type (nevents (rb_info b)) 0
    (if ed_category data =? NODC_SYSCALL then u32 (ed_id data) else u32 (-1))
    0 nargs (u32 (nargs * 2)) 0 80 false (re_fd env).

(** [args.buf_ptr], [args.buffer_size], [args.curarg] and [args.arg_data_size] of an
    attempt; [args.arg_data_offset] keeps its value. *)
Definition attempt_args (region : list Z) (bsize : Z) (args : fargs) : fargs :=
  mk_fargs region (fa_str args) (fa_event_type args) (fa_nevents args) bsize
    (fa_syscall_nr args) 0 (fa_nargs args) (fa_arg_data_offset args)
    (u32 (bsize - fa_arg_data_offset args)) (fa_snaplen args) (fa_is_socketcall args) (fa_fd args).

Section record.
Context {K : Kernel}.

(** The result of an attempt: [cbret], [force], the arguments and the buffer. *)
Record attempt := mk_attempt {
  at_cbret : Z;
  at_force : bool;
  at_args : fargs;
  at_buf : rbuf
}.

(** The cases on [cbret] behind the call of the filler; [mem] is the memory the
    event was written to. *)
Definition complete (cbret : Z) (args : fargs) : bool :=
  (cbret =? NOD_SUCCESS) && (fa_curarg args =? fa_nargs args).

Definition event_size (args : fargs) : Z := HDR_SIZE + fa_arg_data_offset args.

Definition finish_attempt (over force : bool) (cbret : Z) (args : fargs) (mem : list Z) (b : rbuf) : attempt :=
  let i := rb_info b in
  let filled := if over then 1 else rb_filled b in
  let counted := complete cbret args && (filled =? 0) in
  let dropped := negb (cbret =? NOD_SUCCESS) && negb (cbret =? NOD_FAILURE_BUFFER_FULL) in
  let i := if counted
           then mk_info (u64 (nevents i + 1)) (u32 (tail i + event_size args)) (n_solved_evts i) (buffer_size i)
           else i in
  let stat := if counted then count_event (rb_stat b)
              else if dropped then count_drop (rb_stat b) else rb_stat b in
  let force := if (cbret =? NOD_SUCCESS) && negb (complete cbret args) then false else over || force in
  mk_attempt cbret force args
    (mk_rbuf (if over then rb_buffer b else mem) i (if over then mem else rb_over b) filled stat).

(** From [restart:] to the test of [cbret]; [None] is a store outside the
    memory of the buffer or a violated assertion. *)
Definition record_attempt (env : rec_env) (restart : bool) (freespace : Z) (force : bool)
    (args : fargs) (b : rbuf) : option attempt :=
  let over := (freespace <? fa_arg_data_offset args + HDR_SIZE) || restart in
  let mem := if over then rb_over b else rb_buffer b in
  let at_ := if over then 0 else tail (rb_info b) in
  let bsize := if over then PAGE_SIZE - HDR_SIZE else u32 (freespace - HDR_SIZE) in
  mem ← write_hdr env (fa_event_type args) (fa_nargs args) at_ mem;
  region ← zread (at_ + HDR_SIZE) bsize mem;
  '(cbret, args) ←
    match nod_filler_callback (attempt_args region bsize args) with
    | Done _ args => Some (NOD_SUCCESS, args)
    | Ret c args => Some (c, args)
    | Bug => None
    end;
  mem ← zwrite (at_ + HDR_SIZE) (fa_buf args) mem;
  mem ← (if complete cbret args then zwrite (at_ + 16) (le_bytes 4 (event_size args)) mem else Some mem);
  Some (finish_attempt over force cbret args mem b).

(** [goto restart] while the filler returns [NOD_FAILURE_BUFFER_FULL]; [None] is
    running out of fuel. *)
Fixpoint record_loop (fuel : nat) (env : rec_env) (restart : bool) (freespace : Z) (force : bool)
    (args : fargs) (b : rbuf) : option (option attempt) :=
  match fuel with
  | O => None
  | S fuel =>
      match record_attempt env restart freespace force args b with
      | None => Some None
      | Some a =>
          if at_cbret a =? NOD_FAILURE_BUFFER_FULL
          then record_loop fuel env true freespace (at_force a) (at_args a) (at_buf a)
          else Some (Some a)
      end
  end.

(** [do_record_one_event] up to the loading of the monitor. *)
Definition record_event (fuel : nat) (env : rec_env) (event_type entry_addr : Z) (data : nod_event_data)
    (str : list Z) (b : rbuf) : option (option attempt) :=
  match flush_overflow b with
  | None => Some None
  | Some b =>
      let freespace := u32 (buffer_size (rb_info b) - tail (rb_info b)) in
      let nargs := ei_nparams (g_event_info event_type) in
      let force := ctrue (ed_force data) || (entry_addr =? 0) in
      record_loop fuel env false freespace force (init_args b str event_type nargs data env) b
  end.
End record.

(** ** Loading the monitor *)

(** What the loader offers to recording: it runs on the process and on the state
    [T] of the task, and leaves the buffer to the monitor. *)
Class MonitorLoader (T : Type) := {
  nod_load_monitor : nod_proc_info -> T -> Z * nod_proc_info * T
}.

Class MonitorLoaderOk (T : Type) `{MonitorLoader T} : Prop := {
  load_keeps_buffer p t : p_buffer (nod_load_monitor p t).1.2 = p_buffer p;
  load_keeps_pid p t : p_pid (nod_load_monitor p t).1.2 = p_pid p
}.

Section do_record.
Context {K : Kernel} {T : Type} `{MonitorLoader T}.

(** The pointers of the buffer, all of which the code dereferences. *)
Definition open_buffer (b : nod_buffer) (stat : nod_event_statistic) : option (list Z * rbuf) :=
  buf ← nb_buffer b; str ← nb_str_storage b; i ← nb_info b; over ← nb_overflow b;
  Some (str, mk_rbuf buf i over (nb_filled b) stat).

Definition close_buffer (str : list Z) (r : rbuf) (b : nod_buffer) : nod_buffer :=
  mk_buffer (Some (rb_buffer r)) (Some str) (Some (rb_info r)) (nb_event_count b)
    (Some (rb_over r)) (rb_filled r).

(** [do_record_one_event]: [cbret], the process, the task and the statistics;
    [None] is running out of fuel, [Some None] a fault. *)
Definition do_record_one_event (fuel : nat) (env : rec_env) (event_type : Z) (data : nod_event_data)
    (p : nod_proc_info) (t : T) (stat : nod_event_statistic)
    : option (option (Z * nod_proc_info * T * nod_event_statistic)) :=
  match open_buffer (p_buffer p) stat with
  | None => Some None
  | Some (str, b) =>
      match record_event fuel env event_type (p_entry_addr p) data str b with
      | None => None
      | Some None => Some None
      | Some (Some a) =>
          let p := set_buffer (close_buffer (fa_str (at_args a)) (at_buf a) (p_buffer p)) p in
          let stat := rb_stat (at_buf a) in
          Some (Some (if at_force a
                      then let '(r, p, t) := nod_load_monitor p t in (r, p, t, stat)
                      else (at_cbret a, p, t, stat)))
      end
  end.

(** [record_one_event] logs a negative result and returns it. *)
Definition record_one_event := do_record_one_event.
End do_record.
