(* ===== verification/EventCodec.v ===== *)
(** * The format of a recorded event

    [encode e] is the layout of [struct nod_event_hdr] followed by the sizes and
    the bytes of the parameters; [decode] reads it the way the monitor does: the
    next event starts [hdr->len] bytes further on, and parameter [i] lies behind
    the [args[i]] of the parameters before it.  [decode] inverts [encode], also
    for a sequence of events. *)

From S2P Require Import Prelude Kernel Tables Ring RingFacts ProcState Events.

Local Open Scope Z_scope.

Record event := mk_event_ {
  e_ts : Z; e_tid : Z; e_cpuid : Z; e_type : Z;
  e_params : list (list Z)
}.

Definition event_len (e : event) : Z := HDR_SIZE + 2 * zlen (e_params e) + zlen (concat (e_params e)).

Definition encode_hdr (e : event) : list Z :=
  le_bytes 8 (e_ts e) ++ le_bytes 4 (e_tid e) ++ le_bytes 2 (e_cpuid e) ++ le_bytes 2 (e_type e) ++
  le_bytes 4 (event_len e) ++ le_bytes 4 (zlen (e_params e)) ++ le_bytes 4 NOD_EVENT_HDR_MAGIC.

Definition encode (e : event) : list Z := encode_hdr e ++ size_bytes (e_params e) ++ concat (e_params e).

Definition encode_all (es : list event) : list Z := concat (map encode es).

(** The fields are within the width of their C types. *)
Record event_ok (e : event) : Prop := {
  eo_ts : 0 <= e_ts e < 2 ^ 64;
  eo_tid : 0 <= e_tid e < 2 ^ 32;
  eo_cpuid : 0 <= e_cpuid e < 2 ^ 16;
  eo_type : 0 <= e_type e < 2 ^ 16;
  eo_len : event_len e < 2 ^ 32;
  eo_params : Forall (fun p => zlen p < 2 ^ 16) (e_params e)
}.

(** ** Reading *)

(** Read the field of [n] bytes at the start. *)
Definition take_le (n : nat) (bs : list Z) : option (Z * list Z) :=
  if Z.of_nat n <=? zlen bs then Some (le_val (ztake (Z.of_nat n) bs), zdrop (Z.of_nat n) bs) else None.

(** [args[i]] for the [n] parameters. *)
Fixpoint take_sizes (n : nat) (bs : list Z) : option (list Z * list Z) :=
  match n with
  | O => Some ([], bs)
  | S n => '(s, bs) ← take_le 2 bs; '(ss, bs) ← take_sizes n bs; Some (s :: ss, bs)
  end.

(** [data += args[i]] *)
Fixpoint take_params (sizes : list Z) (bs : list Z) : option (list (list Z) * list Z) :=
  match sizes with
  | [] => Some ([], bs)
  | s :: sizes =>
      if s <=? zlen bs
      then '(ps, rest) ← take_params sizes (zdrop s bs); Some (ztake s bs :: ps, rest)
      else None
  end.

(** One event and what follows it. *)
Definition decode (bs : list Z) : option (event * list Z) :=
  '(ts, r) ← take_le 8 bs; '(tid, r) ← take_le 4 r; '(cpuid, r) ← take_le 2 r; '(type, r) ← take_le 2 r;
  '(len, r) ← take_le 4 r; '(nargs, r) ← take_le 4 r; '(magic, r) ← take_le 4 r;
  if negb (magic =? NOD_EVENT_HDR_MAGIC) then None else
  '(sizes, r) ← take_sizes (Z.to_nat nargs) r;
  '(ps, _) ← take_params sizes r;
  Some (mk_event_ ts tid cpuid type ps, zdrop len bs).

Fixpoint decode_all (n : nat) (bs : list Z) : option (list event) :=
  match n with
  | O => match bs with [] => Some [] | _ => None end
  | S n => '(e, rest) ← decode bs; es ← decode_all n rest; Some (e :: es)
  end.

(** ** Round trip *)

Lemma take_le_app n x bs : take_le n (le_bytes n x ++ bs) = Some (unsigned (8 * Z.of_nat n) x, bs).
Proof.
  unfold take_le. pose proof (zlen_nonneg bs). rewrite zlen_app, zlen_le_bytes.
  rewrite (proj2 (Z.leb_le _ _)) by lia.
  rewrite ztake_app_exact, zdrop_app_exact by (by rewrite zlen_le_bytes). by rewrite le_val_bytes.
Qed.

Lemma take_sizes_app ps bs : Forall (fun p => zlen p < 2 ^ 16) ps ->
  take_sizes (length ps) (size_bytes ps ++ bs) = Some (map zlen ps, bs).
Proof.
  induction 1 as [|p ps Hp Hps IH]; [done|]. cbn [length take_sizes map].
  unfold size_bytes. cbn [map concat]. fold (size_bytes ps). rewrite <- app_assoc, take_le_app. cbn [mbind option_bind].
  rewrite IH. cbn. rewrite unsigned_small; [done|]. pose proof (zlen_nonneg p). lia.
Qed.

Lemma take_params_app ps bs : take_params (map zlen ps) (concat ps ++ bs) = Some (ps, bs).
Proof.
  induction ps as [|p ps IH]; [done|]. cbn [map take_params concat]. rewrite <- app_assoc.
  pose proof (zlen_nonneg (concat ps ++ bs)). rewrite zlen_app, (proj2 (Z.leb_le _ _)) by lia.
  rewrite zdrop_app_exact, IH by done. cbn. by rewrite ztake_app_exact.
Qed.

Lemma zlen_encode_hdr e : zlen (encode_hdr e) = HDR_SIZE.
Proof. unfold encode_hdr. by rewrite !zlen_app, !zlen_le_bytes. Qed.

Lemma zlen_size_bytes ps : zlen (size_bytes ps) = 2 * zlen ps.
Proof.
  induction ps as [|p ps IH]; [done|]. unfold size_bytes in *. cbn [map concat].
  rewrite zlen_app, zlen_le_bytes, zlen_cons, IH. lia.
Qed.

Lemma zlen_encode e : zlen (encode e) = event_len e.
Proof. unfold encode, event_len. rewrite !zlen_app, zlen_encode_hdr, zlen_size_bytes. lia. Qed.

Lemma event_len_pos e : HDR_SIZE <= event_len e.
Proof.
  unfold event_len. pose proof (zlen_nonneg (e_params e)). pose proof (zlen_nonneg (concat (e_params e))). lia.
Qed.

Lemma decode_encode e bs : event_ok e -> decode (encode e ++ bs) = Some (e, bs).
Proof.
  intros []. assert (zdrop (event_len e) (encode e ++ bs) = bs) as Hd
    by (apply zdrop_app_exact; by rewrite zlen_encode).
  pose proof (event_len_pos e). pose proof (zlen_nonneg (e_params e)).
  pose proof (zlen_nonneg (concat (e_params e))). unfold HDR_SIZE in *.
  unfold decode. unfold encode at 2, encode_hdr. rewrite <- !app_assoc.
  do 7 (rewrite take_le_app; cbn [mbind option_bind]).
  rewrite !unsigned_small; [|unfold event_len, HDR_SIZE in *; lia || (by vm_compute)..].
  rewrite Z.eqb_refl. cbn [negb].
  replace (Z.to_nat (zlen (e_params e))) with (length (e_params e)) by (unfold zlen; lia).
  rewrite take_sizes_app by done. cbn [mbind option_bind]. rewrite take_params_app. cbn [mbind option_bind].
  rewrite Hd. by destruct e.
Qed.

Lemma decode_all_encode es : Forall event_ok es -> decode_all (length es) (encode_all es) = Some es.
Proof.
  induction 1 as [|e es He Hes IH]; [done|]. cbn [length decode_all].
  change (encode_all (e :: es)) with (encode e ++ encode_all es).
  rewrite decode_encode by done. cbn [mbind option_bind]. by rewrite IH.
Qed.

Lemma encode_all_app es es' : encode_all (es ++ es') = encode_all es ++ encode_all es'.
Proof. unfold encode_all. by rewrite map_app, concat_app. Qed.

Lemma encode_all_one e : encode_all [e] = encode e.
Proof. unfold encode_all. cbn. apply app_nil_r. Qed.
