(* ===== verification/EventsFacts.v ===== *)
(** * Recording refines a queue of events

    The abstract state is the list of events in the buffer and the event of the
    overflow page.  [queue b q] relates it to the memory: the bytes below [tail]
    are the encodings of the events, one after the other.  An attempt to record
    an event either appends it, or puts it on the overflow page, or leaves the
    queue alone. *)

From S2P Require Import Prelude Kernel Tables Ring RingFacts FillerLib Fillers FillerFacts FillerSpecs.
From S2P Require Import FillerTable ProcState Events EventCodec.

Local Open Scope Z_scope.

(** ** Representation *)

Record buf_wf (b : rbuf) : Prop := {
  bw_len : zlen (rb_buffer b) = buffer_size (rb_info b);
  bw_size : PAGE_SIZE <= buffer_size (rb_info b) < 2 ^ 32;
  bw_over : zlen (rb_over b) = PAGE_SIZE
}.

Record holds (b : rbuf) (evs : list event) : Prop := {
  ho_wf : buf_wf b;
  ho_tail : tail (rb_info b) = zlen (encode_all evs);
  ho_cap : tail (rb_info b) <= buffer_size (rb_info b);
  ho_data : ztake (tail (rb_info b)) (rb_buffer b) = encode_all evs;
  ho_nevents : nevents (rb_info b) = zlen evs;
  ho_ok : Forall event_ok evs
}.

Definition pending (b : rbuf) (o : option event) : Prop :=
  match o with
  | None => rb_filled b = 0
  | Some e => rb_filled b = 1 /\ event_ok e /\ event_len e <= PAGE_SIZE /\
              ztake (event_len e) (rb_over b) = encode e
  end.

(** Events in the buffer and the event on the overflow page. *)
Definition equeue : Type := list event * option event.

Definition queue (b : rbuf) (q : equeue) : Prop := holds b q.1 /\ pending b q.2.

(** ** Memory *)

Lemma zwrite_mid {A} (a y c x : list A) off :
  off = zlen a -> zlen x = zlen y -> zwrite off x (a ++ y ++ c) = Some (a ++ x ++ c).
Proof.
  intros -> Hx. pose proof (zlen_nonneg a). pose proof (zlen_nonneg c).
  rewrite zwrite_Some by (rewrite ?zlen_app; lia). rewrite ztake_app_exact by done.
  rewrite zdrop_app_r by (pose proof (zlen_nonneg x); lia).
  replace (zlen a + zlen x - zlen a) with (zlen y) by lia. by rewrite zdrop_app_exact.
Qed.

Lemma zread_mid {A} (a y c : list A) off n :
  off = zlen a -> n = zlen y -> zread off n (a ++ y ++ c) = Some y.
Proof.
  intros -> ->. pose proof (zlen_nonneg a). pose proof (zlen_nonneg y). pose proof (zlen_nonneg c).
  rewrite zread_Some by (rewrite ?zlen_app; lia). unfold zslice.
  by rewrite zdrop_app_exact, ztake_app_exact.
Qed.

Lemma split_at {A} n (l : list A) : 0 <= n <= zlen l -> exists a c, l = a ++ c /\ zlen a = n.
Proof. intros. exists (ztake n l), (zdrop n l). by rewrite ztake_zdrop, zlen_ztake. Qed.

(** The memory of an event: what lies before it, the four parts of its header and
    its region, and what lies behind. *)
Lemma split_mem (mem : list Z) at_ bsize : 0 <= at_ -> 0 <= bsize -> at_ + HDR_SIZE + bsize <= zlen mem ->
  exists a f l n r c, mem = a ++ f ++ l ++ n ++ r ++ c /\
    zlen a = at_ /\ zlen f = 16 /\ zlen l = 4 /\ zlen n = 8 /\ zlen r = bsize.
Proof.
  unfold HDR_SIZE. intros Ha Hb Hl.
  destruct (split_at at_ mem) as (a & m1 & -> & La); [lia|]. rewrite zlen_app in Hl.
  destruct (split_at 16 m1) as (f & m2 & -> & Lf); [lia|]. rewrite zlen_app in Hl.
  destruct (split_at 4 m2) as (l & m3 & -> & Ll); [lia|]. rewrite zlen_app in Hl.
  destruct (split_at 8 m3) as (n & m4 & -> & Ln); [lia|]. rewrite zlen_app in Hl.
  destruct (split_at bsize m4) as (r & c & -> & Lr); [lia|].
  exists a, f, l, n, r, c. done.
Qed.

Lemma zlen_hdr_fields env et : zlen (hdr_fields env et) = 16.
Proof. unfold hdr_fields. by rewrite !zlen_app, !zlen_le_bytes. Qed.

Lemma write_hdr_split env et nargs (a f l n r c : list Z) :
  zlen f = 16 -> zlen l = 4 -> zlen n = 8 ->
  write_hdr env et nargs (zlen a) (a ++ f ++ l ++ n ++ r ++ c) =
  Some (a ++ hdr_fields env et ++ l ++ (le_bytes 4 nargs ++ le_bytes 4 NOD_EVENT_HDR_MAGIC) ++ r ++ c).
Proof.
  intros Lf Ll Ln. unfold write_hdr. rewrite zwrite_mid by (by rewrite ?zlen_hdr_fields). cbn [mbind option_bind].
  rewrite (app_assoc (hdr_fields env et)), (app_assoc a).
  rewrite zwrite_mid by (rewrite ?zlen_app, ?zlen_hdr_fields, ?zlen_le_bytes; lia).
  by rewrite <- !app_assoc.
Qed.

Lemma table_get_all {A} (f : A -> bool) d t i :
  f d = true -> forallb (fun x => f x.2) t = true -> f (table_get d t i) = true.
Proof.
  intros Hd. induction t as [|[k x] t IH]; cbn [table_get forallb]; [done|].
  intros [Hx Ht]%andb_true_iff. destruct (k =? i); auto.
Qed.

Lemma nparams_bound et : 0 <= ei_nparams (g_event_info et) <= NOD_MAX_EVENT_PARAMS.
Proof.
  pose proof (table_get_all (fun i => (0 <=? ei_nparams i) && (ei_nparams i <=? NOD_MAX_EVENT_PARAMS))
    zero_event g_event_info_init et ltac:(by vm_compute) ltac:(by vm_compute)) as H.
  apply andb_true_iff in H as [?%Z.leb_le ?%Z.leb_le]. done.
Qed.

Section facts.
Context {K : Kernel} {KO : KernelOk K}.

(** What recording needs of the environment. *)
Record env_ok (env : rec_env) : Prop := {
  en_ts : 0 <= re_ts env < 2 ^ 64;
  en_pid : 0 <= re_pid env < 2 ^ 32;
  en_cpu : 0 <= re_cpu env < 2 ^ 16
}.

(** The event can be recorded: its table entries are consistent and its filler
    meets no assertion. *)
Definition recordable (et : Z) (data : nod_event_data) : Prop :=
  0 <= et < NODE_EVENT_MAX /\ event_fits et = true /\
  forall f, filler_callback (g_nod_events et) = Some f ->
    filler_pre f (if ed_category data =? NODC_SYSCALL then u32 (ed_id data) else u32 (-1)) false.

(** A first attempt starts with no parameter. *)
Lemma first_attempt_at b str et data env region bsize :
  zlen str = PAGE_SIZE -> zlen region = bsize -> 2 * ei_nparams (g_event_info et) <= bsize < 2 ^ 32 ->
  at_arg et 0 (attempt_args region bsize (init_args b str et (ei_nparams (g_event_info et)) data env)).
Proof.
  intros Ls Lr Hb. pose proof (nparams_bound et) as Hn. unfold NOD_MAX_EVENT_PARAMS in Hn.
  set (nargs := ei_nparams (g_event_info et)) in *. clearbody nargs. split; [done|]. exists [].
  split; [|done]. unfold attempt_args, init_args. cbn [fa_str fa_event_type fa_nevents fa_syscall_nr fa_nargs fa_arg_data_offset fa_snaplen fa_is_socketcall fa_fd].
  assert (u32 (nargs * 2) = 2 * nargs) as ->
    by (unfold u32; rewrite unsigned_small; lia).
  constructor; cbn -[Z.mul Z.add zlen]; [|done|change (zlen (@nil Z)) with 0; lia|done| |constructor].
  - constructor; cbn; try done; unfold NOD_MAX_EVENT_PARAMS; try lia.
    + unfold u32. apply unsigned_bound. lia.
    + unfold u32. rewrite unsigned_small; lia.
  - done.
Qed.

(** The memory of the event after an attempt. *)
Lemma record_attempt_mem env restart freespace force args b (over : bool) a f l n r c cbret args' :
  over = ((freespace <? fa_arg_data_offset args + HDR_SIZE) || restart) ->
  (if over then rb_over b else rb_buffer b) = a ++ f ++ l ++ n ++ r ++ c ->
  zlen a = (if over then 0 else tail (rb_info b)) -> zlen f = 16 -> zlen l = 4 -> zlen n = 8 ->
  zlen r = (if over then PAGE_SIZE - HDR_SIZE else u32 (freespace - HDR_SIZE)) ->
  match nod_filler_callback (attempt_args r (zlen r) args) with
  | Done _ x => cbret = NOD_SUCCESS /\ x = args'
  | Ret code x => cbret = code /\ x = args'
  | Bug => False
  end ->
  zlen (fa_buf args') = zlen r ->
  record_attempt env restart freespace force args b =
  Some (finish_attempt over force cbret args'
    (a ++ hdr_fields env (fa_event_type args) ++
     (if complete cbret args' then le_bytes 4 (event_size args') else l) ++
     (le_bytes 4 (fa_nargs args) ++ le_bytes 4 NOD_EVENT_HDR_MAGIC) ++ fa_buf args' ++ c) b).
Proof.
  intros Hov Hmem La Lf Ll Ln Lr Hcb Lb. unfold record_attempt. cbv zeta. rewrite <- Hov, Hmem, <- La, <- Lr.
  rewrite write_hdr_split by done. cbn [mbind option_bind].
  set (N := le_bytes 4 (fa_nargs args) ++ le_bytes 4 NOD_EVENT_HDR_MAGIC).
  assert (zlen N = 8) as LN by (unfold N; by rewrite zlen_app, !zlen_le_bytes).
  set (F := hdr_fields env (fa_event_type args)). assert (zlen F = 16) as LF by apply zlen_hdr_fields.
  assert (forall x, a ++ F ++ l ++ N ++ x = (a ++ F ++ l ++ N) ++ x) as Ea by (intros; by rewrite <- !app_assoc).
  assert (zlen (a ++ F ++ l ++ N) = zlen a + HDR_SIZE) as LA by (rewrite !zlen_app; unfold HDR_SIZE; lia).
  rewrite Ea, zread_mid by done. cbn [mbind option_bind].
  assert (match nod_filler_callback (attempt_args r (zlen r) args) with
          | Done _ x => Some (NOD_SUCCESS, x) | Ret code x => Some (code, x) | Bug => None end = Some (cbret, args')) as ->.
  { destruct (nod_filler_callback _); [destruct Hcb as [-> ->]..|]; done. }
  cbn [mbind option_bind]. rewrite zwrite_mid by done. cbn [mbind option_bind]. rewrite <- Ea.
  destruct (complete cbret args'); [|done].
  rewrite (app_assoc a), zwrite_mid by (rewrite ?zlen_app, ?zlen_le_bytes; lia). cbn [mbind option_bind].
  by rewrite <- app_assoc.
Qed.

(** The region of a finished event. *)
Lemma rep_bytes st ps : ring_rep st ps -> zlen ps = fa_nargs st ->
  exists rest, fa_buf st = size_bytes ps ++ concat ps ++ rest.
Proof.
  intros [Hi _ Ho Hs Hd _] Hn. destruct Hi. rewrite zlen_nil, Z.add_0_r, app_nil_r in *.
  pose proof (zlen_nonneg (concat ps)). pose proof (zlen_nonneg ps).
  exists (zdrop (zlen (concat ps)) (zdrop (2 * zlen ps) (fa_buf st))).
  rewrite <- Hs, <- Hd at 1. unfold zslice. rewrite <- Hn. by rewrite ztake_zdrop, ztake_zdrop.
Qed.

Definition event_of (env : rec_env) (et : Z) (ps : list (list Z)) : event :=
  mk_event_ (re_ts env) (re_pid env) (re_cpu env) et ps.

Lemma encode_event_of env et ps :
  encode (event_of env et ps) =
  hdr_fields env et ++ le_bytes 4 (event_len (event_of env et ps)) ++
  (le_bytes 4 (zlen ps) ++ le_bytes 4 NOD_EVENT_HDR_MAGIC) ++ size_bytes ps ++ concat ps.
Proof. unfold encode, encode_hdr, hdr_fields, event_of. cbn [e_ts e_tid e_cpuid e_type e_params]. by rewrite <- !app_assoc. Qed.

Lemma encode_all_len evs : 28 * zlen evs <= zlen (encode_all evs).
Proof.
  induction evs as [|e evs IH]; [done|]. change (encode_all (e :: evs)) with (encode e ++ encode_all evs).
  rewrite zlen_app, zlen_encode, zlen_cons. pose proof (event_len_pos e). unfold HDR_SIZE in *. lia.
Qed.

(** Appending an event behind [tail]. *)
Lemma holds_append b evs e rest stat :
  holds b evs -> event_ok e ->
  zlen (encode_all evs ++ encode e ++ rest) = buffer_size (rb_info b) ->
  let i := rb_info b in
  holds (mk_rbuf (encode_all evs ++ encode e ++ rest)
           (mk_info (u64 (nevents i + 1)) (u32 (tail i + event_len e)) (n_solved_evts i) (buffer_size i))
           (rb_over b) (rb_filled b) stat) (evs ++ [e]).
Proof.
  intros [[Hl Hsz Hov] Ht Hc Hd Hn Hok] He Hlen. cbv zeta. rewrite !zlen_app, zlen_encode in Hlen.
  pose proof (encode_all_len evs). pose proof (zlen_nonneg evs). pose proof (zlen_nonneg rest). pose proof (event_len_pos e).
  unfold HDR_SIZE, PAGE_SIZE in *.
  assert (u32 (tail (rb_info b) + event_len e) = zlen (encode_all evs) + event_len e) as Et
    by (unfold u32; rewrite unsigned_small; lia).
  constructor; cbn [rb_info rb_buffer rb_over tail buffer_size nevents]; rewrite ?Et, ?encode_all_app, ?encode_all_one.
  - constructor; cbn; [|done|done]. rewrite !zlen_app, zlen_encode. done.
  - by rewrite zlen_app, zlen_encode.
  - lia.
  - rewrite app_assoc. apply ztake_app_exact. by rewrite zlen_app, zlen_encode.
  - rewrite zlen_app, zlen_cons, zlen_nil, Hn. unfold u64. rewrite unsigned_small by lia. lia.
  - apply Forall_app. split; [done|]. by constructor.
Qed.

(** What an attempt leaves behind: the abstract queue [q] after recording [e]
    when it succeeded, the old events when it did not. *)
Definition attempt_post (env : rec_env) (et : Z) (b : rbuf) (evs : list event) (over force : bool)
    (a : attempt) : Prop :=
  zlen (fa_str (at_args a)) = PAGE_SIZE /\
  if at_cbret a =? NOD_SUCCESS then
    exists ps, let e := event_of env et ps in
    zlen ps = ei_nparams (g_event_info et) /\ event_ok e /\
    if over then queue (at_buf a) (evs, Some e) /\ at_force a = true /\ rb_stat (at_buf a) = rb_stat b
    else queue (at_buf a) (evs ++ [e], None) /\ at_force a = force /\
         rb_stat (at_buf a) = count_event (rb_stat b)
  else
    holds (at_buf a) evs /\ rb_filled (at_buf a) = (if over then 1 else 0) /\ at_force a = over || force /\
    rb_stat (at_buf a) = (if at_cbret a =? NOD_FAILURE_BUFFER_FULL then rb_stat b else count_drop (rb_stat b)).

Lemma event_of_ok env et ps :
  env_ok env -> 0 <= et < NODE_EVENT_MAX -> Forall (fun p => zlen p < 2 ^ 16) ps ->
  event_len (event_of env et ps) < 2 ^ 32 -> event_ok (event_of env et ps).
Proof. intros [] Het Hps Hl. unfold NODE_EVENT_MAX in Het. constructor; cbn; try done; lia. Qed.

(** The overflow page, the flag and the statistics are not part of [holds]. *)
Lemma holds_over b evs over filled stat :
  holds b evs -> zlen over = PAGE_SIZE -> holds (mk_rbuf (rb_buffer b) (rb_info b) over filled stat) evs.
Proof. intros [[]] Hz. constructor; [by constructor|done..]. Qed.

Lemma finish_success env et (over force : bool) args b evs a rest ps :
  holds b evs -> rb_filled b = 0 -> env_ok env -> 0 <= et < NODE_EVENT_MAX ->
  ring_rep args ps -> zlen ps = fa_nargs args -> zlen ps = ei_nparams (g_event_info et) ->
  a = (if over then [] else encode_all evs) ->
  zlen (a ++ encode (event_of env et ps) ++ rest) = (if over then PAGE_SIZE else buffer_size (rb_info b)) ->
  attempt_post env et b evs over force
    (finish_attempt over force NOD_SUCCESS args (a ++ encode (event_of env et ps) ++ rest) b).
Proof.
  intros Hq Hfil Henv Het Hr Hn Hne -> Hlen. pose proof Hq as [[Hl Hsz Hov] Ht Hc Hd Hnev Hok].
  pose proof Hr as [Hi Hcur Hoff _ _ Hsm]. pose proof Hi as []. rewrite zlen_nil in Hoff.
  assert (event_size args = event_len (event_of env et ps)) as Es
    by (unfold event_size, event_len; cbn [event_of e_params]; lia).
  assert (complete NOD_SUCCESS args = true) as Ec
    by (unfold complete; rewrite Hcur, Hn, !Z.eqb_refl; done).
  pose proof (zlen_nonneg (encode_all evs)). pose proof (zlen_nonneg rest). unfold PAGE_SIZE in *.
  rewrite !zlen_app, zlen_encode in Hlen.
  assert (event_ok (event_of env et ps)) as Hev
    by (apply event_of_ok; [done..|]; destruct over; [rewrite zlen_nil in Hlen|]; lia).
  unfold attempt_post, finish_attempt. rewrite Ec. cbn [at_args at_cbret at_buf at_force negb andb Z.eqb NOD_SUCCESS].
  split; [done|]. exists ps. split; [done|]. split; [done|]. rewrite Hfil, Es. destruct over; cbn [orb Z.eqb andb].
  - split; [|done]. cbn [app]. rewrite zlen_nil in Hlen.
    split; [apply holds_over; [done|]; rewrite zlen_app, zlen_encode; unfold PAGE_SIZE; lia|]. cbn [pending snd rb_filled rb_over].
    unfold PAGE_SIZE. split_and!; [done|done|lia|].
    apply ztake_app_exact. by rewrite zlen_encode.
  - split; [|done]. split; [|done]. cbn [fst]. rewrite <- Hfil.
    apply (holds_append b evs (event_of env et ps) rest); [done..|]. rewrite !zlen_app, zlen_encode. lia.
Qed.

Lemma finish_failure env et (over force : bool) cbret args b evs a rest :
  holds b evs -> rb_filled b = 0 -> ring_inv args -> cbret <> NOD_SUCCESS ->
  a = (if over then [] else encode_all evs) ->
  zlen (a ++ rest) = (if over then PAGE_SIZE else buffer_size (rb_info b)) ->
  attempt_post env et b evs over force (finish_attempt over force cbret args (a ++ rest) b).
Proof.
  intros Hq Hfil [] Hcb -> Hlen. pose proof Hq as [[Hl Hsz Hov] Ht Hc Hd Hnev Hok].
  assert (complete cbret args = false) as Ec by (unfold complete; destruct (Z.eqb_spec cbret NOD_SUCCESS); done).
  unfold attempt_post, finish_attempt. rewrite Ec. cbn [at_args at_cbret at_buf at_force negb andb].
  destruct (Z.eqb_spec cbret NOD_SUCCESS); [done|]. cbn [negb andb].
  split; [done|]. split; [|destruct over, (cbret =? NOD_FAILURE_BUFFER_FULL); done].
  destruct over; constructor; cbn [rb_info rb_buffer rb_over tail buffer_size nevents]; try done.
  rewrite Ht. by apply ztake_app_exact.
Qed.

(** ** The first attempt *)

Section first.
Context (env : rec_env) (force : bool) (b : rbuf) (str : list Z) (et : Z) (data : nod_event_data) (evs : list event).
Context (Henv : env_ok env) (Hstr : zlen str = PAGE_SIZE) (Hrec : recordable et data) (Hq : holds b evs) (Hfil : rb_filled b = 0).
Let nargs : Z := ei_nparams (g_event_info et).
Let freespace : Z := buffer_size (rb_info b) - tail (rb_info b).
Let over : bool := freespace <? 2 * nargs + HDR_SIZE.
Let args : fargs := init_args b str et nargs data env.
Let bsize : Z := if over then PAGE_SIZE - HDR_SIZE else u32 (freespace - HDR_SIZE).
Let mem : list Z := if over then rb_over b else rb_buffer b.
Let front : list Z := if over then [] else encode_all evs.
Let size : Z := if over then PAGE_SIZE else buffer_size (rb_info b).

Lemma first_offset : over = (freespace <? fa_arg_data_offset args + HDR_SIZE) || false.
Proof using Type.
  pose proof (nparams_bound et) as Hn. unfold NOD_MAX_EVENT_PARAMS in Hn. fold nargs in Hn.
  assert (fa_arg_data_offset args = 2 * nargs) as ->; [|by rewrite orb_false_r].
  unfold args, init_args, u32. cbn [fa_arg_data_offset]. rewrite unsigned_small; lia.
Qed.

(** The memory of the attempt: the events in front, the parts of the header, the region of the parameters, the rest. *)
Lemma first_place : exists f l n r c, mem = front ++ f ++ l ++ n ++ r ++ c /\
  zlen front = (if over then 0 else tail (rb_info b)) /\ zlen f = 16 /\ zlen l = 4 /\ zlen n = 8 /\ zlen r = bsize /\ 2 * nargs <= bsize < 2 ^ 32 /\
  forall x : list Z, zlen x = 28 + bsize -> zlen (front ++ x ++ c) = size.
Proof using Hq.
  pose proof (nparams_bound et) as Hn. unfold NOD_MAX_EVENT_PARAMS in Hn. fold nargs in Hn.
  pose proof Hq as [[Hl Hsz Hov] Ht Hc Hd Hne Hok]. pose proof (zlen_nonneg (encode_all evs)).
  set (at_ := if over then 0 else tail (rb_info b)).
  assert (2 * nargs <= bsize < 2 ^ 32 /\ 0 <= at_ /\ at_ + HDR_SIZE + bsize <= zlen mem) as (Hbs & Hat & Hmem).
  { unfold bsize, at_, mem, over, freespace, HDR_SIZE, PAGE_SIZE in *. destruct (Z.ltb_spec (buffer_size (rb_info b) - tail (rb_info b)) (2 * nargs + 28)).
    - lia.
    - unfold u32. rewrite unsigned_small by lia. lia. }
  destruct (split_mem mem at_ bsize Hat ltac:(lia) Hmem) as (a & f & l & n & r & c & Em & La & Lf & Ll & Ln & Lr).
  assert (a = front) as ->.
  { unfold at_, mem, front in *. destruct over.
    - by destruct a; [|rewrite zlen_cons in La; pose proof (zlen_nonneg a); lia].
    - rewrite <- Hd, Em. symmetry. by apply ztake_app_exact. }
  exists f, l, n, r, c. repeat (split; [done|]). intros x Hx.
  transitivity (zlen mem); [rewrite Em, !zlen_app; lia|unfold mem, size; by destruct over].
Qed.

(** The bytes of an attempt whose filler succeeds are those of the event. *)
Lemma first_bytes st ps x : ring_rep st ps -> zlen ps = nargs -> fa_nargs st = nargs -> exists rest,
  hdr_fields env et ++ le_bytes 4 (event_size st) ++ (le_bytes 4 nargs ++ le_bytes 4 NOD_EVENT_HDR_MAGIC) ++ fa_buf st ++ x =
    encode (event_of env et ps) ++ rest ++ x /\ zlen (encode (event_of env et ps) ++ rest) = 28 + zlen (fa_buf st).
Proof.
  clear Hrec Hq Hfil bsize mem front size over freespace args.
  intros Hr Hps En. destruct (rep_bytes st ps Hr) as [rest Hrest]; [by rewrite En|]. exists rest.
  assert (event_size st = event_len (event_of env et ps)) as ->.
  { unfold event_size, event_len. rewrite (rp_off _ _ _ Hr), En, zlen_nil. cbn [event_of e_params]. lia. }
  split; [by rewrite encode_event_of, Hrest, Hps, <- !app_assoc|].
  rewrite Hrest, !zlen_app, zlen_encode, zlen_size_bytes. unfold event_len, HDR_SIZE. cbn [event_of e_params]. lia.
Qed.

Lemma record_attempt_first : exists a, record_attempt env false freespace force args b = Some a /\ attempt_post env et b evs over force a.
Proof using Henv Hstr Hrec Hq Hfil KO.
  destruct Hrec as (Het & Hfit & Hpre). destruct first_place as (f & l & n & r & c & Em & La & Lf & Ll & Ln & Lr & Hbs & Hz).
  assert (at_arg et 0 (attempt_args r bsize args)) as Hat0 by (by apply first_attempt_at).
  pose proof (nod_filler_callback_ok et (attempt_args r bsize args) Het Hfit Hat0 Hpre) as Hwp.
  unfold wp in Hwp. destruct (nod_filler_callback (attempt_args r bsize args)) as [[] st'|code st'|] eqn:Ecb; [..|done].
  - destruct Hwp as [Hfr (_ & ps & Hr & Hps)]. fold nargs in Hps. pose proof (fr_nargs _ _ Hfr : fa_nargs st' = nargs) as En.
    assert (zlen (fa_buf st') = bsize) as Lb by (destruct (rp_inv _ _ _ Hr) as [-> _ _ _ _ _ _ _ _]; by rewrite (fr_bsize _ _ Hfr)).
    eexists. split; [eapply (record_attempt_mem _ _ _ _ _ _ over front f l n r c NOD_SUCCESS st'); try done; [by rewrite <- first_offset|by rewrite Lr, Ecb|by rewrite Lr]|].
    assert (complete NOD_SUCCESS st' = true) as -> by (unfold complete; rewrite (rp_cur _ _ _ Hr), Hps, En, !Z.eqb_refl; done).
    change (fa_nargs args) with nargs. change (fa_event_type args) with et.
    destruct (first_bytes st' ps c Hr Hps En) as (rest & -> & Hlen).
    apply finish_success; try done; [by rewrite En|]. rewrite (app_assoc _ rest). apply Hz. lia.
  - destruct Hwp as (Hfr & Hi & Hcode).
    assert (zlen (fa_buf st') = bsize) as Lb by (destruct Hi as [-> _ _ _ _ _ _ _ _]; by rewrite (fr_bsize _ _ Hfr)).
    eexists. split; [eapply (record_attempt_mem _ _ _ _ _ _ over front f l n r c code st'); try done; [by rewrite <- first_offset|by rewrite Lr, Ecb|by rewrite Lr]|].
    assert (complete code st' = false) as -> by (unfold complete; destruct (Z.eqb_spec code NOD_SUCCESS); done).
    apply finish_failure; try done. fold size. rewrite <- (Hz (f ++ l ++ n ++ r)) by (rewrite !zlen_app; lia).
    rewrite !zlen_app, zlen_hdr_fields, !zlen_le_bytes. lia.
Qed.
End first.
End facts.

(** ** The overflow page moves to the buffer *)

Lemma encode_len_field e : zslice 16 4 (encode e) = le_bytes 4 (event_len e).
Proof.
  unfold encode, encode_hdr. rewrite <- !app_assoc. unfold zslice.
  rewrite 4!app_assoc. rewrite <- !app_assoc.
  assert (forall f x : list Z, zlen f = 16 -> zdrop 16 (f ++ x) = x) as H by (intros; by apply zdrop_app_exact).
  rewrite (app_assoc (le_bytes 8 _)), (app_assoc (_ ++ le_bytes 4 _)), (app_assoc (_ ++ le_bytes 2 _)).
  rewrite H by (by rewrite !zlen_app, !zlen_le_bytes). by apply ztake_app_exact.
Qed.

Lemma flush_pending b e :
  queue b ([], Some e) ->
  exists b', flush_overflow b = Some b' /\ queue b' ([e], None) /\ rb_stat b' = count_event (rb_stat b) /\
    buffer_size (rb_info b') = buffer_size (rb_info b).
Proof.
  intros [[[Hl Hsz Hov] Ht Hc Hd Hn Hok] (Hf & He & Hle & Hp)]. cbn [fst] in *.
  pose proof (event_len_pos e). unfold HDR_SIZE, PAGE_SIZE in *.
  assert (le_val (zslice 16 4 (rb_over b)) = event_len e) as El.
  { rewrite <- (zslice_ztake 16 4 (event_len e)) by lia. rewrite Hp, encode_len_field, le_val_bytes.
    apply unsigned_small. destruct He. lia. }
  unfold flush_overflow. rewrite Hf. cbn [Z.eqb]. cbv zeta. rewrite El.
  assert (zread 0 (event_len e) (rb_over b) = Some (encode e)) as ->.
  { rewrite zread_Some by lia. unfold zslice. by rewrite zdrop_0, Hp. }
  cbn [mbind option_bind]. rewrite zwrite_Some by (rewrite ?zlen_encode; lia). cbn [mbind option_bind].
  rewrite ztake_0. cbn [app]. eexists. split; [done|]. split; [|done]. split; [|done].
  constructor; cbn [fst rb_info rb_buffer rb_over tail nevents buffer_size]; rewrite ?encode_all_one, ?zlen_encode.
  - constructor; cbn [rb_info rb_buffer rb_over buffer_size]; [|unfold PAGE_SIZE; lia|done].
    rewrite zlen_app, zlen_zdrop, zlen_encode by (rewrite ?zlen_encode; lia). lia.
  - done.
  - lia.
  - apply ztake_app_exact. by rewrite zlen_encode.
  - rewrite Hn. done.
  - by constructor.
Qed.

(** The events the buffer holds once the overflow page has been moved. *)
Definition flushed (q : equeue) : list event := match q.2 with Some e => [e] | None => q.1 end.

Lemma flush_queue b q :
  queue b q -> (q.2 <> None -> q.1 = []) ->
  exists b', flush_overflow b = Some b' /\ holds b' (flushed q) /\ rb_filled b' = 0 /\
    buffer_size (rb_info b') = buffer_size (rb_info b) /\
    n_drop_evts (rb_stat b') = n_drop_evts (rb_stat b).
Proof.
  destruct q as [evs [e|]]; intros Hq Hcon; unfold flushed; cbn [fst snd] in *.
  - rewrite (Hcon ltac:(done)) in Hq. destruct (flush_pending b e Hq) as (b' & E & [Hh Hp] & Hst & Hs).
    exists b'. rewrite Hst. done.
  - destruct Hq as [Hh Hp]. exists b. unfold flush_overflow. cbn [snd pending] in Hp. by rewrite Hp.
Qed.

(** ** The queue of a process *)

Definition proc_queue (p : nod_proc_info) (q : equeue) : Prop :=
  exists str b, open_buffer (p_buffer p) (mk_stat 0 0 0) = Some (str, b) /\ zlen str = PAGE_SIZE /\ queue b q.

(** The space for events. *)
Definition capacity (p : nod_proc_info) : Z :=
  match nb_info (p_buffer p) with Some i => buffer_size i | None => 0 end.

(** Recording [e] into the queue [q] of a buffer of [cap] bytes: it is appended, or
    its header and sizes do not fit and it waits on the overflow page. *)
Inductive recorded (cap : Z) (q : equeue) (e : event) : equeue -> Prop :=
  | recorded_main :
      zlen (encode_all (flushed q)) + event_len e <= cap -> recorded cap q e (flushed q ++ [e], None)
  | recorded_over :
      cap < zlen (encode_all (flushed q)) + HDR_SIZE + 2 * zlen (e_params e) -> event_len e <= PAGE_SIZE ->
      recorded cap q e (flushed q, Some e).

Lemma open_buffer_stat b s s' str r :
  open_buffer b s = Some (str, r) ->
  open_buffer b s' = Some (str, mk_rbuf (rb_buffer r) (rb_info r) (rb_over r) (rb_filled r) s').
Proof.
  unfold open_buffer. destruct (nb_buffer b), (nb_str_storage b), (nb_info b), (nb_overflow b); cbn; try done.
  intros [= <- <-]. done.
Qed.

Lemma queue_stat b q s :
  queue (mk_rbuf (rb_buffer b) (rb_info b) (rb_over b) (rb_filled b) s) q <-> queue b q.
Proof.
  split; intros [Hh Hp]; (split; [|by destruct q as [? [|]]]).
  - destruct Hh as [[]]. constructor; [by constructor|done..].
  - apply holds_over; [done|]. apply Hh.
Qed.

(** ** Recording for a process *)

Section refine.
Context {K : Kernel} {KO : KernelOk K} {T : Type} `{LO : MonitorLoaderOk T}.

(** The first attempt of recording an event for [p]. *)
Definition first_attempt (env : rec_env) (et : Z) (data : nod_event_data) (p : nod_proc_info)
    (stat : nod_event_statistic) : option attempt :=
  '(str, b) ← open_buffer (p_buffer p) stat;
  b ← flush_overflow b;
  let freespace := u32 (buffer_size (rb_info b) - tail (rb_info b)) in
  let nargs := ei_nparams (g_event_info et) in
  record_attempt env false freespace (ctrue (ed_force data) || (p_entry_addr p =? 0))
    (init_args b str et nargs data env) b.

(** How [do_record_one_event] ends after the attempt [a]. *)
Definition after_attempt (p : nod_proc_info) (t : T) (a : attempt) : Z * nod_proc_info * T * nod_event_statistic :=
  let p := set_buffer (close_buffer (fa_str (at_args a)) (at_buf a) (p_buffer p)) p in
  if at_force a then let '(r, p, t) := nod_load_monitor p t in (r, p, t, rb_stat (at_buf a))
  else (at_cbret a, p, t, rb_stat (at_buf a)).

(** Without a restart one attempt is all there is. *)
Lemma record_first fuel env et data p t stat a :
  first_attempt env et data p stat = Some a -> at_cbret a <> NOD_FAILURE_BUFFER_FULL ->
  do_record_one_event (S fuel) env et data p t stat = Some (Some (after_attempt p t a)).
Proof.
  unfold first_attempt, do_record_one_event, record_event.
  destruct (open_buffer (p_buffer p) stat) as [[str b]|]; [|done]. cbn [mbind option_bind].
  destruct (flush_overflow b) as [b1|]; [|done]. cbn [mbind option_bind record_loop]. cbv zeta.
  intros -> Hc. destruct (Z.eqb_spec (at_cbret a) NOD_FAILURE_BUFFER_FULL); done.
Qed.

(** The buffer of the process after the attempt. *)
Lemma after_attempt_buffer p t a :
  p_buffer (after_attempt p t a).1.1.2 = close_buffer (fa_str (at_args a)) (at_buf a) (p_buffer p).
Proof.
  unfold after_attempt. destruct (at_force a); [|done].
  pose proof (load_keeps_buffer (set_buffer (close_buffer (fa_str (at_args a)) (at_buf a) (p_buffer p)) p) t) as Hk.
  destruct (nod_load_monitor _ t) as [[r p'] t']. cbn [fst snd] in *. by rewrite Hk.
Qed.

Lemma after_attempt_queue p t a q :
  zlen (fa_str (at_args a)) = PAGE_SIZE -> queue (at_buf a) q -> proc_queue (after_attempt p t a).1.1.2 q.
Proof.
  intros Hs Hq. unfold proc_queue. rewrite after_attempt_buffer. unfold open_buffer, close_buffer. cbn.
  eexists _, _. split; [done|]. split; [done|]. by apply queue_stat.
Qed.

Lemma after_attempt_stat p t a : (after_attempt p t a).2 = rb_stat (at_buf a).
Proof. unfold after_attempt. destruct (at_force a); [|done]. by destruct (nod_load_monitor _ t) as [[? ?] ?]. Qed.

Lemma record_attempt_size env restart freespace force args b a :
  record_attempt env restart freespace force args b = Some a ->
  buffer_size (rb_info (at_buf a)) = buffer_size (rb_info b).
Proof.
  unfold record_attempt. cbv zeta. intros H'.
  repeat match type of H' with (mbind _ ?m) = _ => destruct m; cbn [mbind option_bind] in H'; [|done] end.
  destruct p as [cbret args']. repeat match type of H' with (mbind _ ?m) = _ => destruct m; cbn [mbind option_bind] in H'; [|done] end.
  injection H' as <-. unfold finish_attempt. cbn [at_buf rb_info]. destruct (_ && _); done.
Qed.

(** [first_attempt] on a process whose queue is [q]. *)
Lemma first_attempt_ok env et data p stat q :
  env_ok env -> recordable et data -> proc_queue p q -> (q.2 <> None -> q.1 = []) ->
  exists a b, first_attempt env et data p stat = Some a /\
    buffer_size (rb_info (at_buf a)) = capacity p /\ n_drop_evts (rb_stat b) = n_drop_evts stat /\
    attempt_post env et b (flushed q)
      (capacity p - zlen (encode_all (flushed q)) <? 2 * ei_nparams (g_event_info et) + HDR_SIZE)
      (ctrue (ed_force data) || (p_entry_addr p =? 0)) a.
Proof.
  intros Henv Hrec (str & b & Hop & Hs & Hq) Hcon. unfold first_attempt.
  assert (capacity p = buffer_size (rb_info b)) as Ec.
  { unfold capacity, open_buffer in *.
    destruct (nb_buffer _), (nb_str_storage _), (nb_info _), (nb_overflow _); cbn in Hop; try done.
    by injection Hop as _ <-. }
  rewrite (open_buffer_stat _ _ stat _ _ Hop). cbn [mbind option_bind].
  destruct (flush_queue (mk_rbuf (rb_buffer b) (rb_info b) (rb_over b) (rb_filled b) stat) q)
    as (b1 & -> & Hh & Hf & Hsz & Hdr); [by apply queue_stat|done|]. cbn [mbind option_bind]. cbv zeta.
  cbn [rb_info rb_stat] in Hsz, Hdr. pose proof Hh as [[] Ht Hc _ _ _].
  pose proof (zlen_nonneg (encode_all (flushed q))).
  assert (u32 (buffer_size (rb_info b1) - tail (rb_info b1)) = buffer_size (rb_info b1) - tail (rb_info b1)) as ->
    by (unfold u32; rewrite unsigned_small; lia).
  destruct (record_attempt_first env (ctrue (ed_force data) || (p_entry_addr p =? 0)) b1 str et data (flushed q))
    as (a & Ha & Hpost); [done..|].
  exists a, b1. split; [done|]. split; [by rewrite (record_attempt_size _ _ _ _ _ _ _ Ha), Hsz|].
  split; [done|]. by rewrite Ec, <- Ht, <- Hsz.
Qed.

Lemma post_recorded env et q a cap ps :
  zlen ps = ei_nparams (g_event_info et) -> buffer_size (rb_info (at_buf a)) = cap ->
  let over := cap - zlen (encode_all (flushed q)) <? 2 * ei_nparams (g_event_info et) + HDR_SIZE in
  let e := event_of env et ps in
  (if over then queue (at_buf a) (flushed q, Some e) else
   queue (at_buf a) (flushed q ++ [e], None)) ->
  exists q', queue (at_buf a) q' /\ recorded cap q e q'.
Proof.
  intros Hps Hb. cbv zeta. destruct (Z.ltb_spec (cap - zlen (encode_all (flushed q)))
    (2 * ei_nparams (g_event_info et) + HDR_SIZE)).
  - intros Hq. eexists. split; [exact Hq|]. apply recorded_over; [cbn [event_of e_params]; lia|apply Hq].
  - intros Hq. eexists. split; [exact Hq|]. apply recorded_main.
    destruct Hq as [[_ Ht Hc _ _ _] _]. cbn [fst] in *. rewrite Ht in Hc.
    rewrite encode_all_app, encode_all_one, zlen_app, zlen_encode in Hc. lia.
Qed.

(** C2: Recording refines the queue.  From a process whose buffer holds the events
    [q] (and whose monitor has emptied the buffer if an event waits on the
    overflow page; [flush_overwrites_events] is the other case), recording a recordable event - its table entries are
    consistent, its arguments meet no assertion of its filler - ends in one of three ways: the event,
    with the time, thread, processor, type and number of parameters given, is
    the new last event of the buffer or the new event of the overflow page; or
    the filler failed, the event is counted as dropped, and the events recorded
    before are still there, if the buffer has room for a header and the sizes of the parameters; or the first attempt
    ran out of space, and nothing is said of the restart. *)
Theorem record_refines_queue fuel env et data p t stat q :
  env_ok env -> recordable et data -> proc_queue p q -> (q.2 <> None -> q.1 = []) ->
  (exists ps q' r p' t' stat', let e := event_of env et ps in
     do_record_one_event (S fuel) env et data p t stat = Some (Some (r, p', t', stat')) /\
     zlen ps = ei_nparams (g_event_info et) /\ event_ok e /\
     recorded (capacity p) q e q' /\ proc_queue p' q') \/
  (exists r p' t' stat',
     do_record_one_event (S fuel) env et data p t stat = Some (Some (r, p', t', stat')) /\
     n_drop_evts stat' = u64 (n_drop_evts stat + 1) /\
     (zlen (encode_all (flushed q)) + 2 * ei_nparams (g_event_info et) + HDR_SIZE <= capacity p ->
      proc_queue p' (flushed q, None))) \/
  (exists a, first_attempt env et data p stat = Some a /\ at_cbret a = NOD_FAILURE_BUFFER_FULL).
Proof.
  intros Henv Hrec Hpq Hcon. destruct (first_attempt_ok env et data p stat q) as (a & b & Ha & Hcap & Hdr & Hs & Hpost); [done..|].
  destruct (Z.eqb_spec (at_cbret a) NOD_FAILURE_BUFFER_FULL) as [Hfull|Hfull]; [right; right; by exists a|].
  pose proof (record_first fuel env et data p t stat a Ha Hfull) as Hrun.
  pose proof (after_attempt_queue p t a) as Hq. pose proof (after_attempt_stat p t a) as Hst.
  destruct (after_attempt p t a) as [[[r p'] t'] stat']. cbn [fst snd] in Hq, Hst.
  destruct (Z.eqb_spec (at_cbret a) NOD_SUCCESS) as [Hok|Hok].
  - left. destruct Hpost as (ps & Hps & Hev & Hpost).
    destruct (post_recorded env et q a (capacity p) ps Hps Hcap) as (q' & Hq' & Hr).
    { destruct (_ <? _); apply Hpost. }
    exists ps, q', r, p', t', stat'. split_and!; auto.
  - right. left. exists r, p', t', stat'. destruct Hpost as (Hh & Hf & _ & Hd).
    destruct (Z.eqb_spec (at_cbret a) NOD_FAILURE_BUFFER_FULL); [done|].
    split; [done|]. split; [by rewrite Hst, Hd; cbn; rewrite Hdr|]. intros Hfit.
    apply Hq; [done|]. split; [done|]. cbn [snd pending]. rewrite Hf.
    destruct (Z.ltb_spec (capacity p - zlen (encode_all (flushed q))) (2 * ei_nparams (g_event_info et) + HDR_SIZE)); [lia|done].
Qed.
End refine.
