(* ===== verification/Demo.v ===== *)
(** * A machine to run the definitions on

    A concrete [Kernel] with one user-memory segment, no sockets and the string
    literals in kernel memory, a loader that always succeeds, and a process with
    an empty buffer: the inputs of the witnesses and of the examples. *)

From S2P Require Import Prelude Kernel Tables Ring RingFacts FillerLib Fillers FillerFacts FillerTable.
From S2P Require Import FillerSock ProcState Events EventCodec EventsFacts.

Local Open Scope Z_scope.

(** ** User memory of one repeated byte, terminated *)

Definition fill_byte (base n b : Z) (a : Z) : option Z :=
  if (base <=? a) && (a <? base + n) then Some b else if a =? base + n then Some 0 else None.

Definition fill_mem (base n b : Z) : UserMem := {|
  um_byte := fill_byte base n b;
  um_access_ok a m := (0 <=? a) && (a + m <? 2 ^ 47);
  um_copy a m := copy_until (fill_byte base n b) a (Z.to_nat m)
|}.

Lemma fill_mem_ok base n b : byte_ok b -> UserMemOk (fill_mem base n b).
Proof.
  intros Hb. constructor; cbn.
  - intros a m Hm. unfold zlen. pose proof (copy_until_len (fill_byte base n b) a (Z.to_nat m)). lia.
  - intros a m i Hi. unfold zlen in Hi. rewrite copy_until_lookup by lia. f_equal. lia.
  - intros a m Hm H. unfold zlen. rewrite copy_until_full by (intros; apply H; lia). lia.
  - intros a c. unfold fill_byte. destruct (_ && _); [by intros [= <-]|]. destruct (_ =? _); [|done].
    intros [= <-]. by unfold byte_ok; lia.
  - intros a m [H1%Z.leb_le H2%Z.ltb_lt]%andb_true_iff. lia.
Qed.

Definition bytes_okb (bs : list Z) : bool := forallb (fun b => (0 <=? b) && (b <? 256)) bs.

Lemma bytes_okbP bs : bytes_okb bs = true -> Forall byte_ok bs.
Proof.
  unfold bytes_okb. rewrite forallb_forall. intros H. apply Forall_forall. intros b Hb.
  apply H, andb_true_iff in Hb as [?%Z.leb_le ?%Z.ltb_lt]. done.
Qed.

Lemma kseg_bytes segs a bs :
  forallb (fun s => bytes_okb s.2) segs = true -> kseg segs a = Some bs -> Forall byte_ok bs.
Proof.
  induction segs as [|[base l] segs IH]; [done|]. cbn [forallb kseg snd]. intros [Hl Hs]%andb_true_iff.
  destruct (_ && _); [|auto]. intros [= <-]. apply Forall_drop. by apply bytes_okbP.
Qed.

(** ** The kernel *)

Definition demo_lit (s : string) : Z :=
  if String.eqb s "" then 2 ^ 62 else if String.eqb s "<NA>" then 2 ^ 62 + 16
  else 2 ^ 62 + 32.

Definition demo_kmem : list (Z * list Z) :=
  [(2 ^ 62, [0]); (2 ^ 62 + 16, str_bytes "<NA>" ++ [0]);
   (2 ^ 62 + 32, str_bytes "<out of bound>" ++ [0]); (2 ^ 62 + 64, str_bytes "demo" ++ [0])].

Definition demo_task : task_struct :=
  mk_task 100 100 (Some 1) (Some (mk_mm 0 0 0 0 0 0 0)) 0 0 (2 ^ 62 + 64) 1024 0 0 false 100 100 100 0 0 false.

Definition demo_kernel (user : UserMem) (args : list Z) (ret : Z) : Kernel := {|
  k_user := user;
  k_args := args;
  k_ret := ret;
  k_str_addr := 2 ^ 63;
  k_mem := demo_kmem;
  k_lit := demo_lit;
  k_task := demo_task;
  k_sockfd _ := None;
  k_sockfd_err _ := 9;
  k_socketcall_args := [0; 0; 0; 0; 0; 0];
  k_stack_addr := replicate 128 0;
  k_cgroups := [];
  k_has_files := false;
  k_max_fds := 64;
  k_fd_sb_dev _ := None;
  k_fd_ino _ := None;
  k_new_encode_dev d := d;
  k_defined _ := false
|}.

Lemma demo_kernel_ok user args ret :
  UserMemOk user -> length args = 6%nat -> Forall (fun a => 0 <= a < 2 ^ 64) args ->
  - 2 ^ 63 <= ret < 2 ^ 63 -> KernelOk (demo_kernel user args ret).
Proof.
  intros Hu Hl Ha Hr. constructor; cbn [k_user k_args k_ret k_str_addr k_mem k_lit k_task k_stack_addr k_sockfd demo_kernel]; try done.
  - intros a bs. by apply kseg_bytes.
  - intros s Hs. unfold code_literals in Hs. rewrite !elem_of_cons, elem_of_nil in Hs.
    destruct Hs as [->|[->|[->|[]]]]; (split; [by vm_compute|]); (split; [left; by vm_compute|]); by exists [].
  - split; [by vm_compute|]. split; [left; by vm_compute|]. by eexists _, _.
Qed.

(** ** A process with an empty buffer *)

Definition demo_alloc : allocator :=
  mk_alloc (Some (replicate 4096 0)) (Some (replicate 4096 170)) true true.

(** A page of another fill than the freshly mapped buffer: [__get_free_page] does
    not clear it. *)
Definition demo_buffer (size : Z) : nod_buffer :=
  match init_buffer demo_alloc size zero_buffer with
  | Some (0, b) => b
  | _ => zero_buffer
  end.

Definition demo_proc (size entry : Z) : nod_proc_info :=
  mk_proc 100 1 (demo_buffer size) (-1) entry 0 0 NOD_OUT zero_ctx zero_sec zero_stack.

#[export] Instance demo_loader : MonitorLoader unit := {| nod_load_monitor p t := (NOD_SUCCESS_LOAD, p, t) |}.

#[export] Instance demo_loader_ok : MonitorLoaderOk unit.
Proof. by constructor. Qed.

Definition demo_env : rec_env := mk_env 1000 100 0 0.
Definition demo_stat : nod_event_statistic := mk_stat 0 0 0.

Lemma demo_env_ok : env_ok demo_env.
Proof. by constructor. Qed.

(** Record the events of the list one after the other. *)
Fixpoint record_all `{Kernel} (fuel : nat) (evs : list Z) (p : nod_proc_info) (stat : nod_event_statistic)
    : option (option (nod_proc_info * nod_event_statistic)) :=
  match evs with
  | [] => Some (Some (p, stat))
  | et :: evs =>
      match do_record_one_event fuel demo_env et (mk_data NODC_SYSCALL 1 0) p tt stat with
      | Some (Some (_, p, _, stat)) => record_all fuel evs p stat
      | Some None => Some None
      | None => None
      end
  end.

(** The kernel of a process that closes file 3. *)
Definition close_kernel : Kernel := demo_kernel (fill_mem 4096 16 65) [3; 0; 0; 0; 0; 0] 0.

Lemma close_kernel_ok : KernelOk close_kernel.
Proof. apply demo_kernel_ok; [by apply fill_mem_ok|done|by repeat constructor|done]. Qed.

(** An event of type [et] without parameters, in a region of 4000 bytes. *)
Definition demo_state (et : Z) : fargs :=
  attempt_args (replicate 4000 0) 4000
    (init_args (mk_rbuf [] (mk_info 0 0 0 0) [] 0 demo_stat) (replicate 4096 0) et (ei_nparams (g_event_info et))
       (mk_data NODC_SYSCALL 3 0) demo_env).

Lemma demo_state_at et : at_arg et 0 (demo_state et).
Proof.
  apply first_attempt_at; [done|done|]. pose proof (nparams_bound et). unfold NOD_MAX_EVENT_PARAMS in *. lia.
Qed.
