(* ===== verification/FillerProps.v ===== *)
(** * Properties of the fillers

    What one call of [val_to_ring] stores, what the string reader returns, and
    what [nod_filler_callback] records for every event: the number of parameters,
    and for the events without a filler of their own the values as well. *)

From S2P Require Import Prelude Kernel Tables Flags FlagsFacts Ring RingFacts FillerLib Fillers.
From S2P Require Import FillerFacts FillerSpecs FillerSock FillerData FillerTable ProcState Events.
From S2P Require Import EventCodec EventsFacts Demo.

Local Open Scope Z_scope.

(** ** The tables *)

Definition all_syscalls : list Z := map Z.of_nat (seq 0 (Z.to_nat SYSCALL_TABLE_SIZE)).

Lemma all_syscalls_in nr : 0 <= nr < SYSCALL_TABLE_SIZE -> In nr all_syscalls.
Proof.
  intros H. unfold all_syscalls. apply in_map_iff. exists (Z.to_nat nr). split; [lia|].
  apply in_seq. unfold SYSCALL_TABLE_SIZE in *. lia.
Qed.

Lemma all_syscalls_check (f : Z -> bool) :
  forallb f all_syscalls = true -> forall nr, 0 <= nr < SYSCALL_TABLE_SIZE -> f nr = true.
Proof. rewrite forallb_forall. intros H nr Hnr. by apply H, all_syscalls_in. Qed.

(** The three tables agree.  For every system call but [splice] (275), the
    event [g_syscall_event_table] maps it to has a filler in [g_nod_events] whose
    parameters, those of the autofill list and those the filler pushes, are as
    many and of the kinds [g_event_info] declares. *)
Theorem syscall_tables_agree nr :
  0 <= nr < SYSCALL_TABLE_SIZE -> nr <> 275 ->
  let et := event_type (g_syscall_event_table nr) in 0 <= et < NODE_EVENT_MAX /\ event_fits et = true.
Proof.
  intros Hnr Hs. cbv zeta.
  pose proof (all_syscalls_check (fun nr => (nr =? 275) || (let et := event_type (g_syscall_event_table nr) in
    (0 <=? et) && (et <? NODE_EVENT_MAX) && event_fits et)) ltac:(by vm_compute) nr Hnr) as H.
  apply orb_true_iff in H as [?%Z.eqb_eq|H]; [done|]. cbv zeta in H.
  rewrite !andb_true_iff, Z.leb_le, Z.ltb_lt in H. tauto.
Qed.

Lemma syscall_tables_agree_witness :
  0 <= 257 < SYSCALL_TABLE_SIZE /\ event_type (g_syscall_event_table 257) = NODE_SYSCALL_OPENAT_2 /\
  event_fits (event_type (g_syscall_event_table 257)) = true.
Proof.
  assert (0 <= 257 < SYSCALL_TABLE_SIZE) as H by (by vm_compute). split; [exact H|]. split; [reflexivity|].
  apply (syscall_tables_agree 257 H). lia.
Defined.

Section props.
Context {K : Kernel} {KO : KernelOk K}.

(** C6: One call of [val_to_ring] appends exactly one parameter, of the type of
    its slot, behind the parameters already there, and its size to the size
    array.  On an error the parameters are unchanged, the code is
    [NOD_FAILURE_BUFFER_FULL] or [NOD_FAILURE_BUG], and at most the type byte of
    the parameter was stored; no store leaves the region. *)
Theorem val_to_ring_appends val val_len fromuser dyn st ps :
  ring_rep st ps -> call_safe st val val_len fromuser dyn ->
  match val_to_ring val val_len fromuser dyn st with
  | Done _ st' => exists info body,
      event_param (fa_event_type st) (fa_curarg st) = Some info /\
      ring_rep st' (ps ++ [(slot_type info (u8 dyn)).2 ++ body]) /\ env_eq st st' /\
      stored st (slot_type info (u8 dyn)).1 (u64 val) (u32 val_len) fromuser
        (arg_space st - zlen (slot_type info (u8 dyn)).2) body
  | Ret c st' => (c = NOD_FAILURE_BUFFER_FULL \/ c = NOD_FAILURE_BUG) /\ env_eq st st' /\
      exists pre, ring_part st' ps pre /\ zlen pre <= 1
  | Bug => False
  end.
Proof.
  intros Hr Hs. pose proof (val_to_ring_post val val_len fromuser dyn st ps Hr Hs) as H.
  destruct (val_to_ring val val_len fromuser dyn st) as [[] st'|c st'|]; cbn [append_post] in H; [| |done].
  - destruct H as (info & body & Hi & H). exists info, body. split; [done|].
    by destruct (slot_type info (u8 dyn)) as [t pre].
  - destruct H as (Hc & He & pre & Hp & Hpre). split; [done|]. split; [done|]. exists pre. split; [done|].
    destruct Hpre as [->|(info & Hi & ->)]; [done|]. unfold slot_type.
    repeat case_match; cbn; done || (zlen_simpl; lia).
Qed.

(** Reading a C string from user memory: a string of [cs] followed by a
    terminator, shorter than the space and readable to the end of the chunk of
    four bytes it ends in, is stored whole, terminator included, and its length
    is returned. *)
Theorem strncpy_from_user_reads cs from n :
  Forall (fun b => b <> 0) cs -> zlen cs < n -> user_bytes from (cs ++ [0]) ->
  user_readable from (Z.min n (chunk_end (zlen cs))) -> 0 <= from -> from + n < 2 ^ 64 ->
  let '(len, got) := nod_strncpy_from_user from n in
  len = zlen cs + 1 /\ ztake (zlen cs + 1) got = cs ++ [0].
Proof.
  intros. destruct (strncpy_loop_spec (S (Z.to_nat n)) cs from n 0 []) as (got & E & Ht); try done; [lia|].
  unfold nod_strncpy_from_user. rewrite E. split; [lia|done].
Qed.

(** C5: Every event whose table entries agree is recorded in full.  From an event
    without parameters, [nod_filler_callback] violates no assertion and stores
    nothing outside its memory as long as the system call meets [filler_pre]: the command of
    [fcntl], the option of [setsockopt] and [getsockopt], the direction of [shutdown] and the families of the sockets are ones the conversions
    know, the sockets of a call are there, [open] did not return the number [max_fds], [poll] has less than [2 ^ 32] descriptors, [semop] has
    operations, the task has the fields that [execve] and the start of a process read, and the number of a generic call is in the
    table ([fcntl_unknown_command_faults] is a case without it); if
    it succeeds, the event has exactly the parameters it declares; if it fails,
    its code is not [NOD_SUCCESS]. *)
Theorem filler_callback_complete et st :
  0 <= et < NODE_EVENT_MAX -> event_fits et = true -> at_arg et 0 st ->
  (forall f, filler_callback (g_nod_events et) = Some f -> filler_pre f (fa_syscall_nr st) (fa_is_socketcall st)) ->
  match nod_filler_callback st with
  | Done _ st' => exists ps, ring_rep st' ps /\ zlen ps = ei_nparams (g_event_info et) /\
                  fa_curarg st' = ei_nparams (g_event_info et)
  | Ret c st' => ring_inv st' /\ c <> NOD_SUCCESS
  | Bug => False
  end.
Proof.
  intros Het Hf Ha Hp. pose proof (nod_filler_callback_ok et st Het Hf Ha Hp) as H. unfold wp in H.
  destruct (nod_filler_callback st) as [[] st'|c st'|]; [|apply H|done].
  destruct H as (_ & _ & ps & Hr & Hps). exists ps. split; [done|]. split; [done|].
  by rewrite (rp_cur _ _ _ Hr).
Qed.

(** ** Values of the autofill events *)

Lemma val_to_ring_int et ps st val len fu w :
  fa_event_type st = et -> ring_rep st ps -> int_slot et (zlen ps) = Some w ->
  match val_to_ring val len fu 0 st with
  | Done _ st' => fa_event_type st' = et /\ ring_rep st' (ps ++ [le_bytes w (u64 val)])
  | Ret c _ => c <> NOD_SUCCESS
  | Bug => False
  end.
Proof.
  intros He Hr Hw. pose proof (rp_cur _ _ _ Hr) as Hc.
  assert (call_safe st val len fu 0) as Hs by (intros info; rewrite He, Hc; intros; by eapply int_slot_safe).
  pose proof (val_to_ring_post val len fu 0 st ps Hr Hs) as H.
  destruct (val_to_ring val len fu 0 st) as [[] st'|c st'|]; cbn [append_post] in H; [| |done].
  - destruct H as (info & body & Hi & H). rewrite He, Hc in Hi.
    destruct (int_slot_type et (zlen ps) w info (u8 0) Hi Hw) as (Est & Ew & _). rewrite Est in H.
    destruct H as (Hr' & Henv & Hst). split; [by rewrite (ee_type _ _ Henv)|]. cbn [app] in Hr'.
    assert (body = le_bytes w (u64 val)) as <-; [|done].
    unfold stored in Hst. destruct (pi_type info); cbn [int_width] in *; done || (by injection Ew as <-).
  - by destruct H as ([-> | ->] & _).
Qed.

(** The value autofill takes for an entry. *)
Definition auto_value (a : nod_autofill_arg) : Z :=
  if 0 <=? af_id a then nth (Z.to_nat (af_id a)) k_args 0
  else if af_id a =? AF_ID_RETVAL then k_ret else af_default a.

(** The parameters of the [n] autofill entries from [j] on, in slots from [i] on. *)
Fixpoint auto_params (et : Z) (e : nod_event_entry) (n : nat) (j : Z) : list (list Z) :=
  match n with
  | O => []
  | S n =>
      match autofill_arg e j, int_slot et j with
      | Some a, Some w => le_bytes w (u64 (auto_value a)) :: auto_params et e n (j + 1)
      | _, _ => []
      end
  end.

(** All [n] entries are integers. *)
Fixpoint auto_ints (et : Z) (e : nod_event_entry) (n : nat) (j : Z) : bool :=
  match n with
  | O => true
  | S n => is_Someb (int_slot et j) && auto_ints et e n (j + 1)
  end.

(** [et] has no filler of its own and only integers. *)
Definition auto_event (et : Z) : bool :=
  let e := g_nod_events et in
  match filler_callback e with
  | Some F_sys_empty => auto_ints et e (Z.to_nat (n_autofill_args e)) 0
  | _ => false
  end.

Lemma auto_loop_values et e n j st ps ws :
  fa_event_type st = et -> ring_rep st ps -> zlen ps = j -> 0 <= j ->
  autofill_slots e n j = Some ws -> auto_ints et e n j = true ->
  match autofill_loop e n j st with
  | Done _ st' => fa_event_type st' = et /\ ring_rep st' (ps ++ auto_params et e n j)
  | Ret c _ => c <> NOD_SUCCESS
  | Bug => False
  end.
Proof.
  revert j st ps ws. induction n as [|n IH]; intros j st ps ws He Hr Hj Hj0 Hw Hi;
    cbn [autofill_loop autofill_slots auto_ints auto_params] in *.
  - by rewrite app_nil_r.
  - apply andb_true_iff in Hi as [Hs Hi]. destruct (int_slot et j) as [w|] eqn:Es; [|done].
    destruct (autofill_arg e j) as [a|]; [|done]. destruct (autofill_slots e n (j + 1)) as [ws'|] eqn:Ew; [|done].
    destruct ((af_id a <? 6) && _) eqn:Eid; [|done]. apply andb_true_iff in Eid as [H6%Z.ltb_lt Eid].
    cbn [lift]. unfold mbind at 1, M_bind at 1, mret at 1, M_ret at 1.
    assert (exists fu, forall k : unit -> F unit,
      ((if 0 <=? af_id a then val ← lift (k_args !! Z.to_nat (af_id a)); push_user val
        else if af_id a =? AF_ID_RETVAL then push k_ret
        else if af_id a =? AF_ID_USEDEFAULT then push (af_default a) else assert false) ≫= k) st
      = (val_to_ring (auto_value a) 0 fu 0 ≫= k) st) as [fu Hpush].
    { unfold auto_value. destruct (Z.leb_spec 0 (af_id a)).
      - exists true. intros k. assert (Z.to_nat (af_id a) < length k_args)%nat as Hl by (rewrite k_args_len; lia).
        destruct (lookup_lt_is_Some_2 k_args _ Hl) as [v Hv]. rewrite Hv.
        by rewrite (nth_lookup_Some _ _ _ _ Hv).
      - exists false. intros k. destruct (af_id a =? AF_ID_RETVAL); [done|].
        destruct (af_id a =? AF_ID_USEDEFAULT); [done|]. done. }
    rewrite Hpush. pose proof (val_to_ring_int et ps st (auto_value a) 0 fu w He Hr ltac:(by rewrite Hj)) as H.
    unfold mbind, M_bind. destruct (val_to_ring (auto_value a) 0 fu 0 st) as [[] st1|c st1|]; [|done|done].
    destruct H as [He1 Hr1].
    pose proof (IH (j + 1) st1 _ ws' He1 Hr1 ltac:(zlen_simpl; lia) ltac:(lia) Ew Hi) as H.
    destruct (autofill_loop e n (j + 1) st1); [|done|done]. by rewrite <- app_assoc in H.
Qed.

Lemma auto_ints_app et e m n j :
  auto_ints et e (m + n) j = auto_ints et e m j && auto_ints et e n (j + Z.of_nat m).
Proof.
  revert j. induction m as [|m IH]; intros j; cbn [auto_ints Nat.add].
  - by rewrite Z.add_0_r.
  - rewrite IH, <- andb_assoc. by replace (j + 1 + Z.of_nat m) with (j + Z.of_nat (S m)) by lia.
Qed.

Lemma auto_params_app et e m n j ws :
  autofill_slots e m j = Some ws -> auto_ints et e m j = true ->
  auto_params et e (m + n) j = auto_params et e m j ++ auto_params et e n (j + Z.of_nat m).
Proof.
  revert j ws. induction m as [|m IH]; intros j ws Hw Hi; cbn [auto_params Nat.add autofill_slots auto_ints] in *.
  - by rewrite Z.add_0_r.
  - destruct (autofill_arg e j); [|done]. destruct (autofill_slots e m (j + 1)) eqn:E; [|done].
    apply andb_true_iff in Hi as [Hs Hi]. destruct (int_slot et j); [|done]. cbn [app]. f_equal.
    rewrite (IH (j + 1) _ E Hi). by replace (j + 1 + Z.of_nat m) with (j + Z.of_nat (S m)) by lia.
Qed.

Lemma zlen_auto_params et e m j ws :
  autofill_slots e m j = Some ws -> auto_ints et e m j = true -> zlen (auto_params et e m j) = Z.of_nat m.
Proof.
  revert j ws. induction m as [|m IH]; intros j ws Hw Hi; cbn [auto_params autofill_slots auto_ints] in *; [done|].
  destruct (autofill_arg e j); [|done]. destruct (autofill_slots e m (j + 1)) eqn:E; [|done].
  apply andb_true_iff in Hi as [Hs Hi]. destruct (int_slot et j); [|done].
  rewrite zlen_cons, (IH (j + 1) _ E Hi). lia.
Qed.

Lemma nod_autofill_values et lo hi st ps ws :
  fa_event_type st = et -> ring_rep st ps -> zlen ps = lo -> 0 <= lo <= hi ->
  n_autofill_args (g_nod_events et) <= NOD_MAX_AUTOFILL_ARGS -> hi <= n_autofill_args (g_nod_events et) ->
  autofill_slots (g_nod_events et) (Z.to_nat (hi - lo)) lo = Some ws ->
  auto_ints et (g_nod_events et) (Z.to_nat (hi - lo)) lo = true ->
  match nod_autofill lo hi st with
  | Done _ st' => fa_event_type st' = et /\
      ring_rep st' (ps ++ auto_params et (g_nod_events et) (Z.to_nat (hi - lo)) lo)
  | Ret c _ => c <> NOD_SUCCESS
  | Bug => False
  end.
Proof.
  intros He Hr Hps Hlo Hn Hhi Hw Hi. unfold nod_autofill, get. unfold mbind at 1, M_bind at 1. cbv zeta. rewrite He.
  rewrite (proj2 (Z.leb_le _ _) Hn), (proj2 (Z.leb_le 0 lo)), (proj2 (Z.leb_le _ _) Hhi) by lia.
  cbn [andb assert]. unfold mbind at 1, M_bind at 1, mret at 1, M_ret at 1.
  eapply auto_loop_values; [done..|lia|done|done].
Qed.

(** C8: The events without a filler of their own record the system call itself.
    For each of them (37 events, such as [close], [socket], [listen], [kill] and
    [exit]) whose parameters are integers, the parameters recorded are the
    arguments and the return value that its autofill list names, each truncated
    to the width of its slot. *)
Theorem autofill_event_values et st :
  0 <= et < NODE_EVENT_MAX -> event_fits et = true -> auto_event et = true -> at_arg et 0 st ->
  match nod_filler_callback st with
  | Done _ st' =>
      ring_rep st' (auto_params et (g_nod_events et) (Z.to_nat (n_autofill_args (g_nod_events et))) 0)
  | Ret c _ => c <> NOD_SUCCESS
  | Bug => False
  end.
Proof.
  intros Het Hfit Hauto (He & ps & Hr & Hps). destruct ps; [|rewrite zlen_cons in Hps; pose proof (zlen_nonneg ps); lia].
  unfold nod_filler_callback, get. unfold mbind at 1, M_bind at 1. cbv zeta. rewrite He.
  rewrite (proj2 (Z.ltb_ge et 0)), (proj2 (Z.leb_gt NODE_EVENT_MAX et)) by lia. cbn [orb].
  unfold event_fits, auto_event in *. cbv zeta in *.
  destruct (filler_callback (g_nod_events et)) as [f|]; [|done]. destruct f; try done.
  set (e := g_nod_events et) in *. set (n := n_autofill_args e) in *.
  destruct (n =? 0) eqn:En0; [apply Z.eqb_eq in En0; by rewrite En0|].
  destruct (first_negative e _ 0) as [m|]; [|done].
  destruct (autofill_slots e (Z.to_nat m) 0) as [wb|] eqn:Eb; [|by rewrite andb_false_r in Hfit].
  destruct (autofill_slots e (Z.to_nat (n - m)) m) as [wa|] eqn:Ea; [|by rewrite andb_false_r in Hfit].
  rewrite !andb_true_iff, !Z.leb_le in Hfit. destruct Hfit as (((((H0 & Hm) & Hn) & _) & _) & _).
  replace (Z.to_nat n) with (Z.to_nat m + Z.to_nat (n - m))%nat in * by lia.
  rewrite auto_ints_app in Hauto. apply andb_true_iff in Hauto as [Hi1 Hi2].
  rewrite (auto_params_app et e _ _ 0 wb) by done. rewrite Z2Nat.id, Z.add_0_l in * by lia.
  cbn [lift]. unfold mbind at 1, M_bind at 1, mret at 1, M_ret at 1.
  pose proof (nod_autofill_values et 0 m st [] wb He Hr eq_refl ltac:(lia) Hn Hm ltac:(by rewrite Z.sub_0_r)
    ltac:(by rewrite Z.sub_0_r)) as H1.
  unfold mbind at 1, M_bind at 1. destruct (nod_autofill 0 m st) as [[] st1|c st1|]; [|done|done].
  destruct H1 as [He1 Hr1]. rewrite Z.sub_0_r in Hr1. cbn [app] in Hr1. fold e in Hr1.
  cbn [run_filler]. unfold f_sys_empty. unfold mbind at 1, M_bind at 1, mret at 1, M_ret at 1.
  assert (zlen (auto_params et e (Z.to_nat m) 0) = m) as Lm by (erewrite zlen_auto_params; [lia|done..]).
  pose proof (nod_autofill_values et m n st1 _ wa He1 Hr1 Lm ltac:(lia) Hn ltac:(fold e n; lia) Ea Hi2) as H2.
  destruct (nod_autofill m n st1) as [[] st2|c st2|]; [|done|done]. apply H2.
Qed.
End props.

(** ** The properties at work on a [close] of file 3 *)

#[local] Existing Instance close_kernel.
#[local] Existing Instance close_kernel_ok.

Lemma val_to_ring_appends_witness :
  let st := demo_state NODE_SYSCALL_CLOSE in
  ring_rep st [] /\ call_safe st 3 0 true 0 /\
  exists st' info body, val_to_ring 3 0 true 0 st = Done tt st' /\
    ring_rep st' ([] ++ [(slot_type info (u8 0)).2 ++ body]) /\
    stored st (slot_type info (u8 0)).1 (u64 3) (u32 0) true (arg_space st - zlen (slot_type info (u8 0)).2) body.
Proof.
  cbv zeta. assert (ring_rep (demo_state NODE_SYSCALL_CLOSE) []) as Hr.
  { destruct (demo_state_at NODE_SYSCALL_CLOSE) as (_ & [|p ps] & Hr & Hz); [exact Hr|].
    rewrite zlen_cons in Hz. pose proof (zlen_nonneg ps). lia. }
  assert (call_safe (demo_state NODE_SYSCALL_CLOSE) 3 0 true 0) as Hs by (intros ? _; by left).
  split; [exact Hr|]. split; [exact Hs|].
  pose proof (val_to_ring_appends 3 0 true 0 (demo_state NODE_SYSCALL_CLOSE) [] Hr Hs) as H.
  destruct (val_to_ring 3 0 true 0 (demo_state NODE_SYSCALL_CLOSE)) as [[] st'|c st'|] eqn:E.
  - destruct H as (info & body & _ & Hr' & _ & Hst). exists st', info, body. split_and!; done.
  - by vm_compute in E.
  - done.
Defined.

(** The user memory of [close_kernel] holds 16 letters and a terminator at 4096; the
    string from 4097 on ends at the end of its fourth chunk. *)
Lemma strncpy_from_user_reads_witness :
  user_readable 4097 16 /\
  let '(len, got) := nod_strncpy_from_user 4097 100 in
  len = zlen (replicate 15 65) + 1 /\ ztake (zlen (replicate 15 65) + 1) got = replicate 15 65 ++ [0].
Proof.
  assert (user_readable 4097 16) as Hr.
  { split.
    - intros i Hi. cbn [um_byte k_user close_kernel demo_kernel fill_mem]. unfold fill_byte.
      destruct (Z.leb_spec 4096 (4097 + i)); [|lia]. destruct (Z.ltb_spec (4097 + i) (4096 + 16)); [by eexists|].
      destruct (Z.eqb_spec (4097 + i) (4096 + 16)); [by eexists|lia].
    - intros i m Hi Hm Him. cbn [um_access_ok k_user close_kernel demo_kernel fill_mem].
      destruct (Z.leb_spec 0 (4097 + i)); [|lia]. destruct (Z.ltb_spec (4097 + i + m) (2 ^ 47)); [done|lia]. }
  split; [exact Hr|].
  apply (strncpy_from_user_reads (replicate 15 65) 4097 100).
  - apply Forall_replicate. lia.
  - by vm_compute.
  - intros i b Hb. assert (i < 16)%nat as Hi by (apply lookup_lt_Some in Hb; exact Hb).
    do 16 (destruct i as [|i]; [by injection Hb as <-|]). lia.
  - exact Hr.
  - lia.
  - lia.
Defined.

Lemma filler_callback_complete_witness :
  event_fits NODE_SYSCALL_CLOSE = true /\
  exists st' ps, nod_filler_callback (demo_state NODE_SYSCALL_CLOSE) = Done tt st' /\ ring_rep st' ps /\ zlen ps = 2.
Proof.
  assert (event_fits NODE_SYSCALL_CLOSE = true) as Hf by (by vm_compute). split; [exact Hf|].
  pose proof (filler_callback_complete NODE_SYSCALL_CLOSE (demo_state NODE_SYSCALL_CLOSE) ltac:(by vm_compute) Hf
    (demo_state_at NODE_SYSCALL_CLOSE) ltac:(intros f [= <-]; exact I)) as H.
  destruct (nod_filler_callback (demo_state NODE_SYSCALL_CLOSE)) as [[] st'|c st'|] eqn:E.
  - destruct H as (ps & Hr & Hz & _). exists st', ps. split_and!; done.
  - by vm_compute in E.
  - done.
Defined.

Lemma autofill_event_values_witness :
  auto_event NODE_SYSCALL_CLOSE = true /\
  exists st', nod_filler_callback (demo_state NODE_SYSCALL_CLOSE) = Done tt st' /\
    ring_rep st' [le_bytes 8 3; le_bytes 8 0].
Proof.
  assert (auto_event NODE_SYSCALL_CLOSE = true) as Ha by (by vm_compute). split; [exact Ha|].
  pose proof (autofill_event_values NODE_SYSCALL_CLOSE (demo_state NODE_SYSCALL_CLOSE) ltac:(by vm_compute)
    ltac:(by vm_compute) Ha (demo_state_at NODE_SYSCALL_CLOSE)) as H.
  destruct (nod_filler_callback (demo_state NODE_SYSCALL_CLOSE)) as [[] st'|c st'|] eqn:E.
  - exists st'. split; [reflexivity|]. exact H.
  - by vm_compute in E.
  - done.
Defined.
