(* ===== verification/RecordProps.v ===== *)
(** * Properties of recording

    The refinement of the queue at work on concrete processes, the life cycle of
    the buffer, and what happens when an event does not fit: the restart of
    [do_record_one_event] keeps the offset the first attempt reached, and a filler
    that cannot succeed on the overflow page is restarted for ever. *)

From S2P Require Import Prelude Kernel Tables Flags FlagsFacts Ring RingFacts FillerLib Fillers.
From S2P Require Import FillerFacts FillerSpecs FillerSock FillerData FillerTable ProcState Events.
From S2P Require Import EventCodec EventsFacts Demo.

Local Open Scope Z_scope.

(** ** The buffer *)

Definition alloc_ok (al : allocator) : Prop :=
  (forall s, al_str al = Some s -> zlen s = PAGE_SIZE) /\ (forall s, al_overflow al = Some s -> zlen s = PAGE_SIZE).

(** A size [nod_event_set_buffer_size] accepts. *)
Definition size_ok (size : Z) : Prop := PAGE_SIZE <= size < 2 ^ 32 /\ Z.land size (PAGE_SIZE - 1) = 0.

Lemma init_buffer_cases al size :
  0 <= size -> Z.land size (PAGE_SIZE - 1) = 0 ->
  (exists str page, al_str al = Some str /\ al_overflow al = Some page /\
     init_buffer al size zero_buffer =
       Some (0, mk_buffer (Some (replicate (Z.to_nat size) 0)) (Some str) (Some (mk_info 0 0 0 size)) 0 (Some page) 0)) \/
  init_buffer al size zero_buffer = Some (- ENOMEM, zero_buffer).
Proof.
  intros Hs Ha. unfold init_buffer. rewrite Ha. change (ctrue 0) with false. cbv iota.
  destruct (al_str al) as [str|]; [|by right]. destruct (al_overflow al) as [page|]; [|by right].
  destruct (al_info al); [|by right]. destruct (al_buffer al); [|by right].
  left. by exists str, page.
Qed.

Lemma empty_queue size str page :
  size_ok size -> zlen str = PAGE_SIZE -> zlen page = PAGE_SIZE ->
  forall p, p_buffer p = mk_buffer (Some (replicate (Z.to_nat size) 0)) (Some str) (Some (mk_info 0 0 0 size)) 0 (Some page) 0 ->
  proc_queue p ([], None) /\ capacity p = size.
Proof.
  intros [Hs _] Hstr Hpage p Hp. unfold proc_queue, capacity. rewrite Hp. split; [|done].
  eexists _, _. split; [done|]. split; [done|]. split; [|done].
  constructor; cbn; try done; [|unfold PAGE_SIZE in *; lia].
  constructor; cbn; [|done|done]. unfold zlen. rewrite length_replicate. unfold PAGE_SIZE in *. lia.
Qed.

(** A buffer is created empty or not at all.  For a size that
    [nod_event_set_buffer_size] accepts, [init_buffer] returns 0 and an empty
    queue whose capacity is that size, or [-ENOMEM] with every pointer null again:
    nothing that was allocated before the failure is kept. *)
Theorem init_buffer_spec al size0 size p :
  alloc_ok al -> nod_event_set_buffer_size size size0 = (0, size) -> size < 2 ^ 32 ->
  match init_buffer al size zero_buffer with
  | Some (0, b) => proc_queue (set_buffer b p) ([], None) /\ capacity (set_buffer b p) = size
  | Some (r, b) => r = - ENOMEM /\ b = zero_buffer
  | None => False
  end.
Proof.
  intros [Has Hao] Hset Hmax. unfold nod_event_set_buffer_size in Hset.
  destruct (Z.ltb_spec size PAGE_SIZE); [done|].
  destruct (ctrue (Z.land size (PAGE_SIZE - 1))) eqn:Hland; [done|].
  assert (Z.land size (PAGE_SIZE - 1) = 0) as Hal.
  { unfold ctrue in Hland. by destruct (Z.eqb_spec (Z.land size (PAGE_SIZE - 1)) 0). }
  destruct (init_buffer_cases al size) as [(str & page & Es & Eo & ->)| ->]; [unfold PAGE_SIZE in *; lia|done| |done].
  eapply empty_queue; [by split|by apply Has|by apply Hao|done].
Qed.

Lemma init_buffer_spec_witness :
  alloc_ok demo_alloc /\ nod_event_set_buffer_size 8192 4096 = (0, 8192) /\
  match init_buffer demo_alloc 8192 zero_buffer with
  | Some (0, b) => proc_queue (set_buffer b (demo_proc 4096 0)) ([], None) /\
                   capacity (set_buffer b (demo_proc 4096 0)) = 8192
  | Some (r, b) => r = - ENOMEM /\ b = zero_buffer
  | None => False
  end.
Proof.
  assert (alloc_ok demo_alloc) as Ha by (split; intros s [= <-]; by vm_compute).
  split; [exact Ha|]. split; [reflexivity|].
  apply (init_buffer_spec demo_alloc 4096 8192 (demo_proc 4096 0)); [exact Ha|reflexivity|lia].
Defined.

(** ** Recording *)

Lemma demo_proc_queue size entry : size_ok size -> demo_buffer size =
    mk_buffer (Some (replicate (Z.to_nat size) 0)) (Some (replicate 4096 0)) (Some (mk_info 0 0 0 size)) 0
      (Some (replicate 4096 170)) 0 ->
  proc_queue (demo_proc size entry) ([], None) /\ capacity (demo_proc size entry) = size.
Proof. intros Hs E. eapply empty_queue; [done|..|exact E]; done. Qed.

Lemma record_refines_queue_witness :
  let p := demo_proc 4096 1 in
  let data := mk_data NODC_SYSCALL 3 0 in
  let et := NODE_SYSCALL_CLOSE in
  let K := close_kernel in
  proc_queue p ([], None) /\ recordable et data /\
  ((exists ps q' r p' t' stat', let e := event_of demo_env et ps in
      do_record_one_event 1 demo_env et data p tt demo_stat = Some (Some (r, p', t', stat')) /\
      zlen ps = ei_nparams (g_event_info et) /\ event_ok e /\
      recorded (capacity p) ([], None) e q' /\ proc_queue p' q') \/
   (exists r p' t' stat',
      do_record_one_event 1 demo_env et data p tt demo_stat = Some (Some (r, p', t', stat')) /\
      n_drop_evts stat' = u64 (n_drop_evts demo_stat + 1) /\
      (zlen (encode_all (flushed ([], None))) + 2 * ei_nparams (g_event_info et) + HDR_SIZE <= capacity p ->
       proc_queue p' (flushed ([], None), None))) \/
   (exists a, first_attempt demo_env et data p demo_stat = Some a /\ at_cbret a = NOD_FAILURE_BUFFER_FULL)).
Proof.
  pose proof close_kernel_ok as KO. cbv zeta.
  assert (proc_queue (demo_proc 4096 1) ([], None)) as Hq by (apply demo_proc_queue; [by split|reflexivity]).
  assert (@recordable close_kernel NODE_SYSCALL_CLOSE (mk_data NODC_SYSCALL 3 0)) as Hr.
  { split; [by vm_compute|]. split; [by vm_compute|]. intros f [= <-]. exact I. }
  split; [exact Hq|]. split; [exact Hr|].
  apply (record_refines_queue 0 demo_env NODE_SYSCALL_CLOSE (mk_data NODC_SYSCALL 3 0) (demo_proc 4096 1) tt demo_stat ([], None));
    [exact demo_env_ok|exact Hr|exact Hq|done].
Defined.

(** ** Restarts *)

Section restart.
Context {K : Kernel}.

(** A filler that finds no space whatever it is given. *)
Definition always_full (et : Z) : Prop :=
  forall st, fa_event_type st = et -> nod_filler_callback st = Ret NOD_FAILURE_BUFFER_FULL st.

Lemma restart_full et env freespace force args b :
  always_full et -> fa_event_type args = et -> zlen (rb_over b) = PAGE_SIZE ->
  exists a, record_attempt env true freespace force args b = Some a /\
    at_cbret a = NOD_FAILURE_BUFFER_FULL /\ fa_event_type (at_args a) = et /\ zlen (rb_over (at_buf a)) = PAGE_SIZE.
Proof.
  intros Hf Het Hov. assert (0 + HDR_SIZE + (PAGE_SIZE - HDR_SIZE) <= zlen (rb_over b)) as Hl by lia.
  destruct (split_mem (rb_over b) 0 (PAGE_SIZE - HDR_SIZE) ltac:(lia) ltac:(by vm_compute) Hl)
    as (a & f & l & n & r & c & Em & La & Lf & Ll & Ln & Lr).
  eexists. split; [eapply (record_attempt_mem _ _ _ _ _ _ true a f l n r c NOD_FAILURE_BUFFER_FULL
    (attempt_args r (zlen r) args)); try done|].
  - by rewrite orb_true_r.
  - rewrite Hf by done. done.
  - split; [done|]. split; [done|]. cbn [finish_attempt at_buf rb_over].
    rewrite Em in Hov. rewrite <- Hov. rewrite !zlen_app, zlen_hdr_fields, !zlen_le_bytes.
    cbn [complete Z.eqb NOD_FAILURE_BUFFER_FULL NOD_SUCCESS andb attempt_args fa_buf]. lia.
Qed.

Lemma restart_for_ever et fuel env freespace force args b :
  always_full et -> fa_event_type args = et -> zlen (rb_over b) = PAGE_SIZE ->
  record_loop fuel env true freespace force args b = None.
Proof.
  intros Hf. revert force args b. induction fuel as [|fuel IH]; intros force args b Het Hov; [done|].
  cbn [record_loop]. destruct (restart_full et env freespace force args b Hf Het Hov) as (a & -> & -> & He & Ho).
  rewrite Z.eqb_refl. by apply IH.
Qed.

Lemma attempt_code et env restart freespace force args b a :
  always_full et -> fa_event_type args = et -> record_attempt env restart freespace force args b = Some a ->
  at_cbret a = NOD_FAILURE_BUFFER_FULL /\ fa_event_type (at_args a) = et.
Proof.
  intros Hf Het. unfold record_attempt. cbv zeta. intros H.
  do 2 match type of H with (mbind _ ?m) = _ => destruct m; cbn [mbind option_bind] in H; [|done] end.
  rewrite Hf in H by done. cbn [mbind option_bind] in H.
  repeat match type of H with (mbind _ ?m) = _ => destruct m; cbn [mbind option_bind] in H; [|done] end.
  by injection H as <-.
Qed.

(** A poll set that does not fit [str_storage] is never recorded. *)
Lemma poll_full : STR_STORAGE_SIZE < 18 * sys_arg 1 + 2 < 2 ^ 64 -> always_full NODE_SYSCALL_POLL.
Proof.
  intros Hn st Het. unfold nod_filler_callback, get. unfold mbind at 1, M_bind at 1. rewrite Het. cbv zeta.
  change ((NODE_SYSCALL_POLL <? 0) || (NODE_EVENT_MAX <=? NODE_SYSCALL_POLL)) with false. cbv iota.
  change (filler_callback (g_nod_events NODE_SYSCALL_POLL)) with (Some F_sys_poll). cbv iota.
  change (n_autofill_args (g_nod_events NODE_SYSCALL_POLL) =? 0) with true. cbv iota.
  cbn [run_filler]. unfold f_sys_poll, poll_parse_fds. cbv zeta.
  assert ((STR_STORAGE_SIZE <? u64 (8 * sys_arg 1 + 2 + 10 * sys_arg 1)) = true) as ->.
  { apply Z.ltb_lt. unfold u64. rewrite unsigned_small; unfold STR_STORAGE_SIZE, PAGE_SIZE in *; lia. }
  done.
Qed.
End restart.

Section loader.
Context {K : Kernel} {KO : KernelOk K} {T : Type} `{MonitorLoader T}.

(** A [poll] of a set that does not fit the 4096 bytes of [str_storage], 228
    descriptors or more, makes the filler return [NOD_FAILURE_BUFFER_FULL] on
    the overflow page as well: [do_record_one_event] jumps to [restart] for
    ever, whatever space the buffer has. *)
Theorem poll_restarts_for_ever env data p t stat q :
  env_ok env -> proc_queue p q -> (q.2 <> None -> q.1 = []) -> 228 <= sys_arg 1 < 2 ^ 32 ->
  forall fuel, do_record_one_event fuel env NODE_SYSCALL_POLL data p t stat = None.
Proof.
  intros Henv Hq Hcon Hn fuel.
  assert (always_full NODE_SYSCALL_POLL) as Hf by (apply poll_full; unfold STR_STORAGE_SIZE, PAGE_SIZE; lia).
  assert (recordable NODE_SYSCALL_POLL data) as Hrec.
  { split; [by vm_compute|]. split; [by vm_compute|]. intros f [= <-]. apply Hn. }
  destruct (first_attempt_ok env NODE_SYSCALL_POLL data p stat q) as (a & b & Ha & _ & _ & Hs & Hpost); [done..|].
  unfold first_attempt in Ha. unfold do_record_one_event, record_event.
  destruct (open_buffer (p_buffer p) stat) as [[str b0]|]; [|done]. cbn [mbind option_bind] in Ha.
  destruct (flush_overflow b0) as [b1|]; [|done]. cbn [mbind option_bind] in Ha.
  destruct fuel as [|fuel]; [done|]. cbn [record_loop]. rewrite Ha.
  edestruct (attempt_code NODE_SYSCALL_POLL) as [Hc He]; [exact Hf| |exact Ha|]; [done|]. rewrite Hc in *. cbn [Z.eqb NOD_FAILURE_BUFFER_FULL NOD_SUCCESS Pos.eqb] in *.
  rewrite (restart_for_ever NODE_SYSCALL_POLL); [done|done|done|]. apply Hpost.
Qed.
End loader.

Definition poll_kernel : Kernel := demo_kernel (fill_mem 4096 16 65) [4096; 228; 0; 0; 0; 0] 0.

Lemma poll_restarts_for_ever_witness :
  let K := poll_kernel in
  sys_arg 1 = 228 /\ proc_queue (demo_proc 4096 1) ([], None) /\
  do_record_one_event 1000 demo_env NODE_SYSCALL_POLL (mk_data NODC_SYSCALL 7 0) (demo_proc 4096 1) tt demo_stat = None.
Proof.
  cbv zeta. split; [reflexivity|].
  assert (proc_queue (demo_proc 4096 1) ([], None)) as Hq by (apply demo_proc_queue; [by split|reflexivity]).
  split; [exact Hq|].
  assert (KernelOk poll_kernel) as KO by (apply demo_kernel_ok; [by apply fill_mem_ok|done|by repeat constructor|done]).
  apply (@poll_restarts_for_ever poll_kernel KO unit demo_loader demo_env (mk_data NODC_SYSCALL 7 0)
    (demo_proc 4096 1) tt demo_stat ([], None) demo_env_ok Hq); [done|by vm_compute].
Defined.

(** What the monitor finds on the overflow page. *)
Definition overflow_event (p : nod_proc_info) : option (list (list Z)) :=
  page ← nb_overflow (p_buffer p); '(e, _) ← decode page; Some (e_params e).

(** The kernel of a process that writes 70 bytes to file 1. *)
Definition write_kernel : Kernel := demo_kernel (fill_mem 4096 100 65) [1; 4096; 70; 0; 0; 0] 70.

(** The restart keeps [args.arg_data_offset].  Of 33 equal [write]s recorded
    into an empty buffer of 4096 bytes, the last runs out of space behind its
    third parameter and is written again to the overflow page; there its
    parameters start at the offset the first attempt had reached, not behind the
    sizes, so that the monitor reads the previous contents of the page: its
    parameters are not those of the [write]s before. *)
Theorem restart_keeps_offset :
  let K := write_kernel in
  let wrong := [replicate 8 170; replicate 4 170; replicate 8 170; le_bytes 8 1 ++ le_bytes 4 70 ++ le_bytes 8 70 ++ replicate 50 65] in
  let right := [le_bytes 8 1; le_bytes 4 70; le_bytes 8 70; replicate 70 65] in
  match record_all 2 (replicate 33 NODE_SYSCALL_WRITE) (demo_proc 4096 1) demo_stat with
  | Some (Some (p, _)) => nb_filled (p_buffer p) = 1 /\ overflow_event p = Some wrong /\ wrong <> right /\
      option_map (fun '(e, _) => e_params e) (nb_buffer (p_buffer p) ≫= decode) = Some right
  | _ => False
  end.
Proof. vm_compute. repeat split. discriminate. Qed.

(** The kernel of a process that renames a file with a path of 8131 bytes. *)
Definition rename_kernel : Kernel := demo_kernel (fill_mem 4096 8131 97) [1; 4096; 2; 4096; 0; 0] 0.

(** When the first attempt got further than the overflow page is long, the
    restart computes [arg_data_size = buffer_size - arg_data_offset] below zero,
    as a [uint32_t], and the filler stores outside the page: a [renameat] with a
    path of 8131 bytes into an empty buffer of 8192 bytes. *)
Theorem restart_leaves_page :
  let K := rename_kernel in
  do_record_one_event 2 demo_env NODE_SYSCALL_RENAMEAT (mk_data NODC_SYSCALL 264 0) (demo_proc 8192 1) tt demo_stat
  = Some None.
Proof. vm_compute. reflexivity. Qed.

(** An [fcntl] command that is not in the table of [fcntl_cmd_to_scap], such as
    [F_ADD_SEALS] (1033), violates the [ASSERT(false)] of that function, which is
    a [BUG_ON]. *)
Theorem fcntl_unknown_command_faults :
  let K := demo_kernel (fill_mem 4096 16 65) [3; 1033; 0; 0; 0; 0] 0 in
  do_record_one_event 1 demo_env NODE_SYSCALL_FCNTL (mk_data NODC_SYSCALL 72 0) (demo_proc 4096 1) tt demo_stat
  = Some None.
Proof. vm_compute. reflexivity. Qed.

(** If the monitor did not run and events are still in the buffer, moving the
    overflow page to the buffer overwrites them, while [nevents] still counts
    them: the buffer then holds one event and claims [n + 1]. *)
Theorem flush_overwrites_events b evs e :
  queue b (evs, Some e) -> evs <> [] ->
  exists b', flush_overflow b = Some b' /\ ztake (tail (rb_info b')) (rb_buffer b') = encode e /\
    nevents (rb_info b') = zlen evs + 1 /\ forall evs', ~ holds b' evs'.
Proof.
  intros [Hh Hp] Hne. cbn [fst snd] in *.
  assert (queue (mk_rbuf (rb_buffer b) (mk_info 0 0 (n_solved_evts (rb_info b)) (buffer_size (rb_info b)))
    (rb_over b) (rb_filled b) (rb_stat b)) ([], Some e)) as Hq0.
  { split; [|done]. destruct Hh as [[] _ _ _ _ _]. constructor; cbn; try done. unfold PAGE_SIZE in *. lia. }
  destruct (flush_pending _ _ Hq0) as (b0 & E0 & [[Hw Ht Hc Hd Hn _] _] & _).
  unfold flush_overflow in *. cbn [rb_filled rb_info rb_over rb_buffer rb_stat] in E0. cbn [fst] in *.
  pose proof Hp as (Hf & _). rewrite Hf in *. cbn [Z.eqb Pos.eqb] in *. cbv zeta in *.
  destruct (zread _ _ (rb_over b)) as [ev|]; [|done]. cbn [mbind option_bind] in *.
  destruct (zwrite 0 ev (rb_buffer b)) as [buf|]; [|done]. cbn [mbind option_bind] in *. injection E0 as <-.
  cbn [rb_info rb_buffer tail nevents buffer_size] in *. eexists. split; [done|]. cbn [rb_info rb_buffer tail nevents].
  rewrite encode_all_one in *. pose proof (encode_all_len evs).
  pose proof Hh as [[_ Hsz _] Ht' Hc' _ Hn' _]. pose proof (zlen_nonneg evs).
  assert (u64 (nevents (rb_info b) + 1) = zlen evs + 1) as En by (rewrite Hn'; unfold u64; rewrite unsigned_small; lia).
  split; [done|]. split; [done|]. intros evs' [_ Ht2 _ Hd2 Hn2 Hok2]. cbn [rb_info rb_buffer tail nevents] in *.
  rewrite Hd in Hd2. rewrite En in Hn2. destruct evs' as [|e1 [|e2 evs']].
  - rewrite zlen_nil in Hn2. lia.
  - rewrite zlen_cons, zlen_nil in Hn2. destruct evs; [done|]. rewrite zlen_cons in Hn2.
    pose proof (zlen_nonneg evs). lia.
  - change (encode_all (e1 :: e2 :: evs')) with (encode e1 ++ encode_all (e2 :: evs')) in Hd2.
    inversion Hok2 as [|? ? Hok1 _]; subst. destruct Hp as (_ & Hok & _).
    pose proof (decode_encode e [] Hok) as D. rewrite app_nil_r, Hd2, decode_encode in D by done.
    injection D as _ D. pose proof (encode_all_len (e2 :: evs')) as L. rewrite D, zlen_cons in L.
    pose proof (zlen_nonneg evs'). rewrite zlen_nil in L. lia.
Qed.

Lemma flush_overwrites_events_witness :
  let e := event_of demo_env NODE_SYSCALL_CLOSE [le_bytes 8 3; le_bytes 8 0] in
  let b := mk_rbuf (encode e ++ replicate 4048 0) (mk_info 1 48 0 4096) (encode e ++ replicate 4048 0) 1 demo_stat in
  queue b ([e], Some e) /\
  exists b', flush_overflow b = Some b' /\ ztake (tail (rb_info b')) (rb_buffer b') = encode e /\
    nevents (rb_info b') = zlen [e] + 1 /\ forall evs', ~ holds b' evs'.
Proof.
  cbv zeta. set (e := event_of demo_env NODE_SYSCALL_CLOSE [le_bytes 8 3; le_bytes 8 0]).
  assert (event_ok e) as He by (constructor; (by vm_compute) || (by repeat constructor)).
  assert (queue (mk_rbuf (encode e ++ replicate 4048 0) (mk_info 1 48 0 4096) (encode e ++ replicate 4048 0) 1 demo_stat)
    ([e], Some e)) as Hq.
  { split; [|split; [done|split; [exact He|split; [by vm_compute|by vm_compute]]]].
    constructor; try (by vm_compute); try (by repeat constructor). }
  split; [exact Hq|]. apply (flush_overwrites_events _ [e] e Hq). done.
Defined.
