(* ===== verification/Monitor.v ===== *)
(** * The monitor: [monitor/src/main.c] and [monitor/src/record_writer.c]

    [nod_monitor_main] walks over the buffer event by event, hands each to the Lua
    script and to the record writer, and empties the buffer.  The Lua runtime is a
    parameter: a state and the function [lua_on_event] on it. *)

From S2P Require Import Prelude Kernel Tables Ring RingFacts ProcState Events EventCodec EventsFacts Demo.

Local Open Scope Z_scope.

(** ** The record writer *)

Definition NOD_RECORD_MODE_STOP : Z := 0.
Definition NOD_RECORD_MODE_START : Z := 1.
Definition NOD_RECORD_MODE_COMPRESS : Z := 2.

(** A [FILE*] or [gzFile]: null, open, or closed and thus dangling. *)
Inductive handle : Set := HNull | HOpen | HClosed.

Record record_writer := mk_rw {
  rw_mode : Z;
  rw_file : handle;
  rw_gzfile : handle
}.

(** The writer and the contents of the two files, the compressed one as the bytes
    given to [gzwrite]. *)
Record rstore := mk_store {
  rs_rw : record_writer;
  rs_file : list Z;
  rs_gz : list Z
}.

(** [struct record_writer rw = { .mode = -1 };] *)
Definition init_rw : record_writer := mk_rw (-1) HNull HNull.

(** [new_record_writer]; the flags say whether [fopen] and [gzopen] succeed. *)
Definition new_record_writer (mode : Z) (fopen_ok gzopen_ok : bool) (rw : record_writer) : record_writer :=
  let rw := if rw_mode rw =? -1 then mk_rw mode (rw_file rw) (rw_gzfile rw) else rw in
  if mode =? NOD_RECORD_MODE_START then mk_rw (rw_mode rw) (if fopen_ok then HOpen else HNull) (rw_gzfile rw)
  else if mode =? NOD_RECORD_MODE_STOP then mk_rw (rw_mode rw) HNull (rw_gzfile rw)
  else if mode =? NOD_RECORD_MODE_COMPRESS then mk_rw (rw_mode rw) (rw_file rw) (if gzopen_ok then HOpen else HNull)
  else rw.

(** [write_record_writer] of the event at the start of [ptr]; [None] is a use of a
    handle that is not open, or a read outside the buffer. *)
Definition write_record_writer (ptr : list Z) (s : rstore) : option rstore :=
  let rw := rs_rw s in
  if rw_mode rw =? NOD_RECORD_MODE_START then
    bs ← zread 0 (le_val (zslice 16 4 ptr)) ptr;
    match rw_file rw with
    | HOpen => Some (mk_store rw (rs_file s ++ bs) (rs_gz s))
    | _ => None
    end
  else if rw_mode rw =? NOD_RECORD_MODE_COMPRESS then
    bs ← zread 0 (le_val (zslice 16 4 ptr)) ptr;
    match rw_gzfile rw with
    | HOpen => Some (mk_store rw (rs_file s) (rs_gz s ++ bs))
    | _ => None
    end
  else Some s.

Definition close_record_writer (s : rstore) : option rstore :=
  let rw := rs_rw s in
  if rw_mode rw =? NOD_RECORD_MODE_START then
    match rw_file rw with
    | HOpen => Some (mk_store (mk_rw (rw_mode rw) HClosed (rw_gzfile rw)) (rs_file s) (rs_gz s))
    | _ => None
    end
  else if rw_mode rw =? NOD_RECORD_MODE_COMPRESS then
    match rw_gzfile rw with
    | HOpen => Some (mk_store (mk_rw (rw_mode rw) (rw_file rw) HClosed) (rs_file s) (rs_gz s))
    | _ => None
    end
  else Some s.

(** ** The main loop *)

Section main.
Context {L : Type} (lua_on_event : list Z -> L -> L) (lua_run_script : L -> L).

(** [while (ptr < buffer_end)]: [ptr] is the memory from [ptr] to the end of the
    buffer and [left] is [buffer_end - ptr]; [Some None] is a fault, [None] running
    out of fuel. *)
Fixpoint monitor_loop (fuel : nat) (ptr : list Z) (left solved : Z) (l : L) (s : rstore)
    : option (option (Z * L * rstore)) :=
  match fuel with
  | O => None
  | S fuel =>
      if left <=? 0 then Some (Some (solved, l, s)) else
      if zlen ptr <? HDR_SIZE then Some None else
      match write_record_writer ptr s with
      | None => Some None
      | Some s =>
          let len := le_val (zslice 16 4 ptr) in
          monitor_loop fuel (zdrop len ptr) (left - len) (u64 (solved + 1)) (lua_on_event ptr l) s
      end
  end.

(** [nod_monitor_main(buffer, buffer_info, global_state, record_flag)] *)
Definition nod_monitor_main (fuel : nat) (record_flag : Z) (fopen_ok gzopen_ok : bool)
    (buffer : list Z) (info : nod_buffer_info) (l : L) (s : rstore)
    : option (option (nod_buffer_info * L * rstore)) :=
  let l := lua_run_script l in
  let s := mk_store (new_record_writer record_flag fopen_ok gzopen_ok (rs_rw s)) (rs_file s) (rs_gz s) in
  match monitor_loop fuel buffer (tail info) (n_solved_evts info) l s with
  | None => None
  | Some None => Some None
  | Some (Some (solved, l, s)) =>
      match close_record_writer s with
      | None => Some None
      | Some s => Some (Some (mk_info 0 0 solved (buffer_size info), l, s))
      end
  end.

(** ** What the monitor does *)

(** The Lua state after the events, each seen with what follows it in memory; [free]
    is the unused part of the buffer. *)
Fixpoint lua_run (evs : list event) (free : list Z) (l : L) : L :=
  match evs with
  | [] => l
  | e :: rest => lua_run rest free (lua_on_event (encode_all (e :: rest) ++ free) l)
  end.

Lemma event_len_at e rest : event_ok e -> le_val (zslice 16 4 (encode e ++ rest)) = event_len e.
Proof.
  intros He. pose proof (event_len_pos e). unfold HDR_SIZE in *. rewrite <- (zslice_ztake 16 4 (event_len e)) by lia.
  rewrite ztake_app_exact, encode_len_field, le_val_bytes by (by rewrite zlen_encode).
  apply unsigned_small. destruct He. lia.
Qed.

(** The file of the mode of the writer is open, if the mode has one. *)
Definition writer_open (rw : record_writer) : bool :=
  let is_open h := match h with HOpen => true | _ => false end in
  if rw_mode rw =? NOD_RECORD_MODE_START then is_open (rw_file rw)
  else if rw_mode rw =? NOD_RECORD_MODE_COMPRESS then is_open (rw_gzfile rw) else true.

(** The bytes [bs] are added to the file of the mode of the writer. *)
Definition wrote (bs : list Z) (s : rstore) : rstore :=
  mk_store (rs_rw s) (rs_file s ++ if rw_mode (rs_rw s) =? NOD_RECORD_MODE_START then bs else [])
    (rs_gz s ++ if rw_mode (rs_rw s) =? NOD_RECORD_MODE_COMPRESS then bs else []).

Lemma wrote_nil s : wrote [] s = s.
Proof. unfold wrote. destruct (_ =? _), (_ =? _); rewrite !app_nil_r; by destruct s. Qed.

Lemma wrote_app bs bs' s : wrote bs' (wrote bs s) = wrote (bs ++ bs') s.
Proof. unfold wrote. cbn [rs_rw rs_file rs_gz]. by destruct (_ =? _), (_ =? _); rewrite <- !app_assoc. Qed.

Lemma writer_open_START rw : rw_mode rw = NOD_RECORD_MODE_START -> rw_file rw = HOpen -> writer_open rw = true.
Proof. intros Hm Hf. unfold writer_open. by rewrite Hm, Hf. Qed.

Lemma write_event e rest s : event_ok e ->
  write_record_writer (encode e ++ rest) s = if writer_open (rs_rw s) then Some (wrote (encode e) s) else None.
Proof.
  intros He. unfold write_record_writer, writer_open, wrote. pose proof (event_len_pos e). pose proof (zlen_nonneg rest).
  unfold HDR_SIZE in *. rewrite event_len_at by done.
  rewrite zread_Some by (rewrite ?zlen_app, ?zlen_encode; lia). unfold zslice. rewrite zdrop_0, ztake_app_exact by (by rewrite zlen_encode).
  destruct s as [[m f g] fl gz]. cbn [rs_rw rs_file rs_gz rw_mode rw_file rw_gzfile].
  destruct (Z.eqb_spec m NOD_RECORD_MODE_START) as [->|Hs]; [by destruct f; rewrite ?app_nil_r|].
  destruct (Z.eqb_spec m NOD_RECORD_MODE_COMPRESS) as [->|Hc]; [by destruct g; rewrite ?app_nil_r|]. by rewrite !app_nil_r.
Qed.

Lemma monitor_loop_events evs free fuel solved l s :
  Forall event_ok evs -> (length evs < fuel)%nat -> 0 <= solved -> solved + zlen evs < 2 ^ 64 ->
  monitor_loop fuel (encode_all evs ++ free) (zlen (encode_all evs)) solved l s =
  if writer_open (rs_rw s) || (length evs =? 0)%nat
  then Some (Some (solved + zlen evs, lua_run evs free l, wrote (encode_all evs) s)) else Some None.
Proof.
  intros Hok. revert fuel solved l s. induction Hok as [|e evs He Hok IH]; intros fuel solved l s Hf H0 Hs.
  - destruct fuel as [|fuel]; [cbn in Hf; lia|]. cbn [monitor_loop lua_run encode_all map concat length Nat.eqb].
    change (zlen (@nil Z) <=? 0) with true. cbv iota. by rewrite orb_true_r, wrote_nil, zlen_nil, Z.add_0_r.
  - destruct fuel as [|fuel]; [cbn in Hf; lia|]. cbn [monitor_loop lua_run length Nat.eqb]. rewrite orb_false_r.
    change (encode_all (e :: evs)) with (encode e ++ encode_all evs).
    pose proof (event_len_pos e). pose proof (zlen_nonneg (encode_all evs)). pose proof (zlen_nonneg evs).
    rewrite zlen_cons in *. unfold HDR_SIZE in *.
    pose proof (zlen_nonneg free). rewrite <- app_assoc, !zlen_app, zlen_encode.
    rewrite (proj2 (Z.leb_gt _ _)), (proj2 (Z.ltb_ge _ _)) by lia.
    rewrite write_event by done. destruct (writer_open (rs_rw s)) eqn:Eo; [|done]. cbv zeta. rewrite event_len_at by done.
    rewrite zdrop_app_exact by (by rewrite zlen_encode). rewrite Z.add_simpl_l.
    assert (u64 (solved + 1) = solved + 1) as -> by (unfold u64; rewrite unsigned_small; lia).
    rewrite IH; [|cbn in *; lia|lia|lia]. cbn [wrote rs_rw]. fold (wrote (encode e) s). rewrite Eo. cbn [orb]. rewrite wrote_app. do 4 f_equal. lia.
Qed.

(** The writer after [close_record_writer] of an open one. *)
Definition closed (rw : record_writer) : record_writer :=
  mk_rw (rw_mode rw) (if rw_mode rw =? NOD_RECORD_MODE_START then HClosed else rw_file rw)
    (if rw_mode rw =? NOD_RECORD_MODE_COMPRESS then HClosed else rw_gzfile rw).

Lemma close_writer s : close_record_writer s =
  if writer_open (rs_rw s) then Some (mk_store (closed (rs_rw s)) (rs_file s) (rs_gz s)) else None.
Proof.
  destruct s as [[m f g] fl gz]. unfold close_record_writer, writer_open, closed. cbn [rs_rw rs_file rs_gz rw_mode rw_file rw_gzfile].
  destruct (Z.eqb_spec m NOD_RECORD_MODE_START) as [->|Hs]; [by destruct f|].
  destruct (Z.eqb_spec m NOD_RECORD_MODE_COMPRESS) as [->|Hc]; [by destruct g|]. done.
Qed.

(** A run of the monitor on a buffer of events: it faults exactly if the writer is not open after [new_record_writer]. *)
Lemma monitor_main_result fuel flag fopen_ok gzopen_ok b evs l s :
  holds b evs -> (length evs < fuel)%nat -> 0 <= n_solved_evts (rb_info b) ->
  n_solved_evts (rb_info b) + zlen evs < 2 ^ 64 ->
  let rw := new_record_writer flag fopen_ok gzopen_ok (rs_rw s) in
  nod_monitor_main fuel flag fopen_ok gzopen_ok (rb_buffer b) (rb_info b) l s =
    Some (if writer_open rw then
      let w := wrote (encode_all evs) (mk_store rw (rs_file s) (rs_gz s)) in
      Some (mk_info 0 0 (n_solved_evts (rb_info b) + zlen evs) (buffer_size (rb_info b)),
        lua_run evs (zdrop (tail (rb_info b)) (rb_buffer b)) (lua_run_script l), mk_store (closed rw) (rs_file w) (rs_gz w))
    else None).
Proof.
  intros [_ Ht Hc Hd _ Hok] Hf H0 Hs rw. unfold nod_monitor_main. cbv zeta. fold rw.
  set (free := zdrop (tail (rb_info b)) (rb_buffer b)).
  assert (rb_buffer b = encode_all evs ++ free) as -> by (rewrite <- Hd; symmetry; apply ztake_zdrop).
  rewrite Ht, monitor_loop_events by done. cbn [rs_rw].
  destruct (writer_open rw) eqn:Eo; cbn [orb]; [|destruct (length evs =? 0)%nat; [|done]];
    rewrite close_writer; unfold wrote; cbn [rs_rw]; by rewrite Eo.
Qed.

Lemma emptied b evs n : holds b evs ->
  holds (mk_rbuf (rb_buffer b) (mk_info 0 0 n (buffer_size (rb_info b))) (rb_over b) (rb_filled b) (rb_stat b)) [].
Proof. intros [[Hl Hsz Hov] _ _ _ _ _]. constructor; cbn; try done. unfold PAGE_SIZE in *. lia. Qed.

(** The writer is open if the mode did not change since the first run and its file could be opened. *)
Lemma writer_opens flag rw : rw_mode rw = -1 \/ rw_mode rw = flag -> writer_open (new_record_writer flag true true rw) = true.
Proof.
  destruct rw as [m f g]. intros Hm. cbn [rw_mode] in Hm. unfold writer_open, new_record_writer. cbn [rw_mode rw_file rw_gzfile].
  assert ((if m =? -1 then mk_rw flag f g else mk_rw m f g) = mk_rw flag f g) as -> by (destruct Hm as [->| ->]; [done|by destruct (_ =? _)]).
  cbn [rw_mode rw_file rw_gzfile]. unfold NOD_RECORD_MODE_START, NOD_RECORD_MODE_STOP, NOD_RECORD_MODE_COMPRESS.
  destruct (Z.eqb_spec flag 1) as [->|H1]; [done|]. destruct (Z.eqb_spec flag 0) as [->|H0]; [done|].
  destruct (Z.eqb_spec flag 2) as [->|H2]; [done|]. cbn [rw_mode rw_file rw_gzfile].
  by rewrite (proj2 (Z.eqb_neq _ _) H1), (proj2 (Z.eqb_neq _ _) H2).
Qed.

(** A run in mode [NOD_RECORD_MODE_START]. *)
Lemma monitor_main_run fuel b evs l s :
  holds b evs -> (length evs < fuel)%nat -> 0 <= n_solved_evts (rb_info b) ->
  n_solved_evts (rb_info b) + zlen evs < 2 ^ 64 ->
  rw_mode (rs_rw s) = -1 \/ rw_mode (rs_rw s) = NOD_RECORD_MODE_START ->
  exists info' s',
    nod_monitor_main fuel NOD_RECORD_MODE_START true true (rb_buffer b) (rb_info b) l s =
      Some (Some (info', lua_run evs (zdrop (tail (rb_info b)) (rb_buffer b)) (lua_run_script l), s')) /\
    rs_file s' = rs_file s ++ encode_all evs /\ n_solved_evts info' = n_solved_evts (rb_info b) + zlen evs /\
    holds (mk_rbuf (rb_buffer b) info' (rb_over b) (rb_filled b) (rb_stat b)) [] /\ rw_mode (rs_rw s') = NOD_RECORD_MODE_START.
Proof.
  intros Hb Hf H0 Hs Hm. rewrite monitor_main_result with (evs := evs) by done. rewrite writer_opens by done.
  eexists _, _. split; [done|]. cbn [wrote rs_file rs_rw closed rw_mode].
  assert (rw_mode (new_record_writer NOD_RECORD_MODE_START true true (rs_rw s)) = NOD_RECORD_MODE_START) as ->
    by (destruct (rs_rw s) as [m f g]; cbn [rw_mode] in Hm; destruct Hm as [-> | ->]; reflexivity).
  split; [done|]. split; [done|]. split; [by apply (emptied b evs)|done].
Qed.


(** The record mode is latched.  [new_record_writer] takes over the mode only the
    first time but opens the file of the mode it is given: when recording was
    started for a monitor and is stopped later, its next run has the mode
    [NOD_RECORD_MODE_START] and a null file, and faults, also on an empty
    buffer. *)
Theorem stopping_the_record_faults fuel b evs l s :
  holds b evs -> (length evs < fuel)%nat -> 0 <= n_solved_evts (rb_info b) -> n_solved_evts (rb_info b) + zlen evs < 2 ^ 64 ->
  rw_mode (rs_rw s) = NOD_RECORD_MODE_START ->
  nod_monitor_main fuel NOD_RECORD_MODE_STOP true true (rb_buffer b) (rb_info b) l s = Some None.
Proof.
  intros Hb Hf H0 Hs Hm. rewrite monitor_main_result with (evs := evs) by done.
  destruct (rs_rw s) as [m f g]. cbn [rw_mode] in Hm. by subst m.
Qed.
End main.

(** ** The properties at work *)

Definition demo_event : event := event_of demo_env NODE_SYSCALL_CLOSE [le_bytes 8 3; le_bytes 8 0].
Definition demo_rbuf : rbuf :=
  mk_rbuf (encode demo_event ++ replicate 4048 0) (mk_info 1 48 0 4096) (replicate 4096 0) 0 demo_stat.

Lemma demo_rbuf_holds : holds demo_rbuf [demo_event].
Proof. constructor; try (by vm_compute); repeat constructor; by vm_compute. Qed.


Lemma stopping_the_record_faults_witness :
  holds demo_rbuf [demo_event] /\
  nod_monitor_main (fun _ n => S n) (fun n => n) 2 NOD_RECORD_MODE_STOP true true
    (rb_buffer demo_rbuf) (rb_info demo_rbuf) 0%nat
    (mk_store (mk_rw NOD_RECORD_MODE_START HClosed HNull) [] []) = Some None.
Proof.
  split; [exact demo_rbuf_holds|].
  apply (stopping_the_record_faults (fun _ n => S n) (fun n => n) 2 demo_rbuf [demo_event]);
    [exact demo_rbuf_holds|cbn; lia|by vm_compute|by vm_compute|reflexivity].
Defined.
