(* ===== verification/Pipeline.v ===== *)
(** * From the probes to the file

    The life of one traced process: the kernel records its events
    ([do_record_one_event] of [kmodule/events.c]) and its monitor empties the shared buffer into
    the record file ([nod_monitor_main] of [monitor/src/main.c]), in any order the
    module allows.  The kernel may be another one at each event. *)

From S2P Require Import Prelude Kernel Tables Ring RingFacts FillerLib Fillers FillerFacts FillerTable ProcState Events EventCodec.
From S2P Require Import EventsFacts Demo RecordProps Monitor.

Local Open Scope Z_scope.

Section life.
Context {T : Type} `{LO : MonitorLoaderOk T} {L : Type} (lua_on_event : list Z -> L -> L) (lua_run_script : L -> L).

Record life : Type := mk_life { lf_p : nod_proc_info; lf_t : T; lf_stat : nod_event_statistic; lf_l : L; lf_rs : rstore }.

Inductive op : Type :=
  | ORecord (K : Kernel) (env : rec_env) (et : Z) (data : nod_event_data)
  | OVisit.

(** What the monitor changes in the memory it shares with the kernel. *)
Definition with_info (i : nod_buffer_info) (b : nod_buffer) : nod_buffer :=
  mk_buffer (nb_buffer b) (nb_str_storage b) (Some i) (nb_event_count b) (nb_overflow b) (nb_filled b).

(** One step; an event is recorded without a restart.  The monitor's loop has fuel for the events of the buffer. *)
Definition life_step (o : op) (s : life) : option life :=
  match o with
  | ORecord K env et data =>
      r ← do_record_one_event (K := K) 1 env et data (lf_p s) (lf_t s) (lf_stat s);
      '(_, p, t, stat) ← r;
      Some (mk_life p t stat (lf_l s) (lf_rs s))
  | OVisit =>
      buf ← nb_buffer (p_buffer (lf_p s));
      i ← nb_info (p_buffer (lf_p s));
      r ← nod_monitor_main lua_on_event lua_run_script (S (Z.to_nat (nevents i))) NOD_RECORD_MODE_START true true buf i (lf_l s) (lf_rs s);
      '(i, l, rs) ← r;
      Some (mk_life (set_buffer (with_info i (p_buffer (lf_p s))) (lf_p s)) (lf_t s) (lf_stat s) l rs)
  end.

Fixpoint life_run (ops : list op) (s : life) : option life :=
  match ops with
  | [] => Some s
  | o :: ops => s ← life_step o s; life_run ops s
  end.

(** What the filler of a record step returned. *)
Definition filler_result (K : Kernel) (env : rec_env) (et : Z) (data : nod_event_data) (s : life) : option Z :=
  at_cbret <$> first_attempt (K := K) env et data (lf_p s) (lf_stat s).

(** The header fields of the events whose fillers succeed along a run, and the number of the others. *)
Definition header (e : event) : Z * Z * Z * Z := (e_ts e, e_tid e, e_cpuid e, e_type e).

Fixpoint outcomes (ops : list op) (s : life) : list (Z * Z * Z * Z) * Z :=
  match ops with
  | [] => ([], 0)
  | o :: ops' =>
      let '(hs, n) := match life_step o s with Some s' => outcomes ops' s' | None => ([], 0) end in
      match o with
      | ORecord K env et data =>
          if bool_decide (filler_result K env et data s = Some NOD_SUCCESS) then ((re_ts env, re_pid env, re_cpu env, et) :: hs, n) else (hs, n + 1)
      | OVisit => (hs, n)
      end
  end.

(** ** What the theorem asks of a run *)

(** The overflow page is empty, or the monitor has emptied the buffer since the page was filled. *)
Definition ready (b : nod_buffer) : Prop := nb_filled b = 0 \/ exists i, nb_info b = Some i /\ tail i = 0.

(** The attempt does not run out of space behind the header. *)
Definition room_ok (K : Kernel) (env : rec_env) (et : Z) (data : nod_event_data) (s : life) : Prop :=
  forall a, first_attempt (K := K) env et data (lf_p s) (lf_stat s) = Some a ->
    at_cbret a <> NOD_FAILURE_BUFFER_FULL /\
    (at_cbret a <> NOD_SUCCESS -> tail (rb_info (at_buf a)) + 2 * ei_nparams (g_event_info et) + HDR_SIZE <= capacity (lf_p s)).

(** A record step: the machine and the event are in order, the monitor had its turn, and there is room. *)
Definition record_ok (K : Kernel) (env : rec_env) (et : Z) (data : nod_event_data) (s : life) : Prop :=
  KernelOk K /\ env_ok env /\ recordable (K := K) et data /\ ready (p_buffer (lf_p s)) /\ room_ok K env et data s.

(** A visit: the counter of the monitor does not wrap. *)
Definition visit_ok (s : life) : Prop :=
  forall i, nb_info (p_buffer (lf_p s)) = Some i -> 0 <= n_solved_evts i /\ n_solved_evts i + nevents i < 2 ^ 64.

Fixpoint run_ok (ops : list op) (s : life) : Prop :=
  match ops with
  | [] => True
  | o :: ops =>
      match o with ORecord K env et data => record_ok K env et data s | OVisit => visit_ok s end /\
      forall s', life_step o s = Some s' -> run_ok ops s'
  end.

(** The events that wait, in the order they will be written. *)
Definition waiting (q : equeue) : list event := q.1 ++ match q.2 with Some e => [e] | None => [] end.

(** The writer is as the monitor left it, or new. *)
Definition writer_ok (rs : rstore) : Prop := rw_mode (rs_rw rs) = -1 \/ rw_mode (rs_rw rs) = NOD_RECORD_MODE_START.

(** ** Steps *)

Lemma ready_queue p q : proc_queue p q -> ready (p_buffer p) -> q.2 <> None -> q.1 = [].
Proof using Type.
  intros (str & b & Eo & _ & [Hh Hp]) Hr Hne. destruct q as [evs [e|]]; [|done]. cbn [fst snd] in *. unfold open_buffer in Eo.
  destruct (p_buffer p) as [[buf|] [st|] [inf|] cnt [ov|] fl]; try done. injection Eo as <- <-. destruct Hp as [Hf _]. cbn in Hf.
  destruct Hr as [Hr|(i & Hi & Ht)]; [cbn in Hr; lia|]. injection Hi as ->. destruct Hh as [_ Htl _ _ _ _]. cbn in Htl.
  destruct evs as [|e' evs]; [done|]. exfalso. change (encode_all (e' :: evs)) with (encode e' ++ encode_all evs) in Htl.
  rewrite zlen_app, zlen_encode in Htl. pose proof (event_len_pos e'). pose proof (zlen_nonneg (encode_all evs)). unfold HDR_SIZE in *. lia.
Qed.

Lemma flushed_waiting p q : proc_queue p q -> ready (p_buffer p) -> flushed q = waiting q.
Proof using Type.
  intros Hq Hr. pose proof (ready_queue p q Hq Hr) as He. destruct q as [evs [e|]]; unfold flushed, waiting; cbn [fst snd] in *.
  - by rewrite (He ltac:(done)).
  - by rewrite app_nil_r.
Qed.

(** The state a record step ends in; without the loading of the monitor the overflow page is empty, and a forced event loads it. *)
Lemma record_step_attempt K env et data s q : proc_queue (lf_p s) q -> record_ok K env et data s ->
  exists a, first_attempt (K := K) env et data (lf_p s) (lf_stat s) = Some a /\
    do_record_one_event (K := K) 1 env et data (lf_p s) (lf_t s) (lf_stat s) = Some (Some (after_attempt (lf_p s) (lf_t s) a)) /\
    buffer_size (rb_info (at_buf a)) = capacity (lf_p s) /\ (at_force a = false -> rb_filled (at_buf a) = 0) /\
    (ctrue (ed_force data) = true -> at_force a = true).
Proof using LO.
  intros Hq (HK & He & Hrec & Hr & Hroom).
  destruct (first_attempt_ok env et data (lf_p s) (lf_stat s) q He Hrec Hq (ready_queue _ _ Hq Hr)) as (a & b & Ha & Hcap & _ & _ & Hpost).
  exists a. split; [done|]. split; [by apply record_first; [|apply Hroom]|]. split; [done|].
  destruct (at_cbret a =? NOD_SUCCESS).
  - destruct Hpost as (ps & _ & _ & Hpost). destruct (_ <? _); [destruct Hpost as (_ & Hx & _); split; congruence|].
    destruct Hpost as ([_ Hp] & Hx & _). split; [done|]. intros Hf. by rewrite Hx, Hf.
  - destruct Hpost as (_ & -> & Hx & _). split; [intros Hf; rewrite Hf in Hx; by destruct (_ <? _)|].
    intros Hf. by rewrite Hx, Hf, orb_true_r.
Qed.

(** A record step appends one event, or counts it. *)
Lemma record_step K env et data s q : proc_queue (lf_p s) q -> record_ok K env et data s ->
  exists s' q', life_step (ORecord K env et data) s = Some s' /\ proc_queue (lf_p s') q' /\ lf_rs s' = lf_rs s /\
    if bool_decide (filler_result K env et data s = Some NOD_SUCCESS)
    then n_drop_evts (lf_stat s') = n_drop_evts (lf_stat s) /\ exists ps, zlen ps = ei_nparams (g_event_info et) /\ waiting q' = waiting q ++ [event_of env et ps]
    else n_drop_evts (lf_stat s') = u64 (n_drop_evts (lf_stat s) + 1) /\ waiting q' = waiting q.
Proof using LO.
  intros Hq (HK & He & Hrec & Hr & Hroom). pose proof (flushed_waiting _ _ Hq Hr) as Ef.
  destruct (first_attempt_ok env et data (lf_p s) (lf_stat s) q He Hrec Hq (ready_queue _ _ Hq Hr)) as (a & b & Ha & Hcap & Hdr & Hs & Hpost).
  destruct (Hroom a Ha) as [Hfull Hspace].
  pose proof (record_first 0 env et data (lf_p s) (lf_t s) (lf_stat s) a Ha Hfull) as Hrun.
  pose proof (after_attempt_queue (lf_p s) (lf_t s) a) as Haq. pose proof (after_attempt_stat (lf_p s) (lf_t s) a) as Hst.
  unfold filler_result. rewrite Ha. cbn [fmap option_fmap option_map].
  destruct (after_attempt (lf_p s) (lf_t s) a) as [[[r p'] t'] stat'] eqn:Ea. cbn [fst snd] in Haq, Hst.
  exists (mk_life p' t' stat' (lf_l s) (lf_rs s)).
  assert (life_step (ORecord K env et data) s = Some (mk_life p' t' stat' (lf_l s) (lf_rs s))) as -> by (unfold life_step; by rewrite Hrun).
  cbn [lf_p lf_stat lf_rs]. subst stat'. destruct (Z.eqb_spec (at_cbret a) NOD_SUCCESS) as [Hok|Hok].
  - rewrite bool_decide_true by (by rewrite Hok). destruct Hpost as (ps & Hps & _ & Hpost). rewrite Ef in Hpost.
    destruct (_ <? _); destruct Hpost as (Hqa & _ & Hsa); eexists; (split; [done|split; [by apply Haq|split; [done|]]]); rewrite Hsa;
      (split; [exact Hdr|exists ps; split; [done|]]); unfold waiting; cbn [fst snd]; by rewrite ?app_nil_r.
  - rewrite bool_decide_false by congruence. destruct Hpost as (Hh & Hf & _ & Hd). pose proof (ho_tail _ _ Hh) as Htl.
    destruct (Z.eqb_spec (at_cbret a) NOD_FAILURE_BUFFER_FULL); [done|].
    destruct (Z.ltb_spec (capacity (lf_p s) - zlen (encode_all (flushed q))) (2 * ei_nparams (g_event_info et) + HDR_SIZE)); [specialize (Hspace Hok); lia|].
    exists (flushed q, None). split; [done|]. split; [by apply Haq|]. split; [done|]. split; [by rewrite Hd; cbn; rewrite Hdr|].
    unfold waiting at 1. cbn [fst snd]. by rewrite app_nil_r.
Qed.

(** A visit writes the events of the buffer; one on the overflow page waits on. *)
Lemma visit_step s q : proc_queue (lf_p s) q -> visit_ok s -> writer_ok (lf_rs s) ->
  exists s', life_step OVisit s = Some s' /\ proc_queue (lf_p s') ([], q.2) /\ writer_ok (lf_rs s') /\
    rs_file (lf_rs s') = rs_file (lf_rs s) ++ encode_all q.1 /\ n_drop_evts (lf_stat s') = n_drop_evts (lf_stat s).
Proof using Type.
  intros (str & b & Eo & Hs & [Hh Hp]) Hv Hw. unfold open_buffer in Eo.
  destruct (p_buffer (lf_p s)) as [[buf|] [st|] [inf|] cnt [ov|] fl] eqn:Eb; try done. injection Eo as <- <-. cbn [fst snd] in *.
  unfold visit_ok in Hv. rewrite Eb in Hv. destruct (Hv inf eq_refl) as [H0 Hmax]. pose proof (ho_nevents _ _ Hh) as Hn. cbn [rb_info] in Hn.
  destruct (monitor_main_run lua_on_event lua_run_script (S (Z.to_nat (nevents inf))) _ q.1 (lf_l s) (lf_rs s) Hh) as (info' & rs' & E & Hfile & Hsolved & Hh' & Hmode); cbn [rb_info rb_buffer rb_over rb_filled rb_stat] in *.
  - rewrite Hn. unfold zlen. lia.
  - done.
  - by rewrite <- Hn.
  - exact Hw.
  - unfold life_step. rewrite Eb. cbn [nb_buffer nb_info mbind option_bind]. rewrite E. cbn [mbind option_bind].
    eexists. split; [done|]. cbn [lf_p lf_rs lf_stat]. split; [|split; [|done]].
    + eexists _, _. split; [reflexivity|]. split; [exact Hs|]. split; [exact Hh'|]. destruct q as [evs [e|]]; exact Hp.
    + by right.
Qed.

(** A visit stores nothing into the buffer itself. *)
Lemma visit_buffer_kept s s' : life_step OVisit s = Some s' -> nb_buffer (p_buffer (lf_p s')) = nb_buffer (p_buffer (lf_p s)).
Proof using Type.
  unfold life_step. destruct (nb_buffer (p_buffer (lf_p s))) eqn:E; cbn [mbind option_bind]; [|done]. destruct (nb_info (p_buffer (lf_p s))); cbn [mbind option_bind]; [|done].
  destruct (nod_monitor_main _ _ _ _ _ _ _ _ _ _) as [[[[i x] rs]|]|]; cbn [mbind option_bind]; try done. by intros [= <-].
Qed.

(** The space for events is the buffer. *)
Lemma capacity_buffer p q : proc_queue p q -> exists buf, nb_buffer (p_buffer p) = Some buf /\ capacity p = zlen buf.
Proof using Type.
  intros (str & b & Eo & _ & [[[Hl _ _] _ _ _ _ _] _]). unfold open_buffer, capacity in *.
  destruct (p_buffer p) as [[buf|] [st|] [inf|] cnt [ov|] fl]; try done. injection Eo as <- <-. by exists buf.
Qed.

(** The events of the buffer are well formed. *)
Lemma queue_ok p q : proc_queue p q -> Forall event_ok q.1.
Proof using Type. intros (str & b & _ & _ & [Hh _]). exact (ho_ok _ _ Hh). Qed.

(** The run, with the events written. *)
Lemma life_run_writes ops s q : proc_queue (lf_p s) q -> writer_ok (lf_rs s) -> run_ok ops s ->
  exists s' q' written, life_run ops s = Some s' /\ proc_queue (lf_p s') q' /\
    rs_file (lf_rs s') = rs_file (lf_rs s) ++ encode_all written /\ Forall event_ok written /\
    List.map header (written ++ waiting q') = List.map header (waiting q) ++ (outcomes ops s).1 /\
    n_drop_evts (lf_stat s') mod 2 ^ 64 = (n_drop_evts (lf_stat s) + (outcomes ops s).2) mod 2 ^ 64.
Proof using LO.
  revert s q. induction ops as [|o ops IH]; intros s q Hq Hw Hok.
  { exists s, q, []. cbn. rewrite !app_nil_r, Z.add_0_r. done. }
  destruct Hok as [Ho Hok]. cbn [life_run outcomes]. destruct o as [K env et data|].
  - destruct (record_step K env et data s q Hq Ho) as (s1 & q1 & E & Hq1 & Hrs & Hout). rewrite E in *. cbn [mbind option_bind].
    destruct (IH s1 q1 Hq1 ltac:(by rewrite Hrs) (Hok _ eq_refl)) as (s' & q' & wr & E' & Hq' & Hf & Hdec & Hh & Hn).
    exists s', q', wr. rewrite Hrs in Hf. split; [done|]. split; [done|]. split; [done|]. split; [done|].
    destruct (outcomes ops s1) as [hs n]. cbn [fst snd] in *. case_bool_decide; cbn [fst snd].
    + destruct Hout as [Hd (ps & _ & Hps)]. rewrite Hn, Hd. split; [|done]. rewrite Hh, Hps, map_app, <- app_assoc. done.
    + destruct Hout as [Hd Hps]. rewrite Hn, Hd, Hh, Hps. split; [done|]. unfold u64, unsigned. rewrite Z.add_mod_idemp_l by lia. f_equal. lia.
  - destruct (visit_step s q Hq Ho Hw) as (s1 & E & Hq1 & Hw1 & Hf1 & Hd1). rewrite E in *. cbn [mbind option_bind].
    destruct (IH s1 _ Hq1 Hw1 (Hok _ eq_refl)) as (s' & q' & wr & E' & Hq' & Hf & Hdec & Hh & Hn).
    exists s', q', (q.1 ++ wr). destruct (outcomes ops s1) as [hs n]. cbn [fst snd] in *.
    split; [done|]. split; [done|]. split; [by rewrite Hf, Hf1, encode_all_app, <- app_assoc|]. split; [|split; [|by rewrite Hn, Hd1]].
    + apply Forall_app. split; [exact (queue_ok _ _ Hq)|exact Hdec].
    + assert (waiting q = q.1 ++ waiting ([], q.2)) as -> by done. rewrite <- app_assoc, !map_app, <- app_assoc, <- Hh, map_app. done.
Qed.

(** C3: No event is lost on the way to the file. Take a process in whatever state its queue is, and record events and run its
    monitor in any order, where the monitor gets its turn after an event had to wait on the overflow
    page, every event is recordable and no attempt runs out of space behind the header ([restart_keeps_offset] and [restart_leaves_page] are
    about the restart). The monitor runs in mode START, its file opens and the script returns. Then nothing faults, and the record file has grown by the encodings of events [written], which
    decode back to them; the header fields - time, thread, processor, type - of what was written and what waits now are,
    in order and without gaps or repetitions, those of the events that waited before and of the events recorded since; every other event is
    counted as dropped. *)
Theorem no_event_lost ops s q : proc_queue (lf_p s) q -> writer_ok (lf_rs s) -> run_ok ops s ->
  exists s' q' written, life_run ops s = Some s' /\ proc_queue (lf_p s') q' /\
    rs_file (lf_rs s') = rs_file (lf_rs s) ++ encode_all written /\ decode_all (length written) (encode_all written) = Some written /\
    List.map header (written ++ waiting q') = List.map header (waiting q) ++ (outcomes ops s).1 /\
    n_drop_evts (lf_stat s') mod 2 ^ 64 = (n_drop_evts (lf_stat s) + (outcomes ops s).2) mod 2 ^ 64.
Proof using LO.
  intros Hq Hw Hok. destruct (life_run_writes ops s q Hq Hw Hok) as (s' & q' & wr & E & Hq' & Hf & Hev & Hh & Hn).
  exists s', q', wr. repeat (split; [assumption|]). split; [by apply decode_all_encode|]. by split.
Qed.
End life.

(** ** A run *)

Definition demo_close_op : op := ORecord close_kernel demo_env NODE_SYSCALL_CLOSE (mk_data NODC_SYSCALL 3 0).
Definition demo_life : life := mk_life (T := unit) (L := nat) (demo_proc 4096 1) tt demo_stat 0%nat (mk_store init_rw [] []).

(** What the hypotheses ask of a step, as tests. *)
Definition record_testb {T L : Type} (K : Kernel) (env : rec_env) (et : Z) (data : nod_event_data) (s : life (T := T) (L := L)) : bool :=
  (nb_filled (p_buffer (lf_p s)) =? 0) &&
  match first_attempt (K := K) env et data (lf_p s) (lf_stat s) with Some a => at_cbret a =? NOD_SUCCESS | None => true end.

Definition visit_testb {T L : Type} (s : life (T := T) (L := L)) : bool :=
  match nb_info (p_buffer (lf_p s)) with Some i => (0 <=? n_solved_evts i) && (n_solved_evts i + nevents i <? 2 ^ 64) | None => true end.

Lemma record_testb_ok {T L : Type} K env et data (s : life (T := T) (L := L)) : KernelOk K -> env_ok env -> recordable (K := K) et data ->
  record_testb K env et data s = true -> record_ok K env et data s.
Proof.
  intros HK He Hr [Hf%Z.eqb_eq Ha]%andb_true_iff. repeat (split; [assumption|]). split; [by left|].
  intros a E. rewrite E in Ha. apply Z.eqb_eq in Ha. rewrite Ha. split; [|intros Hn; by destruct Hn]. discriminate.
Qed.

Lemma visit_testb_ok {T L : Type} (s : life (T := T) (L := L)) : visit_testb s = true -> visit_ok s.
Proof. unfold visit_testb. intros H i E. rewrite E in H. apply andb_true_iff in H as [?%Z.leb_le ?%Z.ltb_lt]. done. Qed.

(** A test after a step, evaluated without the state. *)
Lemma after_step {A} (f : A -> bool) (o : option A) s : match o with Some s => f s | None => true end = true -> o = Some s -> f s = true.
Proof. by intros H ->. Qed.

Lemma no_event_lost_witness :
  let ops := [demo_close_op; OVisit; demo_close_op] in
  proc_queue (lf_p demo_life) ([], None) /\ run_ok (fun _ n => S n) (fun n => n) ops demo_life /\
  exists s' q' written, life_run (fun _ n => S n) (fun n => n) ops demo_life = Some s' /\ proc_queue (lf_p s') q' /\
    rs_file (lf_rs s') = [] ++ encode_all written /\ decode_all (length written) (encode_all written) = Some written /\
    List.map header (written ++ waiting q') = [] ++ (outcomes (fun _ n => S n) (fun n => n) ops demo_life).1 /\
    n_drop_evts (lf_stat s') mod 2 ^ 64 = (0 + (outcomes (fun _ n => S n) (fun n => n) ops demo_life).2) mod 2 ^ 64.
Proof.
  cbv zeta.
  assert (proc_queue (lf_p demo_life) ([], None)) as Hq by (apply demo_proc_queue; [by split|reflexivity]).
  assert (@recordable close_kernel NODE_SYSCALL_CLOSE (mk_data NODC_SYSCALL 3 0)) as Hr.
  { split; [by vm_compute|]. split; [by vm_compute|]. intros f [= <-]. exact I. }
  assert (run_ok (fun _ n => S n) (fun n => n) [demo_close_op; OVisit; demo_close_op] demo_life) as Hok.
  { split; [apply record_testb_ok; [apply close_kernel_ok|apply demo_env_ok|exact Hr|vm_compute; reflexivity]|].
    intros s1 E1. split; [apply visit_testb_ok; refine (after_step visit_testb _ s1 _ E1); vm_compute; reflexivity|].
    intros s2 E2. split; [|done].
    apply record_testb_ok; [apply close_kernel_ok|apply demo_env_ok|exact Hr|].
    refine (after_step (record_testb _ _ _ _) (s ← life_step (fun _ n => S n) (fun n => n) demo_close_op demo_life; life_step (fun _ n => S n) (fun n => n) OVisit s) s2 _ _); [vm_compute; reflexivity|].
    by rewrite E1. }
  split; [exact Hq|]. split; [exact Hok|].
  apply (no_event_lost (fun _ n => S n) (fun n => n) [demo_close_op; OVisit; demo_close_op] demo_life ([], None) Hq); [by left|exact Hok].
Defined.
