(* ===== verification/Privil.v ===== *)
(** * Privileges and registers: [kmodule/privil.c]

    Before the monitor runs in a process, the kernel saves the process' security
    settings and registers and raises its privileges; when the monitor is done it
    restores them.  [task] is the part of [current] these functions touch;
    [t_refs] counts the references to a [struct path]. *)

From S2P Require Import Prelude Kernel Tables FillerLib ProcState.

Local Open Scope Z_scope.

Definition SECCOMP_MODE_DISABLED : Z := 0.
Definition SECCOMP_MODE_STRICT : Z := 1.
Definition SECCOMP_MODE_FILTER : Z := 2.
Definition SIGKILL : Z := 9.
Definition SIGSTOP : Z := 19.
Definition RLIMIT_CPU : nat := 0.
Definition RLIMIT_FSIZE : nat := 1.
Definition RLIMIT_NOFILE : nat := 7.
Definition RLIM_INFINITY : Z := 2 ^ 64 - 1.
Definition CAP_FULL_SET : Z := 2 ^ 64 - 1.

(** ** The task *)

Record task := mk_ktask {
  k_cap_effective : Z;
  k_cap_permitted : Z;
  k_seccomp : Z;
  k_blocked : Z;                (* the signal mask *)
  k_root : Z;                   (* current->fs->root *)
  k_seq : Z;                    (* current->fs->seq *)
  k_rlim : list (Z * Z);
  k_clear_child_tid : Z;
  k_fsbase : Z;
  k_gsbase : Z;
  k_fds : gset Z;               (* open descriptors *)
  t_refs : Z -> Z               (* references to a path *)
}.

(** What the process observes of its own settings. *)
Record settings := mk_settings {
  st_caps : Z * Z;
  st_seccomp : Z;
  st_blocked : Z;
  st_root : Z;
  st_rlim : list (Z * Z);
  st_child_tid : Z
}.

Definition settings_of (t : task) : settings :=
  mk_settings (k_cap_effective t, k_cap_permitted t) (k_seccomp t) (k_blocked t) (k_root t) (k_rlim t)
    (k_clear_child_tid t).

Definition ref_add (path n : Z) (refs : Z -> Z) : Z -> Z := fun x => if x =? path then refs x + n else refs x.

(** ** Seccomp and capabilities *)

Definition set_seccomp (mode : Z) (t : task) : task :=
  mk_ktask (k_cap_effective t) (k_cap_permitted t) mode (k_blocked t) (k_root t) (k_seq t) (k_rlim t)
    (k_clear_child_tid t) (k_fsbase t) (k_gsbase t) (k_fds t) (t_refs t).

Definition nod_get_seccomp (t : task) : Z := k_seccomp t.

Definition nod_disable_seccomp (t : task) : task :=
  if negb (k_seccomp t =? SECCOMP_MODE_DISABLED) then set_seccomp SECCOMP_MODE_DISABLED t else t.

Definition nod_enable_seccomp (mode : Z) (t : task) : Z * task :=
  if negb (mode =? SECCOMP_MODE_DISABLED) && negb (mode =? SECCOMP_MODE_FILTER) && negb (mode =? SECCOMP_MODE_STRICT)
  then (- EINVAL, t)
  else (0, if negb (mode =? k_seccomp t) then set_seccomp mode t else t).

Definition nod_cap_capset (permitted effective : Z) (t : task) : task :=
  mk_ktask effective permitted (k_seccomp t) (k_blocked t) (k_root t) (k_seq t) (k_rlim t)
    (k_clear_child_tid t) (k_fsbase t) (k_gsbase t) (k_fds t) (t_refs t).

Definition nod_cap_raise : task -> task := nod_cap_capset CAP_FULL_SET CAP_FULL_SET.

(** ** Segment bases *)

Definition nod_write_fsbase (fsbase : Z) (t : task) : task :=
  mk_ktask (k_cap_effective t) (k_cap_permitted t) (k_seccomp t) (k_blocked t) (k_root t) (k_seq t) (k_rlim t)
    (k_clear_child_tid t) fsbase (k_gsbase t) (k_fds t) (t_refs t).

Definition nod_write_gsbase (gsbase : Z) (t : task) : task :=
  mk_ktask (k_cap_effective t) (k_cap_permitted t) (k_seccomp t) (k_blocked t) (k_root t) (k_seq t) (k_rlim t)
    (k_clear_child_tid t) (k_fsbase t) gsbase (k_fds t) (t_refs t).

(** ** The root directory *)

Definition set_root (path seq : Z) (refs : Z -> Z) (t : task) : task :=
  mk_ktask (k_cap_effective t) (k_cap_permitted t) (k_seccomp t) (k_blocked t) path seq (k_rlim t)
    (k_clear_child_tid t) (k_fsbase t) (k_gsbase t) (k_fds t) refs.

(** [get_fs_root] of the kernel: the root with a new reference to it. *)
Definition get_fs_root (root : Z) (t : task) : task := set_root (k_root t) (k_seq t) (ref_add root 1 (t_refs t)) t.

(** Both sections of [fs->seq] are entered, none is left. *)
Definition nod_set_fs_root (path : Z) (t : task) : task :=
  let refs := ref_add path 1 (t_refs t) in
  let seq := k_seq t + 1 in
  let old_root := k_root t in
  let seq := seq + 1 in
  let refs := if ctrue old_root then ref_add old_root (-1) refs else refs in
  set_root path seq refs t.

(** ** Resource limits, signals and the child thread id *)

Definition set_rlim (r : list (Z * Z)) (t : task) : task :=
  mk_ktask (k_cap_effective t) (k_cap_permitted t) (k_seccomp t) (k_blocked t) (k_root t) (k_seq t) r
    (k_clear_child_tid t) (k_fsbase t) (k_gsbase t) (k_fds t) (t_refs t).

Definition nod_disable_rlim (t : task) : task :=
  let r := <[RLIMIT_FSIZE := (RLIM_INFINITY, RLIM_INFINITY)]> (k_rlim t) in
  let r := <[RLIMIT_CPU := (RLIM_INFINITY, RLIM_INFINITY)]> r in
  set_rlim (<[RLIMIT_NOFILE := (1024 * 1024, 1024 * 1024)]> r) t.

Definition nod_enable_rlim (rlim : list (Z * Z)) (t : task) : task := set_rlim rlim t.

Definition set_blocked (m : Z) (t : task) : task :=
  mk_ktask (k_cap_effective t) (k_cap_permitted t) (k_seccomp t) m (k_root t) (k_seq t) (k_rlim t)
    (k_clear_child_tid t) (k_fsbase t) (k_gsbase t) (k_fds t) (t_refs t).

Definition set_child_tid (c : Z) (t : task) : task :=
  mk_ktask (k_cap_effective t) (k_cap_permitted t) (k_seccomp t) (k_blocked t) (k_root t) (k_seq t) (k_rlim t)
    c (k_fsbase t) (k_gsbase t) (k_fds t) (t_refs t).

Definition sigmask (sig : Z) : Z := Z.shiftl 1 (sig - 1).

(** ** Saving and restoring *)

Section privil.
(** [init_task.fs->root]. *)
Context (init_root : Z).

Definition set_sec_available (n : Z) (s : nod_proc_security) : nod_proc_security :=
  mk_sec n (sec_child_tid s) (sec_seccomp_mode s) (sec_sigset s) (sec_cap_permitted s) (sec_cap_effective s)
    (sec_root_path s) (sec_rlim s).

Definition __restore_security (s : nod_proc_security) (t : task) : nod_proc_security * task :=
  if sec_available s =? 0 then (s, t) else
  let t := nod_cap_capset (sec_cap_permitted s) (sec_cap_effective s) t in
  let t := (nod_enable_seccomp (sec_seccomp_mode s) t).2 in
  let t := set_blocked (sec_sigset s) t in
  let t := nod_set_fs_root (sec_root_path s) t in
  let t := nod_enable_rlim (sec_rlim s) t in
  let t := set_child_tid (sec_child_tid s) t in
  (set_sec_available 0 s, t).

Definition nod_prepare_security (p : nod_proc_info) (t : task) : nod_proc_info * task :=
  let effective := k_cap_effective t in
  let permitted := k_cap_permitted t in
  let t := nod_cap_raise t in
  let mode := nod_get_seccomp t in
  let t := nod_disable_seccomp t in
  let root := k_root t in
  let t := get_fs_root root t in
  let t := get_fs_root init_root t in
  let t := nod_set_fs_root init_root t in
  let sigset := k_blocked t in
  let t := set_blocked (Z.land (Z.ones 64) (Z.lnot (Z.lor (sigmask SIGKILL) (sigmask SIGSTOP)))) t in
  let rlim := k_rlim t in
  let t := nod_disable_rlim t in
  let child := k_clear_child_tid t in
  (set_sec (mk_sec 1 child mode sigset permitted effective root rlim) p, t).

Definition close_fd (fd : Z) (t : task) : task :=
  mk_ktask (k_cap_effective t) (k_cap_permitted t) (k_seccomp t) (k_blocked t) (k_root t) (k_seq t) (k_rlim t)
    (k_clear_child_tid t) (k_fsbase t) (k_gsbase t) (k_fds t ∖ {[fd]}) (t_refs t).

Definition nod_restore_security (p : nod_proc_info) (t : task) : nod_proc_info * task :=
  let '(p, t) := if 0 <=? p_ioctl_fd p then (set_ioctl_fd (-1) p, close_fd (p_ioctl_fd p) t) else (p, t) in
  let '(s, t) := __restore_security (p_sec p) t in
  (set_sec s p, t).

Definition nod_restore_context (p : nod_proc_info) (regs : pt_regs) (t : task) : nod_proc_info * pt_regs * task :=
  let ctx := p_ctx p in
  if ctx_available ctx =? 0 then (p, regs, t) else
  let t := nod_write_gsbase (ctx_gsbase ctx) t in
  let t := nod_write_fsbase (ctx_fsbase ctx) t in
  (set_ctx (mk_ctx 0 (ctx_fsbase ctx) (ctx_gsbase ctx) (ctx_regs ctx)) p, ctx_regs ctx, t).

Definition nod_prepare_context (p : nod_proc_info) (regs : pt_regs) (t : task) : nod_proc_info :=
  set_ctx (mk_ctx 1 (k_fsbase t) (k_gsbase t) regs) p.

(** ** Round trips *)

(** The seccomp modes the kernel knows. *)
Definition seccomp_ok (m : Z) : Prop :=
  m = SECCOMP_MODE_DISABLED \/ m = SECCOMP_MODE_STRICT \/ m = SECCOMP_MODE_FILTER.

Lemma enable_seccomp_ok m t : seccomp_ok m ->
  (nod_enable_seccomp m t).2 = set_seccomp m t.
Proof.
  intros Hm. unfold nod_enable_seccomp.
  assert (negb (m =? SECCOMP_MODE_DISABLED) && negb (m =? SECCOMP_MODE_FILTER) && negb (m =? SECCOMP_MODE_STRICT) = false) as ->
    by (destruct Hm as [->|[->| ->]]; done).
  cbn [snd]. destruct (Z.eqb_spec m (k_seccomp t)) as [->|]; [|done]. by destruct t.
Qed.

(** What restoring sets, whatever the settings are by then. *)
Lemma restore_settings s t : sec_available s <> 0 -> seccomp_ok (sec_seccomp_mode s) ->
  settings_of (__restore_security s t).2 =
    mk_settings (sec_cap_effective s, sec_cap_permitted s) (sec_seccomp_mode s) (sec_sigset s)
      (sec_root_path s) (sec_rlim s) (sec_child_tid s) /\
  sec_available (__restore_security s t).1 = 0.
Proof.
  intros Ha Hm. unfold __restore_security. destruct (Z.eqb_spec (sec_available s) 0); [done|]. cbv zeta.
  rewrite enable_seccomp_ok by done. done.
Qed.

(** What preparing saves. *)
Lemma prepare_saves p t : p_sec (nod_prepare_security p t).1 =
  mk_sec 1 (k_clear_child_tid t) (k_seccomp t) (k_blocked t) (k_cap_permitted t) (k_cap_effective t)
    (k_root t) (k_rlim t).
Proof.
  unfold nod_prepare_security. cbv zeta. cbn [fst p_sec set_sec]. unfold nod_disable_seccomp.
  by destruct (negb _).
Qed.

Lemma restore_saved s t t' : seccomp_ok (k_seccomp t) ->
  s = mk_sec 1 (k_clear_child_tid t) (k_seccomp t) (k_blocked t) (k_cap_permitted t) (k_cap_effective t)
    (k_root t) (k_rlim t) ->
  settings_of (__restore_security s t').2 = settings_of t /\ sec_available (__restore_security s t').1 = 0.
Proof. intros Hm ->. by apply restore_settings. Qed.

(** C22: The monitor runs with full privileges and leaves none behind.  Between
    [nod_prepare_security] and [nod_restore_security] the process has every
    capability, no seccomp filter, the root of the init task and only [SIGKILL]
    and [SIGSTOP] unblocked; whatever the monitor changes in between, and
    whatever state [t'] the task is in when it ends, restoring gives the process
    its own capabilities, seccomp mode, signal mask, root, resource limits and
    child-tid address back. *)
Theorem security_round_trip p t p' t' :
  seccomp_ok (k_seccomp t) ->
  let '(p1, t1) := nod_prepare_security p t in
  p_sec p' = p_sec p1 ->
  k_cap_effective t1 = CAP_FULL_SET /\ k_cap_permitted t1 = CAP_FULL_SET /\
  k_seccomp t1 = SECCOMP_MODE_DISABLED /\ k_root t1 = init_root /\
  (forall sig, 1 <= sig <= 64 -> Z.testbit (k_blocked t1) (sig - 1) = negb ((sig =? SIGKILL) || (sig =? SIGSTOP))) /\
  settings_of (nod_restore_security p' t').2 = settings_of t /\
  sec_available (p_sec (nod_restore_security p' t').1) = 0.
Proof.
  intros Hm. unfold nod_prepare_security. cbv zeta. cbn [fst snd]. intros Hp.
  split; [by unfold nod_disable_rlim, nod_disable_seccomp; destruct (negb _)|].
  split; [by unfold nod_disable_rlim, nod_disable_seccomp; destruct (negb _)|].
  split. { unfold nod_disable_rlim, nod_disable_seccomp. cbn [k_seccomp nod_cap_raise nod_cap_capset].
    destruct (Z.eqb_spec (k_seccomp t) SECCOMP_MODE_DISABLED) as [E|]; [exact E|done]. }
  split; [done|]. split.
  { intros sig Hs. cbn [set_blocked nod_disable_rlim set_rlim k_blocked].
    change (Z.land (Z.ones 64) (Z.lnot (Z.lor (sigmask SIGKILL) (sigmask SIGSTOP))))
      with (Z.lxor (Z.ones 64) (Z.lor (2 ^ 8) (2 ^ 18))).
    rewrite Z.lxor_spec, Z.lor_spec, Z.ones_spec_low, !Z.pow2_bits_eqb by lia. unfold SIGKILL, SIGSTOP.
    destruct (Z.eqb_spec 8 (sig - 1)), (Z.eqb_spec sig 9), (Z.eqb_spec 18 (sig - 1)), (Z.eqb_spec sig 19); done || lia. }
  assert (forall p2 t2, p_sec p2 = p_sec p' ->
    settings_of (__restore_security (p_sec p2) t2).2 = settings_of t /\
    sec_available (__restore_security (p_sec p2) t2).1 = 0) as H.
  { intros p2 t2 E. rewrite E. apply restore_saved; [done|]. rewrite Hp. apply (prepare_saves p t). }
  unfold nod_restore_security.
  destruct (0 <=? p_ioctl_fd p').
  - specialize (H (set_ioctl_fd (-1) p') (close_fd (p_ioctl_fd p') t') eq_refl).
    destruct (__restore_security _ _) as [s2 t2]. exact H.
  - specialize (H p' t' eq_refl). destruct (__restore_security _ _) as [s2 t2]. exact H.
Qed.

(** The interrupted registers come back.  [nod_restore_context] gives the
    registers and the segment bases that [nod_prepare_context] saved, whatever
    the monitor did to them, once: a second restore changes nothing. *)
Theorem context_round_trip p regs t p' regs' t' :
  p_ctx p' = p_ctx (nod_prepare_context p regs t) ->
  let '(p2, regs2, t2) := nod_restore_context p' regs' t' in
  regs2 = regs /\ k_fsbase t2 = k_fsbase t /\ k_gsbase t2 = k_gsbase t /\ settings_of t2 = settings_of t' /\
  forall regs3 t3, nod_restore_context p2 regs3 t3 = (p2, regs3, t3).
Proof. intros Hp. unfold nod_restore_context. rewrite Hp. done. Qed.

(** Every run of the monitor leaks a reference to the root of the process and
    one to the root of the init task: [nod_prepare_security] takes three
    references and gives one back, [nod_restore_security] takes one and gives one
    back, and the two of [get_fs_root] are never dropped. *)
Theorem security_leaks_roots p t :
  seccomp_ok (k_seccomp t) -> k_root t <> 0 -> init_root <> 0 -> k_root t <> init_root ->
  let '(p1, t1) := nod_prepare_security p t in
  let t2 := (nod_restore_security p1 t1).2 in
  k_root t2 = k_root t /\ t_refs t2 (k_root t) = t_refs t (k_root t) + 1 /\
  t_refs t2 init_root = t_refs t init_root + 1.
Proof.
  intros Hm Hr Hi Hne. destruct (nod_prepare_security p t) as [p1 t1] eqn:E. cbv zeta.
  pose proof (prepare_saves p t) as Hs. rewrite E in Hs. cbn [fst] in Hs.
  assert (t_refs t1 = t_refs (nod_prepare_security p t).2 /\ k_root t1 = init_root) as [Hrefs Hroot] by (by rewrite E; injection E as _ <-).
  unfold nod_prepare_security in Hrefs. cbv zeta in Hrefs. cbn [snd] in Hrefs.
  assert (t_refs t1 = ref_add (k_root t) (-1) (ref_add init_root 1 (ref_add init_root 1 (ref_add (k_root t) 1 (t_refs t))))) as Hr1.
  { rewrite Hrefs. unfold nod_disable_rlim, nod_disable_seccomp. destruct (negb _);
      cbn; unfold nod_set_fs_root; cbn; unfold ctrue; destruct (Z.eqb_spec (k_root t) 0); done. }
  assert (forall p2 t2, p_sec p2 = p_sec p1 -> t_refs t2 = t_refs t1 -> k_root t2 = init_root ->
    t_refs (__restore_security (p_sec p2) t2).2 = ref_add init_root (-1) (ref_add (k_root t) 1 (t_refs t1)) /\
    k_root (__restore_security (p_sec p2) t2).2 = k_root t) as H.
  { intros p2 t2 E2 Er Et. rewrite E2, Hs. unfold __restore_security. cbn [sec_available Z.eqb]. cbv zeta.
    rewrite enable_seccomp_ok by done. cbn. unfold ctrue. rewrite Et. destruct (Z.eqb_spec init_root 0); [done|].
    cbn. by rewrite Er. }
  assert (t_refs (nod_restore_security p1 t1).2 = ref_add init_root (-1) (ref_add (k_root t) 1 (t_refs t1)) /\
    k_root (nod_restore_security p1 t1).2 = k_root t) as [-> ->].
  { unfold nod_restore_security. destruct (0 <=? p_ioctl_fd p1).
    - specialize (H (set_ioctl_fd (-1) p1) (close_fd (p_ioctl_fd p1) t1) eq_refl eq_refl Hroot).
      destruct (__restore_security _ _) as [s2 t2]. exact H.
    - specialize (H p1 t1 eq_refl eq_refl Hroot). destruct (__restore_security _ _) as [s2 t2]. exact H. }
  split; [done|]. rewrite Hr1. unfold ref_add. rewrite !Z.eqb_refl.
  destruct (Z.eqb_spec (k_root t) init_root); [done|]. destruct (Z.eqb_spec init_root (k_root t)); [congruence|]. lia.
Qed.
End privil.

(** ** The properties at work *)

Definition demo_ktask : task :=
  mk_ktask 0 0 SECCOMP_MODE_FILTER 2 50 0 (replicate 16 (10, 20)) 4096 7 8 ∅ (fun _ => 1).

Definition demo_p : nod_proc_info :=
  mk_proc 100 1 zero_buffer (-1) 0 0 0 NOD_OUT zero_ctx zero_sec zero_stack.

Lemma security_round_trip_witness :
  seccomp_ok (k_seccomp demo_ktask) /\
  let '(p1, t1) := nod_prepare_security 60 demo_p demo_ktask in
  settings_of (nod_restore_security p1 (set_blocked 0 t1)).2 = settings_of demo_ktask.
Proof.
  assert (seccomp_ok (k_seccomp demo_ktask)) as Hm by (right; by right). split; [exact Hm|].
  pose proof (security_round_trip 60 demo_p demo_ktask (nod_prepare_security 60 demo_p demo_ktask).1
    (set_blocked 0 (nod_prepare_security 60 demo_p demo_ktask).2) Hm) as H.
  destruct (nod_prepare_security 60 demo_p demo_ktask) as [p1 t1]. cbn [fst snd] in H. apply (H eq_refl).
Defined.

Lemma context_round_trip_witness :
  let p1 := nod_prepare_context demo_p zero_regs demo_ktask in
  let '(p2, regs2, t2) := nod_restore_context p1 (mk_regs 1 1 1 1 1 1 1 1 1 1 1 1 1 1 1 1 1 1 1 1 1) (nod_write_fsbase 99 demo_ktask) in
  regs2 = zero_regs /\ k_fsbase t2 = 7.
Proof.
  cbv zeta. pose proof (context_round_trip demo_p zero_regs demo_ktask (nod_prepare_context demo_p zero_regs demo_ktask)
    (mk_regs 1 1 1 1 1 1 1 1 1 1 1 1 1 1 1 1 1 1 1 1 1) (nod_write_fsbase 99 demo_ktask) eq_refl) as H.
  destruct (nod_restore_context _ _ _) as [[p2 regs2] t2]. destruct H as (H1 & H2 & _). by split.
Defined.

Lemma security_leaks_roots_witness :
  let '(p1, t1) := nod_prepare_security 60 demo_p demo_ktask in
  t_refs (nod_restore_security p1 t1).2 50 = 2 /\ t_refs (nod_restore_security p1 t1).2 60 = 2.
Proof.
  assert (seccomp_ok (k_seccomp demo_ktask)) as Hm by (right; by right).
  pose proof (security_leaks_roots 60 demo_p demo_ktask Hm ltac:(done) ltac:(done) ltac:(done)) as H.
  destruct (nod_prepare_security 60 demo_p demo_ktask) as [p1 t1]. destruct H as (_ & H1 & H2). by split.
Defined.
