(* ===== verification/ProcInfo.v ===== *)
(** * The table of traced processes: [kmodule/procinfo.c]

    The hash table [proc_info_hl_head] is a finite map from process ids; a pointer
    to an entry is the id it is stored under.  Protection keys are allocated by the
    kernel ([mm_pkey_alloc], [mm_pkey_free]): the class [Pkeys]. *)

From S2P Require Import Prelude Kernel Tables Ring FillerLib ProcState Events EventCodec EventsFacts Demo.

Local Open Scope Z_scope.

Class Pkeys (P : Type) := {
  mm_pkey_alloc : Z -> P -> Z * P;
  mm_pkey_free : Z -> Z -> P -> P
}.

(** The fields of a [task_struct] the table uses; [tk_leader] is the id of
    [group_leader]. *)
Record tsk := mk_tsk {
  tk_pid : Z;
  tk_mm : Z;
  tk_leader : Z;
  tk_has_parent : bool
}.

Section procinfo.
Context {P : Type} `{Pkeys P}.

Record pstate := mk_pstate {
  ps_table : gmap Z nod_proc_info;
  ps_pkeys : P;
  ps_stat : nod_event_statistic
}.

(** Memory for a new entry: whether [kmem_cache_alloc] succeeds, what
    [init_buffer] gets, and the configured size. *)
Record alloc_env := mk_aenv {
  ae_kmem : bool;
  ae_alloc : allocator;
  ae_size : Z
}.

Definition set_table (f : gmap Z nod_proc_info -> gmap Z nod_proc_info) (s : pstate) : pstate :=
  mk_pstate (f (ps_table s)) (ps_pkeys s) (ps_stat s).

Definition find_proc_info (pid : Z) (s : pstate) : option nod_proc_info := ps_table s !! pid.

Definition nod_init_procinfo (task : tsk) (p : nod_proc_info) (k : P) : nod_proc_info * P :=
  let k := if 0 <? si_pkey (p_stack_info p) then mm_pkey_free (tk_mm task) (si_pkey (p_stack_info p)) k else k in
  let '(pkey, k) := mm_pkey_alloc (tk_mm task) k in
  (mk_proc (tk_pid task) (tk_mm task) (p_buffer p) (-1) 0 (p_stack_addr p) (p_stack_info_addr p) (p_status p)
     zero_ctx zero_sec (mk_stack 0 pkey 0 0 0 0 0 0 0 0), k).

Definition zero_proc : nod_proc_info :=
  mk_proc 0 0 zero_buffer 0 0 0 0 NOD_UNKNOWN zero_ctx zero_sec zero_stack.

(** [None] inside is the null pointer; the outer [None] a fault. *)
Definition nod_alloc_procinfo (ae : alloc_env) : option (option nod_proc_info) :=
  if negb (ae_kmem ae) then Some None else
  '(r, b) ← init_buffer (ae_alloc ae) (ae_size ae) zero_buffer;
  if ctrue r then Some None else Some (Some (set_buffer b zero_proc)).

(** [nod_proc_acquire(status, &pre, ioctl_fd, task)]: the entry, its status before
    and the state. *)
Definition nod_proc_acquire (status : nod_proc_status) (ioctl_fd : Z) (task : tsk) (ae : alloc_env) (s : pstate)
    : option (option nod_proc_info * nod_proc_status * pstate) :=
  match find_proc_info (tk_pid task) s with
  | Some p =>
      let p' := nod_proc_set_status status ioctl_fd p in
      Some (Some p', p_status p, set_table <[tk_pid task := p']> s)
  | None =>
      np ← nod_alloc_procinfo ae;
      match np with
      | None => Some (None, NOD_UNKNOWN, s)
      | Some p =>
          let '(p, k) := nod_init_procinfo task p (ps_pkeys s) in
          let p' := nod_proc_set_status status ioctl_fd p in
          Some (Some p', p_status p, mk_pstate (<[tk_pid task := p']> (ps_table s)) k (ps_stat s))
      end
  end.

Definition count_unsolved (n : Z) (st : nod_event_statistic) : nod_event_statistic :=
  mk_stat (n_evts st) (n_drop_evts st) (u64 (n_drop_evts_unsolved st + n)).

(** [nod_proc_release]: the status of the entry; [None] is a null [info]. *)
Definition nod_proc_release (pid : Z) (s : pstate) : option (nod_proc_status * pstate) :=
  match find_proc_info pid s with
  | None => Some (NOD_UNKNOWN, s)
  | Some p =>
      i ← nb_info (p_buffer p);
      Some (p_status p, mk_pstate (delete pid (ps_table s)) (ps_pkeys s) (count_unsolved (nevents i) (ps_stat s)))
  end.

(** [nod_copy_procinfo(task, p)] *)
Definition nod_copy_procinfo (task : tsk) (p : nod_proc_info) (s : pstate) : nod_proc_info :=
  if negb (tk_has_parent task) then p else
  match find_proc_info (tk_leader task) s with
  | Some parent => set_entry (p_entry_addr parent) (p_stack_info parent) p
  | None => p
  end.

Definition set_pkey (pkey : Z) (si : nod_stack_info) : nod_stack_info :=
  mk_stack (si_ioctl_fd si) pkey (si_syscall_nr si) (si_exit_code si) (si_fsbase si) (si_hash si)
    (si_stack_start si) (si_stack_end si) (si_buffer si) (si_buffer_info si).

(** [nod_share_procinfo(task, p)] *)
Definition nod_share_procinfo (task : tsk) (p : nod_proc_info) (s : pstate) : nod_proc_info * P :=
  if negb (tk_has_parent task) then (p, ps_pkeys s) else
  match find_proc_info (tk_leader task) s with
  | Some parent =>
      if negb (si_pkey (p_stack_info p) =? si_pkey (p_stack_info parent)) then
        (set_stack_info (set_pkey (si_pkey (p_stack_info parent)) (p_stack_info p)) p,
         if 0 <? si_pkey (p_stack_info p) then mm_pkey_free (p_mm p) (si_pkey (p_stack_info p)) (ps_pkeys s)
         else ps_pkeys s)
      else (p, ps_pkeys s)
  | None => (p, ps_pkeys s)
  end.

(** [nod_event_from(&p)] for the current task. *)
Definition nod_event_from (pid : Z) (s : pstate) : nod_proc_status * option nod_proc_info :=
  let n := find_proc_info pid s in
  (match n with Some p => p_status p | None => NOD_OUT end, n).

(** [nod_proc_traverse(func, ...)]: [func] updates the entry, the result and its own
    arguments [A], and says whether to stop. *)
Section traverse.
Context {A : Type} (func : nod_proc_info -> Z * A -> option (bool * nod_proc_info * (Z * A))).

Fixpoint traverse_list (l : list (Z * nod_proc_info)) (ra : Z * A) (t : gmap Z nod_proc_info)
    : option (Z * A * gmap Z nod_proc_info) :=
  match l with
  | [] => Some (ra, t)
  | (pid, p) :: l =>
      '(stop, p, ra) ← func p ra;
      let t := <[pid := p]> t in
      if (stop : bool) then Some (ra, t) else traverse_list l ra t
  end.

Definition nod_proc_traverse (a : A) (s : pstate) : option (Z * A * pstate) :=
  '(ra, t) ← traverse_list (map_to_list (ps_table s)) (0, a) (ps_table s);
  Some (ra, set_table (fun _ => t) s).
End traverse.

(** ** The invariant of the table *)

(** Every entry is stored under its own id and its buffer holds a queue of events. *)
Definition table_wf (s : pstate) : Prop :=
  forall pid p, ps_table s !! pid = Some p -> p_pid p = pid /\ exists q, proc_queue p q.

Definition aenv_ok (ae : alloc_env) : Prop :=
  (forall s, al_str (ae_alloc ae) = Some s -> zlen s = PAGE_SIZE) /\
  (forall s, al_overflow (ae_alloc ae) = Some s -> zlen s = PAGE_SIZE) /\
  PAGE_SIZE <= ae_size ae < 2 ^ 32 /\ Z.land (ae_size ae) (PAGE_SIZE - 1) = 0.

Lemma proc_queue_buffer p p' q : p_buffer p' = p_buffer p -> proc_queue p q -> proc_queue p' q.
Proof. unfold proc_queue. by intros ->. Qed.

(** A new entry has an empty queue. *)
Lemma alloc_queue ae : aenv_ok ae ->
  nod_alloc_procinfo ae = Some None \/
  exists p, nod_alloc_procinfo ae = Some (Some p) /\ p_status p = NOD_UNKNOWN /\ proc_queue p ([], None).
Proof.
  intros (Hs & Ho & Hsz & Hal). unfold nod_alloc_procinfo. destruct (ae_kmem ae); [|by left]. cbn [negb].
  unfold init_buffer. rewrite Hal. change (ctrue 0) with false. cbv iota.
  destruct (al_str (ae_alloc ae)) as [str|]; [|by left]. destruct (al_overflow (ae_alloc ae)) as [page|]; [|by left].
  destruct (al_info (ae_alloc ae)); [|by left]. destruct (al_buffer (ae_alloc ae)); [|by left].
  right. eexists. split; [reflexivity|]. split; [done|]. eexists _, _. split; [reflexivity|].
  split; [by apply Hs|]. split; [|done].
  constructor; cbn; try done; [|unfold PAGE_SIZE in *; lia].
  constructor; cbn; [|done|by apply Ho]. unfold zlen. rewrite length_replicate. unfold PAGE_SIZE in *. lia.
Qed.

(** What [nod_proc_acquire] promises. *)
Lemma acquire_ok status fd task ae s : table_wf s -> aenv_ok ae ->
  exists r pre s', nod_proc_acquire status fd task ae s = Some (r, pre, s') /\ table_wf s' /\
    (forall pid, pid <> tk_pid task -> ps_table s' !! pid = ps_table s !! pid) /\
    ps_stat s' = ps_stat s /\
    match r with
    | Some p => ps_table s' !! tk_pid task = Some p /\ p_status p = status /\ p_ioctl_fd p = fd /\
        match ps_table s !! tk_pid task with
        | Some p0 => p_buffer p = p_buffer p0 /\ pre = p_status p0 /\ ps_pkeys s' = ps_pkeys s
        | None => proc_queue p ([], None) /\ p_entry_addr p = 0 /\ pre = NOD_UNKNOWN
        end
    | None => ps_table s !! tk_pid task = None /\ s' = s /\ pre = NOD_UNKNOWN
    end.
Proof.
  intros Hwf Hae. unfold nod_proc_acquire, find_proc_info.
  assert (forall p' k st, p_pid p' = tk_pid task -> (exists q, proc_queue p' q) ->
    table_wf (mk_pstate (<[tk_pid task := p']> (ps_table s)) k st)) as Hins.
  { intros p' k st Hp Hq pid p. cbn [ps_table]. destruct (decide (pid = tk_pid task)) as [->|Hne].
    - rewrite lookup_insert_eq. intros [= <-]. done.
    - rewrite lookup_insert_ne by done. apply Hwf. }
  destruct (ps_table s !! tk_pid task) as [p0|] eqn:E.
  - destruct (Hwf _ _ E) as [Hp [q Hq]]. eexists _, _, _. split; [reflexivity|].
    split; [apply Hins; [exact Hp|]; exists q; by eapply proc_queue_buffer|].
    split; [intros; cbn; by rewrite lookup_insert_ne|]. split; [done|].
    split; [cbn; by rewrite lookup_insert_eq|]. done.
  - destruct (alloc_queue ae Hae) as [->|(p & -> & Hst & Hq)]; cbn [mbind option_bind].
    { eexists _, _, _. split; [reflexivity|]. done. }
    destruct (nod_init_procinfo task p (ps_pkeys s)) as [p1 k] eqn:Ei.
    unfold nod_init_procinfo in Ei. destruct (mm_pkey_alloc _ _) as [pkey k']. injection Ei as <- <-.
    eexists _, _, _. split; [reflexivity|].
    split; [apply Hins; [done|]; exists ([], None); by eapply proc_queue_buffer|].
    split; [intros; cbn; by rewrite lookup_insert_ne|]. split; [done|].
    split; [cbn; by rewrite lookup_insert_eq|]. split; [done|]. split; [done|].
    split; [by eapply proc_queue_buffer|]. done.
Qed.

(** C23: [nod_proc_acquire] gives the task's one entry.  If the task has one, it is
    returned with the status asked for, its buffer and events untouched and its
    previous status reported; otherwise a new one with an empty queue and no
    monitor is inserted, or, when memory is short, null is returned and the table
    is unchanged.  No other entry changes and the table stays well formed. *)
Theorem acquire_spec status fd task ae s : table_wf s -> aenv_ok ae ->
  exists r pre s', nod_proc_acquire status fd task ae s = Some (r, pre, s') /\ table_wf s' /\
    (forall pid, pid <> tk_pid task -> ps_table s' !! pid = ps_table s !! pid) /\
    match r with
    | Some p => ps_table s' !! tk_pid task = Some p /\ p_status p = status /\ p_ioctl_fd p = fd /\
        match ps_table s !! tk_pid task with
        | Some p0 => p_buffer p = p_buffer p0 /\ pre = p_status p0
        | None => proc_queue p ([], None) /\ p_entry_addr p = 0 /\ pre = NOD_UNKNOWN
        end
    | None => ps_table s !! tk_pid task = None /\ s' = s /\ pre = NOD_UNKNOWN
    end.
Proof.
  intros Hwf Hae. destruct (acquire_ok status fd task ae s Hwf Hae) as (r & pre & s' & E & Hwf' & Hoth & _ & Hr).
  exists r, pre, s'. split_and!; [done..|]. destruct r as [p|]; [|done].
  destruct (ps_table s !! tk_pid task); naive_solver.
Qed.

(** Releasing undoes acquiring.  After [nod_proc_release] the task has no entry,
    so that its next event starts with a fresh one, the other entries are
    unchanged, the table is well formed, and the events that were never handed to a
    monitor are counted. *)
Theorem release_spec pid p q s :
  table_wf s -> ps_table s !! pid = Some p -> proc_queue p q ->
  exists s', nod_proc_release pid s = Some (p_status p, s') /\ table_wf s' /\
    nod_event_from pid s' = (NOD_OUT, None) /\
    (forall pid', pid' <> pid -> ps_table s' !! pid' = ps_table s !! pid') /\
    n_drop_evts_unsolved (ps_stat s') = u64 (n_drop_evts_unsolved (ps_stat s) + zlen q.1).
Proof.
  intros Hwf Hp (str & b & Hop & _ & Hq). unfold nod_proc_release, find_proc_info. rewrite Hp.
  assert (nb_info (p_buffer p) = Some (rb_info b)) as ->.
  { unfold open_buffer in Hop. destruct (nb_buffer _), (nb_str_storage _), (nb_info _), (nb_overflow _); cbn in Hop; try done.
    by injection Hop as _ <-. }
  cbn [mbind option_bind]. eexists. split; [reflexivity|]. split; [|split; [|split]].
  - intros pid' p'. cbn [ps_table]. intros [_ Hl]%lookup_delete_Some. by apply Hwf.
  - unfold nod_event_from, find_proc_info. cbn [ps_table]. by rewrite lookup_delete_eq.
  - intros pid' Hne. cbn [ps_table]. by rewrite lookup_delete_ne.
  - cbn. destruct Hq as [[_ _ _ _ Hn _] _]. by rewrite Hn.
Qed.

(** A forked process inherits nothing.  The leader of the thread group of a new
    process is the process itself, so that [nod_copy_procinfo] finds the entry it
    is to fill and leaves it as it is: the entry address and the stack
    information of the parent, which it is meant to take over, are not copied. *)
Theorem copy_procinfo_of_leader task p s :
  ps_table s !! tk_pid task = Some p -> tk_leader task = tk_pid task -> nod_copy_procinfo task p s = p.
Proof.
  intros Hp Hl. unfold nod_copy_procinfo, find_proc_info. rewrite Hl, Hp.
  destruct (negb (tk_has_parent task)); [done|]. by destruct p.
Qed.
End procinfo.

Arguments pstate P : clear implicits.

(** ** The properties at work *)

(** Keys are handed out in order and never reused. *)
#[export] Instance demo_pkeys : Pkeys Z := {| mm_pkey_alloc _ k := (k, k + 1); mm_pkey_free _ _ k := k |}.

Definition demo_pstate : pstate Z := mk_pstate ∅ 1 demo_stat.
Definition demo_aenv : alloc_env := mk_aenv true demo_alloc 4096.
Definition demo_tsk : tsk := mk_tsk 100 1 100 true.

Lemma demo_aenv_ok : aenv_ok demo_aenv.
Proof. split; [intros s [= <-]; by vm_compute|]. split; [intros s [= <-]; by vm_compute|]. by split. Qed.

Lemma demo_table_wf : table_wf demo_pstate.
Proof. intros pid p Hp. cbn [ps_table demo_pstate] in Hp. by rewrite lookup_empty in Hp. Qed.

Lemma acquire_spec_witness :
  exists p s', nod_proc_acquire NOD_OUT (-1) demo_tsk demo_aenv demo_pstate = Some (Some p, NOD_UNKNOWN, s') /\
    table_wf s' /\ ps_table s' !! 100 = Some p /\ proc_queue p ([], None).
Proof.
  destruct (acquire_spec NOD_OUT (-1) demo_tsk demo_aenv demo_pstate demo_table_wf demo_aenv_ok)
    as (r & pre & s' & E & Hwf & _ & Hr).
  destruct r as [p|]; [|by vm_compute in E]. destruct Hr as (Hp & _ & _ & Hq & _ & ->).
  exists p, s'. split; [exact E|]. split; [exact Hwf|]. split; [exact Hp|]. exact Hq.
Defined.

Definition demo_entry : nod_proc_info :=
  mk_proc 100 1 (demo_buffer 4096) (-1) 0 0 0 NOD_OUT zero_ctx zero_sec zero_stack.
Definition demo_pstate1 : pstate Z := mk_pstate {[100 := demo_entry]} 1 demo_stat.

Lemma demo_entry_queue : proc_queue demo_entry ([], None).
Proof.
  eexists _, _. split; [reflexivity|]. split; [reflexivity|]. split; [|reflexivity].
  constructor; cbn; try done.
Qed.

Lemma demo_table_wf1 : table_wf demo_pstate1.
Proof.
  intros pid p. cbn [ps_table demo_pstate1]. rewrite lookup_singleton_Some. intros [<- <-]. split; [done|].
  exists ([], None). exact demo_entry_queue.
Qed.

Lemma release_spec_witness :
  exists s', nod_proc_release 100 demo_pstate1 = Some (NOD_OUT, s') /\ nod_event_from 100 s' = (NOD_OUT, None) /\
    n_drop_evts_unsolved (ps_stat s') = 0.
Proof.
  destruct (release_spec 100 demo_entry ([], None) demo_pstate1 demo_table_wf1
    ltac:(cbn; by rewrite lookup_singleton_eq) demo_entry_queue) as (s' & E & _ & Hn & _ & Hu).
  exists s'. split; [exact E|]. split; [exact Hn|exact Hu].
Defined.

Lemma copy_procinfo_of_leader_witness :
  tk_leader demo_tsk = tk_pid demo_tsk /\ nod_copy_procinfo demo_tsk demo_entry demo_pstate1 = demo_entry.
Proof.
  split; [reflexivity|].
  apply (copy_procinfo_of_leader demo_tsk demo_entry demo_pstate1); [by cbn; rewrite lookup_singleton_eq|reflexivity].
Defined.
