(* ===== verification/Loader.v ===== *)
(** * Loading the monitor: [kmodule/loader.c] and [elf_reg_init] of [kmodule/elf.c]

    [nod_load_monitor] maps the monitor into the process the first time, refreshes
    the information block on its stack, saves registers and privileges and points
    the registers at the monitor's entry.  The mapping of ELF files and the kernel
    services it needs are the class [LoaderOps]; [nod_mmap_check] and the layout of
    the monitor's stack are modelled in full. *)

From S2P Require Import Prelude Kernel Tables Ring FillerLib ProcState Events EventCodec EventsFacts Demo Privil ProcInfo.

Local Open Scope Z_scope.

Definition TASK_SIZE : Z := 2 ^ 47 - 4096.
Definition BAD_ADDR (x : Z) : bool := TASK_SIZE <=? x.
Definition IS_ERR (x : Z) : bool := 2 ^ 64 - 4095 <=? x.
Definition MAX_ARG_STRLEN : Z := 32 * 4096.

(** ** Protecting the monitor's memory *)

(** A mapping of the process; [vm_monitor] says that its file is the monitor. *)
Record vma := mk_vma { vm_start : Z; vm_end : Z; vm_monitor : bool }.

Inductive mapping : Set := MAPPING_OK | MAPPING_NEXT | MAPPING_FINISH | MAPPING_NOTFOUND.

(** [get_monitor_addr] with [arg = {addr, length}]. *)
Definition get_monitor_addr (addr length : Z) (v : vma) : mapping :=
  let end_ := u64 (addr + length) in
  if end_ <? vm_start v then MAPPING_FINISH
  else if Z.max (vm_start v) addr <? Z.min (vm_end v) end_ then MAPPING_OK
  else MAPPING_NEXT.

Fixpoint check_mapping (resolve : vma -> mapping) (vmas : list vma) : mapping :=
  match vmas with
  | [] => MAPPING_NOTFOUND
  | v :: rest =>
      if vm_monitor v then
        match resolve v with
        | MAPPING_OK => MAPPING_OK
        | MAPPING_FINISH => MAPPING_FINISH
        | _ => check_mapping resolve rest
        end
      else check_mapping resolve rest
  end.

Definition nod_mmap_check (addr length : Z) (vmas : list vma) : bool :=
  match check_mapping (get_monitor_addr addr length) vmas with MAPPING_OK => true | _ => false end.

(** The mappings of an address space: in order and not empty. *)
Fixpoint vmas_sorted (vmas : list vma) : Prop :=
  match vmas with
  | [] => True
  | v :: rest => 0 <= vm_start v < vm_end v /\ Forall (fun w => vm_end v <= vm_start w) rest /\ vmas_sorted rest
  end.

(** Some mapping of the monitor meets [addr .. addr + length). *)
Definition touches_monitor (addr length : Z) (vmas : list vma) : Prop :=
  Exists (fun v => vm_monitor v = true /\ Z.max (vm_start v) addr < Z.min (vm_end v) (addr + length)) vmas.

Lemma check_mapping_none addr length vmas :
  addr + length < 2 ^ 64 -> 0 <= addr -> 0 <= length ->
  Forall (fun w => addr + length < vm_start w) vmas -> ~ touches_monitor addr length vmas.
Proof.
  intros Hm Ha Hl Hf. unfold touches_monitor. rewrite Exists_exists. intros (v & Hin & _ & Hv).
  rewrite Forall_forall in Hf. specialize (Hf v Hin). cbn in Hf. lia.
Qed.

(** Stopping early loses nothing. *)
Lemma mmap_check_iff addr length vmas :
  0 <= addr -> 0 <= length -> addr + length < 2 ^ 64 -> vmas_sorted vmas ->
  nod_mmap_check addr length vmas = true <-> touches_monitor addr length vmas.
Proof.
  intros Ha Hl Hm. unfold nod_mmap_check, touches_monitor. induction vmas as [|v rest IH]; cbn [vmas_sorted check_mapping].
  - intros _. split; [done|]. by rewrite Exists_nil.
  - intros (Hv & Hf & Hs). rewrite Exists_cons. specialize (IH Hs).
    destruct (vm_monitor v) eqn:Emon; [|rewrite IH; naive_solver].
    unfold get_monitor_addr at 1. unfold u64 at 1. rewrite unsigned_small by lia.
    destruct (Z.ltb_spec (addr + length) (vm_start v)).
    + split; [done|]. intros [[_ Hx]|Hx]; [lia|]. exfalso. revert Hx.
      apply (check_mapping_none addr length rest); try done.
      eapply Forall_impl; [|exact Hf]. cbn. intros. lia.
    + cbv zeta. unfold u64. rewrite unsigned_small by lia.
      destruct (Z.ltb_spec (Z.max (vm_start v) addr) (Z.min (vm_end v) (addr + length))).
      * split; [by left|done].
      * rewrite IH. split; [by right|]. intros [[_ Hx]|Hx]; [lia|done].
Qed.

(** C37: The check on [munmap], [mprotect] and [mremap] is exact.  On an ordered list of
    mappings, for a range that does not wrap around, [nod_mmap_check] holds
    exactly if the range meets a mapping of the monitor: stopping at the first
    mapping of the monitor behind the range loses nothing. *)
Theorem mmap_check_exact addr length vmas :
  0 <= addr -> 0 <= length -> addr + length < 2 ^ 64 -> vmas_sorted vmas ->
  nod_mmap_check addr length vmas = true <-> touches_monitor addr length vmas.
Proof. apply mmap_check_iff. Qed.

Lemma mmap_check_exact_witness :
  let vmas := [mk_vma 4096 8192 false; mk_vma 8192 16384 true; mk_vma 20480 24576 false] in
  (nod_mmap_check 4096 4096 vmas = false /\ nod_mmap_check 4096 4097 vmas = true) /\
  (nod_mmap_check 12288 4096 vmas = true <-> touches_monitor 12288 4096 vmas).
Proof.
  cbv zeta. split; [split; reflexivity|].
  apply mmap_check_exact; [lia|lia|lia|]. cbn. repeat split; try lia; repeat constructor; cbn; lia.
Defined.

(** ** The monitor's stack *)

(** [STACK_ALLOC(p, n)] for the strings of [argv], the last one first. *)
Definition alloc_args (p : Z) (argv : list (list Z)) : Z :=
  foldr (fun s p => p - (zlen s + 1)) p argv.

(** [sp = STACK_ADD(p, elf_info_idx); sp = STACK_ROUND(sp, items);] on pointers to
    8-byte words. *)
Definition table_sp (p elf_info_idx items : Z) : Z := Z.land (p - 8 * elf_info_idx - 8 * items) (Z.lnot 15).

(** The number of words below the auxiliary vector: the argument count, [argc]
    pointers, the address of the information block, a null, [envc] pointers and a
    null. *)
Definition table_items (argc envc : Z) : Z := (argc + 1) + (envc + 1) + 1 + 1.

(** The addresses of the arguments from [arg_start] on. *)
Fixpoint arg_addrs (arg_start : Z) (argv : list (list Z)) : list Z :=
  match argv with
  | [] => []
  | s :: rest => arg_start :: arg_addrs (arg_start + (zlen s + 1)) rest
  end.

(** The words from [sp] on. *)
Definition table_words (arg_start stack_info_addr : Z) (argv : list (list Z)) (envs auxv : list Z) : list Z :=
  [zlen argv + 1] ++ arg_addrs arg_start argv ++ [stack_info_addr; 0] ++ envs ++ [0] ++ auxv.

Lemma zlen_arg_addrs a argv : zlen (arg_addrs a argv) = zlen argv.
Proof. revert a. induction argv; intros; cbn [arg_addrs]; [done|]. rewrite !zlen_cons, IHargv. done. Qed.

(** The tables on the monitor's stack.  The stack pointer is 16-byte aligned, as
    the ABI asks, and the words stored from it on (the count, the argument pointers,
    the information block, the environment and the auxiliary vector) end below the
    argument strings: they overwrite none of them, and lose at most 15 bytes. *)
Theorem stack_tables_layout p stack_info_addr argv envs auxv :
  let arg_start := alloc_args p argv in
  let sp := table_sp arg_start (zlen auxv) (table_items (zlen argv) (zlen envs)) in
  let words := table_words arg_start stack_info_addr argv envs auxv in
  sp mod 16 = 0 /\ sp + 8 * zlen words <= arg_start < sp + 8 * zlen words + 16.
Proof.
  cbv zeta. unfold table_sp, table_items, table_words.
  set (x := alloc_args p argv - 8 * zlen auxv - 8 * (zlen argv + 1 + (zlen envs + 1) + 1 + 1)).
  assert (Z.land x (Z.lnot 15) = 16 * (x / 16)) as ->.
  { change 15 with (Z.ones 4). rewrite <- Z.ldiff_land, Z.ldiff_ones_r, Z.shiftl_mul_pow2, Z.shiftr_div_pow2 by lia.
    change (2 ^ 4) with 16. lia. }
  rewrite !zlen_app, zlen_arg_addrs, !zlen_cons, (@zlen_nil Z).
  split; [rewrite Z.mul_comm; apply Z.mod_mul; lia|].
  pose proof (Z.div_mod x 16 ltac:(lia)). pose proof (Z.mod_pos_bound x 16 ltac:(lia)). unfold x in *. lia.
Qed.

(** ** Services of the kernel and of the ELF loader *)

(** [lo_load_binary] is [elf_load_binary] on the interpreter ([true]) or on the
    monitor, the result the load address or an error; [lo_copy_to_user] returns the
    number of bytes it did not copy, [lo_vmalloc] whether memory for the auxiliary
    vector could be allocated. *)
Class LoaderOps (M_ : Type) := {
  lo_load_binary : bool -> M_ -> Z * M_;
  lo_vm_mmap : Z -> Z -> bool -> M_ -> Z * M_;
  lo_vm_munmap : Z -> Z -> M_ -> M_;
  lo_copy_to_user : Z -> list Z -> M_ -> Z * M_;
  lo_strnlen_user : Z -> M_ -> Z;
  lo_random : M_ -> list Z * M_;
  lo_vmalloc : M_ -> bool * M_
}.

(** The files [loader_init] opened, and the constants of the build. *)
Record loader_config := mk_lconf {
  lc_interp : bool;             (* filp_interpreter *)
  lc_interp_entry : Z;
  lc_entry : Z; lc_phoff : Z; lc_phnum : Z;     (* monitor_elf_ex *)
  lc_stack_size : Z;            (* CONFIG_MONITOR_STACK_SIZE *)
  lc_argv : list (list Z);      (* { CONFIG_MONITOR_PATH } *)
  lc_hwcap : Z
}.

(** [sizeof(struct nod_stack_info)] bytes of the block. *)
Definition stack_bytes (si : nod_stack_info) : list Z :=
  le_bytes 4 (si_ioctl_fd si) ++ le_bytes 4 (si_pkey si) ++ le_bytes 4 (si_syscall_nr si) ++ le_bytes 4 0 ++
  le_bytes 8 (si_exit_code si) ++ le_bytes 8 (si_fsbase si) ++ le_bytes 8 (si_hash si) ++
  le_bytes 8 (si_stack_start si) ++ le_bytes 8 (si_stack_end si) ++ le_bytes 8 (si_buffer si) ++
  le_bytes 8 (si_buffer_info si).

Definition set_stack_bounds (lo hi : Z) (si : nod_stack_info) : nod_stack_info :=
  mk_stack (si_ioctl_fd si) (si_pkey si) (si_syscall_nr si) (si_exit_code si) (si_fsbase si) (si_hash si)
    lo hi (si_buffer si) (si_buffer_info si).

Definition set_stack_addrs (sp info : Z) (p : nod_proc_info) : nod_proc_info :=
  mk_proc (p_pid p) (p_mm p) (p_buffer p) (p_ioctl_fd p) (p_entry_addr p) sp info (p_status p) (p_ctx p)
    (p_sec p) (p_stack_info p).

Definition set_call (nr code : Z) (si : nod_stack_info) : nod_stack_info :=
  mk_stack (si_ioctl_fd si) (si_pkey si) nr code (si_fsbase si) (si_hash si)
    (si_stack_start si) (si_stack_end si) (si_buffer si) (si_buffer_info si).

(** Auxiliary vector tags. *)
Definition AT_NULL : Z := 0.
Definition AT_PHDR : Z := 3.
Definition AT_PHENT : Z := 4.
Definition AT_PHNUM : Z := 5.
Definition AT_PAGESZ : Z := 6.
Definition AT_BASE : Z := 7.
Definition AT_FLAGS : Z := 8.
Definition AT_ENTRY : Z := 9.
Definition AT_HWCAP : Z := 16.
Definition AT_CLKTCK : Z := 17.
Definition AT_RANDOM : Z := 25.

Section load.
Context {M_ : Type} `{LoaderOps M_} (conf : loader_config).

(** The process and the machine. *)
Notation L := (M (nod_proc_info * M_)).

Definition on_m {A} (f : M_ -> A * M_) : L A := fun '(p, m) => let '(a, m) := f m in Done a (p, m).
Definition on_p (f : nod_proc_info -> nod_proc_info) : L unit := fun '(p, m) => Done tt (f p, m).

(** [if (copy_to_user(...)) goto err;] *)
Definition put_bytes (addr : Z) (bs : list Z) : L unit :=
  r ← on_m (lo_copy_to_user addr bs); if ctrue r then fail (- EFAULT) else mret tt.

Definition put_word (addr v : Z) : L unit := put_bytes addr (le_bytes 8 v).

Fixpoint put_words (addr : Z) (vs : list Z) : L unit :=
  match vs with
  | [] => mret tt
  | v :: vs => put_word addr v;; put_words (addr + 8) vs
  end.

(** [create_stack_with_red_zone(addr, size)] *)
Definition create_stack_with_red_zone (addr size : Z) : L Z :=
  let prefer_addr := if PAGE_SIZE <? addr then addr - PAGE_SIZE else addr in
  stack_begin ← on_m (lo_vm_mmap prefer_addr (size + PAGE_SIZE + PAGE_SIZE) false);
  if BAD_ADDR stack_begin then mret stack_begin else
  let addr := stack_begin + PAGE_SIZE in
  _ ← on_m (fun m => (tt, lo_vm_munmap addr size m));
  on_m (lo_vm_mmap addr size true).

(** The string the environment pointer [start] points to: its length. *)
Definition env_len (start : Z) : L Z :=
  '(_, m) ← get;
  let len := lo_strnlen_user start m in
  if (len =? 0) || (MAX_ARG_STRLEN <? len) then fail (- EFAULT) else mret len.

(** The number of environment strings; every string is at least one byte long. *)
Fixpoint count_env (fuel : nat) (start end_ : Z) : L Z :=
  match fuel with
  | O => bug
  | S fuel =>
      if start <? end_ then len ← env_len start; n ← count_env fuel (start + len) end_; mret (n + 1)
      else mret 0
  end.

(** [INSERT_ENV_ENT] for every string: the stack pointer behind the last one. *)
Fixpoint put_env (fuel : nat) (start end_ sp : Z) : L Z :=
  match fuel with
  | O => bug
  | S fuel =>
      if start <? end_ then
        put_word sp start;; len ← env_len start; put_env fuel (start + len) end_ (sp + 8)
      else mret sp
  end.

(** The strings of [argv], the last one first; the result is [p]. *)
Fixpoint put_args (p : Z) (rev_argv : list (list Z)) : L Z :=
  match rev_argv with
  | [] => mret p
  | s :: rest => let p := p - (zlen s + 1) in put_bytes p (s ++ [0]);; put_args p rest
  end.

Definition auxv (load_addr interp_load_addr u_rand : Z) : list Z :=
  [AT_HWCAP; lc_hwcap conf; AT_PAGESZ; 4096; AT_CLKTCK; 100; AT_PHDR; load_addr + lc_phoff conf; AT_PHENT; 56;
   AT_PHNUM; lc_phnum conf; AT_BASE; interp_load_addr; AT_FLAGS; 0; AT_ENTRY; load_addr + lc_entry conf;
   AT_RANDOM; u_rand; AT_NULL; 0].

(** [create_elf_tbls]; [env_start] and [env_end] are those of [current->mm]. *)
Definition create_elf_tbls (load_addr interp_load_addr env_start env_end : Z) : L unit :=
  let argv := lc_argv conf in
  p ← create_stack_with_red_zone 0 (lc_stack_size conf);
  if BAD_ADDR p then fail (- EFAULT) else
  on_p (fun pr => set_stack_info (set_stack_bounds p (p + lc_stack_size conf) (p_stack_info pr)) pr);;
  let p := p + lc_stack_size conf - 8 in
  rand ← on_m lo_random;
  let p := p - 16 in
  put_bytes p rand;;
  let u_rand := p in
  let p := p - 72 in
  let stack_info_addr := p in
  on_p (fun pr => set_stack_addrs (p_stack_addr pr) stack_info_addr pr);;
  '(pr, _) ← get;
  put_bytes p (stack_bytes (p_stack_info pr));;
  p ← put_args p (rev argv);
  let arg_start := p in
  elf_info ← on_m lo_vmalloc;
  if negb elf_info then fail (- EFAULT) else
  let aux := auxv load_addr interp_load_addr u_rand in
  let fuel := S (Z.to_nat (env_end - env_start)) in
  envc ← count_env fuel env_start env_end;
  let items := table_items (zlen argv) envc in
  let sp := table_sp p (zlen aux) items in
  on_p (fun pr => set_stack_addrs sp (p_stack_info_addr pr) pr);;
  put_words sp ([zlen argv + 1] ++ arg_addrs arg_start argv ++ [stack_info_addr; 0]);;
  sp ← put_env fuel env_start env_end (sp + 8 * (zlen argv + 3));
  put_word sp 0;;
  put_bytes (sp + 8) (concat (map (le_bytes 8) aux)).

(** The load address, or the error [do_load_monitor] returns for it. *)
Definition load_binary (interp : bool) : L Z :=
  a ← on_m (lo_load_binary interp);
  if BAD_ADDR a then fail (if IS_ERR a then s32 a else - EINVAL) else mret a.

(** [do_load_monitor(p, argc, argv)] *)
Definition do_load_monitor (env_start env_end : Z) : L unit :=
  interp_load_addr ← (if lc_interp conf then load_binary true else mret 0);
  load_addr ← load_binary false;
  create_elf_tbls load_addr interp_load_addr env_start env_end;;
  let load_entry := if lc_interp conf then interp_load_addr + lc_interp_entry conf else load_addr + lc_entry conf in
  on_p (fun p => set_entry load_entry (p_stack_info p) p).

(** [elf_reg_init(&current->thread, regs, 0)] *)
Definition elf_reg_init (regs : pt_regs) (t : task) : pt_regs * task :=
  (mk_regs 0 0 0 0 0 0 0 0 0 0 (r_ax regs) 0 0 0 0 (r_orig_ax regs) (r_ip regs) (r_cs regs) (r_flags regs)
     (r_sp regs) (r_ss regs), nod_write_gsbase 0 (nod_write_fsbase 0 t)).

(** [regs->sp = p->stack_addr; regs->cx = regs->ip = p->entry_addr;] *)
Definition enter_monitor (sp entry : Z) (r : pt_regs) : pt_regs :=
  mk_regs (r_r15 r) (r_r14 r) (r_r13 r) (r_r12 r) (r_bp r) (r_bx r) (r_r11 r) (r_r10 r) (r_r9 r) (r_r8 r)
    (r_ax r) entry (r_dx r) (r_si r) (r_di r) (r_orig_ax r) entry (r_cs r) (r_flags r) sp (r_ss r).

(** What a load works on besides the process: the registers and settings of the
    current task, the table of processes, and the machine. *)
Context {P : Type} `{Pkeys P}.

Record lstate := mk_lstate {
  ls_regs : pt_regs;
  ls_task : task;
  ls_tsk : tsk;
  ls_ps : pstate P;
  ls_m : M_
}.

Context (init_root : Z) (env_area : Z * Z).

(** The [switch] on the status and the first load. *)
Definition load_first (p : nod_proc_info) (s : lstate) : Z * nod_proc_info * lstate :=
  let '(p, k) :=
    match p_status p with
    | NOD_CLONE => (nod_copy_procinfo (ls_tsk s) p (ls_ps s), ps_pkeys (ls_ps s))
    | NOD_SHARE => nod_share_procinfo (ls_tsk s) p (ls_ps s)
    | _ => (p, ps_pkeys (ls_ps s))
    end in
  let ps := mk_pstate (ps_table (ls_ps s)) k (ps_stat (ls_ps s)) in
  if p_entry_addr p =? 0 then
    match do_load_monitor env_area.1 env_area.2 (p, ls_m s) with
    | Done _ (p, m) => (NOD_SUCCESS, p, mk_lstate (ls_regs s) (ls_task s) (ls_tsk s) ps m)
    | Ret c (p, m) => (c, p, mk_lstate (ls_regs s) (ls_task s) (ls_tsk s) ps m)
    | Bug => (NOD_FAILURE_BUG, p, s)
    end
  else (NOD_SUCCESS, p, mk_lstate (ls_regs s) (ls_task s) (ls_tsk s) ps (ls_m s)).

(** [nod_load_monitor(p)] *)
Definition load_monitor (p : nod_proc_info) (s : lstate) : Z * nod_proc_info * lstate :=
  let '(retval, p, s) := load_first p s in
  if negb (retval =? NOD_SUCCESS) then (retval, p, s) else
  let regs := ls_regs s in
  let p := set_stack_info (set_call (s32 (r_orig_ax regs)) (r_di regs) (p_stack_info p)) p in
  let '(retval, m) := lo_copy_to_user (p_stack_info_addr p) (stack_bytes (p_stack_info p)) (ls_m s) in
  if 0 <? retval then (retval, p, mk_lstate regs (ls_task s) (ls_tsk s) (ls_ps s) m) else
  let p := nod_proc_set_in p in
  let '(p, t) := nod_prepare_security init_root p (ls_task s) in
  let p := nod_prepare_context p regs t in
  let '(regs, t) := elf_reg_init regs t in
  let regs := enter_monitor (p_stack_addr p) (p_entry_addr p) regs in
  (NOD_SUCCESS_LOAD, p, mk_lstate regs t (ls_tsk s) (ls_ps s) m).

#[export] Instance kernel_loader : MonitorLoader lstate := {| nod_load_monitor := load_monitor |}.

(** ** What a load keeps *)

(** The id, the buffer, the status and the saved context of the process. *)
Definition same (p p' : nod_proc_info) : Prop :=
  p_pid p' = p_pid p /\ p_buffer p' = p_buffer p /\ p_status p' = p_status p /\ p_ctx p' = p_ctx p /\
  p_sec p' = p_sec p.

#[local] Instance same_refl : Reflexive same.
Proof. by repeat split. Qed.
#[local] Instance same_trans : Transitive same.
Proof. intros x y z (?&?&?&?&?) (?&?&?&?&?). repeat split; congruence. Qed.

(** The same process with a block in which only the bounds of the stack may differ. *)
Definition placed (p p' : nod_proc_info) : Prop :=
  same p p' /\ exists lo hi, p_stack_info p' = set_stack_bounds lo hi (p_stack_info p).

#[local] Instance placed_refl : Reflexive placed.
Proof. intros p. split; [done|]. exists (si_stack_start (p_stack_info p)), (si_stack_end (p_stack_info p)). by destruct (p_stack_info p). Qed.
#[local] Instance placed_trans : Transitive placed.
Proof. intros x y z [Hs (lo & hi & E)] [Hs' (lo' & hi' & E')]. split; [by etrans|]. exists lo', hi'. by rewrite E', E. Qed.

(** What the kernel's services answer if none of them fails. *)
Record services_ok : Prop := {
  sv_binary i m : BAD_ADDR (lo_load_binary i m).1 = false;
  sv_mmap a len rw m : BAD_ADDR (lo_vm_mmap a len rw m).1 = false;
  sv_copy a bs m : (lo_copy_to_user a bs m).1 = 0;
  sv_strnlen a m : 1 <= lo_strnlen_user a m <= MAX_ARG_STRLEN;
  sv_vmalloc m : (lo_vmalloc m).1 = true
}.

Context (strnlen_nonneg : forall a m, 0 <= lo_strnlen_user a m).

Section steps.
(** Whether a step may fail; if not, no service does. *)
Context (may_fail : Prop) (services : may_fail \/ services_ok).

(** [m] does not fault, its result satisfies [R], and the process is the same with its stack placed. *)
Definition yields {A} (R : A -> Prop) (m : L A) : Prop :=
  forall p s, match m (p, s) with
  | Done a (p', _) => R a /\ placed p p'
  | Ret _ (p', _) => may_fail /\ same p p'
  | Bug => False
  end.

Definition keeps {A} (m : L A) : Prop := yields (fun _ => True) m.

Lemma yields_bind {A B} R Q (m : L A) (f : A -> L B) : yields R m -> (forall a, R a -> yields Q (f a)) -> yields Q (m ≫= f).
Proof.
  intros Hm Hf p s. unfold mbind, M_bind. specialize (Hm p s). destruct (m (p, s)) as [a [p1 s1]|c [p1 s1]|]; [|done|done].
  destruct Hm as [Ha Hp]. specialize (Hf a Ha p1 s1). destruct (f a (p1, s1)) as [b [p2 s2]|c [p2 s2]|]; [|destruct Hf as [? Hs], Hp; split; [done|by etrans]|done].
  destruct Hf as [? Hp']. split; [done|by etrans].
Qed.

Lemma keeps_bind {A B} (m : L A) (f : A -> L B) : keeps m -> (forall a, keeps (f a)) -> keeps (m ≫= f).
Proof. intros Hm Hf. apply (yields_bind (fun _ => True)); [done|]. intros a _. apply Hf. Qed.

Lemma yields_ret {A} (R : A -> Prop) a : R a -> yields R (mret a : L A).
Proof. intros Ha p s. by split. Qed.
Lemma keeps_ret {A} (a : A) : keeps (mret a : L A).
Proof. by apply yields_ret. Qed.
Lemma yields_fail {A} R c : may_fail -> yields R (fail c : L A).
Proof. intros Hf p s. split; [done|apply same_refl]. Qed.
Lemma yields_on_m {A} (R : A -> Prop) (f : M_ -> A * M_) : (forall m, R (f m).1) -> yields R (on_m f).
Proof. intros HR p s. specialize (HR s). unfold on_m. by destruct (f s). Qed.
Lemma keeps_on_m {A} (f : M_ -> A * M_) : keeps (on_m f).
Proof. by apply yields_on_m. Qed.
Lemma keeps_on_p f : (forall p, placed p (f p)) -> keeps (on_p f).
Proof. intros Hf p s. split; [done|apply Hf]. Qed.
Lemma keeps_get {B} (f : nod_proc_info * M_ -> L B) : (forall x, keeps (f x)) -> keeps (get ≫= f).
Proof. intros Hf p s. apply Hf. Qed.

(** A step in front of which a service is asked. *)
Lemma keeps_service {A B} (R : A -> Prop) (f : M_ -> A * M_) (g : A -> L B) :
  (services_ok -> forall m, R (f m).1) -> (forall a, may_fail \/ R a -> keeps (g a)) -> keeps (on_m f ≫= g).
Proof.
  intros HR Hg. apply (yields_bind (fun a => may_fail \/ R a)); [|done]. apply yields_on_m. intros m.
  destruct services; [by left|right; by apply HR].
Qed.

Lemma keeps_put_bytes a bs : keeps (put_bytes a bs).
Proof.
  apply (keeps_service (fun r => r = 0)); [by intros Hs m; apply sv_copy|]. intros r Hr. unfold ctrue.
  destruct (Z.eqb_spec r 0); [apply keeps_ret|]. apply yields_fail. tauto.
Qed.

Lemma keeps_put_words a vs : keeps (put_words a vs).
Proof.
  revert a. induction vs as [|v vs IH]; intros a; cbn [put_words]; [apply keeps_ret|].
  apply keeps_bind; [apply keeps_put_bytes|]. intros _. apply IH.
Qed.

Lemma keeps_put_args a argv : keeps (put_args a argv).
Proof.
  revert a. induction argv as [|v argv IH]; intros a; cbn [put_args]; [apply keeps_ret|].
  apply keeps_bind; [apply keeps_put_bytes|]. intros _. apply IH.
Qed.

(** A string of the environment is at least one byte long. *)
Lemma env_len_keeps {B} start (f : Z -> L B) : (forall len, 1 <= len -> keeps (f len)) -> keeps (env_len start ≫= f).
Proof.
  intros Hf. apply (yields_bind (fun len => 1 <= len)); [|done]. intros p s. unfold env_len, get, mbind, M_bind. cbv zeta beta iota.
  pose proof (strnlen_nonneg start s). destruct (_ || _) eqn:E.
  - split; [|apply same_refl]. destruct services as [|Hs]; [done|]. destruct (sv_strnlen Hs start s).
    apply orb_true_iff in E as [E%Z.eqb_eq|E%Z.ltb_lt]; lia.
  - apply orb_false_iff in E as [E%Z.eqb_neq _]. split; [lia|apply placed_refl].
Qed.

Lemma keeps_count_env fuel start end_ : Z.max 0 (end_ - start) < Z.of_nat fuel -> keeps (count_env fuel start end_).
Proof.
  revert start. induction fuel as [|fuel IH]; intros start Hf; cbn [count_env]; [lia|].
  destruct (Z.ltb_spec start end_); [|apply keeps_ret].
  apply env_len_keeps. intros len Hlen. apply keeps_bind; [apply IH; lia|]. intros n. apply keeps_ret.
Qed.

Lemma keeps_put_env fuel start end_ sp :
  Z.max 0 (end_ - start) < Z.of_nat fuel -> keeps (put_env fuel start end_ sp).
Proof.
  revert start sp. induction fuel as [|fuel IH]; intros start sp Hf; cbn [put_env]; [lia|].
  destruct (Z.ltb_spec start end_); [|apply keeps_ret].
  apply keeps_bind; [apply keeps_put_bytes|]. intros _.
  apply env_len_keeps. intros len Hlen. apply IH. lia.
Qed.

Lemma stack_yields addr size : yields (fun a => may_fail \/ BAD_ADDR a = false) (create_stack_with_red_zone addr size).
Proof.
  assert (forall a len rw, yields (fun a => may_fail \/ BAD_ADDR a = false) (on_m (lo_vm_mmap a len rw))) as Hmmap.
  { intros a len rw. apply yields_on_m. intros m. destruct services as [|Hs]; [by left|right; apply (sv_mmap Hs)]. }
  unfold create_stack_with_red_zone. eapply yields_bind; [apply Hmmap|]. cbv beta. intros b Hb.
  destruct (BAD_ADDR b) eqn:E; [apply yields_ret; cbv beta; rewrite E; tauto|].
  apply (yields_bind (fun _ => True)); [apply keeps_on_m|]. intros _ _. apply Hmmap.
Qed.

Lemma keeps_stack_addrs (f g : nod_proc_info -> Z) : keeps (on_p (fun p => set_stack_addrs (f p) (g p) p)).
Proof. apply keeps_on_p. intros p. split; [done|]. apply (placed_refl p). Qed.

Lemma keeps_create_elf_tbls la ia es ee : keeps (create_elf_tbls la ia es ee).
Proof.
  unfold create_elf_tbls. cbv zeta. eapply yields_bind; [apply stack_yields|]. cbv beta. intros p Hp.
  destruct (BAD_ADDR p); [apply yields_fail; by destruct Hp|].
  apply keeps_bind; [apply keeps_on_p; intros q; split; [done|by eexists _, _]|].
  intros _. apply keeps_bind; [apply keeps_on_m|]. intros rand.
  apply keeps_bind; [apply keeps_put_bytes|]. intros _. apply keeps_bind; [apply keeps_stack_addrs|]. intros _.
  apply keeps_get. intros [pr m]. apply keeps_bind; [apply keeps_put_bytes|]. intros _.
  apply keeps_bind; [apply keeps_put_args|]. intros a.
  apply (keeps_service (fun ok => ok = true)); [intros Hs m'; apply (sv_vmalloc Hs)|]. intros ok Hok.
  destruct ok; cbn [negb]; [|apply yields_fail; by destruct Hok].
  apply keeps_bind; [apply keeps_count_env; lia|]. intros envc.
  apply keeps_bind; [apply keeps_stack_addrs|]. intros _. apply keeps_bind; [apply keeps_put_words|]. intros _.
  apply keeps_bind; [apply keeps_put_env; lia|]. intros sp.
  apply keeps_bind; [apply keeps_put_bytes|]. intros _. apply keeps_put_bytes.
Qed.

Lemma keeps_load_binary i : keeps (load_binary i).
Proof.
  apply (keeps_service (fun a => BAD_ADDR a = false)); [intros Hs m; apply (sv_binary Hs)|]. intros a Ha.
  destruct (BAD_ADDR a); [apply yields_fail; by destruct Ha|apply keeps_ret].
Qed.

Lemma keeps_do_load es ee : keeps (do_load_monitor es ee).
Proof.
  unfold do_load_monitor. apply keeps_bind; [destruct (lc_interp conf); [apply keeps_load_binary|apply keeps_ret]|].
  intros ia. apply keeps_bind; [apply keeps_load_binary|]. intros la.
  apply keeps_bind; [apply keeps_create_elf_tbls|]. intros _. apply keeps_on_p. intros p. split; [done|]. apply (placed_refl p).
Qed.
End steps.

Lemma load_first_same p s : same p (load_first p s).1.2 /\
  ls_regs (load_first p s).2 = ls_regs s /\ ls_task (load_first p s).2 = ls_task s /\
  ls_tsk (load_first p s).2 = ls_tsk s /\ ps_table (ls_ps (load_first p s).2) = ps_table (ls_ps s).
Proof.
  unfold load_first.
  assert (exists p1 k, (match p_status p with
    | NOD_CLONE => (nod_copy_procinfo (ls_tsk s) p (ls_ps s), ps_pkeys (ls_ps s))
    | NOD_SHARE => nod_share_procinfo (ls_tsk s) p (ls_ps s)
    | _ => (p, ps_pkeys (ls_ps s)) end) = (p1, k) /\ same p p1) as (p1 & k & -> & Hp1).
  { destruct (p_status p); try (by eexists _, _; split; [reflexivity|apply same_refl]).
    - eexists _, _. split; [reflexivity|]. unfold nod_copy_procinfo. repeat case_match; by repeat split.
    - destruct (nod_share_procinfo (ls_tsk s) p (ls_ps s)) as [p1 k] eqn:E. exists p1, k. split; [done|].
      unfold nod_share_procinfo in E. repeat case_match; injection E as <- <-; by repeat split. }
  destruct (p_entry_addr p1 =? 0); [|done].
  pose proof (keeps_do_load True (or_introl I) env_area.1 env_area.2 p1 (ls_m s)) as Hk.
  destruct (do_load_monitor env_area.1 env_area.2 (p1, ls_m s)) as [[] [p2 m]|c [p2 m]|]; [| |done];
    cbn [fst snd ls_regs ls_task]; destruct Hk as [_ Hk]; split; try done; [destruct Hk|]; by etrans.
Qed.

(** What recording relies on. *)
#[export] Instance kernel_loader_ok : MonitorLoaderOk lstate.
Proof.
  assert (forall p s, p_buffer (load_monitor p s).1.2 = p_buffer p /\ p_pid (load_monitor p s).1.2 = p_pid p) as Hk.
  { intros p s. unfold load_monitor. pose proof (load_first_same p s) as ((Hp & Hb & _) & _).
    destruct (load_first p s) as [[r p1] s1]. cbn [fst snd] in Hp, Hb.
    destruct (negb _); [done|]. destruct (lo_copy_to_user _ _ _) as [r1 m1]. destruct (0 <? r1); done. }
  constructor; intros p s; apply Hk.
Qed.

(** The context and the security settings of [p] are those of [regs] and [t]. *)
Definition saved_by (regs : pt_regs) (t : task) (p : nod_proc_info) : Prop :=
  p_ctx p = mk_ctx 1 (k_fsbase t) (k_gsbase t) regs /\
  p_sec p = mk_sec 1 (k_clear_child_tid t) (k_seccomp t) (k_blocked t) (k_cap_permitted t) (k_cap_effective t)
    (k_root t) (k_rlim t).

Lemma prepare_keeps_bases p t :
  k_fsbase (nod_prepare_security init_root p t).2 = k_fsbase t /\
  k_gsbase (nod_prepare_security init_root p t).2 = k_gsbase t.
Proof.
  unfold nod_prepare_security. cbv zeta. cbn [snd]. unfold nod_disable_rlim, nod_disable_seccomp. destruct (negb _); done.
Qed.

(** The process is in the monitor: where it goes on, what the monitor is told of the
    system call, and what was saved. *)
Record entered (s : lstate) (p1 : nod_proc_info) (s1 : lstate) : Prop := {
  en_ip : r_ip (ls_regs s1) = p_entry_addr p1;
  en_sp : r_sp (ls_regs s1) = p_stack_addr p1;
  en_nr : si_syscall_nr (p_stack_info p1) = s32 (r_orig_ax (ls_regs s));
  en_code : si_exit_code (p_stack_info p1) = r_di (ls_regs s);
  en_saved : saved_by (ls_regs s) (ls_task s) p1
}.

Lemma load_enters p s r p1 s1 :
  load_monitor p s = (r, p1, s1) -> p_status p <> NOD_IN -> p_status p1 = NOD_IN ->
  r = NOD_SUCCESS_LOAD /\ entered s p1 s1.
Proof.
  intros Hl Hn Hin. unfold load_monitor in Hl.
  pose proof (load_first_same p s) as ((Hpid & Hb & Hst & _ & _) & Hr & Ht & _).
  destruct (load_first p s) as [[r0 p0] s0]. cbn [fst snd] in *.
  destruct (negb (r0 =? NOD_SUCCESS)); [injection Hl as <- <- <-; congruence|].
  destruct (lo_copy_to_user _ _ _) as [r1 m1]. destruct (0 <? r1); [injection Hl as <- <- <-; cbn in Hin; congruence|].
  match type of Hl with context [nod_prepare_security init_root ?q ?t] =>
    pose proof (prepare_saves init_root q t) as Hsv; pose proof (prepare_keeps_bases q t) as [Hf Hg];
    assert (p_stack_info (nod_prepare_security init_root q t).1 = p_stack_info q) as Hi by done;
    destruct (nod_prepare_security init_root q t) as [pp tt_] end.
  cbn [fst snd] in Hsv, Hf, Hg, Hi. cbn [elf_reg_init] in Hl. injection Hl as <- <- <-. split; [done|].
  constructor; cbn [p_stack_info nod_prepare_context set_ctx]; rewrite ?Hi; try (by rewrite <- Hr); [done..|].
  unfold saved_by. cbn [p_ctx p_sec nod_prepare_context set_ctx]. rewrite Hf, Hg, Hsv, Hr, Ht. done.
Qed.

(** If no service of the kernel fails, a load is not refused. *)
Lemma load_first_succeeds p s : services_ok ->
  (load_first p s).1.1 = NOD_SUCCESS /\ (p_status p = NOD_OUT -> placed p (load_first p s).1.2).
Proof.
  intros Hs. unfold load_first.
  set (pk := match p_status p with NOD_CLONE => _ | NOD_SHARE => _ | _ => _ end).
  assert (p_status p = NOD_OUT -> pk.1 = p) as Hout by (unfold pk; by intros ->).
  destruct pk as [p1 k]. cbn [fst] in Hout. destruct (p_entry_addr p1 =? 0); cbn [fst snd].
  - pose proof (keeps_do_load False (or_intror Hs) env_area.1 env_area.2 p1 (ls_m s)) as Hk.
    destruct (do_load_monitor env_area.1 env_area.2 (p1, ls_m s)) as [[] [p2 m]|c [p2 m]|]; [|by destruct Hk|done].
    split; [done|]. intros Ho. rewrite <- (Hout Ho). apply Hk.
  - split; [done|]. intros Ho. rewrite (Hout Ho). apply placed_refl.
Qed.

(** The last store of a successful load is the block, at its address on the monitor's stack. *)
Lemma load_succeeds p s : services_ok -> exists p1 s1 m,
  load_monitor p s = (NOD_SUCCESS_LOAD, p1, s1) /\ p_status p1 = NOD_IN /\
  ls_m s1 = (lo_copy_to_user (p_stack_info_addr p1) (stack_bytes (p_stack_info p1)) m).2 /\
  (p_status p = NOD_OUT -> exists lo hi, p_stack_info p1 = set_call (s32 (r_orig_ax (ls_regs s))) (r_di (ls_regs s)) (set_stack_bounds lo hi (p_stack_info p))).
Proof.
  intros Hs. unfold load_monitor. destruct (load_first_succeeds p s Hs) as [Er Hp]. pose proof (load_first_same p s) as (_ & Hr & _ & _).
  destruct (load_first p s) as [[r0 p0] s0]. cbn [fst snd] in *. subst r0. cbn [negb Z.eqb NOD_SUCCESS Pos.eqb].
  set (p1 := set_stack_info _ p0). pose proof (sv_copy Hs (p_stack_info_addr p1) (stack_bytes (p_stack_info p1)) (ls_m s0)) as Hc.
  change (p_stack_info_addr p0) with (p_stack_info_addr p1).
  destruct (lo_copy_to_user (p_stack_info_addr p1) (stack_bytes (p_stack_info p1)) (ls_m s0)) as [r1 m1] eqn:Ec. cbn [fst] in Hc. subst r1. cbn [Z.ltb Z.compare].
  destruct (nod_prepare_security init_root (nod_proc_set_in p1) (ls_task s0)) as [p2 t2] eqn:Ep. cbn [elf_reg_init].
  assert (p_stack_info p2 = p_stack_info p1 /\ p_stack_info_addr p2 = p_stack_info_addr p1 /\ p_status p2 = NOD_IN) as (E1 & E2 & E3)
    by (unfold nod_prepare_security in Ep; by injection Ep as <- _).
  eexists _, _, (ls_m s0). split; [reflexivity|]. cbn [p_status p_stack_info p_stack_info_addr nod_prepare_context set_ctx ls_m].
  split; [done|]. rewrite E1, E2, Ec. split; [done|]. intros Ho. destruct (Hp Ho) as [_ (lo & hi & E)].
  exists lo, hi. change (p_stack_info p1) with (set_call (s32 (r_orig_ax (ls_regs s0))) (r_di (ls_regs s0)) (p_stack_info p0)).
  by rewrite E, Hr.
Qed.

(** A load does not touch the table nor the identity of the task. *)
Lemma load_keeps_table p s :
  ls_tsk (load_monitor p s).2 = ls_tsk s /\ ps_table (ls_ps (load_monitor p s).2) = ps_table (ls_ps s).
Proof.
  unfold load_monitor. pose proof (load_first_same p s) as (_ & _ & _ & Ht & Hp).
  destruct (load_first p s) as [[r0 p0] s0]. cbn [fst snd] in *. destruct (negb _); [done|].
  destruct (lo_copy_to_user _ _ _) as [r1 m1]. destruct (0 <? r1); [done|].
  destruct (nod_prepare_security _ _ _). done.
Qed.

(** Restoring the security settings alone. *)
Lemma restore_sec_settings t p t2 : seccomp_ok (k_seccomp t) ->
  p_sec p = mk_sec 1 (k_clear_child_tid t) (k_seccomp t) (k_blocked t) (k_cap_permitted t) (k_cap_effective t)
    (k_root t) (k_rlim t) ->
  settings_of (nod_restore_security p t2).2 = settings_of t.
Proof.
  intros Hm Hs. unfold nod_restore_security. destruct (0 <=? p_ioctl_fd p).
  - destruct (restore_saved (p_sec (set_ioctl_fd (-1) p)) t (close_fd (p_ioctl_fd p) t2) Hm Hs) as [E _].
    by destruct (__restore_security _ _).
  - destruct (restore_saved (p_sec p) t t2 Hm Hs) as [E _]. by destruct (__restore_security _ _).
Qed.

Lemma restore_security_status p t : p_status (nod_restore_security p t).1 = p_status p.
Proof. unfold nod_restore_security. by destruct (0 <=? _), (__restore_security _ _). Qed.

Lemma restore_security_buffer p t : p_buffer (nod_restore_security p t).1 = p_buffer p.
Proof. unfold nod_restore_security. by destruct (0 <=? _), (__restore_security _ _). Qed.

(** Restoring gives back what was saved, whatever the state is by then. *)
Lemma restore_returns regs t p regs2 t2 : seccomp_ok (k_seccomp t) -> saved_by regs t p ->
  let '(p3, t3) := nod_restore_security p t2 in
  let '(p4, regs4, t4) := nod_restore_context p3 regs2 t3 in
  (regs4 = regs /\ settings_of t4 = settings_of t /\ k_fsbase t4 = k_fsbase t /\ k_gsbase t4 = k_gsbase t) /\
  p_buffer p4 = p_buffer p /\ p_pid p4 = p_pid p /\ p_stack_info p4 = p_stack_info p.
Proof.
  intros Hm [Hc Hs]. unfold nod_restore_security.
  set (pt := if 0 <=? p_ioctl_fd p then _ else _).
  assert (p_sec pt.1 = p_sec p /\ p_ctx pt.1 = p_ctx p /\ p_buffer pt.1 = p_buffer p /\ p_pid pt.1 = p_pid p /\ p_stack_info pt.1 = p_stack_info p)
    as (Es & Ec & Eb & Ep & Ei) by (unfold pt; by destruct (0 <=? _)).
  destruct pt as [pa ta]. cbn [fst] in *. destruct (restore_saved (p_sec pa) t ta Hm) as [Hset _]; [by rewrite Es|].
  destruct (__restore_security (p_sec pa) ta) as [s' t']. cbn [snd] in Hset.
  unfold nod_restore_context. cbn [p_ctx set_sec]. rewrite Ec, Hc. cbn [ctx_available Z.eqb ctx_regs ctx_fsbase ctx_gsbase].
  by rewrite <- Hset.
Qed.

(** C21: A load and the return from the monitor are transparent to the process.  If
    [nod_load_monitor] entered the monitor, the process continues at the monitor's
    entry point on the monitor's stack with its status [NOD_IN]; and when it
    returns, whatever registers, settings and process entry it has by then, as
    long as the saved context and security are those of the load, the process has
    its own registers, segment bases and settings again. *)
Theorem load_and_return p s r p1 s1 p2 regs2 t2 :
  load_monitor p s = (r, p1, s1) -> p_status p <> NOD_IN -> p_status p1 = NOD_IN ->
  seccomp_ok (k_seccomp (ls_task s)) -> p_ctx p2 = p_ctx p1 -> p_sec p2 = p_sec p1 ->
  (r = NOD_SUCCESS_LOAD /\ r_ip (ls_regs s1) = p_entry_addr p1 /\ r_sp (ls_regs s1) = p_stack_addr p1) /\
  let '(p3, t3) := nod_restore_security p2 t2 in
  let '(p4, regs4, t4) := nod_restore_context p3 regs2 t3 in
  regs4 = ls_regs s /\ settings_of t4 = settings_of (ls_task s) /\
  k_fsbase t4 = k_fsbase (ls_task s) /\ k_gsbase t4 = k_gsbase (ls_task s).
Proof.
  intros Hl Hn Hin Hsec Hc Hs. destruct (load_enters p s r p1 s1 Hl Hn Hin) as [Er [Eip Esp _ _ [Sc Ss]]]. split; [done|].
  pose proof (restore_returns (ls_regs s) (ls_task s) p2 regs2 t2 Hsec) as HR.
  destruct (nod_restore_security p2 t2) as [p3 t3]. destruct (nod_restore_context p3 regs2 t3) as [[p4 regs4] t4].
  apply HR. split; congruence.
Qed.

(** A copy of the information block that fails by one byte looks like a load.
    [nod_load_monitor] returns the number of bytes [copy_to_user] could not copy,
    and one byte is [NOD_SUCCESS_LOAD]: the process was not switched to the monitor,
    but [exit_filter] takes the result for a load and makes [exit] return
    [-EAGAIN]. *)
Theorem short_copy_looks_loaded p s :
  (forall a bs m, lo_copy_to_user a bs m = (1, m)) -> p_entry_addr p <> 0 -> p_status p = NOD_OUT ->
  let '(r, p', s') := load_monitor p s in
  r = NOD_SUCCESS_LOAD /\ p_status p' = NOD_OUT /\ ls_regs s' = ls_regs s /\ ls_task s' = ls_task s.
Proof.
  intros Hcp He Hst. unfold load_monitor, load_first. rewrite Hst.
  destruct (Z.eqb_spec (p_entry_addr p) 0); [done|]. cbn [negb Z.eqb NOD_SUCCESS]. rewrite Hcp. cbn. by rewrite Hst.
Qed.
End load.

(** ** The properties at work *)

Definition demo_ops (missing : Z) : LoaderOps unit := {|
  lo_load_binary _ m := (65536, m);
  lo_vm_mmap _ _ _ m := (1048576, m);
  lo_vm_munmap _ _ m := m;
  lo_copy_to_user _ _ m := (missing, m);
  lo_strnlen_user _ _ := 1;
  lo_random m := (replicate 16 0, m);
  lo_vmalloc m := (true, m)
|}.

Definition demo_conf : loader_config := mk_lconf true 16 32 64 9 65536 [str_bytes "monitor"] 0.
Definition demo_regs : pt_regs := mk_regs 1 2 3 4 5 6 7 8 9 10 11 12 13 14 15 16 17 18 19 20 21.
Definition demo_lstate : lstate (M_ := unit) (P := Z) := mk_lstate demo_regs demo_ktask demo_tsk demo_pstate1 tt.

Lemma load_and_return_witness :
  let '(r, p1, s1) := @load_monitor unit (demo_ops 0) demo_conf Z demo_pkeys 60 (0, 0) demo_entry demo_lstate in
  r = NOD_SUCCESS_LOAD /\ r_ip (ls_regs s1) = 65536 + 16 /\
  let '(p3, t3) := nod_restore_security p1 (set_blocked 0 (ls_task s1)) in
  let '(p4, regs4, t4) := nod_restore_context p3 zero_regs t3 in
  regs4 = demo_regs /\ settings_of t4 = settings_of demo_ktask.
Proof.
  destruct (@load_monitor unit (demo_ops 0) demo_conf Z demo_pkeys 60 (0, 0) demo_entry demo_lstate) as [[r p1] s1] eqn:E.
  assert (p_status p1 = NOD_IN) as Hin.
  { change p1 with (r, p1, s1).1.2. rewrite <- E. reflexivity. }
  assert (p_entry_addr p1 = 65536 + 16) as He.
  { change p1 with (r, p1, s1).1.2. rewrite <- E. reflexivity. }
  pose proof (@load_and_return unit (demo_ops 0) demo_conf Z demo_pkeys 60 (0, 0) ltac:(intros; cbn; lia)
    demo_entry demo_lstate r p1 s1 p1 zero_regs (set_blocked 0 (ls_task s1)) E ltac:(done) Hin
    ltac:(right; by right) eq_refl eq_refl) as [(Hr & Hip & _) H].
  split; [exact Hr|]. split; [by rewrite Hip|].
  destruct (nod_restore_security p1 _) as [p3 t3]. destruct (nod_restore_context p3 zero_regs t3) as [[p4 regs4] t4].
  destruct H as (H1 & H2 & _). by split.
Defined.

Lemma short_copy_looks_loaded_witness :
  let p := nod_proc_set_status NOD_OUT (-1) (set_entry 65536 zero_stack demo_entry) in
  let '(r, p', s') := @load_monitor unit (demo_ops 1) demo_conf Z demo_pkeys 60 (0, 0) p demo_lstate in
  r = NOD_SUCCESS_LOAD /\ p_status p' = NOD_OUT /\ ls_regs s' = demo_regs /\ ls_task s' = demo_ktask.
Proof.
  cbv zeta.
  apply (@short_copy_looks_loaded unit (demo_ops 1) demo_conf Z demo_pkeys 60 (0, 0)
    (nod_proc_set_status NOD_OUT (-1) (set_entry 65536 zero_stack demo_entry)) demo_lstate); done.
Defined.
