(* ===== verification/Trace.v ===== *)
(** * Probes and filters: [kmodule/trace.c], lines 74-343

    What happens around a system call of a traced process: the probe behind it
    records an event or lets the process leave the monitor, and the filters in front
    of [exit] and of the calls that change mappings delay or refuse them.  The state
    is that of the loader ([lstate]): registers and settings of the current task, the
    table of processes with the statistics, and the address space.

    [None] is running out of fuel (the [goto restart] of [do_record_one_event]),
    [Some None] a fault. *)

From S2P Require Import Prelude Kernel Tables Flags Ring FillerLib ProcState Events EventCodec.
From S2P Require Import EventsFacts Demo Privil ProcInfo Loader Hooks.

Local Open Scope Z_scope.

Definition EAGAIN : Z := 11.

(** [unlikely(current->flags & PF_KTHREAD)] and [NOD_TEST(task)]: only the processes
    of user 1000 are traced. *)
Definition traced (kthread : bool) (uid : Z) : bool := negb kthread && (uid =? 1000).

(** What [hook_general] does: return, or call the original function. *)
Inductive hook_result : Set := HReturn (ret : Z) | HCall (f : sys_call_ptr).

Section trace.
Context {K : Kernel} {M_ : Type} `{LoaderOps M_} {P : Type} `{Pkeys P}.
Context (conf : loader_config) (init_root : Z) (env_area : Z * Z).

#[local] Instance loader : MonitorLoader (lstate (M_ := M_) (P := P)) := kernel_loader conf init_root env_area.
Notation world := (lstate (M_ := M_) (P := P)).

(** The current task is [ls_tsk]; its entry of the table, and the entry stored. *)
Definition cur_pid (w : world) : Z := tk_pid (ls_tsk w).

Definition set_ps (ps : pstate P) (w : world) : world :=
  mk_lstate (ls_regs w) (ls_task w) (ls_tsk w) ps (ls_m w).

Definition put_proc (p : nod_proc_info) (stat : nod_event_statistic) (w : world) : world :=
  set_ps (mk_pstate (<[cur_pid w := p]> (ps_table (ls_ps w))) (ps_pkeys (ls_ps w)) stat) w.

Definition put_task (regs : pt_regs) (t : task) (w : world) : world :=
  mk_lstate regs t (ls_tsk w) (ls_ps w) (ls_m w).

(** [syscall_get_nr(current, regs)] *)
Definition syscall_nr (w : world) : Z := s32 (r_orig_ax (ls_regs w)).

(** [syscall_probe(p, regs, id, force)] *)
Definition syscall_probe (fuel : nat) (env : rec_env) (p : nod_proc_info) (id force : Z) (w : world)
    : option (option (Z * world)) :=
  if in_table id then
    let type := event_type (g_syscall_event_table id) in
    match record_one_event fuel env type (mk_data NODC_SYSCALL id force) p w (ps_stat (ls_ps w)) with
    | None => None
    | Some None => Some None
    | Some (Some (r, p, w, stat)) => Some (Some (r, put_proc p stat w))
    end
  else Some (Some (NOD_FAILURE_INVALID_EVENT, w)).

(** [nod_proc_acquire(status, NULL, -1, current)] *)
Definition acquire (status : nod_proc_status) (ae : alloc_env) (w : world) : option (option nod_proc_info * world) :=
  '(p, _, ps) ← nod_proc_acquire status (-1) (ls_tsk w) ae (ls_ps w);
  Some (p, set_ps ps w).

(** A probe whose result is not used. *)
Definition probe (fuel : nat) (env : rec_env) (p : nod_proc_info) (w : world) : option (option world) :=
  match syscall_probe fuel env p (syscall_nr w) 0 w with
  | None => None
  | Some None => Some None
  | Some (Some (_, w)) => Some (Some w)
  end.

(** The part of [syscall_exit_probe] for a process outside of the monitor. *)
Definition exit_probe_out (fuel : nat) (env : rec_env) (ae : alloc_env) (evt_from : nod_proc_status)
    (p : option nod_proc_info) (w : world) : option (option world) :=
  let id := syscall_nr w in
  if (id =? __NR_clone) && (k_ret =? 0) then
    let clone_flags := sys_arg 1 in
    match acquire (if has clone_flags CLONE_VM then NOD_SHARE else NOD_CLONE) ae w with
    | None => Some None
    | Some (_, w) => Some (Some w)
    end
  else
    match p with
    | Some p =>
        if (id =? __NR_execve) || (id =? __NR_execveat) then
          let '(p, k) := nod_init_procinfo (ls_tsk w) p (ps_pkeys (ls_ps w)) in
          let w := set_ps (mk_pstate (ps_table (ls_ps w)) k (ps_stat (ls_ps w))) w in
          probe fuel env p (put_proc p (ps_stat (ls_ps w)) w)
        else probe fuel env p w
    | None =>
        match acquire evt_from ae w with
        | None => Some None
        | Some (None, w) => Some (Some w)
        | Some (Some p, w) => probe fuel env p w
        end
    end.

(** [syscall_exit_probe(regs, ret)] *)
Definition syscall_exit_probe (fuel : nat) (env : rec_env) (ae : alloc_env) (kthread : bool) (uid : Z) (w : world)
    : option (option world) :=
  if negb (traced kthread uid) then Some (Some w) else
  let '(evt_from, p) := nod_event_from (cur_pid w) (ls_ps w) in
  match evt_from, p with
  | NOD_RESTORE_CONTEXT, Some p =>
      let '(p, t) := nod_restore_security p (ls_task w) in
      let '(p, regs, t) := nod_restore_context p (ls_regs w) t in
      Some (Some (put_proc (nod_proc_set_out p) (ps_stat (ls_ps w)) (put_task regs t w)))
  | NOD_RESTORE_SECURITY, Some p =>
      let '(p, t) := nod_restore_security p (ls_task w) in
      Some (Some (put_proc p (ps_stat (ls_ps w)) (put_task (ls_regs w) t w)))
  | NOD_OUT, _ | NOD_CLONE, _ | NOD_SHARE, _ => exit_probe_out fuel env ae evt_from p w
  | _, _ => Some (Some w)
  end.

(** [syscall_procexit_probe(tsk)]; [kthread] is about the current task, [pid] and
    [uid] are those of [tsk]. *)
Definition syscall_procexit_probe (kthread : bool) (uid pid : Z) (w : world) : option world :=
  if negb (traced kthread uid) then Some w else
  '(_, ps) ← nod_proc_release pid (ls_ps w);
  Some (set_ps ps w).

(** [exit_filter(p, regs)] *)
Definition exit_filter (fuel : nat) (env : rec_env) (ae : alloc_env) (p : option nod_proc_info) (w : world)
    : option (option (Z * world)) :=
  match (match p with Some p => Some (Some p, w) | None => acquire NOD_OUT ae w end) with
  | None => Some None
  | Some (None, w) => Some (Some (0, w))
  | Some (Some p, w) =>
      match p_status p with
      | NOD_OUT | NOD_CLONE | NOD_SHARE =>
          match syscall_probe fuel env p (syscall_nr w) 1 w with
          | None => None
          | Some None => Some None
          | Some (Some (r, w)) => Some (Some (if r =? NOD_SUCCESS_LOAD then - EAGAIN else 0, w))
          end
      | NOD_IN =>
          let '(p, t) := nod_restore_security p (ls_task w) in
          Some (Some (0, put_proc p (ps_stat (ls_ps w)) (put_task (ls_regs w) t w)))
      | _ => Some None
      end
  end.

(** [mm_range_filter(p, regs)]; [vmas] are the mappings of [current->mm]. *)
Definition mm_range_filter (vmas : list vma) (p : option nod_proc_info) : Z :=
  match p with
  | None => 0
  | Some p =>
      match p_status p with
      | NOD_IN | NOD_RESTORE_CONTEXT | NOD_RESTORE_SECURITY => 0
      | _ => if nod_mmap_check (sys_arg 0) (sys_arg 1) vmas then - EINVAL else 0
      end
  end.

(** [ret ? ret : syscall_filters[id].oldsyscall(...)] *)
Definition hook_ret (ret : Z) (old : sys_call_ptr) : hook_result := if ctrue ret then HReturn ret else HCall old.

(** [hook_general] *)
Definition hook_general (fuel : nat) (env : rec_env) (ae : alloc_env) (kthread : bool) (uid : Z) (vmas : list vma)
    (h : hooks) (w : world) : option (option (hook_result * world)) :=
  let id := syscall_nr w in
  match (if 0 <=? id then hk_filters h !! Z.to_nat id else None) with
  | None => Some None
  | Some f =>
      if negb (traced kthread uid) then Some (Some (HCall (sf_oldsyscall f), w)) else
      if negb (sf_hooked f =? 1) then Some None else
      let p := (nod_event_from (cur_pid w) (ls_ps w)).2 in
      match sf_filter f with
      | None => Some None
      | Some ExitFilter =>
          match exit_filter fuel env ae p w with
          | None => None
          | Some None => Some None
          | Some (Some (ret, w)) => Some (Some (hook_ret ret (sf_oldsyscall f), w))
          end
      | Some MmRangeFilter => Some (Some (hook_ret (mm_range_filter vmas p) (sf_oldsyscall f), w))
      end
  end.

(** ** What the probes do *)

Context (strnlen_nonneg : forall a m, 0 <= lo_strnlen_user a m).

(** Recording leaves the task and the table alone; if the process is in the monitor
    afterwards, the loader put it there. *)
Lemma record_keeps fuel env et data p w stat r p1 w1 stat1 :
  record_one_event fuel env et data p w stat = Some (Some (r, p1, w1, stat1)) ->
  ls_tsk w1 = ls_tsk w /\ ps_table (ls_ps w1) = ps_table (ls_ps w) /\
  (p_status p <> NOD_IN -> p_status p1 = NOD_IN -> r = NOD_SUCCESS_LOAD /\ entered w p1 w1).
Proof.
  unfold record_one_event, do_record_one_event.
  destruct (open_buffer _ _) as [[str b]|]; [|done]. destruct (record_event _ _ _ _ _ _ _) as [[a|]|]; [|done|done].
  set (q := set_buffer _ p). destruct (at_force a).
  - cbn [nod_load_monitor loader kernel_loader].
    pose proof (load_keeps_table conf init_root env_area strnlen_nonneg q w) as [Ht Hp].
    pose proof (load_enters conf init_root env_area strnlen_nonneg q w) as He.
    destruct (load_monitor conf init_root env_area q w) as [[r0 p0] w0]. intros [= <- <- <- <-].
    split; [done|]. split; [done|]. intros Hn Hin. by apply (He r0 p0 w0).
  - intros [= <- <- <- <-]. by repeat split.
Qed.

Lemma probe_keeps fuel env p id force w r w1 :
  syscall_probe fuel env p id force w = Some (Some (r, w1)) ->
  p_status p <> NOD_IN -> ps_table (ls_ps w) !! cur_pid w = Some p ->
  exists p1, ps_table (ls_ps w1) !! cur_pid w = Some p1 /\ cur_pid w1 = cur_pid w /\
    (forall pid, pid <> cur_pid w -> ps_table (ls_ps w1) !! pid = ps_table (ls_ps w) !! pid) /\
    (p_status p1 = NOD_IN -> r = NOD_SUCCESS_LOAD /\ entered w p1 w1).
Proof.
  unfold syscall_probe. intros E Hn Hp. destruct (in_table id).
  - destruct (record_one_event _ _ _ _ _ _ _) as [[[[[r0 p1] w0] stat]|]|] eqn:Er; [|done|done].
    injection E as <- <-. apply record_keeps in Er as (Ht & Htab & He).
    assert (cur_pid w0 = cur_pid w) as Ec by (unfold cur_pid; by rewrite Ht).
    exists p1. unfold put_proc, set_ps. cbn [ls_ps ps_table ls_tsk]. rewrite Ec, Htab, lookup_insert_eq.
    split; [done|]. split; [done|]. split; [intros; by rewrite lookup_insert_ne|].
    intros Hin. destruct (He Hn Hin) as [-> [Hip Hsp Hnr Hc Hs]]. split; [done|]. by constructor.
  - injection E as <- <-. exists p. split; [done|]. split; [done|]. split; [done|]. intros Hin. congruence.
Qed.

(** The entry [hook_general] finds for a hooked call while recording. *)
Lemma hooked_entry table h id f :
  length table = Z.to_nat SYSCALL_TABLE_SIZE -> hook_reach table h -> hk_registered h = 1 -> filter_of id = Some f ->
  0 <= id /\ exists e old, table !! Z.to_nat id = Some old /\ hk_filters h !! Z.to_nat id = Some (mk_filter e 1 (Some f) old).
Proof.
  intros Hl Hr Hreg Hf. destruct (reach_inv table h Hl Hr) as [_ _ Hh]. rewrite Hreg in Hh.
  assert (in_table id = true) as Hid.
  { revert Hf. unfold filter_of.
    repeat (match goal with |- context [id =? ?n] => destruct (Z.eqb_spec id n) as [->|_]; [done|] end). done. }
  pose proof (hb_entry _ _ _ Hh id Hid) as He. cbn [Z.eqb Pos.eqb] in He. rewrite Hf in He.
  destruct He as [_ (e & old & Ef & Eo)]. split; [|by exists e, old].
  unfold in_table in Hid. rewrite andb_true_iff, Z.leb_le in Hid. lia.
Qed.

(** C14: While recording, a process cannot unmap, protect or move the memory of its
    monitor: [munmap], [mprotect] and [mremap] of a range that meets a mapping of
    the monitor return [-EINVAL], every other range goes to the original system
    call, and nothing changes.  Inside the monitor the calls are not restricted. *)
Theorem monitor_memory_protected `{!KernelOk K} table h fuel env ae vmas w p :
  length table = Z.to_nat SYSCALL_TABLE_SIZE -> hook_reach table h -> hk_registered h = 1 ->
  filter_of (syscall_nr w) = Some MmRangeFilter -> ps_table (ls_ps w) !! cur_pid w = Some p ->
  vmas_sorted vmas -> sys_arg 0 + sys_arg 1 < 2 ^ 64 ->
  let inside := p_status p = NOD_IN \/ p_status p = NOD_RESTORE_CONTEXT \/ p_status p = NOD_RESTORE_SECURITY in
  exists old res, table !! Z.to_nat (syscall_nr w) = Some old /\
    hook_general fuel env ae false 1000 vmas h w = Some (Some (res, w)) /\
    (res = HCall old \/ res = HReturn (- EINVAL)) /\
    (res = HReturn (- EINVAL) <-> ~ inside /\ touches_monitor (sys_arg 0) (sys_arg 1) vmas).
Proof.
  intros Hl Hr Hreg Hf Hp Hs Hlt inside. destruct (hooked_entry table h _ _ Hl Hr Hreg Hf) as (Hid0 & e & old & Eo & Ef).
  exists old. eexists. split; [done|]. unfold hook_general. cbv zeta. rewrite (proj2 (Z.leb_le _ _)) by done. rewrite Ef.
  cbn [traced negb andb Z.eqb Pos.eqb sf_hooked sf_filter sf_oldsyscall]. split; [reflexivity|].
  unfold nod_event_from, find_proc_info. cbn [snd]. rewrite Hp. cbn [mm_range_filter].
  pose proof (mmap_check_iff (sys_arg 0) (sys_arg 1) vmas) as Hm.
  assert (nod_mmap_check (sys_arg 0) (sys_arg 1) vmas = true <-> touches_monitor (sys_arg 0) (sys_arg 1) vmas) as Hx.
  { apply Hm; [apply sys_arg_u64|apply sys_arg_u64|done|done]. }
  unfold inside. destruct (nod_mmap_check _ _ _) eqn:Ec; destruct (p_status p); cbn [hook_ret ctrue negb Z.eqb Z.opp EINVAL];
    (split; [auto|]); naive_solver.
Qed.

(** C10: [exit] is delayed by one run of the monitor, not lost.  When a traced process
    exits while recording and the monitor could be entered, [exit] returns
    [-EAGAIN], the process continues in the monitor, which is told the number and
    the code of the call; and when the monitor then exits, whatever it did to the
    settings of the process, the call reaches the kernel with the settings of the
    process restored. *)
Theorem exit_delayed table h fuel env ae vmas w p res w1 p1 fuel2 env2 ae2 vmas2 w2 p2 :
  length table = Z.to_nat SYSCALL_TABLE_SIZE -> hook_reach table h -> hk_registered h = 1 ->
  filter_of (syscall_nr w) = Some ExitFilter ->
  ps_table (ls_ps w) !! cur_pid w = Some p -> p_status p <> NOD_IN ->
  hook_general fuel env ae false 1000 vmas h w = Some (Some (res, w1)) ->
  ps_table (ls_ps w1) !! cur_pid w = Some p1 -> p_status p1 = NOD_IN -> seccomp_ok (k_seccomp (ls_task w)) ->
  filter_of (syscall_nr w2) = Some ExitFilter -> ps_table (ls_ps w2) !! cur_pid w2 = Some p2 ->
  p_status p2 = NOD_IN -> p_sec p2 = p_sec p1 ->
  (res = HReturn (- EAGAIN) /\ r_ip (ls_regs w1) = p_entry_addr p1 /\
   si_syscall_nr (p_stack_info p1) = syscall_nr w /\ si_exit_code (p_stack_info p1) = r_di (ls_regs w)) /\
  exists old w3, table !! Z.to_nat (syscall_nr w2) = Some old /\
    hook_general fuel2 env2 ae2 false 1000 vmas2 h w2 = Some (Some (HCall old, w3)) /\
    settings_of (ls_task w3) = settings_of (ls_task w).
Proof.
  intros Hl Hr Hreg Hf Hp Hn Hh Hp1 Hin Hsec Hf2 Hp2 Hin2 Hs2.
  destruct (hooked_entry table h _ _ Hl Hr Hreg Hf) as (Hid0 & e & old & Eo & Ef).
  unfold hook_general in Hh. cbv zeta in Hh. rewrite (proj2 (Z.leb_le _ _)) in Hh by done. rewrite Ef in Hh.
  cbn [traced negb andb Z.eqb Pos.eqb sf_hooked sf_filter sf_oldsyscall] in Hh.
  unfold nod_event_from, find_proc_info in Hh. cbn [snd] in Hh. rewrite Hp in Hh. cbn [exit_filter] in Hh.
  assert (exists r, syscall_probe fuel env p (syscall_nr w) 1 w = Some (Some (r, w1)) /\
    res = hook_ret (if r =? NOD_SUCCESS_LOAD then - EAGAIN else 0) old) as (r & Epr & ->).
  { destruct (p_status p); try done; destruct (syscall_probe _ _ _ _ _ _) as [[[r w0]|]|]; try done;
      injection Hh as <- <-; by exists r. }
  destruct (probe_keeps _ _ _ _ _ _ _ _ Epr Hn Hp) as (p1' & Hp1' & _ & _ & He).
  assert (p1' = p1) as -> by congruence. destruct (He Hin) as [-> [Hip Hsp Hnr Hcode [_ Hsv]]]. split; [done|].
  destruct (hooked_entry table h _ _ Hl Hr Hreg Hf2) as (Hid2 & e2 & old2 & Eo2 & Ef2).
  exists old2. unfold hook_general. cbv zeta. rewrite (proj2 (Z.leb_le _ _)) by done. rewrite Ef2.
  cbn [traced negb andb Z.eqb Pos.eqb sf_hooked sf_filter sf_oldsyscall].
  unfold nod_event_from, find_proc_info. cbn [snd]. rewrite Hp2. cbn [exit_filter]. rewrite Hin2.
  pose proof (restore_sec_settings (ls_task w) p2 (ls_task w2) Hsec ltac:(congruence)) as HR.
  destruct (nod_restore_security p2 (ls_task w2)) as [p3 t3]. by eexists.
Qed.

(** A new thread is taken for a new process.  [syscall_exit_probe] reads the flags
    of [clone] from its second argument, which on x86_64 is the stack of the child;
    the flags are the first.  So a [clone] with [CLONE_VM] whose stack address does
    not happen to have that bit gives an entry with the status [NOD_CLONE], not
    [NOD_SHARE]. *)
Theorem thread_marked_as_process fuel env ae w :
  table_wf (ls_ps w) -> aenv_ok ae -> ae_kmem ae = true ->
  (exists str over, ae_alloc ae = mk_alloc (Some str) (Some over) true true) ->
  ps_table (ls_ps w) !! cur_pid w = None -> syscall_nr w = __NR_clone -> k_ret = 0 ->
  has (sys_arg 0) CLONE_VM = true -> has (sys_arg 1) CLONE_VM = false ->
  exists w' p, syscall_exit_probe fuel env ae false 1000 w = Some (Some w') /\
    ps_table (ls_ps w') !! cur_pid w = Some p /\ p_status p = NOD_CLONE.
Proof.
  intros Hwf Hae Hk (str & over & Hal) Hp Hid Hret _ Hflag. unfold syscall_exit_probe.
  cbn [traced negb andb Z.eqb Pos.eqb]. unfold nod_event_from, find_proc_info. rewrite Hp.
  unfold exit_probe_out. cbv zeta. rewrite Hid, Hret, Hflag. cbn [andb Z.eqb]. change (__NR_clone =? __NR_clone) with true.
  cbn [andb]. destruct (acquire_ok NOD_CLONE (-1) (ls_tsk w) ae (ls_ps w) Hwf Hae) as (r & pre & s' & E & _ & _ & _ & Hr).
  unfold acquire. rewrite E. cbn [mbind option_bind]. destruct r as [p|].
  - destruct Hr as (Htab & Hst & _). by exists (set_ps s' w), p.
  - exfalso. revert E. unfold nod_proc_acquire, find_proc_info. unfold cur_pid in Hp. rewrite Hp.
    destruct (alloc_queue ae Hae) as [E0|(p & -> & _)].
    + revert E0. unfold nod_alloc_procinfo. rewrite Hk, Hal. unfold init_buffer. by destruct Hae as (_ & _ & _ & ->).
    + cbn [mbind option_bind]. by destruct (nod_init_procinfo _ _ _).
Qed.
End trace.

(** ** The properties at work *)

(** A process that calls system call [nr] with the arguments [args]. *)
Definition demo_call (args : list Z) : Kernel := demo_kernel (fill_mem 4096 16 65) args 0.

Lemma demo_call_ok args : length args = 6%nat -> Forall (fun a => 0 <= a < 2 ^ 64) args -> KernelOk (demo_call args).
Proof. intros Hl Hf. apply demo_kernel_ok; [by apply fill_mem_ok|done|done|done]. Qed.

Definition call_regs (nr di : Z) : pt_regs := mk_regs 1 2 3 4 5 6 7 8 9 10 11 12 13 14 di nr 17 18 19 20 21.

Definition demo_world (nr di : Z) (ps : pstate Z) : lstate (M_ := unit) (P := Z) :=
  mk_lstate (call_regs nr di) demo_ktask demo_tsk ps tt.

Definition demo_vmas : list vma := [mk_vma 4096 8192 false; mk_vma 65536 131072 true; mk_vma 200000 300000 false].

Definition munmap_call : Kernel := demo_call [69632; 4096; 0; 0; 0; 0].

Lemma munmap_call_ok : KernelOk munmap_call.
Proof. apply demo_call_ok; [done|by repeat constructor]. Qed.

Lemma monitor_memory_protected_witness :
  @hook_general munmap_call unit (demo_ops 0) Z demo_pkeys demo_conf 60 (0, 0) 1 demo_env
    demo_aenv false 1000 demo_vmas demo_hooks (demo_world __NR_munmap 0 demo_pstate1) =
  Some (Some (HReturn (- EINVAL), demo_world __NR_munmap 0 demo_pstate1)).
Proof.
  pose proof (@monitor_memory_protected munmap_call unit (demo_ops 0) Z demo_pkeys demo_conf 60 (0, 0) munmap_call_ok
    demo_table demo_hooks 1 demo_env demo_aenv demo_vmas (demo_world __NR_munmap 0 demo_pstate1) demo_entry) as H.
  destruct H as (old & res & _ & E & _ & Hres);
    [reflexivity|exact demo_reach|reflexivity|reflexivity|by vm_compute|by repeat constructor|reflexivity|].
  rewrite E. do 3 f_equal. apply Hres. split; [by intros [|[|]]|].
  right. left. by vm_compute.
Defined.

Lemma exit_delayed_witness :
  let K := demo_call [7; 0; 0; 0; 0; 0] in
  let w := demo_world __NR_exit 7 demo_pstate1 in
  exists w1 p1 w3, @hook_general K unit (demo_ops 0) Z demo_pkeys demo_conf 60 (0, 0) 1 demo_env demo_aenv false 1000
      demo_vmas demo_hooks w = Some (Some (HReturn (- EAGAIN), w1)) /\
    ps_table (ls_ps w1) !! 100 = Some p1 /\ si_exit_code (p_stack_info p1) = 7 /\
    @hook_general K unit (demo_ops 0) Z demo_pkeys demo_conf 60 (0, 0) 1 demo_env demo_aenv false 1000
      demo_vmas demo_hooks (demo_world __NR_exit 7 (ls_ps w1)) = Some (Some (HCall (SysCall 61), w3)) /\
    settings_of (ls_task w3) = settings_of demo_ktask.
Proof.
  intros K w.
  set (run := @hook_general K unit (demo_ops 0) Z demo_pkeys demo_conf 60 (0, 0) 1 demo_env demo_aenv false 1000
    demo_vmas demo_hooks).
  assert (match run w with
    | Some (Some (_, w1)) => match ps_table (ls_ps w1) !! 100 with Some p1 => bool_decide (p_status p1 = NOD_IN) | None => false end
    | _ => false end = true) as Hrun by (by vm_compute).
  destruct (run w) as [[[res w1]|]|] eqn:E; [|done|done].
  destruct (ps_table (ls_ps w1) !! 100) as [p1|] eqn:Ep; [|done]. apply bool_decide_eq_true in Hrun.
  destruct (@exit_delayed K unit (demo_ops 0) Z demo_pkeys demo_conf 60 (0, 0) ltac:(intros; cbn; lia) demo_table demo_hooks
    1 demo_env demo_aenv demo_vmas w demo_entry res w1 p1 1 demo_env demo_aenv demo_vmas (demo_world __NR_exit 7 (ls_ps w1)) p1)
    as [(-> & _ & _ & Hc) (old & w3 & Ho & E3 & Hs)];
    [reflexivity|exact demo_reach|reflexivity|reflexivity|by vm_compute|done|exact E|exact Ep|done|right; by right|reflexivity
    |exact Ep|done|done|].
  exists w1, p1, w3. split; [done|]. split; [done|]. split; [exact Hc|]. split; [|exact Hs].
  vm_compute in Ho. injection Ho as <-. exact E3.
Defined.

Lemma thread_marked_as_process_witness :
  let K := demo_call [CLONE_VM; 4096; 0; 0; 0; 0] in
  exists w' p, @syscall_exit_probe K unit (demo_ops 0) Z demo_pkeys demo_conf 60 (0, 0) 1 demo_env demo_aenv false 1000
      (demo_world __NR_clone 0 demo_pstate) = Some (Some w') /\
    ps_table (ls_ps w') !! 100 = Some p /\ p_status p = NOD_CLONE.
Proof.
  intros K. apply (@thread_marked_as_process K unit (demo_ops 0) Z demo_pkeys demo_conf 60 (0, 0) 1 demo_env demo_aenv
    (demo_world __NR_clone 0 demo_pstate)); try reflexivity;
    [exact demo_table_wf|exact demo_aenv_ok|by eexists _, _].
Defined.
