(* ===== verification/Device.v ===== *)
(** * The control device: [kmodule/proc.c] and [include/ioctl.h]

    [/proc/nodrop]: user programs start and stop recording and read the buffers, and
    the monitor maps its buffer, gets its configuration and asks to be left.  The
    state is the world of [Trace] with the hooks and the static variables of
    [proc.c] and [events.c]; [filp->private_data] is the id of an entry.  [None] is
    a fault, such as the use of an entry that was freed. *)

From S2P Require Import Prelude Kernel Tables Ring FillerLib ProcState Events EventCodec.
From S2P Require Import EventsFacts Demo Privil ProcInfo Loader Hooks Trace.

Local Open Scope Z_scope.

Definition EIO : Z := 5.
Definition ENODEV : Z := 19.
Definition BUFSIZE : Z := 30.

(** [_IO('n', n)], and the two commands with a [struct nod_lua_state]. *)
Definition nod_io (n : Z) : Z := 0x6e00 + n.
Definition NOD_IOCTL_CLEAR_BUFFER : Z := nod_io 0.
Definition NOD_IOCTL_FETCH_BUFFER : Z := nod_io 1.
Definition NOD_IOCTL_READ_BUFFER_COUNT_INFO : Z := nod_io 2.
Definition NOD_IOCTL_READ_STATISTICS : Z := nod_io 3.
Definition NOD_IOCTL_CLEAR_STATISTICS : Z := nod_io 4.
Definition NOD_IOCTL_STOP_RECORDING : Z := nod_io 5.
Definition NOD_IOCTL_START_RECORDING : Z := nod_io 6.
Definition NOD_IOCTL_RESTORE_SECURITY : Z := nod_io 7.
Definition NOD_IOCTL_RESTORE_CONTEXT : Z := nod_io 8.
Definition NOD_IOCTL_GET_LUA_STATE : Z := 0x80000000 + 264 * 0x10000 + nod_io 9.
Definition NOD_IOCTL_SET_LUA_STATE : Z := 0x40000000 + 264 * 0x10000 + nod_io 10.
Definition NOD_IOCTL_GET_BUFFER_SIZE : Z := nod_io 11.
Definition NOD_IOCTL_SET_BUFFER_SIZE : Z := nod_io 12.
Definition NOD_IOCTL_SET_RECORD_FLAG : Z := nod_io 13.
Definition NOD_IOCTL_GET_RECORD_FLAG : Z := nod_io 14.

Definition LUA_STATE_SIZE : Z := 264.

(** [struct nod_stack_info] from its bytes. *)
Definition stack_of_bytes (bs : list Z) : nod_stack_info :=
  mk_stack (s32 (fld 0 4 bs)) (s32 (fld 4 4 bs)) (s32 (fld 8 4 bs)) (s64 (fld 16 8 bs)) (fld 24 8 bs)
    (fld 32 8 bs) (fld 40 8 bs) (fld 48 8 bs) (fld 56 8 bs) (fld 64 8 bs).

(** [nod_calc_hash]; the two sums are of type [int]. *)
Definition nod_calc_hash (si : nod_stack_info) : Z :=
  Z.lxor (Z.lxor (Z.lxor (Z.lxor (si_fsbase si) (u64 (s32 (si_ioctl_fd si + 42)))) (u64 (s32 (si_pkey si - 42))))
    (si_buffer si)) (si_buffer_info si).

Definition set_info_fd (fd : Z) (si : nod_stack_info) : nod_stack_info :=
  mk_stack fd (si_pkey si) (si_syscall_nr si) (si_exit_code si) (si_fsbase si) (si_hash si)
    (si_stack_start si) (si_stack_end si) (si_buffer si) (si_buffer_info si).

(** [sprintf(kbuf, "%llu", n)], without the terminator; 20 digits are enough for an
    [uint64_t]. *)
Fixpoint dec_digits (fuel : nat) (n : Z) (acc : list Z) : list Z :=
  match fuel with
  | O => acc
  | S fuel => let acc := 48 + n mod 10 :: acc in if n <? 10 then acc else dec_digits fuel (n / 10) acc
  end.

Section device.
Context {K : Kernel} {M_ : Type} `{LoaderOps M_} {P : Type} `{Pkeys P}.
Notation world := (lstate (M_ := M_) (P := P)).

Record device := mk_dev {
  dv_w : world;
  dv_hooks : hooks;
  dv_lua : list Z;             (* g_lua_state *)
  dv_record_flag : Z;          (* g_record_flag *)
  dv_buffer_size : Z           (* nod_buffer_size *)
}.

Definition set_w (w : world) (d : device) : device :=
  mk_dev w (dv_hooks d) (dv_lua d) (dv_record_flag d) (dv_buffer_size d).
Definition set_hooks (h : hooks) (d : device) : device :=
  mk_dev (dv_w d) h (dv_lua d) (dv_record_flag d) (dv_buffer_size d).
Definition dev_ps (d : device) : pstate P := ls_ps (dv_w d).
Definition set_dev_ps (ps : pstate P) (d : device) : device := set_w (set_ps ps (dv_w d)) d.
Definition set_m (m : M_) (w : world) : world := mk_lstate (ls_regs w) (ls_task w) (ls_tsk w) (ls_ps w) m.

(** [nod_dev_open]: [filp->private_data]. *)
Definition nod_dev_open (d : device) : option Z :=
  match (nod_event_from (cur_pid (dv_w d)) (dev_ps d)).2 with
  | Some _ => Some (cur_pid (dv_w d))
  | None => None
  end.

(** [nod_dev_release] *)
Definition nod_dev_release : option Z := None.

(** The entry behind [filp->private_data]: null, or a pointer that may dangle. *)
Definition private (filp : option Z) (d : device) : option (option nod_proc_info) :=
  match filp with
  | None => Some None
  | Some pid => p ← ps_table (dev_ps d) !! pid; Some (Some p)
  end.

(** [copy_to_user] to the current process, the bytes not copied. *)
Definition to_user (addr : Z) (bs : list Z) (d : device) : Z * device :=
  let '(r, m) := lo_copy_to_user addr bs (ls_m (dv_w d)) in (r, set_w (set_m m (dv_w d)) d).

(** [copy_from_user]: the bytes not copied, and what is stored: the rest is
    zeroed. *)
Definition from_user (addr n : Z) : Z * list Z :=
  let '(miss, bs) := nod_copy_from_user (U := k_user) addr n in (miss, bs ++ replicate (Z.to_nat miss) 0).

(** ** Callbacks of [nod_proc_traverse] *)

Definition __proc_buf_reset (p : nod_proc_info) (ra : Z * unit) : option (bool * nod_proc_info * (Z * unit)) :=
  b ← reset_buffer (NOD_INIT_INFO |! NOD_INIT_COUNT) (p_buffer p);
  Some (false, set_buffer b p, ra).

(** [struct buffer_count_info] *)
Record buffer_count_info := mk_count {
  event_count : Z;
  unflushed_count : Z;
  unflushed_len : Z
}.

Definition __proc_bufcount_read (p : nod_proc_info) (ra : Z * buffer_count_info)
    : option (bool * nod_proc_info * (Z * buffer_count_info)) :=
  i ← nb_info (p_buffer p);
  let c := ra.2 in
  Some (false, p, (ra.1, mk_count (u64 (event_count c + nb_event_count (p_buffer p)))
                           (u64 (unflushed_count c + nevents i)) (u64 (unflushed_len c + tail i)))).

(** The state is the pointer, the count and the memory copied to. *)
Definition __proc_buf_copy (len : Z) (p : nod_proc_info) (ra : Z * (Z * Z * M_))
    : option (bool * nod_proc_info * (Z * (Z * Z * M_))) :=
  let '(ptr, count, m) := ra.2 in
  i ← nb_info (p_buffer p);
  if u64 (count + tail i) <=? len then
    buf ← nb_buffer (p_buffer p);
    bs ← zread 0 (tail i) buf;
    let '(r, m) := lo_copy_to_user ptr bs m in
    if ctrue r then Some (true, p, (u64 (- EFAULT), (ptr, count, m)))
    else Some (false, p, (0, (u64 (ptr + tail i), u64 (count + tail i), m)))
  else Some (true, p, (0, (ptr, count, m))).

Definition count_bytes (c : buffer_count_info) : list Z :=
  le_bytes 8 (event_count c) ++ le_bytes 8 (unflushed_count c) ++ le_bytes 8 (unflushed_len c).

(** [nod_dev_read(filp, buf, count, off)]: the result and [*off]. *)
Definition nod_dev_read (buf count off : Z) (d : device) : option (Z * Z * device) :=
  if (0 <? off) || (count <? BUFSIZE) then Some (0, off, d) else
  '(ra, ps) ← nod_proc_traverse __proc_bufcount_read (mk_count 0 0 0) (dev_ps d);
  let d := set_dev_ps ps d in
  let text := dec_digits 20 (event_count ra.2) [] in
  let '(r, d) := to_user buf text d in
  if ctrue r then Some (- EFAULT, off, d) else Some (zlen text, zlen text, d).

(** ** [ioctl] *)

(** [if (copy_to_user(arg, ...)) ret = -EFAULT;] *)
Definition reply (arg : Z) (bs : list Z) (d : device) : Z * device :=
  let '(r, d) := to_user arg bs d in (if ctrue r then - EFAULT else 0, d).

Definition ioctl_clear_buffer (d : device) : option (Z * device) :=
  '(_, ps) ← nod_proc_traverse __proc_buf_reset tt (dev_ps d);
  Some (0, set_dev_ps ps d).

Definition ioctl_fetch_buffer (arg : Z) (d : device) : option (Z * device) :=
  let '(miss, bs) := nod_copy_from_user (U := k_user) arg 16 in
  if ctrue miss then Some (- EFAULT, d) else
  let len := fld 0 8 bs in
  let buf := fld 8 8 bs in
  '(ra, ps) ← nod_proc_traverse (__proc_buf_copy len) (buf, 0, ls_m (dv_w d)) (dev_ps d);
  let '(ret, (ptr, count, m)) := ra in
  let d := set_w (set_m m (set_ps ps (dv_w d))) d in
  let ret := s32 ret in
  if ctrue ret then Some (ret, d) else Some (reply ptr (le_bytes 8 count ++ le_bytes 8 buf) d).

Definition ioctl_read_count (arg : Z) (d : device) : option (Z * device) :=
  '(ra, ps) ← nod_proc_traverse __proc_bufcount_read (mk_count 0 0 0) (dev_ps d);
  Some (reply arg (count_bytes ra.2) (set_dev_ps ps d)).

Definition stat_bytes (s : nod_event_statistic) : list Z :=
  le_bytes 8 (n_evts s) ++ le_bytes 8 (n_drop_evts s) ++ le_bytes 8 (n_drop_evts_unsolved s).

Definition clear_statistics (ps : pstate P) : pstate P := mk_pstate (ps_table ps) (ps_pkeys ps) (mk_stat 0 0 0).

(** [NOD_IOCTL_RESTORE_SECURITY] and [NOD_IOCTL_RESTORE_CONTEXT]. *)
Definition ioctl_restore (context : bool) (filp : option Z) (arg : Z) (d : device) : option (Z * device) :=
  pp ← private filp d;
  match pp, filp with
  | Some p, Some pid =>
      if negb (bool_decide (p_status p = NOD_IN)) || negb (p_pid p =? cur_pid (dv_w d)) then Some (- ENODEV, d) else
      let '(miss, bs) := nod_copy_from_user (U := k_user) arg 72 in
      if ctrue miss then Some (- EFAULT, d) else
      let stack := stack_of_bytes bs in
      if negb (si_hash stack =? nod_calc_hash stack) then Some (- EINVAL, d) else
      let p := set_stack_info stack p in
      let p := (if context then nod_proc_set_context else nod_proc_set_security) (si_ioctl_fd stack) p in
      let p := set_stack_info (set_info_fd (-1) stack) p in
      Some (0, set_dev_ps (set_table <[pid := p]> (dev_ps d)) d)
  | _, _ => Some (- ENODEV, d)
  end.

(** [nod_dev_ioctl(filp, cmd, arg)]; [r1] and [r2] are what registering the probes
    gives. *)
Definition nod_dev_ioctl (r1 r2 : Z) (filp : option Z) (cmd arg : Z) (d : device) : option (Z * device) :=
  if cmd =? NOD_IOCTL_CLEAR_BUFFER then ioctl_clear_buffer d
  else if cmd =? NOD_IOCTL_FETCH_BUFFER then ioctl_fetch_buffer arg d
  else if cmd =? NOD_IOCTL_READ_BUFFER_COUNT_INFO then ioctl_read_count arg d
  else if cmd =? NOD_IOCTL_READ_STATISTICS then Some (reply arg (stat_bytes (ps_stat (dev_ps d))) d)
  else if cmd =? NOD_IOCTL_CLEAR_STATISTICS then Some (0, set_dev_ps (clear_statistics (dev_ps d)) d)
  else if cmd =? NOD_IOCTL_STOP_RECORDING then
    h ← untrace_syscall (dv_hooks d); Some (0, set_hooks h d)
  else if cmd =? NOD_IOCTL_START_RECORDING then
    '(_, h) ← trace_syscall r1 r2 (dv_hooks d); Some (0, set_hooks h d)
  else if cmd =? NOD_IOCTL_RESTORE_SECURITY then ioctl_restore false filp arg d
  else if cmd =? NOD_IOCTL_RESTORE_CONTEXT then ioctl_restore true filp arg d
  else if cmd =? NOD_IOCTL_GET_LUA_STATE then Some (reply arg (dv_lua d) d)
  else if cmd =? NOD_IOCTL_SET_LUA_STATE then
    let '(miss, bs) := from_user arg LUA_STATE_SIZE in
    Some (if ctrue miss then - EFAULT else 0, mk_dev (dv_w d) (dv_hooks d) bs (dv_record_flag d) (dv_buffer_size d))
  else if cmd =? NOD_IOCTL_SET_BUFFER_SIZE then
    let '(ret, size) := nod_event_set_buffer_size arg (dv_buffer_size d) in
    let d := mk_dev (dv_w d) (dv_hooks d) (dv_lua d) (dv_record_flag d) size in
    Some (if ctrue ret then - EINVAL else 0, d)
  else if cmd =? NOD_IOCTL_GET_BUFFER_SIZE then
    let '(ret, size) := nod_event_get_buffer_size false (dv_buffer_size d) in
    size ← size;
    Some (if ctrue ret then (- EINVAL, d) else reply arg (le_bytes 8 size) d)
  else if cmd =? NOD_IOCTL_SET_RECORD_FLAG then
    let '(miss, bs) := from_user arg 4 in
    Some (if ctrue miss then - EFAULT else 0,
          mk_dev (dv_w d) (dv_hooks d) (dv_lua d) (s32 (le_val bs)) (dv_buffer_size d))
  else if cmd =? NOD_IOCTL_GET_RECORD_FLAG then Some (reply arg (le_bytes 4 (dv_record_flag d)) d)
  else Some (- EINVAL, d).

(** ** [mmap] *)

(** What is mapped into the process; [remap_vmalloc_range] returns [r]. *)
Inductive mapped : Set := MapInfo | MapBuffer.

Definition nod_dev_mmap (filp : option Z) (vm_start vm_end vm_pgoff : Z) (vm_write : bool) (r : Z) (d : device)
    : option (Z * option mapped) :=
  pp ← private filp d;
  match pp with
  | Some p =>
      if negb (bool_decide (p_status p = NOD_IN)) then Some (- ENODEV, None) else
      if negb (vm_pgoff =? 0) then Some (- EIO, None) else
      i ← nb_info (p_buffer p);
      let length := vm_end - vm_start in
      if length <=? PAGE_SIZE then Some (if r <? 0 then (r, None) else (0, Some MapInfo))
      else if length =? buffer_size i then
        if vm_write then Some (- EINVAL, None)
        else Some (if r <? 0 then (r, None) else (0, Some MapBuffer))
      else Some (- EIO, None)
  | None => Some (- ENODEV, None)
  end.

(** ** Traversing the table *)

Section fold.
Context {A : Type} (func : nod_proc_info -> Z * A -> option (bool * nod_proc_info * (Z * A))).
Context (f : nod_proc_info -> nod_proc_info) (g : nod_proc_info -> Z * A -> Z * A).

(** A callback that never stops sees every entry once. *)
Lemma traverse_list_map l ra t :
  (forall p ra, p ∈ l.*2 -> func p ra = Some (false, f p, g p ra)) -> NoDup l.*1 ->
  traverse_list func l ra t =
    Some (foldl (fun ra x => g x.2 ra) ra l, list_to_map (prod_map id f <$> l) ∪ t).
Proof.
  intros Hf. revert ra t. induction l as [|[pid p] l IH]; intros ra t Hnd; cbn [traverse_list foldl fmap list_fmap].
  - do 2 f_equal. symmetry. exact (left_id_L ∅ (∪) t).
  - rewrite Hf by (cbn; by left). cbn [mbind option_bind fst snd]. inversion Hnd as [|? ? Hni Hnd']; subst.
    rewrite IH; [|intros; apply Hf; cbn; by right|done]. do 2 f_equal. cbn [list_to_map fst snd foldr].
    rewrite <- insert_union_l, <- insert_union_r; [done|].
    apply not_elem_of_list_to_map_1. by rewrite <- list_fmap_compose.
Qed.

Lemma nod_proc_traverse_map a (s : pstate P) :
  (forall pid p ra, ps_table s !! pid = Some p -> func p ra = Some (false, f p, g p ra)) ->
  nod_proc_traverse func a s =
    Some (foldl (fun ra x => g x.2 ra) (0, a) (map_to_list (ps_table s)), set_table (fun t => f <$> t) s).
Proof.
  intros Hf. unfold nod_proc_traverse. rewrite traverse_list_map; [|intros p ra|apply NoDup_fst_map_to_list].
  - cbn [mbind option_bind]. do 2 f_equal. unfold set_table. f_equal. apply map_eq. intros pid.
    rewrite lookup_union, lookup_fmap.
    assert (list_to_map (prod_map id f <$> map_to_list (ps_table s)) = f <$> ps_table s) as ->.
    { by rewrite list_to_map_fmap, list_to_map_to_list. }
    rewrite lookup_fmap. by destruct (ps_table s !! pid).
  - rewrite list_elem_of_fmap. intros ([pid p'] & -> & Hin). apply elem_of_map_to_list in Hin. by eapply Hf.
Qed.
End fold.
End device.
