(* ===== verification/DeviceProps.v ===== *)
(** * Properties of the control device

    A visit of the monitor from the system call that filled the buffer to the request
    to leave is transparent to the process; the requests check what they are given;
    clearing and fetching reach every buffer; the settings are kept. *)

From S2P Require Import Prelude Kernel Tables Ring RingFacts FillerLib ProcState Events EventCodec.
From S2P Require Import EventsFacts Demo Privil ProcInfo Loader Hooks Trace Device.

Local Open Scope Z_scope.

Section props.
Context {K : Kernel} {M_ : Type} `{LoaderOps M_} {P : Type} `{Pkeys P}.
Context (conf : loader_config) (init_root : Z) (env_area : Z * Z).
Context (strnlen_nonneg : forall a m, 0 <= lo_strnlen_user a m).
Notation world := (lstate (M_ := M_) (P := P)).
Notation dev := (device (M_ := M_) (P := P)).
Notation exit_probe := (syscall_exit_probe conf init_root env_area).

(** ** A visit of the monitor *)

Lemma probe_enters fuel env p w w1 p1 :
  probe conf init_root env_area fuel env p w = Some (Some w1) ->
  ps_table (ls_ps w) !! cur_pid w = Some p -> p_status p <> NOD_IN ->
  ps_table (ls_ps w1) !! cur_pid w = Some p1 -> p_status p1 = NOD_IN -> entered w p1 w1.
Proof.
  unfold probe. intros E Hp Hn Hp1 Hin. destruct (syscall_probe _ _ _ _ _ _ _ _ _) as [[[r w0]|]|] eqn:Er; [|done|done].
  injection E as <-. destruct (probe_keeps conf init_root env_area strnlen_nonneg _ _ _ _ _ _ _ _ Er Hn Hp)
    as (p1' & Hp1' & _ & _ & He).
  assert (p1' = p1) as -> by congruence. by apply He.
Qed.

Lemma acquire_entry status ae (w : world) r w0 :
  acquire status ae w = Some (r, w0) ->
  ls_regs w0 = ls_regs w /\ ls_task w0 = ls_task w /\ ls_tsk w0 = ls_tsk w /\
  match r with
  | Some p => ps_table (ls_ps w0) !! cur_pid w = Some p /\ p_status p = status
  | None => ps_table (ls_ps w0) !! cur_pid w = None
  end.
Proof.
  unfold acquire, nod_proc_acquire, find_proc_info, cur_pid. intros E.
  destruct (ps_table (ls_ps w) !! tk_pid (ls_tsk w)) as [p|] eqn:Ep; cbn [mbind option_bind] in E.
  - injection E as <- <-. cbn. by rewrite lookup_insert_eq.
  - destruct (nod_alloc_procinfo ae) as [[p|]|]; cbn [mbind option_bind] in E; [|by injection E as <- <-|done].
    destruct (nod_init_procinfo _ _ _) as [p' k]. injection E as <- <-. cbn. by rewrite lookup_insert_eq.
Qed.

Lemma exit_probe_out_enters fuel env ae evt w w1 p1 :
  exit_probe_out conf init_root env_area fuel env ae evt (ps_table (ls_ps w) !! cur_pid w) w = Some (Some w1) ->
  (forall p, ps_table (ls_ps w) !! cur_pid w = Some p -> p_status p = evt) -> evt <> NOD_IN ->
  ps_table (ls_ps w1) !! cur_pid w = Some p1 -> p_status p1 = NOD_IN -> saved_by (ls_regs w) (ls_task w) p1.
Proof.
  unfold exit_probe_out. cbv zeta. intros E Hevt Hn Hp1 Hin. destruct (_ && _).
  { destruct (acquire _ ae w) as [[r w0]|] eqn:Ea; [|done]. injection E as <-.
    apply acquire_entry in Ea as (_ & _ & _ & Hr). destruct r as [p|]; [|congruence].
    destruct Hr as [Hr Hst]. assert (p = p1) as -> by congruence. by destruct (has _ _); congruence. }
  destruct (ps_table (ls_ps w) !! cur_pid w) as [p|] eqn:Ep.
  - specialize (Hevt p eq_refl). destruct (_ || _).
    + destruct (nod_init_procinfo _ _ _) as [p' k] eqn:Ei.
      assert (p_status p' = p_status p) as Es.
      { unfold nod_init_procinfo in Ei. destruct (mm_pkey_alloc _ _). by injection Ei as <- _. }
      eapply (probe_enters _ _ _ _ w1 p1) in E; [by destruct E| |congruence|exact Hp1|done].
      cbn. by rewrite lookup_insert_eq.
    + eapply (probe_enters _ _ _ _ w1 p1) in E; [by destruct E|done|congruence|done|done].
  - destruct (acquire evt ae w) as [[[p|] w0]|] eqn:Ea; [| |done]; apply acquire_entry in Ea as (Er & Et & Ek & Hr).
    + destruct Hr as [Hr Hst]. assert (cur_pid w0 = cur_pid w) as Ec by (unfold cur_pid; by rewrite Ek).
      eapply (probe_enters _ _ _ _ w1 p1) in E; [destruct E; congruence|by rewrite Ec|congruence|by rewrite Ec|done].
    + injection E as <-. congruence.
Qed.

(** A process that is in the monitor after the probe was put there by it. *)
Lemma exit_probe_enters fuel env ae w w1 p1 :
  exit_probe fuel env ae false 1000 w = Some (Some w1) ->
  (nod_event_from (cur_pid w) (ls_ps w)).1 <> NOD_IN ->
  ps_table (ls_ps w1) !! cur_pid w = Some p1 -> p_status p1 = NOD_IN -> saved_by (ls_regs w) (ls_task w) p1.
Proof.
  unfold syscall_exit_probe. cbn [traced negb andb Z.eqb Pos.eqb]. unfold nod_event_from, find_proc_info. cbn [fst].
  intros E Hn Hp1 Hin. destruct (ps_table (ls_ps w) !! cur_pid w) as [p|] eqn:Ep.
  2:{ eapply exit_probe_out_enters; [rewrite Ep; exact E|by rewrite Ep|done|done|done]. }
  destruct (p_status p) eqn:Es; try done;
    try (eapply exit_probe_out_enters; [rewrite Ep; exact E| |done|done|done]; rewrite Ep; by intros ? [= <-]).
  - exfalso. injection E as <-. congruence.
  - exfalso. destruct (nod_restore_security _ _) as [p2 t2]. destruct (nod_restore_context _ _ _) as [[p3 r3] t3].
    injection E as <-. cbn in Hp1. rewrite lookup_insert_eq in Hp1. by injection Hp1 as <-.
  - exfalso. pose proof (restore_security_status p (ls_task w)) as Hst.
    destruct (nod_restore_security _ _) as [p2 t2]. cbn [fst] in Hst.
    injection E as <-. cbn in Hp1. rewrite lookup_insert_eq in Hp1. injection Hp1 as <-. congruence.
Qed.

(** What a granted request to leave the monitor does. *)
Lemma ioctl_restore_granted context filp arg (d d' : dev) :
  ioctl_restore context filp arg d = Some (0, d') ->
  exists pid p bs, filp = Some pid /\ ps_table (dev_ps d) !! pid = Some p /\ p_status p = NOD_IN /\
    p_pid p = cur_pid (dv_w d) /\ nod_copy_from_user arg 72 = (0, bs) /\
    si_hash (stack_of_bytes bs) = nod_calc_hash (stack_of_bytes bs) /\
    let p' := set_stack_info (set_info_fd (-1) (stack_of_bytes bs))
      (nod_proc_set_status (if context then NOD_RESTORE_CONTEXT else NOD_RESTORE_SECURITY)
         (si_ioctl_fd (stack_of_bytes bs)) (set_stack_info (stack_of_bytes bs) p)) in
    d' = set_dev_ps (set_table <[pid := p']> (dev_ps d)) d.
Proof.
  unfold ioctl_restore, private. intros E. destruct filp as [pid|]; [|done].
  destruct (ps_table (dev_ps d) !! pid) as [p|] eqn:Ep; cbn [mbind option_bind] in E; [|done].
  destruct (bool_decide_reflect (p_status p = NOD_IN)) as [Hin|]; [|done]. cbn [negb orb] in E.
  destruct (Z.eqb_spec (p_pid p) (cur_pid (dv_w d))) as [Hpid|]; [|done]. cbn [negb] in E.
  destruct (nod_copy_from_user arg 72) as [miss bs] eqn:Ec. unfold ctrue in E.
  destruct (Z.eqb_spec miss 0) as [->|]; [|done]. cbn [negb] in E.
  destruct (Z.eqb_spec (si_hash (stack_of_bytes bs)) (nod_calc_hash (stack_of_bytes bs))) as [Hh|]; [|done].
  cbn [negb] in E. injection E as <-. exists pid, p, bs. do 6 (split; [done|]). by destruct context.
Qed.

(** The probe behind a granted request to leave gives back what was saved, and changes nothing but the current
    process's entry. *)
Lemma probe_restores fuel env ae regs t (w : world) p :
  ps_table (ls_ps w) !! cur_pid w = Some p -> p_status p = NOD_RESTORE_CONTEXT -> saved_by regs t p -> seccomp_ok (k_seccomp t) ->
  exists w4 p4, exit_probe fuel env ae false 1000 w = Some (Some w4) /\
    ls_regs w4 = regs /\ settings_of (ls_task w4) = settings_of t /\ k_fsbase (ls_task w4) = k_fsbase t /\ k_gsbase (ls_task w4) = k_gsbase t /\
    ls_ps w4 = set_table <[cur_pid w := p4]> (ls_ps w) /\ ls_tsk w4 = ls_tsk w /\
    p_status p4 = NOD_OUT /\ p_buffer p4 = p_buffer p /\ p_pid p4 = p_pid p /\ p_stack_info p4 = p_stack_info p.
Proof.
  intros Hp Hst Hs Hsec. unfold syscall_exit_probe. cbn [traced negb andb Z.eqb Pos.eqb]. unfold nod_event_from, find_proc_info. rewrite Hp, Hst.
  pose proof (restore_returns regs t p (ls_regs w) (ls_task w) Hsec Hs) as HR.
  destruct (nod_restore_security p _) as [p5 t5]. destruct (nod_restore_context p5 _ _) as [[p6 regs6] t6].
  destruct HR as ((-> & Hset & Hf & Hg) & Hb & Hpid & Hi).
  eexists _, _. split; [reflexivity|]. do 4 (split; [done|]). split; [reflexivity|]. split; [done|]. split; [done|]. by split_and!.
Qed.

(** C9: A visit of the monitor is transparent to the process.  If the probe behind a
    system call of a traced process left it in the monitor, then the monitor may
    change registers and settings and fill in its information block as it likes;
    when it asks to leave with [NOD_IOCTL_RESTORE_CONTEXT] and the request is
    granted, the probe behind that [ioctl] gives the process the registers, the
    segment bases and the settings it had before, and its status is [NOD_OUT]
    again, ready to be recorded. *)
Theorem visit_transparent fuel env ae (w w1 : world) p1 filp arg (d2 d3 : dev) p2 fuel4 env4 ae4 :
  exit_probe fuel env ae false 1000 w = Some (Some w1) ->
  (nod_event_from (cur_pid w) (ls_ps w)).1 <> NOD_IN ->
  ps_table (ls_ps w1) !! cur_pid w = Some p1 -> p_status p1 = NOD_IN -> seccomp_ok (k_seccomp (ls_task w)) ->
  filp = Some (cur_pid (dv_w d2)) -> ps_table (dev_ps d2) !! cur_pid (dv_w d2) = Some p2 ->
  p_ctx p2 = p_ctx p1 -> p_sec p2 = p_sec p1 ->
  ioctl_restore true filp arg d2 = Some (0, d3) ->
  exists w4 p4, exit_probe fuel4 env4 ae4 false 1000 (dv_w d3) = Some (Some w4) /\
    ls_regs w4 = ls_regs w /\ settings_of (ls_task w4) = settings_of (ls_task w) /\
    k_fsbase (ls_task w4) = k_fsbase (ls_task w) /\ k_gsbase (ls_task w4) = k_gsbase (ls_task w) /\
    ps_table (ls_ps w4) !! cur_pid (dv_w d2) = Some p4 /\ p_status p4 = NOD_OUT /\ p_buffer p4 = p_buffer p2.
Proof.
  intros E Hn Hp1 Hin Hsec -> Hp2 Hc Hs Eio.
  destruct (exit_probe_enters _ _ _ _ _ _ E Hn Hp1 Hin) as [Sc Ss].
  apply ioctl_restore_granted in Eio as (pid & p & bs & [= <-] & Hp & _ & _ & _ & _ & ->).
  assert (p = p2) as -> by congruence.
  set (p3 := set_stack_info _ _). set (w3 := dv_w (set_dev_ps _ d2)).
  destruct (probe_restores fuel4 env4 ae4 (ls_regs w) (ls_task w) w3 p3) as (w4 & p4 & E4 & Er & Eset & Ef & Eg & Eps & _ & Est & Eb & _);
    [apply lookup_insert_eq|done|unfold saved_by, p3; cbn; by rewrite Hc, Hs|exact Hsec|].
  exists w4, p4. split; [exact E4|]. rewrite Eps. split_and!; try done. apply lookup_insert_eq.
Qed.

(** ** Requests *)

(** C24: A request to leave the monitor is granted only to the process that is inside
    its own monitor and whose information block has a matching hash.  Then the
    block is taken over and the status set, and the saved context, the saved
    settings, the buffer and all other entries are untouched; in every other case
    nothing changes and the result says why. *)
Theorem restore_request_checked r1 r2 (context : bool) filp arg (d d' : dev) ret :
  table_wf (dev_ps d) ->
  nod_dev_ioctl r1 r2 filp (if context then NOD_IOCTL_RESTORE_CONTEXT else NOD_IOCTL_RESTORE_SECURITY) arg d = Some (ret, d') ->
  (ret = 0 /\ exists p p' bs, filp = Some (cur_pid (dv_w d)) /\ p_pid p = cur_pid (dv_w d) /\
     ps_table (dev_ps d) !! cur_pid (dv_w d) = Some p /\ p_status p = NOD_IN /\
     nod_copy_from_user arg 72 = (0, bs) /\ si_hash (stack_of_bytes bs) = nod_calc_hash (stack_of_bytes bs) /\
     d' = set_dev_ps (set_table <[cur_pid (dv_w d) := p']> (dev_ps d)) d /\
     p_status p' = (if context then NOD_RESTORE_CONTEXT else NOD_RESTORE_SECURITY) /\
     p_ioctl_fd p' = si_ioctl_fd (stack_of_bytes bs) /\ p_stack_info p' = set_info_fd (-1) (stack_of_bytes bs) /\
     p_buffer p' = p_buffer p /\ p_ctx p' = p_ctx p /\ p_sec p' = p_sec p) \/
  (ret <> 0 /\ d' = d /\ (ret = - ENODEV \/ ret = - EFAULT \/ ret = - EINVAL)).
Proof.
  assert (nod_dev_ioctl r1 r2 filp (if context then NOD_IOCTL_RESTORE_CONTEXT else NOD_IOCTL_RESTORE_SECURITY) arg d =
    ioctl_restore context filp arg d) as -> by (by destruct context).
  intros Hwf E. destruct (Z.eq_dec ret 0) as [->|Hne].
  - apply ioctl_restore_granted in E as (pid & p & bs & -> & Hp & Hin & Hpid & Hc & Hh & ->).
    destruct (Hwf _ _ Hp) as [Hkey _]. assert (pid = cur_pid (dv_w d)) as -> by congruence.
    left. split; [done|]. eexists p, _, bs. do 6 (split; [done|]). split; [reflexivity|]. by destruct context.
  - right. split; [done|]. revert E. unfold ioctl_restore, private. destruct filp as [pid|]; cbn [mbind option_bind].
    + destruct (ps_table (dev_ps d) !! pid) as [p|]; cbn [mbind option_bind]; [|done].
      destruct (_ || _); [intros [= <- <-]; auto|]. destruct (nod_copy_from_user arg 72) as [miss bs].
      destruct (ctrue miss); [intros [= <- <-]; auto|]. destruct (negb _); [intros [= <- <-]; auto|].
      intros [= <- <-]. congruence.
    + intros [= <- <-]. auto.
Qed.

(** ** Clearing and fetching the buffers *)

Lemma reset_proc p q : proc_queue p q ->
  exists b, reset_buffer (NOD_INIT_INFO |! NOD_INIT_COUNT) (p_buffer p) = Some b /\
    proc_queue (set_buffer b p) ([], None) /\ capacity (set_buffer b p) = capacity p.
Proof.
  unfold proc_queue, capacity. intros (str & r & Eo & Hstr & [[[Hl Hsz Hov] _ _ _ _ _] _]).
  unfold reset_buffer. change (ctrue (Z.land (NOD_INIT_INFO |! NOD_INIT_COUNT) NOD_INIT_INFO)) with true.
  change (ctrue (Z.land (NOD_INIT_INFO |! NOD_INIT_COUNT) NOD_INIT_COUNT)) with true. cbv iota.
  unfold open_buffer in *. destruct (p_buffer p) as [[buf|] [s|] [inf|] cnt [ov|] fl]; try done.
  injection Eo as <- <-. cbn in *. eexists. split; [reflexivity|]. split; [|done]. eexists _, _. split; [reflexivity|].
  split; [done|]. split; [|done]. constructor; cbn; try done. unfold PAGE_SIZE in *. lia.
Qed.

(** Clearing reaches every buffer.  After [NOD_IOCTL_CLEAR_BUFFER] each traced
    process has an empty queue, its overflow page included, of the same capacity;
    nothing else of any process changes and the table stays well formed. *)
Theorem clear_buffers_empties r1 r2 filp arg (d : dev) : table_wf (dev_ps d) ->
  exists d', nod_dev_ioctl r1 r2 filp NOD_IOCTL_CLEAR_BUFFER arg d = Some (0, d') /\ table_wf (dev_ps d') /\
    forall pid, match ps_table (dev_ps d) !! pid with
      | Some p => exists b, ps_table (dev_ps d') !! pid = Some (set_buffer b p) /\
          proc_queue (set_buffer b p) ([], None) /\ capacity (set_buffer b p) = capacity p
      | None => ps_table (dev_ps d') !! pid = None
      end.
Proof.
  intros Hwf. change (nod_dev_ioctl r1 r2 filp NOD_IOCTL_CLEAR_BUFFER arg d) with (ioctl_clear_buffer d).
  set (f := fun p => set_buffer (default (p_buffer p) (reset_buffer (NOD_INIT_INFO |! NOD_INIT_COUNT) (p_buffer p))) p).
  unfold ioctl_clear_buffer. rewrite (nod_proc_traverse_map _ f (fun _ ra => ra)).
  2:{ intros pid p ra Hp. destruct (Hwf _ _ Hp) as [_ [q Hq]]. destruct (reset_proc p q Hq) as (b & E & _).
      unfold __proc_buf_reset, f. by rewrite E. }
  cbn [mbind option_bind]. eexists. split; [reflexivity|].
  assert (forall pid p, ps_table (dev_ps d) !! pid = Some p -> exists b, f p = set_buffer b p /\
    proc_queue (f p) ([], None) /\ capacity (f p) = capacity p) as Hf.
  { intros pid p Hp. destruct (Hwf _ _ Hp) as [_ [q Hq]]. destruct (reset_proc p q Hq) as (b & E & Hb).
    exists b. unfold f. rewrite E. done. }
  cbn [dev_ps set_dev_ps set_w dv_w set_ps ls_ps set_table ps_table]. split.
  - intros pid p'. cbn [ps_table set_table dev_ps set_dev_ps set_w dv_w set_ps ls_ps]. rewrite lookup_fmap, fmap_Some. intros (p & Hp & ->).
    destruct (Hf pid p Hp) as (b & Eb & Hq & _). split; [by rewrite Eb; apply (Hwf _ _ Hp)|by exists ([], None)].
  - intros pid. rewrite lookup_fmap. fold (dev_ps d). destruct (ps_table (dev_ps d) !! pid) as [p|] eqn:Hp; [|done].
    destruct (Hf pid p Hp) as (b & Eb & Hq). exists b. by rewrite <- Eb.
Qed.

(** The bytes [NOD_IOCTL_FETCH_BUFFER] copies for a process. *)
Definition fetched (p : nod_proc_info) : list Z :=
  match nb_info (p_buffer p), nb_buffer (p_buffer p) with
  | Some i, Some buf => ztake (tail i) buf
  | _, _ => []
  end.

Definition total (l : list (Z * nod_proc_info)) : Z := foldr (fun x n => zlen (fetched x.2) + n) 0 l.

Section fetch.
(** A copy to user memory that succeeds. *)
Context (store : Z -> list Z -> M_ -> M_) (copies : forall a bs m, lo_copy_to_user a bs m = (0, store a bs m)).

Fixpoint store_all (l : list (Z * nod_proc_info)) (ptr : Z) (m : M_) : M_ :=
  match l with
  | [] => m
  | (_, p) :: l => store_all l (ptr + zlen (fetched p)) (store ptr (fetched p) m)
  end.

Lemma fetched_bound p q : proc_queue p q -> zlen (fetched p) < 2 ^ 32.
Proof.
  intros (str & r & Eo & _ & [[[Hl Hsz _] Ht Hcap _ _ _] _]). unfold fetched. unfold open_buffer in Eo.
  destruct (p_buffer p) as [[buf|] [s|] [inf|] cnt [ov|] fl]; try done. injection Eo as <- <-.
  cbn [nb_info nb_buffer rb_info rb_buffer] in *. pose proof (zlen_nonneg (encode_all q.1)). rewrite zlen_ztake; lia.
Qed.

Lemma total_nonneg l : 0 <= total l.
Proof. induction l as [|[pid p] l IH]; [done|]. change (total ((pid, p) :: l)) with (zlen (fetched p) + total l). pose proof (zlen_nonneg (fetched p)). lia. Qed.

(** One entry: its events are copied whole. *)
Lemma buf_copy_entry len p q ret ptr count m :
  proc_queue p q -> 0 <= count -> count + zlen (fetched p) <= len -> len < 2 ^ 64 ->
  0 <= ptr -> ptr + zlen (fetched p) < 2 ^ 64 ->
  fetched p = encode_all q.1 /\
  __proc_buf_copy len p (ret, (ptr, count, m)) =
    Some (false, p, (0, (ptr + zlen (fetched p), count + zlen (fetched p), store ptr (fetched p) m))).
Proof.
  intros (str & r & Eo & _ & [[[Hl Hsz _] Ht Hcap Hd _ _] _]) H0c Hlen Hmax H0p Hptr.
  unfold fetched, __proc_buf_copy in *. unfold open_buffer in Eo.
  destruct (p_buffer p) as [[buf|] [s|] [inf|] cnt [ov|] fl]; try done. injection Eo as <- <-.
  cbn [nb_info nb_buffer rb_info rb_buffer] in *. pose proof (zlen_nonneg (encode_all q.1)).
  assert (zlen (ztake (tail inf) buf) = tail inf) as Ez by (rewrite zlen_ztake; lia). rewrite Ez in *.
  split; [done|]. cbn [snd mbind option_bind]. unfold u64 at 1. rewrite unsigned_small, (proj2 (Z.leb_le _ _)) by lia.
  rewrite zread_Some by lia. cbn [mbind option_bind]. unfold zslice. rewrite zdrop_0, copies. cbn [ctrue negb Z.eqb].
  unfold u64. by rewrite !unsigned_small by lia.
Qed.

Lemma fetch_list len l ret ptr count m t :
  Forall (fun x => t !! x.1 = Some x.2 /\ exists q, proc_queue x.2 q) l ->
  0 <= count -> count + total l <= len -> len < 2 ^ 64 -> 0 <= ptr -> ptr + total l < 2 ^ 64 ->
  exists ret', (l = [] -> ret' = ret) /\ (l <> [] -> ret' = 0) /\
  traverse_list (__proc_buf_copy len) l (ret, (ptr, count, m)) t =
    Some ((ret', (ptr + total l, count + total l, store_all l ptr m)), t).
Proof.
  revert ret ptr count m. induction l as [|[pid p] l IH]; intros ret ptr count m Hl H0c Hc Hmax H0p Hp; cbn [total foldr] in *.
  { exists ret. split; [done|]. split; [done|]. cbn. by rewrite !Z.add_0_r. }
  fold (total l) in *. pose proof (total_nonneg l). pose proof (zlen_nonneg (fetched p)). cbn [snd] in *.
  apply Forall_cons_1 in Hl as [[Ht [q Hq]] Hl]. cbn [fst snd] in Ht, Hq.
  destruct (buf_copy_entry len p q ret ptr count m Hq) as [_ E]; [lia..|].
  cbn [traverse_list store_all]. rewrite E. cbn [mbind option_bind]. rewrite insert_id by done.
  destruct (IH 0 (ptr + zlen (fetched p)) (count + zlen (fetched p)) (store ptr (fetched p) m) Hl)
    as (ret' & Hr1 & Hr2 & ->); [lia..|].
  exists 0. split; [done|]. split; [done|]. destruct l as [|x l']; [rewrite Hr1 by done|rewrite Hr2 by done];
    do 4 f_equal; f_equal; lia.
Qed.

(** Fetching copies every event of every process.  When the user's buffer is long
    enough, [NOD_IOCTL_FETCH_BUFFER] stores the encodings of the events of all
    processes one after the other, leaves all buffers as they are, and returns 0.
    The reply with the number of bytes, however, is stored behind the events and
    not at [arg]: 16 bytes of the user's memory behind the copied events are
    overwritten and the length the caller passed is not updated. *)
Theorem fetch_copies_events r1 r2 filp arg (d : dev) len buf bs :
  table_wf (dev_ps d) -> nod_copy_from_user arg 16 = (0, bs) -> fld 0 8 bs = len -> fld 8 8 bs = buf ->
  let l := map_to_list (ps_table (dev_ps d)) in
  total l <= len -> len < 2 ^ 64 -> 0 <= buf -> buf + total l < 2 ^ 64 ->
  (forall pid p, ps_table (dev_ps d) !! pid = Some p -> exists q, proc_queue p q /\ fetched p = encode_all q.1) /\
  exists d', nod_dev_ioctl r1 r2 filp NOD_IOCTL_FETCH_BUFFER arg d = Some (0, d') /\
    ps_table (dev_ps d') = ps_table (dev_ps d) /\
    ls_m (dv_w d') = store (buf + total l) (le_bytes 8 (total l) ++ le_bytes 8 buf) (store_all l buf (ls_m (dv_w d))).
Proof.
  intros Hwf Hcp Hlen Hbuf l Ht Hmax Hb0 Hb. pose proof (total_nonneg l).
  assert (Forall (fun x => ps_table (dev_ps d) !! x.1 = Some x.2 /\ exists q, proc_queue x.2 q) l) as Hl.
  { apply List.Forall_forall. intros [pid p] Hin. apply list_elem_of_In, elem_of_map_to_list in Hin.
    split; [done|]. apply (Hwf _ _ Hin). }
  split.
  { intros pid p Hp. destruct (Hwf _ _ Hp) as [_ [q Hq]]. exists q. split; [done|].
    destruct (buf_copy_entry (zlen (fetched p)) p q 0 0 0 (ls_m (dv_w d)) Hq) as [E _]; try done;
      pose proof (zlen_nonneg (fetched p)); pose proof (fetched_bound p q Hq); lia. }
  change (nod_dev_ioctl r1 r2 filp NOD_IOCTL_FETCH_BUFFER arg d) with (ioctl_fetch_buffer arg d).
  unfold ioctl_fetch_buffer, nod_proc_traverse. rewrite Hcp. cbn [ctrue negb Z.eqb]. rewrite Hlen, Hbuf. fold l.
  destruct (fetch_list len l 0 buf 0 (ls_m (dv_w d)) (ps_table (dev_ps d)) Hl) as (ret & Hr1 & Hr2 & ->); [lia..|].
  assert (ret = 0) as -> by (destruct l; [by apply Hr1|by apply Hr2]).
  cbn [mbind option_bind]. change (s32 0) with 0. cbn [ctrue negb Z.eqb]. unfold reply, to_user.
  rewrite copies, Z.add_0_l. cbn [ctrue negb Z.eqb]. eexists. split; [reflexivity|]. done.
Qed.
End fetch.

(** ** Mapping and settings *)

(** Only a process inside its monitor can map its own buffer, and not for writing.
    A mapping of the events exists only for a file that was opened by a traced
    process whose status is [NOD_IN], of exactly the size of its buffer, and without
    [VM_WRITE]; the information block is mapped for lengths of at most a page. *)
Theorem mmap_restricted filp vm_start vm_end vm_pgoff vm_write r (d : dev) ret m :
  nod_dev_mmap filp vm_start vm_end vm_pgoff vm_write r d = Some (ret, Some m) ->
  ret = 0 /\ vm_pgoff = 0 /\ exists pid p i, filp = Some pid /\ ps_table (dev_ps d) !! pid = Some p /\
    p_status p = NOD_IN /\ nb_info (p_buffer p) = Some i /\
    match m with
    | MapInfo => vm_end - vm_start <= PAGE_SIZE
    | MapBuffer => vm_end - vm_start = buffer_size i /\ PAGE_SIZE < buffer_size i /\ vm_write = false
    end.
Proof.
  unfold nod_dev_mmap, private. destruct filp as [pid|]; cbn [mbind option_bind]; [|done].
  destruct (ps_table (dev_ps d) !! pid) as [p|] eqn:Ep; cbn [mbind option_bind]; [|done].
  destruct (bool_decide_reflect (p_status p = NOD_IN)) as [Hin|]; cbn [negb]; [|done].
  destruct (Z.eqb_spec vm_pgoff 0) as [->|]; cbn [negb]; [|done].
  destruct (nb_info (p_buffer p)) as [i|] eqn:Ei; cbn [mbind option_bind]; [|done].
  destruct (Z.leb_spec (vm_end - vm_start) PAGE_SIZE); [|destruct (Z.eqb_spec (vm_end - vm_start) (buffer_size i)); [|done]].
  - destruct (r <? 0); [done|]. intros [= <- <-]. split; [done|]. split; [done|]. by exists pid, p, i.
  - destruct vm_write; [done|]. destruct (r <? 0); [done|]. intros [= <- <-]. split; [done|]. split; [done|].
    exists pid, p, i. do 4 (split; [done|]). split; [done|]. split; [lia|done].
Qed.

(** A buffer of one page cannot be mapped.  [nod_event_set_buffer_size] accepts
    [PAGE_SIZE], but for such a buffer [nod_dev_mmap] never maps the events: a
    mapping of its size is at most a page long and gets the information block,
    which the monitor then reads as events. *)
Theorem single_page_buffer_not_mapped filp vm_start vm_end vm_pgoff vm_write r (d : dev) pid p i :
  filp = Some pid -> ps_table (dev_ps d) !! pid = Some p -> p_status p = NOD_IN -> nb_info (p_buffer p) = Some i ->
  nod_event_set_buffer_size (buffer_size i) 0 = (0, buffer_size i) -> buffer_size i = PAGE_SIZE ->
  vm_pgoff = 0 -> vm_end - vm_start = buffer_size i -> 0 <= r ->
  nod_dev_mmap filp vm_start vm_end vm_pgoff vm_write r d = Some (0, Some MapInfo).
Proof.
  intros -> Hp Hin Hi _ Hs -> Hl Hr. unfold nod_dev_mmap, private. rewrite Hp. cbn [mbind option_bind].
  rewrite bool_decide_true by done. cbn [negb Z.eqb]. rewrite Hi. cbn [mbind option_bind].
  rewrite (proj2 (Z.leb_le _ _)) by lia. by rewrite (proj2 (Z.ltb_ge _ _)).
Qed.
End props.

(** ** The properties at work *)

(** A process in the monitor, and user memory that holds its information block with a
    matching hash. *)
Definition in_entry : nod_proc_info := nod_proc_set_in demo_entry.
Definition in_pstate : pstate Z := mk_pstate {[100 := in_entry]} 1 demo_stat.

Definition demo_dev (ps : pstate Z) : device (M_ := unit) (P := Z) :=
  mk_dev (demo_world 16 0 ps) demo_hooks (replicate 264 0) 0 4096.

Lemma in_table_ok : table_wf in_pstate.
Proof.
  intros pid p. cbn [ps_table in_pstate]. rewrite lookup_singleton_Some. intros [<- <-]. split; [done|].
  exists ([], None). eapply proc_queue_buffer; [|exact demo_entry_queue]. done.
Qed.

(** A block with all fields 0 but the hash. *)
Definition block_bytes : list Z :=
  stack_bytes (mk_stack 0 0 0 0 0 (nod_calc_hash zero_stack) 0 0 0 0).

Definition block_call : Kernel := demo_kernel (flat_mem 4096 block_bytes) [0; 0; 0; 0; 0; 0] 0.

Lemma restore_request_checked_witness :
  exists p', @nod_dev_ioctl block_call unit (demo_ops 0) Z 0 0 (Some 100) NOD_IOCTL_RESTORE_CONTEXT 4096
    (demo_dev in_pstate) = Some (0, set_dev_ps (set_table <[100 := p']> in_pstate) (demo_dev in_pstate)) /\
    p_status p' = NOD_RESTORE_CONTEXT.
Proof.
  destruct (@nod_dev_ioctl block_call unit (demo_ops 0) Z 0 0 (Some 100) NOD_IOCTL_RESTORE_CONTEXT 4096
    (demo_dev in_pstate)) as [[ret d']|] eqn:E; [|by vm_compute in E].
  assert (ret = 0) as -> by (by vm_compute in E; injection E).
  destruct (@restore_request_checked block_call unit (demo_ops 0) Z 0 0 true (Some 100) 4096
    (demo_dev in_pstate) d' 0 in_table_ok E) as [(_ & p & p' & bs & _ & _ & _ & _ & _ & _ & -> & Hst & _)|[Hne _]];
    [|exact (False_ind _ (Hne eq_refl))].
  exists p'. split; [exact eq_refl|exact Hst].
Defined.

Lemma clear_buffers_empties_witness :
  exists d' b, @nod_dev_ioctl block_call unit (demo_ops 0) Z 0 0 None NOD_IOCTL_CLEAR_BUFFER 0 (demo_dev in_pstate) =
    Some (0, d') /\ ps_table (dev_ps d') !! 100 = Some (set_buffer b in_entry) /\
    proc_queue (set_buffer b in_entry) ([], None).
Proof.
  destruct (@clear_buffers_empties block_call unit (demo_ops 0) Z 0 0 None 0 (demo_dev in_pstate) in_table_ok)
    as (d' & E & _ & Hd). specialize (Hd 100). cbn [dev_ps demo_dev dv_w demo_world ls_ps in_pstate ps_table] in Hd.
  rewrite lookup_singleton_eq in Hd. destruct Hd as (b & Hb & Hq & _). by exists d', b.
Defined.

(** A machine that logs what is copied to user memory. *)
Definition log_ops : LoaderOps (list (Z * list Z)) := {|
  lo_load_binary _ m := (65536, m);
  lo_vm_mmap _ _ _ m := (1048576, m);
  lo_vm_munmap _ _ m := m;
  lo_copy_to_user a bs m := (0, m ++ [(a, bs)]);
  lo_strnlen_user _ _ := 1;
  lo_random m := (replicate 16 0, m);
  lo_vmalloc m := (true, m)
|}.

(** The memory of a caller with a buffer of 4096 bytes at address 8192. *)
Definition fetch_call : Kernel := demo_kernel (flat_mem 4096 (le_bytes 8 4096 ++ le_bytes 8 8192)) [0; 0; 0; 0; 0; 0] 0.

Definition log_dev : device (M_ := list (Z * list Z)) (P := Z) :=
  mk_dev (mk_lstate (call_regs 16 0) demo_ktask demo_tsk demo_pstate1 []) demo_hooks (replicate 264 0) 0 4096.

Lemma fetch_copies_events_witness :
  exists d', @nod_dev_ioctl fetch_call _ log_ops Z 0 0 None NOD_IOCTL_FETCH_BUFFER 4096 log_dev = Some (0, d') /\
    ls_m (dv_w d') = [(8192, []); (8192, le_bytes 8 0 ++ le_bytes 8 8192)].
Proof.
  destruct (@fetch_copies_events fetch_call _ log_ops Z (fun a bs m => m ++ [(a, bs)]) ltac:(reflexivity) 0 0 None 4096
    log_dev 4096 8192 (le_bytes 8 4096 ++ le_bytes 8 8192) demo_table_wf1) as (_ & d' & E & _ & Hm); try (by vm_compute).
  exists d'. split; [exact E|]. rewrite Hm. by vm_compute.
Defined.

Lemma single_page_buffer_not_mapped_witness :
  @nod_dev_mmap unit Z (Some 100) 8192 12288 0 false 0 (demo_dev in_pstate) = Some (0, Some MapInfo).
Proof.
  apply (@single_page_buffer_not_mapped unit Z (Some 100) 8192 12288 0 false 0 (demo_dev in_pstate) 100 in_entry
    (mk_info 0 0 0 4096)); try reflexivity.
Defined.

(** A process with a buffer of two pages. *)
Definition big_entry : nod_proc_info := set_buffer (demo_buffer 8192) in_entry.

Lemma mmap_restricted_witness :
  let d := demo_dev (mk_pstate {[100 := big_entry]} 1 demo_stat) in
  @nod_dev_mmap unit Z (Some 100) 8192 16384 0 false 0 d = Some (0, Some MapBuffer) /\
  exists p i, ps_table (dev_ps d) !! 100 = Some p /\ p_status p = NOD_IN /\ nb_info (p_buffer p) = Some i /\
    buffer_size i = 8192.
Proof.
  intros d. assert (@nod_dev_mmap unit Z (Some 100) 8192 16384 0 false 0 d = Some (0, Some MapBuffer)) as E by (by vm_compute).
  split; [exact E|].
  destruct (@mmap_restricted unit Z (Some 100) 8192 16384 0 false 0 d 0 MapBuffer E)
    as (_ & _ & pid & p & i & [= <-] & Hp & Hst & Hi & Hsz & _). exists p, i. by rewrite <- Hsz.
Defined.

Lemma visit_transparent_witness :
  let probe := @syscall_exit_probe block_call unit (demo_ops 0) Z demo_pkeys demo_conf 60 (0, 0) 1 demo_env demo_aenv
    false 1000 in
  let w := demo_world 3 0 demo_pstate1 in
  exists w1 d3 w4, probe w = Some (Some w1) /\ r_ip (ls_regs w1) = 65552 /\
    @ioctl_restore block_call unit Z true (Some 100) 4096 (demo_dev (ls_ps w1)) = Some (0, d3) /\
    probe (dv_w d3) = Some (Some w4) /\ ls_regs w4 = call_regs 3 0 /\ settings_of (ls_task w4) = settings_of demo_ktask.
Proof.
  intros probe w.
  assert (match probe w with
    | Some (Some w1) =>
        match ps_table (ls_ps w1) !! 100, @ioctl_restore block_call unit Z true (Some 100) 4096 (demo_dev (ls_ps w1)) with
        | Some p1, Some (0, _) => bool_decide (p_status p1 = NOD_IN) && (r_ip (ls_regs w1) =? 65552)
        | _, _ => false
        end
    | _ => false end = true) as Hrun by (by vm_compute).
  destruct (probe w) as [[w1|]|] eqn:E; [|done|done].
  destruct (ps_table (ls_ps w1) !! 100) as [p1|] eqn:Ep; [|done].
  destruct (@ioctl_restore block_call unit Z true (Some 100) 4096 (demo_dev (ls_ps w1))) as [[ret d3]|] eqn:Eio; [|done].
  destruct ret; [|done|done]. apply andb_true_iff in Hrun as [Hin%bool_decide_eq_true Hip%Z.eqb_eq].
  destruct (@visit_transparent block_call unit (demo_ops 0) Z demo_pkeys demo_conf 60 (0, 0) ltac:(intros; cbn; lia)
    1 demo_env demo_aenv w w1 p1 (Some 100) 4096 (demo_dev (ls_ps w1)) d3 p1 1 demo_env demo_aenv)
    as (w4 & p4 & E4 & Hr & Hs & _); [exact E|by vm_compute|exact Ep|exact Hin|right; by right|reflexivity|exact Ep
    |reflexivity|reflexivity|exact Eio|].
  exists w1, d3, w4. split; [exact eq_refl|]. split; [exact Hip|]. split; [exact Eio|]. split; [exact E4|].
  split; [exact Hr|exact Hs].
Defined.
