(* ===== verification/ByteMem.v ===== *)
(** * Byte-addressed memory of the monitor

    The monitor's heap keeps its bookkeeping in the memory it manages, at addresses
    that are multiples of four and with words of eight bytes.  Memory is a finite map
    from addresses to bytes; an access to an address that is not mapped is [None]. *)

From S2P Require Import Prelude.

Local Open Scope Z_scope.

Notation bmem := (gmap Z Z).

Fixpoint load_bytes (m : bmem) (a : Z) (n : nat) : option (list Z) :=
  match n with
  | O => Some []
  | S n => b ← m !! a; bs ← load_bytes m (a + 1) n; Some (b :: bs)
  end.

Fixpoint upd_bytes (m : bmem) (a : Z) (bs : list Z) : bmem :=
  match bs with
  | [] => m
  | b :: bs => <[a := b]> (upd_bytes m (a + 1) bs)
  end.

(** A store of bytes, which must all be mapped. *)
Definition store_bytes (m : bmem) (a : Z) (bs : list Z) : option bmem :=
  match load_bytes m a (length bs) with
  | Some _ => Some (upd_bytes m a bs)
  | None => None
  end.

(** Words of eight bytes. *)
Definition rd (m : bmem) (a : Z) : option Z := le_val <$> load_bytes m a 8.
Definition wr (m : bmem) (a v : Z) : bmem := upd_bytes m a (le_bytes 8 v).
Definition store64 (m : bmem) (a v : Z) : option bmem := store_bytes m a (le_bytes 8 v).

(** The [n] bytes from [a] on are mapped. *)
Definition mapped (m : bmem) (a n : Z) : Prop := forall i, a <= i < a + n -> is_Some (m !! i).

(** Memories that agree on the [n] bytes from [a] on. *)
Definition agree (m m' : bmem) (a n : Z) : Prop := forall i, a <= i < a + n -> m' !! i = m !! i.

(** [k] zero bytes from [a] on, as a fresh static array has them. *)
Definition zeroed (a : Z) (n : nat) (m : bmem) : bmem := upd_bytes m a (replicate n 0).

(** ** Mapped ranges *)

Lemma load_bytes_mapped m a n : is_Some (load_bytes m a n) <-> mapped m a (Z.of_nat n).
Proof.
  revert a. induction n as [|n IH]; intros a; cbn [load_bytes].
  - split; [intros _ i Hi; lia|by eexists].
  - split.
    + intros [bs E] i Hi. destruct (m !! a) as [b|] eqn:Ea; [|done]. cbn in E.
      destruct (load_bytes m (a + 1) n) as [l|] eqn:El; [|done].
      destruct (Z.eq_dec i a) as [->|]; [by rewrite Ea|].
      apply (proj1 (IH (a + 1))); [by rewrite El|lia].
    + intros H. destruct (H a) as [b ->]; [lia|]. cbn.
      destruct (proj2 (IH (a + 1))) as [l ->]; [intros i Hi; apply H; lia|]. by eexists.
Qed.

Lemma rd_mapped m a w : rd m a = Some w -> mapped m a 8.
Proof. unfold rd. intros E. apply (load_bytes_mapped m a 8). destruct (load_bytes m a 8); done. Qed.

Lemma mapped_rd m a : mapped m a 8 -> exists w, rd m a = Some w.
Proof. intros H. unfold rd. apply (load_bytes_mapped m a 8) in H as [l ->]. by eexists. Qed.

Lemma mapped_sub m a n b k : mapped m a n -> a <= b -> b + k <= a + n -> mapped m b k.
Proof. intros H ?? i Hi. apply H. lia. Qed.

Lemma agree_sub m m' a n b k : agree m m' a n -> a <= b -> b + k <= a + n -> agree m m' b k.
Proof. intros H ?? i Hi. apply H. lia. Qed.

Lemma agree_refl m a n : agree m m a n.
Proof. by intros i Hi. Qed.

Lemma agree_trans m1 m2 m3 a n : agree m1 m2 a n -> agree m2 m3 a n -> agree m1 m3 a n.
Proof. intros H1 H2 i Hi. by rewrite H2, H1. Qed.

(** ** Stores *)

Lemma upd_bytes_other m a bs i : i < a \/ a + zlen bs <= i -> upd_bytes m a bs !! i = m !! i.
Proof.
  revert a. induction bs as [|b bs IH]; intros a Hi; cbn [upd_bytes]; [done|].
  rewrite zlen_cons in Hi. pose proof (zlen_nonneg bs).
  rewrite lookup_insert_ne by lia. apply IH. lia.
Qed.

Lemma upd_bytes_at m a bs i : a <= i < a + zlen bs -> upd_bytes m a bs !! i = bs !! Z.to_nat (i - a).
Proof.
  revert a. induction bs as [|b bs IH]; intros a Hi; cbn [upd_bytes].
  - rewrite zlen_nil in Hi. lia.
  - rewrite zlen_cons in Hi. destruct (Z.eq_dec i a) as [->|].
    + by rewrite lookup_insert_eq, Z.sub_diag.
    + rewrite lookup_insert_ne by lia. rewrite IH by lia.
      replace (Z.to_nat (i - a)) with (S (Z.to_nat (i - (a + 1)))) by lia. done.
Qed.

Lemma mapped_upd m a bs b n : mapped m b n -> mapped (upd_bytes m a bs) b n.
Proof.
  intros H i Hi. destruct (decide (a <= i < a + zlen bs)) as [Hin|].
  - rewrite upd_bytes_at by done. apply lookup_lt_is_Some. unfold zlen in Hin. lia.
  - rewrite upd_bytes_other by lia. by apply H.
Qed.

Lemma mapped_upd_self m a bs : mapped (upd_bytes m a bs) a (zlen bs).
Proof. intros i Hi. rewrite upd_bytes_at by done. apply lookup_lt_is_Some. unfold zlen in Hi. lia. Qed.

Lemma store_bytes_ok m a bs : mapped m a (zlen bs) -> store_bytes m a bs = Some (upd_bytes m a bs).
Proof.
  intros H. unfold store_bytes. by apply load_bytes_mapped in H as [l ->].
Qed.

Lemma store64_ok m a v : mapped m a 8 -> store64 m a v = Some (wr m a v).
Proof. intros H. apply store_bytes_ok. by rewrite zlen_le_bytes. Qed.

Lemma load_bytes_agree m m' a n : agree m m' a (Z.of_nat n) -> load_bytes m' a n = load_bytes m a n.
Proof.
  revert a. induction n as [|n IH]; intros a H; cbn [load_bytes]; [done|].
  rewrite (H a) by lia. by rewrite (IH (a + 1)) by (intros i Hi; apply H; lia).
Qed.

Lemma rd_agree m m' a : agree m m' a 8 -> rd m' a = rd m a.
Proof. intros H. unfold rd. by rewrite (load_bytes_agree m m' a 8). Qed.

Lemma load_bytes_upd m a bs : load_bytes (upd_bytes m a bs) a (length bs) = Some bs.
Proof.
  revert a. induction bs as [|b bs IH]; intros a; cbn [load_bytes upd_bytes length]; [done|].
  rewrite lookup_insert_eq. cbn.
  rewrite (load_bytes_agree (upd_bytes m (a + 1) bs)), IH; [done|].
  intros i Hi. rewrite lookup_insert_ne by lia. done.
Qed.

Lemma rd_wr_eq m a v : 0 <= v < 2 ^ 64 -> rd (wr m a v) a = Some v.
Proof.
  intros Hv. unfold rd, wr.
  pose proof (load_bytes_upd m a (le_bytes 8 v)) as E. rewrite length_le_bytes in E. rewrite E.
  cbn [fmap option_fmap option_map]. rewrite le_val_bytes. by rewrite unsigned_small.
Qed.

Lemma agree_wr m a v b n : b + n <= a \/ a + 8 <= b -> agree m (wr m a v) b n.
Proof.
  intros H i Hi. unfold wr. apply upd_bytes_other. rewrite zlen_le_bytes.
  change (Z.of_nat 8) with 8. lia.
Qed.

Lemma rd_wr_ne m a v b : b + 8 <= a \/ a + 8 <= b -> rd (wr m a v) b = rd m b.
Proof. intros H. apply rd_agree. by apply agree_wr. Qed.

Lemma mapped_wr m a v b n : mapped m b n -> mapped (wr m a v) b n.
Proof. apply mapped_upd. Qed.

(** Reading a range that was loaded. *)
Lemma load_bytes_lookup m a n l i :
  load_bytes m a n = Some l -> (i < n)%nat -> m !! (a + Z.of_nat i) = l !! i.
Proof.
  revert a l i. induction n as [|n IH]; intros a l i E Hi; [lia|]. cbn [load_bytes] in E.
  destruct (m !! a) as [b|] eqn:Ea; [|done]. cbn in E.
  destruct (load_bytes m (a + 1) n) as [bs|] eqn:El; [|done]. cbn in E. injection E as <-.
  destruct i as [|i]; [by rewrite Z.add_0_r|].
  change ((b :: bs) !! S i) with (bs !! i). rewrite <- (IH (a + 1) bs i El) by lia. f_equal. lia.
Qed.

Lemma load_bytes_length m a n l : load_bytes m a n = Some l -> length l = n.
Proof.
  revert a l. induction n as [|n IH]; intros a l E; cbn [load_bytes] in E; [by injection E as <-|].
  destruct (m !! a) as [b|]; [|done]. cbn in E.
  destruct (load_bytes m (a + 1) n) as [bs|] eqn:El; [|done]. cbn in E. injection E as <-.
  cbn [length]. by rewrite (IH _ _ El).
Qed.

Lemma mapped_zeroed a n m : mapped (zeroed a n m) a (Z.of_nat n).
Proof.
  unfold zeroed. pose proof (mapped_upd_self m a (replicate n 0)) as H.
  unfold zlen in H. by rewrite length_replicate in H.
Qed.

(** Words in a memory that was changed at other addresses: [mem_solve] proves loads
    and mapped ranges after stores, with [lia] for the addresses. *)
Ltac mem_solve :=
  repeat first
    [ rewrite rd_wr_ne by lia
    | rewrite rd_wr_eq by lia
    | apply mapped_wr ];
  try done.

#[global] Opaque rd wr.
