(* ===== verification/Mmheap.v ===== *)
(** * The monitor's heap: [monitor/mmheap/mmheap.c] and [mmheap.h]

    [malloc] and its relatives inside the monitor: free blocks are kept in lists by
    size class, a first level of powers of two and a second level of 32 linear
    subdivisions, with a bitmap per level.  The headers of the blocks and the links
    of the lists are words of the memory that is managed ([hp_mem]); the control
    structure is a record.  [Bug] is an access outside of an array or of the mapped
    memory.  [block_null] is the address of [nod_mmheap_ctl.block_null], whose bytes
    are part of [hp_mem] as well. *)

From S2P Require Import Prelude ByteMem.

Local Open Scope Z_scope.

Definition NOD_MMHEAP_POOL_OVERFLOW : Z := -1.
Definition NOD_MMHEAP_POOL_ALREADY_EXIST : Z := -2.
Definition NOD_MMHEAP_INVALID_POOL_ADDR : Z := -3.
Definition NOD_MMHEAP_INVALID_POOL_SIZE : Z := -4.
Definition NOD_MMHEAP_POOL_NOT_EXIST : Z := -5.
Definition NOD_OBJ_PTR_NULL : Z := -6.

Definition NOD_MMHEAP_SL_INDEX_COUNT_LOG2 : Z := 5.
Definition NOD_MMHEAP_ALIGN_SIZE_LOG2 : Z := 2.
Definition NOD_MMHEAP_ALIGN_SIZE : Z := Z.shiftl 1 NOD_MMHEAP_ALIGN_SIZE_LOG2.
Definition NOD_MMHEAP_FL_INDEX_MAX : Z := 30.
Definition NOD_MMHEAP_SL_INDEX_COUNT : Z := Z.shiftl 1 NOD_MMHEAP_SL_INDEX_COUNT_LOG2.
Definition NOD_MMHEAP_FL_INDEX_SHIFT : Z := NOD_MMHEAP_SL_INDEX_COUNT_LOG2 + NOD_MMHEAP_ALIGN_SIZE_LOG2.
Definition NOD_MMHEAP_FL_INDEX_COUNT : Z := NOD_MMHEAP_FL_INDEX_MAX - NOD_MMHEAP_FL_INDEX_SHIFT + 1.
Definition NOD_MMHEAP_SMALL_BLOCK_SIZE : Z := Z.shiftl 1 NOD_MMHEAP_FL_INDEX_SHIFT.

Definition NOD_MMHEAP_BLOCK_CURR_FREE : Z := 1.
Definition NOD_MMHEAP_BLOCK_PREV_FREE : Z := 2.
Definition NOD_MMHEAP_BLOCK_STATE_MASK : Z := NOD_MMHEAP_BLOCK_CURR_FREE |! NOD_MMHEAP_BLOCK_PREV_FREE.
Definition NOD_MMHEAP_BLOCK_SIZE_MASK : Z := u64 (Z.lnot NOD_MMHEAP_BLOCK_STATE_MASK).

(** [nod_mmheap_blk_t]: [prev_phys_blk], [size], [next_free] and [prev_free]. *)
Definition off_prev_phys : Z := 0.
Definition off_size : Z := 8.
Definition off_next_free : Z := 16.
Definition off_prev_free : Z := 24.
Definition sizeof_blk : Z := 32.

Definition NOD_MMHEAP_BLK_SIZE_MIN : Z := sizeof_blk - 8.
Definition NOD_MMHEAP_BLK_SIZE_MAX : Z := Z.shiftl 1 NOD_MMHEAP_FL_INDEX_MAX.
Definition NOD_MMHEAP_BLK_HEADER_OVERHEAD : Z := 8.
Definition NOD_MMHEAP_BLK_START_OFFSET : Z := off_size + 8.
Definition NOD_MMHEAP_POOL_MAX : Z := 3.

(** [nod_mmheap_ctl_t] without [block_null]. *)
Record nod_mmheap_ctl_t : Type := mk_ctl {
  pool_cnt : Z;
  pool_start : list Z;
  fl_bitmap : Z;
  sl_bitmap : list Z;
  blocks : list (list Z)
}.

Record heap : Type := mk_heap { hp_ctl : nod_mmheap_ctl_t; hp_mem : bmem }.

(** [nod_mmheap_info_t] *)
Record nod_mmheap_info_t : Type := mk_info { info_used : Z; info_free : Z }.

(** ** Access to arrays and memory *)

Definition zget {A} (l : list A) (i : Z) : option A := if 0 <=? i then l !! Z.to_nat i else None.
Definition zset {A} (l : list A) (i : Z) (x : A) : option (list A) :=
  if (0 <=? i) && (i <? zlen l) then Some (<[Z.to_nat i := x]> l) else None.

Definition load (a : Z) : M heap Z := h ← get; lift (rd (hp_mem h) a).
Definition store (a v : Z) : M heap unit :=
  h ← get; m ← lift (store64 (hp_mem h) a v); put (mk_heap (hp_ctl h) m).

Definition set_pools (cnt : Z) (starts : list Z) (c : nod_mmheap_ctl_t) : nod_mmheap_ctl_t :=
  mk_ctl cnt starts (fl_bitmap c) (sl_bitmap c) (blocks c).
Definition set_maps (fl : Z) (sl : list Z) (c : nod_mmheap_ctl_t) : nod_mmheap_ctl_t :=
  mk_ctl (pool_cnt c) (pool_start c) fl sl (blocks c).
Definition set_blocks (b : list (list Z)) (c : nod_mmheap_ctl_t) : nod_mmheap_ctl_t :=
  mk_ctl (pool_cnt c) (pool_start c) (fl_bitmap c) (sl_bitmap c) b.
Definition with_ctl (f : nod_mmheap_ctl_t -> option nod_mmheap_ctl_t) : M heap unit :=
  h ← get; c ← lift (f (hp_ctl h)); put (mk_heap c (hp_mem h)).

(** [nod_mmheap_ctl.blocks[fl][sl]] *)
Definition get_block (c : nod_mmheap_ctl_t) (fl sl : Z) : option Z := row ← zget (blocks c) fl; zget row sl.
Definition set_block (fl sl b : Z) (c : nod_mmheap_ctl_t) : option nod_mmheap_ctl_t :=
  row ← zget (blocks c) fl; row ← zset row sl b; rows ← zset (blocks c) fl row; Some (set_blocks rows c).

(** ** Bit search and size classes *)

Definition generic_fls (x : Z) : Z :=
  if x =? 0 then 0 else
  let '(x, r) := (x, 32) in
  let '(x, r) := if x &! 0xffff0000 =? 0 then (u32 (Z.shiftl x 16), r - 16) else (x, r) in
  let '(x, r) := if x &! 0xff000000 =? 0 then (u32 (Z.shiftl x 8), r - 8) else (x, r) in
  let '(x, r) := if x &! 0xf0000000 =? 0 then (u32 (Z.shiftl x 4), r - 4) else (x, r) in
  let '(x, r) := if x &! 0xc0000000 =? 0 then (u32 (Z.shiftl x 2), r - 2) else (x, r) in
  if x &! 0x80000000 =? 0 then r - 1 else r.

Definition __ffs (word : Z) : Z := generic_fls (word &! u32 (u32 (Z.lnot word) + 1)) - 1.
Definition __fls (word : Z) : Z := generic_fls word - 1.

Definition mapping_insert (size : Z) : Z * Z :=
  if size <? NOD_MMHEAP_SMALL_BLOCK_SIZE then
    (0, Z.quot (s32 size) (Z.quot NOD_MMHEAP_SMALL_BLOCK_SIZE NOD_MMHEAP_SL_INDEX_COUNT))
  else
    let fl := __fls (u32 size) in
    let sl := Z.shiftr (s32 size) (fl - NOD_MMHEAP_SL_INDEX_COUNT_LOG2) ^! Z.shiftl 1 NOD_MMHEAP_SL_INDEX_COUNT_LOG2 in
    (fl - (NOD_MMHEAP_FL_INDEX_SHIFT - 1), sl).

Definition mapping_search (size : Z) : Z * Z :=
  let size := if NOD_MMHEAP_SMALL_BLOCK_SIZE <=? size then
      let round := u64 (s32 (Z.shiftl 1 (__fls (u32 size) - NOD_MMHEAP_SL_INDEX_COUNT_LOG2)) - 1) in
      u64 (size + round)
    else size in
  mapping_insert size.

(** ** Block headers *)

Definition blk_size (blk : Z) : M heap Z :=
  w ← load (blk + off_size); mret (w &! NOD_MMHEAP_BLOCK_SIZE_MASK).
Definition blk_is_last (blk : Z) : M heap bool := s ← blk_size blk; mret (s =? 0).
Definition blk_set_size (blk size : Z) : M heap unit :=
  w ← load (blk + off_size); store (blk + off_size) (size |! (w &! NOD_MMHEAP_BLOCK_STATE_MASK)).
Definition blk_is_free (blk : Z) : M heap bool :=
  w ← load (blk + off_size); mret (has w NOD_MMHEAP_BLOCK_CURR_FREE).
Definition blk_set_free (blk : Z) : M heap unit :=
  w ← load (blk + off_size); store (blk + off_size) (w |! NOD_MMHEAP_BLOCK_CURR_FREE).
Definition blk_set_used (blk : Z) : M heap unit :=
  w ← load (blk + off_size); store (blk + off_size) (w &! u64 (Z.lnot NOD_MMHEAP_BLOCK_CURR_FREE)).
Definition blk_is_prev_free (blk : Z) : M heap bool :=
  w ← load (blk + off_size); mret (has w NOD_MMHEAP_BLOCK_PREV_FREE).
Definition blk_set_prev_free (blk : Z) : M heap unit :=
  w ← load (blk + off_size); store (blk + off_size) (w |! NOD_MMHEAP_BLOCK_PREV_FREE).
Definition blk_set_prev_used (blk : Z) : M heap unit :=
  w ← load (blk + off_size); store (blk + off_size) (w &! u64 (Z.lnot NOD_MMHEAP_BLOCK_PREV_FREE)).

Definition blk_from_ptr (ptr : Z) : Z := u64 (ptr - NOD_MMHEAP_BLK_START_OFFSET).
Definition blk_to_ptr (blk : Z) : Z := u64 (blk + NOD_MMHEAP_BLK_START_OFFSET).
(** [diff] is an [int]. *)
Definition offset_to_blk (ptr diff : Z) : Z := u64 (ptr + s32 diff).
Definition blk_prev (blk : Z) : M heap Z := load (blk + off_prev_phys).

Definition blk_next (blk : Z) : M heap Z :=
  s ← blk_size blk; mret (offset_to_blk (blk_to_ptr blk) (u64 (s - NOD_MMHEAP_BLK_HEADER_OVERHEAD))).

Definition blk_link_next (blk : Z) : M heap Z :=
  next_blk ← blk_next blk; store (next_blk + off_prev_phys) blk;; mret next_blk.

Definition blk_mark_as_free (blk : Z) : M heap unit :=
  next_blk ← blk_link_next blk; blk_set_prev_free next_blk;; blk_set_free blk.

Definition blk_mark_as_used (blk : Z) : M heap unit :=
  next_blk ← blk_next blk; blk_set_prev_used next_blk;; blk_set_used blk.

Definition align_up (x align : Z) : Z := u64 (x + u64 (align - 1)) &! u64 (Z.lnot (u64 (align - 1))).
Definition align_down (x align : Z) : Z := u64 (x - (x &! u64 (align - 1))).
Definition align_ptr (ptr align : Z) : Z := u64 (ptr + u64 (align - 1)) &! u64 (Z.lnot (u64 (align - 1))).

(** ** Free lists *)

Section heap.
Variable block_null : Z.

(** [1 << i] as it is or-ed to or masked out of a [uint32_t]. *)
Definition bit32 (i : Z) : Z := u32 (Z.shiftl 1 i).
Definition clear32 (i : Z) : Z := u32 (Z.lnot (Z.shiftl 1 i)).

Definition insert_free_block (blk fl sl : Z) : M heap unit :=
  h ← get;
  curr ← lift (get_block (hp_ctl h) fl sl);
  store (blk + off_next_free) curr;;
  store (blk + off_prev_free) block_null;;
  store (curr + off_prev_free) blk;;
  with_ctl (set_block fl sl blk);;
  with_ctl (fun c => w ← zget (sl_bitmap c) fl; ws ← zset (sl_bitmap c) fl (w |! bit32 sl);
                     Some (set_maps (fl_bitmap c |! bit32 fl) ws c)).

(** The end of [remove_free_block]: the list lost its head. *)
Definition unlink_head (next_blk fl sl : Z) : M heap unit :=
  with_ctl (set_block fl sl next_blk);;
  if next_blk =? block_null then
    with_ctl (fun c => w ← zget (sl_bitmap c) fl;
      let w' := w &! clear32 sl in
      ws ← zset (sl_bitmap c) fl w';
      Some (set_maps (if w' =? 0 then fl_bitmap c &! clear32 fl else fl_bitmap c) ws c))
  else mret tt.

Definition remove_free_block (blk fl sl : Z) : M heap unit :=
  prev_blk ← load (blk + off_prev_free);
  next_blk ← load (blk + off_next_free);
  store (next_blk + off_prev_free) prev_blk;;
  store (prev_blk + off_next_free) next_blk;;
  h ← get;
  head ← lift (get_block (hp_ctl h) fl sl);
  if head =? blk then unlink_head next_blk fl sl else mret tt.

Definition blk_remove (blk : Z) : M heap unit :=
  s ← blk_size blk; let '(fl, sl) := mapping_insert s in remove_free_block blk fl sl.

Definition blk_insert (blk : Z) : M heap unit :=
  s ← blk_size blk; let '(fl, sl) := mapping_insert s in insert_free_block blk fl sl.

(** ** Splitting and merging *)

Definition blk_can_split (blk size : Z) : M heap bool :=
  s ← blk_size blk; mret (u64 (sizeof_blk + size) <=? s).

Definition blk_split (blk size : Z) : M heap Z :=
  let remaining := offset_to_blk (blk_to_ptr blk) (u64 (size - NOD_MMHEAP_BLK_HEADER_OVERHEAD)) in
  s ← blk_size blk;
  let remain_size := u64 (s - u64 (size + NOD_MMHEAP_BLK_HEADER_OVERHEAD)) in
  blk_set_size remaining remain_size;;
  blk_set_size blk size;;
  blk_mark_as_free remaining;;
  mret remaining.

Definition blk_absorb (prev_blk blk : Z) : M heap Z :=
  s ← blk_size blk;
  w ← load (prev_blk + off_size);
  store (prev_blk + off_size) (u64 (w + u64 (s + NOD_MMHEAP_BLK_HEADER_OVERHEAD)));;
  blk_link_next prev_blk;;
  mret prev_blk.

Definition blk_merge_prev (blk : Z) : M heap Z :=
  pf ← blk_is_prev_free blk;
  if pf : bool then
    prev_blk ← blk_prev blk;
    blk_remove prev_blk;;
    blk_absorb prev_blk blk
  else mret blk.

Definition blk_merge_next (blk : Z) : M heap Z :=
  next_blk ← blk_next blk;
  f ← blk_is_free next_blk;
  if f : bool then
    blk_remove next_blk;;
    blk_absorb blk next_blk
  else mret blk.

Definition blk_trim_free (blk size : Z) : M heap unit :=
  can ← blk_can_split blk size;
  if can : bool then
    remaining_blk ← blk_split blk size;
    blk_link_next blk;;
    blk_set_prev_free remaining_blk;;
    blk_insert remaining_blk
  else mret tt.

Definition blk_trim_used (blk size : Z) : M heap unit :=
  can ← blk_can_split blk size;
  if can : bool then
    remaining_blk ← blk_split blk size;
    blk_set_prev_used remaining_blk;;
    remaining_blk ← blk_merge_next remaining_blk;
    blk_insert remaining_blk
  else mret tt.

Definition blk_trim_free_leading (blk size : Z) : M heap Z :=
  can ← blk_can_split blk size;
  if can : bool then
    remaining_blk ← blk_split blk (u64 (size - NOD_MMHEAP_BLK_HEADER_OVERHEAD));
    blk_set_prev_free remaining_blk;;
    blk_link_next blk;;
    blk_insert blk;;
    mret remaining_blk
  else mret blk.

(** ** Searching *)

(** The block, 0 if there is none, and the class it was found in. *)
Definition blk_search_suitable (fl sl : Z) : M heap (Z * Z * Z) :=
  h ← get;
  w ← lift (zget (sl_bitmap (hp_ctl h)) fl);
  let sl_map := w &! u32 (Z.shiftl (2 ^ 32 - 1) sl) in
  if sl_map =? 0 then
    let fl_map := fl_bitmap (hp_ctl h) &! u32 (Z.shiftl (2 ^ 32 - 1) (fl + 1)) in
    if fl_map =? 0 then mret (0, fl, sl)
    else
      let fl := __ffs fl_map in
      sl_map ← lift (zget (sl_bitmap (hp_ctl h)) fl);
      let sl := __ffs sl_map in
      b ← lift (get_block (hp_ctl h) fl sl); mret (b, fl, sl)
  else
    let sl := __ffs sl_map in
    b ← lift (get_block (hp_ctl h) fl sl); mret (b, fl, sl).

Definition blk_locate_free (size : Z) : M heap Z :=
  if size =? 0 then mret 0 else
  let '(fl, sl) := mapping_search size in
  '(blk, fl, sl) ← (if fl <? NOD_MMHEAP_FL_INDEX_COUNT then blk_search_suitable fl sl else mret (0, fl, sl));
  if blk =? 0 then mret 0 else remove_free_block blk fl sl;; mret blk.

Definition adjust_request_size (size align : Z) : Z :=
  if size =? 0 then 0 else
  let adjust_size := align_up size align in
  if (adjust_size =? 0) || (NOD_MMHEAP_BLK_SIZE_MAX <? adjust_size) then 0
  else if NOD_MMHEAP_BLK_SIZE_MIN <? adjust_size then adjust_size else NOD_MMHEAP_BLK_SIZE_MIN.

Definition blk_prepare_used (blk size : Z) : M heap Z :=
  if blk =? 0 then mret 0 else
  blk_trim_free blk size;; blk_mark_as_used blk;; mret (blk_to_ptr blk).

(** ** Pools *)

Definition nod_mmheap_pool_is_full (c : nod_mmheap_ctl_t) : bool := pool_cnt c =? NOD_MMHEAP_POOL_MAX.

Definition nod_mmheap_pool_is_exist (start : Z) (c : nod_mmheap_ctl_t) : bool :=
  existsb (Z.eqb start) (ztake (pool_cnt c) (pool_start c)).

Definition nod_mmheap_pool_record (start : Z) : M heap unit :=
  with_ctl (fun c => s ← zset (pool_start c) (pool_cnt c) start; Some (set_pools (pool_cnt c + 1) s c)).

(** The index at which the loop of [nod_mmheap_pool_unrecord] stops. *)
Fixpoint pool_index (start : Z) (l : list Z) : Z :=
  match l with
  | [] => 0
  | p :: l => if p =? start then 0 else 1 + pool_index start l
  end.

Definition nod_mmheap_pool_unrecord (start : Z) : M heap unit :=
  with_ctl (fun c =>
    let i := pool_index start (ztake (pool_cnt c) (pool_start c)) in
    s ← (if i =? pool_cnt c - 1 then Some (pool_start c)
         else l ← zget (pool_start c) (pool_cnt c - 1); zset (pool_start c) i l);
    Some (set_pools (pool_cnt c - 1) s c)).

Definition nod_mmheap_ctl_init : M heap unit :=
  h ← get;
  put (mk_heap (mk_ctl 0 (replicate 3 0) 0 (replicate 24 0) (replicate 24 (replicate 32 block_null))) (hp_mem h));;
  store (block_null + off_next_free) block_null;;
  store (block_null + off_prev_free) block_null.

Definition nod_mmheap_pool_add (start size : Z) : M heap Z :=
  h ← get;
  if nod_mmheap_pool_is_full (hp_ctl h) then mret NOD_MMHEAP_POOL_OVERFLOW else
  if nod_mmheap_pool_is_exist start (hp_ctl h) then mret NOD_MMHEAP_POOL_ALREADY_EXIST else
  let size_aligned := align_down (u64 (size - 2 * NOD_MMHEAP_BLK_HEADER_OVERHEAD)) NOD_MMHEAP_ALIGN_SIZE in
  if negb (start mod NOD_MMHEAP_ALIGN_SIZE =? 0) then mret NOD_MMHEAP_INVALID_POOL_ADDR else
  if (size_aligned <? NOD_MMHEAP_BLK_SIZE_MIN) || (NOD_MMHEAP_BLK_SIZE_MAX <? size_aligned)
  then mret NOD_MMHEAP_INVALID_POOL_SIZE else
  let curr_blk := offset_to_blk start (- NOD_MMHEAP_BLK_HEADER_OVERHEAD) in
  blk_set_size curr_blk size_aligned;;
  blk_set_free curr_blk;;
  blk_set_prev_used curr_blk;;
  blk_insert curr_blk;;
  next_blk ← blk_link_next curr_blk;
  blk_set_size next_blk 0;;
  blk_set_used next_blk;;
  blk_set_prev_free next_blk;;
  nod_mmheap_pool_record start;;
  mret 0.

Definition nod_mmheap_init (start size : Z) : M heap Z :=
  nod_mmheap_ctl_init;; nod_mmheap_pool_add start size.

Definition nod_mmheap_pool_rmv (start : Z) : M heap Z :=
  h ← get;
  if start =? 0 then mret NOD_OBJ_PTR_NULL else
  if negb (nod_mmheap_pool_is_exist start (hp_ctl h)) then mret NOD_MMHEAP_POOL_NOT_EXIST else
  let blk := offset_to_blk start (- NOD_MMHEAP_BLK_HEADER_OVERHEAD) in
  s ← blk_size blk;
  let '(fl, sl) := mapping_insert s in
  remove_free_block blk fl sl;;
  nod_mmheap_pool_unrecord start;;
  mret 0.

(** ** Allocation *)

Definition nod_mmheap_alloc (size : Z) : M heap Z :=
  if NOD_MMHEAP_BLK_SIZE_MAX <? size then mret 0 else
  let adjust_size := adjust_request_size size NOD_MMHEAP_ALIGN_SIZE in
  blk ← blk_locate_free adjust_size;
  if blk =? 0 then mret 0 else blk_prepare_used blk adjust_size.

(** [memset(ptr, 0, n)] and [memcpy(dst, src, n)]. *)
Definition memset0 (ptr n : Z) : M heap unit :=
  h ← get; m ← lift (store_bytes (hp_mem h) ptr (replicate (Z.to_nat n) 0)); put (mk_heap (hp_ctl h) m).
Definition memcpy (dst src n : Z) : M heap unit :=
  h ← get; bs ← lift (load_bytes (hp_mem h) src (Z.to_nat n));
  m ← lift (store_bytes (hp_mem h) dst bs); put (mk_heap (hp_ctl h) m).

Definition nod_mmheap_calloc (num size : Z) : M heap Z :=
  ptr ← nod_mmheap_alloc (u64 (num * size));
  (if ptr =? 0 then mret tt else memset0 ptr (u64 (num * size)));; mret ptr.

Definition nod_mmheap_aligned_alloc (size align : Z) : M heap Z :=
  let adjust_size := adjust_request_size size NOD_MMHEAP_ALIGN_SIZE in
  let gap_minimum := sizeof_blk in
  let size_with_gap := adjust_request_size (u64 (u64 (adjust_size + align) + gap_minimum)) align in
  let aligned_size := if negb (adjust_size =? 0) && (NOD_MMHEAP_ALIGN_SIZE <? align) then size_with_gap else adjust_size in
  blk ← blk_locate_free aligned_size;
  if blk =? 0 then mret 0 else
  let ptr := blk_to_ptr blk in
  let aligned := align_ptr ptr align in
  let gap := u64 (aligned - ptr) in
  let gap := if negb (gap =? 0) && (gap <? gap_minimum) then
      let gap_remain := gap_minimum - gap in
      let offset := if align <? gap_remain then gap_remain else align in
      u64 (align_ptr (u64 (aligned + offset)) align - ptr)
    else gap in
  blk ← (if gap =? 0 then mret blk else blk_trim_free_leading blk gap);
  blk_prepare_used blk adjust_size.

Definition nod_mmheap_free (ptr : Z) : M heap unit :=
  if ptr =? 0 then mret tt else
  let blk := blk_from_ptr ptr in
  blk_mark_as_free blk;;
  blk ← blk_merge_prev blk;
  blk ← blk_merge_next blk;
  blk_insert blk.

Definition nod_mmheap_realloc (ptr size : Z) : M heap Z :=
  if negb (ptr =? 0) && (size =? 0) then nod_mmheap_free ptr;; mret 0 else
  if ptr =? 0 then nod_mmheap_alloc size else
  let curr_blk := blk_from_ptr ptr in
  next_blk ← blk_next curr_blk;
  curr_size ← blk_size curr_blk;
  next_size ← blk_size next_blk;
  let combined_size := u64 (u64 (curr_size + next_size) + NOD_MMHEAP_BLK_HEADER_OVERHEAD) in
  let adjust_size := adjust_request_size size NOD_MMHEAP_ALIGN_SIZE in
  next_free ← blk_is_free next_blk;
  if (curr_size <? adjust_size) && (negb next_free || (combined_size <? adjust_size)) then
    p ← nod_mmheap_alloc size;
    if p =? 0 then mret 0 else
    let min_size := if curr_size <? size then curr_size else size in
    memcpy p ptr min_size;;
    nod_mmheap_free ptr;;
    mret p
  else
    (if curr_size <? adjust_size then blk_merge_next curr_blk;; blk_mark_as_used curr_blk else mret tt);;
    blk_trim_used curr_blk adjust_size;;
    mret ptr.

(** ** Statistics *)

(** The loop of [nod_mmheap_pool_check]; [None] is running out of fuel. *)
Fixpoint pool_check_loop (fuel : nat) (blk : Z) (info : nod_mmheap_info_t) : M heap (option nod_mmheap_info_t) :=
  match fuel with
  | O => mret None
  | S fuel =>
      if blk =? 0 then mret (Some info) else
      last ← blk_is_last blk;
      if last : bool then mret (Some info) else
      s ← blk_size blk;
      f ← blk_is_free blk;
      let info := if f : bool then mk_info (info_used info) (u32 (info_free info + s))
                  else mk_info (u32 (info_used info + s)) (info_free info) in
      next_blk ← blk_next blk;
      pool_check_loop fuel next_blk info
  end.

(** [nod_mmheap_pool_check] with a pointer [info] that is not null. *)
Definition nod_mmheap_pool_check (fuel : nat) (start : Z) : M heap (option (Z * nod_mmheap_info_t)) :=
  if start =? 0 then mret (Some (NOD_OBJ_PTR_NULL, mk_info 0 0)) else
  r ← pool_check_loop fuel (offset_to_blk start (- NOD_MMHEAP_BLK_HEADER_OVERHEAD)) (mk_info 0 0);
  mret ((fun i => (0, i)) <$> r).

Fixpoint check_pools (fuel : nat) (starts : list Z) (info : nod_mmheap_info_t) : M heap (option (Z * nod_mmheap_info_t)) :=
  match starts with
  | [] => mret (Some (0, info))
  | start :: starts =>
      r ← nod_mmheap_pool_check fuel start;
      match r with
      | None => mret None
      | Some (err, i) =>
          if negb (err =? 0) then mret (Some (err, info))
          else check_pools fuel starts (mk_info (u32 (info_used info + info_used i)) (u32 (info_free info + info_free i)))
      end
  end.

Definition nod_mmheap_check (fuel : nat) : M heap (option (Z * nod_mmheap_info_t)) :=
  h ← get; check_pools fuel (ztake (pool_cnt (hp_ctl h)) (pool_start (hp_ctl h))) (mk_info 0 0).
End heap.
