(* ===== verification/MmheapClass.v ===== *)
(** * Bit search and size classes of the heap

    [generic_fls] is a binary logarithm and [__ffs] the lowest set bit; the classes
    [mapping_insert] gives are ordered by size, and [mapping_search] names the first
    class all of whose blocks are large enough. *)

From S2P Require Import Prelude ByteMem Mmheap.

Local Open Scope Z_scope.

(** ** The highest bit *)

(** One step of the search: either the top [k] bits are clear and [x] is shifted up. *)
Lemma fls_step k x r : 0 < k <= 16 -> 2 ^ (32 - 2 * k) <= x < 2 ^ 32 ->
  let '(x', r') := if x &! (2 ^ 32 - 2 ^ (32 - k)) =? 0 then (u32 (Z.shiftl x k), r - k) else (x, r) in
  2 ^ (32 - k) <= x' < 2 ^ 32 /\ Z.log2 x' + r' = Z.log2 x + r.
Proof.
  intros Hk Hx. assert (0 < 2 ^ (32 - 2 * k)) by (apply Z.pow_pos_nonneg; lia).
  assert (0 < 2 ^ (32 - k)) by (apply Z.pow_pos_nonneg; lia).
  assert (2 ^ 32 = 2 ^ (32 - k) * 2 ^ k) as E32 by (rewrite <- Z.pow_add_r by lia; f_equal; lia).
  assert (2 ^ (32 - k) = 2 ^ (32 - 2 * k) * 2 ^ k) as Ek by (rewrite <- Z.pow_add_r by lia; f_equal; lia).
  assert (0 < 2 ^ k) by (apply Z.pow_pos_nonneg; lia).
  rewrite land_high by lia.
  destruct (Z.eqb_spec (2 ^ (32 - k) * (x / 2 ^ (32 - k))) 0) as [E|E].
  - assert (x < 2 ^ (32 - k)) by (apply Z.div_small_iff in E as [|]; [lia|lia|lia] || (apply Z.mul_eq_0_r in E; [|lia]; apply Z.div_small_iff in E; lia)).
    rewrite Z.shiftl_mul_pow2 by lia. unfold u32. rewrite unsigned_small by nia.
    split; [nia|]. rewrite Z.log2_mul_pow2 by lia. lia.
  - split; [|done]. split; [|lia]. destruct (Z.le_gt_cases (2 ^ (32 - k)) x); [done|].
    rewrite Z.div_small in E by lia. lia.
Qed.

Lemma generic_fls_log2 x : 0 < x < 2 ^ 32 -> generic_fls x = Z.log2 x + 1.
Proof.
  intros Hx. unfold generic_fls. destruct (Z.eqb_spec x 0); [lia|].
  pose proof (fls_step 16 x 32 ltac:(lia) ltac:(lia)) as S1. change (2 ^ 32 - 2 ^ (32 - 16)) with 0xffff0000 in S1.
  revert S1. destruct (if x &! _ =? 0 then _ else _) as [x1 r1]. intros [B1 E1]. change (2 ^ (32 - 16)) with (2 ^ 16) in B1.
  pose proof (fls_step 8 x1 r1 ltac:(lia) ltac:(lia)) as S2. change (2 ^ 32 - 2 ^ (32 - 8)) with 0xff000000 in S2.
  revert S2. destruct (if x1 &! _ =? 0 then _ else _) as [x2 r2]. intros [B2 E2]. change (2 ^ (32 - 8)) with (2 ^ 24) in B2.
  pose proof (fls_step 4 x2 r2 ltac:(lia) ltac:(lia)) as S3. change (2 ^ 32 - 2 ^ (32 - 4)) with 0xf0000000 in S3.
  revert S3. destruct (if x2 &! _ =? 0 then _ else _) as [x3 r3]. intros [B3 E3]. change (2 ^ (32 - 4)) with (2 ^ 28) in B3.
  pose proof (fls_step 2 x3 r3 ltac:(lia) ltac:(lia)) as S4. change (2 ^ 32 - 2 ^ (32 - 2)) with 0xc0000000 in S4.
  revert S4. destruct (if x3 &! _ =? 0 then _ else _) as [x4 r4]. intros [B4 E4]. change (2 ^ (32 - 2)) with (2 ^ 30) in B4.
  pose proof (fls_step 1 x4 r4 ltac:(lia) ltac:(lia)) as S5. change (2 ^ 32 - 2 ^ (32 - 1)) with 0x80000000 in S5.
  assert (forall y, 2 ^ (32 - 1) <= y < 2 ^ 32 -> Z.log2 y = 31) as L by (intros y Hy; apply Z.log2_unique; [lia|exact Hy]).
  destruct (x4 &! _ =? 0); destruct S5 as [B5 E5]; apply L in B5; lia.
Qed.

(** ** The lowest bit *)

Lemma lowest_bit w : 0 < w -> exists i q, 0 <= i /\ 0 <= q /\ w = (2 * q + 1) * 2 ^ i.
Proof.
  intros Hw. destruct w as [|p|p]; [lia| |lia]. clear Hw. induction p as [p IH|p IH|].
  - exists 0, (Z.pos p). rewrite Z.pow_0_r. lia.
  - destruct IH as (i & q & Hi & Hq & E). exists (i + 1), q. rewrite Z.pow_add_r by lia. lia.
  - exists 0, 0. lia.
Qed.

Lemma isolate_lowest i q : 0 <= i -> let w := (2 * q + 1) * 2 ^ i in w &! - w = 2 ^ i.
Proof.
  intros Hi w. assert (- w = Z.lnot (q * 2 ^ (i + 1) + Z.ones i)) as ->.
  { unfold w, Z.lnot. rewrite Z.ones_equiv, Z.pow_add_r by lia. lia. }
  assert (q * 2 ^ (i + 1) + Z.ones i = q * 2 ^ (i + 1) |! Z.ones i) as ->.
  { rewrite <- Z.add_nocarry_lor; [done|]. rewrite Z.land_ones, Z.pow_add_r by lia.
    replace (q * (2 ^ i * 2 ^ 1)) with (q * 2 * 2 ^ i) by lia. apply Z.mod_mul. lia. }
  apply Z.bits_inj'. intros j Hj. unfold w.
  rewrite Z.land_spec, Z.lnot_spec, Z.lor_spec, Z.pow2_bits_eqb, Z.testbit_ones_nonneg by lia.
  rewrite !Z.mul_pow2_bits by lia. destruct (Z.eqb_spec i j) as [->|Hne].
  - rewrite Z.sub_diag, Z.testbit_odd_0, Z.testbit_neg_r by lia. by rewrite Z.ltb_irrefl.
  - destruct (Z.ltb_spec j i).
    + by rewrite Z.testbit_neg_r by lia.
    + replace (j - i) with (Z.succ (j - (i + 1))) by lia. rewrite Z.testbit_odd_succ by lia.
      rewrite orb_false_r. apply andb_negb_r.
Qed.

(** [__ffs] is the index of the lowest set bit. *)
Lemma ffs_lowest w : 0 < w < 2 ^ 32 ->
  0 <= __ffs w < 32 /\ Z.testbit w (__ffs w) = true /\ forall j, 0 <= j < __ffs w -> Z.testbit w j = false.
Proof.
  intros Hw. destruct (lowest_bit w) as (i & q & Hi & Hq & E); [lia|].
  assert (0 < 2 ^ i) by (apply Z.pow_pos_nonneg; lia).
  assert (2 ^ i < 2 ^ 32) as Hlt by nia. apply Z.pow_lt_mono_r_iff in Hlt; [|lia|lia].
  assert (__ffs w = i) as ->.
  { unfold __ffs. assert (u32 (u32 (Z.lnot w) + 1) = u32 (- w)) as ->.
    { unfold u32, unsigned, Z.lnot. rewrite Zplus_mod_idemp_l. f_equal. lia. }
    rewrite u32_land, land_trunc, E by lia. rewrite isolate_lowest by lia.
    rewrite generic_fls_log2 by (split; [lia|]; apply Z.pow_lt_mono_r; lia).
    rewrite Z.log2_pow2 by lia. lia. }
  rewrite E. split; [lia|]. split.
  - rewrite Z.mul_pow2_bits, Z.sub_diag by lia. apply Z.testbit_odd_0.
  - intros j Hj. rewrite Z.mul_pow2_bits by lia. apply Z.testbit_neg_r. lia.
Qed.

(** ** Size classes *)

Lemma fls_log2 w : 0 < w < 2 ^ 32 -> __fls w = Z.log2 w.
Proof. intros Hw. unfold __fls. rewrite generic_fls_log2 by done. lia. Qed.

Lemma lxor_32 x : 32 <= x < 64 -> x ^! 32 = x - 32.
Proof.
  intros Hx. assert (Forall (fun y => y ^! 32 = y - 32) (seqZ 32 32)) as H by (by repeat constructor).
  apply (proj1 (List.Forall_forall _ _) H), list_elem_of_In, elem_of_seqZ. lia.
Qed.

Lemma log2_ge s : 128 <= s -> 7 <= Z.log2 s.
Proof. intros. change 7 with (Z.log2 128). by apply Z.log2_le_mono. Qed.

(** The linear subdivision of a size between two powers of two. *)
Lemma subdivision s : 128 <= s -> let d := 2 ^ (Z.log2 s - 5) in 0 < d /\ 32 * d <= s < 64 * d.
Proof.
  intros Hs d. pose proof (log2_ge s Hs). pose proof (Z.log2_spec s ltac:(lia)) as [Hl Hu].
  unfold d. rewrite Z.pow_succ_r in Hu by lia.
  replace (Z.log2 s) with (Z.log2 s - 5 + 5) in Hl, Hu by lia. rewrite Z.pow_add_r in Hl, Hu by lia.
  split; [apply Z.pow_pos_nonneg; lia|lia].
Qed.

Lemma mapping_insert_small s : 0 <= s < 128 -> mapping_insert s = (0, s / 4).
Proof.
  intros Hs. unfold mapping_insert. change NOD_MMHEAP_SMALL_BLOCK_SIZE with 128.
  destruct (Z.ltb_spec s 128); [|lia]. f_equal. unfold s32.
  rewrite signed_small by lia. by apply Z.quot_div_nonneg; lia.
Qed.

Lemma mapping_insert_large s : 128 <= s < 2 ^ 31 ->
  mapping_insert s = (Z.log2 s - 6, s / 2 ^ (Z.log2 s - 5) - 32).
Proof.
  intros Hs. unfold mapping_insert. change NOD_MMHEAP_SMALL_BLOCK_SIZE with 128.
  destruct (Z.ltb_spec s 128); [lia|].
  unfold u32, s32. rewrite unsigned_small, signed_small, fls_log2 by lia.
  change NOD_MMHEAP_SL_INDEX_COUNT_LOG2 with 5. change (NOD_MMHEAP_FL_INDEX_SHIFT - 1) with 6.
  pose proof (log2_ge s ltac:(lia)). destruct (subdivision s) as (Hd & Hlo & Hhi); [lia|].
  rewrite Z.shiftr_div_pow2 by lia. change (Z.shiftl 1 5) with 32. rewrite lxor_32; [done|].
  split; [apply Z.div_le_lower_bound; lia|apply Z.div_lt_upper_bound; lia].
Qed.

(** The position of the class of [s] among all classes. *)
Definition cls (s : Z) : Z := (mapping_insert s).1 * 32 + (mapping_insert s).2.

Lemma cls_small s : 0 <= s < 128 -> cls s = s / 4.
Proof. intros. unfold cls. by rewrite mapping_insert_small. Qed.

Lemma cls_large s : 128 <= s < 2 ^ 31 -> cls s = 32 * (Z.log2 s - 6) + s / 2 ^ (Z.log2 s - 5) - 32.
Proof. intros. unfold cls. rewrite mapping_insert_large by done. cbn [fst snd]. lia. Qed.

Lemma subdivision_div s : 128 <= s -> 32 <= s / 2 ^ (Z.log2 s - 5) < 64.
Proof.
  intros. destruct (subdivision s) as (Hd & Hlo & Hhi); [done|].
  split; [apply Z.div_le_lower_bound; lia|apply Z.div_lt_upper_bound; lia].
Qed.

Lemma mapping_insert_range s : 0 <= s < 2 ^ 30 ->
  0 <= (mapping_insert s).1 < NOD_MMHEAP_FL_INDEX_COUNT /\ 0 <= (mapping_insert s).2 < NOD_MMHEAP_SL_INDEX_COUNT.
Proof.
  intros Hs. change NOD_MMHEAP_FL_INDEX_COUNT with 24. change NOD_MMHEAP_SL_INDEX_COUNT with 32.
  destruct (Z.lt_ge_cases s 128).
  - rewrite mapping_insert_small by lia. cbn [fst snd]. pose proof (Z.div_lt_upper_bound s 4 32).
    pose proof (Z.div_pos s 4). lia.
  - rewrite mapping_insert_large by lia. cbn [fst snd]. pose proof (log2_ge s ltac:(lia)).
    pose proof (subdivision_div s ltac:(lia)).
    pose proof (proj1 (Z.log2_lt_pow2 s 30 ltac:(lia)) ltac:(lia)). lia.
Qed.

Lemma cls_mono s t : 0 <= s <= t -> t < 2 ^ 31 -> cls s <= cls t.
Proof.
  intros Hs Ht. destruct (Z.lt_ge_cases t 128).
  { rewrite !cls_small by lia. apply Z.div_le_mono; lia. }
  rewrite (cls_large t) by lia. pose proof (subdivision_div t ltac:(lia)). pose proof (log2_ge t ltac:(lia)).
  destruct (Z.lt_ge_cases s 128).
  { rewrite cls_small by lia. pose proof (Z.div_lt_upper_bound s 4 32). lia. }
  rewrite cls_large by lia. pose proof (subdivision_div s ltac:(lia)).
  destruct (Z.eq_dec (Z.log2 s) (Z.log2 t)) as [->|Hne].
  - pose proof (Z.div_le_mono s t (2 ^ (Z.log2 t - 5)) ltac:(apply Z.pow_pos_nonneg; lia) ltac:(lia)). lia.
  - pose proof (Z.log2_le_mono s t ltac:(lia)). lia.
Qed.

(** The size a request is rounded up to before its class is taken. *)
Definition round_size (s : Z) : Z := if 128 <=? s then s + 2 ^ (Z.log2 s - 5) - 1 else s.

Lemma mapping_search_round s : 0 <= s <= 2 ^ 30 -> mapping_search s = mapping_insert (round_size s).
Proof.
  intros Hs. unfold mapping_search, round_size. change NOD_MMHEAP_SMALL_BLOCK_SIZE with 128.
  destruct (Z.leb_spec 128 s); [|done]. unfold u32. rewrite unsigned_small, fls_log2 by lia.
  change NOD_MMHEAP_SL_INDEX_COUNT_LOG2 with 5. pose proof (log2_ge s ltac:(lia)).
  assert (Z.log2 s <= 30) by (change 30 with (Z.log2 (2 ^ 30)); by apply Z.log2_le_mono; lia).
  rewrite Z.shiftl_mul_pow2, Z.mul_1_l by lia.
  assert (0 < 2 ^ (Z.log2 s - 5) <= 2 ^ 25) by (split; [apply Z.pow_pos_nonneg; lia|apply Z.pow_le_mono_r; lia]).
  unfold s32, u64. rewrite signed_small by lia. rewrite !unsigned_small by (rewrite ?unsigned_small; lia).
  f_equal. lia.
Qed.

Lemma round_size_bounds s : 0 <= s <= 2 ^ 30 -> s <= round_size s < 2 ^ 31.
Proof.
  intros Hs. unfold round_size. destruct (Z.leb_spec 128 s); [|lia].
  destruct (subdivision s) as (Hd & Hlo & Hhi); [lia|]. lia.
Qed.

(** Good fit: a block whose class is not below the class that is searched for is
    large enough. *)
Lemma search_fits s t : 0 < s <= 2 ^ 30 -> 0 <= t < 2 ^ 31 -> s mod 4 = 0 -> t mod 4 = 0 ->
  cls (round_size s) <= cls t -> s <= t.
Proof.
  intros Hs Ht Hs4 Ht4 Hc. destruct (Z.le_gt_cases s t) as [|Hlt]; [done|]. exfalso. revert Hc. apply Z.lt_nge.
  unfold round_size. destruct (Z.leb_spec 128 s) as [Hbig|].
  2:{ rewrite !cls_small by lia. apply Z.div_exact in Hs4, Ht4; lia. }
  destruct (subdivision s) as (Hd & Hlo & Hhi); [lia|]. set (d := 2 ^ (Z.log2 s - 5)) in *.
  pose proof (log2_ge s Hbig).
  assert (cls t <= 32 * (Z.log2 s - 6) + (s - 1) / d - 32) as Hct.
  { transitivity (cls (s - 1)); [apply cls_mono; lia|]. destruct (Z.eq_dec s 128) as [->|].
    - by vm_compute.
    - rewrite cls_large by lia. pose proof (subdivision_div (s - 1) ltac:(lia)).
      pose proof (Z.log2_le_mono (s - 1) s ltac:(lia)).
      destruct (Z.eq_dec (Z.log2 (s - 1)) (Z.log2 s)) as [->|]; [fold d; lia|].
      assert (31 <= (s - 1) / d) by (apply Z.div_le_lower_bound; lia). lia. }
  apply Z.le_lt_trans with (1 := Hct).
  assert (s + d - 1 < 2 ^ 31) by lia.
  assert ((s + d - 1) / d = (s - 1) / d + 1) as Ed.
  { replace (s + d - 1) with (s - 1 + 1 * d) by lia. by rewrite Z.div_add by lia. }
  destruct (Z.lt_ge_cases (s + d - 1) (64 * d)) as [Hin|Hout].
  - assert (Z.log2 (s + d - 1) = Z.log2 s) as El.
    { apply Z.log2_unique; [lia|]. rewrite Z.pow_succ_r by lia.
      replace (2 ^ Z.log2 s) with (32 * d); [lia|].
      unfold d. change 32 with (2 ^ 5). rewrite <- Z.pow_add_r by lia. f_equal. lia. }
    rewrite cls_large by lia. rewrite El. fold d. rewrite Ed. lia.
  - assert (2 ^ (Z.log2 s + 1) = 64 * d) as Ep.
    { unfold d. change 64 with (2 ^ 6). rewrite <- Z.pow_add_r by lia. f_equal. lia. }
    assert (cls (64 * d) <= cls (s + d - 1)) as Hm by (apply cls_mono; lia).
    apply Z.lt_le_trans with (2 := Hm). rewrite cls_large by lia.
    rewrite <- Ep, Z.log2_pow2 by lia.
    replace (2 ^ (Z.log2 s + 1) / 2 ^ (Z.log2 s + 1 - 5)) with 32.
    2:{ rewrite <- Z.pow_sub_r by lia. replace (Z.log2 s + 1 - (Z.log2 s + 1 - 5)) with 5 by lia. done. }
    assert ((s - 1) / d < 64) by (apply Z.div_lt_upper_bound; lia). lia.
Qed.
