(* ===== verification/MmheapInv.v ===== *)
(** * The invariant of the heap

    The headers in memory describe a map [A] from the addresses of the blocks to
    their sizes and states ([phys]); the blocks of a pool lie one behind the other,
    the last one being a sentinel of size 0 ([layout]); and the free lists and
    bitmaps list exactly the free blocks of each class ([lists]), but for a set [X]
    of blocks that an operation has taken out. *)

From S2P Require Import Prelude ByteMem Mmheap MmheapClass.

Local Open Scope Z_scope.

(** ** Blocks *)

(** A block: its size, and the bits [CURR_FREE] and [PREV_FREE] of its header. *)
Record blk : Type := Blk { k_size : Z; k_free : bool; k_prev : bool }.
Notation blks := (gmap Z blk).

Definition hdr (k : blk) : Z := k_size k + Z.b2z (k_free k) + 2 * Z.b2z (k_prev k).

Definition with_free (f : bool) (k : blk) : blk := Blk (k_size k) f (k_prev k).
Definition with_prev (p : bool) (k : blk) : blk := Blk (k_size k) (k_free k) p.

(** A size that a header can hold. *)
Definition size_ok (s : Z) : Prop := 0 <= s < 2 ^ 30 /\ s mod 4 = 0.

Section inv.
Variable block_null : Z.

(** Block [b] owns its header, its payload and the link of the block behind it to
    itself: the bytes from [b + 8] to [b + 16 + size]. *)
Definition apart (A : blks) : Prop := forall b1 b2 k1 k2,
  A !! b1 = Some k1 -> A !! b2 = Some k2 -> b1 <> b2 ->
  b1 + 8 + k_size k1 <= b2 \/ b2 + 8 + k_size k2 <= b1.

(** A pool: the address of its memory and the size of the block it starts as. *)
Definition pool_ok (p : Z * Z) : Prop :=
  8 < p.1 /\ p.1 mod 4 = 0 /\ size_ok p.2 /\ 24 <= p.2 /\ p.1 + p.2 + 16 < 2 ^ 64.

Record layout (P : list (Z * Z)) (A : blks) : Prop := {
  ly_null : 0 <= block_null /\ block_null + 32 < 2 ^ 64;
  ly_pools : Forall pool_ok P;
  ly_pools_apart : forall p q, In p P -> In q P -> p <> q -> p.1 + p.2 + 16 <= q.1 \/ q.1 + q.2 + 16 <= p.1;
  ly_blk : forall b k, A !! b = Some k ->
    b mod 4 = 0 /\ size_ok (k_size k) /\ (k_size k = 0 /\ k_free k = false \/ 24 <= k_size k);
  ly_pool : forall b k, A !! b = Some k -> exists p, In p P /\ p.1 - 8 <= b /\
    (if k_size k =? 0 then b = p.1 + p.2 else b + 8 + k_size k <= p.1 + p.2);
  ly_apart : apart A;
  ly_off_null : forall b k, A !! b = Some k -> block_null + 32 <= b + 8 \/ b + 16 + k_size k <= block_null;
  ly_next : forall b k, A !! b = Some k -> k_size k <> 0 ->
    exists n, A !! (b + 8 + k_size k) = Some n /\ k_prev n = k_free k;
  ly_prev : forall b k, A !! b = Some k -> k_prev k = true ->
    exists p kp, A !! p = Some kp /\ k_free kp = true /\ p + 8 + k_size kp = b;
  ly_first : forall p, In p P -> is_Some (A !! (p.1 - 8))
}.

Record phys (m : bmem) (A : blks) : Prop := {
  ph_hdr : forall b k, A !! b = Some k -> rd m (b + 8) = Some (hdr k);
  ph_map : forall b k, A !! b = Some k -> mapped m (b + 8) (8 + k_size k);
  ph_link : forall b k, A !! b = Some k -> k_free k = true -> rd m (b + 8 + k_size k) = Some b
}.

(** ** Free lists *)

(** The nodes [l] are linked in both directions, with [prev] in front. *)
Fixpoint dlist (m : bmem) (prev : Z) (l : list Z) : Prop :=
  match l with
  | [] => True
  | b :: l => rd m (b + 24) = Some prev /\ rd m (b + 16) = Some (hd block_null l) /\ dlist m b l
  end.

Definition nonempty {T} (l : list T) : bool := match l with [] => false | _ => true end.

Definition in_range (fl sl : Z) : Prop := 0 <= fl < 24 /\ 0 <= sl < 32.

(** [b] is a free block of size [s] that no operation has taken out. *)
Definition listed (A : blks) (X : gset Z) (b s : Z) : Prop :=
  exists k, A !! b = Some k /\ k_free k = true /\ b ∉ X /\ k_size k = s.

Record lists (c : nod_mmheap_ctl_t) (m : bmem) (A : blks) (X : gset Z) (L : Z -> Z -> list Z) : Prop := {
  ls_null : mapped m block_null 32;
  ls_rows : zlen (sl_bitmap c) = 24;
  ls_shape : zlen (blocks c) = 24 /\ forall fl row, zget (blocks c) fl = Some row -> zlen row = 32;
  ls_head : forall fl sl, in_range fl sl -> get_block c fl sl = Some (hd block_null (L fl sl));
  ls_links : forall fl sl, in_range fl sl -> dlist m block_null (L fl sl);
  ls_nodup : forall fl sl, in_range fl sl -> List.NoDup (L fl sl);
  ls_mem : forall fl sl b, in_range fl sl ->
    (In b (L fl sl) <-> exists s, listed A X b s /\ mapping_insert s = (fl, sl));
  ls_sl : forall fl, 0 <= fl < 24 -> exists w, zget (sl_bitmap c) fl = Some w /\ 0 <= w < 2 ^ 32 /\
    (forall sl, 0 <= sl < 32 -> Z.testbit w sl = nonempty (L fl sl)) /\
    Z.testbit (fl_bitmap c) fl = negb (w =? 0);
  ls_fl : 0 <= fl_bitmap c < 2 ^ 24
}.

Record inv (h : heap) (P : list (Z * Z)) (A : blks) (X : gset Z) : Prop := {
  inv_layout : layout P A;
  inv_phys : phys (hp_mem h) A;
  inv_lists : exists L, lists (hp_ctl h) (hp_mem h) A X L;
  inv_pools : ztake (pool_cnt (hp_ctl h)) (pool_start (hp_ctl h)) = P.*1 /\
    pool_cnt (hp_ctl h) = zlen P /\ zlen (pool_start (hp_ctl h)) = 3
}.

(** Free blocks are never neighbours. *)
Definition coalesced (A : blks) : Prop := forall b k n,
  A !! b = Some k -> k_free k = true -> A !! (b + 8 + k_size k) = Some n -> k_free n = false.

(** The live allocations: the pointers [malloc] returned, with the sizes of their
    blocks. *)
Definition live (A : blks) (U : gmap Z Z) : Prop := forall p s,
  U !! p = Some s <-> exists k, A !! (p - 16) = Some k /\ k_free k = false /\ k_size k = s /\ s <> 0.

(** What holds of the heap between two calls. *)
Definition heap_ok (h : heap) (P : list (Z * Z)) (U : gmap Z Z) : Prop :=
  exists A, inv h P A ∅ /\ coalesced A /\ live A U.
End inv.

(** ** Monadic steps *)

Lemma bind_done {S T V} (m : M S T) (f : T -> M S V) s a s' : m s = Done a s' -> (m ≫= f) s = f a s'.
Proof. intros E. unfold mbind, M_bind. by rewrite E. Qed.

Lemma bind_get {S V} (f : S -> M S V) s : (get ≫= f) s = f s s.
Proof. done. Qed.

(** Run the next statement with a lemma about it. *)
Ltac run H := erewrite bind_done by (H).

(** ** Headers *)

Section headers.
Context (k : blk) (Hk : size_ok (k_size k)).

Lemma hdr_bound : 0 <= hdr k < 2 ^ 64.
Proof. destruct Hk. unfold hdr. destruct (k_free k), (k_prev k); cbn [Z.b2z]; lia. Qed.

Lemma hdr_mod : hdr k mod 4 = Z.b2z (k_free k) + 2 * Z.b2z (k_prev k).
Proof.
  destruct Hk as [_ H4]. unfold hdr. rewrite <- Z.add_assoc, <- Zplus_mod_idemp_l, H4.
  by destruct (k_free k), (k_prev k).
Qed.

Lemma hdr_size : hdr k &! NOD_MMHEAP_BLOCK_SIZE_MASK = k_size k.
Proof.
  change NOD_MMHEAP_BLOCK_SIZE_MASK with (2 ^ 64 - 2 ^ 2). rewrite land_high by (lia || apply hdr_bound).
  pose proof hdr_mod as E. pose proof (Z.div_mod (hdr k) (2 ^ 2) ltac:(lia)) as D.
  change (2 ^ 2) with 4 in *. rewrite E in D. unfold hdr in D at 1. lia.
Qed.

Lemma hdr_state : hdr k &! NOD_MMHEAP_BLOCK_STATE_MASK = Z.b2z (k_free k) + 2 * Z.b2z (k_prev k).
Proof. change NOD_MMHEAP_BLOCK_STATE_MASK with (Z.ones 2). rewrite Z.land_ones by lia. apply hdr_mod. Qed.
End headers.

(** ** State bits *)

Lemma quad_testbit q v i : 0 <= v < 4 -> 0 <= i ->
  Z.testbit (4 * q + v) i = if i <? 2 then Z.testbit v i else Z.testbit q (i - 2).
Proof.
  intros Hv Hi. replace (4 * q + v) with (v + q * 2 ^ 2) by lia.
  destruct (Z.ltb_spec i 2).
  - rewrite <- (Z.mod_pow2_bits_low (v + q * 2 ^ 2) 2 i), Z.mod_add, Z.mod_small by lia. done.
  - replace i with (i - 2 + 2) at 1 by lia. rewrite <- Z.div_pow2_bits by lia.
    rewrite Z.div_add, Z.div_small by lia. done.
Qed.

Lemma small_testbit c i : 0 <= c < 4 -> 2 <= i -> Z.testbit c i = false.
Proof. intros. replace c with (4 * 0 + c) by lia. rewrite quad_testbit by lia. destruct (Z.ltb_spec i 2); [lia|apply Z.bits_0]. Qed.

Lemma lor_quad q v c : 0 <= v < 4 -> 0 <= c < 4 -> 0 <= v |! c < 4 -> (4 * q + v) |! c = 4 * q + (v |! c).
Proof.
  intros Hv Hc Hvc. apply Z.bits_inj'. intros i Hi. rewrite Z.lor_spec, !quad_testbit, Z.lor_spec by done.
  destruct (Z.ltb_spec i 2); [done|]. by rewrite (small_testbit c), orb_false_r by lia.
Qed.

Lemma ldiff_quad q v c : 0 <= v < 4 -> 0 <= c < 4 -> 0 <= Z.ldiff v c < 4 -> Z.ldiff (4 * q + v) c = 4 * q + Z.ldiff v c.
Proof.
  intros Hv Hc Hvc. apply Z.bits_inj'. intros i Hi. rewrite Z.ldiff_spec, !quad_testbit, Z.ldiff_spec by done.
  destruct (Z.ltb_spec i 2); [done|]. by rewrite (small_testbit c), andb_true_r by lia.
Qed.

Lemma land_lnot64 a c : 0 <= a < 2 ^ 64 -> a &! u64 (Z.lnot c) = Z.ldiff a c.
Proof. intros. rewrite u64_land, land_trunc by lia. by rewrite Z.ldiff_land. Qed.

Section bits.
Context (k : blk) (Hk : size_ok (k_size k)).

Lemma hdr_quad : exists q, k_size k = 4 * q.
Proof. destruct Hk as [_ H4]. exists (k_size k / 4). pose proof (Z.div_mod (k_size k) 4). lia. Qed.

Ltac by_quad := destruct hdr_quad as [q E]; unfold hdr, with_free, with_prev; cbn [k_size k_free k_prev]; rewrite E;
  rewrite <- !Z.add_assoc; destruct (k_free k), (k_prev k); cbn [Z.b2z];
  rewrite ?lor_quad, ?ldiff_quad by (by cbn); by cbn.

Lemma hdr_set_free : hdr k |! NOD_MMHEAP_BLOCK_CURR_FREE = hdr (with_free true k).
Proof. unfold NOD_MMHEAP_BLOCK_CURR_FREE. by_quad. Qed.

Lemma hdr_set_prev_free : hdr k |! NOD_MMHEAP_BLOCK_PREV_FREE = hdr (with_prev true k).
Proof. unfold NOD_MMHEAP_BLOCK_PREV_FREE. by_quad. Qed.

Lemma hdr_set_used : hdr k &! u64 (Z.lnot NOD_MMHEAP_BLOCK_CURR_FREE) = hdr (with_free false k).
Proof. rewrite land_lnot64 by (by apply hdr_bound). unfold NOD_MMHEAP_BLOCK_CURR_FREE. by_quad. Qed.

Lemma hdr_set_prev_used : hdr k &! u64 (Z.lnot NOD_MMHEAP_BLOCK_PREV_FREE) = hdr (with_prev false k).
Proof. rewrite land_lnot64 by (by apply hdr_bound). unfold NOD_MMHEAP_BLOCK_PREV_FREE. by_quad. Qed.

Lemma hdr_is_free : has (hdr k) NOD_MMHEAP_BLOCK_CURR_FREE = k_free k.
Proof.
  unfold has, ctrue. change NOD_MMHEAP_BLOCK_CURR_FREE with (Z.ones 1). rewrite Z.land_ones by lia.
  destruct hdr_quad as [q E]. unfold hdr. rewrite E.
  replace (4 * q + Z.b2z (k_free k) + 2 * Z.b2z (k_prev k)) with (Z.b2z (k_free k) + (2 * q + Z.b2z (k_prev k)) * 2 ^ 1) by lia.
  rewrite Z.mod_add by lia. by destruct (k_free k).
Qed.

Lemma hdr_is_prev_free : has (hdr k) NOD_MMHEAP_BLOCK_PREV_FREE = k_prev k.
Proof.
  unfold has, ctrue. replace (hdr k &! NOD_MMHEAP_BLOCK_PREV_FREE) with ((hdr k &! NOD_MMHEAP_BLOCK_STATE_MASK) &! NOD_MMHEAP_BLOCK_PREV_FREE).
  - rewrite hdr_state by done. by destruct (k_free k), (k_prev k).
  - by rewrite <- Z.land_assoc.
Qed.
End bits.

(** What [blk_set_size] leaves in a header of unknown state. *)
Lemma set_size_hdr w s : size_ok s -> exists f p, s |! (w &! NOD_MMHEAP_BLOCK_STATE_MASK) = hdr (Blk s f p).
Proof.
  intros [Hs H4]. change NOD_MMHEAP_BLOCK_STATE_MASK with (Z.ones 2). rewrite Z.land_ones by lia.
  change (2 ^ 2) with 4. pose proof (Z.mod_pos_bound w 4 ltac:(lia)) as Hw. set (v := w mod 4) in *.
  pose proof (Z.div_mod s 4 ltac:(lia)) as D. rewrite H4 in D.
  replace (s |! v) with ((4 * (s / 4) + 0) |! v) by (by rewrite <- D). rewrite lor_quad by (rewrite ?Z.lor_0_l; lia).
  rewrite Z.lor_0_l. exists (Z.odd v), (2 <=? v). unfold hdr. cbn [k_size k_free k_prev].
  assert (v = 0 \/ v = 1 \/ v = 2 \/ v = 3) as [->|[->|[->| ->]]] by lia; cbn; lia.
Qed.

Lemma set_size_same k s : size_ok s -> size_ok (k_size k) ->
  s |! (hdr k &! NOD_MMHEAP_BLOCK_STATE_MASK) = hdr (Blk s (k_free k) (k_prev k)).
Proof.
  intros [Hs H4] Hk. rewrite hdr_state by done. pose proof (Z.div_mod s 4 ltac:(lia)) as D. rewrite H4 in D.
  unfold hdr. cbn [k_size k_free k_prev].
  replace (s |! _) with ((4 * (s / 4) + 0) |! (Z.b2z (k_free k) + 2 * Z.b2z (k_prev k))) by (by rewrite <- D).
  rewrite lor_quad.
  - rewrite Z.lor_0_l. lia.
  - lia.
  - destruct (k_free k), (k_prev k); by cbn.
  - rewrite Z.lor_0_l. destruct (k_free k), (k_prev k); by cbn.
Qed.
