(* ===== verification/MmheapLayout.v ===== *)
(** * Changes of the layout of a heap

    Marking a block, splitting it and merging two neighbours, as functions on the map
    of the blocks; each keeps [layout]. *)

From S2P Require Import Prelude ByteMem Mmheap MmheapClass MmheapInv.

Local Open Scope Z_scope.

(** Marks block [b] as free or used, in its own header and in that of the next block [n]. *)
Definition set_status (b n : Z) (f : bool) (A : blks) : blks :=
  alter (with_prev f) n (alter (with_free f) b A).

(** Cuts block [b], whose next block is [n], to size [s]; the rest is a free block. *)
Definition split_at (b n s : Z) (k : blk) (A : blks) : blks :=
  <[b + 8 + s := Blk (k_size k - s - 8) true (k_free k)]> (<[b := Blk s (k_free k) (k_prev k)]> (alter (with_prev true) n A)).

(** Joins block [b] to its predecessor [a]; [n] is the block behind [b]. *)
Definition join (a b n : Z) (ka kb : blk) (A : blks) : blks :=
  alter (with_prev (k_free ka)) n
    (<[a := Blk (k_size ka + 8 + k_size kb) (k_free ka) (k_prev ka)]> (delete b A)).

Section layout.
Context {block_null : Z} {P : list (Z * Z)} {A : blks} (Hl : layout block_null P A).

Lemma layout_addr b k : A !! b = Some k -> 0 < b /\ b + 16 + k_size k < 2 ^ 64 /\ 0 <= k_size k < 2 ^ 30.
Proof.
  intros Hb. destruct (ly_pool _ _ _ Hl b k Hb) as (p & Hp & Hlo & Hhi).
  destruct (ly_blk _ _ _ Hl b k Hb) as (_ & [Hs _] & _).
  pose proof (proj1 (List.Forall_forall _ _) (ly_pools _ _ _ Hl) p Hp) as (H8 & _ & _ & _ & Hend).
  destruct (Z.eqb_spec (k_size k) 0); lia.
Qed.

Lemma layout_size b k : A !! b = Some k -> size_ok (k_size k).
Proof. intros Hb. apply (ly_blk _ _ _ Hl b k Hb). Qed.

(** A block with a size has one behind it, and it is its only predecessor. *)
Lemma layout_next b k : A !! b = Some k -> 24 <= k_size k ->
  exists n, A !! (b + 8 + k_size k) = Some n /\ k_prev n = k_free k.
Proof. intros Hb Hs. apply (ly_next _ _ _ Hl b k Hb). lia. Qed.

Lemma layout_pred_unique b1 b2 k1 k2 : A !! b1 = Some k1 -> A !! b2 = Some k2 ->
  b1 + 8 + k_size k1 = b2 + 8 + k_size k2 -> b1 = b2.
Proof.
  intros H1 H2 E. destruct (Z.eq_dec b1 b2) as [|Hne]; [done|].
  destruct (layout_addr _ _ H1), (layout_addr _ _ H2).
  destruct (ly_apart _ _ _ Hl b1 b2 k1 k2 H1 H2 Hne); lia.
Qed.

Lemma layout_free b k : A !! b = Some k -> k_free k = true -> 24 <= k_size k.
Proof. intros Hb Hf. destruct (ly_blk _ _ _ Hl b k Hb) as (_ & _ & [[_ Hu]|]); [congruence|done]. Qed.

Lemma layout_apart b1 b2 k1 k2 : A !! b1 = Some k1 -> A !! b2 = Some k2 -> b1 <> b2 ->
  b1 + 8 + k_size k1 <= b2 \/ b2 + 8 + k_size k2 <= b1.
Proof. apply (ly_apart _ _ _ Hl). Qed.
End layout.

(** A change that keeps the addresses and sizes of all blocks. *)
Definition same_sizes (A A' : blks) : Prop := forall b, k_size <$> A' !! b = k_size <$> A !! b.

Lemma same_sizes_lookup A A' b k' : same_sizes A A' -> A' !! b = Some k' -> exists k, A !! b = Some k /\ k_size k = k_size k'.
Proof. intros H E. specialize (H b). rewrite E in H. destruct (A !! b) as [k|]; [|done]. exists k. split; [done|]. by injection H. Qed.

Lemma set_status_sizes b n f A : same_sizes A (set_status b n f A).
Proof.
  intros x. unfold set_status. rewrite !lookup_alter.
  repeat case_decide; subst; destruct (A !! _); done.
Qed.

Lemma set_status_lookup b n f A x : b <> n ->
  set_status b n f A !! x =
    if decide (x = n) then with_prev f <$> A !! n else if decide (x = b) then with_free f <$> A !! b else A !! x.
Proof.
  intros Hne. unfold set_status. rewrite !lookup_alter.
  repeat case_decide; subst; try done.
Qed.

Lemma set_status_layout block_null P A b k f : layout block_null P A -> A !! b = Some k -> 24 <= k_size k ->
  layout block_null P (set_status b (b + 8 + k_size k) f A).
Proof.
  intros Hl Hb Hs. pose proof (set_status_sizes b (b + 8 + k_size k) f A) as Hss.
  destruct (layout_next Hl b k Hb Hs) as (kn & Hn & Hpn). set (n := b + 8 + k_size k) in *.
  assert (b <> n) as Hbn by (unfold n; lia).
  pose proof (set_status_lookup b n f A) as Hlk. set (A' := set_status b n f A) in *. destruct Hl as [HN HP HPa HB HPo HA HO Hnx Hpv HF].
  constructor; try done.
  - intros x kx Hx. destruct (same_sizes_lookup _ _ _ _ Hss Hx) as (k0 & H0 & E). rewrite <- E.
    destruct (HB x k0 H0) as (? & ? & Hor). split; [done|]. split; [done|].
    rewrite Hlk in Hx by done. repeat case_decide; subst.
    + rewrite Hn in Hx, H0. injection Hx as <-. injection H0 as <-. done.
    + rewrite Hb in Hx, H0. injection Hx as <-. injection H0 as <-. right. lia.
    + rewrite H0 in Hx. by injection Hx as <-.
  - intros x kx Hx. destruct (same_sizes_lookup _ _ _ _ Hss Hx) as (k0 & H0 & E). rewrite <- E. by apply HPo.
  - intros x y kx ky Hx Hy Hne. destruct (same_sizes_lookup _ _ _ _ Hss Hx) as (k0 & H0 & <-).
    destruct (same_sizes_lookup _ _ _ _ Hss Hy) as (k1 & H1 & <-). by apply HA.
  - intros x kx Hx. destruct (same_sizes_lookup _ _ _ _ Hss Hx) as (k0 & H0 & <-). by apply HO.
  - intros x kx Hx Hsx. destruct (same_sizes_lookup _ _ _ _ Hss Hx) as (k0 & H0 & E).
    destruct (Hnx x k0 H0) as (nx & Hnx0 & Hpx); [lia|]. rewrite E in Hnx0.
    destruct (HB x k0 H0) as (_ & [Hk0 _] & _). rewrite Hlk by done.
    case_decide as Exn; [|case_decide as Exb]; rewrite Hlk in Hx by done.
    + destruct (decide (x = b)) as [->|Hxb].
      * rewrite Hn. exists (with_prev f kn). split; [done|].
        case_decide; [done|]. rewrite Hb in Hx. by injection Hx as <-.
      * exfalso. destruct (HA x b k0 k H0 Hb Hxb); unfold n in *; lia.
    + exists (with_free f k). rewrite Hb. split; [done|]. repeat case_decide; try lia. rewrite H0 in Hx. injection Hx as <-.
      rewrite Exb, Hb in Hnx0. by injection Hnx0 as <-.
    + exists nx. split; [done|]. repeat case_decide; subst.
      * rewrite Hn in Hx, H0. injection Hx as <-. injection H0 as <-. done.
      * exfalso. apply Exn. rewrite Hb in Hx. injection Hx as <-. done.
      * rewrite H0 in Hx. by injection Hx as <-.
  - intros x kx Hx Hp. rewrite Hlk in Hx by done. case_decide as Exn; [|].
    + subst x. rewrite Hn in Hx. injection Hx as <-. cbn in Hp. subst f. exists b, (with_free true k).
      split; [|done]. rewrite Hlk by done. case_decide; [done|]. case_decide; [|done]. by rewrite Hb.
    + assert (exists k0, A !! x = Some k0 /\ k_prev k0 = true) as (k0 & H0 & Hp0).
      { case_decide; [subst; rewrite Hb in Hx; injection Hx as <-; by exists k|by exists kx]. }
      clear Hx Hp.
      destruct (Hpv x k0 H0 Hp0) as (p & kp & Hkp & Hfp & Ep).
      assert (p <> b) by (intros ->; rewrite Hb in Hkp; injection Hkp as <-; done).
      destruct (decide (p = n)) as [->|].
      * rewrite Hn in Hkp. injection Hkp as <-. exists n, (with_prev f kn). split; [|done].
        rewrite Hlk by done. case_decide; [by rewrite Hn|done].
      * exists p, kp. split; [|done]. rewrite Hlk by done. by repeat case_decide.
  - intros p Hp. destruct (HF p Hp) as [k0 H0]. specialize (Hss (p.1 - 8)). rewrite H0 in Hss.
    destruct (A' !! (p.1 - 8)); done.
Qed.

(** ** Splitting *)

Lemma split_at_lookup b n s k A x : b <> n -> b + 8 + s <> b -> b + 8 + s <> n ->
  split_at b n s k A !! x =
    if decide (x = b + 8 + s) then Some (Blk (k_size k - s - 8) true (k_free k))
    else if decide (x = b) then Some (Blk s (k_free k) (k_prev k))
    else if decide (x = n) then with_prev true <$> A !! n else A !! x.
Proof.
  intros. unfold split_at. rewrite !lookup_insert, lookup_alter.
  repeat case_decide; subst; done || congruence.
Qed.

Section split.
Context {block_null : Z} {P : list (Z * Z)} {A : blks} (Hl : layout block_null P A).
Context (b : Z) (k kn : blk) (s : Z) (Hb : A !! b = Some k).
Context (Hs : 24 <= s) (H4 : s mod 4 = 0) (HS : s + 32 <= k_size k).
Context (Hn : A !! (b + 8 + k_size k) = Some kn).

Lemma split_gap x kx : A !! x = Some kx -> x <> b -> x + 8 + k_size kx <= b \/ b + 8 + k_size k <= x.
Proof. intros Hx Hne. by destruct (layout_apart Hl x b kx k Hx Hb Hne); auto. Qed.

(** A block of the new layout: one of the two parts, or an old block. *)
Lemma split_at_cases x kx : split_at b (b + 8 + k_size k) s k A !! x = Some kx ->
  (x = b + 8 + s /\ kx = Blk (k_size k - s - 8) true (k_free k)) \/
  (x = b /\ kx = Blk s (k_free k) (k_prev k)) \/
  (exists k0, A !! x = Some k0 /\ k_size k0 = k_size kx /\ k_free k0 = k_free kx /\
     (x + 8 + k_size k0 <= b \/ b + 8 + k_size k <= x) /\
     (x = b + 8 + k_size k /\ kx = with_prev true kn \/ x <> b + 8 + k_size k /\ kx = k0)).
Proof.
  rewrite split_at_lookup by lia. intros Hx. repeat case_decide; subst.
  - left. by injection Hx as <-.
  - right. left. by injection Hx as <-.
  - right. right. rewrite Hn in Hx. injection Hx as <-. exists kn. repeat split; [done|lia|auto].
  - right. right. exists kx. repeat split; [done| |auto]. by apply split_gap.
Qed.

Lemma split_sizes : size_ok s /\ size_ok (k_size k - s - 8).
Proof.
  destruct (layout_size Hl b k Hb) as [Hk Hk4]. repeat split; try lia.
  pose proof (Z.div_mod s 4). pose proof (Z.div_mod (k_size k) 4).
  replace (k_size k - s - 8) with ((k_size k / 4 - s / 4 - 2) * 4) by lia. by apply Z.mod_mul.
Qed.

Lemma split_at_layout : layout block_null P (split_at b (b + 8 + k_size k) s k A).
Proof using Hl Hb Hs H4 HS Hn.
  destruct split_sizes as [Hsz1 Hsz2].
  pose proof (ly_blk _ _ _ Hl b k Hb) as (Hb4 & Hk & _).
  assert ((b + 8 + s) mod 4 = 0) as Hr4.
  { pose proof (Z.div_mod s 4). pose proof (Z.div_mod b 4).
    replace (b + 8 + s) with ((b / 4 + s / 4 + 2) * 4) by lia. by apply Z.mod_mul. }
  constructor; try (apply Hl).
  - intros x kx [(-> & ->)|[(-> & ->)|(k0 & H0 & E1 & E2 & _ & _)]]%split_at_cases; cbn [k_size k_free k_prev].
    + split; [done|]. split; [done|]. right. lia.
    + split; [done|]. split; [done|]. right. lia.
    + rewrite <- E1, <- E2. by apply (ly_blk _ _ _ Hl).
  - destruct (ly_pool _ _ _ Hl b k Hb) as (p & Hp & Hlo & Hhi). destruct (Z.eqb_spec (k_size k) 0); [lia|].
    intros x kx [(-> & ->)|[(-> & ->)|(k0 & H0 & E1 & E2 & _ & _)]]%split_at_cases; cbn [k_size k_free k_prev].
    + exists p. split; [done|]. destruct (Z.eqb_spec (k_size k - s - 8) 0); lia.
    + exists p. split; [done|]. destruct (Z.eqb_spec s 0); lia.
    + rewrite <- E1. by apply (ly_pool _ _ _ Hl).
  - intros x y kx ky [(-> & ->)|[(-> & ->)|(k0 & H0 & E1 & E2 & Hx & _)]]%split_at_cases
      [(-> & ->)|[(-> & ->)|(k1 & H1 & E3 & E4 & Hy & _)]]%split_at_cases Hne; cbn [k_size k_free k_prev]; try lia.
    rewrite <- E1, <- E3. by apply (layout_apart Hl).
  - pose proof (ly_off_null _ _ _ Hl b k Hb).
    intros x kx [(-> & ->)|[(-> & ->)|(k0 & H0 & E1 & E2 & Hx & _)]]%split_at_cases; cbn [k_size k_free k_prev]; try lia.
    rewrite <- E1. by apply (ly_off_null _ _ _ Hl).
  - intros x kx [(-> & ->)|[(-> & ->)|(k0 & H0 & E1 & E2 & Hx & Hcase)]]%split_at_cases Hnz; cbn [k_size k_free k_prev].
    + replace (b + 8 + s + 8 + (k_size k - s - 8)) with (b + 8 + k_size k) by lia. exists (with_prev true kn).
      rewrite split_at_lookup by lia. repeat case_decide; try lia. by rewrite Hn.
    + eexists. split; [rewrite split_at_lookup by lia; by rewrite decide_True|done].
    + rewrite <- E1 in Hnz. destruct (ly_next _ _ _ Hl x k0 H0 Hnz) as (nx & Hnx & Hpx). rewrite <- E1, <- E2.
      destruct (layout_addr Hl x k0 H0) as (_ & _ & Hsx). rewrite split_at_lookup by lia.
      destruct (decide (x = b)) as [->|Hxb]; [lia|].
      assert (x + 8 + k_size k0 <> b + 8 + k_size k) as Hnn by (intros E; apply Hxb; by apply (layout_pred_unique Hl x b k0 k)).
      repeat case_decide; try lia.
      * subst b. rewrite Hb in Hnx. injection Hnx as <-. by eexists.
      * by eexists.
  - intros x kx [(-> & ->)|[(-> & ->)|(k0 & H0 & E1 & E2 & Hx & Hcase)]]%split_at_cases Hp; cbn [k_size k_free k_prev] in *.
    + exists b, (Blk s (k_free k) (k_prev k)). split; [rewrite split_at_lookup by lia; repeat case_decide; lia || done|done].
    + destruct (ly_prev _ _ _ Hl b k Hb Hp) as (p & kp & Hkp & Hf & E). exists p, kp. split; [|done].
      destruct (layout_addr Hl p kp Hkp) as (_ & _ & ?). rewrite split_at_lookup by lia. repeat case_decide; lia || done.
    + destruct Hcase as [(-> & ->)|(Hne & ->)].
      * exists (b + 8 + s). eexists. split; [rewrite split_at_lookup by lia; by rewrite decide_True|]. cbn. split; [done|lia].
      * destruct (ly_prev _ _ _ Hl x k0 H0 Hp) as (p & kp & Hkp & Hf & E).
        assert (p <> b) by (intros ->; rewrite Hb in Hkp; injection Hkp as <-; done).
        destruct (split_gap p kp Hkp) as [|]; [done| |].
        { exists p, kp. split; [|done]. destruct (layout_addr Hl p kp Hkp) as (_ & _ & ?). rewrite split_at_lookup by lia. repeat case_decide; lia || done. }
        destruct (decide (p = b + 8 + k_size k)) as [->|].
        { rewrite Hn in Hkp. injection Hkp as <-. exists (b + 8 + k_size k), (with_prev true kn). split; [|done].
          rewrite split_at_lookup by lia. repeat case_decide; try lia. by rewrite Hn. }
        exists p, kp. split; [|done]. rewrite split_at_lookup by lia. repeat case_decide; lia || done.
  - intros p Hp. destruct (ly_first _ _ _ Hl p Hp) as [k0 H0]. rewrite split_at_lookup by lia.
    repeat case_decide; try by eexists. subst. rewrite Hn. by eexists.
Qed.
End split.

(** ** Merging *)

Lemma join_lookup a b n ka kb A x : a <> b -> b <> n -> a <> n ->
  join a b n ka kb A !! x =
    if decide (x = n) then with_prev (k_free ka) <$> A !! n
    else if decide (x = a) then Some (Blk (k_size ka + 8 + k_size kb) (k_free ka) (k_prev ka))
    else if decide (x = b) then None else A !! x.
Proof.
  intros. unfold join. rewrite lookup_alter, !lookup_insert, !lookup_delete.
  repeat case_decide; subst; done || congruence.
Qed.

Section join.
Context {block_null : Z} {P : list (Z * Z)} {A : blks} (Hl : layout block_null P A).
Context (a b n : Z) (ka kb kn : blk) (Ha : A !! a = Some ka) (Hb : A !! b = Some kb).
Context (Hsa : 24 <= k_size ka) (Hsb : 24 <= k_size kb).
Context (Eb : b = a + 8 + k_size ka) (En : n = b + 8 + k_size kb) (Hn : A !! n = Some kn).

Lemma join_gap x kx : A !! x = Some kx -> x <> a -> x <> b -> x + 8 + k_size kx <= a \/ n <= x.
Proof.
  intros Hx Hxa Hxb. destruct (layout_addr Hl x kx Hx) as (_ & _ & ?).
  destruct (layout_apart Hl x a kx ka Hx Ha Hxa), (layout_apart Hl x b kx kb Hx Hb Hxb); lia.
Qed.

Lemma join_cases x kx : join a b n ka kb A !! x = Some kx ->
  (x = a /\ kx = Blk (k_size ka + 8 + k_size kb) (k_free ka) (k_prev ka)) \/
  (exists k0, A !! x = Some k0 /\ k_size k0 = k_size kx /\ k_free k0 = k_free kx /\ x <> a /\ x <> b /\
     (x + 8 + k_size k0 <= a \/ n <= x) /\
     (x = n /\ kx = with_prev (k_free ka) kn \/ x <> n /\ kx = k0)).
Proof.
  rewrite join_lookup by lia. intros Hx. repeat case_decide; subst x || idtac; try done.
  - right. rewrite Hn in Hx. injection Hx as <-. exists kn. repeat split; lia || auto.
  - left. by injection Hx as <-.
  - right. exists kx. repeat split; auto. by apply join_gap.
Qed.

Lemma join_size : size_ok (k_size ka + 8 + k_size kb).
Proof.
  destruct (layout_size Hl a ka Ha) as [? H4a], (layout_size Hl b kb Hb) as [? H4b]. split.
  - destruct (ly_pool _ _ _ Hl a ka Ha) as (p & Hp & Hplo & Hphi), (ly_pool _ _ _ Hl b kb Hb) as (q & Hq & Hqlo & Hqhi).
    pose proof (proj1 (List.Forall_forall _ _) (ly_pools _ _ _ Hl) p Hp) as (_ & _ & [Hpz _] & _).
    destruct (Z.eqb_spec (k_size ka) 0), (Z.eqb_spec (k_size kb) 0); try lia.
    destruct (decide (p = q)) as [->|Hne]; [lia|].
    destruct (ly_pools_apart _ _ _ Hl p q Hp Hq Hne); lia.
  - pose proof (Z.div_mod (k_size ka) 4). pose proof (Z.div_mod (k_size kb) 4).
    replace (k_size ka + 8 + k_size kb) with ((k_size ka / 4 + k_size kb / 4 + 2) * 4) by lia. by apply Z.mod_mul.
Qed.

Lemma join_layout : layout block_null P (join a b n ka kb A).
Proof using Hl Ha Hb Hsa Hsb Eb En Hn.
  pose proof join_size as Hsz. pose proof (ly_blk _ _ _ Hl a ka Ha) as (Ha4 & _ & _).
  constructor; try (apply Hl).
  - intros x kx [(-> & ->)|(k0 & H0 & E1 & E2 & _)]%join_cases; cbn [k_size k_free k_prev].
    + split; [done|]. split; [done|]. right. lia.
    + rewrite <- E1, <- E2. by apply (ly_blk _ _ _ Hl).
  - destruct (ly_pool _ _ _ Hl a ka Ha) as (p & Hp & Hplo & Hphi), (ly_pool _ _ _ Hl b kb Hb) as (q & Hq & Hqlo & Hqhi).
    intros x kx [(-> & ->)|(k0 & H0 & E1 & E2 & _)]%join_cases; cbn [k_size k_free k_prev].
    + destruct (Z.eqb_spec (k_size ka) 0), (Z.eqb_spec (k_size kb) 0), (Z.eqb_spec (k_size ka + 8 + k_size kb) 0); try lia.
      exists p. split; [done|]. destruct (decide (p = q)) as [->|Hne]; [lia|].
      destruct (ly_pools_apart _ _ _ Hl p q Hp Hq Hne); lia.
    + rewrite <- E1. by apply (ly_pool _ _ _ Hl).
  - intros x y kx ky [(-> & ->)|(k0 & H0 & E1 & E2 & Hxa & Hxb & Hx & _)]%join_cases
      [(-> & ->)|(k1 & H1 & E3 & E4 & Hya & Hyb & Hy & _)]%join_cases Hne; cbn [k_size k_free k_prev]; try lia.
    rewrite <- E1, <- E3. by apply (layout_apart Hl).
  - pose proof (ly_off_null _ _ _ Hl a ka Ha) as Hoa. pose proof (ly_off_null _ _ _ Hl b kb Hb) as Hob.
    pose proof (ly_null _ _ _ Hl) as Hnull.
    intros x kx [(-> & ->)|(k0 & H0 & E1 & E2 & _)]%join_cases; cbn [k_size k_free k_prev]; try lia.
    rewrite <- E1. by apply (ly_off_null _ _ _ Hl).
  - intros x kx [(-> & ->)|(k0 & H0 & E1 & E2 & Hxa & Hxb & Hx & Hcase)]%join_cases Hnz; cbn [k_size k_free k_prev].
    + replace (a + 8 + (k_size ka + 8 + k_size kb)) with n by lia. exists (with_prev (k_free ka) kn).
      rewrite join_lookup by lia. rewrite decide_True by done. by rewrite Hn.
    + rewrite <- E1 in Hnz. destruct (ly_next _ _ _ Hl x k0 H0 Hnz) as (nx & Hnx & Hpx). rewrite <- E1, <- E2.
      destruct (layout_addr Hl x k0 H0) as (_ & _ & Hsx). rewrite join_lookup by lia.
      assert (x + 8 + k_size k0 <> n) by (intros E; apply Hxb; apply (layout_pred_unique Hl x b k0 kb H0 Hb); lia).
      assert (x + 8 + k_size k0 <> b) by (intros E; apply Hxa; apply (layout_pred_unique Hl x a k0 ka H0 Ha); lia).
      repeat case_decide; try lia; [|by eexists].
      match goal with E : _ = a |- _ => rewrite E, Ha in Hnx end. injection Hnx as <-. by eexists.
  - intros x kx [(-> & ->)|(k0 & H0 & E1 & E2 & Hxa & Hxb & Hx & Hcase)]%join_cases Hp; cbn [k_size k_free k_prev] in *.
    + destruct (ly_prev _ _ _ Hl a ka Ha Hp) as (p & kp & Hkp & Hf & E). exists p, kp. split; [|done].
      destruct (layout_addr Hl p kp Hkp) as (_ & _ & ?). rewrite join_lookup by lia. repeat case_decide; lia || done.
    + destruct Hcase as [(-> & ->)|(Hne & ->)].
      * exists a, (Blk (k_size ka + 8 + k_size kb) (k_free ka) (k_prev ka)). rewrite join_lookup by lia.
        repeat case_decide; try lia. cbn in *. split; [done|]. split; [done|lia].
      * destruct (ly_prev _ _ _ Hl x k0 H0 Hp) as (p & kp & Hkp & Hf & E).
        assert (p <> b) by (intros ->; rewrite Hb in Hkp; injection Hkp as <-; lia).
        assert (p <> a) by (intros ->; rewrite Ha in Hkp; injection Hkp as <-; lia).
        destruct (decide (p = n)) as [->|].
        { rewrite Hn in Hkp. injection Hkp as <-. exists n, (with_prev (k_free ka) kn). split; [|done].
          rewrite join_lookup by lia. rewrite decide_True by done. by rewrite Hn. }
        exists p, kp. split; [|done]. rewrite join_lookup by lia. repeat case_decide; lia || done.
  - intros p Hp. destruct (ly_first _ _ _ Hl p Hp) as [k0 H0]. rewrite join_lookup by lia.
    destruct (ly_pool _ _ _ Hl a ka Ha) as (q & Hq & Hqlo & Hqhi). destruct (Z.eqb_spec (k_size ka) 0); [lia|].
    repeat case_decide; try by eexists.
    + by rewrite Hn.
    + exfalso. destruct (decide (p = q)) as [->|Hne]; [lia|].
      pose proof (proj1 (List.Forall_forall _ _) (ly_pools _ _ _ Hl) p Hp) as (_ & _ & [? _] & _).
      destruct (ly_pools_apart _ _ _ Hl p q Hp Hq Hne); lia.
Qed.
End join.
