(* ===== verification/MmheapPhys.v ===== *)
(** * The block operations in memory

    Each operation on headers runs without a fault on a heap that satisfies the
    invariant, and its stores are those of the change of the layout. *)

From S2P Require Import Prelude ByteMem Mmheap MmheapClass MmheapInv MmheapLayout.

Local Open Scope Z_scope.

(** ** Address arithmetic *)

Lemma s32_u64 x : s32 (u64 x) = s32 x.
Proof.
  unfold s32, u64, signed, unsigned. rewrite Z.mod_mod_divide; [done|].
  exists (2 ^ 32). by vm_compute.
Qed.

Lemma offset_to_blk_ptr b d : 0 <= b -> - 2 ^ 31 <= d - 8 < 2 ^ 31 -> 0 <= b + 8 + d -> b + 16 + d < 2 ^ 64 -> b + 16 < 2 ^ 64 ->
  offset_to_blk (blk_to_ptr b) (u64 (d - NOD_MMHEAP_BLK_HEADER_OVERHEAD)) = b + 8 + d.
Proof.
  intros. unfold offset_to_blk, blk_to_ptr. rewrite s32_u64.
  change NOD_MMHEAP_BLK_START_OFFSET with 16. change NOD_MMHEAP_BLK_HEADER_OVERHEAD with 8.
  unfold u64, s32. rewrite signed_small by lia. rewrite !unsigned_small by (rewrite ?unsigned_small by lia; lia). lia.
Qed.

(** ** Loads and stores *)

Section run.
Context (c : nod_mmheap_ctl_t).

Lemma load_run m a w : rd m a = Some w -> load a (mk_heap c m) = Done w (mk_heap c m).
Proof. intros E. unfold load. rewrite bind_get. cbn [hp_mem]. by rewrite E. Qed.

Lemma store_run m a v : mapped m a 8 -> store a v (mk_heap c m) = Done tt (mk_heap c (wr m a v)).
Proof. intros E. unfold store. rewrite bind_get. cbn [hp_mem hp_ctl]. by rewrite store64_ok. Qed.

Section header.
Context (m : bmem) (b : Z) (k : blk) (Hh : rd m (b + 8) = Some (hdr k)) (Hk : size_ok (k_size k)).

Lemma blk_size_run : blk_size b (mk_heap c m) = Done (k_size k) (mk_heap c m).
Proof.
  unfold blk_size. erewrite bind_done by (by apply load_run).
  by rewrite hdr_size.
Qed.

Lemma blk_is_last_run : blk_is_last b (mk_heap c m) = Done (k_size k =? 0) (mk_heap c m).
Proof. unfold blk_is_last. by erewrite bind_done by (apply blk_size_run). Qed.

Lemma blk_is_free_run : blk_is_free b (mk_heap c m) = Done (k_free k) (mk_heap c m).
Proof. unfold blk_is_free. erewrite bind_done by (by apply load_run). by rewrite hdr_is_free. Qed.

Lemma blk_is_prev_free_run : blk_is_prev_free b (mk_heap c m) = Done (k_prev k) (mk_heap c m).
Proof. unfold blk_is_prev_free. erewrite bind_done by (by apply load_run). by rewrite hdr_is_prev_free. Qed.

Let Hm : mapped m (b + 8) 8 := rd_mapped _ _ _ Hh.

Lemma blk_set_size_run s : size_ok s ->
  blk_set_size b s (mk_heap c m) = Done tt (mk_heap c (wr m (b + 8) (hdr (Blk s (k_free k) (k_prev k))))).
Proof. intros Hs. unfold blk_set_size. erewrite bind_done by (by apply load_run). rewrite set_size_same by done. by apply store_run. Qed.

Lemma blk_set_free_run :
  blk_set_free b (mk_heap c m) = Done tt (mk_heap c (wr m (b + 8) (hdr (with_free true k)))).
Proof. unfold blk_set_free. erewrite bind_done by (by apply load_run). rewrite hdr_set_free by done. by apply store_run. Qed.

Lemma blk_set_used_run :
  blk_set_used b (mk_heap c m) = Done tt (mk_heap c (wr m (b + 8) (hdr (with_free false k)))).
Proof. unfold blk_set_used. erewrite bind_done by (by apply load_run). rewrite hdr_set_used by done. by apply store_run. Qed.

Lemma blk_set_prev_free_run :
  blk_set_prev_free b (mk_heap c m) = Done tt (mk_heap c (wr m (b + 8) (hdr (with_prev true k)))).
Proof. unfold blk_set_prev_free. erewrite bind_done by (by apply load_run). rewrite hdr_set_prev_free by done. by apply store_run. Qed.

Lemma blk_set_prev_used_run :
  blk_set_prev_used b (mk_heap c m) = Done tt (mk_heap c (wr m (b + 8) (hdr (with_prev false k)))).
Proof. unfold blk_set_prev_used. erewrite bind_done by (by apply load_run). rewrite hdr_set_prev_used by done. by apply store_run. Qed.

Context (Hb : 0 < b) (Hend : b + 16 + k_size k < 2 ^ 64).

Lemma blk_next_run : blk_next b (mk_heap c m) = Done (b + 8 + k_size k) (mk_heap c m).
Proof.
  unfold blk_next. erewrite bind_done by (apply blk_size_run). destruct Hk.
  by rewrite offset_to_blk_ptr by lia.
Qed.

Lemma blk_link_next_run : mapped m (b + 8 + k_size k) 8 ->
  blk_link_next b (mk_heap c m) = Done (b + 8 + k_size k) (mk_heap c (wr m (b + 8 + k_size k) b)).
Proof.
  intros Hl. unfold blk_link_next. erewrite bind_done by (apply blk_next_run).
  change off_prev_phys with 0. rewrite Z.add_0_r. by erewrite bind_done by (by apply store_run).
Qed.
End header.

(** The header of memory whose contents are unknown. *)
Lemma blk_set_size_fresh m b s : mapped m (b + 8) 8 -> size_ok s -> exists f p,
  blk_set_size b s (mk_heap c m) = Done tt (mk_heap c (wr m (b + 8) (hdr (Blk s f p)))).
Proof.
  intros Hm Hs. destruct (mapped_rd _ _ Hm) as [w Hw]. destruct (set_size_hdr w s Hs) as (f & p & E).
  exists f, p. unfold blk_set_size. erewrite bind_done by (by apply load_run). rewrite E. by apply store_run.
Qed.
End run.

(** ** Blocks in memory *)

(** [m'] differs from [m] at most in the bytes from [lo] to [hi]. *)
Definition within (lo hi : Z) (m m' : bmem) : Prop := forall i, i < lo \/ hi <= i -> m' !! i = m !! i.

Lemma within_refl lo hi m : within lo hi m m.
Proof. by intros i _. Qed.

Lemma within_wr lo hi m m' a v : within lo hi m m' -> lo <= a -> a + 8 <= hi -> within lo hi m (wr m' a v).
Proof. intros H Hlo Hhi i Hi. rewrite (agree_wr m' a v i 1) by lia. by apply H. Qed.

Lemma within_agree lo hi m m' a n : within lo hi m m' -> a + n <= lo \/ hi <= a -> agree m m' a n.
Proof. intros H Ha i Hi. apply H. lia. Qed.

Lemma within_trans lo hi m1 m2 m3 : within lo hi m1 m2 -> within lo hi m2 m3 -> within lo hi m1 m3.
Proof. intros H1 H2 i Hi. by rewrite H2, H1. Qed.

Lemma within_weaken lo hi lo' hi' m m' : within lo hi m m' -> lo' <= lo -> hi <= hi' -> within lo' hi' m m'.
Proof. intros H ?? i Hi. apply H. lia. Qed.

Section phys.
Context {block_null : Z} {P : list (Z * Z)} {A : blks} (Hl : layout block_null P A).
Context {m : bmem} (Hm : phys m A).

Lemma phys_ok b k : A !! b = Some k ->
  rd m (b + 8) = Some (hdr k) /\ size_ok (k_size k) /\ 0 < b /\ b + 16 + k_size k < 2 ^ 64 /\
  mapped m (b + 8) (8 + k_size k).
Proof.
  intros Hb. destruct (layout_addr Hl b k Hb) as (? & ? & ?).
  split; [by apply (ph_hdr _ _ Hm)|]. split; [by apply (layout_size Hl b k)|]. split; [done|].
  split; [done|]. by apply (ph_map _ _ Hm).
Qed.

(** Blocks elsewhere do not notice stores between [lo] and [hi]. *)
Lemma phys_elsewhere lo hi m' x kx : A !! x = Some kx -> within lo hi m m' ->
  (forall i n, mapped m i n -> mapped m' i n) ->
  hi <= x + 8 \/ x + 16 + k_size kx <= lo ->
  rd m' (x + 8) = Some (hdr kx) /\ mapped m' (x + 8) (8 + k_size kx) /\
  (k_free kx = true -> rd m' (x + 8 + k_size kx) = Some x).
Proof.
  intros Hx Hw Hmap Hout. destruct (layout_addr Hl x kx Hx) as (? & ? & ?).
  split; [|split].
  - rewrite (rd_agree m) by (eapply within_agree; [done|lia]). by apply (ph_hdr _ _ Hm).
  - apply Hmap. by apply (ph_map _ _ Hm).
  - intros Hf. rewrite (rd_agree m) by (eapply within_agree; [done|lia]). by apply (ph_link _ _ Hm).
Qed.
End phys.

(** ** Marking, splitting and merging *)

Definition grows (m m' : bmem) : Prop := forall i n, mapped m i n -> mapped m' i n.

Lemma grows_refl m : grows m m.
Proof. by intros i n. Qed.

Lemma grows_wr m m' a v : grows m m' -> grows m (wr m' a v).
Proof. intros H i n Hi. by apply mapped_wr, H. Qed.

Lemma grows_trans m1 m2 m3 : grows m1 m2 -> grows m2 m3 -> grows m1 m3.
Proof. intros H1 H2 i n Hi. by apply H2, H1. Qed.

Create HintDb heap_mem.
#[export] Hint Resolve within_refl grows_refl grows_wr : heap_mem.

(** What an operation on the blocks between [b] and [n] does to memory. *)
Definition block_step (b n : Z) (m m' : bmem) : Prop := within (b + 8) (n + 16) m m' /\ grows m m'.

Lemma block_step_trans b n m1 m2 m3 : block_step b n m1 m2 -> block_step b n m2 m3 -> block_step b n m1 m3.
Proof. intros [H1 G1] [H2 G2]. split; [by eapply within_trans|by eapply grows_trans]. Qed.

Lemma phys_intro m A : (forall x kx, A !! x = Some kx ->
    rd m (x + 8) = Some (hdr kx) /\ mapped m (x + 8) (8 + k_size kx) /\
    (k_free kx = true -> rd m (x + 8 + k_size kx) = Some x)) -> phys m A.
Proof. intros H. split; intros b k Hb; by apply H. Qed.

(** [blk_mark_as_used] on two headers. *)
Lemma mark_used_mem c m b k n kn : rd m (b + 8) = Some (hdr k) -> size_ok (k_size k) -> 24 <= k_size k -> 0 < b -> n + 8 < 2 ^ 64 -> n = b + 8 + k_size k ->
  rd m (n + 8) = Some (hdr kn) -> size_ok (k_size kn) ->
  exists m', blk_mark_as_used b (mk_heap c m) = Done tt (mk_heap c m') /\ block_step b n m m' /\
    rd m' (b + 8) = Some (hdr (with_free false k)) /\ rd m' (n + 8) = Some (hdr (with_prev false kn)) /\ rd m' n = rd m n /\
    agree m m' (b + 16) (k_size k).
Proof.
  intros Rb Hk Hs Hb Hend En Rn Hkn. unfold blk_mark_as_used. pose proof (hdr_bound (with_free false k) Hk). pose proof (hdr_bound (with_prev false kn) Hkn).
  erewrite bind_done by (apply blk_next_run with (k := k); done || lia). rewrite <- En.
  erewrite bind_done by (apply blk_set_prev_used_run with (k := kn); done).
  erewrite blk_set_used_run with (k := k) by (mem_solve || done). eexists. split; [done|].
  split; [split; [repeat (apply within_wr; [|lia|lia]); apply within_refl|auto with heap_mem]|].
  split; [mem_solve|]. split; [mem_solve|]. split; [mem_solve|]. intros i Hi. by rewrite !(agree_wr _ _ _ i 1) by lia.
Qed.

Section steps.
Context {block_null : Z} {P : list (Z * Z)} {A : blks} (Hl : layout block_null P A).
Context (c : nod_mmheap_ctl_t) {m : bmem} (Hm : phys m A).

Section mark.
Context (b : Z) (k kn : blk) (Hb : A !! b = Some k) (Hs : 24 <= k_size k).
Context (n : Z) (En : n = b + 8 + k_size k) (Hn : A !! n = Some kn).

Lemma status_mem m' f : block_step b n m m' ->
  rd m' (b + 8) = Some (hdr (with_free f k)) -> rd m' (n + 8) = Some (hdr (with_prev f kn)) ->
  (f = true -> rd m' n = Some b) -> phys m' (set_status b n f A).
Proof.
  intros [Hw Hg] Rb Rn Rl. apply phys_intro. intros x kx Hx. rewrite set_status_lookup in Hx by lia.
  destruct (layout_addr Hl _ _ Hn) as (Hn0 & Hnend & Hnsz).
  case_decide; [|case_decide].
  - subst x. rewrite Hn in Hx. injection Hx as <-. cbn [k_size k_free with_prev].
    split; [done|]. split; [apply Hg; by apply (ph_map _ _ Hm)|]. intros Hf.
    pose proof (layout_free Hl _ _ Hn Hf).
    rewrite (rd_agree m) by (eapply within_agree; [done|lia]). by apply (ph_link _ _ Hm).
  - subst x. rewrite Hb in Hx. injection Hx as <-. cbn [k_size k_free with_free].
    split; [done|]. split; [apply Hg; by apply (ph_map _ _ Hm)|]. by rewrite <- En.
  - eapply (phys_elsewhere Hl Hm); [done|done|done|].
    destruct (layout_apart Hl x b kx k Hx Hb ltac:(done)); [lia|].
    destruct (layout_addr Hl x kx Hx) as (_ & _ & ?). destruct (layout_apart Hl x _ kx kn Hx Hn ltac:(done)); lia.
Qed.

Lemma mark_as_free_run : exists m', blk_mark_as_free b (mk_heap c m) = Done tt (mk_heap c m') /\
  phys m' (set_status b n true A) /\ block_step b n m m'.
Proof using Hl Hm Hb Hs En Hn.
  destruct (phys_ok Hl Hm b k Hb) as (Rb & Hk & Hb0 & Hend & Mb).
  destruct (phys_ok Hl Hm _ kn Hn) as (Rn & Hkn & _ & _ & Mn).
  unfold blk_mark_as_free.
  erewrite bind_done by (apply blk_link_next_run; [done|done|done|done|eapply mapped_sub; [exact Mb|lia|lia]]). rewrite <- En.
  erewrite bind_done by (apply blk_set_prev_free_run with (k := kn); [mem_solve|done]).
  erewrite blk_set_free_run with (k := k) by (mem_solve || done).
  eexists. split; [done|]. pose proof (hdr_bound (with_free true k) Hk). pose proof (hdr_bound (with_prev true kn) Hkn).
  match goal with |- phys ?m' _ /\ _ => assert (block_step b n m m') as Hst end.
  { split; [|auto with heap_mem]. repeat (apply within_wr; [|lia|lia]). apply within_refl. }
  split; [|done]. apply status_mem; mem_solve.
Qed.

Lemma mark_as_used_run : exists m', blk_mark_as_used b (mk_heap c m) = Done tt (mk_heap c m') /\
  phys m' (set_status b n false A) /\ block_step b n m m' /\ agree m m' (b + 16) (k_size k).
Proof using Hl Hm Hb Hs En Hn.
  destruct (phys_ok Hl Hm b k Hb) as (Rb & Hk & Hb0 & Hend & Mb).
  destruct (phys_ok Hl Hm _ kn Hn) as (Rn & Hkn & _ & _ & Mn).
  destruct (mark_used_mem c m b k n kn) as (m' & E & Hst & R1 & R2 & _ & Ag); try done; [lia|].
  exists m'. split; [done|]. split; [by apply status_mem|done].
Qed.
End mark.

(** ** Splitting *)

Section split.
Context (b : Z) (k kn : blk) (Hb : A !! b = Some k) (s : Z).
Context (Hs : 24 <= s) (H4 : s mod 4 = 0) (HS : s + 32 <= k_size k).
Context (n : Z) (En : n = b + 8 + k_size k) (Hn : A !! n = Some kn).

Lemma split_block_mem m' : block_step b n m m' ->
  rd m' (b + 8) = Some (hdr (Blk s (k_free k) (k_prev k))) ->
  rd m' (b + 16 + s) = Some (hdr (Blk (k_size k - s - 8) true (k_free k))) ->
  rd m' n = Some (b + 8 + s) -> rd m' (n + 8) = Some (hdr (with_prev true kn)) ->
  (k_free k = true -> rd m' (b + 8 + s) = Some b) -> phys m' (split_at b n s k A).
Proof.
  intros [Hw Hg] Rb Rr Rn Rh Rl. apply phys_intro. intros x kx Hx.
  destruct (phys_ok Hl Hm b k Hb) as (_ & Hk & Hb0 & Hend & Mb). destruct (layout_addr Hl _ _ Hn) as (Hn0 & Hnend & Hnsz).
  rewrite En in Hx. apply (split_at_cases Hl b k kn s Hb Hs HS) in Hx; [|by rewrite <- En].
  destruct Hx as [(-> & ->)|[(-> & ->)|(k0 & H0 & E1 & E2 & Hgap & Hcase)]]; cbn [k_size k_free].
  - replace (b + 8 + s + 8) with (b + 16 + s) by lia. split; [done|]. split; [apply Hg; eapply mapped_sub; [exact Mb|lia|lia]|].
    intros _. by replace (b + 16 + s + (k_size k - s - 8)) with n by lia.
  - split; [done|]. split; [apply Hg; eapply mapped_sub; [exact Mb|lia|lia]|done].
  - destruct Hcase as [(-> & ->)|(Hne & ->)].
    + rewrite <- En in *. rewrite Hn in H0. injection H0 as <-. cbn [with_prev k_size k_free].
      split; [done|]. split; [apply Hg; by apply (ph_map _ _ Hm)|]. intros Hf. pose proof (layout_free Hl _ _ Hn Hf).
      rewrite (rd_agree m) by (eapply within_agree; [done|lia]). by apply (ph_link _ _ Hm).
    + eapply (phys_elsewhere Hl Hm); [done|done|done|]. destruct Hgap as [|Hgap]; [lia|].
      destruct (layout_apart Hl x n k0 kn H0 Hn ltac:(lia)); [|lia].
      destruct (layout_addr Hl x k0 H0) as (_ & _ & ?). lia.
Qed.


(** [blk_split] leaves the bit [PREV_FREE] of the rest as it was in memory. *)
Lemma split_run : exists m' p', blk_split b s (mk_heap c m) = Done (b + 8 + s) (mk_heap c m') /\
  block_step b n m m' /\
  rd m' (b + 8) = Some (hdr (Blk s (k_free k) (k_prev k))) /\
  rd m' (b + 16 + s) = Some (hdr (Blk (k_size k - s - 8) true p')) /\
  rd m' n = Some (b + 8 + s) /\ rd m' (n + 8) = Some (hdr (with_prev true kn)) /\
  agree m m' (b + 16) s.
Proof using Hl Hm Hb Hs H4 HS En Hn.
  destruct (phys_ok Hl Hm b k Hb) as (Rb & Hk & Hb0 & Hend & Mb).
  destruct (phys_ok Hl Hm n kn Hn) as (Rn & Hkn & _ & _ & Mn).
  destruct (split_sizes Hl b k s Hb Hs H4 HS) as [Hsz Hrz]. pose proof (proj1 Hsz). pose proof (proj1 Hrz).
  unfold blk_split. rewrite offset_to_blk_ptr by lia. erewrite bind_done by (by apply blk_size_run).
  change NOD_MMHEAP_BLK_HEADER_OVERHEAD with 8.
  assert (u64 (k_size k - u64 (s + 8)) = k_size k - s - 8) as ->.
  { unfold u64. rewrite !unsigned_small by (rewrite ?unsigned_small by lia; lia). lia. }
  destruct (blk_set_size_fresh c m (b + 8 + s) (k_size k - s - 8)) as (f0 & p0 & E0); [eapply mapped_sub; [exact Mb|lia|lia]|done|].
  erewrite bind_done by (apply E0). pose proof (hdr_bound (Blk (k_size k - s - 8) f0 p0) Hrz).
  erewrite bind_done by (apply blk_set_size_run with (k := k); [mem_solve|done|done]).
  pose proof (hdr_bound (Blk s (k_free k) (k_prev k)) Hsz). pose proof (hdr_bound (Blk (k_size k - s - 8) true p0) Hrz).
  pose proof (hdr_bound (with_prev true kn) Hkn).
  unfold blk_mark_as_free.
  erewrite bind_done.
  2:{ erewrite bind_done; [|apply blk_link_next_run with (k := Blk (k_size k - s - 8) f0 p0); cbn [k_size]; [mem_solve|done|lia|lia|]].
      - cbn [k_size]. replace (b + 8 + s + 8 + (k_size k - s - 8)) with n by lia.
        erewrite bind_done by (apply blk_set_prev_free_run with (k := kn); [mem_solve|done]).
        by apply blk_set_free_run with (k := Blk (k_size k - s - 8) f0 p0); [mem_solve|].
      - do 2 apply mapped_wr. eapply mapped_sub; [exact Mb|lia|lia]. }
  eexists _, p0. split; [done|].
  replace (b + 8 + s + 8) with (b + 16 + s) by lia.
  change (with_free true (Blk (k_size k - s - 8) f0 p0)) with (Blk (k_size k - s - 8) true p0).
  split; [split; [|auto 10 with heap_mem]|].
  { repeat (apply within_wr; [|lia|lia]). apply within_refl. }
  repeat split; try (by mem_solve). intros i Hi. rewrite !(agree_wr _ _ _ i 1) by lia. done.
Qed.
End split.

(** ** Merging *)

Section join.
Context (a b n : Z) (ka kb kn : blk) (Ha : A !! a = Some ka) (Hb : A !! b = Some kb).
Context (Hsa : 24 <= k_size ka) (Hsb : 24 <= k_size kb).
Context (Eb : b = a + 8 + k_size ka) (En : n = b + 8 + k_size kb) (Hn : A !! n = Some kn).

Lemma join_mem m' : block_step a n m m' ->
  rd m' (a + 8) = Some (hdr (Blk (k_size ka + 8 + k_size kb) (k_free ka) (k_prev ka))) ->
  rd m' (n + 8) = Some (hdr (with_prev (k_free ka) kn)) ->
  (k_free ka = true -> rd m' n = Some a) -> phys m' (join a b n ka kb A).
Proof.
  intros [Hw Hg] Ra Rh Rl. apply phys_intro. intros x kx Hx.
  destruct (phys_ok Hl Hm a ka Ha) as (_ & Hka & Ha0 & _ & Ma). destruct (phys_ok Hl Hm b kb Hb) as (_ & Hkb & _ & _ & Mb).
  destruct (layout_addr Hl _ _ Hn) as (Hn0 & Hnend & Hnsz).
  apply (join_cases Hl a b n ka kb kn Ha Hb Hsa Hsb Eb En Hn) in Hx.
  destruct Hx as [(-> & ->)|(k0 & H0 & E1 & E2 & Hxa & Hxb & Hgap & Hcase)]; cbn [k_size k_free].
  - split; [done|]. split.
    + apply Hg. intros i Hi. destruct (Z.lt_ge_cases i (b + 8)); [apply Ma; lia|apply Mb; lia].
    + by replace (a + 8 + (k_size ka + 8 + k_size kb)) with n by lia.
  - destruct Hcase as [(-> & ->)|(Hne & ->)].
    + rewrite Hn in H0. injection H0 as <-. cbn [with_prev k_size k_free].
      split; [done|]. split; [apply Hg; by apply (ph_map _ _ Hm)|]. intros Hf. pose proof (layout_free Hl _ _ Hn Hf).
      rewrite (rd_agree m) by (eapply within_agree; [done|lia]). by apply (ph_link _ _ Hm).
    + eapply (phys_elsewhere Hl Hm); [done|done|done|]. destruct Hgap as [|Hgap]; [lia|].
      destruct (layout_apart Hl x n k0 kn H0 Hn ltac:(lia)); [|lia].
      destruct (layout_addr Hl x k0 H0) as (_ & _ & ?). lia.
Qed.

Lemma absorb_run : exists m', blk_absorb a b (mk_heap c m) = Done a (mk_heap c m') /\
  block_step a n m m' /\
  rd m' (a + 8) = Some (hdr (Blk (k_size ka + 8 + k_size kb) (k_free ka) (k_prev ka))) /\
  rd m' n = Some a /\ rd m' (n + 8) = Some (hdr kn) /\ agree m m' (a + 16) (k_size ka).
Proof using Hl Hm Ha Hb Hsa Hsb Eb En Hn.
  destruct (phys_ok Hl Hm a ka Ha) as (Ra & Hka & Ha0 & _ & Ma). destruct (phys_ok Hl Hm b kb Hb) as (Rb & Hkb & _ & Hend & Mb).
  destruct (phys_ok Hl Hm n kn Hn) as (Rn & _ & _ & _ & _).
  pose proof (join_size Hl a b ka kb Ha Hb Hsa Hsb Eb) as Hsz. set (k' := Blk (k_size ka + 8 + k_size kb) (k_free ka) (k_prev ka)).
  pose proof (hdr_bound k' Hsz). pose proof (hdr_bound ka Hka) as Hba. pose proof (proj1 Hkb). pose proof (proj1 Hsz).
  unfold blk_absorb. erewrite bind_done by (by apply blk_size_run). erewrite bind_done by (by apply load_run).
  change NOD_MMHEAP_BLK_HEADER_OVERHEAD with 8. change off_size with 8.
  assert (u64 (hdr ka + u64 (k_size kb + 8)) = hdr k') as ->.
  { assert (hdr k' = hdr ka + (k_size kb + 8)) by (unfold hdr, k'; cbn [k_size k_free k_prev]; lia).
    unfold u64. rewrite !unsigned_small by (rewrite ?unsigned_small by lia; lia). lia. }
  erewrite bind_done by (apply store_run; eapply mapped_sub; [exact Ma|lia|lia]).
  assert (k_size k' = k_size ka + 8 + k_size kb) as Ek by done.
  erewrite bind_done by (apply blk_link_next_run with (k := k'); [by mem_solve|by rewrite Ek|done|lia|];
    apply mapped_wr; eapply mapped_sub; [exact Mb|lia|lia]).
  replace (a + 8 + k_size k') with n by lia.
  eexists. split; [done|]. split; [split; [|auto with heap_mem]|].
  { repeat (apply within_wr; [|lia|lia]). apply within_refl. }
  repeat split; try (by mem_solve). intros i Hi. rewrite !(agree_wr _ _ _ i 1) by lia. done.
Qed.
End join.
End steps.
