(* ===== verification/MmheapLists.v ===== *)
(** * The free lists

    Taking a block out of its list and putting one in keep the lists and the
    bitmaps in step with the blocks; both touch only links of free blocks. *)

From S2P Require Import Prelude ByteMem Mmheap MmheapClass MmheapInv MmheapLayout MmheapPhys.

Local Open Scope Z_scope.

(** ** Bitmaps *)

Lemma bits_lt a n : 0 <= n -> 0 <= a -> (forall i, n <= i -> Z.testbit a i = false) -> a < 2 ^ n.
Proof.
  intros Hn Ha H. replace a with (a mod 2 ^ n); [apply Z.mod_pos_bound, Z.pow_pos_nonneg; lia|].
  apply Z.bits_inj'. intros i Hi. destruct (Z.lt_ge_cases i n).
  - by rewrite Z.mod_pow2_bits_low.
  - by rewrite Z.mod_pow2_bits_high, H by lia.
Qed.

Lemma bits_above a n i : 0 <= n -> 0 <= a < 2 ^ n -> n <= i -> Z.testbit a i = false.
Proof.
  intros Hn Ha Hi. rewrite <- (Z.mod_small a (2 ^ n)) by lia. apply Z.mod_pow2_bits_high. lia.
Qed.

Lemma bit32_pow i : 0 <= i < 32 -> bit32 i = 2 ^ i.
Proof.
  intros Hi. unfold bit32, u32. rewrite Z.shiftl_mul_pow2, Z.mul_1_l by lia.
  apply unsigned_small. split; [apply Z.pow_nonneg; lia|apply Z.pow_lt_mono_r; lia].
Qed.

Section setbit.
Context (w n i : Z) (Hn : 0 <= n <= 32) (Hw : 0 <= w < 2 ^ n) (Hi : 0 <= i < n).

Lemma setbit_test j : 0 <= j -> Z.testbit (w |! bit32 i) j = Z.testbit w j || (i =? j).
Proof. intros. rewrite bit32_pow, Z.lor_spec, Z.pow2_bits_eqb by lia. done. Qed.

Lemma setbit_bound : 0 <= w |! bit32 i < 2 ^ n.
Proof.
  assert (0 <= w |! bit32 i) as H0 by (apply Z.lor_nonneg; rewrite bit32_pow by lia; split; [lia|apply Z.pow_nonneg; lia]).
  split; [done|]. apply bits_lt; [lia|done|]. intros j Hj. rewrite setbit_test by lia.
  rewrite (bits_above w n j) by lia. destruct (Z.eqb_spec i j); [lia|done].
Qed.

Lemma clearbit_ldiff : w &! clear32 i = Z.ldiff w (2 ^ i).
Proof.
  unfold clear32. rewrite Z.shiftl_mul_pow2, Z.mul_1_l by lia.
  assert (2 ^ n <= 2 ^ 32) by (apply Z.pow_le_mono_r; lia).
  rewrite u32_land, land_trunc by lia. by rewrite Z.ldiff_land.
Qed.

Lemma clearbit_test j : 0 <= j -> Z.testbit (w &! clear32 i) j = Z.testbit w j && negb (i =? j).
Proof. intros. by rewrite clearbit_ldiff, Z.ldiff_spec, Z.pow2_bits_eqb by lia. Qed.

Lemma clearbit_bound : 0 <= w &! clear32 i < 2 ^ n.
Proof.
  assert (0 <= w &! clear32 i) as H0 by (apply Z.land_nonneg; lia).
  split; [done|]. apply bits_lt; [lia|done|]. intros j Hj. rewrite clearbit_test by lia.
  by rewrite (bits_above w n j) by lia.
Qed.
End setbit.

Lemma nonzero_bit w : 0 <= w < 2 ^ 32 -> (w =? 0) = false <-> exists i, 0 <= i < 32 /\ Z.testbit w i = true.
Proof.
  intros Hw. split.
  - intros E. apply Z.eqb_neq in E. destruct (ffs_lowest w) as (? & ? & _); [lia|]. by exists (__ffs w).
  - intros (i & Hi & Ht). apply Z.eqb_neq. intros ->. by rewrite Z.bits_0 in Ht.
Qed.

(** ** Arrays *)

Section zarray.
Context {T : Type}.
Implicit Types l : list T.

Lemma zget_zset l i x : 0 <= i < zlen l -> exists l', zset l i x = Some l' /\ zlen l' = zlen l /\
  forall j, zget l' j = if j =? i then Some x else zget l j.
Proof.
  intros Hi. unfold zset. destruct (Z.leb_spec 0 i), (Z.ltb_spec i (zlen l)); try lia. cbn [andb].
  eexists. split; [done|]. unfold zlen in *. rewrite length_insert. split; [done|]. intros j. unfold zget.
  destruct (Z.leb_spec 0 j), (Z.eqb_spec j i); try lia; try done.
  - subst j. rewrite list_lookup_insert_eq by lia. done.
  - rewrite list_lookup_insert_ne by lia. done.
Qed.

Lemma zget_Some l i : 0 <= i < zlen l -> exists x, zget l i = Some x.
Proof.
  intros Hi. unfold zget, zlen in *. destruct (Z.leb_spec 0 i); [|lia]. apply lookup_lt_is_Some. lia.
Qed.
End zarray.

Definition shape (c : nod_mmheap_ctl_t) : Prop :=
  zlen (blocks c) = 24 /\ forall fl row, zget (blocks c) fl = Some row -> zlen row = 32.

Lemma set_block_ok c fl sl b : shape c -> in_range fl sl -> exists rows,
  set_block fl sl b c = Some (set_blocks rows c) /\ shape (set_blocks rows c) /\
  forall fl' sl', get_block (set_blocks rows c) fl' sl' = if (fl' =? fl) && (sl' =? sl) then Some b else get_block c fl' sl'.
Proof.
  intros [Hrows Hcols] [Hfl Hsl]. destruct (zget_Some (blocks c) fl) as [row Hrow]; [lia|].
  pose proof (Hcols _ _ Hrow) as Hcol. destruct (zget_zset row sl b) as (row' & E1 & L1 & G1); [lia|].
  destruct (zget_zset (blocks c) fl row') as (rows & E2 & L2 & G2); [lia|]. exists rows.
  unfold set_block. rewrite Hrow. cbn [mbind option_bind]. rewrite E1. cbn [mbind option_bind]. rewrite E2. cbn [mbind option_bind].
  split; [done|]. split.
  - split; [cbn [blocks set_blocks]; lia|]. cbn [blocks set_blocks]. intros fl' r'. rewrite G2.
    destruct (Z.eqb_spec fl' fl); [intros [= <-]; lia|apply Hcols].
  - intros fl' sl'. unfold get_block. cbn [blocks set_blocks]. rewrite G2.
    destruct (Z.eqb_spec fl' fl) as [->|]; cbn [andb mbind option_bind]; [|done].
    rewrite G1, Hrow. cbn [mbind option_bind]. done.
Qed.

(** ** Doubly linked lists *)

Fixpoint lastd (p : Z) (l : list Z) : Z := match l with [] => p | x :: l => lastd x l end.

Lemma lastd_in p l : l <> [] -> In (lastd p l) l.
Proof.
  destruct l as [|x l]; [done|]. intros _. cbn [lastd]. revert x.
  induction l as [|y l IH]; intros x; cbn [lastd]; [by left|right; apply IH].
Qed.

Section dlist.
Context (block_null : Z).

Lemma dlist_agree m m' p l : (forall b, In b l -> rd m' (b + 16) = rd m (b + 16) /\ rd m' (b + 24) = rd m (b + 24)) ->
  dlist block_null m p l -> dlist block_null m' p l.
Proof.
  revert p. induction l as [|b l IH]; intros p H; cbn [dlist]; [done|]. intros (H24 & H16 & Hl).
  destruct (H b) as [-> ->]; [by left|]. split; [done|]. split; [done|]. apply IH; [|done].
  intros x Hx. apply H. by right.
Qed.

(** The links of a node in the middle. *)
Lemma dlist_mid m p xs b ys : dlist block_null m p (xs ++ b :: ys) ->
  rd m (b + 24) = Some (lastd p xs) /\ rd m (b + 16) = Some (hd block_null ys).
Proof.
  revert p. induction xs as [|x xs IH]; intros p; cbn [app dlist lastd]; [naive_solver|]. intros (_ & _ & H). by apply IH.
Qed.

(** Unlinking it. *)
Lemma dlist_remove m m' p xs b ys : dlist block_null m p (xs ++ b :: ys) -> List.NoDup (p :: xs ++ b :: ys) ->
  (xs <> [] -> rd m' (lastd p xs + 16) = Some (hd block_null ys)) ->
  (forall y, In y (xs ++ ys) -> y <> lastd p xs -> rd m' (y + 16) = rd m (y + 16)) ->
  (forall y ys', ys = y :: ys' -> rd m' (y + 24) = Some (lastd p xs)) ->
  (forall y, In y (xs ++ ys) -> List.hd_error ys <> Some y -> rd m' (y + 24) = rd m (y + 24)) ->
  dlist block_null m' p (xs ++ ys).
Proof.
  revert p. induction xs as [|x xs IH]; intros p; cbn [app dlist lastd].
  - intros (_ & _ & Hd) Hnd _ H16 Hh H24. destruct ys as [|y ys]; [done|]. cbn [dlist] in *.
    destruct Hd as (_ & Hn & Hd). inversion Hnd as [|? ? Hp Hnd']. inversion Hnd' as [|? ? Hb Hnd'']. inversion Hnd'' as [|? ? Hy _]. subst.
    split; [by eapply Hh|]. split; [rewrite H16; [done|by left|intros ->; apply Hp; right; by left]|].
    eapply dlist_agree; [|done]. intros z Hz. split.
    + apply H16; [by right|]. intros ->. apply Hp. right. by right.
    + apply H24; [by right|]. cbn. intros [= ->]. done.
  - intros (Hx24 & Hx16 & Hd) Hnd Hl H16 Hh H24. inversion Hnd as [|? ? Hp Hnd']. subst.
    inversion Hnd' as [|? ? Hxin _]. subst. rewrite in_app_iff in Hxin.
    split; [rewrite H24; [done|by left|]|split].
    + intros E. apply Hxin. right. right. destruct ys; [done|]. injection E as ->. by left.
    + destruct xs as [|x' xs]; cbn [app lastd hd] in *.
      * apply Hl. done.
      * rewrite H16; [done|by left|]. intros E. apply Hxin. left. rewrite E. apply (lastd_in x (x' :: xs)). done.
    + apply IH; try done.
      * intros _. apply Hl. done.
      * intros y Hy Hne. apply H16; [by right|done].
      * intros y Hy Hne. apply H24; [by right|done].
Qed.
End dlist.

(** ** Operations *)

Section ops.
Context (block_null : Z) (P : list (Z * Z)) (A : blks) (Hl : layout block_null P A).

(** Stores to links of free blocks and of [block_null] only. *)
Definition links_only (m m' : bmem) : Prop := grows m m' /\ forall i,
  ~ (block_null + 16 <= i < block_null + 32) ->
  (forall b k, A !! b = Some k -> k_free k = true -> ~ (b + 16 <= i < b + 32)) -> m' !! i = m !! i.

(** Nodes of the lists: [block_null] and the free blocks. *)
Definition node (b : Z) : Prop := b = block_null \/ exists k, A !! b = Some k /\ k_free k = true.

Lemma links_refl m : links_only m m.
Proof. split; [apply grows_refl|done]. Qed.

Lemma links_wr m m' b d v : links_only m m' -> node b -> d = 16 \/ d = 24 -> links_only m (wr m' (b + d) v).
Proof.
  intros [Hg H] Hb Hd. split; [by apply grows_wr|]. intros i Hn Hf. rewrite (agree_wr m' (b + d) v i 1); [by apply H| |lia].
  destruct Hb as [->|(k & Hb & Hk)]; [lia|]. specialize (Hf b k Hb Hk). lia.
Qed.

Lemma node_apart b1 b2 : node b1 -> node b2 -> b1 <> b2 -> b1 + 32 <= b2 + 16 \/ b2 + 32 <= b1 + 16.
Proof using Hl.
  intros [->|(k1 & H1 & F1)] [->|(k2 & H2 & F2)] Hne; [done| | |].
  - pose proof (ly_off_null _ _ _ Hl _ _ H2). pose proof (layout_free Hl _ _ H2 F2). lia.
  - pose proof (ly_off_null _ _ _ Hl _ _ H1). pose proof (layout_free Hl _ _ H1 F1). lia.
  - pose proof (layout_free Hl _ _ H1 F1). pose proof (layout_free Hl _ _ H2 F2).
    destruct (layout_apart Hl _ _ _ _ H1 H2 Hne); lia.
Qed.

(** All blocks are mapped memory. *)
Definition blocks_mapped (m : bmem) : Prop := forall b k, A !! b = Some k -> mapped m (b + 8) (8 + k_size k).

Lemma node_mapped m b : blocks_mapped m -> mapped m block_null 32 -> node b -> mapped m (b + 16) 16.
Proof using Hl.
  intros Hm Hn [->|(k & Hb & Hf)]; [eapply mapped_sub; [done|lia|lia]|].
  pose proof (layout_free Hl _ _ Hb Hf). eapply mapped_sub; [by apply Hm|lia|lia].
Qed.

Lemma node_addr b : node b -> 0 <= b < 2 ^ 64 - 32.
Proof using Hl.
  intros [->|(k & Hb & Hf)]; [pose proof (ly_null _ _ _ Hl); lia|].
  destruct (layout_addr Hl b k Hb). pose proof (layout_free Hl _ _ Hb Hf). lia.
Qed.

(** Changing links leaves the headers alone... *)
Lemma links_words m m' x kx : links_only m m' -> A !! x = Some kx ->
  agree m m' (x + 8) 8 /\ (24 <= k_size kx -> agree m m' (x + 8 + k_size kx) 8).
Proof using Hl.
  intros [Hg Hs] Hx. destruct (layout_addr Hl x kx Hx) as (? & ? & ?).
  assert (forall a, (a = x + 8 \/ 24 <= k_size kx /\ a = x + 8 + k_size kx) -> agree m m' a 8) as Hag; [|split; auto].
  intros a Ha i Hi. apply Hs.
  - pose proof (ly_off_null _ _ _ Hl x kx Hx). lia.
  - intros b k Hb Hf. pose proof (layout_free Hl b k Hb Hf). destruct (decide (b = x)) as [->|Hne].
    + rewrite Hx in Hb. injection Hb as <-. lia.
    + destruct (layout_apart Hl b x k kx Hb Hx Hne); lia.
Qed.

Lemma links_phys m m' : phys m A -> links_only m m' -> phys m' A.
Proof using Hl.
  intros Hm Hk. apply phys_intro. intros x kx Hx. destruct (links_words m m' x kx Hk Hx) as [Hh Hn].
  split; [|split].
  - rewrite (rd_agree m) by done. by apply (ph_hdr _ _ Hm).
  - apply Hk. by apply (ph_map _ _ Hm).
  - intros Hf. rewrite (rd_agree m) by (apply Hn; by apply (layout_free Hl x kx)). by apply (ph_link _ _ Hm).
Qed.

(** ...and the memory of used blocks. *)
Lemma links_used m m' q k : links_only m m' -> A !! q = Some k -> k_free k = false -> agree m m' (q + 16) (k_size k).
Proof using Hl.
  intros [_ Hs] Hq Hu i Hi. apply Hs.
  - pose proof (ly_off_null _ _ _ Hl q k Hq). lia.
  - intros b kb Hb Hf. destruct (decide (b = q)) as [->|Hne]; [congruence|].
    pose proof (layout_free Hl b kb Hb Hf). destruct (layout_apart Hl b q kb k Hb Hq Hne); lia.
Qed.

Section members.
Context {c : nod_mmheap_ctl_t} {m : bmem} {X : gset Z} {L : Z -> Z -> list Z} (HL : lists block_null c m A X L).

Lemma listed_node b s : listed A X b s -> node b.
Proof. intros (k & Hb & Hf & _ & _). right. by exists k. Qed.

Lemma member_node fl sl b : in_range fl sl -> In b (L fl sl) -> node b.
Proof. intros Hr Hb. apply (ls_mem _ _ _ _ _ _ HL fl sl b Hr) in Hb as (s & Hs & _). by eapply listed_node. Qed.

Lemma member_not_null fl sl b : in_range fl sl -> In b (L fl sl) -> b <> block_null.
Proof using Hl HL.
  intros Hr Hb ->. apply (ls_mem _ _ _ _ _ _ HL fl sl block_null Hr) in Hb as (s & (k & Hk & Hf & _) & _).
  pose proof (ly_off_null _ _ _ Hl _ _ Hk). pose proof (layout_free Hl _ _ Hk Hf). lia.
Qed.

Lemma member_class fl sl fl' sl' b : in_range fl sl -> in_range fl' sl' -> In b (L fl sl) -> In b (L fl' sl') -> fl = fl' /\ sl = sl'.
Proof using HL.
  intros Hr Hr' (s & (k & Hk & _ & _ & Es) & E)%(ls_mem _ _ _ _ _ _ HL fl sl b Hr)
    (s' & (k' & Hk' & _ & _ & Es') & E')%(ls_mem _ _ _ _ _ _ HL fl' sl' b Hr').
  rewrite Hk in Hk'. injection Hk' as <-. subst. rewrite E in E'. by injection E'.
Qed.

Lemma head_node fl sl : in_range fl sl -> node (hd block_null (L fl sl)).
Proof using HL.
  intros Hr. destruct (L fl sl) as [|b l] eqn:E; [by left|]. apply (member_node fl sl); [done|]. rewrite E. by left.
Qed.
End members.

(** The lists do not notice stores outside of their links. *)
Lemma lists_frame c m m' A' X X' L : lists block_null c m A X L -> grows m m' ->
  (forall b s, listed A X b s <-> listed A' X' b s) ->
  (forall b s, listed A X b s -> agree m m' (b + 16) 16) ->
  lists block_null c m' A' X' L.
Proof using Hl.
  intros HL Hg Hls Hag. destruct HL as [H1 H2 H3 H4 H5 H6 H7 H8 H9]. constructor; try done.
  - by apply Hg.
  - intros fl sl Hr. eapply dlist_agree; [|by apply H5]. intros b Hb. apply (H7 fl sl b Hr) in Hb as (s & Hs & _).
    specialize (Hag b s Hs). split; apply rd_agree; (eapply agree_sub; [done|lia|lia]).
  - intros fl sl b Hr. rewrite (H7 fl sl b Hr). split; intros (s & Hs & E); exists s; (split; [by apply Hls|done]).
Qed.

Definition lupd (L : Z -> Z -> list Z) (fl sl : Z) (l : list Z) : Z -> Z -> list Z :=
  fun fl' sl' => if (fl' =? fl) && (sl' =? sl) then l else L fl' sl'.

Lemma lupd_eq L fl sl l : lupd L fl sl l fl sl = l.
Proof. unfold lupd. by rewrite !Z.eqb_refl. Qed.

Lemma lupd_ne L fl sl l fl' sl' : (fl', sl') <> (fl, sl) -> lupd L fl sl l fl' sl' = L fl' sl'.
Proof. intros Hne. unfold lupd. destruct (Z.eqb_spec fl' fl), (Z.eqb_spec sl' sl); cbn; congruence. Qed.

Lemma with_ctl_run (f : nod_mmheap_ctl_t -> option nod_mmheap_ctl_t) c c' m :
  f c = Some c' -> with_ctl f (mk_heap c m) = Done tt (mk_heap c' m).
Proof. intros E. unfold with_ctl. rewrite bind_get. cbn [hp_ctl]. by rewrite E. Qed.

(** The class of a free block is one of the arrays. *)
Lemma class_in_range b k fl sl : A !! b = Some k -> mapping_insert (k_size k) = (fl, sl) -> in_range fl sl.
Proof using Hl.
  intros Hb E. destruct (layout_size Hl b k Hb) as [Hs _]. pose proof (mapping_insert_range (k_size k) Hs) as Hr.
  rewrite E in Hr. exact Hr.
Qed.

Section insert.
Context (c : nod_mmheap_ctl_t) (m : bmem) (X : gset Z) (L : Z -> Z -> list Z) (HL : lists block_null c m A X L) (Hm : blocks_mapped m).
Context (b fl sl : Z) (k : blk) (Hb : A !! b = Some k) (Hf : k_free k = true) (HX : b ∈ X).
Context (Hc : mapping_insert (k_size k) = (fl, sl)).

Lemma listed_put x s : listed A (X ∖ {[b]}) x s <-> listed A X x s \/ x = b /\ s = k_size k.
Proof using Hb Hf HX.
  unfold listed. setoid_rewrite elem_of_difference. setoid_rewrite elem_of_singleton. split.
  - intros (k0 & Hx & Hf0 & Hin & <-). destruct (decide (x = b)) as [->|Hne].
    + right. split; [done|]. rewrite Hb in Hx. by injection Hx as <-.
    + left. exists k0. repeat split; tauto.
  - intros [(k0 & Hx & Hf0 & Hin & <-)|[-> ->]]; [exists k0|exists k]; repeat split; tauto.
Qed.

(** The links after the block was put in front of its list. *)
Lemma insert_links m' : let curr := hd block_null (L fl sl) in
  m' = wr (wr (wr m (b + 16) curr) (b + 24) block_null) (curr + 24) b ->
  forall fl' sl', in_range fl' sl' -> dlist block_null m' block_null (lupd L fl sl (b :: L fl sl) fl' sl').
Proof using Hl HL Hb Hf HX Hc.
  intros curr -> fl' sl' Hr'. pose proof (class_in_range b k fl sl Hb Hc) as Hr.
  assert (node b) as Nb by (right; by exists k). assert (node curr) as Nc by (by apply (head_node HL)).
  pose proof (node_addr _ Nb). pose proof (node_addr _ Nc). pose proof (ly_null _ _ _ Hl).
  assert (forall f' s' x, in_range f' s' -> In x (L f' s') -> x <> b) as Hnb.
  { intros f' s' x Hr0 Hx ->. apply (ls_mem _ _ _ _ _ _ HL f' s' b Hr0) in Hx as (s & (? & _ & _ & Hn & _) & _). done. }
  assert (b <> curr) as Hbc.
  { unfold curr. destruct (L fl sl) as [|x l] eqn:E; cbn [hd].
    - intros ->. pose proof (ly_off_null _ _ _ Hl _ _ Hb). pose proof (layout_free Hl _ _ Hb Hf). lia.
    - intros <-. apply (Hnb fl sl b Hr); [rewrite E; by left|done]. }
  pose proof (node_apart _ _ Nb Nc Hbc) as Hap.
  assert (forall x, node x -> x <> b -> x <> curr -> forall d, d = 16 \/ d = 24 ->
    rd (wr (wr (wr m (b + 16) curr) (b + 24) block_null) (curr + 24) b) (x + d) = rd m (x + d)) as Hoth.
  { intros x Nx Hxb Hxc d Hd. pose proof (node_apart _ _ Nx Nb Hxb). pose proof (node_apart _ _ Nx Nc Hxc). mem_solve. }
  pose proof (ls_links _ _ _ _ _ _ HL fl' sl' Hr') as Hd. destruct (decide ((fl', sl') = (fl, sl))) as [[= -> ->]|Hne].
  - rewrite lupd_eq. cbn [dlist]. split; [mem_solve|]. split; [mem_solve|].
    pose proof (ls_nodup _ _ _ _ _ _ HL fl sl Hr) as Hnd. pose proof (fun x => member_node HL fl sl x Hr) as Hin. specialize (Hnb fl sl).
    unfold curr in *. destruct (L fl sl) as [|x l]; [done|]. cbn [dlist hd] in *. destruct Hd as (_ & Hn & Hd).
    inversion Hnd as [|? ? Hxl _]. subst.
    split; [by mem_solve|]. split; [mem_solve|]. eapply dlist_agree; [|done]. intros y Hy.
    split; apply Hoth; auto; try (apply Hin; by right); try (apply Hnb; [done|by right]); intros ->; done.
  - rewrite lupd_ne by done. eapply dlist_agree; [|done]. intros y Hy.
    assert (y <> curr) as Hyc.
    { unfold curr. destruct (L fl sl) as [|x l] eqn:E; cbn [hd]; [by apply (member_not_null HL fl' sl')|].
      intros ->. apply Hne. destruct (member_class HL fl' sl' fl sl x) as [-> ->]; try done. rewrite E. by left. }
    pose proof (member_node HL fl' sl' y Hr' Hy) as Ny. pose proof (Hnb fl' sl' y Hr' Hy).
    split; apply Hoth; auto.
Qed.

Lemma insert_run : exists c' m', insert_free_block block_null b fl sl (mk_heap c m) = Done tt (mk_heap c' m') /\
  lists block_null c' m' A (X ∖ {[b]}) (lupd L fl sl (b :: L fl sl)) /\ links_only m m' /\
  pool_cnt c' = pool_cnt c /\ pool_start c' = pool_start c.
Proof using Hl HL Hm Hb Hf HX Hc.
  pose proof (class_in_range b k fl sl Hb Hc) as Hr. set (curr := hd block_null (L fl sl)).
  assert (node b) as Nb by (right; by exists k). assert (node curr) as Nc by (by apply (head_node HL)).
  pose proof (node_mapped m b Hm (ls_null _ _ _ _ _ _ HL) Nb) as Mb. pose proof (node_mapped m curr Hm (ls_null _ _ _ _ _ _ HL) Nc) as Mc.
  destruct (set_block_ok c fl sl b (ls_shape _ _ _ _ _ _ HL) Hr) as (rows & Eset & Hshape & Hget).
  destruct (ls_sl _ _ _ _ _ _ HL fl (proj1 Hr)) as (w & Hw & Hwb & Htest & Hflt).
  destruct (zget_zset (sl_bitmap c) fl (w |! bit32 sl)) as (ws & Ews & Lws & Gws); [rewrite (ls_rows _ _ _ _ _ _ HL); apply Hr|].
  set (m' := wr (wr (wr m (b + 16) curr) (b + 24) block_null) (curr + 24) b).
  exists (set_maps (fl_bitmap c |! bit32 fl) ws (set_blocks rows c)), m'.
  split; [|split; [|split; [|done]]].
  - unfold insert_free_block. change off_next_free with 16. change off_prev_free with 24. rewrite bind_get. cbn [hp_ctl].
    rewrite (ls_head _ _ _ _ _ _ HL fl sl Hr). erewrite bind_done by done. fold curr.
    erewrite bind_done by (apply store_run; eapply mapped_sub; [exact Mb|lia|lia]).
    erewrite bind_done by (apply store_run; apply mapped_wr; eapply mapped_sub; [exact Mb|lia|lia]).
    erewrite bind_done by (apply store_run; do 2 apply mapped_wr; eapply mapped_sub; [exact Mc|lia|lia]).
    erewrite bind_done by (by apply with_ctl_run).
    apply with_ctl_run. cbn [sl_bitmap set_blocks]. rewrite Hw. cbn [mbind option_bind]. rewrite Ews. done.
  - destruct Hr as [Hrf Hrs]. constructor.
    + do 3 apply mapped_wr. apply (ls_null _ _ _ _ _ _ HL).
    + cbn [sl_bitmap set_maps]. rewrite Lws. apply (ls_rows _ _ _ _ _ _ HL).
    + exact Hshape.
    + intros fl' sl' Hr'. change (get_block (set_maps _ _ (set_blocks rows c)) fl' sl') with (get_block (set_blocks rows c) fl' sl').
      rewrite Hget. unfold lupd. destruct ((fl' =? fl) && (sl' =? sl)); [done|]. by apply (ls_head _ _ _ _ _ _ HL).
    + by apply insert_links.
    + intros fl' sl' Hr'. destruct (decide ((fl', sl') = (fl, sl))) as [[= -> ->]|Hne].
      * rewrite lupd_eq. constructor; [|by apply (ls_nodup _ _ _ _ _ _ HL)].
        intros Hin. apply (ls_mem _ _ _ _ _ _ HL fl sl b Hr') in Hin as (s & (? & _ & _ & Hn & _) & _). done.
      * rewrite lupd_ne by done. by apply (ls_nodup _ _ _ _ _ _ HL).
    + intros fl' sl' x Hr'. setoid_rewrite listed_put. pose proof (ls_mem _ _ _ _ _ _ HL fl' sl' x Hr') as Hmem.
      destruct (decide ((fl', sl') = (fl, sl))) as [[= -> ->]|Hne].
      * rewrite lupd_eq. cbn [In]. rewrite Hmem. split.
        -- intros [<-|(s & Hs & E)]; [exists (k_size k); auto|exists s; auto].
        -- intros (s & [Hs|[-> ->]] & E); [right; by exists s|by left].
      * rewrite lupd_ne, Hmem by done. split; [intros (s & Hs & E); exists s; auto|].
        intros (s & [Hs|[-> ->]] & E); [by exists s|]. rewrite Hc in E. congruence.
    + intros fl' Hfl'. cbn [sl_bitmap set_maps fl_bitmap]. rewrite Gws, (setbit_test (fl_bitmap c) 24) by (apply (ls_fl _ _ _ _ _ _ HL) || lia).
      destruct (Z.eqb_spec fl' fl) as [->|Hne].
      * eexists. split; [done|]. split; [by apply setbit_bound; lia|]. split.
        -- intros sl' Hsl'. rewrite (setbit_test w 32) by lia. unfold lupd. rewrite Z.eqb_refl. cbn [andb].
           rewrite (Z.eqb_sym sl sl'). destruct (Z.eqb_spec sl' sl); [apply orb_true_r|]. rewrite orb_false_r. by apply Htest.
        -- rewrite Z.eqb_refl, orb_true_r. symmetry. apply negb_true_iff. apply nonzero_bit; [by apply setbit_bound; lia|].
           exists sl. split; [done|]. rewrite (setbit_test w 32) by lia. by rewrite Z.eqb_refl, orb_true_r.
      * destruct (ls_sl _ _ _ _ _ _ HL fl' Hfl') as (w' & Hw' & Hwb' & Htest' & Hflt'). exists w'. split; [done|]. split; [done|].
        split; [|by destruct (Z.eqb_spec fl fl'); [congruence|rewrite orb_false_r]].
        intros sl' Hsl'. rewrite lupd_ne by congruence. by apply Htest'.
    + cbn [fl_bitmap set_maps]. apply setbit_bound; [lia|apply (ls_fl _ _ _ _ _ _ HL)|lia].
  - unfold m'. do 3 (apply links_wr; [|done|auto]). apply links_refl.
Qed.
End insert.

Section remove.
Context (c : nod_mmheap_ctl_t) (m : bmem) (X : gset Z) (L : Z -> Z -> list Z) (HL : lists block_null c m A X L) (Hm : blocks_mapped m).
Context (b fl sl : Z) (Hr : in_range fl sl) (xs ys : list Z) (EL : L fl sl = xs ++ b :: ys).

Let prev : Z := lastd block_null xs.
Let next : Z := hd block_null ys.

Lemma member_mid : In b (L fl sl).
Proof using EL. rewrite EL. apply in_elt. Qed.

Lemma listed_take x s : listed A ({[b]} ∪ X) x s <-> listed A X x s /\ x <> b.
Proof.
  unfold listed. setoid_rewrite elem_of_union. setoid_rewrite elem_of_singleton. split.
  - intros (k0 & Hx & Hf0 & Hin & <-). split; [|tauto]. exists k0. repeat split; tauto.
  - intros [(k0 & Hx & Hf0 & Hin & <-) Hne]. exists k0. repeat split; tauto.
Qed.

Lemma remove_nodup : List.NoDup (block_null :: xs ++ b :: ys).
Proof using Hl HL Hr EL.
  constructor; [|rewrite <- EL; by apply (ls_nodup _ _ _ _ _ _ HL)].
  intros Hin. rewrite <- EL in Hin. by apply (member_not_null HL fl sl block_null Hr Hin).
Qed.

Lemma remove_nodes : node prev /\ node next /\ prev <> b /\ next <> b /\
  (forall x, In x (xs ++ ys) -> node x /\ x <> b /\ x <> block_null).
Proof using Hl HL Hr EL.
  pose proof remove_nodup as Hnd. inversion Hnd as [|? ? Hnull Hnd']. subst.
  assert (forall x, In x (xs ++ ys) -> node x /\ x <> b /\ x <> block_null) as Hin.
  { intros x Hx. assert (In x (L fl sl)) as Hx' by (rewrite EL; apply in_app_iff in Hx as [|]; apply in_app_iff; [by left|right; by right]).
    split; [by apply (member_node HL fl sl)|]. split; [|by apply (member_not_null HL fl sl)].
    intros ->. apply NoDup_remove_2 in Hnd'. done. }
  assert (b <> block_null) as Hb0 by (apply (member_not_null HL fl sl b Hr), member_mid).
  split; [|split; [|split; [|split; [|done]]]].
  - unfold prev. destruct xs as [|x l]; [by left|]. apply Hin, in_app_iff. left. by apply lastd_in.
  - unfold next. destruct ys as [|y l]; [by left|]. apply Hin, in_app_iff. right. by left.
  - unfold prev. destruct xs as [|x l]; [done|]. apply Hin, in_app_iff. left. by apply lastd_in.
  - unfold next. destruct ys as [|y l]; [done|]. apply Hin, in_app_iff. right. by left.
Qed.

Let m' : bmem := wr (wr m (next + 24) prev) (prev + 16) next.

Lemma remove_links fl' sl' : in_range fl' sl' -> dlist block_null m' block_null (lupd L fl sl (xs ++ ys) fl' sl').
Proof using Hl HL Hr EL.
  intros Hr'. destruct remove_nodes as (Np & Nn & Hpb & Hnb & Hin).
  pose proof (node_addr _ Np). pose proof (node_addr _ Nn).
  pose proof (ls_links _ _ _ _ _ _ HL fl' sl' Hr') as Hd.
  assert (forall x, node x -> x <> prev -> rd m' (x + 16) = rd m (x + 16)) as H16.
  { intros x Nx Hxp. unfold m'. pose proof (node_apart _ _ Nx Np Hxp).
    destruct (decide (x = next)) as [->|Hxn]; [mem_solve|]. pose proof (node_apart _ _ Nx Nn Hxn). mem_solve. }
  assert (forall x, node x -> x <> next -> rd m' (x + 24) = rd m (x + 24)) as H24.
  { intros x Nx Hxn. unfold m'. pose proof (node_apart _ _ Nx Nn Hxn).
    destruct (decide (x = prev)) as [->|Hxp]; [mem_solve|]. pose proof (node_apart _ _ Nx Np Hxp). mem_solve. }
  assert (rd m' (prev + 16) = Some next) as Hp16 by (unfold m'; mem_solve).
  assert (rd m' (next + 24) = Some prev) as Hn24.
  { unfold m'. destruct (decide (next = prev)) as [->|Hne]; [mem_solve|]. pose proof (node_apart _ _ Nn Np Hne). mem_solve. }
  destruct (decide ((fl', sl') = (fl, sl))) as [[= -> ->]|Hne].
  - rewrite lupd_eq. rewrite EL in Hd. eapply dlist_remove; [exact Hd|apply remove_nodup|done| | |].
    + intros y Hy Hyp. apply H16; [by apply Hin|done].
    + intros y ys' E. unfold next in Hn24. by rewrite E in Hn24.
    + intros y Hy Hyh. apply H24; [by apply Hin|]. unfold next. destruct ys as [|z l]; cbn [hd]; [by apply Hin|]. cbn in Hyh. congruence.
  - rewrite lupd_ne by done. eapply dlist_agree; [|done]. intros y Hy.
    assert (forall z, In z (xs ++ ys) -> y <> z) as Hz.
    { intros z Hz ->. apply Hne. destruct (member_class HL fl' sl' fl sl z) as [-> ->]; try done.
      rewrite EL. apply in_app_iff in Hz as [|]; apply in_app_iff; [by left|right; by right]. }
    pose proof (member_node HL fl' sl' y Hr' Hy) as Ny. pose proof (member_not_null HL fl' sl' y Hr' Hy) as Hy0.
    split; [apply H16|apply H24]; try done.
    + unfold prev. destruct xs as [|x l]; [done|]. apply Hz, in_app_iff. left. by apply lastd_in.
    + unfold next. destruct ys as [|x l]; [done|]. apply Hz, in_app_iff. right. by left.
Qed.

(** The control structure after the removal. *)
Definition removed (c' : nod_mmheap_ctl_t) : Prop :=
  zlen (sl_bitmap c') = 24 /\ shape c' /\
  (forall fl' sl', in_range fl' sl' -> get_block c' fl' sl' = Some (hd block_null (lupd L fl sl (xs ++ ys) fl' sl'))) /\
  (forall fl', 0 <= fl' < 24 -> exists w, zget (sl_bitmap c') fl' = Some w /\ 0 <= w < 2 ^ 32 /\
    (forall sl', 0 <= sl' < 32 -> Z.testbit w sl' = nonempty (lupd L fl sl (xs ++ ys) fl' sl')) /\
    Z.testbit (fl_bitmap c') fl' = negb (w =? 0)) /\
  0 <= fl_bitmap c' < 2 ^ 24 /\ pool_cnt c' = pool_cnt c /\ pool_start c' = pool_start c.

(** The list keeps an element, so that its bit stays. *)
Lemma removed_nonempty c' : sl_bitmap c' = sl_bitmap c -> fl_bitmap c' = fl_bitmap c -> shape c' ->
  pool_cnt c' = pool_cnt c -> pool_start c' = pool_start c -> xs ++ ys <> [] ->
  (forall fl' sl', in_range fl' sl' -> get_block c' fl' sl' = Some (hd block_null (lupd L fl sl (xs ++ ys) fl' sl'))) ->
  removed c'.
Proof using HL EL.
  intros Es Ef Hsh Hpc Hps Hne Hg. unfold removed. rewrite Es, Ef.
  split; [apply (ls_rows _ _ _ _ _ _ HL)|]. split; [done|]. split; [done|]. split; [|split; [apply (ls_fl _ _ _ _ _ _ HL)|done]].
  intros fl' Hfl'. destruct (ls_sl _ _ _ _ _ _ HL fl' Hfl') as (w & Hw & Hwb & Ht & Hf). exists w.
  split; [done|]. split; [done|]. split; [|done]. intros sl' Hsl'. rewrite Ht by done.
  destruct (decide ((fl', sl') = (fl, sl))) as [[= -> ->]|]; [|by rewrite lupd_ne].
  rewrite lupd_eq, EL. destruct xs, ys; done.
Qed.

Lemma unlink_head_run : xs = [] -> exists c', unlink_head block_null next fl sl (mk_heap c m') = Done tt (mk_heap c' m') /\ removed c'.
Proof using Hl HL Hr EL.
  intros Ex. destruct remove_nodes as (_ & _ & _ & _ & Hin).
  destruct (set_block_ok c fl sl next (ls_shape _ _ _ _ _ _ HL) Hr) as (rows & Eset & Hshape & Hget).
  assert (forall fl' sl', in_range fl' sl' -> get_block (set_blocks rows c) fl' sl' = Some (hd block_null (lupd L fl sl (xs ++ ys) fl' sl'))) as Hg.
  { intros fl' sl' Hr'. rewrite Hget. unfold lupd. destruct (_ && _); [by rewrite Ex|]. by apply (ls_head _ _ _ _ _ _ HL). }
  unfold unlink_head. erewrite bind_done by (by apply with_ctl_run).
  destruct (Z.eqb_spec next block_null) as [En|Hne].
  2:{ eexists. split; [done|]. apply removed_nonempty; try done. rewrite Ex. unfold next in Hne. by destruct ys. }
  assert (ys = []) as Ey.
  { unfold next in En. destruct ys as [|y l]; [done|]. exfalso. apply (Hin y); [|done]. apply in_app_iff. right. by left. }
  destruct Hr as [Hrf Hrs].
  destruct (ls_sl _ _ _ _ _ _ HL fl Hrf) as (w & Hw & Hwb & Ht & Hf).
  destruct (zget_zset (sl_bitmap c) fl (w &! clear32 sl)) as (ws & Ews & Lws & Gws); [by rewrite (ls_rows _ _ _ _ _ _ HL)|].
  eexists. split.
  { apply with_ctl_run. cbn [sl_bitmap set_blocks]. rewrite Hw. cbn [mbind option_bind]. rewrite Ews. done. }
  unfold removed. cbn [sl_bitmap fl_bitmap pool_cnt pool_start set_maps set_blocks].
  pose proof (ls_fl _ _ _ _ _ _ HL) as Hfb. pose proof (clearbit_bound w 32 sl ltac:(lia) Hwb Hrs) as Hcb.
  split; [rewrite Lws; apply (ls_rows _ _ _ _ _ _ HL)|]. split; [done|]. split; [done|]. split; [|split; [|done]].
  - intros fl' Hfl'. rewrite Gws. destruct (Z.eqb_spec fl' fl) as [->|Hne].
    + eexists. split; [done|]. split; [done|]. split.
      * intros sl' Hsl'. rewrite (clearbit_test w 32) by lia. unfold lupd. rewrite Z.eqb_refl. cbn [andb].
        rewrite (Z.eqb_sym sl sl'). destruct (Z.eqb_spec sl' sl) as [->|]; cbn [negb].
        -- by rewrite Ex, Ey, andb_false_r.
        -- rewrite andb_true_r. by apply Ht.
      * destruct (Z.eqb_spec (w &! clear32 sl) 0) as [E|E]; cbn [negb].
        -- rewrite (clearbit_test (fl_bitmap c) 24) by lia. by rewrite Z.eqb_refl, andb_false_r.
        -- rewrite Hf. apply negb_true_iff. apply nonzero_bit; [done|]. apply Z.eqb_neq, nonzero_bit in E as (i & Hi & Hti); [|done].
           exists i. split; [done|]. rewrite (clearbit_test w 32) in Hti by lia. by apply andb_true_iff in Hti as [? _].
    + destruct (ls_sl _ _ _ _ _ _ HL fl' Hfl') as (w' & Hw' & Hwb' & Ht' & Hf'). exists w'. split; [done|]. split; [done|]. split.
      * intros sl' Hsl'. rewrite lupd_ne by congruence. by apply Ht'.
      * rewrite <- Hf'. destruct (w &! clear32 sl =? 0); [|done]. rewrite (clearbit_test (fl_bitmap c) 24) by lia.
        destruct (Z.eqb_spec fl fl'); [congruence|apply andb_true_r].
  - destruct (w &! clear32 sl =? 0); [apply clearbit_bound; lia|done].
Qed.

Lemma remove_run : exists c', remove_free_block block_null b fl sl (mk_heap c m) = Done tt (mk_heap c' m') /\
  lists block_null c' m' A ({[b]} ∪ X) (lupd L fl sl (xs ++ ys)) /\ links_only m m' /\
  pool_cnt c' = pool_cnt c /\ pool_start c' = pool_start c.
Proof using Hl HL Hm Hr EL.
  destruct remove_nodes as (Np & Nn & Hpb & Hnb & Hin).
  pose proof (ls_links _ _ _ _ _ _ HL fl sl Hr) as Hd. rewrite EL in Hd. apply dlist_mid in Hd as [H24 H16]. fold prev in H24. fold next in H16.
  pose proof (node_mapped m prev Hm (ls_null _ _ _ _ _ _ HL) Np) as Mp. pose proof (node_mapped m next Hm (ls_null _ _ _ _ _ _ HL) Nn) as Mn.
  assert (exists c', remove_free_block block_null b fl sl (mk_heap c m) = Done tt (mk_heap c' m') /\ removed c') as (c' & Erun & H1 & H2 & H3 & H4 & H5 & H6 & H7).
  { unfold remove_free_block. change off_next_free with 16. change off_prev_free with 24.
    erewrite bind_done by (by apply load_run). erewrite bind_done by (by apply load_run).
    erewrite bind_done by (apply store_run; eapply mapped_sub; [exact Mn|lia|lia]).
    erewrite bind_done by (apply store_run; apply mapped_wr; eapply mapped_sub; [exact Mp|lia|lia]). fold m'.
    rewrite bind_get. cbn [hp_ctl]. rewrite (ls_head _ _ _ _ _ _ HL fl sl Hr). erewrite bind_done by done. rewrite EL.
    assert (xs = [] \/ exists x l, xs = x :: l) as [Ex|(x & l & Ex)] by (destruct xs; eauto).
    - assert (hd block_null (xs ++ b :: ys) = b) as -> by (by rewrite Ex). rewrite Z.eqb_refl. by apply unlink_head_run.
    - assert (hd block_null (xs ++ b :: ys) = x) as -> by (by rewrite Ex).
      destruct (Z.eqb_spec x b) as [->|]; [destruct (Hin b) as (_ & Hbb & _); [rewrite Ex; by left|done]|].
      eexists. split; [done|]. apply removed_nonempty; try done; [apply (ls_shape _ _ _ _ _ _ HL)|by rewrite Ex|].
      intros fl' sl' Hr'. rewrite (ls_head _ _ _ _ _ _ HL fl' sl' Hr').
      destruct (decide ((fl', sl') = (fl, sl))) as [[= -> ->]|]; [|by rewrite lupd_ne]. by rewrite lupd_eq, EL, Ex. }
  exists c'. split; [done|]. split; [|split; [|done]].
  - constructor; try done.
    + do 2 apply mapped_wr. apply (ls_null _ _ _ _ _ _ HL).
    + by apply remove_links.
    + intros fl' sl' Hr'. pose proof (ls_nodup _ _ _ _ _ _ HL fl' sl' Hr') as Hnd.
      destruct (decide ((fl', sl') = (fl, sl))) as [[= -> ->]|]; [|by rewrite lupd_ne].
      rewrite lupd_eq. rewrite EL in Hnd. by apply NoDup_remove_1 in Hnd.
    + intros fl' sl' x Hr'. setoid_rewrite listed_take. pose proof (ls_mem _ _ _ _ _ _ HL fl' sl' x Hr') as Hmem.
      assert (In b (L fl sl)) as Hbin by apply member_mid.
      destruct (decide ((fl', sl') = (fl, sl))) as [[= -> ->]|Hne].
      * rewrite lupd_eq. split.
        -- intros Hx. destruct (Hin x Hx) as (_ & Hxb & _).
           destruct (proj1 Hmem) as (s & Hs & E); [rewrite EL; apply in_app_iff in Hx as [|]; apply in_app_iff; [by left|right; by right]|].
           by exists s.
        -- intros (s & [Hs Hxb] & E). assert (In x (L fl sl)) as Hx by (apply Hmem; by exists s).
           rewrite EL in Hx. apply in_app_iff in Hx as [|[->|]]; [|done|]; apply in_app_iff; auto.
      * rewrite lupd_ne, Hmem by done. split; [|intros (s & [Hs _] & E); by exists s].
        intros (s & Hs & E). exists s. split; [|done]. split; [done|]. intros ->. apply Hne.
        destruct (member_class HL fl' sl' fl sl b) as [-> ->]; try done. apply Hmem. by exists s.
  - unfold m'. do 2 (apply links_wr; [|done|auto]). apply links_refl.
Qed.
End remove.
End ops.
