(* ===== verification/MmheapOps.v ===== *)
(** * The operations of the heap keep its invariant

    Each operation of [mmheap.c] on a heap that satisfies [inv]: it runs without a
    fault, gives a heap that satisfies [inv] for the changed layout, and leaves the
    memory of the other allocations alone. *)

From S2P Require Import Prelude ByteMem Mmheap MmheapClass MmheapInv MmheapLayout MmheapPhys MmheapLists.

Local Open Scope Z_scope.

(** An allocated block. *)
Definition used (A : blks) (q s : Z) : Prop := exists k, A !! q = Some k /\ k_free k = false /\ k_size k = s /\ s <> 0.

Section ops.
Context (block_null : Z) (P : list (Z * Z)).
Notation inv := (inv block_null).

(** No byte of an allocated block other than [b] changes. *)
Definition spares (A : blks) (b : Z) (h h' : heap) : Prop := forall q s,
  used A q s -> q <> b -> agree (hp_mem h) (hp_mem h') (q + 16) s.

Lemma spares_refl A b h : spares A b h h.
Proof. intros q s _ _. apply agree_refl. Qed.

Lemma spares_trans A A' b b' h h' h'' : spares A b h h' -> spares A' b' h' h'' ->
  (forall q s, used A q s -> q <> b -> used A' q s /\ q <> b') -> spares A b h h''.
Proof.
  intros H1 H2 Hu q s Hq Hne. destruct (Hu q s Hq Hne) as [Hq' Hne']. eapply agree_trans; [by apply H1|by apply H2].
Qed.

Lemma links_spares A b h h' : layout block_null P A -> links_only block_null A (hp_mem h) (hp_mem h') -> spares A b h h'.
Proof. intros Hl Hk q s (k & Hq & Hf & <- & _) _. by apply (links_used block_null P A Hl _ _ q k). Qed.

Lemma step_spares A b n k c c' m m' : layout block_null P A -> A !! b = Some k -> n = b + 8 + k_size k ->
  block_step b n m m' -> spares A b (mk_heap c m) (mk_heap c' m').
Proof.
  intros Hl Hb -> [Hw _] q s (kq & Hq & Hf & <- & _) Hne. eapply within_agree; [done|]. cbn [hp_mem].
  destruct (layout_apart Hl q b kq k Hq Hb Hne); lia.
Qed.

(** ** Free lists *)

Section lists.
Context (A : blks) (X : gset Z) (h : heap) (Hi : inv h P A X).
Context (b : Z) (k : blk) (Hb : A !! b = Some k) (Hf : k_free k = true).

Lemma inv_mapped : blocks_mapped A (hp_mem h).
Proof using Hi. intros x kx Hx. by apply (ph_map _ _ (inv_phys _ _ _ _ _ Hi)). Qed.

Lemma inv_remove : b ∉ X -> exists h', 
  remove_free_block block_null b (mapping_insert (k_size k)).1 (mapping_insert (k_size k)).2 h = Done tt h' /\
  inv h' P A ({[b]} ∪ X) /\ links_only block_null A (hp_mem h) (hp_mem h').
Proof using Hi Hb Hf.
  intros Hn. destruct h as [c m]. destruct Hi as [Hl Hm [L HL] Hp]. cbn [hp_ctl hp_mem] in *.
  destruct (mapping_insert (k_size k)) as [fl sl] eqn:Hc. cbn [fst snd].
  pose proof (class_in_range block_null P A Hl b k fl sl Hb Hc) as Hr.
  assert (In b (L fl sl)) as Hin by (apply (ls_mem _ _ _ _ _ _ HL fl sl b Hr); exists (k_size k); split; [by exists k|done]).
  apply in_split in Hin as (xs & ys & EL).
  destruct (remove_run block_null P A Hl c m X L HL (ph_map _ _ Hm) b fl sl Hr xs ys EL) as (c' & Erun & HL' & Hk & Hpc & Hps).
  eexists. split; [exact Erun|]. split; [|done].
  constructor; cbn [hp_ctl hp_mem]; [done|by apply (links_phys block_null P A Hl m)|by eexists|by rewrite Hpc, Hps].
Qed.

Lemma inv_insert Y : X = {[b]} ∪ Y -> b ∉ Y -> exists h', blk_insert block_null b h = Done tt h' /\
  inv h' P A Y /\ forall x, spares A x h h'.
Proof using Hi Hb Hf.
  intros HX Hny. assert (b ∈ X /\ Y = X ∖ {[b]}) as [Hn ->] by (rewrite HX; split; set_solver). clear HX Hny. destruct h as [c m]. destruct Hi as [Hl Hm [L HL] Hp]. cbn [hp_ctl hp_mem] in *.
  destruct (phys_ok Hl Hm b k Hb) as (Rb & Hk & _).
  unfold blk_insert. erewrite bind_done by (by apply blk_size_run). destruct (mapping_insert (k_size k)) as [fl sl] eqn:Hc.
  destruct (insert_run block_null P A Hl c m X L HL (ph_map _ _ Hm) b fl sl k Hb Hf Hn Hc) as (c' & m' & Erun & HL' & Hk' & Hpc & Hps).
  eexists. split; [exact Erun|]. split; [|intros x; by apply links_spares].
  constructor; cbn [hp_ctl hp_mem]; [done|by apply (links_phys block_null P A Hl m)|by eexists|by rewrite Hpc, Hps].
Qed.

Lemma inv_blk_remove : b ∉ X -> exists h', blk_remove block_null b h = Done tt h' /\
  inv h' P A ({[b]} ∪ X) /\ links_only block_null A (hp_mem h) (hp_mem h').
Proof using Hi Hb Hf.
  intros Hn. destruct (inv_remove Hn) as (h' & E & H). exists h'. split; [|done].
  destruct (phys_ok (inv_layout _ _ _ _ _ Hi) (inv_phys _ _ _ _ _ Hi) b k Hb) as (Rb & Hk & _).
  unfold blk_remove. destruct h as [c m]. erewrite bind_done by (by apply blk_size_run).
  by destruct (mapping_insert (k_size k)).
Qed.
End lists.

(** A change of blocks between [b] and [n] that the free lists do not list. *)
Lemma inv_step c m m' A A' X X' b n : inv (mk_heap c m) P A X -> layout block_null P A' -> phys m' A' -> block_step b n m m' ->
  (forall x s, listed A X x s <-> listed A' X' x s) ->
  (forall x s, listed A X x s -> x + 8 + s <= b \/ n <= x) -> inv (mk_heap c m') P A' X'.
Proof.
  intros [Hl Hm [L HL] Hp] Hl' Hm' [Hw Hg] Hls Hout. constructor; cbn [hp_ctl hp_mem] in *; try done.
  exists L. eapply (lists_frame block_null P A Hl); [exact HL|exact Hg|exact Hls|]. intros x s Hx. eapply within_agree; [done|].
  destruct (Hout x s Hx); [|lia]. destruct Hx as (k & Hx & Hf & _ & <-). pose proof (layout_free Hl x k Hx Hf). lia.
Qed.

(** ** Marking *)

Lemma listed_status A X X' b n k f : layout block_null P A -> A !! b = Some k -> n = b + 8 + k_size k -> 24 <= k_size k ->
  (k_free k = true -> b ∈ X) -> (f = true -> b ∈ X') -> (forall x, x <> b -> x ∈ X <-> x ∈ X') ->
  forall x s, listed A X x s <-> listed (set_status b n f A) X' x s.
Proof.
  intros Hl Hb En Hs HX HX' Hiff x s. destruct (layout_next Hl b k Hb Hs) as (kn & Hn & _). rewrite <- En in Hn.
  unfold listed. destruct (decide (x = b)) as [->|Hxb].
  - split.
    + intros (k0 & H0 & Hf & Hin & _). rewrite Hb in H0. injection H0 as <-. by destruct Hin; apply HX.
    + intros (k0 & H0 & Hf & Hin & _). rewrite set_status_lookup in H0 by lia. repeat case_decide; try lia.
      rewrite Hb in H0. injection H0 as <-. cbn in Hf. by destruct Hin; apply HX'.
  - specialize (Hiff x Hxb). destruct (decide (x = n)) as [->|Hxn].
    + rewrite set_status_lookup, Hn by lia. rewrite decide_True by done. split.
      * intros (k0 & [= <-] & Hf & Hin & <-). exists (with_prev f kn). repeat split; tauto.
      * intros (k0 & [= <-] & Hf & Hin & <-). exists kn. repeat split; tauto.
    + rewrite set_status_lookup by lia. rewrite !decide_False by done.
      split; intros (k0 & H0 & Hf & Hin & <-); exists k0; repeat split; tauto.
Qed.

Lemma used_status A b n k f q s : layout block_null P A -> A !! b = Some k -> n = b + 8 + k_size k -> 24 <= k_size k ->
  used (set_status b n f A) q s <-> q <> b /\ used A q s \/ q = b /\ f = false /\ s = k_size k.
Proof.
  intros Hl Hb En Hs. destruct (layout_next Hl b k Hb Hs) as (kn & Hn & _). rewrite <- En in Hn.
  unfold used. rewrite set_status_lookup by lia. destruct (decide (q = n)) as [->|Hqn]; [|destruct (decide (q = b)) as [->|Hqb]].
  - rewrite Hn. split.
    + intros (k0 & [= <-] & Hf & <- & Hz). left. split; [lia|]. by exists kn.
    + intros [(_ & k0 & [= <-] & Hf & <- & Hz)|[E _]]; [|lia]. by exists (with_prev f kn).
  - rewrite Hb. split.
    + intros (k0 & [= <-] & Hf & <- & Hz). by right.
    + intros [[Hne _]|(_ & -> & ->)]; [done|]. exists (with_free false k). repeat split; lia || done.
  - split; [intros H; left; done|]. intros [[_ H]|[E _]]; done.
Qed.

Section mark.
Context (A : blks) (X : gset Z) (h : heap) (Hi : inv h P A X).
Context (b n : Z) (k : blk) (Hb : A !! b = Some k) (Hs : 24 <= k_size k) (En : n = b + 8 + k_size k).

Lemma listed_apart x s : listed A X x s -> x <> b -> x + 8 + s <= b \/ n <= x.
Proof using Hi Hb En.
  intros (kx & Hx & _ & _ & <-) Hne. rewrite En. apply (layout_apart (inv_layout _ _ _ _ _ Hi) x b kx k Hx Hb Hne).
Qed.

Lemma inv_mark_free : k_free k = false -> exists h', blk_mark_as_free b h = Done tt h' /\
  inv h' P (set_status b n true A) ({[b]} ∪ X) /\ block_step b n (hp_mem h) (hp_mem h').
Proof using Hi Hb Hs En.
  intros Hu. pose proof listed_apart as Hap. pose proof (inv_layout _ _ _ _ _ Hi) as Hl. destruct (layout_next Hl b k Hb Hs) as (kn & Hn & _). rewrite <- En in Hn.
  destruct h as [c m]. destruct (mark_as_free_run Hl c (inv_phys _ _ _ _ _ Hi) b k kn Hb Hs n En Hn) as (m' & E & Hm' & Hst).
  eexists. split; [exact E|]. split; [|done]. eapply inv_step; [exact Hi|rewrite En; by apply set_status_layout|done|exact Hst| |].
  - eapply (listed_status A X ({[b]} ∪ X)); try done; [congruence|set_solver|set_solver].
  - intros x s Hx. apply (Hap x s Hx). intros ->. destruct Hx as (k0 & H0 & Hf & _). congruence.
Qed.

Lemma inv_mark_used : b ∈ X -> exists h', blk_mark_as_used b h = Done tt h' /\
  inv h' P (set_status b n false A) (X ∖ {[b]}) /\ block_step b n (hp_mem h) (hp_mem h').
Proof using Hi Hb Hs En.
  intros HX. pose proof listed_apart as Hap. pose proof (inv_layout _ _ _ _ _ Hi) as Hl. destruct (layout_next Hl b k Hb Hs) as (kn & Hn & _). rewrite <- En in Hn.
  destruct h as [c m]. destruct (mark_as_used_run Hl c (inv_phys _ _ _ _ _ Hi) b k kn Hb Hs n En Hn) as (m' & E & Hm' & Hst & _).
  eexists. split; [exact E|]. split; [|done]. eapply inv_step; [exact Hi|rewrite En; by apply set_status_layout|done|exact Hst| |].
  - eapply (listed_status A X (X ∖ {[b]})); try done. intros x Hne. set_solver.
  - intros x s Hx. apply (Hap x s Hx). intros ->. by destruct Hx as (k0 & _ & _ & Hn0 & _).
Qed.
End mark.

(** ** Splitting *)

Section split.
Context (A : blks) (X : gset Z) (c : nod_mmheap_ctl_t) (m : bmem) (Hi : inv (mk_heap c m) P A X).
Context (b n : Z) (k kn : blk) (s : Z) (Hb : A !! b = Some k) (HX : k_free k = true -> b ∈ X).
Context (Hs : 24 <= s) (H4 : s mod 4 = 0) (HS : s + 32 <= k_size k) (En : n = b + 8 + k_size k) (Hn : A !! n = Some kn).

Let A' : blks := split_at b n s k A.
Let r : Z := b + 8 + s.

Lemma listed_split x t : listed A X x t <-> listed A' ({[r]} ∪ X) x t.
Proof using Hi Hb HX Hs H4 HS En Hn.
  pose proof (inv_layout _ _ _ _ _ Hi) as Hl. unfold A', r. split.
  - intros (k0 & H0 & Hf & Hin & <-). assert (x <> b) as Hxb by (intros ->; rewrite Hb in H0; injection H0 as <-; by destruct Hin; apply HX).
    assert (x <> b + 8 + s) as Hxr by (intros ->; destruct (layout_addr Hl _ _ H0) as (_ & _ & ?), (layout_apart Hl _ _ _ _ H0 Hb Hxb); lia).
    destruct (decide (x = n)) as [->|Hxn].
    + exists (with_prev true k0). rewrite split_at_lookup by lia. rewrite !decide_False, decide_True, H0 by done.
      repeat split; try done. set_solver.
    + exists k0. rewrite split_at_lookup by lia. rewrite !decide_False by done. repeat split; try done. set_solver.
  - intros (k0 & H0 & Hf & Hin & <-). rewrite En in H0. apply (split_at_cases Hl b k kn s Hb Hs HS) in H0; [|by rewrite <- En].
    destruct H0 as [(-> & ->)|[(-> & ->)|(k1 & H1 & E1 & E2 & _)]]; [set_solver|set_solver|].
    exists k1. repeat split; [done|congruence|set_solver|done].
Qed.

Lemma used_split q t : used A' q t <-> q <> b /\ used A q t \/ q = b /\ k_free k = false /\ t = s.
Proof using Hi Hb HX Hs H4 HS En Hn.
  pose proof (inv_layout _ _ _ _ _ Hi) as Hl. unfold A'. split.
  - intros (k0 & H0 & Hf & <- & Hz). rewrite En in H0. apply (split_at_cases Hl b k kn s Hb Hs HS) in H0; [|by rewrite <- En].
    destruct H0 as [(-> & ->)|[(-> & ->)|(k1 & H1 & E1 & E2 & Hgap & _)]]; [done|by right|].
    left. split; [intros ->; rewrite Hb in H1; injection H1 as <-; lia|]. exists k1. repeat split; congruence.
  - intros [[Hqb (k0 & H0 & Hf & <- & Hz)]|(-> & Hf & ->)].
    + assert (q <> b + 8 + s) as Hqr by (intros ->; destruct (layout_addr Hl _ _ H0) as (_ & _ & ?), (layout_apart Hl _ _ _ _ H0 Hb Hqb); lia).
      destruct (decide (q = n)) as [->|Hqn].
      * exists (with_prev true k0). rewrite split_at_lookup by lia. by rewrite !decide_False, decide_True, H0 by done.
      * exists k0. rewrite split_at_lookup by lia. by rewrite !decide_False by done.
    + exists (Blk s (k_free k) (k_prev k)). rewrite split_at_lookup by lia. rewrite decide_False, decide_True by (done || lia).
      repeat split; lia || done.
Qed.

Lemma used_split_free : k_free k = true -> forall q t, used A' q t <-> used A q t.
Proof using Hi Hb HX Hs H4 HS En Hn.
  intros Hf q t. rewrite used_split. split; [intros [[_ Hq]|(_ & E & _)]; congruence|].
  intros Hq. left. split; [|done]. intros ->. destruct Hq as (k0 & H0 & Hf0 & _). congruence.
Qed.

Lemma inv_split m' : phys m' A' -> block_step b n m m' -> inv (mk_heap c m') P A' ({[r]} ∪ X).
Proof using Hi Hb HX Hs H4 HS En Hn.
  intros Hm' Hst. pose proof (inv_layout _ _ _ _ _ Hi) as Hl.
  eapply inv_step; [exact Hi| |exact Hm'|exact Hst|apply listed_split|].
  - unfold A'. rewrite En. apply (split_at_layout Hl b k kn s Hb Hs H4 HS). by rewrite <- En.
  - intros x t Hx. apply (listed_apart A X _ Hi b n k Hb En x t Hx). intros ->.
    destruct Hx as (k0 & H0 & Hf & Hn0 & _). rewrite Hb in H0. injection H0 as <-. by destruct Hn0; apply HX.
Qed.
End split.

(** ** Merging *)

Section join.
Context (A : blks) (X : gset Z) (c : nod_mmheap_ctl_t) (m : bmem) (Hi : inv (mk_heap c m) P A X).
Context (a b n : Z) (ka kb kn : blk) (Ha : A !! a = Some ka) (Hb : A !! b = Some kb).
Context (Hsa : 24 <= k_size ka) (Hsb : 24 <= k_size kb).
Context (Eb : b = a + 8 + k_size ka) (En : n = b + 8 + k_size kb) (Hn : A !! n = Some kn).
Context (HXa : k_free ka = true -> a ∈ X) (HXb : k_free kb = true -> b ∈ X).

Let A' : blks := join a b n ka kb A.

Lemma listed_join x t : listed A X x t <-> listed A' (X ∖ {[b]}) x t.
Proof using Hi Ha Hb Hsa Hsb Eb En Hn HXa HXb.
  pose proof (inv_layout _ _ _ _ _ Hi) as Hl. unfold A'. split.
  - intros (k0 & H0 & Hf & Hin & <-).
    assert (x <> a) as Hxa by (intros ->; rewrite Ha in H0; injection H0 as <-; by destruct Hin; apply HXa).
    assert (x <> b) as Hxb by (intros ->; rewrite Hb in H0; injection H0 as <-; by destruct Hin; apply HXb).
    destruct (decide (x = n)) as [->|Hxn].
    + exists (with_prev (k_free ka) k0). rewrite join_lookup by lia. rewrite decide_True, H0 by done.
      repeat split; try done. set_solver.
    + exists k0. rewrite join_lookup by lia. rewrite !decide_False by done. repeat split; try done. set_solver.
  - intros (k0 & H0 & Hf & Hin & <-). apply (join_cases Hl a b n ka kb kn Ha Hb Hsa Hsb Eb En Hn) in H0.
    destruct H0 as [(-> & ->)|(k1 & H1 & E1 & E2 & Hxa & Hxb & _)].
    + destruct Hin. apply elem_of_difference. split; [by apply HXa|]. apply not_elem_of_singleton. lia.
    + exists k1. repeat split; [done|congruence|set_solver|done].
Qed.

Lemma used_join q t : used A' q t <-> q <> a /\ q <> b /\ used A q t \/ q = a /\ k_free ka = false /\ t = k_size ka + 8 + k_size kb.
Proof using Hi Ha Hb Hsa Hsb Eb En Hn HXa HXb.
  pose proof (inv_layout _ _ _ _ _ Hi) as Hl. unfold A'. split.
  - intros (k0 & H0 & Hf & <- & Hz). apply (join_cases Hl a b n ka kb kn Ha Hb Hsa Hsb Eb En Hn) in H0.
    destruct H0 as [(-> & ->)|(k1 & H1 & E1 & E2 & Hxa & Hxb & _)]; [by right|].
    left. split; [done|]. split; [done|]. exists k1. repeat split; congruence.
  - intros [(Hqa & Hqb & k0 & H0 & Hf & <- & Hz)|(-> & Hf & ->)].
    + destruct (decide (q = n)) as [->|Hqn].
      * exists (with_prev (k_free ka) k0). rewrite join_lookup by lia. by rewrite decide_True, H0 by done.
      * exists k0. rewrite join_lookup by lia. by rewrite !decide_False by done.
    + exists (Blk (k_size ka + 8 + k_size kb) (k_free ka) (k_prev ka)). rewrite join_lookup by lia.
      rewrite decide_False, decide_True by (done || lia). repeat split; lia || done.
Qed.

Lemma inv_join m' : phys m' A' -> block_step a n m m' -> inv (mk_heap c m') P A' (X ∖ {[b]}).
Proof using Hi Ha Hb Hsa Hsb Eb En Hn HXa HXb.
  intros Hm' Hst. pose proof (inv_layout _ _ _ _ _ Hi) as Hl.
  eapply inv_step; [exact Hi| |exact Hm'|exact Hst|apply listed_join|].
  - by apply (join_layout Hl a b n ka kb kn).
  - intros x t (k0 & H0 & Hf & Hin & <-). apply (join_gap Hl a b n ka kb Ha Hb Hsa Hsb Eb En x k0 H0).
    + intros ->. rewrite Ha in H0. injection H0 as <-. by destruct Hin; apply HXa.
    + intros ->. rewrite Hb in H0. injection H0 as <-. by destruct Hin; apply HXb.
Qed.

(** Both parts are free. *)
Lemma inv_absorb : k_free ka = true -> k_prev kn = true -> exists h', blk_absorb a b (mk_heap c m) = Done a h' /\
  inv h' P A' (X ∖ {[b]}) /\ block_step a n m (hp_mem h').
Proof using Hi Ha Hb Hsa Hsb Eb En Hn HXa HXb.
  intros Hf Hp. pose proof (inv_layout _ _ _ _ _ Hi) as Hl. pose proof (inv_phys _ _ _ _ _ Hi) as Hm. cbn [hp_mem] in Hm.
  destruct (absorb_run Hl c Hm a b n ka kb kn Ha Hb Hsa Hsb Eb En Hn) as (m' & E & Hst & Ra & Rl & Rn & _).
  eexists. split; [exact E|]. split; [|exact Hst]. apply inv_join; [|done].
  apply (join_mem Hl Hm a b n ka kb kn Ha Hb Hsa Hsb Eb En Hn); try done.
  rewrite Hf, Rn. f_equal. destruct kn as [sz f p]. cbn in *. by subst p.
Qed.
End join.

(** ** Neighbouring free blocks *)

(** [x] and the block behind it are free. *)
Definition pair_free (A : blks) (x : Z) : Prop := exists kx ky,
  A !! x = Some kx /\ k_free kx = true /\ A !! (x + 8 + k_size kx) = Some ky /\ k_free ky = true.

Lemma coalesced_pairs A : coalesced A <-> forall x, ~ pair_free A x.
Proof.
  split.
  - intros H x (kx & ky & Hx & Hf & Hy & Hfy). by rewrite (H x kx ky Hx Hf Hy) in Hfy.
  - intros H x kx ky Hx Hf Hy. destruct (k_free ky) eqn:E; [|done]. destruct (H x). by exists kx, ky.
Qed.

Lemma pair_status A b n k f x : layout block_null P A -> A !! b = Some k -> n = b + 8 + k_size k -> 24 <= k_size k ->
  pair_free (set_status b n f A) x -> f = true /\ (x = b \/ exists kx, A !! x = Some kx /\ x + 8 + k_size kx = b) \/
  pair_free A x /\ x <> b /\ forall kx, A !! x = Some kx -> x + 8 + k_size kx <> b.
Proof.
  intros Hl Hb En Hs (kx & ky & Hx & Hf & Hy & Hfy). destruct (layout_next Hl b k Hb Hs) as (kn & Hn & _). rewrite <- En in Hn.
  rewrite set_status_lookup in Hx by lia. rewrite set_status_lookup in Hy by lia.
  assert (x = b -> f = true) as Hfb.
  { clear Hy. intros ->. rewrite decide_False, decide_True, Hb in Hx by (done || lia). by injection Hx as <-. }
  destruct (decide (x = b)) as [->|Hxb]; [left; auto|].
  assert (exists k0, A !! x = Some k0 /\ k_free k0 = true /\ k_size k0 = k_size kx) as (k0 & H0 & Hf0 & E0).
  { clear Hy. destruct (decide (x = n)) as [->|]; [rewrite Hn in Hx; injection Hx as <-; by exists kn|by exists kx]. }
  clear Hx. rewrite <- E0 in Hy. case_decide as D1; [|case_decide as D2].
  - right. split; [|split; [done|intros kx' Hx'; rewrite H0 in Hx'; injection Hx' as <-; lia]].
    rewrite Hn in Hy. injection Hy as <-. exists k0, kn. repeat split; try done. by rewrite D1.
  - left. split; [|right; by exists k0]. rewrite Hb in Hy. injection Hy as <-. done.
  - right. split; [by exists k0, ky|]. split; [done|]. intros kx' Hx'. rewrite H0 in Hx'. by injection Hx' as <-.
Qed.

Lemma pair_join A a b n ka kb kn x : layout block_null P A -> A !! a = Some ka -> A !! b = Some kb ->
  24 <= k_size ka -> 24 <= k_size kb -> b = a + 8 + k_size ka -> n = b + 8 + k_size kb -> A !! n = Some kn ->
  pair_free (join a b n ka kb A) x -> x = a /\ k_free kn = true \/ pair_free A x /\ x <> a /\ x <> b.
Proof.
  intros Hl Ha Hb Hsa Hsb Eb En Hn (kx & ky & Hx & Hf & Hy & Hfy).
  pose proof (join_cases Hl a b n ka kb kn Ha Hb Hsa Hsb Eb En Hn _ _ Hx) as [(-> & ->)|(k0 & H0 & E1 & E2 & Hxa & Hxb & _)].
  - left. split; [done|]. cbn [k_size] in Hy. replace (a + 8 + (k_size ka + 8 + k_size kb)) with n in Hy by lia.
    rewrite join_lookup in Hy by lia. rewrite decide_True, Hn in Hy by done. by injection Hy as <-.
  - right. split; [|done].
    pose proof (join_cases Hl a b n ka kb kn Ha Hb Hsa Hsb Eb En Hn _ _ Hy) as [(Ey & ->)|(k1 & H1 & E3 & E4 & _)].
    + exists k0, ka. rewrite E1, Ey. cbn in Hfy. repeat split; congruence.
    + exists k0, k1. rewrite E1. repeat split; congruence.
Qed.

Lemma pair_split A b n k kn s x : layout block_null P A -> A !! b = Some k -> 24 <= s -> s + 32 <= k_size k ->
  n = b + 8 + k_size k -> A !! n = Some kn ->
  pair_free (split_at b n s k A) x ->
  x = b /\ k_free k = true \/ x = b + 8 + s /\ k_free kn = true \/ pair_free A x /\ x <> b.
Proof.
  intros Hl Hb Hs HS En Hn (kx & ky & Hx & Hf & Hy & Hfy). rewrite En in Hx, Hy.
  assert (A !! (b + 8 + k_size k) = Some kn) as Hn' by (by rewrite <- En).
  pose proof (split_at_cases Hl b k kn s Hb Hs HS Hn' _ _ Hx) as [(-> & ->)|[(-> & ->)|(k0 & H0 & E1 & E2 & Hgap & _)]].
  - right. left. split; [done|]. cbn [k_size] in Hy. replace (b + 8 + s + 8 + (k_size k - s - 8)) with (b + 8 + k_size k) in Hy by lia.
    rewrite split_at_lookup in Hy by lia. repeat case_decide; try lia. rewrite Hn' in Hy. by injection Hy as <-.
  - by left.
  - right. right. split; [|intros ->; rewrite Hb in H0; injection H0 as <-; lia].
    pose proof (split_at_cases Hl b k kn s Hb Hs HS Hn' _ _ Hy) as [(Ey & ->)|[(Ey & ->)|(k1 & H1 & E3 & E4 & _)]].
    + exfalso. destruct (layout_addr Hl x k0 H0) as (_ & _ & ?). lia.
    + exists k0, k. rewrite E1, Ey. cbn in Hfy. repeat split; congruence.
    + exists k0, k1. rewrite E1. repeat split; congruence.
Qed.

(** ** Merging a block that is being freed with its neighbours *)

Section merge.
Context (A : blks) (h : heap) (b : Z) (k : blk) (Hi : inv h P A {[b]}) (Hb : A !! b = Some k) (Hf : k_free k = true).

Lemma merge_prev_run : (forall x, pair_free A x -> x = b \/ exists kx, A !! x = Some kx /\ x + 8 + k_size kx = b) ->
  exists h' b' A' k', blk_merge_prev block_null b h = Done b' h' /\ inv h' P A' {[b']} /\
    A' !! b' = Some k' /\ k_free k' = true /\ (forall x, pair_free A' x -> x = b') /\
    (forall q s, used A' q s <-> used A q s) /\ spares A b h h'.
Proof using Hi Hb Hf.
  intros Hpair. pose proof (inv_layout _ _ _ _ _ Hi) as Hl. pose proof (inv_phys _ _ _ _ _ Hi) as Hm. destruct h as [c m].
  destruct (phys_ok Hl Hm b k Hb) as (Rb & Hk & Hb0 & Hend & _). cbn [hp_mem] in *.
  pose proof (layout_free Hl b k Hb Hf) as Hs. destruct (layout_next Hl b k Hb Hs) as (kn & Hn & Hpn). rewrite Hf in Hpn.
  unfold blk_merge_prev. erewrite bind_done by (by apply blk_is_prev_free_run). destruct (k_prev k) eqn:Hp.
  2:{ eexists _, b, A, k. split; [done|]. split; [done|]. split; [done|]. split; [done|]. split; [|split; [done|apply spares_refl]].
      intros x Hx. destruct (Hpair x Hx) as [|(kx & H0 & E)]; [done|]. destruct Hx as (kx' & ky & Hx & Hfx & Hy & _).
      rewrite H0 in Hx. injection Hx as <-. pose proof (layout_free Hl x kx H0 Hfx). destruct (layout_next Hl x kx H0) as (ny & Hny & Hpy); [done|].
      rewrite E, Hb in Hny. injection Hny as <-. congruence. }
  destruct (ly_prev _ _ _ Hl b k Hb Hp) as (p & kp & Hkp & Hfp & Ep). pose proof (layout_free Hl p kp Hkp Hfp) as Hsp.
  assert (p <> b) as Hpb by lia.
  unfold blk_prev. change off_prev_phys with 0. rewrite Z.add_0_r.
  erewrite bind_done by (apply load_run; rewrite <- Ep; by apply (ph_link _ _ Hm)).
  destruct (inv_blk_remove A {[b]} _ Hi p kp Hkp Hfp) as (h1 & E1 & Hi1 & Hk1); [set_solver|].
  erewrite bind_done by (exact E1). destruct h1 as [c1 m1]. cbn [hp_mem] in *.
  destruct (inv_absorb A ({[p]} ∪ {[b]}) c1 m1 Hi1 p b (b + 8 + k_size k) kp k kn Hkp Hb Hsp Hs) as (h2 & E2 & Hi2 & Hst); try done; try set_solver.
  eexists h2, p, _, _. split; [exact E2|]. split.
  { replace ({[p]} : gset Z) with (({[p]} ∪ {[b]}) ∖ {[b]} : gset Z); [exact Hi2|]. apply leibniz_equiv. set_solver. }
  assert (forall q s, used (join p b (b + 8 + k_size k) kp k A) q s <-> used A q s) as Hu.
  { intros q s. rewrite (used_join A ({[p]} ∪ {[b]}) c1 m1 Hi1 p b (b + 8 + k_size k) kp k kn); try done; try set_solver.
    split; [intros [(_ & _ & ?)|(_ & ? & _)]; congruence|]. intros Hq. left. split; [|split; [|done]].
    - intros ->. destruct Hq as (k0 & H0 & Hf0 & _). congruence.
    - intros ->. destruct Hq as (k0 & H0 & Hf0 & _). congruence. }
  split; [rewrite join_lookup by lia; rewrite decide_False, decide_True by (done || lia); reflexivity|]. split; [done|]. split; [|split; [done|]].
  - intros x Hx. apply (pair_join A p b _ kp k kn x) in Hx; try done. destruct Hx as [[-> _]|(Hx & Hxp & Hxb)]; [done|].
    destruct (Hpair x Hx) as [|(kx & H0 & E)]; [done|]. exfalso. apply Hxp. apply (layout_pred_unique Hl x p kx kp); [done|done|lia].
  - eapply (spares_trans A A b p).
    + by apply (links_spares A b _ (mk_heap c1 m1)).
    + destruct h2 as [c2 m2]. intros q s Hq Hne. eapply within_agree; [apply Hst|]. cbn [hp_mem].
      destruct Hq as (kq & Hq & Hfq & <- & _). destruct (decide (q = b)) as [->|Hqb]; [congruence|].
      destruct (join_gap Hl p b (b + 8 + k_size k) kp k Hkp Hb Hsp Hs) with (x := q) (kx := kq); try done; lia.
    + intros q s Hq Hne. split; [done|]. intros ->. destruct Hq as (k0 & H0 & Hf0 & _). congruence.
Qed.

Lemma merge_next_run : (forall x, pair_free A x -> x = b) ->
  exists h' A' k', blk_merge_next block_null b h = Done b h' /\ inv h' P A' {[b]} /\
    A' !! b = Some k' /\ k_free k' = true /\ coalesced A' /\
    (forall q s, used A' q s <-> used A q s) /\ spares A b h h'.
Proof using Hi Hb Hf.
  intros Hpair. pose proof (inv_layout _ _ _ _ _ Hi) as Hl. pose proof (inv_phys _ _ _ _ _ Hi) as Hm. destruct h as [c m].
  destruct (phys_ok Hl Hm b k Hb) as (Rb & Hk & Hb0 & Hend & _). cbn [hp_mem] in *.
  pose proof (layout_free Hl b k Hb Hf) as Hs. destruct (layout_next Hl b k Hb Hs) as (kn & Hn & Hpn). rewrite Hf in Hpn.
  destruct (phys_ok Hl Hm _ kn Hn) as (Rn & Hkn & _). set (n := b + 8 + k_size k) in *.
  unfold blk_merge_next. erewrite bind_done by (by apply blk_next_run). fold n. erewrite bind_done by (by apply blk_is_free_run).
  destruct (k_free kn) eqn:Hfn.
  2:{ eexists _, A, k. split; [done|]. split; [done|]. split; [done|]. split; [done|]. split; [|split; [done|apply spares_refl]].
      apply coalesced_pairs. intros x Hx. pose proof (Hpair x Hx) as ->. destruct Hx as (kx & ky & Hx & _ & Hy & Hfy).
      rewrite Hb in Hx. injection Hx as <-. fold n in Hy. congruence. }
  pose proof (layout_free Hl n kn Hn Hfn) as Hsn. destruct (layout_next Hl n kn Hn Hsn) as (knn & Hnn & Hpnn). rewrite Hfn in Hpnn.
  destruct (inv_blk_remove A {[b]} _ Hi n kn Hn Hfn) as (h1 & E1 & Hi1 & Hk1); [apply not_elem_of_singleton; lia|].
  erewrite bind_done by (exact E1). destruct h1 as [c1 m1]. cbn [hp_mem] in *.
  destruct (inv_absorb A ({[n]} ∪ {[b]}) c1 m1 Hi1 b n (n + 8 + k_size kn) k kn knn Hb Hn Hs Hsn) as (h2 & E2 & Hi2 & Hst); try done; try set_solver.
  eexists h2, _, _. split; [exact E2|]. split.
  { replace ({[b]} : gset Z) with (({[n]} ∪ {[b]}) ∖ {[n]} : gset Z); [exact Hi2|]. apply leibniz_equiv.
    assert (n <> b) by lia. set_solver. }
  split; [rewrite join_lookup by lia; rewrite decide_False, decide_True by (done || lia); reflexivity|]. split; [done|]. split; [|split].
  - apply coalesced_pairs. intros x Hx. apply (pair_join A b n _ k kn knn x) in Hx; try done. destruct Hx as [[-> Hfnn]|(Hx & Hxb & _)].
    + assert (pair_free A n) as Hpn' by (by exists kn, knn). pose proof (Hpair n Hpn'). lia.
    + by apply Hxb, Hpair.
  - intros q s. rewrite (used_join A ({[n]} ∪ {[b]}) c1 m1 Hi1 b n (n + 8 + k_size kn) k kn knn); try done; try set_solver.
    split; [intros [(_ & _ & ?)|(_ & ? & _)]; congruence|]. intros Hq. left. split; [|split; [|done]].
    + intros ->. destruct Hq as (k0 & H0 & Hf0 & _). congruence.
    + intros ->. destruct Hq as (k0 & H0 & Hf0 & _). congruence.
  - eapply (spares_trans A A b b).
    + by apply (links_spares A b _ (mk_heap c1 m1)).
    + destruct h2 as [c2 m2]. intros q s Hq Hne. eapply within_agree; [apply Hst|]. cbn [hp_mem].
      destruct Hq as (kq & Hq & Hfq & <- & _). destruct (decide (q = n)) as [->|Hqb]; [congruence|].
      destruct (join_gap Hl b n (n + 8 + k_size kn) k kn Hb Hn Hs Hsn) with (x := q) (kx := kq); try done; lia.
    + intros q s Hq Hne. done.
Qed.
End merge.
End ops.
