(* ===== verification/MmheapAlloc.v ===== *)
(** * Allocation and release

    [malloc], [free] and their relatives on a heap that satisfies the invariant. *)

From S2P Require Import Prelude ByteMem Mmheap MmheapClass MmheapInv MmheapLayout MmheapPhys MmheapLists MmheapOps.

Local Open Scope Z_scope.

Section alloc.
Context (block_null : Z) (P : list (Z * Z)).
Notation inv := (inv block_null).

(** Free neighbours only directly before [b]. *)
Definition before (b : Z) (A : blks) : Prop := forall x, pair_free A x -> exists kx, A !! x = Some kx /\ x + 8 + k_size kx = b.

(** Free neighbours only directly before or behind [b]. *)
Definition around (b : Z) (A : blks) : Prop := forall x, pair_free A x -> x = b \/ exists kx, A !! x = Some kx /\ x + 8 + k_size kx = b.

Lemma can_split_run c m b k s : rd m (b + 8) = Some (hdr k) -> size_ok (k_size k) -> 0 <= s < 2 ^ 32 ->
  blk_can_split b s (mk_heap c m) = Done (s + 32 <=? k_size k) (mk_heap c m).
Proof.
  intros Rb Hk Hs. unfold blk_can_split. erewrite bind_done by (by apply blk_size_run).
  change sizeof_blk with 32. unfold u64. rewrite unsigned_small by lia. by rewrite (Z.add_comm 32 s).
Qed.

(** ** Cutting a free block *)

Section cut.
Context (A : blks) (X : gset Z) (c : nod_mmheap_ctl_t) (m : bmem) (Hi : inv (mk_heap c m) P A X).
Context (b : Z) (k : blk) (s : Z) (Hb : A !! b = Some k) (Hs : 24 <= s) (H4 : s mod 4 = 0) (HS : s + 32 <= k_size k).
Let r : Z := b + 8 + s.
Let n : Z := b + 8 + k_size k.
Let rest : blk := Blk (k_size k - s - 8) true (k_free k).

(** The stores behind [blk_split], in either order. *)
Lemma cut_inv m1 m2 p' : (k_free k = true -> b ∈ X) ->
  block_step b n m m1 ->
  rd m1 (b + 8) = Some (hdr (Blk s (k_free k) (k_prev k))) ->
  rd m1 (b + 16 + s) = Some (hdr (Blk (k_size k - s - 8) true p')) ->
  rd m1 n = Some r -> (forall kn, A !! n = Some kn -> rd m1 (n + 8) = Some (hdr (with_prev true kn))) ->
  block_step b n m m2 ->
  (rd m2 (b + 8) = rd m1 (b + 8) /\ rd m2 n = rd m1 n /\ rd m2 (n + 8) = rd m1 (n + 8)) ->
  rd m2 (b + 16 + s) = Some (hdr rest) -> (k_free k = true -> rd m2 r = Some b) ->
  inv (mk_heap c m2) P (split_at b n s k A) ({[r]} ∪ X).
Proof using Hi Hb Hs H4 HS.
  intros HX _ Rb _ Rn Rh Hst (E1 & E2 & E3) Rr Rl. pose proof (inv_layout _ _ _ _ _ Hi) as Hl. pose proof (inv_phys _ _ _ _ _ Hi) as Hm.
  destruct (layout_next Hl b k Hb) as (kn & Hn & _); [lia|].
  apply (inv_split block_null P A X c m Hi b n k kn s Hb HX Hs H4 HS eq_refl Hn); [|done].
  apply (split_block_mem Hl Hm b k kn Hb s Hs HS n eq_refl Hn); try done; rewrite ?E1, ?E2, ?E3; try done. by apply Rh.
Qed.
End cut.

Section trim.
Context (A : blks) (X : gset Z) (h : heap) (Hi : inv h P A X).
Context (b : Z) (k : blk) (Hb : A !! b = Some k) (Hf : k_free k = true) (HX : b ∈ X) (s : Z) (Hs : 24 <= s) (H4 : s mod 4 = 0).

(** [blk_trim_free]: what remains behind the first [s] bytes is free. *)
Lemma trim_free_run : s <= k_size k -> before b A -> X = {[b]} ->
  exists h' A' k', blk_trim_free block_null b s h = Done tt h' /\ inv h' P A' {[b]} /\
    A' !! b = Some k' /\ k_free k' = true /\ s <= k_size k' /\ around b A' /\
    (forall q t, used A' q t <-> used A q t) /\ spares A b h h'.
Proof using Hi Hb Hf HX Hs H4.
  intros Hle Hbef ->. pose proof (inv_layout _ _ _ _ _ Hi) as Hl. pose proof (inv_phys _ _ _ _ _ Hi) as Hm. destruct h as [c m].
  destruct (phys_ok Hl Hm b k Hb) as (Rb & Hk & Hb0 & Hend & Mb). cbn [hp_mem] in *.
  unfold blk_trim_free. destruct Hk as [Hkb Hk4] eqn:Ek. clear Ek.
  erewrite bind_done by (apply can_split_run with (k := k); [done|done|lia]).
  destruct (Z.leb_spec (s + 32) (k_size k)) as [HS|HS].
  2:{ eexists _, A, k. split; [done|]. split; [done|]. split; [done|]. split; [done|]. split; [done|].
      split; [intros x Hx; right; by apply Hbef|]. split; [done|apply spares_refl]. }
  destruct (layout_next Hl b k Hb) as (kn & Hn & _); [lia|]. set (n := b + 8 + k_size k) in *. set (r := b + 8 + s).
  destruct (split_run Hl c Hm b k kn Hb s Hs H4 HS n eq_refl Hn) as (m1 & p' & Erun & Hst1 & R1 & R2 & R3 & R4 & Ag).
  erewrite bind_done by (exact Erun). destruct (split_sizes Hl b k s Hb Hs H4 HS) as [Hsz Hrz]. fold r.
  erewrite bind_done by (apply blk_link_next_run with (k := Blk s (k_free k) (k_prev k)); cbn [k_size];
    [done|done|lia|lia|apply Hst1; eapply mapped_sub; [exact Mb|lia|lia]]). cbn [k_size]. fold r.
  pose proof (hdr_bound (Blk (k_size k - s - 8) true true) Hrz).
  erewrite bind_done by (apply blk_set_prev_free_run with (k := Blk (k_size k - s - 8) true p');
    [replace (r + 8) with (b + 16 + s) by lia; mem_solve|done]).
  set (m2 := wr (wr m1 r b) (r + 8) (hdr (with_prev true (Blk (k_size k - s - 8) true p')))).
  assert (block_step b n m m2) as Hst2.
  { destruct Hst1 as [Hw Hg]. split; [|by apply grows_wr, grows_wr]. unfold m2. repeat (apply within_wr; [|lia|lia]). done. }
  assert (inv (mk_heap c m2) P (split_at b n s k A) ({[r]} ∪ {[b]})) as Hi2.
  { eapply (cut_inv A {[b]} c m Hi b k s Hb Hs H4 HS m1 m2 p'); try done.
    - intros kn0 Hn0. fold n in Hn0. rewrite Hn in Hn0. by injection Hn0 as <-.
    - unfold m2. split; [|split]; mem_solve.
    - unfold m2. replace (r + 8) with (b + 16 + s) by lia. rewrite Hf. change (with_prev true _) with (Blk (k_size k - s - 8) true true). mem_solve.
    - intros _. unfold m2. fold r. mem_solve. }
  assert (split_at b n s k A !! r = Some (Blk (k_size k - s - 8) true (k_free k))) as Hr.
  { rewrite split_at_lookup by lia. by rewrite decide_True. }
  destruct (inv_insert block_null P _ _ _ Hi2 r _ Hr eq_refl {[b]} eq_refl) as (h3 & E3 & Hi3 & Hsp3); [assert (r <> b) by lia; set_solver|].
  eexists h3, _, (Blk s (k_free k) (k_prev k)). split; [exact E3|]. split; [exact Hi3|].
  split; [rewrite split_at_lookup by lia; by rewrite decide_False, decide_True by (done || lia)|]. split; [done|]. split; [done|].
  assert (forall q t, used (split_at b n s k A) q t <-> used A q t) as Hu.
  { apply (used_split_free block_null P A {[b]} c m Hi b n k kn s Hb); done || set_solver. }
  split; [|split; [done|]].
  - intros x Hx. apply (pair_split block_null P A b n k kn s x) in Hx; try done. destruct Hx as [[-> _]|[[-> Hfn]|[Hx Hxb]]]; [by left| |].
    + destruct (Hbef b) as (kx & Hx & E); [by exists k, kn|]. rewrite Hb in Hx. injection Hx as <-. lia.
    + right. destruct (Hbef x Hx) as (kx & H0 & E). exists kx. split; [|done]. rewrite split_at_lookup by lia.
      destruct (layout_addr Hl x kx H0) as (_ & _ & ?). by rewrite !decide_False by lia.
  - eapply (spares_trans A (split_at b n s k A) b b); [by eapply (step_spares block_null P A b n k)|apply Hsp3|].
    intros q t Hq Hne. split; [by apply Hu|done].
Qed.
End trim.

(** [blk_prepare_used]: the block leaves the heap, cut to size. *)
Lemma prepare_used_run A h b k s : inv h P A {[b]} -> A !! b = Some k -> k_free k = true -> 24 <= s <= k_size k -> s mod 4 = 0 -> before b A ->
  exists h' A' t, blk_prepare_used block_null b s h = Done (b + 16) h' /\ inv h' P A' ∅ /\ coalesced A' /\ s <= t /\
    (forall q u, used A' q u <-> used A q u \/ q = b /\ u = t) /\ spares A b h h'.
Proof.
  intros Hi Hb Hf Hs H4 Hbef. pose proof (inv_layout _ _ _ _ _ Hi) as Hl. destruct (layout_addr Hl b k Hb) as (Hb0 & Hend & _).
  unfold blk_prepare_used. destruct (Z.eqb_spec b 0); [lia|].
  destruct (trim_free_run A {[b]} h Hi b k Hb Hf) with (s := s) as (h1 & A1 & k1 & E1 & Hi1 & Hb1 & Hf1 & Hs1 & Har & Hu1 & Hsp1); try done; try lia; [set_solver|].
  erewrite bind_done by (exact E1). pose proof (inv_layout _ _ _ _ _ Hi1) as Hl1.
  destruct (inv_mark_used block_null P A1 {[b]} h1 Hi1 b (b + 8 + k_size k1) k1 Hb1) as (h2 & E2 & Hi2 & Hst); [lia|done|set_solver|].
  erewrite bind_done by (exact E2). unfold blk_to_ptr. change NOD_MMHEAP_BLK_START_OFFSET with 16. unfold u64. rewrite unsigned_small by lia.
  exists h2, (set_status b (b + 8 + k_size k1) false A1), (k_size k1). split; [done|]. split.
  { replace (∅ : gset Z) with ({[b]} ∖ {[b]} : gset Z); [exact Hi2|]. apply leibniz_equiv. set_solver. }
  split; [|split; [done|split]].
  - apply coalesced_pairs. intros x Hx. apply (pair_status block_null P A1 b _ k1) in Hx; try done; try lia.
    destruct Hx as [[? _]|(Hx & Hxb & Hnx)]; [done|]. destruct (Har x Hx) as [|(kx & H0 & E)]; [done|]. by apply (Hnx kx).
  - intros q u. rewrite (used_status block_null P A1 b (b + 8 + k_size k1) k1) by (done || lia). rewrite Hu1.
    split; [intros [[_ Hq]|(-> & _ & ->)]; auto|]. intros [Hq|[-> ->]]; [|by right].
    left. split; [|done]. intros ->. destruct Hq as (k0 & H0 & Hf0 & _). congruence.
  - eapply (spares_trans A A1 b b); [exact Hsp1| |].
    + destruct h1 as [c1 m1], h2 as [c2 m2]. by eapply (step_spares block_null P A1 b _ k1).
    + intros q t Hq Hne. split; [by apply Hu1|done].
Qed.

(** ** Searching *)

Lemma high_mask_test w j i : 0 <= w < 2 ^ 32 -> 0 <= j <= 32 -> 0 <= i < 32 ->
  Z.testbit (w &! u32 (Z.shiftl (2 ^ 32 - 1) j)) i = Z.testbit w i && (j <=? i).
Proof.
  intros Hw Hj Hi. rewrite Z.land_spec. f_equal. unfold u32, unsigned. rewrite Z.mod_pow2_bits_low, Z.shiftl_spec by lia.
  change (2 ^ 32 - 1) with (Z.ones 32). destruct (Z.leb_spec j i).
  - apply Z.ones_spec_low. lia.
  - apply Z.testbit_neg_r. lia.
Qed.

Lemma high_mask_bound w j : 0 <= w < 2 ^ 32 -> 0 <= w &! u32 (Z.shiftl (2 ^ 32 - 1) j) < 2 ^ 32.
Proof.
  intros Hw. assert (0 <= w &! u32 (Z.shiftl (2 ^ 32 - 1) j)) as H0 by (apply Z.land_nonneg; lia). split; [done|].
  apply bits_lt; [lia|done|]. intros i Hi. rewrite Z.land_spec, (bits_above w 32) by lia. done.
Qed.

(** The first bit from [j] on. *)
Lemma high_mask_first w j : 0 <= w < 2 ^ 32 -> 0 <= j <= 32 -> let v := w &! u32 (Z.shiftl (2 ^ 32 - 1) j) in
  (v = 0 /\ forall i, j <= i < 32 -> Z.testbit w i = false) \/ (v <> 0 /\ j <= __ffs v < 32 /\ Z.testbit w (__ffs v) = true).
Proof.
  intros Hw Hj v. pose proof (high_mask_bound w j Hw) as Hv. fold v in Hv. destruct (Z.eq_dec v 0) as [E|E]; [left|right].
  - split; [done|]. intros i Hi. pose proof (high_mask_test w j i Hw Hj ltac:(lia)) as Ht. fold v in Ht. rewrite E, Z.bits_0 in Ht.
    rewrite (proj2 (Z.leb_le j i)), andb_true_r in Ht by lia. done.
  - split; [done|]. destruct (ffs_lowest v) as (Hr & Ht & _); [lia|]. unfold v in Ht at 1. rewrite high_mask_test in Ht by done.
    apply andb_true_iff in Ht as [Ht Hle]. apply Z.leb_le in Hle. split; [lia|done].
Qed.

Lemma nonempty_cons {T} (l : list T) : nonempty l = true -> exists x l', l = x :: l'.
Proof. destruct l; [done|]. by eexists _, _. Qed.

Lemma nonempty_nil {T} (l : list T) : nonempty l = false -> l = [].
Proof. by destruct l. Qed.

Lemma search_run c m A X L fl sl : lists block_null c m A X L -> in_range fl sl ->
  exists b fl' sl', blk_search_suitable fl sl (mk_heap c m) = Done (b, fl', sl') (mk_heap c m) /\
    ((b = 0 /\ forall f s, in_range f s -> fl * 32 + sl <= f * 32 + s -> L f s = []) \/
     (in_range fl' sl' /\ fl * 32 + sl <= fl' * 32 + sl' /\ exists l, L fl' sl' = b :: l)).
Proof.
  intros HL [Hfl Hsl]. destruct (ls_sl _ _ _ _ _ _ HL fl Hfl) as (w & Hw & Hwb & Ht & Hft). pose proof (ls_fl _ _ _ _ _ _ HL) as Hflb.
  unfold blk_search_suitable. rewrite bind_get. cbn [hp_ctl]. rewrite Hw. erewrite bind_done by done.
  destruct (high_mask_first w sl) as [[E Hno]|(E & Hr & Hbit)]; [done|lia| |].
  - rewrite E. cbn [Z.eqb]. destruct (high_mask_first (fl_bitmap c) (fl + 1)) as [[E2 Hno2]|(E2 & Hr2 & Hbit2)]; [lia|lia| |].
    + rewrite E2. cbn [Z.eqb]. eexists _, _, _. split; [done|]. left. split; [done|]. intros f s [Hf Hs] Hle.
      destruct (Z.eq_dec f fl) as [->|Hne].
      * apply nonempty_nil. rewrite <- Ht by lia. apply Hno. lia.
      * destruct (ls_sl _ _ _ _ _ _ HL f Hf) as (wf & _ & Hwfb & Htf & Hff). rewrite Hno2 in Hff by lia. symmetry in Hff.
        apply negb_false_iff, Z.eqb_eq in Hff. subst wf. apply nonempty_nil. rewrite <- Htf by lia. apply Z.bits_0.
    + rewrite (proj2 (Z.eqb_neq _ _) E2). set (f2 := __ffs (fl_bitmap c &! _)) in *.
      assert (f2 < 24) as Hf24. { destruct (Z.lt_ge_cases f2 24); [done|]. rewrite (bits_above (fl_bitmap c) 24) in Hbit2 by lia. done. }
      destruct (ls_sl _ _ _ _ _ _ HL f2) as (w2 & Hw2 & Hwb2 & Ht2 & Hft2); [lia|]. rewrite Hbit2 in Hft2. symmetry in Hft2.
      apply negb_true_iff, Z.eqb_neq in Hft2. rewrite Hw2. erewrite bind_done by done.
      destruct (ffs_lowest w2) as (Hr3 & Hb3 & _); [lia|]. rewrite Ht2 in Hb3 by lia. apply nonempty_cons in Hb3 as (b & l & El).
      assert (in_range f2 (__ffs w2)) as Hin by (split; lia).
      rewrite (ls_head _ _ _ _ _ _ HL f2 (__ffs w2) Hin), El. erewrite bind_done by done. eexists _, _, _. split; [done|]. right.
      split; [done|]. split; [lia|]. by exists l.
  - rewrite (proj2 (Z.eqb_neq _ _) E). set (s2 := __ffs (w &! _)) in *. rewrite Ht in Hbit by lia. apply nonempty_cons in Hbit as (b & l & El).
    assert (in_range fl s2) as Hin by (split; lia).
    rewrite (ls_head _ _ _ _ _ _ HL fl s2 Hin), El. erewrite bind_done by done. eexists _, _, _. split; [done|]. right.
    split; [done|]. split; [lia|]. by exists l.
Qed.

(** A free block that a request of [s] bytes may get. *)
Definition fitting (A : blks) (s : Z) : Prop := exists b k, A !! b = Some k /\ k_free k = true /\ round_size s <= k_size k.

Lemma locate_free_run h A s : inv h P A ∅ -> 0 <= s <= 2 ^ 30 -> s mod 4 = 0 ->
  exists b h', blk_locate_free block_null s h = Done b h' /\
    ((b = 0 /\ h' = h /\ (s <> 0 -> ~ fitting A s)) \/
     (b <> 0 /\ s <> 0 /\ exists k, A !! b = Some k /\ k_free k = true /\ s <= k_size k /\ inv h' P A {[b]} /\
        links_only block_null A (hp_mem h) (hp_mem h'))).
Proof.
  intros Hi Hs H4. pose proof (inv_layout _ _ _ _ _ Hi) as Hl. destruct (inv_lists _ _ _ _ _ Hi) as [L HL]. unfold blk_locate_free.
  destruct (Z.eqb_spec s 0) as [->|Hs0]; [eexists _, _; split; [done|]; by left|].
  rewrite mapping_search_round by lia. pose proof (round_size_bounds s Hs) as Hrs.
  assert (cls (round_size s) = (mapping_insert (round_size s)).1 * 32 + (mapping_insert (round_size s)).2) as Ecls by done.
  destruct (mapping_insert (round_size s)) as [fl sl] eqn:Em. cbn [fst snd] in Ecls.
  assert (0 <= fl /\ 0 <= sl < 32) as [Hfl Hsl].
  { destruct (Z.lt_ge_cases (round_size s) 128) as [Hlt|Hge].
    - rewrite mapping_insert_small in Em by lia. injection Em as <- <-. pose proof (Z.div_lt_upper_bound (round_size s) 4 32). pose proof (Z.div_pos (round_size s) 4). lia.
    - rewrite mapping_insert_large in Em by lia. injection Em as <- <-. pose proof (log2_ge _ Hge). pose proof (subdivision_div _ Hge). lia. }
  assert (forall b k, A !! b = Some k -> k_free k = true -> round_size s <= k_size k -> fl * 32 + sl <= cls (k_size k) /\
    in_range (mapping_insert (k_size k)).1 (mapping_insert (k_size k)).2 /\
    In b (L (mapping_insert (k_size k)).1 (mapping_insert (k_size k)).2)) as Hfit.
  { intros b k Hb Hf Hle. destruct (layout_size Hl b k Hb) as [Hkb _]. split; [rewrite <- Ecls; apply cls_mono; lia|].
    pose proof (mapping_insert_range (k_size k) Hkb) as Hr. split; [exact Hr|]. apply (ls_mem _ _ _ _ _ _ HL _ _ b Hr).
    exists (k_size k). split; [exists k; repeat split; try done; set_solver|]. apply surjective_pairing. }
  change NOD_MMHEAP_FL_INDEX_COUNT with 24. destruct (Z.ltb_spec fl 24) as [Hlt|Hge].
  2:{ erewrite bind_done by done. cbn [Z.eqb]. eexists _, _. split; [done|]. left. split; [done|]. split; [done|].
      intros _ (b & k & Hb & Hf & Hle). destruct (Hfit b k Hb Hf Hle) as (Hc & [Hr1 Hr2] & _). unfold cls in Hc. lia. }
  destruct h as [c m]. destruct (search_run c m A ∅ L fl sl HL) as (b & fl' & sl' & E & Hres); [split; lia|].
  erewrite bind_done by (exact E). cbn beta iota. destruct Hres as [[-> Hno]|(Hr' & Hle & l & El)].
  - cbn [Z.eqb]. eexists _, _. split; [done|]. left. split; [done|]. split; [done|].
    intros _ (b & k & Hb & Hf & Hle). destruct (Hfit b k Hb Hf Hle) as (Hc & Hr & Hin). rewrite Hno in Hin; [done|done|done].
  - assert (In b (L fl' sl')) as Hin by (rewrite El; by left).
    apply (ls_mem _ _ _ _ _ _ HL fl' sl' b Hr') in Hin as (t & (k & Hb & Hf & _ & <-) & Em').
    destruct (layout_addr Hl b k Hb) as (Hb0 & _ & _). destruct (Z.eqb_spec b 0); [lia|].
    destruct (inv_remove block_null P A ∅ _ Hi b k Hb Hf) as (h' & E' & Hi' & Hk'); [set_solver|]. rewrite Em' in E'. cbn [fst snd] in E'.
    erewrite bind_done by (exact E'). eexists _, _. split; [done|]. right. split; [lia|]. split; [done|]. exists k.
    split; [done|]. split; [done|]. split; [|split; [|exact Hk']].
    + destruct (layout_size Hl b k Hb) as [Hkb Hk4]. apply (search_fits s (k_size k)); try done; try lia.
      rewrite Ecls. unfold cls. rewrite Em'. done.
    + replace ({[b]} : gset Z) with ({[b]} ∪ ∅ : gset Z); [done|]. apply leibniz_equiv. set_solver.
Qed.

(** ** Sizes of requests *)

Lemma align_up_pow x j : 0 <= j < 64 -> 0 <= x -> x + 2 ^ j <= 2 ^ 64 -> align_up x (2 ^ j) = 2 ^ j * ((x + 2 ^ j - 1) / 2 ^ j).
Proof.
  intros Hj Hx Hb. unfold align_up. assert (0 < 2 ^ j) by (apply Z.pow_pos_nonneg; lia).
  assert (2 ^ j < 2 ^ 64) by (apply Z.pow_lt_mono_r; lia). unfold u64.
  rewrite (unsigned_small _ (2 ^ j - 1)), (unsigned_small _ (x + (2 ^ j - 1))) by lia.
  replace (unsigned 64 (Z.lnot (2 ^ j - 1))) with (2 ^ 64 - 2 ^ j).
  - rewrite land_high by lia. by replace (x + (2 ^ j - 1)) with (x + 2 ^ j - 1) by lia.
  - unfold unsigned, Z.lnot. symmetry. symmetry. apply Z.mod_unique with (-1); lia.
Qed.

Lemma ceil_bounds x d : 0 < d -> x <= d * ((x + d - 1) / d) < x + d.
Proof. intros Hd. pose proof (Z.div_mod (x + d - 1) d ltac:(lia)). pose proof (Z.mod_pos_bound (x + d - 1) d Hd). lia. Qed.

Lemma adjust_size_ok size : 0 <= size <= 2 ^ 30 -> let s := adjust_request_size size NOD_MMHEAP_ALIGN_SIZE in
  s mod 4 = 0 /\ (size = 0 /\ s = 0 \/ 0 < size /\ 24 <= s <= 2 ^ 30 /\ size <= s).
Proof.
  intros Hs. unfold adjust_request_size. destruct (Z.eqb_spec size 0) as [->|Hne]; [split; [done|by left]|].
  change NOD_MMHEAP_ALIGN_SIZE with (2 ^ 2). rewrite align_up_pow by lia. change (2 ^ 2) with 4.
  change NOD_MMHEAP_BLK_SIZE_MAX with (2 ^ 30). change NOD_MMHEAP_BLK_SIZE_MIN with 24.
  pose proof (ceil_bounds size 4 ltac:(lia)). set (t := (size + 4 - 1) / 4) in *.
  assert (4 * t <= 2 ^ 30) by lia.
  destruct (Z.eqb_spec (4 * t) 0); [lia|]. destruct (Z.ltb_spec (2 ^ 30) (4 * t)); [lia|]. cbn [orb].
  destruct (Z.ltb_spec 24 (4 * t)).
  - split; [rewrite Z.mul_comm; by apply Z.mod_mul|right; lia].
  - split; [done|right; lia].
Qed.

(** ** [malloc] *)

Lemma coalesced_before A b : coalesced A -> before b A.
Proof. intros H x Hx. by destruct (proj1 (coalesced_pairs A) H x). Qed.

Lemma alloc_run h A size : inv h P A ∅ -> coalesced A -> 0 <= size < 2 ^ 64 ->
  exists p h', nod_mmheap_alloc block_null size h = Done p h' /\
    ((p = 0 /\ h' = h /\ (0 < size <= 2 ^ 30 -> ~ fitting A (adjust_request_size size NOD_MMHEAP_ALIGN_SIZE))) \/
     (exists b t A', p = b + 16 /\ 0 < b /\ 0 < size <= t /\ b mod 4 = 0 /\ ~ (exists u, used A b u) /\ inv h' P A' ∅ /\ coalesced A' /\
        (forall q u, used A' q u <-> used A q u \/ q = b /\ u = t) /\ spares A b h h')).
Proof.
  intros Hi Hc Hs. unfold nod_mmheap_alloc. change NOD_MMHEAP_BLK_SIZE_MAX with (2 ^ 30).
  destruct (Z.ltb_spec (2 ^ 30) size) as [Hbig|Hsmall]; [eexists _, _; split; [done|left; split; [done|split; [done|lia]]]|].
  destruct (adjust_size_ok size) as [H4 Hadj]; [lia|]. set (s := adjust_request_size size NOD_MMHEAP_ALIGN_SIZE) in *.
  pose proof (inv_layout _ _ _ _ _ Hi) as Hl.
  destruct (locate_free_run h A s Hi) as (b & h1 & E1 & Hres); [lia|done|]. erewrite bind_done by (exact E1).
  destruct Hres as [(-> & -> & Hno)|(Hb0 & Hs0 & k & Hb & Hf & Hle & Hi1 & Hk1)].
  - cbn [Z.eqb]. eexists _, _. split; [done|]. left. split; [done|]. split; [done|]. intros Hsz. apply Hno. lia.
  - destruct (Z.eqb_spec b 0); [done|].
    destruct (prepare_used_run A h1 b k s Hi1 Hb Hf) as (h2 & A2 & t & E2 & Hi2 & Hc2 & Ht & Hu & Hsp); [lia|done|by apply coalesced_before|].
    eexists _, h2. split; [exact E2|]. right. exists b, t, A2. destruct (layout_addr Hl b k Hb) as (Hbpos & _ & _).
    split; [done|]. split; [done|]. split; [lia|]. split; [by apply (ly_blk _ _ _ Hl b k)|].
    split; [intros (u & k0 & Hk0 & Hf0 & _); congruence|]. split; [done|]. split; [done|]. split; [done|].
    eapply (spares_trans A A b b); [|exact Hsp|done]. by apply (links_spares block_null P).
Qed.

(** ** [free] *)

Lemma free_run h A b s : inv h P A ∅ -> coalesced A -> used A b s ->
  exists h' A', nod_mmheap_free block_null (b + 16) h = Done tt h' /\ inv h' P A' ∅ /\ coalesced A' /\
    (forall q u, used A' q u <-> used A q u /\ q <> b) /\ spares A b h h'.
Proof.
  intros Hi Hc (k & Hb & Hf & <- & Hz). pose proof (inv_layout _ _ _ _ _ Hi) as Hl. destruct (layout_addr Hl b k Hb) as (Hb0 & Hend & _).
  assert (24 <= k_size k) as Hs by (destruct (ly_blk _ _ _ Hl b k Hb) as (_ & _ & [[? _]|?]); [lia|done]).
  unfold nod_mmheap_free. destruct (Z.eqb_spec (b + 16) 0); [lia|]. unfold blk_from_ptr. change NOD_MMHEAP_BLK_START_OFFSET with 16.
  replace (b + 16 - 16) with b by lia. unfold u64. rewrite unsigned_small by lia.
  destruct (inv_mark_free block_null P A ∅ h Hi b (b + 8 + k_size k) k Hb Hs eq_refl Hf) as (h1 & E1 & Hi1 & Hst1).
  erewrite bind_done by (exact E1). set (A1 := set_status b (b + 8 + k_size k) true A) in *.
  replace ({[b]} ∪ ∅ : gset Z) with ({[b]} : gset Z) in Hi1 by (apply leibniz_equiv; set_solver).
  assert (forall q u, used A1 q u <-> used A q u /\ q <> b) as Hu1.
  { intros q u. unfold A1. rewrite (used_status block_null P A b _ k) by done. split; [intros [[? ?]|(_ & ? & _)]; done|]. intros [? ?]. by left. }
  assert (A1 !! b = Some (with_free true k)) as Hb1.
  { unfold A1. rewrite set_status_lookup by lia. by rewrite decide_False, decide_True, Hb by (done || lia). }
  destruct (merge_prev_run block_null P A1 h1 b _ Hi1 Hb1) as (h2 & b2 & A2 & k2 & E2 & Hi2 & Hb2 & Hf2 & Hp2 & Hu2 & Hsp2); [done| |].
  { intros x Hx. unfold A1 in Hx. apply (pair_status block_null P A b _ k) in Hx; try done.
    destruct Hx as [(_ & [->|(kx & Hx & E)])|(Hx & _)]; [by left| |by destruct (proj1 (coalesced_pairs A) Hc x)].
    right. exists kx. split; [|done]. destruct (layout_addr Hl x kx Hx) as (_ & _ & ?). unfold A1. rewrite set_status_lookup by lia. by rewrite !decide_False by lia. }
  erewrite bind_done by (exact E2).
  destruct (merge_next_run block_null P A2 h2 b2 k2 Hi2 Hb2 Hf2 Hp2) as (h3 & A3 & k3 & E3 & Hi3 & Hb3 & Hf3 & Hc3 & Hu3 & Hsp3).
  erewrite bind_done by (exact E3).
  destruct (inv_insert block_null P A3 {[b2]} h3 Hi3 b2 k3 Hb3 Hf3 ∅) as (h4 & E4 & Hi4 & Hsp4); [set_solver|set_solver|].
  exists h4, A3. split; [exact E4|]. split; [exact Hi4|]. split; [done|]. split; [intros q u; by rewrite Hu3, Hu2, Hu1|].
  assert (forall q u, used A1 q u -> q <> b2) as Hnb2.
  { intros q u Hq ->. apply Hu2 in Hq. destruct Hq as (k0 & H0 & Hf0 & _). congruence. }
  eapply (spares_trans A A1 b b); [|eapply (spares_trans A1 A2 b b2); [exact Hsp2|eapply (spares_trans A2 A3 b2 b2); [exact Hsp3|apply Hsp4|]|]|].
  - destruct h as [c m], h1 as [c1 m1]. by eapply (step_spares block_null P A b _ k).
  - intros q t Hq Hne. split; [by apply Hu3|done].
  - intros q t Hq Hne. split; [by apply Hu2|by apply (Hnb2 q t)].
  - intros q t Hq Hne. split; [by apply Hu1|done].
Qed.
End alloc.
