(* ===== verification/MmheapRealloc.v ===== *)
(** * Resizing, alignment and pools

    [realloc], [calloc], [aligned_alloc] and the pools on a heap that satisfies the
    invariant. *)

From S2P Require Import Prelude ByteMem Mmheap MmheapClass MmheapInv MmheapLayout MmheapPhys MmheapLists MmheapOps MmheapAlloc.

Local Open Scope Z_scope.

Section realloc.
Context (block_null : Z) (P : list (Z * Z)).
Notation inv := (inv block_null).

Lemma used_size A h X b s : inv h P A X -> used A b s -> 24 <= s < 2 ^ 30 /\ 0 < b /\ b + 16 + s < 2 ^ 64.
Proof.
  intros Hi (k & Hb & _ & <- & Hz). pose proof (inv_layout _ _ _ _ _ Hi) as Hl. destruct (layout_addr Hl b k Hb) as (? & ? & ?).
  destruct (ly_blk _ _ _ Hl b k Hb) as (_ & _ & [[? _]|?]); lia.
Qed.

(** ** Memory of an allocation *)

(** The program may write to what it allocated. *)
Lemma inv_write c m A X b t a bs : inv (mk_heap c m) P A X -> used A b t -> b + 16 <= a -> a + zlen bs <= b + 16 + t ->
  inv (mk_heap c (upd_bytes m a bs)) P A X /\ spares A b (mk_heap c m) (mk_heap c (upd_bytes m a bs)).
Proof.
  intros Hi (k & Hb & Hf & <- & Hz) Hlo Hhi. destruct Hi as [Hl Hm [L HL] Hp]. cbn [hp_ctl hp_mem] in *. pose proof (zlen_nonneg bs).
  assert (grows m (upd_bytes m a bs)) as Hg by (intros i n Hi; by apply mapped_upd).
  assert (forall x n, x + n <= b + 16 \/ b + 16 + k_size k <= x -> agree m (upd_bytes m a bs) x n) as Hag.
  { intros x n Hx i Hi. apply upd_bytes_other. lia. }
  assert (forall x kx, A !! x = Some kx -> x <> b -> x + 8 + k_size kx <= b \/ b + 8 + k_size k <= x) as Hap.
  { intros x kx Hx Hne. by apply (layout_apart Hl x b kx k). }
  split.
  - constructor; cbn [hp_ctl hp_mem]; try done.
    + apply phys_intro. intros x kx Hx. destruct (layout_addr Hl x kx Hx) as (_ & _ & Hkx). split; [|split; [apply Hg; by apply (ph_map _ _ Hm)|]].
      * rewrite (rd_agree m); [by apply (ph_hdr _ _ Hm)|]. apply Hag. destruct (decide (x = b)) as [->|Hne]; [lia|].
        destruct (Hap x kx Hx Hne); lia.
      * intros Hfx. rewrite (rd_agree m); [by apply (ph_link _ _ Hm)|]. apply Hag.
        destruct (decide (x = b)) as [->|Hne]; [congruence|]. destruct (Hap x kx Hx Hne); lia.
    + exists L. eapply (lists_frame block_null P A Hl); [exact HL|exact Hg|done|]. intros x s (kx & Hx & Hfx & _ & <-). apply Hag.
      pose proof (layout_free Hl x kx Hx Hfx). destruct (decide (x = b)) as [->|Hne]; [congruence|]. destruct (Hap x kx Hx Hne); lia.
  - intros q s (kq & Hq & Hfq & <- & _) Hne. apply Hag. destruct (Hap q kq Hq Hne); lia.
Qed.

(** ** Shrinking *)

Lemma trim_used_run h A b S s : inv h P A ∅ -> coalesced A -> used A b S -> 24 <= s <= S -> s mod 4 = 0 ->
  exists h' A' t, blk_trim_used block_null b s h = Done tt h' /\ inv h' P A' ∅ /\ coalesced A' /\ s <= t /\
    (forall q u, used A' q u <-> q <> b /\ used A q u \/ q = b /\ u = t) /\ spares A b h h' /\
    agree (hp_mem h) (hp_mem h') (b + 16) s.
Proof.
  intros Hi Hc Hused Hs H4. pose proof (inv_layout _ _ _ _ _ Hi) as Hl. pose proof (inv_phys _ _ _ _ _ Hi) as Hm.
  destruct Hused as (k & Hb & Hf & <- & Hz). destruct h as [c m].
  destruct (phys_ok Hl Hm b k Hb) as (Rb & Hk & Hb0 & Hend & Mb). cbn [hp_mem] in *.
  pose proof (proj1 Hk) as Hkb. unfold blk_trim_used.
  erewrite bind_done by (apply can_split_run with (k := k); [done|done|lia]).
  destruct (Z.leb_spec (s + 32) (k_size k)) as [HS|HS].
  2:{ eexists _, A, (k_size k). split; [done|]. split; [done|]. split; [done|]. split; [lia|]. split; [|split; [apply spares_refl|apply agree_refl]].
      intros q u. split; [|intros [[_ ?]|[-> ->]]; [done|by exists k]]. intros Hq. destruct (decide (q = b)) as [->|]; [|by left].
      right. split; [done|]. destruct Hq as (k0 & H0 & _ & <- & _). rewrite Hb in H0. by injection H0 as <-. }
  destruct (layout_next Hl b k Hb) as (kn & Hn & _); [lia|]. set (n := b + 8 + k_size k) in *. set (r := b + 8 + s).
  destruct Hs as [Hs Hle].
  destruct (split_run Hl c Hm b k kn Hb s Hs H4 HS n eq_refl Hn) as (m1 & p' & Erun & Hst1 & R1 & R2 & R3 & R4 & Ag).
  erewrite bind_done by (exact Erun). destruct (split_sizes Hl b k s Hb Hs H4 HS) as [Hsz Hrz]. fold r.
  pose proof (hdr_bound (Blk (k_size k - s - 8) true false) Hrz).
  erewrite bind_done by (apply blk_set_prev_used_run with (k := Blk (k_size k - s - 8) true p');
    [replace (r + 8) with (b + 16 + s) by lia; mem_solve|done]).
  set (m2 := wr m1 (r + 8) (hdr (with_prev false (Blk (k_size k - s - 8) true p')))).
  assert (block_step b n m m2) as Hst2.
  { destruct Hst1 as [Hw Hg]. split; [|by apply grows_wr]. unfold m2. apply within_wr; [done|lia|lia]. }
  assert (inv (mk_heap c m2) P (split_at b n s k A) {[r]}) as Hi2.
  { replace ({[r]} : gset Z) with ({[r]} ∪ ∅ : gset Z) by (apply leibniz_equiv; set_solver).
    eapply (cut_inv block_null P A ∅ c m Hi b k s Hb Hs H4 HS m1 m2 p'); try done; try congruence.
    - intros kn0 Hn0. fold n in Hn0. rewrite Hn in Hn0. by injection Hn0 as <-.
    - unfold m2. split; [|split]; mem_solve.
    - unfold m2. replace (r + 8) with (b + 16 + s) by lia. rewrite Hf. change (with_prev false _) with (Blk (k_size k - s - 8) true false). mem_solve. }
  assert (split_at b n s k A !! r = Some (Blk (k_size k - s - 8) true (k_free k))) as Hr.
  { rewrite split_at_lookup by lia. by rewrite decide_True. }
  assert (forall q t, used (split_at b n s k A) q t <-> q <> b /\ used A q t \/ q = b /\ t = s) as Hu.
  { intros q t. rewrite (used_split block_null P A ∅ c m Hi b n k kn s Hb) by (done || congruence). naive_solver. }
  destruct (merge_next_run block_null P _ _ r _ Hi2 Hr) as (h3 & A3 & k3 & E3 & Hi3 & Hr3 & Hf3 & Hc3 & Hu3 & Hsp3); [done| |].
  { intros x Hx. apply (pair_split block_null P A b n k kn s x) in Hx; try done. destruct Hx as [[_ E]|[[-> _]|[Hx _]]]; [congruence|done|].
    by destruct (proj1 (coalesced_pairs A) Hc x). }
  erewrite bind_done by (exact E3).
  destruct (inv_insert block_null P A3 {[r]} h3 Hi3 r k3 Hr3 Hf3 ∅) as (h4 & E4 & Hi4 & Hsp); [set_solver|set_solver|].
  exists h4, A3, s. split; [exact E4|]. split; [exact Hi4|]. split; [done|]. split; [lia|]. split; [intros q u; by rewrite Hu3, Hu|].
  assert (spares (split_at b n s k A) r (mk_heap c m2) h4) as Hsp4.
  { eapply (spares_trans _ A3 r r); [exact Hsp3|apply Hsp|intros q t Hq Hne; split; [by apply Hu3|done]]. }
  split.
  - eapply (spares_trans A _ b r); [by eapply (step_spares block_null P A b n k c c m m2)|exact Hsp4|].
    intros q t Hq Hne. split; [apply Hu; by left|]. intros ->. destruct Hq as (kq & Hq & _ & _ & _).
    destruct (layout_addr Hl _ _ Hq) as (_ & _ & ?), (layout_apart Hl _ _ _ _ Hq Hb Hne); lia.
  - eapply agree_trans; [exact Ag|]. eapply agree_trans; [|apply (Hsp4 b s); [apply Hu; by right|lia]].
    cbn [hp_mem]. unfold m2. apply agree_wr. lia.
Qed.

(** ** Growing in place *)

Lemma grow_run h A b S n kn : inv h P A ∅ -> coalesced A -> used A b S -> n = b + 8 + S -> A !! n = Some kn -> k_free kn = true ->
  exists h' A', (blk_merge_next block_null b;; blk_mark_as_used b) h = Done tt h' /\ inv h' P A' ∅ /\ coalesced A' /\
    (forall q u, used A' q u <-> q <> b /\ used A q u \/ q = b /\ u = S + 8 + k_size kn) /\ spares A b h h' /\
    agree (hp_mem h) (hp_mem h') (b + 16) S.
Proof.
  intros Hi Hc Hused En Hn Hfn. pose proof (inv_layout _ _ _ _ _ Hi) as Hl. pose proof (inv_phys _ _ _ _ _ Hi) as Hm.
  pose proof (used_size A h ∅ b S Hi Hused) as (HSb & Hb0 & Hend). destruct Hused as (k & Hb & Hf & <- & Hz). pose proof (proj1 HSb) as Hs24. destruct h as [c m].
  destruct (phys_ok Hl Hm b k Hb) as (Rb & Hk & _ & _ & Mb). destruct (phys_ok Hl Hm n kn Hn) as (Rn & Hkn & _). cbn [hp_mem] in *.
  pose proof (layout_free Hl n kn Hn Hfn) as Hsn. destruct (layout_next Hl n kn Hn Hsn) as (knn & Hnn & Hpnn). set (nn := n + 8 + k_size kn) in *.
  destruct (inv_blk_remove block_null P A ∅ _ Hi n kn Hn Hfn) as (h1 & E1 & Hi1 & Hk1); [set_solver|].
  replace ({[n]} ∪ ∅ : gset Z) with ({[n]} : gset Z) in Hi1 by (apply leibniz_equiv; set_solver).
  destruct h1 as [c1 m1]. cbn [hp_mem] in *. pose proof (inv_phys _ _ _ _ _ Hi1) as Hm1. cbn [hp_mem] in Hm1.
  destruct (absorb_run Hl c1 Hm1 b n nn k kn knn Hb Hn Hs24 Hsn En eq_refl Hnn) as (m2 & E2 & Hst2 & R1 & R2 & R3 & Ag2).
  pose proof (join_size Hl b n k kn Hb Hn Hs24 Hsn En) as Hsz. destruct (phys_ok Hl Hm nn knn Hnn) as (_ & Hknn & _ & Hnnend & _). pose proof (proj1 Hknn).
  set (k' := Blk (k_size k + 8 + k_size kn) (k_free k) (k_prev k)) in *. assert (k_size k' = k_size k + 8 + k_size kn) as Ek' by done.
  assert (blk_merge_next block_null b (mk_heap c m) = Done b (mk_heap c1 m2)) as Emerge.
  { unfold blk_merge_next. erewrite bind_done by (by apply blk_next_run). rewrite <- En.
    erewrite bind_done by (by apply blk_is_free_run). rewrite Hfn. erewrite bind_done by (exact E1). exact E2. }
  erewrite bind_done by (exact Emerge).
  destruct (mark_used_mem c1 m2 b k' nn knn) as (m3 & E3 & Hst3 & R1' & R2' & _ & Ag3); try done; try lia.
  assert (with_free false k' = k') as Ewf by (unfold with_free, k'; cbn [k_size k_prev]; by rewrite Hf). rewrite Ewf in R1'.
  apply (block_step_trans _ _ _ _ _ Hst2) in Hst3.
  assert (phys m3 (join b n nn k kn A)) as Hm3.
  { apply (join_mem Hl Hm1 b n nn k kn knn Hb Hn Hs24 Hsn En eq_refl Hnn); [done|done|by rewrite Hf|congruence]. }
  assert (forall q u, used (join b n nn k kn A) q u <-> q <> b /\ used A q u \/ q = b /\ u = k_size k + 8 + k_size kn) as Hu.
  { intros q u. rewrite (used_join block_null P A {[n]} c1 m1 Hi1 b n nn k kn knn) by (done || lia || congruence || set_solver).
    split; [naive_solver|]. intros [[Hne Hq]|[-> ->]]; [|by right]. left. split; [done|]. split; [|done].
    intros ->. destruct Hq as (k0 & Hk0 & Hf0 & _). congruence. }
  eexists _, (join b n nn k kn A). split; [exact E3|]. split; [|split; [|split; [done|split]]].
  - replace (∅ : gset Z) with ({[n]} ∖ {[n]} : gset Z) by (apply leibniz_equiv; set_solver).
    apply (inv_join block_null P A {[n]} c1 m1 Hi1 b n nn k kn knn); try done; try lia; try congruence; set_solver.
  - apply coalesced_pairs. intros x Hx. pose proof Hx as Hx'. apply (pair_join block_null P A b n nn k kn knn x) in Hx; try done; try lia.
    destruct Hx as [[-> _]|(Hx & _)]; [|by destruct (proj1 (coalesced_pairs A) Hc x)].
    destruct Hx' as (kx & ky & Hx' & Hfx & _). rewrite join_lookup in Hx' by lia. rewrite decide_False, decide_True in Hx' by (done || lia).
    injection Hx' as <-. cbn in Hfx. congruence.
  - eapply (spares_trans A A b b); [by apply (links_spares block_null P A b _ (mk_heap c1 m1))| |done].
    intros q s (kq & Hq & Hfq & <- & _) Hne. eapply within_agree; [apply Hst3|]. destruct (decide (q = n)) as [->|Hqn]; [congruence|].
    destruct (join_gap Hl b n nn k kn Hb Hn Hs24 Hsn En eq_refl q kq Hq Hne Hqn); lia.
  - cbn [hp_mem]. eapply agree_trans; [apply (links_used block_null P A Hl m m1 b k); done|]. eapply agree_trans; [exact Ag2|].
    eapply agree_sub; [exact Ag3|lia|lia].
Qed.

(** ** [realloc] *)

Lemma agree_load m m' a n : agree m m' a n -> load_bytes m' a (Z.to_nat n) = load_bytes m a (Z.to_nat n).
Proof. intros H. apply load_bytes_agree. intros i Hi. apply H. lia. Qed.

Lemma from_ptr b : 0 < b -> b + 16 < 2 ^ 64 -> blk_from_ptr (b + 16) = b.
Proof. intros. unfold blk_from_ptr. change NOD_MMHEAP_BLK_START_OFFSET with 16. unfold u64. rewrite unsigned_small by lia. lia. Qed.

(** Moving: a new block is filled with the old contents and the old one is freed. *)
Lemma move_run h A b S size h1 b1 t A1 : inv h P A ∅ -> used A b S ->
  inv h1 P A1 ∅ -> coalesced A1 -> 0 < b1 -> 0 < size <= t -> (forall q u, used A1 q u <-> used A q u \/ q = b1 /\ u = t) ->
  ~ (exists u, used A b1 u) -> spares A b1 h h1 ->
  let n := if S <? size then S else size in
  exists h' A', (memcpy (b1 + 16) (b + 16) n;; nod_mmheap_free block_null (b + 16);; mret (b1 + 16)) h1 = Done (b1 + 16) h' /\
    inv h' P A' ∅ /\ coalesced A' /\ (forall q u, used A' q u <-> q <> b /\ used A q u \/ q = b1 /\ u = t) /\
    (forall q u, used A q u -> q <> b -> agree (hp_mem h) (hp_mem h') (q + 16) u) /\
    load_bytes (hp_mem h') (b1 + 16) (Z.to_nat n) = load_bytes (hp_mem h) (b + 16) (Z.to_nat n).
Proof.
  intros Hi Hused Hi1 Hc1 Hb10 Hsz Hu1 Hfresh Hsp1 n. pose proof (used_size A h ∅ b S Hi Hused) as (HSb & Hb0 & Hend).
  assert (b <> b1) as Hne by (intros ->; apply Hfresh; by exists S).
  assert (used A1 b S) as Hb1u by (apply Hu1; by left). assert (used A1 b1 t) as Hb1t by (apply Hu1; by right).
  assert (0 <= n <= S /\ n <= t) as Hn by (unfold n; destruct (Z.ltb_spec S size); lia).
  destruct h1 as [c1 m1]. pose proof (inv_phys _ _ _ _ _ Hi1) as Hm1. cbn [hp_mem] in Hm1.
  assert (mapped m1 (b + 16) S) as Mb.
  { destruct Hb1u as (k & Hk & _ & <- & _). eapply mapped_sub; [apply (ph_map _ _ Hm1 b k Hk)|lia|lia]. }
  assert (mapped m1 (b1 + 16) t) as Mb1.
  { destruct Hb1t as (k & Hk & _ & <- & _). eapply mapped_sub; [apply (ph_map _ _ Hm1 b1 k Hk)|lia|lia]. }
  destruct (proj2 (load_bytes_mapped m1 (b + 16) (Z.to_nat n))) as [bs Ebs]; [eapply mapped_sub; [exact Mb|lia|lia]|].
  pose proof (load_bytes_length _ _ _ _ Ebs) as Hlen. assert (zlen bs = n) as Hz by (unfold zlen; lia).
  destruct (inv_write c1 m1 A1 ∅ b1 t (b1 + 16) bs Hi1 Hb1t) as [Hi2 Hsp2]; [lia|lia|].
  erewrite bind_done.
  2:{ unfold memcpy. rewrite bind_get. cbn [hp_mem hp_ctl]. rewrite Ebs. erewrite bind_done by done.
      rewrite store_bytes_ok by (eapply mapped_sub; [exact Mb1|lia|lia]). by erewrite bind_done by done. }
  destruct (free_run block_null P _ A1 b S Hi2 Hc1 Hb1u) as (h3 & A3 & E3 & Hi3 & Hc3 & Hu3 & Hsp3).
  erewrite bind_done by (exact E3). exists h3, A3. split; [done|]. split; [done|]. split; [done|]. split; [|split].
  - intros q u. rewrite Hu3, Hu1. split; [intros [[?|[-> ->]] ?]; auto|]. intros [[? ?]|[-> ->]]; [by auto|]. split; [by right|congruence].
  - intros q u Hq Hqb. assert (q <> b1) as Hq1 by (intros ->; apply Hfresh; by exists u).
    eapply agree_trans; [by apply (Hsp1 q u)|]. eapply agree_trans; [apply (Hsp2 q u); [apply Hu1; by left|done]|].
    apply (Hsp3 q u); [apply Hu1; by left|done].
  - pose proof (Hsp3 b1 t Hb1t ltac:(congruence)) as Hag. cbn [hp_mem] in Hag.
    rewrite (agree_load (upd_bytes m1 (b1 + 16) bs)) by (eapply agree_sub; [exact Hag|lia|lia]).
    rewrite <- Hlen, load_bytes_upd, Hlen, <- Ebs. apply (agree_load (hp_mem h) m1).
    pose proof (Hsp1 b S Hused Hne) as Hag1. cbn [hp_mem] in Hag1. eapply agree_sub; [exact Hag1|lia|lia].
Qed.

Lemma realloc_run h A b S size : inv h P A ∅ -> coalesced A -> used A b S -> 0 < size <= 2 ^ 30 ->
  exists p' h', nod_mmheap_realloc block_null (b + 16) size h = Done p' h' /\
    ((p' = 0 /\ h' = h) \/ exists b' t A', p' = b' + 16 /\ 0 < b' /\ size <= t /\ inv h' P A' ∅ /\ coalesced A' /\
      (b' <> b -> ~ exists u, used A b' u) /\
      (forall q u, used A' q u <-> q <> b /\ used A q u \/ q = b' /\ u = t) /\
      (forall q u, used A q u -> q <> b -> agree (hp_mem h) (hp_mem h') (q + 16) u) /\
      let n := if S <? size then S else size in
      load_bytes (hp_mem h') p' (Z.to_nat n) = load_bytes (hp_mem h) (b + 16) (Z.to_nat n)).
Proof.
  intros Hi Hc Hused Hsize. pose proof (used_size A h ∅ b S Hi Hused) as (HSb & Hb0 & Hend).
  pose proof (inv_layout _ _ _ _ _ Hi) as Hl. pose proof (inv_phys _ _ _ _ _ Hi) as Hm. pose proof Hused as (k & Hb & Hf & Ek & _).
  destruct (phys_ok Hl Hm b k Hb) as (Rb & Hk & _). destruct (layout_next Hl b k Hb) as (kn & Hn & _); [lia|].
  destruct (phys_ok Hl Hm _ kn Hn) as (Rn & Hkn & _). rewrite Ek in *. set (n := b + 8 + S) in *.
  destruct (adjust_size_ok size) as [H4 Hadj]; [lia|]. set (s := adjust_request_size size NOD_MMHEAP_ALIGN_SIZE) in *.
  destruct Hadj as [[? _]|(_ & Hs & Hle)]; [lia|].
  unfold nod_mmheap_realloc. destruct (Z.eqb_spec (b + 16) 0); [lia|]. destruct (Z.eqb_spec size 0); [lia|]. cbn [negb andb].
  rewrite from_ptr by lia. fold s. destruct h as [c m]. cbn [hp_mem] in *.
  assert (blk_next b (mk_heap c m) = Done n (mk_heap c m)) as Enext.
  { unfold n. rewrite <- Ek. apply blk_next_run; [done|by rewrite Ek|done|lia]. }
  erewrite bind_done by (exact Enext).
  assert (blk_size b (mk_heap c m) = Done S (mk_heap c m)) as Esz by (rewrite <- Ek; apply blk_size_run; [done|by rewrite Ek]).
  erewrite bind_done by (exact Esz). erewrite bind_done by (by apply blk_size_run). erewrite bind_done by (by apply blk_is_free_run).
  pose proof (proj1 Hkn) as Hknb. change NOD_MMHEAP_BLK_HEADER_OVERHEAD with 8.
  replace (u64 (u64 (S + k_size kn) + 8)) with (S + 8 + k_size kn) by (unfold u64; rewrite !unsigned_small by (rewrite ?unsigned_small by lia; lia); lia).
  destruct (Z.ltb_spec S s) as [Hgrow|Hfit]; cbn [andb].
  - destruct (negb (k_free kn) || (S + 8 + k_size kn <? s)) eqn:Emove.
    + destruct (alloc_run block_null P (mk_heap c m) A size Hi Hc) as (p1 & h1 & E1 & [(-> & -> & _)|(b1 & t & A1 & -> & Hb1 & Ht & _ & Hfresh & Hi1 & Hc1 & Hu1 & Hsp1)]); [lia| |].
      * erewrite bind_done by (exact E1). cbn [Z.eqb]. eexists _, _. split; [done|]. by left.
      * erewrite bind_done by (exact E1). destruct (Z.eqb_spec (b1 + 16) 0); [lia|].
        destruct (move_run (mk_heap c m) A b S size h1 b1 t A1 Hi Hused Hi1 Hc1 Hb1 Ht Hu1 Hfresh Hsp1) as (h2 & A2 & E2 & Hi2 & Hc2 & Hu2 & Hsp2 & Hld).
        eexists _, h2. split; [exact E2|]. right. exists b1, t, A2. split; [done|]. split; [done|]. split; [lia|]. repeat (split; [done|]). done.
    + apply orb_false_iff in Emove as [Hfn%negb_false_iff Hcomb%Z.ltb_ge].
      destruct (grow_run (mk_heap c m) A b S n kn Hi Hc Hused eq_refl Hn Hfn) as (h1 & A1 & E1 & Hi1 & Hc1 & Hu1 & Hsp1 & Hag1).
      erewrite bind_done by (exact E1).
      destruct (trim_used_run h1 A1 b (S + 8 + k_size kn) s Hi1 Hc1) as (h2 & A2 & t & E2 & Hi2 & Hc2 & Ht & Hu2 & Hsp2 & Hag2); [apply Hu1; by right|lia|done|].
      erewrite bind_done by (exact E2). eexists _, h2. split; [done|]. right. exists b, t, A2. split; [done|]. split; [done|]. split; [lia|].
      split; [done|]. split; [done|]. split; [done|]. split; [|split].
      * intros q u. rewrite Hu2, Hu1. naive_solver.
      * intros q u Hq Hqb. eapply agree_trans; [by apply (Hsp1 q u)|]. apply (Hsp2 q u); [apply Hu1; by left|done].
      * set (n' := if S <? size then S else size). apply (agree_load m). eapply agree_trans; (eapply agree_sub; [eassumption|lia|]); unfold n'; destruct (Z.ltb_spec S size); lia.
  - erewrite bind_done by done.
    destruct (trim_used_run (mk_heap c m) A b S s Hi Hc Hused) as (h2 & A2 & t & E2 & Hi2 & Hc2 & Ht & Hu2 & Hsp2 & Hag2); [lia|done|].
    erewrite bind_done by (exact E2). eexists _, h2. split; [done|]. right. exists b, t, A2. split; [done|]. split; [done|]. split; [lia|].
    split; [done|]. split; [done|]. split; [done|]. split; [done|]. split; [intros q u Hq Hqb; by apply (Hsp2 q u)|].
    set (n' := if S <? size then S else size). apply (agree_load m). eapply agree_sub; [exact Hag2|lia|]. unfold n'. destruct (Z.ltb_spec S size); lia.
Qed.
End realloc.
