(* ===== verification/MmheapPools.v ===== *)
(** * Alignment and pools

    [aligned_alloc], adding pools, and the walk over a pool. *)

From S2P Require Import Prelude ByteMem Mmheap MmheapClass MmheapInv MmheapLayout MmheapPhys MmheapLists MmheapOps MmheapAlloc MmheapRealloc.

Local Open Scope Z_scope.

Section pools.
Context (block_null : Z).
Notation inv := (inv block_null).

(** ** Cutting off the front of a free block *)

Lemma trim_leading_run P h A b k g : inv h P A {[b]} -> A !! b = Some k -> k_free k = true -> coalesced A ->
  32 <= g -> g mod 4 = 0 -> g + 32 <= k_size k ->
  exists h' A', blk_trim_free_leading block_null b g h = Done (b + g) h' /\ inv h' P A' {[b + g]} /\
    A' !! (b + g) = Some (Blk (k_size k - g) true true) /\ before (b + g) A' /\
    (forall q t, used A' q t <-> used A q t) /\ spares A b h h'.
Proof.
  intros Hi Hb Hf Hc Hg Hg4 HS. pose proof (inv_layout _ _ _ _ _ Hi) as Hl. pose proof (inv_phys _ _ _ _ _ Hi) as Hm. destruct h as [c m].
  destruct (phys_ok Hl Hm b k Hb) as (Rb & Hk & Hb0 & Hend & Mb). cbn [hp_mem] in *. pose proof (proj1 Hk) as Hkb.
  unfold blk_trim_free_leading. erewrite bind_done by (apply can_split_run with (k := k); [done|done|lia]).
  destruct (Z.leb_spec (g + 32) (k_size k)); [|lia]. change NOD_MMHEAP_BLK_HEADER_OVERHEAD with 8.
  replace (u64 (g - 8)) with (g - 8) by (unfold u64; rewrite unsigned_small by lia; lia). set (s := g - 8).
  assert (24 <= s) as Hs by lia. assert (s + 32 <= k_size k) as HS' by lia.
  assert (s mod 4 = 0) as H4. { unfold s. pose proof (Z.div_mod g 4 ltac:(lia)). replace (g - 8) with ((g / 4 - 2) * 4) by lia. by apply Z.mod_mul. }
  destruct (layout_next Hl b k Hb) as (kn & Hn & _); [lia|]. set (n := b + 8 + k_size k) in *.
  destruct (split_run Hl c Hm b k kn Hb s Hs H4 HS' n eq_refl Hn) as (m1 & p' & Erun & Hst1 & R1 & R2 & R3 & R4 & Ag).
  erewrite bind_done by (exact Erun). destruct (split_sizes Hl b k s Hb Hs H4 HS') as [Hsz Hrz].
  replace (b + 8 + s) with (b + g) in * by lia. set (r := b + g) in *.
  pose proof (hdr_bound (Blk (k_size k - s - 8) true true) Hrz).
  erewrite bind_done by (apply blk_set_prev_free_run with (k := Blk (k_size k - s - 8) true p');
    [replace (r + 8) with (b + 16 + s) by lia; mem_solve|done]).
  change (with_prev true (Blk (k_size k - s - 8) true p')) with (Blk (k_size k - s - 8) true true).
  erewrite bind_done by (apply blk_link_next_run with (k := Blk s (k_free k) (k_prev k)); cbn [k_size];
    [mem_solve|done|lia|lia|apply mapped_wr; apply Hst1; eapply mapped_sub; [exact Mb|lia|lia]]). cbn [k_size].
  replace (b + 8 + s) with r by lia.
  set (m2 := wr (wr m1 (r + 8) (hdr (Blk (k_size k - s - 8) true true))) r b).
  assert (block_step b n m m2) as Hst2.
  { destruct Hst1 as [Hw Hgr]. split; [|by apply grows_wr, grows_wr]. unfold m2. repeat (apply within_wr; [|lia|lia]). done. }
  assert (inv (mk_heap c m2) P (split_at b n s k A) ({[r]} ∪ {[b]})) as Hi2.
  { replace r with (b + 8 + s) by lia. eapply (cut_inv block_null P A {[b]} c m Hi b k s Hb Hs H4 HS' m1 m2 p'); try done.
    - intros _. set_solver.
    - by replace (b + 8 + s) with r by lia.
    - intros kn0 Hn0. fold n in Hn0. rewrite Hn in Hn0. by injection Hn0 as <-.
    - unfold m2. split; [|split]; mem_solve.
    - unfold m2. rewrite Hf. replace (b + 16 + s) with (r + 8) by lia. mem_solve.
    - intros _. unfold m2. replace (b + 8 + s) with r by lia. mem_solve. }
  assert (split_at b n s k A !! b = Some (Blk s (k_free k) (k_prev k))) as Hb2.
  { rewrite split_at_lookup by lia. by rewrite decide_False, decide_True by (done || lia). }
  destruct (inv_insert block_null P _ _ _ Hi2 b _ Hb2 Hf {[r]}) as (h3 & E3 & Hi3 & Hsp3); [set_solver|assert (r <> b) by lia; set_solver|].
  erewrite bind_done by (exact E3). exists h3, (split_at b n s k A). split; [done|]. split; [exact Hi3|].
  assert (forall q t, used (split_at b n s k A) q t <-> used A q t) as Hu.
  { apply (used_split_free block_null P A {[b]} c m Hi b n k kn s Hb); done || set_solver. }
  split; [|split; [|split; [done|]]].
  - rewrite split_at_lookup by lia. rewrite decide_True by lia. rewrite Hf. do 2 f_equal. lia.
  - intros x Hx. apply (pair_split block_null P A b n k kn s x) in Hx; try done. destruct Hx as [[-> _]|[[_ Hfn]|[Hx _]]].
    + exists (Blk s (k_free k) (k_prev k)). split; [done|]. cbn [k_size]. lia.
    + destruct (proj1 (coalesced_pairs A) Hc b). by exists k, kn.
    + by destruct (proj1 (coalesced_pairs A) Hc x).
  - eapply (spares_trans A (split_at b n s k A) b b); [by eapply (step_spares block_null P A b n k c c m m2)|apply Hsp3|].
    intros q t Hq Hne. split; [by apply Hu|done].
Qed.

(** ** [aligned_alloc] *)

(** The gap in front of an aligned address in a block, as the code computes it. *)
Definition gap_of (ptr align : Z) : Z :=
  let aligned := align_ptr ptr align in
  let gap := u64 (aligned - ptr) in
  if negb (gap =? 0) && (gap <? 32) then
    let gap_remain := 32 - gap in
    let offset := if align <? gap_remain then gap_remain else align in
    u64 (align_ptr (u64 (aligned + offset)) align - ptr)
  else gap.

Lemma align_ptr_up ptr align : align_ptr ptr align = align_up ptr align.
Proof. done. Qed.

Lemma mod4_pow j : 2 <= j -> 2 ^ j mod 4 = 0.
Proof. intros. replace j with (j - 2 + 2) by lia. rewrite Z.pow_add_r by lia. by apply Z.mod_mul. Qed.

(** The gap leaves an aligned address and is 0 or large enough for a block. *)
Lemma gap_of_spec ptr j : 3 <= j <= 30 -> 0 < ptr -> ptr mod 4 = 0 -> ptr + 2 ^ 32 < 2 ^ 64 ->
  let g := gap_of ptr (2 ^ j) in (ptr + g) mod 2 ^ j = 0 /\ g mod 4 = 0 /\
    (g = 0 \/ 32 <= g < 2 ^ j \/ 32 <= g <= 28 + 2 ^ j).
Proof.
  intros Hj Hp Hp4 Hend. set (a := 2 ^ j). assert (8 <= a <= 2 ^ 30) as Ha.
  { unfold a. split; [change 8 with (2 ^ 3); apply Z.pow_le_mono_r; lia|apply Z.pow_le_mono_r; lia]. }
  assert (forall x, 0 <= x -> x + 2 ^ 31 < 2 ^ 64 -> exists q, align_ptr x a = a * q /\ x <= a * q < x + a) as Hal.
  { intros x Hx Hb. exists ((x + a - 1) / a). rewrite align_ptr_up.
    split; [unfold a; apply align_up_pow; fold a; lia|].
    apply ceil_bounds. lia. }
  assert (a mod 4 = 0) as Ha4 by (apply mod4_pow; lia). apply Z.mod_divide in Ha4 as [a4 Ea4]; [|lia]. apply Z.mod_divide in Hp4 as [p4 Ep4]; [|lia].
  unfold gap_of. destruct (Hal ptr) as (q & Eq & Hq); [lia|lia|]. rewrite Eq. unfold u64.
  assert (a * q - ptr = (a4 * q - p4) * 4) as E4 by lia. rewrite (unsigned_small _ (a * q - ptr)) by lia.
  destruct (Z.eqb_spec (a * q - ptr) 0) as [E0|E0]; cbn [negb andb].
  { split; [replace (ptr + (a * q - ptr)) with (q * a) by lia; apply Z.mod_mul; lia|]. rewrite E4. split; [by apply Z.mod_mul|left; lia]. }
  destruct (Z.ltb_spec (a * q - ptr) 32) as [Hlt|Hge].
  2:{ split; [replace (ptr + (a * q - ptr)) with (q * a) by lia; apply Z.mod_mul; lia|]. rewrite E4. split; [by apply Z.mod_mul|right; left; lia]. }
  set (off := if a <? 32 - (a * q - ptr) then 32 - (a * q - ptr) else a).
  assert (0 < off <= 32 \/ off = a) as Hoff by (unfold off; destruct (Z.ltb_spec a (32 - (a * q - ptr))); lia).
  rewrite (unsigned_small _ (a * q + off)) by lia. destruct (Hal (a * q + off)) as (q' & Eq' & Hq'); [lia|lia|]. rewrite Eq'.
  rewrite unsigned_small by lia. assert (a * q' - ptr = (a4 * q' - p4) * 4) as E4' by lia.
  split; [replace (ptr + (a * q' - ptr)) with (q' * a) by lia; apply Z.mod_mul; lia|]. split; [rewrite E4'; by apply Z.mod_mul|].
  right. right. unfold off in *. destruct (Z.ltb_spec a (32 - (a * q - ptr))) as [Hsm|Hlg].
  - lia.
  - assert (q' = q + 1) by nia. subst q'. lia.
Qed.

(** The size asked of [malloc] for an aligned block: nothing fits, or a multiple of the alignment with room for a gap. *)
Lemma aligned_request_size s j : 0 < s <= 2 ^ 30 -> 3 <= j <= 29 -> exists W, adjust_request_size (s + 2 ^ j + 32) (2 ^ j) = W /\ W mod 4 = 0 /\
  (W = 0 \/ s + 2 ^ j + 32 <= W <= 2 ^ 30 /\ exists q, W = 2 ^ j * q).
Proof.
  intros Hs Hj. assert (2 ^ j mod 4 = 0) as Ha4 by (apply mod4_pow; lia). assert (8 <= 2 ^ j <= 2 ^ 29) as Ha by (split; [change 8 with (2 ^ 3)|]; apply Z.pow_le_mono_r; lia).
  set (a := 2 ^ j) in *. unfold adjust_request_size. destruct (Z.eqb_spec (s + a + 32) 0); [lia|].
  assert (align_up (s + a + 32) a = a * ((s + a + 32 + a - 1) / a)) as -> by (unfold a; apply align_up_pow; fold a; lia).
  pose proof (ceil_bounds (s + a + 32) a ltac:(lia)). set (q := (s + a + 32 + a - 1) / a) in *.
  change NOD_MMHEAP_BLK_SIZE_MAX with (2 ^ 30). change NOD_MMHEAP_BLK_SIZE_MIN with 24.
  destruct (Z.eqb_spec (a * q) 0); [lia|]. cbn [orb]. destruct (Z.ltb_spec (2 ^ 30) (a * q)); [exists 0; split; [done|]; split; [done|by left]|].
  destruct (Z.ltb_spec 24 (a * q)); [|lia]. exists (a * q). split; [done|]. apply Z.mod_divide in Ha4 as [x Ex]; [|lia].
  split; [rewrite Ex; replace (x * 4 * q) with (x * q * 4) by lia; by apply Z.mod_mul|]. right. split; [lia|]. by exists q.
Qed.

(** A block of that size has room for a gap in front of the aligned address. *)
Lemma aligned_room s j W g k : 3 <= j <= 29 -> (j = 3 -> 28 <= s) -> s + 2 ^ j + 32 <= W <= 2 ^ 30 /\ (exists q, W = 2 ^ j * q) -> 24 <= s /\ W <= k ->
  g = 0 \/ 32 <= g < 2 ^ j \/ 32 <= g <= 28 + 2 ^ j -> g <> 0 -> g + 32 <= k /\ s + g <= k.
Proof.
  intros Hj Hexc [HW [q EqW]] Hk Hg Hg0. set (a := 2 ^ j) in *. assert (8 <= a) as Ha by (unfold a; change 8 with (2 ^ 3); apply Z.pow_le_mono_r; lia).
  assert (a = 8 /\ 28 <= s \/ 16 <= a) as [[Ea8 Hs28]|Ha16]; [|lia|].
  { destruct (Z.eq_dec j 3) as [->|]; [left; split; [done|auto]|right]. unfold a. change 16 with (2 ^ 4). apply Z.pow_le_mono_r; lia. }
  assert (a + 64 <= W) as ?; [|lia]. destruct (Z.le_gt_cases 64 a); [assert (2 <= q) by nia; nia|].
  assert (a = 16 \/ a = 32) as [E|E]; [|rewrite E in EqW; lia|rewrite E in EqW; lia].
  unfold a. assert (j = 4 \/ j = 5) as [->| ->]; [|by left|by right].
  destruct (Z.lt_ge_cases j 6); [|assert (2 ^ 6 <= a) by (apply Z.pow_le_mono_r; lia); lia].
  destruct (Z.lt_ge_cases j 4); [assert (a <= 2 ^ 3) by (apply Z.pow_le_mono_r; lia); lia|lia].
Qed.

Lemma aligned_run P h A size j : inv h P A ∅ -> coalesced A -> 0 < size <= 2 ^ 29 -> 3 <= j <= 29 -> (j = 3 -> 24 < size) ->
  (forall p, In p P -> p.1 + p.2 + 2 ^ 33 < 2 ^ 64) ->
  exists p h', nod_mmheap_aligned_alloc block_null size (2 ^ j) h = Done p h' /\
    ((p = 0 /\ h' = h) \/
     (exists b t A', p = b + 16 /\ 0 < b /\ size <= t /\ p mod 2 ^ j = 0 /\ ~ (exists u, used A b u) /\ inv h' P A' ∅ /\ coalesced A' /\
        (forall q u, used A' q u <-> used A q u \/ q = b /\ u = t) /\
        (forall q u, used A q u -> agree (hp_mem h) (hp_mem h') (q + 16) u))).
Proof.
  intros Hi Hc Hsize Hj Hexc Hend. pose proof (inv_layout _ _ _ _ _ Hi) as Hl. unfold nod_mmheap_aligned_alloc.
  destruct (adjust_size_ok size) as [H4 Hadj]; [lia|]. set (s := adjust_request_size size NOD_MMHEAP_ALIGN_SIZE) in *.
  destruct Hadj as [[? _]|(_ & Hs & Hle)]; [lia|]. set (a := 2 ^ j). change sizeof_blk with 32. change NOD_MMHEAP_ALIGN_SIZE with 4.
  assert (8 <= a <= 2 ^ 29) as Ha. { unfold a. split; [change 8 with (2 ^ 3)|]; apply Z.pow_le_mono_r; lia. }
  assert (j = 3 -> 28 <= s) as Hexc'.
  { intros Ej. specialize (Hexc Ej). apply Z.mod_divide in H4 as [q Eq]; lia. }
  destruct (Z.eqb_spec s 0); [lia|]. destruct (Z.ltb_spec 4 a); [|lia]. cbn [negb andb].
  replace (u64 (u64 (s + a) + 32)) with (s + a + 32) by (unfold u64; rewrite !unsigned_small by (rewrite ?unsigned_small by lia; lia); lia).
  assert (a mod 4 = 0) as Ha4 by (apply mod4_pow; lia).
  destruct (aligned_request_size s j) as (W & EW & HW4 & HW); [lia|lia|]. fold a in EW, HW.
  rewrite EW. destruct (locate_free_run block_null P h A W Hi) as (b & h1 & E1 & Hres); [lia|done|]. erewrite bind_done by (exact E1).
  destruct Hres as [(-> & -> & _)|(Hb0 & HW0 & k & Hb & Hf & Hfit & Hi1 & Hk1)]; [cbn [Z.eqb]; eexists _, _; split; [done|]; by left|].
  destruct HW as [|[HW [qW EqW]]]; [lia|]. destruct (Z.eqb_spec b 0); [lia|]. destruct (layout_addr Hl b k Hb) as (Hbpos & Hbend & Hksz).
  assert (b + 16 + 2 ^ 32 < 2 ^ 64) as Hbfar.
  { destruct (ly_pool _ _ _ Hl b k Hb) as (p & Hp & Hlo & Hhi). specialize (Hend p Hp). destruct (Z.eqb_spec (k_size k) 0); lia. }
  replace (blk_to_ptr b) with (b + 16) by (unfold blk_to_ptr, u64; change NOD_MMHEAP_BLK_START_OFFSET with 16; rewrite unsigned_small by lia; lia).
  fold (gap_of (b + 16) a). destruct (ly_blk _ _ _ Hl b k Hb) as (Hb4 & _ & _).
  destruct (gap_of_spec (b + 16) j) as (Hgal & Hg4 & Hgb); [lia|lia|rewrite <- Zplus_mod_idemp_l, Hb4; reflexivity|lia|]. fold a in Hgal, Hg4, Hgb.
  set (g := gap_of (b + 16) a) in *.
  assert (spares A b h h1) as Hsp1 by (by apply (links_spares block_null P)).
  assert (forall q u, used A q u -> q <> b) as Hqb by (intros q u (k0 & Hk0 & Hf0 & _) ->; congruence).
  pose proof (aligned_room s j W g (k_size k) Hj Hexc' (conj HW (ex_intro _ qW EqW)) ltac:(lia) Hgb) as Hroom.
  destruct (Z.eqb_spec g 0) as [Eg|Hg0].
  - erewrite bind_done by done.
    destruct (prepare_used_run block_null P A h1 b k s Hi1 Hb Hf) as (h2 & A2 & t & E2 & Hi2 & Hc2 & Ht & Hu & Hsp); [lia|done|by apply coalesced_before|].
    eexists _, h2. split; [exact E2|]. right. exists b, t, A2. split; [done|]. split; [done|]. split; [lia|].
    split; [by rewrite Eg, Z.add_0_r in Hgal|]. split; [intros (u & Hq); by apply (Hqb b u Hq)|]. split; [done|]. split; [done|]. split; [done|].
    intros q u Hq. eapply agree_trans; [apply (Hsp1 q u Hq (Hqb q u Hq))|apply (Hsp q u Hq (Hqb q u Hq))].
  - destruct (Hroom Hg0) as [Hr1 Hr2].
    destruct (trim_leading_run P h1 A b k g Hi1 Hb Hf Hc) as (h2 & A2 & E2 & Hi2 & Hr & Hbef & Hu2 & Hsp2); [lia|done|done|].
    erewrite bind_done by (exact E2).
    destruct (prepare_used_run block_null P A2 h2 (b + g) _ s Hi2 Hr eq_refl) as (h3 & A3 & t & E3 & Hi3 & Hc3 & Ht & Hu3 & Hsp3); [cbn [k_size]; lia|done|done|].
    eexists _, h3. split; [exact E3|]. right. exists (b + g), t, A3. split; [done|]. split; [lia|]. split; [lia|].
    split; [by replace (b + g + 16) with (b + 16 + g) by lia|].
    assert (forall q u, used A q u -> q <> b + g) as Hqr. { intros q u Hq ->. apply Hu2 in Hq as (k0 & Hk0 & Hf0 & _). rewrite Hr in Hk0. by injection Hk0 as <-. }
    split; [intros (u & Hq); by apply (Hqr _ u Hq)|]. split; [done|]. split; [done|]. split; [intros q u; by rewrite Hu3, Hu2|].
    intros q u Hq. eapply agree_trans; [apply (Hsp1 q u Hq (Hqb q u Hq))|]. eapply agree_trans; [apply (Hsp2 q u Hq (Hqb q u Hq))|].
    apply (Hsp3 q u); [by apply Hu2|by apply (Hqr q u)].
Qed.
End pools.
