(* ===== verification/MmheapInit.v ===== *)
(** * Initialisation and statistics of the heap

    Adding a pool to a heap, the fresh heap of the monitor, and the walk over the
    blocks of a pool. *)

From S2P Require Import Prelude ByteMem Mmheap MmheapClass MmheapInv MmheapLayout MmheapPhys MmheapLists MmheapOps MmheapAlloc MmheapRealloc.

Local Open Scope Z_scope.

Section init.
Context (block_null : Z).
Notation inv := (inv block_null).

(** ** A new pool *)

(** A free block of size [sz] and the sentinel behind it. *)
Definition with_pool (st sz : Z) (A : blks) : blks :=
  <[st - 8 := Blk sz true false]> (<[st + sz := Blk 0 false true]> A).

(** Memory that can become a pool. *)
Definition pool_fits (P : list (Z * Z)) (st sz : Z) : Prop :=
  pool_ok (st, sz) /\ (block_null + 32 <= st \/ st + sz + 16 <= block_null) /\
  forall p, In p P -> p.1 + p.2 + 16 <= st \/ st + sz + 16 <= p.1.

Section pool.
Context (P : list (Z * Z)) (A : blks) (st sz : Z) (Hl : layout block_null P A) (Hfit : pool_fits P st sz).
Let b : Z := st - 8.
Let n : Z := st + sz.

Lemma pool_sizes : 8 < st /\ st mod 4 = 0 /\ size_ok sz /\ 24 <= sz /\ st + sz + 16 < 2 ^ 64.
Proof using Hfit. apply Hfit. Qed.

Lemma pool_apart x kx : A !! x = Some kx -> x + 16 + k_size kx <= st \/ st + sz + 16 <= x + 8.
Proof using Hl Hfit.
  intros Hx. destruct (ly_pool _ _ _ Hl x kx Hx) as (p & Hp & Hlo & Hhi). destruct Hfit as (_ & _ & Hap).
  destruct (layout_addr Hl x kx Hx) as (_ & _ & ?). destruct (Hap p Hp); destruct (Z.eqb_spec (k_size kx) 0); lia.
Qed.

Lemma with_pool_cases x kx : with_pool st sz A !! x = Some kx ->
  (x = b /\ kx = Blk sz true false) \/ (x = n /\ kx = Blk 0 false true) \/
  (A !! x = Some kx /\ x <> b /\ x <> n /\ (x + 16 + k_size kx <= st \/ st + sz + 16 <= x + 8)).
Proof using Hl Hfit.
  unfold with_pool. intros Hx. apply lookup_insert_Some in Hx as [[<- <-]|[Hb Hx]]; [by left|].
  apply lookup_insert_Some in Hx as [[<- <-]|[Hn Hx]]; [by right; left|]. right. right. split; [done|]. unfold b, n.
  split; [lia|]. split; [lia|]. by apply pool_apart.
Qed.

Lemma with_pool_b : with_pool st sz A !! b = Some (Blk sz true false).
Proof. apply lookup_insert_eq. Qed.

Lemma with_pool_n : with_pool st sz A !! n = Some (Blk 0 false true).
Proof using Hfit. pose proof pool_sizes. unfold with_pool. rewrite lookup_insert_ne by lia. apply lookup_insert_eq. Qed.

Lemma with_pool_old x kx : A !! x = Some kx -> with_pool st sz A !! x = Some kx.
Proof using Hl Hfit.
  intros Hx. pose proof pool_sizes. pose proof (pool_apart x kx Hx). destruct (layout_addr Hl x kx Hx) as (_ & _ & ?).
  unfold with_pool. by rewrite !lookup_insert_ne by lia.
Qed.

Lemma with_pool_layout : layout block_null (P ++ [(st, sz)]) (with_pool st sz A).
Proof using Hl Hfit.
  pose proof pool_sizes as (Hst & Hst4 & Hsz & Hsz24 & Hend). destruct Hfit as (Hok & Hnull & Hap). pose proof (proj1 Hsz).
  assert ((st + sz) mod 4 = 0 /\ (st - 8) mod 4 = 0) as [Hn4 Hb4].
  { destruct Hsz as [_ Hsz4]. apply Z.mod_divide in Hst4 as [x Ex], Hsz4 as [y Ey]; [|lia|lia].
    split; [replace (st + sz) with ((x + y) * 4) by lia|replace (st - 8) with ((x - 2) * 4) by lia]; by apply Z.mod_mul. }
  constructor.
  - apply Hl.
  - apply Forall_app. split; [apply Hl|]. by constructor.
  - intros p q [Hp|[<-|[]]]%in_app_iff [Hq|[<-|[]]]%in_app_iff Hne; cbn [fst snd].
    + by apply (ly_pools_apart _ _ _ Hl).
    + by apply Hap.
    + specialize (Hap q Hq). lia.
    + done.
  - intros x kx [(-> & ->)|[(-> & ->)|(Hx & _)]]%with_pool_cases; cbn [k_size k_free].
    + split; [done|]. split; [done|]. by right.
    + split; [done|]. split; [split; [lia|done]|]. by left.
    + by apply (ly_blk _ _ _ Hl).
  - intros x kx [(-> & ->)|[(-> & ->)|(Hx & _)]]%with_pool_cases; cbn [k_size k_free].
    + exists (st, sz). split; [apply in_app_iff; right; by left|]. cbn [fst snd]. destruct (Z.eqb_spec sz 0); unfold b; lia.
    + exists (st, sz). split; [apply in_app_iff; right; by left|]. cbn [fst snd]. destruct (Z.eqb_spec 0 0); unfold n; lia.
    + destruct (ly_pool _ _ _ Hl x kx Hx) as (p & Hp & Hr). exists p. split; [apply in_app_iff; by left|done].
  - intros x y kx ky [(-> & ->)|[(-> & ->)|(Hx & _ & _ & Hgx)]]%with_pool_cases [(-> & ->)|[(-> & ->)|(Hy & _ & _ & Hgy)]]%with_pool_cases Hne;
      cbn [k_size] in *; unfold b, n in *; try lia. by apply (ly_apart _ _ _ Hl).
  - intros x kx [(-> & ->)|[(-> & ->)|(Hx & _)]]%with_pool_cases; cbn [k_size]; unfold b, n; try lia. by apply (ly_off_null _ _ _ Hl).
  - intros x kx [(-> & ->)|[(-> & ->)|(Hx & _)]]%with_pool_cases Hz; cbn [k_size k_free] in *.
    + exists (Blk 0 false true). split; [|done]. replace (b + 8 + sz) with n by (unfold b, n; lia). apply with_pool_n.
    + done.
    + destruct (ly_next _ _ _ Hl x kx Hx Hz) as (nx & Hnx & Hp). exists nx. split; [by apply with_pool_old|done].
  - intros x kx [(-> & ->)|[(-> & ->)|(Hx & _)]]%with_pool_cases Hp; cbn [k_size k_prev] in *.
    + done.
    + exists b, (Blk sz true false). split; [apply with_pool_b|]. split; [done|]. cbn [k_size]. unfold b, n. lia.
    + destruct (ly_prev _ _ _ Hl x kx Hx Hp) as (p & kp & Hkp & Hf & E). exists p, kp. split; [by apply with_pool_old|done].
  - intros p [Hp|[<-|[]]]%in_app_iff.
    + destruct (ly_first _ _ _ Hl p Hp) as [kp Hkp]. exists kp. by apply with_pool_old.
    + eexists. apply with_pool_b.
Qed.

Lemma with_pool_used q s : used (with_pool st sz A) q s <-> used A q s.
Proof using Hl Hfit.
  split.
  - intros (k & [(-> & ->)|[(-> & ->)|(Hx & _)]]%with_pool_cases & Hf & <- & Hz); [done|done|by exists k].
  - intros (k & Hx & Hf & <- & Hz). exists k. split; [by apply with_pool_old|done].
Qed.

Lemma with_pool_coalesced : coalesced A -> coalesced (with_pool st sz A).
Proof using Hl Hfit.
  intros Hc x kx ky [(-> & ->)|[(-> & ->)|(Hx & _)]]%with_pool_cases Hf; cbn [k_size k_free] in *; [|done|].
  - replace (b + 8 + sz) with n by (unfold b, n; lia). rewrite with_pool_n. by intros [= <-].
  - intros Hy. destruct (layout_next Hl x kx Hx (layout_free Hl x kx Hx Hf)) as (k0 & H0 & _). apply with_pool_old in H0 as H0'.
    rewrite H0' in Hy. injection Hy as <-. by apply (Hc x kx k0).
Qed.
End pool.

Lemma lists_pools c m A X L cnt starts : lists block_null c m A X L -> lists block_null (set_pools cnt starts c) m A X L.
Proof. intros HL. by constructor; apply HL. Qed.

Lemma align_down_4 x : 0 <= x < 2 ^ 64 -> align_down x NOD_MMHEAP_ALIGN_SIZE = x - x mod 4.
Proof.
  intros Hx. unfold align_down. change (u64 (NOD_MMHEAP_ALIGN_SIZE - 1)) with (Z.ones 2). rewrite Z.land_ones by lia.
  change (2 ^ 2) with 4. pose proof (Z.mod_pos_bound x 4 ltac:(lia)). pose proof (Z.mod_le x 4 ltac:(lia) ltac:(lia)).
  unfold u64. by rewrite unsigned_small by lia.
Qed.

Lemma pool_blk st : 8 < st < 2 ^ 64 -> offset_to_blk st (- NOD_MMHEAP_BLK_HEADER_OVERHEAD) = st - 8.
Proof.
  intros. unfold offset_to_blk. change (s32 (- NOD_MMHEAP_BLK_HEADER_OVERHEAD)) with (-8). unfold u64. rewrite unsigned_small by lia. lia.
Qed.

(** The checks of [nod_mmheap_pool_add]. *)
Definition pool_add_check (c : nod_mmheap_ctl_t) (st size : Z) : Z :=
  let sz := size - 16 - (size - 16) mod 4 in
  if pool_cnt c =? 3 then NOD_MMHEAP_POOL_OVERFLOW
  else if nod_mmheap_pool_is_exist st c then NOD_MMHEAP_POOL_ALREADY_EXIST
  else if negb (st mod 4 =? 0) then NOD_MMHEAP_INVALID_POOL_ADDR
  else if (sz <? 24) || (2 ^ 30 <? sz) then NOD_MMHEAP_INVALID_POOL_SIZE else 0.

(** ** Adding a pool *)

(** Writing the header of a new block, of size, state and state of the block before. *)
Lemma new_header_run c m b s fr pr (set_f set_p : M heap unit) : mapped m (b + 8) 8 -> size_ok s ->
  (forall m k, rd m (b + 8) = Some (hdr k) -> size_ok (k_size k) -> set_f (mk_heap c m) = Done tt (mk_heap c (wr m (b + 8) (hdr (with_free fr k))))) ->
  (forall m k, rd m (b + 8) = Some (hdr k) -> size_ok (k_size k) -> set_p (mk_heap c m) = Done tt (mk_heap c (wr m (b + 8) (hdr (with_prev pr k))))) ->
  exists m', (forall B (k : M heap B), (blk_set_size b s;; set_f;; set_p;; k) (mk_heap c m) = k (mk_heap c m')) /\
    grows m m' /\ within (b + 8) (b + 16) m m' /\ rd m' (b + 8) = Some (hdr (Blk s fr pr)).
Proof.
  intros Hm Hs Hf Hp. destruct (blk_set_size_fresh c m b s Hm Hs) as (f0 & p0 & E0).
  pose proof (hdr_bound (Blk s f0 p0) Hs). pose proof (hdr_bound (Blk s fr p0) Hs). pose proof (hdr_bound (Blk s fr pr) Hs).
  exists (wr (wr (wr m (b + 8) (hdr (Blk s f0 p0))) (b + 8) (hdr (Blk s fr p0))) (b + 8) (hdr (Blk s fr pr))). split; [|split; [|split]].
  - intros B k. erewrite bind_done by (exact E0). erewrite bind_done by (apply Hf with (k := Blk s f0 p0); [mem_solve|done]).
    change (with_free fr (Blk s f0 p0)) with (Blk s fr p0). by erewrite bind_done by (apply Hp with (k := Blk s fr p0); [mem_solve|done]).
  - auto with heap_mem.
  - repeat (apply within_wr; [|lia|lia]). apply within_refl.
  - mem_solve.
Qed.

(** The array of the pools with one more. *)
Lemma record_pools l (P : list (Z * Z)) p : zlen l = 3 -> zlen P < 3 -> ztake (zlen P) l = P.*1 ->
  exists l', zset l (zlen P) p.1 = Some l' /\ zlen l' = 3 /\ ztake (zlen P + 1) l' = (P ++ [p]).*1.
Proof.
  intros Hl Hlt Hp. pose proof (zlen_nonneg P). exists (<[length P := p.1]> l).
  unfold zset. destruct (Z.leb_spec 0 (zlen P)), (Z.ltb_spec (zlen P) (zlen l)); try lia. cbn [andb]. unfold zlen in *. rewrite Nat2Z.id.
  split; [done|]. split; [by rewrite length_insert|]. rewrite fmap_app, <- Hp. unfold ztake. rewrite Nat2Z.id.
  replace (Z.to_nat (Z.of_nat (length P) + 1)) with (S (length P)) by lia.
  erewrite take_S_r by (apply list_lookup_insert_eq; lia). by rewrite take_insert_ge by lia.
Qed.

Section add.
Context (P : list (Z * Z)) (A : blks) (st sz : Z) (Hl : layout block_null P A) (Hfit : pool_fits P st sz).
Let b : Z := st - 8.
Let n : Z := st + sz.
Notation A' := (with_pool st sz A).

(** What [b .. n] keep of the blocks that were there. *)
Definition old_kept (m m' : bmem) : Prop :=
  grows m m' /\ (forall x kx, A !! x = Some kx -> agree m m' (x + 8) 8 /\ (k_free kx = true -> agree m m' (x + 8 + k_size kx) 8)) /\
  (forall x kx, A !! x = Some kx -> k_free kx = false -> agree m m' (x + 16) (k_size kx)).

Lemma old_kept_within lo hi m m' : grows m m' -> within lo hi m m' -> st <= lo -> hi <= st + sz + 16 -> old_kept m m'.
Proof using Hl Hfit.
  intros Hg Hw Hlo Hhi. split; [done|].
  assert (forall x kx, A !! x = Some kx -> x + 16 + k_size kx <= lo \/ hi <= x + 8 /\ 0 <= k_size kx) as Hap.
  { intros x kx Hx. destruct (layout_addr Hl x kx Hx) as (_ & _ & ?). destruct (pool_apart P A st sz Hl Hfit x kx Hx); lia. }
  split; intros x kx Hx; [split; [|intros _]|intros _]; (eapply within_agree; [exact Hw|destruct (Hap x kx Hx) as [?|[? ?]]; destruct (layout_addr Hl x kx Hx) as (_ & _ & ?); lia]).
Qed.

Lemma old_kept_trans m1 m2 m3 : old_kept m1 m2 -> old_kept m2 m3 -> old_kept m1 m3.
Proof.
  intros (G1 & H1 & U1) (G2 & H2 & U2). split; [by eapply grows_trans|]. split; intros x kx Hx.
  - destruct (H1 x kx Hx) as [Ha Hb], (H2 x kx Hx) as [Hc Hd]. split; [by eapply agree_trans|]. intros Hf. eapply agree_trans; auto.
  - intros Hf. eapply agree_trans; eauto.
Qed.

(** The blocks as the headers are written and before the new block is on its list. *)
Lemma new_block_lists c m m' L : lists block_null c m A ∅ L -> old_kept m m' -> within (b + 8) (b + 16) m m' -> lists block_null c m' A' {[b]} L.
Proof using Hl Hfit.
  intros HL (Hg & _) Hw. pose proof (pool_apart P A st sz Hl Hfit) as Hap. eapply (lists_frame block_null P A Hl); [exact HL|exact Hg| |].
  - intros x s. split.
    + intros (k & Hx & Hf & _ & <-). exists k. split; [by apply (with_pool_old P A st sz Hl Hfit)|]. split; [done|]. split; [|done].
      apply not_elem_of_singleton. destruct (Hap x k Hx); destruct (layout_addr Hl x k Hx) as (_ & _ & ?); pose proof (pool_sizes P st sz Hfit) as (_ & _ & [? _] & _); unfold b; lia.
    + intros (k & Hx & Hf & Hin & <-). apply (with_pool_cases P A st sz Hl Hfit) in Hx as [(-> & ->)|[(-> & ->)|(Hx & _)]]; [set_solver|done|]. exists k. set_solver.
  - intros x s (k & Hx & Hf & _ & <-). eapply within_agree; [exact Hw|]. pose proof (layout_free Hl x k Hx Hf). pose proof (pool_sizes P st sz Hfit) as (_ & _ & [? _] & _).
    unfold b. destruct (Hap x k Hx); lia.
Qed.

(** The first half: the new free block is on its list. *)
Lemma new_block_run c m L : phys m A -> lists block_null c m A ∅ L -> mapped m st (sz + 16) ->
  exists c' m' L', (forall B (k : M heap B), (blk_set_size b sz;; blk_set_free b;; blk_set_prev_used b;; blk_insert block_null b;; k) (mk_heap c m) = k (mk_heap c' m')) /\
    lists block_null c' m' A' ∅ L' /\ old_kept m m' /\ rd m' (b + 8) = Some (hdr (Blk sz true false)) /\
    pool_cnt c' = pool_cnt c /\ pool_start c' = pool_start c.
Proof using Hl Hfit.
  intros Hm HL Hmap. pose proof (pool_sizes P st sz Hfit) as (Hst & Hst4 & Hsz & Hsz24 & Hend). pose proof (with_pool_layout P A st sz Hl Hfit) as Hl'.
  pose proof (with_pool_b A st sz) as Hb. fold b in Hb.
  destruct (new_header_run c m b sz true false (blk_set_free b) (blk_set_prev_used b)) as (m3 & E3 & Hg3 & Hw3 & R3);
    [eapply mapped_sub; [exact Hmap|unfold b; lia|unfold b; lia]|done|intros; by apply blk_set_free_run|intros; by apply blk_set_prev_used_run|].
  assert (old_kept m m3) as Hk3 by (eapply old_kept_within; [done|exact Hw3|unfold b; lia|unfold b; lia]).
  assert (blocks_mapped A' m3) as Hbm.
  { intros x kx Hx. apply (with_pool_cases P A st sz Hl Hfit) in Hx as [(-> & ->)|[(-> & ->)|(Hx & _)]]; cbn [k_size]; apply Hg3.
    - eapply mapped_sub; [exact Hmap|lia|lia].
    - eapply mapped_sub; [exact Hmap|lia|lia].
    - by apply (ph_map _ _ Hm). }
  destruct (mapping_insert sz) as [fl sl] eqn:Ecls.
  destruct (insert_run block_null _ A' Hl' c m3 {[b]} L (new_block_lists c m m3 L HL Hk3 Hw3) Hbm b fl sl (Blk sz true false) Hb eq_refl)
    as (c4 & m4 & E4 & HL4 & Hk4 & Hpc & Hps); [set_solver|done|].
  replace ({[b]} ∖ {[b]} : gset Z) with (∅ : gset Z) in HL4 by (apply leibniz_equiv; set_solver).
  eexists c4, m4, _. split; [|split; [exact HL4|split; [|split; [|done]]]].
  - intros B k. rewrite E3. erewrite bind_done; [done|]. unfold blk_insert.
    erewrite bind_done by (apply blk_size_run with (k := Blk sz true false); done). cbn [k_size]. by rewrite Ecls.
  - eapply old_kept_trans; [exact Hk3|]. split; [apply Hk4|]. split; intros x kx Hx; apply (with_pool_old P A st sz Hl Hfit) in Hx as Hx'.
    + destruct (links_words block_null _ A' Hl' m3 m4 x kx Hk4 Hx') as [H1 H2]. split; [done|]. intros Hf. apply H2. by apply (layout_free Hl x kx Hx).
    + by apply (links_used block_null _ A' Hl').
  - rewrite (rd_agree m3); [done|]. by apply (links_words block_null _ A' Hl' m3 m4 b _ Hk4 Hb).
Qed.

(** The second half: the sentinel behind it. *)
Lemma sentinel_run c m : mapped m st (sz + 16) -> rd m (b + 8) = Some (hdr (Blk sz true false)) ->
  exists m', (forall B (k : M heap B), (next_blk ← blk_link_next b; blk_set_size next_blk 0;; blk_set_used next_blk;; blk_set_prev_free next_blk;; k) (mk_heap c m) =
      k (mk_heap c m')) /\ grows m m' /\ within n (n + 16) m m' /\ rd m' n = Some b /\ rd m' (n + 8) = Some (hdr (Blk 0 false true)).
Proof using Hfit.
  intros Hmap R. pose proof (pool_sizes P st sz Hfit) as (Hst & Hst4 & Hsz & Hsz24 & Hend).
  assert (mapped m n 16) as Mn by (eapply mapped_sub; [exact Hmap|unfold n; lia|unfold n; lia]).
  destruct (new_header_run c (wr m n b) n 0 false true (blk_set_used n) (blk_set_prev_free n)) as (m5 & E5 & Hg5 & Hw5 & R5);
    [apply mapped_wr; eapply mapped_sub; [exact Mn|lia|lia]|by split; [lia|]|intros; by apply blk_set_used_run|intros; by apply blk_set_prev_free_run|].
  exists m5. split; [|split; [|split; [|split; [|exact R5]]]].
  - intros B k. assert (n = b + 8 + sz) as En by (unfold n, b; lia).
    erewrite bind_done by (apply blk_link_next_run with (k := Blk sz true false); cbn [k_size]; rewrite <- ?En; [done|done|unfold b; lia|unfold n, b in *; lia|eapply mapped_sub; [exact Mn|lia|lia]]).
    cbn [k_size]. rewrite <- En. apply E5.
  - eapply grows_trans; [|exact Hg5]. auto with heap_mem.
  - apply (within_trans _ _ _ (wr m n b)); [apply within_wr; [apply within_refl|lia|lia]|]. eapply within_weaken; [exact Hw5|lia|lia].
  - rewrite (rd_agree (wr m n b)) by (eapply within_agree; [exact Hw5|lia]). mem_solve.
Qed.

(** The memory with both headers holds the new blocks. *)
Lemma new_pool_phys m m4 m5 : phys m A -> mapped m st (sz + 16) -> old_kept m m4 -> rd m4 (b + 8) = Some (hdr (Blk sz true false)) ->
  grows m4 m5 -> within n (n + 16) m4 m5 -> rd m5 n = Some b -> rd m5 (n + 8) = Some (hdr (Blk 0 false true)) -> phys m5 A'.
Proof using Hl Hfit.
  intros Hm Hmap Hk4 R4 Hg5 Hw5 R5 R5'. pose proof (pool_sizes P st sz Hfit) as (Hst & Hst4 & [Hsz _] & Hsz24 & Hend).
  assert (old_kept m m5) as (Hg & Hold & _).
  { eapply old_kept_trans; [exact Hk4|]. eapply old_kept_within; [done|exact Hw5|unfold n; lia|unfold n; lia]. }
  apply phys_intro. intros x kx Hx. apply (with_pool_cases P A st sz Hl Hfit) in Hx as [(-> & ->)|[(-> & ->)|(Hx & _)]]; cbn [k_size k_free].
  - fold b. split; [rewrite (rd_agree m4); [done|]; eapply within_agree; [exact Hw5|unfold b, n; lia]|].
    split; [apply Hg; eapply mapped_sub; [exact Hmap|unfold b; lia|unfold b; lia]|]. intros _. by replace (b + 8 + sz) with n by (unfold b, n; lia).
  - fold n. split; [done|]. split; [|done]. apply Hg. eapply mapped_sub; [exact Hmap|unfold n; lia|unfold n; lia].
  - destruct (Hold x kx Hx) as [H1 H2]. split; [rewrite (rd_agree m) by done; by apply (ph_hdr _ _ Hm)|]. split; [apply Hg; by apply (ph_map _ _ Hm)|].
    intros Hf. rewrite (rd_agree m) by auto. by apply (ph_link _ _ Hm).
Qed.
End add.

Lemma pool_add_run P A c m st size : inv (mk_heap c m) P A ∅ -> coalesced A -> 16 <= size < 2 ^ 64 ->
  pool_add_check c st size = 0 ->
  let sz := size - 16 - (size - 16) mod 4 in
  pool_fits P st sz -> mapped m st (sz + 16) ->
  exists h', nod_mmheap_pool_add block_null st size (mk_heap c m) = Done 0 h' /\
    inv h' (P ++ [(st, sz)]) (with_pool st sz A) ∅ /\ (forall q s, used A q s -> agree m (hp_mem h') (q + 16) s).
Proof.
  intros Hi Hc Hsize Hchk sz Hfit Hmap. pose proof (inv_layout _ _ _ _ _ Hi) as Hl. pose proof (pool_sizes P st sz Hfit) as (Hst & Hst4 & Hsz & Hsz24 & Hend).
  destruct Hi as [_ Hm [L HL] (Hp1 & Hp2 & Hp3)]. cbn [hp_ctl hp_mem] in *.
  unfold nod_mmheap_pool_add. rewrite bind_get. cbn [hp_ctl]. unfold pool_add_check in Hchk. fold sz in Hchk.
  unfold nod_mmheap_pool_is_full. change NOD_MMHEAP_POOL_MAX with 3. destruct (pool_cnt c =? 3) eqn:Efull; [done|].
  destruct (nod_mmheap_pool_is_exist st c); [done|]. change (2 * NOD_MMHEAP_BLK_HEADER_OVERHEAD) with 16.
  assert (align_down (u64 (size - 16)) NOD_MMHEAP_ALIGN_SIZE = sz) as ->.
  { unfold u64. rewrite unsigned_small by lia. by rewrite align_down_4 by lia. }
  change NOD_MMHEAP_ALIGN_SIZE with 4. destruct (st mod 4 =? 0); [|done]. cbn [negb] in *.
  change NOD_MMHEAP_BLK_SIZE_MIN with 24. change NOD_MMHEAP_BLK_SIZE_MAX with (2 ^ 30).
  destruct ((sz <? 24) || (2 ^ 30 <? sz)); [done|]. rewrite pool_blk by lia.
  destruct (new_block_run P A st sz Hl Hfit c m L Hm HL Hmap) as (c4 & m4 & L4 & E4 & HL4 & Hk4 & R4 & Hpc & Hps). rewrite E4.
  destruct (sentinel_run P st sz Hfit c4 m4 (proj1 Hk4 _ _ Hmap) R4) as (m5 & E5 & Hg5 & Hw5 & R5 & R5'). rewrite E5.
  destruct (record_pools (pool_start c4) P (st, sz)) as (starts & Es & Ls & Hs); [by rewrite Hps| |by rewrite Hps, <- Hp2|].
  { apply Z.eqb_neq in Efull. assert (zlen (ztake (pool_cnt c) (pool_start c)) <= 3) as Hle by (unfold ztake, zlen in *; rewrite length_take; lia).
    rewrite Hp1 in Hle. unfold zlen in *. rewrite length_fmap in Hle. lia. }
  erewrite bind_done by (unfold nod_mmheap_pool_record; apply with_ctl_run; rewrite Hpc, Hp2; cbn [fst] in Es; by rewrite Es).
  eexists. split; [done|]. split.
  - constructor; cbn [hp_ctl hp_mem pool_cnt pool_start set_pools].
    + by apply with_pool_layout.
    + by eapply new_pool_phys.
    + eexists. apply lists_pools. eapply (lists_frame block_null _ _ (with_pool_layout P A st sz Hl Hfit)); [exact HL4|exact Hg5|done|].
      intros x s (k & Hx & Hf & _ & <-). eapply within_agree; [exact Hw5|].
      apply (with_pool_cases P A st sz Hl Hfit) in Hx as [(-> & ->)|[(-> & ->)|(Hx & _ & _ & ?)]]; cbn [k_size] in *; [lia|done|].
      pose proof (layout_free Hl x k Hx Hf). lia.
    + split; [done|]. split; [|done]. unfold zlen. rewrite length_app. cbn [length]. unfold zlen. lia.
  - intros q s (k & Hk & Hf & <- & _). cbn [hp_mem]. eapply agree_trans; [by apply Hk4|].
    eapply within_agree; [exact Hw5|]. pose proof (layout_addr Hl q k Hk) as (_ & _ & ?). destruct (pool_apart P A st sz Hl Hfit q k Hk); lia.
Qed.

(** ** The empty heap *)

Lemma zget_replicate {T} (x : T) k i : zget (replicate k x) i = if (0 <=? i) && (i <? Z.of_nat k) then Some x else None.
Proof.
  unfold zget. destruct (Z.leb_spec 0 i); [|done]. cbn [andb]. destruct (Z.ltb_spec i (Z.of_nat k)).
  - apply lookup_replicate_2. lia.
  - apply lookup_ge_None_2. rewrite length_replicate. lia.
Qed.

Lemma ctl_init_run c m : 0 <= block_null -> block_null + 32 < 2 ^ 64 -> mapped m block_null 32 ->
  exists h', nod_mmheap_ctl_init block_null (mk_heap c m) = Done tt h' /\ inv h' [] ∅ ∅ /\
    pool_cnt (hp_ctl h') = 0 /\ grows m (hp_mem h').
Proof.
  intros H0 Hend Hm. unfold nod_mmheap_ctl_init. rewrite bind_get. cbn [hp_mem]. erewrite bind_done by done.
  change off_next_free with 16. change off_prev_free with 24.
  erewrite bind_done by (apply store_run; eapply mapped_sub; [exact Hm|lia|lia]).
  rewrite store_run by (apply mapped_wr; eapply mapped_sub; [exact Hm|lia|lia]).
  eexists. split; [done|]. split; [|split; [done|cbn [hp_mem]; auto with heap_mem]].
  constructor; cbn [hp_ctl hp_mem].
  - constructor; try done; intros; set_solver.
  - constructor; intros; set_solver.
  - exists (fun _ _ => []). constructor; cbn [sl_bitmap blocks fl_bitmap].
    + by do 2 apply mapped_wr.
    + done.
    + split; [done|]. intros fl row. rewrite zget_replicate. destruct (_ && _); [|done]. by intros [= <-].
    + intros fl sl [Hf Hs]. unfold get_block. cbn [blocks]. rewrite zget_replicate.
      destruct (Z.leb_spec 0 fl), (Z.ltb_spec fl (Z.of_nat 24)); try lia. cbn [andb mbind option_bind]. rewrite zget_replicate.
      destruct (Z.leb_spec 0 sl), (Z.ltb_spec sl (Z.of_nat 32)); try lia. done.
    + done.
    + intros. constructor.
    + intros fl sl b _. split; [done|]. intros (s & (k & Hk & _) & _). set_solver.
    + intros fl Hf. exists 0. rewrite zget_replicate. destruct (Z.leb_spec 0 fl), (Z.ltb_spec fl (Z.of_nat 24)); try lia.
      split; [done|]. split; [lia|]. split; [intros; apply Z.bits_0|apply Z.bits_0].
    + lia.
  - done.
Qed.

(** ** Walking over a pool *)

(** The blocks from [b] to the sentinel. *)
Fixpoint walk (A : blks) (b : Z) (l : list blk) : Prop :=
  match l with
  | [] => exists k, A !! b = Some k /\ k_size k = 0
  | k :: l => A !! b = Some k /\ k_size k <> 0 /\ walk A (b + 8 + k_size k) l
  end.

Definition sum_sizes (f : bool) (l : list blk) : Z := foldr (fun k acc => (if Bool.eqb (k_free k) f then k_size k else 0) + acc) 0 l.

(** From every block of a pool one reaches the sentinel, and the blocks fill the
    memory in between. *)
Lemma walk_exists P A : layout block_null P A -> forall p b k, In p P -> A !! b = Some k -> p.1 - 8 <= b <= p.1 + p.2 ->
  exists l, walk A b l /\ b + sum_sizes true l + sum_sizes false l + 8 * zlen l = p.1 + p.2 /\ 0 <= sum_sizes true l /\ 0 <= sum_sizes false l /\
    32 * zlen l <= p.1 + p.2 - b.
Proof.
  intros Hl p b k Hp. pose proof (proj1 (List.Forall_forall _ _) (ly_pools _ _ _ Hl) p Hp) as (Hst & _ & [Hsz _] & _).
  remember (Z.to_nat (p.1 + p.2 - b)) as N eqn:EN. revert b k EN. induction (lt_wf N) as [N _ IH]. intros b k EN Hb Hin.
  destruct (layout_addr Hl b k Hb) as (_ & _ & Hkz).
  assert (forall q, In q P -> q.1 - 8 <= b <= q.1 + q.2 -> q = p) as Huniq.
  { intros q Hq Hqin. destruct (decide (q = p)); [done|]. destruct (ly_pools_apart _ _ _ Hl q p Hq Hp); [done|lia|lia]. }
  destruct (ly_pool _ _ _ Hl b k Hb) as (q & Hq & Hlo & Hhi). destruct (Z.eqb_spec (k_size k) 0) as [E0|E0].
  - rewrite (Huniq q Hq) in Hhi by lia. exists []. cbn. split; [by exists k|]. unfold zlen. cbn. lia.
  - rewrite (Huniq q Hq) in * by lia. destruct (ly_next _ _ _ Hl b k Hb E0) as (kn & Hn & _).
    destruct (ly_blk _ _ _ Hl b k Hb) as (_ & _ & [[? _]|H24]); [lia|].
    destruct (IH (Z.to_nat (p.1 + p.2 - (b + 8 + k_size k))) ltac:(lia) (b + 8 + k_size k) kn eq_refl Hn) as (l & Hw & Hsum & Hs1 & Hs2 & Hlen); [lia|].
    exists (k :: l). cbn [walk]. split; [done|]. rewrite zlen_cons. unfold sum_sizes in *. cbn [foldr]. destruct (k_free k); cbn [Bool.eqb]; lia.
Qed.

Lemma walk_run P A c m : layout block_null P A -> phys m A -> forall l b fuel info,
  walk A b l -> (length l < fuel)%nat -> 0 <= info_used info -> 0 <= info_free info ->
  info_used info + sum_sizes false l < 2 ^ 32 -> info_free info + sum_sizes true l < 2 ^ 32 ->
  (forall k, In k l -> 0 <= k_size k) ->
  pool_check_loop fuel b info (mk_heap c m) =
    Done (Some (mk_info (info_used info + sum_sizes false l) (info_free info + sum_sizes true l))) (mk_heap c m).
Proof.
  intros Hl Hm. induction l as [|k l IH]; intros b fuel info Hw Hfuel Hu0 Hf0 Hu Hf Hpos; (destruct fuel as [|fuel]; [cbn in Hfuel; lia|]); cbn [walk pool_check_loop length] in *.
  - destruct Hw as (k & Hb & Hz). destruct (phys_ok Hl Hm b k Hb) as (Rb & Hk & Hb0 & _). destruct (Z.eqb_spec b 0); [lia|].
    erewrite bind_done by (by apply blk_is_last_run). rewrite Hz. cbn [Z.eqb]. destruct info. cbn. by rewrite !Z.add_0_r.
  - destruct Hw as (Hb & Hz & Hw). destruct (phys_ok Hl Hm b k Hb) as (Rb & Hk & Hb0 & Hend & _). destruct (Z.eqb_spec b 0); [lia|].
    erewrite bind_done by (by apply blk_is_last_run). destruct (Z.eqb_spec (k_size k) 0); [done|].
    erewrite bind_done by (by apply blk_size_run). erewrite bind_done by (by apply blk_is_free_run).
    cbn zeta. erewrite bind_done by (by apply blk_next_run).
    assert (0 <= sum_sizes true l /\ 0 <= sum_sizes false l) as [Ht Hfl].
    { clear -Hpos. unfold sum_sizes. induction l as [|x l IH]; cbn [foldr]; [lia|]. destruct IH as [? ?]; [intros k0 [->|]; apply Hpos; [by left|right; by right]|].
      specialize (Hpos x ltac:(right; by left)). destruct (k_free x); cbn [Bool.eqb]; lia. }
    specialize (Hpos k ltac:(by left)) as Hkp.
    unfold sum_sizes in Hu, Hf |- *. cbn [foldr] in *. fold (sum_sizes true l) (sum_sizes false l) in *.
    destruct (k_free k) eqn:Ef; cbn [Bool.eqb] in *; rewrite IH; cbn [info_used info_free]; try done; try lia;
      try (intros k0 Hk0; apply Hpos; by right); unfold u32; rewrite ?unsigned_small by lia; try lia; do 3 f_equal; lia.
Qed.
End init.
