(* ===== verification/MmheapProps.v ===== *)
(** * What the monitor's heap promises

    [heap_ok h P U]: between two calls the heap [h] manages the pools [P] and has
    handed out the allocations [U], a map from pointers to sizes.  The theorems give
    the effect of each call on [U] and on the memory of the allocations. *)

From S2P Require Import Prelude ByteMem Mmheap MmheapClass MmheapInv MmheapLayout MmheapPhys MmheapLists MmheapOps MmheapAlloc MmheapRealloc MmheapPools MmheapInit.

Local Open Scope Z_scope.

(** The memory of the allocations does not change. *)
Definition unchanged (U : gmap Z Z) (h h' : heap) : Prop := forall p s, U !! p = Some s -> agree (hp_mem h) (hp_mem h') p s.

(** The [n] bytes at [p] belong to no allocation. *)
Definition fresh_range (U : gmap Z Z) (p n : Z) : Prop := forall q s, U !! q = Some s -> p + n <= q \/ q + s <= p.

(** ** From blocks to allocations *)

Section live.
Context {block_null : Z} {h : heap} {P : list (Z * Z)} {A : blks} (Hi : inv block_null h P A ∅).

Lemma live_block U p s : live A U -> U !! p = Some s <-> used A (p - 16) s.
Proof. intros H. apply H. Qed.

Lemma used_mapped b s : used A b s -> mapped (hp_mem h) (b + 16) s.
Proof using Hi.
  intros (k & Hb & _ & <- & _). eapply mapped_sub; [apply (ph_map _ _ (inv_phys _ _ _ _ _ Hi) b k Hb)|lia|lia].
Qed.

(** Allocations do not overlap. *)
Lemma used_apart b1 s1 b2 s2 : used A b1 s1 -> used A b2 s2 -> b1 <> b2 -> b1 + 16 + s1 <= b2 + 16 \/ b2 + 16 + s2 <= b1 + 16.
Proof using Hi.
  intros (k1 & H1 & _ & <- & _) (k2 & H2 & _ & <- & _) Hne.
  destruct (layout_apart (inv_layout _ _ _ _ _ Hi) _ _ _ _ H1 H2 Hne); lia.
Qed.

Lemma live_alloc U A' b t : live A U -> (forall q u, used A' q u <-> used A q u \/ q = b /\ u = t) -> ~ (exists u, used A b u) ->
  live A' (<[b + 16 := t]> U) /\ U !! (b + 16) = None.
Proof.
  intros HU Hu Hn. split.
  - intros p s. change (<[b + 16:=t]> U !! p = Some s <-> used A' (p - 16) s). rewrite Hu, lookup_insert_Some, (live_block U) by done. split.
    + intros [[<- <-]|[_ Hp]]; [right; split; [lia|done]|by left].
    + intros [Hp|[Ep ->]]; [right|left; lia]. split; [|done]. intros <-. apply Hn. exists s. by replace b with (b + 16 - 16) by lia.
  - destruct (U !! (b + 16)) as [s|] eqn:E; [|done]. apply (live_block U) in E; [|done]. destruct Hn. exists s. by replace b with (b + 16 - 16) by lia.
Qed.

Lemma live_free U A' b : live A U -> (forall q u, used A' q u <-> used A q u /\ q <> b) -> live A' (delete (b + 16) U).
Proof.
  intros HU Hu p s. change (delete (b + 16) U !! p = Some s <-> used A' (p - 16) s). rewrite Hu, lookup_delete_Some, (live_block U) by done.
  split; [intros [Hne Hq]; split; [done|lia]|intros [Hq Hne]; split; [lia|done]].
Qed.
End live.

Section props.
Context (block_null : Z).
Notation heap_ok := (heap_ok block_null).

Lemma heap_ok_apart h P U p s q t : heap_ok h P U -> U !! p = Some s -> U !! q = Some t -> p <> q -> p + s <= q \/ q + t <= p.
Proof.
  intros (A & Hi & _ & HU) Hp Hq Hne. apply (live_block (A := A) U) in Hp, Hq; try done.
  destruct (used_apart Hi (p - 16) s (q - 16) t Hp Hq); lia.
Qed.

(** C15: [malloc] never faults.  It returns null and changes nothing, or a pointer to at
    least [size] mapped bytes, aligned to 4, that overlap no live allocation; no
    byte of a live allocation changes, and the heap stays well formed with the new
    allocation added. *)
Theorem malloc_spec h P U size : heap_ok h P U -> 0 <= size < 2 ^ 64 ->
  exists p h', nod_mmheap_alloc block_null size h = Done p h' /\
    ((p = 0 /\ h' = h) \/
     (p <> 0 /\ p mod 4 = 0 /\ exists n, size <= n /\ U !! p = None /\ fresh_range U p n /\ mapped (hp_mem h') p n /\
        unchanged U h h' /\ heap_ok h' P (<[p := n]> U))).
Proof.
  intros (A & Hi & Hc & HU) Hs.
  destruct (alloc_run block_null P h A size Hi Hc Hs) as (p & h' & E & [(-> & -> & _)|(b & t & A' & -> & Hb & Ht & Hb4 & Hn & Hi' & Hc' & Hu & Hsp)]).
  - eexists _, _. split; [exact E|]. by left.
  - eexists _, _. split; [exact E|]. right. destruct (live_alloc U A' b t HU Hu Hn) as [HU' Hnone]. split; [lia|]. split.
    { rewrite <- Zplus_mod_idemp_l, Hb4. done. }
    exists t. split; [lia|]. split; [done|]. assert (used A' b t) as Hbt by (apply Hu; by right). split; [|split; [|split]].
    + intros q s Hq. apply (live_block (A := A) U) in Hq; [|done]. assert (used A' (q - 16) s) as Hq' by (apply Hu; by left).
      destruct (used_apart Hi' b t (q - 16) s Hbt Hq'); [intros ->; apply Hn; by exists s|lia|lia].
    + by apply (used_mapped Hi').
    + intros q s Hq. apply (live_block (A := A) U) in Hq; [|done]. replace q with (q - 16 + 16) by lia. apply Hsp; [done|].
      intros Eq. rewrite Eq in Hq. apply Hn. by exists s.
    + by exists A'.
Qed.

(** C16: [free] of a live allocation never faults, takes exactly this allocation off the
    heap, and changes no byte of the other ones. *)
Theorem free_spec h P U p s : heap_ok h P U -> U !! p = Some s ->
  exists h', nod_mmheap_free block_null p h = Done tt h' /\ heap_ok h' P (delete p U) /\ unchanged (delete p U) h h'.
Proof.
  intros (A & Hi & Hc & HU) Hp. apply (live_block (A := A) U) in Hp as Hu; [|done].
  destruct (free_run block_null P h A (p - 16) s Hi Hc Hu) as (h' & A' & E & Hi' & Hc' & Hu' & Hsp).
  replace (p - 16 + 16) with p in E by lia. exists h'. split; [exact E|]. split.
  - exists A'. split; [done|]. split; [done|]. pose proof (live_free U A' (p - 16) HU Hu') as HU'. by replace (p - 16 + 16) with p in HU' by lia.
  - intros q t Hq. apply lookup_delete_Some in Hq as [Hne Hq]. apply (live_block (A := A) U) in Hq; [|done].
    replace q with (q - 16 + 16) by lia. apply Hsp; [done|lia].
Qed.

(** C17: [realloc] to a size the heap supports never faults.  It returns null and changes
    nothing, or a pointer to at least [size] bytes that begin with the contents of
    the old allocation, up to the smaller size; the old allocation is replaced by
    the new one and the other ones do not change.  This covers shrinking, growing
    into a free neighbour and moving. *)
Theorem realloc_spec h P U p s size : heap_ok h P U -> U !! p = Some s -> 0 < size <= 2 ^ 30 ->
  exists p' h', nod_mmheap_realloc block_null p size h = Done p' h' /\
    ((p' = 0 /\ h' = h) \/
     (p' <> 0 /\ exists n, size <= n /\ heap_ok h' P (<[p' := n]> (delete p U)) /\ unchanged (delete p U) h h' /\
        fresh_range (delete p U) p' n /\
        load_bytes (hp_mem h') p' (Z.to_nat (Z.min s size)) = load_bytes (hp_mem h) p (Z.to_nat (Z.min s size)))).
Proof.
  intros (A & Hi & Hc & HU) Hp Hs. apply (live_block (A := A) U) in Hp as Hu; [|done].
  destruct (realloc_run block_null P h A (p - 16) s size Hi Hc Hu Hs) as
    (p' & h' & E & [(-> & ->)|(b & t & A' & -> & Hb & Ht & Hi' & Hc' & Hfr & Hu' & Hsp & Hld)]); replace (p - 16 + 16) with p in * by lia.
  - eexists _, _. split; [exact E|]. by left.
  - eexists _, _. split; [exact E|]. right. split; [lia|]. exists t. split; [done|]. split; [|split; [|split]].
    + exists A'. split; [done|]. split; [done|]. intros q u. change (<[b + 16:=t]> (delete p U) !! q = Some u <-> used A' (q - 16) u).
      rewrite Hu', lookup_insert_Some, lookup_delete_Some, (live_block (A := A) U) by done. split.
      * intros [[<- <-]|(Hne & Hpq & Hq)]; [right; split; [lia|done]|left; split; [lia|done]].
      * intros [[Hne Hq]|[Eq ->]]; [|left; split; [lia|done]]. destruct (decide (q = b + 16)) as [->|Hqb].
        -- exfalso. replace (b + 16 - 16) with b in * by lia. apply (Hfr Hne). by exists u.
        -- right. split; [done|]. split; [lia|done].
    + intros q u Hq. apply lookup_delete_Some in Hq as [Hne Hq]. apply (live_block (A := A) U) in Hq; [|done].
      replace q with (q - 16 + 16) by lia. apply Hsp; [done|lia].
    + intros q u Hq. apply lookup_delete_Some in Hq as [Hne Hq]. apply (live_block (A := A) U) in Hq; [|done].
      assert (used A' b t) as Hbt by (apply Hu'; by right). assert (used A' (q - 16) u) as Hq' by (apply Hu'; left; split; [lia|done]).
      destruct (decide (b = q - 16)) as [->|Hbq].
      * exfalso. apply (Hfr ltac:(lia)). by exists u.
      * destruct (used_apart Hi' b t (q - 16) u Hbt Hq' Hbq); lia.
    + replace (Z.min s size) with (if s <? size then s else size) by (destruct (Z.ltb_spec s size); lia). exact Hld.
Qed.

(** [aligned_alloc] gives an aligned address.  For alignments of 16 and more, and for
    8 if more than 24 bytes are asked for, it never faults and returns null without
    a change, or a pointer to at least [size] bytes that is a multiple of the
    alignment and overlaps nothing live. *)
Theorem aligned_alloc_spec h P U size j : heap_ok h P U -> 0 < size <= 2 ^ 29 -> 3 <= j <= 29 -> (j = 3 -> 24 < size) ->
  (forall p, In p P -> p.1 + p.2 + 2 ^ 33 < 2 ^ 64) ->
  exists p h', nod_mmheap_aligned_alloc block_null size (2 ^ j) h = Done p h' /\
    ((p = 0 /\ h' = h) \/
     (p <> 0 /\ p mod 2 ^ j = 0 /\ exists n, size <= n /\ U !! p = None /\ fresh_range U p n /\ unchanged U h h' /\ heap_ok h' P (<[p := n]> U))).
Proof.
  intros (A & Hi & Hc & HU) Hs Hj Hexc Hend.
  destruct (aligned_run block_null P h A size j Hi Hc Hs Hj Hexc Hend) as (p & h' & E & [(-> & ->)|(b & t & A' & -> & Hb & Ht & Hal & Hn & Hi' & Hc' & Hu & Hsp)]).
  - eexists _, _. split; [exact E|]. by left.
  - eexists _, _. split; [exact E|]. right. destruct (live_alloc U A' b t HU Hu Hn) as [HU' Hnone]. split; [lia|]. split; [done|].
    exists t. split; [lia|]. split; [done|]. assert (used A' b t) as Hbt by (apply Hu; by right). split; [|split].
    + intros q s Hq. apply (live_block (A := A) U) in Hq; [|done]. assert (used A' (q - 16) s) as Hq' by (apply Hu; by left).
      destruct (used_apart Hi' b t (q - 16) s Hbt Hq'); [intros ->; apply Hn; by exists s|lia|lia].
    + intros q s Hq. apply (live_block (A := A) U) in Hq; [|done]. replace q with (q - 16 + 16) by lia. by apply Hsp.
    + by exists A'.
Qed.

(** ** No memory is lost *)

(** Without allocations each pool is one free block. *)
Lemma empty_heap_block h P A st sz : inv block_null h P A ∅ -> coalesced A -> live A ∅ -> In (st, sz) P ->
  exists k, A !! (st - 8) = Some k /\ k_free k = true /\ k_size k = sz.
Proof.
  intros Hi Hc HU Hp. pose proof (inv_layout _ _ _ _ _ Hi) as Hl.
  assert (forall b k, A !! b = Some k -> k_size k <> 0 -> k_free k = true) as Hfree.
  { intros b k Hb Hz. destruct (k_free k) eqn:Ef; [done|]. assert (used A (b + 16 - 16) (k_size k)) as Hu by (replace (b + 16 - 16) with b by lia; by exists k).
    apply (live_block (A := A) ∅) in Hu; [|done]. set_solver. }
  destruct (ly_first _ _ _ Hl _ Hp) as [k Hk]. cbn [fst] in Hk.
  pose proof (proj1 (List.Forall_forall _ _) (ly_pools _ _ _ Hl) _ Hp) as (Hst & _ & [Hsz _] & Hsz24 & _). cbn [fst snd] in *.
  assert (forall q, In q P -> q.1 - 8 <= st + sz -> st - 8 <= q.1 + q.2 -> q = (st, sz)) as Huniq.
  { intros q Hq ??. destruct (decide (q = (st, sz))); [done|]. destruct (ly_pools_apart _ _ _ Hl q (st, sz) Hq Hp); [done|cbn [fst snd] in *; lia|cbn [fst snd] in *; lia]. }
  destruct (layout_addr Hl _ _ Hk) as (_ & _ & Hkz).
  destruct (ly_pool _ _ _ Hl _ _ Hk) as (q & Hq & Hlo & Hhi). pose proof (proj1 (List.Forall_forall _ _) (ly_pools _ _ _ Hl) _ Hq) as (_ & _ & [Hqz _] & _).
  assert (k_size k <> 0) as Hz. { intros E0. rewrite E0 in Hhi. cbn [Z.eqb] in Hhi. rewrite (Huniq q Hq) in Hhi by lia. cbn [fst snd] in Hhi. lia. }
  destruct (Z.eqb_spec (k_size k) 0); [done|]. rewrite (Huniq q Hq) in Hhi by lia. cbn [fst snd] in Hhi.
  pose proof (Hfree _ _ Hk Hz) as Hf. exists k. split; [done|]. split; [done|].
  destruct (ly_next _ _ _ Hl _ _ Hk Hz) as (kn & Hn & _). pose proof (Hc _ _ _ Hk Hf Hn) as Hfn.
  destruct (Z.eq_dec (k_size kn) 0) as [Ez|Hnz]; [|by rewrite (Hfree _ _ Hn Hnz) in Hfn].
  destruct (ly_pool _ _ _ Hl _ _ Hn) as (q' & Hq' & Hlo' & Hhi'). rewrite Ez in Hhi'. cbn [Z.eqb] in Hhi'.
  rewrite (Huniq q' Hq') in Hhi' by lia. cbn [fst snd] in Hhi'. lia.
Qed.

(** C18: Freed memory can be allocated again.  When all allocations were freed, in whatever
    order, every request that the size of a pool satisfies after rounding to the
    search class is granted. *)
Theorem freed_heap_allocates h P st sz size : heap_ok h P ∅ -> In (st, sz) P -> 0 < size <= 2 ^ 30 ->
  round_size (adjust_request_size size NOD_MMHEAP_ALIGN_SIZE) <= sz ->
  exists p h', nod_mmheap_alloc block_null size h = Done p h' /\ p <> 0.
Proof.
  intros (A & Hi & Hc & HU) Hp Hs Hr.
  destruct (alloc_run block_null P h A size Hi Hc ltac:(lia)) as (p & h' & E & [(-> & -> & Hno)|(b & t & A' & -> & Hb & _)]).
  - destruct (Hno Hs). destruct (empty_heap_block h P A st sz Hi Hc HU Hp) as (k & Hk & Hf & <-). by exists (st - 8), k.
  - eexists _, _. split; [exact E|lia].
Qed.

(** C20: The statistics of a pool end at the sentinel and account for every byte.  With at
    least one unit of fuel per 32 bytes of the pool, [nod_mmheap_pool_check] returns,
    and used bytes, free bytes and 8 bytes per block are the size of the pool. *)
Theorem pool_check_accounts h P U st sz fuel : heap_ok h P U -> In (st, sz) P -> sz < 32 * Z.of_nat fuel - 8 ->
  exists info blocks, nod_mmheap_pool_check fuel st h = Done (Some (0, info)) h /\ 0 <= info_used info /\ 0 <= info_free info /\ 0 < blocks /\
    info_used info + info_free info + 8 * blocks = sz + 8.
Proof.
  intros (A & Hi & Hc & HU) Hp Hfuel. pose proof (inv_layout _ _ _ _ _ Hi) as Hl. pose proof (inv_phys _ _ _ _ _ Hi) as Hm.
  pose proof (proj1 (List.Forall_forall _ _) (ly_pools _ _ _ Hl) _ Hp) as (Hst & _ & [Hsz _] & Hsz24 & Hend). cbn [fst snd] in *.
  destruct (ly_first _ _ _ Hl _ Hp) as [k Hk]. cbn [fst] in Hk.
  destruct (walk_exists block_null P A Hl (st, sz) (st - 8) k Hp Hk) as (l & Hw & Hsum & Ht & Hf & Hlen); [cbn [fst snd]; lia|]. cbn [fst snd] in *.
  assert (forall k0, In k0 l -> 0 <= k_size k0) as Hpos.
  { clear -Hw Hl. revert Hw. generalize (st - 8). induction l as [|x l IH]; intros b Hw k0; [done|]. cbn [walk] in Hw. destruct Hw as (Hb & _ & Hw).
    intros [->|Hin]; [apply (layout_addr Hl b k0 Hb)|by apply (IH _ Hw)]. }
  exists (mk_info (sum_sizes false l) (sum_sizes true l)), (zlen l). unfold nod_mmheap_pool_check.
  destruct (Z.eqb_spec st 0); [lia|]. rewrite pool_blk by lia. destruct h as [c m]. cbn [hp_mem] in *.
  erewrite bind_done by (apply (walk_run block_null P A c m Hl Hm l); cbn [info_used info_free]; [done|unfold zlen in *; lia|lia|lia|pose proof (zlen_nonneg l); lia|pose proof (zlen_nonneg l); lia|done]).
  cbn [info_used info_free]. rewrite !Z.add_0_l. split; [done|]. split; [done|]. split; [done|]. split; [|lia].
  destruct l as [|x l]; [|rewrite zlen_cons; pose proof (zlen_nonneg l); lia]. cbn [sum_sizes foldr] in Hsum. change (zlen (@nil blk)) with 0 in Hsum. lia.
Qed.

(** ** Starting up *)

Lemma init_run c m st size : 0 <= block_null -> block_null + 32 < 2 ^ 64 -> mapped m block_null 32 -> 16 <= size < 2 ^ 64 ->
  let sz := size - 16 - (size - 16) mod 4 in pool_fits block_null [] st sz -> mapped m st (sz + 16) ->
  exists h', nod_mmheap_init block_null st size (mk_heap c m) = Done 0 h' /\ heap_ok h' [(st, sz)] ∅.
Proof.
  intros H0 Hend Hmn Hsize sz Hfit Hmap. destruct (ctl_init_run block_null c m H0 Hend Hmn) as ([c1 m1] & E1 & Hi1 & Hp1 & Hg1).
  unfold nod_mmheap_init. erewrite bind_done by (exact E1). cbn [hp_ctl hp_mem] in *.
  assert (coalesced (∅ : blks)) as Hc0 by (intros b k n Hb; set_solver).
  pose proof (pool_sizes block_null [] st sz Hfit) as (Hst & Hst4 & [Hszb _] & Hsz24 & _).
  destruct (pool_add_run block_null [] ∅ c1 m1 st size Hi1 Hc0 Hsize) as (h2 & E2 & Hi2 & _); [|exact Hfit|by apply Hg1|].
  { unfold pool_add_check. fold sz. rewrite Hp1. unfold nod_mmheap_pool_is_exist. rewrite Hp1, ztake_0. cbn [Z.eqb existsb].
    rewrite Hst4. cbn [Z.eqb negb]. destruct (Z.ltb_spec sz 24); [lia|]. destruct (Z.ltb_spec (2 ^ 30) sz); [lia|done]. }
  exists h2. split; [exact E2|]. exists (with_pool st sz ∅). split; [exact Hi2|]. split.
  - by apply (with_pool_coalesced block_null [] ∅ st sz (inv_layout _ _ _ _ _ Hi1) Hfit).
  - intros p s. change ((∅ : gmap Z Z) !! p = Some s <-> used (with_pool st sz ∅) (p - 16) s).
    rewrite (with_pool_used block_null [] ∅ st sz (inv_layout _ _ _ _ _ Hi1) Hfit). split; [set_solver|]. intros (k & Hk & _). set_solver.
Qed.

(** C19: The heap of the monitor.  On any memory for the control block and a pool, aligned
    to 4 and with room for one block below [2 ^ 30] bytes, [nod_mmheap_init]
    returns 0 and leaves a well-formed heap without allocations, whatever the
    memory held. *)
Theorem heap_init_ok c m st size : 0 <= block_null -> block_null + 32 < 2 ^ 64 -> mapped m block_null 32 -> 16 <= size < 2 ^ 64 ->
  let sz := size - 16 - (size - 16) mod 4 in pool_fits block_null [] st sz -> mapped m st (sz + 16) ->
  exists h', nod_mmheap_init block_null st size (mk_heap c m) = Done 0 h' /\ heap_ok h' [(st, sz)] ∅.
Proof. apply init_run. Qed.
End props.

(** ** A heap in a small memory *)

Definition demo_null : Z := 0x1000.
Definition demo_mem : bmem := zeroed 0x2000 512 (zeroed demo_null 32 ∅).
Definition state_of {S A} (r : outcome S A) (s : S) : S := match r with Done _ s' => s' | _ => s end.
Definition result_of {S A} (r : outcome S A) : option A := match r with Done x _ => Some x | _ => None end.
Definition demo_start : heap := mk_heap (mk_ctl 0 [] 0 [] []) demo_mem.
Definition demo_heap : heap := state_of (nod_mmheap_init demo_null 0x2000 512 demo_start) demo_start.
Definition demo_pool : list (Z * Z) := [(0x2000, 496)].

Lemma demo_fits : pool_fits demo_null [] 0x2000 496.
Proof. split; [|split; [left; by vm_compute|done]]. by vm_compute. Qed.

Lemma demo_mapped : mapped demo_mem demo_null 32 /\ mapped demo_mem 0x2000 512.
Proof.
  split; [apply mapped_upd; exact (mapped_zeroed demo_null 32 ∅)|exact (mapped_zeroed 0x2000 512 (zeroed demo_null 32 ∅))].
Qed.

Lemma demo_heap_ok : heap_ok demo_null demo_heap demo_pool ∅.
Proof.
  destruct demo_mapped as [Hn Hp].
  destruct (init_run demo_null (mk_ctl 0 [] 0 [] []) demo_mem 0x2000 512) as (h' & E & Hh);
    [by vm_compute|by vm_compute|done|by vm_compute|exact demo_fits|done|].
  unfold demo_heap, demo_start. rewrite E. exact Hh.
Qed.

(** One allocation of 64 bytes. *)
Definition demo_heap1 : heap := state_of (nod_mmheap_alloc demo_null 64 demo_heap) demo_heap.

Lemma demo_heap1_ok : exists A, heap_ok demo_null demo_heap1 demo_pool A /\ exists n, A !! 0x2008 = Some n.
Proof.
  destruct demo_heap_ok as (A & Hi & Hc & HU).
  destruct (alloc_run demo_null demo_pool demo_heap A 64 Hi Hc) as (p & h' & E & Hr); [lia|].
  assert (result_of (nod_mmheap_alloc demo_null 64 demo_heap) = Some 0x2008) as Er by by vm_compute.
  assert (h' = demo_heap1) as -> by (unfold demo_heap1; by rewrite E).
  rewrite E in Er. injection Er as ->. destruct Hr as [[Hp _]|(b & t & A' & Hp & _ & _ & _ & Hn & Hi' & Hc' & Hu & _)]; [done|].
  exists (<[b + 16 := t]> ∅). destruct (live_alloc ∅ A' b t HU Hu Hn) as [HU' _]. split; [exists A'; exact (conj Hi' (conj Hc' HU'))|].
  exists t. rewrite Hp. apply lookup_insert_eq.
Qed.

Lemma malloc_spec_witness : exists p h', nod_mmheap_alloc demo_null 64 demo_heap = Done p h' /\ p <> 0.
Proof.
  destruct (malloc_spec demo_null demo_heap demo_pool ∅ 64 demo_heap_ok) as (p & h' & E & [[-> ->]|[Hp _]]); [lia| |exists p, h'; exact (conj E Hp)].
  exfalso. assert (result_of (nod_mmheap_alloc demo_null 64 demo_heap) = Some 0x2008) as Er by by vm_compute. rewrite E in Er. discriminate Er.
Defined.

Lemma free_spec_witness : exists h', nod_mmheap_free demo_null 0x2008 demo_heap1 = Done tt h'.
Proof.
  destruct demo_heap1_ok as (U & Hh & n & Hp).
  destruct (free_spec demo_null demo_heap1 demo_pool U 0x2008 n Hh Hp) as (h' & E & _). exists h'. exact E.
Defined.

Lemma realloc_spec_witness : exists p h', nod_mmheap_realloc demo_null 0x2008 100 demo_heap1 = Done p h'.
Proof.
  destruct demo_heap1_ok as (U & Hh & n & Hp).
  destruct (realloc_spec demo_null demo_heap1 demo_pool U 0x2008 n 100 Hh Hp) as (p & h' & E & _); [lia|]. exists p, h'. exact E.
Defined.

Lemma aligned_alloc_spec_witness : exists p h', nod_mmheap_aligned_alloc demo_null 40 64 demo_heap1 = Done p h' /\ p mod 64 = 0.
Proof.
  destruct demo_heap1_ok as (U & Hh & n & Hp).
  destruct (aligned_alloc_spec demo_null demo_heap1 demo_pool U 40 6 Hh) as (p & h' & E & Hr); [lia|lia|lia|intros q [<-|[]]; by vm_compute|].
  exists p, h'. split; [exact E|]. destruct Hr as [[-> _]|(_ & Hm & _)]; [reflexivity|exact Hm].
Defined.

Lemma freed_heap_allocates_witness : exists p h', nod_mmheap_alloc demo_null 440 demo_heap = Done p h' /\ p <> 0.
Proof.
  apply (freed_heap_allocates demo_null demo_heap demo_pool 0x2000 496 440 demo_heap_ok); [by left|lia|by vm_compute].
Defined.

Lemma pool_check_accounts_witness : exists info blocks, nod_mmheap_pool_check 20 0x2000 demo_heap1 = Done (Some (0, info)) demo_heap1 /\
  info_used info + info_free info + 8 * blocks = 504.
Proof.
  destruct demo_heap1_ok as (U & Hh & n & Hp).
  destruct (pool_check_accounts demo_null demo_heap1 demo_pool U 0x2000 496 20 Hh) as (i & k & E & _ & _ & _ & Hk); [by left|lia|].
  exists i, k. exact (conj E Hk).
Defined.

Lemma heap_init_ok_witness : exists h', nod_mmheap_init demo_null 0x2000 512 demo_start = Done 0 h' /\ heap_ok demo_null h' demo_pool ∅.
Proof.
  destruct demo_mapped as [Hn Hp].
  apply (heap_init_ok demo_null (mk_ctl 0 [] 0 [] []) demo_mem 0x2000 512); [by vm_compute|by vm_compute|done|by vm_compute|exact demo_fits|done].
Defined.

(** ** Requests outside of the contract *)

(** [realloc] does not check the upper bound of a size.  A request above [2 ^ 30]
    bytes for the first of two 64-byte blocks returns the same pointer, as if it had been
    granted, and sets the size of the block to 0: the statistics end there and count nothing, and
    the next [malloc] returns memory inside of the allocation. *)
Theorem realloc_oversize_destroys_block :
  let M := (a ← nod_mmheap_alloc demo_null 64; _ ← nod_mmheap_alloc demo_null 64;
            r ← nod_mmheap_realloc demo_null a (2 ^ 30 + 1); i ← nod_mmheap_check 20;
            c ← nod_mmheap_alloc demo_null 40; mret (a, r, i, c)) in
  result_of (M demo_heap) = Some (0x2008, 0x2008, Some (0, mk_info 0 0), 0x2010).
Proof. by vm_compute. Qed.

(** The product in [calloc] wraps at 64 bits: for [2 ^ 62 + 1] elements of 4 bytes it returns
    a block of 24 bytes. *)
Theorem calloc_overflow_succeeds :
  let M := (p ← nod_mmheap_calloc demo_null (2 ^ 62 + 1) 4; s ← blk_size (blk_from_ptr p); mret (p, s)) in
  result_of (M demo_heap) = Some (0x2008, 24).
Proof. by vm_compute. Qed.

(** A block of at most 24 bytes aligned to 8 can be misaligned: the minimum block size hides the gap that the
    alignment needs.  With the free block at [0x202c] the request
    for 8 bytes at a multiple of 8 returns an address that is 4 modulo 8. *)
Theorem aligned_alloc_small_misaligned :
  let M := (_ ← nod_mmheap_alloc demo_null 28; b ← nod_mmheap_alloc demo_null 64; _ ← nod_mmheap_alloc demo_null 24;
            nod_mmheap_free demo_null b;; nod_mmheap_aligned_alloc demo_null 8 8) in
  result_of (M demo_heap) = Some 0x202c /\ 0x202c mod 8 = 4.
Proof. by vm_compute. Qed.
