(* ===== verification/Printf.v ===== *)
(** * Formatted output

    What the monitor uses of C's [printf] family: a format is interpreted character
    by character, with the conversions [%d], [%u], [%x], [%o] and [%s], the flag [0],
    a field width and the length modifier [l].  [snprintf] stores what fits and
    returns the length of the whole text. *)

From S2P Require Import Prelude Kernel.

Local Open Scope Z_scope.

(** ** Numerals *)

Definition digit_char (d : Z) : Z := if d <? 10 then 48 + d else 87 + d.

(** The numeral of [n] to base [b]; [fuel] bounds the number of digits. *)
Fixpoint digits (b : Z) (fuel : nat) (n : Z) (acc : list Z) : list Z :=
  match fuel with
  | O => acc
  | S fuel =>
      let acc := digit_char (n mod b) :: acc in
      if n <? b then acc else digits b fuel (n / b) acc
  end.

(** An [unsigned long] has at most 22 octal digits. *)
Definition numeral (b n : Z) : list Z := digits b 22 n [].

Definition signed_numeral (n : Z) : list Z := if n <? 0 then 45 :: numeral 10 (- n) else numeral 10 n.

(** ** Formats *)

Inductive parg : Type := AInt (z : Z) | AStr (s : list Z).

(** A conversion specification up to its conversion character. *)
Record spec : Type := mk_spec { sp_zero : bool; sp_width : Z; sp_long : bool }.
Definition spec0 : spec := mk_spec false 0 false.

Definition arg_bits (s : spec) : Z := if sp_long s then 64 else 32.

(** Padding to the field width: zeros behind the sign, or spaces in front. *)
Definition pad (s : spec) (body : list Z) : list Z :=
  let n := Z.to_nat (sp_width s - zlen body) in
  if sp_zero s then
    match body with
    | c :: ds => if c =? 45 then c :: replicate n 48 ++ ds else replicate n 48 ++ body
    | [] => replicate n 48
    end
  else replicate n 32 ++ body.

(** The text of one conversion, [None] if its argument has the wrong type or the
    conversion is not one of those above. *)
Definition convert (s : spec) (c : Z) (a : parg) : option (list Z) :=
  match a with
  | AInt z =>
      if c =? 100 (* d *) then Some (pad s (signed_numeral (signed (arg_bits s) z)))
      else if c =? 117 (* u *) then Some (pad s (numeral 10 (unsigned (arg_bits s) z)))
      else if c =? 120 (* x *) then Some (pad s (numeral 16 (unsigned (arg_bits s) z)))
      else if c =? 111 (* o *) then Some (pad s (numeral 8 (unsigned (arg_bits s) z)))
      else None
  | AStr t => if c =? 115 (* s *) then Some (pad (mk_spec false (sp_width s) false) t) else None
  end.

Definition is_digit (c : Z) : bool := (48 <=? c) && (c <=? 57).

(** Interpret a format; [st] is the specification that is being read. *)
Fixpoint run_format (st : option spec) (fmt : list Z) (args : list parg) : option (list Z) :=
  match fmt, st with
  | [], None => Some []
  | [], Some _ => None
  | c :: fmt, None =>
      if c =? 37 (* % *) then run_format (Some spec0) fmt args
      else (cons c) <$> run_format None fmt args
  | c :: fmt, Some s =>
      if (c =? 48) && (sp_width s =? 0) then run_format (Some (mk_spec true 0 (sp_long s))) fmt args
      else if is_digit c then run_format (Some (mk_spec (sp_zero s) (10 * sp_width s + (c - 48)) (sp_long s))) fmt args
      else if c =? 108 (* l *) then run_format (Some (mk_spec (sp_zero s) (sp_width s) true)) fmt args
      else match args with
           | [] => None
           | a :: args => t ← convert s c a; (app t) <$> run_format None fmt args
           end
  end.

Definition printf (fmt : string) (args : list parg) : option (list Z) := run_format None (str_bytes fmt) args.

(** ** [snprintf(buf + off, size, ...)]

    [buf] is the object; a pointer behind its end, or a store there, is [None].  The
    text is stored up to [size - 1] bytes with a terminator, and the length of the
    whole text is returned. *)
Definition snprintf (buf : list Z) (off size : Z) (text : list Z) : option (Z * list Z) :=
  if zlen buf <? off then None
  else if size =? 0 then Some (zlen text, buf)
  else b ← zwrite off (ztake (size - 1) text ++ [0]) buf; Some (zlen text, b).

(** ** Numerals can be read back *)

Definition char_digit (c : Z) : Z := if c <? 58 then c - 48 else c - 87.
Definition read_numeral (b : Z) (ds : list Z) : Z := fold_left (fun n c => b * n + char_digit c) ds 0.

Lemma char_digit_char d : char_digit (digit_char d) = d.
Proof. unfold char_digit, digit_char. destruct (Z.ltb_spec d 10); [destruct (Z.ltb_spec (48 + d) 58)|destruct (Z.ltb_spec (87 + d) 58)]; lia. Qed.

Lemma digits_acc b fuel n acc : digits b fuel n acc = digits b fuel n [] ++ acc.
Proof.
  revert n acc. induction fuel as [|fuel IH]; intros n acc; [done|]. cbn [digits]. destruct (n <? b); [done|].
  rewrite IH, (IH (n / b) [_]), <- app_assoc. done.
Qed.

Lemma digits_step b fuel n : digits b (S fuel) n [] = (if n <? b then [] else digits b fuel (n / b) []) ++ [digit_char (n mod b)].
Proof. cbn [digits]. destruct (n <? b); [done|]. apply digits_acc. Qed.

Lemma digits_div_bound b n k : 1 < b -> 0 <= n < b ^ Z.of_nat (S k) -> 0 <= n / b < b ^ Z.of_nat k.
Proof.
  intros Hb Hn. rewrite Nat2Z.inj_succ, Z.pow_succ_r in Hn by lia.
  split; [apply Z.div_pos; lia|apply Z.div_lt_upper_bound; lia].
Qed.

(** Enough fuel gives the numeral of the number... *)
Lemma read_digits b fuel n : 1 < b -> 0 <= n < b ^ Z.of_nat fuel -> read_numeral b (digits b fuel n []) = n.
Proof.
  intros Hb. revert n. induction fuel as [|fuel IH]; intros n Hn; [cbn in *; lia|].
  rewrite digits_step. unfold read_numeral. rewrite fold_left_app. cbn [fold_left]. rewrite char_digit_char.
  pose proof (Z.div_mod n b ltac:(lia)) as Hd. destruct (Z.ltb_spec n b).
  - cbn [fold_left]. rewrite Z.mod_small by lia. lia.
  - fold (read_numeral b (digits b fuel (n / b) [])). rewrite IH by (by apply digits_div_bound). lia.
Qed.

(** ...with as many digits as it needs. *)
Lemma zlen_digits b fuel n k : 1 < b -> 0 <= n < b ^ Z.of_nat (S k) -> zlen (digits b fuel n []) <= Z.of_nat (S k).
Proof.
  intros Hb. revert n k. induction fuel as [|fuel IH]; intros n k Hn; [cbn [digits]; rewrite zlen_nil; lia|].
  rewrite digits_step, zlen_app, zlen_cons, zlen_nil. destruct (Z.ltb_spec n b); [rewrite zlen_nil; lia|].
  destruct k as [|k]; [lia|]. pose proof (IH (n / b) k ltac:(by apply digits_div_bound)). lia.
Qed.

(** No character of a numeral ends a C string. *)
Definition no_nul (s : list Z) : Prop := Forall (fun c => c <> 0) s.

Lemma no_nul_digits b fuel n acc : 1 < b -> no_nul acc -> no_nul (digits b fuel n acc).
Proof.
  intros Hb. revert n acc. induction fuel as [|fuel IH]; intros n acc Hacc; [done|]. cbn [digits].
  assert (no_nul (digit_char (n mod b) :: acc)) as H.
  { constructor; [|done]. pose proof (Z.mod_pos_bound n b ltac:(lia)). unfold digit_char. destruct (_ <? _); lia. }
  destruct (n <? b); [done|by apply IH].
Qed.

Lemma no_nul_numeral b n : 1 < b -> no_nul (numeral b n).
Proof. intros. apply no_nul_digits; [done|constructor]. Qed.

(** The C string in an object that begins with [s] and a terminator. *)
Lemma cstr_prefix s rest : no_nul s -> cstr (s ++ 0 :: rest) = Some s.
Proof. induction 1 as [|c s Hc Hs IH]; [done|]. cbn. destruct (Z.eqb_spec c 0); [done|]. by rewrite IH. Qed.

Lemma cstr_inv bs s : cstr bs = Some s -> no_nul s /\ exists rest, bs = s ++ 0 :: rest.
Proof.
  revert s. induction bs as [|b bs IH]; intros s; [done|]. cbn. destruct (Z.eqb_spec b 0) as [->|].
  - intros [= <-]. split; [constructor|by exists bs].
  - destruct (cstr bs) as [s'|]; [|done]. intros [= <-]. destruct (IH s' eq_refl) as (Hn & rest & ->).
    split; [by constructor|by exists rest].
Qed.

(** ** Storing a text that fits *)

Lemma zlen_snoc {A} (l : list A) x : zlen (l ++ [x]) = zlen l + 1.
Proof. by rewrite zlen_app. Qed.

Lemma snprintf_fits buf off size text : 0 <= off -> off + size <= zlen buf -> zlen text < size ->
  snprintf buf off size text = Some (zlen text, ztake off buf ++ (text ++ [0]) ++ zdrop (off + zlen text + 1) buf).
Proof.
  intros Ho Hb Ht. pose proof (zlen_nonneg text). unfold snprintf. destruct (Z.ltb_spec (zlen buf) off); [lia|].
  destruct (Z.eqb_spec size 0); [lia|]. rewrite ztake_ge by lia.
  rewrite zwrite_Some by (rewrite ?zlen_snoc; lia). cbn [mbind option_bind].
  by rewrite zlen_snoc, Z.add_assoc.
Qed.

(** The size of the buffer is kept in any case. *)
Lemma snprintf_zlen buf off size text r buf' : snprintf buf off size text = Some (r, buf') -> zlen buf' = zlen buf.
Proof.
  unfold snprintf. destruct (_ <? _); [done|]. destruct (_ =? _); [congruence|].
  destruct (zwrite _ _ _) as [b|] eqn:E; [|done]. intros [= _ <-]. by apply zlen_zwrite in E.
Qed.

(** A store of at most the object's size never fails, and truncates. *)
Lemma snprintf_all buf text : 0 < zlen buf -> exists rest, snprintf buf 0 (zlen buf) text = Some (zlen text, ztake (zlen buf - 1) text ++ 0 :: rest).
Proof.
  intros Hb. unfold snprintf. destruct (Z.ltb_spec (zlen buf) 0); [lia|]. destruct (Z.eqb_spec (zlen buf) 0); [lia|].
  assert (zlen (ztake (zlen buf - 1) text) <= zlen buf - 1) as Ht.
  { unfold ztake, zlen in *. rewrite length_take. lia. }
  rewrite zwrite_Some by (rewrite ?zlen_snoc; lia). cbn [mbind option_bind].
  eexists. rewrite ztake_0, <- app_assoc. done.
Qed.
