(* ===== verification/LuaField.v ===== *)
(** * What a script sees of an event: [monitor/src/lua_field.c]

    A script asks for fields ([chisel.request_field]) and, in its [on_event], reads
    them of the current event ([evt.field]), or sends or saves the text of the whole
    event.  An event is the memory from its header on; a read behind it, a store
    outside of a buffer, an index outside of a table and a read through a pointer whose object does not exist any more
    are [None].  The Lua library
    is not part of the repository: a function called from a script is given its
    arguments and gives the values it pushes, or the error it raises. *)

From S2P Require Import Prelude Kernel Tables Ring RingFacts ProcState Events EventCodec Printf.

Local Open Scope Z_scope.

(** ** Parameters as text *)

Definition nod_print_format_num (f : nod_print_format) : Z :=
  match f with PF_NA => 0 | PF_DEC => 1 | PF_HEX => 2 | PF_10_PADDED_DEC => 3 | PF_OCT => 4 | PF_ID => 5 | PF_DIR => 6 end.

(** [__print_format]; on x86_64 [PRId8], [PRId16] and [PRId32] are [d], [PRId64] is
    [ld], and so on for [u], [x] and [o]. *)
Definition print_format_rows : list (list string) := [
  [""; ""; ""; ""; ""];                            (* PT_NONE *)
  [""; "%d"; "0x%x"; "%010d"; "0%o"];              (* PT_INT8 *)
  [""; "%d"; "0x%x"; "%010d"; "0%o"];              (* PT_INT16 *)
  [""; "%d"; "0x%x"; "%010d"; "0%o"];              (* PT_INT32 *)
  [""; "%ld"; "0x%lx"; "%010ld"; "0%lo"];          (* PT_INT64 *)
  [""; "%u"; "0x%x"; "%010d"; "0%o"];              (* PT_UINT8 *)
  [""; "%u"; "0x%x"; "%010u"; "0%o"];              (* PT_UINT16 *)
  [""; "%u"; "0x%x"; "%010u"; "0%o"];              (* PT_UINT32 *)
  [""; "%lu"; "0x%lx"; "%010lu"; "0%lo"]           (* PT_UINT64 *)
]%string.

Definition __print_format (t : nod_param_type) (f : nod_print_format) : option string :=
  row ← print_format_rows !! Z.to_nat (nod_param_type_num t); row !! Z.to_nat (nod_print_format_num f).

(** The little-endian integer of [n] bytes at [off]. *)
Definition field (off n : Z) (bs : list Z) : option Z := le_val <$> zread off n bs.

(** [evt_arg_to_string(param, data, len, buf, sizeof(buf))] with pointers that are not
    null. *)
Definition evt_arg_to_string (param : nod_param_info) (data : list Z) (len : Z) (buf : list Z) : option (Z * list Z) :=
  let bufsz := zlen buf in
  let print (text : option (list Z)) := t ← text; snprintf buf 0 bufsz t in
  let number (row : nod_param_type) (v : option Z) :=
    x ← v; f ← __print_format row (pi_fmt param); print (printf f [AInt x]) in
  if bufsz =? 0 then Some (-1, buf) else
  match pi_type param with
  | PT_FSPATH | PT_FSRELPATH | PT_CHARBUF =>
      let n := if len <? bufsz - 1 then len else bufsz - 1 in
      bs ← zread 0 n data; b ← zwrite 0 bs buf; b ← zwrite n [0] b; Some (n, b)
  | PT_BYTEBUF => print (printf "<binary:%u>" [AInt len])
  | PT_FLAGS8 | PT_UINT8 | PT_SIGTYPE => number PT_UINT8 (field 0 1 data)
  | PT_FLAGS16 | PT_UINT16 | PT_SYSCALLID => number PT_UINT16 (field 0 2 data)
  | PT_FLAGS32 | PT_UINT32 | PT_MODE | PT_UID | PT_GID | PT_SIGSET => number PT_UINT32 (field 0 4 data)
  | PT_RELTIME | PT_ABSTIME | PT_UINT64 => number PT_UINT64 (field 0 8 data)
  | PT_INT8 => number PT_INT8 (s8 <$> field 0 1 data)
  | PT_INT16 => number PT_INT16 (s16 <$> field 0 2 data)
  | PT_INT32 => number PT_INT32 (s32 <$> field 0 4 data)
  | PT_INT64 | PT_ERRNO | PT_FD | PT_PID => number PT_INT64 (s64 <$> field 0 8 data)
  | _ => print (printf "<unknown>" [])
  end.

(** ** The text of an event *)

(** [off += snprintf(out + off, mx_size - off, ...)] *)
Definition out_put (mx_size : Z) (text : option (list Z)) (st : Z * list Z) : option (Z * list Z) :=
  let '(off, out) := st in
  t ← text; '(n, out) ← snprintf out off (u64 (mx_size - off)) t; Some (off + n, out).

(** The loop of [get_whole_event] over the [n] parameters from [i] on. *)
Fixpoint whole_loop (n : nat) (type i : Z) (args data : list Z) (mx_size : Z) (tmp : list Z) (st : Z * list Z)
    : option (Z * list Z) :=
  match n with
  | O => Some st
  | S n =>
      param ← event_param type i;
      st ← (if 0 <? i then out_put mx_size (printf ", " []) st else Some st);
      st ← out_put mx_size (printf "%s=" [AStr (str_bytes (pi_name param))]) st;
      len ← field (2 * i) 2 args;
      '(_, tmp) ← evt_arg_to_string param data len tmp;
      s ← cstr tmp;
      st ← out_put mx_size (printf "%s" [AStr s]) st;
      if mx_size <=? st.1 then Some st
      else whole_loop n type (i + 1) args (zdrop len data) mx_size tmp st
  end.

(** [get_whole_event(hdr, out, mx_size)]; [tmp] is its uninitialised buffer. *)
Definition get_whole_event (hdr : list Z) (tmp out : list Z) (mx_size : Z) : option (Z * list Z) :=
  type ← field 14 2 hdr;
  if NODE_EVENT_MAX <=? type then None else
  let info := g_event_info type in
  ts ← field 0 8 hdr; tid ← field 8 4 hdr; cpuid ← field 12 2 hdr;
  st ← out_put mx_size (printf "%lu %u (%u): %s(" [AInt ts; AInt tid; AInt cpuid; AStr (str_bytes (ei_name info))]) (0, out);
  let args := zdrop HDR_SIZE hdr in
  let data := zdrop (2 * ei_nparams info) args in
  st ← whole_loop (Z.to_nat (ei_nparams info)) type 0 args data mx_size tmp st;
  out_put mx_size (printf (String.append ")" (String (Ascii.ascii_of_nat 10) EmptyString)) []) st.

(** ** The script's interface *)

Definition NOD_MAX_FIELDS : Z := 16.
Definition NOD_MAX_ARG_NAME : Z := 32.

Inductive nod_field_kind : Set := NOD_FLD_EVT_TIME | NOD_FLD_EVT_TYPE | NOD_FLD_EVT_TID | NOD_FLD_EVT_ARG.

Record nod_field_desc : Type := mk_desc { fd_kind : nod_field_kind; fd_arg_name : list Z }.

(** [memset(f, 0, sizeof( *f))] *)
Definition zero_desc : nod_field_desc := mk_desc NOD_FLD_EVT_TIME (replicate 32 0).

(** [struct lua_event]; [raw] is null or the memory from the header on. *)
Record lua_event : Type := mk_lua_event { raw : option (list Z) }.

Inductive lua_value : Type := LNil | LStr (s : list Z) | LInt (n : Z).
Inductive lua_error : Type := too_many_fields | unknown_field (s : list Z) | no_current_event | invalid_index (i : Z).
Inductive lua_result : Type := LError (e : lua_error) | LReturn (vs : list lua_value).

(** What the script makes the monitor do outside: a datagram, or an append to a file. *)
Inductive lua_io : Type := Sent (ip : list Z) (port : Z) (bs : list Z) | Saved (filename bs : list Z).

(** The static variables of the file ([g_current_evt] is null or an address), [buf] of [push_arg_as_string], the output, and
    the objects of type [struct lua_event] that exist and have a value, by their addresses: the local [evt] of
    [nod_monitor_main] while it runs. *)
Record lua_fields : Type := mk_fields {
  g_fields : list nod_field_desc;
  g_nr_fields : Z;
  g_current_evt : option Z;
  lf_evts : gmap Z lua_event;
  lf_buf : list Z;
  lf_io : list lua_io
}.

Definition init_fields : lua_fields := mk_fields (replicate 16 zero_desc) 0 None ∅ (replicate 256 0) [].

Definition set_fields (fs : list nod_field_desc) (n : Z) (st : lua_fields) : lua_fields :=
  mk_fields fs n (g_current_evt st) (lf_evts st) (lf_buf st) (lf_io st).
Definition set_field_buf (b : list Z) (st : lua_fields) : lua_fields :=
  mk_fields (g_fields st) (g_nr_fields st) (g_current_evt st) (lf_evts st) b (lf_io st).
Definition add_io (io : lua_io) (st : lua_fields) : lua_fields :=
  mk_fields (g_fields st) (g_nr_fields st) (g_current_evt st) (lf_evts st) (lf_buf st) (lf_io st ++ [io]).

Definition lua_field_set_current_event (evt : option Z) (st : lua_fields) : lua_fields :=
  mk_fields (g_fields st) (g_nr_fields st) evt (lf_evts st) (lf_buf st) (lf_io st).

(** [evt.raw = hdr] in [nod_monitor_main], whose local [evt] is at [a]. *)
Definition set_evt_raw (a : Z) (hdr : list Z) (st : lua_fields) : lua_fields :=
  mk_fields (g_fields st) (g_nr_fields st) (g_current_evt st) (<[a := mk_lua_event (Some hdr)]> (lf_evts st)) (lf_buf st) (lf_io st).

(** [nod_monitor_main] returns: its [evt] is no object any more. *)
Definition end_evt (a : Z) (st : lua_fields) : lua_fields :=
  mk_fields (g_fields st) (g_nr_fields st) (g_current_evt st) (delete a (lf_evts st)) (lf_buf st) (lf_io st).

Definition push_string (s : option (list Z)) : lua_value := match s with Some s => LStr s | None => LNil end.

(** [push_u64_as_string]; [buf] is its uninitialised buffer of 32 bytes. *)
Definition push_u64_as_string (buf : list Z) (v : Z) : option lua_value :=
  t ← printf "%lu" [AInt v]; '(_, b) ← snprintf buf 0 32 t; s ← cstr b; Some (LStr s).

(** [g_fields[i] = f] and its use; [None] is an index outside of the array. *)
Definition put_desc (i : Z) (f : nod_field_desc) (fs : list nod_field_desc) : option (list nod_field_desc) := zwrite i [f] fs.
Definition get_desc (i : Z) (fs : list nod_field_desc) : option nod_field_desc :=
  match zread i 1 fs with Some [f] => Some f | _ => None end.

(** [strncpy(f->arg_name, s + 8, NOD_MAX_ARG_NAME - 1); f->arg_name[NOD_MAX_ARG_NAME - 1] = 0] *)
Definition arg_name_of (s : list Z) : list Z :=
  let n := ztake (NOD_MAX_ARG_NAME - 1) (zdrop 8 s) in n ++ replicate (Z.to_nat (NOD_MAX_ARG_NAME - zlen n)) 0.

(** [lua_request_field] with the string [s] as argument. *)
Definition lua_request_field (s : list Z) (st : lua_fields) : option (lua_result * lua_fields) :=
  let nr := g_nr_fields st in
  if NOD_MAX_FIELDS <=? nr then Some (LError too_many_fields, st) else
  fs ← put_desc nr zero_desc (g_fields st);
  let st := set_fields fs nr st in
  let add (f : nod_field_desc) := fs ← put_desc nr f fs; Some (LReturn [LInt nr], set_fields fs (nr + 1) st) in
  if decide (s = str_bytes "evt.time") then add (mk_desc NOD_FLD_EVT_TIME (fd_arg_name zero_desc))
  else if decide (s = str_bytes "evt.type") then add (mk_desc NOD_FLD_EVT_TYPE (fd_arg_name zero_desc))
  else if decide (s = str_bytes "evt.tid") then add (mk_desc NOD_FLD_EVT_TID (fd_arg_name zero_desc))
  else if decide (ztake 8 s = str_bytes "evt.arg.") then add (mk_desc NOD_FLD_EVT_ARG (arg_name_of s))
  else Some (LError (unknown_field s), st).

(** The loop of [push_arg_as_string] over the [n] parameters from [i] on. *)
Fixpoint find_arg (n : nat) (type i : Z) (args data : list Z) (arg_name : list Z) (buf : list Z) : option (lua_value * list Z) :=
  match n with
  | O => Some (LNil, buf)
  | S n =>
      param ← event_param type i;
      len ← field (2 * i) 2 args;
      if decide (str_bytes (pi_name param) = arg_name) then
        '(_, b) ← evt_arg_to_string param data len buf; s ← cstr b; Some (LStr s, b)
      else find_arg n type (i + 1) args (zdrop len data) arg_name buf
  end.

(** [push_arg_as_string(L, hdr, arg_name)] with the C string in [arg_name]. *)
Definition push_arg_as_string (hdr : option (list Z)) (arg_name : list Z) (buf : list Z) : option (lua_value * list Z) :=
  match hdr with
  | None => Some (LNil, buf)
  | Some hdr =>
      type ← field 14 2 hdr;
      if NODE_EVENT_MAX <=? type then Some (LNil, buf) else
      let info := g_event_info type in
      let args := zdrop HDR_SIZE hdr in
      name ← cstr arg_name;
      find_arg (Z.to_nat (ei_nparams info)) type 0 args (zdrop (2 * ei_nparams info) args) name buf
  end.

(** What a call depends on besides the script: the contents of its local buffers, and
    whether [socket] and [fopen] succeed. *)
Record call_env : Type := mk_call { ce_num : list Z; ce_tmp : list Z; ce_out : list Z; ce_socket : bool; ce_fopen : bool }.

Definition lua_evt_field (e : call_env) (n : Z) (st : lua_fields) : option (lua_result * lua_fields) :=
  let idx := s32 n in
  match g_current_evt st with
  | None => Some (LError no_current_event, st)
  | Some a =>
      if (idx <? 0) || (g_nr_fields st <=? idx) then Some (LError (invalid_index idx), st) else
      f ← get_desc idx (g_fields st);
      evt ← lf_evts st !! a;
      match fd_kind f with
      | NOD_FLD_EVT_TIME => hdr ← raw evt; ts ← field 0 8 hdr; v ← push_u64_as_string (ce_num e) ts; Some (LReturn [v], st)
      | NOD_FLD_EVT_TYPE =>
          hdr ← raw evt; type ← field 14 2 hdr;
          if NODE_EVENT_MAX <=? type then None
          else Some (LReturn [push_string (Some (str_bytes (ei_name (g_event_info type))))], st)
      | NOD_FLD_EVT_TID => hdr ← raw evt; tid ← field 8 4 hdr; v ← push_u64_as_string (ce_num e) tid; Some (LReturn [v], st)
      | NOD_FLD_EVT_ARG =>
          '(v, b) ← push_arg_as_string (raw evt) (fd_arg_name f) (lf_buf st); Some (LReturn [v], set_field_buf b st)
      end
  end.

(** The current event if [lua_evt_send] and [lua_evt_save] go on with it. *)
Definition sendable (st : lua_fields) : option (option (list Z)) :=
  match g_current_evt st with
  | None => Some None
  | Some a =>
      evt ← lf_evts st !! a;
      match raw evt with
      | None => Some None
      | Some hdr => type ← field 14 2 hdr; Some (if NODE_EVENT_MAX <=? type then None else Some hdr)
      end
  end.

Definition lua_evt_send (e : call_env) (ip : list Z) (port : Z) (st : lua_fields) : option (lua_result * lua_fields) :=
  hdr ← sendable st;
  match hdr with
  | None => Some (LReturn [], st)
  | Some hdr =>
      '(off, out) ← get_whole_event hdr (ce_tmp e) (ce_out e) 2048;
      if negb (ce_socket e) then Some (LReturn [], st) else
      bs ← zread 0 (u64 off) out;
      Some (LReturn [], add_io (Sent ip (u16 (s32 port)) bs) st)
  end.

Definition lua_evt_save (e : call_env) (filename : list Z) (st : lua_fields) : option (lua_result * lua_fields) :=
  hdr ← sendable st;
  match hdr with
  | None => Some (LReturn [], st)
  | Some hdr =>
      '(off, out) ← get_whole_event hdr (ce_tmp e) (ce_out e) 2048;
      if negb (ce_fopen e) then Some (LReturn [], st) else
      bs ← zread 0 (u64 off) out;
      Some (LReturn [], add_io (Saved filename bs) st)
  end.

(** ** Registration *)

Inductive lua_cfunction : Set := fn_request_field | fn_field | fn_send | fn_save.

(** The global tables [lua_field_register_api] makes, and their fields. *)
Definition lua_field_register_api : list (string * list (string * lua_cfunction)) := [
  ("chisel", [("request_field", fn_request_field)]);
  ("evt", [("field", fn_field); ("send", fn_send); ("save", fn_save)])]%string.

(** A call with its arguments, which [luaL_checkstring] and [luaL_checkinteger] accepted. *)
Inductive lua_call : Type :=
  | CallRequest (s : list Z)
  | CallField (n : Z)
  | CallSend (ip : list Z) (port : Z)
  | CallSave (filename : list Z).

Definition run_call (e : call_env) (c : lua_call) (st : lua_fields) : option (lua_result * lua_fields) :=
  match c with
  | CallRequest s => lua_request_field s st
  | CallField n => lua_evt_field e n st
  | CallSend ip port => lua_evt_send e ip port st
  | CallSave f => lua_evt_save e f st
  end.
