(* ===== verification/EventText.v ===== *)
(** * The text of an event

    [event_text e] is the line that [evt.send] and [evt.save] are to produce, written
    without buffers and formats.  It is always shorter than the buffer of 2048 bytes
    of [lua_evt_send] and [lua_evt_save], and [get_whole_event] stores exactly it. *)

From S2P Require Import Prelude Kernel Tables Ring RingFacts ProcState Events EventCodec Printf LuaField.

Local Open Scope Z_scope.

(** ** Reference *)

(** The types that are printed as an integer: the row of the formats, the number of
    bytes read, and whether it is signed. *)
Definition int_row (t : nod_param_type) : option (nod_param_type * Z * bool) :=
  match t with
  | PT_FLAGS8 | PT_UINT8 | PT_SIGTYPE => Some (PT_UINT8, 1, false)
  | PT_FLAGS16 | PT_UINT16 | PT_SYSCALLID => Some (PT_UINT16, 2, false)
  | PT_FLAGS32 | PT_UINT32 | PT_MODE | PT_UID | PT_GID | PT_SIGSET => Some (PT_UINT32, 4, false)
  | PT_RELTIME | PT_ABSTIME | PT_UINT64 => Some (PT_UINT64, 8, false)
  | PT_INT8 => Some (PT_INT8, 1, true)
  | PT_INT16 => Some (PT_INT16, 2, true)
  | PT_INT32 => Some (PT_INT32, 4, true)
  | PT_INT64 | PT_ERRNO | PT_FD | PT_PID => Some (PT_INT64, 8, true)
  | _ => None
  end.

(** The bits of a hexadecimal or octal numeral: C's promotion to [int]. *)
Definition promoted (n : Z) : Z := if n <? 8 then 32 else 64.

Definition number_text (n : Z) (sgn : bool) (f : nod_print_format) (x : Z) : list Z :=
  match f with
  | PF_DEC => if sgn then signed_numeral x else numeral 10 x
  | PF_HEX => str_bytes "0x" ++ numeral 16 (unsigned (promoted n) x)
  | PF_10_PADDED_DEC => pad (mk_spec true 10 (8 <=? n)) (if sgn then signed_numeral x else numeral 10 x)
  | PF_OCT => str_bytes "0" ++ numeral 8 (unsigned (promoted n) x)
  | _ => []
  end.

(** The bytes up to the first zero. *)
Fixpoint until_nul (bs : list Z) : list Z :=
  match bs with
  | [] => []
  | b :: bs => if b =? 0 then [] else b :: until_nul bs
  end.

(** The text of a parameter with the bytes [v]; at most 255 characters are kept. *)
Definition param_text (p : nod_param_info) (v : list Z) : list Z :=
  match int_row (pi_type p) with
  | Some (_, n, sgn) =>
      let x := le_val (ztake n v) in number_text n sgn (pi_fmt p) (if sgn then signed (8 * n) x else x)
  | None =>
      match pi_type p with
      | PT_FSPATH | PT_FSRELPATH | PT_CHARBUF => until_nul (ztake 255 v)
      | PT_BYTEBUF => str_bytes "<binary:" ++ numeral 10 (zlen v) ++ str_bytes ">"
      | _ => str_bytes "<unknown>"
      end
  end.

Fixpoint params_text (first : bool) (ps : list nod_param_info) (vs : list (list Z)) : list Z :=
  match ps, vs with
  | p :: ps, v :: vs =>
      (if first then [] else str_bytes ", ") ++ str_bytes (pi_name p) ++ str_bytes "=" ++ param_text p v ++
      params_text false ps vs
  | _, _ => []
  end.

(** The parameters the event declares. *)
Definition declared (type : Z) : list nod_param_info :=
  List.map (fun i => default zero_param (ei_params (g_event_info type) !! i)) (seq 0 (Z.to_nat (ei_nparams (g_event_info type)))).

Definition event_text (e : event) : list Z :=
  (numeral 10 (e_ts e) ++ str_bytes " " ++ numeral 10 (e_tid e) ++ str_bytes " (" ++ numeral 10 (e_cpuid e) ++
   str_bytes "): " ++ str_bytes (ei_name (g_event_info (e_type e))) ++ str_bytes "(") ++
  params_text true (declared (e_type e)) (e_params e) ++ str_bytes ")" ++ [10].

(** ** Which values a parameter can have *)

(** An integer has the bytes of its type, and what follows the header are bytes. *)
Definition value_sized (p : nod_param_info) (v : list Z) : Prop :=
  Forall byte_ok v /\ match int_row (pi_type p) with Some (_, n, _) => n <= zlen v | None => True end.

(** A format of the table of formats. *)
Definition format_ok (p : nod_param_info) : bool :=
  match pi_fmt p with PF_ID | PF_DIR => false | _ => true end.

(** An event as the kernel records it. *)
Record printable (e : event) : Prop := {
  pr_ok : event_ok e;
  pr_type : e_type e < NODE_EVENT_MAX;
  pr_params : Forall2 value_sized (declared (e_type e)) (e_params e)
}.

(** ** Numbers *)

Lemma pad_none s body : sp_width s = 0 -> sp_zero s = false -> pad s body = body.
Proof. intros Hw Hz. unfold pad. rewrite Hw, Hz. pose proof (zlen_nonneg body). by replace (Z.to_nat (0 - zlen body)) with 0%nat by lia. Qed.

Lemma int_row_cases t row n sgn : int_row t = Some (row, n, sgn) ->
  (row, n, sgn) ∈ [(PT_UINT8, 1, false); (PT_UINT16, 2, false); (PT_UINT32, 4, false); (PT_UINT64, 8, false);
                   (PT_INT8, 1, true); (PT_INT16, 2, true); (PT_INT32, 4, true); (PT_INT64, 8, true)].
Proof. destruct t; intros [= <- <- <-]; set_solver. Qed.

(** The range of an integer of [n] bytes. *)
Definition in_range (n : Z) (sgn : bool) (x : Z) : Prop :=
  if sgn then - 2 ^ (8 * n - 1) <= x < 2 ^ (8 * n - 1) else 0 <= x < 2 ^ (8 * n).

(** The formats of the table. *)
Lemma printf_one pre s c a t : convert s c a = Some t ->
  forall fmt, run_format None (str_bytes fmt) [a] = (app (str_bytes pre)) <$> (t ← convert s c a; (app t) <$> run_format None [] []) ->
  printf fmt [a] = Some (str_bytes pre ++ t).
Proof. intros Hc fmt E. unfold printf. rewrite E, Hc. cbn. by rewrite app_nil_r. Qed.

Definition conv_of (row : nod_param_type) (f : nod_print_format) : string * spec * Z :=
  let l := match row with PT_INT64 | PT_UINT64 => true | _ => false end in
  match f with
  | PF_DEC => ("", mk_spec false 0 l, match row with PT_UINT8 | PT_UINT16 | PT_UINT32 | PT_UINT64 => 117 | _ => 100 end)
  | PF_HEX => ("0x", mk_spec false 0 l, 120)
  | PF_10_PADDED_DEC => ("", mk_spec true 10 l, match row with PT_UINT16 | PT_UINT32 | PT_UINT64 => 117 | _ => 100 end)
  | _ => ("0", mk_spec false 0 l, 111)
  end%string.

Lemma print_conv t row n sgn f x u : int_row t = Some (row, n, sgn) -> f ∈ [PF_DEC; PF_HEX; PF_10_PADDED_DEC; PF_OCT] ->
  let '(pre, s, c) := conv_of row f in
  convert s c (AInt x) = Some u -> (fm ← __print_format row f; printf fm [AInt x]) = Some (str_bytes pre ++ u).
Proof.
  intros Hr Hf. apply int_row_cases in Hr.
  repeat (apply elem_of_cons in Hf as [->|Hf]); [..|by apply not_elem_of_nil in Hf];
    repeat (apply elem_of_cons in Hr as [[= -> -> ->]|Hr]); try (by apply not_elem_of_nil in Hr);
    intros Hu; refine (printf_one _ _ _ _ u Hu _ _); reflexivity.
Qed.

Lemma print_number t row n sgn f x : int_row t = Some (row, n, sgn) -> in_range n sgn x ->
  match f with PF_ID | PF_DIR => false | _ => true end = true ->
  (s ← __print_format row f; printf s [AInt x]) = Some (number_text n sgn f x).
Proof.
  intros Hr Hx Hf. destruct (decide (f ∈ [PF_DEC; PF_HEX; PF_10_PADDED_DEC; PF_OCT])) as [Hin|Hin].
  - pose proof (fun u => print_conv t row n sgn f x u Hr Hin) as Hc. apply int_row_cases in Hr. unfold in_range in Hx.
    repeat (apply elem_of_cons in Hin as [->|Hin]); [..|by apply not_elem_of_nil in Hin];
      repeat (apply elem_of_cons in Hr as [[= -> -> ->]|Hr]); try (by apply not_elem_of_nil in Hr);
      cbn [conv_of] in Hc; rewrite (Hc _ eq_refl); cbn [arg_bits sp_long number_text promoted Z.ltb Z.leb Z.compare Pos.compare Pos.compare_cont];
      rewrite ?pad_none by done; rewrite ?signed_small, ?unsigned_small by lia; try done.
    unfold signed_numeral. by rewrite (proj2 (Z.ltb_ge x 0)) by lia.
  - destruct f; try set_solver; try done. apply int_row_cases in Hr.
    repeat (apply elem_of_cons in Hr as [[= -> -> ->]|Hr]); try (by apply not_elem_of_nil in Hr); reflexivity.
Qed.

(** ** One parameter *)

Lemma field_take off n bs : 0 <= off -> 0 <= n -> off + n <= zlen bs -> field off n bs = Some (le_val (zslice off n bs)).
Proof. intros. unfold field. by rewrite zread_Some. Qed.

Lemma le_val_range n v : 0 <= n <= zlen v -> Forall byte_ok v -> 0 <= le_val (ztake n v) < 2 ^ (8 * n).
Proof.
  intros Hn Hv. pose proof (le_val_bound (ztake n v)) as H. rewrite zlen_ztake in H by lia. apply H. by apply Forall_take.
Qed.

Lemma value_range t row n sgn v : int_row t = Some (row, n, sgn) -> n <= zlen v -> Forall byte_ok v ->
  in_range n sgn (if sgn then signed (8 * n) (le_val (ztake n v)) else le_val (ztake n v)).
Proof.
  intros Hr Hn Hv. apply int_row_cases in Hr.
  assert (0 < n) as Hpos by (repeat (apply elem_of_cons in Hr as [[= -> -> ->]|Hr]); try lia; by apply not_elem_of_nil in Hr).
  pose proof (le_val_range n v ltac:(lia) Hv). unfold in_range. destruct sgn; [apply signed_bound; lia|done].
Qed.

(** The integer types: what is read, and how it is printed. *)
Lemma field_value_run p row n sgn v rest : int_row (pi_type p) = Some (row, n, sgn) -> n <= zlen v -> Forall byte_ok v -> format_ok p = true ->
  let x := le_val (ztake n v) in
  field 0 n (v ++ rest) = Some x /\
  (f ← __print_format row (pi_fmt p); printf f [AInt (if sgn then signed (8 * n) x else x)]) =
    Some (number_text n sgn (pi_fmt p) (if sgn then signed (8 * n) x else x)).
Proof.
  intros Hr Hn Hv Hf. cbv zeta. pose proof (value_range _ _ _ _ v Hr Hn Hv) as Hx. split; [|exact (print_number _ _ _ _ (pi_fmt p) _ Hr Hx Hf)].
  assert (0 <= n) as Hn0 by (apply int_row_cases in Hr; repeat (apply elem_of_cons in Hr as [[= -> -> ->]|Hr]); try lia; by apply not_elem_of_nil in Hr).
  pose proof (zlen_nonneg rest). rewrite field_take by (rewrite ?zlen_app; lia). unfold zslice. by rewrite zdrop_0, ztake_app_l by lia.
Qed.

Lemma arg_to_string_int p row n sgn v rest len buf : int_row (pi_type p) = Some (row, n, sgn) -> 0 < zlen buf -> n <= zlen v ->
  Forall byte_ok v -> format_ok p = true ->
  evt_arg_to_string p (v ++ rest) len buf = snprintf buf 0 (zlen buf) (param_text p v).
Proof.
  intros Hr Hb Hn Hv Hf. destruct (field_value_run p row n sgn v rest Hr Hn Hv Hf) as [Hfl Hp]. unfold param_text. rewrite Hr.
  assert (forall y, (f ← __print_format row (pi_fmt p); printf f [AInt y]) = Some (number_text n sgn (pi_fmt p) y) ->
    (f ← __print_format row (pi_fmt p); t ← printf f [AInt y]; snprintf buf 0 (zlen buf) t) = snprintf buf 0 (zlen buf) (number_text n sgn (pi_fmt p) y)) as Hrun.
  { intros y. destruct (__print_format row (pi_fmt p)) as [f|]; [|done]. cbn [mbind option_bind]. by intros ->. }
  unfold evt_arg_to_string. destruct (Z.eqb_spec (zlen buf) 0); [lia|].
  destruct (pi_type p); try discriminate Hr; injection Hr as <- <- <-; rewrite Hfl; cbn [fmap option_fmap option_map mbind option_bind]; by apply Hrun.
Qed.

(** ** Lengths *)

Definition max_value (p : nod_param_info) : Z :=
  match int_row (pi_type p) with
  | Some _ => 23
  | None => match pi_type p with PT_FSPATH | PT_FSRELPATH | PT_CHARBUF => 255 | PT_BYTEBUF => 14 | _ => 9 end
  end.

Lemma zlen_numeral b n k : 1 < b -> 0 <= n < b ^ Z.of_nat (S k) -> zlen (numeral b n) <= Z.of_nat (S k).
Proof. apply zlen_digits. Qed.

Lemma zlen_numeral10 n : 0 <= n < 2 ^ 64 -> zlen (numeral 10 n) <= 20.
Proof. intros. apply (zlen_numeral 10 n 19); lia. Qed.

Lemma signed_numeral_ok n : - 2 ^ 63 <= n < 2 ^ 64 -> zlen (signed_numeral n) <= 21 /\ no_nul (signed_numeral n).
Proof.
  intros. unfold signed_numeral. destruct (Z.ltb_spec n 0).
  - rewrite zlen_cons. pose proof (zlen_numeral10 (- n) ltac:(lia)). split; [lia|]. constructor; [done|by apply no_nul_numeral].
  - pose proof (zlen_numeral10 n ltac:(lia)). split; [lia|by apply no_nul_numeral].
Qed.

Lemma no_nul_app a b : no_nul a -> no_nul b -> no_nul (a ++ b).
Proof. apply Forall_app_2. Qed.

Lemma no_nul_replicate n c : c <> 0 -> no_nul (replicate n c).
Proof. intros. by apply Forall_replicate. Qed.

Lemma pad_ok s body k : zlen body <= k -> sp_width s <= k -> no_nul body -> zlen (pad s body) <= k /\ no_nul (pad s body).
Proof.
  intros Hb Hw Hn. unfold pad. set (r := Z.to_nat (sp_width s - zlen body)).
  assert (forall c, zlen (replicate r c ++ body) <= k) as Hr.
  { intros c. rewrite zlen_app. unfold zlen in *. rewrite length_replicate. lia. }
  assert (forall c, c <> 0 -> no_nul (replicate r c ++ body)) as Hnr by (intros; apply no_nul_app; [by apply no_nul_replicate|done]).
  destruct (sp_zero s); [|split; [apply Hr|by apply Hnr]].
  destruct body as [|c ds]; [specialize (Hr 48); specialize (Hnr 48 ltac:(done)); by rewrite app_nil_r in *|].
  destruct (c =? 45); [|split; [apply Hr|by apply Hnr]]. split.
  - specialize (Hr 48). rewrite !zlen_app, !zlen_cons, ?zlen_app in *. lia.
  - inversion Hn; subst. constructor; [done|]. apply no_nul_app; [by apply no_nul_replicate|done].
Qed.

Lemma number_text_ok t row n sgn f x : int_row t = Some (row, n, sgn) -> in_range n sgn x ->
  zlen (number_text n sgn f x) <= 23 /\ no_nul (number_text n sgn f x).
Proof.
  intros Hr Hx. assert (- 2 ^ 63 <= x < 2 ^ 64 /\ (sgn = false -> 0 <= x)) as [Hx64 Hx0].
  { apply int_row_cases in Hr. unfold in_range in Hx.
    repeat (apply elem_of_cons in Hr as [[= -> -> ->]|Hr]); try (by apply not_elem_of_nil in Hr); split; (lia || done). }
  assert (zlen (if sgn then signed_numeral x else numeral 10 x) <= 21 /\ no_nul (if sgn then signed_numeral x else numeral 10 x)) as [Hd Hdn].
  { destruct sgn; [by apply signed_numeral_ok|]. pose proof (zlen_numeral10 x ltac:(lia)). split; [lia|by apply no_nul_numeral]. }
  assert (0 <= unsigned (promoted n) x < 2 ^ 64) as Hu.
  { unfold promoted. pose proof (unsigned_bound 32 x ltac:(lia)). pose proof (unsigned_bound 64 x ltac:(lia)). destruct (n <? 8); lia. }
  assert (zlen (@nil Z) <= 23 /\ no_nul []) as Hnil by (split; [by vm_compute|constructor]).
  destruct f; cbn [number_text]; try exact Hnil.
  - split; [lia|done].
  - pose proof (zlen_numeral 16 (unsigned (promoted n) x) 15 ltac:(lia) ltac:(lia)). rewrite zlen_app. change (zlen (str_bytes "0x")) with 2.
    split; [lia|]. apply no_nul_app; [by repeat constructor|by apply no_nul_numeral].
  - apply (pad_ok _ _ 23); [lia|cbn; lia|done].
  - pose proof (zlen_numeral 8 (unsigned (promoted n) x) 21 ltac:(lia) ltac:(lia)). rewrite zlen_app. change (zlen (str_bytes "0")) with 1.
    split; [lia|]. apply no_nul_app; [by repeat constructor|by apply no_nul_numeral].
Qed.

Lemma until_nul_ok bs : no_nul (until_nul bs) /\ zlen (until_nul bs) <= zlen bs.
Proof.
  induction bs as [|b bs [IH IHl]]; [split; [constructor|done]|]. cbn [until_nul]. rewrite zlen_cons. pose proof (zlen_nonneg bs).
  destruct (Z.eqb_spec b 0); [split; [constructor|]; rewrite zlen_nil; lia|]. rewrite zlen_cons. split; [by constructor|lia].
Qed.

Lemma cstr_until_nul bs rest : cstr (bs ++ 0 :: rest) = Some (until_nul bs).
Proof. induction bs as [|b bs IH]; [done|]. cbn. destruct (b =? 0); [done|]. by rewrite IH. Qed.

Lemma zlen_ztake_le {A} n (l : list A) : 0 <= n -> zlen (ztake n l) <= n.
Proof. intros. unfold zlen, ztake. rewrite length_take. lia. Qed.

Lemma param_text_ok p v : value_sized p v -> zlen v < 2 ^ 16 -> zlen (param_text p v) <= max_value p /\ no_nul (param_text p v).
Proof.
  intros [Hv Hs] Hl. unfold param_text, max_value. destruct (int_row (pi_type p)) as [[[row n] sgn]|] eqn:Er.
  - apply (number_text_ok _ _ _ _ _ _ Er). by apply (value_range _ _ _ _ v Er).
  - assert (zlen (until_nul (ztake 255 v)) <= 255 /\ no_nul (until_nul (ztake 255 v))) as Ht.
    { destruct (until_nul_ok (ztake 255 v)). pose proof (zlen_ztake_le 255 v ltac:(lia)). split; [lia|done]. }
    assert (zlen (str_bytes "<binary:" ++ numeral 10 (zlen v) ++ str_bytes ">") <= 14 /\ no_nul (str_bytes "<binary:" ++ numeral 10 (zlen v) ++ str_bytes ">")) as Hb.
    { pose proof (zlen_numeral 10 (zlen v) 4 ltac:(lia) ltac:(pose proof (zlen_nonneg v); lia)). rewrite !zlen_app.
      change (zlen (str_bytes "<binary:")) with 8. change (zlen (str_bytes ">")) with 1.
      split; [lia|]. apply no_nul_app; [by repeat constructor|]. apply no_nul_app; [by apply no_nul_numeral|by repeat constructor]. }
    assert (zlen (str_bytes "<unknown>") <= 9 /\ no_nul (str_bytes "<unknown>")) as Hun by (split; [by vm_compute|by repeat constructor]).
    destruct (pi_type p); first [exact Ht|exact Hb|exact Hun|discriminate Er].
Qed.

(** ** [evt_arg_to_string] *)

Lemma store_text buf text : zlen buf = 256 -> zlen text <= 255 -> no_nul text ->
  exists b, snprintf buf 0 (zlen buf) text = Some (zlen text, b) /\ zlen b = 256 /\ cstr b = Some text.
Proof.
  intros Hb Ht Hn. destruct (snprintf_all buf text ltac:(lia)) as [rest E]. eexists. split; [exact E|].
  split; [by rewrite (snprintf_zlen _ _ _ _ _ _ E)|]. rewrite Hb, ztake_ge by lia. by apply cstr_prefix.
Qed.

Lemma store_chars buf v rest : zlen buf = 256 ->
  exists b, (let n := if zlen v <? zlen buf - 1 then zlen v else zlen buf - 1 in
             bs ← zread 0 n (v ++ rest); b ← zwrite 0 bs buf; b ← zwrite n [0] b; Some (n, b)) = Some (zlen (ztake 255 v), b) /\
    zlen b = 256 /\ cstr b = Some (until_nul (ztake 255 v)).
Proof.
  intros Hb. cbv zeta. pose proof (zlen_nonneg v). pose proof (zlen_nonneg rest).
  set (n := if zlen v <? zlen buf - 1 then zlen v else zlen buf - 1).
  assert (0 <= n <= 255 /\ n <= zlen v /\ ztake 255 v = ztake n v) as (Hn & Hnv & Ev).
  { unfold n. rewrite Hb. destruct (Z.ltb_spec (zlen v) (256 - 1)); [|split; [lia|split; [lia|done]]]. split; [lia|]. split; [lia|]. by rewrite !ztake_ge by lia. }
  assert (zlen (ztake n v) = n) as Hln by (apply zlen_ztake; lia).
  rewrite zread_Some by (rewrite ?zlen_app; lia). unfold zslice. rewrite zdrop_0, ztake_app_l by lia. cbn [mbind option_bind].
  rewrite zwrite_Some by (rewrite ?Hln; lia). cbn [mbind option_bind]. rewrite Hln, ztake_0, Z.add_0_l. cbn [app].
  assert (zlen (zdrop n buf) = zlen buf - n) as Hdl by (apply zlen_zdrop; lia).
  rewrite zwrite_Some by (rewrite ?zlen_app, ?Hln, ?Hdl, ?zlen_cons, ?zlen_nil; lia). cbn [mbind option_bind].
  rewrite ztake_app_exact by lia. eexists. rewrite Ev, Hln. split; [done|]. change (zlen [0]) with 1. split.
  - rewrite !zlen_app, zlen_zdrop by (rewrite zlen_app, Hln, Hdl; lia). rewrite zlen_app, Hln, Hdl, zlen_cons, zlen_nil. lia.
  - apply (cstr_until_nul (ztake n v)).
Qed.

Lemma printf_binary n : 0 <= n < 2 ^ 32 -> printf "<binary:%u>" [AInt n] = Some (str_bytes "<binary:" ++ numeral 10 n ++ str_bytes ">").
Proof.
  intros. change (printf "<binary:%u>" [AInt n]) with (Some (str_bytes "<binary:" ++ pad spec0 (numeral 10 (unsigned 32 n)) ++ str_bytes ">")).
  rewrite pad_none by done. by rewrite unsigned_small by lia.
Qed.

(** One parameter in the buffer of 256 bytes: its text as a C string. *)
Lemma arg_to_string_run p v rest buf : value_sized p v -> zlen v < 2 ^ 16 -> format_ok p = true -> zlen buf = 256 ->
  exists r b, evt_arg_to_string p (v ++ rest) (zlen v) buf = Some (r, b) /\ zlen b = 256 /\ cstr b = Some (param_text p v).
Proof.
  intros Hv Hl Hf Hb. destruct (param_text_ok p v Hv Hl) as [Ht Hn].
  assert (max_value p <= 255) as Hm by (unfold max_value; destruct (int_row _); [lia|]; destruct (pi_type p); lia).
  destruct (store_text buf (param_text p v) Hb ltac:(lia) Hn) as (b & Es & Hbl & Hc).
  destruct (int_row (pi_type p)) as [[[row n] sgn]|] eqn:Er.
  - exists (zlen (param_text p v)), b. rewrite (arg_to_string_int p row n sgn) by (first [done|lia|apply Hv|destruct Hv as [_ H]; by rewrite Er in H]). done.
  - unfold evt_arg_to_string. destruct (Z.eqb_spec (zlen buf) 0); [lia|]. unfold param_text in *. rewrite Er in *.
    destruct (store_chars buf v rest Hb) as (b' & Es' & Hbl' & Hc').
    pose proof (zlen_nonneg v).
    destruct (pi_type p); try discriminate Er; first
      [ eexists _, b'; split; [exact Es'|by split]
      | eexists _, b; split; [|by split]; rewrite printf_binary by lia; exact Es
      | eexists _, b; split; [exact Es|by split] ].
Qed.

(** ** The whole event *)

(** [text] is stored at the start of the buffer. *)
Definition holds_text (st : Z * list Z) (text : list Z) : Prop :=
  st.1 = zlen text /\ ztake (zlen text) st.2 = text /\ zlen st.2 = 2048.

Lemma out_put_run st text t : holds_text st text -> zlen text + zlen t < 2048 ->
  exists st', out_put 2048 (Some t) st = Some st' /\ holds_text st' (text ++ t).
Proof.
  destruct st as [off out]. intros (E & Ht & Ho) Hl. cbn [fst snd] in *. subst off.
  pose proof (zlen_nonneg t). pose proof (zlen_nonneg text). cbn [out_put mbind option_bind].
  unfold u64. rewrite unsigned_small by lia. rewrite snprintf_fits by lia. cbn [mbind option_bind].
  rewrite Ht. eexists. split; [done|]. split; [by rewrite zlen_app|]. cbn [snd]. split.
  - rewrite <- app_assoc. rewrite app_assoc. by apply ztake_app_exact.
  - rewrite !zlen_app, zlen_zdrop by lia. rewrite zlen_cons, zlen_nil. lia.
Qed.

Lemma printf_lit1 (s : list Z) : printf "%s" [AStr s] = Some s.
Proof. change (printf "%s" [AStr s]) with (Some (pad spec0 s ++ [])). by rewrite app_nil_r, pad_none. Qed.

Lemma printf_name (s : list Z) : printf "%s=" [AStr s] = Some (s ++ str_bytes "=").
Proof. change (printf "%s=" [AStr s]) with (Some (pad spec0 s ++ str_bytes "=")). by rewrite pad_none. Qed.

Lemma printf_head ts tid cpuid (name : list Z) : 0 <= ts < 2 ^ 64 -> 0 <= tid < 2 ^ 32 -> 0 <= cpuid < 2 ^ 32 ->
  printf "%lu %u (%u): %s(" [AInt ts; AInt tid; AInt cpuid; AStr name] =
  Some (numeral 10 ts ++ str_bytes " " ++ numeral 10 tid ++ str_bytes " (" ++ numeral 10 cpuid ++ str_bytes "): " ++ name ++ str_bytes "(").
Proof.
  intros. change (printf "%lu %u (%u): %s(" [AInt ts; AInt tid; AInt cpuid; AStr name]) with
    (Some (pad (mk_spec false 0 true) (numeral 10 (unsigned 64 ts)) ++ str_bytes " " ++ pad spec0 (numeral 10 (unsigned 32 tid)) ++ str_bytes " (" ++
      pad spec0 (numeral 10 (unsigned 32 cpuid)) ++ str_bytes "): " ++ pad spec0 name ++ str_bytes "(")).
  rewrite !pad_none by done. by rewrite !unsigned_small by lia.
Qed.

(** [args[i]] is the size of the parameter. *)
Lemma field_size pre v vs tl : zlen v < 2 ^ 16 ->
  field (2 * zlen pre) 2 (size_bytes (pre ++ v :: vs) ++ tl) = Some (zlen v).
Proof.
  intros Hv. pose proof (zlen_nonneg v). pose proof (zlen_nonneg pre). pose proof (zlen_nonneg vs). pose proof (zlen_nonneg tl).
  assert (size_bytes (pre ++ v :: vs) ++ tl = size_bytes pre ++ le_bytes 2 (zlen v) ++ size_bytes vs ++ tl) as ->.
  { unfold size_bytes. rewrite map_app, concat_app. cbn [map concat]. by rewrite <- !app_assoc. }
  rewrite field_take by (rewrite ?zlen_app, ?zlen_size_bytes, ?zlen_le_bytes; lia). unfold zslice.
  rewrite zdrop_app_exact by (by rewrite zlen_size_bytes). rewrite ztake_app_exact by (by rewrite zlen_le_bytes).
  rewrite le_val_bytes. f_equal. apply unsigned_small. lia.
Qed.

Lemma whole_loop_run type ps vs tl rest : forall pre st text tmp,
  Forall2 value_sized ps vs -> Forall (fun v => zlen v < 2 ^ 16) vs -> Forall (fun p => format_ok p = true) ps ->
  (forall k p, ps !! k = Some p -> event_param type (zlen pre + Z.of_nat k) = Some p) -> holds_text st text -> zlen tmp = 256 ->
  zlen (text ++ params_text (zlen pre =? 0) ps vs) < 2048 ->
  exists st', whole_loop (length ps) type (zlen pre) (size_bytes (pre ++ vs) ++ tl) (concat vs ++ rest) 2048 tmp st = Some st' /\
    holds_text st' (text ++ params_text (zlen pre =? 0) ps vs).
Proof.
  revert vs. induction ps as [|p ps IH]; intros vs pre st text tmp Hs Hl Hf Hev Hh Htmp Hmax.
  { exists st. cbn [params_text] in *. by rewrite app_nil_r. }
  inversion Hs as [|? v ? vs' Hv Hs']; subst. apply Forall_cons_1 in Hl as [Hvl Hl]. apply Forall_cons_1 in Hf as [Hpf Hf].
  cbn [length whole_loop params_text] in *. pose proof (Hev 0%nat p eq_refl) as E0. rewrite Z.add_0_r in E0. rewrite E0. cbn [mbind option_bind].
  pose proof (zlen_nonneg pre). set (sep := if zlen pre =? 0 then [] else str_bytes ", ") in *.
  set (txt := params_text false ps vs') in *. rewrite !zlen_app in Hmax. pose proof (zlen_nonneg txt).
  pose proof (zlen_nonneg (param_text p v)). change (zlen (str_bytes "=")) with 1 in Hmax.
  assert (exists st1, (if 0 <? zlen pre then out_put 2048 (printf ", " []) st else Some st) = Some st1 /\ holds_text st1 (text ++ sep)) as (st1 & -> & Hst1).
  { unfold sep in *. destruct (Z.ltb_spec 0 (zlen pre)), (Z.eqb_spec (zlen pre) 0); try lia.
    - change (printf ", " []) with (Some (str_bytes ", ")). apply out_put_run; [done|]. pose proof (zlen_nonneg (str_bytes (pi_name p))). lia.
    - exists st. by rewrite app_nil_r. }
  cbn [mbind option_bind]. rewrite printf_name.
  destruct (out_put_run st1 (text ++ sep) (str_bytes (pi_name p) ++ str_bytes "=") Hst1) as (st2 & -> & Hst2).
  { rewrite !zlen_app. change (zlen (str_bytes "=")) with 1. lia. }
  cbn [mbind option_bind]. rewrite field_size by done. cbn [mbind option_bind concat]. rewrite <- app_assoc.
  destruct (arg_to_string_run p v (concat vs' ++ rest) tmp Hv Hvl Hpf Htmp) as (r & b & -> & Hb & Hc). cbn [mbind option_bind]. rewrite Hc.
  cbn [mbind option_bind]. rewrite printf_lit1.
  destruct (out_put_run st2 _ (param_text p v) Hst2) as (st3 & -> & Hst3).
  { rewrite !zlen_app. change (zlen (str_bytes "=")) with 1. lia. }
  cbn [mbind option_bind]. pose proof Hst3 as (E3 & _ & _). rewrite E3, !zlen_app. change (zlen (str_bytes "=")) with 1.
  rewrite (proj2 (Z.leb_gt _ _)) by lia. rewrite zdrop_app_exact by done.
  assert (zlen (pre ++ [v]) = zlen pre + 1) as Ep by apply zlen_snoc. assert (zlen (pre ++ [v]) =? 0 = false) as Ez by (apply Z.eqb_neq; lia).
  specialize (IH vs' (pre ++ [v]) st3 ((text ++ sep) ++ (str_bytes (pi_name p) ++ str_bytes "=") ++ param_text p v) b Hs' Hl Hf).
  rewrite Ez, <- !app_assoc in IH. rewrite <- !app_assoc in Hst3. rewrite <- Ep. apply IH; [|done|done|].
  - intros k q Hk. rewrite Ep. replace (zlen pre + 1 + Z.of_nat k) with (zlen pre + Z.of_nat (S k)) by lia. by apply Hev.
  - fold txt. rewrite !zlen_app. change (zlen (str_bytes "=")) with 1. lia.
Qed.

(** ** Every event fits *)

Definition max_params (ps : list nod_param_info) : Z := foldr (fun p n => 2 + zlen (str_bytes (pi_name p)) + 1 + max_value p + n) 0 ps.

(** The longest text of an event of a type: 20, 10 and 5 digits, the separators, the
    name and the parameters. *)
Definition max_text (type : Z) : Z := 20 + 1 + 10 + 2 + 5 + 3 + zlen (str_bytes (ei_name (g_event_info type))) + 1 + max_params (declared type) + 2.

Definition types : list Z := List.map Z.of_nat (seq 0 (Z.to_nat NODE_EVENT_MAX)).

(** A property of the table of events, by looking at each entry. *)
Lemma each_type (f : Z -> bool) : forallb f types = true -> forall t, 0 <= t < NODE_EVENT_MAX -> f t = true.
Proof.
  intros Hf t Ht. apply (proj1 (forallb_forall _ _) Hf). unfold types. apply in_map_iff. exists (Z.to_nat t).
  split; [lia|]. apply in_seq. lia.
Qed.

Lemma text_bound t : 0 <= t < NODE_EVENT_MAX -> max_text t < 2048.
Proof. intros Ht. apply Z.ltb_lt. revert t Ht. apply each_type. by vm_compute. Qed.

Lemma formats_known t : 0 <= t < NODE_EVENT_MAX -> forallb format_ok (declared t) = true.
Proof. apply (each_type (fun t => forallb format_ok (declared t))). by vm_compute. Qed.

Lemma declared_bound t : 0 <= t < NODE_EVENT_MAX -> 0 <= ei_nparams (g_event_info t) <= NOD_MAX_EVENT_PARAMS.
Proof.
  intros Ht. enough ((0 <=? ei_nparams (g_event_info t)) && (ei_nparams (g_event_info t) <=? NOD_MAX_EVENT_PARAMS) = true) as H by lia.
  revert t Ht. apply each_type. by vm_compute.
Qed.

Lemma params_text_bound first ps vs : Forall2 value_sized ps vs -> Forall (fun v => zlen v < 2 ^ 16) vs ->
  zlen (params_text first ps vs) <= max_params ps.
Proof.
  intros H. revert first. induction H as [|p v ps vs Hv Hs IH]; intros first Hl; [by vm_compute|].
  apply Forall_cons_1 in Hl as [Hvl Hl]. cbn [params_text max_params foldr]. fold (max_params ps). rewrite !zlen_app.
  destruct (param_text_ok p v Hv Hvl) as [Hp _]. specialize (IH false Hl).
  assert (zlen (if first then [] else str_bytes ", ") <= 2) by (by destruct first). change (zlen (str_bytes "=")) with 1. lia.
Qed.

Lemma declared_param t k p : 0 <= t < NODE_EVENT_MAX -> declared t !! k = Some p -> event_param t (Z.of_nat k) = Some p.
Proof.
  intros Ht Hk. pose proof (declared_bound t Ht) as Hn. unfold declared in Hk. rewrite list_lookup_fmap in Hk.
  destruct (seq _ _ !! k) as [i|] eqn:Ei; [|done]. apply lookup_seq in Ei as [-> Hlt]. injection Hk as <-.
  unfold event_param. rewrite Nat2Z.id. rewrite (proj2 (Z.leb_le _ _)), (proj2 (Z.ltb_lt _ _)) by (unfold NOD_MAX_EVENT_PARAMS in *; lia). done.
Qed.

Lemma event_text_bound e : printable e -> 0 <= e_type e -> zlen (event_text e) < 2048.
Proof.
  intros [Hok Ht Hp] H0. pose proof (text_bound (e_type e) ltac:(lia)) as Hb. unfold max_text in Hb. destruct Hok as [Hts Htid Hcpu _ _ Hl].
  pose proof (params_text_bound true _ _ Hp Hl) as Hpt. unfold event_text. rewrite !zlen_app.
  pose proof (zlen_numeral10 (e_ts e) Hts). pose proof (zlen_numeral 10 (e_tid e) 9 ltac:(lia) ltac:(lia)).
  pose proof (zlen_numeral 10 (e_cpuid e) 4 ltac:(lia) ltac:(lia)).
  change (zlen (str_bytes " ")) with 1. change (zlen (str_bytes " (")) with 2. change (zlen (str_bytes "): ")) with 3.
  change (zlen (str_bytes "(")) with 1. change (zlen (str_bytes ")")) with 1. change (zlen [10]) with 1. lia.
Qed.

Lemma field_at bs a off n m x b : bs = a ++ le_bytes n x ++ b -> zlen a = off -> m = Z.of_nat n -> field off m bs = Some (unsigned (8 * m) x).
Proof.
  intros -> <- ->. pose proof (zlen_nonneg a). pose proof (zlen_nonneg b).
  rewrite field_take by (rewrite ?zlen_app, ?zlen_le_bytes; lia). unfold zslice.
  rewrite zdrop_app_exact by done. rewrite ztake_app_exact by (by rewrite zlen_le_bytes). by rewrite le_val_bytes.
Qed.

(** The header of an event in memory. *)
Lemma header_fields e rest : event_ok e ->
  field 0 8 (encode e ++ rest) = Some (e_ts e) /\ field 8 4 (encode e ++ rest) = Some (e_tid e) /\
  field 12 2 (encode e ++ rest) = Some (e_cpuid e) /\ field 14 2 (encode e ++ rest) = Some (e_type e) /\
  zdrop HDR_SIZE (encode e ++ rest) = size_bytes (e_params e) ++ concat (e_params e) ++ rest.
Proof.
  intros [Hts Htid Hcpu Hty _ _].
  assert (forall a off n x, encode e ++ rest = a ++ le_bytes n x ++ zdrop (off + Z.of_nat n) (encode e ++ rest) -> zlen a = off ->
    0 <= x < 2 ^ (8 * Z.of_nat n) -> field off (Z.of_nat n) (encode e ++ rest) = Some x) as Hf.
  { intros a off n x E Ha Hx. rewrite (field_at _ a off n _ x _ E Ha eq_refl). by rewrite unsigned_small. }
  assert (forall pre x, encode e ++ rest = pre ++ x -> forall k, zlen pre = k -> pre ++ zdrop k (encode e ++ rest) = encode e ++ rest) as Hsplit.
  { intros pre x E k Hk. rewrite E. by rewrite zdrop_app_exact. }
  set (t := encode e ++ rest) in *.
  assert (t = le_bytes 8 (e_ts e) ++ le_bytes 4 (e_tid e) ++ le_bytes 2 (e_cpuid e) ++ le_bytes 2 (e_type e) ++
    (le_bytes 4 (event_len e) ++ le_bytes 4 (zlen (e_params e)) ++ le_bytes 4 NOD_EVENT_HDR_MAGIC) ++ size_bytes (e_params e) ++ concat (e_params e) ++ rest) as Et.
  { unfold t, encode, encode_hdr. by rewrite <- !app_assoc. }
  set (tl := _ ++ size_bytes _ ++ _) in Et. split_and!.
  - apply (Hf [] 0 8%nat); [|done|lia]. symmetry. by apply (Hsplit (le_bytes 8 (e_ts e)) _ Et).
  - apply (Hf (le_bytes 8 (e_ts e)) 8 4%nat); [|by rewrite zlen_le_bytes|lia]. symmetry. rewrite app_assoc.
    rewrite app_assoc in Et. apply (Hsplit _ _ Et). by rewrite zlen_app, !zlen_le_bytes.
  - apply (Hf (le_bytes 8 (e_ts e) ++ le_bytes 4 (e_tid e)) 12 2%nat); [|by rewrite zlen_app, !zlen_le_bytes|lia]. symmetry. rewrite app_assoc.
    rewrite app_assoc, (app_assoc (_ ++ _)) in Et. apply (Hsplit _ _ Et). by rewrite !zlen_app, !zlen_le_bytes.
  - apply (Hf (le_bytes 8 (e_ts e) ++ le_bytes 4 (e_tid e) ++ le_bytes 2 (e_cpuid e)) 14 2%nat); [|by rewrite !zlen_app, !zlen_le_bytes|lia]. symmetry. rewrite app_assoc.
    rewrite app_assoc, (app_assoc (_ ++ _)), (app_assoc ((_ ++ _) ++ _)), <- (app_assoc (le_bytes 8 _)) in Et. apply (Hsplit _ _ Et). by rewrite !zlen_app, !zlen_le_bytes.
  - unfold t, encode. rewrite <- !app_assoc. apply zdrop_app_exact. by rewrite zlen_encode_hdr.
Qed.

(** The parameters behind the sizes. *)
Lemma params_data e rest : zlen (e_params e) = ei_nparams (g_event_info (e_type e)) ->
  zdrop (2 * ei_nparams (g_event_info (e_type e))) (size_bytes (e_params e) ++ concat (e_params e) ++ rest) = concat (e_params e) ++ rest.
Proof. intros E. apply zdrop_app_exact. by rewrite zlen_size_bytes, E. Qed.

Lemma declared_length t : 0 <= ei_nparams (g_event_info t) -> length (declared t) = Z.to_nat (ei_nparams (g_event_info t)).
Proof. intros. unfold declared. by rewrite length_map, length_seq. Qed.

Lemma printable_nparams e : printable e -> 0 <= e_type e -> zlen (e_params e) = ei_nparams (g_event_info (e_type e)).
Proof.
  intros [_ Ht Hp] H0. pose proof (declared_bound (e_type e) ltac:(lia)). apply Forall2_length in Hp.
  rewrite declared_length in Hp by lia. unfold zlen. rewrite <- Hp. lia.
Qed.

(** [get_whole_event] on the memory that starts with an event. *)
Lemma get_whole_event_run e rest tmp out : printable e -> 0 <= e_type e -> zlen tmp = 256 -> zlen out = 2048 ->
  exists st, get_whole_event (encode e ++ rest) tmp out 2048 = Some st /\ holds_text st (event_text e).
Proof.
  intros Hp H0 Htmp Hout. pose proof (event_text_bound e Hp H0) as Hb. pose proof (printable_nparams e Hp H0) as Hnp.
  destruct Hp as [Hok Ht Hps]. pose proof (header_fields e rest Hok) as (Ets & Etid & Ecpu & Ety & Eargs). destruct Hok as [Hts Htid Hcpu Hty _ Hl].
  unfold get_whole_event. rewrite Ety. cbn [mbind option_bind]. destruct (Z.leb_spec NODE_EVENT_MAX (e_type e)); [lia|].
  rewrite Ets, Etid, Ecpu. cbn [mbind option_bind]. rewrite printf_head by lia.
  unfold event_text in Hb. set (head := _ ++ _ ++ _ ++ _ ++ _ ++ _ ++ _ ++ str_bytes "(") in *. set (pt := params_text true _ _) in *. pose proof (zlen_nonneg head).
  rewrite !zlen_app in Hb. change (zlen (str_bytes ")")) with 1 in Hb. change (zlen [10]) with 1 in Hb. pose proof (zlen_nonneg pt).
  destruct (out_put_run (0, out) [] head) as (st1 & -> & Hst1); [by split|rewrite zlen_nil; lia|]. cbn [mbind option_bind app] in *.
  rewrite Eargs, params_data by done. rewrite <- declared_length by (apply declared_bound; lia).
  destruct (whole_loop_run (e_type e) (declared (e_type e)) (e_params e) (concat (e_params e) ++ rest) rest [] st1 head tmp Hps Hl) as (st2 & E2 & Hst2);
    [apply List.Forall_forall; apply forallb_forall, formats_known; lia| |done|done| |].
  { intros k p Hk. rewrite zlen_nil, Z.add_0_l. apply declared_param; [lia|done]. }
  { rewrite zlen_nil, zlen_app. fold pt. cbn [Z.eqb]. fold pt. lia. }
  rewrite zlen_nil in E2, Hst2. cbn [app Z.eqb] in E2, Hst2. fold pt in Hst2. rewrite E2. cbn [mbind option_bind].
  change (printf (String.append ")" (String (Ascii.ascii_of_nat 10) EmptyString)) []) with (Some (str_bytes ")" ++ [10])).
  destruct (out_put_run st2 (head ++ pt) (str_bytes ")" ++ [10]) Hst2) as (st3 & -> & Hst3).
  { rewrite !zlen_app. change (zlen (str_bytes ")")) with 1. change (zlen [10]) with 1. lia. }
  exists st3. split; [done|]. unfold event_text. fold head pt. by rewrite <- app_assoc in Hst3.
Qed.
