(* ===== verification/LuaProps.v ===== *)
(** * What the script's interface promises *)

From S2P Require Import Prelude Kernel Tables Ring RingFacts ProcState Events EventCodec Printf LuaField EventText.

Local Open Scope Z_scope.

(** ** Well-formed states and calls *)

(** The buffers of a call have their C sizes. *)
Record env_sized (e : call_env) : Prop := {
  es_num : zlen (ce_num e) = 32;
  es_tmp : zlen (ce_tmp e) = 256;
  es_out : zlen (ce_out e) = 2048
}.

(** [luaL_checkstring] gives a C string. *)
Definition call_ok (c : lua_call) : Prop :=
  match c with
  | CallRequest s => no_nul s
  | _ => True
  end.

(** A current event is a recorded one. *)
Definition evt_ok (evt : lua_event) : Prop :=
  exists e rest, raw evt = Some (encode e ++ rest) /\ printable e /\ 0 <= e_type e.

Record fields_ok (st : lua_fields) : Prop := {
  fo_len : zlen (g_fields st) = NOD_MAX_FIELDS;
  fo_nr : 0 <= g_nr_fields st <= NOD_MAX_FIELDS;
  fo_names : Forall (fun f => is_Some (cstr (fd_arg_name f))) (g_fields st);
  fo_evt : forall a evt, lf_evts st !! a = Some evt -> evt_ok evt;
  fo_buf : zlen (lf_buf st) = 256
}.

(** The calls of a script. *)
Inductive script_runs : lua_fields -> lua_fields -> Prop :=
  | runs_end st : script_runs st st
  | runs_call e c r st1 st2 st3 : env_sized e -> call_ok c -> run_call e c st1 = Some (r, st2) -> script_runs st2 st3 -> script_runs st1 st3.

(** A script makes calls until one of them faults. *)
Definition script_faults (st : lua_fields) : Prop :=
  exists st1 e c, script_runs st st1 /\ env_sized e /\ call_ok c /\ run_call e c st1 = None.

(** A script and the monitor between two points of time: calls of the script, a new
    current event in the local variable at [a] of [nod_monitor_main], and a return of [nod_monitor_main]. *)
Inductive lua_steps : lua_fields -> lua_fields -> Prop :=
  | steps_refl st : lua_steps st st
  | steps_call e c r st1 st2 st3 : env_sized e -> call_ok c -> run_call e c st1 = Some (r, st2) -> lua_steps st2 st3 -> lua_steps st1 st3
  | steps_event a hdr st1 st2 : evt_ok (mk_lua_event (Some hdr)) ->
      lua_steps (lua_field_set_current_event (Some a) (set_evt_raw a hdr st1)) st2 -> lua_steps st1 st2
  | steps_return a st1 st2 : lua_steps (end_evt a st1) st2 -> lua_steps st1 st2.

(** The current event is a variable of a call of [nod_monitor_main] that has returned. *)
Definition stale (st : lua_fields) : bool :=
  match g_current_evt st with Some a => match lf_evts st !! a with Some _ => false | None => true end | None => false end.

(** The memory of the current event, if it has one. *)
Definition current_hdr (st : lua_fields) : option (list Z) := a ← g_current_evt st; evt ← lf_evts st !! a; raw evt.

(** The call reads the current event. *)
Definition reads_event (c : lua_call) (st : lua_fields) : bool :=
  match c with
  | CallRequest _ => false
  | CallField n => (0 <=? s32 n) && (s32 n <? g_nr_fields st)
  | CallSend _ _ | CallSave _ => true
  end.

(** ** Descriptors *)

Lemma put_desc_ok i f fs : zlen fs = NOD_MAX_FIELDS -> 0 <= i < NOD_MAX_FIELDS ->
  exists fs', put_desc i f fs = Some fs' /\ zlen fs' = NOD_MAX_FIELDS /\ get_desc i fs' = Some f /\
    (forall j, 0 <= j < i -> get_desc j fs' = get_desc j fs) /\
    (forall P : nod_field_desc -> Prop, Forall P fs -> P f -> Forall P fs').
Proof.
  intros Hl Hi. unfold put_desc. destruct (zwrite i [f] fs) as [fs'|] eqn:E; [|rewrite zwrite_Some in E by (change (zlen [f]) with 1; lia); done].
  exists fs'. split; [done|]. pose proof (zlen_zwrite _ _ _ _ E) as Hl'. split; [lia|]. unfold get_desc.
  split; [|split].
  - rewrite zread_Some by lia. pose proof (zslice_zwrite_same _ _ _ _ E) as Hs. change (zlen [f]) with 1 in Hs. by rewrite Hs.
  - intros j Hj. rewrite !zread_Some by lia. by rewrite (zslice_zwrite_below j 1 i [f] fs fs' E) by lia.
  - intros P HP Hf. apply zwrite_inv in E as (_ & _ & ->). apply Forall_app_2; [by apply Forall_take|].
    apply Forall_app_2; [by repeat constructor|by apply Forall_drop].
Qed.

Lemma get_desc_ok i fs : zlen fs = NOD_MAX_FIELDS -> 0 <= i < NOD_MAX_FIELDS -> exists f, get_desc i fs = Some f /\ In f fs.
Proof.
  intros Hl Hi. unfold get_desc. rewrite zread_Some by lia. unfold zslice.
  assert (zlen (ztake 1 (zdrop i fs)) = 1) as H1 by (rewrite zlen_ztake; [done|]; rewrite zlen_zdrop by lia; lia).
  destruct (ztake 1 (zdrop i fs)) as [|f [|]] eqn:E; [by cbn in H1| |rewrite !zlen_cons in H1; pose proof (zlen_nonneg l); lia].
  exists f. split; [done|]. unfold ztake, zdrop in E. assert (In f (take (Z.to_nat 1) (drop (Z.to_nat i) fs))) as Hin by (rewrite E; by left).
  rewrite <- (firstn_skipn (Z.to_nat i) fs). apply in_or_app. right.
  rewrite <- (firstn_skipn (Z.to_nat 1) (skipn (Z.to_nat i) fs)). apply in_or_app. by left.
Qed.

Lemma zero_name_ok : is_Some (cstr (fd_arg_name zero_desc)).
Proof. by eexists. Qed.

Lemma arg_name_cstr s : no_nul s -> cstr (arg_name_of s) = Some (ztake 31 (zdrop 8 s)).
Proof.
  intros Hs. unfold arg_name_of. change (NOD_MAX_ARG_NAME - 1) with 31.
  pose proof (zlen_ztake_le 31 (zdrop 8 s) ltac:(lia)) as Hl. set (n := ztake 31 (zdrop 8 s)) in *. pose proof (zlen_nonneg n).
  destruct (Z.to_nat (NOD_MAX_ARG_NAME - zlen n)) as [|k] eqn:E; [unfold NOD_MAX_ARG_NAME in E; lia|]. cbn [replicate].
  apply cstr_prefix. unfold n. by apply Forall_take, Forall_drop.
Qed.

(** ** [lua_request_field] *)

Definition request_kind (s : list Z) : option nod_field_desc :=
  if decide (s = str_bytes "evt.time") then Some (mk_desc NOD_FLD_EVT_TIME (fd_arg_name zero_desc))
  else if decide (s = str_bytes "evt.type") then Some (mk_desc NOD_FLD_EVT_TYPE (fd_arg_name zero_desc))
  else if decide (s = str_bytes "evt.tid") then Some (mk_desc NOD_FLD_EVT_TID (fd_arg_name zero_desc))
  else if decide (ztake 8 s = str_bytes "evt.arg.") then Some (mk_desc NOD_FLD_EVT_ARG (arg_name_of s))
  else None.

Lemma request_kind_ok s f : no_nul s -> request_kind s = Some f -> is_Some (cstr (fd_arg_name f)).
Proof.
  intros Hs. unfold request_kind. repeat case_decide; intros [= <-]; try apply zero_name_ok. cbn [fd_arg_name]. by rewrite arg_name_cstr.
Qed.

Definition request_post (s : list Z) (st : lua_fields) (r : lua_result) (st' : lua_fields) : Prop :=
  (g_current_evt st' = g_current_evt st /\ lf_evts st' = lf_evts st) /\
  (forall j, 0 <= j < g_nr_fields st -> get_desc j (g_fields st') = get_desc j (g_fields st)) /\ g_nr_fields st <= g_nr_fields st' /\
  (g_nr_fields st = NOD_MAX_FIELDS -> r = LError too_many_fields) /\
  (g_nr_fields st < NOD_MAX_FIELDS -> forall f, request_kind s = Some f ->
     r = LReturn [LInt (g_nr_fields st)] /\ g_nr_fields st' = g_nr_fields st + 1 /\ get_desc (g_nr_fields st) (g_fields st') = Some f).

(** A request: an error when the table is full or the name unknown, or the next
    index; the fields below it are kept. *)
Lemma request_run s st : fields_ok st -> no_nul s ->
  exists r st', lua_request_field s st = Some (r, st') /\ fields_ok st' /\ request_post s st r st'.
Proof.
  intros [Hl Hnr Hn He Hb] Hs. unfold lua_request_field. destruct (Z.leb_spec NOD_MAX_FIELDS (g_nr_fields st)) as [Hfull|Hfree].
  { eexists _, st. split; [done|]. split; [done|]. split; [done|]. split; [done|]. split; [lia|]. split; [done|lia]. }
  destruct (put_desc_ok (g_nr_fields st) zero_desc (g_fields st) Hl ltac:(lia)) as (fs & -> & Hl1 & _ & Hlow1 & HP1).
  cbn [mbind option_bind]. pose proof (HP1 _ Hn zero_name_ok) as Hn1.
  assert (forall f, is_Some (cstr (fd_arg_name f)) -> request_kind s = Some f ->
    exists r st', (fs' ← put_desc (g_nr_fields st) f fs; Some (LReturn [LInt (g_nr_fields st)], set_fields fs' (g_nr_fields st + 1) (set_fields fs (g_nr_fields st) st))) = Some (r, st') /\
      fields_ok st' /\ request_post s st r st') as Hadd.
  { intros f Hf Hk. destruct (put_desc_ok (g_nr_fields st) f fs Hl1 ltac:(lia)) as (fs2 & -> & Hl2 & Hg & Hlow2 & HP2). cbn [mbind option_bind].
    eexists _, _. split; [done|]. split; [constructor; cbn; [done|lia|by apply HP2|done|done]|]. split; [done|]. cbn.
    split; [intros j Hj; by rewrite Hlow2, Hlow1|]. split; [lia|]. split; [lia|]. intros _ g Hg'. by simplify_eq. }
  pose proof (request_kind_ok s) as Hko. unfold request_post, request_kind in *.
  repeat case_decide; try (apply Hadd; [by apply Hko|done]).
  eexists _, _. split; [done|]. split; [constructor; cbn; done|]. split; [done|]. cbn. split; [exact Hlow1|]. split; [lia|]. split; [lia|done].
Qed.

(** ** [lua_evt_field] *)

(** The text of the first parameter with a name. *)
Fixpoint arg_value (ps : list nod_param_info) (vs : list (list Z)) (name : list Z) : lua_value :=
  match ps, vs with
  | p :: ps, v :: vs => if decide (str_bytes (pi_name p) = name) then LStr (param_text p v) else arg_value ps vs name
  | _, _ => LNil
  end.

(** The value of a requested field. *)
Definition field_value (f : nod_field_desc) (e : event) : lua_value :=
  match fd_kind f with
  | NOD_FLD_EVT_TIME => LStr (numeral 10 (e_ts e))
  | NOD_FLD_EVT_TYPE => LStr (str_bytes (ei_name (g_event_info (e_type e))))
  | NOD_FLD_EVT_TID => LStr (numeral 10 (e_tid e))
  | NOD_FLD_EVT_ARG => arg_value (declared (e_type e)) (e_params e) (default [] (cstr (fd_arg_name f)))
  end.

Lemma find_arg_run type ps vs tl rest name : forall pre buf,
  Forall2 value_sized ps vs -> Forall (fun v => zlen v < 2 ^ 16) vs -> Forall (fun p => format_ok p = true) ps ->
  (forall k p, ps !! k = Some p -> event_param type (zlen pre + Z.of_nat k) = Some p) -> zlen buf = 256 ->
  exists b, find_arg (length ps) type (zlen pre) (size_bytes (pre ++ vs) ++ tl) (concat vs ++ rest) name buf = Some (arg_value ps vs name, b) /\ zlen b = 256.
Proof.
  revert vs. induction ps as [|p ps IH]; intros vs pre buf Hs Hl Hf Hev Hb; [by exists buf|].
  inversion Hs as [|? v ? vs' Hv Hs']; subst. apply Forall_cons_1 in Hl as [Hvl Hl]. apply Forall_cons_1 in Hf as [Hpf Hf].
  cbn [length find_arg arg_value]. pose proof (Hev 0%nat p eq_refl) as E0. rewrite Z.add_0_r in E0. rewrite E0. cbn [mbind option_bind].
  rewrite field_size by done. cbn [mbind option_bind concat]. rewrite <- app_assoc. case_decide.
  - destruct (arg_to_string_run p v (concat vs' ++ rest) buf Hv Hvl Hpf Hb) as (r & b & -> & Hb' & Hc). cbn [mbind option_bind]. rewrite Hc.
    by exists b.
  - rewrite zdrop_app_exact by done. assert (zlen (pre ++ [v]) = zlen pre + 1) as Ep by apply zlen_snoc.
    specialize (IH vs' (pre ++ [v]) buf Hs' Hl Hf). rewrite <- !app_assoc, Ep in IH. apply IH; [|done].
    intros k q Hk. replace (zlen pre + 1 + Z.of_nat k) with (zlen pre + Z.of_nat (S k)) by lia. by apply Hev.
Qed.

Lemma push_arg_run e rest name buf n : printable e -> 0 <= e_type e -> zlen buf = 256 -> cstr name = Some n ->
  exists b, push_arg_as_string (Some (encode e ++ rest)) name buf = Some (arg_value (declared (e_type e)) (e_params e) n, b) /\ zlen b = 256.
Proof.
  intros Hp H0 Hb Hn. pose proof (printable_nparams e Hp H0) as Hnp. destruct Hp as [Hok Ht Hps].
  destruct (header_fields e rest Hok) as (_ & _ & _ & Ety & Eargs). destruct Hok as [_ _ _ _ _ Hl].
  unfold push_arg_as_string. rewrite Ety. cbn [mbind option_bind]. destruct (Z.leb_spec NODE_EVENT_MAX (e_type e)); [lia|].
  rewrite Hn, Eargs, params_data by done. cbn [mbind option_bind]. rewrite <- declared_length by (apply declared_bound; lia).
  apply (find_arg_run (e_type e) _ (e_params e) (concat (e_params e) ++ rest) rest n []); [done|done| |intros k p Hk; by apply declared_param|done].
  apply List.Forall_forall; apply forallb_forall, formats_known; lia.
Qed.

Lemma push_u64_run buf v : zlen buf = 32 -> 0 <= v < 2 ^ 64 -> push_u64_as_string buf v = Some (LStr (numeral 10 v)).
Proof.
  intros Hb Hv. unfold push_u64_as_string.
  change (printf "%lu" [AInt v]) with (Some (pad (mk_spec false 0 true) (numeral 10 (unsigned 64 v)) ++ [])).
  rewrite app_nil_r, pad_none, unsigned_small by (done || lia). cbn [mbind option_bind].
  pose proof (zlen_numeral10 v Hv). pose proof (zlen_nonneg (numeral 10 v)). rewrite snprintf_fits by lia. cbn [mbind option_bind].
  rewrite ztake_0. cbn [app]. rewrite <- app_assoc. cbn [app]. rewrite cstr_prefix by (by apply no_nul_numeral). done.
Qed.

Lemma current_hdr_inv st hdr : current_hdr st = Some hdr -> exists a, g_current_evt st = Some a /\ lf_evts st !! a = Some (mk_lua_event (Some hdr)).
Proof.
  unfold current_hdr. destruct (g_current_evt st) as [a|]; [|done]. cbn [mbind option_bind].
  destruct (lf_evts st !! a) as [[r]|] eqn:E; [|done]. cbn [mbind option_bind raw]. intros ->. by exists a.
Qed.

(** The current event is null, stale or a recorded one. *)
Lemma current_cases st : fields_ok st -> g_current_evt st = None \/ stale st = true \/
  stale st = false /\ exists e rest, current_hdr st = Some (encode e ++ rest) /\ printable e /\ 0 <= e_type e.
Proof.
  intros Hok. unfold stale, current_hdr. destruct (g_current_evt st) as [a|] eqn:Ea; [right|by left]. cbn [mbind option_bind].
  destruct (lf_evts st !! a) as [evt|] eqn:Ee; [right|by left]. destruct (fo_evt _ Hok a evt Ee) as (e & rest & Hr & Hp & H0).
  split; [done|]. exists e, rest. by split_and!.
Qed.

Lemma stale_inv st : stale st = true -> exists a, g_current_evt st = Some a /\ lf_evts st !! a = None.
Proof. unfold stale. destruct (g_current_evt st) as [a|]; [|done]. destruct (lf_evts st !! a) eqn:E; [done|]. by exists a. Qed.

(** A field of the current event. *)
Lemma field_run ce n st e rest f : fields_ok st -> env_sized ce -> current_hdr st = Some (encode e ++ rest) ->
  printable e -> 0 <= e_type e -> 0 <= s32 n < g_nr_fields st -> get_desc (s32 n) (g_fields st) = Some f -> is_Some (cstr (fd_arg_name f)) ->
  exists b, lua_evt_field ce n st = Some (LReturn [field_value f e], set_field_buf b st) /\ zlen b = 256.
Proof.
  intros Hok Henv Hc Hp H0 Hn Hf [nm Hnm]. pose proof (pr_ok _ Hp) as He. destruct (header_fields e rest He) as (Ets & Etid & _ & Ety & _).
  destruct (current_hdr_inv st _ Hc) as (a & Ea & Ev).
  unfold lua_evt_field. rewrite Ea. rewrite (proj2 (Z.ltb_ge _ _)), (proj2 (Z.leb_gt _ _)) by lia. cbn [orb]. rewrite Hf. cbn [mbind option_bind]. rewrite Ev.
  cbn [mbind option_bind raw].
  assert (st = set_field_buf (lf_buf st) st) as Est by (by destruct st). pose proof (fo_buf _ Hok) as Hb. unfold field_value. destruct He as [Hts Htid _ _ _ _].
  destruct (fd_kind f).
  - rewrite Ets. cbn [mbind option_bind]. rewrite push_u64_run by (done || apply Henv). cbn [mbind option_bind]. exists (lf_buf st). by rewrite <- Est.
  - rewrite Ety. cbn [mbind option_bind]. destruct (Z.leb_spec NODE_EVENT_MAX (e_type e)); [destruct Hp; lia|]. exists (lf_buf st). by rewrite <- Est.
  - rewrite Etid. cbn [mbind option_bind]. rewrite push_u64_run by (lia || apply Henv). cbn [mbind option_bind]. exists (lf_buf st). by rewrite <- Est.
  - destruct (push_arg_run e rest (fd_arg_name f) (lf_buf st) nm Hp H0 Hb Hnm) as (b & -> & Hb'). exists b. by rewrite Hnm.
Qed.

(** ** Any sequence of calls *)

Lemma set_field_buf_ok b st : fields_ok st -> zlen b = 256 -> fields_ok (set_field_buf b st).
Proof. intros [] Hb. by constructor. Qed.

Lemma add_io_ok io st : fields_ok st -> fields_ok (add_io io st).
Proof. intros []. by constructor. Qed.

(** What a call keeps besides well-formedness. *)
Definition keeps_fields (st st' : lua_fields) : Prop :=
  (g_current_evt st' = g_current_evt st /\ lf_evts st' = lf_evts st) /\ g_nr_fields st <= g_nr_fields st' /\
  forall j, 0 <= j < g_nr_fields st -> get_desc j (g_fields st') = get_desc j (g_fields st).

Lemma keeps_refl st : keeps_fields st st.
Proof. by split_and!. Qed.

Lemma keeps_stale st st' : keeps_fields st st' -> stale st' = stale st.
Proof. intros [[E1 E2] _]. unfold stale. by rewrite E1, E2. Qed.

(** What a call does: it faults only if it reads a stale event. *)
Definition call_post (c : lua_call) (st : lua_fields) (o : option (lua_result * lua_fields)) : Prop :=
  match o with
  | Some (r, st') => fields_ok st' /\ keeps_fields st st' /\ (stale st = true -> reads_event c st = false)
  | None => stale st = true /\ reads_event c st = true
  end.

Lemma evt_field_run ce n st : fields_ok st -> env_sized ce -> call_post (CallField n) st (lua_evt_field ce n st).
Proof.
  intros Hok Henv. unfold call_post. cbn [reads_event].
  destruct ((s32 n <? 0) || (g_nr_fields st <=? s32 n)) eqn:Ei.
  { assert ((0 <=? s32 n) && (s32 n <? g_nr_fields st) = false) as -> by (destruct (Z.leb_spec 0 (s32 n)), (Z.ltb_spec (s32 n) (g_nr_fields st)), (Z.ltb_spec (s32 n) 0), (Z.leb_spec (g_nr_fields st) (s32 n)); done || lia).
    unfold lua_evt_field. rewrite Ei. by destruct (g_current_evt st); (split; [done|]; split; [apply keeps_refl|]). }
  apply orb_false_iff in Ei as [Hlo%Z.ltb_ge Hhi%Z.leb_gt]. rewrite (proj2 (Z.leb_le _ _)), (proj2 (Z.ltb_lt _ _)) by lia. cbn [andb].
  destruct (get_desc_ok (s32 n) (g_fields st) (fo_len _ Hok)) as (f & Hf & Hin); [pose proof (fo_nr _ Hok); lia|].
  destruct (current_cases st Hok) as [Ec|[Es|(Es & e & rest & Hr & Hp & H0)]].
  - unfold lua_evt_field. rewrite Ec. split; [done|]. split; [apply keeps_refl|]. unfold stale. by rewrite Ec.
  - destruct (stale_inv st Es) as (a & Ea & Ev). unfold lua_evt_field. rewrite Ea, (proj2 (Z.ltb_ge _ _)), (proj2 (Z.leb_gt _ _)) by lia.
    cbn [orb]. rewrite Hf. cbn [mbind option_bind]. by rewrite Ev.
  - pose proof (proj1 (List.Forall_forall _ _) (fo_names _ Hok) f Hin) as Hnm.
    destruct (field_run ce n st e rest f Hok Henv Hr Hp H0 ltac:(lia) Hf Hnm) as (b & -> & Hb).
    split; [by apply set_field_buf_ok|]. split; [done|]. by rewrite Es.
Qed.

(** The bytes [lua_evt_send] and [lua_evt_save] hand out. *)
Lemma whole_event_bytes ce e rest : env_sized ce -> printable e -> 0 <= e_type e ->
  exists off out, get_whole_event (encode e ++ rest) (ce_tmp ce) (ce_out ce) 2048 = Some (off, out) /\ zread 0 (u64 off) out = Some (event_text e).
Proof.
  intros [_ Ht Ho] Hp H0. destruct (get_whole_event_run e rest _ _ Hp H0 Ht Ho) as ([off out] & E & Hoff & Htxt & Hlen). cbn [fst snd] in *.
  pose proof (event_text_bound e Hp H0). pose proof (zlen_nonneg (event_text e)). exists off, out. split; [done|]. subst off. unfold u64. rewrite unsigned_small by lia.
  rewrite zread_Some by lia. unfold zslice. by rewrite zdrop_0, Htxt.
Qed.

Lemma sendable_run st : fields_ok st -> match sendable st with
  | None => stale st = true
  | Some None => stale st = false
  | Some (Some hdr) => stale st = false /\ exists e rest, hdr = encode e ++ rest /\ printable e /\ 0 <= e_type e
  end.
Proof.
  intros Hok. destruct (current_cases st Hok) as [Ec|[Es|(Es & e & rest & Hr & Hp & H0)]]; unfold sendable.
  - rewrite Ec. unfold stale. by rewrite Ec.
  - destruct (stale_inv st Es) as (a & -> & ->). done.
  - destruct (current_hdr_inv st _ Hr) as (a & -> & ->). cbn [mbind option_bind raw].
    destruct (header_fields e rest (pr_ok _ Hp)) as (_ & _ & _ & -> & _). cbn [mbind option_bind].
    rewrite (proj2 (Z.leb_gt _ _)) by (apply Hp). split; [done|]. by exists e, rest.
Qed.

(** [lua_evt_send] and [lua_evt_save] share all but the last step. *)
Ltac send_or_save f Hok Henv :=
  pose proof (sendable_run _ Hok) as Hs; unfold f; destruct (sendable _) as [[hdr|]|]; cbn [mbind option_bind];
  [destruct Hs as (Hs & e & rest & -> & Hp & H0); destruct (whole_event_bytes _ e rest Henv Hp H0) as (off & out & -> & Hrd); cbn [mbind option_bind];
   match goal with |- context [if ?b then _ else _] => destruct b end; [|rewrite Hrd; cbn [mbind option_bind]]
  |..]; cbn [call_post reads_event];
  [split; [done|]; split; [apply keeps_refl|]; by rewrite Hs|split; [by apply add_io_ok|]; split; [done|]; by rewrite Hs|
   split; [done|]; split; [apply keeps_refl|]; by rewrite Hs|done].

Lemma evt_send_run ce ip port st : fields_ok st -> env_sized ce -> call_post (CallSend ip port) st (lua_evt_send ce ip port st).
Proof. intros Hok Henv. send_or_save lua_evt_send Hok Henv. Qed.

Lemma evt_save_run ce name st : fields_ok st -> env_sized ce -> call_post (CallSave name) st (lua_evt_save ce name st).
Proof. intros Hok Henv. send_or_save lua_evt_save Hok Henv. Qed.

Lemma run_call_ok ce c st : fields_ok st -> env_sized ce -> call_ok c -> call_post c st (run_call ce c st).
Proof.
  intros Hok Henv Hc. destruct c as [s|n|ip port|f]; cbn [run_call].
  - destruct (request_run s st Hok Hc) as (r & st' & -> & Hok' & He & Hlow & Hle & _). by split_and!.
  - by apply evt_field_run.
  - by apply evt_send_run.
  - by apply evt_save_run.
Qed.

Lemma set_event_ok a hdr st : fields_ok st -> evt_ok (mk_lua_event (Some hdr)) -> fields_ok (lua_field_set_current_event (Some a) (set_evt_raw a hdr st)).
Proof. intros [] He. constructor; cbn; try done. intros b evt. rewrite lookup_insert_Some. naive_solver. Qed.

Lemma end_evt_ok a st : fields_ok st -> fields_ok (end_evt a st).
Proof. intros []. constructor; cbn; try done. intros b evt. rewrite lookup_delete_Some. naive_solver. Qed.

Lemma set_event_fresh a hdr st : stale (lua_field_set_current_event (Some a) (set_evt_raw a hdr st)) = false.
Proof. unfold stale. cbn. by rewrite lookup_insert_eq. Qed.

Lemma script_keeps st st' : script_runs st st' -> fields_ok st -> fields_ok st' /\ keeps_fields st st'.
Proof.
  induction 1 as [st|e c r st1 st2 st3 He Hc E _ IH]; intros Hok; [split; [done|apply keeps_refl]|].
  pose proof (run_call_ok e c st1 Hok He Hc) as Hp. rewrite E in Hp. destruct Hp as (Hok2 & ([E1 E2] & Hle & Hk) & _).
  destruct (IH Hok2) as (Hok3 & [E3 E4] & Hle3 & Hk3). split; [done|]. split; [split; congruence|]. split; [lia|].
  intros j Hj. by rewrite Hk3, Hk by lia.
Qed.

(** A script faults only on a stale event. *)
Lemma script_faults_stale st : script_faults st -> fields_ok st -> stale st = true.
Proof.
  intros (st1 & e & c & Hr & He & Hc & E) Hok. destruct (script_keeps _ _ Hr Hok) as [Hok1 Hk].
  pose proof (run_call_ok e c st1 Hok1 He Hc) as Hp. rewrite E in Hp. destruct Hp as [Hs _]. by rewrite <- (keeps_stale _ _ Hk).
Qed.

Lemma steps_keep st st' : lua_steps st st' -> fields_ok st ->
  fields_ok st' /\ g_nr_fields st <= g_nr_fields st' /\ forall j, 0 <= j < g_nr_fields st -> get_desc j (g_fields st') = get_desc j (g_fields st).
Proof.
  induction 1 as [st|e c r st1 st2 st3 He Hc E _ IH|a hdr st1 st2 He _ IH|a st1 st2 _ IH]; intros Hok; [by split_and!|..].
  - pose proof (run_call_ok e c st1 Hok He Hc) as Hp. rewrite E in Hp. destruct Hp as (Hok2 & (_ & Hle & Hk) & _).
    destruct (IH Hok2) as (Hok3 & Hle3 & Hk3). split; [done|]. split; [lia|]. intros j Hj. by rewrite Hk3, Hk by lia.
  - destruct (IH (set_event_ok a hdr st1 Hok He)) as (Hok3 & Hle3 & Hk3). by split_and!.
  - destruct (IH (end_evt_ok a st1 Hok)) as (Hok3 & Hle3 & Hk3). by split_and!.
Qed.

Lemma init_fields_ok : fields_ok init_fields.
Proof. constructor; cbn; try done. by repeat constructor. Qed.

(** ** The properties *)

(** C25: The calls of a script fault in exactly one case.  Whatever calls a script has made and whatever recorded events it
    was given, in whatever order: the next call reads the current event through the pointer of a call of [nod_monitor_main] that
    has returned ([evt.field] of a requested field, [evt.send] and [evt.save], made outside of [on_event] after a visit with
    events), or it returns a value or raises a Lua error, reads nothing behind the event, stores nothing outside of its
    buffers, and uses at most 16 fields.  While [nod_monitor_main] has handed an event to the script the pointer is good. *)
Theorem script_calls_safe st ce c : lua_steps init_fields st -> env_sized ce -> call_ok c ->
  (run_call ce c st = None <-> stale st = true /\ reads_event c st = true) /\
  (forall r st', run_call ce c st = Some (r, st') -> g_nr_fields st' <= NOD_MAX_FIELDS) /\
  forall a hdr, stale (lua_field_set_current_event (Some a) (set_evt_raw a hdr st)) = false.
Proof.
  intros Hst Henv Hc. destruct (steps_keep _ _ Hst init_fields_ok) as (Hok & _). pose proof (run_call_ok ce c st Hok Henv Hc) as Hp.
  split; [|split; [|intros; apply set_event_fresh]].
  - destruct (run_call ce c st) as [[r st']|]; [|done]. destruct Hp as (_ & _ & Hn). split; [done|]. intros [Hs Hr]. by rewrite Hn in Hr.
  - intros r st' E. rewrite E in Hp. apply Hp.
Qed.

(** C26: [get_whole_event] produces the text of the event.  For every event the kernel
    records, of whatever type and with parameters of whatever length, the
    text fits the 2048 bytes of its callers: the result is the length of the text and the buffer starts with it. *)
Theorem whole_event_text e rest tmp out : printable e -> 0 <= e_type e -> zlen tmp = 256 -> zlen out = 2048 ->
  zlen (event_text e) < 2048 /\
  exists out', get_whole_event (encode e ++ rest) tmp out 2048 = Some (zlen (event_text e), out') /\ ztake (zlen (event_text e)) out' = event_text e /\ zlen out' = 2048.
Proof.
  intros Hp H0 Ht Ho. split; [by apply event_text_bound|]. destruct (get_whole_event_run e rest tmp out Hp H0 Ht Ho) as ([off out'] & E & Hoff & Htxt & Hl).
  exists out'. cbn [fst snd] in *. subst off. by split_and!.
Qed.

(** C27: A requested field is reported for every event that follows.  After
    [request_field] accepted a name, [evt.field] of the index it returned gives, for the current event
    and after whatever calls came in between, the value of this field: the
    time or thread in decimal, the name of the event, or the text of the first parameter with
    the (truncated) name, and nil if it has none. *)
Theorem requested_field_reported s f st r st1 st2 e rest ce : lua_steps init_fields st -> no_nul s -> request_kind s = Some f ->
  g_nr_fields st < NOD_MAX_FIELDS -> lua_request_field s st = Some (r, st1) -> lua_steps st1 st2 -> printable e -> 0 <= e_type e ->
  current_hdr st2 = Some (encode e ++ rest) -> env_sized ce ->
  r = LReturn [LInt (g_nr_fields st)] /\ exists st3, lua_evt_field ce (g_nr_fields st) st2 = Some (LReturn [field_value f e], st3).
Proof.
  intros Hst Hs Hf Hnr Er Hst2 Hp H0 Hc Henv. destruct (steps_keep _ _ Hst init_fields_ok) as (Hok & _).
  destruct (request_run s st Hok Hs) as (r' & st1' & E & Hok1 & _ & _ & _ & _ & Hpost). rewrite Er in E. injection E as <- <-.
  destruct (Hpost Hnr f Hf) as (-> & Hnr1 & Hget). split; [done|]. destruct (steps_keep _ _ Hst2 Hok1) as (Hok2 & Hle & Hk).
  pose proof (fo_nr _ Hok) as Hb. assert (s32 (g_nr_fields st) = g_nr_fields st) as Es by (apply signed_small; unfold NOD_MAX_FIELDS in *; lia).
  destruct (field_run ce (g_nr_fields st) st2 e rest f Hok2 Henv Hc Hp H0) as (b & Hrun & _); rewrite ?Es; [lia| |by apply (request_kind_ok s)|by eexists].
  rewrite Hk by lia. exact Hget.
Qed.

(** Fields are never given back.  Once 16 fields were requested, every further request
    fails, whatever the script and the monitor do: a script that is loaded again
    after a change gets fresh indices until they run out. *)
Theorem fields_run_out st st' s ce : lua_steps init_fields st -> g_nr_fields st = NOD_MAX_FIELDS -> lua_steps st st' -> no_nul s ->
  exists st'', run_call ce (CallRequest s) st' = Some (LError too_many_fields, st'').
Proof.
  intros Hst Hn Hst' Hs. destruct (steps_keep _ _ Hst init_fields_ok) as (Hok & _). destruct (steps_keep _ _ Hst' Hok) as (Hok' & Hle & _).
  destruct (request_run s st' Hok' Hs) as (r & st'' & E & _ & _ & _ & _ & Hfull & _). exists st''. cbn [run_call]. rewrite E.
  rewrite Hfull by (pose proof (fo_nr _ Hok'); lia). done.
Qed.

(** ** A concrete event *)

(** [close(5)] of thread 77 on processor 3 with the result [-EBADF]. *)
Definition demo_close : event := mk_event_ 12345 77 3 NODE_SYSCALL_CLOSE [le_bytes 8 5; le_bytes 8 (-9)].
Definition demo_env : call_env := mk_call (replicate 32 1) (replicate 256 1) (replicate 2048 1) true true.
Definition demo_hdr : list Z := encode demo_close ++ [].

(** The event in the local variable at 4096. *)
Definition with_event (st : lua_fields) : lua_fields := lua_field_set_current_event (Some 4096) (set_evt_raw 4096 demo_hdr st).

Lemma demo_close_printable : printable demo_close.
Proof.
  constructor; [|by vm_compute|].
  - constructor; try (by vm_compute). by repeat constructor.
  - change (declared (e_type demo_close)) with [par "fd" PT_FD PF_DEC; par "res" PT_ERRNO PF_DEC].
    constructor; [|constructor; [|constructor]]; (split; [apply le_bytes_ok|]); cbn [int_row pi_type par]; rewrite zlen_le_bytes; lia.
Qed.

Lemma demo_event_ok : evt_ok (mk_lua_event (Some demo_hdr)).
Proof. exists demo_close, []. split; [done|]. split; [exact demo_close_printable|by vm_compute]. Qed.

Lemma demo_env_sized : env_sized demo_env.
Proof. by constructor. Qed.

Lemma demo_text : event_text demo_close = str_bytes "12345 77 (3): close(fd=5, res=-9)" ++ [10].
Proof. by vm_compute. Qed.

(** The text at work: what [evt.save] appends for this event. *)
Lemma demo_save : (lf_io ∘ snd) <$> run_call demo_env (CallSave (str_bytes "log")) (with_event init_fields) =
  Some [Saved (str_bytes "log") (str_bytes "12345 77 (3): close(fd=5, res=-9)" ++ [10])].
Proof. by vm_compute. Qed.

(** The event is there, and then the monitor has returned. *)
Lemma script_calls_safe_witness : run_call demo_env (CallSave (str_bytes "log")) (with_event init_fields) <> None /\
  run_call demo_env (CallSave (str_bytes "log")) (end_evt 4096 (with_event init_fields)) = None.
Proof.
  split.
  - intros E. destruct (proj1 (proj1 (script_calls_safe (with_event init_fields) demo_env (CallSave (str_bytes "log"))
      ltac:(eapply steps_event; [exact demo_event_ok|apply steps_refl]) demo_env_sized I)) E) as [Hs _]. by vm_compute in Hs.
  - apply (script_calls_safe (end_evt 4096 (with_event init_fields)) demo_env (CallSave (str_bytes "log")));
      [eapply steps_event; [exact demo_event_ok|eapply steps_return; apply steps_refl]|exact demo_env_sized|exact I|by vm_compute].
Defined.

Lemma whole_event_text_witness : exists out', get_whole_event (encode demo_close ++ []) (replicate 256 1) (replicate 2048 1) 2048 =
  Some (zlen (event_text demo_close), out') /\ ztake (zlen (event_text demo_close)) out' = event_text demo_close /\ zlen out' = 2048.
Proof. apply (whole_event_text demo_close []); [exact demo_close_printable|by vm_compute|done|done]. Defined.

(** A field is requested, an event comes, and the field is read. *)
Definition demo_requested : lua_fields :=
  match lua_request_field (str_bytes "evt.arg.res") init_fields with Some (_, st) => st | None => init_fields end.

Lemma requested_field_reported_witness : exists st3,
  lua_evt_field demo_env 0 (with_event demo_requested) = Some (LReturn [LStr (str_bytes "-9")], st3).
Proof.
  edestruct (requested_field_reported (str_bytes "evt.arg.res") (mk_desc NOD_FLD_EVT_ARG (arg_name_of (str_bytes "evt.arg.res"))) init_fields (LReturn [LInt 0]) demo_requested
    (with_event demo_requested) demo_close [] demo_env) as [_ [st3 E]];
    [apply steps_refl|by repeat constructor|by vm_compute|by vm_compute|by vm_compute|eapply steps_event; [exact demo_event_ok|apply steps_refl]|
     exact demo_close_printable|by vm_compute|done|exact demo_env_sized|].
  exists st3. exact E.
Defined.

(** Sixteen requests. *)
Fixpoint request_times (n : nat) (st : lua_fields) : lua_fields :=
  match n with
  | O => st
  | S n => match lua_request_field (str_bytes "evt.time") st with Some (_, st') => request_times n st' | None => st end
  end.

Lemma request_times_steps n st : lua_steps st (request_times n st).
Proof.
  revert st. induction n as [|n IH]; intros st; [apply steps_refl|]. cbn [request_times].
  destruct (lua_request_field (str_bytes "evt.time") st) as [[r st']|] eqn:E; [|apply steps_refl].
  eapply (steps_call demo_env (CallRequest (str_bytes "evt.time"))); [exact demo_env_sized|by repeat constructor|exact E|apply IH].
Qed.

Lemma fields_run_out_witness : exists st'', run_call demo_env (CallRequest (str_bytes "evt.type")) (request_times 16 init_fields) = Some (LError too_many_fields, st'').
Proof.
  apply (fields_run_out (request_times 16 init_fields) (request_times 16 init_fields) (str_bytes "evt.type") demo_env);
    [apply request_times_steps|by vm_compute|apply steps_refl|by repeat constructor].
Defined.

(** The descriptor of [fstat], [fstat64], [fchdir], [getdents], [getdents64], [setns]
    and [flock] has the format [PF_NA] and is printed as nothing. *)
Theorem fd_not_printed t : In t [NODE_SYSCALL_FSTAT; NODE_SYSCALL_FSTAT64; NODE_SYSCALL_FCHDIR;
    NODE_SYSCALL_GETDENTS; NODE_SYSCALL_GETDENTS64; NODE_SYSCALL_SETNS; NODE_SYSCALL_FLOCK] ->
  exists p, In p (declared t) /\ pi_type p = PT_FD /\ forall v, param_text p v = [].
Proof.
  intros H. exists (par "fd" PT_FD PF_NA). split; [|done].
  repeat (destruct H as [<-|H]; [vm_compute; tauto|]). destruct H.
Qed.
