(* ===== verification/Parse.v ===== *)
(** * Printing an event to a file: [_parse] of [monitor/src/main.c]

    [_parse] prints the same line as [get_whole_event] directly to a file, with the
    bytes of strings and buffers as they are. *)

From S2P Require Import Prelude Kernel Tables Ring RingFacts ProcState Events EventCodec Printf LuaField EventText LuaProps.

Local Open Scope Z_scope.

(** The [switch] on the type of a parameter: what is printed. *)
Definition parse_value (param : nod_param_info) (data : list Z) (len : Z) : option (list Z) :=
  let number (row : nod_param_type) (v : option Z) :=
    x ← v; f ← __print_format row (pi_fmt param); printf f [AInt x] in
  match pi_type param with
  | PT_CHARBUF | PT_FSPATH | PT_FSRELPATH | PT_BYTEBUF => zread 0 len data
  | PT_FLAGS8 | PT_UINT8 | PT_SIGTYPE => number PT_UINT8 (field 0 1 data)
  | PT_FLAGS16 | PT_UINT16 | PT_SYSCALLID => number PT_UINT16 (field 0 2 data)
  | PT_FLAGS32 | PT_UINT32 | PT_MODE | PT_UID | PT_GID | PT_SIGSET => number PT_UINT32 (field 0 4 data)
  | PT_RELTIME | PT_ABSTIME | PT_UINT64 => number PT_UINT64 (field 0 8 data)
  | PT_INT8 => number PT_INT8 (s8 <$> field 0 1 data)
  | PT_INT16 => number PT_INT16 (s16 <$> field 0 2 data)
  | PT_INT32 => number PT_INT32 (s32 <$> field 0 4 data)
  | PT_INT64 | PT_ERRNO | PT_FD | PT_PID => number PT_INT64 (s64 <$> field 0 8 data)
  | _ => printf "<unknown>" []
  end.

(** The loop over the [n] parameters from [i] on. *)
Fixpoint parse_loop (n : nat) (type i : Z) (args data : list Z) : option (list Z) :=
  match n with
  | O => Some []
  | S n =>
      param ← event_param type i;
      sep ← (if 0 <? i then printf ", " [] else Some []);
      name ← printf "%s=" [AStr (str_bytes (pi_name param))];
      len ← field (2 * i) 2 args;
      value ← parse_value param data len;
      rest ← parse_loop n type (i + 1) args (zdrop len data);
      Some (sep ++ name ++ value ++ rest)
  end.

(** [_parse(out, hdr, buffer, data)]: the result and what [out] is given; [buffer] is the
    memory behind the header. *)
Definition _parse (hdr buffer : list Z) : option (Z * list Z) :=
  type ← field 14 2 hdr;
  if NODE_EVENT_MAX <=? type then Some (-1, []) else
  let info := g_event_info type in
  ts ← field 0 8 hdr; tid ← field 8 4 hdr; cpuid ← field 12 2 hdr;
  head ← printf "%lu %u (%u): %s(" [AInt ts; AInt tid; AInt cpuid; AStr (str_bytes (ei_name info))];
  params ← parse_loop (Z.to_nat (ei_nparams info)) type 0 buffer (zdrop (2 * ei_nparams info) buffer);
  tl ← printf (String.append ")" (String (Ascii.ascii_of_nat 10) EmptyString)) [];
  Some (0, head ++ params ++ tl).

(** ** Reference *)

(** The text of a value in the file. *)
Definition file_value (p : nod_param_info) (v : list Z) : list Z :=
  match pi_type p with PT_CHARBUF | PT_FSPATH | PT_FSRELPATH | PT_BYTEBUF => v | _ => param_text p v end.

Definition is_buffer (p : nod_param_info) : bool :=
  match pi_type p with PT_CHARBUF | PT_FSPATH | PT_FSRELPATH | PT_BYTEBUF => true | _ => false end.

Fixpoint file_params (first : bool) (ps : list nod_param_info) (vs : list (list Z)) : list Z :=
  match ps, vs with
  | p :: ps, v :: vs =>
      (if first then [] else str_bytes ", ") ++ (str_bytes (pi_name p) ++ str_bytes "=") ++ file_value p v ++ file_params false ps vs
  | _, _ => []
  end.

Definition file_text (e : event) : list Z :=
  (numeral 10 (e_ts e) ++ str_bytes " " ++ numeral 10 (e_tid e) ++ str_bytes " (" ++ numeral 10 (e_cpuid e) ++
   str_bytes "): " ++ str_bytes (ei_name (g_event_info (e_type e))) ++ str_bytes "(") ++
  file_params true (declared (e_type e)) (e_params e) ++ str_bytes ")" ++ [10].

(** ** Proofs *)

Lemma parse_value_run p v rest : value_sized p v -> zlen v < 2 ^ 16 -> format_ok p = true ->
  parse_value p (v ++ rest) (zlen v) = Some (file_value p v).
Proof.
  intros [Hv Hs] Hl Hf. unfold file_value.
  assert (zread 0 (zlen v) (v ++ rest) = Some v) as Hbuf.
  { pose proof (zlen_nonneg v). pose proof (zlen_nonneg rest). rewrite zread_Some by (rewrite ?zlen_app; lia). unfold zslice. by rewrite zdrop_0, ztake_app_exact. }
  destruct (int_row (pi_type p)) as [[[row n] sgn]|] eqn:Er.
  - destruct (field_value_run p row n sgn v rest Er Hs Hv Hf) as [Hfl Hp]. unfold parse_value, param_text. rewrite Er.
    destruct (pi_type p); try discriminate Er; injection Er as <- <- <-; rewrite Hfl; cbn [fmap option_fmap option_map mbind option_bind]; exact Hp.
  - unfold parse_value, param_text. rewrite Er. destruct (pi_type p); first [discriminate Er|exact Hbuf|reflexivity].
Qed.

Lemma parse_loop_run type ps vs tl rest : forall pre,
  Forall2 value_sized ps vs -> Forall (fun v => zlen v < 2 ^ 16) vs -> Forall (fun p => format_ok p = true) ps ->
  (forall k p, ps !! k = Some p -> event_param type (zlen pre + Z.of_nat k) = Some p) ->
  parse_loop (length ps) type (zlen pre) (size_bytes (pre ++ vs) ++ tl) (concat vs ++ rest) = Some (file_params (zlen pre =? 0) ps vs).
Proof.
  revert vs. induction ps as [|p ps IH]; intros vs pre Hs Hl Hf Hev; [done|].
  inversion Hs as [|? v ? vs' Hv Hs']; subst. apply Forall_cons_1 in Hl as [Hvl Hl]. apply Forall_cons_1 in Hf as [Hpf Hf].
  cbn [length parse_loop file_params]. pose proof (Hev 0%nat p eq_refl) as E0. rewrite Z.add_0_r in E0. rewrite E0. cbn [mbind option_bind].
  pose proof (zlen_nonneg pre) as Hpre.
  assert ((if 0 <? zlen pre then printf ", " [] else Some []) = Some (if zlen pre =? 0 then [] else str_bytes ", ")) as ->.
  { destruct (Z.ltb_spec 0 (zlen pre)), (Z.eqb_spec (zlen pre) 0); try lia; done. }
  cbn [mbind option_bind]. rewrite printf_name, field_size by done. cbn [mbind option_bind concat]. rewrite <- app_assoc.
  rewrite parse_value_run by done. cbn [mbind option_bind]. rewrite zdrop_app_exact by done.
  assert (zlen (pre ++ [v]) = zlen pre + 1) as Ep by apply zlen_snoc. assert (zlen (pre ++ [v]) =? 0 = false) as Ez by (apply Z.eqb_neq; lia).
  specialize (IH vs' (pre ++ [v]) Hs' Hl Hf). rewrite Ez, Ep, <- !app_assoc in IH. cbn [app] in IH. rewrite IH; [done|].
  intros k q Hk. replace (zlen pre + 1 + Z.of_nat k) with (zlen pre + Z.of_nat (S k)) by lia. by apply Hev.
Qed.

(** [_parse] prints the line of every recorded event. *)
Lemma parse_run e rest : printable e -> 0 <= e_type e ->
  _parse (encode e ++ rest) (zdrop HDR_SIZE (encode e ++ rest)) = Some (0, file_text e).
Proof.
  intros Hp H0. pose proof (printable_nparams e Hp H0) as Hnp. destruct Hp as [Hok Ht Hps].
  destruct (header_fields e rest Hok) as (Ets & Etid & Ecpu & Ety & Eargs). destruct Hok as [Hts Htid Hcpu _ _ Hl].
  unfold _parse. rewrite Ety. cbn [mbind option_bind]. rewrite (proj2 (Z.leb_gt _ _)) by lia. rewrite Ets, Etid, Ecpu. cbn [mbind option_bind].
  rewrite printf_head by lia. cbn [mbind option_bind]. rewrite Eargs, params_data by done. rewrite <- declared_length by (apply declared_bound; lia).
  pose proof (parse_loop_run (e_type e) (declared (e_type e)) (e_params e) (concat (e_params e) ++ rest) rest [] Hps Hl) as E.
  rewrite zlen_nil in E. cbn [app Z.eqb] in E. rewrite E; [done| |intros k p Hk; by apply declared_param].
  apply List.Forall_forall; apply forallb_forall, formats_known; lia.
Qed.

Lemma file_params_text ps vs first : forallb (fun p => negb (is_buffer p)) ps = true -> file_params first ps vs = params_text first ps vs.
Proof.
  revert vs first. induction ps as [|p ps IH]; intros [|v vs] first; [done..|]. cbn [forallb file_params params_text]. intros [Hp Hps]%andb_true_iff.
  rewrite IH by done. rewrite <- !app_assoc. do 3 f_equal. unfold file_value. unfold is_buffer in Hp. by destruct (pi_type p).
Qed.

(** The two printers agree.  For an event whose declared parameters are no
    strings or buffers, [_parse] prints to the file exactly the line [get_whole_event]
    stores. *)
Theorem printers_agree e rest tmp out : printable e -> 0 <= e_type e -> forallb (fun p => negb (is_buffer p)) (declared (e_type e)) = true ->
  zlen tmp = 256 -> zlen out = 2048 ->
  exists text out', _parse (encode e ++ rest) (zdrop HDR_SIZE (encode e ++ rest)) = Some (0, text) /\
    get_whole_event (encode e ++ rest) tmp out 2048 = Some (zlen text, out') /\ ztake (zlen text) out' = text.
Proof.
  intros Hp H0 Hb Ht Ho. destruct (get_whole_event_run e rest tmp out Hp H0 Ht Ho) as ([off out'] & E & Hoff & Htxt & _). cbn [fst snd] in *. subst off.
  exists (event_text e), out'. rewrite parse_run by done. unfold file_text, event_text. by rewrite file_params_text.
Qed.

Lemma printers_agree_witness : exists text out', _parse (encode demo_close ++ []) (zdrop HDR_SIZE (encode demo_close ++ [])) = Some (0, text) /\
  get_whole_event (encode demo_close ++ []) (replicate 256 1) (replicate 2048 1) 2048 = Some (zlen text, out') /\ ztake (zlen text) out' = text.
Proof. apply (printers_agree demo_close []); [exact demo_close_printable|by vm_compute|by vm_compute|done|done]. Defined.
