(* ===== verification/LuaRuntime.v ===== *)
(** * The script runtime: [monitor/src/lua_runtime.c]

    The monitor keeps one Lua state, loads the script that the control device names
    when its path or its modification time changes, and calls the script's
    [on_event] for every event.  The interpreter is the class [LuaVM]; it acts on
    the state of [LuaField] only by calling the functions registered there, and faults only where one of these calls
    does.  The depth of the Lua stack is part of the state, since the code balances it by hand. *)

From S2P Require Import Prelude Kernel Tables Ring RingFacts ProcState Events EventCodec Monitor Printf LuaField EventText LuaProps.

Local Open Scope Z_scope.

(** ** The interpreter *)

Class LuaVM (V : Type) := {
  luaL_newstate : option V;
  luaL_openlibs : V -> V;
  (** a global table with functions *)
  lua_settable : string -> list (string * lua_cfunction) -> V -> V;
  (** [lua_getglobal] gives a function *)
  global_function : string -> V -> bool;
  (** [luaL_loadbuffer] of a chunk: whether it is [LUA_OK] *)
  luaL_loadbuffer : list Z -> V -> bool * V;
  (** [lua_pcall] of the chunk and of a global function, [None] if a call of the script faults; a script that does
      not end is not a value of these *)
  pcall_chunk : V -> lua_fields -> option (bool * V * lua_fields);
  pcall_global : string -> V -> lua_fields -> option (bool * V * lua_fields)
}.

(** What a script can do: make calls, or fault in one. *)
Definition script_does {V} (st : lua_fields) (o : option (bool * V * lua_fields)) : Prop :=
  match o with Some (_, _, st') => script_runs st st' | None => script_faults st end.

Class LuaVMOk (V : Type) `{LuaVM V} : Prop := {
  chunk_does v st : fields_ok st -> script_does st (pcall_chunk v st);
  global_does f v st : fields_ok st -> script_does st (pcall_global f v st)
}.

(** [struct nod_lua_state]: the array of the path and the modification time. *)
Record nod_lua_state : Type := mk_ls { lua_path : list Z; lua_mtime : Z }.

Section runtime.
Context {V : Type} `{LuaVM V}.

(** The static variables; [rt_top] is the depth of the stack of [g_L]. *)
Record runtime : Type := mk_rt {
  g_L : option V;
  g_script_buf : list Z;
  run_state : nod_lua_state;
  rt_fields : lua_fields;
  rt_top : Z
}.

Definition init_runtime : runtime := mk_rt None (replicate 8192 0) (mk_ls (replicate 256 0) 0) init_fields 0.

Definition set_vm (v : V) (st : lua_fields) (top : Z) (rt : runtime) : runtime := mk_rt (Some v) (g_script_buf rt) (run_state rt) st top.

(** *** Loading a script *)

(** The loop of [lua_load_script]: [file] is what is left to read; [fread] returns
    less than asked for only at the end of the file. *)
Fixpoint read_loop (fuel : nat) (mx_size : Z) (file acc : list Z) : option (list Z) :=
  match fuel with
  | O => None
  | S fuel =>
      if mx_size <=? zlen acc then Some acc else
      let chunk := ztake (mx_size - zlen acc) file in
      if zlen chunk =? 0 then Some acc else read_loop fuel mx_size (zdrop (zlen chunk) file) (acc ++ chunk)
  end.

(** [lua_load_script(path)]; [fopen] gives the contents of a file. *)
Definition lua_load_script (fopen : list Z -> option (list Z)) (path : list Z) (rt : runtime) : option (Z * runtime) :=
  if lua_mtime (run_state rt) =? 0 then Some (-1, rt) else
  match fopen path with
  | None => Some (-1, rt)
  | Some file =>
      text ← read_loop 3 (zlen (g_script_buf rt) - 1) file [];
      b ← zwrite 0 (text ++ [0]) (g_script_buf rt);
      Some (0, mk_rt (g_L rt) b (run_state rt) (rt_fields rt) (rt_top rt))
  end.

(** *** [lua_runtime_init] *)

(** [lua_newtable], [lua_pushcfunction] and [lua_setfield] for each function, and
    [lua_setglobal]. *)
Fixpoint register_tables (tables : list (string * list (string * lua_cfunction))) (v : V) : V :=
  match tables with
  | [] => v
  | (name, fns) :: tables => register_tables tables (lua_settable name fns v)
  end.

Definition lua_runtime_init (rt : runtime) : option runtime :=
  match g_L rt with
  | Some _ => Some rt
  | None =>
      match luaL_newstate with
      | None => Some rt
      | Some v =>
          path ← zwrite 0 [0] (lua_path (run_state rt));
          Some (mk_rt (Some (register_tables lua_field_register_api (luaL_openlibs v))) (g_script_buf rt) (mk_ls path 0) (rt_fields rt) 0)
      end
  end.

(** *** Calling the script *)

(** [lua_getglobal]; if it is no function [lua_pop]; otherwise [lua_pcall(g_L, 0, 0, 0)]
    and, after an error, [lua_pop]. *)
Definition call_global (f : string) (v : V) (rt : runtime) : option runtime :=
  let top := rt_top rt + 1 in
  if negb (global_function f v) then Some (set_vm v (rt_fields rt) (top - 1) rt)
  else
    '(ok, v, st) ← pcall_global f v (rt_fields rt);
    Some (if ok : bool then set_vm v st (top - 1) rt else set_vm v st (top - 1 + 1 - 1) rt).

Definition set_rt_fields (st : lua_fields) (rt : runtime) : runtime := mk_rt (g_L rt) (g_script_buf rt) (run_state rt) st (rt_top rt).

(** [lua_on_event(evt)]; [evt] is the address of the event. *)
Definition lua_on_event (evt : Z) (rt : runtime) : option runtime :=
  match g_L rt with
  | None => Some rt
  | Some v =>
      if lua_mtime (run_state rt) =? 0 then Some rt else
      call_global "on_event" v (set_rt_fields (lua_field_set_current_event (Some evt) (rt_fields rt)) rt)
  end.

Definition lua_on_init (rt : runtime) : option runtime :=
  match g_L rt with
  | None => Some rt
  | Some v => if lua_mtime (run_state rt) =? 0 then Some rt else call_global "on_init" v rt
  end.

(** [lua_run_code(g_script_buf)]; [None] is the use of a null [g_L] or a fault of the script. *)
Definition lua_run_code (rt : runtime) : option (Z * runtime) :=
  v ← g_L rt;
  code ← cstr (g_script_buf rt);
  let '(ok, v) := luaL_loadbuffer code v in
  let top := rt_top rt + 1 in
  if negb ok then Some (-1, set_vm v (rt_fields rt) (top - 1) rt) else
  '(ok, v, st) ← pcall_chunk v (rt_fields rt);
  let top := top - 1 + 1 in
  if negb ok then Some (-2, set_vm v st (top - 1) rt) else Some (0, set_vm v st (top - 1) rt).

(** [lua_run_script(global_state)]; [strcmp] and [strcpy] of a path that is not
    terminated are [None]. *)
Definition lua_run_script (fopen : list Z -> option (list Z)) (gs : nod_lua_state) (rt : runtime) : option (Z * runtime) :=
  gpath ← cstr (lua_path gs);
  rpath ← cstr (lua_path (run_state rt));
  if bool_decide (gpath = rpath) && (lua_mtime gs =? lua_mtime (run_state rt)) then Some (0, rt) else
  path ← zwrite 0 (gpath ++ [0]) (lua_path (run_state rt));
  let rt := mk_rt (g_L rt) (g_script_buf rt) (mk_ls path (lua_mtime gs)) (rt_fields rt) (rt_top rt) in
  '(r, rt) ← lua_load_script fopen gpath rt;
  if r <? 0 then Some (-1, rt) else
  '(ret, rt) ← lua_run_code rt;
  rt ← lua_on_init rt;
  Some (ret, rt).

(** *** The Lua part of [nod_monitor_main]

    [evt] is at [a]; [ptr] is the memory from the header of an event on. *)

Definition run_script_at (fopen : list Z -> option (list Z)) (gs : nod_lua_state) (l : option runtime) : option runtime :=
  rt ← l; '(_, rt) ← lua_run_script fopen gs rt; Some rt.

Definition on_event_at (a : Z) (ptr : list Z) (l : option runtime) : option runtime :=
  rt ← l; lua_on_event a (set_rt_fields (set_evt_raw a ptr (rt_fields rt)) rt).

Definition return_at (a : Z) (l : option runtime) : option runtime :=
  rt ← l; Some (set_rt_fields (end_evt a (rt_fields rt)) rt).

(** ** Well-formedness *)

Record runtime_ok (rt : runtime) : Prop := {
  ro_vm : is_Some (g_L rt);
  ro_buf : zlen (g_script_buf rt) = 8192;
  ro_path : zlen (lua_path (run_state rt)) = 256;
  ro_cpath : is_Some (cstr (lua_path (run_state rt)));
  ro_fields : fields_ok (rt_fields rt)
}.

Lemma cstr_write s buf : no_nul s -> zlen s < zlen buf -> exists b, zwrite 0 (s ++ [0]) buf = Some b /\ zlen b = zlen buf /\ cstr b = Some s.
Proof.
  intros Hs Hl. pose proof (zlen_nonneg s). rewrite zwrite_Some by (rewrite ?zlen_snoc; lia). eexists. split; [done|]. rewrite ztake_0. cbn [app]. split.
  - pose proof (zlen_snoc s 0) as E. rewrite zlen_app, zlen_zdrop, E by (rewrite ?E; lia). lia.
  - rewrite <- app_assoc. by apply cstr_prefix.
Qed.

(** The loop reads the file, up to the size of the buffer. *)
Lemma read_loop_run mx file : 0 < mx -> read_loop 3 mx file [] = Some (ztake mx file).
Proof.
  intros Hmx. cbn [read_loop]. rewrite zlen_nil, (proj2 (Z.leb_gt _ _)), Z.sub_0_r by lia. cbn [app].
  destruct (Z.eqb_spec (zlen (ztake mx file)) 0) as [E|E].
  { by rewrite (proj1 (length_zero_iff_nil (ztake mx file))) by (unfold zlen in E; lia). }
  destruct (Z.leb_spec mx (zlen (ztake mx file))) as [|Hlt]; [done|].
  assert (zlen file < mx) as Hf by (unfold zlen, ztake in *; rewrite length_take in *; lia).
  rewrite (ztake_ge mx file) by lia. rewrite (ztake_ge (mx - zlen file) (zdrop (zlen file) file)) by (rewrite zlen_zdrop by (pose proof (zlen_nonneg file); lia); lia).
  rewrite zlen_zdrop by (pose proof (zlen_nonneg file); lia). by rewrite Z.sub_diag.
Qed.

Context `{!LuaVMOk V}.

(** The runtime keeps its shape: [rt'] is well formed with the same stack, state of the script and current event. *)
Record keeps_runtime (rt rt' : runtime) : Prop := {
  kr_ok : runtime_ok rt';
  kr_top : rt_top rt' = rt_top rt;
  kr_state : run_state rt' = run_state rt;
  kr_evt : stale (rt_fields rt') = stale (rt_fields rt);
  kr_current : g_current_evt (rt_fields rt') = g_current_evt (rt_fields rt)
}.

Lemma keeps_runtime_refl rt : runtime_ok rt -> keeps_runtime rt rt.
Proof. by constructor. Qed.

Lemma keeps_runtime_trans rt1 rt2 rt3 : keeps_runtime rt1 rt2 -> keeps_runtime rt2 rt3 -> keeps_runtime rt1 rt3.
Proof. intros [] []. constructor; congruence. Qed.

(** A step keeps the runtime or faults on a stale event. *)
Definition keeps_or_stale (rt : runtime) (o : option runtime) : Prop :=
  match o with Some rt' => keeps_runtime rt rt' | None => stale (rt_fields rt) = true end.

(** What the interpreter gives is put back. *)
Lemma script_result rt (o : option (bool * V * lua_fields)) : runtime_ok rt -> script_does (rt_fields rt) o ->
  match o with
  | Some (_, v', st) => keeps_runtime rt (set_vm v' st (rt_top rt) rt)
  | None => stale (rt_fields rt) = true
  end.
Proof.
  intros [Hv Hb Hp Hc Hf] Hd. destruct o as [[[ok v'] st]|]; [|by apply script_faults_stale].
  destruct (script_keeps _ _ Hd Hf) as [Hf' Hk]. constructor; [by constructor|done|done|by apply keeps_stale|]. apply Hk.
Qed.

Lemma call_global_ok f v rt : runtime_ok rt -> keeps_or_stale rt (call_global f v rt).
Proof.
  intros Hrt. unfold call_global. destruct (global_function f v); cbn [negb].
  - pose proof (script_result rt _ Hrt (global_does f v _ (ro_fields _ Hrt))) as Hs.
    destruct (pcall_global f v (rt_fields rt)) as [[[ok v'] st]|]; [|done]. cbn [mbind option_bind].
    destruct ok; cbn [keeps_or_stale]; [replace (rt_top rt + 1 - 1) with (rt_top rt) by lia|replace (rt_top rt + 1 - 1 + 1 - 1) with (rt_top rt) by lia]; exact Hs.
  - cbn [keeps_or_stale]. replace (rt_top rt + 1 - 1) with (rt_top rt) by lia. destruct Hrt. by constructor; [constructor|..].
Qed.

Lemma on_init_ok rt : runtime_ok rt -> keeps_or_stale rt (lua_on_init rt).
Proof.
  intros Hrt. unfold lua_on_init. destruct (g_L rt) as [v|]; [|by apply keeps_runtime_refl].
  destruct (_ =? 0); [by apply keeps_runtime_refl|by apply call_global_ok].
Qed.

(** An event never faults, since its pointer is good. *)
Lemma on_event_ok a hdr rt : runtime_ok rt -> evt_ok (mk_lua_event (Some hdr)) ->
  exists rt', on_event_at a hdr (Some rt) = Some rt' /\ runtime_ok rt' /\ rt_top rt' = rt_top rt /\ run_state rt' = run_state rt.
Proof.
  intros Hrt He. unfold on_event_at. cbn [mbind option_bind]. set (rt0 := set_rt_fields _ rt).
  set (rt1 := set_rt_fields (lua_field_set_current_event (Some a) (rt_fields rt0)) rt0).
  assert (runtime_ok rt1) as H1 by (destruct Hrt; constructor; try done; by apply set_event_ok).
  unfold lua_on_event. change (g_L rt0) with (g_L rt). change (run_state rt0) with (run_state rt). destruct (g_L rt) as [v|] eqn:EL.
  2:{ destruct (ro_vm _ Hrt) as [? E]. congruence. }
  destruct (_ =? 0).
  { exists rt0. split; [done|]. split; [|done]. destruct Hrt. constructor; try done. apply (set_event_ok a hdr) in ro_fields0; [|done].
    destruct ro_fields0. by constructor. }
  pose proof (call_global_ok "on_event" v rt1 H1) as Hk. fold rt1. destruct (call_global "on_event" v rt1) as [rt2|].
  - destruct Hk as [Hok Ht Hs _]. by exists rt2.
  - change (stale (lua_field_set_current_event (Some a) (set_evt_raw a hdr (rt_fields rt))) = true) in Hk. by rewrite set_event_fresh in Hk.
Qed.

Lemma run_code_ok rt : runtime_ok rt -> is_Some (cstr (g_script_buf rt)) ->
  match lua_run_code rt with Some (_, rt') => keeps_runtime rt rt' | None => stale (rt_fields rt) = true end.
Proof.
  intros Hrt [code Hcode]. pose proof Hrt as [[v Hv] Hb Hp Hc Hf]. unfold lua_run_code. rewrite Hv, Hcode. cbn [mbind option_bind].
  destruct (luaL_loadbuffer code v) as [[|] v1]; cbn [negb].
  - pose proof (script_result rt _ Hrt (chunk_does v1 _ Hf)) as Hs. destruct (pcall_chunk v1 (rt_fields rt)) as [[[ok v2] st]|]; [|done].
    cbn [mbind option_bind]. destruct ok; cbn [negb]; replace (rt_top rt + 1 - 1 + 1 - 1) with (rt_top rt) by lia; exact Hs.
  - replace (rt_top rt + 1 - 1) with (rt_top rt) by lia. by constructor; [constructor|..].
Qed.

(** *** Loading *)

Lemma load_script_ok fopen path rt : runtime_ok rt -> exists r rt', lua_load_script fopen path rt = Some (r, rt') /\
  keeps_runtime rt rt' /\ (r = 0 \/ r = -1) /\
  (r = 0 -> exists file, fopen path = Some file /\ cstr (g_script_buf rt') = Some (until_nul (ztake 8191 file))).
Proof.
  intros Hrt. unfold lua_load_script. destruct (_ =? 0); [eexists _, rt; split; [done|]; split; [by apply keeps_runtime_refl|]; by split; [right|]|].
  destruct (fopen path) as [file|]; [|eexists _, rt; split; [done|]; split; [by apply keeps_runtime_refl|]; by split; [right|]].
  destruct Hrt as [Hv Hb Hp Hc Hf]. rewrite Hb. rewrite read_loop_run by lia. cbn [mbind option_bind]. change (8192 - 1) with 8191.
  pose proof (zlen_ztake_le 8191 file ltac:(lia)). pose proof (zlen_nonneg (ztake 8191 file)).
  rewrite zwrite_Some by (rewrite ?zlen_snoc; lia). cbn [mbind option_bind]. eexists _, _. split; [done|]. split.
  { constructor; try done. constructor; try done. cbn. pose proof (zlen_snoc (ztake 8191 file) 0) as E. rewrite ztake_0. cbn [app]. rewrite zlen_app, zlen_zdrop, E by (rewrite ?E; lia). lia. }
  split; [by left|]. intros _. exists file. split; [done|]. rewrite <- app_assoc. apply cstr_until_nul.
Qed.

(** The script of the module is not the one that was loaded last. *)
Definition script_changed (gs : nod_lua_state) (rt : runtime) : Prop :=
  cstr (lua_path gs) <> cstr (lua_path (run_state rt)) \/ lua_mtime gs <> lua_mtime (run_state rt).

(** The script of the module was loaded last. *)
Definition script_loaded (gs : nod_lua_state) (rt : runtime) : Prop :=
  cstr (lua_path gs) = cstr (lua_path (run_state rt)) /\ lua_mtime gs = lua_mtime (run_state rt).

(** The path of the module ends within its array. *)
Definition state_ok (gs : nod_lua_state) : Prop := zlen (lua_path gs) = 256 /\ is_Some (cstr (lua_path gs)).

Lemma loaded_again fopen gs rt : state_ok gs -> script_loaded gs rt -> lua_run_script fopen gs rt = Some (0, rt).
Proof.
  intros [_ [gpath Hg]] [E1 E2]. unfold lua_run_script. rewrite <- E1, <- E2, Hg, Z.eqb_refl. cbn [mbind option_bind]. by rewrite bool_decide_true.
Qed.

(** A run of [lua_run_script]. *)
Lemma run_script_run fopen gs rt : runtime_ok rt -> state_ok gs ->
  match lua_run_script fopen gs rt with
  | Some (_, rt') => runtime_ok rt' /\ rt_top rt' = rt_top rt /\ script_loaded gs rt' /\ g_current_evt (rt_fields rt') = g_current_evt (rt_fields rt)
  | None => stale (rt_fields rt) = true /\ script_changed gs rt
  end.
Proof.
  intros Hrt [Hgl [gpath Hg]]. unfold script_loaded, script_changed. destruct (cstr_inv _ _ Hg) as (Hnn & rest & Eg).
  assert (zlen gpath < 256) as Hlen by (rewrite Eg in Hgl; rewrite zlen_app, zlen_cons in Hgl; pose proof (zlen_nonneg rest); lia).
  destruct (ro_cpath _ Hrt) as [rpath Hr]. unfold lua_run_script. rewrite Hg, Hr. cbn [mbind option_bind].
  destruct (bool_decide (gpath = rpath) && (lua_mtime gs =? lua_mtime (run_state rt))) eqn:Esame.
  { apply andb_true_iff in Esame as [->%bool_decide_eq_true_1 Em%Z.eqb_eq]. by rewrite Hr. }
  assert (Some gpath <> Some rpath \/ lua_mtime gs <> lua_mtime (run_state rt)) as Hch.
  { apply andb_false_iff in Esame as [E%bool_decide_eq_false_1|E%Z.eqb_neq]; [left; congruence|by right]. }
  destruct (cstr_write gpath (lua_path (run_state rt)) Hnn) as (path & -> & Hpl & Hpc); [rewrite (ro_path _ Hrt); lia|]. cbn [mbind option_bind].
  set (rt1 := mk_rt _ _ _ _ _). assert (runtime_ok rt1) as H1 by (destruct Hrt; constructor; cbn; [done|done|lia|by eexists|done]).
  destruct (load_script_ok fopen gpath rt1 H1) as (r & rt2 & -> & H2 & Hr2 & Hbuf). cbn [mbind option_bind].
  assert (forall rt', keeps_runtime rt2 rt' -> runtime_ok rt' /\ rt_top rt' = rt_top rt /\
    (Some gpath = cstr (lua_path (run_state rt')) /\ lua_mtime gs = lua_mtime (run_state rt')) /\ g_current_evt (rt_fields rt') = g_current_evt (rt_fields rt)) as Hfin.
  { intros rt' Hk. destruct (keeps_runtime_trans _ _ _ H2 Hk) as [Hok Ht Hs _ Hcur]. split; [done|]. split; [done|]. split; [|done]. by rewrite Hs. }
  destruct (Z.ltb_spec r 0); [apply Hfin, keeps_runtime_refl, H2|].
  destruct (Hbuf ltac:(lia)) as (file & _ & Hcode). pose proof (run_code_ok rt2 (kr_ok _ _ H2) ltac:(by rewrite Hcode)) as H3.
  assert (stale (rt_fields rt2) = stale (rt_fields rt)) as Est by apply H2.
  destruct (lua_run_code rt2) as [[ret rt3]|]; cbn [mbind option_bind]; [|by rewrite <- Est].
  pose proof (on_init_ok rt3 (kr_ok _ _ H3)) as H4. destruct (lua_on_init rt3) as [rt4|]; cbn [mbind option_bind keeps_or_stale] in *.
  - apply Hfin. by eapply keeps_runtime_trans.
  - by rewrite <- Est, <- (kr_evt _ _ H3).
Qed.

(** Loading a script.  With an initialised interpreter and a terminated path
    [lua_run_script] faults only on a stale event; otherwise it records the path and the time, and a second call with the same
    state, also after a failure, does nothing. *)
Theorem run_script_once fopen gs rt : runtime_ok rt -> state_ok gs -> stale (rt_fields rt) = false ->
  exists r rt', lua_run_script fopen gs rt = Some (r, rt') /\ script_loaded gs rt' /\ lua_run_script fopen gs rt' = Some (0, rt').
Proof.
  intros Hrt Hg Hs. pose proof (run_script_run fopen gs rt Hrt Hg) as Hrun. destruct (lua_run_script fopen gs rt) as [[r rt']|]; [|destruct Hrun; congruence].
  exists r, rt'. split; [done|]. split; [apply Hrun|]. apply loaded_again; [done|apply Hrun].
Qed.

(** *** Visits *)

(** A visit: what [fopen] finds, the state the module has, where [evt] is on the stack, the events in the buffer and what
    is behind them. *)
Record visit : Type := mk_visit {
  vs_fopen : list Z -> option (list Z);
  vs_state : nod_lua_state;
  vs_evt : Z;
  vs_events : list event;
  vs_free : list Z
}.

Definition visit_ok (v : visit) : Prop := state_ok (vs_state v) /\ Forall (fun e => printable e /\ 0 <= e_type e) (vs_events v).

(** The state that [nod_monitor_main] leaves ([monitor_writes_events]), and its return. *)
Definition visit_lua (v : visit) (l : option runtime) : option runtime :=
  return_at (vs_evt v) (lua_run (on_event_at (vs_evt v)) (vs_events v) (vs_free v) (run_script_at (vs_fopen v) (vs_state v) l)).

Definition run_visits (vs : list visit) (rt : runtime) : option runtime := foldl (fun l v => visit_lua v l) (Some rt) vs.

Lemma lua_run_none a evs free : lua_run (on_event_at a) evs free None = None.
Proof. by induction evs. Qed.

Lemma run_visits_none vs : foldl (fun l v => visit_lua v l) None vs = None.
Proof. induction vs as [|v vs IH]; [done|]. cbn [foldl]. unfold visit_lua at 2. cbn [run_script_at mbind option_bind]. by rewrite lua_run_none. Qed.

Lemma lua_run_ok a evs free rt : runtime_ok rt -> Forall (fun e => printable e /\ 0 <= e_type e) evs ->
  exists rt', lua_run (on_event_at a) evs free (Some rt) = Some rt' /\ runtime_ok rt' /\ rt_top rt' = rt_top rt /\ run_state rt' = run_state rt.
Proof.
  intros Hrt Hevs. revert rt Hrt. induction Hevs as [|e evs [Hp H0] _ IH]; intros rt Hrt; [by exists rt|]. cbn [lua_run].
  destruct (on_event_ok a (encode_all (e :: evs) ++ free) rt Hrt) as (rt1 & -> & H1 & Ht & Hs).
  { exists e, (encode_all evs ++ free). split; [|done]. cbn [raw]. change (encode_all (e :: evs)) with (encode e ++ encode_all evs). by rewrite <- app_assoc. }
  destruct (IH rt1 H1) as (rt2 & -> & H2 & Ht2 & Hs2). exists rt2. split; [done|]. split; [done|]. split; congruence.
Qed.

Lemma visit_run v rt : runtime_ok rt -> visit_ok v -> match visit_lua v (Some rt) with
  | Some rt' => runtime_ok rt' /\ rt_top rt' = rt_top rt /\ script_loaded (vs_state v) rt'
  | None => stale (rt_fields rt) = true /\ script_changed (vs_state v) rt
  end.
Proof.
  intros Hrt [Hg Hevs]. unfold visit_lua. cbn [run_script_at mbind option_bind]. pose proof (run_script_run (vs_fopen v) (vs_state v) rt Hrt Hg) as Hs.
  destruct (lua_run_script (vs_fopen v) (vs_state v) rt) as [[r rt1]|]; cbn [mbind option_bind]; [|by rewrite lua_run_none].
  destruct Hs as (H1 & Ht1 & Hl1 & _). destruct (lua_run_ok (vs_evt v) (vs_events v) (vs_free v) rt1 H1 Hevs) as (rt2 & -> & H2 & Ht2 & Hs2).
  cbn [return_at mbind option_bind]. split; [destruct H2; constructor; try done; by apply end_evt_ok|]. split; [cbn; congruence|].
  unfold script_loaded in *. cbn. by rewrite Hs2.
Qed.

(** C38: The handlers keep the runtime.  From a well-formed runtime on, through any visits of the monitor, each with the script
    the module has and the recorded events of its buffer, and whether the scripts fail or not, the
    runtime stays well formed and the Lua stack as deep as before, except that a visit can fault in one case: it loads a script
    that changed while the current event is still the variable of an earlier visit, and the script reads this event before it is
    given one.  In particular nothing faults while no script but the first is loaded. *)
Theorem visits_keep_runtime vs rt : runtime_ok rt -> Forall visit_ok vs ->
  match run_visits vs rt with
  | Some rt' => runtime_ok rt' /\ rt_top rt' = rt_top rt
  | None => exists vs1 v vs2 rt1, vs = vs1 ++ v :: vs2 /\ run_visits vs1 rt = Some rt1 /\ stale (rt_fields rt1) = true /\ script_changed (vs_state v) rt1
  end /\
  (forall gs, stale (rt_fields rt) = false -> Forall (fun v => vs_state v = gs) vs -> is_Some (run_visits vs rt)).
Proof.
  intros Hrt Hvs. split.
  - revert rt Hrt. induction Hvs as [|v vs Hv Hvs IH]; intros rt Hrt; [done|]. unfold run_visits. cbn [foldl].
    pose proof (visit_run v rt Hrt Hv) as H1. destruct (visit_lua v (Some rt)) as [rt1|] eqn:E1.
    + destruct H1 as (H1 & Ht & _). specialize (IH rt1 H1). unfold run_visits in IH. destruct (foldl _ (Some rt1) vs) as [rt'|]; [by rewrite <- Ht|].
      destruct IH as (vs1 & v' & vs2 & rt2 & -> & E & Hs). exists (v :: vs1), v', vs2, rt2. split; [done|]. split; [|done]. unfold run_visits in *. cbn [foldl]. by rewrite E1.
    + rewrite run_visits_none. by exists [], v, vs, rt.
  - intros gs Hs Hgs. assert (stale (rt_fields rt) = false \/ script_loaded gs rt) as Hor by (by left). clear Hs. revert rt Hrt Hor.
    induction Hvs as [|v vs Hv Hvs IH]; intros rt Hrt Hor; [by eexists|]. apply Forall_cons_1 in Hgs as [<- Hgs]. unfold run_visits. cbn [foldl].
    pose proof (visit_run v rt Hrt Hv) as H1. destruct (visit_lua v (Some rt)) as [rt1|].
    + destruct H1 as (H1 & _ & Hl). apply IH; [done..|by right].
    + exfalso. destruct H1 as [Hst Hch]. destruct Hor as [|[E1 E2]]; [congruence|]. by destruct Hch.
Qed.
End runtime.

(** ** An interpreter

    A script is the first byte of its text: [r] requests the time when it is loaded, [s] saves the current event; both read the
    time of each event. *)

Definition vm_call (c : lua_call) (v : Z) (st : lua_fields) : option (bool * Z * lua_fields) :=
  r ← run_call demo_env c st;
  Some (match r.1 with LReturn _ => true | LError _ => false end, v, r.2).

(** The call the script [v] makes when it is loaded. *)
Definition vm_chunk (v : Z) : lua_call := if v =? 115 then CallSave (str_bytes "log") else CallRequest (str_bytes "evt.time").

#[export] Instance demo_vm : LuaVM Z := {
  luaL_newstate := Some 0;
  luaL_openlibs v := v;
  lua_settable _ _ v := v;
  global_function f _ := bool_decide (f = "on_event"%string);
  luaL_loadbuffer code v := match code with c :: _ => (true, c) | [] => (false, v) end;
  pcall_chunk v st := vm_call (vm_chunk v) v st;
  pcall_global f v st := vm_call (CallField 0) v st
}.

Lemma vm_call_does c v st : call_ok c -> script_does st (vm_call c v st).
Proof.
  intros Hc. unfold vm_call. destruct (run_call demo_env c st) as [[r st']|] eqn:E; cbn [mbind option_bind script_does fst snd].
  - eapply runs_call; [exact demo_env_sized|exact Hc|exact E|apply runs_end].
  - exists st, demo_env, c. split; [apply runs_end|]. split; [exact demo_env_sized|]. by split.
Qed.

#[export] Instance demo_vm_ok : LuaVMOk Z.
Proof.
  split.
  - intros v st _. apply vm_call_does. unfold vm_chunk. destruct (v =? 115); [exact I|by repeat constructor].
  - intros f v st _. by apply vm_call_does.
Qed.

Definition demo_runtime : runtime (V := Z) := default init_runtime (lua_runtime_init init_runtime).
Definition demo_script : nod_lua_state := mk_ls (str_bytes "/a.lua" ++ replicate 250 0) 7.

Lemma demo_runtime_ok : runtime_ok demo_runtime.
Proof. constructor; [by eexists|done|done|by eexists|exact init_fields_ok]. Qed.

Lemma demo_state_ok t : state_ok (mk_ls (lua_path demo_script) t).
Proof. split; [done|by eexists]. Qed.

Lemma run_script_once_witness : exists r rt', lua_run_script (fun _ => Some (str_bytes "r")) demo_script demo_runtime = Some (r, rt') /\
  lua_run_script (fun _ => Some (str_bytes "r")) demo_script rt' = Some (0, rt').
Proof.
  destruct (run_script_once (fun _ => Some (str_bytes "r")) demo_script demo_runtime demo_runtime_ok (demo_state_ok 7) eq_refl) as (r & rt' & E & _ & Hagain).
  exists r, rt'. exact (conj E Hagain).
Defined.

(** A visit with an event, and one after the script has changed to [code]. *)
Definition demo_visits (code : string) : list visit :=
  [mk_visit (fun _ => Some (str_bytes "r")) demo_script 4096 [demo_close] []; mk_visit (fun _ => Some (str_bytes code)) (mk_ls (lua_path demo_script) 8) 4096 [demo_close] []].

Lemma demo_visits_ok code : Forall visit_ok (demo_visits code).
Proof.
  assert (Forall (fun e => printable e /\ 0 <= e_type e) [demo_close]) as He
    by (apply List.Forall_cons; [split; [exact demo_close_printable|by vm_compute]|apply List.Forall_nil]).
  apply List.Forall_cons; [exact (conj (demo_state_ok 7) He)|apply List.Forall_cons; [exact (conj (demo_state_ok 8) He)|apply List.Forall_nil]].
Qed.

Lemma visits_keep_runtime_witness : exists rt, run_visits (demo_visits "r") demo_runtime = Some rt /\ runtime_ok rt /\ rt_top rt = rt_top demo_runtime.
Proof.
  destruct (visits_keep_runtime (demo_visits "r") demo_runtime demo_runtime_ok (demo_visits_ok "r")) as [Hv _].
  assert (bool_decide (is_Some (run_visits (demo_visits "r") demo_runtime)) = true) as Hs by (vm_compute; reflexivity).
  apply bool_decide_eq_true_1 in Hs as [rt E]. rewrite E in Hv. exists rt. exact (conj E Hv).
Defined.

(** A changed script that reads the current event when it is loaded, on a visit after one with an event, reads the variable of a
    call that has returned. *)
Theorem reloaded_script_faults : run_visits (demo_visits "s") demo_runtime = None.
Proof. by vm_compute. Qed.
