(* ===== verification/Elf.v ===== *)
(** * Reading and mapping ELF files: [kmodule/elf.c]

    The headers of the monitor's file are read to kernel memory ([elf_load_phdrs],
    [elf_load_shdrs], [elf_load_shstrtab]), and its segments are mapped to the address
    space of the traced process ([elf_load_binary]).  The kernel's part is in two
    interfaces: [FileOps] for files and allocations, and [AddrSpace] for the address
    space, whose documented behaviour is [AddrSpaceOk]. *)

From S2P Require Import Prelude Kernel Flags FillerLib Events Loader Device.

Local Open Scope Z_scope.

(** ** The ELF structures of x86-64 *)

Definition ET_EXEC : Z := 2.
Definition ET_DYN : Z := 3.
Definition PT_LOAD : Z := 1.
Definition PT_INTERP : Z := 3.
Definition PF_X : Z := 1.
Definition PF_W : Z := 2.
Definition PF_R : Z := 4.

(** [struct elfhdr], read from its 64 bytes. *)
Record elfhdr : Type := mk_ehdr {
  e_ident : list Z; e_type : Z; e_machine : Z; e_entry : Z; e_phoff : Z; e_shoff : Z;
  e_phentsize : Z; e_phnum : Z; e_shentsize : Z; e_shnum : Z; e_shstrndx : Z
}.
Definition sizeof_ehdr : Z := 64.

Definition le_field (off n : Z) (bs : list Z) : Z := le_val (zslice off n bs).

Definition ehdr_of_bytes (bs : list Z) : elfhdr :=
  mk_ehdr (ztake 16 bs) (le_field 16 2 bs) (le_field 18 2 bs) (le_field 24 8 bs) (le_field 32 8 bs) (le_field 40 8 bs)
    (le_field 54 2 bs) (le_field 56 2 bs) (le_field 58 2 bs) (le_field 60 2 bs) (le_field 62 2 bs).

(** [struct elf_phdr] and [struct elf_shdr], the fields that are used. *)
Record elf_phdr : Type := mk_phdr { p_type : Z; p_flags : Z; p_offset : Z; p_vaddr : Z; p_filesz : Z; p_memsz : Z }.
Definition sizeof_phdr : Z := 56.
Definition phdr_of_bytes (bs : list Z) : elf_phdr :=
  mk_phdr (le_field 0 4 bs) (le_field 4 4 bs) (le_field 8 8 bs) (le_field 16 8 bs) (le_field 32 8 bs) (le_field 40 8 bs).

Record elf_shdr : Type := mk_shdr { sh_name : Z; sh_addr : Z; sh_offset : Z; sh_size : Z }.
Definition sizeof_shdr : Z := 64.
Definition shdr_of_bytes (bs : list Z) : elf_shdr :=
  mk_shdr (le_field 0 4 bs) (le_field 16 8 bs) (le_field 24 8 bs) (le_field 32 8 bs).

(** [phdrs[i]] for [i < n] in a table of bytes. *)
Definition phdr_table (n : Z) (bs : list Z) : list elf_phdr :=
  List.map (fun i => phdr_of_bytes (zslice (sizeof_phdr * Z.of_nat i) sizeof_phdr bs)) (seq 0 (Z.to_nat n)).
Definition shdr_at (i : Z) (bs : list Z) : option elf_shdr := shdr_of_bytes <$> zread (sizeof_shdr * i) sizeof_shdr bs.

(** ** Kernel memory and files *)

(** A pointer: a local variable that was not assigned, null, or an allocation. *)
Inductive ptr : Type := PUninit | PNull | PAlloc (id : Z).

(** The allocations that were not freed, the number of allocations so far, and the files
    that are open. *)
Record kmem : Type := mk_kmem { k_live : list Z; k_next : Z; k_open : list Z }.

(** [fo_read f size pos] is [kernel_read], the result and the bytes read; [fo_open] is
    [open_exec], a file or an error; [fo_alloc n] whether the [n]-th allocation succeeds, and
    [fo_mmap f] whether the file can be mapped. *)
Class FileOps := {
  fo_read : Z -> Z -> Z -> Z * list Z;
  fo_open : list Z -> Z + Z;
  fo_alloc : Z -> bool;
  fo_mmap : Z -> bool
}.

(** [kernel_read] returns the number of bytes it read, or an error. *)
Class FileOpsOk `{FileOps} : Prop := {
  fo_read_len f size pos : 0 <= size -> let '(r, bs) := fo_read f size pos in r <= size /\ zlen bs = Z.max 0 r
}.

Section headers.
Context `{FileOps}.

(** [vmalloc(size)]; a size that is negative as an [int] is too large, and size 0 is refused. *)
Definition vmalloc (size : Z) : M kmem ptr :=
  k ← get;
  if (size <=? 0) || negb (fo_alloc (k_next k)) then mret PNull
  else put (mk_kmem (k_next k :: k_live k) (k_next k + 1) (k_open k));; mret (PAlloc (k_next k)).

(** [vfree(p)]; freeing what is not an allocation is a fault. *)
Definition vfree (p : ptr) : M kmem unit :=
  match p with
  | PUninit => bug
  | PNull => mret tt
  | PAlloc id =>
      k ← get;
      if bool_decide (id ∈ k_live k) then put (mk_kmem (List.filter (fun i => negb (i =? id)) (k_live k)) (k_next k) (k_open k)) else bug
  end.

(** The code at [out:]: on an error the table is freed and null is stored. *)
Definition table_out (err : Z) (p : ptr) (data : list Z) : M kmem (Z * ptr * list Z) :=
  if err =? 0 then mret (0, p, data) else vfree p;; mret (err, PNull, []).

Definition ELF_MIN_ALIGN : Z := 4096.

(** What [elf_load_phdrs] and [elf_load_shdrs] do for [num] entries of [entsize] bytes at [pos]. *)
Definition load_table (file entsize size_of num pos : Z) : M kmem (Z * ptr * list Z) :=
  if negb (entsize =? size_of) then table_out (-1) PUninit [] else
  if (num <? 1) || (65536 / size_of <? num) then table_out (-1) PUninit [] else
  let size := s32 (size_of * num) in
  if ELF_MIN_ALIGN <? size then table_out (-1) PUninit [] else
  p ← vmalloc size;
  match p with
  | PAlloc _ =>
      let '(retval, bs) := fo_read file size pos in
      if negb (retval =? size) then table_out (if retval <? 0 then retval else - EIO) p [] else table_out 0 p bs
  | _ => table_out (-1) p []
  end.

Definition elf_load_phdrs (ex : elfhdr) (file : Z) : M kmem (Z * ptr * list Z) :=
  load_table file (e_phentsize ex) sizeof_phdr (e_phnum ex) (e_phoff ex).

Definition elf_load_shdrs (ex : elfhdr) (file : Z) : M kmem (Z * ptr * list Z) :=
  load_table file (e_shentsize ex) sizeof_shdr (e_shnum ex) (e_shoff ex).

Definition elf_load_shstrtab (ex : elfhdr) (shdrs : list Z) (file : Z) : M kmem (Z * ptr * list Z) :=
  if (e_shstrndx ex <? 1) || (e_shnum ex <=? e_shstrndx ex) then table_out (-1) PUninit [] else
  str_shdr ← lift (shdr_at (e_shstrndx ex) shdrs);
  let size := s32 (sh_size str_shdr) in
  p ← vmalloc size;
  match p with
  | PAlloc _ =>
      let '(retval, bs) := fo_read file size (sh_offset str_shdr) in
      if negb (retval =? size) then table_out (if retval <? 0 then retval else - EIO) p [] else table_out 0 p bs
  | _ => table_out (-1) p []
  end.
End headers.

(** ** Mapping *)

Definition ELF_PAGESTART (v : Z) : Z := v &! u64 (Z.lnot (ELF_MIN_ALIGN - 1)).
Definition ELF_PAGEOFFSET (v : Z) : Z := v &! (ELF_MIN_ALIGN - 1).
Definition ELF_PAGEALIGN (v : Z) : Z := u64 (v + ELF_MIN_ALIGN - 1) &! u64 (Z.lnot (ELF_MIN_ALIGN - 1)).
Definition VM_EXEC : Z := 4.

(** The address space: [as_cell] is the byte at an address and the protection of its
    page, the operations are [vm_mmap] of a file (by its contents), [vm_munmap],
    [clear_user] (the number of bytes it did not clear) and [vm_brk_flags]. *)
Class AddrSpace (S : Type) := {
  as_cell : S -> Z -> option (Z * Z);
  vm_mmap : list Z -> Z -> Z -> Z -> Z -> Z -> S -> Z * S;
  vm_munmap : Z -> Z -> S -> S;
  clear_user : Z -> Z -> S -> Z * S;
  vm_brk_flags : Z -> Z -> Z -> S -> Z * S
}.

Section load.
Context {S : Type} `{AddrSpace S}.

Definition padzero (elf_bss : Z) (s : S) : Z * S :=
  let nbyte := ELF_PAGEOFFSET elf_bss in
  if nbyte =? 0 then (0, s) else
  let '(r, s) := clear_user elf_bss (ELF_MIN_ALIGN - nbyte) s in
  (if r =? 0 then 0 else - EFAULT, s).

(** The first and the last header of type [PT_LOAD]. *)
Definition is_load (p : elf_phdr) : bool := p_type p =? PT_LOAD.
Definition total_mapping_size (cmds : list elf_phdr) : Z :=
  match List.filter is_load cmds with
  | [] => 0
  | first :: _ as loads =>
      let last := List.last loads first in
      u64 (u64 (p_vaddr last + p_memsz last) - ELF_PAGESTART (p_vaddr first))
  end.

Definition elf_map (f : list Z) (addr : Z) (eppnt : elf_phdr) (prot type total_size : Z) (s : S) : Z * S :=
  let size := u64 (p_filesz eppnt + ELF_PAGEOFFSET (p_vaddr eppnt)) in
  let off := u64 (p_offset eppnt - ELF_PAGEOFFSET (p_vaddr eppnt)) in
  let addr := ELF_PAGESTART addr in
  let size := ELF_PAGEALIGN size in
  if size =? 0 then (addr, s) else
  if total_size =? 0 then vm_mmap f addr size prot type off s
  else
    let total_size := ELF_PAGEALIGN total_size in
    let '(map_addr, s) := vm_mmap f addr total_size prot type off s in
    (map_addr, if BAD_ADDR map_addr then s else vm_munmap (u64 (map_addr + size)) (u64 (total_size - size)) s).

(** The local variables of [elf_load_binary] and [*map_addr]. *)
Record load_vars : Type := mk_vars {
  lv_set : bool; lv_addr : Z; lv_total : Z; lv_map : Z; lv_elf_bss : Z; lv_last_bss : Z; lv_bss_prot : Z
}.

Definition elf_prot (p : elf_phdr) : Z :=
  (if has (p_flags p) PF_R then PROT_READ else 0) |! (if has (p_flags p) PF_W then PROT_WRITE else 0) |!
  (if has (p_flags p) PF_X then PROT_EXEC else 0).

(** One round of the loop for a header of type [PT_LOAD]; [inl] is the error. *)
Definition load_segment (f : list Z) (p : elf_phdr) (v : load_vars) (s : S) : (Z + load_vars) * S :=
  let vaddr := p_vaddr p in
  let load_addr := if lv_set v then lv_addr v else u64 (- vaddr) in
  let elf_type := if lv_set v then MAP_PRIVATE |! MAP_FIXED else MAP_PRIVATE in
  let '(_addr, s) := elf_map f (u64 (load_addr + vaddr)) p (elf_prot p) elf_type (lv_total v) s in
  let map := if lv_map v =? 0 then _addr else lv_map v in
  if BAD_ADDR _addr then (inl _addr, s) else
  let load_addr := if lv_set v then load_addr else u64 (_addr - ELF_PAGESTART vaddr) in
  let k := u64 (load_addr + vaddr) in
  if BAD_ADDR k || (p_memsz p <? p_filesz p) || (TASK_SIZE <? p_memsz p) || (TASK_SIZE - p_memsz p <? k)
  then (inl (u64 (- ENOMEM)), s) else
  let k := u64 (u64 (load_addr + vaddr) + p_filesz p) in
  let elf_bss := if lv_elf_bss v <? k then k else lv_elf_bss v in
  let k := u64 (u64 (load_addr + vaddr) + p_memsz p) in
  let '(last_bss, bss_prot) := if lv_last_bss v <? k then (k, elf_prot p) else (lv_last_bss v, lv_bss_prot v) in
  (inr (mk_vars true load_addr 0 map elf_bss last_bss bss_prot), s).

Fixpoint load_loop (f : list Z) (phdrs : list elf_phdr) (v : load_vars) (s : S) : (Z + load_vars) * S :=
  match phdrs with
  | [] => (inr v, s)
  | p :: phdrs =>
      if is_load p then
        match load_segment f p v s with
        | (inl e, s) => (inl e, s)
        | (inr v, s) => load_loop f phdrs v s
        end
      else load_loop f phdrs v s
  end.

(** The end of [elf_load_binary]: the rest of the last page and the pages behind it. *)
Definition load_bss (v : load_vars) (s : S) : Z * S :=
  let '(r, s) := padzero (lv_elf_bss v) s in
  if negb (r =? 0) then (u64 (- EFAULT), s) else
  let elf_bss := ELF_PAGEALIGN (lv_elf_bss v) in
  let last_bss := ELF_PAGEALIGN (lv_last_bss v) in
  if elf_bss <? last_bss then
    let '(error, s) := vm_brk_flags elf_bss (last_bss - elf_bss) (if has (lv_bss_prot v) PROT_EXEC then VM_EXEC else 0) s in
    if error =? 0 then (lv_addr v, s) else (u64 error, s)
  else (lv_addr v, s).

(** [elf_load_binary(elf_ex, binary, map_addr, no_base, elf_phdrs)]: [ex_type] is
    [elf_ex->e_type], [phdrs] the [e_phnum] headers. *)
Definition elf_load_binary (ex_type : Z) (f : list Z) (map_addr : Z) (phdrs : list elf_phdr) (s : S) : Z * S :=
  if negb (ex_type =? ET_EXEC) && negb (ex_type =? ET_DYN) then (2 ^ 64 - 1, s) else
  let total_size := total_mapping_size phdrs in
  if total_size =? 0 then (u64 (- EINVAL), s) else
  match load_loop f phdrs (mk_vars false 0 total_size map_addr 0 0 0) s with
  | (inl error, s) => (error, s)
  | (inr v, s) => load_bss v s
  end.
End load.
