(* ===== verification/ElfLoad.v ===== *)
(** * The image of a loaded ELF file

    The pages of the segments, as [elf_load_binary] maps them, hold the bytes the
    file's headers promise: the file's contents, and zeros behind them. *)

From S2P Require Import Prelude Kernel Flags FillerLib Events Loader Device Elf.

Local Open Scope Z_scope.

(** ** Pages *)

Definition dn (x : Z) : Z := 4096 * (x / 4096).
Definition up (x : Z) : Z := dn (x + 4095).

(** Linear arithmetic with pages. *)
Ltac page_lia := unfold up, dn in *; Z.to_euclidean_division_equations; lia.

Lemma pagestart v : 0 <= v < 2 ^ 64 -> ELF_PAGESTART v = dn v.
Proof.
  intros Hv. unfold ELF_PAGESTART. change (u64 (Z.lnot (ELF_MIN_ALIGN - 1))) with (2 ^ 64 - 2 ^ 12). by rewrite land_high by lia.
Qed.

Lemma pageoffset v : ELF_PAGEOFFSET v = v mod 4096.
Proof. unfold ELF_PAGEOFFSET. change (ELF_MIN_ALIGN - 1) with (Z.ones 12). by rewrite Z.land_ones by lia. Qed.

Lemma pagealign v : 0 <= v < 2 ^ 64 - 4096 -> ELF_PAGEALIGN v = up v.
Proof.
  intros Hv. unfold ELF_PAGEALIGN, up, ELF_MIN_ALIGN. replace (v + 4096 - 1) with (v + 4095) by lia. unfold u64 at 1. rewrite unsigned_small by lia.
  change (u64 (Z.lnot (4096 - 1))) with (2 ^ 64 - 2 ^ 12). by rewrite land_high by lia.
Qed.

(** ** The kernel's address space *)

Definition file_byte (f : list Z) (j : Z) : Z := default 0 (f !! Z.to_nat j).

Class AddrSpaceOk (S : Type) `{AddrSpace S} : Prop := {
  (** A mapping fails without an effect, or shows the file's bytes, zeros up to the end of
      its last page, in pages that were free unless their place was asked for. *)
  mmap_ok f addr len prot flags off s : addr = dn addr -> 0 < len -> len = dn len -> off = dn off -> 0 <= off ->
    let '(r, s') := vm_mmap f addr len prot flags off s in
    BAD_ADDR r = true /\ r < 2 ^ 64 \/
    (0 <= r /\ r = dn r /\ r + len <= TASK_SIZE /\
     (if has flags MAP_FIXED then r = addr else forall a, r <= a < r + len -> as_cell s a = None) /\
     (forall i, 0 <= i < len -> off + i < up (zlen f) -> as_cell s' (r + i) = Some (file_byte f (off + i), prot)) /\
     (forall a, a < r \/ r + len <= a -> as_cell s' a = as_cell s a));
  munmap_ok a len s x : a = dn a -> 0 <= len -> len = dn len ->
    as_cell (vm_munmap a len s) x = if (a <=? x) && (x <? a + len) then None else as_cell s x;
  (** [clear_user] of writable memory clears it. *)
  clear_ok a n s : 0 <= n -> (forall x, a <= x < a + n -> exists b p, as_cell s x = Some (b, p) /\ has p PROT_WRITE = true) ->
    let '(r, s') := clear_user a n s in
    r = 0 /\ (forall x, a <= x < a + n -> exists p, as_cell s' x = Some (0, p)) /\ (forall x, x < a \/ a + n <= x -> as_cell s' x = as_cell s x);
  (** New anonymous pages are zero. *)
  brk_ok a len fl s : a = dn a -> 0 < len -> len = dn len ->
    let '(r, s') := vm_brk_flags a len fl s in
    - 4095 <= r < 0 \/
    (r = 0 /\ (forall x, a <= x < a + len -> exists p, as_cell s' x = Some (0, p)) /\ (forall x, x < a \/ a + len <= x -> as_cell s' x = as_cell s x))
}.

(** ** Files that can be loaded *)

(** A segment: within the file, and at the same place of its page in file and memory. *)
Record seg_ok (flen : Z) (p : elf_phdr) : Prop := {
  sg_vaddr : 0 <= p_vaddr p;
  sg_off : 0 <= p_offset p;
  sg_same : p_offset p mod 4096 = p_vaddr p mod 4096;
  sg_file : 0 < p_filesz p /\ p_offset p + p_filesz p <= flen;
  sg_mem : p_filesz p <= p_memsz p;
  sg_end : p_vaddr p + p_memsz p <= 2 ^ 46
}.

(** The segments in order on pages of their own; only the last one is longer in
    memory, and it is writable if its end is not the end of a page. *)
Fixpoint segs_ok (flen : Z) (l : list elf_phdr) : Prop :=
  match l with
  | [] => True
  | p :: rest =>
      seg_ok flen p /\
      match rest with
      | [] => (p_vaddr p + p_filesz p) mod 4096 = 0 \/ has (elf_prot p) PROT_WRITE = true
      | q :: _ => p_memsz p = p_filesz p /\ up (p_vaddr p + p_filesz p) <= dn (p_vaddr q)
      end /\ segs_ok flen rest
  end.

Lemma last_cons_default {A} (x : A) l d : List.last (x :: l) d = List.last l x.
Proof. revert x. induction l as [|y l IH]; intros x; [done|]. cbn. destruct l; [done|]. apply IH. Qed.

Lemma total_size_loads cmds p l : List.filter is_load cmds = p :: l ->
  total_mapping_size cmds = u64 (u64 (p_vaddr (List.last l p) + p_memsz (List.last l p)) - ELF_PAGESTART (p_vaddr p)).
Proof. intros E. unfold total_mapping_size. rewrite E. by rewrite <- !(last_cons_default p l p). Qed.

Section load.
Context {S : Type} `{AddrSpaceOk S} (f : list Z) (Hflen : zlen f <= 2 ^ 46).

(** The bytes of a segment's part in the file at the load offset [d]; its pages are
    mapped with its protection. *)
Definition seg_mapped (d : Z) (p : elf_phdr) (s : S) : Prop :=
  forall x, dn (p_vaddr p) <= x < up (p_vaddr p + p_filesz p) -> as_cell s (d + x) = Some (file_byte f (p_offset p + (x - p_vaddr p)), elf_prot p).

(** One [vm_mmap] of [elf_map]. *)
Lemma map_segment p addr flags len s : seg_ok (zlen f) p -> addr = dn addr -> up (p_filesz p + p_vaddr p mod 4096) <= len -> len = dn len ->
  let '(r, s') := vm_mmap f addr len (elf_prot p) flags (p_offset p - p_vaddr p mod 4096) s in
  BAD_ADDR r = true /\ r < 2 ^ 64 \/
  (0 <= r /\ r = dn r /\ r + len <= TASK_SIZE /\
   (if has flags MAP_FIXED then r = addr else forall a, r <= a < r + len -> as_cell s a = None) /\
   seg_mapped (r - dn (p_vaddr p)) p s' /\ (forall a, a < r \/ r + len <= a -> as_cell s' a = as_cell s a)).
Proof using Hflen H0.
  intros [Hv Ho Hsame [Hf Hfl] Hm He] Ha Hlen Hlen4.
  assert (0 <= p_vaddr p mod 4096 < 4096) as Hmod by (apply Z.mod_pos_bound; lia).
  pose proof (mmap_ok f addr len (elf_prot p) flags (p_offset p - p_vaddr p mod 4096) s Ha) as Hmap.
  destruct (vm_mmap _ _ _ _ _ _ _) as [r s']. destruct Hmap as [Hbad|(Hr & Hr4 & Hend & Hfix & Hcell & Hfr)]; [page_lia|done|page_lia|page_lia|by left|].
  right. split_and!; try done. intros x Hx.
  replace (r - dn (p_vaddr p) + x) with (r + (x - dn (p_vaddr p))) by lia. rewrite Hcell.
  - do 2 f_equal. f_equal. page_lia.
  - page_lia.
  - page_lia.
Qed.

(** [elf_map] of a segment behind the first one: at its fixed place. *)
Lemma elf_map_fixed p a s : seg_ok (zlen f) p -> 0 <= a < 2 ^ 48 -> a mod 4096 = p_vaddr p mod 4096 ->
  let '(r, s') := elf_map f a p (elf_prot p) (MAP_PRIVATE |! MAP_FIXED) 0 s in
  BAD_ADDR r = true /\ r < 2 ^ 64 \/
  (r = dn a /\ seg_mapped (a - p_vaddr p) p s' /\ dn a + (up (p_vaddr p + p_filesz p) - dn (p_vaddr p)) <= TASK_SIZE /\
   (forall x, x < dn a \/ dn a + (up (p_vaddr p + p_filesz p) - dn (p_vaddr p)) <= x -> as_cell s' x = as_cell s x)).
Proof using Hflen H0.
  intros Hp Ha Hmod. pose proof Hp as [Hv Ho Hsame [Hf Hfl] Hm He]. unfold elf_map. rewrite pageoffset.
  pose proof (Z.mod_pos_bound (p_vaddr p) 4096 ltac:(lia)) as Hb.
  unfold u64. rewrite (unsigned_small 64 (p_filesz p + _)) by lia. rewrite (unsigned_small 64 (p_offset p - _)) by page_lia.
  rewrite pagealign, pagestart by lia. set (len := up (p_filesz p + p_vaddr p mod 4096)).
  assert (len = up (p_vaddr p + p_filesz p) - dn (p_vaddr p)) as El by (unfold len; page_lia).
  assert (0 < len /\ len = dn len) as [Hl0 Hl4] by (unfold len; split; page_lia).
  destruct (Z.eqb_spec len 0); [lia|]. cbn [Z.eqb].
  pose proof (map_segment p (dn a) (MAP_PRIVATE |! MAP_FIXED) len s Hp ltac:(page_lia) ltac:(unfold len; lia) Hl4) as Hmap.
  destruct (vm_mmap _ _ _ _ _ _ _) as [r s']. destruct Hmap as [Hbad|(Hr & Hr4 & Hend & Hfix & Hcell & Hfr)]; [by left|right].
  change (has (MAP_PRIVATE |! MAP_FIXED) MAP_FIXED) with true in Hfix. cbv iota in Hfix. subst r. split; [done|]. rewrite <- El. split; [|split; [lia|exact Hfr]].
  replace (a - p_vaddr p) with (dn a - dn (p_vaddr p)) by page_lia. exact Hcell.
Qed.

(** [elf_map] of the first segment: a place for all of them is reserved. *)
Lemma elf_map_first p total s : seg_ok (zlen f) p -> 0 < total <= 2 ^ 47 -> up (p_vaddr p + p_filesz p) - dn (p_vaddr p) <= up total ->
  let '(r, s') := elf_map f 0 p (elf_prot p) MAP_PRIVATE total s in
  BAD_ADDR r = true /\ r < 2 ^ 64 \/
  (0 <= r /\ r = dn r /\ r + up total <= TASK_SIZE /\ seg_mapped (r - dn (p_vaddr p)) p s' /\
   (forall x, r <= x < r + up total -> as_cell s x = None) /\ (forall x, x < r \/ r + up total <= x -> as_cell s' x = as_cell s x)).
Proof using Hflen H0.
  intros Hp Ht Hbig. pose proof Hp as [Hv Ho Hsame [Hf Hfl] Hm He]. unfold elf_map. rewrite pageoffset.
  pose proof (Z.mod_pos_bound (p_vaddr p) 4096 ltac:(lia)) as Hb.
  unfold u64. rewrite (unsigned_small 64 (p_filesz p + _)) by lia. rewrite (unsigned_small 64 (p_offset p - _)) by page_lia.
  rewrite !pagealign, pagestart by lia. set (size := up (p_filesz p + p_vaddr p mod 4096)).
  assert (size = up (p_vaddr p + p_filesz p) - dn (p_vaddr p)) as El by (unfold size; page_lia).
  assert (0 < size /\ size = dn size) as [Hl0 Hl4] by (unfold size; split; page_lia).
  destruct (Z.eqb_spec size 0); [lia|]. destruct (Z.eqb_spec total 0); [lia|]. change (dn 0) with 0.
  assert (up total = dn (up total) /\ up total <= 2 ^ 47) as [Hu4 Hu] by (split; page_lia).
  pose proof (map_segment p 0 MAP_PRIVATE (up total) s Hp eq_refl ltac:(fold size; lia) Hu4) as Hmap.
  destruct (vm_mmap _ _ _ _ _ _ _) as [r s']. destruct Hmap as [[Hbad Hr]|(Hr & Hr4 & Hend & Hfix & Hcell & Hfr)]; [rewrite Hbad; by left|right].
  assert (BAD_ADDR r = false) as -> by (apply Z.leb_gt; lia). split_and!; try done.
  - rewrite !unsigned_small by (unfold TASK_SIZE in *; lia). intros x Hx. rewrite munmap_ok by page_lia.
    destruct (Z.leb_spec (r + size) (r - dn (p_vaddr p) + x)); [lia|]. cbn [andb]. by apply Hcell.
  - rewrite !unsigned_small by (unfold TASK_SIZE in *; lia). intros x Hx. rewrite munmap_ok by page_lia.
    destruct (Z.leb_spec (r + size) x), (Z.ltb_spec x (r + size + (up total - size))); try lia; cbn [andb]; apply Hfr; lia.
Qed.

(** *** The loop *)

(** After the segment [p] at the offset [d]. *)
Record loaded_to (d : Z) (p : elf_phdr) (v : load_vars) : Prop := {
  lt_d : d = dn d /\ 0 <= d + dn (p_vaddr p) /\ d <= TASK_SIZE;
  lt_set : lv_set v = true;
  lt_addr : lv_addr v = u64 d;
  lt_total : lv_total v = 0;
  lt_elf : lv_elf_bss v = d + (p_vaddr p + p_filesz p);
  lt_last : lv_last_bss v = d + (p_vaddr p + p_memsz p);
  lt_prot : lv_bss_prot v = elf_prot p
}.

Lemma u64_offset d x : 0 <= d + x < 2 ^ 64 -> u64 (u64 d + x) = d + x.
Proof. intros Hx. unfold u64, unsigned. rewrite Zplus_mod_idemp_l. by apply Z.mod_small. Qed.

Lemma bad_enomem : BAD_ADDR (u64 (- ENOMEM)) = true.
Proof. by vm_compute. Qed.

Lemma segment_next d p q v s : loaded_to d p v -> seg_ok (zlen f) p -> seg_ok (zlen f) q -> p_memsz p = p_filesz p -> up (p_vaddr p + p_filesz p) <= dn (p_vaddr q) ->
  match load_segment f q v s with
  | (inl e, _) => BAD_ADDR e = true
  | (inr v', s') => loaded_to d q v' /\ seg_mapped d q s' /\
      forall x, x < d + dn (p_vaddr q) \/ d + up (p_vaddr q + p_filesz q) <= x -> as_cell s' x = as_cell s x
  end.
Proof using Hflen H0.
  intros [(Hd4 & Hd0 & HdT) Hset Haddr Htot Helf Hlast Hprot] Hp Hq Hnb Hsep. unfold load_segment. rewrite Hset, Haddr, Htot.
  pose proof Hq as [Hv Ho Hsame [Hf Hfl] Hm He]. destruct Hp as [Hpv _ _ [Hpf _] Hpm Hpe].
  assert (dn (p_vaddr p) <= p_vaddr p /\ p_vaddr p + p_filesz p <= up (p_vaddr p + p_filesz p) /\ dn (p_vaddr q) <= p_vaddr q) as (Hq1 & Hq2 & Hq3) by (split_and!; page_lia).
  unfold TASK_SIZE in *. rewrite u64_offset by lia.
  pose proof (elf_map_fixed q (d + p_vaddr q) s Hq ltac:(lia) ltac:(page_lia)) as Hmap.
  destruct (elf_map _ _ _ _ _ _ _) as [r s']. destruct Hmap as [[Hbad _]|(-> & Hcell & Hend & Hfr)]; [by rewrite Hbad|].
  assert (dn (d + p_vaddr q) = d + dn (p_vaddr q)) as Edn by page_lia. rewrite Edn in *.
  replace (d + p_vaddr q - p_vaddr q) with d in Hcell by lia.
  assert (p_vaddr q + p_filesz q <= up (p_vaddr q + p_filesz q)) as Hup by page_lia. unfold TASK_SIZE in Hend.
  assert (BAD_ADDR (d + dn (p_vaddr q)) = false) as -> by (apply Z.leb_gt; unfold TASK_SIZE; lia).
  destruct (_ || _); [apply bad_enomem|].
  assert (forall x, 0 <= x <= 2 ^ 46 -> u64 (d + p_vaddr q + x) = d + p_vaddr q + x) as Hu by (intros; apply unsigned_small; lia).
  rewrite !Hu, Helf, Hlast by lia. destruct (Z.ltb_spec (d + (p_vaddr p + p_filesz p)) (d + p_vaddr q + p_filesz q)); [|lia].
  destruct (Z.ltb_spec (d + (p_vaddr p + p_memsz p)) (d + p_vaddr q + p_memsz q)); [|lia]. split; [|split].
  - constructor; cbn; try done; try lia. split; [done|]. unfold TASK_SIZE. lia.
  - exact Hcell.
  - intros x Hx. apply Hfr. lia.
Qed.

Lemma segment_first p total map_addr s : seg_ok (zlen f) p -> 0 < total <= 2 ^ 47 -> up (p_vaddr p + p_filesz p) - dn (p_vaddr p) <= up total ->
  match load_segment f p (mk_vars false 0 total map_addr 0 0 0) s with
  | (inl e, _) => BAD_ADDR e = true
  | (inr v', s') => exists d, loaded_to d p v' /\ seg_mapped d p s' /\ d + dn (p_vaddr p) + up total <= TASK_SIZE /\
      (forall x, d + dn (p_vaddr p) <= x < d + dn (p_vaddr p) + up total -> as_cell s x = None) /\
      forall x, x < d + dn (p_vaddr p) \/ d + dn (p_vaddr p) + up total <= x -> as_cell s' x = as_cell s x
  end.
Proof using Hflen H0.
  intros Hp Ht Hbig. unfold load_segment. cbn [lv_set lv_addr lv_total lv_map lv_elf_bss lv_last_bss lv_bss_prot].
  pose proof Hp as [Hv Ho Hsame [Hf Hfl] Hm He]. rewrite u64_offset by lia. replace (- p_vaddr p + p_vaddr p) with 0 by lia.
  pose proof (elf_map_first p total s Hp Ht Hbig) as Hmap.
  destruct (elf_map _ _ _ _ _ _ _) as [r s']. destruct Hmap as [[Hbad _]|(Hr & Hr4 & Hend & Hcell & Hfree & Hfr)]; [by rewrite Hbad|].
  assert (0 < up total /\ 0 <= dn (p_vaddr p) /\ dn (p_vaddr p) <= p_vaddr p < dn (p_vaddr p) + 4096) as (Hu0 & Hdn0 & Hdn) by (split_and!; page_lia).
  assert (BAD_ADDR r = false) as -> by (apply Z.leb_gt; lia). rewrite pagestart by lia. set (d := r - dn (p_vaddr p)) in *.
  unfold TASK_SIZE in Hend. rewrite (u64_offset d (p_vaddr p)) by lia. destruct (_ || _); [apply bad_enomem|].
  assert (forall x, 0 <= x <= 2 ^ 46 -> u64 (d + p_vaddr p + x) = d + p_vaddr p + x) as Hu by (intros; apply unsigned_small; lia).
  rewrite !Hu by lia. destruct (Z.ltb_spec 0 (d + p_vaddr p + p_filesz p)); [|lia].
  destruct (Z.ltb_spec 0 (d + p_vaddr p + p_memsz p)); [|lia]. exists d. replace (d + dn (p_vaddr p)) with r by lia. split_and!; try done.
  constructor; cbn; try done; try lia. unfold TASK_SIZE. split_and!; [unfold d; page_lia|lia|lia].
Qed.

(** The remaining headers. *)
Lemma load_loop_rest d phdrs : forall p v s, loaded_to d p v -> segs_ok (zlen f) (p :: List.filter is_load phdrs) ->
  match load_loop f phdrs v s with
  | (inl e, _) => BAD_ADDR e = true
  | (inr v', s') => let q := List.last (List.filter is_load phdrs) p in
      loaded_to d q v' /\ (forall q, In q (List.filter is_load phdrs) -> seg_mapped d q s') /\
      up (p_vaddr p + p_filesz p) <= up (p_vaddr q + p_filesz q) /\
      forall x, x < d + up (p_vaddr p + p_filesz p) \/ d + up (p_vaddr q + p_filesz q) <= x -> as_cell s' x = as_cell s x
  end.
Proof using Hflen H0.
  induction phdrs as [|q phdrs IH]; intros p v s Hl Hs; [cbn; split_and!; try done; lia|].
  cbn [load_loop List.filter]. cbn [List.filter] in Hs. destruct (is_load q); [|by apply IH].
  destruct Hs as (Hp & [Hnb Hsep] & Hs). pose proof Hs as [Hq _].
  pose proof (segment_next d p q v s Hl Hp Hq Hnb Hsep) as Hstep. destruct (load_segment f q v s) as [[e|v1] s1]; [done|].
  destruct Hstep as (Hl1 & Hm1 & Hfr1). specialize (IH q v1 s1 Hl1 Hs). destruct (load_loop f phdrs v1 s1) as [[e|v2] s2]; [done|].
  assert (List.last (q :: List.filter is_load phdrs) p = List.last (List.filter is_load phdrs) q) as -> by apply last_cons_default.
  destruct IH as (Hl2 & Hm2 & Hle & Hfr2). cbv zeta. set (z := List.last _ q) in *.
  assert (dn (p_vaddr q) <= up (p_vaddr q + p_filesz q)) as Hqq by (destruct Hq as [? _ _ [? _] _ _]; page_lia).
  split; [done|]. split; [|split; [lia|]].
  - intros q' [<-|Hin]; [|by apply Hm2]. intros x Hx. rewrite Hfr2 by lia. by apply Hm1.
  - intros x Hx. rewrite Hfr2 by lia. apply Hfr1. lia.
Qed.

(** *** The rest of the last segment *)

Lemma load_bss_run d z v s : loaded_to d z v -> seg_ok (zlen f) z -> seg_mapped d z s ->
  (p_vaddr z + p_filesz z) mod 4096 = 0 \/ has (elf_prot z) PROT_WRITE = true ->
  let '(r, s') := load_bss v s in
  BAD_ADDR r = true \/
  (r = u64 d /\ (forall x, p_vaddr z + p_filesz z <= x < up (p_vaddr z + p_memsz z) -> exists pr, as_cell s' (d + x) = Some (0, pr)) /\
   (forall x, x < d + (p_vaddr z + p_filesz z) \/ d + up (p_vaddr z + p_memsz z) <= x -> as_cell s' x = as_cell s x)).
Proof using Hflen H0.
  intros [(Hd4 & Hd0 & HdT) Hset Haddr Htot Helf Hlast Hprot] [Hv Ho Hsame [Hf Hfl] Hm He] Hmap Hw. unfold load_bss. rewrite Helf, Hlast, Haddr, Hprot. unfold TASK_SIZE in HdT.
  set (ze := p_vaddr z + p_filesz z) in *. set (zm := p_vaddr z + p_memsz z) in *.
  assert (dn (p_vaddr z) <= p_vaddr z /\ ze <= up ze < ze + 4096 /\ up ze <= up zm /\ up ze = dn (up ze) /\ up zm = dn (up zm)) as (Hz1 & Hz2 & Hz3 & Hz4 & Hz5) by (unfold ze, zm; split_and!; page_lia).
  assert (exists s1, padzero (d + ze) s = (0, s1) /\ (forall x, ze <= x < up ze -> exists pr, as_cell s1 (d + x) = Some (0, pr)) /\
    (forall x, x < d + ze \/ d + up ze <= x -> as_cell s1 x = as_cell s x)) as (s1 & -> & Hz & Hfr1).
  { unfold padzero. rewrite pageoffset. assert ((d + ze) mod 4096 = ze mod 4096) as -> by page_lia. destruct (Z.eqb_spec (ze mod 4096) 0) as [E|E].
    - exists s. split; [done|]. split; [intros x Hx; page_lia|done].
    - destruct Hw as [Hw|Hw]; [done|]. unfold ELF_MIN_ALIGN. assert (d + ze + (4096 - ze mod 4096) = d + up ze) as El by page_lia.
      pose proof (clear_ok (d + ze) (4096 - ze mod 4096) s ltac:(page_lia)) as Hc. rewrite El in Hc. destruct (clear_user _ _ s) as [r s1].
      destruct Hc as (-> & Hzero & Hsm).
      { intros x Hx. replace x with (d + (x - d)) by lia. rewrite Hmap by (fold ze; lia). eauto. }
      exists s1. split; [done|]. split; [intros x Hx; apply Hzero; lia|exact Hsm]. }
  cbn [negb Z.eqb]. rewrite !pagealign by lia. assert (up (d + ze) = d + up ze /\ up (d + zm) = d + up zm) as [-> ->] by (split; page_lia).
  destruct (Z.ltb_spec (d + up ze) (d + up zm)) as [Hlt|Hge].
  - pose proof (brk_ok (d + up ze) (d + up zm - (d + up ze)) (if has (elf_prot z) PROT_EXEC then VM_EXEC else 0) s1 ltac:(page_lia) ltac:(lia) ltac:(page_lia)) as Hbrk.
    destruct (vm_brk_flags _ _ _ s1) as [r s2]. destruct Hbrk as [Hr|(-> & Hzero & Hfr2)].
    + destruct (Z.eqb_spec r 0); [lia|]. left. unfold u64, unsigned, BAD_ADDR, TASK_SIZE. apply Z.leb_le.
      rewrite <- (Z.mod_unique r (2 ^ 64) (-1) (r + 2 ^ 64)); lia.
    + right. cbn [Z.eqb]. split; [done|]. split.
      * intros x Hx. destruct (Z.lt_ge_cases x (up ze)); [rewrite Hfr2 by lia; apply Hz; lia|apply Hzero; lia].
      * intros x Hx. rewrite Hfr2 by lia. apply Hfr1. lia.
  - right. split; [done|]. split; [intros x Hx; apply Hz; lia|intros x Hx; apply Hfr1; lia].
Qed.

Lemma segs_end p l : segs_ok (zlen f) (p :: l) ->
  let z := List.last l p in p_vaddr p + p_memsz p <= p_vaddr z + p_memsz z /\ seg_ok (zlen f) z /\
  ((p_vaddr z + p_filesz z) mod 4096 = 0 \/ has (elf_prot z) PROT_WRITE = true) /\
  (forall q, In q (p :: l) -> q = z \/ p_memsz q = p_filesz q /\ up (p_vaddr q + p_filesz q) <= dn (p_vaddr z)).
Proof.
  revert p. induction l as [|q l IH]; intros p Hs.
  - destruct Hs as (Hp & Hw & _). cbn. split_and!; [lia|done|done|]. intros q [<-|[]]. by left.
  - destruct Hs as (Hp & [Hnb Hsep] & Hs). rewrite last_cons_default. destruct (IH q Hs) as (Hle & Hz & Hw & Hin). cbv zeta in *.
    destruct Hs as [Hq _]. destruct Hq as [? _ _ [? _] ? _].
    assert (up (p_vaddr p + p_filesz p) <= dn (p_vaddr (List.last l q))) as Hpz.
    { destruct (Hin q (or_introl eq_refl)) as [<-|[_ ?]]; [done|page_lia]. }
    split_and!; [rewrite Hnb; page_lia|done|done|]. intros q' [<-|Hin']; [by right|by apply Hin].
Qed.
End load.

(** ** The image *)

(** The bytes of a segment at the offset [d]: the file's, then zeros; those of the file have the
    segment's protection. *)
Definition seg_image {S} `{AddrSpace S} (f : list Z) (d : Z) (p : elf_phdr) (s : S) : Prop :=
  forall i, 0 <= i < p_memsz p -> exists pr,
    as_cell s (d + p_vaddr p + i) = Some (if i <? p_filesz p then file_byte f (p_offset p + i) else 0, pr) /\ (i < p_filesz p -> pr = elf_prot p).

(** C28: Loading builds the image of the file.  For a file whose segments lie in order on pages of
    their own, with a [p_memsz] above [p_filesz] in the last one only, writable unless its bytes from the file end a page ([segs_ok]), [elf_load_binary] returns an error or a load address; then every
    segment's bytes are the file's, followed by zeros up to its size in memory,
    with the protection of its flags, in a range that was free before, and nothing
    outside of this range changed. *)
Theorem load_binary_image {S} `{AddrSpaceOk S} f ex_type map_addr phdrs p rest s : zlen f <= 2 ^ 46 ->
  ex_type = ET_EXEC \/ ex_type = ET_DYN -> List.filter is_load phdrs = p :: rest -> segs_ok (zlen f) (p :: rest) ->
  let z := List.last rest p in
  let '(r, s') := elf_load_binary ex_type f map_addr phdrs s in
  BAD_ADDR r = true \/
  exists d, r = u64 d /\ (forall q, In q (p :: rest) -> seg_image f d q s') /\
    (forall x, d + dn (p_vaddr p) <= x < d + up (p_vaddr z + p_memsz z) -> as_cell s x = None) /\
    (forall x, x < d + dn (p_vaddr p) \/ d + up (p_vaddr z + p_memsz z) <= x -> as_cell s' x = as_cell s x).
Proof.
  intros Hflen Ht Hl Hs. cbv zeta. destruct (segs_end f p rest Hs) as (Hle & Hz & Hw & Hin). set (z := List.last rest p) in *. pose proof Hs as [Hp _].
  unfold elf_load_binary. assert (negb (ex_type =? ET_EXEC) && negb (ex_type =? ET_DYN) = false) as -> by (by destruct Ht as [-> | ->]).
  pose proof Hp as [Hv Ho Hsame [Hf Hfl] Hm He]. pose proof Hz as [Hzv Hzo _ [Hzf Hzfl] Hzm Hze].
  set (total := p_vaddr z + p_memsz z - dn (p_vaddr p)).
  assert (0 < total /\ total <= 2 ^ 47 /\ up total = up (p_vaddr z + p_memsz z) - dn (p_vaddr p) /\ up (p_vaddr p + p_filesz p) <= up (p_vaddr z + p_memsz z) /\ 0 <= dn (p_vaddr p)) as (Ht0 & Ht1 & Hup & Hfirst & Hdn)
    by (unfold total; split_and!; page_lia).
  assert (total_mapping_size phdrs = total) as ->.
  { rewrite (total_size_loads _ _ _ Hl). fold z. rewrite pagestart by lia. unfold u64. rewrite (unsigned_small 64 (_ + _)) by lia.
    apply unsigned_small. fold total. lia. }
  destruct (Z.eqb_spec total 0); [lia|].
  (* the first header to load, behind others *)
  assert (exists skipped tl, phdrs = skipped ++ p :: tl /\ List.filter is_load tl = rest /\ is_load p = true /\ forall v s, load_loop f phdrs v s = load_loop f (p :: tl) v s) as (sk & tl & _ & Htl & Hpl & Hskip).
  { clear -Hl. induction phdrs as [|q phdrs IH]; [done|]. cbn [List.filter] in Hl. destruct (is_load q) eqn:Eq.
    - injection Hl as -> Hl. exists [], phdrs. by split_and!.
    - destruct (IH Hl) as (sk & tl & -> & E1 & E2 & E3). exists (q :: sk), tl. split_and!; try done. intros v s0. rewrite <- E3. cbn [load_loop]. by rewrite Eq. }
  rewrite Hskip. cbn [load_loop]. rewrite Hpl.
  pose proof (segment_first f Hflen p total map_addr s Hp ltac:(lia) ltac:(lia)) as H1.
  destruct (load_segment f p _ s) as [[e|v1] s1]; [by left|]. destruct H1 as (d & Hl1 & Hm1 & Hend & Hfree & Hfr1).
  pose proof (load_loop_rest f Hflen d tl p v1 s1 Hl1) as H2. rewrite Htl in H2. specialize (H2 Hs).
  destruct (load_loop f tl v1 s1) as [[e|v2] s2]; [by left|]. cbv zeta in H2. fold z in H2. destruct H2 as (Hl2 & Hm2 & Hup2 & Hfr2).
  assert (forall q, In q (p :: rest) -> seg_mapped f d q s2) as Hall.
  { intros q [<-|Hq]; [|by apply Hm2]. intros x Hx. rewrite Hfr2 by lia. by apply Hm1. }
  assert (In z (p :: rest)) as Hzin.
  { unfold z. clear. revert p. induction rest as [|q l IH]; intros p; [by left|]. rewrite last_cons_default. right. apply IH. }
  pose proof (load_bss_run f Hflen d z v2 s2 Hl2 Hz (Hall z Hzin) Hw) as H3. destruct (load_bss v2 s2) as [r s3]. destruct H3 as [Hbad|(-> & Hzero & Hfr3)]; [by left|right].
  exists d. split; [done|]. split; [|split].
  - intros q Hq i Hi. assert (seg_ok (zlen f) q) as Hqs.
    { clear -Hs Hq. revert p Hs Hq. induction rest as [|y l IH]; intros p (Hp & Hn & Hs) [<-|Hq]; [done|done|done|]. by apply (IH y). }
    destruct Hqs as [Hqv _ _ [Hqf _] _ _].
    assert (dn (p_vaddr q) <= p_vaddr q /\ p_vaddr q + p_filesz q <= up (p_vaddr q + p_filesz q)) as [Hq1 Hq2] by (split; page_lia).
    destruct (Z.ltb_spec i (p_filesz q)) as [Hi1|Hi1].
    + exists (elf_prot q). split; [|done].
      assert (dn (p_vaddr z) <= p_vaddr z) as Hz1 by page_lia.
      rewrite Hfr3 by (destruct (Hin q Hq) as [->|[_ ?]]; lia). rewrite <- Z.add_assoc, (Hall q Hq) by lia. do 3 f_equal. lia.
    + destruct (Hin q Hq) as [->|[Heq _]]; [|lia]. destruct (Hzero (p_vaddr z + i)) as [pr Hpr].
      { assert (p_vaddr z + p_memsz z <= up (p_vaddr z + p_memsz z)) by page_lia. lia. }
      exists pr. rewrite <- Z.add_assoc. split; [exact Hpr|lia].
  - intros x Hx. apply Hfree. lia.
  - intros x Hx. assert (up (p_vaddr z + p_filesz z) <= up (p_vaddr z + p_memsz z) /\ dn (p_vaddr p) <= p_vaddr z + p_filesz z) as [Hz1 Hz2].
    { split; [page_lia|]. destruct (Hin p (or_introl eq_refl)) as [<-|[_ ?]]; page_lia. }
    rewrite Hfr3 by lia. rewrite Hfr2; [apply Hfr1; lia|].
    assert (dn (p_vaddr p) <= up (p_vaddr p + p_filesz p)) by page_lia. lia.
Qed.

(** ** An address space

    A list of regions, the latest first; [None] cells are unmapped. *)

Record region : Type := mk_region { rg_start : Z; rg_len : Z; rg_cell : Z -> option (Z * Z) }.

Definition in_region (x : Z) (r : region) : bool := (rg_start r <=? x) && (x <? rg_start r + rg_len r).

Fixpoint cell_at (s : list region) (x : Z) : option (Z * Z) :=
  match s with
  | [] => None
  | r :: s => if in_region x r then rg_cell r x else cell_at s x
  end.

(** The first page behind all regions. *)
Definition bump (s : list region) : Z := foldr (fun r n => Z.max (up (rg_start r + rg_len r)) n) 65536 s.

Definition writable (s : list region) (a n : Z) : bool :=
  forallb (fun i => match cell_at s (a + Z.of_nat i) with Some (_, p) => has p PROT_WRITE | None => false end) (seq 0 (Z.to_nat n)).

#[export] Instance regions : AddrSpace (list region) := {
  as_cell := cell_at;
  vm_mmap f addr len prot flags off s :=
    let r := if has flags MAP_FIXED then addr else bump s in
    if (r <? 0) || (TASK_SIZE <? r + len) then (2 ^ 64 - 12, s)
    else (r, mk_region r len (fun x => if off + (x - r) <? up (zlen f) then Some (file_byte f (off + (x - r)), prot) else None) :: s);
  vm_munmap a len s := mk_region a len (fun _ => None) :: s;
  clear_user a n s :=
    if writable s a n then (0, mk_region a n (fun x => match cell_at s x with Some (_, p) => Some (0, p) | None => None end) :: s) else (n, s);
  vm_brk_flags a len fl s := (0, mk_region a len (fun _ => Some (0, PROT_READ |! PROT_WRITE |! fl)) :: s)
}.

Lemma in_region_spec x r : BoolSpec (rg_start r <= x < rg_start r + rg_len r) (x < rg_start r \/ rg_start r + rg_len r <= x) (in_region x r).
Proof. unfold in_region. destruct (Z.leb_spec (rg_start r) x), (Z.ltb_spec x (rg_start r + rg_len r)); cbn; constructor; lia. Qed.

Lemma cell_above s x : bump s <= x -> cell_at s x = None.
Proof.
  induction s as [|r s IH]; intros Hx; [done|]. cbn [cell_at bump foldr] in *. fold (bump s) in Hx.
  destruct (in_region_spec x r) as [Hin|_]; [|apply IH; lia].
  assert (rg_start r + rg_len r <= up (rg_start r + rg_len r)) by page_lia. lia.
Qed.

Lemma bump_page s : bump s = dn (bump s) /\ 65536 <= bump s.
Proof. induction s as [|r s [IH1 IH2]]; [by vm_compute|]. cbn [bump foldr]. fold (bump s). split; [|lia]. destruct (Z.max_spec (up (rg_start r + rg_len r)) (bump s)) as [[_ ->]|[_ ->]]; [done|page_lia]. Qed.

Lemma cell_push r s x : cell_at (r :: s) x = if in_region x r then rg_cell r x else cell_at s x.
Proof. done. Qed.

#[export] Instance regions_ok : AddrSpaceOk (list region).
Proof.
  split.
  - intros f addr len prot flags off s Ha Hl Hl4 Ho Ho0. cbn [vm_mmap regions]. destruct (bump_page s) as [Hb1 Hb2].
    set (r := if has flags MAP_FIXED then addr else bump s).
    destruct (Z.ltb_spec r 0), (Z.ltb_spec TASK_SIZE (r + len)); cbn [orb]; try (left; split; [by vm_compute|lia]). right.
    split; [lia|]. split; [unfold r; by destruct (has flags MAP_FIXED)|]. split; [lia|]. split.
    { unfold r. destruct (has flags MAP_FIXED); [done|]. intros a Hx. apply cell_above. lia. }
    split; intros x; cbn [as_cell]; intros Hx; [intros Hf|]; rewrite cell_push; cbn [in_region rg_start rg_len rg_cell].
    + destruct (in_region_spec (r + x) (mk_region r len (fun x => if off + (x - r) <? up (zlen f) then Some (file_byte f (off + (x - r)), prot) else None))) as [_|Hno]; cbn in *; [|lia].
      replace (r + x - r) with x by lia. by rewrite (proj2 (Z.ltb_lt _ _)) by lia.
    + destruct (in_region_spec x (mk_region r len (fun x => if off + (x - r) <? up (zlen f) then Some (file_byte f (off + (x - r)), prot) else None))) as [Hin|_]; cbn in *; [lia|done].
  - intros a len s x _ _ _. done.
  - intros a n s Hn Hw. cbn [clear_user regions as_cell]. assert (writable s a n = true) as ->.
    { apply forallb_forall. intros i Hi%in_seq. destruct (Hw (a + Z.of_nat i)) as (b & p & E & Hp); [lia|]. cbn [as_cell regions] in E. by rewrite E. }
    split; [done|]. split; intros x Hx; rewrite cell_push;
      destruct (in_region_spec x (mk_region a n (fun x => match cell_at s x with Some (_, p) => Some (0, p) | None => None end))) as [Hin|Hno]; cbn in *; try lia; try done.
    destruct (Hw x Hx) as (b & p & E & _). cbn [as_cell regions] in E. rewrite E. by exists p.
  - intros a len fl s _ Hl _. cbn [vm_brk_flags regions as_cell]. right. split; [done|].
    split; intros x Hx; rewrite cell_push; destruct (in_region_spec x (mk_region a len (fun _ => Some (0, PROT_READ |! PROT_WRITE |! fl)))) as [Hin|Hno]; cbn in *; try lia; [by eexists|done].
Qed.

(** A text segment of two bytes and a data segment of three bytes, 5000 in memory. *)
Definition demo_file : list Z := [195; 144] ++ replicate 4094 0 ++ [1; 2; 3].
Definition demo_phdrs : list elf_phdr := [mk_phdr 6 4 64 64 112 112; mk_phdr PT_LOAD (PF_R |! PF_X) 0 0 2 2; mk_phdr PT_LOAD (PF_R |! PF_W) 4096 4096 3 5000].

Lemma demo_segs : segs_ok (zlen demo_file) [mk_phdr PT_LOAD (PF_R |! PF_X) 0 0 2 2; mk_phdr PT_LOAD (PF_R |! PF_W) 4096 4096 3 5000].
Proof.
  change (zlen demo_file) with 4099. split; [constructor; cbn; lia || done|]. split; [split; by vm_compute|]. split; [constructor; cbn; lia || done|]. split; [right; by vm_compute|done].
Qed.

Lemma load_binary_image_witness : exists d s', elf_load_binary ET_DYN demo_file 0 demo_phdrs [] = (u64 d, s') /\
  seg_image demo_file d (mk_phdr PT_LOAD (PF_R |! PF_W) 4096 4096 3 5000) s'.
Proof.
  pose proof (load_binary_image demo_file ET_DYN 0 demo_phdrs _ _ [] ltac:(by vm_compute) (or_intror eq_refl) eq_refl demo_segs) as H. cbv zeta in H.
  destruct (elf_load_binary ET_DYN demo_file 0 demo_phdrs []) as [r s'] eqn:E. destruct H as [Hbad|(d & -> & Himg & _)].
  - exfalso. assert (BAD_ADDR (elf_load_binary ET_DYN demo_file 0 demo_phdrs []).1 = false) as Hr by by vm_compute. rewrite E in Hr. cbn [fst] in Hr. by rewrite Hr in Hbad.
  - exists d, s'. split; [reflexivity|]. apply Himg. right. by left.
Defined.
