(* ===== verification/LoaderInit.v ===== *)
(** * Opening the monitor: [loader_init] and [loader_destory] of [kmodule/loader.c]

    At start-up the module opens the monitor's file, reads its headers and finds the
    section with the monitor's information block; if the file names an interpreter it
    opens that too.  The files and the tables stay until [loader_destory]. *)

From S2P Require Import Prelude Kernel Flags FillerLib Events Loader Device Hooks Elf.

Local Open Scope Z_scope.

Definition ENOEXEC : Z := 8.
Definition ELIBBAD : Z := 80.
Definition PATH_MAX : Z := 4096.
Definition EM_X86_64 : Z := 62.
Definition ELFMAG : list Z := [127; 69; 76; 70].
Definition NOD_SECTION_NAME : string := ".monitor.info".

(** A table: the pointer to it and its bytes. *)
Definition table : Type := (ptr * list Z)%type.

(** The static variables of the file; a file is null or open. *)
Record loader_statics : Type := mk_statics {
  filp_monitor : option Z;
  filp_interpreter : option Z;
  monitor_elf_ex : elfhdr;
  interp_elf_ex : elfhdr;
  monitor_elf_phdata : table;
  monitor_elf_shdata : table;
  interp_elf_phdata : table;
  monitor_info_off : Z
}.

Record linit : Type := mk_linit { li_st : loader_statics; li_mem : kmem }.

Section init.
Context `{FileOps}.

(** Run an operation on the kernel's memory. *)
Definition on_mem {A} (m : M kmem A) : M linit A := fun s =>
  match m (li_mem s) with
  | Done x k => Done x (mk_linit (li_st s) k)
  | Ret c k => Ret c (mk_linit (li_st s) k)
  | Bug => Bug
  end.
Definition set_st (f : loader_statics -> loader_statics) : M linit unit := modify (fun s => mk_linit (f (li_st s)) (li_mem s)).

Definition set_monitor (x : option Z) (s : loader_statics) := mk_statics x (filp_interpreter s) (monitor_elf_ex s) (interp_elf_ex s) (monitor_elf_phdata s) (monitor_elf_shdata s) (interp_elf_phdata s) (monitor_info_off s).
Definition set_interpreter (x : option Z) (s : loader_statics) := mk_statics (filp_monitor s) x (monitor_elf_ex s) (interp_elf_ex s) (monitor_elf_phdata s) (monitor_elf_shdata s) (interp_elf_phdata s) (monitor_info_off s).
Definition set_monitor_ex (x : elfhdr) (s : loader_statics) := mk_statics (filp_monitor s) (filp_interpreter s) x (interp_elf_ex s) (monitor_elf_phdata s) (monitor_elf_shdata s) (interp_elf_phdata s) (monitor_info_off s).
Definition set_interp_ex (x : elfhdr) (s : loader_statics) := mk_statics (filp_monitor s) (filp_interpreter s) (monitor_elf_ex s) x (monitor_elf_phdata s) (monitor_elf_shdata s) (interp_elf_phdata s) (monitor_info_off s).
Definition set_monitor_phdata (x : table) (s : loader_statics) := mk_statics (filp_monitor s) (filp_interpreter s) (monitor_elf_ex s) (interp_elf_ex s) x (monitor_elf_shdata s) (interp_elf_phdata s) (monitor_info_off s).
Definition set_monitor_shdata (x : table) (s : loader_statics) := mk_statics (filp_monitor s) (filp_interpreter s) (monitor_elf_ex s) (interp_elf_ex s) (monitor_elf_phdata s) x (interp_elf_phdata s) (monitor_info_off s).
Definition set_interp_phdata (x : table) (s : loader_statics) := mk_statics (filp_monitor s) (filp_interpreter s) (monitor_elf_ex s) (interp_elf_ex s) (monitor_elf_phdata s) (monitor_elf_shdata s) x (monitor_info_off s).
Definition set_info_off (x : Z) (s : loader_statics) := mk_statics (filp_monitor s) (filp_interpreter s) (monitor_elf_ex s) (interp_elf_ex s) (monitor_elf_phdata s) (monitor_elf_shdata s) (interp_elf_phdata s) x.

Definition null_table : table := (PNull, []).

(** [open_exec]. *)
Definition open_exec (path : list Z) : M linit (Z + Z) :=
  match fo_open path with
  | inl f => on_mem (k ← get; put (mk_kmem (k_live k) (k_next k) (f :: k_open k)));; mret (inl f)
  | inr err => mret (inr err)
  end.

(** The open files without one reference to [f], [None] if it is not open. *)
Fixpoint close_file (f : Z) (l : list Z) : option (list Z) :=
  match l with
  | [] => None
  | g :: l => if g =? f then Some l else cons g <$> close_file f l
  end.

(** [allow_write_access(f); fput(f)] *)
Definition fput (f : Z) : M linit unit :=
  on_mem (k ← get; l ← lift (close_file f (k_open k)); put (mk_kmem (k_live k) (k_next k) l)).

Definition close_monitor : M linit unit :=
  s ← get; match filp_monitor (li_st s) with Some f => fput f;; set_st (set_monitor None) | None => mret tt end.
Definition close_interpreter : M linit unit :=
  s ← get; match filp_interpreter (li_st s) with Some f => fput f;; set_st (set_interpreter None) | None => mret tt end.

(** The labels at the end, each with what follows it. *)
Definition out_free_monitor (retval : Z) (shstrtab : ptr) : M linit Z := close_monitor;; on_mem (vfree shstrtab);; mret retval.
Definition out_free_interp (retval : Z) (interp shstrtab : ptr) : M linit Z := on_mem (vfree interp);; out_free_monitor retval shstrtab.
Definition out_free_dentry (retval : Z) (interp shstrtab : ptr) : M linit Z := close_interpreter;; out_free_interp retval interp shstrtab.

(** The offset in the section named [NOD_SECTION_NAME] among [n] headers from [i] on, 0 if
    there is none; a name outside of the string table is a fault. *)
Fixpoint find_section (n : nat) (i : Z) (shdata shstrtab : list Z) : option Z :=
  match n with
  | O => Some 0
  | S n =>
      sh ← shdr_at i shdata;
      name ← cstr (zdrop (sh_name sh) shstrtab);
      if bool_decide (name = str_bytes NOD_SECTION_NAME) then Some (sh_addr sh) else find_section n (i + 1) shdata shstrtab
  end.

(** The first header of type [PT_INTERP]. *)
Definition find_interp (phdrs : list elf_phdr) : option elf_phdr := head (List.filter (fun p => p_type p =? PT_INTERP) phdrs).

Definition is_elf (e_id : list Z) : bool := bool_decide (ztake 4 e_id = ELFMAG).

(** The part behind [elf_interpreter]: checks of the interpreter's header. *)
Definition check_interp (interp_file : Z) (shstrtab : ptr) : M linit Z :=
  s ← get;
  let ex := interp_elf_ex (li_st s) in
  if negb (is_elf (e_ident ex)) then out_free_dentry (- ELIBBAD) PNull shstrtab else
  if negb (e_machine ex =? EM_X86_64) then out_free_dentry (- ELIBBAD) PNull shstrtab else
  '(err, p, data) ← on_mem (elf_load_phdrs ex interp_file);
  set_st (set_interp_phdata (p, data));;
  if negb (err =? 0) then out_free_dentry (- ELIBBAD) PNull shstrtab else mret 0.

(** Opening the interpreter that the header [ph] names. *)
Definition open_interp (file : Z) (ph : elf_phdr) (shstrtab : ptr) : M linit Z :=
  if (PATH_MAX <? p_filesz ph) || (p_filesz ph <? 2) then out_free_monitor 0 shstrtab else
  interp ← on_mem (vmalloc (p_filesz ph));
  match interp with
  | PAlloc _ =>
      let '(retval, path) := fo_read file (p_filesz ph) (p_offset ph) in
      if negb (retval =? p_filesz ph) then out_free_interp (if 0 <=? retval then - EIO else retval) interp shstrtab else
      if negb (le_field (p_filesz ph - 1) 1 path =? 0) then out_free_interp (- ENOEXEC) interp shstrtab else
      f ← open_exec (default [] (cstr path));
      match f with
      | inr err => set_st (set_interpreter None);; out_free_interp err interp shstrtab
      | inl f =>
          set_st (set_interpreter (Some f));;
          let '(retval, bs) := fo_read f sizeof_ehdr 0 in
          set_st (set_interp_ex (ehdr_of_bytes bs));;
          if negb (retval =? sizeof_ehdr) then out_free_dentry (if 0 <=? retval then - EIO else retval) interp shstrtab else
          on_mem (vfree interp);;
          check_interp f shstrtab
      end
  | _ => out_free_monitor (- ENOMEM) shstrtab
  end.

Definition loader_init (path : list Z) : M linit Z :=
  set_st (fun s => mk_statics None None (monitor_elf_ex s) (interp_elf_ex s) null_table null_table null_table 0);;
  f ← open_exec path;
  match f with
  | inr err => set_st (set_monitor None);; mret err
  | inl file =>
      set_st (set_monitor (Some file));;
      let '(retval, bs) := fo_read file sizeof_ehdr 0 in
      let ex := ehdr_of_bytes bs in
      set_st (set_monitor_ex ex);;
      if negb (retval =? sizeof_ehdr) then out_free_monitor (if 0 <=? retval then - EIO else retval) PNull else
      if negb (is_elf (e_ident ex)) then out_free_monitor (- ENOEXEC) PNull else
      if negb (e_type ex =? ET_DYN) && negb (e_type ex =? ET_EXEC) then out_free_monitor (- ENOEXEC) PNull else
      if negb (e_machine ex =? EM_X86_64) then out_free_monitor (- ENOEXEC) PNull else
      if negb (fo_mmap file) then out_free_monitor (- ENOEXEC) PNull else
      '(err, p, phdata) ← on_mem (elf_load_phdrs ex file);
      set_st (set_monitor_phdata (p, phdata));;
      if negb (err =? 0) then out_free_monitor (- ENOEXEC) PNull else
      '(err, p, shdata) ← on_mem (elf_load_shdrs ex file);
      set_st (set_monitor_shdata (p, shdata));;
      if negb (err =? 0) then out_free_monitor (- ENOEXEC) PNull else
      '(err, shstrtab, strs) ← on_mem (elf_load_shstrtab ex shdata file);
      if negb (err =? 0) then out_free_monitor (- ENOEXEC) shstrtab else
      off ← lift (find_section (Z.to_nat (e_shnum ex)) 0 shdata strs);
      set_st (set_info_off off);;
      if off =? 0 then out_free_monitor (- EINVAL) shstrtab else
      match find_interp (phdr_table (e_phnum ex) phdata) with
      | None => mret 0
      | Some ph => open_interp file ph shstrtab
      end
  end.

(** [if (x) { vfree(x); x = NULL; }] for a table. *)
Definition free_table (get_t : loader_statics -> table) (set_t : table -> loader_statics -> loader_statics) : M linit unit :=
  s ← get;
  match (get_t (li_st s)).1 with
  | PNull => mret tt
  | p => on_mem (vfree p);; set_st (set_t null_table)
  end.

Definition loader_destory : M linit unit :=
  close_interpreter;;
  close_monitor;;
  free_table monitor_elf_phdata set_monitor_phdata;;
  free_table monitor_elf_shdata set_monitor_shdata;;
  free_table interp_elf_phdata set_interp_phdata.
End init.

(** ** Properties *)

(** The headers of a table as [elf_load_phdrs] and [elf_load_shdrs] take them: anything else makes them free a pointer
    that was never assigned. *)
Definition table_fits (num entsize size_of : Z) : bool := (entsize =? size_of) && (1 <=? num) && (size_of * num <=? ELF_MIN_ALIGN).

Section specs.
Context `{FileOps}.

(** The header of a file, its two tables, and its string table. *)
Definition header_of (f : Z) : elfhdr := ehdr_of_bytes (fo_read f sizeof_ehdr 0).2.
Definition reads_table (f size pos : Z) (bs : list Z) : Prop := fo_read f size pos = (size, bs).
Definition phdrs_of (ex : elfhdr) (f : Z) : list Z -> Prop := reads_table f (sizeof_phdr * e_phnum ex) (e_phoff ex).
Definition shdrs_of (ex : elfhdr) (f : Z) : list Z -> Prop := reads_table f (sizeof_shdr * e_shnum ex) (e_shoff ex).
Definition strings_of (ex : elfhdr) (f : Z) (shdata strs : list Z) : Prop :=
  exists ss, shdr_at (e_shstrndx ex) shdata = Some ss /\ reads_table f (s32 (sh_size ss)) (sh_offset ss) strs.
(** The file that the header [ph] of [f] names. *)
Definition names_file (f : Z) (ph : elf_phdr) (g : Z) : Prop :=
  exists path, reads_table f (p_filesz ph) (p_offset ph) path /\ fo_open (default [] (cstr path)) = inl g.

(** The files that the start reads do not run it into a fault: the headers of their tables fit, and the names of the
    sections end inside of the string table. *)
Definition monitor_ok (f : Z) : Prop :=
  let ex := header_of f in
  table_fits (e_phnum ex) (e_phentsize ex) sizeof_phdr = true /\ table_fits (e_shnum ex) (e_shentsize ex) sizeof_shdr = true /\
  1 <= e_shstrndx ex < e_shnum ex /\
  (forall shdata strs i sh, shdrs_of ex f shdata -> strings_of ex f shdata strs -> 0 <= i < e_shnum ex -> shdr_at i shdata = Some sh ->
     is_Some (cstr (zdrop (sh_name sh) strs))).
Definition interp_ok (f : Z) : Prop :=
  let ex := header_of f in
  forall phdata ph g, phdrs_of ex f phdata -> find_interp (phdr_table (e_phnum ex) phdata) = Some ph -> names_file f ph g ->
    table_fits (e_phnum (header_of g)) (e_phentsize (header_of g)) sizeof_phdr = true.
Definition files_ok (path : list Z) : Prop := forall f, fo_open path = inl f -> monitor_ok f /\ interp_ok f.

(** The loader has a table in its memory, and a file open with its header read. *)
Definition has_table (tb : table) (size pos f : Z) (l : linit) : Prop :=
  exists id, tb.1 = PAlloc id /\ id ∈ k_live (li_mem l) /\ reads_table f size pos tb.2.
Definition has_file (o : option Z) (f : Z) (l : linit) : Prop := o = Some f /\ f ∈ k_open (li_mem l).
Definition has_header (ex : elfhdr) (f : Z) : Prop :=
  (fo_read f sizeof_ehdr 0).1 = sizeof_ehdr /\ ex = header_of f /\ is_elf (e_ident ex) = true /\ e_machine ex = EM_X86_64.
(** [addr] is the address of the section with the monitor's information block. *)
Definition info_section (ex : elfhdr) (f : Z) (shdata : list Z) (addr : Z) : Prop :=
  exists strs i sh, strings_of ex f shdata strs /\ 0 <= i < e_shnum ex /\ shdr_at i shdata = Some sh /\
    cstr (zdrop (sh_name sh) strs) = Some (str_bytes NOD_SECTION_NAME) /\ sh_addr sh = addr /\ addr <> 0.

(** The length of an interpreter path that [loader_init] takes. *)
Definition path_fits (ph : elf_phdr) : bool := (2 <=? p_filesz ph) && (p_filesz ph <=? PATH_MAX).

(** The loader after a start that returned 0: the headers of the monitor's file are read, and either its file is open,
    and that of the interpreter it names, or the path of the interpreter has a bad length and no file is open. *)
Definition loader_ready (path : list Z) (l : linit) : Prop :=
  let st := li_st l in let ex := monitor_elf_ex st in
  exists f, fo_open path = inl f /\ has_header ex f /\ (e_type ex = ET_DYN \/ e_type ex = ET_EXEC) /\
    has_table (monitor_elf_phdata st) (sizeof_phdr * e_phnum ex) (e_phoff ex) f l /\
    has_table (monitor_elf_shdata st) (sizeof_shdr * e_shnum ex) (e_shoff ex) f l /\
    info_section ex f (monitor_elf_shdata st).2 (monitor_info_off st) /\
    match find_interp (phdr_table (e_phnum ex) (monitor_elf_phdata st).2) with
    | None => has_file (filp_monitor st) f l /\ filp_interpreter st = None
    | Some ph => if path_fits ph then
        has_file (filp_monitor st) f l /\ exists g, names_file f ph g /\ has_file (filp_interpreter st) g l /\ has_header (interp_elf_ex st) g /\
          has_table (interp_elf_phdata st) (sizeof_phdr * e_phnum (interp_elf_ex st)) (e_phoff (interp_elf_ex st)) g l
      else filp_monitor st = None /\ filp_interpreter st = None /\ k_open (li_mem l) = []
    end.
End specs.

Section init_props.
Context `{FileOpsOk}.
(** [open_exec] returns a file or an error. *)
Context (open_err : forall path err, fo_open path = inr err -> err < 0).

(** The identifiers of allocations are fresh. *)
Definition fresh_ids (k : kmem) : Prop := Forall (fun i => i < k_next k) (k_live k).

Lemma filter_fresh (n : Z) l : Forall (fun i => i < n) l -> List.filter (fun i => negb (i =? n)) (n :: l) = l.
Proof.
  intros Hl. cbn [List.filter]. rewrite Z.eqb_refl. cbn [negb]. induction Hl as [|i l Hi Hl IH]; [done|]. cbn [List.filter].
  destruct (Z.eqb_spec i n); [lia|]. cbn [negb]. by rewrite IH.
Qed.

(** What the three readers of tables do: an error without an allocation left, or a new
    table. *)
Definition table_post (size pos file : Z) (k : kmem) (r : outcome kmem (Z * ptr * list Z)) : Prop :=
  (exists err k', r = Done (err, PNull, []) k' /\ err <> 0 /\ k_live k' = k_live k /\ k_open k' = k_open k /\ k_next k <= k_next k') \/
  (exists bs, r = Done (0, PAlloc (k_next k), bs) (mk_kmem (k_next k :: k_live k) (k_next k + 1) (k_open k)) /\
     fo_read file size pos = (size, bs) /\ zlen bs = size).

Lemma read_table_run size pos file k : fresh_ids k ->
  table_post size pos file k ((p ← vmalloc size;
    match p with
    | PAlloc _ => let '(retval, bs) := fo_read file size pos in
        if negb (retval =? size) then table_out (if retval <? 0 then retval else - EIO) p [] else table_out 0 p bs
    | _ => table_out (-1) p []
    end) k).
Proof using H0.
  intros Hk. unfold vmalloc, table_out, vfree. unfold mbind, M_bind, get, put, mret, M_ret.
  destruct (Z.leb_spec size 0) as [|Hs]; cbn [orb]; [left; exists (-1), k; split_and!; (done || lia)|].
  destruct (fo_alloc (k_next k)); cbn [negb]; [|left; exists (-1), k; cbn; split_and!; (done || lia)]. cbn [k_next k_live k_open].
  pose proof (fo_read_len file size pos ltac:(lia)) as Hr. destruct (fo_read file size pos) as [r bs] eqn:E. destruct Hr as [Hr Hl].
  destruct (Z.eqb_spec r size) as [->|Hne]; cbn [negb].
  - right. exists bs. cbn. split; [done|]. split; [exact E|]. lia.
  - left. set (err := if r <? 0 then r else - EIO). assert (err <> 0) as Herr by (unfold err, EIO; destruct (Z.ltb_spec r 0); lia).
    destruct (Z.eqb_spec err 0); [done|]. cbn [k_live k_next k_open].
    rewrite bool_decide_true by (by left). rewrite filter_fresh by done. eexists err, _. split_and!; try done. cbn. lia.
Qed.

Lemma shdr_at_in i n bs : zlen bs = sizeof_shdr * n -> 0 <= i < n -> is_Some (shdr_at i bs).
Proof. unfold shdr_at, sizeof_shdr. intros Hl Hi. rewrite zread_Some by lia. by eexists. Qed.

(** A reader of a table, that faults only if [B]. *)
Definition reads (B : Prop) (m : M kmem (Z * ptr * list Z)) (size pos file : Z) : Prop :=
  forall k, fresh_ids k -> (m k = Bug /\ B) \/ table_post size pos file k (m k).

Lemma load_table_reads file entsize size_of num pos : size_of = 56 \/ size_of = 64 ->
  reads (table_fits num entsize size_of = false) (load_table file entsize size_of num pos) (size_of * num) pos file.
Proof using H0.
  intros Hs k Hk. unfold load_table, table_fits. destruct (Z.eqb_spec entsize size_of); cbn [negb andb]; [|by left].
  destruct (Z.ltb_spec num 1) as [|H1]; cbn [orb]; [left; by rewrite (proj2 (Z.leb_gt _ _)) by lia|].
  rewrite (proj2 (Z.leb_le 1 num)) by lia. cbn [andb]. unfold ELF_MIN_ALIGN. 
  assert (65536 / size_of = 1170 \/ 65536 / size_of = 1024) as Hq by (destruct Hs as [->| ->]; [by left|by right]).
  destruct (Z.ltb_spec (65536 / size_of) num) as [Hn|Hn].
  { left. split; [done|]. apply Z.leb_gt. destruct Hs as [->| ->]; lia. }
  assert (s32 (size_of * num) = size_of * num) as E by (unfold s32; destruct Hs as [->| ->]; apply signed_small; lia).
  rewrite E. destruct (Z.ltb_spec 4096 (size_of * num)); [left; split; [done|apply Z.leb_gt; lia]|]. right. by apply read_table_run.
Qed.

Lemma load_shstrtab_reads ex shdrs file : zlen shdrs = sizeof_shdr * e_shnum ex ->
  (~ (1 <= e_shstrndx ex < e_shnum ex) /\ (forall k, elf_load_shstrtab ex shdrs file k = Bug)) \/
  exists ss, shdr_at (e_shstrndx ex) shdrs = Some ss /\ reads False (elf_load_shstrtab ex shdrs file) (s32 (sh_size ss)) (sh_offset ss) file.
Proof using H0.
  intros Hl. unfold elf_load_shstrtab. destruct (Z.ltb_spec (e_shstrndx ex) 1), (Z.leb_spec (e_shnum ex) (e_shstrndx ex)); cbn [orb];
    try (left; split; [lia|done]).
  right. destruct (shdr_at_in (e_shstrndx ex) (e_shnum ex) shdrs Hl ltac:(lia)) as [ss Es]. exists ss. split; [done|]. intros k Hk. right.
  unfold lift at 1. unfold mbind at 1, M_bind at 1. rewrite Es. by apply read_table_run.
Qed.

(** The kernel's memory when the module is loaded. *)
Definition no_mem : kmem := mk_kmem [] 0 [].

(** What remains after [loader_destory]: no open file, and nothing allocated but the string
    table of a successful start. *)
Definition released (r : Z) (s : linit) : Prop :=
  match loader_destory s with
  | Done _ s' => k_open (li_mem s') = [] /\ (k_live (li_mem s') = [] \/ r = 0 /\ is_Some (filp_monitor (li_st s)) /\ k_live (li_mem s') = [2]) /\
      filp_monitor (li_st s') = None /\ filp_interpreter (li_st s') = None
  | _ => False
  end.

(** A result that satisfies [Q], or a fault if [B]. *)
Definition comes_to {S A} (B : Prop) (m : M S A) (Q : A -> S -> Prop) (s : S) : Prop :=
  match m s with Done x s' => Q x s' | Ret _ _ => False | Bug => B end.

Lemma comes_to_bind {S A C} B (m : M S A) (f : A -> M S C) Q s : comes_to B m (fun x s' => comes_to B (f x) Q s') s -> comes_to B (m ≫= f) Q s.
Proof. unfold comes_to. cbn. unfold mbind, M_bind. by destruct (m s). Qed.

Lemma comes_to_table B B' m size pos file (Q : Z * ptr * list Z -> linit -> Prop) st live next open : reads B' m size pos file -> (B' -> B) ->
  Forall (fun i => i < next) live ->
  (forall err next', err <> 0 -> Q (err, PNull, []) (mk_linit st (mk_kmem live next' open))) ->
  (forall bs, reads_table file size pos bs -> zlen bs = size -> Q (0, PAlloc next, bs) (mk_linit st (mk_kmem (next :: live) (next + 1) open))) ->
  comes_to B (on_mem m) Q (mk_linit st (mk_kmem live next open)).
Proof.
  intros Hm HB Hf He Hs. unfold comes_to, on_mem. cbn [li_mem li_st].
  destruct (Hm (mk_kmem live next open) Hf) as [[-> HB']|[(err & [l n o] & -> & H1 & H2 & H3 & _)|(bs & -> & Hr & Hl)]]; [by apply HB| |by apply Hs].
  cbn in H2, H3. subst. by apply He.
Qed.

Lemma comes_to_vmalloc B size Q st k : Q PNull (mk_linit st k) ->
  Q (PAlloc (k_next k)) (mk_linit st (mk_kmem (k_next k :: k_live k) (k_next k + 1) (k_open k))) -> comes_to B (on_mem (vmalloc size)) Q (mk_linit st k).
Proof. intros Hn Ha. unfold comes_to, on_mem, vmalloc, mbind, M_bind, get. cbn. by destruct (_ || _). Qed.

Lemma comes_to_open B path (Q : Z + Z -> linit -> Prop) st k : (forall err, err < 0 -> Q (inr err) (mk_linit st k)) ->
  (forall f, fo_open path = inl f -> Q (inl f) (mk_linit st (mk_kmem (k_live k) (k_next k) (f :: k_open k)))) -> comes_to B (open_exec path) Q (mk_linit st k).
Proof using open_err.
  intros He Hf. unfold comes_to, open_exec. destruct (fo_open path) as [f|err] eqn:E; [exact (Hf f eq_refl)|exact (He err (open_err _ _ E))].
Qed.

Lemma comes_to_set B g (Q : unit -> linit -> Prop) st k : Q tt (mk_linit (g st) k) -> comes_to B (set_st g) Q (mk_linit st k).
Proof. done. Qed.

Lemma comes_to_free B id live next open (Q : unit -> linit -> Prop) st : Forall (fun i => i < id) live -> Q tt (mk_linit st (mk_kmem live next open)) ->
  comes_to B (on_mem (vfree (PAlloc id))) Q (mk_linit st (mk_kmem (id :: live) next open)).
Proof.
  intros Hl HQ. unfold comes_to, on_mem, vfree. unfold mbind, M_bind, get, put. cbn [li_mem k_live k_next k_open li_st].
  rewrite bool_decide_true by (apply list_elem_of_here). by rewrite filter_fresh.
Qed.

(** The section found is the one with the name. *)
Lemma find_section_named n i shdata strs off : find_section n i shdata strs = Some off -> off <> 0 -> 0 <= i ->
  exists j sh, i <= j < i + Z.of_nat n /\ shdr_at j shdata = Some sh /\ cstr (zdrop (sh_name sh) strs) = Some (str_bytes NOD_SECTION_NAME) /\ sh_addr sh = off.
Proof.
  revert i. induction n as [|n IH]; intros i E Ho Hi; cbn [find_section] in E; [by injection E as <-|].
  destruct (shdr_at i shdata) as [sh|] eqn:Es; cbn [mbind option_bind] in E; [|done].
  destruct (cstr _) as [name|] eqn:En; cbn [mbind option_bind] in E; [|done]. case_bool_decide.
  - injection E as <-. exists i, sh. split; [lia|]. split; [done|]. split; [by subst|done].
  - destruct (IH (i + 1) E Ho ltac:(lia)) as (j & sh' & Hj & R). exists j, sh'. split; [lia|done].
Qed.

Lemma find_section_ends n i shdata strs : (forall j, i <= j < i + Z.of_nat n -> exists sh, shdr_at j shdata = Some sh /\ is_Some (cstr (zdrop (sh_name sh) strs))) ->
  is_Some (find_section n i shdata strs).
Proof.
  revert i. induction n as [|n IH]; intros i Hj; cbn [find_section]; [by eexists|].
  destruct (Hj i ltac:(lia)) as (sh & -> & [name En]). cbn [mbind option_bind]. rewrite En. cbn [mbind option_bind]. case_bool_decide; [by eexists|].
  apply IH. intros j Hr. apply Hj. lia.
Qed.

(** A result after which [loader_destory] releases everything and that is 0 only if the loader is ready. *)
Definition ended (path : list Z) (r : Z) (s : linit) : Prop := released r s /\ (r = 0 -> loader_ready path s).

(** Run the labels at the end, then [loader_destory], on a known state. *)
Ltac run_known :=
  unfold out_free_dentry, out_free_interp, out_free_monitor, loader_destory, close_monitor, close_interpreter,
    free_table, fput, set_st, on_mem, vfree, modify, get, put, lift;
  unfold mbind, M_bind, mret, M_ret; cbn;
  repeat (first [rewrite Z.eqb_refl | rewrite bool_decide_true by (repeat (first [apply list_elem_of_here | apply list_elem_of_further]))]; cbn).
Ltac run_released := unfold released; run_known; try (split_and!; first [done | by left | by right; eauto]).
Lemma read_error r : (if 0 <=? r then - EIO else r) <> 0.
Proof using Type. destruct (Z.leb_spec 0 r); unfold EIO; lia. Qed.
Ltac run_error :=
  let err := match goal with |- comes_to _ (out_free_monitor ?e _) _ _ => e | |- comes_to _ (out_free_interp ?e _ _) _ _ => e
    | |- comes_to _ (out_free_dentry ?e _ _) _ _ => e | |- comes_to _ (mret ?e) _ _ => e end in
  let Herr := fresh "Herr" in let e := fresh "e" in
  assert (err <> 0) as Herr by (first [done | lia | apply read_error]); revert Herr; generalize err; intros e Herr;
  unfold comes_to; run_known; (split; [run_released|]); intros Hend; by destruct Herr.

(** The tables of the monitor's file are read, its file is open and no interpreter is. *)
Record tables_read (path : list Z) (file : Z) (st : loader_statics) : Prop := {
  tr_open : fo_open path = inl file;
  tr_monitor : filp_monitor st = Some file;
  tr_interp : filp_interpreter st = None;
  tr_header : has_header (monitor_elf_ex st) file;
  tr_type : e_type (monitor_elf_ex st) = ET_DYN \/ e_type (monitor_elf_ex st) = ET_EXEC;
  tr_phdata : (monitor_elf_phdata st).1 = PAlloc 0 /\ phdrs_of (monitor_elf_ex st) file (monitor_elf_phdata st).2;
  tr_shdata : (monitor_elf_shdata st).1 = PAlloc 1 /\ shdrs_of (monitor_elf_ex st) file (monitor_elf_shdata st).2;
  tr_none : (interp_elf_phdata st).1 = PNull;
  tr_info : info_section (monitor_elf_ex st) file (monitor_elf_shdata st).2 (monitor_info_off st)
}.

(** Opening the interpreter, with the two tables and the string table of the monitor. *)
Lemma interp_end path file ph st : tables_read path file st ->
  find_interp (phdr_table (e_phnum (monitor_elf_ex st)) (monitor_elf_phdata st).2) = Some ph ->
  comes_to (~ files_ok path) (open_interp file ph (PAlloc 2)) (ended path) (mk_linit st (mk_kmem [2; 1; 0] 3 [file])).
Proof using open_err H0.
  intros [Ho E1 E2 Hh Hty [E3 Hp] [E4 Hs] E5 Hinfo] Eph. destruct st as [fm fi e1 e2 [p1 d1] [p2 d2] [p3 d3] off]. cbn in E1, E2, Hh, Hty, E3, Hp, E4, Hs, E5, Hinfo, Eph. subst.
  unfold open_interp. destruct (path_fits ph) eqn:Efit.
  2: { assert ((PATH_MAX <? p_filesz ph) || (p_filesz ph <? 2) = true) as ->.
    { unfold path_fits in Efit. destruct (Z.leb_spec 2 (p_filesz ph)), (Z.leb_spec (p_filesz ph) PATH_MAX), (Z.ltb_spec PATH_MAX (p_filesz ph)), (Z.ltb_spec (p_filesz ph) 2); done || lia. }
    unfold comes_to. run_known. split; [run_released|]. intros _. exists file. cbn. rewrite Eph, Efit. do 3 (split; [done|]).
    split; [exists 0; split_and!; [done|set_solver|done]|]. split; [exists 1; split_and!; [done|set_solver|done]|]. split; [done|]. done. }
  assert ((PATH_MAX <? p_filesz ph) || (p_filesz ph <? 2) = false) as ->.
  { unfold path_fits in Efit. apply andb_true_iff in Efit as [?%Z.leb_le ?%Z.leb_le]. apply orb_false_iff. rewrite !Z.ltb_ge. lia. }
  apply comes_to_bind, comes_to_vmalloc; [run_error|]. cbn [k_next k_live k_open].
  destruct (fo_read file (p_filesz ph) (p_offset ph)) as [r name] eqn:Er. destruct (Z.eqb_spec r (p_filesz ph)) as [->|]; cbn [negb]; [|run_error].
  destruct (negb (_ =? 0)); [run_error|].
  apply comes_to_bind, comes_to_open; [intros err Herr|intros g Eg]; (apply comes_to_bind, comes_to_set; cbn [k_live k_next k_open set_interpreter]); [run_error|].
  assert (names_file file ph g) as Hg by (by exists name).
  destruct (fo_read g sizeof_ehdr 0) as [r1 bs] eqn:Eh. apply comes_to_bind, comes_to_set. destruct (Z.eqb_spec r1 sizeof_ehdr) as [->|]; cbn [negb]; [|run_error].
  assert (ehdr_of_bytes bs = header_of g) as Eex by (unfold header_of; by rewrite Eh).
  apply comes_to_bind, comes_to_free; [by repeat constructor|]. unfold check_interp. apply comes_to_bind. unfold comes_to at 1, get. cbn [li_st interp_elf_ex set_interp_ex set_interpreter].
  rewrite Eex. destruct (is_elf _) eqn:Emag; cbn [negb]; [|run_error]. destruct (Z.eqb_spec (e_machine (header_of g)) EM_X86_64) as [Emach|]; cbn [negb]; [|run_error].
  apply comes_to_bind. eapply comes_to_table; [apply load_table_reads; by left| |by repeat constructor| |].
  - intros Hbad Hok. destruct (Hok file Ho) as [_ Hi]. destruct Hh as (_ & -> & _). specialize (Hi d1 ph g Hp Eph Hg). congruence.
  - intros err next' Herr. apply comes_to_bind, comes_to_set. destruct (Z.eqb_spec err 0); [done|]. cbn [negb]. run_error.
  - intros bs' Hbs' _. apply comes_to_bind, comes_to_set. cbn [negb Z.eqb]. unfold comes_to, mret, M_ret. split; [run_released|]. intros _. exists file. cbn. rewrite Eph, Efit.
    do 3 (split; [done|]). split; [exists 0; split_and!; [done|set_solver|done]|]. split; [exists 1; split_and!; [done|set_solver|done]|]. split; [done|].
    split; [split; [done|set_solver]|]. exists g. split; [done|]. split; [split; [done|set_solver]|]. split; [split_and!; [by rewrite Eh|done..]|].
    exists 4. split_and!; [done|set_solver|done].
Qed.

(** A start.  It faults only if a file it reads is malformed; otherwise
    [loader_destory] after it closes every file that was opened and frees every table, whether the
    start succeeded or failed at whatever step (only the string table of
    a start that succeeded stays allocated), and the loader is ready if the start succeeded. *)
Lemma loader_starts path st : comes_to (~ files_ok path) (loader_init path) (ended path) (mk_linit st no_mem).
Proof using open_err H0.
  unfold loader_init, no_mem. apply comes_to_bind, comes_to_set. apply comes_to_bind, comes_to_open; [intros err Herr|intros file Ho]; cbn [k_live k_next k_open].
  { apply comes_to_bind, comes_to_set. run_error. }
  apply comes_to_bind, comes_to_set. destruct (fo_read file sizeof_ehdr 0) as [r bs] eqn:Eh.
  assert (ehdr_of_bytes bs = header_of file) as -> by (unfold header_of; by rewrite Eh). apply comes_to_bind, comes_to_set.
  destruct (Z.eqb_spec r sizeof_ehdr) as [->|]; cbn [negb]; [|run_error]. destruct (is_elf _) eqn:Emag; cbn [negb]; [|run_error].
  destruct (_ && _) eqn:Ety; [run_error|]. destruct (Z.eqb_spec (e_machine (header_of file)) EM_X86_64) as [Emach|]; cbn [negb]; [|run_error].
  destruct (negb (fo_mmap file)); [run_error|]. set (ex := header_of file) in *.
  apply comes_to_bind. eapply comes_to_table; [apply load_table_reads; by left| |by repeat constructor|intros err next' Herr|intros phdata Hp _]; [|apply comes_to_bind, comes_to_set..].
  { intros Hbad Hok. destruct (Hok file Ho) as [(Ht & _) _]. unfold ex in Hbad. congruence. }
  { destruct (Z.eqb_spec err 0); [done|]. cbn [negb]. run_error. }
  cbn [negb Z.eqb Z.add Pos.add]. apply comes_to_bind. eapply comes_to_table; [apply load_table_reads; by right| |by repeat constructor|intros err next' Herr|intros shdata Hs Hsl]; [|apply comes_to_bind, comes_to_set..].
  { intros Hbad Hok. destruct (Hok file Ho) as [(_ & Ht & _) _]. unfold ex in Hbad. congruence. }
  { destruct (Z.eqb_spec err 0); [done|]. cbn [negb]. run_error. }
  cbn [negb Z.eqb Z.add Pos.add Pos.succ].
  destruct (load_shstrtab_reads ex shdata file Hsl) as [[Hbad Hbug]|(ss & Ess & Hrd)].
  { unfold comes_to, on_mem. unfold mbind at 1, M_bind at 1. cbn [li_mem]. rewrite Hbug. intros Hok. apply Hbad. destruct (Hok file Ho) as [(_ & _ & Hx & _) _]. exact Hx. }
  apply comes_to_bind. eapply comes_to_table; [exact Hrd|done|by repeat constructor|intros err next' Herr|intros strs Hstr _].
  { destruct (Z.eqb_spec err 0); [done|]. cbn [negb]. run_error. }
  assert (strings_of ex file shdata strs) as Hstrs by (by exists ss).
  cbn [negb Z.eqb Z.add Pos.add Pos.succ]. apply comes_to_bind. destruct (find_section _ _ _ _) as [off|] eqn:Efs; unfold comes_to at 1; cbn [lift].
  2: { intros Hok. destruct (Hok file Ho) as [(_ & _ & Hx & Hn) _]. assert (e_shnum ex = Z.of_nat (Z.to_nat (e_shnum ex))) as En by (unfold ex; lia).
    destruct (find_section_ends (Z.to_nat (e_shnum ex)) 0 shdata strs) as [o Eo]; [|congruence]. intros j Hj.
    destruct (shdr_at_in j (e_shnum ex) shdata Hsl ltac:(lia)) as [sh Esh]. exists sh. split; [done|]. apply (Hn shdata strs j sh); [exact Hs|exact Hstrs|fold ex; lia|exact Esh]. }
  apply comes_to_bind, comes_to_set. destruct (Z.eqb_spec off 0) as [|Hoff]; [run_error|].
  destruct (find_section_named _ _ _ _ _ Efs Hoff ltac:(done)) as (i & sh & Hi & Esh & Ename & Eaddr).
  assert (info_section ex file shdata off) as Hinfo by (exists strs, i, sh; split_and!; (done || lia)).
  assert (has_header ex file) as Hhd by (split_and!; [by rewrite Eh|done..]).
  assert (e_type ex = ET_DYN \/ e_type ex = ET_EXEC) as Hty.
  { destruct (Z.eqb_spec (e_type ex) ET_DYN); [by left|]. destruct (Z.eqb_spec (e_type ex) ET_EXEC); [by right|done]. }
  clearbody ex. destruct (find_interp _) as [ph|] eqn:Eph; [by apply interp_end|].
  unfold comes_to, mret, M_ret. split; [run_released|]. intros _. exists file. cbn. rewrite Eph. do 3 (split; [done|]).
  split; [exists 0; split_and!; [done|set_solver|done]|]. split; [exists 1; split_and!; [done|set_solver|done]|]. split; [done|].
  split; [split; [done|set_solver]|done].
Qed.
End init_props.

(** ** A file system with one file *)

Definition one_file (f : list Z) : FileOps := {|
  fo_read _ size pos := let bs := if (0 <=? pos) && (0 <=? size) then zslice pos size f else [] in (zlen bs, bs);
  fo_open _ := inl 1;
  fo_alloc _ := true;
  fo_mmap _ := true |}.

Lemma one_file_ok f : @FileOpsOk (one_file f).
Proof.
  split. intros ? size pos Hs. cbn. pose proof (zlen_nonneg (zslice pos size f)). destruct ((0 <=? pos) && (0 <=? size)).
  - split; [|lia]. unfold zslice, zlen, ztake. rewrite length_take. lia.
  - rewrite zlen_nil. split; [done|lia].
Qed.

(** An ELF file with one program header [ph], an empty section, the section of the
    information block at [0x3000] and the string table. *)
Definition demo_elf (phentsize : Z) (ph : list Z) : list Z :=
  (ELFMAG ++ replicate 12 0) ++ le_bytes 2 ET_DYN ++ le_bytes 2 EM_X86_64 ++ le_bytes 4 1 ++ le_bytes 8 0x1000 ++ le_bytes 8 64 ++ le_bytes 8 120 ++
  le_bytes 4 0 ++ le_bytes 2 64 ++ le_bytes 2 phentsize ++ le_bytes 2 1 ++ le_bytes 2 64 ++ le_bytes 2 3 ++ le_bytes 2 2 ++
  ph ++
  replicate 64 0 ++
  (le_bytes 4 1 ++ le_bytes 4 1 ++ le_bytes 8 0 ++ le_bytes 8 0x3000 ++ replicate 40 0) ++
  (le_bytes 4 0 ++ le_bytes 4 3 ++ le_bytes 8 0 ++ le_bytes 8 0 ++ le_bytes 8 312 ++ le_bytes 8 15 ++ replicate 24 0) ++
  [0] ++ str_bytes NOD_SECTION_NAME ++ [0].

Definition demo_phdr (type filesz : Z) : list Z :=
  le_bytes 4 type ++ le_bytes 4 5 ++ le_bytes 8 0 ++ le_bytes 8 0 ++ le_bytes 8 0 ++ le_bytes 8 filesz ++ le_bytes 8 filesz ++ le_bytes 8 4096.

Definition zero_ehdr : elfhdr := ehdr_of_bytes (replicate 64 0).
Definition demo_statics : loader_statics := mk_statics None None zero_ehdr zero_ehdr null_table null_table null_table 0.

(** The result of a start from [demo_statics], and the state. *)
Definition start (f : list Z) : outcome linit Z := @loader_init (one_file f) (str_bytes "/m") (mk_linit demo_statics no_mem).

Definition started_ok (o : outcome linit Z) (r info_off : Z) (monitor : option Z) : bool :=
  match o with
  | Done x s => (x =? r) && (monitor_info_off (li_st s) =? info_off) && bool_decide (filp_monitor (li_st s) = monitor)
  | _ => false
  end.

(** A start that succeeds. *)
Lemma demo_start_ok : started_ok (start (demo_elf 56 (demo_phdr PT_LOAD 100))) 0 0x3000 (Some 1) = true.
Proof. by vm_compute. Qed.

(** Where a start goes wrong.  A program header of another size makes
    [elf_load_phdrs] free a pointer that was never assigned; and a file
    whose interpreter path is shorter than two bytes makes [loader_init] return 0, success, with
    the monitor's file closed again. *)
Theorem bad_headers_at_start :
  start (demo_elf 32 (demo_phdr PT_LOAD 100)) = Bug /\ started_ok (start (demo_elf 56 (demo_phdr PT_INTERP 1))) 0 0x3000 None = true.
Proof. split; by vm_compute. Qed.
