(* ===== verification/NodMain.v ===== *)
(** * The module's life: [kmodule/nod_main.c]

    [nodrop_init] starts the parts in order and, when one fails, stops those that were
    started, in reverse order; [nodrop_exit] stops all.  [procinfo_destroy] waits for each
    process inside its monitor: what it finds when it looks at the status of an entry,
    which the process changes in between, is an argument, and fuel bounds the number of looks. *)

From S2P Require Import Prelude Tables Kernel FillerLib ProcState Events Device Hooks Elf LoaderInit.

Local Open Scope Z_scope.

(** [md_cache] is [proc_info_cachep], [md_hooks] the static variables of [trace.c], [md_ent] the file
    in [/proc]. *)
Record module_state : Type := mk_module {
  md_loader : linit;
  md_cache : bool;
  md_hooks : hooks;
  md_ent : bool
}.

(** What the kernel answers: [kmem_cache_create], the system-call table it finds, the names of its
    tracepoints, and [proc_create]. *)
Record start_env : Type := mk_start {
  st_path : list Z;
  st_cache : bool;
  st_table : option (list sys_call_ptr);
  st_tracepoints : list string;
  st_ent : bool
}.

(** ** The entries of the table when the module stops *)

(** The process ids in the order of the table, and the status that look [k] of [procinfo_destroy] finds. *)
Record stop_env : Type := mk_stop { sp_pids : list Z; sp_status : Z -> nat -> nod_proc_status }.
Definition no_procs : stop_env := mk_stop [] (fun _ _ => NOD_UNKNOWN).

(** [while (this->status == NOD_IN) msleep(5);]: the look that ended the loop. *)
Fixpoint wait_leave (fuel : nat) (sp : stop_env) (pid : Z) (k : nat) : option nat :=
  match fuel with
  | O => None
  | S fuel => if bool_decide (sp_status sp pid k = NOD_IN) then wait_leave fuel sp pid (S k) else Some k
  end.

(** [hash_for_each_safe] with [nod_free_procinfo]: the freed entries, each with its last look. *)
Fixpoint destroy_entries (fuel : nat) (sp : stop_env) (l : list Z) (k : nat) : option (list (Z * nat)) :=
  match l with
  | [] => Some []
  | pid :: l =>
      k ← wait_leave fuel sp pid k;
      fr ← destroy_entries fuel sp l (S k);
      Some ((pid, k) :: fr)
  end.

Section main.
Context `{FileOps}.

Definition on_loader {A} (m : M linit A) : M module_state A := fun s =>
  match m (md_loader s) with
  | Done x l => Done x (mk_module l (md_cache s) (md_hooks s) (md_ent s))
  | Ret c l => Ret c (mk_module l (md_cache s) (md_hooks s) (md_ent s))
  | Bug => Bug
  end.

Definition set_cache (b : bool) : M module_state unit := modify (fun s => mk_module (md_loader s) b (md_hooks s) (md_ent s)).
Definition set_hooks (h : hooks) : M module_state unit := modify (fun s => mk_module (md_loader s) (md_cache s) h (md_ent s)).
Definition set_ent (b : bool) : M module_state unit := modify (fun s => mk_module (md_loader s) (md_cache s) (md_hooks s) b).

Definition procinfo_init (e : start_env) : M module_state Z := set_cache (st_cache e);; mret (if st_cache e then 0 else - ENOMEM).

(** Running out of looks is [Bug] here: nothing else of it can fail. *)
Definition procinfo_destroy (fuel : nat) (sp : stop_env) : M module_state unit :=
  s ← get; if md_cache s then lift (destroy_entries fuel sp (sp_pids sp) 0);; set_cache false else mret tt.

Definition tracepoint_start (e : start_env) : M module_state Z :=
  let '(r, h) := tracepoint_init (st_table e) (st_tracepoints e) in
  s ← get;
  set_hooks (match h with Some h => h | None => set_probes 0 (hk_sys_exit (md_hooks s)) (hk_process_exit (md_hooks s)) (md_hooks s) end);;
  mret r.

Definition tracepoint_destory : M module_state unit := s ← get; h ← lift (untrace_syscall (md_hooks s)); set_hooks h.

Definition proc_init (e : start_env) : M module_state Z := set_ent (st_ent e);; mret (if st_ent e then 0 else - EFAULT).
Definition proc_destroy : M module_state unit := s ← get; if md_ent s then set_ent false else mret tt.

(** The labels of [nodrop_init]; no process is traced yet. *)
Definition out_loader (err : Z) : M module_state Z := on_loader loader_destory;; mret err.
Definition out_procinfo (err : Z) : M module_state Z := procinfo_destroy 0 no_procs;; out_loader err.
Definition out_trace (err : Z) : M module_state Z := tracepoint_destory;; out_procinfo err.
Definition out_proc (err : Z) : M module_state Z := proc_destroy;; out_trace err.

Definition nodrop_init (e : start_env) : M module_state Z :=
  err ← on_loader (loader_init (st_path e));
  if negb (err =? 0) then out_loader err else
  err ← procinfo_init e;
  if negb (err =? 0) then out_procinfo err else
  err ← tracepoint_start e;
  if negb (err =? 0) then out_trace err else
  err ← proc_init e;
  if negb (err =? 0) then out_proc err else mret 0.

Definition nodrop_exit (fuel : nat) (sp : stop_env) : M module_state unit :=
  proc_destroy;; tracepoint_destory;; procinfo_destroy fuel sp;; on_loader loader_destory.
End main.

(** ** Waiting for the processes *)

(** Every process leaves its monitor some day. *)
Definition all_leave (sp : stop_env) : Prop :=
  forall pid, pid ∈ sp_pids sp -> exists k0, forall k, (k0 <= k)%nat -> sp_status sp pid k <> NOD_IN.

Lemma wait_ends sp pid k0 k : (forall k, (k0 <= k)%nat -> sp_status sp pid k <> NOD_IN) -> exists n, forall fuel, (n <= fuel)%nat ->
  exists k', wait_leave fuel sp pid k = Some k'.
Proof.
  intros Hk. exists (S (k0 - k)). remember (k0 - k)%nat as d. revert k Heqd. induction d as [|d IH]; intros k Hd fuel Hf;
    (destruct fuel as [|fuel]; [lia|]); cbn [wait_leave]; case_bool_decide as E.
  - by destruct (Hk k ltac:(lia)).
  - by eexists.
  - apply IH; lia.
  - by eexists.
Qed.

Lemma wait_more sp pid fuel fuel' k k' : wait_leave fuel sp pid k = Some k' -> (fuel <= fuel')%nat -> wait_leave fuel' sp pid k = Some k'.
Proof.
  revert fuel' k. induction fuel as [|fuel IH]; intros fuel' k E Hf; [done|]. destruct fuel' as [|fuel']; [lia|]. cbn [wait_leave] in *.
  case_bool_decide; [|done]. apply IH; [done|lia].
Qed.

Lemma wait_out sp pid fuel k k' : wait_leave fuel sp pid k = Some k' -> sp_status sp pid k' <> NOD_IN.
Proof.
  revert k. induction fuel as [|fuel IH]; intros k; [done|]. cbn [wait_leave]. case_bool_decide; [apply IH|by intros [= <-]].
Qed.

(** Enough fuel frees every entry... *)
Lemma destroy_ends sp l k : (forall pid, pid ∈ l -> exists k0, forall k, (k0 <= k)%nat -> sp_status sp pid k <> NOD_IN) ->
  exists n fr, forall fuel, (n <= fuel)%nat -> destroy_entries fuel sp l k = Some fr.
Proof.
  revert k. induction l as [|pid l IH]; intros k Hl; [by exists 0%nat, []|].
  destruct (Hl pid ltac:(by left)) as [k0 Hk]. destruct (wait_ends sp pid k0 k Hk) as [n1 Hn1]. destruct (Hn1 n1 ltac:(done)) as [k' Ek].
  destruct (IH (S k')) as (n2 & fr & Hn2); [intros q Hq; apply Hl; by right|]. exists (Nat.max n1 n2), ((pid, k') :: fr). intros fuel Hf.
  cbn [destroy_entries]. rewrite (wait_more _ _ n1 fuel _ _ Ek) by lia. cbn [mbind option_bind]. by rewrite Hn2 by lia.
Qed.

(** ...each when its process was outside of the monitor. *)
Lemma destroy_frees fuel sp l k fr : destroy_entries fuel sp l k = Some fr -> fr.*1 = l /\ Forall (fun x => sp_status sp x.1 x.2 <> NOD_IN) fr.
Proof.
  revert k fr. induction l as [|pid l IH]; intros k fr; cbn [destroy_entries]; [by intros [= <-]|].
  destruct (wait_leave fuel sp pid k) as [k'|] eqn:Ek; cbn [mbind option_bind]; [|done].
  destruct (destroy_entries fuel sp l (S k')) as [fr'|] eqn:Ef; cbn [mbind option_bind]; [|done]. intros [= <-].
  destruct (IH _ _ Ef) as [<- Hf]. split; [done|]. constructor; [by eapply wait_out|done].
Qed.

(** A process that stays keeps the stop waiting. *)
Lemma destroy_stuck fuel sp l k pid : pid ∈ l -> (forall k, sp_status sp pid k = NOD_IN) -> destroy_entries fuel sp l k = None.
Proof.
  intros Hin Hs. destruct (destroy_entries fuel sp l k) as [fr|] eqn:E; [|done]. destruct (destroy_frees _ _ _ _ _ E) as [<- Hf].
  apply list_elem_of_fmap in Hin as (x & -> & Hx). rewrite List.Forall_forall in Hf. apply list_elem_of_In in Hx. by destruct (Hf _ Hx).
Qed.

(** ** Properties *)

(** Everything is given back, but for the string table of the monitor's file. *)
Definition stopped (s : module_state) : Prop :=
  k_open (li_mem (md_loader s)) = [] /\ (k_live (li_mem (md_loader s)) = [] \/ k_live (li_mem (md_loader s)) = [2]) /\
  filp_monitor (li_st (md_loader s)) = None /\ filp_interpreter (li_st (md_loader s)) = None /\
  md_cache s = false /\ md_ent s = false /\ hk_registered (md_hooks s) = 0.

(** All parts run; the hooks are not installed yet. *)
Definition running `{FileOps} (e : start_env) (s : module_state) : Prop :=
  loader_ready (st_path e) (md_loader s) /\ md_cache s = true /\ md_ent s = true /\ st_table e = Some (hk_table (md_hooks s)) /\ md_hooks s = init_hooks (hk_table (md_hooks s)).

Section props.
Context `{FileOpsOk}.
Context (open_err : forall path err, fo_open path = inr err -> err < 0).

(** The loader between its start and its stop. *)
Definition loader_part (s : module_state) : Prop := exists r, released r (md_loader s).

Lemma out_loader_run err s : loader_part s -> md_cache s = false -> md_ent s = false -> hk_registered (md_hooks s) = 0 ->
  exists s', out_loader err s = Done err s' /\ stopped s'.
Proof.
  intros [r Hr] Hc He Hh. unfold out_loader, on_loader, released in *. unfold mbind, M_bind, mret, M_ret.
  destruct (loader_destory (md_loader s)) as [[] l|c l|]; [|done|done]. eexists. split; [done|].
  destruct Hr as (Ho & Hl & H1 & H2). split_and!; try done. destruct Hl as [Hl|(_ & _ & Hl)]; [by left|by right].
Qed.

Lemma out_procinfo_run err s : loader_part s -> md_ent s = false -> hk_registered (md_hooks s) = 0 ->
  exists s', out_procinfo err s = Done err s' /\ stopped s'.
Proof.
  intros Hl He Hh. unfold out_procinfo, procinfo_destroy, set_cache, modify, get, lift, mret, M_ret. unfold mbind, M_bind.
  destruct (md_cache s) eqn:Ec; apply out_loader_run; done.
Qed.

Lemma out_trace_run err s : loader_part s -> md_ent s = false -> hk_registered (md_hooks s) = 0 ->
  exists s', out_trace err s = Done err s' /\ stopped s'.
Proof.
  intros Hl He Hh. unfold out_trace, tracepoint_destory, set_hooks, modify, get, lift. unfold mbind at 1 2, M_bind at 1 2. unfold mbind, M_bind.
  unfold untrace_syscall. rewrite Hh. cbn [Z.eqb]. by apply out_procinfo_run.
Qed.

Lemma out_proc_run err s : loader_part s -> hk_registered (md_hooks s) = 0 -> exists s', out_proc err s = Done err s' /\ stopped s'.
Proof.
  intros Hl Hh. unfold out_proc, proc_destroy, set_ent, modify, get, mret, M_ret. unfold mbind, M_bind.
  destruct (md_ent s) eqn:Ee; apply out_trace_run; done.
Qed.

Lemma comes_to_ends B (m : M module_state Z) s r (P : module_state -> Prop) : (exists s', m s = Done r s' /\ stopped s') -> r <> 0 ->
  comes_to B m (fun r s => if r =? 0 then P s else stopped s) s.
Proof. intros (s' & E & Hs') Hr. unfold comes_to. rewrite E. by rewrite (proj2 (Z.eqb_neq _ _) Hr). Qed.

(** The stop, whatever the control device did to the hooks. *)
Lemma exit_run table s sp : loader_part s -> length table = Z.to_nat SYSCALL_TABLE_SIZE -> hook_reach table (md_hooks s) ->
  exists s', stopped s' /\ hk_table (md_hooks s') = table /\
    (all_leave sp -> exists n, forall fuel, (n <= fuel)%nat -> nodrop_exit fuel sp s = Done tt s') /\
    (forall pid, pid ∈ sp_pids sp -> (forall k, sp_status sp pid k = NOD_IN) -> md_cache s = true -> forall fuel, nodrop_exit fuel sp s = Bug).
Proof.
  intros [r Hr] Ht Hh. apply reach_inv in Hh; [|done]. destruct (untrace_syscall_ok table _ Hh) as (h' & Eh & [_ _ Hi] & Ereg).
  rewrite Ereg in Hi. apply unhooked_table in Hi; [|done]. unfold released in Hr.
  destruct (loader_destory (md_loader s)) as [[] l|c l|] eqn:El; [|done|done]. destruct Hr as (Ho & Hl & H1 & H2).
  exists (mk_module l false h' false). split; [split_and!; try done; destruct Hl as [Hl|(_ & _ & Hl)]; [by left|by right]|]. split; [exact Hi|].
  assert (forall fuel, nodrop_exit fuel sp s =
    if md_cache s then match destroy_entries fuel sp (sp_pids sp) 0 with Some _ => Done tt (mk_module l false h' false) | None => Bug end
    else Done tt (mk_module l false h' false)) as E.
  { intros fuel. unfold nodrop_exit, proc_destroy, tracepoint_destory, procinfo_destroy, set_ent, set_hooks, set_cache, on_loader, modify, get, lift, mret, M_ret, bug. unfold mbind, M_bind.
    destruct (md_ent s) eqn:Ee; cbn [md_hooks]; rewrite Eh; cbn [md_cache md_loader]; destruct (md_cache s);
      [destruct (destroy_entries fuel sp (sp_pids sp) 0) as [fr|]; [|done]| |destruct (destroy_entries fuel sp (sp_pids sp) 0) as [fr|]; [|done]|];
      cbn [md_loader md_cache md_hooks md_ent]; rewrite El; cbn; by rewrite ?Ee. }
  split.
  - intros Hleave. destruct (destroy_ends sp (sp_pids sp) 0 Hleave) as (n & fr & Hn). exists n. intros fuel Hf. rewrite E, Hn by done. by destruct (md_cache s).
  - intros pid Hin Hs Hc fuel. by rewrite E, Hc, (destroy_stuck fuel sp _ 0 pid Hin Hs).
Qed.

Definition with_hooks (h : hooks) (s : module_state) : module_state := mk_module (md_loader s) (md_cache s) h (md_ent s).

(** C29: A start either brings every part up or leaves nothing behind.  [nodrop_init] faults only if a file it reads is
    malformed ([files_ok]: the tables of the monitor's and the interpreter's headers have the sizes the readers take, and
    the names of the sections end; [open_exec] is to return a file or a negative error).  Otherwise it returns 0 with every part running, or an error after which no file is
    open and no cache, hook or entry in [/proc] is left.  Running means for the loader that the headers and the
    address of the information block are those of the monitor's file, and that this file, and the interpreter it names,
    are open; only for a monitor whose interpreter path has a bad length, 0 is returned with the file closed.
    After a start, and whatever the control device did to the hooks since, [nodrop_exit] comes to an end on the
    assumption that every process leaves its monitor some day; it then has given everything back and left the
    system-call table as it was; a process that stays in its monitor keeps it waiting, whatever the
    fuel.  Only the string table of the monitor's file stays allocated. *)
Theorem start_all_or_nothing e st h :
  (forall t, st_table e = Some t -> length t = Z.to_nat SYSCALL_TABLE_SIZE) -> hk_registered h = 0 ->
  match nodrop_init e (mk_module (mk_linit st no_mem) false h false) with
  | Done r s => if r =? 0 then running e s /\
      forall table h' sp, st_table e = Some table -> hook_reach table h' ->
        exists s', stopped s' /\ hk_table (md_hooks s') = table /\
          (all_leave sp -> exists n, forall fuel, (n <= fuel)%nat -> nodrop_exit fuel sp (with_hooks h' s) = Done tt s') /\
          (forall pid, pid ∈ sp_pids sp -> (forall k, sp_status sp pid k = NOD_IN) -> forall fuel, nodrop_exit fuel sp (with_hooks h' s) = Bug)
    else stopped s
  | Ret _ _ => False
  | Bug => ~ files_ok (st_path e)
  end.
Proof using open_err H0.
  intros Ht Hh. match goal with |- match nodrop_init _ ?s0 with Done r s => if _ then @?P s else _ | _ => _ end =>
    change (comes_to (~ files_ok (st_path e)) (nodrop_init e) (fun r s => if r =? 0 then P s else stopped s) s0) end.
  unfold nodrop_init. apply comes_to_bind. unfold on_loader, comes_to at 1. cbn [md_loader md_cache md_hooks md_ent].
  pose proof (loader_starts open_err (st_path e) st) as Hl. unfold comes_to in Hl. destruct (loader_init (st_path e) (mk_linit st no_mem)) as [r l|c l|]; [|done|exact Hl].
  destruct Hl as [Hrel Hready]. assert (forall c h' en, loader_part (mk_module l c h' en)) as Hpart by (intros; by exists r).
  destruct (Z.eqb_spec r 0) as [->|Hr]; cbn [negb]; [|by eapply comes_to_ends; [apply out_loader_run|]].
  unfold procinfo_init. apply comes_to_bind, comes_to_bind. unfold set_cache at 1, modify, comes_to at 1. cbn [md_loader md_hooks md_ent]. unfold comes_to at 1, mret at 1, M_ret.
  destruct (st_cache e); cbn [negb Z.eqb]; [|by eapply comes_to_ends; [apply out_procinfo_run|]].
  apply comes_to_bind. unfold tracepoint_start. destruct (tracepoint_init (st_table e) (st_tracepoints e)) as [r2 oh] eqn:Etp.
  apply comes_to_bind. unfold comes_to at 1, get. apply comes_to_bind. unfold set_hooks, modify, comes_to at 1. cbn [md_loader md_cache md_ent md_hooks]. unfold comes_to at 1, mret at 1, M_ret.
  set (h2 := match oh with Some h0 => h0 | None => _ end). assert (hk_registered h2 = 0) as Hh2.
  { unfold h2. unfold tracepoint_init in Etp. destruct (st_table e) as [t|]; [|injection Etp as <- <-; done]. by injection Etp as _ <-. }
  destruct (Z.eqb_spec r2 0) as [->|Hr2]; cbn [negb]; [|by eapply comes_to_ends; [apply out_trace_run|]].
  assert (exists t, st_table e = Some t /\ h2 = init_hooks t) as (t & Est & Eh2).
  { unfold h2. unfold tracepoint_init in Etp. destruct (st_table e) as [t|]; [|done]. injection Etp as _ <-. by exists t. }
  unfold proc_init. apply comes_to_bind, comes_to_bind. unfold set_ent at 1, modify, comes_to at 1. cbn [md_loader md_cache md_hooks]. unfold comes_to at 1, mret at 1, M_ret.
  destruct (st_ent e); cbn [negb Z.eqb]; [|by eapply comes_to_ends; [apply out_proc_run|]].
  unfold comes_to, mret, M_ret. cbn [Z.eqb]. split.
  - split_and!; try done; cbn [md_hooks md_loader]; [by apply Hready|by rewrite Eh2..].
  - intros table h' sp Et Hreach. assert (table = t) as -> by congruence.
    destruct (exit_run t (with_hooks h' (mk_module l true h2 true)) sp) as (s' & H1 & H2 & H3 & H4); [apply Hpart|by apply Ht|exact Hreach|].
    exists s'. split; [done|]. split; [done|]. split; [exact H3|]. intros pid Hin Hs. by apply (H4 pid).
Qed.
End props.

(** A start on a file system with the monitor's file, and a start without it. *)
Definition demo_table : list sys_call_ptr := List.map (fun i => SysCall (Z.of_nat i)) (seq 1 (Z.to_nat SYSCALL_TABLE_SIZE)).
Definition demo_start_env : start_env := mk_start (str_bytes "/m") true (Some demo_table) ["sched_process_exit"; "sys_exit"]%string true.

Lemma start_all_or_nothing_witness :
  exists s, @nodrop_init (one_file (demo_elf 56 (demo_phdr PT_LOAD 100))) demo_start_env (mk_module (mk_linit demo_statics no_mem) false (init_hooks []) false) = Done 0 s /\
    @running (one_file (demo_elf 56 (demo_phdr PT_LOAD 100))) demo_start_env s /\
    exists s', stopped s' /\ nodrop_exit 1 no_procs (with_hooks (init_hooks demo_table) s) = Done tt s'.
Proof.
  pose proof (@start_all_or_nothing (one_file (demo_elf 56 (demo_phdr PT_LOAD 100))) (one_file_ok _) ltac:(done) demo_start_env demo_statics (init_hooks [])) as H.
  assert (exists s, @nodrop_init (one_file (demo_elf 56 (demo_phdr PT_LOAD 100))) demo_start_env (mk_module (mk_linit demo_statics no_mem) false (init_hooks []) false) = Done 0 s) as [s E]
    by (eexists; vm_compute; reflexivity).
  rewrite E in H. destruct H as [Hr Hx]; [intros t [= <-]; unfold demo_table; by rewrite length_map, length_seq|done|]. exists s. split; [exact E|]. split; [exact Hr|].
  destruct (Hx demo_table (init_hooks demo_table) no_procs eq_refl) as (s' & Hs & _ & Hn & _); [by apply (reach_init _ ["sys_exit"%string])|].
  exists s'. split; [exact Hs|]. destruct Hn as [n Hn]; [intros pid Hin; by apply not_elem_of_nil in Hin|].
  rewrite <- (Hn (S n)) by lia. reflexivity.
Defined.
