(* ===== verification/Startup.v ===== *)
(** * A visit of the monitor: [monitor/src/startup.c] and [pkeys.h]

    The kernel enters the monitor at [_start], which calls [nod_start_main] (through the C
    library at the first visit, directly later) with the address of the
    process's [struct nod_stack_info].  The function opens the device, maps the buffers
    that are not mapped yet, runs [nod_monitor_main] and asks the module to restore the
    process; it is never to return.  A visit is a sequence of actions, system
    calls and calls of the monitor's parts, whose answers are the class [Outside]. *)

From S2P Require Import Prelude Kernel Flags FillerLib ProcState Events Loader Hooks Device.

Local Open Scope Z_scope.

(** ** Actions *)

Inductive action : Type :=
  | ArchPrctl (code : Z)
  | Mprotect (addr len prot : Z)
  | PkeyMprotect (addr len prot pkey : Z)
  | Open (path : string)
  | Mmap (len prot fd : Z)
  | Munmap (addr len : Z)
  | Ioctl (fd cmd : Z) (arg : list Z)
  | Stat (path : list Z)
  | Syscall (nr arg : Z)
  | HeapInit (pool size : Z)
  | MonitorInit
  | MonitorMain (buffer buffer_info : Z) (global_state : list Z) (record_flag : Z)
  | MonitorExit (code : Z).

(** An action, the register PKRU at that time and the answer: the result and the bytes stored
    through a pointer argument, [None] if the action does not return. *)
Record item : Type := mk_item { it_action : action; it_pkru : Z; it_answer : option (Z * list Z) }.

Class Outside (W : Type) := {
  answer : action -> W -> option (Z * list Z) * W;
  buffer_size_at : Z -> W -> Z
}.

(** The addresses of [__info], [__bdata], [__edata] and [mmheap_pool]. *)
Record image : Type := mk_image { im_info : Z; im_bdata : Z; im_edata : Z; im_pool : Z }.

Record visit {W : Type} : Type := mk_visit { v_p : nod_stack_info; v_info_fsbase : Z; v_pkru : Z; v_trace : list item; v_world : W }.
Arguments visit : clear implicits.

Definition MAP_FAILED : Z := 2 ^ 64 - 1.
Definition ARCH_GET_FS : Z := 0x1003.
Definition SYS_exit : Z := 60.
Definition NOD_MONITOR_MEM_SIZE : Z := 1024 * 1024.
Definition PKEY_DISABLE_ACCESS : Z := 1.
Definition PKEY_DISABLE_WRITE : Z := 2.
Definition PKEY_WR : Z := 0.
Definition sizeof_buffer_info : Z := 32.

Definition SYSCALL_EXIT_FAMILY (nr : Z) : bool := (nr =? __NR_exit) || (nr =? __NR_exit_group).

Definition set_fsbase (x : Z) (p : nod_stack_info) : nod_stack_info := mk_stack (si_ioctl_fd p) (si_pkey p) (si_syscall_nr p) (si_exit_code p) x (si_hash p) (si_stack_start p) (si_stack_end p) (si_buffer p) (si_buffer_info p).
Definition set_hash (x : Z) (p : nod_stack_info) : nod_stack_info := mk_stack (si_ioctl_fd p) (si_pkey p) (si_syscall_nr p) (si_exit_code p) (si_fsbase p) x (si_stack_start p) (si_stack_end p) (si_buffer p) (si_buffer_info p).
Definition set_buffer (x : Z) (p : nod_stack_info) : nod_stack_info := mk_stack (si_ioctl_fd p) (si_pkey p) (si_syscall_nr p) (si_exit_code p) (si_fsbase p) (si_hash p) (si_stack_start p) (si_stack_end p) x (si_buffer_info p).
Definition set_buffer_info (x : Z) (p : nod_stack_info) : nod_stack_info := mk_stack (si_ioctl_fd p) (si_pkey p) (si_syscall_nr p) (si_exit_code p) (si_fsbase p) (si_hash p) (si_stack_start p) (si_stack_end p) (si_buffer p) x.

(** [rights] in the two bits of [pkey]: the value [pkey_set] writes to PKRU. *)
Definition pkru_with (pkey rights pkru : Z) : Z :=
  let mask := u32 (Z.shiftl 3 (2 * pkey)) in
  u32 ((pkru &! u32 (Z.lnot mask)) |! Z.shiftl rights (2 * pkey)).

(** The two bits of [pkey] in PKRU. *)
Definition rights_of (pkey pkru : Z) : Z := Z.shiftr pkru (2 * pkey) &! 3.

(** The value at an address after the bytes [bs] were stored there; no bytes, no change. *)
Definition stored (old : Z) (bs : list Z) : Z := match bs with [] => old | _ => le_val bs end.
Definition stored_bytes (old bs : list Z) : list Z := ztake (zlen old) bs ++ zdrop (zlen bs) old.

(** The end of the body of [nod_start_main]: [goto out] or [return]. *)
Inductive ending : Type := Out | Return.

Section startup.
Context {W : Type} `{Outside W} (pkey_support : bool) (im : image).

Notation V := (M (visit W)).

Definition set_p (f : nod_stack_info -> nod_stack_info) : V unit := modify (fun s => mk_visit W (f (v_p s)) (v_info_fsbase s) (v_pkru s) (v_trace s) (v_world s)).
Definition set_info (x : Z) : V unit := modify (fun s => mk_visit W (v_p s) x (v_pkru s) (v_trace s) (v_world s)).
Definition wrpkru (x : Z) : V unit := modify (fun s => mk_visit W (v_p s) (v_info_fsbase s) x (v_trace s) (v_world s)).

(** Do an action; one that does not return ends the visit. *)
Definition act (a : action) : V (Z * list Z) := fun s =>
  let '(r, w) := answer a (v_world s) in
  let s := mk_visit W (v_p s) (v_info_fsbase s) (v_pkru s) (mk_item a (v_pkru s) r :: v_trace s) w in
  match r with Some x => Done x s | None => Ret 0 s end.

(** An action whose stored bytes are not used, and one whose result is not used either. *)
Definition call (a : action) : V Z := '(r, _) ← act a; mret r.
Definition do_ (a : action) : V unit := act a;; mret tt.

Definition pkey_set (pkey rights : Z) : V Z :=
  if (pkey <? 0) || (15 <? pkey) || (3 <? rights) then mret (-1)
  else s ← get; wrpkru (pkru_with pkey rights (v_pkru s));; mret 0.

(** [ASSERT_EXIT] *)
Definition ASSERT_EXIT (b : bool) : V unit := if b then mret tt else do_ (Syscall SYS_exit (-1)).

(** [if (p->pkey != -1)] under [NOD_PKEY_SUPPORT] *)
Definition with_pkey (f : Z -> V unit) : V unit :=
  p ← gets v_p; if pkey_support && negb (si_pkey p =? -1) then f (si_pkey p) else mret tt.

Definition nod_restore_context : V unit :=
  p ← gets v_p;
  (if SYSCALL_EXIT_FAMILY (si_syscall_nr p)
   then do_ (MonitorExit (si_syscall_nr p));; do_ (Syscall (si_syscall_nr p) (si_exit_code p))
   else
     with_pkey (fun pkey => pkey_set pkey PKEY_DISABLE_WRITE;; mret tt);;
     do_ (Ioctl (si_ioctl_fd p) NOD_IOCTL_RESTORE_CONTEXT (stack_bytes p)));;
  bug.

Definition nod_initialize : V unit :=
  '(_, bs) ← act (ArchPrctl ARCH_GET_FS);
  set_p (fun p => set_fsbase (stored (si_fsbase p) bs) p);;
  s ← get;
  (if v_info_fsbase s =? 0 then
     set_info (si_fsbase (v_p s));;
     do_ (Mprotect (im_info im) ((8 + 4096 - 1) / 4096) PROT_READ);;
     with_pkey (fun pkey =>
       pkey_set pkey 0;;
       r ← call (PkeyMprotect (im_bdata im) (u64 (im_edata im - im_bdata im)) (PROT_READ |! PROT_WRITE) pkey);
       ASSERT_EXIT (negb (r =? -1));;
       p ← gets v_p;
       r ← call (PkeyMprotect (si_stack_start p) (u64 (si_stack_end p - si_stack_start p)) (PROT_READ |! PROT_WRITE) pkey);
       ASSERT_EXIT (negb (r =? -1)))
   else mret tt);;
  do_ (HeapInit (im_pool im) NOD_MONITOR_MEM_SIZE).

(** [if (x) munmap(x, len); x = NULL] for the two fields. *)
Definition unmap_info : V unit :=
  p ← gets v_p;
  (if si_buffer_info p =? 0 then mret tt else do_ (Munmap (si_buffer_info p) sizeof_buffer_info));;
  set_p (set_buffer_info 0).

Definition unmap_buffer : V unit :=
  s ← get;
  let p := v_p s in
  (if si_buffer p =? 0 then mret tt else do_ (Munmap (si_buffer p) (buffer_size_at (si_buffer_info p) (v_world s))));;
  set_p (set_buffer 0).

(** [pkey_mprotect] of a mapping, if keys are used; false if it failed. *)
Definition protect (addr len prot : Z) : V bool :=
  p ← gets v_p;
  if pkey_support && negb (si_pkey p =? -1) then r ← call (PkeyMprotect addr len prot (si_pkey p)); mret (negb (r =? -1)) else mret true.

(** The two blocks [if (unlikely(p->buffer_info == NULL))] and [if (unlikely(p->buffer == NULL))];
    false is [goto out]. *)
Definition map_info : V bool :=
  p ← gets v_p;
  if si_buffer_info p =? 0 then
    a ← call (Mmap sizeof_buffer_info (PROT_READ |! PROT_WRITE) (si_ioctl_fd p));
    set_p (set_buffer_info a);;
    if a =? MAP_FAILED then set_p (set_buffer_info 0);; mret false else
    ok ← protect a sizeof_buffer_info (PROT_READ |! PROT_WRITE);
    if negb ok then unmap_info;; mret false else mret true
  else mret true.

Definition map_buffer : V bool :=
  s ← get;
  let p := v_p s in
  if si_buffer p =? 0 then
    a ← call (Mmap (buffer_size_at (si_buffer_info p) (v_world s)) PROT_READ (si_ioctl_fd p));
    set_p (set_buffer a);;
    if a =? MAP_FAILED then set_p (set_buffer 0);; unmap_info;; mret false else
    ok ← protect a (4 * 1024) PROT_READ;
    if negb ok then unmap_buffer;; unmap_info;; mret false else mret true
  else mret true.

Definition lua_mtime (kstate : list Z) : Z := le_val (zslice 256 8 kstate).
Definition set_lua_mtime (t : Z) (kstate : list Z) : list Z := ztake 256 kstate ++ le_bytes 8 t.

(** [NOD_IOCTL_GET_LUA_STATE]; an error leaves an empty path and time 0. *)
Definition get_lua_state (kstate : list Z) : V (list Z) :=
  p ← gets v_p;
  '(r, bs) ← act (Ioctl (si_ioctl_fd p) NOD_IOCTL_GET_LUA_STATE kstate);
  let kstate := stored_bytes kstate bs in
  mret (if r =? 0 then kstate else set_lua_mtime 0 (0 :: zdrop 1 kstate)).

(** The script was changed since the module was told its time; [None] is [return]. *)
Definition update_lua_state (kstate : list Z) : V (option (list Z)) :=
  if lua_mtime kstate =? 0 then mret (Some kstate) else
  '(r, st_mtime) ← act (Stat (ztake 256 kstate));
  if negb (r =? 0) || (u64 (le_val st_mtime) =? lua_mtime kstate) then mret (Some kstate) else
  let kstate := set_lua_mtime (le_val st_mtime) kstate in
  p ← gets v_p;
  r ← call (Ioctl (si_ioctl_fd p) NOD_IOCTL_SET_LUA_STATE kstate);
  mret (if r =? 0 then Some kstate else None).

Definition get_record_flag : V Z :=
  p ← gets v_p;
  '(r, bs) ← act (Ioctl (si_ioctl_fd p) NOD_IOCTL_GET_RECORD_FLAG (le_bytes 4 0));
  mret (if r =? 0 then s32 (stored 0 bs) else 0).

(** The body between the initialisation and [out:]; [kstate] is the uninitialised local
    variable. *)
Definition visit_body (kstate : list Z) : V ending :=
  fd ← call (Open "/proc/nodrop");
  set_p (set_info_fd fd);;
  if negb (0 <=? fd) then mret Out else
  ok ← map_info;
  if negb ok then mret Out else
  ok ← map_buffer;
  if negb ok then mret Out else
  kstate ← get_lua_state kstate;
  ks ← update_lua_state kstate;
  match ks : option (list Z) with
  | None => mret Return
  | Some kstate =>
      record_flag ← get_record_flag;
      p ← gets v_p;
      do_ (MonitorMain (si_buffer p) (si_buffer_info p) kstate record_flag);;
      mret Out
  end.

Definition nod_start_main (kstate : list Z) : V unit :=
  p ← gets v_p;
  (if si_fsbase p =? 0 then nod_initialize;; do_ MonitorInit
   else with_pkey (fun pkey => pkey_set pkey PKEY_WR;; mret tt));;
  e ← visit_body kstate;
  match e : ending with
  | Return => mret tt
  | Out =>
      set_p (fun p => set_hash (nod_calc_hash p) p);;
      nod_restore_context;;
      ASSERT_EXIT false
  end.
End startup.
