(* ===== verification/StartupProps.v ===== *)
(** * What a visit does: properties of [Startup]

    The block of the process survives its way through user memory, the request to leave has a
    valid hash, the buffers that [nod_monitor_main] gets are mapped, and the monitor's
    data is writable only inside of a visit. *)

From S2P Require Import Prelude Kernel Flags Ring FillerLib ProcState Events EventCodec EventsFacts Demo Privil ProcInfo.
From S2P Require Import Loader Hooks Trace Device DeviceProps Startup.

Local Open Scope Z_scope.

(** ** The block of the process as bytes *)

(** The fields fit their types. *)
Record stack_ok (p : nod_stack_info) : Prop := {
  sk_fd : - 2 ^ 31 <= si_ioctl_fd p < 2 ^ 31;
  sk_pkey : - 2 ^ 31 <= si_pkey p < 2 ^ 31;
  sk_nr : - 2 ^ 31 <= si_syscall_nr p < 2 ^ 31;
  sk_code : - 2 ^ 63 <= si_exit_code p < 2 ^ 63;
  sk_fsbase : 0 <= si_fsbase p < 2 ^ 64;
  sk_hash : 0 <= si_hash p < 2 ^ 64;
  sk_start : 0 <= si_stack_start p < 2 ^ 64;
  sk_end : 0 <= si_stack_end p < 2 ^ 64;
  sk_buffer : 0 <= si_buffer p < 2 ^ 64;
  sk_info : 0 <= si_buffer_info p < 2 ^ 64
}.

Lemma fld_skip k off n (a b : list Z) : zlen a = k -> k <= off -> fld off n (a ++ b) = fld (off - k) n b.
Proof. intros <- Hk. unfold fld, zslice. by rewrite zdrop_app_r by lia. Qed.

Lemma fld_head n x (b : list Z) : fld 0 (Z.of_nat n) (le_bytes n x ++ b) = unsigned (8 * Z.of_nat n) x.
Proof. unfold fld, zslice. rewrite zdrop_0. rewrite ztake_app_exact by (by rewrite zlen_le_bytes). rewrite le_val_bytes. unfold unsigned. apply Z.mod_mod. lia. Qed.

Lemma fld_head4 x (b : list Z) : fld 0 4 (le_bytes 4 x ++ b) = unsigned 32 x.
Proof. apply (fld_head 4). Qed.
Lemma fld_head8 x (b : list Z) : fld 0 8 (le_bytes 8 x ++ b) = unsigned 64 x.
Proof. apply (fld_head 8). Qed.

(** Reading a field of a concatenation of words. *)
Ltac fld_solve :=
  repeat match goal with
    | |- context [fld ?o ?n (le_bytes ?k ?x ++ ?r)] =>
        let v := eval compute in (o - Z.of_nat k) in
        lazymatch v with Zneg _ => fail | _ => idtac end;
        rewrite (fld_skip (Z.of_nat k) o n (le_bytes k x) r) by (rewrite ?zlen_le_bytes; lia); change (o - Z.of_nat k) with v
    end;
  rewrite ?fld_head4, ?fld_head8.

Lemma s32_u32 x : - 2 ^ 31 <= x < 2 ^ 31 -> s32 (unsigned 32 x) = x.
Proof. intros Hx. unfold s32. rewrite signed_unsigned by lia. apply signed_small; lia. Qed.

Lemma s64_u64 x : - 2 ^ 63 <= x < 2 ^ 63 -> s64 (unsigned 64 x) = x.
Proof. intros Hx. unfold s64. rewrite signed_unsigned by lia. apply signed_small; lia. Qed.

(** Any block, written and read back, has its fields brought into their types. *)
Lemma stack_read_back p : stack_of_bytes (stack_bytes p) =
  mk_stack (s32 (unsigned 32 (si_ioctl_fd p))) (s32 (unsigned 32 (si_pkey p))) (s32 (unsigned 32 (si_syscall_nr p))) (s64 (unsigned 64 (si_exit_code p)))
    (unsigned 64 (si_fsbase p)) (unsigned 64 (si_hash p)) (unsigned 64 (si_stack_start p)) (unsigned 64 (si_stack_end p)) (unsigned 64 (si_buffer p)) (unsigned 64 (si_buffer_info p)).
Proof.
  unfold stack_of_bytes, stack_bytes. rewrite <- (app_nil_r (le_bytes 8 (si_buffer_info p))), <- ?app_assoc. by fld_solve.
Qed.

Lemma stack_read_back_ok p : stack_ok (stack_of_bytes (stack_bytes p)).
Proof.
  rewrite stack_read_back. unfold s32, s64. split; cbn [si_ioctl_fd si_pkey si_syscall_nr si_exit_code si_fsbase si_hash si_stack_start si_stack_end si_buffer si_buffer_info];
    try apply unsigned_bound; try lia; [apply (signed_bound 32)|apply (signed_bound 32)|apply (signed_bound 32)|apply (signed_bound 64)]; lia.
Qed.

Lemma stack_round_trip p : stack_ok p -> stack_of_bytes (stack_bytes p) = p.
Proof.
  intros [H1 H2 H3 H4 H5 H6 H7 H8 H9 H10]. rewrite stack_read_back, !s32_u32, s64_u64 by done. rewrite !unsigned_small by done. by destruct p.
Qed.

Lemma lxor_u64 a b : 0 <= a < 2 ^ 64 -> 0 <= b < 2 ^ 64 -> 0 <= Z.lxor a b < 2 ^ 64.
Proof.
  intros Ha Hb. assert (0 <= Z.lxor a b) as H0 by (apply Z.lxor_nonneg; lia). split; [done|].
  assert (Z.lxor a b = Z.lxor a b mod 2 ^ 64) as ->; [|by apply Z.mod_pos_bound].
  rewrite <- (Z.mod_small a (2 ^ 64)), <- (Z.mod_small b (2 ^ 64)) by done. rewrite <- !Z.land_ones by lia.
  apply Z.bits_inj'. intros n Hn. rewrite !Z.land_spec, !Z.lxor_spec, !Z.land_spec.
  destruct (Z.testbit a n), (Z.testbit b n), (Z.testbit (Z.ones 64) n); done.
Qed.

Lemma calc_hash_u64 p : stack_ok p -> 0 <= nod_calc_hash p < 2 ^ 64.
Proof. intros []. unfold nod_calc_hash, u64. repeat apply lxor_u64; try done; by apply unsigned_bound. Qed.

(** The hash does not depend on the field it is stored in. *)
Lemma calc_hash_set p x : nod_calc_hash (set_hash x p) = nod_calc_hash p.
Proof. done. Qed.

(** ** What the outside answers *)

(** The requests after which the process does not come back to the monitor: its exit, and a
    request to restore it that the module grants. *)
Definition leaves (a : action) : bool :=
  match a with
  | Syscall nr _ => SYSCALL_EXIT_FAMILY nr
  | Ioctl fd cmd arg => (0 <=? fd) && (cmd =? NOD_IOCTL_RESTORE_CONTEXT) && (si_hash (stack_of_bytes arg) =? nod_calc_hash (stack_of_bytes arg))
  | _ => false
  end.

(** What the manual pages say: only these requests do not return; [open] gives a descriptor or -1,
    [mmap] an address or [MAP_FAILED]; what is stored are bytes, at most eight for the segment base. *)
Class OutsideOk (W : Type) `{Outside W} : Prop := {
  oo_leaves a w : leaves a = false -> is_Some (answer a w).1;
  oo_stays a w : leaves a = true -> (answer a w).1 = None;
  oo_open path w fd bs : (answer (Open path) w).1 = Some (fd, bs) -> - 1 <= fd < 2 ^ 31;
  oo_mmap len prot fd w a bs : (answer (Mmap len prot fd) w).1 = Some (a, bs) -> 0 < a < 2 ^ 64;
  oo_fs code w r bs : (answer (ArchPrctl code) w).1 = Some (r, bs) -> Forall byte_ok bs /\ zlen bs <= 8
}.

Section visits.
Context {W : Type} `{OutsideOk W} (pkey_support : bool) (im : image).
Notation V := (M (visit W)).

(** [m] returns with [Q] or ends the visit with [L]; [B] is whether unreachable code may be reached. *)
Definition ends {A} (B : Prop) (m : V A) (Q : A -> visit W -> Prop) (L : visit W -> Prop) (s : visit W) : Prop :=
  match m s with Done x s' => Q x s' | Ret _ s' => L s' | Bug => B end.

Lemma ends_bind {A C} B (m : V A) (f : A -> V C) Q L s : ends B m (fun x => ends B (f x) Q L) L s -> ends B (m ≫= f) Q L s.
Proof. unfold ends. cbn. unfold mbind, M_bind. by destruct (m s). Qed.

Lemma ends_ret {A} B (x : A) Q (L : visit W -> Prop) s : Q x s -> ends B (mret x) Q L s.
Proof. done. Qed.

Lemma ends_gets {A} B (f : visit W -> A) Q (L : visit W -> Prop) s : Q (f s) s -> ends B (gets f) Q L s.
Proof. done. Qed.

Lemma ends_get B Q (L : visit W -> Prop) s : Q s s -> ends B get Q L s.
Proof. done. Qed.

Lemma ends_mono {A} (B B' : Prop) (m : V A) (Q Q' : A -> visit W -> Prop) (L L' : visit W -> Prop) s :
  ends B m Q L s -> (B -> B') -> (forall x s', Q x s' -> Q' x s') -> (forall s', L s' -> L' s') -> ends B' m Q' L' s.
Proof. unfold ends. intros Hm HB HQ HL. destruct (m s); auto. Qed.

(** A step that does not end the visit, and then the rest. *)
Lemma ends_seq {A C} B (m : V A) (f : A -> V C) Q Q' L s :
  ends B m Q (fun _ => False) s -> (forall x s', Q x s' -> ends B (f x) Q' L s') -> ends B (m ≫= f) Q' L s.
Proof. intros Hm Hf. apply ends_bind. by apply (ends_mono _ _ _ _ _ _ _ _ Hm). Qed.

(** A step that may end it. *)
Lemma ends_seq_or {A C} B (m : V A) (f : A -> V C) Q Q' L s :
  ends B m Q L s -> (forall x s', Q x s' -> ends B (f x) Q' L s') -> ends B (m ≫= f) Q' L s.
Proof. intros Hm Hf. apply ends_bind. by apply (ends_mono _ _ _ _ _ _ _ _ Hm). Qed.

(** The state after the action [a]. *)
Definition after (a : action) (s : visit W) : visit W :=
  let '(r, w) := answer a (v_world s) in mk_visit W (v_p s) (v_info_fsbase s) (v_pkru s) (mk_item a (v_pkru s) r :: v_trace s) w.

Lemma ends_act B a Q (L : visit W -> Prop) s :
  (forall r bs, (answer a (v_world s)).1 = Some (r, bs) -> Q (r, bs) (after a s)) ->
  ((answer a (v_world s)).1 = None -> leaves a = true -> L (after a s)) -> ends B (act a) Q L s.
Proof.
  intros HQ HL. unfold ends, act. unfold after in *. destruct (answer a (v_world s)) as [[[r bs]|] w] eqn:E; cbn in *; [by apply HQ|].
  apply HL; [done|]. destruct (leaves a) eqn:El; [done|]. destruct (oo_leaves a (v_world s) El) as [x Hx]. by rewrite E in Hx.
Qed.

Lemma ends_call B a (Q : Z -> visit W -> Prop) L s :
  (forall r bs, (answer a (v_world s)).1 = Some (r, bs) -> Q r (after a s)) ->
  ((answer a (v_world s)).1 = None -> leaves a = true -> L (after a s)) -> ends B (call a) Q L s.
Proof. intros HQ HL. apply ends_bind, ends_act; [|done]. intros r bs E. cbn. by apply (HQ r bs). Qed.

Lemma ends_do B a (Q : unit -> visit W -> Prop) L s :
  (forall r bs, (answer a (v_world s)).1 = Some (r, bs) -> Q tt (after a s)) ->
  ((answer a (v_world s)).1 = None -> leaves a = true -> L (after a s)) -> ends B (do_ a) Q L s.
Proof. intros HQ HL. apply ends_bind, ends_act; [|done]. intros r bs E. cbn. by apply (HQ r bs). Qed.

Lemma ends_set_p B f (Q : unit -> visit W -> Prop) (L : visit W -> Prop) s :
  Q tt (mk_visit W (f (v_p s)) (v_info_fsbase s) (v_pkru s) (v_trace s) (v_world s)) -> ends B (set_p f) Q L s.
Proof. done. Qed.

Lemma ends_set_info B x (Q : unit -> visit W -> Prop) (L : visit W -> Prop) s :
  Q tt (mk_visit W (v_p s) x (v_pkru s) (v_trace s) (v_world s)) -> ends B (set_info x) Q L s.
Proof. done. Qed.

Definition with_pkru (x : Z) (s : visit W) : visit W := mk_visit W (v_p s) (v_info_fsbase s) x (v_trace s) (v_world s).

Lemma ends_pkey_set B key rights (Q : Z -> visit W -> Prop) (L : visit W -> Prop) s :
  (0 <= key <= 15 -> rights <= 3 -> Q 0 (with_pkru (pkru_with key rights (v_pkru s)) s)) ->
  (key < 0 \/ 15 < key \/ 3 < rights -> Q (-1) s) -> ends B (pkey_set key rights) Q L s.
Proof.
  intros H1 H2. unfold pkey_set. destruct (Z.ltb_spec key 0), (Z.ltb_spec 15 key), (Z.ltb_spec 3 rights); cbn [orb]; try (apply ends_ret, H2; lia).
  unfold ends, wrpkru. cbn. by apply H1.
Qed.

(** The keys are used in the visit. *)
Definition uses_pkey (pkey_support : bool) (p : nod_stack_info) : bool := pkey_support && negb (si_pkey p =? -1).

Lemma ends_with_pkey B ps (f : Z -> V unit) (Q : unit -> visit W -> Prop) L s :
  (uses_pkey ps (v_p s) = true -> ends B (f (si_pkey (v_p s))) Q L s) -> (uses_pkey ps (v_p s) = false -> Q tt s) -> ends B (with_pkey ps f) Q L s.
Proof. intros H1 H2. unfold with_pkey. apply ends_bind, ends_gets. fold (uses_pkey ps (v_p s)). destruct (uses_pkey ps (v_p s)); [by apply H1|by apply H2]. Qed.

(** [m] keeps [I], also when it ends the visit. *)
Definition keeps {A} (I : visit W -> Prop) (m : V A) : Prop := forall s, I s -> ends True m (fun _ => I) I s.

Lemma visit_keeps_bind {A C} I (m : V A) (f : A -> V C) : keeps I m -> (forall x, keeps I (f x)) -> keeps I (m ≫= f).
Proof. intros Hm Hf s Hs. apply ends_bind. apply (ends_mono _ _ _ _ _ _ _ _ (Hm s Hs)); [done| |done]. intros x s' Hs'. by apply Hf. Qed.
Lemma visit_keeps_ret {A} I (x : A) : keeps I (mret x).
Proof. by intros s Hs. Qed.
Lemma visit_keeps_get I : keeps I get.
Proof. by intros s Hs. Qed.
Lemma keeps_gets {A} I (f : visit W -> A) : keeps I (gets f).
Proof. by intros s Hs. Qed.
Lemma keeps_act I a : (forall s, I s -> I (after a s)) -> keeps I (act a).
Proof. intros Ha s Hs. apply ends_act; intros; by apply Ha. Qed.
Lemma keeps_set_p (I : visit W -> Prop) f :
  (forall s, I s -> I (mk_visit W (f (v_p s)) (v_info_fsbase s) (v_pkru s) (v_trace s) (v_world s))) -> keeps I (set_p f).
Proof. intros Hf s Hs. by apply Hf. Qed.
Lemma keeps_call I a : keeps I (act a) -> keeps I (call a).
Proof. intros Ha. apply visit_keeps_bind; [done|]. intros []. apply visit_keeps_ret. Qed.
Lemma keeps_do I a : keeps I (act a) -> keeps I (do_ a).
Proof. intros Ha. apply visit_keeps_bind; [done|]. intros []. apply visit_keeps_ret. Qed.
Lemma keeps_with_pkey I ps f : (forall k, keeps I (f k)) -> keeps I (with_pkey ps f).
Proof. intros Hf s Hs. apply ends_with_pkey; intros _; [by apply Hf|done]. Qed.
Lemma keeps_bug {A} I : keeps I (bug : V A).
Proof. by intros s Hs. Qed.

(** *** Steps that do not leave *)

Lemma stays_get fd ks : leaves (Ioctl fd NOD_IOCTL_GET_LUA_STATE ks) = false.
Proof. unfold leaves. by rewrite andb_false_r. Qed.
Lemma stays_set fd ks : leaves (Ioctl fd NOD_IOCTL_SET_LUA_STATE ks) = false.
Proof. unfold leaves. by rewrite andb_false_r. Qed.
Lemma stays_flag fd ks : leaves (Ioctl fd NOD_IOCTL_GET_RECORD_FLAG ks) = false.
Proof. unfold leaves. by rewrite andb_false_r. Qed.
End visits.
#[export] Hint Resolve stays_get stays_set stays_flag : stays.

(** One step of a visit. *)
Ltac stay := let Hl := fresh in intros _ Hl; exfalso; rewrite ?stays_get, ?stays_set, ?stays_flag in Hl; done.
Ltac vstep :=
  lazymatch goal with
  | |- ends _ (mbind _ _) _ _ _ => apply ends_bind
  | |- ends _ (gets _) _ _ _ => apply ends_gets
  | |- ends _ get _ _ _ => apply ends_get
  | |- ends _ (mret _) _ _ _ => apply ends_ret
  | |- ends _ (set_p _) _ _ _ => apply ends_set_p
  | |- ends _ (set_info _) _ _ _ => apply ends_set_info
  | |- ends _ (pkey_set _ _) _ _ _ => apply ends_pkey_set; intros
  | |- ends _ (with_pkey _ _) _ _ _ => apply ends_with_pkey; intros
  | |- ends _ (call _) _ _ _ => apply ends_call; [intros ? ? ?|stay]
  | |- ends _ (do_ _) _ _ _ => apply ends_do; [intros ? ? ?|stay]
  | |- ends _ (act _) _ _ _ => apply ends_act; [intros ? ? ?|stay]
  end; cbv beta; cbn [v_p v_info_fsbase v_pkru v_trace].

(** [keeps I m] by the structure of [m]; [leaf] proves it for actions and assignments. *)
Ltac keep leaf :=
  repeat first
    [ apply visit_keeps_bind; [|intros ?] | apply keeps_with_pkey; intros ? | apply keeps_do | apply keeps_call
    | apply visit_keeps_ret | apply visit_keeps_get | apply keeps_gets | apply keeps_bug | leaf
    | match goal with |- keeps _ (let '(_, _) := ?x in _) => destruct x end
    | match goal with |- keeps _ (match ?x with _ => _ end) => destruct x end ].

(** ** The end of a visit *)

Section ending.
Context {W : Type} `{OutsideOk W} (pkey_support : bool) (im : image).

(** What a visit does not change in the block of the process. *)
Definition same_call (p0 p : nod_stack_info) : Prop :=
  si_pkey p = si_pkey p0 /\ si_syscall_nr p = si_syscall_nr p0 /\ si_exit_code p = si_exit_code p0 /\
  si_stack_start p = si_stack_start p0 /\ si_stack_end p = si_stack_end p0.

Definition in_visit (p0 : nod_stack_info) (s : visit W) : Prop := same_call p0 (v_p s) /\ stack_ok (v_p s).

Lemma after_p a (s : visit W) : v_p (after a s) = v_p s.
Proof. unfold after. by destruct (answer a (v_world s)). Qed.

Lemma in_visit_after p0 a s : in_visit p0 s -> in_visit p0 (after a s).
Proof. unfold in_visit. by rewrite after_p. Qed.

(** Changing one field to a value of its type. *)
Lemma set_info_ok p0 p x : same_call p0 p -> stack_ok p -> 0 <= x < 2 ^ 64 -> same_call p0 (set_buffer_info x p) /\ stack_ok (set_buffer_info x p).
Proof. by intros ? [] ?. Qed.
Lemma set_buffer_ok p0 p x : same_call p0 p -> stack_ok p -> 0 <= x < 2 ^ 64 -> same_call p0 (set_buffer x p) /\ stack_ok (set_buffer x p).
Proof. by intros ? [] ?. Qed.
Lemma set_fd_ok p0 p x : same_call p0 p -> stack_ok p -> - 2 ^ 31 <= x < 2 ^ 31 -> same_call p0 (set_info_fd x p) /\ stack_ok (set_info_fd x p).
Proof. by intros ? [] ?. Qed.
Lemma set_fsbase_ok p0 p x : same_call p0 p -> stack_ok p -> 0 <= x < 2 ^ 64 -> same_call p0 (set_fsbase x p) /\ stack_ok (set_fsbase x p).
Proof. by intros ? [] ?. Qed.
Lemma set_hash_ok p0 p x : same_call p0 p -> stack_ok p -> 0 <= x < 2 ^ 64 -> same_call p0 (set_hash x p) /\ stack_ok (set_hash x p).
Proof. by intros ? [] ?. Qed.

(** [map_info] and [map_buffer] succeed or jump to [out:]; they keep the call. *)
Definition maps (p0 : nod_stack_info) (m : M (visit W) bool) : Prop :=
  forall s fd, in_visit p0 s -> si_ioctl_fd (v_p s) = fd -> ends False m (fun _ s' => in_visit p0 s' /\ si_ioctl_fd (v_p s') = fd) (fun _ => False) s.

Lemma map_failed_u64 : 0 <= MAP_FAILED < 2 ^ 64.
Proof. unfold MAP_FAILED. lia. Qed.

Lemma protect_run p0 addr len prot : maps p0 (protect pkey_support addr len prot).
Proof using Type*.
  intros s fd [Hc Hk] Hfd. unfold protect. do 2 vstep. destruct (_ && _); [|by vstep]. do 2 vstep. vstep. split; [by apply in_visit_after|by rewrite after_p].
Qed.

Lemma unmap_info_run p0 s fd : in_visit p0 s -> si_ioctl_fd (v_p s) = fd ->
  ends False unmap_info (fun _ s' => in_visit p0 s' /\ si_ioctl_fd (v_p s') = fd) (fun _ => False) s.
Proof using Type*.
  intros [Hc Hk] Hfd. unfold unmap_info. do 2 vstep. vstep. destruct (_ =? _); vstep; vstep; cbn [v_p]; rewrite ?after_p; (split; [|done]); by apply set_info_ok.
Qed.

Lemma unmap_buffer_run p0 s fd : in_visit p0 s -> si_ioctl_fd (v_p s) = fd ->
  ends False unmap_buffer (fun _ s' => in_visit p0 s' /\ si_ioctl_fd (v_p s') = fd) (fun _ => False) s.
Proof using Type*.
  intros [Hc Hk] Hfd. unfold unmap_buffer. do 2 vstep. vstep. destruct (_ =? _); vstep; vstep; cbn [v_p]; rewrite ?after_p; (split; [|done]); by apply set_buffer_ok.
Qed.

Lemma map_info_run p0 : maps p0 (map_info pkey_support).
Proof using Type*.
  intros s fd [Hc Hk] Hfd. unfold map_info. do 2 vstep. destruct (_ =? 0); [|by vstep]. vstep. vstep. rename r into a.
  assert (0 < a < 2 ^ 64) as Ha by (by apply (oo_mmap _ _ _ _ _ _ H1)). do 2 vstep. cbn [v_p]. rewrite after_p.
  assert (in_visit p0 (mk_visit W (set_buffer_info a (v_p s)) (v_info_fsbase (after (Mmap 0 0 0) s)) 0 [] (v_world s))) as Hin by (apply set_info_ok; [done|done|lia]).
  destruct (a =? MAP_FAILED).
  - do 3 vstep. cbn. split; [|done]. apply set_info_ok; [apply Hin|apply Hin|lia].
  - eapply ends_seq; [apply (protect_run p0 _ _ _ _ fd); [apply Hin|done]|]. intros ok s' [Hs' Hf]. destruct ok; cbn [negb]; [by vstep|].
    eapply ends_seq; [by apply (unmap_info_run p0 _ fd)|]. intros [] s2 Hs2. by vstep.
Qed.

Lemma map_buffer_run p0 : maps p0 (map_buffer pkey_support).
Proof using Type*.
  intros s fd [Hc Hk] Hfd. unfold map_buffer. do 2 vstep. destruct (_ =? 0); [|by vstep]. vstep. vstep. rename r into a.
  assert (0 < a < 2 ^ 64) as Ha by (by apply (oo_mmap _ _ _ _ _ _ H1)). do 2 vstep. cbn [v_p]. rewrite after_p.
  assert (same_call p0 (set_buffer a (v_p s)) /\ stack_ok (set_buffer a (v_p s))) as Hin by (apply set_buffer_ok; [done|done|lia]).
  destruct (a =? MAP_FAILED).
  - do 2 vstep. cbn. eapply ends_seq; [apply (unmap_info_run p0 _ fd); [|done]|].
    + apply set_buffer_ok; [apply Hin|apply Hin|lia].
    + intros [] s2 Hs2. by vstep.
  - eapply ends_seq; [apply (protect_run p0 _ _ _ _ fd); [apply Hin|done]|]. intros ok s' [Hs' Hf]. destruct ok; cbn [negb]; [by vstep|].
    eapply ends_seq; [by apply (unmap_buffer_run p0 _ fd)|]. intros [] s2 [Hs2 Hf2].
    eapply ends_seq; [by apply (unmap_info_run p0 _ fd)|]. intros [] s3 Hs3. by vstep.
Qed.
End ending.

Section leaving.
Context {W : Type} `{OutsideOk W} (pkey_support : bool) (im : image).

(** The first call of a failed [ASSERT_EXIT]: the item before is the refused protection. *)
Definition aborted (s : visit W) : Prop := exists rest k k' addr len prot key bs,
  v_trace s = mk_item (Syscall SYS_exit (-1)) k None :: mk_item (PkeyMprotect addr len prot key) k' (Some (-1, bs)) :: rest.

(** The last request is the exit the process asked for, or the request to be restored. *)
Definition exited (p : nod_stack_info) (s : visit W) : Prop := exists rest k,
  v_trace s = mk_item (Syscall (si_syscall_nr p) (si_exit_code p)) k None :: rest.
Definition asked (p0 p : nod_stack_info) (s : visit W) : Prop := exists rest k,
  v_trace s = mk_item (Ioctl (si_ioctl_fd p) NOD_IOCTL_RESTORE_CONTEXT (stack_bytes p)) k None :: rest /\
  same_call p0 p /\ stack_ok p /\ 0 <= si_ioctl_fd p /\ si_hash p = nod_calc_hash p.

Lemma leave_trace a s : leaves a = true -> v_trace (after a s) = mk_item a (v_pkru s) None :: v_trace s.
Proof. intros Hl. unfold after. pose proof (oo_stays a (v_world s) Hl) as E. destruct (answer a (v_world s)) as [r w]. cbn in E. by rewrite E. Qed.

Lemma after_trace a s x : (answer a (v_world s)).1 = Some x -> v_trace (after a s) = mk_item a (v_pkru s) (Some x) :: v_trace s.
Proof. unfold after. destruct (answer a (v_world s)) as [r w]. cbn. by intros ->. Qed.

(** [pkey_mprotect] and its assertion. *)
Lemma protect_or_exit p0 addr len prot key s : in_visit p0 s ->
  ends False (r ← call (PkeyMprotect addr len prot key); ASSERT_EXIT (negb (r =? -1))) (fun _ s' => in_visit p0 s') aborted s.
Proof using H0.
  intros Hs. do 2 vstep. destruct (Z.eqb_spec r (-1)) as [->|]; cbn [negb]; unfold ASSERT_EXIT; [|vstep; by apply in_visit_after].
  apply ends_do; [intros r' bs' E'|intros _ Hl].
  - exfalso. rewrite (oo_stays (Syscall SYS_exit (-1))) in E' by done. done.
  - unfold aborted. rewrite leave_trace by done. rewrite (after_trace _ _ _ H1). eexists _, _, _, _, _, _, _, _. reflexivity.
Qed.

Lemma protect_then p0 addr len prot key (rest : M (visit W) unit) Q s : in_visit p0 s -> (forall s', in_visit p0 s' -> ends False rest Q aborted s') ->
  ends False (r ← call (PkeyMprotect addr len prot key); ASSERT_EXIT (negb (r =? -1));; rest) Q aborted s.
Proof using H0.
  intros Hs Hr. pose proof (protect_or_exit p0 addr len prot key s Hs) as He. apply ends_bind. unfold ends in *. cbn in He. unfold mbind, M_bind in He.
  destruct (call _ s) as [x s1|c s1|]; [|done|done]. cbn. unfold mbind, M_bind. destruct (ASSERT_EXIT _ s1) as [[] s2|c s2|]; [|done|done]. by apply Hr.
Qed.

Lemma stored_range old bs : 0 <= old < 2 ^ 64 -> Forall byte_ok bs -> zlen bs <= 8 -> 0 <= stored old bs < 2 ^ 64.
Proof.
  intros Ho Hb Hl. unfold stored. destruct bs as [|b bs]; [done|]. pose proof (le_val_bound _ Hb) as Hv.
  assert (2 ^ (8 * zlen (b :: bs)) <= 2 ^ 64) by (apply Z.pow_le_mono_r; lia). lia.
Qed.

Lemma initialize_run p0 s : in_visit p0 s -> ends False (nod_initialize pkey_support im) (fun _ s' => in_visit p0 s') aborted s.
Proof using H0.
  intros [Hc Hk]. unfold nod_initialize. do 2 vstep. destruct (oo_fs _ _ _ _ H1) as [Hb Hl]. do 2 vstep. rewrite after_p.
  assert (in_visit p0 (mk_visit W (set_fsbase (stored (si_fsbase (v_p s)) bs) (v_p s)) 0 0 [] (v_world s))) as Hin.
  { apply set_fsbase_ok; [done|done|]. by apply stored_range; [destruct Hk| |]. }
  do 2 vstep. eapply (ends_seq_or _ _ _ (fun _ s' => in_visit p0 s')).
  2: { intros [] s' Hs'. vstep. by apply in_visit_after. }
  destruct (_ =? 0); [|by vstep]. do 4 vstep. vstep; [|by apply in_visit_after].
  eapply (ends_seq _ _ _ (fun _ s' => in_visit p0 s')); [vstep; by apply in_visit_after|].
  intros x s1 Hs1. apply (protect_then p0); [done|]. intros s2 Hs2. do 2 vstep. by apply protect_or_exit.
Qed.

(** The device opens, and the module takes the time of a changed script. *)
Definition device_opens : Prop := forall w, exists fd bs, (answer (Open "/proc/nodrop") w).1 = Some (fd, bs) /\ 0 <= fd.
Definition state_is_set : Prop := forall fd ks w r bs, (answer (Ioctl fd NOD_IOCTL_SET_LUA_STATE ks) w).1 = Some (r, bs) -> r = 0.

Lemma get_lua_run p0 fd ks : forall s, in_visit p0 s /\ si_ioctl_fd (v_p s) = fd ->
  ends False (get_lua_state ks) (fun _ s' => in_visit p0 s' /\ si_ioctl_fd (v_p s') = fd) (fun _ => False) s.
Proof using H0. intros s [Hs Hf]. unfold get_lua_state. do 4 vstep. split; [by apply in_visit_after|by rewrite after_p]. Qed.

Lemma update_lua_run p0 fd ks : state_is_set -> forall s, in_visit p0 s /\ si_ioctl_fd (v_p s) = fd ->
  ends False (update_lua_state ks) (fun k s' => is_Some k /\ in_visit p0 s' /\ si_ioctl_fd (v_p s') = fd) (fun _ => False) s.
Proof using H0.
  intros HS s [Hs Hf]. unfold update_lua_state. destruct (_ =? 0); [by vstep|]. do 2 vstep.
  destruct (_ || _); [vstep; split_and!; [done|by apply in_visit_after|by rewrite after_p]|].
  do 4 vstep. vstep. rewrite (HS _ _ _ _ _ H2). cbn. split_and!; [done|by do 2 apply in_visit_after|by rewrite !after_p].
Qed.

Lemma record_flag_run p0 fd : forall s, in_visit p0 s /\ si_ioctl_fd (v_p s) = fd ->
  ends False get_record_flag (fun _ s' => in_visit p0 s' /\ si_ioctl_fd (v_p s') = fd) (fun _ => False) s.
Proof using H0. intros s [Hs Hf]. unfold get_record_flag. do 4 vstep. split; [by apply in_visit_after|by rewrite after_p]. Qed.

Lemma body_run p0 ks s : device_opens -> state_is_set -> in_visit p0 s ->
  ends False (visit_body pkey_support ks) (fun e s' => e = Out /\ in_visit p0 s' /\ 0 <= si_ioctl_fd (v_p s')) (fun _ => False) s.
Proof using H0.
  intros HO HS Hs. unfold visit_body. vstep. destruct (HO (v_world s)) as (fd & bs & E & Hfd). pose proof (oo_open _ _ _ _ E) as Hfd2.
  vstep. rewrite E in H1. injection H1 as <- <-. do 2 vstep. rewrite after_p. destruct (Z.leb_spec 0 fd); [cbn [negb]|lia].
  eapply ends_seq; [apply (map_info_run pkey_support p0 _ fd); [apply set_fd_ok; [apply Hs|apply Hs|lia]|done]|].
  intros ok s1 [Hs1 Hf1]. destruct ok; cbn [negb]; [|vstep; by rewrite Hf1].
  eapply ends_seq; [by apply (map_buffer_run pkey_support p0 _ fd)|].
  intros ok s2 [Hs2 Hf2]. destruct ok; cbn [negb]; [|vstep; by rewrite Hf2].
  eapply ends_seq; [by apply (get_lua_run p0 fd)|]. intros ks1 s3 Hs3.
  eapply ends_seq; [by apply (update_lua_run p0 fd)|]. intros ks2 s4 ([ks3 ->] & Hs4 & Hf4).
  eapply ends_seq; [by apply (record_flag_run p0 fd)|]. intros flag s5 [Hs5 Hf5].
  do 4 vstep. vstep. split_and!; [done|by apply in_visit_after|by rewrite after_p, Hf5].
Qed.
End leaving.

(** ** The request and the module *)

(** The module grants a request with this block to the process inside of its monitor. *)
Definition granted {K : Kernel} {M_ : Type} `{LoaderOps M_} {P : Type} `{Pkeys P} (p : nod_stack_info) : Prop :=
  forall (d : device (M_ := M_) (P := P)) pid e arg, ps_table (dev_ps d) !! pid = Some e -> p_status e = NOD_IN -> p_pid e = cur_pid (dv_w d) ->
    nod_copy_from_user (U := k_user) arg 72 = (0, stack_bytes p) -> exists d', ioctl_restore true (Some pid) arg d = Some (0, d').

Lemma hash_granted {K : Kernel} {M_ : Type} `{LoaderOps M_} {P : Type} `{Pkeys P} p : stack_ok p -> si_hash p = nod_calc_hash p ->
  granted (K := K) (M_ := M_) (P := P) p.
Proof.
  intros Hk Hh d pid e arg Ee Hin Hpid Hu. unfold ioctl_restore, private. rewrite Ee. cbn [mbind option_bind].
  rewrite bool_decide_true by done. rewrite Hpid, Z.eqb_refl. cbn [negb orb]. rewrite Hu. unfold ctrue. cbn [Z.eqb negb].
  rewrite stack_round_trip by done. rewrite Hh, Z.eqb_refl. cbn [negb]. by eexists.
Qed.

Section claim.
Context {W : Type} `{OutsideOk W} (pkey_support : bool) (im : image).

Lemma restore_run p0 s : in_visit p0 s -> 0 <= si_ioctl_fd (v_p s) -> si_hash (v_p s) = nod_calc_hash (v_p s) ->
  ends False (nod_restore_context pkey_support) (fun _ _ => False)
    (fun s' => if SYSCALL_EXIT_FAMILY (si_syscall_nr p0) then exited p0 s' else asked p0 (v_p s') s') s.
Proof using H0.
  intros [Hc Hk] Hfd Hh. unfold nod_restore_context. do 2 vstep. destruct Hc as (Hpk & Hnr & Hcode & Hst & Hen). rewrite Hnr, Hcode.
  destruct (SYSCALL_EXIT_FAMILY (si_syscall_nr p0)) eqn:Ex; vstep.
  - do 2 vstep. apply ends_do; [intros r' bs' E'|intros _ Hl].
    + exfalso. by rewrite (oo_stays (Syscall _ _)) in E'.
    + unfold exited. rewrite leave_trace by done. by eexists _, _.
  - apply ends_seq with (Q := fun _ s1 => v_p s1 = v_p s); [vstep; [|done]; vstep; vstep; by vstep|]. intros [] s1 Hs1.
    assert (leaves (Ioctl (si_ioctl_fd (v_p s)) NOD_IOCTL_RESTORE_CONTEXT (stack_bytes (v_p s))) = true) as Hl.
    { unfold leaves. rewrite stack_round_trip by done. rewrite Hh, !Z.eqb_refl, (proj2 (Z.leb_le _ _) Hfd). done. }
    apply ends_do; [intros r' bs' E'|intros _ _].
    + exfalso. by rewrite (oo_stays _ _ Hl) in E'.
    + rewrite after_p, Hs1. unfold asked. rewrite leave_trace by done. eexists _, _. split; [reflexivity|]. split_and!; done.
Qed.

(** C30: Every visit ends with a request the module grants.  When the device can be opened and
    the module takes the time of a changed script, [nod_start_main] never
    returns and never reaches the code behind the request; its last action is the exit that the
    process asked for, or [NOD_IOCTL_RESTORE_CONTEXT] with a block of the same process and
    call, whose hash is right, so that the module grants it (or, when a first
    visit cannot protect the monitor's memory, the exit of the process). *)
Theorem visit_asks_to_leave {K : Kernel} {M_ : Type} `{LoaderOps M_} {P : Type} `{Pkeys P} kstate s : device_opens -> state_is_set -> stack_ok (v_p s) ->
  let p0 := v_p s in
  ends False (nod_start_main pkey_support im kstate) (fun _ _ => False)
    (fun s' => aborted s' \/
      if SYSCALL_EXIT_FAMILY (si_syscall_nr p0) then exited p0 s' else asked p0 (v_p s') s' /\ granted (K := K) (M_ := M_) (P := P) (v_p s')) s.
Proof.
  intros HO HS Hk p0. unfold nod_start_main. do 2 vstep. assert (in_visit p0 s) as Hs by done. fold p0.
  eapply (ends_seq_or _ _ _ (fun _ s' => in_visit p0 s')).
  - destruct (_ =? 0).
    + eapply (ends_seq_or _ _ _ (fun _ s' => in_visit p0 s')); [eapply ends_mono; [by apply initialize_run|done|done|by left]|].
      intros [] s1 Hs1. vstep. by apply in_visit_after.
    + vstep; [|done]. vstep. vstep; by vstep.
  - intros [] s1 Hs1. eapply ends_seq; [by apply (body_run pkey_support p0)|]. intros e s2 (-> & [Hc Hk2] & Hfd).
    do 2 vstep. apply ends_bind.
    eapply ends_mono; [apply (restore_run p0)|done|done|].
    + apply set_hash_ok; [done|done|]. by apply calc_hash_u64.
    + done.
    + done.
    + intros s3 Hs3. right. destruct (SYSCALL_EXIT_FAMILY _); [done|]. split; [done|]. destruct Hs3 as (? & ? & _ & _ & Hk3 & _ & Hh3). by apply hash_granted.
Qed.
End claim.

(** ** The buffers are mapped when they are used *)

(** [a] was mapped and not unmapped since; the latest item is first. *)
Fixpoint mapped_in (t : list item) (a : Z) : Prop :=
  match t with
  | [] => False
  | it :: t =>
      match it_action it, it_answer it with
      | Mmap _ _ _, Some (b, _) => (b = a /\ b <> MAP_FAILED) \/ mapped_in t a
      | Munmap b _, _ => b <> a /\ mapped_in t a
      | _, _ => mapped_in t a
      end
  end.

(** Each run of [nod_monitor_main] had mapped buffers. *)
Fixpoint mains_ok (t : list item) : Prop :=
  match t with
  | [] => True
  | it :: t => match it_action it with MonitorMain b i _ _ => mapped_in t b /\ mapped_in t i | _ => True end /\ mains_ok t
  end.

Section buffers.
Context {W : Type} `{OutsideOk W} (pkey_support : bool) (im : image).

Definition info_ok (s : visit W) : Prop := mains_ok (v_trace s) /\ (si_buffer_info (v_p s) <> 0 -> mapped_in (v_trace s) (si_buffer_info (v_p s))).
Definition buffers_ok (s : visit W) : Prop :=
  info_ok s /\ (si_buffer (v_p s) <> 0 -> mapped_in (v_trace s) (si_buffer (v_p s)) /\ si_buffer_info (v_p s) <> 0).

(** The actions that map, unmap or use no buffer. *)
Definition neutral (a : action) : bool := match a with Mmap _ _ _ | Munmap _ _ | MonitorMain _ _ _ _ => false | _ => true end.

Lemma after_shape a (s : visit W) : exists r w, after a s = mk_visit W (v_p s) (v_info_fsbase s) (v_pkru s) (mk_item a (v_pkru s) r :: v_trace s) w.
Proof. unfold after. destruct (answer a (v_world s)) as [r w]. by exists r, w. Qed.

Lemma buffers_after a s : neutral a = true -> buffers_ok s -> buffers_ok (after a s).
Proof. intros Ha Hs. destruct (after_shape a s) as (r & w & ->). destruct Hs as [[Hm Hi] Hb]. destruct a; done || by (split; [split; [split|]|]). Qed.

(** [I] holds at every step of [m], whether it ends the visit or not. *)
Lemma keeps_neutral a : neutral a = true -> keeps buffers_ok (act a).
Proof using H0. intros Ha. apply keeps_act. intros s Hs. by apply buffers_after. Qed.
Lemma keeps_pkey_set k r : keeps buffers_ok (pkey_set k r).
Proof using H0. intros s Hs. by apply ends_pkey_set; intros. Qed.
Lemma keeps_fields f : (forall p, si_buffer (f p) = si_buffer p /\ si_buffer_info (f p) = si_buffer_info p) -> keeps buffers_ok (set_p f).
Proof using H0. intros Hf. apply keeps_set_p. intros s Hs. destruct (Hf (v_p s)) as [E1 E2]. unfold buffers_ok, info_ok in *. cbn. by rewrite E1, E2. Qed.

Ltac keep_buffers := keep ltac:(first [apply keeps_neutral; done | apply keeps_pkey_set | apply keeps_fields; done | by intros ? ?]).

Lemma keeps_initialize : keeps buffers_ok (nod_initialize pkey_support im).
Proof using H0. unfold nod_initialize, ASSERT_EXIT. keep_buffers. Qed.
Lemma keeps_restore : keeps buffers_ok (nod_restore_context pkey_support).
Proof using H0. unfold nod_restore_context. keep_buffers. Qed.
Lemma keeps_protect a len prot : keeps buffers_ok (protect pkey_support a len prot).
Proof using H0. unfold protect. keep_buffers. Qed.

(** The middle of unmapping: only the block with the counters is left. *)
Lemma unmap_info_keeps s : mains_ok (v_trace s) -> si_buffer (v_p s) = 0 -> ends True unmap_info (fun _ => buffers_ok) buffers_ok s.
Proof using H0.
  intros Hm Hb. unfold unmap_info. do 2 vstep. vstep. destruct (_ =? _); vstep; vstep; [by split; [split|]|].
  destruct (after_shape (Munmap (si_buffer_info (v_p s)) sizeof_buffer_info) s) as (r' & w' & ->). split; [split; [by split|done]|done].
Qed.

Lemma unmap_buffer_keeps s : mains_ok (v_trace s) ->
  ends True unmap_buffer (fun _ s' => mains_ok (v_trace s') /\ si_buffer (v_p s') = 0) (fun _ => False) s.
Proof using H0.
  intros Hm. unfold unmap_buffer. do 2 vstep. vstep. destruct (_ =? _); vstep; vstep; [done|].
  destruct (after_shape (Munmap (si_buffer (v_p s)) (buffer_size_at (si_buffer_info (v_p s)) (v_world s))) s) as (r' & w' & ->). by split; [split|].
Qed.

Lemma map_info_keeps s : buffers_ok s ->
  ends True (map_info pkey_support) (fun ok s' => buffers_ok s' /\ (ok = true -> si_buffer_info (v_p s') <> 0)) buffers_ok s.
Proof using H0.
  intros [[Hm Hi] Hb]. unfold map_info. do 2 vstep. destruct (Z.eqb_spec (si_buffer_info (v_p s)) 0) as [E0|]; [|by vstep].
  assert (si_buffer (v_p s) = 0) as Eb by (destruct (Z.eq_dec (si_buffer (v_p s)) 0) as [|Hne]; [done|by destruct (Hb Hne)]).
  vstep. vstep. rename r into a. assert (0 < a < 2 ^ 64) as Ha by (by apply (oo_mmap _ _ _ _ _ _ H1)). do 2 vstep.
  pose proof (after_trace _ _ _ H1) as Et.
  destruct (Z.eqb_spec a MAP_FAILED) as [|Hne].
  - do 3 vstep. split; [|done]. rewrite after_p. split; [split; [|done]|]; cbn; rewrite Et; [by split|by rewrite Eb].
  - apply ends_seq_or with (Q := fun _ s' => buffers_ok s' /\ si_buffer_info (v_p s') = a /\ si_buffer (v_p s') = 0).
    + unfold protect. rewrite after_p. set (s1 := mk_visit W _ _ _ _ _).
      assert (buffers_ok s1) as Hs1. { unfold s1. split; [split|]; cbn; rewrite ?Et; [by split|intros _; by left|by rewrite Eb]. }
      do 2 vstep. destruct (_ && _); [|vstep; by split_and!]. do 2 vstep. vstep. rewrite after_p. by split; [apply buffers_after|].
    + intros ok s2 (Hs2 & Ea & Eb2). destruct ok; cbn [negb]; [vstep; split; [done|lia]|].
      eapply ends_seq_or; [apply (unmap_info_keeps s2); [apply Hs2|done]|]. intros [] s3 Hs3. by vstep.
Qed.

Lemma map_buffer_keeps s : buffers_ok s -> si_buffer_info (v_p s) <> 0 ->
  ends True (map_buffer pkey_support) (fun ok s' => buffers_ok s' /\ (ok = true -> si_buffer (v_p s') <> 0 /\ si_buffer_info (v_p s') <> 0)) buffers_ok s.
Proof using H0.
  intros [[Hm Hi] Hb] Hinfo. unfold map_buffer. do 2 vstep. destruct (Z.eqb_spec (si_buffer (v_p s)) 0) as [Eb|]; [|by vstep].
  vstep. vstep. rename r into a. assert (0 < a < 2 ^ 64) as Ha by (by apply (oo_mmap _ _ _ _ _ _ H1)). do 2 vstep.
  pose proof (after_trace _ _ _ H1) as Et. rewrite after_p.
  destruct (Z.eqb_spec a MAP_FAILED) as [|Hne].
  - do 2 vstep. eapply ends_seq_or; [apply unmap_info_keeps; [|done]|intros [] s3 Hs3; by vstep].
    cbn. rewrite Et. by split.
  - apply ends_seq_or with (Q := fun _ s' => buffers_ok s' /\ si_buffer (v_p s') = a /\ si_buffer_info (v_p s') <> 0).
    + unfold protect. set (s1 := mk_visit W _ _ _ _ _).
      assert (buffers_ok s1) as Hs1. { unfold s1. split; [split|]; cbn; rewrite ?Et; [by split|intros ?; right; by apply Hi|intros _; split; [by left|done]]. }
      do 2 vstep. destruct (_ && _); [|vstep; by split_and!]. do 2 vstep. vstep. rewrite after_p. by split; [apply buffers_after|].
    + intros ok s2 (Hs2 & Ea & Ei). destruct ok; cbn [negb]; [vstep; split; [done|split; [lia|done]]|].
      eapply ends_seq; [apply (unmap_buffer_keeps s2); apply Hs2|]. intros [] s3 [Hm3 Eb3].
      eapply ends_seq_or; [by apply (unmap_info_keeps s3)|intros [] s4 Hs4; by vstep].
Qed.

Lemma keeps_get_lua ks : keeps buffers_ok (get_lua_state ks).
Proof using H0. unfold get_lua_state. keep_buffers. Qed.

(** With both buffers mapped the steps up to [nod_monitor_main] keep the block. *)
Definition both_mapped (p : nod_stack_info) (s : visit W) : Prop := buffers_ok s /\ v_p s = p.

Lemma both_act p a (Q : Z * list Z -> visit W -> Prop) s : neutral a = true -> both_mapped p s ->
  (forall x s', both_mapped p s' -> Q x s') -> ends True (act a) Q buffers_ok s.
Proof using H0.
  intros Ha [Hs Hp] HQ. apply ends_act; [intros r bs _; apply HQ|intros _ _; by apply buffers_after]. split; [by apply buffers_after|by rewrite after_p].
Qed.

Lemma lua_and_main_keeps ks s : buffers_ok s -> si_buffer (v_p s) <> 0 ->
  ends True (kstate ← get_lua_state ks; k ← update_lua_state kstate;
    match k : option (list Z) with
    | None => mret Return
    | Some kstate => record_flag ← get_record_flag; p ← gets v_p; do_ (MonitorMain (si_buffer p) (si_buffer_info p) kstate record_flag);; mret Out
    end) (fun _ => buffers_ok) buffers_ok s.
Proof using H0.
  intros Hs Hb. set (p := v_p s). assert (both_mapped p s) as Hboth by done.
  apply ends_seq_or with (Q := fun _ => both_mapped p).
  { unfold get_lua_state. do 3 vstep. apply (both_act p); [done|done|]. intros [r bs] s1 Hs1. by vstep. }
  intros k1 s1 Hs1. apply ends_seq_or with (Q := fun _ => both_mapped p).
  { unfold update_lua_state. destruct (_ =? 0); [by vstep|]. vstep. apply (both_act p); [done|done|]. intros [r bs] s2 Hs2. destruct (_ || _); [by vstep|].
    do 3 vstep. unfold call. vstep. apply (both_act p); [done|done|]. intros [r2 bs2] s3 Hs3. by do 2 vstep. }
  intros [k2|] s2 Hs2; [|vstep; apply Hs2]. apply ends_seq_or with (Q := fun _ => both_mapped p).
  { unfold get_record_flag. do 3 vstep. apply (both_act p); [done|done|]. intros [r bs] s3 Hs3. by vstep. }
  intros flag s3 [Hs3 Hp3]. do 2 vstep. vstep. rewrite Hp3.
  assert (buffers_ok (after (MonitorMain (si_buffer p) (si_buffer_info p) k2 flag) s3)) as Hm.
  { destruct (after_shape (MonitorMain (si_buffer p) (si_buffer_info p) k2 flag) s3) as (r & w & ->). destruct Hs3 as [[Hm Hi] Hb3]. rewrite Hp3 in *.
    destruct (Hb3 Hb) as [Hmb Hne]. split; [split; [|]|]; cbn; rewrite ?Hp3; try done. split; [|done]. split; [done|by apply Hi]. }
  apply ends_do; [|done]. intros r bs _. by vstep.
Qed.

Lemma visit_keeps_buffers ks s : buffers_ok s -> ends True (nod_start_main pkey_support im ks) (fun _ => buffers_ok) buffers_ok s.
Proof using H0.
  intros Hs. unfold nod_start_main. do 2 vstep. apply ends_seq_or with (Q := fun _ => buffers_ok).
  { destruct (_ =? 0); [apply visit_keeps_bind; [apply keeps_initialize|intros _; keep_buffers|done]|apply keeps_with_pkey; [intros k; keep_buffers|done]]. }
  intros [] s1 Hs1. apply ends_seq_or with (Q := fun _ => buffers_ok).
  - unfold visit_body. apply ends_seq_or with (Q := fun _ => buffers_ok); [apply keeps_call; [by apply keeps_neutral|done]|]. intros fd s2 Hs2.
    apply ends_seq_or with (Q := fun _ => buffers_ok); [by apply keeps_fields|]. intros [] s3 Hs3. destruct (negb _); [by vstep|].
    eapply ends_seq_or; [by apply map_info_keeps|]. intros ok s4 [Hs4 Hok]. destruct ok; cbn [negb]; [|by vstep].
    eapply ends_seq_or; [apply map_buffer_keeps; [done|by apply Hok]|]. intros ok s5 [Hs5 Hok5]. destruct ok; cbn [negb]; [|by vstep].
    apply lua_and_main_keeps; [done|by apply Hok5].
  - intros e s2 Hs2. destruct e; [|by vstep]. apply (visit_keeps_bind buffers_ok (set_p _) (fun _ => _)); [by apply keeps_fields| |done]. intros [].
    apply visit_keeps_bind; [apply keeps_restore|]. intros _. unfold ASSERT_EXIT. keep_buffers.
Qed.

(** The visits of one process: a fresh block, a visit, and what the kernel does in between,
    which keeps the addresses of the buffers in the block. *)
Inductive reach : visit W -> Prop :=
  | reach_fresh p k w : si_buffer p = 0 -> si_buffer_info p = 0 -> reach (mk_visit W p 0 k [] w)
  | reach_visit s ks c s' : reach s -> nod_start_main pkey_support im ks s = Ret c s' -> reach s'
  | reach_return s ks s' : reach s -> nod_start_main pkey_support im ks s = Done tt s' -> reach s'
  | reach_process s p k w : reach s -> si_buffer p = si_buffer (v_p s) -> si_buffer_info p = si_buffer_info (v_p s) ->
      reach (mk_visit W p (v_info_fsbase s) k (v_trace s) w).

(** C31: The monitor only uses buffers that are mapped.  Over any number of visits of a
    process, and whichever of the mappings and protections fail, each run of
    [nod_monitor_main] gets a buffer and a block of counters that were mapped and not unmapped since. *)
Theorem main_gets_mapped_buffers s : reach s -> mains_ok (v_trace s).
Proof.
  intros Hr. assert (buffers_ok s) as Hs; [|apply Hs]. induction Hr as [p k w E1 E2|s ks c s' Hr IH E|s ks s' Hr IH E|s p k w Hr IH E1 E2].
  - split; [split|]; cbn; rewrite ?E1, ?E2; done.
  - pose proof (visit_keeps_buffers ks s IH) as Hk. unfold ends in Hk. by rewrite E in Hk.
  - pose proof (visit_keeps_buffers ks s IH) as Hk. unfold ends in Hk. by rewrite E in Hk.
  - unfold buffers_ok, info_ok in *. cbn. by rewrite E1, E2.
Qed.
End buffers.

(** ** The monitor's data is writable inside of a visit only *)

Lemma rights_bits k x n : 0 <= k -> 0 <= n -> Z.testbit (rights_of k x) n = Z.testbit x (n + 2 * k) && (n <? 2).
Proof.
  intros Hk Hn. unfold rights_of. rewrite Z.land_spec, Z.shiftr_spec by done. f_equal. change 3 with (Z.ones 2).
  destruct (Z.ltb_spec n 2); [apply Z.ones_spec_low; lia|apply Z.ones_spec_high; lia].
Qed.

Lemma pkru_bits k r x n : 0 <= k <= 15 -> 0 <= n ->
  Z.testbit (pkru_with k r x) n = (n <? 32) && (Z.testbit x n && negb ((2 * k <=? n) && (n <? 2 * k + 2)) || Z.testbit r (n - 2 * k) && (2 * k <=? n)).
Proof.
  intros Hk Hn. unfold pkru_with, u32, unsigned. destruct (Z.ltb_spec n 32).
  2: { rewrite Z.mod_pow2_bits_high by lia. done. }
  rewrite Z.mod_pow2_bits_low by lia. rewrite Z.lor_spec, Z.land_spec, Z.mod_pow2_bits_low by lia. rewrite Z.lnot_spec, Z.mod_pow2_bits_low by lia.
  rewrite !Z.shiftl_spec by done. cbn [andb].
  assert (Z.testbit 3 (n - 2 * k) = (2 * k <=? n) && (n <? 2 * k + 2)) as ->.
  { destruct (Z.leb_spec (2 * k) n); [|by rewrite Z.testbit_neg_r by lia]. change 3 with (Z.ones 2). destruct (Z.ltb_spec n (2 * k + 2)); [apply Z.ones_spec_low; lia|apply Z.ones_spec_high; lia]. }
  destruct (Z.leb_spec (2 * k) n); [by rewrite andb_true_r|]. rewrite (Z.testbit_neg_r r) by lia. done.
Qed.

(** [pkey_set] sets the rights of its key and of no other one. *)
Lemma pkru_with_same k r x : 0 <= k <= 15 -> 0 <= r <= 3 -> rights_of k (pkru_with k r x) = r.
Proof.
  intros Hk Hr. apply Z.bits_inj'. intros n Hn. rewrite rights_bits, pkru_bits by lia.
  destruct (Z.ltb_spec n 2).
  - destruct (Z.ltb_spec (n + 2 * k) 32), (Z.leb_spec (2 * k) (n + 2 * k)), (Z.ltb_spec (n + 2 * k) (2 * k + 2)); try lia.
    cbn [andb negb]. rewrite andb_false_r, !andb_true_r. cbn [orb]. f_equal. lia.
  - rewrite andb_false_r. symmetry. apply (Z.bits_above_log2 r n); [lia|]. destruct (Z.eq_dec r 0) as [->|]; [cbn; lia|].
    apply Z.log2_lt_pow2; [lia|]. assert (2 ^ 2 <= 2 ^ n) by (apply Z.pow_le_mono_r; lia). lia.
Qed.

Lemma pkru_with_other k k' r x : 0 <= k <= 15 -> 0 <= k' <= 15 -> k' <> k -> 0 <= r <= 3 -> rights_of k' (pkru_with k r x) = rights_of k' x.
Proof.
  intros Hk Hk' Hne Hr. apply Z.bits_inj'. intros n Hn. rewrite !rights_bits, pkru_bits by lia.
  destruct (Z.ltb_spec n 2); [|by rewrite !andb_false_r]. rewrite !andb_true_r.
  destruct (Z.ltb_spec (n + 2 * k') 32); [|lia]. cbn [andb].
  destruct (Z.leb_spec (2 * k) (n + 2 * k')), (Z.ltb_spec (n + 2 * k') (2 * k + 2)); try lia; cbn [andb negb]; rewrite ?andb_true_r, ?andb_false_r, ?orb_false_r; try done.
  replace (Z.testbit r (n + 2 * k' - 2 * k)) with false; [by rewrite orb_false_r|]. symmetry. apply (Z.bits_above_log2 r); [lia|].
  destruct (Z.eq_dec r 0) as [->|]; [cbn; lia|]. apply Z.log2_lt_pow2; [lia|]. assert (2 ^ 2 <= 2 ^ (n + 2 * k' - 2 * k)) by (apply Z.pow_le_mono_r; lia). lia.
Qed.

Section pkru.
Context {W : Type} `{OutsideOk W} (im : image) (key pkru0 : Z) (Hkey : 0 <= key <= 15).

(** The rights of the other keys. *)
Definition others_same (x : Z) : Prop := forall k, 0 <= k <= 15 -> k <> key -> rights_of k x = rights_of k pkru0.

(** PKRU during an action: [nod_monitor_main] may write to the data, and the process gets
    it back write-protected. *)
Definition item_ok (it : item) : Prop :=
  others_same (it_pkru it) /\
  match it_action it with
  | MonitorMain _ _ _ _ => rights_of key (it_pkru it) = PKEY_WR
  | Ioctl _ cmd _ => cmd = NOD_IOCTL_RESTORE_CONTEXT -> rights_of key (it_pkru it) = PKEY_DISABLE_WRITE
  | _ => True
  end.

(** In the visit: what was done since [t0], and the rights now. *)
Definition guarded (t0 : list item) (s : visit W) : Prop :=
  (exists new, v_trace s = new ++ t0 /\ Forall item_ok new) /\ others_same (v_pkru s) /\ si_pkey (v_p s) = key.
Definition guarded_at (r : Z) (t0 : list item) (s : visit W) : Prop := guarded t0 s /\ rights_of key (v_pkru s) = r.

Definition plain (a : action) : bool :=
  match a with MonitorMain _ _ _ _ => false | Ioctl _ cmd _ => negb (cmd =? NOD_IOCTL_RESTORE_CONTEXT) | _ => true end.

Lemma guarded_after t0 a s : guarded t0 s -> item_ok (mk_item a (v_pkru s) None) -> guarded t0 (after a s).
Proof.
  intros ((new & Et & Hn) & Ho & Hk) Hi. destruct (after_shape a s) as (r & w & ->). split; [|done]. exists (mk_item a (v_pkru s) r :: new). cbn. rewrite Et.
  split; [done|]. by constructor.
Qed.

Lemma plain_ok a x : plain a = true -> others_same x -> item_ok (mk_item a x None).
Proof. intros Ha Hx. split; [done|]. destruct a; try done. cbn in *. intros ->. by rewrite Z.eqb_refl in Ha. Qed.

Lemma after_pkru a (s : visit W) : v_pkru (after a s) = v_pkru s.
Proof. by destruct (after_shape a s) as (r & w & ->). Qed.

Lemma keeps_plain t0 a : plain a = true -> keeps (guarded t0) (act a).
Proof using H0. intros Ha. apply keeps_act. intros s Hs. apply guarded_after; [done|]. apply plain_ok; [done|apply Hs]. Qed.
Lemma keeps_plain_at r t0 a : plain a = true -> keeps (guarded_at r t0) (act a).
Proof using H0. intros Ha. apply keeps_act. intros s [Hs Hr]. split; [|by rewrite after_pkru]. apply guarded_after; [done|]. apply plain_ok; [done|apply Hs]. Qed.
Lemma keeps_guard_p t0 f : (forall p, si_pkey (f p) = si_pkey p) -> keeps (guarded t0) (set_p f).
Proof using H0. intros Hf. apply keeps_set_p. intros s (Ht & Ho & Hk). by split_and!; [| |cbn; rewrite Hf]. Qed.
Lemma keeps_guard_p_at r t0 f : (forall p, si_pkey (f p) = si_pkey p) -> keeps (guarded_at r t0) (set_p f).
Proof using H0. intros Hf. apply keeps_set_p. intros s [(Ht & Ho & Hk) Hr]. split; [|done]. by split_and!; [| |cbn; rewrite Hf]. Qed.

Lemma guarded_set r t0 s : 0 <= r <= 3 -> guarded t0 s -> guarded_at r t0 (with_pkru (pkru_with key r (v_pkru s)) s).
Proof using Hkey.
  intros Hr (Ht & Ho & Hk). split; [|by apply pkru_with_same]. split_and!; [done| |done]. intros k Hk1 Hk2. cbn. rewrite pkru_with_other by done. by apply Ho.
Qed.

(** [pkey_set] of the process's key. *)
Lemma pkey_set_run r t0 s : 0 <= r <= 3 -> guarded t0 s ->
  ends True (pkey_set (W := W) key r) (fun _ => guarded_at r t0) (fun _ => False) s.
Proof using H0 Hkey. intros Hr Hs. apply ends_pkey_set; [intros _ _; by apply guarded_set|lia]. Qed.

Ltac keep_guard := keep ltac:(first [apply keeps_plain_at; done | apply keeps_guard_p_at; done | by intros ? ?]).

Lemma keeps_main t0 b i ks f : keeps (guarded_at PKEY_WR t0) (act (MonitorMain b i ks f)).
Proof using H0. apply keeps_act. intros s [Hs Hr]. split; [|by rewrite after_pkru]. apply guarded_after; [done|]. split; [apply Hs|done]. Qed.

Lemma body_guarded t0 ks : keeps (guarded_at PKEY_WR t0) (visit_body true ks).
Proof using H0.
  unfold visit_body, map_info, map_buffer, protect, unmap_info, unmap_buffer, get_lua_state, update_lua_state, get_record_flag.
  keep ltac:(first [apply keeps_plain_at; done | apply keeps_main | apply keeps_guard_p_at; done]).
Qed.

Lemma keeps_weaken {A} r t0 (m : M (visit W) A) : keeps (guarded_at r t0) m ->
  forall s, guarded_at r t0 s -> ends True m (fun _ => guarded_at r t0) (guarded t0) s.
Proof using Type. intros Hm s Hs. apply (ends_mono _ _ _ _ _ _ _ _ (Hm s Hs)); [done|done|]. by intros s' []. Qed.

Lemma uses_key t0 s : guarded t0 s -> uses_pkey true (v_p s) = true /\ si_pkey (v_p s) = key.
Proof using Hkey. intros (_ & _ & Hk). split; [|done]. unfold uses_pkey. rewrite Hk. destruct (Z.eqb_spec key (-1)); [lia|done]. Qed.

Lemma initialize_guarded t0 s : guarded t0 s -> v_info_fsbase s = 0 ->
  ends True (nod_initialize true im) (fun _ => guarded_at PKEY_WR t0) (guarded t0) s.
Proof using H0 Hkey.
  intros Hs Hf. unfold nod_initialize. apply ends_seq_or with (Q := fun _ s' => guarded t0 s' /\ v_info_fsbase s' = 0).
  { assert (guarded t0 (after (ArchPrctl ARCH_GET_FS) s)) as Ha by (apply guarded_after; [done|apply plain_ok; [done|apply Hs]]).
    apply ends_act; [|by intros _ _]. intros r bs _. split; [done|]. by destruct (after_shape (ArchPrctl ARCH_GET_FS) s) as (r' & w & ->). }
  intros [r bs] s1 [Hs1 Hf1]. do 2 vstep. do 2 vstep. rewrite Hf1. cbn [Z.eqb].
  apply ends_seq_or with (Q := fun _ => guarded_at PKEY_WR t0).
  2: { intros [] s2 Hs2. apply keeps_weaken; [keep_guard|done]. }
  do 2 vstep. set (s2 := mk_visit W _ _ _ _ _). assert (guarded t0 s2) as Hs2 by done.
  apply ends_seq_or with (Q := fun _ => guarded t0).
  { apply (keeps_do (guarded t0)); [by apply keeps_plain|done]. }
  intros [] s3 Hs3. destruct (uses_key _ _ Hs3) as [Hu Ek]. apply ends_with_pkey; [|by rewrite Hu]. intros _. rewrite Ek.
  eapply ends_seq; [by apply (pkey_set_run 0 t0)|]. intros x s4 Hs4. apply keeps_weaken; [unfold ASSERT_EXIT; keep_guard|done].
Qed.

Lemma restore_guarded t0 s : guarded_at PKEY_WR t0 s -> ends True (nod_restore_context true) (fun _ _ => False) (guarded t0) s.
Proof using H0 Hkey.
  intros [Hs Hr]. unfold nod_restore_context. do 2 vstep. destruct (uses_key _ _ Hs) as [Hu Ek].
  eapply (ends_seq_or _ _ _ (fun _ _ => True)); [|done]. destruct (SYSCALL_EXIT_FAMILY _).
  - eapply ends_mono; [apply (keeps_weaken PKEY_WR t0 (do_ _;; do_ _)); [keep_guard|by split]|done|done|done].
  - apply ends_seq with (Q := fun _ => guarded_at PKEY_DISABLE_WRITE t0).
    { apply ends_with_pkey; [|by rewrite Hu]. intros _. rewrite Ek. eapply ends_seq; [apply (pkey_set_run PKEY_DISABLE_WRITE t0); [done|exact Hs]|]. intros x s1 Hs1. by vstep. }
    intros [] s1 [Hs1 Hr1]. assert (forall a, v_pkru (after a s1) = v_pkru s1) as _ by (intros; apply after_pkru).
    apply ends_bind, ends_act; intros; [done|]. apply guarded_after; [done|]. split; [apply Hs1|]. by intros _.
Qed.

(** C32: The monitor's data is writable inside of a visit only.  With protection keys, whatever
    happens in a visit, [nod_monitor_main] runs with the rights of the process's key
    set to read and write, a request to restore the process is made with writing
    disabled, and the rights of all other keys stay as they were. *)
Theorem data_writable_in_visit_only ks s : si_pkey (v_p s) = key -> v_pkru s = pkru0 -> (si_fsbase (v_p s) = 0 -> v_info_fsbase s = 0) ->
  ends True (nod_start_main true im ks) (fun _ => guarded (v_trace s)) (guarded (v_trace s)) s.
Proof.
  intros Hk Hp Hf. assert (guarded (v_trace s) s) as Hs. { split_and!; [by exists []|intros k _ _; by rewrite Hp|done]. }
  unfold nod_start_main. do 2 vstep. apply ends_seq_or with (Q := fun _ => guarded_at PKEY_WR (v_trace s)).
  - destruct (Z.eqb_spec (si_fsbase (v_p s)) 0) as [E|].
    + eapply ends_seq_or; [apply initialize_guarded; [done|by apply Hf]|]. intros [] s1 Hs1. apply keeps_weaken; [keep_guard|done].
    + destruct (uses_key _ _ Hs) as [Hu _]. apply ends_with_pkey; [|by rewrite Hu]. intros _. rewrite Hk.
      eapply ends_seq; [by apply (pkey_set_run PKEY_WR (v_trace s))|]. intros x s1 Hs1. by vstep.
  - intros [] s1 Hs1. apply ends_seq_or with (Q := fun _ => guarded_at PKEY_WR (v_trace s)); [apply keeps_weaken; [apply body_guarded|done]|].
    intros e s2 Hs2. destruct e; [|vstep; apply Hs2].
    apply ends_seq with (Q := fun _ => guarded_at PKEY_WR (v_trace s)); [destruct Hs2 as [(Ht & Ho & Hk2) Hr2]; by vstep|].
    intros [] s3 Hs3. eapply ends_seq_or; [by apply restore_guarded|done].
Qed.
End pkru.

(** ** A visit that runs *)

(** A machine whose device opens as descriptor [fd], with the answers to [stat] and to a new time. *)
Definition demo_answer (fd : Z) (mtime : list Z) (set_result : Z) (a : action) : option (Z * list Z) :=
  if leaves a then None else
  Some match a with
  | ArchPrctl _ => (0, le_bytes 8 0x7000)
  | Open _ => (fd, [])
  | Mmap len _ _ => (0x10000 * (1 + len mod 0x10000), [])
  | Ioctl _ cmd arg => if cmd =? NOD_IOCTL_GET_LUA_STATE then (0, replicate 256 0 ++ le_bytes 8 7)
                       else if cmd =? NOD_IOCTL_SET_LUA_STATE then (set_result, []) else (-1, [])
  | Stat _ => (0, mtime)
  | _ => (0, [])
  end.
#[export] Instance demo_outside fd mtime r : Outside unit := {| answer a w := (demo_answer fd mtime r a, tt); buffer_size_at _ _ := 4096 |}.

Definition demo_image : image := mk_image 0x1000 0x2000 0x3000 0x2800.
Definition demo_block (fsbase : Z) : nod_stack_info := mk_stack (-1) 2 0 7 fsbase 0 0x8000 0x9000 0 0.
Definition demo_visit (fsbase : Z) : visit unit := mk_visit unit (demo_block fsbase) fsbase 0x55555554 [] tt.
Definition run_demo (fd : Z) (mtime : list Z) (r : Z) (s : visit unit) : outcome (visit unit) unit :=
  nod_start_main (H := demo_outside fd mtime r) true demo_image (replicate 264 0xcc) s.

#[export] Instance demo_outside_ok fd mtime r : - 1 <= fd < 2 ^ 31 -> @OutsideOk unit (demo_outside fd mtime r).
Proof.
  intros Hfd. split; cbn [answer demo_outside fst]; unfold demo_answer.
  - intros a [] ->. by eexists.
  - by intros a [] ->.
  - intros path [] fd' bs E. injection E as <- _. done.
  - intros len prot fd' [] a bs E. injection E as <- _. pose proof (Z.mod_pos_bound len 0x10000 ltac:(lia)). lia.
  - intros code [] r' bs E. injection E as _ <-. split; [apply le_bytes_ok|by vm_compute].
Qed.

Lemma fd3 : - 1 <= 3 < 2 ^ 31.
Proof. lia. Qed.

Lemma demo_block_ok x : 0 <= x < 2 ^ 64 -> stack_ok (demo_block x).
Proof. intros Hx. by split. Qed.

Lemma visit_asks_to_leave_witness :
  let p0 := v_p (demo_visit 0) in
  ends False (nod_start_main (H := demo_outside 3 (le_bytes 8 8) 0) true demo_image (replicate 264 0xcc)) (fun _ _ => False)
    (fun s' => aborted s' \/
      if SYSCALL_EXIT_FAMILY (si_syscall_nr p0) then exited p0 s' else asked p0 (v_p s') s' /\ granted (K := block_call) (M_ := unit) (H := demo_ops 0) (P := Z) (v_p s'))
    (demo_visit 0).
Proof.
  apply (@visit_asks_to_leave unit (demo_outside 3 (le_bytes 8 8) 0) (demo_outside_ok 3 (le_bytes 8 8) 0 fd3)).
  - intros []. exists 3, []. split; [reflexivity|lia].
  - intros fd ks [] r bs E. cbn in E. unfold demo_answer in E. rewrite stays_set in E. injection E as <- _. reflexivity.
  - apply demo_block_ok. lia.
Defined.

Definition is_main (it : item) : bool := match it_action it with MonitorMain _ _ _ _ => true | _ => false end.

Local Notation demo_run := (nod_start_main (H := demo_outside 3 (le_bytes 8 7) 0) true demo_image (replicate 264 0xcc)).

Lemma demo_run_leaves : match demo_run (demo_visit 0) with Ret _ s' => existsb is_main (v_trace s') | _ => false end = true.
Proof. by vm_compute. Qed.

Lemma main_gets_mapped_buffers_witness : exists c s', demo_run (demo_visit 0) = Ret c s' /\ existsb is_main (v_trace s') = true /\ mains_ok (v_trace s').
Proof.
  pose proof demo_run_leaves as Hl. destruct (demo_run (demo_visit 0)) as [[] s'|c s'|] eqn:E; [discriminate Hl| |discriminate Hl].
  exists c, s'. split; [reflexivity|]. split; [exact Hl|].
  refine (@main_gets_mapped_buffers unit (demo_outside 3 (le_bytes 8 7) 0) (demo_outside_ok 3 (le_bytes 8 7) 0 fd3) true demo_image s' _).
  eapply reach_visit; [|exact E]. apply reach_fresh; reflexivity.
Defined.

Lemma data_writable_in_visit_only_witness :
  ends True demo_run (fun _ => guarded 2 0x55555554 (v_trace (demo_visit 0x7000))) (guarded 2 0x55555554 (v_trace (demo_visit 0x7000))) (demo_visit 0x7000).
Proof.
  refine (@data_writable_in_visit_only unit (demo_outside 3 (le_bytes 8 7) 0) (demo_outside_ok 3 (le_bytes 8 7) 0 fd3) demo_image 2 0x55555554
    ltac:(lia) (replicate 264 0xcc) (demo_visit 0x7000) _ _ _); [reflexivity|reflexivity|discriminate].
Defined.

(** Two ways out that lead nowhere.  If the module does not take the time of a changed
    script, [nod_start_main] returns without a request to leave; if the device cannot be
    opened, the request goes to descriptor -1 and the code behind it is reached. *)
Theorem visit_dead_ends :
  (match run_demo 3 (le_bytes 8 8) (-1) (demo_visit 0) with Done _ s => forallb (fun it => negb (leaves (it_action it))) (v_trace s) | _ => false end) = true /\
  run_demo (-1) (le_bytes 8 7) 0 (demo_visit 0) = Bug.
Proof. split; by vm_compute. Qed.
