(* ===== verification/Relocate.v ===== *)
(** * The entry of the monitor: [_start_c] of [monitor/src/startup.c]

    The monitor is a static position-independent program: at the first visit [_start_c] reads
    the tables that the kernel put on the stack and the program's dynamic section, finds
    the address the program was loaded at and relocates it, before any other code
    can run.  Memory is [bmem]; an access to an address that is not mapped is a fault. *)

From S2P Require Import Prelude ProcState Loader ByteMem.

Local Open Scope Z_scope.

Definition AUX_CNT : Z := 32.
Definition DYN_CNT : Z := 32.
Definition PT_DYNAMIC : Z := 2.
Definition DT_RELA : Z := 7.
Definition DT_RELASZ : Z := 8.
Definition DT_REL : Z := 17.
Definition DT_RELSZ : Z := 18.
Definition R_X86_64_RELATIVE : Z := 8.

Definition R_TYPE (x : Z) : Z := x &! 0x7fffffff.
Definition R_SYM (x : Z) : Z := Z.shiftr x 32.
Definition REL_RELATIVE : Z := R_X86_64_RELATIVE.
(** An enumeration constant, -100 and eight further, converted to [size_t]. *)
Definition REL_SYM_OR_REL : Z := u64 (-100 + 8).
Definition IS_RELATIVE (x : Z) : bool := (R_TYPE x =? REL_RELATIVE) || ((R_TYPE x =? REL_SYM_OR_REL) && (R_SYM x =? 0)).

(** [*(size_t * )a], [*(uint32_t * )a] and an assignment. *)
Definition ld (a : Z) : M bmem Z := m ← get; lift (rd m a).
Definition ld32 (a : Z) : M bmem Z := m ← get; lift (le_val <$> load_bytes m a 4).
Definition st (a v : Z) : M bmem unit := m ← get; m' ← lift (store64 m a v); put m'.

(** [for (i = argc + 1; argv[i]; i++);] *)
Fixpoint skip_env (fuel : nat) (argv i : Z) : M bmem Z :=
  match fuel with
  | O => bug
  | S fuel => e ← ld (u64 (argv + 8 * i)); if e =? 0 then mret i else skip_env fuel argv (u64 (i + 1))
  end.

(** [for (i = 0; v[i]; i += 2) if (v[i] < 32) t[v[i]] = v[i + 1];] with [a] the address of [v[i]]. *)
Fixpoint scan_tags (fuel : nat) (a cnt : Z) (t : list Z) : M bmem (list Z) :=
  match fuel with
  | O => bug
  | S fuel =>
      tag ← ld a;
      if tag =? 0 then mret t else
      if tag <? cnt then x ← ld (u64 (a + 8)); scan_tags fuel (u64 (a + 16)) cnt (<[Z.to_nat tag := x]> t)
      else scan_tags fuel (u64 (a + 16)) cnt t
  end.

Definition tag_at (t : list Z) (i : Z) : Z := default 0 (t !! Z.to_nat i).

(** [for (i = phnum; i--; ph += phentsize) if (ph->p_type == PT_DYNAMIC) ...] *)
Fixpoint find_dynamic (phnum : nat) (ph phentsize dynv : Z) : M bmem Z :=
  match phnum with
  | O => mret 0
  | S phnum =>
      ty ← ld32 ph;
      if ty =? PT_DYNAMIC then v ← ld (u64 (ph + 16)); mret (u64 (dynv - v))
      else find_dynamic phnum (u64 (ph + phentsize)) phentsize dynv
  end.

(** The two loops over relocations. *)
Fixpoint rel_loop (fuel : nat) (rel rel_size base : Z) : M bmem unit :=
  match fuel with
  | O => bug
  | S fuel =>
      if rel_size =? 0 then mret tt else
      info ← ld (u64 (rel + 8));
      (if IS_RELATIVE info then off ← ld rel; let rel_addr := u64 (base + off) in v ← ld rel_addr; st rel_addr (u64 (v + base)) else mret tt);;
      rel_loop fuel (u64 (rel + 16)) (u64 (rel_size - 16)) base
  end.

Fixpoint rela_loop (fuel : nat) (rel rel_size base : Z) : M bmem unit :=
  match fuel with
  | O => bug
  | S fuel =>
      if rel_size =? 0 then mret tt else
      info ← ld (u64 (rel + 8));
      (if IS_RELATIVE info then off ← ld rel; addend ← ld (u64 (rel + 16)); st (u64 (base + off)) (u64 (base + addend)) else mret tt);;
      rela_loop fuel (u64 (rel + 24)) (u64 (rel_size - 24)) base
  end.

(** What runs next: [nod_start_main(argc, argv, env)], or [__libc_start_main], which calls it. *)
Inductive start_call : Type := NodStartMain (argc argv env : Z) | LibcStartMain (argc argv : Z).

Definition _start_c (fuel : nat) (info_fsbase sp dynv : Z) : M bmem start_call :=
  sp0 ← ld sp;
  let argc := s32 sp0 in
  let argv := u64 (sp + 8) in
  if negb (info_fsbase =? 0) then mret (NodStartMain argc argv (u64 (argv + 8 * (argc + 1)))) else
  i ← skip_env fuel argv (u64 (argc + 1));
  aux ← scan_tags fuel (u64 (argv + 8 * (i + 1))) AUX_CNT (replicate (Z.to_nat AUX_CNT) 0);
  dyn ← scan_tags fuel dynv DYN_CNT (replicate (Z.to_nat DYN_CNT) 0);
  let base := tag_at aux AT_BASE in
  base ← (if base =? 0 then find_dynamic (Z.to_nat (tag_at aux AT_PHNUM)) (tag_at aux AT_PHDR) (tag_at aux AT_PHENT) dynv else mret base);
  rel_loop fuel (u64 (base + tag_at dyn DT_REL)) (tag_at dyn DT_RELSZ) base;;
  rela_loop fuel (u64 (base + tag_at dyn DT_RELA)) (tag_at dyn DT_RELASZ) base;;
  mret (LibcStartMain (s32 sp0) (u64 (sp + 8))).

(** ** Tables in memory *)

(** The words [ws] from [a] on. *)
Definition words_at (m : bmem) (a : Z) (ws : list Z) : Prop := forall i w, ws !! i = Some w -> rd m (a + 8 * Z.of_nat i) = Some w.

Lemma words_cons m a w ws : words_at m a (w :: ws) <-> rd m a = Some w /\ words_at m (a + 8) ws.
Proof.
  split.
  - intros H. split; [rewrite <- (Z.add_0_r a); by apply (H 0%nat)|]. intros i x Hi. replace (a + 8 + 8 * Z.of_nat i) with (a + 8 * Z.of_nat (S i)) by lia. by apply H.
  - intros [H0 H] [|i] x Hi; [cbn in Hi; injection Hi as <-; by rewrite Z.add_0_r|]. replace (a + 8 * Z.of_nat (S i)) with (a + 8 + 8 * Z.of_nat i) by lia. by apply H.
Qed.

Lemma words_app m a u w : words_at m a (u ++ w) <-> words_at m a u /\ words_at m (a + 8 * zlen u) w.
Proof.
  revert a. induction u as [|x u IH]; intros a; cbn [app].
  - rewrite (@zlen_nil Z), Z.mul_0_r, Z.add_0_r. split; [|by intros []]. intros H. split; [|done]. by intros i y Hi.
  - rewrite !words_cons, IH, zlen_cons. replace (a + 8 + 8 * zlen u) with (a + 8 * (1 + zlen u)) by lia. tauto.
Qed.

Definition flat_pairs (l : list (Z * Z)) : list Z := flat_map (fun '(t, v) => [t; v]) l.

(** What [scan_tags] makes of a table, and the value of a tag: that of its last entry. *)
Definition put_tags (cnt : Z) (l : list (Z * Z)) (t : list Z) : list Z := foldl (fun t '(k, v) => if k <? cnt then <[Z.to_nat k := v]> t else t) t l.
Definition tag_value (tag : Z) (l : list (Z * Z)) : Z := foldl (fun x '(k, v) => if k =? tag then v else x) 0 l.

Lemma u64_small x : 0 <= x < 2 ^ 64 -> u64 x = x.
Proof. apply unsigned_small. Qed.

Lemma ld_run a m w : rd m a = Some w -> ld a m = Done w m.
Proof. intros E. unfold ld, mbind, M_bind, get. by rewrite E. Qed.

Lemma scan_run m cnt l rest fuel a t : words_at m a (flat_pairs l ++ 0 :: rest) -> Forall (fun p => p.1 <> 0) l -> 0 <= a ->
  a + 16 * zlen l + 8 <= 2 ^ 64 -> (length l < fuel)%nat -> scan_tags fuel a cnt t m = Done (put_tags cnt l t) m.
Proof.
  revert fuel a t. induction l as [|[k v] l IH]; intros fuel a t Hw Hk Ha Hb Hf; (destruct fuel as [|fuel]; [cbn in Hf; lia|]); cbn [scan_tags].
  - apply words_cons in Hw as [Hw _]. unfold mbind at 1, M_bind. by rewrite (ld_run _ _ _ Hw).
  - cbn [flat_pairs flat_map app] in Hw. apply words_cons in Hw as [Hk0 Hw]. apply words_cons in Hw as [Hv Hw].
    apply Forall_cons_1 in Hk as [Hne Hk]. cbn in Hne. rewrite zlen_cons in Hb. pose proof (zlen_nonneg l). cbn [length] in Hf.
    unfold mbind at 1, M_bind at 1. rewrite (ld_run _ _ _ Hk0). destruct (Z.eqb_spec k 0); [done|].
    rewrite (u64_small (a + 8)), (u64_small (a + 16)) by lia. replace (a + 8 + 8) with (a + 16) in Hw by lia.
    cbn [put_tags foldl]. destruct (k <? cnt); [unfold mbind at 1, M_bind at 1; rewrite (ld_run _ _ _ Hv)|]; (rewrite IH by (done || lia)); done.
Qed.

Lemma put_tags_length cnt l t : length (put_tags cnt l t) = length t.
Proof. revert t. induction l as [|[k v] l IH]; intros t; [done|]. unfold put_tags in *. cbn [foldl]. rewrite IH. destruct (_ <? _); [apply length_insert|done]. Qed.

Lemma put_tags_at tag cnt l t : 0 <= tag < cnt -> length t = Z.to_nat cnt -> Forall (fun p => 0 <= p.1) l ->
  tag_at (put_tags cnt l t) tag = foldl (fun x '(k, v) => if k =? tag then v else x) (tag_at t tag) l.
Proof.
  intros Ht. revert t. induction l as [|[k v] l IH]; intros t Hl Hk; [done|]. apply Forall_cons_1 in Hk as [Hk0 Hk]. cbn in Hk0.
  unfold put_tags in *. cbn [foldl]. destruct (Z.ltb_spec k cnt).
  - rewrite IH by (rewrite ?length_insert; done). f_equal. unfold tag_at. destruct (Z.eqb_spec k tag) as [->|].
    + by rewrite list_lookup_insert_eq by lia.
    + by rewrite list_lookup_insert_ne by lia.
  - rewrite IH by done. destruct (Z.eqb_spec k tag); [lia|done].
Qed.

Lemma skip_run m argv envs rest fuel i : words_at m (argv + 8 * i) (envs ++ 0 :: rest) -> Forall (fun e => e <> 0) envs -> 0 <= argv -> 0 <= i ->
  argv + 8 * (i + zlen envs) + 8 <= 2 ^ 64 -> (length envs < fuel)%nat -> skip_env fuel argv i m = Done (i + zlen envs) m.
Proof.
  revert fuel i. induction envs as [|e envs IH]; intros fuel i Hw He Ha Hi Hb Hf; (destruct fuel as [|fuel]; [cbn in Hf; lia|]); cbn [skip_env app] in *;
    apply words_cons in Hw as [Hw0 Hw]; unfold mbind at 1, M_bind.
  - rewrite (@zlen_nil Z) in *. rewrite u64_small by lia. rewrite (ld_run _ _ _ Hw0). cbn. by rewrite Z.add_0_r.
  - apply Forall_cons_1 in He as [Hne He]. rewrite zlen_cons in *. pose proof (zlen_nonneg envs). cbn [length] in Hf.
    rewrite u64_small by lia. rewrite (ld_run _ _ _ Hw0). destruct (Z.eqb_spec e 0); [done|]. rewrite u64_small by lia.
    rewrite IH; [f_equal; lia|by replace (argv + 8 * (i + 1)) with (argv + 8 * i + 8) by lia|done|done|lia|lia|lia].
Qed.

(** The program headers' types and addresses, and the first [PT_DYNAMIC]. *)
Definition phdrs_at (m : bmem) (a : Z) (phs : list (Z * Z)) : Prop :=
  forall i ty va, phs !! i = Some (ty, va) -> (le_val <$> load_bytes m (a + 56 * Z.of_nat i) 4) = Some ty /\ rd m (a + 56 * Z.of_nat i + 16) = Some va.
Fixpoint first_dynamic (phs : list (Z * Z)) : option Z :=
  match phs with [] => None | (ty, va) :: phs => if ty =? PT_DYNAMIC then Some va else first_dynamic phs end.

Lemma find_dynamic_run m phs a dynv v : phdrs_at m a phs -> first_dynamic phs = Some v -> 0 <= a -> a + 56 * zlen phs <= 2 ^ 64 ->
  find_dynamic (length phs) a 56 dynv m = Done (u64 (dynv - v)) m.
Proof.
  revert a. induction phs as [|[ty va] phs IH]; intros a Hp Hd Ha Hb; [done|]. cbn [find_dynamic length first_dynamic] in *. rewrite zlen_cons in Hb. pose proof (zlen_nonneg phs).
  destruct (Hp 0%nat ty va eq_refl) as [Ht Hv]. rewrite Z.mul_0_r, Z.add_0_r in Ht, Hv. unfold ld32, mbind, M_bind, get. rewrite Ht. cbn [lift mret M_ret].
  destruct (ty =? PT_DYNAMIC).
  - injection Hd as ->. rewrite u64_small by lia. by rewrite (ld_run _ _ _ Hv).
  - destruct phs as [|p0 phs']; [done|]. rewrite zlen_cons in *. pose proof (zlen_nonneg phs'). rewrite u64_small by lia. apply IH; [|done|lia|lia].
    intros i ty' va' Hi. replace (a + 56 + 56 * Z.of_nat i) with (a + 56 * Z.of_nat (S i)) by lia. by apply Hp.
Qed.

(** ** Relocations *)

Record rela : Type := mk_rela { r_offset : Z; r_info : Z; r_addend : Z }.
Definition flat_rela (l : list rela) : list Z := flat_map (fun e => [r_offset e; r_info e; r_addend e]) l.
Definition relative (e : rela) : bool := IS_RELATIVE (r_info e).

(** The memory after the relative entries of [l] were applied for a program at [base]. *)
Definition relocated (base : Z) (l : list rela) (m : bmem) : bmem :=
  foldl (fun m e => if relative e then wr m (base + r_offset e) (u64 (base + r_addend e)) else m) m l.

(** The words that are relocated are mapped and do not meet the [n] bytes from [a] on. *)
Definition targets_ok (base : Z) (l : list rela) (m : bmem) (a n : Z) : Prop :=
  Forall (fun e => relative e = true -> 0 <= base + r_offset e /\ base + r_offset e + 8 < 2 ^ 64 /\ mapped m (base + r_offset e) 8 /\
    (base + r_offset e + 8 <= a \/ a + n <= base + r_offset e)) l.

Lemma words_wr m a ws b v : words_at m a ws -> b + 8 <= a \/ a + 8 * zlen ws <= b -> words_at (wr m b v) a ws.
Proof.
  intros Hw Hb i w Hi. rewrite rd_wr_ne; [by apply Hw|]. apply lookup_lt_Some in Hi. unfold zlen in Hb. lia.
Qed.

Lemma targets_wr base l m a n b v : targets_ok base l m a n -> targets_ok base l (wr m b v) a n.
Proof. intros H. eapply Forall_impl; [|exact H]. cbn beta. intros e He Hr. destruct (He Hr) as (? & ? & ? & ?). split_and!; try done. by apply mapped_wr. Qed.

Lemma targets_tail base l m a n b k : targets_ok base l m a n -> a <= b -> b + k <= a + n -> targets_ok base l m b k.
Proof. intros H ??. eapply Forall_impl; [|exact H]. cbn beta. intros e He Hr. destruct (He Hr) as (? & ? & ? & ?). split_and!; try done. lia. Qed.

Lemma zlen_flat_rela l : zlen (flat_rela l) = 3 * zlen l.
Proof. induction l as [|e l IH]; [done|]. cbn [flat_rela flat_map app]. rewrite !zlen_cons. unfold flat_rela in IH. rewrite IH. lia. Qed.

Lemma rela_run base l fuel a m : words_at m a (flat_rela l) -> targets_ok base l m a (24 * zlen l) -> 0 <= a -> a + 24 * zlen l < 2 ^ 64 ->
  (length l < fuel)%nat -> rela_loop fuel a (24 * zlen l) base m = Done tt (relocated base l m).
Proof.
  revert fuel a m. induction l as [|e l IH]; intros fuel a m Hw Ht Ha Hb Hf; (destruct fuel as [|fuel]; [cbn in Hf; lia|]); [done|].
  cbn [rela_loop]. pose proof (zlen_flat_rela l) as Hfl. rewrite zlen_cons in *. pose proof (zlen_nonneg l). cbn [length] in Hf.
  destruct (Z.eqb_spec (24 * (1 + zlen l)) 0); [lia|]. cbn [flat_rela flat_map app] in Hw. fold (flat_rela l) in Hw.
  apply words_cons in Hw as [H0 Hw]. apply words_cons in Hw as [H1 Hw]. apply words_cons in Hw as [H2 Hw].
  replace (a + 8 + 8) with (a + 16) in * by lia. replace (a + 16 + 8) with (a + 24) in * by lia.
  pose proof (Forall_inv Ht) as He. apply Forall_inv_tail in Ht. fold (targets_ok base l m a (24 * (1 + zlen l))) in Ht.
  apply (targets_tail _ _ _ _ _ (a + 24) (24 * zlen l)) in Ht; [|lia|lia].
  rewrite (u64_small (a + 8)), (u64_small (a + 16)), (u64_small (a + 24)), (u64_small (24 * (1 + zlen l) - 24)) by lia.
  unfold mbind at 1, M_bind at 1. rewrite (ld_run _ _ _ H1). unfold relocated. cbn [foldl]. fold (relative e).
  replace (24 * (1 + zlen l) - 24) with (24 * zlen l) by lia.
  destruct (relative e) eqn:Er.
  - destruct (He Er) as (Hlo & Hhi & Hm & Hd). unfold mbind, M_bind. rewrite (ld_run _ _ _ H0), (ld_run _ _ _ H2).
    rewrite (u64_small (base + r_offset e)) by lia. unfold st, mbind, M_bind, get, put, lift. rewrite store64_ok by done. cbn [mret M_ret].
    apply IH; [|by apply targets_wr|lia|lia|lia]. apply words_wr; [done|]. rewrite zlen_flat_rela. lia.
  - unfold mbind, M_bind, mret, M_ret. apply IH; [done|done|lia|lia|lia].
Qed.

(** The relocated words do not overlap. *)
Definition disjoint_targets (base : Z) (l : list rela) : Prop :=
  forall i j e e', l !! i = Some e -> l !! j = Some e' -> i <> j -> relative e = true -> relative e' = true ->
    r_offset e + 8 <= r_offset e' \/ r_offset e' + 8 <= r_offset e.

Lemma relocated_other base l m x : Forall (fun e => relative e = true -> x < base + r_offset e \/ base + r_offset e + 8 <= x) l ->
  relocated base l m !! x = m !! x.
Proof.
  revert m. induction l as [|e l IH]; intros m H; [done|]. pose proof (Forall_inv H) as He. apply Forall_inv_tail in H.
  unfold relocated in *. cbn [foldl]. rewrite IH by done. destruct (relative e) eqn:Er; [|done].
  apply (agree_wr m (base + r_offset e) _ x 1); [|lia]. destruct (He eq_refl); lia.
Qed.

Lemma relocated_word base l m a : Forall (fun e => relative e = true -> a + 8 <= base + r_offset e \/ base + r_offset e + 8 <= a) l ->
  rd (relocated base l m) a = rd m a.
Proof.
  intros H. apply rd_agree. intros x Hx. apply relocated_other. eapply Forall_impl; [|exact H]. cbn beta. intros e He Hr. destruct (He Hr); lia.
Qed.

Lemma relocated_cons base e l m :
  relocated base (e :: l) m = relocated base l (if relative e then wr m (base + r_offset e) (u64 (base + r_addend e)) else m).
Proof. done. Qed.

Lemma relocated_target base l m e : In e l -> relative e = true -> disjoint_targets base l ->
  rd (relocated base l m) (base + r_offset e) = Some (u64 (base + r_addend e)).
Proof.
  revert m. induction l as [|x l IH]; intros m Hin Hr Hd; [done|].
  assert (disjoint_targets base l) as Hd' by (intros i j y z Hi Hj Hne; apply (Hd (S i) (S j)); [done|done|lia]).
  rewrite relocated_cons. destruct Hin as [->|Hin]; [|by apply IH].
  rewrite Hr. rewrite (relocated_word base l).
  - apply rd_wr_eq. unfold u64. by apply unsigned_bound.
  - apply Forall_forall. intros y Hy Hry. apply list_elem_of_In, list_elem_of_lookup in Hy as [j Hj].
    destruct (Hd 0%nat (S j) e y eq_refl Hj ltac:(lia) Hr Hry); lia.
Qed.

(** ** The start *)

(** The memory at the first visit: the stack as [create_elf_tbls] makes it, the program's headers
    and dynamic section, and its relocations.  The program has no interpreter. *)
Record start_memory (conf : loader_config) (load_addr sp dynv arg_start info u_rand : Z) (argv : list (list Z)) (envs : list Z)
    (phs dyn : list (Z * Z)) (l : list rela) (m : bmem) : Prop := {
  sm_stack : words_at m sp (table_words arg_start info argv envs (auxv conf load_addr 0 u_rand));
  sm_stack_end : 0 <= sp /\ sp + 8 * (zlen argv + zlen envs + 30) <= 2 ^ 64 /\ zlen argv + 1 < 2 ^ 31;
  sm_envs : Forall (fun e => e <> 0) envs;
  sm_phdrs : phdrs_at m (load_addr + lc_phoff conf) phs /\ lc_phnum conf = zlen phs /\
    0 <= load_addr + lc_phoff conf /\ load_addr + lc_phoff conf + 56 * zlen phs <= 2 ^ 64;
  sm_dynamic : exists v, first_dynamic phs = Some v /\ dynv = load_addr + v;
  sm_dyn : words_at m dynv (flat_pairs dyn ++ [0]) /\ Forall (fun p => 0 < p.1) dyn /\ 0 <= dynv /\ dynv + 16 * zlen dyn + 8 <= 2 ^ 64;
  sm_load : 0 <= load_addr < 2 ^ 64;
  sm_sizes : tag_value DT_RELSZ dyn = 0 /\ tag_value DT_RELASZ dyn = 24 * zlen l;
  sm_table : let a := load_addr + tag_value DT_RELA dyn in
    words_at m a (flat_rela l) /\ targets_ok load_addr l m a (24 * zlen l) /\ 0 <= a /\ a + 24 * zlen l < 2 ^ 64;
  sm_disjoint : disjoint_targets load_addr l
}.

(** The pairs of the auxiliary vector before [AT_NULL]. *)
Definition aux_pairs (conf : loader_config) (load_addr u_rand : Z) : list (Z * Z) :=
  [(AT_HWCAP, lc_hwcap conf); (AT_PAGESZ, 4096); (AT_CLKTCK, 100); (AT_PHDR, load_addr + lc_phoff conf); (AT_PHENT, 56);
   (AT_PHNUM, lc_phnum conf); (AT_BASE, 0); (AT_FLAGS, 0); (AT_ENTRY, load_addr + lc_entry conf); (AT_RANDOM, u_rand)].

Lemma aux_flat conf load_addr u_rand : auxv conf load_addr 0 u_rand = flat_pairs (aux_pairs conf load_addr u_rand) ++ 0 :: [0].
Proof. done. Qed.

Lemma tag_value_at tag l : 0 <= tag < 32 -> Forall (fun p => 0 < p.1) l -> tag_at (put_tags 32 l (replicate (Z.to_nat 32) 0)) tag = tag_value tag l.
Proof.
  intros Ht Hl. rewrite put_tags_at; [|done|by rewrite length_replicate|].
  - unfold tag_value. f_equal. unfold tag_at. by rewrite lookup_replicate_2 by lia.
  - eapply Forall_impl; [|exact Hl]. cbn. lia.
Qed.

(** C33: The monitor relocates itself to where it was loaded.  On the stack that the kernel's
    loader builds, [_start_c] of a first visit finds the load address, and hands
    [argc] and [argv], whose last entry is the information block, to the C library after every
    relative relocation holds the load address plus its addend and no other byte of
    memory changed. *)
Theorem start_relocates conf load_addr sp dynv arg_start info u_rand argv envs phs dyn l m fuel :
  start_memory conf load_addr sp dynv arg_start info u_rand argv envs phs dyn l m ->
  (length envs < fuel)%nat -> (length dyn < fuel)%nat -> (length l < fuel)%nat -> (10 < fuel)%nat ->
  exists m', _start_c fuel 0 sp dynv m = Done (LibcStartMain (zlen argv + 1) (sp + 8)) m' /\ rd m (sp + 8 + 8 * zlen argv) = Some info /\
    (forall e, In e l -> relative e = true -> rd m' (load_addr + r_offset e) = Some (u64 (load_addr + r_addend e))) /\
    (forall x, Forall (fun e => relative e = true -> x < load_addr + r_offset e \/ load_addr + r_offset e + 8 <= x) l -> m' !! x = m !! x).
Proof.
  intros [Hst (Hsp & Hse & Hac) He (Hph & Hn & Hp0 & Hp1) (v & Hv & Ed) (Hdy & Hdt & Hd0 & Hd1) Hla (Hr & Hra) (Hw & Ht & Ha0 & Ha1) Hdj] Hf1 Hf2 Hf3 Hf4.
  pose proof (zlen_nonneg argv). pose proof (zlen_nonneg envs). pose proof (zlen_nonneg l).
  unfold table_words in Hst. rewrite aux_flat in Hst. cbn [app] in Hst. apply words_cons in Hst as [Hargc Hst].
  apply words_app in Hst as [_ Hst]. rewrite zlen_arg_addrs in Hst. apply words_cons in Hst as [Hinfo Hst]. apply words_cons in Hst as [_ Hst].
  pose proof Hst as Hax. apply words_app in Hax as [_ Hax]. apply words_cons in Hax as [_ Hax].
  unfold _start_c. unfold mbind at 1, M_bind at 1. rewrite (ld_run _ _ _ Hargc). cbn [Z.eqb negb].
  assert (s32 (zlen argv + 1) = zlen argv + 1) as -> by (apply signed_small; lia). rewrite (u64_small (sp + 8)), (u64_small (zlen argv + 1 + 1)) by lia.
  unfold mbind at 1, M_bind at 1. rewrite (skip_run m (sp + 8) envs (flat_pairs (aux_pairs conf load_addr u_rand) ++ [0; 0])); [|
    by replace (sp + 8 + 8 * (zlen argv + 1 + 1)) with (sp + 8 + 8 * zlen argv + 8 + 8) by lia|done|lia|lia|lia|lia].
  rewrite (u64_small (sp + 8 + _)) by lia.
  unfold mbind at 1, M_bind at 1. rewrite (scan_run m AUX_CNT (aux_pairs conf load_addr u_rand) [0]); [|
    by replace (sp + 8 + 8 * (zlen argv + 1 + 1 + zlen envs + 1)) with (sp + 8 + 8 * zlen argv + 8 + 8 + 8 * zlen envs + 8) by lia|by repeat constructor|lia|
    unfold aux_pairs; rewrite !zlen_cons, (@zlen_nil (Z * Z)); lia|cbn; lia].
  unfold mbind at 1, M_bind at 1. rewrite (scan_run m DYN_CNT dyn []); [|done|eapply Forall_impl; [|exact Hdt]; cbn; lia|lia|lia|lia].
  change (tag_at (put_tags AUX_CNT _ _) AT_BASE) with 0. cbn [Z.eqb].
  change (tag_at (put_tags AUX_CNT _ _) AT_PHNUM) with (lc_phnum conf). change (tag_at (put_tags AUX_CNT _ _) AT_PHDR) with (load_addr + lc_phoff conf).
  change (tag_at (put_tags AUX_CNT _ _) AT_PHENT) with 56. rewrite !(tag_value_at _ dyn) by done.
  unfold mbind at 1, M_bind at 1. rewrite Hn. replace (Z.to_nat (zlen phs)) with (length phs) by (unfold zlen; lia).
  rewrite (find_dynamic_run m phs _ dynv v) by done. replace (dynv - v) with load_addr by lia. rewrite (u64_small load_addr) by done.
  rewrite Hr, Hra. rewrite (u64_small (load_addr + tag_value DT_RELA dyn)) by lia.
  assert (forall a, rel_loop fuel a 0 load_addr m = Done tt m) as Hrel by (intros a; destruct fuel; [lia|done]).
  unfold mbind at 1, M_bind at 1. rewrite Hrel. unfold mbind, M_bind. rewrite rela_run by done.
  exists (relocated load_addr l m). split; [done|]. split; [exact Hinfo|]. split; [|intros x; apply relocated_other].
  intros e Hin Hre. by apply relocated_target.
Qed.

(** ** A program in memory *)

Fixpoint words_atb (m : bmem) (a : Z) (ws : list Z) : bool :=
  match ws with [] => true | w :: ws => bool_decide (rd m a = Some w) && words_atb m (a + 8) ws end.

Lemma words_atb_ok m a ws : words_atb m a ws = true -> words_at m a ws.
Proof.
  revert a. induction ws as [|w ws IH]; intros a; cbn [words_atb]; [by intros _ i x|]. intros [H1 H2]%andb_prop. apply words_cons.
  split; [by apply bool_decide_eq_true in H1|by apply IH].
Qed.

(** Two program headers at [0x10040], the dynamic section at [0x10300], a relative and another
    relocation at [0x10200] for words at [0x10400], and the stack at [0x7000]. *)
Definition demo_lconf : loader_config := mk_lconf false 0 0x100 64 2 4096 [[47]] 0.
Definition demo_dyn : list (Z * Z) := [(DT_RELA, 0x200); (DT_RELASZ, 48); (9, 24)].
Definition demo_rela : list rela := [mk_rela 0x400 8 0x123; mk_rela 0x408 6 5].
Definition demo_stack : list Z := table_words 0x7800 0x7900 [[47]] [0x7700] (auxv demo_lconf 0x10000 0 0x7a00).
Definition put_words (a : Z) (ws : list Z) (m : bmem) : bmem := upd_bytes m a (concat (List.map (le_bytes 8) ws)).
Definition demo_start_mem : bmem :=
  put_words 0x7000 demo_stack (put_words 0x10040 [1; 0; 0; 0; 0; 0; 0; 2; 0; 0x300; 0; 0; 0; 0] (put_words 0x10300 (flat_pairs demo_dyn ++ [0])
    (put_words 0x10200 (flat_rela demo_rela) (put_words 0x10400 [7; 8] ∅)))).

Lemma demo_start_mem_ok : start_memory demo_lconf 0x10000 0x7000 0x10300 0x7800 0x7900 0x7a00 [[47]] [0x7700] [(1, 0); (2, 0x300)] demo_dyn demo_rela demo_start_mem.
Proof.
  split.
  - apply words_atb_ok. by vm_compute.
  - by vm_compute.
  - by constructor.
  - split; [|by vm_compute]. intros [|[|i]] ty va; [| |by destruct i]; cbn [lookup list_lookup]; intros [= <- <-]; split; by vm_compute.
  - by exists 0x300.
  - split; [apply words_atb_ok; by vm_compute|]. split; [by repeat constructor|by vm_compute].
  - by vm_compute.
  - by vm_compute.
  - split; [apply words_atb_ok; by vm_compute|]. split; [|by vm_compute].
    constructor; [|constructor; [by vm_compute|constructor]]. intros _. split; [by vm_compute|]. split; [by vm_compute|]. split; [|by right; vm_compute].
    apply (load_bytes_mapped _ _ 8). exists (le_bytes 8 7). by vm_compute.
  - intros [|[|i]] [|[|j]] e e'; cbn; intros [= <-] [= <-]; done.
Qed.

Lemma start_relocates_witness : exists m', _start_c 20 0 0x7000 0x10300 demo_start_mem = Done (LibcStartMain 2 0x7008) m' /\ rd m' 0x10400 = Some 0x10123.
Proof.
  destruct (start_relocates demo_lconf 0x10000 0x7000 0x10300 0x7800 0x7900 0x7a00 [[47]] [0x7700] [(1, 0); (2, 0x300)] demo_dyn demo_rela demo_start_mem 20
    demo_start_mem_ok ltac:(cbn; lia) ltac:(cbn; lia) ltac:(cbn; lia) ltac:(lia)) as (m' & E & _ & Hr & _).
  exists m'. split; [exact E|]. exact (Hr (mk_rela 0x400 8 0x123) (or_introl eq_refl) eq_refl).
Defined.
