(* ===== verification/FlagNames.v ===== *)
(** * Names of flags: [kmodule/tables/flags_table.c]

    For each kind of flags the pairs of a name and a value ([struct nod_name_value]), which
    the parameters of [g_event_info] refer to; the terminating [{0, 0}] is not an entry.
    [flag_tables] finds a table by the name the parameter has for it. *)

From S2P Require Import Prelude Kernel Tables RingFacts Flags FlagsFacts Demo.

Local Open Scope Z_scope.

(** ** Constants of [include/events.h] that only the tables use *)

Definition NOD_AF_LOCAL : Z := 1.
Definition NOD_CL_CLONE_INVERTED : Z := 2 ^ 16.
Definition NOD_CL_CLONE_STOPPED : Z := 2 ^ 26.
Definition NOD_CL_CLOSED : Z := 2 ^ 18.
Definition NOD_CL_NAME_CHANGED : Z := 2 ^ 17.
Definition NOD_DQF_NONE : Z := 2 ^ 0.
Definition NOD_FCNTL_UNKNOWN : Z := 0.
Definition NOD_LOCK_NONE : Z := 0.
Definition NOD_MAP_INHERIT : Z := 2 ^ 12.
Definition NOD_MAP_RENAME : Z := 2 ^ 5.
Definition NOD_MNT_DETACH : Z := 2.
Definition NOD_MNT_EXPIRE : Z := 4.
Definition NOD_MNT_FORCE : Z := 1.
Definition NOD_MS_ACTIVE : Z := 2 ^ 30.
Definition NOD_MS_BIND : Z := 2 ^ 12.
Definition NOD_MS_BORN : Z := 2 ^ 29.
Definition NOD_MS_DIRSYNC : Z := 2 ^ 7.
Definition NOD_MS_I_VERSION : Z := 2 ^ 23.
Definition NOD_MS_KERNMOUNT : Z := 2 ^ 22.
Definition NOD_MS_LAZYTIME : Z := 2 ^ 25.
Definition NOD_MS_MANDLOCK : Z := 2 ^ 6.
Definition NOD_MS_MOVE : Z := 2 ^ 13.
Definition NOD_MS_NOATIME : Z := 2 ^ 10.
Definition NOD_MS_NODEV : Z := 2 ^ 2.
Definition NOD_MS_NODIRATIME : Z := 2 ^ 11.
Definition NOD_MS_NOEXEC : Z := 2 ^ 3.
Definition NOD_MS_NOSEC : Z := 2 ^ 28.
Definition NOD_MS_NOSUID : Z := 2 ^ 1.
Definition NOD_MS_NOUSER : Z := 2 ^ 31.
Definition NOD_MS_POSIXACL : Z := 2 ^ 16.
Definition NOD_MS_PRIVATE : Z := 2 ^ 18.
Definition NOD_MS_RDONLY : Z := 2 ^ 0.
Definition NOD_MS_REC : Z := 2 ^ 14.
Definition NOD_MS_RELATIME : Z := 2 ^ 21.
Definition NOD_MS_REMOUNT : Z := 2 ^ 5.
Definition NOD_MS_SHARED : Z := 2 ^ 20.
Definition NOD_MS_SILENT : Z := 2 ^ 15.
Definition NOD_MS_SLAVE : Z := 2 ^ 19.
Definition NOD_MS_STRICTATIME : Z := 2 ^ 24.
Definition NOD_MS_SYNCHRONOUS : Z := 2 ^ 4.
Definition NOD_MS_UNBINDABLE : Z := 2 ^ 17.
Definition NOD_O_NONE : Z := 0.
Definition NOD_PROT_NONE : Z := 0.
Definition NOD_PROT_SAO : Z := 2 ^ 6.
Definition NOD_RENAME_EXCHANGE : Z := 2 ^ 1.
Definition NOD_RENAME_NOREPLACE : Z := 2 ^ 0.
Definition NOD_RENAME_WHITEOUT : Z := 2 ^ 2.
Definition NOD_SHUT_RDWR : Z := 2.
Definition NOD_SHUT_WR : Z := 1.
Definition NOD_SOCKOPT_UNKNOWN : Z := 0.
Definition NOD_SPLICE_F_GIFT : Z := 2 ^ 3.
Definition NOD_SPLICE_F_MORE : Z := 2 ^ 2.
Definition NOD_SPLICE_F_MOVE : Z := 2 ^ 0.
Definition NOD_SPLICE_F_NONBLOCK : Z := 2 ^ 1.
Definition NOD_UMOUNT_NOFOLLOW : Z := 8.
Definition NOD_V1_DQF_RSQUASH : Z := 2 ^ 1.

(** ** The tables *)

Definition socket_families : list (string * Z) :=
  [("AF_NFC", NOD_AF_NFC); ("AF_ALG", NOD_AF_ALG); ("AF_CAIF", NOD_AF_CAIF); ("AF_IEEE802154", NOD_AF_IEEE802154);
   ("AF_PHONET", NOD_AF_PHONET); ("AF_ISDN", NOD_AF_ISDN); ("AF_RXRPC", NOD_AF_RXRPC); ("AF_IUCV", NOD_AF_IUCV);
   ("AF_BLUETOOTH", NOD_AF_BLUETOOTH); ("AF_TIPC", NOD_AF_TIPC); ("AF_CAN", NOD_AF_CAN); ("AF_LLC", NOD_AF_LLC);
   ("AF_WANPIPE", NOD_AF_WANPIPE); ("AF_PPPOX", NOD_AF_PPPOX); ("AF_IRDA", NOD_AF_IRDA); ("AF_SNA", NOD_AF_SNA);
   ("AF_RDS", NOD_AF_RDS); ("AF_ATMSVC", NOD_AF_ATMSVC); ("AF_ECONET", NOD_AF_ECONET); ("AF_ASH", NOD_AF_ASH);
   ("AF_PACKET", NOD_AF_PACKET); ("AF_ROUTE", NOD_AF_ROUTE); ("AF_NETLINK", NOD_AF_NETLINK); ("AF_KEY", NOD_AF_KEY);
   ("AF_SECURITY", NOD_AF_SECURITY); ("AF_NETBEUI", NOD_AF_NETBEUI); ("AF_DECnet", NOD_AF_DECnet);
   ("AF_ROSE", NOD_AF_ROSE); ("AF_INET6", NOD_AF_INET6); ("AF_X25", NOD_AF_X25); ("AF_ATMPVC", NOD_AF_ATMPVC);
   ("AF_BRIDGE", NOD_AF_BRIDGE); ("AF_NETROM", NOD_AF_NETROM); ("AF_APPLETALK", NOD_AF_APPLETALK);
   ("AF_IPX", NOD_AF_IPX); ("AF_AX25", NOD_AF_AX25); ("AF_INET", NOD_AF_INET); ("AF_LOCAL", NOD_AF_LOCAL);
   ("AF_UNIX", NOD_AF_UNIX); ("AF_UNSPEC", NOD_AF_UNSPEC)].

Definition file_flags : list (string * Z) :=
  [("O_LARGEFILE", NOD_O_LARGEFILE); ("O_DIRECTORY", NOD_O_DIRECTORY); ("O_DIRECT", NOD_O_DIRECT);
   ("O_TRUNC", NOD_O_TRUNC); ("O_SYNC", NOD_O_SYNC); ("O_NONBLOCK", NOD_O_NONBLOCK); ("O_EXCL", NOD_O_EXCL);
   ("O_DSYNC", NOD_O_DSYNC); ("O_APPEND", NOD_O_APPEND); ("O_CREAT", NOD_O_CREAT); ("O_RDWR", NOD_O_RDWR);
   ("O_WRONLY", NOD_O_WRONLY); ("O_RDONLY", NOD_O_RDONLY); ("O_CLOEXEC", NOD_O_CLOEXEC); ("O_NONE", NOD_O_NONE);
   ("O_TMPFILE", NOD_O_TMPFILE)].

Definition flock_flags : list (string * Z) :=
  [("LOCK_SH", NOD_LOCK_SH); ("LOCK_EX", NOD_LOCK_EX); ("LOCK_NB", NOD_LOCK_NB); ("LOCK_UN", NOD_LOCK_UN);
   ("LOCK_NONE", NOD_LOCK_NONE)].

Definition clone_flags : list (string * Z) :=
  [("CLONE_FILES", NOD_CL_CLONE_FILES); ("CLONE_FS", NOD_CL_CLONE_FS); ("CLONE_IO", NOD_CL_CLONE_IO);
   ("CLONE_NEWIPC", NOD_CL_CLONE_NEWIPC); ("CLONE_NEWNET", NOD_CL_CLONE_NEWNET); ("CLONE_NEWNS", NOD_CL_CLONE_NEWNS);
   ("CLONE_NEWPID", NOD_CL_CLONE_NEWPID); ("CLONE_NEWUTS", NOD_CL_CLONE_NEWUTS);
   ("CLONE_PARENT", NOD_CL_CLONE_PARENT); ("CLONE_PARENT_SETTID", NOD_CL_CLONE_PARENT_SETTID);
   ("CLONE_PTRACE", NOD_CL_CLONE_PTRACE); ("CLONE_SIGHAND", NOD_CL_CLONE_SIGHAND);
   ("CLONE_SYSVSEM", NOD_CL_CLONE_SYSVSEM); ("CLONE_THREAD", NOD_CL_CLONE_THREAD);
   ("CLONE_UNTRACED", NOD_CL_CLONE_UNTRACED); ("CLONE_VM", NOD_CL_CLONE_VM);
   ("CLONE_INVERTED", NOD_CL_CLONE_INVERTED); ("NAME_CHANGED", NOD_CL_NAME_CHANGED); ("CLOSED", NOD_CL_CLOSED);
   ("CLONE_NEWUSER", NOD_CL_CLONE_NEWUSER); ("CLONE_CHILD_CLEARTID", NOD_CL_CLONE_CHILD_CLEARTID);
   ("CLONE_CHILD_SETTID", NOD_CL_CLONE_CHILD_SETTID); ("CLONE_SETTLS", NOD_CL_CLONE_SETTLS);
   ("CLONE_STOPPED", NOD_CL_CLONE_STOPPED); ("CLONE_VFORK", NOD_CL_CLONE_VFORK);
   ("CLONE_NEWCGROUP", NOD_CL_CLONE_NEWCGROUP)].

Definition futex_operations : list (string * Z) :=
  [("FUTEX_CLOCK_REALTIME", NOD_FU_FUTEX_CLOCK_REALTIME); ("FUTEX_PRIVATE_FLAG", NOD_FU_FUTEX_PRIVATE_FLAG);
   ("FUTEX_CMP_REQUEUE_PI", NOD_FU_FUTEX_CMP_REQUEUE_PI); ("FUTEX_WAIT_REQUEUE_PI", NOD_FU_FUTEX_WAIT_REQUEUE_PI);
   ("FUTEX_WAKE_BITSET", NOD_FU_FUTEX_WAKE_BITSET); ("FUTEX_WAIT_BITSET", NOD_FU_FUTEX_WAIT_BITSET);
   ("FUTEX_TRYLOCK_PI", NOD_FU_FUTEX_TRYLOCK_PI); ("FUTEX_UNLOCK_PI", NOD_FU_FUTEX_UNLOCK_PI);
   ("FUTEX_LOCK_PI", NOD_FU_FUTEX_LOCK_PI); ("FUTEX_WAKE_OP", NOD_FU_FUTEX_WAKE_OP);
   ("FUTEX_CMP_REQUEUE", NOD_FU_FUTEX_CMP_REQUEUE); ("FUTEX_REQUEUE", NOD_FU_FUTEX_REQUEUE);
   ("FUTEX_FD", NOD_FU_FUTEX_FD); ("FUTEX_WAKE", NOD_FU_FUTEX_WAKE); ("FUTEX_WAIT", NOD_FU_FUTEX_WAIT)].

Definition poll_flags : list (string * Z) :=
  [("POLLIN", NOD_POLLIN); ("POLLPRI", NOD_POLLPRI); ("POLLOUT", NOD_POLLOUT); ("POLLRDHUP", NOD_POLLRDHUP);
   ("POLLERR", NOD_POLLERR); ("POLLHUP", NOD_POLLHUP); ("POLLNVAL", NOD_POLLNVAL); ("POLLRDNORM", NOD_POLLRDNORM);
   ("POLLRDBAND", NOD_POLLRDBAND); ("POLLWRNORM", NOD_POLLWRNORM); ("POLLWRBAND", NOD_POLLWRBAND)].

Definition mount_flags : list (string * Z) :=
  [("RDONLY", NOD_MS_RDONLY); ("NOSUID", NOD_MS_NOSUID); ("NODEV", NOD_MS_NODEV); ("NOEXEC", NOD_MS_NOEXEC);
   ("SYNCHRONOUS", NOD_MS_SYNCHRONOUS); ("REMOUNT", NOD_MS_REMOUNT); ("MANDLOCK", NOD_MS_MANDLOCK);
   ("DIRSYNC", NOD_MS_DIRSYNC); ("NOATIME", NOD_MS_NOATIME); ("NODIRATIME", NOD_MS_NODIRATIME);
   ("BIND", NOD_MS_BIND); ("MOVE", NOD_MS_MOVE); ("REC", NOD_MS_REC); ("SILENT", NOD_MS_SILENT);
   ("POSIXACL", NOD_MS_POSIXACL); ("UNBINDABLE", NOD_MS_UNBINDABLE); ("PRIVATE", NOD_MS_PRIVATE);
   ("SLAVE", NOD_MS_SLAVE); ("SHARED", NOD_MS_SHARED); ("RELATIME", NOD_MS_RELATIME);
   ("KERNMOUNT", NOD_MS_KERNMOUNT); ("I_VERSION", NOD_MS_I_VERSION); ("STRICTATIME", NOD_MS_STRICTATIME);
   ("LAZYTIME", NOD_MS_LAZYTIME); ("NOSEC", NOD_MS_NOSEC); ("BORN", NOD_MS_BORN); ("ACTIVE", NOD_MS_ACTIVE);
   ("NOUSER", NOD_MS_NOUSER)].

Definition umount_flags : list (string * Z) :=
  [("FORCE", NOD_MNT_FORCE); ("DETACH", NOD_MNT_DETACH); ("EXPIRE", NOD_MNT_EXPIRE);
   ("NOFOLLOW", NOD_UMOUNT_NOFOLLOW)].

Definition lseek_whence : list (string * Z) :=
  [("SEEK_END", NOD_SEEK_END); ("SEEK_CUR", NOD_SEEK_CUR); ("SEEK_SET", NOD_SEEK_SET)].

Definition shutdown_how : list (string * Z) :=
  [("SHUT_RDWR", NOD_SHUT_RDWR); ("SHUT_WR", NOD_SHUT_WR); ("SHUT_RD", NOD_SHUT_RD)].

Definition rlimit_resources : list (string * Z) :=
  [("RLIMIT_UNKNOWN", NOD_RLIMIT_UNKNOWN); ("RLIMIT_RTTIME", NOD_RLIMIT_RTTIME);
   ("RLIMIT_RTPRIO", NOD_RLIMIT_RTPRIO); ("RLIMIT_NICE", NOD_RLIMIT_NICE); ("RLIMIT_MSGQUEUE", NOD_RLIMIT_MSGQUEUE);
   ("RLIMIT_SIGPENDING", NOD_RLIMIT_SIGPENDING); ("RLIMIT_LOCKS", NOD_RLIMIT_LOCKS); ("RLIMIT_AS", NOD_RLIMIT_AS);
   ("RLIMIT_MEMLOCK", NOD_RLIMIT_MEMLOCK); ("RLIMIT_NOFILE", NOD_RLIMIT_NOFILE); ("RLIMIT_NPROC", NOD_RLIMIT_NPROC);
   ("RLIMIT_RSS", NOD_RLIMIT_RSS); ("RLIMIT_CORE", NOD_RLIMIT_CORE); ("RLIMIT_STACK", NOD_RLIMIT_STACK);
   ("RLIMIT_DATA", NOD_RLIMIT_DATA); ("RLIMIT_FSIZE", NOD_RLIMIT_FSIZE); ("RLIMIT_CPU", NOD_RLIMIT_CPU)].

Definition fcntl_commands : list (string * Z) :=
  [("F_GETPIPE_SZ", NOD_FCNTL_F_GETPIPE_SZ); ("F_SETPIPE_SZ", NOD_FCNTL_F_SETPIPE_SZ);
   ("F_NOTIFY", NOD_FCNTL_F_NOTIFY); ("F_DUPFD_CLOEXEC", NOD_FCNTL_F_DUPFD_CLOEXEC);
   ("F_CANCELLK", NOD_FCNTL_F_CANCELLK); ("F_GETLEASE", NOD_FCNTL_F_GETLEASE); ("F_SETLEASE", NOD_FCNTL_F_SETLEASE);
   ("F_GETOWN_EX", NOD_FCNTL_F_GETOWN_EX); ("F_SETOWN_EX", NOD_FCNTL_F_SETOWN_EX); ("F_GETSIG", NOD_FCNTL_F_GETSIG);
   ("F_SETSIG", NOD_FCNTL_F_SETSIG); ("F_GETOWN", NOD_FCNTL_F_GETOWN); ("F_SETOWN", NOD_FCNTL_F_SETOWN);
   ("F_SETLKW", NOD_FCNTL_F_SETLKW); ("F_SETLK", NOD_FCNTL_F_SETLK); ("F_GETLK", NOD_FCNTL_F_GETLK);
   ("F_SETFL", NOD_FCNTL_F_SETFL); ("F_GETFL", NOD_FCNTL_F_GETFL); ("F_SETFD", NOD_FCNTL_F_SETFD);
   ("F_GETFD", NOD_FCNTL_F_GETFD); ("F_DUPFD", NOD_FCNTL_F_DUPFD); ("F_OFD_GETLK", NOD_FCNTL_F_OFD_GETLK);
   ("F_OFD_SETLK", NOD_FCNTL_F_OFD_SETLK); ("F_OFD_SETLKW", NOD_FCNTL_F_OFD_SETLKW); ("UNKNOWN", NOD_FCNTL_UNKNOWN)].

Definition sockopt_levels : list (string * Z) :=
  [("SOL_SOCKET", NOD_SOCKOPT_LEVEL_SOL_SOCKET); ("SOL_TCP", NOD_SOCKOPT_LEVEL_SOL_TCP);
   ("UNKNOWN", NOD_SOCKOPT_LEVEL_UNKNOWN)].

Definition sockopt_options : list (string * Z) :=
  [("SO_COOKIE", NOD_SOCKOPT_SO_COOKIE); ("SO_MEMINFO", NOD_SOCKOPT_SO_MEMINFO);
   ("SO_PEERGROUPS", NOD_SOCKOPT_SO_PEERGROUPS); ("SO_ATTACH_BPF", NOD_SOCKOPT_SO_ATTACH_BPF);
   ("SO_INCOMING_CPU", NOD_SOCKOPT_SO_INCOMING_CPU); ("SO_BPF_EXTENSIONS", NOD_SOCKOPT_SO_BPF_EXTENSIONS);
   ("SO_MAX_PACING_RATE", NOD_SOCKOPT_SO_MAX_PACING_RATE); ("SO_BUSY_POLL", NOD_SOCKOPT_SO_BUSY_POLL);
   ("SO_SELECT_ERR_QUEUE", NOD_SOCKOPT_SO_SELECT_ERR_QUEUE); ("SO_LOCK_FILTER", NOD_SOCKOPT_SO_LOCK_FILTER);
   ("SO_NOFCS", NOD_SOCKOPT_SO_NOFCS); ("SO_PEEK_OFF", NOD_SOCKOPT_SO_PEEK_OFF);
   ("SO_WIFI_STATUS", NOD_SOCKOPT_SO_WIFI_STATUS); ("SO_RXQ_OVFL", NOD_SOCKOPT_SO_RXQ_OVFL);
   ("SO_DOMAIN", NOD_SOCKOPT_SO_DOMAIN); ("SO_PROTOCOL", NOD_SOCKOPT_SO_PROTOCOL);
   ("SO_TIMESTAMPING", NOD_SOCKOPT_SO_TIMESTAMPING); ("SO_MARK", NOD_SOCKOPT_SO_MARK);
   ("SO_TIMESTAMPNS", NOD_SOCKOPT_SO_TIMESTAMPNS); ("SO_PASSSEC", NOD_SOCKOPT_SO_PASSSEC);
   ("SO_PEERSEC", NOD_SOCKOPT_SO_PEERSEC); ("SO_ACCEPTCONN", NOD_SOCKOPT_SO_ACCEPTCONN);
   ("SO_TIMESTAMP", NOD_SOCKOPT_SO_TIMESTAMP); ("SO_PEERNAME", NOD_SOCKOPT_SO_PEERNAME);
   ("SO_DETACH_FILTER", NOD_SOCKOPT_SO_DETACH_FILTER); ("SO_ATTACH_FILTER", NOD_SOCKOPT_SO_ATTACH_FILTER);
   ("SO_BINDTODEVICE", NOD_SOCKOPT_SO_BINDTODEVICE);
   ("SO_SECURITY_ENCRYPTION_NETWORK", NOD_SOCKOPT_SO_SECURITY_ENCRYPTION_NETWORK);
   ("SO_SECURITY_ENCRYPTION_TRANSPORT", NOD_SOCKOPT_SO_SECURITY_ENCRYPTION_TRANSPORT);
   ("SO_SECURITY_AUTHENTICATION", NOD_SOCKOPT_SO_SECURITY_AUTHENTICATION); ("SO_SNDTIMEO", NOD_SOCKOPT_SO_SNDTIMEO);
   ("SO_RCVTIMEO", NOD_SOCKOPT_SO_RCVTIMEO); ("SO_SNDLOWAT", NOD_SOCKOPT_SO_SNDLOWAT);
   ("SO_RCVLOWAT", NOD_SOCKOPT_SO_RCVLOWAT); ("SO_PEERCRED", NOD_SOCKOPT_SO_PEERCRED);
   ("SO_PASSCRED", NOD_SOCKOPT_SO_PASSCRED); ("SO_REUSEPORT", NOD_SOCKOPT_SO_REUSEPORT);
   ("SO_BSDCOMPAT", NOD_SOCKOPT_SO_BSDCOMPAT); ("SO_LINGER", NOD_SOCKOPT_SO_LINGER);
   ("SO_PRIORITY", NOD_SOCKOPT_SO_PRIORITY); ("SO_NO_CHECK", NOD_SOCKOPT_SO_NO_CHECK);
   ("SO_OOBINLINE", NOD_SOCKOPT_SO_OOBINLINE); ("SO_KEEPALIVE", NOD_SOCKOPT_SO_KEEPALIVE);
   ("SO_RCVBUFFORCE", NOD_SOCKOPT_SO_RCVBUFFORCE); ("SO_SNDBUFFORCE", NOD_SOCKOPT_SO_SNDBUFFORCE);
   ("SO_RCVBUF", NOD_SOCKOPT_SO_RCVBUF); ("SO_SNDBUF", NOD_SOCKOPT_SO_SNDBUF);
   ("SO_BROADCAST", NOD_SOCKOPT_SO_BROADCAST); ("SO_DONTROUTE", NOD_SOCKOPT_SO_DONTROUTE);
   ("SO_ERROR", NOD_SOCKOPT_SO_ERROR); ("SO_TYPE", NOD_SOCKOPT_SO_TYPE); ("SO_REUSEADDR", NOD_SOCKOPT_SO_REUSEADDR);
   ("SO_DEBUG", NOD_SOCKOPT_SO_DEBUG); ("UNKNOWN", NOD_SOCKOPT_UNKNOWN)].

Definition ptrace_requests : list (string * Z) :=
  [("PTRACE_SINGLEBLOCK", NOD_PTRACE_SINGLEBLOCK); ("PTRACE_SYSEMU_SINGLESTEP", NOD_PTRACE_SYSEMU_SINGLESTEP);
   ("PTRACE_SYSEMU", NOD_PTRACE_SYSEMU); ("PTRACE_ARCH_PRCTL", NOD_PTRACE_ARCH_PRCTL);
   ("PTRACE_SET_THREAD_AREA", NOD_PTRACE_SET_THREAD_AREA); ("PTRACE_GET_THREAD_AREA", NOD_PTRACE_GET_THREAD_AREA);
   ("PTRACE_OLDSETOPTIONS", NOD_PTRACE_OLDSETOPTIONS); ("PTRACE_SETFPXREGS", NOD_PTRACE_SETFPXREGS);
   ("PTRACE_GETFPXREGS", NOD_PTRACE_GETFPXREGS); ("PTRACE_SETFPREGS", NOD_PTRACE_SETFPREGS);
   ("PTRACE_GETFPREGS", NOD_PTRACE_GETFPREGS); ("PTRACE_SETREGS", NOD_PTRACE_SETREGS);
   ("PTRACE_GETREGS", NOD_PTRACE_GETREGS); ("PTRACE_SETSIGMASK", NOD_PTRACE_SETSIGMASK);
   ("PTRACE_GETSIGMASK", NOD_PTRACE_GETSIGMASK); ("PTRACE_PEEKSIGINFO", NOD_PTRACE_PEEKSIGINFO);
   ("PTRACE_LISTEN", NOD_PTRACE_LISTEN); ("PTRACE_INTERRUPT", NOD_PTRACE_INTERRUPT);
   ("PTRACE_SEIZE", NOD_PTRACE_SEIZE); ("PTRACE_SETREGSET", NOD_PTRACE_SETREGSET);
   ("PTRACE_GETREGSET", NOD_PTRACE_GETREGSET); ("PTRACE_SETSIGINFO", NOD_PTRACE_SETSIGINFO);
   ("PTRACE_GETSIGINFO", NOD_PTRACE_GETSIGINFO); ("PTRACE_GETEVENTMSG", NOD_PTRACE_GETEVENTMSG);
   ("PTRACE_SETOPTIONS", NOD_PTRACE_SETOPTIONS); ("PTRACE_SYSCALL", NOD_PTRACE_SYSCALL);
   ("PTRACE_DETACH", NOD_PTRACE_DETACH); ("PTRACE_ATTACH", NOD_PTRACE_ATTACH);
   ("PTRACE_SINGLESTEP", NOD_PTRACE_SINGLESTEP); ("PTRACE_KILL", NOD_PTRACE_KILL); ("PTRACE_CONT", NOD_PTRACE_CONT);
   ("PTRACE_POKEUSR", NOD_PTRACE_POKEUSR); ("PTRACE_POKEDATA", NOD_PTRACE_POKEDATA);
   ("PTRACE_POKETEXT", NOD_PTRACE_POKETEXT); ("PTRACE_PEEKUSR", NOD_PTRACE_PEEKUSR);
   ("PTRACE_PEEKDATA", NOD_PTRACE_PEEKDATA); ("PTRACE_PEEKTEXT", NOD_PTRACE_PEEKTEXT);
   ("PTRACE_TRACEME", NOD_PTRACE_TRACEME); ("PTRACE_UNKNOWN", NOD_PTRACE_UNKNOWN)].

Definition prot_flags : list (string * Z) :=
  [("PROT_READ", NOD_PROT_READ); ("PROT_WRITE", NOD_PROT_WRITE); ("PROT_EXEC", NOD_PROT_EXEC);
   ("PROT_SEM", NOD_PROT_SEM); ("PROT_GROWSDOWN", NOD_PROT_GROWSDOWN); ("PROT_GROWSUP", NOD_PROT_GROWSUP);
   ("PROT_SAO", NOD_PROT_SAO); ("PROT_NONE", NOD_PROT_NONE)].

Definition mmap_flags : list (string * Z) :=
  [("MAP_SHARED", NOD_MAP_SHARED); ("MAP_PRIVATE", NOD_MAP_PRIVATE); ("MAP_FIXED", NOD_MAP_FIXED);
   ("MAP_ANONYMOUS", NOD_MAP_ANONYMOUS); ("MAP_32BIT", NOD_MAP_32BIT); ("MAP_RENAME", NOD_MAP_RENAME);
   ("MAP_NORESERVE", NOD_MAP_NORESERVE); ("MAP_POPULATE", NOD_MAP_POPULATE); ("MAP_NONBLOCK", NOD_MAP_NONBLOCK);
   ("MAP_GROWSDOWN", NOD_MAP_GROWSDOWN); ("MAP_DENYWRITE", NOD_MAP_DENYWRITE);
   ("MAP_EXECUTABLE", NOD_MAP_EXECUTABLE); ("MAP_INHERIT", NOD_MAP_INHERIT); ("MAP_FILE", NOD_MAP_FILE);
   ("MAP_LOCKED", NOD_MAP_LOCKED)].

Definition splice_flags : list (string * Z) :=
  [("SPLICE_F_MOVE", NOD_SPLICE_F_MOVE); ("SPLICE_F_NONBLOCK", NOD_SPLICE_F_NONBLOCK);
   ("SPLICE_F_MORE", NOD_SPLICE_F_MORE); ("SPLICE_F_GIFT", NOD_SPLICE_F_GIFT)].

Definition quotactl_dqi_flags : list (string * Z) :=
  [("DQF_NONE", NOD_DQF_NONE); ("V1_DQF_RSQUASH", NOD_V1_DQF_RSQUASH)].

Definition quotactl_cmds : list (string * Z) :=
  [("Q_QUOTAON", NOD_Q_QUOTAON); ("Q_QUOTAOFF", NOD_Q_QUOTAOFF); ("Q_GETFMT", NOD_Q_GETFMT);
   ("Q_GETINFO", NOD_Q_GETINFO); ("Q_SETINFO", NOD_Q_SETINFO); ("Q_GETQUOTA", NOD_Q_GETQUOTA);
   ("Q_SETQUOTA", NOD_Q_SETQUOTA); ("Q_SYNC", NOD_Q_SYNC); ("Q_XQUOTAON", NOD_Q_XQUOTAON);
   ("Q_XQUOTAOFF", NOD_Q_XQUOTAOFF); ("Q_XGETQUOTA", NOD_Q_XGETQUOTA); ("Q_XSETQLIM", NOD_Q_XSETQLIM);
   ("Q_XGETQSTAT", NOD_Q_XGETQSTAT); ("Q_XQUOTARM", NOD_Q_XQUOTARM); ("Q_XQUOTASYNC", NOD_Q_XQUOTASYNC)].

Definition quotactl_types : list (string * Z) :=
  [("USRQUOTA", NOD_USRQUOTA); ("GRPQUOTA", NOD_GRPQUOTA)].

Definition quotactl_quota_fmts : list (string * Z) :=
  [("QFMT_NOT_USED", NOD_QFMT_NOT_USED); ("QFMT_VFS_OLD", NOD_QFMT_VFS_OLD); ("QFMT_VFS_V0", NOD_QFMT_VFS_V0);
   ("QFMT_VFS_V1", NOD_QFMT_VFS_V1)].

Definition semop_flags : list (string * Z) :=
  [("IPC_NOWAIT", NOD_IPC_NOWAIT); ("SEM_UNDO", NOD_SEM_UNDO)].

Definition semget_flags : list (string * Z) :=
  [("IPC_EXCL", NOD_IPC_EXCL); ("IPC_CREAT", NOD_IPC_CREAT)].

Definition semctl_commands : list (string * Z) :=
  [("IPC_STAT", NOD_IPC_STAT); ("IPC_SET", NOD_IPC_SET); ("IPC_RMID", NOD_IPC_RMID); ("IPC_INFO", NOD_IPC_INFO);
   ("SEM_INFO", NOD_SEM_INFO); ("SEM_STAT", NOD_SEM_STAT); ("GETALL", NOD_GETALL); ("GETNCNT", NOD_GETNCNT);
   ("GETPID", NOD_GETPID); ("GETVAL", NOD_GETVAL); ("GETZCNT", NOD_GETZCNT); ("SETALL", NOD_SETALL);
   ("SETVAL", NOD_SETVAL)].

Definition access_flags : list (string * Z) :=
  [("F_OK", NOD_F_OK); ("R_OK", NOD_R_OK); ("W_OK", NOD_W_OK); ("X_OK", NOD_X_OK)].

Definition pf_flags : list (string * Z) :=
  [("PROTECTION_VIOLATION", NOD_PF_PROTECTION_VIOLATION); ("PAGE_NOT_PRESENT", NOD_PF_PAGE_NOT_PRESENT);
   ("WRITE_ACCESS", NOD_PF_WRITE_ACCESS); ("READ_ACCESS", NOD_PF_READ_ACCESS); ("USER_FAULT", NOD_PF_USER_FAULT);
   ("SUPERVISOR_FAULT", NOD_PF_SUPERVISOR_FAULT); ("RESERVED_PAGE", NOD_PF_RESERVED_PAGE);
   ("INSTRUCTION_FETCH", NOD_PF_INSTRUCTION_FETCH)].

Definition unlinkat_flags : list (string * Z) :=
  [("AT_REMOVEDIR", NOD_AT_REMOVEDIR)].

Definition linkat_flags : list (string * Z) :=
  [("AT_SYMLINK_FOLLOW", NOD_AT_SYMLINK_FOLLOW); ("AT_EMPTY_PATH", NOD_AT_EMPTY_PATH)].

Definition chmod_mode : list (string * Z) :=
  [("S_IXOTH", NOD_S_IXOTH); ("S_IWOTH", NOD_S_IWOTH); ("S_IROTH", NOD_S_IROTH); ("S_IXGRP", NOD_S_IXGRP);
   ("S_IWGRP", NOD_S_IWGRP); ("S_IRGRP", NOD_S_IRGRP); ("S_IXUSR", NOD_S_IXUSR); ("S_IWUSR", NOD_S_IWUSR);
   ("S_IRUSR", NOD_S_IRUSR); ("S_ISVTX", NOD_S_ISVTX); ("S_ISGID", NOD_S_ISGID); ("S_ISUID", NOD_S_ISUID)].

Definition renameat2_flags : list (string * Z) :=
  [("RENAME_NOREPLACE", NOD_RENAME_NOREPLACE); ("RENAME_EXCHANGE", NOD_RENAME_EXCHANGE);
   ("RENAME_WHITEOUT", NOD_RENAME_WHITEOUT)].

Definition openat2_flags : list (string * Z) :=
  [("RESOLVE_BENEATH", NOD_RESOLVE_BENEATH); ("RESOLVE_IN_ROOT", NOD_RESOLVE_IN_ROOT);
   ("RESOLVE_NO_MAGICLINKS", NOD_RESOLVE_NO_MAGICLINKS); ("RESOLVE_NO_SYMLINKS", NOD_RESOLVE_NO_SYMLINKS);
   ("RESOLVE_NO_XDEV", NOD_RESOLVE_NO_XDEV); ("RESOLVE_CACHED", NOD_RESOLVE_CACHED)].

Definition execve_flags : list (string * Z) :=
  [("EXE_WRITABLE", NOD_EXE_WRITABLE)].

Definition execveat_flags : list (string * Z) :=
  [("AT_EMPTY_PATH", NOD_EXVAT_AT_EMPTY_PATH); ("AT_SYMLINK_NOFOLLOW", NOD_EXVAT_AT_SYMLINK_NOFOLLOW)].

(** The tables by name. *)
Definition flag_tables : list (string * list (string * Z)) :=
  [("socket_families", socket_families); ("file_flags", file_flags); ("flock_flags", flock_flags);
   ("clone_flags", clone_flags); ("futex_operations", futex_operations); ("poll_flags", poll_flags);
   ("mount_flags", mount_flags); ("umount_flags", umount_flags); ("lseek_whence", lseek_whence);
   ("shutdown_how", shutdown_how); ("rlimit_resources", rlimit_resources); ("fcntl_commands", fcntl_commands);
   ("sockopt_levels", sockopt_levels); ("sockopt_options", sockopt_options); ("ptrace_requests", ptrace_requests);
   ("prot_flags", prot_flags); ("mmap_flags", mmap_flags); ("splice_flags", splice_flags);
   ("quotactl_dqi_flags", quotactl_dqi_flags); ("quotactl_cmds", quotactl_cmds); ("quotactl_types", quotactl_types);
   ("quotactl_quota_fmts", quotactl_quota_fmts); ("semop_flags", semop_flags); ("semget_flags", semget_flags);
   ("semctl_commands", semctl_commands); ("access_flags", access_flags); ("pf_flags", pf_flags);
   ("unlinkat_flags", unlinkat_flags); ("linkat_flags", linkat_flags); ("chmod_mode", chmod_mode);
   ("renameat2_flags", renameat2_flags); ("openat2_flags", openat2_flags); ("execve_flags", execve_flags);
   ("execveat_flags", execveat_flags)].

(** ** Printing a value by names *)

Definition table_of (name : string) : option (list (string * Z)) :=
  snd <$> List.find (fun t => String.eqb t.1 name) flag_tables.

(** Some name has exactly this value. *)
Definition named (t : list (string * Z)) (v : Z) : bool := existsb (fun e => e.2 =? v) t.

(** The names whose flags are all set in [x], and what they stand for together. *)
Definition names_of (t : list (string * Z)) (x : Z) : list (string * Z) := List.filter (fun e => e.2 &! x =? e.2) t.
Definition explain (t : list (string * Z)) (x : Z) : Z := fold_right (fun e acc => e.2 |! acc) 0 (names_of t x).

(** Every bit of [x] belongs to a name whose flags are all set in [x]. *)
Definition covers (t : list (string * Z)) (x : Z) : Prop :=
  forall i, 0 <= i -> Z.testbit x i = true -> exists e, In e t /\ e.2 &! x = e.2 /\ Z.testbit e.2 i = true.

Lemma explain_bit t x i : Z.testbit (explain t x) i = existsb (fun e => (e.2 &! x =? e.2) && Z.testbit e.2 i) t.
Proof.
  unfold explain, names_of. induction t as [|e t IH]; cbn [List.filter existsb fold_right]; [apply Z.testbit_0_l|].
  destruct (e.2 &! x =? e.2); cbn [fold_right]; [rewrite Z.lor_spec; by rewrite IH|done].
Qed.

(** The names of a covered value tell the value. *)
Lemma explain_covers t x : covers t x -> explain t x = x.
Proof.
  intros Hc. apply Z.bits_inj'. intros i Hi. rewrite explain_bit. destruct (Z.testbit x i) eqn:E.
  - destruct (Hc i Hi E) as (e & Hin & Hsub & Hb). apply existsb_exists. exists e. split; [done|]. by rewrite Hsub, Z.eqb_refl.
  - apply not_true_is_false. intros H. apply existsb_exists in H as (e & _ & [Hsub Hb]%andb_prop). apply Z.eqb_eq in Hsub.
    rewrite <- Hsub, Z.land_spec, E in Hb. by rewrite andb_false_r in Hb.
Qed.

Lemma covers_0 t : covers t 0.
Proof. intros i _ Hb. by rewrite Z.testbit_0_l in Hb. Qed.

Lemma covers_named t v : named t v = true -> covers t v.
Proof.
  intros (e & Hin & E%Z.eqb_eq)%existsb_exists i Hi Hb. exists e. rewrite E. split; [done|]. split; [apply Z.land_diag|done].
Qed.

Lemma covers_lor t x y : covers t x -> covers t y -> covers t (x |! y).
Proof.
  assert (forall v x y, v &! x = v -> v &! (x |! y) = v) as Hmono.
  { intros v a b Hv. apply Z.bits_inj'. intros i Hi. apply (f_equal (fun z => Z.testbit z i)) in Hv. rewrite Z.land_spec in *. rewrite Z.lor_spec.
    by destruct (Z.testbit v i), (Z.testbit a i), (Z.testbit b i). }
  intros Hx Hy i Hi. rewrite Z.lor_spec. intros [Hb|Hb]%orb_prop; [destruct (Hx i Hi Hb) as (e & ? & ? & ?)|destruct (Hy i Hi Hb) as (e & ? & ? & ?)]; exists e; (split; [done|]); (split; [|done]).
  - by apply Hmono.
  - rewrite Z.lor_comm. by apply Hmono.
Qed.

Lemma covers_or_flags t flags tbl res : covers t res -> forallb (named t) (List.map snd tbl) = true -> covers t (or_flags flags tbl res).
Proof.
  unfold or_flags. revert res. induction tbl as [|[a b] tbl IH]; intros res Hr Ht; [done|]. cbn [List.map forallb snd] in Ht. apply andb_prop in Ht as [Hb Ht].
  cbn [fold_left fst snd]. apply IH; [|done]. destruct (has flags a); [apply covers_lor; [done|by apply covers_named]|done].
Qed.

Lemma covers_switch t x cases d : covers t d -> forallb (named t) (List.map snd cases) = true -> covers t (switch x cases d).
Proof.
  intros Hd. induction cases as [|[a b] cases IH]; intros Hc; [done|]. cbn [List.map forallb snd] in Hc. apply andb_prop in Hc as [Hb Hc].
  cbn [switch]. destruct (x =? a); [by apply covers_named|by apply IH].
Qed.

(** Truncation keeps names whose values fit. *)
Lemma covers_unsigned w t x : 0 <= w -> forallb (fun e => (0 <=? e.2) && (e.2 <? 2 ^ w)) t = true -> covers t x -> covers t (unsigned w x).
Proof.
  intros Hw Ht Hx i Hi Hb. unfold unsigned in *. destruct (Z.ltb_spec i w) as [Hlt|]; [|by rewrite Z.mod_pow2_bits_high in Hb by lia].
  rewrite Z.mod_pow2_bits_low in Hb by lia. destruct (Hx i Hi Hb) as (e & Hin & Hsub & He). exists e. split; [done|]. split; [|done].
  rewrite forallb_forall in Ht. apply Ht, andb_prop in Hin as [H0%Z.leb_le H1%Z.ltb_lt]. rewrite <- Z.land_ones, Z.land_assoc, Hsub by lia.
  rewrite Z.land_ones by lia. by apply Z.mod_small.
Qed.

(** The first case of a table that the value is equal to. *)
Lemma switch_some_named t x tbl v : switch x (some_cases tbl) None = Some v -> forallb (named t) (List.map snd tbl) = true -> named t v = true.
Proof.
  induction tbl as [|[a b] tbl IH]; [done|]. cbn [some_cases List.map switch forallb fst snd]. intros E [Hb Hc]%andb_prop.
  destruct (x =? a); [by injection E as <-|by apply IH].
Qed.

Lemma named_switch w t x cases d : named t d = true -> forallb (named t) (List.map snd cases) = true ->
  forallb (fun e => (0 <=? e.2) && (e.2 <? 2 ^ w)) t = true -> named t (unsigned w (switch x cases d)) = true.
Proof.
  intros Hd Hc Ht. assert (named t (switch x cases d) = true) as Hn.
  { induction cases as [|[a b] cases IH]; [done|]. cbn [List.map forallb snd switch] in *. apply andb_prop in Hc as [Hb Hc]. destruct (x =? a); [done|by apply IH]. }
  rewrite unsigned_small; [done|]. apply existsb_exists in Hn as (e & Hin & <-%Z.eqb_eq). rewrite forallb_forall in Ht.
  by apply Ht, andb_prop in Hin as [H0%Z.leb_le H1%Z.ltb_lt].
Qed.

(** Proves that a conversion is covered by a table. *)
Ltac covered :=
  repeat lazymatch goal with
    | |- covers _ (u8 ?x) => change (u8 x) with (unsigned 8 x)
    | |- covers _ (u16 ?x) => change (u16 x) with (unsigned 16 x)
    | |- covers _ (u32 ?x) => change (u32 x) with (unsigned 32 x)
    | |- covers _ (unsigned _ _) => apply covers_unsigned; [lia|vm_compute; reflexivity|]
    | |- covers _ (or_flags _ _ _) => apply covers_or_flags; [|vm_compute; reflexivity]
    | |- covers _ (switch _ _ _) => apply covers_switch; [|vm_compute; reflexivity]
    | |- covers _ (_ |! _) => apply covers_lor
    | |- covers _ 0 => apply covers_0
    | |- covers _ (if ?b then _ else _) => destruct b
    | |- covers _ _ => apply covers_named; vm_compute; reflexivity
    end.

(** The table a parameter refers to, if it refers to one, is one of [flag_tables]. *)
Definition has_names (p : nod_param_info) : bool :=
  match pi_info p with
  | INFO_FLAGS name => match table_of name with Some _ => true | None => false end
  | _ => true
  end.

(** An enumerated value the table has a name for. *)
Definition one_name (name : string) (x : Z) : Prop := exists t, table_of name = Some t /\ named t x = true.

(** A set of flags that its names tell. *)
Definition by_names (name : string) (x : Z) : Prop := exists t, table_of name = Some t /\ explain t x = x.

Lemma by_names_intro name t x : table_of name = Some t -> covers t x -> by_names name x.
Proof. intros Ht Hc. exists t. split; [done|]. by apply explain_covers. Qed.

Lemma one_name_intro name t x : table_of name = Some t -> named t x = true -> one_name name x.
Proof. by exists t. Qed.

Section names.
Context {K : Kernel}.

#[local] Ltac flags_of := eapply by_names_intro; [vm_compute; reflexivity|].
#[local] Ltac named_of :=
  eapply one_name_intro; [vm_compute; reflexivity|]; match goal with |- named _ (?f ?x) = true => unfold f end;
  first [apply (named_switch 8)|apply (named_switch 16)|apply (named_switch 32)]; try (vm_compute; reflexivity); lia.

(** A listed value or the default 0. *)
Lemma switch_or_zero name t w x cases : table_of name = Some t -> forallb (named t) (List.map snd cases) = true ->
  forallb (fun e => (0 <=? e.2) && (e.2 <? 2 ^ w)) t = true ->
  unsigned w (switch x cases 0) = 0 \/ one_name name (unsigned w (switch x cases 0)).
Proof using Type.
  intros Ht Hc Hw. induction cases as [|[a b] cases IH]; cbn [switch]; [left; apply Zmod_0_l|].
  cbn [List.map forallb snd] in Hc. apply andb_prop in Hc as [Hb Hc].
  destruct (x =? a); [|by apply IH]. right. exists t. split; [done|].
  rewrite unsigned_small; [done|]. apply existsb_exists in Hb as (e & Hin & <-%Z.eqb_eq). rewrite forallb_forall in Hw.
  by apply Hw, andb_prop in Hin as [H0%Z.leb_le H1%Z.ltb_lt].
Qed.

Lemma sockopt_values_named t : table_of "sockopt_options" = Some t -> forallb (named t) (List.map snd sockopt_optname_to_scap_tbl) = true.
Proof using Type.
  intros [= <-]. unfold sockopt_optname_to_scap_tbl, ifdef. repeat case_match; vm_compute; reflexivity.
Qed.

(** C40: names of flags ([kmodule/tables/flags_table.c] with [kmodule/flags.h]): every flag table that a
    parameter of [g_event_info] refers to exists, and what the conversions record is what these tables can tell.
    For a set of flags - of open, clone, mmap, mprotect, poll, futex, access, page faults, flock, semop, semget, chmod,
    openat2, execveat, unlinkat, linkat - the names whose flags are all set stand together for exactly the recorded
    value, whatever the kernel passed in. For a value out of a list some name has exactly the recorded value: always
    for a resource limit, a ptrace request, the level of a socket option, a seek origin and a quota format; for a
    socket family, an fcntl command and an option of a socket when the conversion knows it; and for the commands of quotactl and
    semctl unless the recorded value is 0, which is what the conversion makes of a command it does not know. *)
Theorem flag_names_explain :
  forallb (fun e => forallb has_names (ei_params e.2)) g_event_info_init = true /\
  (forall x m, by_names "file_flags" (open_flags_to_scap x) /\ by_names "chmod_mode" (open_modes_to_scap x m) /\
    by_names "clone_flags" (clone_flags_to_scap x) /\ by_names "prot_flags" (prot_flags_to_scap x) /\
    by_names "mmap_flags" (mmap_flags_to_scap x) /\ by_names "poll_flags" (poll_events_to_scap x) /\
    by_names "futex_operations" (futex_op_to_scap x) /\
    by_names "access_flags" (access_flags_to_scap x) /\ by_names "pf_flags" (pf_flags_to_scap x) /\
    by_names "flock_flags" (flock_flags_to_scap x) /\ by_names "semop_flags" (semop_flags_to_scap x) /\
    by_names "semget_flags" (semget_flags_to_scap x) /\ by_names "chmod_mode" (chmod_mode_to_scap x) /\
    by_names "openat2_flags" (openat2_resolve_to_scap x) /\ by_names "execveat_flags" (execveat_flags_to_scap x) /\
    by_names "unlinkat_flags" (unlinkat_flags_to_scap x) /\ by_names "linkat_flags" (linkat_flags_to_scap x)) /\
  (forall x, one_name "rlimit_resources" (rlimit_resource_to_scap x) /\ one_name "ptrace_requests" (ptrace_requests_to_scap x) /\
    one_name "sockopt_levels" (sockopt_level_to_scap x) /\ one_name "lseek_whence" (lseek_whence_to_scap x) /\
    one_name "quotactl_quota_fmts" (quotactl_fmt_to_scap x)) /\
  (forall x v, (socket_family_to_scap x = Some v -> one_name "socket_families" v) /\
    (fcntl_cmd_to_scap x = Some v -> one_name "fcntl_commands" v) /\
    (sockopt_optname_to_scap SOL_SOCKET x = Some v -> one_name "sockopt_options" v)) /\
  (forall x, (quotactl_cmd_to_scap x = 0 \/ one_name "quotactl_cmds" (quotactl_cmd_to_scap x)) /\
    (semctl_cmd_to_scap x = 0 \/ one_name "semctl_commands" (semctl_cmd_to_scap x))).
Proof using Type.
  split; [vm_compute; reflexivity|]. split; [|split; [|split]].
  - intros x m. repeat split; flags_of; cbv zeta beta delta [open_flags_to_scap open_modes_to_scap clone_flags_to_scap prot_flags_to_scap mmap_flags_to_scap
      poll_events_to_scap futex_op_to_scap access_flags_to_scap pf_flags_to_scap flock_flags_to_scap semop_flags_to_scap semget_flags_to_scap chmod_mode_to_scap
      openat2_resolve_to_scap execveat_flags_to_scap unlinkat_flags_to_scap linkat_flags_to_scap]; covered.
  - intros x. repeat split; [named_of..| |named_of].
    eapply one_name_intro; [vm_compute; reflexivity|]. unfold lseek_whence_to_scap. cbn [switch]. repeat case_match; vm_compute; reflexivity.
  - intros x v. split; [|split].
    + unfold socket_family_to_scap. intros E%(switch_some_named socket_families); [by exists socket_families|vm_compute; reflexivity].
    + unfold fcntl_cmd_to_scap. intros E%(switch_some_named fcntl_commands); [by exists fcntl_commands|vm_compute; reflexivity].
    + unfold sockopt_optname_to_scap. destruct (negb _); [intros [= <-]; by exists sockopt_options|].
      intros E%(switch_some_named sockopt_options); [by exists sockopt_options|by apply sockopt_values_named].
  - intros x. split; [apply (switch_or_zero _ quotactl_cmds 16)|apply (switch_or_zero _ semctl_commands 32)]; vm_compute; reflexivity.
Qed.
End names.

(** The fcntl command [F_GETFD] is recorded with a name. *)
Lemma flag_names_explain_witness :
  exists v, fcntl_cmd_to_scap F_GETFD = Some v /\ one_name "fcntl_commands" v.
Proof.
  eexists. split; [vm_compute; reflexivity|].
  refine (proj1 (proj2 (proj1 (proj2 (proj2 (proj2 (flag_names_explain (K := Demo.close_kernel))))) F_GETFD _)) _).
  vm_compute; reflexivity.
Defined.
