(* ===== verification/Ctl.v ===== *)
(** * The control program: [scripts/ctrl/nodrop-ctl.c]

    [nodrop-ctl] opens the control device and turns its arguments into requests of
    [include/ioctl.h].  A run is a sequence of actions - calls of the C library and of
    the system - which the class [Host] answers; the local variables of [main] that are not
    initialised are arguments of the model.  Strings are their bytes without the
    terminator.  [Bug] is an access outside of an object. *)

From S2P Require Import Prelude Kernel FillerLib Events Monitor Device Printf.

Local Open Scope Z_scope.

(** ** Actions *)

(** The third argument of [ioctl]: a number, a pointer to an object, or a pointer to a
    [struct fetch_buffer_struct] with a length and a pointer to an object. *)
Inductive ioctl_arg : Type :=
  | ANum (n : Z)
  | AObj (bs : list Z)
  | AFetch (len : Z) (buf : list Z).

Inductive stream : Set := Stdout | Stderr | File (handle : Z).

Inductive call : Type :=
  | Open (path : string)
  | Ioctl (fd cmd : Z) (arg : ioctl_arg)
  | Malloc (size : Z)
  | Realpath (path : list Z)
  | Stat (path : list Z)
  | Fopen (path : list Z)
  | Fwrite (file : stream) (buf : list Z)
  | Fclose (file : stream)
  | Fprintf (file : stream) (text : list Z)
  | Perror (text : string).

(** A call with its answer: the result, and the bytes stored through a pointer argument (for
    [malloc] what the memory of the new object holds, which may be more than was asked for). *)
Definition reply_to : Type := Z * list Z.
Class Host (W : Type) := { host : call -> W -> option (reply_to * W) }.

Record run {W : Type} : Type := mk_run { r_trace : list (call * reply_to); r_world : W }.
Arguments run : clear implicits.

(** The bytes [bs] stored at the start of an object; a store behind its end is a fault. *)
Definition fill (bs obj : list Z) : option (list Z) := zwrite 0 bs obj.

(** ** [atol] *)

Definition is_space (c : Z) : bool := (c =? 32) || ((9 <=? c) && (c <=? 13)).

Fixpoint skip_space (s : list Z) : list Z :=
  match s with
  | c :: s' => if is_space c then skip_space s' else s
  | [] => []
  end.

Fixpoint read_long (s : list Z) (n : Z) : Z :=
  match s with
  | c :: s' => if is_digit c then read_long s' (10 * n + (c - 48)) else n
  | [] => n
  end.

(** A value out of range is the nearest [long]. *)
Definition atol (s : list Z) : Z :=
  let clamp n := Z.max (- 2 ^ 63) (Z.min (2 ^ 63 - 1) n) in
  match skip_space s with
  | c :: s' => if c =? 45 then clamp (- read_long s' 0) else if c =? 43 then clamp (read_long s' 0) else clamp (read_long (c :: s') 0)
  | [] => 0
  end.

(** The escapes [\n] and [\t] of a string literal. *)
Fixpoint c_escapes (s : list Z) : list Z :=
  match s with
  | c :: s' =>
      match s' with
      | e :: s'' => if (c =? 92) && (e =? 110) then 10 :: c_escapes s'' else if (c =? 92) && (e =? 116) then 9 :: c_escapes s'' else c :: c_escapes s'
      | [] => [c]
      end
  | [] => []
  end.

Definition is_str (s : list Z) (lit : string) : bool := bool_decide (s = str_bytes lit).

Section ctl.
Context {W : Type} `{Host W}.
Notation C := (M (run W)).

Definition act (c : call) : C reply_to := fun s =>
  match host c (r_world s) with
  | Some (r, w) => Done r (mk_run W ((c, r) :: r_trace s) w)
  | None => Bug
  end.
Definition ask (c : call) : C Z := r ← act c; mret r.1.
Definition do_ (c : call) : C unit := act c;; mret tt.

(** A call that stores to the object behind its pointer argument. *)
Definition act_on (c : call) (obj : list Z) : C reply_to := '(r, bs) ← act c; obj ← lift (fill bs obj); mret (r, obj).

Definition fprintf (file : stream) (fmt : string) (args : list parg) : C unit :=
  t ← lift (run_format None (c_escapes (str_bytes fmt)) args); do_ (Fprintf file t).
Definition exit_with (code : Z) : C unit := Ret code.

(** The uninitialised local variables of [main]. *)
Record locals : Type := mk_locals { l_cinfo : list Z; l_stat : list Z; l_lua_state : list Z; l_lua_path : list Z }.
Context (v : locals) (argv : list (list Z)).

Definition argc : Z := zlen argv.
Definition arg (i : nat) : C (list Z) := lift (argv !! i).

Definition word (n : Z) (obj : list Z) : Z := fld (8 * n) 8 obj.

Definition cmd_clean (fd : Z) : C unit :=
  r ← ask (Ioctl fd NOD_IOCTL_CLEAR_BUFFER (ANum 0));
  if r =? 0 then fprintf Stderr "Success\n" [] else mret tt.

(** The name of the output in the messages of [fetch]. *)
Definition out_name : C (list Z) := if argc <=? 2 then mret (str_bytes "stdout") else arg 2.

Definition cmd_fetch (fd : Z) : C unit :=
  '(ret, cinfo) ← act_on (Ioctl fd NOD_IOCTL_READ_BUFFER_COUNT_INFO (AObj (l_cinfo v))) (l_cinfo v);
  if negb (ret =? 0) then fprintf Stderr "Get Buffer Count Info failed, reason %d\n" [AInt ret];; exit_with (-1) else
  let len := word 2 cinfo in
  '(buf, obj) ← act (Malloc len);
  if buf =? 0 then fprintf Stderr "Allocate memory failed\n" [];; exit_with (-1) else
  '(ret, obj) ← act_on (Ioctl fd NOD_IOCTL_FETCH_BUFFER (AFetch len obj)) obj;
  if negb (ret =? 0) then fprintf Stderr "Fetch Buffer failed, reason %d\n" [AInt ret];; exit_with (-1) else
  file ← (if argc <=? 2 then mret (Some Stdout)
          else path ← arg 2; h ← ask (Fopen path); mret (if h =? 0 then None else Some (File h)));
  match file : option stream with
  | None => fprintf Stderr "Cannot open file\n" [];; exit_with (-1)
  | Some file =>
      out ← lift (zread 0 len obj);
      n ← ask (Fwrite file out);
      name ← out_name;
      (if n =? 1 then fprintf Stderr "Write %lu bytes to file %s\n" [AInt len; AStr name]
       else fprintf Stderr "Write to file %s failed\n" [AStr name]);;
      match file with Stdout => mret tt | _ => do_ (Fclose file) end
  end.

Definition cmd_count (fd : Z) : C unit :=
  '(ret, cinfo) ← act_on (Ioctl fd NOD_IOCTL_READ_BUFFER_COUNT_INFO (AObj (l_cinfo v))) (l_cinfo v);
  if ret =? 0 then
    fprintf Stdout "event_count=%lu,unflushed_count=%lu,unflushed_len=%lu\n" [AInt (word 0 cinfo); AInt (word 1 cinfo); AInt (word 2 cinfo)]
  else mret tt.

Definition cmd_stat (fd : Z) : C unit :=
  '(ret, st) ← act_on (Ioctl fd NOD_IOCTL_READ_STATISTICS (AObj (l_stat v))) (l_stat v);
  if ret =? 0 then
    fprintf Stdout "n_evts\tdrop_evts\tdrop_unsolved\n%ld\t%ld\t%ld\n" [AInt (word 0 st); AInt (word 1 st); AInt (word 2 st)]
  else mret tt.

Definition cmd_clear_stat (fd : Z) : C unit :=
  r ← ask (Ioctl fd NOD_IOCTL_CLEAR_STATISTICS (ANum 0));
  if r =? 0 then fprintf Stderr "Statistics cleared\n" [] else mret tt.

Definition cmd_stop (fd : Z) : C unit :=
  r ← ask (Ioctl fd NOD_IOCTL_STOP_RECORDING (ANum 0));
  if r =? 0 then fprintf Stderr "Stopped\n" [] else mret tt.

(** [lua_state] with the path and the time of the script. *)
Definition set_mtime (t : Z) (lua_state : list Z) : list Z := ztake 256 lua_state ++ le_bytes 8 t.

Definition script_state : C (list Z) :=
  if argc =? 3 then
    path ← arg 2;
    '(r, buf) ← act_on (Realpath path) (l_lua_path v);
    if r =? 0 then fprintf Stderr "%s : lua path error\n" [AStr path];; exit_with (-1);; mret [] else
    lua_path ← lift (cstr buf);
    if 256 <? zlen lua_path + 1 then fprintf Stderr "%s : lua path too long\n" [AStr lua_path];; exit_with (-1);; mret [] else
    lua_state ← lift (zwrite 0 (lua_path ++ [0]) (l_lua_state v));
    '(r, st_mtime) ← act (Stat lua_path);
    if negb (r =? 0) then fprintf Stderr "%s : lua file error\n" [AStr lua_path];; exit_with (-1);; mret [] else
    mret (set_mtime (le_val st_mtime) lua_state)
  else
    lua_state ← lift (zwrite 0 [0] (l_lua_state v));
    mret (set_mtime 0 lua_state).

Definition cmd_start (fd : Z) : C unit :=
  if 3 <? argc then a0 ← arg 0; fprintf Stderr "Usage: %s start <lua_path>\n" [AStr a0];; exit_with (-1) else
  lua_state ← script_state;
  r ← ask (Ioctl fd NOD_IOCTL_START_RECORDING (ANum 0));
  if negb (r =? 0) then mret tt else
  '(r, lua_state) ← act_on (Ioctl fd NOD_IOCTL_SET_LUA_STATE (AObj lua_state)) lua_state;
  if negb (r =? 0) then mret tt else
  path ← lift (cstr lua_state);
  fprintf Stderr "Start: %s\n" [AStr path].

Definition cmd_bufsize (fd : Z) (bufsize : list Z) : C unit :=
  bufsize ← (if 3 <=? argc then
               a ← arg 2;
               let bufsize := u64 (u64 (atol a) * 1024) in
               r ← ask (Ioctl fd NOD_IOCTL_SET_BUFFER_SIZE (ANum bufsize));
               (if negb (r =? 0) then fprintf Stderr "set buffer size failed: %d\n" [AInt r] else mret tt);;
               mret (le_bytes 8 bufsize)
             else mret bufsize);
  '(r, bufsize) ← act_on (Ioctl fd NOD_IOCTL_GET_BUFFER_SIZE (AObj bufsize)) bufsize;
  if negb (r =? 0) then fprintf Stderr "get buffer size failed: %d\n" [AInt r];; exit_with (-1) else
  fprintf Stdout "buffer size: %lu\n" [AInt (word 0 bufsize)].

Definition record_usage : C unit :=
  a0 ← arg 0; fprintf Stderr "Usage: %s record [normal, compress, none] (default normal)\n" [AStr a0];; exit_with (-1).

(** The mode of the third argument. *)
Definition record_mode (a : list Z) : option Z :=
  if is_str a "none" then Some NOD_RECORD_MODE_STOP
  else if is_str a "normal" then Some NOD_RECORD_MODE_START
  else if is_str a "compress" then Some NOD_RECORD_MODE_COMPRESS
  else None.

Definition mode_name (flag : Z) : string := if flag =? 0 then "none" else if flag =? 1 then "normal" else "compress".

Definition cmd_record (fd : Z) : C unit :=
  if 3 <? argc then record_usage else
  record_flag ← (if argc =? 3 then a ← arg 2; mret (record_mode a) else mret (Some NOD_RECORD_MODE_START));
  match record_flag : option Z with
  | None => record_usage
  | Some record_flag =>
      let flag := le_bytes 4 record_flag in
      '(r, flag) ← act_on (Ioctl fd NOD_IOCTL_SET_RECORD_FLAG (AObj flag)) flag;
      if r =? 0 then
        fprintf Stderr "Record set %s\n" [AStr (str_bytes (mode_name (s32 (le_val flag))))]
      else mret tt
  end.

(** [main(argc, argv)]; [bufsize] is the uninitialised variable. *)
Definition main (bufsize : list Z) : C Z :=
  if argc <? 2 then
    a0 ← arg 0;
    fprintf Stderr "Usage: %s [clean|fetch|stat|clear-stat|start|stop|count|bufsize (size in KB)]\n" [AStr a0];; mret 0
  else
  fd ← ask (Open "/proc/nodrop");
  if fd <? 0 then do_ (Perror "Cannot open /proc/nodrop");; mret 127 else
  a1 ← arg 1;
  (if is_str a1 "clean" then cmd_clean fd
   else if is_str a1 "fetch" then cmd_fetch fd
   else if is_str a1 "count" then cmd_count fd
   else if is_str a1 "stat" then cmd_stat fd
   else if is_str a1 "clear-stat" then cmd_clear_stat fd
   else if is_str a1 "stop" then cmd_stop fd
   else if is_str a1 "start" then cmd_start fd
   else if is_str a1 "bufsize" then cmd_bufsize fd bufsize
   else if is_str a1 "record" then cmd_record fd
   else fprintf Stderr "Unknown cmd %s\n" [AStr a1]);;
  mret 0.
End ctl.

(** The exit code of a run and its state, [None] if it faults. *)
Definition result {W} (o : outcome (run W) Z) : option (Z * run W) :=
  match o with Done c s | Ret c s => Some (c, s) | Bug => None end.
