(* ===== verification/CtlProps.v ===== *)
(** * Properties of the control program

    What [nodrop-ctl] asks of the module, on any system and against the model of
    [kmodule/proc.c]. *)

From S2P Require Import Prelude Kernel Ring FillerLib ProcState Events EventCodec EventsFacts Demo Monitor.
From S2P Require Import Privil ProcInfo Loader Hooks Trace Device DeviceProps Printf LuaRuntime Ctl.

Local Open Scope Z_scope.

(** ** Formats *)

Inductive kind : Set := KInt | KStr.
Definition kind_of (a : parg) : kind := match a with AInt _ => KInt | AStr _ => KStr end.

(** Whether a format accepts arguments of these kinds. *)
Fixpoint accepts (st : option spec) (fmt : list Z) (ks : list kind) : bool :=
  match fmt, st with
  | [], None => true
  | [], Some _ => false
  | c :: fmt, None => if c =? 37 then accepts (Some spec0) fmt ks else accepts None fmt ks
  | c :: fmt, Some s =>
      if (c =? 48) && (sp_width s =? 0) then accepts (Some (mk_spec true 0 (sp_long s))) fmt ks
      else if is_digit c then accepts (Some (mk_spec (sp_zero s) (10 * sp_width s + (c - 48)) (sp_long s))) fmt ks
      else if c =? 108 then accepts (Some (mk_spec (sp_zero s) (sp_width s) true)) fmt ks
      else match ks with
           | KInt :: ks => ((c =? 100) || (c =? 117) || (c =? 120) || (c =? 111)) && accepts None fmt ks
           | KStr :: ks => (c =? 115) && accepts None fmt ks
           | [] => false
           end
  end.

Lemma accepts_run st fmt args : accepts st fmt (List.map kind_of args) = true -> is_Some (run_format st fmt args).
Proof.
  revert st args. induction fmt as [|c fmt IH]; intros st args; [destruct st; [done|by eexists]|]. destruct st as [s|]; cbn [accepts run_format].
  - destruct (_ && _); [apply IH|]. destruct (is_digit c); [apply IH|]. destruct (c =? 108); [apply IH|].
    destruct args as [|[z|t] args]; [done|..]; cbn [List.map kind_of convert].
    + intros [Hc Ha]%andb_prop. destruct (IH _ _ Ha) as [t ->].
      destruct (c =? 100), (c =? 117), (c =? 120), (c =? 111); try done; by eexists.
    + intros [-> Ha]%andb_prop. destruct (IH _ _ Ha) as [u ->]. by eexists.
  - destruct (c =? 37); [apply IH|]. intros [t ->]%IH. by eexists.
Qed.

(** ** Requests *)

(** What the module expects behind the argument of a request: an object of exactly the bytes it
    copies (for a fetch, of the length it is told), and in the state of the script a path that ends within its array. *)
Definition request_ok (cmd : Z) (a : ioctl_arg) : Prop :=
  match a with
  | ANum n => cmd ∈ [NOD_IOCTL_CLEAR_BUFFER; NOD_IOCTL_CLEAR_STATISTICS; NOD_IOCTL_STOP_RECORDING; NOD_IOCTL_START_RECORDING; NOD_IOCTL_SET_BUFFER_SIZE]
  | AFetch len buf => cmd = NOD_IOCTL_FETCH_BUFFER /\ len <= zlen buf
  | AObj bs =>
      ((cmd = NOD_IOCTL_READ_BUFFER_COUNT_INFO \/ cmd = NOD_IOCTL_READ_STATISTICS) /\ zlen bs = 24) \/
      (cmd = NOD_IOCTL_GET_BUFFER_SIZE /\ zlen bs = 8) \/
      (cmd = NOD_IOCTL_SET_LUA_STATE /\ zlen bs = LUA_STATE_SIZE /\ is_Some (cstr (ztake 256 bs))) \/
      (cmd = NOD_IOCTL_SET_RECORD_FLAG /\ exists m, bs = le_bytes 4 m /\ m ∈ [NOD_RECORD_MODE_STOP; NOD_RECORD_MODE_START; NOD_RECORD_MODE_COMPRESS])
  end.

(** The documented answers: [realpath] stores a string of less than [PATH_MAX] bytes, [malloc]
    makes an object of at least the size asked for, and the module stores no more than the object of a request and only reads the
    state of a script it is given.  Nothing is asked of the reply to a fetch. *)
Definition documented (c : call) (r : reply_to) : Prop :=
  match c with
  | Malloc size => r.1 <> 0 -> 0 <= size -> size <= zlen r.2
  | Realpath _ => zlen r.2 <= 4096 /\ (r.1 <> 0 -> exists path, r.2 = path ++ [0] /\ no_nul path /\ zlen path < 4096)
  | Ioctl _ cmd (AObj obj) => zlen r.2 <= zlen obj /\ (cmd = NOD_IOCTL_SET_LUA_STATE -> r.2 = [])
  | _ => True
  end.

(** The sizes of the local variables. *)
Record locals_ok (v : locals) : Prop := {
  lo_cinfo : zlen (l_cinfo v) = 24;
  lo_stat : zlen (l_stat v) = 24;
  lo_lua_state : zlen (l_lua_state v) = LUA_STATE_SIZE;
  lo_lua_path : zlen (l_lua_path v) = 4096
}.

Section safe.
Context {W : Type} `{Host W}.
Context (total : forall c w, exists r w', host c w = Some (r, w') /\ documented c r).

(** A request goes to the device that was opened, with a good argument. *)
Definition call_ok (fd : Z) (c : call) : Prop :=
  match c with Ioctl fd' cmd a => fd' = fd /\ request_ok cmd a | _ => True end.
Definition good (fd : Z) (s : run W) : Prop :=
  (exists bs, (Open "/proc/nodrop", (fd, bs)) ∈ r_trace s) /\ Forall (fun i => call_ok fd i.1) (r_trace s).

Definition exits (c : Z) : Prop := c = 0 \/ c = 127 \/ c = -1.

(** The device's reply to a fetch is longer than the object [malloc] made. *)
Definition overrun : Prop := exists fd len obj w r w', host (Ioctl fd NOD_IOCTL_FETCH_BUFFER (AFetch len obj)) w = Some (r, w') /\ len <= zlen obj < zlen r.2.

Section parts.
(** When a part of [main] may fault. *)
Context (may_fault : Prop).

Definition ok (fd : Z) {A} (m : M (run W) A) (Q : A -> Prop) : Prop := forall s, good fd s ->
  match m s with
  | Done a s' => good fd s' /\ Q a
  | Ret c s' => good fd s' /\ exits c
  | Bug => may_fault
  end.

Lemma ok_bind fd {A B} (m : M (run W) A) (f : A -> M (run W) B) Q R : ok fd m Q -> (forall a, Q a -> ok fd (f a) R) -> ok fd (m ≫= f) R.
Proof.
  intros Hm Hf s Hs. specialize (Hm s Hs). unfold mbind, M_bind. destruct (m s) as [a s'|c s'|]; [|done..].
  destruct Hm as [Hs' Ha]. by apply Hf.
Qed.

Lemma ok_ret fd {A} (a : A) (Q : A -> Prop) : Q a -> ok fd (mret a) Q.
Proof. by intros Ha s Hs. Qed.

Lemma ok_act fd c : call_ok fd c -> ok fd (act c) (documented c).
Proof using total.
  intros Hc s [[bs Hs] Ht]. unfold act. destruct (total c (r_world s)) as (r & w & -> & Hr). split; [|done].
  split; [exists bs; by right|by constructor].
Qed.

(** A call that stores to an object of the right size. *)
Lemma ok_act_on fd c obj : call_ok fd c -> (forall r, documented c r -> zlen r.2 <= zlen obj) ->
  ok fd (act_on c obj) (fun r => zlen r.2 = zlen obj /\ exists bs, documented c (r.1, bs) /\ fill bs obj = Some r.2).
Proof using total.
  intros Hc Hd. eapply ok_bind; [by apply ok_act|]. intros [r bs] Hr s Hs. specialize (Hd (r, bs) Hr). cbn [snd] in Hd. unfold mbind, M_bind, lift, fill.
  rewrite zwrite_Some by lia. split; [done|]. cbn [fst snd]. pose proof (zlen_nonneg bs). split; [|exists bs; split; [exact Hr|by rewrite zwrite_Some by lia]].
  rewrite !zlen_app, zlen_zdrop, ztake_0, zlen_nil by lia. lia.
Qed.

(** A fetch stores to the object if its reply fits. *)
Lemma ok_fetch fd len obj : (overrun -> may_fault) -> len <= zlen obj ->
  ok fd (act_on (Ioctl fd NOD_IOCTL_FETCH_BUFFER (AFetch len obj)) obj) (fun r => zlen r.2 = zlen obj).
Proof using total.
  intros HB Hl s [[bs Hs] Ht]. unfold act_on, act, mbind, M_bind. destruct (total (Ioctl fd NOD_IOCTL_FETCH_BUFFER (AFetch len obj)) (r_world s)) as ([r bs'] & w & E & _).
  rewrite E. unfold lift, fill. pose proof (zlen_nonneg bs'). destruct (zwrite 0 bs' obj) as [obj'|] eqn:Ew.
  - split; [split; [exists bs; by right|by constructor]|]. cbn [snd]. by apply zlen_zwrite in Ew.
  - apply HB. exists fd, len, obj, (r_world s), (r, bs'), w. split; [done|]. split; [done|]. cbn [snd].
    destruct (Z.lt_ge_cases (zlen obj) (zlen bs')); [done|]. by rewrite zwrite_Some in Ew by lia.
Qed.

Lemma ok_do fd c : call_ok fd c -> ok fd (do_ c) (fun _ => True).
Proof using total. intros Hc. eapply ok_bind; [by apply ok_act|]. intros r _. by apply ok_ret. Qed.

Lemma ok_ask fd c : call_ok fd c -> ok fd (ask c) (fun _ => True).
Proof using total. intros Hc. eapply ok_bind; [by apply ok_act|]. intros r _. by apply ok_ret. Qed.

Lemma ok_print fd f fmt args : accepts None (c_escapes (str_bytes fmt)) (List.map kind_of args) = true -> ok fd (fprintf f fmt args) (fun _ => True).
Proof using total.
  intros [t Ht]%accepts_run. unfold fprintf. rewrite Ht. eapply (ok_bind fd (lift (Some t)) _ (fun _ => True)); [by intros s Hs|].
  intros u _. by apply ok_do.
Qed.

Lemma print_run f fmt args s : accepts None (c_escapes (str_bytes fmt)) (List.map kind_of args) = true ->
  exists t r w, fprintf f fmt args s = Done tt (mk_run W ((Fprintf f t, r) :: r_trace s) w).
Proof using total.
  intros [t Ht]%accepts_run. unfold fprintf. rewrite Ht. destruct (total (Fprintf f t) (r_world s)) as (r & w & E & _).
  exists t, r, w. unfold mbind, M_bind, lift, do_, act. cbn. unfold mbind, M_bind. by rewrite E.
Qed.

Lemma ok_exit fd (Q : unit -> Prop) : ok fd (exit_with (-1)) Q.
Proof. intros s Hs. split; [done|]. by right; right. Qed.

Lemma ok_lift fd {A} (o : option A) (Q : A -> Prop) a : o = Some a -> Q a -> ok fd (lift o) Q.
Proof. intros -> Ha s Hs. done. Qed.

Lemma ok_weaken fd {A} (m : M (run W) A) (Q R : A -> Prop) : ok fd m Q -> (forall a, Q a -> R a) -> ok fd m R.
Proof. intros Hm HR s Hs. specialize (Hm s Hs). destruct (m s); [destruct Hm; eauto|done..]. Qed.

Ltac step :=
  lazymatch goal with
  | |- ok _ (mret _) _ => apply ok_ret
  | |- ok _ (exit_with _) _ => apply ok_exit
  | |- ok _ (fprintf _ _ _ ≫= _) _ => eapply ok_bind; [by apply ok_print|]; intros _ _
  | |- ok _ (fprintf _ _ _) _ => eapply ok_weaken; [by apply ok_print|]
  | |- ok _ (exit_with _ ≫= _) _ => eapply ok_bind; [by apply (ok_exit _ (fun _ => False))|]; intros _ []
  | |- ok _ (ask _ ≫= _) _ => eapply ok_bind; [apply ok_ask|]; [|intros ? _]
  | |- ok _ (act_on _ _ ≫= _) _ => eapply ok_bind; [apply ok_act_on; [|intros ? Hdoc; by apply Hdoc]|]; [|intros [? ?] [? ?]]
  | |- ok _ (act _ ≫= _) _ => eapply ok_bind; [apply ok_act|]; [|intros [? ?] ?]
  | |- ok _ (do_ _) _ => eapply ok_weaken; [apply ok_do|]
  | |- ok _ (mret _ ≫= _) _ => eapply (ok_bind _ _ _ (fun _ => True)); [by apply ok_ret|]; intros ? _
  | |- ok _ (if ?b then _ else _) _ => destruct b eqn:?
  | |- ok _ ((if ?b then _ else _) ≫= _) _ => eapply (ok_bind _ _ _ (fun _ => True)); [|intros ? _]
  end.

Context (v : locals) (argv : list (list Z)).
Context (Hv : locals_ok v).

Lemma fill_nil (obj : list Z) : fill [] obj = Some obj.
Proof using Type. pose proof (zlen_nonneg obj). unfold fill. change (zlen (@nil Z)) with 0 in *. rewrite zwrite_Some by (change (zlen (@nil Z)) with 0; lia). by rewrite ztake_0, zdrop_0. Qed.

(** An argument of the command line that was counted. *)
Lemma ok_arg fd i : Z.of_nat i < argc argv -> ok fd (arg argv i) (fun a => argv !! i = Some a).
Proof using Type.
  unfold argc, arg, zlen. intros Hi. destruct (lookup_lt_is_Some_2 argv i ltac:(lia)) as [a Ha]. by eapply ok_lift.
Qed.

Ltac arg_above n := eapply (ok_bind _ _ _ (fun _ => True)); [eapply ok_weaken; [apply (ok_arg _ n); lia|done]|intros ? _].
Ltac num := split; [done|]; cbn; set_solver.
Ltac steps := repeat step; try done; try (by intros).

Lemma clean_ok fd : ok fd (cmd_clean fd) (fun _ => True).
Proof using total Hv. unfold cmd_clean. steps. num. Qed.

Lemma clear_stat_ok fd : ok fd (cmd_clear_stat fd) (fun _ => True).
Proof using total Hv. unfold cmd_clear_stat. steps. num. Qed.

Lemma stop_ok fd : ok fd (cmd_stop fd) (fun _ => True).
Proof using total Hv. unfold cmd_stop. steps. num. Qed.

Lemma count_ok fd : ok fd (cmd_count v fd) (fun _ => True).
Proof using total Hv. unfold cmd_count. steps. split; [done|]. left. split; [auto|apply Hv]. Qed.

Lemma stat_ok fd : ok fd (cmd_stat v fd) (fun _ => True).
Proof using total Hv. unfold cmd_stat. steps. split; [done|]. left. split; [auto|apply Hv]. Qed.

Lemma fetch_ok fd : (overrun -> may_fault) -> ok fd (cmd_fetch v argv fd) (fun _ => True).
Proof using total Hv.
  intros HB. unfold cmd_fetch. step; [split; [done|]; left; split; [auto|apply Hv]|]. step; [by steps|].
  set (len := word 2 _). assert (0 <= len) as Hlen by (unfold len, word, fld, unsigned; by apply Z.mod_pos_bound).
  step; [done|]. cbn [documented fst snd] in *. step; [by steps|].
  match goal with H : _ <> 0 -> _ |- _ => specialize (H ltac:(by apply Z.eqb_neq) Hlen) end.
  eapply ok_bind; [by apply ok_fetch|]. intros [ret obj] Hobj. cbn [snd] in Hobj. step; [by steps|]. steps.
  - by arg_above 2%nat; steps.
  - match goal with f : option stream |- _ => destruct f as [file|] end; [|by steps].
    eapply (ok_bind _ _ _ (fun _ => True)); [eapply ok_lift; [rewrite zread_Some by lia; done|done]|]. intros out _. steps.
    eapply (ok_bind _ _ _ (fun _ => True)); [unfold out_name; step; [by steps|eapply ok_weaken; [apply (ok_arg _ 2); lia|done]]|]. intros name _. steps.
    destruct file; by steps.
Qed.

(** The state of the script: a path that ends within its array. *)
Definition state_ok (ls : list Z) : Prop := zlen ls = LUA_STATE_SIZE /\ is_Some (cstr (ztake 256 ls)).

Lemma write_path_ok path : no_nul path -> zlen path < 256 ->
  exists ls, zwrite 0 (path ++ [0]) (l_lua_state v) = Some ls /\
    forall t, state_ok (set_mtime t ls) /\ cstr (ztake 256 (set_mtime t ls)) = Some path.
Proof using Hv.
  intros Hp Hl. pose proof (lo_lua_state _ Hv) as E. unfold LUA_STATE_SIZE in E. pose proof (zlen_nonneg path).
  pose proof (zlen_snoc path 0). rewrite zwrite_Some by lia. eexists. split; [done|]. intros t. rewrite ztake_0, app_nil_l.
  set (ls := (path ++ [0]) ++ _). assert (zlen ls = 264) as El by (subst ls; rewrite zlen_app, zlen_zdrop; lia).
  assert (cstr (ztake 256 (set_mtime t ls)) = Some path) as Ec.
  { unfold set_mtime. rewrite ztake_app_exact by (rewrite zlen_ztake; lia). subst ls. rewrite ztake_app_r, <- app_assoc by lia. by apply cstr_prefix. }
  split; [|done]. split; [|by rewrite Ec]. unfold set_mtime. rewrite zlen_app, zlen_le_bytes, zlen_ztake; [done|lia].
Qed.

Lemma script_ok fd : ok fd (script_state v argv) state_ok.
Proof using total Hv.
  unfold script_state. step.
  - eapply ok_bind; [apply (ok_arg _ 2); apply Z.eqb_eq in Heqb; lia|]. intros a _. eapply ok_bind; [apply ok_act_on; [done|intros r Hd; rewrite (lo_lua_path _ Hv); apply Hd]|]. intros [r l] [_ H1]. step; [by steps|].
    destruct H1 as (bs & Hd & Hf). cbn [documented fst snd] in *. apply Z.eqb_neq in Heqb0. destruct (proj2 Hd Heqb0) as (path & -> & Hn & Hlen).
    assert (cstr l = Some path) as Ec.
    { apply zwrite_inv in Hf as (_ & _ & ->). rewrite ztake_0, <- app_assoc. by apply cstr_prefix. }
    eapply ok_bind; [by eapply (ok_lift _ _ (fun p => p = path))|]. intros p ->. step; [by steps|].
    destruct (write_path_ok path Hn ltac:(lia)) as (ls & E & Hls).
    eapply ok_bind; [by eapply (ok_lift _ _ (fun p => p = ls))|]. intros p ->. steps. by apply Hls.
  - destruct (write_path_ok [] ltac:(constructor) ltac:(done)) as (ls & E & Hls). cbn [app] in E.
    eapply ok_bind; [by eapply (ok_lift _ _ (fun p => p = ls))|]. intros p ->. steps. by apply Hls.
Qed.

Lemma start_ok fd : ok fd (cmd_start v argv fd) (fun _ => True).
Proof using total Hv.
  unfold cmd_start. step; [by arg_above 0%nat; steps|]. eapply ok_bind; [apply script_ok|]. intros ls [Hl Hc].
  step; [num|]. step; [by steps|]. step; [split; [done|]; right; right; left; by split_and!|]. step; [by steps|]. cbn [documented snd] in *.
  assert (is_Some (cstr ls)) as [path Hp].
  { destruct Hc as [p Hp]. exists p. apply cstr_inv in Hp as [Hn [rest E]]. rewrite <- (ztake_zdrop 256 ls), E, <- app_assoc. by apply cstr_prefix. }
  destruct H1 as (bs & [_ Hd] & Hf). cbn [fst snd] in *. rewrite Hd, fill_nil in Hf by done. injection Hf as <-.
  eapply ok_bind; [eapply (ok_lift _ _ (fun _ => True)); [exact Hp|done]|]. intros p _. by steps.
Qed.

Lemma bufsize_ok fd bs : zlen bs = 8 -> ok fd (cmd_bufsize argv fd bs) (fun _ => True).
Proof using total Hv.
  intros Hb. unfold cmd_bufsize. eapply (ok_bind _ _ _ (fun b => zlen b = 8)).
  - step; [|by apply ok_ret]. eapply ok_bind; [apply (ok_arg _ 2); lia|]. intros a _. steps. num.
  - intros b Hb'. step; [split; [done|]; right; left; auto|]. by steps.
Qed.

Lemma usage_ok fd : 1 < argc argv -> ok fd (record_usage argv) (fun _ => True).
Proof using total Hv. intros Ha. unfold record_usage. arg_above 0%nat. by steps. Qed.

Lemma record_ok fd : 1 < argc argv -> ok fd (cmd_record argv fd) (fun _ => True).
Proof using total Hv.
  intros Ha. unfold cmd_record. step; [by apply usage_ok|].
  eapply (ok_bind _ _ _ (fun m => forall f, m = Some f -> f ∈ [NOD_RECORD_MODE_STOP; NOD_RECORD_MODE_START; NOD_RECORD_MODE_COMPRESS])).
  - step; [arg_above 2%nat|]; step; [|intros f [= <-]; set_solver]. unfold record_mode. intros f. repeat case_match; intros [= <-]; set_solver.
  - intros [f|] Hf; [|by apply usage_ok]. step; [|by steps]. split; [done|]. right; right; right. split; [done|]. exists f. auto.
Qed.

(** From the opened device on. *)
Lemma commands_ok fd : 2 <= argc argv -> (argv !! 1%nat = Some (str_bytes "fetch") -> overrun -> may_fault) -> forall bufsize, zlen bufsize = 8 ->
  ok fd (a1 ← arg argv 1;
    (if is_str a1 "clean" then cmd_clean fd
     else if is_str a1 "fetch" then cmd_fetch v argv fd
     else if is_str a1 "count" then cmd_count v fd
     else if is_str a1 "stat" then cmd_stat v fd
     else if is_str a1 "clear-stat" then cmd_clear_stat fd
     else if is_str a1 "stop" then cmd_stop fd
     else if is_str a1 "start" then cmd_start v argv fd
     else if is_str a1 "bufsize" then cmd_bufsize argv fd bufsize
     else if is_str a1 "record" then cmd_record argv fd
     else fprintf Stderr "Unknown cmd %s\n" [AStr a1]);;
    mret 0) exits.
Proof using total Hv.
  intros Ha HB bufsize Hb. eapply ok_bind; [apply (ok_arg _ 1); lia|]. intros a1 Ha1.
  eapply (ok_bind _ _ _ (fun _ => True)); [|intros _ _; apply ok_ret; by left].
  destruct (is_str a1 "clean"); [apply clean_ok|]. destruct (is_str a1 "fetch") eqn:Ef.
  { apply fetch_ok, HB. rewrite Ha1. f_equal. by apply bool_decide_eq_true_1 in Ef. }
  repeat match goal with |- ok _ (if ?b then _ else _) _ => destruct b end;
    eauto using count_ok, stat_ok, clear_stat_ok, stop_ok, start_ok, bufsize_ok.
  - apply record_ok. lia.
  - by steps.
Qed.
End parts.

Context (v : locals) (argv : list (list Z)).
Context (Hv : locals_ok v).

(** The requests of a run. *)
Definition requests_ok (s : run W) : Prop := forall fd cmd a r, (Ioctl fd cmd a, r) ∈ r_trace s ->
  request_ok cmd a /\ 0 <= fd /\ exists bs, (Open "/proc/nodrop", (fd, bs)) ∈ r_trace s.

Lemma good_requests fd s : 0 <= fd -> good fd s -> requests_ok s.
Proof.
  intros H0 [Ho Hf] fd' cmd a r Hin. rewrite List.Forall_forall in Hf. apply list_elem_of_In in Hin. by destruct (Hf _ Hin) as [-> Hr].
Qed.

(** C36: the control program asks only what it should. On any system whose library and device answer as
    documented, for every command line and whatever the uninitialised variables of [main] hold, [nodrop-ctl]
    ends with code 0, 127 or -1; every request goes to the descriptor that opening [/proc/nodrop] returned, is one of the
    requests of [ioctl.h] with an object of exactly the size the module copies (a fetch with one of at least the length it
    states), and the path of a script is a string that ends within its 256 bytes.  The only fault is that of [fetch], when the device's
    reply is longer than the object of [malloc] (which the module's reply is, [ctl_fetch_saves_events]). *)
Theorem ctl_requests_safe bufsize w : zlen bufsize = 8 -> argv <> [] ->
  match result (main v argv bufsize (mk_run W [] w)) with
  | Some (code, s) => exits code /\ requests_ok s
  | None => argv !! 1%nat = Some (str_bytes "fetch") /\ overrun
  end.
Proof using total Hv.
  intros Hb Hne. unfold main. destruct (argc argv <? 2) eqn:Ea.
  - destruct argv as [|a0 rest]; [done|]. unfold arg, mbind, M_bind, lift, mret at 1, M_ret at 1. cbn [lookup list_lookup].
    match goal with |- context [fprintf ?f ?fmt ?l ?s] => destruct (print_run f fmt l s eq_refl) as (t & r & w' & ->) end.
    split; [by left|]. intros fd cmd a r0 Hin. cbn [r_trace] in Hin. by rewrite list_elem_of_singleton in Hin.
  - destruct (total (Open "/proc/nodrop") w) as ([fd bs] & w1 & Eo & _).
    set (s1 := mk_run W [(Open "/proc/nodrop", (fd, bs))] w1).
    assert (ask (Open "/proc/nodrop") (mk_run W [] w) = Done fd s1) as Es by (unfold ask, act, mbind, M_bind; cbn; by rewrite Eo).
    match goal with |- context [(ask _ ≫= ?k) _] => assert (forall c, k fd s1 = c -> (ask (Open "/proc/nodrop") ≫= k) (mk_run W [] w) = c) as Ek end.
    { intros c <-. unfold mbind, M_bind. by rewrite Es. }
    erewrite Ek; [|reflexivity]. clear Ek Es Eo. destruct (Z.ltb_spec fd 0).
    + unfold do_, act, mbind, M_bind. cbn [mret M_ret]. destruct (total (Perror "Cannot open /proc/nodrop") (r_world s1)) as (r & w2 & -> & _).
      split; [by right; left|]. intros fd' cmd a r0 Hin. cbn [r_trace s1] in Hin.
      by rewrite elem_of_cons, list_elem_of_singleton in Hin; destruct Hin.
    + assert (good fd s1) as Hs1 by (split; [exists bs; by left|by repeat constructor]). apply Z.ltb_ge in Ea.
      pose proof (commands_ok (argv !! 1%nat = Some (str_bytes "fetch") /\ overrun) v argv Hv fd ltac:(lia) ltac:(by split) bufsize Hb s1 Hs1) as Hm.
      match type of Hm with match ?m with _ => _ end => destruct m as [c s|c s|] end; cbn [result]; [| |done];
        (destruct Hm as [Hs Hc]; split; [done|by eapply good_requests]).
Qed.
End safe.
