(* ===== verification/CtlDevice.v ===== *)
(** * The control program and the module

    The requests of [nodrop-ctl] answered by the model of [kmodule/proc.c]: the object
    an argument points to is the user memory of the call, and what [copy_to_user] logs
    is stored in the object.  All other calls have the answers [rest]. *)

From S2P Require Import Prelude Kernel Tables Ring FillerLib ProcState Events EventCodec EventsFacts Demo Monitor.
From S2P Require Import Privil ProcInfo Loader Hooks Trace Device DeviceProps Printf LuaRuntime Startup Ctl CtlProps.

Local Open Scope Z_scope.

Definition with_user (U : UserMem) (K : Kernel) : Kernel := {|
  k_user := U; k_args := k_args; k_ret := k_ret; k_str_addr := k_str_addr; k_mem := k_mem; k_lit := k_lit; k_task := k_task;
  k_sockfd := k_sockfd; k_sockfd_err := k_sockfd_err; k_socketcall_args := k_socketcall_args; k_stack_addr := k_stack_addr;
  k_cgroups := k_cgroups; k_has_files := k_has_files; k_max_fds := k_max_fds; k_fd_sb_dev := k_fd_sb_dev; k_fd_ino := k_fd_ino;
  k_new_encode_dev := k_new_encode_dev; k_defined := k_defined
|}.

#[local] Existing Instance log_ops.

(** The bytes a log stores from an address on, one call behind the other. *)
Fixpoint stores (a : Z) (log : list (Z * list Z)) : list Z :=
  match log with
  | [] => []
  | (b, bs) :: log => if b =? a then bs ++ stores (a + zlen bs) log else stores a log
  end.

Section module.
Context (K : Kernel) {P : Type} `{Pkeys P} {R : Type} (rest : call -> R -> option (reply_to * R)).
(** Where the objects are, the results of registering the probes and the file. *)
Context (arg_addr buf_addr r1 r2 : Z) (filp : option Z).
Notation dev := (device (M_ := list (Z * list Z)) (P := P)).

(** The device with an empty log. *)
Definition quiet (d : dev) : dev := set_w (set_m [] (dv_w d)) d.

Definition user_bytes (a : ioctl_arg) : list Z :=
  match a with ANum _ => [] | AObj bs => bs | AFetch len _ => le_bytes 8 len ++ le_bytes 8 buf_addr end.

(** [ioctl]: a negative result is -1 and [errno]. *)
Definition module_ioctl (cmd : Z) (a : ioctl_arg) (d : dev) : option (reply_to * dev) :=
  let n := match a with ANum n => n | _ => arg_addr end in
  let target := match a with AFetch _ _ => buf_addr | _ => arg_addr end in
  '(r, d') ← nod_dev_ioctl (K := with_user (flat_mem arg_addr (user_bytes a)) K) r1 r2 filp cmd n (quiet d);
  Some (if r <? 0 then -1 else r, stores target (ls_m (dv_w d')), quiet d').

#[export] Instance module_host : Host (dev * R) := {|
  host c s :=
    match c with
    | Ioctl _ cmd a => '(r, d) ← module_ioctl cmd a s.1; Some (r, (d, s.2))
    | _ => '(r, w) ← rest c s.2; Some (r, (s.1, w))
    end
|}.
End module.

(** ** Copies between the objects and the module *)

Lemma copy_until_flat base bs : copy_until (flat_byte base bs) base (length bs) = bs.
Proof.
  assert (length (copy_until (flat_byte base bs) base (length bs)) = length bs) as El.
  { apply copy_until_full. intros i Hi. unfold flat_byte, zlen. rewrite !(proj2 (Z.leb_le _ _)), (proj2 (Z.ltb_lt _ _)) by lia.
    apply lookup_lt_is_Some_2. lia. }
  apply list_eq. intros i. destruct (decide (i < length bs)%nat).
  - rewrite copy_until_lookup by lia. unfold flat_byte, zlen. rewrite (proj2 (Z.leb_le _ _)), (proj2 (Z.ltb_lt _ _)) by lia.
    cbn [andb]. f_equal. lia.
  - rewrite !lookup_ge_None_2 by lia. done.
Qed.

Lemma copy_from_flat base bs n : n = zlen bs -> 0 <= base -> base + zlen bs < 2 ^ 47 -> nod_copy_from_user (U := flat_mem base bs) base n = (0, bs).
Proof.
  intros -> H0 H1. unfold nod_copy_from_user. cbn [um_access_ok flat_mem um_copy].
  rewrite (proj2 (Z.leb_le _ _)), (proj2 (Z.ltb_lt _ _)) by lia. cbn [andb]. unfold zlen at 1 3 4. rewrite Nat2Z.id, copy_until_flat.
  f_equal. unfold zlen. lia.
Qed.

(** ** Runs that come to an end *)

Section evals.
Context {W : Type}.
Definition evals {A} (m : M (run W) A) (s : run W) (Q : A -> run W -> Prop) : Prop := exists a s', m s = Done a s' /\ Q a s'.

Lemma ev_bind {A B} (m : M (run W) A) (f : A -> M (run W) B) s Q : evals m s (fun a s' => evals (f a) s' Q) -> evals (m ≫= f) s Q.
Proof. intros (a & s' & E & b & s2 & E2 & HQ). exists b, s2. split; [|done]. unfold mbind, M_bind. by rewrite E. Qed.

Lemma ev_ret {A} (a : A) s (Q : A -> run W -> Prop) : Q a s -> evals (mret a) s Q.
Proof. intros HQ. by exists a, s. Qed.

Lemma ev_lift {A} (o : option A) a s (Q : A -> run W -> Prop) : o = Some a -> Q a s -> evals (lift o) s Q.
Proof. intros -> HQ. by exists a, s. Qed.
End evals.

Section module.
Context (K : Kernel) {P : Type} `{Pkeys P} {R : Type} (rest : call -> R -> option (reply_to * R)).
Context (arg_addr buf_addr r1 r2 : Z) (filp : option Z).
Notation dev := (device (M_ := list (Z * list Z)) (P := P)).
Notation MH := (module_host (P := P) K rest arg_addr buf_addr r1 r2 filp).
Notation ioctl := (module_ioctl (P := P) K arg_addr buf_addr r1 r2 filp).
#[local] Existing Instance module_host.

(** The addresses of the two objects, in user space. *)
Context (Harg : 0 <= arg_addr /\ arg_addr + 264 < 2 ^ 47).

(** The calls but [ioctl] that give an answer. *)
Definition answers (c : call) (Q : reply_to -> Prop) : Prop := forall w, exists r w', rest c w = Some (r, w') /\ Q r.

Lemma ev_ioctl fd cmd a t d w r d' Q : ioctl cmd a d = Some (r, d') ->
  Q r (mk_run _ ((Ioctl fd cmd a, r) :: t) (d', w)) -> evals (act (H := MH) (Ioctl fd cmd a)) (mk_run _ t (d, w)) Q.
Proof using Type. intros E HQ. eexists _, _. split; [|exact HQ]. unfold act. cbn [host module_host r_world r_trace fst snd]. by rewrite E. Qed.

Lemma ev_rest c t d w Q (RQ : reply_to -> Prop) : (forall fd cmd a, c <> Ioctl fd cmd a) -> answers c RQ ->
  (forall r w', RQ r -> Q r (mk_run _ ((c, r) :: t) (d, w'))) -> evals (act (H := MH) c) (mk_run _ t (d, w)) Q.
Proof using Type.
  intros Hc Ha HQ. destruct (Ha w) as (r & w' & E & Hr). eexists _, _. split; [|apply HQ, Hr].
  unfold act. cbn [host module_host r_world r_trace fst snd]. destruct c; try (by rewrite E). by edestruct Hc.
Qed.

Lemma ev_ask c s (Q : Z -> run (dev * R) -> Prop) : evals (act (H := MH) c) s (fun r s' => Q r.1 s') -> evals (ask (H := MH) c) s Q.
Proof using Type. intros E. apply ev_bind. destruct E as (r & s' & E & HQ). exists r, s'. split; [done|]. by apply ev_ret. Qed.

Lemma ev_do c s (Q : unit -> run (dev * R) -> Prop) : evals (act (H := MH) c) s (fun _ s' => Q tt s') -> evals (do_ (H := MH) c) s Q.
Proof using Type. intros E. apply ev_bind. destruct E as (r & s' & E & HQ). exists r, s'. split; [done|]. by apply ev_ret. Qed.

Lemma ev_act_on c obj obj' s bs (r : Z) Q : evals (act (H := MH) c) s (fun a s' => a = (r, bs) /\ Q (r, obj') s') -> fill bs obj = Some obj' ->
  evals (act_on (H := MH) c obj) s Q.
Proof using Type.
  intros (a & s' & E & -> & HQ) Hf. apply ev_bind. exists (r, bs), s'. split; [done|]. apply ev_bind. eapply ev_lift; [exact Hf|]. by apply ev_ret.
Qed.

(** A request whose reply fits the object. *)
Lemma ev_ioctl_on fd cmd a obj obj' t d w r bs d' Q : ioctl cmd a d = Some ((r, bs), d') -> fill bs obj = Some obj' ->
  Q (r, obj') (mk_run _ ((Ioctl fd cmd a, (r, bs)) :: t) (d', w)) -> evals (act_on (H := MH) (Ioctl fd cmd a) obj) (mk_run _ t (d, w)) Q.
Proof using Type. intros E Hf HQ. eapply ev_act_on; [|exact Hf]. by eapply ev_ioctl. Qed.

(** The steps up to a fault. *)
Definition faults {A} (m : M (run (dev * R)) A) (s : run (dev * R)) : Prop := m s = Bug.

Lemma fl_bind {A B} (m : M (run (dev * R)) A) (f : A -> M (run (dev * R)) B) s : evals m s (fun a s' => faults (f a) s') -> faults (m ≫= f) s.
Proof using Type. intros (a & s' & E & Hf). unfold faults, mbind, M_bind. by rewrite E. Qed.

Lemma fl_head {A B} (m : M (run (dev * R)) A) (f : A -> M (run (dev * R)) B) s : faults m s -> faults (m ≫= f) s.
Proof using Type. intros E. unfold faults, mbind, M_bind in *. by rewrite E. Qed.

Lemma fl_ioctl_on fd cmd a obj t d w r bs d' : ioctl cmd a d = Some ((r, bs), d') -> fill bs obj = None ->
  faults (act_on (H := MH) (Ioctl fd cmd a) obj) (mk_run _ t (d, w)).
Proof using Type. intros E Hf. apply fl_bind. eapply ev_ioctl; [exact E|]. unfold faults, mbind, M_bind. by rewrite Hf. Qed.

Context (prints : forall f t, answers (Fprintf f t) (fun _ => True)).

Lemma ev_print f fmt args t d w Q : accepts None (c_escapes (str_bytes fmt)) (List.map kind_of args) = true ->
  (forall u r w', Q tt (mk_run _ ((Fprintf f u, r) :: t) (d, w'))) -> evals (fprintf (H := MH) f fmt args) (mk_run _ t (d, w)) Q.
Proof using prints.
  intros [u Hu]%accepts_run HQ. apply ev_bind. eapply ev_lift; [exact Hu|]. apply ev_do.
  eapply ev_rest; [done|apply prints|]. intros r w' _. apply HQ.
Qed.

(** ** Requests *)

Ltac no_arg := unfold module_ioctl; cbn [user_bytes].

Lemma io_stop d h : untrace_syscall (dv_hooks d) = Some h -> ioctl NOD_IOCTL_STOP_RECORDING (ANum 0) d = Some ((0, []), quiet (set_hooks h d)).
Proof using Type. intros E. no_arg. change (nod_dev_ioctl _ _ _ _ _ _) with (h ← untrace_syscall (dv_hooks d); Some (0, set_hooks h (quiet d))). by rewrite E. Qed.

Lemma io_start d ret h : trace_syscall r1 r2 (dv_hooks d) = Some (ret, h) -> ioctl NOD_IOCTL_START_RECORDING (ANum 0) d = Some ((0, []), quiet (set_hooks h d)).
Proof using Type. intros E. no_arg. change (nod_dev_ioctl _ _ _ _ _ _) with ('(_, h) ← trace_syscall r1 r2 (dv_hooks d); Some (0, set_hooks h (quiet d))). by rewrite E. Qed.

Lemma io_clear_stat d : ioctl NOD_IOCTL_CLEAR_STATISTICS (ANum 0) d = Some ((0, []), quiet (set_dev_ps (clear_statistics (dev_ps d)) d)).
Proof using Type. done. Qed.

Definition set_lua (bs : list Z) (d : dev) : dev := mk_dev (dv_w d) (dv_hooks d) bs (dv_record_flag d) (dv_buffer_size d).
Definition set_flag (m : Z) (d : dev) : dev := mk_dev (dv_w d) (dv_hooks d) (dv_lua d) m (dv_buffer_size d).
Definition set_size (n : Z) (d : dev) : dev := mk_dev (dv_w d) (dv_hooks d) (dv_lua d) (dv_record_flag d) n.

Lemma io_set_lua d bs : zlen bs = LUA_STATE_SIZE -> ioctl NOD_IOCTL_SET_LUA_STATE (AObj bs) d = Some ((0, []), quiet (set_lua bs d)).
Proof using Harg.
  intros Hl. unfold LUA_STATE_SIZE in Hl. no_arg.
  change (nod_dev_ioctl _ _ _ _ _ _) with (let '(miss, bs) := from_user (K := with_user (flat_mem arg_addr bs) K) arg_addr LUA_STATE_SIZE in
    Some (if ctrue miss then - EFAULT else 0, mk_dev (dv_w (quiet d)) (dv_hooks d) bs (dv_record_flag d) (dv_buffer_size d))).
  unfold from_user. change (@k_user (with_user (flat_mem arg_addr bs) K)) with (flat_mem arg_addr bs).
  unfold LUA_STATE_SIZE. rewrite copy_from_flat by lia. cbn [Z.to_nat replicate]. by rewrite app_nil_r.
Qed.

Lemma io_set_flag d m : 0 <= m < 2 ^ 31 -> ioctl NOD_IOCTL_SET_RECORD_FLAG (AObj (le_bytes 4 m)) d = Some ((0, []), quiet (set_flag m d)).
Proof using Harg.
  intros Hm. no_arg. set (bs := le_bytes 4 m).
  change (nod_dev_ioctl _ _ _ _ _ _) with (let '(miss, bs) := from_user (K := with_user (flat_mem arg_addr bs) K) arg_addr 4 in
    Some (if ctrue miss then - EFAULT else 0, mk_dev (dv_w (quiet d)) (dv_hooks d) (dv_lua d) (s32 (le_val bs)) (dv_buffer_size d))).
  unfold from_user. change (@k_user (with_user (flat_mem arg_addr bs) K)) with (flat_mem arg_addr bs).
  assert (zlen bs = 4) as Hl by done. rewrite copy_from_flat by lia. cbn [Z.to_nat replicate]. rewrite app_nil_r. subst bs.
  rewrite le_val_bytes, unsigned_small by (change (2 ^ (8 * Z.of_nat 4)) with (2 ^ 32); lia). unfold s32. by rewrite signed_small by lia.
Qed.

Lemma io_set_size d n : ioctl NOD_IOCTL_SET_BUFFER_SIZE (ANum n) d =
  Some (if (n <? PAGE_SIZE) || ctrue (Z.land n (PAGE_SIZE - 1)) then ((-1, []), quiet d) else ((0, []), quiet (set_size n d))).
Proof using Type.
  no_arg. change (nod_dev_ioctl _ _ _ _ _ _) with (let '(ret, size) := nod_event_set_buffer_size n (dv_buffer_size d) in
    Some (if ctrue ret then - EINVAL else 0, set_size size (quiet d))).
  unfold nod_event_set_buffer_size. destruct (n <? PAGE_SIZE), (ctrue (Z.land n _)); done.
Qed.

Lemma io_get_size d bs : ioctl NOD_IOCTL_GET_BUFFER_SIZE (AObj bs) d = Some ((0, le_bytes 8 (dv_buffer_size d)), quiet d).
Proof using Type.
  no_arg. change (nod_dev_ioctl _ _ _ _ _ _) with (Some (reply arg_addr (le_bytes 8 (dv_buffer_size d)) (quiet d))).
  unfold reply, to_user. cbn. by rewrite Z.eqb_refl.
Qed.

Lemma fill_all (bs old : list Z) : zlen bs = zlen old -> fill bs old = Some bs.
Proof using Type.
  intros E. pose proof (zlen_nonneg bs). unfold fill. rewrite zwrite_Some by lia. rewrite ztake_0, Z.add_0_l. unfold zdrop, zlen in *.
  rewrite drop_ge by lia. by rewrite app_nil_r.
Qed.

(** The reply to a fetch and an object with room for it, and one without. *)
Lemma fill_room (evs tl obj : list Z) : zlen evs + zlen tl <= zlen obj -> exists obj', fill (evs ++ tl) obj = Some obj' /\ zread 0 (zlen evs) obj' = Some evs.
Proof using Type.
  intros E. pose proof (zlen_nonneg evs). pose proof (zlen_nonneg tl). unfold fill. rewrite zwrite_Some by (rewrite ?zlen_app; lia). eexists. split; [done|].
  rewrite ztake_0, <- !app_assoc. cbn [app]. 
  generalize (zdrop (0 + zlen (evs ++ tl)) obj). intros x. pose proof (zlen_nonneg x). rewrite zread_Some by (rewrite ?zlen_app; lia).
  unfold zslice. by rewrite zdrop_0, ztake_app_exact.
Qed.

Lemma fill_short (bs obj : list Z) : zlen obj < zlen bs -> fill bs obj = None.
Proof using Type. intros E. unfold fill. destruct (zwrite 0 bs obj) as [l|] eqn:Ew; [|done]. apply zwrite_inv in Ew. lia. Qed.

Lemma count_word (c : buffer_count_info) : 0 <= unflushed_len c < 2 ^ 64 -> word 2 (count_bytes c) = unflushed_len c.
Proof using Type.
  intros Hc. unfold word, fld, zslice, count_bytes. rewrite app_assoc.
  rewrite zdrop_app_exact by (by rewrite zlen_app, !zlen_le_bytes). rewrite ztake_ge by (by rewrite zlen_le_bytes).
  rewrite le_val_bytes. change (8 * Z.of_nat 8) with 64. change (8 * 8) with 64. by rewrite !unsigned_small by (rewrite ?unsigned_small; lia).
Qed.

(** The pending events of all processes. *)
Definition pending (d : dev) : list (Z * nod_proc_info) := map_to_list (ps_table (dev_ps d)).

Lemma io_count d obj : table_wf (dev_ps d) -> total (pending d) < 2 ^ 64 ->
  exists c, ioctl NOD_IOCTL_READ_BUFFER_COUNT_INFO (AObj obj) d = Some ((0, count_bytes c), quiet d) /\ unflushed_len c = total (pending d).
Proof using Type.
  intros Hwf Ht. unfold module_ioctl.
  change (nod_dev_ioctl _ _ _ _ _ _) with (ioctl_read_count arg_addr (quiet d)). unfold ioctl_read_count.
  set (g := fun p (ra : Z * buffer_count_info) => (ra.1, mk_count (u64 (event_count ra.2 + nb_event_count (p_buffer p)))
    (u64 (unflushed_count ra.2 + match nb_info (p_buffer p) with Some i => nevents i | None => 0 end)) (u64 (unflushed_len ra.2 + zlen (fetched p))))).
  rewrite (nod_proc_traverse_map _ (fun p => p) g).
  2:{ intros pid p ra Hp. destruct (Hwf _ _ Hp) as [_ [q (str & r & Eo & _ & [[[Hl Hsz _] Htl Hcap _ _ _] _])]].
      unfold __proc_bufcount_read, g, fetched. unfold open_buffer in Eo.
      destruct (p_buffer p) as [[buf|] [s|] [inf|] cnt [ov|] fl]; try done. injection Eo as <- <-.
      cbn [nb_info nb_buffer rb_info rb_buffer mbind option_bind] in *. pose proof (zlen_nonneg (encode_all q.1)).
      rewrite zlen_ztake by lia. done. }
  cbn [mbind option_bind]. change (dev_ps (quiet d)) with (dev_ps d). fold (pending d).
  assert (forall l ra, unflushed_len ra.2 + total l < 2 ^ 64 -> 0 <= unflushed_len ra.2 ->
    (foldl (fun ra x => g x.2 ra) ra l).1 = ra.1 /\ unflushed_len (foldl (fun ra x => g x.2 ra) ra l).2 = unflushed_len ra.2 + total l) as Hg.
  { induction l as [|[pid p] l IH]; intros ra Hb H0; [cbn; split; [done|lia]|].
    change (total ((pid, p) :: l)) with (zlen (fetched p) + total l) in *. pose proof (zlen_nonneg (fetched p)). pose proof (total_nonneg l).
    assert (u64 (unflushed_len ra.2 + zlen (fetched p)) = unflushed_len ra.2 + zlen (fetched p)) as Eu by (unfold u64; apply unsigned_small; lia).
    cbn [foldl snd]. destruct (IH (g p ra)) as [E1 E2]; [unfold g; cbn [snd unflushed_len]; rewrite Eu; lia..|].
    rewrite E1, E2. unfold g. cbn [fst snd unflushed_len]. rewrite Eu. split; [done|lia]. }
  destruct (Hg (pending d) (0, mk_count 0 0 0)) as [E1 E2]; [cbn; lia..|]. cbn [fst snd unflushed_len] in *.
  destruct (foldl _ _ _) as [ret c] eqn:Ef. cbn [snd fst] in *. exists c. split; [|lia].
  unfold reply, to_user. cbn. rewrite Z.eqb_refl, app_nil_r. do 2 f_equal. clear.
  destruct d as [[? ? ? [? ? ?] ?] ? ? ? ?]. assert (forall m : gmap Z nod_proc_info, (fun p => p) <$> m = m) as E by (intros m; apply map_fmap_id).
  unfold quiet, set_dev_ps, set_w, set_ps, set_table, dev_ps, set_m. cbn. by rewrite E.
Qed.

(** What is logged for the events. *)
Fixpoint log_of (l : list (Z * nod_proc_info)) (ptr : Z) : list (Z * list Z) :=
  match l with
  | [] => []
  | (_, p) :: l => (ptr, fetched p) :: log_of l (ptr + zlen (fetched p))
  end.

Definition events_of (l : list (Z * nod_proc_info)) : list Z := concat (List.map (fun x => fetched x.2) l).

Lemma zlen_events l : zlen (events_of l) = total l.
Proof using Type. induction l as [|[pid p] l IH]; [done|]. unfold events_of in *. cbn [List.map concat snd]. by rewrite zlen_app, IH. Qed.

Lemma store_all_log l ptr m : store_all (fun a bs m => m ++ [(a, bs)]) l ptr m = m ++ log_of l ptr.
Proof using Type. revert ptr m. induction l as [|[pid p] l IH]; intros ptr m; cbn; [by rewrite app_nil_r|]. by rewrite IH, <- app_assoc. Qed.

Lemma stores_log l ptr tl : stores ptr (log_of l ptr ++ tl) = events_of l ++ stores (ptr + total l) tl.
Proof using Type.
  revert ptr. induction l as [|[pid p] l IH]; intros ptr; [cbn; by rewrite Z.add_0_r|]. unfold events_of in *. cbn [log_of List.map concat snd app stores].
  rewrite Z.eqb_refl, IH, <- app_assoc. do 2 f_equal. change (total ((pid, p) :: l)) with (zlen (fetched p) + total l). f_equal. lia.
Qed.

Lemma io_fetch d obj : table_wf (dev_ps d) -> 0 <= buf_addr -> buf_addr + total (pending d) < 2 ^ 64 ->
  exists d', ioctl NOD_IOCTL_FETCH_BUFFER (AFetch (total (pending d)) obj) d =
    Some ((0, events_of (pending d) ++ le_bytes 8 (total (pending d)) ++ le_bytes 8 buf_addr), d') /\
    ps_table (dev_ps d') = ps_table (dev_ps d).
Proof using Harg.
  intros Hwf Hb Ht. pose proof (total_nonneg (pending d)) as H0. set (n := total (pending d)) in *.
  set (bs := le_bytes 8 n ++ le_bytes 8 buf_addr). set (K' := with_user (flat_mem arg_addr bs) K).
  assert (zlen bs = 16) as Hl by done.
  assert (nod_copy_from_user (U := @k_user K') arg_addr 16 = (0, bs)) as Hcp.
  { change (@k_user K') with (flat_mem arg_addr bs). apply copy_from_flat; lia. }
  assert (forall x, 0 <= x < 2 ^ 64 -> unsigned (8 * 8) (unsigned (8 * Z.of_nat 8) x) = x) as Hu.
  { intros x Hx. change (8 * Z.of_nat 8) with 64. change (8 * 8) with 64. by rewrite !unsigned_small by (rewrite ?unsigned_small; lia). }
  destruct (fetch_copies_events (K := K') (H := log_ops) (fun a bs m => m ++ [(a, bs)]) ltac:(reflexivity) r1 r2 filp arg_addr (quiet d) n buf_addr bs)
    as (_ & d' & E & Etab & Em); try done; try (unfold n, pending in *; cbn; lia).
  { unfold fld, zslice, bs. rewrite zdrop_0, ztake_app_exact, le_val_bytes by done. apply Hu. lia. }
  { unfold fld, zslice, bs. rewrite zdrop_app_exact, ztake_ge, le_val_bytes by (rewrite ?zlen_le_bytes; done). apply Hu. lia. }
  exists (quiet d'). split; [|done]. unfold module_ioctl. cbn [user_bytes]. fold bs K'. rewrite E. cbn [mbind option_bind].
  do 3 f_equal. rewrite Em, store_all_log. cbn [app]. change (ls_m (dv_w (quiet d))) with (@nil (Z * list Z)). cbn [app].
  fold (pending (quiet d)). change (pending (quiet d)) with (pending d). fold n. rewrite stores_log. fold n. cbn [stores]. by rewrite Z.eqb_refl, app_nil_r.
Qed.

(** ** Runs of [main] *)

Context (v : locals) (Hv : locals_ok v).
Context (opens : answers (Open "/proc/nodrop") (fun r => 0 <= r.1)).

(** [main] with these arguments ends with this code and leaves the device like this, whatever the answers of the other calls. *)
Definition runs (argv : list (list Z)) (d : dev) (code : Z) (Q : run (dev * R) -> Prop) : Prop := forall bufsize w, zlen bufsize = 8 ->
  exists s, result (main (H := MH) v argv bufsize (mk_run _ [] (d, w))) = Some (code, s) /\ Q s.

Lemma evals_result (m : M (run (dev * R)) Z) s (Q : run (dev * R) -> Prop) : evals m s (fun c s' => c = 0 /\ Q s') -> exists s', result (m s) = Some (0, s') /\ Q s'.
Proof using Type. intros (c & s' & -> & -> & HQ). by exists s'. Qed.

(** The literals of [main] are different. *)
Ltac choose :=
  repeat match goal with
    | |- context [is_str (str_bytes ?a) ?b] => let r := eval vm_compute in (is_str (str_bytes a) b) in change (is_str (str_bytes a) b) with r; cbv iota
    end.

Ltac open_device bind :=
  unfold main;
  match goal with |- context [argc ?l <? 2] => replace (argc l <? 2) with false
    by (symmetry; apply Z.ltb_ge; unfold argc; try unfold l; rewrite !zlen_cons; pose proof (zlen_nonneg (A := list Z) []); lia) end;
  apply bind, ev_ask; eapply ev_rest; [done|exact opens|]; intros r w1 Hr; cbn [fst] in *;
  replace (r.1 <? 0) with false by (symmetry; by apply Z.ltb_ge); cbv iota;
  apply bind; eapply ev_lift; [reflexivity|]; choose.

Ltac io := apply ev_bind, ev_ask; eapply ev_ioctl.
Ltac say := first [apply ev_bind; apply ev_print; [reflexivity|]; intros ? ? ? |apply ev_print; [reflexivity|]; intros ? ? ?].

Ltac enter := intros bufsize w Hbs; apply evals_result; open_device @ev_bind.

Lemma run_stop a0 d h : untrace_syscall (dv_hooks d) = Some h -> runs [a0; str_bytes "stop"] d 0 (fun s => (r_world s).1 = quiet (set_hooks h d)).
Proof using prints opens.
  intros E. enter. apply ev_bind. unfold cmd_stop. io; [by apply io_stop|]. cbn [fst Z.eqb]. say. by apply ev_ret.
Qed.

Lemma run_clear_stat a0 d : runs [a0; str_bytes "clear-stat"] d 0 (fun s => (r_world s).1 = quiet (set_dev_ps (clear_statistics (dev_ps d)) d)).
Proof using prints opens.
  enter. apply ev_bind. unfold cmd_clear_stat. io; [by apply io_clear_stat|]. cbn [fst Z.eqb]. say. by apply ev_ret.
Qed.

Lemma run_record a0 name m d : record_mode name = Some m -> runs [a0; str_bytes "record"; name] d 0 (fun s => (r_world s).1 = quiet (set_flag m d)).
Proof using prints opens Harg.
  intros E. enter. apply ev_bind. unfold cmd_record.
  assert (argc [a0; str_bytes "record"; name] = 3) as -> by (unfold argc; by rewrite !zlen_cons, zlen_nil). cbn [Z.ltb Z.eqb Z.compare Pos.compare Pos.compare_cont Pos.eqb].
  do 2 apply ev_bind. eapply ev_lift; [reflexivity|]. rewrite E. apply ev_ret.
  apply ev_bind. eapply ev_ioctl_on; [apply io_set_flag|apply fill_nil|].
  { unfold record_mode in E. repeat case_match; by simplify_eq. }
  cbn [Z.eqb]. say. by apply ev_ret.
Qed.

(** The size in KB that [bufsize] gets, and the bytes it asks for. *)
Lemma run_bufsize a0 text n d : n = u64 (u64 (atol text) * 1024) ->
  runs [a0; str_bytes "bufsize"; text] d 0 (fun s => (r_world s).1 =
    quiet (if (n <? PAGE_SIZE) || ctrue (Z.land n (PAGE_SIZE - 1)) then d else set_size n d)).
Proof using prints opens.
  intros E. enter. apply ev_bind. unfold cmd_bufsize.
  assert (argc [a0; str_bytes "bufsize"; text] = 3) as -> by (unfold argc; by rewrite !zlen_cons, zlen_nil). cbn [Z.leb Z.compare Pos.compare Pos.compare_cont].
  do 2 apply ev_bind. eapply ev_lift; [reflexivity|]. cbv zeta. rewrite <- E. pose proof (io_set_size d n) as Es.
  destruct (_ || _); (io; [exact Es|]); cbn [fst Z.eqb negb].
  - say. apply ev_ret, ev_bind. eapply ev_ioctl_on; [apply io_get_size|by apply fill_all; rewrite !zlen_le_bytes|]. cbn [Z.eqb negb]. say. by apply ev_ret.
  - apply ev_bind, ev_ret, ev_ret, ev_bind. eapply ev_ioctl_on; [apply io_get_size|by apply fill_all; rewrite !zlen_le_bytes|]. cbn [Z.eqb negb]. say. by apply ev_ret.
Qed.

(** Changing the settings.  [nodrop-ctl] with [record none], [record normal] or [record compress] sets the mode of the monitors to
    0, 1 or 2; [bufsize n] sets the size of new buffers to [n] KB if this is a multiple of the page size and leaves it
    otherwise; [clear-stat] zeroes the counters; [stop] gives the system-call table back. Each ends with code 0, does
    exactly one change and leaves the queues and everything else of the module alone. *)
Theorem ctl_settings a0 d :
  (forall name m, (name, m) ∈ [("none", NOD_RECORD_MODE_STOP); ("normal", NOD_RECORD_MODE_START); ("compress", NOD_RECORD_MODE_COMPRESS)] ->
     runs [a0; str_bytes "record"; str_bytes name] d 0 (fun s => (r_world s).1 = quiet (set_flag m d))) /\
  (forall text k, atol text = k -> 0 <= k < 2 ^ 54 ->
     runs [a0; str_bytes "bufsize"; text] d 0 (fun s => (r_world s).1 = quiet (if (0 <? k) && (k mod 4 =? 0) then set_size (k * 1024) d else d))) /\
  runs [a0; str_bytes "clear-stat"] d 0 (fun s => (r_world s).1 = quiet (set_dev_ps (clear_statistics (dev_ps d)) d)) /\
  (forall h, untrace_syscall (dv_hooks d) = Some h -> runs [a0; str_bytes "stop"] d 0 (fun s => (r_world s).1 = quiet (set_hooks h d))).
Proof using Harg prints opens.
  split; [|split; [|split]].
  - intros name m Hin. apply run_record. rewrite !elem_of_cons, elem_of_nil in Hin. by destruct Hin as [[= -> ->]|[[= -> ->]|[[= -> ->]|[]]]].
  - intros text k Hk Hr bufsize w Hb. assert (k * 1024 = u64 (u64 (atol text) * 1024)) as En.
    { rewrite Hk. unfold u64. rewrite !unsigned_small by (rewrite ?unsigned_small; lia). done. }
    destruct (run_bufsize a0 text (k * 1024) d En bufsize w Hb) as (s & Es & Hs).
    exists s. split; [done|]. rewrite Hs. f_equal. unfold PAGE_SIZE. change (4096 - 1) with (Z.ones 12). rewrite Z.land_ones by lia.
    change (2 ^ 12) with (4 * 1024). rewrite Z.mul_mod_distr_r by lia. unfold ctrue.
    destruct (Z.ltb_spec (k * 1024) 4096), (Z.ltb_spec 0 k), (Z.eqb_spec (k mod 4) 0) as [E|E]; cbn [orb andb];
      destruct (Z.eqb_spec (k mod 4 * 1024) 0); cbn [negb]; try done; Z.div_mod_to_equations; lia.
  - apply run_clear_stat.
  - intros h. apply run_stop.
Qed.

(** What the calls of [fetch] did: one call wrote the bytes [evs] to the file that was opened, and the module stored 16
    bytes more than the length it was told. *)
Record saved (path evs : list Z) (tr : list (call * reply_to)) : Prop := {
  sv_written : exists h r bs, h <> 0 /\ (Fopen path, (h, bs)) ∈ tr /\ (Fwrite (File h) evs, r) ∈ tr;
  sv_only : forall f buf r, (Fwrite f buf, r) ∈ tr -> buf = evs;
  sv_reply : exists fd obj bs, (Ioctl fd NOD_IOCTL_FETCH_BUFFER (AFetch (zlen evs) obj), (0, bs)) ∈ tr /\ zlen bs = zlen evs + 16
}.

Lemma saved_trace path evs tl obj c1 c2 c3 fd h bs rw (u : list Z) ru rc pre : h <> 0 -> zlen tl = 16 ->
  c1 = Fclose (File h) -> c2 = Fprintf Stderr u -> c3 = Fwrite (File h) evs -> Forall (fun i => forall f buf, i.1 <> Fwrite f buf) pre ->
  saved path evs ((c1, rc) :: (c2, ru) :: (c3, rw) :: (Fopen path, (h, bs)) :: (Ioctl fd NOD_IOCTL_FETCH_BUFFER (AFetch (zlen evs) obj), (0, evs ++ tl)) :: pre).
Proof using Type.
  intros Hh Ht -> -> -> Hpre. constructor.
  - exists h, rw, bs. split; [done|]. split; [by do 3 right; left|by do 2 right; left].
  - intros f b rb. rewrite !elem_of_cons. intros [Hin|[Hin|[Hin|[Hin|[Hin|Hin]]]]]; try done; [by injection Hin|].
    rewrite List.Forall_forall in Hpre. apply list_elem_of_In in Hin. by destruct (Hpre _ Hin f b).
  - exists fd, obj, (evs ++ tl). split; [by do 4 right; left|]. rewrite zlen_app. lia.
Qed.

(** The steps of [fetch] before the request for the events. *)
Ltac fetch_begins bind Ec Eu Hlen Hm :=
  apply bind; (eapply ev_ioctl_on; [exact Ec|by apply fill_all; rewrite (lo_cinfo _ Hv)|]); cbn [Z.eqb negb];
  rewrite count_word, Eu by (rewrite Eu; lia); cbv zeta; rewrite <- Hlen;
  apply bind; (eapply ev_rest; [done|exact Hm|]); intros [buf obj] w2 [Hbuf Hobj]; cbn [fst snd] in *; rewrite (proj2 (Z.eqb_neq _ _) Hbuf).

(** C34: [nodrop-ctl fetch file] against the module, while nothing is recorded. The program asks [malloc] for exactly as many bytes as the
    module counts, and the module replies with the encodings of the events in the buffers of all processes, queue by queue (the event
    that waits on an overflow page is not among them), and 16 bytes more. If the object has these 16 bytes to spare, the program writes exactly the encodings to the
    file in one call, ends with code 0 and leaves the queues as they are; if it has not, the reply is
    stored behind the end of the object. *)
Theorem ctl_fetch_saves_events a0 path d : table_wf (dev_ps d) -> 0 <= buf_addr -> buf_addr + total (pending d) < 2 ^ 64 ->
  answers (Fopen path) (fun r => r.1 <> 0) -> (forall f buf, answers (Fwrite f buf) (fun _ => True)) -> (forall f, answers (Fclose f) (fun _ => True)) ->
  (forall pid p, ps_table (dev_ps d) !! pid = Some p -> exists q, proc_queue p q /\ fetched p = encode_all q.1) /\
  (answers (Malloc (total (pending d))) (fun r => r.1 <> 0 /\ total (pending d) + 16 <= zlen r.2) ->
   runs [a0; str_bytes "fetch"; path] d 0 (fun s => ps_table (dev_ps (r_world s).1) = ps_table (dev_ps d) /\ saved path (events_of (pending d)) (r_trace s))) /\
  (answers (Malloc (total (pending d))) (fun r => r.1 <> 0 /\ total (pending d) <= zlen r.2 < total (pending d) + 16) ->
   forall bufsize w, result (main (H := MH) v [a0; str_bytes "fetch"; path] bufsize (mk_run _ [] (d, w))) = None).
Proof using Harg prints opens Hv.
  intros Hwf Hb Ht Ho Hw Hc. pose proof (zlen_events (pending d)) as Hlen. set (evs := events_of (pending d)) in *. rewrite <- Hlen.
  pose proof (total_nonneg (pending d)) as Hn. destruct (io_count d (l_cinfo v) Hwf ltac:(lia)) as (c & Ec & Eu).
  assert (argc [a0; str_bytes "fetch"; path] = 3) as E3 by (unfold argc; by rewrite !zlen_cons, zlen_nil). split; [|split].
  - intros pid p Hp. destruct (Hwf _ _ Hp) as [_ [q Hq]]. exists q. split; [done|].
    destruct (buf_copy_entry (H := log_ops) (fun a bs m => m ++ [(a, bs)]) ltac:(reflexivity) (zlen (fetched p)) p q 0 0 0 [] Hq) as [E _]; try done;
      pose proof (zlen_nonneg (fetched p)); pose proof (fetched_bound p q Hq); lia.
  - intros Hm. enter. apply ev_bind. unfold cmd_fetch. fetch_begins @ev_bind Ec Eu Hlen Hm.
    destruct (io_fetch (quiet d) obj Hwf Hb Ht) as (d' & Ef & Et). change (pending (quiet d)) with (pending d) in Ef. rewrite <- Hlen in Ef. fold evs in Ef.
    destruct (fill_room evs (le_bytes 8 (zlen evs) ++ le_bytes 8 buf_addr) obj) as (obj' & Efill & Eread); [by rewrite zlen_app, !zlen_le_bytes|].
    apply ev_bind. eapply ev_ioctl_on; [exact Ef|exact Efill|]. cbn [Z.eqb negb].
    rewrite E3. cbn [Z.leb Z.compare Pos.compare Pos.compare_cont].
    do 2 apply ev_bind. (eapply ev_lift; [reflexivity|]). apply ev_bind, ev_ask. eapply ev_rest; [done|exact Ho|]. intros [h bs] w3 Hh.
    cbn [fst] in *. apply ev_ret. rewrite (proj2 (Z.eqb_neq _ _) Hh). apply ev_bind. eapply ev_lift; [exact Eread|].
    apply ev_bind, ev_ask. eapply ev_rest; [done|apply Hw|]. intros rw w4 _.
    apply ev_bind. unfold out_name. rewrite E3. cbn [Z.leb Z.compare Pos.compare Pos.compare_cont]. (eapply ev_lift; [reflexivity|]).
    destruct (rw.1 =? 1); say; apply ev_do; (eapply ev_rest; [done|apply Hc|]); intros; apply ev_ret; (split; [done|split; [done|]]);
      (eapply saved_trace; [exact Hh|done|done|done|done|by repeat constructor]).
  - intros Hm bufsize w.
    assert (faults (main (H := MH) v [a0; str_bytes "fetch"; path] bufsize) (mk_run _ [] (d, w))) as ->; [|done].
    open_device @fl_bind. apply fl_head. unfold cmd_fetch. fetch_begins @fl_bind Ec Eu Hlen Hm.
    destruct (io_fetch (quiet d) obj Hwf Hb Ht) as (d' & Ef & Et). change (pending (quiet d)) with (pending d) in Ef. rewrite <- Hlen in Ef. fold evs in Ef.
    apply fl_head. eapply fl_ioctl_on; [exact Ef|]. apply fill_short. rewrite !zlen_app, !zlen_le_bytes. lia.
Qed.

(** A refused script ends the program. *)
Definition leaves {A} (m : M (run (dev * R)) A) (s : run (dev * R)) (c : Z) (Q : run (dev * R) -> Prop) : Prop := exists s', m s = Ret c s' /\ Q s'.

Lemma lv_bind {A B} (m : M (run (dev * R)) A) (f : A -> M (run (dev * R)) B) s c Q : evals m s (fun a s' => leaves (f a) s' c Q) -> leaves (m ≫= f) s c Q.
Proof using Type. intros (a & s' & E & s2 & E2 & HQ). exists s2. split; [|done]. unfold mbind, M_bind. by rewrite E. Qed.

Lemma lv_head {A B} (m : M (run (dev * R)) A) (f : A -> M (run (dev * R)) B) s c Q : leaves m s c Q -> leaves (m ≫= f) s c Q.
Proof using Type. intros (s' & E & HQ). exists s'. split; [|done]. unfold mbind, M_bind. by rewrite E. Qed.

Lemma lv_exit s c (Q : run (dev * R) -> Prop) : Q s -> leaves (exit_with c) s c Q.
Proof using Type. intros HQ. by exists s. Qed.

Lemma leaves_result (m : M (run (dev * R)) Z) s c (Q : run (dev * R) -> Prop) : leaves m s c Q -> exists s', result (m s) = Some (c, s') /\ Q s'.
Proof using Type. intros (s' & -> & HQ). by exists s'. Qed.

Lemma fill_path real : no_nul real -> zlen real < 4096 -> exists buf, fill (real ++ [0]) (l_lua_path v) = Some buf /\ cstr buf = Some real.
Proof using Hv.
  intros Hn Hl. pose proof (zlen_nonneg real). unfold fill. rewrite zwrite_Some by (rewrite ?zlen_snoc, ? (lo_lua_path _ Hv); lia). eexists. split; [done|].
  rewrite ztake_0, <- app_assoc. by apply cstr_prefix.
Qed.

Lemma set_mtime_ok ls t : zlen ls = LUA_STATE_SIZE -> 0 <= t < 2 ^ 64 -> Startup.lua_mtime (set_mtime t ls) = t.
Proof using Type.
  unfold LUA_STATE_SIZE. intros Hl Ht. unfold Startup.lua_mtime, set_mtime, zslice.
  assert (zlen (ztake 256 ls) = 256) as E by (rewrite zlen_ztake; lia).
  rewrite zdrop_app_exact by lia. rewrite ztake_ge, le_val_bytes by (by rewrite zlen_le_bytes).
  change (8 * Z.of_nat 8) with 64. by apply unsigned_small.
Qed.

Context (path : list Z).

Definition start_args (a0 : list Z) : list (list Z) := [a0; str_bytes "start"; path].

Lemma start_argc a0 : argc (start_args a0) = 3.
Proof using Type. unfold argc, start_args. by rewrite !zlen_cons, zlen_nil. Qed.

Ltac three := rewrite start_argc; cbn [Z.ltb Z.eqb Z.leb Z.compare Pos.compare Pos.compare_cont Pos.eqb].

(** [realpath] finds no file. *)
Lemma script_missing a0 tr d w : answers (Realpath path) (fun r => r.1 = 0 /\ zlen r.2 <= 4096) ->
  leaves (script_state (H := MH) v (start_args a0)) (mk_run _ tr (d, w)) (-1) (fun s => (r_world s).1 = d).
Proof using Hv prints.
  intros Hr. unfold script_state. three. apply lv_bind. eapply ev_lift; [reflexivity|]. apply lv_bind, ev_bind. eapply ev_rest; [done|exact Hr|].
  intros [r bs] w' [Hr0 Hl]. cbn [fst snd] in *. subst r. pose proof (zlen_nonneg bs).
  apply ev_bind. eapply ev_lift; [unfold fill; apply zwrite_Some; rewrite ?(lo_lua_path _ Hv); lia|]. apply ev_ret. cbn [Z.eqb].
  apply lv_bind, ev_print; [done|]. intros ? ? ?. by apply lv_head, lv_exit.
Qed.

Section found.
(** The path of a script as [realpath] gives it, and what [stat] says of it. *)
Context (real : list Z) (t : Z).
Context (Hreal : answers (Realpath path) (fun r => r.1 <> 0 /\ r.2 = real ++ [0])) (Hnn : no_nul real) (Hmax : zlen real < 4096).

(** [realpath] and the copy of its result, the first steps of [script_state], for [ev_bind] or [lv_bind]. *)
Ltac resolved bind :=
  unfold script_state; three; apply bind; (eapply ev_lift; [reflexivity|]); destruct (fill_path real Hnn Hmax) as (buf & Hfill & Hbuf);
  apply bind, ev_bind; (eapply ev_rest; [done|exact Hreal|]); intros [? ?] ? [Hr1 Hr2]; cbn [fst snd] in *; subst;
  apply ev_bind; (eapply ev_lift; [exact Hfill|]); apply ev_ret; rewrite (proj2 (Z.eqb_neq _ _) Hr1); apply bind; (eapply ev_lift; [exact Hbuf|]).

Lemma script_evals a0 tr d w Q : zlen real < 256 -> 0 <= t < 2 ^ 64 -> answers (Stat real) (fun r => r.1 = 0 /\ r.2 = le_bytes 8 t) ->
  (forall ls tr w, state_ok ls -> cstr (ztake 256 ls) = Some real -> Startup.lua_mtime ls = t -> Q ls (mk_run _ tr (d, w))) ->
  evals (script_state (H := MH) v (start_args a0)) (mk_run _ tr (d, w)) Q.
Proof using Hv Hreal Hnn Hmax.
  intros Hl Ht Hs HQ. resolved @ev_bind. rewrite (proj2 (Z.ltb_ge _ _)) by lia.
  destruct (write_path_ok v Hv real Hnn Hl) as (ls & E & Hls). apply ev_bind. eapply ev_lift; [exact E|].
  apply ev_bind. eapply ev_rest; [done|exact Hs|]. intros [? ?] ? [? ?]. cbn [fst snd] in *. subst. cbn [negb Z.eqb]. apply ev_ret.
  rewrite le_val_bytes. change (8 * Z.of_nat 8) with 64. rewrite unsigned_small by done.
  destruct (Hls t) as [H1 H2]. apply HQ; [done|done|]. apply set_mtime_ok; [|done]. rewrite (zlen_zwrite _ _ _ _ E). apply Hv.
Qed.

(** A path that is too long, or a file that is not there: nothing was asked of the module. *)
Lemma script_leaves a0 tr d w : 256 <= zlen real \/ answers (Stat real) (fun r => r.1 <> 0) ->
  leaves (script_state (H := MH) v (start_args a0)) (mk_run _ tr (d, w)) (-1) (fun s => (r_world s).1 = d).
Proof using Hv Hreal Hnn Hmax prints.
  intros Hbad. resolved @lv_bind. destruct (Z.ltb_spec 256 (zlen real + 1)) as [|Hl].
  - apply lv_bind, ev_print; [done|]. intros ? ? ?. by apply lv_head, lv_exit.
  - destruct Hbad as [|Hs]; [lia|]. destruct (write_path_ok v Hv real Hnn ltac:(lia)) as (ls & E & _). apply lv_bind. eapply ev_lift; [exact E|].
    apply lv_bind. eapply ev_rest; [done|exact Hs|]. intros [x ?] ? Hx. cbn [fst] in *. rewrite (proj2 (Z.eqb_neq _ _) Hx). cbn [negb].
    apply lv_bind, ev_print; [done|]. intros ? ? ?. by apply lv_head, lv_exit.
Qed.

(** The program after the state of the script was made. *)
Lemma start_runs a0 d table ret h : zlen real < 256 -> 0 <= t < 2 ^ 64 -> answers (Stat real) (fun r => r.1 = 0 /\ r.2 = le_bytes 8 t) ->
  hooks_inv table (dv_hooks d) -> trace_syscall r1 r2 (dv_hooks d) = Some (ret, h) ->
  runs (start_args a0) d 0 (fun s => exists bs, (r_world s).1 = quiet (set_lua bs (set_hooks h d)) /\ zlen bs = LUA_STATE_SIZE /\
    cstr (ztake 256 bs) = Some real /\ Startup.lua_mtime bs = t).
Proof using All.
  intros Hl Ht Hs _ Hh. unfold start_args. enter. fold (start_args a0). apply ev_bind. unfold cmd_start. three. apply ev_bind, script_evals; try done.
  intros ls tr w2 [Hls Hc] Hp Hm. io; [by eapply io_start|]. cbn [fst Z.eqb negb].
  apply ev_bind. eapply ev_ioctl_on; [by apply io_set_lua|apply fill_nil|]. cbn [Z.eqb negb].
  apply cstr_inv in Hp as Hp'. destruct Hp' as [_ [rest' Er]].
  apply ev_bind. eapply ev_lift; [by rewrite <- (ztake_zdrop 256 ls), Er, <- app_assoc; apply cstr_prefix|].
  apply ev_print; [done|]. intros ? ? ?. apply ev_ret. split; [done|]. by exists ls.
Qed.
End found.

(** C35: a script given to [nodrop-ctl start] is one the monitor can load. If [realpath] and [stat] find the file under a
    path of less than 256 bytes, [nodrop-ctl start file] ends with code 0 and changes nothing but the hooks and the
    script of the module: it records afterwards if it did before or if both probes could be registered (if they could not, the program says the same), and what the
    module then hands to the monitors makes [lua_run_script] of
    every well-formed runtime remember this path and time without a fault, unless the script reads a stale current event. If [realpath] does not find the
    file, its path is too long or [stat] fails, the program ends with code -1 and asked nothing of the module. *)
Theorem ctl_start_script a0 d :
  (forall table real t, hooks_inv table (dv_hooks d) -> answers (Realpath path) (fun r => r.1 <> 0 /\ r.2 = real ++ [0]) -> no_nul real ->
     zlen real < 256 -> 0 <= t < 2 ^ 64 -> answers (Stat real) (fun r => r.1 = 0 /\ r.2 = le_bytes 8 t) ->
     runs (start_args a0) d 0 (fun s => exists h bs, (r_world s).1 = quiet (set_lua bs (set_hooks h d)) /\ zlen bs = LUA_STATE_SIZE /\
       hooks_inv table h /\ hk_registered h = (if (hk_registered (dv_hooks d) =? 1) || ((r1 =? 0) && (r2 =? 0)) then 1 else 0) /\
       forall (V : Type) (vm : LuaVM V) (ok : LuaVMOk V) fopen (rt : runtime), runtime_ok rt ->
         match lua_run_script fopen (mk_ls (ztake 256 bs) (Startup.lua_mtime bs)) rt with
         | Some (_, rt') => cstr (lua_path (run_state rt')) = Some real /\ LuaRuntime.lua_mtime (run_state rt') = t
         | None => LuaProps.stale (rt_fields rt) = true
         end)) /\
  (answers (Realpath path) (fun r => r.1 = 0 /\ zlen r.2 <= 4096) \/
   (exists real, answers (Realpath path) (fun r => r.1 <> 0 /\ r.2 = real ++ [0]) /\ no_nul real /\ zlen real < 4096 /\
     (256 <= zlen real \/ answers (Stat real) (fun r => r.1 <> 0))) ->
   runs (start_args a0) d (-1) (fun s => (r_world s).1 = d)).
Proof using All.
  split.
  - intros table real t Hinv Hreal Hnn Hl Ht Hs bufsize w Hbs. destruct (trace_syscall_ok table r1 r2 (dv_hooks d) Hinv) as (ret & h & Eh & Hh & Ereg).
    destruct (start_runs real t Hreal Hnn ltac:(lia) a0 d table ret h Hl Ht Hs Hinv Eh bufsize w Hbs) as (s & Es & bs & Ed & Hlen & Hp & Hm).
    exists s. split; [done|]. exists h, bs. repeat (split; [done|]). intros V vm ok fopen rt Hrt.
    pose proof (run_script_run fopen (mk_ls (ztake 256 bs) (Startup.lua_mtime bs)) rt Hrt) as Hrun. unfold script_loaded in Hrun. cbn [lua_path LuaRuntime.lua_mtime] in Hrun.
    destruct (lua_run_script _ _ rt) as [[r rt']|]; destruct Hrun as [H1 H2];
      try (split; cbn [lua_path]; [unfold LUA_STATE_SIZE in Hlen; rewrite zlen_ztake by lia; done|by eexists]); [|done].
    destruct H2 as (_ & [E1 E2] & _). by rewrite <- E1, <- E2, Hp.
  - intros Hbad bufsize w Hbs. apply leaves_result. unfold start_args. open_device @lv_bind. fold (start_args a0).
    apply lv_head. unfold cmd_start. three. apply lv_head. destruct Hbad as [Hno|(real & Hreal & Hnn & Hmax & Hbad)]; [by apply script_missing|by eapply script_leaves].
Qed.
End module.

(** ** The properties at work *)

(** A system whose calls succeed: the script [/a.lua] of time 7, objects with some bytes to spare. *)
Definition demo_calls_with (spare : Z) (c : call) (w : unit) : option (reply_to * unit) :=
  Some (match c with
        | Open _ => (3, [])
        | Malloc n => (4096, replicate (Z.to_nat (n + spare)) 0)
        | Realpath _ => (1, str_bytes "/a.lua" ++ [0])
        | Stat _ => (0, le_bytes 8 7)
        | Fopen _ => (5, [])
        | Fwrite _ _ => (1, [])
        | _ => (0, [])
        end, w).
Definition demo_calls := demo_calls_with 16.

Definition demo_locals : locals := mk_locals (replicate 24 170) (replicate 24 170) (replicate 264 170) (replicate 4096 170).

Lemma demo_locals_ok : locals_ok demo_locals.
Proof. by constructor. Qed.

(** A process with an event that no monitor has seen. *)
Definition event_entry : nod_proc_info := ProcState.set_buffer (close_buffer (replicate 4096 170) demo_rbuf zero_buffer) demo_entry.
Definition event_dev : device (M_ := list (Z * list Z)) (P := Z) :=
  mk_dev (mk_lstate (call_regs 16 0) demo_ktask demo_tsk (mk_pstate {[100 := event_entry]} 1 demo_stat) []) demo_hooks (replicate 264 0) 0 4096.

Lemma event_entry_queue : proc_queue event_entry ([demo_event], None).
Proof.
  eexists _, _. split; [reflexivity|]. split; [reflexivity|]. split; [exact demo_rbuf_holds|reflexivity].
Qed.

Lemma event_table_wf : table_wf (dev_ps event_dev).
Proof.
  intros pid p. change (ps_table (dev_ps event_dev)) with ({[100 := event_entry]} : gmap Z nod_proc_info).
  rewrite lookup_singleton_Some. intros [<- <-]. split; [done|]. exists ([demo_event], None). exact event_entry_queue.
Qed.

Lemma pending_one : pending event_dev = [(100, event_entry)].
Proof. apply map_to_list_singleton. Qed.

Lemma demo_answers spare c (Q : reply_to -> Prop) r : demo_calls_with spare c tt = Some (r, tt) -> Q r -> answers (demo_calls_with spare) c Q.
Proof. intros E HQ []. by exists r, tt. Qed.

(** [main] against the module with these calls, at addresses 4096 and 8192. *)
Notation demo_main spare args d := (main (H := module_host (P := Z) close_kernel (demo_calls_with spare) 4096 8192 0 0 None) demo_locals args (replicate 8 0) (mk_run _ [] (d, tt))).

Lemma ctl_fetch_saves_events_witness :
  (exists s, result (demo_main 16 [str_bytes "nodrop-ctl"; str_bytes "fetch"; str_bytes "out"] event_dev) = Some (0, s) /\
    saved (str_bytes "out") (encode demo_event) (r_trace s)) /\
  result (demo_main 0 [str_bytes "nodrop-ctl"; str_bytes "fetch"; str_bytes "out"] event_dev) = None.
Proof.
  assert (total (pending event_dev) = 48) as Et by (rewrite pending_one; by vm_compute).
  assert (forall spare, answers (demo_calls_with spare) (Malloc 48) (fun r => r = (4096, replicate (Z.to_nat (48 + spare)) 0))) as Hm by (intros; by eapply demo_answers).
  split.
  - destruct (ctl_fetch_saves_events close_kernel (demo_calls_with 16) 4096 8192 0 0 None ltac:(lia)
      ltac:(intros; by eapply demo_answers) demo_locals demo_locals_ok ltac:(by eapply demo_answers)
      (str_bytes "nodrop-ctl") (str_bytes "out") event_dev event_table_wf ltac:(lia) ltac:(rewrite Et; lia)
      ltac:(by eapply demo_answers) ltac:(intros; by eapply demo_answers) ltac:(intros; by eapply demo_answers)) as (_ & Hr & _).
    destruct (Hr ltac:(rewrite Et; eapply demo_answers; [reflexivity|by vm_compute]) (replicate 8 0) tt eq_refl) as (s & E & _ & Hs).
    exists s. split; [exact E|]. rewrite pending_one in Hs. assert (events_of [(100, event_entry)] = encode demo_event) as Ee by (by vm_compute). by rewrite Ee in Hs.
  - apply (ctl_fetch_saves_events close_kernel (demo_calls_with 0) 4096 8192 0 0 None ltac:(lia)
      ltac:(intros; by eapply demo_answers) demo_locals demo_locals_ok ltac:(by eapply demo_answers)
      (str_bytes "nodrop-ctl") (str_bytes "out") event_dev event_table_wf ltac:(lia) ltac:(rewrite Et; lia)
      ltac:(by eapply demo_answers) ltac:(intros; by eapply demo_answers) ltac:(intros; by eapply demo_answers)).
    rewrite Et. eapply demo_answers; [reflexivity|by vm_compute].
Defined.

Lemma ctl_settings_witness :
  exists s, result (demo_main 16 [str_bytes "nodrop-ctl"; str_bytes "bufsize"; str_bytes "64"] event_dev) = Some (0, s) /\
    dv_buffer_size (r_world s).1 = 65536.
Proof.
  destruct (ctl_settings close_kernel demo_calls 4096 8192 0 0 None ltac:(lia) ltac:(intros; by eapply demo_answers) demo_locals
    ltac:(by eapply demo_answers) (str_bytes "nodrop-ctl") event_dev) as (_ & Hb & _).
  destruct (Hb (str_bytes "64") 64 eq_refl ltac:(lia) (replicate 8 0) tt eq_refl) as (s & E & Hs). exists s. split; [exact E|].
  by rewrite Hs.
Defined.

Lemma ctl_start_script_witness :
  exists s bs, result (demo_main 16 [str_bytes "nodrop-ctl"; str_bytes "start"; str_bytes "a.lua"] event_dev) = Some (0, s) /\
    dv_lua (r_world s).1 = bs /\ match lua_run_script (fun _ => None) (mk_ls (ztake 256 bs) (Startup.lua_mtime bs)) demo_runtime with
      | Some (_, rt') => cstr (lua_path (run_state rt')) = Some (str_bytes "/a.lua") | None => False end.
Proof.
  destruct (ctl_start_script close_kernel demo_calls 4096 8192 0 0 None ltac:(lia) ltac:(intros; by eapply demo_answers) demo_locals demo_locals_ok
    ltac:(by eapply demo_answers) (str_bytes "a.lua") (str_bytes "nodrop-ctl") event_dev) as [Hs _].
  destruct (Hs demo_table (str_bytes "/a.lua") 7 (reach_inv demo_table demo_hooks eq_refl demo_reach) ltac:(eapply demo_answers; [reflexivity|by split]) ltac:(by repeat constructor) ltac:(by vm_compute) ltac:(lia)
    ltac:(eapply demo_answers; [reflexivity|by split]) (replicate 8 0) tt eq_refl) as (s & E & h & bs & Ed & _ & _ & _ & Hrun).
  specialize (Hrun _ _ demo_vm_ok (fun _ => None) demo_runtime demo_runtime_ok).
  exists s, bs. split; [exact E|]. split; [by rewrite Ed|]. destruct (lua_run_script _ _ _) as [[r rt']|]; [apply Hrun|by vm_compute in Hrun].
Defined.

(** A system whose device accepts every request. *)
#[local] Instance demo_host : Host unit := {| host := demo_calls |}.

Lemma ctl_requests_safe_witness :
  exists code s, result (main (H := demo_host) demo_locals [str_bytes "nodrop-ctl"; str_bytes "start"; str_bytes "a.lua"] (replicate 8 0) (mk_run unit [] tt)) =
    Some (code, s) /\ exits code.
Proof.
  assert (forall c w, exists r w', host (W := unit) c w = Some (r, w') /\ documented c r) as Ht.
  { intros c []. eexists _, tt. split; [reflexivity|]. destruct c as [| fd cmd [n|obj|len obj]|size|path| | | | | |]; cbn; try done.
    - split; [apply zlen_nonneg|done].
    - intros _ Hs. unfold zlen. rewrite length_replicate. lia.
    - split; [by vm_compute|]. intros _. exists (str_bytes "/a.lua"). split; [done|]. by split; [repeat constructor|]. }
  pose proof (ctl_requests_safe (H := demo_host) Ht demo_locals [str_bytes "nodrop-ctl"; str_bytes "start"; str_bytes "a.lua"] demo_locals_ok (replicate 8 0) tt eq_refl ltac:(done)) as Hm.
  destruct (result _) as [[code s]|]; [exists code, s; split; [done|apply Hm]|]. destruct Hm as [Hf _]. by vm_compute in Hf.
Defined.
