(* ===== verification/VisitDevice.v ===== *)
(** * A visit of the monitor on the module

    The requests of a visit ([monitor/src/startup.c]) answered by the models of [kmodule/proc.c] and of
    [monitor/src/main.c]: the device opens as a descriptor, maps the process's block of counters and buffer, tells
    the script and the record flag, and grants the request to leave; [nod_monitor_main] runs on the buffer the kernel
    has filled.  A visit then is the step [OVisit] of [Pipeline]. *)

From S2P Require Import Prelude Kernel Tables Flags Ring RingFacts FillerLib ProcState Events EventCodec EventsFacts Demo Monitor Pipeline.
From S2P Require Import Privil ProcInfo Loader Hooks Trace Device DeviceProps Ctl CtlDevice Startup StartupProps.

Local Open Scope Z_scope.

#[local] Existing Instance log_ops.

(** ** The outside of a visit *)

(** What the system decides: the descriptor, the addresses of the two mappings, the segment base, and what [stat] says
    of the script. *)
Record surroundings : Type := mk_sur { sr_fd : Z; sr_info : Z; sr_buf : Z; sr_fs : list Z; sr_stat : Z * list Z }.

Section module.
Context (K : Kernel) {P : Type} `{Pkeys P} {L : Type} (lua_on_event : list Z -> L -> L) (lua_run_script : list Z -> L -> L).
(** Where the objects of the requests are, and the results of registering the probes. *)
Context (sur : surroundings) (arg_addr r1 r2 : Z).
Notation dev := (device (M_ := list (Z * list Z)) (P := P)).

(** The module, the open file, the state of the script and the record. *)
Record vworld : Type := mk_vw { vw_dev : dev; vw_filp : option Z; vw_l : L; vw_rs : rstore }.

Definition set_vdev (d : dev) (w : vworld) : vworld := mk_vw d (vw_filp w) (vw_l w) (vw_rs w).
Definition put_entry (pid : Z) (e : nod_proc_info) (d : dev) : dev := set_dev_ps (set_table <[pid := e]> (dev_ps d)) d.

Definition entry_of (w : vworld) : option (Z * nod_proc_info) := pid ← vw_filp w; e ← ps_table (dev_ps (vw_dev w)) !! pid; Some (pid, e).

(** [mmap] of whole pages. *)
Definition visit_mmap (len prot : Z) (w : vworld) : Z :=
  match nod_dev_mmap (vw_filp w) 0 (PAGE_SIZE * ((len + PAGE_SIZE - 1) / PAGE_SIZE)) 0 (has prot PROT_WRITE) 0 (vw_dev w) with
  | Some (0, Some MapInfo) => sr_info sur
  | Some (0, Some MapBuffer) => sr_buf sur
  | _ => MAP_FAILED
  end.

(** [nod_monitor_main] on the mapped buffer; [None] is a fault. *)
Definition visit_main (b i : Z) (ks : list Z) (flag : Z) (w : vworld) : option vworld :=
  if negb ((b =? sr_buf sur) && (i =? sr_info sur)) then None else
  '(pid, e) ← entry_of w;
  buf ← nb_buffer (p_buffer e);
  info ← nb_info (p_buffer e);
  r ← nod_monitor_main lua_on_event (lua_run_script ks) (S (Z.to_nat (nevents info))) flag true true buf info (vw_l w) (vw_rs w);
  '(info, l, rs) ← r;
  Some (mk_vw (put_entry pid (ProcState.set_buffer (with_info info (p_buffer e)) e) (vw_dev w)) (vw_filp w) l rs).

(** The requests behind which the process is not in the monitor any more do not return, nor does a fault. *)
Definition visit_ioctl (cmd : Z) (arg : list Z) (w : vworld) : option (Z * list Z) * vworld :=
  match module_ioctl K arg_addr 0 r1 r2 (vw_filp w) cmd (AObj arg) (vw_dev w) with
  | Some (r, bs, d) => (if (cmd =? NOD_IOCTL_RESTORE_CONTEXT) && (r =? 0) then None else Some (r, bs), set_vdev d w)
  | None => (None, w)
  end.

#[export] Instance module_outside : Outside vworld := {|
  answer a w :=
    match a with
    | ArchPrctl _ => (Some (0, sr_fs sur), w)
    | Open _ => (Some (sr_fd sur, []), mk_vw (vw_dev w) (nod_dev_open (vw_dev w)) (vw_l w) (vw_rs w))
    | Mmap len prot fd => (Some (if fd =? sr_fd sur then visit_mmap len prot w else MAP_FAILED, []), w)
    | Startup.Ioctl fd cmd arg => if fd =? sr_fd sur then visit_ioctl cmd arg w else (Some (-1, []), w)
    | Startup.Stat _ => (Some (sr_stat sur), w)
    | Syscall nr _ => (if SYSCALL_EXIT_FAMILY nr then None else Some (0, []), w)
    | MonitorMain b i ks flag => match visit_main b i ks flag w with Some w => (Some (0, []), w) | None => (None, w) end
    | _ => (Some (0, []), w)
    end;
  buffer_size_at a w :=
    match entry_of w with
    | Some (_, e) => match nb_info (p_buffer e) with Some i => if a =? sr_info sur then buffer_size i else 0 | None => 0 end
    | None => 0
    end
|}.

(** ** Steps whose answer is known *)

Notation V := (M (visit vworld)).

(** The visit has the block [p] and the world [w]. *)
Definition vat (p : nod_stack_info) (w : vworld) (s : visit vworld) : Prop := v_p s = p /\ v_world s = w.

Lemma at_act a x p w w' (Q : Z * list Z -> visit vworld -> Prop) LL s : answer a w = (Some x, w') -> vat p w s ->
  (forall s', vat p w' s' -> Q x s') -> ends False (Startup.act a) Q LL s.
Proof. intros E [Hp Hw] HQ. unfold ends, Startup.act. rewrite Hw, E. by apply HQ. Qed.

Lemma at_call a x p w w' (Q : Z -> visit vworld -> Prop) LL s : answer a w = (Some x, w') -> vat p w s ->
  (forall s', vat p w' s' -> Q x.1 s') -> ends False (Startup.call a) Q LL s.
Proof. intros E Hs HQ. apply ends_bind. eapply at_act; [done|done|]. intros s' Hs'. destruct x. by apply HQ. Qed.

Lemma at_do a x p w w' (Q : unit -> visit vworld -> Prop) LL s : answer a w = (Some x, w') -> vat p w s ->
  (forall s', vat p w' s' -> Q tt s') -> ends False (Startup.do_ a) Q LL s.
Proof. intros E Hs HQ. apply ends_bind. eapply at_act; [done|done|]. intros s' Hs'. by apply HQ. Qed.

Lemma at_last a p w w' (Q : unit -> visit vworld -> Prop) (LL : visit vworld -> Prop) s : answer a w = (None, w') -> vat p w s ->
  (forall s', vat p w' s' -> LL s') -> ends False (Startup.do_ a) Q LL s.
Proof. intros E [Hp Hw] HQ. apply ends_bind. unfold ends, Startup.act. rewrite Hw, E. by apply HQ. Qed.

Lemma at_set_p f p w (Q : unit -> visit vworld -> Prop) LL s : vat p w s -> (forall s', vat (f p) w s' -> Q tt s') -> ends False (set_p f) Q LL s.
Proof. intros [Hp Hw] HQ. apply HQ. by split; cbn; rewrite ?Hp. Qed.

Lemma at_pkey k r p w (Q : Z -> visit vworld -> Prop) LL s : vat p w s -> (forall x s', vat p w s' -> Q x s') -> ends False (pkey_set k r) Q LL s.
Proof. intros Hs HQ. apply ends_pkey_set; intros; by apply HQ. Qed.

Lemma at_with_pkey ps f p w (Q : unit -> visit vworld -> Prop) LL s : vat p w s ->
  (forall k s', vat p w s' -> ends False (f k) Q LL s') -> (forall s', vat p w s' -> Q tt s') -> ends False (with_pkey ps f) Q LL s.
Proof. intros Hs Hf HQ. apply ends_with_pkey; intros _; [by apply Hf|by apply HQ]. Qed.

Lemma at_gets_p {A} (g : nod_stack_info -> V A) p w Q LL s : vat p w s -> ends False (g p) Q LL s -> ends False (p ← gets v_p; g p) Q LL s.
Proof. intros [<- _] Hg. by apply ends_bind, ends_gets. Qed.

(** ** The module's answers *)

(** The current process is in its monitor, with the entry [e] and a buffer of whole pages, more than one. *)
Record inside (e : nod_proc_info) (info : nod_buffer_info) (d : dev) : Prop := {
  in_entry : ps_table (dev_ps d) !! cur_pid (dv_w d) = Some e;
  in_status : p_status e = NOD_IN;
  in_pid : p_pid e = cur_pid (dv_w d);
  in_info : nb_info (p_buffer e) = Some info;
  in_size : PAGE_SIZE < buffer_size info /\ buffer_size info mod PAGE_SIZE = 0
}.

(** A descriptor, addresses and bytes of their types. *)
Record sur_ok : Prop := {
  su_fd : 0 <= sr_fd sur < 2 ^ 31;
  su_info : 0 < sr_info sur < MAP_FAILED;
  su_buf : 0 < sr_buf sur < MAP_FAILED;
  su_fs : Forall byte_ok (sr_fs sur) /\ zlen (sr_fs sur) <= 8
}.
Context (Hsur : sur_ok) (Harg : 0 <= arg_addr /\ arg_addr + 264 < 2 ^ 47).

Notation world_at d l rs := (mk_vw d (Some (cur_pid (dv_w d))) l rs).

Lemma inside_quiet e info d : inside e info d -> inside e info (quiet d).
Proof. by intros []. Qed.

Lemma inside_lua e info d ks : inside e info d -> inside e info (CtlDevice.set_lua ks d).
Proof. by intros []. Qed.

Lemma open_inside e info d : inside e info d -> nod_dev_open d = Some (cur_pid (dv_w d)).
Proof. intros Hi. unfold nod_dev_open, nod_event_from, find_proc_info. by rewrite (in_entry _ _ _ Hi). Qed.

Lemma entry_inside e info d l rs : inside e info d -> entry_of (world_at d l rs) = Some (cur_pid (dv_w d), e).
Proof. intros Hi. unfold entry_of. cbn [vw_filp vw_dev mbind option_bind]. by rewrite (in_entry _ _ _ Hi). Qed.

Lemma mmap_info_inside e info d l rs : inside e info d -> visit_mmap sizeof_buffer_info (PROT_READ |! PROT_WRITE) (world_at d l rs) = sr_info sur.
Proof.
  intros Hi. unfold visit_mmap, nod_dev_mmap, private. cbn [vw_filp vw_dev mbind option_bind]. rewrite (in_entry _ _ _ Hi). cbn [mbind option_bind].
  rewrite bool_decide_true by apply Hi. cbn [negb Z.eqb]. by rewrite (in_info _ _ _ Hi).
Qed.

Lemma mmap_buffer_inside e info d l rs : inside e info d -> visit_mmap (buffer_size info) PROT_READ (world_at d l rs) = sr_buf sur.
Proof.
  intros Hi. destruct (in_size _ _ _ Hi) as [Hgt Hmod]. unfold PAGE_SIZE in *.
  assert (PAGE_SIZE * ((buffer_size info + PAGE_SIZE - 1) / PAGE_SIZE) = buffer_size info) as E by (unfold PAGE_SIZE in *; Z.div_mod_to_equations; lia).
  unfold visit_mmap, nod_dev_mmap, private. cbn [vw_filp vw_dev mbind option_bind]. rewrite (in_entry _ _ _ Hi). cbn [mbind option_bind].
  rewrite bool_decide_true by apply Hi. cbn [negb Z.eqb]. rewrite (in_info _ _ _ Hi), E. cbn [mbind option_bind]. rewrite Z.sub_0_r.
  destruct (Z.leb_spec (buffer_size info) PAGE_SIZE); [unfold PAGE_SIZE in *; lia|]. by rewrite Z.eqb_refl.
Qed.

Lemma quiet_twice (d : dev) : quiet (quiet d) = quiet d.
Proof. done. Qed.

(** What [copy_to_user] stores in the object of the request. *)
Lemma ioctl_reply cmd arg bs (d : dev) l rs : cmd <> NOD_IOCTL_RESTORE_CONTEXT ->
  (forall K', nod_dev_ioctl (K := K') r1 r2 (Some (cur_pid (dv_w d))) cmd arg_addr (quiet d) = Some (reply arg_addr bs (quiet d))) ->
  visit_ioctl cmd arg (world_at d l rs) = (Some (0, bs), world_at (quiet d) l rs).
Proof.
  intros Hc E. unfold visit_ioctl, module_ioctl. cbn [vw_filp vw_dev]. rewrite E. unfold reply, to_user. cbn [mbind option_bind].
  cbn. rewrite Z.eqb_refl, app_nil_r. destruct (Z.eqb_spec cmd NOD_IOCTL_RESTORE_CONTEXT); [done|]. done.
Qed.

Lemma ioctl_get_lua ks d l rs : visit_ioctl NOD_IOCTL_GET_LUA_STATE ks (world_at (d : dev) l rs) = (Some (0, dv_lua d), world_at (quiet d) l rs).
Proof. by apply ioctl_reply. Qed.

Lemma ioctl_get_flag bs d l rs : visit_ioctl NOD_IOCTL_GET_RECORD_FLAG bs (world_at (d : dev) l rs) = (Some (0, le_bytes 4 (dv_record_flag d)), world_at (quiet d) l rs).
Proof. by apply ioctl_reply. Qed.

Lemma ioctl_set_lua ks (d : dev) l rs : zlen ks = LUA_STATE_SIZE ->
  visit_ioctl NOD_IOCTL_SET_LUA_STATE ks (world_at d l rs) = (Some (0, []), world_at (quiet (CtlDevice.set_lua ks d)) l rs).
Proof using H Harg. intros Hl. unfold visit_ioctl. cbn [vw_filp vw_dev]. by rewrite io_set_lua by done. Qed.

(** The request to leave, with a valid block. *)
Lemma ioctl_leave p e (d : dev) l rs : ps_table (dev_ps d) !! cur_pid (dv_w d) = Some e -> p_status e = NOD_IN -> p_pid e = cur_pid (dv_w d) ->
  stack_ok p -> si_hash p = nod_calc_hash p ->
  exists e', visit_ioctl NOD_IOCTL_RESTORE_CONTEXT (stack_bytes p) (world_at d l rs) = (None, world_at (put_entry (cur_pid (dv_w d)) e' (quiet d)) l rs) /\
    p_status e' = NOD_RESTORE_CONTEXT /\ p_ctx e' = p_ctx e /\ p_sec e' = p_sec e /\ p_buffer e' = p_buffer e /\ p_pid e' = p_pid e /\
    p_stack_info e' = set_info_fd (-1) p.
Proof using H Harg.
  intros Hen Hst Hpid Hk Hh.
  destruct (hash_granted (K := with_user (flat_mem arg_addr (stack_bytes p)) K) (M_ := list (Z * list Z)) (P := P) p Hk Hh (quiet d) (cur_pid (dv_w d)) e arg_addr Hen Hst Hpid)
    as [d' E]; [apply copy_from_flat; unfold stack_bytes; rewrite ?zlen_app, ?zlen_le_bytes; cbn; lia|].
  pose proof E as E2. apply ioctl_restore_granted in E2 as (pid & p1 & bs & [= <-] & Hp1 & _ & _ & Hbs & _ & Ed').
  assert (nod_copy_from_user (U := flat_mem arg_addr (stack_bytes p)) arg_addr 72 = (0, bs)) as Hbs' by exact Hbs.
  rewrite copy_from_flat in Hbs' by (unfold stack_bytes; rewrite ?zlen_app, ?zlen_le_bytes; cbn; lia). injection Hbs' as <-.
  cbn [set_w quiet dv_w] in Hp1. assert (p1 = e) as -> by (pose proof Hen as Hen'; unfold dev_ps, quiet in *; cbn in *; congruence).
  rewrite stack_round_trip in Ed' by done.
  eexists. split.
  - unfold visit_ioctl, module_ioctl. cbn [vw_filp vw_dev user_bytes].
    change (nod_dev_ioctl r1 r2 (Some (cur_pid (dv_w d))) NOD_IOCTL_RESTORE_CONTEXT arg_addr (quiet d))
      with (ioctl_restore (K := with_user (flat_mem arg_addr (stack_bytes p)) K) true (Some (cur_pid (dv_w d))) arg_addr (quiet d)).
    rewrite E. cbn [mbind option_bind]. rewrite Ed'. reflexivity.
  - by split_and!.
Qed.

(** [nod_monitor_main] on the process's buffer is the visit of [Pipeline]. *)
Lemma main_step {T : Type} `{MonitorLoaderOk T} e info ks (d : dev) (t : T) stat l rs lf :
  inside e info d -> life_step lua_on_event (lua_run_script ks) OVisit (mk_life e t stat l rs) = Some lf ->
  visit_main (sr_buf sur) (sr_info sur) ks NOD_RECORD_MODE_START (world_at d l rs) =
    Some (world_at (put_entry (cur_pid (dv_w d)) (lf_p lf) d) (lf_l lf) (lf_rs lf)) /\
  (exists b, lf_p lf = ProcState.set_buffer b e) /\ lf_stat lf = stat.
Proof.
  intros Hi. unfold life_step, visit_main. rewrite !Z.eqb_refl. cbn [andb negb]. rewrite (entry_inside e info) by done. cbn [mbind option_bind lf_p lf_l lf_rs lf_stat lf_t].
  destruct (nb_buffer (p_buffer e)) as [buf|]; cbn [mbind option_bind]; [|done]. rewrite (in_info _ _ _ Hi). cbn [mbind option_bind vw_l vw_rs vw_dev vw_filp].
  destruct (nod_monitor_main _ _ _ _ _ _ _ _ _ _) as [[[[i' l'] rs']|]|]; cbn [mbind option_bind]; [|done|done].
  intros [= <-]. cbn. split; [done|]. split; [by eexists|done].
Qed.

(** ** The visit in three parts *)

Context (pkey_support : bool) (im : image).

(** The same call with the same mappings, in fields of their types. *)
Definition like (p p' : nod_stack_info) : Prop :=
  same_call p p' /\ stack_ok p' /\ si_buffer_info p' = si_buffer_info p /\ si_buffer p' = si_buffer p.

Lemma at_weaken {A} (m : V A) (Q : A -> visit vworld -> Prop) s s' : s = s' -> ends False m Q (fun _ => False) s' -> ends False m Q (fun _ => False) s.
Proof. by intros ->. Qed.

Lemma at_protect_exit addr len prot key (rest : V unit) p w Q LL s : vat p w s -> (forall s', vat p w s' -> ends False rest Q LL s') ->
  ends False (r ← Startup.call (PkeyMprotect addr len prot key); ASSERT_EXIT (negb (r =? -1));; rest) Q LL s.
Proof. intros Hs Hr. apply ends_bind. eapply at_call; [done|exact Hs|]. intros s' Hs'. cbn. by apply Hr. Qed.

Lemma start_run p w s : vat p w s -> stack_ok p ->
  ends False (if si_fsbase p =? 0 then nod_initialize pkey_support im;; do_ MonitorInit else with_pkey pkey_support (fun pkey => pkey_set pkey PKEY_WR;; mret tt))
    (fun _ s' => exists p', vat p' w s' /\ like p p') (fun _ => False) s.
Proof using Hsur.
  intros Hs Hk. destruct (si_fsbase p =? 0).
  2:{ eapply at_with_pkey; [exact Hs| |by intros s' Hs'; exists p]. intros k s' Hs'. apply ends_bind. eapply at_pkey; [exact Hs'|]. intros x s2 Hs2. vstep. by exists p. }
  set (x := stored (si_fsbase p) (sr_fs sur)).
  assert (like p (set_fsbase x p)) as Hl.
  { destruct (set_fsbase_ok p p x) as [H1 H2]; [done|done| |by split]. destruct (su_fs Hsur). apply stored_range; [apply Hk|done|done]. }
  apply ends_bind. unfold nod_initialize. apply ends_bind. eapply at_act; [done|exact Hs|]. intros s1 Hs1. cbv beta iota.
  apply ends_bind. eapply (at_set_p _ p w); [exact Hs1|]. fold x. intros s2 Hs2. do 2 vstep. apply ends_bind.
  assert (forall s', vat (set_fsbase x p) w s' -> ends False (do_ (HeapInit (im_pool im) NOD_MONITOR_MEM_SIZE))
    (fun _ => ends False (do_ MonitorInit) (fun _ s' => exists p', vat p' w s' /\ like p p') (fun _ => False)) (fun _ => False) s') as Hend.
  { intros s3 Hs3. eapply at_do; [done|exact Hs3|]. intros s4 Hs4. eapply at_do; [done|exact Hs4|]. intros s5 Hs5. by eexists. }
  destruct (v_info_fsbase s2 =? 0); [|vstep; by apply Hend].
  do 2 vstep. set (s3 := mk_visit _ _ _ _ _ _). assert (vat (set_fsbase x p) w s3) as Hs3 by exact Hs2. apply ends_bind.
  eapply at_do; [done|exact Hs3|]. intros s4 Hs4. eapply at_with_pkey; [exact Hs4| |exact Hend].
  intros k s5 Hs5. apply ends_bind. eapply at_pkey; [exact Hs5|]. intros _ s6 Hs6. eapply at_protect_exit; [exact Hs6|]. intros s7 Hs7.
  apply (at_gets_p _ (set_fsbase x p) w); [exact Hs7|]. apply ends_bind. eapply at_call; [done|exact Hs7|]. intros s8 Hs8. cbn. by apply Hend.
Qed.

(** The key of a mapping. *)
Lemma at_protect addr len prot p w (Q : bool -> visit vworld -> Prop) LL s : vat p w s -> (forall s', vat p w s' -> Q true s') ->
  ends False (protect pkey_support addr len prot) Q LL s.
Proof.
  intros Hs HQ. unfold protect. apply (at_gets_p _ p w); [done|]. destruct (_ && _); [|vstep; by apply HQ].
  apply ends_bind. eapply at_call; [done|exact Hs|]. intros s' Hs'. cbn. by apply HQ.
Qed.

(** The mappings of a block that has none or the right ones. *)
Definition maps_ok (p : nod_stack_info) : Prop :=
  (si_buffer_info p = 0 \/ si_buffer_info p = sr_info sur) /\ (si_buffer p = 0 \/ si_buffer p = sr_buf sur).

Lemma map_info_device e info p (d : dev) l rs (Q : bool -> visit vworld -> Prop) LL s : inside e info d -> maps_ok p -> si_ioctl_fd p = sr_fd sur ->
  vat p (world_at d l rs) s -> (forall s', vat (set_buffer_info (sr_info sur) p) (world_at d l rs) s' -> Q true s') -> ends False (map_info pkey_support) Q LL s.
Proof using Hsur.
  intros Hi [Hm _] Hfd Hs HQ. unfold map_info. apply (at_gets_p _ p (world_at d l rs)); [done|]. destruct Hm as [E|E]; rewrite E.
  - cbn [Z.eqb]. apply ends_bind. eapply at_call; [cbn; rewrite Hfd, Z.eqb_refl; reflexivity|exact Hs|]. intros s1 Hs1. cbn [fst].
    rewrite (mmap_info_inside e info) by done. apply ends_bind. eapply at_set_p; [exact Hs1|]. intros s2 Hs2.
    destruct (Z.eqb_spec (sr_info sur) MAP_FAILED); [destruct (su_info Hsur); lia|]. apply ends_bind. eapply at_protect; [exact Hs2|]. intros s3 Hs3. cbn [negb]. vstep. by apply HQ.
  - destruct (Z.eqb_spec (sr_info sur) 0); [destruct (su_info Hsur); lia|]. vstep. apply HQ.
    assert (set_buffer_info (sr_info sur) p = p) as -> by (rewrite <- E; by destruct p). done.
Qed.

Lemma map_buffer_device e info p (d : dev) l rs (Q : bool -> visit vworld -> Prop) LL s : inside e info d -> maps_ok p -> si_ioctl_fd p = sr_fd sur ->
  si_buffer_info p = sr_info sur ->
  vat p (world_at d l rs) s -> (forall s', vat (set_buffer (sr_buf sur) p) (world_at d l rs) s' -> Q true s') -> ends False (map_buffer pkey_support) Q LL s.
Proof using Hsur.
  intros Hi [_ Hm] Hfd Hinfo Hs HQ. unfold map_buffer. do 2 vstep. destruct Hs as [Hp Hw]. rewrite Hp, Hw.
  assert (vat p (world_at d l rs) s) as Hs by done. destruct Hm as [E|E]; rewrite E.
  - assert (buffer_size_at (si_buffer_info p) (world_at d l rs) = buffer_size info) as ->.
    { cbn [buffer_size_at module_outside]. by rewrite (entry_inside e info), (in_info _ _ _ Hi), Hinfo, Z.eqb_refl by done. }
    cbn [Z.eqb]. apply ends_bind. eapply at_call; [cbn; rewrite Hfd, Z.eqb_refl; reflexivity|exact Hs|]. intros s1 Hs1. cbn [fst].
    rewrite (mmap_buffer_inside e info) by done.
    apply ends_bind. eapply at_set_p; [exact Hs1|]. intros s2 Hs2.
    destruct (Z.eqb_spec (sr_buf sur) MAP_FAILED); [destruct (su_buf Hsur); lia|]. apply ends_bind. eapply at_protect; [exact Hs2|]. intros s3 Hs3. cbn [negb]. vstep. by apply HQ.
  - destruct (Z.eqb_spec (sr_buf sur) 0); [destruct (su_buf Hsur); lia|]. vstep. apply HQ.
    assert (set_buffer (sr_buf sur) p = p) as -> by (rewrite <- E; by destruct p). done.
Qed.

(** What the module is told of the script: the time of the file, if it was changed. *)
Definition told (ks : list Z) : list Z :=
  if (lua_mtime ks =? 0) || negb ((sr_stat sur).1 =? 0) || (u64 (le_val (sr_stat sur).2) =? lua_mtime ks) then ks
  else set_lua_mtime (le_val (sr_stat sur).2) ks.

Lemma zlen_told ks : zlen ks = LUA_STATE_SIZE -> zlen (told ks) = LUA_STATE_SIZE.
Proof.
  intros Hl. unfold told. destruct (_ || _); [done|]. unfold set_lua_mtime, LUA_STATE_SIZE in *. rewrite zlen_app, zlen_le_bytes, zlen_ztake by lia. lia.
Qed.

(** The device after requests that tell and set the script. *)
Definition same_device (d d' : dev) : Prop :=
  dv_w d' = dv_w (quiet d) /\ dv_record_flag d' = dv_record_flag d /\ zlen (dv_lua d') = zlen (dv_lua d) /\ dv_hooks d' = dv_hooks d.

Lemma same_inside e info (d d' : dev) : same_device d d' -> inside e info d -> inside e info d'.
Proof. intros [Ew _] []. by constructor; unfold dev_ps in *; rewrite ?Ew. Qed.

Lemma same_world (d d' : dev) l rs : same_device d d' -> world_at d' l rs = mk_vw d' (Some (cur_pid (dv_w d))) l rs.
Proof. intros [Ew _]. by rewrite Ew. Qed.

Lemma get_lua_device ks p (d : dev) l rs (Q : list Z -> visit vworld -> Prop) LL s : si_ioctl_fd p = sr_fd sur -> zlen ks = LUA_STATE_SIZE -> zlen (dv_lua d) = LUA_STATE_SIZE ->
  vat p (world_at d l rs) s -> (forall s', vat p (world_at (quiet d) l rs) s' -> Q (dv_lua d) s') -> ends False (get_lua_state ks) Q LL s.
Proof using Type.
  intros Hfd Hk Hd Hs HQ. unfold get_lua_state. apply (at_gets_p _ p (world_at d l rs)); [done|]. apply ends_bind.
  eapply at_act; [cbn; rewrite Hfd, Z.eqb_refl; apply ioctl_get_lua|exact Hs|]. intros s1 Hs1. cbv beta iota zeta. vstep. cbn [Z.eqb].
  assert (stored_bytes ks (dv_lua d) = dv_lua d) as ->; [|by apply HQ].
  unfold stored_bytes. rewrite ztake_ge by lia. unfold zdrop, zlen in *. rewrite drop_ge by lia. apply app_nil_r.
Qed.

Lemma update_lua_device ks p (d : dev) l rs (Q : option (list Z) -> visit vworld -> Prop) LL s : si_ioctl_fd p = sr_fd sur -> zlen ks = LUA_STATE_SIZE -> zlen (dv_lua d) = LUA_STATE_SIZE ->
  vat p (world_at (quiet d) l rs) s -> (forall d' s', same_device d d' -> vat p (world_at d' l rs) s' -> Q (Some (told ks)) s') -> ends False (update_lua_state ks) Q LL s.
Proof using H Harg.
  intros Hfd Hk Hd Hs HQ. assert (same_device d (quiet d)) as Hsame by done. pose proof (zlen_told ks Hk) as Ht. unfold update_lua_state, told in *.
  destruct (sr_stat sur) as [r m] eqn:Est. cbn [fst snd] in *.
  destruct (lua_mtime ks =? 0); cbn [orb] in *; [vstep; by eapply HQ|].
  apply ends_bind. eapply at_act; [cbn; rewrite Est; reflexivity|exact Hs|]. intros s1 Hs1. cbv beta iota.
  destruct (_ || _) eqn:Ec; cbn [orb] in *; [vstep; by eapply HQ|]. apply (at_gets_p _ p (world_at (quiet d) l rs)); [done|].
  apply ends_bind. eapply at_call; [cbn; rewrite Hfd, Z.eqb_refl; by apply (ioctl_set_lua _ (quiet d))|exact Hs1|]. intros s2 Hs2. vstep. cbn [fst Z.eqb].
  apply (HQ (quiet (CtlDevice.set_lua (set_lua_mtime (le_val m) ks) (quiet d)))); [|done]. split_and!; try done.
  cbn. by rewrite Hd, Ht.
Qed.

Lemma record_flag_device p (d : dev) l rs (Q : Z -> visit vworld -> Prop) LL s : si_ioctl_fd p = sr_fd sur -> dv_record_flag d = NOD_RECORD_MODE_START ->
  vat p (world_at d l rs) s -> (forall s', vat p (world_at (quiet d) l rs) s' -> Q NOD_RECORD_MODE_START s') -> ends False get_record_flag Q LL s.
Proof using Type.
  intros Hfd Hd Hs HQ. unfold get_record_flag. apply (at_gets_p _ p (world_at d l rs)); [done|]. apply ends_bind.
  eapply at_act; [cbn; rewrite Hfd, Z.eqb_refl; apply ioctl_get_flag|exact Hs|]. intros s1 Hs1. cbv beta iota zeta. vstep. cbn [Z.eqb]. rewrite Hd.
  change (s32 (stored 0 (le_bytes 4 NOD_RECORD_MODE_START))) with NOD_RECORD_MODE_START. by apply HQ.
Qed.

(** The body of the visit: the script and the record see the events, the buffer is emptied. *)
Lemma body_device {T : Type} `{MonitorLoaderOk T} e info p (d : dev) filp (t : T) stat l rs lf ks s :
  inside e info d -> stack_ok p -> maps_ok p -> dv_record_flag d = NOD_RECORD_MODE_START -> zlen (dv_lua d) = LUA_STATE_SIZE -> zlen ks = LUA_STATE_SIZE ->
  life_step lua_on_event (lua_run_script (told (dv_lua d))) OVisit (mk_life e t stat l rs) = Some lf ->
  vat p (mk_vw d filp l rs) s ->
  ends False (visit_body pkey_support ks) (fun x s' => x = Out /\ exists p' d', same_device d d' /\ same_call p p' /\ stack_ok p' /\ maps_ok p' /\ si_ioctl_fd p' = sr_fd sur /\
      vat p' (mk_vw (put_entry (cur_pid (dv_w d)) (lf_p lf) d') (Some (cur_pid (dv_w d))) (lf_l lf) (lf_rs lf)) s') (fun _ => False) s.
Proof using H Hsur Harg.
  intros Hi Hk Hm Hflag Hlua Hks Hlife Hs. unfold visit_body. apply ends_bind. eapply at_call; [reflexivity|exact Hs|]. intros s1 Hs1. cbn [fst].
  cbn [vw_dev vw_filp vw_l vw_rs] in Hs1. rewrite (open_inside e info) in Hs1 by done.
  destruct (su_fd Hsur) as [Hfd0 Hfd1]. destruct (su_info Hsur), (su_buf Hsur). pose proof map_failed_u64.
  apply ends_bind. eapply at_set_p; [exact Hs1|]. intros s2 Hs2. destruct (Z.leb_spec 0 (sr_fd sur)); [cbn [negb]|lia].
  destruct (set_fd_ok p p (sr_fd sur) ltac:(done) Hk ltac:(lia)) as [Hc1 Hk1].
  apply ends_bind. eapply (map_info_device e info (set_info_fd (sr_fd sur) p)); [exact Hi|exact Hm|done|exact Hs2|]. intros s3 Hs3. cbn [negb].
  destruct (set_info_ok p _ (sr_info sur) Hc1 Hk1 ltac:(lia)) as [Hc2 Hk2].
  apply ends_bind. eapply (map_buffer_device e info (set_buffer_info (sr_info sur) (set_info_fd (sr_fd sur) p))); [exact Hi|split; [by right|exact (proj2 Hm)]|done|done|exact Hs3|].
  intros s4 Hs4. cbn [negb]. destruct (set_buffer_ok p _ (sr_buf sur) Hc2 Hk2 ltac:(lia)) as [Hc3 Hk3].
  set (p' := set_buffer (sr_buf sur) _) in *. assert (si_ioctl_fd p' = sr_fd sur) as Hfd by done.
  apply ends_bind. eapply (get_lua_device ks p'); [done|done|done|exact Hs4|]. intros s5 Hs5.
  apply ends_bind. eapply (update_lua_device _ p'); [done|done|done|exact Hs5|]. intros d' s6 Hd' Hs6. cbv beta iota.
  apply ends_bind. eapply (record_flag_device p' d'); [done|by rewrite (proj1 (proj2 Hd'))|exact Hs6|]. intros s7 Hs7.
  apply (at_gets_p _ p' (world_at (quiet d') l rs)); [done|].
  assert (same_device d (quiet d')) as Hd2 by (destruct Hd' as (E1 & E2 & E3 & E4); split; [unfold quiet; cbn; by rewrite E1|done]).
  assert (maps_ok p') as Hm' by (by split; right).
  pose proof (same_inside e info d (quiet d') Hd2 Hi) as Hi2.
  destruct (main_step e info (told (dv_lua d)) (quiet d') t stat l rs lf Hi2 Hlife) as (Em & _).
  apply ends_bind. eapply at_do; [cbn; rewrite Em; reflexivity|exact Hs7|]. intros s8 Hs8. vstep. split; [done|]. exists p', (quiet d').
  assert (cur_pid (dv_w (quiet d')) = cur_pid (dv_w d)) as Ecur by (destruct Hd2 as [-> _]; done). rewrite <- Ecur. by split_and!.
Qed.

(** The entry of a process that has asked to leave: it is [e] with the block the monitor has filled. *)
Record left_by (e e' : nod_proc_info) : Prop := {
  le_status : p_status e' = NOD_RESTORE_CONTEXT;
  le_ctx : p_ctx e' = p_ctx e;
  le_sec : p_sec e' = p_sec e;
  le_buffer : p_buffer e' = p_buffer e;
  le_pid : p_pid e' = p_pid e;
  le_stack : stack_ok (p_stack_info e');
  le_maps : maps_ok (p_stack_info e')
}.

(** The end of the visit: the request to leave is granted. *)
Lemma restore_device p e (d : dev) l rs s : stack_ok p -> maps_ok p -> SYSCALL_EXIT_FAMILY (si_syscall_nr p) = false -> si_ioctl_fd p = sr_fd sur -> si_hash p = nod_calc_hash p ->
  ps_table (dev_ps d) !! cur_pid (dv_w d) = Some e -> p_status e = NOD_IN -> p_pid e = cur_pid (dv_w d) -> vat p (world_at d l rs) s ->
  ends False (nod_restore_context pkey_support) (fun _ _ => False)
    (fun s' => exists e', v_world s' = world_at (put_entry (cur_pid (dv_w d)) e' (quiet d)) l rs /\ left_by e e') s.
Proof using H Harg.
  intros Hk Hm Hnr Hfd Hh Hen Hst Hpid Hs. unfold nod_restore_context. apply (at_gets_p _ p (world_at d l rs)); [done|]. rewrite Hnr.
  destruct (ioctl_leave p e d l rs Hen Hst Hpid Hk Hh) as (e' & E & H1 & H2 & H3 & H4 & H5 & H6).
  assert (left_by e e') as He by (split; rewrite ?H6; try done; by apply (set_fd_ok p p)).
  set (LL := fun s' : visit vworld => exists e', v_world s' = world_at (put_entry (cur_pid (dv_w d)) e' (quiet d)) l rs /\ left_by e e').
  assert (forall s', vat p (world_at d l rs) s' ->
    ends False (do_ (Startup.Ioctl (si_ioctl_fd p) NOD_IOCTL_RESTORE_CONTEXT (stack_bytes p))) (fun _ => ends False (bug : V unit) (fun _ _ => False) (fun _ => True)) LL s') as Hlast.
  { intros s1 Hs1. eapply at_last; [cbn; rewrite Hfd, Z.eqb_refl; exact E|exact Hs1|]. intros s2 [_ Hw]. by exists e'. }
  apply ends_bind. apply ends_bind. eapply at_with_pkey; [exact Hs| |].
  - intros k s1 Hs1. apply ends_bind. eapply at_pkey; [exact Hs1|]. intros x s2 Hs2. vstep. eapply ends_mono; [by apply Hlast|done|done|done].
  - intros s1 Hs1. eapply ends_mono; [by apply Hlast|done|done|done].
Qed.

(** The device behind a visit: the current process has the entry [e']. *)
Record visited (d : dev) (e' : nod_proc_info) (d' : dev) : Prop := {
  vi_w : dv_w d' = dv_w (quiet (put_entry (cur_pid (dv_w d)) e' d));
  vi_flag : dv_record_flag d' = dv_record_flag d;
  vi_lua : zlen (dv_lua d') = zlen (dv_lua d);
  vi_hooks : dv_hooks d' = dv_hooks d
}.

Lemma put_entry_once (d d2 : dev) e : same_device d d2 -> visited d e (put_entry (cur_pid (dv_w d)) e d2).
Proof.
  intros (Ew & Ef & El & Eh). split; [|exact Ef|exact El|exact Eh]. unfold put_entry, set_dev_ps, quiet, set_w, set_m, dev_ps, set_table, set_ps in *. cbn in *. by rewrite Ew.
Qed.

Lemma put_entry_twice (d d2 : dev) e1 e2 : same_device d d2 -> visited d e2 (put_entry (cur_pid (dv_w d)) e2 (quiet (put_entry (cur_pid (dv_w d)) e1 d2))).
Proof.
  intros (Ew & Ef & El & Eh). split; [|exact Ef|exact El|exact Eh]. unfold put_entry, set_dev_ps, quiet, set_w, set_m, dev_ps, set_table, set_ps in *. cbn in *.
  rewrite Ew. cbn. by rewrite insert_insert_eq.
Qed.

(** The block the monitor leaves with. *)
Record leaves_with (p p' : nod_stack_info) : Prop := {
  lw_call : same_call p p';
  lw_stack : stack_ok p';
  lw_maps : maps_ok p';
  lw_fd : si_ioctl_fd p' = sr_fd sur;
  lw_hash : si_hash p' = nod_calc_hash p'
}.

(** The visit up to the end, which [nod_restore_context] makes. *)
Lemma visit_ends {T : Type} `{MonitorLoaderOk T} e info p (d : dev) (t : T) stat l rs lf ks LL s :
  inside e info d -> stack_ok p -> maps_ok p -> dv_record_flag d = NOD_RECORD_MODE_START -> zlen (dv_lua d) = LUA_STATE_SIZE -> zlen ks = LUA_STATE_SIZE ->
  life_step lua_on_event (lua_run_script (told (dv_lua d))) OVisit (mk_life e t stat l rs) = Some lf -> vat p (mk_vw d None l rs) s ->
  (forall p2 d2 s2, leaves_with p p2 -> same_device d d2 -> vat p2 (mk_vw (put_entry (cur_pid (dv_w d)) (lf_p lf) d2) (Some (cur_pid (dv_w d))) (lf_l lf) (lf_rs lf)) s2 ->
    ends False (nod_restore_context pkey_support) (fun _ _ => False) LL s2) ->
  ends False (nod_start_main pkey_support im ks) (fun _ _ => False) LL s.
Proof using H Hsur Harg.
  intros Hi Hk Hm Hflag Hlua Hks Hlife Hs Hend. unfold nod_start_main. apply (at_gets_p _ p (mk_vw d None l rs)); [done|].
  eapply ends_bind, ends_mono; [by apply start_run|done| |done].
  intros [] s1 (p1 & Hs1 & Hc1 & Hk1 & Hinfo & Hbuf). eapply ends_bind, ends_mono; [eapply (body_device e info p1 d None t stat l rs lf ks); try done|done| |done].
  { unfold maps_ok in *. by rewrite Hinfo, Hbuf. }
  intros x s2 (-> & p2 & d2 & Hd2 & Hc2 & Hk2 & Hm2 & Hfd2 & Hs2). cbv beta iota.
  apply ends_bind. eapply at_set_p; [exact Hs2|]. intros s3 Hs3. apply ends_bind.
  destruct (set_hash_ok p2 p2 (nod_calc_hash p2) ltac:(done) Hk2 (calc_hash_u64 p2 Hk2)) as [_ Hk3].
  assert (leaves_with p (set_hash (nod_calc_hash p2) p2)) as Hlw
    by (split; try done; destruct Hc1 as (?&?&?&?&?), Hc2 as (?&?&?&?&?); split_and!; cbn; congruence).
  eapply ends_mono; [apply (Hend _ d2 s3 Hlw Hd2 Hs3)|done|done|done].
Qed.

(** A visit of a process that goes on, up to its last request. *)
Lemma visit_runs {T : Type} `{MonitorLoaderOk T} e info p (d : dev) (t : T) stat l rs lf ks s :
  inside e info d -> stack_ok p -> maps_ok p -> SYSCALL_EXIT_FAMILY (si_syscall_nr p) = false ->
  dv_record_flag d = NOD_RECORD_MODE_START -> zlen (dv_lua d) = LUA_STATE_SIZE -> zlen ks = LUA_STATE_SIZE ->
  life_step lua_on_event (lua_run_script (told (dv_lua d))) OVisit (mk_life e t stat l rs) = Some lf ->
  v_p s = p -> v_world s = mk_vw d None l rs ->
  exists c s' e' d', nod_start_main pkey_support im ks s = Ret c s' /\ v_world s' = mk_vw d' (Some (cur_pid (dv_w d))) (lf_l lf) (lf_rs lf) /\
    visited d e' d' /\ left_by (ProcState.set_buffer (p_buffer (lf_p lf)) e) e'.
Proof using H Hsur Harg.
  intros Hi Hk Hm Hnr Hflag Hlua Hks Hlife Hp Hw. destruct (main_step e info (told (dv_lua d)) d t stat l rs lf Hi Hlife) as (_ & [b Elf] & _).
  assert (ends False (nod_start_main pkey_support im ks) (fun _ _ => False) (fun s' => exists e' d', v_world s' = mk_vw d' (Some (cur_pid (dv_w d))) (lf_l lf) (lf_rs lf) /\
    visited d e' d' /\ left_by (ProcState.set_buffer (p_buffer (lf_p lf)) e) e') s) as Hrun.
  { eapply (visit_ends e info p d t stat l rs lf); try done. intros p2 d2 s2 [Hc2 Hk2 Hm2 Hfd2 Hh2] Hd2 Hs2.
    set (d3 := put_entry (cur_pid (dv_w d)) (lf_p lf) d2) in *. assert (cur_pid (dv_w d3) = cur_pid (dv_w d)) as Ecur3 by (destruct Hd2 as (Ew & _); cbn; by rewrite Ew).
    eapply ends_mono; [apply (restore_device p2 (lf_p lf) d3 (lf_l lf) (lf_rs lf)); rewrite ?Ecur3|done|done|]; try done.
    - destruct Hc2 as (_ & E2 & _). by rewrite E2.
    - apply lookup_insert_eq.
    - rewrite Elf. apply Hi.
    - rewrite Elf. apply Hi.
    - intros s4 (e' & Hw4 & He'). rewrite Ecur3 in *. exists e', (put_entry (cur_pid (dv_w d)) e' (quiet d3)). split; [rewrite Hw4; f_equal; f_equal; exact Ecur3|].
      split; [by apply put_entry_twice|]. by rewrite Elf in *. }
  unfold ends in Hrun. destruct (nod_start_main pkey_support im ks s) as [[] s'|c s'|]; [done| |done]. destruct Hrun as (e' & d' & Hrun). by exists c, s', e', d'.
Qed.

(** A visit of a process that exits, up to its exit. *)
Lemma visit_exits {T : Type} `{MonitorLoaderOk T} e info p (d : dev) (t : T) stat l rs lf ks s :
  inside e info d -> stack_ok p -> maps_ok p -> SYSCALL_EXIT_FAMILY (si_syscall_nr p) = true ->
  dv_record_flag d = NOD_RECORD_MODE_START -> zlen (dv_lua d) = LUA_STATE_SIZE -> zlen ks = LUA_STATE_SIZE ->
  life_step lua_on_event (lua_run_script (told (dv_lua d))) OVisit (mk_life e t stat l rs) = Some lf ->
  v_p s = p -> v_world s = mk_vw d None l rs ->
  exists c s' d', nod_start_main pkey_support im ks s = Ret c s' /\ v_world s' = mk_vw d' (Some (cur_pid (dv_w d))) (lf_l lf) (lf_rs lf) /\
    visited d (ProcState.set_buffer (p_buffer (lf_p lf)) e) d'.
Proof using H Hsur Harg.
  intros Hi Hk Hm Hnr Hflag Hlua Hks Hlife Hp Hw. destruct (main_step e info (told (dv_lua d)) d t stat l rs lf Hi Hlife) as (_ & [b Elf] & _).
  assert (ends False (nod_start_main pkey_support im ks) (fun _ _ => False) (fun s' => exists d', v_world s' = mk_vw d' (Some (cur_pid (dv_w d))) (lf_l lf) (lf_rs lf) /\
    visited d (ProcState.set_buffer (p_buffer (lf_p lf)) e) d') s) as Hrun.
  { eapply (visit_ends e info p d t stat l rs lf); try done. intros p2 d2 s2 [(_ & E2 & _) _ _ _ _] Hd2 Hs2.
    unfold nod_restore_context. apply (at_gets_p _ p2 (mk_vw (put_entry (cur_pid (dv_w d)) (lf_p lf) d2) (Some (cur_pid (dv_w d))) (lf_l lf) (lf_rs lf))); [done|].
    rewrite E2, Hnr. apply ends_bind, ends_bind. eapply at_do; [reflexivity|exact Hs2|]. intros s3 Hs3.
    eapply at_last; [cbn; by rewrite ?E2, Hnr|exact Hs3|]. intros s4 [_ Hw4]. eexists. split; [exact Hw4|]. rewrite Elf. by apply put_entry_once. }
  unfold ends in Hrun. destruct (nod_start_main pkey_support im ks s) as [[] s'|c s'|]; [done| |done]. destruct Hrun as (d' & Hrun). by exists c, s', d'.
Qed.

(** The probe behind the last request. *)
Lemma probe_after (K' : Kernel) conf init_root env_area fuel env ae regs tsk regs' tsk' (d : dev) e' d' e :
  visited d e' d' -> left_by e e' -> saved_by regs tsk e -> seccomp_ok (k_seccomp tsk) -> exists w4 e4,
    syscall_exit_probe (K := K') conf init_root env_area fuel env ae false 1000 (put_task regs' tsk' (dv_w d')) = Some (Some w4) /\
    ls_regs w4 = regs /\ settings_of (ls_task w4) = settings_of tsk /\ k_fsbase (ls_task w4) = k_fsbase tsk /\ k_gsbase (ls_task w4) = k_gsbase tsk /\
    ls_ps w4 = set_table <[cur_pid (dv_w d) := e4]> (dev_ps d) /\ ls_tsk w4 = ls_tsk (dv_w d) /\
    p_status e4 = NOD_OUT /\ p_buffer e4 = p_buffer e /\ p_pid e4 = p_pid e /\ p_stack_info e4 = p_stack_info e'.
Proof.
  intros [Ew _ _ _] [Hst Hctx Hsec Hb Hpid _ _] [Hc Hs] Hsc. rewrite Ew.
  destruct (probe_restores (K := K') conf init_root env_area fuel env ae regs tsk (put_task regs' tsk' (dv_w (quiet (put_entry (cur_pid (dv_w d)) e' d)))) e')
    as (w4 & e4 & E & Hr & Hset & Hf & Hg & Hps & Htsk & Hst4 & Hb4 & Hpid4 & Hi4); [apply lookup_insert_eq|done|split; congruence|done|].
  exists w4, e4. split; [exact E|]. split_and!; try done; try congruence. rewrite Hps. unfold set_table, put_entry, set_dev_ps, quiet, set_w, set_m, dev_ps. cbn.
  unfold cur_pid at 1. cbn. by rewrite insert_insert_eq.
Qed.

(** C4: A visit of the monitor, from its first instruction to the next one of the process. Let the current process
    be in its monitor, with registers and settings saved, behind a call that is not an exit (the visit of an exit ends by it), and let the
    recording be on, in mode START (the default is STOP). Let the buffer be larger than a page and the calls of the visit to the
    system - opening the device, [mmap] - succeed, and let the abstract visit be defined, so that [nod_monitor_main] returns. Then [nod_start_main], whether it is the first visit or a later
    one and whatever is mapped already, runs against the module without a fault: it ends by its request to leave; what it has done to
    the script's state, to the record file and to the shared buffer is the step [OVisit] of the process's
    life, with the script the module told it.  Whatever registers and settings it leaves behind,
    the probe behind the request gives the process the saved ones, and the process is outside again. *)
Theorem visit_completes {T : Type} `{MonitorLoaderOk T} (K' : Kernel) conf init_root env_area fuel env ae e info p (d : dev) regs tsk (t : T) stat l rs lf ks s :
  inside e info d -> saved_by regs tsk e -> seccomp_ok (k_seccomp tsk) -> stack_ok p -> maps_ok p -> SYSCALL_EXIT_FAMILY (si_syscall_nr p) = false ->
  dv_record_flag d = NOD_RECORD_MODE_START -> zlen (dv_lua d) = LUA_STATE_SIZE -> zlen ks = LUA_STATE_SIZE ->
  life_step lua_on_event (lua_run_script (told (dv_lua d))) OVisit (mk_life e t stat l rs) = Some lf ->
  v_p s = p -> v_world s = mk_vw d None l rs ->
  exists c s', nod_start_main pkey_support im ks s = Ret c s' /\ vw_l (v_world s') = lf_l lf /\ vw_rs (v_world s') = lf_rs lf /\
    forall regs' tsk', exists w4 e4,
      syscall_exit_probe (K := K') conf init_root env_area fuel env ae false 1000 (put_task regs' tsk' (dv_w (vw_dev (v_world s')))) = Some (Some w4) /\
      ls_regs w4 = regs /\ settings_of (ls_task w4) = settings_of tsk /\ k_fsbase (ls_task w4) = k_fsbase tsk /\ k_gsbase (ls_task w4) = k_gsbase tsk /\
      ps_table (ls_ps w4) !! cur_pid (dv_w d) = Some e4 /\ p_status e4 = NOD_OUT /\ p_buffer e4 = p_buffer (lf_p lf).
Proof.
  intros Hi Hsv Hsc Hk Hm Hnr Hflag Hlua Hks Hlife Hp Hw.
  destruct (visit_runs e info p d t stat l rs lf ks s Hi Hk Hm Hnr Hflag Hlua Hks Hlife Hp Hw) as (c & s' & e' & d' & E & Ew & Hd' & He').
  exists c, s'. split; [done|]. rewrite Ew. cbn [vw_l vw_rs vw_dev]. split; [done|]. split; [done|]. intros regs' tsk'.
  destruct (probe_after K' conf init_root env_area fuel env ae regs tsk regs' tsk' d e' d' _ Hd' He' Hsv Hsc)
    as (w4 & e4 & E4 & Hr & Hs4 & Hf & Hg & Hps & _ & Hst & Hb & _).
  exists w4, e4. split; [exact E4|]. rewrite Hps. split_and!; try done. apply lookup_insert_eq.
Qed.
End module.

(** ** A visit at work *)

(** A process with one event in a buffer of two pages, inside of its monitor. *)
Definition visit_info : nod_buffer_info := mk_info 1 48 0 8192.
Definition visit_buffer : nod_buffer :=
  mk_buffer (Some (encode demo_event ++ replicate 8144 0)) (Some (replicate 4096 0)) (Some visit_info) 0 (Some (replicate 4096 0)) 0.
Definition visit_entry : nod_proc_info :=
  mk_proc 100 1 visit_buffer (-1) 65552 0 0 NOD_IN (mk_ctx 1 (k_fsbase demo_ktask) (k_gsbase demo_ktask) (call_regs 3 7))
    (mk_sec 1 (k_clear_child_tid demo_ktask) (k_seccomp demo_ktask) (k_blocked demo_ktask) (k_cap_permitted demo_ktask) (k_cap_effective demo_ktask)
       (k_root demo_ktask) (k_rlim demo_ktask)) zero_stack.
Definition visit_dev : device (M_ := list (Z * list Z)) (P := Z) :=
  mk_dev (mk_lstate (call_regs 16 0) demo_ktask demo_tsk (mk_pstate {[100 := visit_entry]} 1 demo_stat) []) demo_hooks (replicate 264 0) NOD_RECORD_MODE_START 8192.
Definition visit_sur : surroundings := mk_sur 3 0x10000 0x20000 (le_bytes 8 0x7000) (0, le_bytes 8 8).
Definition visit_rs : rstore := mk_store init_rw [] [].
Definition visit_start : visit (vworld (P := Z) (L := nat)) := mk_visit _ (demo_block 0) 0 0x55555554 [] (mk_vw visit_dev None 0%nat visit_rs).
Definition visit_life : option (life (T := unit) (L := nat)) := life_step (fun _ n => S n) (fun n => n) OVisit (mk_life visit_entry tt demo_stat 0%nat visit_rs).

Lemma visit_sur_ok : sur_ok visit_sur.
Proof. split; unfold MAP_FAILED; cbn; try lia. split; [apply (le_bytes_ok 8)|vm_compute; discriminate]. Qed.

Lemma visit_inside : inside visit_entry visit_info visit_dev.
Proof. split; reflexivity || by split. Qed.

(** The file has the event, and the buffer is empty. *)
Lemma visit_life_run : exists lf, visit_life = Some lf /\ rs_file (lf_rs lf) = encode demo_event /\ nb_info (p_buffer (lf_p lf)) = Some (mk_info 0 0 1 8192).
Proof.
  assert (match visit_life with Some lf => bool_decide (rs_file (lf_rs lf) = encode demo_event) && match nb_info (p_buffer (lf_p lf)) with Some i => (nevents i =? 0) && (tail i =? 0) && (n_solved_evts i =? 1) && (buffer_size i =? 8192) | None => false end | None => false end = true) as Hr
    by (vm_compute; reflexivity).
  destruct visit_life as [lf|]; [|discriminate Hr]. apply andb_true_iff in Hr as [Hf%bool_decide_eq_true Hi]. exists lf. split; [reflexivity|]. split; [exact Hf|].
  destruct (nb_info (p_buffer (lf_p lf))) as [[a b c e]|]; [|discriminate Hi]. cbn in Hi.
  repeat match type of Hi with _ && _ = true => apply andb_true_iff in Hi as [Hi ?Hx] end.
  apply Z.eqb_eq in Hi. repeat match goal with Hx : (_ =? _) = true |- _ => apply Z.eqb_eq in Hx end. by subst.
Qed.

Lemma visit_completes_witness :
  let start := nod_start_main (H := module_outside close_kernel (fun _ n => S n) (fun _ n => n) visit_sur 4096 0 0) true demo_image (replicate 264 0xcc) in
  exists lf c s', visit_life = Some lf /\ rs_file (lf_rs lf) = encode demo_event /\ start visit_start = Ret c s' /\ vw_rs (v_world s') = lf_rs lf /\
    exists w4 e4, syscall_exit_probe (K := close_kernel) (H := log_ops) demo_conf 60 (0, 0) 1 demo_env demo_aenv false 1000 (put_task (call_regs 16 0) demo_ktask (dv_w (vw_dev (v_world s')))) = Some (Some w4) /\
      ls_regs w4 = call_regs 3 7 /\ ps_table (ls_ps w4) !! 100 = Some e4 /\ p_status e4 = NOD_OUT /\ p_buffer e4 = p_buffer (lf_p lf).
Proof.
  intros start. destruct visit_life_run as (lf & Elf & Hfile & _).
  destruct (visit_completes close_kernel (fun _ n => S n) (fun _ n => n) visit_sur 4096 0 0 visit_sur_ok ltac:(lia) true demo_image
    close_kernel demo_conf 60 (0, 0) 1 demo_env demo_aenv visit_entry visit_info (demo_block 0) visit_dev (call_regs 3 7) demo_ktask tt demo_stat 0%nat visit_rs lf
    (replicate 264 0xcc) visit_start) as (c & s' & E & _ & Hrs & Hprobe).
  - exact visit_inside.
  - split; reflexivity.
  - right. by right.
  - apply demo_block_ok. lia.
  - split; by left.
  - reflexivity.
  - reflexivity.
  - reflexivity.
  - reflexivity.
  - exact Elf.
  - reflexivity.
  - reflexivity.
  - exists lf, c, s'. split; [exact Elf|]. split; [exact Hfile|]. split; [exact E|]. split; [exact Hrs|].
    destruct (Hprobe (call_regs 16 0) demo_ktask) as (w4 & e4 & E4 & Hr & _ & _ & _ & He & Hst & Hb). exists w4, e4.
    split; [exact E4|]. split; [exact Hr|]. split; [exact He|]. split; [exact Hst|exact Hb].
Defined.
