(* ===== verification/System.v ===== *)
(** * The system at work: system calls of traced processes

    The parts put together: a process makes system calls while it is traced; the probe behind a call, or the filter in
    front of [exit] ([kmodule/trace.c]), records the event and loads the monitor when it has to; the
    monitor's visit ([nod_start_main] of [monitor/src/startup.c]) is answered by the module until it asks to leave
    and the process goes on, or ends.  Any number of processes share the module; each has its own entry, its
    own monitor and its own record file.  One call runs to its end, its visit included, before the next
    one starts. *)

From S2P Require Import Prelude Kernel Tables Flags Ring RingFacts FillerLib FillerTable ProcState Events EventCodec EventsFacts Demo Monitor Pipeline.
From S2P Require Import Privil ProcInfo Loader Hooks Trace Device DeviceProps Ctl CtlDevice Startup StartupProps VisitDevice.

Local Open Scope Z_scope.

#[local] Existing Instance log_ops.

(** ** System calls *)

(** What a visit meets: the descriptor of the device, the segment base, what [stat] says of the script, the register PKRU and the
    bytes of the uninitialised [struct nod_lua_state]; and the registers and settings the monitor has in the end. *)
Record visit_env : Type := mk_venv {
  ve_fd : Z;
  ve_fs : list Z;
  ve_stat : Z * list Z;
  ve_pkru : Z;
  ve_kstate : list Z;
  ve_regs : pt_regs;
  ve_task : task
}.

(** A call: the machine it runs on, what the allocator has for an entry, the process that makes the call, its registers
    (with the number of the call and its result) and settings, and the visit if there is one. *)
Record syscall : Type := mk_syscall {
  sc_kernel : Kernel;
  sc_env : rec_env;
  sc_alloc : alloc_env;
  sc_tsk : tsk;
  sc_regs : pt_regs;
  sc_task : task;
  sc_visit : visit_env
}.

Definition sc_pid (c : syscall) : Z := tk_pid (sc_tsk c).
Definition sc_nr (c : syscall) : Z := s32 (r_orig_ax (sc_regs c)).
Definition sc_type (c : syscall) : Z := event_type (g_syscall_event_table (sc_nr c)).
(** The call ends the process. *)
Definition sc_exits (c : syscall) : bool := SYSCALL_EXIT_FAMILY (sc_nr c).
Definition sc_data (c : syscall) : nod_event_data := mk_data NODC_SYSCALL (sc_nr c) (if sc_exits c then 1 else 0).

(** How a call ends: the process goes on, with these registers and settings, or the original function ends it. *)
Inductive call_end : Type :=
  | Returns (regs : pt_regs) (t : task)
  | Exits (f : sys_call_ptr) (t : task).

(** The registers of a process that asks for the same call. *)
Definition with_nr (r regs : pt_regs) : pt_regs :=
  mk_regs (r_r15 regs) (r_r14 regs) (r_r13 regs) (r_r12 regs) (r_bp regs) (r_bx regs) (r_r11 regs) (r_r10 regs) (r_r9 regs) (r_r8 regs)
    (r_ax regs) (r_cx regs) (r_dx regs) (r_si regs) (r_di regs) (r_orig_ax r) (r_ip regs) (r_cs regs) (r_flags regs) (r_sp regs) (r_ss regs).

(** What the last store of [copy_to_user] to an address left there. *)
Fixpoint block_at (a : Z) (log : list (Z * list Z)) : option (list Z) :=
  match log with
  | [] => None
  | (b, bs) :: log => match block_at a log with Some bs => Some bs | None => if b =? a then Some bs else None end
  end.

Section system.
Context {P : Type} `{Pkeys P} {L : Type}.
(** The build and the files the module has opened, the dentry of the root, and where the environment strings of a process are. *)
Context (conf : loader_config) (init_root : Z) (env_area : Z * Z).
(** The monitor: the script's functions, whether it uses keys, its segments, and where its mappings are in each process. *)
Context (lua_on_event : list Z -> L -> L) (lua_run_script : list Z -> L -> L) (pkey_support : bool) (im : image) (info_at buf_at : Z -> Z).
(** Where the objects of the requests are, and the results of registering the probes. *)
Context (arg_addr r1 r2 : Z).
Notation dev := (device (M_ := list (Z * list Z)) (P := P)).
Notation world := (lstate (M_ := list (Z * list Z)) (P := P)).

#[local] Instance the_loader : MonitorLoader world := kernel_loader conf init_root env_area.

(** What a monitor keeps between its visits: a variable of its program, the script's state, and the record with its file. *)
Record monitor : Type := mk_mon { mn_fsbase : Z; mn_l : L; mn_rs : rstore }.

(** The module, the monitors of the processes, and the files of those that have ended. *)
Record system : Type := mk_system { sy_dev : dev; sy_mons : gmap Z monitor; sy_files : gmap Z (list Z) }.

Definition file_of (s : system) (pid : Z) : option (list Z) :=
  match sy_mons s !! pid with Some mon => Some (rs_file (mn_rs mon)) | None => sy_files s !! pid end.

(** The process of the call is the current one. *)
Definition on_cpu (c : syscall) (w : world) : world := mk_lstate (sc_regs c) (sc_task c) (sc_tsk c) (ls_ps w) (ls_m w).

(** The probe behind a system call; an event is recorded without a restart. *)
Definition exit_probe (c : syscall) (w : world) : option world :=
  r ← syscall_exit_probe (K := sc_kernel c) conf init_root env_area 1 (sc_env c) (sc_alloc c) false 1000 w; r.

Definition visit_sur (c : syscall) : surroundings := mk_sur (ve_fd (sc_visit c)) (info_at (sc_pid c)) (buf_at (sc_pid c)) (ve_fs (sc_visit c)) (ve_stat (sc_visit c)).

(** The monitor enters with the block the loader has stored on its stack. *)
Definition monitor_visit (c : syscall) (e : nod_proc_info) (mon : monitor) (d : dev) : option (dev * monitor) :=
  block ← block_at (p_stack_info_addr e) (ls_m (dv_w d));
  match nod_start_main (H := module_outside (sc_kernel c) lua_on_event lua_run_script (visit_sur c) arg_addr r1 r2) pkey_support im (ve_kstate (sc_visit c))
          (mk_visit _ (stack_of_bytes block) (mn_fsbase mon) (ve_pkru (sc_visit c)) [] (mk_vw d None (mn_l mon) (mn_rs mon))) with
  | Ret _ v => Some (vw_dev (v_world v), mk_mon (v_info_fsbase v) (vw_l (v_world v)) (vw_rs (v_world v)))
  | _ => None
  end.

(** A call that the probe sees.  [None] is a fault. *)
Definition sys_call (c : syscall) (s : system) : option (call_end * system) :=
  w ← exit_probe c (on_cpu c (dv_w (sy_dev s)));
  let d := set_w w (sy_dev s) in
  match nod_event_from (sc_pid c) (ls_ps w) with
  | (NOD_IN, Some e) =>
      mon ← sy_mons s !! sc_pid c;
      '(d, mon) ← monitor_visit c e mon d;
      w ← exit_probe c (put_task (ve_regs (sc_visit c)) (ve_task (sc_visit c)) (dv_w d));
      Some (Returns (ls_regs w) (ls_task w), mk_system (set_w w d) (<[sc_pid c := mon]> (sy_mons s)) (sy_files s))
  | _ => Some (Returns (ls_regs w) (ls_task w), mk_system d (sy_mons s) (sy_files s))
  end.

(** The hook in front of the call. *)
Definition call_hook (c : syscall) (h : hooks) (w : world) : option (hook_result * world) :=
  r ← hook_general (K := sc_kernel c) conf init_root env_area 1 (sc_env c) (sc_alloc c) false 1000 [] h w; r.

(** [exit] and [exit_group]: the first request is refused if it loads the monitor, which makes the second one. *)
Definition sys_exit (c : syscall) (s : system) : option (call_end * system) :=
  '(r, w) ← call_hook c (dv_hooks (sy_dev s)) (on_cpu c (dv_w (sy_dev s)));
  let d := set_w w (sy_dev s) in
  mon ← sy_mons s !! sc_pid c;
  let ends f (d : dev) (mon : monitor) :=
    w ← syscall_procexit_probe false 1000 (sc_pid c) (dv_w d);
    Some (Exits f (ls_task w), mk_system (set_w w d) (delete (sc_pid c) (sy_mons s)) (<[sc_pid c := rs_file (mn_rs mon)]> (sy_files s))) in
  match r, nod_event_from (sc_pid c) (ls_ps w) with
  | HCall f, _ => ends f d mon
  | HReturn _, (NOD_IN, Some e) =>
      '(d, mon) ← monitor_visit c e mon d;
      '(r, w) ← call_hook c (dv_hooks d) (put_task (with_nr (sc_regs c) (ve_regs (sc_visit c))) (ve_task (sc_visit c)) (dv_w d));
      match r with HCall f => ends f (set_w w d) mon | HReturn _ => None end
  | HReturn _, _ => Some (Returns (ls_regs w) (ls_task w), mk_system d (sy_mons s) (sy_files s))
  end.

Definition sys_step (c : syscall) : system -> option (call_end * system) := if sc_exits c then sys_exit c else sys_call c.

Fixpoint sys_run (cs : list syscall) (s : system) : option (list call_end * system) :=
  match cs with
  | [] => Some ([], s)
  | c :: cs => '(r, s) ← sys_step c s; '(rs, s) ← sys_run cs s; Some (r :: rs, s)
  end.

(** ** What the calls record *)

(** The entry of the process and the world its event is recorded in; a new process gets an entry first. *)
Definition entered_at (c : syscall) (w : world) : option (nod_proc_info * world) :=
  match ps_table (ls_ps w) !! sc_pid c with
  | Some e => Some (e, w)
  | None => '(e, w) ← acquire NOD_OUT (sc_alloc c) w; e ← e; Some (e, w)
  end.

Definition life_of (c : syscall) (s : system) : option (life (T := world) (L := L)) :=
  '(e, w) ← entered_at c (on_cpu c (dv_w (sy_dev s)));
  mon ← sy_mons s !! sc_pid c;
  Some (mk_life e w (ps_stat (ls_ps w)) (mn_l mon) (mn_rs mon)).

(** The header of the event of the call; [None] if its filler fails. *)
Definition outcome (c : syscall) (s : system) : option (Z * Z * Z * Z) :=
  lf ← life_of c s;
  if bool_decide (filler_result (sc_kernel c) (sc_env c) (sc_type c) (sc_data c) lf = Some NOD_SUCCESS)
  then Some (re_ts (sc_env c), re_pid (sc_env c), re_cpu (sc_env c), sc_type c) else None.

(** The outcomes of a run, each with the process of the call. *)
Fixpoint sys_outcomes (cs : list syscall) (s : system) : list (Z * option (Z * Z * Z * Z)) :=
  match cs with
  | [] => []
  | c :: cs => (sc_pid c, outcome c s) :: match sys_step c s with Some (_, s) => sys_outcomes cs s | None => [] end
  end.

(** The headers of the events of a process, and the number of the events that failed. *)
Definition headers_of (pid : Z) (os : list (Z * option (Z * Z * Z * Z))) : list (Z * Z * Z * Z) :=
  omap (fun x => if bool_decide (x.1 = pid) then x.2 else None) os.
Definition failures (os : list (Z * option (Z * Z * Z * Z))) : Z := zlen (filter (fun x => x.2 = None) os).

(** ** What the theorem asks of the calls *)

(** A call the probe or the filter records: of the table, and neither [execve] nor the return of a child from [clone]. *)
Definition plain_call (c : syscall) : Prop :=
  in_table (sc_nr c) = true /\ (sc_nr c =? __NR_execve) || (sc_nr c =? __NR_execveat) = false /\
  (sc_nr c =? __NR_clone) && (@k_ret (sc_kernel c) =? 0) = false.

(** Memory for an entry, with a buffer of pages, more than one. *)
Definition memory_for_entry (ae : alloc_env) : Prop :=
  aenv_ok ae /\ ae_kmem ae = true /\ (exists str over, ae_alloc ae = mk_alloc (Some str) (Some over) true true) /\
  PAGE_SIZE < ae_size ae /\ ae_size ae mod PAGE_SIZE = 0.

Record call_ok (c : syscall) : Prop := {
  co_kernel : KernelOk (sc_kernel c);
  co_env : env_ok (sc_env c);
  co_plain : plain_call c;
  co_event : recordable (K := sc_kernel c) (sc_type c) (sc_data c);
  co_memory : memory_for_entry (sc_alloc c);
  co_seccomp : seccomp_ok (k_seccomp (sc_task c));
  co_fd : 0 <= ve_fd (sc_visit c) < 2 ^ 31;
  co_fs : Forall byte_ok (ve_fs (sc_visit c)) /\ zlen (ve_fs (sc_visit c)) <= 8;
  co_kstate : zlen (ve_kstate (sc_visit c)) = LUA_STATE_SIZE
}.

(** The process is alive, its event has room, and the counter of the monitor does not wrap. *)
Definition call_fits (c : syscall) (s : system) : Prop :=
  is_Some (sy_mons s !! sc_pid c) /\
  forall lf, life_of c s = Some lf ->
    room_ok (sc_kernel c) (sc_env c) (sc_type c) (sc_data c) lf /\
    forall ra lf', life_step lua_on_event ra (ORecord (sc_kernel c) (sc_env c) (sc_type c) (sc_data c)) lf = Some lf' -> visit_ok lf'.

(** The header of the last event does not have to wait on the overflow page. *)
Definition last_fits (c : syscall) (s : system) : Prop :=
  forall lf a, life_of c s = Some lf -> first_attempt (K := sc_kernel c) (sc_env c) (sc_type c) (sc_data c) (lf_p lf) (lf_stat lf) = Some a ->
    rb_filled (at_buf a) = 0.

(** It has to. *)
Definition last_waits (c : syscall) (s : system) : Prop :=
  forall lf a, life_of c s = Some lf -> first_attempt (K := sc_kernel c) (sc_env c) (sc_type c) (sc_data c) (lf_p lf) (lf_stat lf) = Some a ->
    rb_filled (at_buf a) = 1.

Fixpoint calls_fit (cs : list syscall) (s : system) : Prop :=
  match cs with
  | [] => True
  | c :: cs => call_fits c s /\ (sc_exits c = true -> last_fits c s) /\ forall r s', sys_step c s = Some (r, s') -> calls_fit cs s'
  end.

(** ** The system between two calls *)

(** A block whose mappings are those of the process. *)
Definition block_ok (pid : Z) (p : nod_stack_info) : Prop :=
  stack_ok p /\ (si_buffer_info p = 0 \/ si_buffer_info p = info_at pid) /\ (si_buffer p = 0 \/ si_buffer p = buf_at pid).

(** A process outside of its monitor, whose queue is [q]. *)
Record outside (pid : Z) (e : nod_proc_info) (q : equeue) : Prop := {
  ou_pid : p_pid e = pid;
  ou_status : p_status e = NOD_OUT;
  ou_block : block_ok pid (p_stack_info e);
  ou_queue : proc_queue e q;
  ou_ready : ready (p_buffer e);
  ou_size : PAGE_SIZE < capacity e /\ capacity e mod PAGE_SIZE = 0
}.

(** A live process, its monitor and its queue; it has an entry once it is known. *)
Definition proc_ok (pid : Z) (e : option nod_proc_info) (mon : monitor) (q : equeue) : Prop :=
  writer_ok (mn_rs mon) /\ match e with Some e => outside pid e q | None => q = ([], None) end.

(** The module records, with its hooks in [table], the original system call table; [qs] are the queues of the live processes. *)
Record system_ok (table : list sys_call_ptr) (qs : gmap Z equeue) (s : system) : Prop := {
  so_flag : dv_record_flag (sy_dev s) = NOD_RECORD_MODE_START;
  so_lua : zlen (dv_lua (sy_dev s)) = LUA_STATE_SIZE;
  so_hooks : length table = Z.to_nat SYSCALL_TABLE_SIZE /\ hook_reach table (dv_hooks (sy_dev s)) /\ hk_registered (dv_hooks (sy_dev s)) = 1;
  so_procs pid : match sy_mons s !! pid, qs !! pid with
    | Some mon, Some q => proc_ok pid (ps_table (dev_ps (sy_dev s)) !! pid) mon q
    | None, None => True
    | _, _ => False
    end
}.

(** The events of a process that wait in the module. *)
Definition waits (qs : gmap Z equeue) (pid : Z) : list event := match qs !! pid with Some q => waiting q | None => [] end.

(** The process has its registers and settings again, or it ends by the original function with its own settings. *)
Definition returned (table : list sys_call_ptr) (c : syscall) (r : call_end) : Prop :=
  match r with
  | Returns regs t => sc_exits c = false /\ regs = sc_regs c /\ settings_of t = settings_of (sc_task c) /\ k_fsbase t = k_fsbase (sc_task c) /\ k_gsbase t = k_gsbase (sc_task c)
  | Exits f t => sc_exits c = true /\ table !! Z.to_nat (sc_nr c) = Some f /\ settings_of t = settings_of (sc_task c)
  end.

Definition drops (s : system) : Z := n_drop_evts (ps_stat (dev_ps (sy_dev s))).
Definition unsolved (s : system) : Z := n_drop_evts_unsolved (ps_stat (dev_ps (sy_dev s))).

(** ** The probe of a call *)

Context (pkeys_ok : forall mm k, - 2 ^ 31 <= (mm_pkey_alloc mm k).1 < 2 ^ 31).
Context (Hinfo : forall pid, 0 < info_at pid < MAP_FAILED) (Hbuf : forall pid, 0 < buf_at pid < MAP_FAILED) (Harg : 0 <= arg_addr /\ arg_addr + 264 < 2 ^ 47).

Lemma acquire_new c (w : world) : ls_tsk w = sc_tsk c -> ps_table (ls_ps w) !! sc_pid c = None -> memory_for_entry (sc_alloc c) ->
  exists e k, acquire NOD_OUT (sc_alloc c) w = Some (Some e, set_ps (mk_pstate (<[sc_pid c := e]> (ps_table (ls_ps w))) k (ps_stat (ls_ps w))) w) /\
    outside (sc_pid c) e ([], None).
Proof using pkeys_ok.
  intros Et En (Hae & Hk & (str & over & Hal) & Hgt & Hmod). unfold acquire, nod_proc_acquire, find_proc_info. rewrite Et. fold (sc_pid c). rewrite En.
  destruct (alloc_queue _ Hae) as [E0|(p & E & _ & Hq)]; rewrite ?E0, ?E; unfold nod_alloc_procinfo in *; rewrite Hk, Hal in *; cbn [negb] in *;
    unfold init_buffer in *; destruct Hae as (_ & _ & _ & Hpg); rewrite Hpg in *; [done|]. cbn in E. injection E as <-.
  cbn [mbind option_bind]. unfold nod_init_procinfo. set (p0 := ProcState.set_buffer _ zero_proc) in *. change (si_pkey (p_stack_info p0)) with 0. cbn [Z.ltb Z.compare].
  pose proof (pkeys_ok (tk_mm (sc_tsk c)) (ps_pkeys (ls_ps w))) as Hpk.
  destruct (mm_pkey_alloc (tk_mm (sc_tsk c)) (ps_pkeys (ls_ps w))) as [pkey k]. cbn [fst] in Hpk.
  eexists _, k. split; [reflexivity|]. split; try done.
  - split; [|by split; left]. split; cbn; lia.
  - by left.
Qed.
(** The recording of the event of a call. *)
Definition recorded_call (c : syscall) (e : nod_proc_info) (w : world) : option (Z * world) :=
  r ← do_record_one_event (K := sc_kernel c) 1 (sc_env c) (sc_type c) (sc_data c) e w (ps_stat (ls_ps w));
  '(r, p, w, stat) ← r; Some (r, put_proc p stat w).

Lemma probe_records c e (w : world) : plain_call c -> ls_regs w = sc_regs c ->
  (r ← syscall_probe (K := sc_kernel c) conf init_root env_area 1 (sc_env c) e (syscall_nr w) (if sc_exits c then 1 else 0) w; r) = recorded_call c e w.
Proof using Type.
  intros (Ht & _) Er. unfold syscall_probe, syscall_nr. rewrite Er. fold (sc_nr c). rewrite Ht. unfold recorded_call, record_one_event.
  change (loader conf init_root env_area) with the_loader. change (mk_data NODC_SYSCALL (sc_nr c) _) with (sc_data c). change (event_type _) with (sc_type c).
  by destruct (do_record_one_event _ _ _ _ _ _ _) as [[[[[r p] w'] stat]|]|].
Qed.

(** A live process makes a call: its entry, known or new, and the world its event is recorded in. *)
Record call_starts (c : syscall) (s : system) (q : equeue) (mon : monitor) (e : nod_proc_info) (w : world) : Prop := {
  cs_life : life_of c s = Some (mk_life e w (ps_stat (ls_ps w)) (mn_l mon) (mn_rs mon));
  cs_mon : sy_mons s !! sc_pid c = Some mon;
  cs_writer : writer_ok (mn_rs mon);
  cs_outside : outside (sc_pid c) e q;
  cs_regs : ls_regs w = sc_regs c;
  cs_task : ls_task w = sc_task c;
  cs_tsk : ls_tsk w = sc_tsk c;
  cs_table : ps_table (ls_ps w) = <[sc_pid c := e]> (ps_table (dev_ps (sy_dev s)));
  cs_stat : ps_stat (ls_ps w) = ps_stat (dev_ps (sy_dev s));
  cs_entry : ps_table (dev_ps (sy_dev s)) !! sc_pid c = Some e /\ w = on_cpu c (dv_w (sy_dev s)) \/
    ps_table (dev_ps (sy_dev s)) !! sc_pid c = None /\ acquire NOD_OUT (sc_alloc c) (on_cpu c (dv_w (sy_dev s))) = Some (Some e, w)
}.

Lemma call_start table qs c s q : system_ok table qs s -> call_ok c -> call_fits c s -> qs !! sc_pid c = Some q -> exists mon e w, call_starts c s q mon e w.
Proof using pkeys_ok.
  intros Hs Hc [[mon Em] _] Hq. pose proof (so_procs table _ _ Hs (sc_pid c)) as Hp. rewrite Em, Hq in Hp. destruct Hp as [Hw He].
  set (w0 := on_cpu c (dv_w (sy_dev s))). exists mon. change (ps_table (dev_ps (sy_dev s))) with (ps_table (ls_ps w0)) in *.
  destruct (ps_table (ls_ps w0) !! sc_pid c) as [e|] eqn:Ee.
  - exists e, w0. split; try done; [unfold life_of, entered_at; fold w0; by rewrite Ee, Em|symmetry; by apply insert_id|by left].
  - subst q. destruct (acquire_new c w0 eq_refl Ee (co_memory _ Hc)) as (e & k & Ea & Ho). exists e, (set_ps (mk_pstate (<[sc_pid c := e]> (ps_table (ls_ps w0))) k (ps_stat (ls_ps w0))) w0).
    split; try done; [unfold life_of, entered_at; fold w0; by rewrite Ee, Ea; cbn [mbind option_bind]; rewrite Em|by right].
Qed.

(** The probe behind a call. *)
Lemma probe_of_call c s q mon e w : call_starts c s q mon e w -> call_ok c -> sc_exits c = false ->
  exit_probe c (on_cpu c (dv_w (sy_dev s))) = snd <$> recorded_call c e w.
Proof using Type.
  intros [_ _ _ Ho Er _ _ _ _ Hen] Hc Hx. pose proof (co_plain _ Hc) as Hp. pose proof Hp as (_ & Hexec & Hclone).
  pose proof (probe_records c e w Hp Er) as Hrec. rewrite Hx in Hrec. set (w0 := on_cpu c (dv_w (sy_dev s))) in *.
  change (ps_table (dev_ps (sy_dev s))) with (ps_table (ls_ps w0)) in *. unfold exit_probe, syscall_exit_probe, nod_event_from, find_proc_info. cbn [traced negb andb Z.eqb Pos.eqb].
  change (cur_pid w0) with (sc_pid c).
  assert ((r ← probe (K := sc_kernel c) conf init_root env_area 1 (sc_env c) e w; r) = snd <$> recorded_call c e w) as Hprobe
    by (unfold probe; rewrite <- Hrec; by destruct (syscall_probe _ _ _ _ _ _ _ _ _) as [[[]|]|]).
  destruct Hen as [[Ee ->]|[Ee Ea]]; rewrite Ee.
  - rewrite (ou_status _ _ _ Ho). unfold exit_probe_out. change (syscall_nr w0) with (sc_nr c). by rewrite Hclone, Hexec.
  - unfold exit_probe_out. change (syscall_nr w0) with (sc_nr c). by rewrite Hclone, Ea.
Qed.

(** ** The event is recorded *)

Lemma log_services : services_ok (M_ := list (Z * list Z)).
Proof using Type. by split. Qed.

Lemma log_strnlen a (m : list (Z * list Z)) : 0 <= lo_strnlen_user a m.
Proof using Type. cbn. lia. Qed.

#[local] Instance the_loader_ok : MonitorLoaderOk world.
Proof using Type. exact (kernel_loader_ok conf init_root env_area log_strnlen). Qed.

Lemma block_at_last a bs log : block_at a (log ++ [(a, bs)]) = Some bs.
Proof using Type. induction log as [|[b x] log IH]; cbn [app block_at]; [by rewrite Z.eqb_refl|]. by rewrite IH. Qed.

(** The process goes on. *)
Record stays (c : syscall) (e e1 : nod_proc_info) (w1 : world) : Prop := {
  st_status : p_status e1 = NOD_OUT;
  st_block : p_stack_info e1 = p_stack_info e;
  st_ready : ready (p_buffer e1);
  st_regs : ls_regs w1 = sc_regs c;
  st_task : ls_task w1 = sc_task c
}.

(** The process is in its monitor: what was saved of it, and the block the monitor is given. *)
Record loaded (c : syscall) (e e1 : nod_proc_info) (w1 : world) : Prop := {
  lo_status : p_status e1 = NOD_IN;
  lo_saved : saved_by (sc_regs c) (sc_task c) e1;
  lo_block : block_at (p_stack_info_addr e1) (ls_m w1) = Some (stack_bytes (p_stack_info e1));
  lo_info : exists lo hi, p_stack_info e1 = set_call (sc_nr c) (r_di (sc_regs c)) (set_stack_bounds lo hi (p_stack_info e))
}.

(** The end of the probe after the attempt [a]. *)
Lemma attempt_ends c e (w : world) a : p_status e = NOD_OUT -> ls_regs w = sc_regs c -> ls_task w = sc_task c -> (at_force a = false -> rb_filled (at_buf a) = 0) ->
  exists r e1 w1, after_attempt e w a = (r, e1, w1, rb_stat (at_buf a)) /\ p_pid e1 = p_pid e /\ nb_info (p_buffer e1) = Some (rb_info (at_buf a)) /\
    nb_filled (p_buffer e1) = rb_filled (at_buf a) /\ ls_tsk w1 = ls_tsk w /\ ps_table (ls_ps w1) = ps_table (ls_ps w) /\ (at_force a = false /\ stays c e e1 w1 \/ r = NOD_SUCCESS_LOAD /\ loaded c e e1 w1).
Proof using Type.
  intros Hst Er Et Hf. unfold after_attempt. set (e0 := ProcState.set_buffer _ e). destruct (at_force a) eqn:Ef.
  - destruct (load_succeeds conf init_root env_area log_strnlen e0 w log_services) as (e1 & w1 & m & E & Hin & Hm & Hi).
    change (nod_load_monitor e0 w) with (load_monitor conf init_root env_area e0 w). pose proof (load_keeps_table conf init_root env_area log_strnlen e0 w) as [Htsk Htab].
    pose proof (load_keeps_buffer e0 w) as Hb.
    pose proof (load_keeps_pid e0 w) as Hpid.
    change (nod_load_monitor e0 w) with (load_monitor conf init_root env_area e0 w) in Hb, Hpid.
    destruct (load_enters conf init_root env_area log_strnlen e0 w _ _ _ E ltac:(by rewrite (Hst : p_status e0 = _)) Hin) as [_ [_ _ _ _ Hsv]].
    rewrite E in *. cbn [fst snd] in *. exists NOD_SUCCESS_LOAD, e1, w1. split_and!; [done|done|by rewrite Hb|by rewrite Hb|done|done|]. right. split; [done|]. split; [done|by rewrite Er, Et in Hsv| |].
    + rewrite Hm. apply block_at_last.
    + destruct (Hi Hst) as (lo & hi & E'). exists lo, hi. rewrite E', Er. done.
  - exists (at_cbret a), e0, w. split_and!; try done. left. split; [done|]. split; try done. left. exact (Hf eq_refl).
Qed.
(** Recording does not touch the count of the events that were never handed to a monitor. *)
Lemma attempt_unsolved (K : Kernel) env et data p stat a : first_attempt (K := K) env et data p stat = Some a ->
  n_drop_evts_unsolved (rb_stat (at_buf a)) = n_drop_evts_unsolved stat.
Proof using Type.
  unfold first_attempt. destruct (open_buffer (p_buffer p) stat) as [[str b]|] eqn:Eo; cbn [mbind option_bind]; [|done].
  assert (rb_stat b = stat) as Eb by (unfold open_buffer in Eo; destruct (p_buffer p) as [[?|] [?|] [?|] ? [?|] ?]; try done; by injection Eo as _ <-).
  destruct (flush_overflow b) as [b1|] eqn:Ef; cbn [mbind option_bind]; [|done].
  assert (n_drop_evts_unsolved (rb_stat b1) = n_drop_evts_unsolved stat) as <-.
  { rewrite <- Eb. unfold flush_overflow in Ef. destruct (rb_filled b =? 1); [|by injection Ef as <-].
    destruct (zread 0 _ _); cbn [mbind option_bind] in Ef; [|done]. destruct (zwrite 0 _ _); cbn [mbind option_bind] in Ef; [|done]. by injection Ef as <-. }
  unfold record_attempt. cbv zeta. intros Hr.
  repeat match type of Hr with (mbind _ ?m) = _ => destruct m; cbn [mbind option_bind] in Hr; [|done] end.
  match type of Hr with (let '(_, _) := ?x in _) = _ => destruct x as [cbret args'] end.
  repeat match type of Hr with (mbind _ ?m) = _ => destruct m; cbn [mbind option_bind] in Hr; [|done] end.
  injection Hr as <-. unfold finish_attempt. cbn [at_buf rb_stat]. repeat (destruct (_ && _); [done|]). done.
Qed.

(** An event waits on the page that is filled. *)
Lemma filled_queue p q : proc_queue p q -> (nb_filled (p_buffer p) = 0 -> q.2 = None) /\ (nb_filled (p_buffer p) = 1 -> is_Some q.2).
Proof using Type.
  intros (str & b & Eo & _ & [_ Hp]). unfold open_buffer in Eo. destruct (p_buffer p) as [[?|] [?|] [?|] ? [?|] ?]; try done.
  injection Eo as <- <-. destruct q as [evs [e|]]; cbn in *; (split; [|by eexists]) || (split; [done|]); [destruct Hp; congruence|congruence].
Qed.

(** What the recording of a call's event leaves: the result [r], the world [w1], with the entry [e1] and the queue [q1]. *)
Record call_recorded (c : syscall) (lf : life (T := world) (L := L)) (q : equeue) (r : Z) (w1 : world) (e1 : nod_proc_info) (q1 : equeue) : Prop := {
  cr_table : ps_table (ls_ps w1) = <[sc_pid c := e1]> (ps_table (ls_ps (lf_t lf)));
  cr_tsk : ls_tsk w1 = sc_tsk c;
  cr_pid : p_pid e1 = sc_pid c;
  cr_queue : proc_queue e1 q1;
  cr_size : capacity e1 = capacity (lf_p lf);
  cr_ends : sc_exits c = false /\ stays c (lf_p lf) e1 w1 \/ r = NOD_SUCCESS_LOAD /\ loaded c (lf_p lf) e1 w1;
  cr_over : exists a, first_attempt (K := sc_kernel c) (sc_env c) (sc_type c) (sc_data c) (lf_p lf) (lf_stat lf) = Some a /\
    (rb_filled (at_buf a) = 0 -> q1.2 = None) /\ (rb_filled (at_buf a) = 1 -> is_Some q1.2);
  cr_step ra : exists lf1, life_step lua_on_event ra (ORecord (sc_kernel c) (sc_env c) (sc_type c) (sc_data c)) lf = Some lf1 /\ lf_p lf1 = e1;
  cr_unsolved : n_drop_evts_unsolved (ps_stat (ls_ps w1)) = n_drop_evts_unsolved (lf_stat lf);
  cr_counts : if bool_decide (filler_result (sc_kernel c) (sc_env c) (sc_type c) (sc_data c) lf = Some NOD_SUCCESS)
    then n_drop_evts (ps_stat (ls_ps w1)) = n_drop_evts (lf_stat lf) /\
         List.map header (waiting q1) = List.map header (waiting q) ++ [(re_ts (sc_env c), re_pid (sc_env c), re_cpu (sc_env c), sc_type c)]
    else n_drop_evts (ps_stat (ls_ps w1)) = u64 (n_drop_evts (lf_stat lf) + 1) /\ List.map header (waiting q1) = List.map header (waiting q)
}.

Lemma call_records c s q mon e w : call_starts c s q mon e w -> call_ok c -> call_fits c s ->
  exists r w1 e1 q1, recorded_call c e w = Some (r, w1) /\ call_recorded c (mk_life e w (ps_stat (ls_ps w)) (mn_l mon) (mn_rs mon)) q r w1 e1 q1.
Proof using lua_on_event lua_run_script.
  intros [El _ _ Ho Er Et Ek _ _ _] Hc [_ Hfit]. destruct (Hfit _ El) as [Hroom _]. clear El. set (lf := mk_life e w _ _ _) in *.
  assert (record_ok (sc_kernel c) (sc_env c) (sc_type c) (sc_data c) lf) as Hrec by (split_and!; [apply Hc..|apply Ho|exact Hroom]).
  destruct (record_step_attempt _ _ _ _ lf q (ou_queue _ _ _ Ho) Hrec) as (a & Ha & Erun & Hcap & Hf & Hforce).
  destruct (attempt_ends c e w a (ou_status _ _ _ Ho) Er Et Hf) as (r & e1 & w' & Ea & Hpid & Hinfo1 & Hfill & Htsk & Htab & Hends).
  pose proof (attempt_unsolved _ _ _ _ _ _ _ Ha) as Hun. cbn [lf_p lf_t lf_stat lf] in Erun, Hcap, Ha, Hun. rewrite Ea in Erun.
  destruct (record_step lua_on_event (lua_run_script []) _ _ _ _ lf q (ou_queue _ _ _ Ho) Hrec) as (s1 & q1 & Es & Hq1 & _ & Hout).
  assert (forall ra, life_step lua_on_event ra (ORecord (sc_kernel c) (sc_env c) (sc_type c) (sc_data c)) lf = Some (mk_life e1 w' (rb_stat (at_buf a)) (mn_l mon) (mn_rs mon))) as Estep
    by (intros ra; unfold life_step; cbn [lf_p lf_t lf_stat lf]; by rewrite Erun).
  rewrite Estep in Es. injection Es as <-. cbn [lf_p lf_stat] in Hq1, Hout.
  assert (cur_pid w' = sc_pid c) as Ecur by (unfold cur_pid; by rewrite Htsk, Ek).
  exists r, (put_proc e1 (rb_stat (at_buf a)) w'), e1, q1. split; [unfold recorded_call; by rewrite Erun|]. split; cbn [lf_p lf_t lf_stat lf].
  - unfold put_proc. cbn. by rewrite Ecur, Htab.
  - cbn. by rewrite Htsk.
  - by rewrite Hpid, (ou_pid _ _ _ Ho).
  - done.
  - unfold capacity at 1. rewrite Hinfo1. exact Hcap.
  - destruct Hends as [[Hnf []]|[-> []]]; [left|right]; (split; [|by split]); [|done].
    unfold sc_data in Hforce. destruct (sc_exits c); [|done]. by rewrite (Hforce eq_refl) in Hnf.
  - exists a. rewrite <- Hfill. split; [done|]. by apply filled_queue.
  - intros ra. eexists. split; [apply Estep|done].
  - exact Hun.
  - cbn [ls_ps put_proc set_ps ps_stat]. revert Hout. case_bool_decide as Hb.
    + intros [Hd (ps & _ & Hps)]. split; [exact Hd|]. by rewrite Hps, map_app.
    + intros [Hd Hps]. split; [exact Hd|]. by rewrite Hps.
Qed.

(** ** The visit *)

Lemma entered_sur_ok c : call_ok c -> sur_ok (visit_sur c).
Proof using Hinfo Hbuf. intros Hc. split; [apply Hc|apply Hinfo|apply Hbuf|apply Hc]. Qed.

(** The block as the monitor finds it. *)
Lemma monitor_block c e e1 w1 : block_ok (sc_pid c) (p_stack_info e) -> loaded c e e1 w1 ->
  let p := stack_of_bytes (stack_bytes (p_stack_info e1)) in
  stack_ok p /\ maps_ok (visit_sur c) p /\ si_syscall_nr p = sc_nr c.
Proof using Type.
  intros (Hk & Hi & Hb) Hl p. destruct (lo_info _ _ _ _ Hl) as (lo & hi & E). split; [apply stack_read_back_ok|]. unfold p. rewrite stack_read_back, E.
  destruct Hk as [_ _ _ _ _ _ _ _ Hb1 Hi1]. unfold maps_ok. cbn [si_buffer_info si_buffer si_syscall_nr set_call set_stack_bounds visit_sur sr_info sr_buf].
  rewrite !(unsigned_small 64) by assumption. split; [by split|]. apply s32_u32, (signed_bound 32). lia.
Qed.

(** An emptied buffer is ready. *)
Lemma emptied_ready p o : proc_queue p ([], o) -> ready (p_buffer p).
Proof using Type.
  intros (str & b & Eo & _ & [[_ Ht _ _ _ _] _]). right. unfold open_buffer in Eo.
  destruct (p_buffer p) as [[buf|] [st|] [inf|] cnt [ov|] fl]; try done. injection Eo as <- <-. by exists inf.
Qed.

(** The monitor enters with the module [d]. *)
Record enters (c : syscall) (d : dev) (mon : monitor) (e1 : nod_proc_info) (w1 : world) (q1 : equeue) : Prop := {
  en_world : dv_w d = w1;
  en_cur : cur_pid w1 = sc_pid c;
  en_entry : ps_table (ls_ps w1) !! sc_pid c = Some e1;
  en_pid : p_pid e1 = sc_pid c;
  en_queue : proc_queue e1 q1;
  en_size : PAGE_SIZE < capacity e1 /\ capacity e1 mod PAGE_SIZE = 0;
  en_flag : dv_record_flag d = NOD_RECORD_MODE_START;
  en_lua : zlen (dv_lua d) = LUA_STATE_SIZE;
  en_writer : writer_ok (mn_rs mon);
  en_visit : visit_ok (mk_life e1 tt (mk_stat 0 0 0) (mn_l mon) (mn_rs mon))
}.

(** What the visit does with the events. *)
Record visit_done (c : syscall) (d : dev) (mon : monitor) (e1 : nod_proc_info) (q1 : equeue) (lf2 : life (T := unit) (L := L)) : Prop := {
  vd_step : life_step lua_on_event (lua_run_script (told (visit_sur c) (dv_lua d))) OVisit (mk_life e1 tt (mk_stat 0 0 0) (mn_l mon) (mn_rs mon)) = Some lf2;
  vd_queue : proc_queue (lf_p lf2) ([], q1.2);
  vd_writer : writer_ok (lf_rs lf2);
  vd_file : rs_file (lf_rs lf2) = rs_file (mn_rs mon) ++ encode_all q1.1;
  vd_buffer : nb_buffer (p_buffer (lf_p lf2)) = nb_buffer (p_buffer e1)
}.

#[local] Instance unit_loader : MonitorLoader unit := {| nod_load_monitor p t := (NOD_SUCCESS, p, t) |}.
#[local] Instance unit_loader_ok : MonitorLoaderOk unit.
Proof using Type. by split. Qed.

Lemma visit_prepared c e w1 d mon e1 q1 : loaded c e e1 w1 -> enters c d mon e1 w1 q1 -> exists info lf2, inside e1 info d /\ visit_done c d mon e1 q1 lf2.
Proof using Type.
  intros Hl [Ew Ecur Hent Hpid Hq Hsz Hflag Hlua Hw Hv].
  destruct (visit_step lua_on_event (lua_run_script (told (visit_sur c) (dv_lua d))) (mk_life e1 tt (mk_stat 0 0 0) (mn_l mon) (mn_rs mon)) q1 Hq Hv Hw) as (lf2 & Elf & Hq2 & Hw2 & Hfile & _).
  destruct (capacity_buffer e1 q1 Hq) as (buf & Eb & Ecap). pose proof (visit_buffer_kept _ _ _ _ Elf) as Ebuf.
  destruct (nb_info (p_buffer e1)) as [info|] eqn:Ei; [|unfold life_step in Elf; cbn in Elf; rewrite Eb, Ei in Elf; done].
  exists info, lf2. split; [|by split]. split; rewrite ?Ew, ?Ecur; try done; [by unfold dev_ps; rewrite Ew|apply Hl|].
  unfold capacity in Hsz. by rewrite Ei in Hsz.
Qed.

(** The visit of a process that goes on: the module [d'], the monitor [mon'] and the world of the process behind it. *)
Record call_visited (c : syscall) (d : dev) (mon : monitor) (e1 : nod_proc_info) (q1 : equeue) (d' : dev) (mon' : monitor) (w3 : world) (e3 : nod_proc_info) : Prop := {
  cv_run : monitor_visit c e1 mon d = Some (d', mon');
  cv_probe : exit_probe c (put_task (ve_regs (sc_visit c)) (ve_task (sc_visit c)) (dv_w d')) = Some w3;
  cv_regs : ls_regs w3 = sc_regs c;
  cv_task : settings_of (ls_task w3) = settings_of (sc_task c) /\ k_fsbase (ls_task w3) = k_fsbase (sc_task c) /\ k_gsbase (ls_task w3) = k_gsbase (sc_task c);
  cv_ps : ls_ps w3 = set_table <[sc_pid c := e3]> (dev_ps d);
  cv_outside : outside (sc_pid c) e3 ([], q1.2);
  cv_flag : dv_record_flag d' = dv_record_flag d;
  cv_lua : zlen (dv_lua d') = zlen (dv_lua d);
  cv_hooks : dv_hooks d' = dv_hooks d;
  cv_writer : writer_ok (mn_rs mon');
  cv_file : rs_file (mn_rs mon') = rs_file (mn_rs mon) ++ encode_all q1.1
}.

Lemma call_visits c e w1 (d : dev) mon e1 q1 : call_ok c -> sc_exits c = false -> block_ok (sc_pid c) (p_stack_info e) -> loaded c e e1 w1 -> enters c d mon e1 w1 q1 ->
  exists d' mon' w3 e3, call_visited c d mon e1 q1 d' mon' w3 e3.
Proof using Hinfo Hbuf Harg.
  intros Hc Hx Hb Hl Hen. destruct (monitor_block c e e1 w1 Hb Hl) as (Hk & Hm & Hnr). destruct (visit_prepared c e w1 d mon e1 q1 Hl Hen) as (info & lf2 & Hi & [Elf Hq2 Hw2 Hfile Ebuf]).
  destruct Hen as [Ew Ecur Hent Hpid Hq Hsz Hflag Hlua Hw Hv]. rewrite <- Ew in Ecur.
  set (p := stack_of_bytes (stack_bytes (p_stack_info e1))) in *.
  set (s := mk_visit (vworld (P := P) (L := L)) p (mn_fsbase mon) (ve_pkru (sc_visit c)) [] (mk_vw d None (mn_l mon) (mn_rs mon))).
  destruct (visit_runs (sc_kernel c) lua_on_event lua_run_script (visit_sur c) arg_addr r1 r2 (entered_sur_ok c Hc) Harg pkey_support im
    e1 info p d tt (mk_stat 0 0 0) (mn_l mon) (mn_rs mon) lf2 (ve_kstate (sc_visit c)) s Hi Hk Hm (eq_trans (f_equal _ Hnr) Hx) Hflag Hlua (co_kstate _ Hc) Elf eq_refl eq_refl)
    as (cc & s' & e' & d' & Erun & Ew' & Hd' & He').
  destruct (probe_after (visit_sur c) (sc_kernel c) conf init_root env_area 1 (sc_env c) (sc_alloc c) (sc_regs c) (sc_task c) (ve_regs (sc_visit c)) (ve_task (sc_visit c)) d e' d' _ Hd' He' (lo_saved _ _ _ _ Hl) (co_seccomp _ Hc))
    as (w3 & e3 & E3 & Hregs & Hset & Hf & Hg & Hps & _ & Hst3 & Hb3 & Hpid3 & Hi3).
  exists d', (mk_mon (v_info_fsbase s') (lf_l lf2) (lf_rs lf2)), w3, e3. rewrite Ecur in Hps.
  assert (proc_queue e3 ([], q1.2)) as Hq3 by (eapply proc_queue_buffer; [|exact Hq2]; exact Hb3).
  split; try done; try apply Hd'.
  - unfold monitor_visit. rewrite Ew, (lo_block _ _ _ _ Hl). cbn [mbind option_bind]. fold p. fold s. by rewrite Erun, Ew'.
  - unfold exit_probe. by rewrite E3.
  - split; [by rewrite Hpid3|done|rewrite Hi3; split; apply He'|done|by eapply emptied_ready|].
    destruct (capacity_buffer e3 _ Hq3) as (buf' & Eb' & ->). destruct (capacity_buffer e1 q1 Hq) as (buf & Eb & Ecap).
    rewrite Hb3 in Eb'. cbn in Eb'. rewrite Ebuf, Eb in Eb'. injection Eb' as <-. by rewrite <- Ecap.
Qed.

(** The visit of a process that exits. *)
Record exit_visited (c : syscall) (d : dev) (mon : monitor) (e1 : nod_proc_info) (q1 : equeue) (d' : dev) (mon' : monitor) (b : nod_buffer) : Prop := {
  ev_run : monitor_visit c e1 mon d = Some (d', mon');
  ev_ps : dev_ps d' = set_table <[sc_pid c := ProcState.set_buffer b e1]> (dev_ps d);
  ev_tsk : ls_tsk (dv_w d') = ls_tsk (dv_w d);
  ev_queue : proc_queue (ProcState.set_buffer b e1) ([], q1.2);
  ev_flag : dv_record_flag d' = dv_record_flag d;
  ev_lua : zlen (dv_lua d') = zlen (dv_lua d);
  ev_hooks : dv_hooks d' = dv_hooks d;
  ev_file : rs_file (mn_rs mon') = rs_file (mn_rs mon) ++ encode_all q1.1
}.

Lemma exit_visits c e w1 (d : dev) mon e1 q1 : call_ok c -> sc_exits c = true -> block_ok (sc_pid c) (p_stack_info e) -> loaded c e e1 w1 -> enters c d mon e1 w1 q1 ->
  exists d' mon' b, exit_visited c d mon e1 q1 d' mon' b.
Proof using H Hinfo Hbuf Harg.
  intros Hc Hx Hb Hl Hen. destruct (monitor_block c e e1 w1 Hb Hl) as (Hk & Hm & Hnr). destruct (visit_prepared c e w1 d mon e1 q1 Hl Hen) as (info & lf2 & Hi & [Elf Hq2 Hw2 Hfile Ebuf]).
  destruct Hen as [Ew Ecur Hent Hpid Hq Hsz Hflag Hlua Hw Hv]. rewrite <- Ew in Ecur.
  set (p := stack_of_bytes (stack_bytes (p_stack_info e1))) in *.
  set (s := mk_visit (vworld (P := P) (L := L)) p (mn_fsbase mon) (ve_pkru (sc_visit c)) [] (mk_vw d None (mn_l mon) (mn_rs mon))).
  destruct (visit_exits (sc_kernel c) lua_on_event lua_run_script (visit_sur c) arg_addr r1 r2 (entered_sur_ok c Hc) Harg pkey_support im
    e1 info p d tt (mk_stat 0 0 0) (mn_l mon) (mn_rs mon) lf2 (ve_kstate (sc_visit c)) s Hi Hk Hm (eq_trans (f_equal _ Hnr) Hx) Hflag Hlua (co_kstate _ Hc) Elf eq_refl eq_refl)
    as (cc & s' & d' & Erun & Ew' & [Hdw Hdf Hdl Hdh]).
  exists d', (mk_mon (v_info_fsbase s') (lf_l lf2) (lf_rs lf2)), (p_buffer (lf_p lf2)). rewrite Ecur in Hdw.
  split; try done.
  - unfold monitor_visit. rewrite Ew, (lo_block _ _ _ _ Hl). cbn [mbind option_bind]. fold p. fold s. by rewrite Erun, Ew'.
  - unfold dev_ps at 1. by rewrite Hdw.
  - by rewrite Hdw.
Qed.

(** ** The hooks of an exit *)

(** The hook in front of the call filters it as an exit, with the original function [old] behind it. *)
Definition hook_leads (c : syscall) (h : hooks) (old : sys_call_ptr) : Prop := forall w, syscall_nr w = sc_nr c ->
  call_hook c h w = (r ← exit_filter (K := sc_kernel c) conf init_root env_area 1 (sc_env c) (sc_alloc c) (ps_table (ls_ps w) !! cur_pid w) w;
    '(ret, w) ← r; Some (hook_ret ret old, w)).

Lemma exit_hooked table h c : length table = Z.to_nat SYSCALL_TABLE_SIZE -> hook_reach table h -> hk_registered h = 1 -> sc_exits c = true ->
  exists old, table !! Z.to_nat (sc_nr c) = Some old /\ hook_leads c h old.
Proof using Type.
  intros Hl Hr Hreg Hx. assert (filter_of (sc_nr c) = Some ExitFilter) as Hf by (unfold filter_of; unfold sc_exits, SYSCALL_EXIT_FAMILY in Hx; by rewrite Hx).
  destruct (hooked_entry table h _ _ Hl Hr Hreg Hf) as (Hid0 & e & old & Eo & Ef). exists old. split; [done|]. intros w Enr.
  unfold call_hook, hook_general. cbv zeta. rewrite Enr, (proj2 (Z.leb_le _ _)) by done. rewrite Ef. cbn [traced negb andb Z.eqb Pos.eqb sf_hooked sf_filter sf_oldsyscall].
  unfold nod_event_from, find_proc_info. cbn [snd]. by destruct (exit_filter _ _ _ _ _ _ _ _) as [[[ret w']|]|].
Qed.

(** The first request: the event is recorded and the monitor entered. *)
Lemma exit_asked c s q mon e w r w1 old : call_starts c s q mon e w -> call_ok c -> sc_exits c = true -> recorded_call c e w = Some (r, w1) -> r = NOD_SUCCESS_LOAD ->
  let w0 := on_cpu c (dv_w (sy_dev s)) in
  hook_leads c (dv_hooks (sy_dev s)) old ->
  call_hook c (dv_hooks (sy_dev s)) w0 = Some (HReturn (- EAGAIN), w1).
Proof using Type.
  intros [_ _ _ Ho Er _ Ek _ _ Hen] Hc Hx Erec -> w0 Hhook. rewrite Hhook by done. pose proof (probe_records c e w (co_plain _ Hc) Er) as Hrec. rewrite Hx, Erec in Hrec.
  change (ps_table (dev_ps (sy_dev s))) with (ps_table (ls_ps w0)) in Hen. fold w0 in Hen. change (cur_pid w0) with (sc_pid c). unfold exit_filter.
  assert ((match ps_table (ls_ps w0) !! sc_pid c with Some p => Some (Some p, w0) | None => acquire NOD_OUT (sc_alloc c) w0 end) = Some (Some e, w)) as -> by (by destruct Hen as [[-> ->]|[-> ->]]).
  rewrite (ou_status _ _ _ Ho). destruct (syscall_probe _ _ _ _ _ _ _ _ _) as [[[r' w']|]|]; cbn in Hrec; try done. by injection Hrec as -> ->.
Qed.

(** The second request: the settings are restored and the original function is called. *)
Lemma exit_granted c h (w : world) e old t0 :
  hook_leads c h old ->
  syscall_nr w = sc_nr c -> cur_pid w = sc_pid c -> ps_table (ls_ps w) !! sc_pid c = Some e -> p_status e = NOD_IN ->
  p_sec e = mk_sec 1 (k_clear_child_tid t0) (k_seccomp t0) (k_blocked t0) (k_cap_permitted t0) (k_cap_effective t0) (k_root t0) (k_rlim t0) -> seccomp_ok (k_seccomp t0) ->
  exists e' w', call_hook c h w = Some (HCall old, w') /\ settings_of (ls_task w') = settings_of t0 /\ ls_ps w' = set_table <[sc_pid c := e']> (ls_ps w) /\ p_buffer e' = p_buffer e.
Proof using Type.
  intros Hhook Hnr Hcur He Hin Hsec Hok. rewrite Hhook by done. rewrite Hcur, He. unfold exit_filter. rewrite Hin.
  pose proof (restore_sec_settings t0 e (ls_task w) Hok Hsec) as Hset. pose proof (restore_security_buffer e (ls_task w)) as Hb.
  destruct (nod_restore_security e (ls_task w)) as [e' t']. cbn [fst snd] in *. exists e', (put_proc e' (ps_stat (ls_ps w)) (put_task (ls_regs w) t' w)).
  split; [done|]. split; [done|]. split; [|done]. unfold put_proc, set_table. cbn. unfold cur_pid in *. cbn. by rewrite Hcur.
Qed.

(** The end of the process: its entry is released. *)
Lemma exit_released (w : world) pid e q : ps_table (ls_ps w) !! pid = Some e -> proc_queue e ([], q) ->
  exists w', syscall_procexit_probe false 1000 pid w = Some w' /\ ls_task w' = ls_task w /\ ps_table (ls_ps w') = delete pid (ps_table (ls_ps w)) /\
    n_drop_evts (ps_stat (ls_ps w')) = n_drop_evts (ps_stat (ls_ps w)) /\ n_drop_evts_unsolved (ps_stat (ls_ps w')) mod 2 ^ 64 = n_drop_evts_unsolved (ps_stat (ls_ps w)) mod 2 ^ 64.
Proof using Type.
  intros He (str & b & Eo & _ & [[_ _ _ _ Hn _] _]). unfold syscall_procexit_probe, nod_proc_release, find_proc_info. cbn [traced negb andb Z.eqb Pos.eqb]. rewrite He.
  unfold open_buffer in Eo. destruct (p_buffer e) as [[buf|] [st|] [inf|] cnt [ov|] fl]; try done. injection Eo as <- <-. cbn [nb_info mbind option_bind].
  eexists. split; [reflexivity|]. split; [done|]. split; [done|]. split; [done|]. cbn in *. rewrite Hn, zlen_nil, Z.add_0_r. unfold u64, unsigned. apply Z.mod_mod. lia.
Qed.

(** ** A call *)

Lemma system_put table qs s pid e q mon (d : dev) : system_ok table qs s -> ps_table (dev_ps d) = <[pid := e]> (ps_table (dev_ps (sy_dev s))) ->
  dv_record_flag d = dv_record_flag (sy_dev s) -> zlen (dv_lua d) = zlen (dv_lua (sy_dev s)) -> dv_hooks d = dv_hooks (sy_dev s) -> outside pid e q ->
  writer_ok (mn_rs mon) -> system_ok table (<[pid := q]> qs) (mk_system d (<[pid := mon]> (sy_mons s)) (sy_files s)).
Proof using Type.
  intros [Hf Hl Hh Hp] Et Ef El Eh Ho Hw. split; cbn [sy_dev sy_mons]; [by rewrite Ef|by rewrite El|by rewrite Eh|]. intros pid'. rewrite Et.
  destruct (decide (pid' = pid)) as [->|Hne]; [by rewrite !lookup_insert_eq|]. rewrite !lookup_insert_ne by done. apply Hp.
Qed.

Lemma system_end table qs s pid (d : dev) f : system_ok table qs s -> (forall pid', pid' <> pid -> ps_table (dev_ps d) !! pid' = ps_table (dev_ps (sy_dev s)) !! pid') ->
  dv_record_flag d = dv_record_flag (sy_dev s) -> zlen (dv_lua d) = zlen (dv_lua (sy_dev s)) -> dv_hooks d = dv_hooks (sy_dev s) ->
  system_ok table (delete pid qs) (mk_system d (delete pid (sy_mons s)) (<[pid := f]> (sy_files s))).
Proof using Type.
  intros [Hf Hl Hh Hp] Et Ef El Eh. split; cbn [sy_dev sy_mons]; [by rewrite Ef|by rewrite El|by rewrite Eh|]. intros pid'.
  destruct (decide (pid' = pid)) as [->|Hne]; [by rewrite !lookup_delete_eq|]. rewrite !lookup_delete_ne, Et by done. apply Hp.
Qed.

(** What a call of a process with the queue [q] does: it writes the events [wr] to the process's file; an event in [lost] is nowhere in the end. *)
Record step_done (table : list sys_call_ptr) (qs : gmap Z equeue) (c : syscall) (s : system) (q : equeue) (r : call_end) (s' : system) (qs' : gmap Z equeue) (wr lost : list event) : Prop := {
  sd_ok : system_ok table qs' s';
  sd_queues pid : pid <> sc_pid c -> qs' !! pid = qs !! pid;
  sd_returned : returned table c r;
  sd_events : Forall event_ok wr;
  sd_file f : file_of s (sc_pid c) = Some f -> file_of s' (sc_pid c) = Some (f ++ encode_all wr);
  sd_files pid : pid <> sc_pid c -> file_of s' pid = file_of s pid;
  sd_headers : List.map header (wr ++ waits qs' (sc_pid c) ++ lost) = List.map header (waiting q) ++ option_list (outcome c s);
  sd_drops : drops s' mod 2 ^ 64 = (drops s + if outcome c s then 0 else 1) mod 2 ^ 64;
  sd_unsolved : unsolved s' mod 2 ^ 64 = unsolved s mod 2 ^ 64;
  sd_lost : sc_exits c = false \/ last_fits c s -> lost = [];
  sd_page : sc_exits c = true -> last_waits c s -> exists e, lost = [e]
}.

Lemma call_counts c s (lf : life (T := world) (L := L)) q r w1 e1 q1 : life_of c s = Some lf -> lf_stat lf = ps_stat (dev_ps (sy_dev s)) -> call_recorded c lf q r w1 e1 q1 ->
  List.map header (waiting q1) = List.map header (waiting q) ++ option_list (outcome c s) /\
  n_drop_evts (ps_stat (ls_ps w1)) mod 2 ^ 64 = (drops s + if outcome c s then 0 else 1) mod 2 ^ 64.
Proof using Type.
  intros El Es [_ _ _ _ _ _ _ _ _ Hc]. unfold outcome, drops. rewrite El. cbn [mbind option_bind]. rewrite <- Es. case_bool_decide; destruct Hc as [-> ->]; cbn [option_list].
  - by rewrite Z.add_0_r.
  - rewrite app_nil_r. split; [done|]. unfold u64, unsigned. by rewrite Z.mod_mod by lia.
Qed.

(** The monitor may enter behind the recording. *)
Lemma recorded_enters table qs c s q mon e w r w1 e1 q1 : system_ok table qs s -> call_fits c s -> call_starts c s q mon e w ->
  call_recorded c (mk_life e w (ps_stat (ls_ps w)) (mn_l mon) (mn_rs mon)) q r w1 e1 q1 ->
  ps_table (ls_ps w1) = <[sc_pid c := e1]> (ps_table (dev_ps (sy_dev s))) /\ enters c (set_w w1 (sy_dev s)) mon e1 w1 q1.
Proof using lua_run_script.
  intros Hs [_ Hfit] [El _ Hw Ho _ _ _ Etab _ _] [Etab1 Etsk Epid Hq1 Hsz _ _ Hstep _ _]. cbn [lf_t lf_p] in *. rewrite Etab, insert_insert_eq in Etab1. split; [done|].
  destruct (Hfit _ El) as [_ Hvisit]. destruct (Hstep (lua_run_script [])) as (lf1 & Es1 & Ee1). pose proof (Hvisit _ _ Es1) as Hv. unfold visit_ok in Hv. rewrite Ee1 in Hv.
  split; try done; [by unfold cur_pid; rewrite Etsk|rewrite Etab1; apply lookup_insert_eq|rewrite Hsz; apply Ho|apply Hs|apply Hs].
Qed.

Lemma file_of_put (s : system) pid mon d f : file_of (mk_system d (<[pid := mon]> (sy_mons s)) f) pid = Some (rs_file (mn_rs mon)).
Proof using Type. unfold file_of. cbn [sy_mons]. by rewrite lookup_insert_eq. Qed.

Lemma file_of_put_ne (s : system) pid pid' mon d : pid' <> pid -> file_of (mk_system d (<[pid := mon]> (sy_mons s)) (sy_files s)) pid' = file_of s pid'.
Proof using Type. intros Hne. unfold file_of. cbn [sy_mons sy_files]. by rewrite lookup_insert_ne. Qed.

Lemma waits_put (qs : gmap Z equeue) pid q : waits (<[pid := q]> qs) pid = waiting q.
Proof using Type. unfold waits. by rewrite lookup_insert_eq. Qed.

(** A call that the probe sees. *)
Lemma call_done table qs c s q : system_ok table qs s -> call_ok c -> call_fits c s -> sc_exits c = false -> qs !! sc_pid c = Some q ->
  exists r s' qs' wr, sys_call c s = Some (r, s') /\ step_done table qs c s q r s' qs' wr [].
Proof using pkeys_ok Hinfo Hbuf Harg lua_run_script.
  intros Hs Hc Hfit Hx Hq. destruct (call_start table qs c s q Hs Hc Hfit Hq) as (mon & e & w & Hst).
  destruct (call_records c s q mon e w Hst Hc Hfit) as (r & w1 & e1 & q1 & Erec & Hr). destruct (recorded_enters table qs c s q mon e w r w1 e1 q1 Hs Hfit Hst Hr) as [Etab Hen].
  destruct (call_counts c s _ q r w1 e1 q1 (cs_life _ _ _ _ _ _ Hst) (cs_stat _ _ _ _ _ _ Hst) Hr) as [Hh Hn].
  pose proof (cr_unsolved _ _ _ _ _ _ _ Hr) as Hu. cbn [lf_stat] in Hu. rewrite (cs_stat _ _ _ _ _ _ Hst) in Hu. pose proof (cs_mon _ _ _ _ _ _ Hst) as Em.
  unfold sys_call, nod_event_from, find_proc_info. rewrite (probe_of_call c s q mon e w Hst Hc Hx), Erec. cbn [fmap option_fmap option_map snd mbind option_bind].
  rewrite Etab, lookup_insert_eq. destruct (cr_ends _ _ _ _ _ _ _ Hr) as [[_ Hstay]|[_ Hl]]; cbn [lf_p] in *.
  - destruct Hstay as [Hout Hblk Hrdy Hregs Htask]. rewrite Hout. pose proof (cs_outside _ _ _ _ _ _ Hst) as Ho.
    assert (mk_system (set_w w1 (sy_dev s)) (sy_mons s) (sy_files s) = mk_system (set_w w1 (sy_dev s)) (<[sc_pid c := mon]> (sy_mons s)) (sy_files s)) as -> by (by rewrite insert_id).
    eexists _, _, (<[sc_pid c := q1]> qs), []. split; [reflexivity|]. split; try done; [..|by rewrite Hx].
    + eapply system_put; try done; [|apply Hst]. split; [apply Hr|done|by rewrite Hblk; apply Ho|apply Hr|done|apply Hen].
    + intros pid Hne. by rewrite lookup_insert_ne.
    + cbn [returned]. by rewrite Hregs, Htask.
    + intros f Hf. rewrite file_of_put. unfold file_of in Hf. rewrite Em in Hf. rewrite Hf. cbn. by rewrite app_nil_r.
    + intros pid Hne. by apply file_of_put_ne.
    + rewrite waits_put, app_nil_r. exact Hh.
    + unfold unsolved. change (dev_ps (sy_dev (mk_system _ _ _))) with (ls_ps w1). by rewrite Hu.
  - rewrite (lo_status _ _ _ _ Hl). cbn [sy_mons]. rewrite Em. cbn [mbind option_bind].
    destruct (call_visits c e w1 _ mon e1 q1 Hc Hx (ou_block _ _ _ (cs_outside _ _ _ _ _ _ Hst)) Hl Hen) as (d' & mon' & w3 & e3 & Hcv).
    rewrite (cv_run _ _ _ _ _ _ _ _ _ Hcv). cbn [mbind option_bind]. rewrite (cv_probe _ _ _ _ _ _ _ _ _ Hcv). cbn [mbind option_bind].
    pose proof (cv_ps _ _ _ _ _ _ _ _ _ Hcv) as Eps. change (dev_ps (set_w w1 (sy_dev s))) with (ls_ps w1) in Eps.
    eexists _, _, (<[sc_pid c := ([], q1.2)]> qs), q1.1. split; [reflexivity|]. split; try done; [..|by rewrite Hx].
    + eapply system_put; try apply Hcv; [done|]. unfold dev_ps at 1. cbn. rewrite Eps. cbn. by rewrite Etab, insert_insert_eq.
    + intros pid Hne. by rewrite lookup_insert_ne.
    + cbn [returned]. split; [done|]. split; [apply Hcv|apply Hcv].
    + exact (queue_ok _ _ (cr_queue _ _ _ _ _ _ _ Hr)).
    + intros f Hf. rewrite file_of_put, (cv_file _ _ _ _ _ _ _ _ _ Hcv). unfold file_of in Hf. rewrite Em in Hf. by injection Hf as ->.
    + intros pid Hne. by apply file_of_put_ne.
    + rewrite waits_put, app_nil_r, <- Hh. done.
    + rewrite <- Hn. unfold drops, dev_ps. cbn. by rewrite Eps.
    + unfold unsolved. rewrite <- Hu. unfold dev_ps at 1. cbn. by rewrite Eps.
Qed.

(** The second request of an exit, and the end of the process. *)
Record exit_finished (c : syscall) (d : dev) (e1 : nod_proc_info) (old : sys_call_ptr) (w2 : world) (w3 : world) : Prop := {
  ef_hook : call_hook c (dv_hooks d) (put_task (with_nr (sc_regs c) (ve_regs (sc_visit c))) (ve_task (sc_visit c)) (dv_w d)) = Some (HCall old, w2);
  ef_end : syscall_procexit_probe false 1000 (sc_pid c) w2 = Some w3;
  ef_task : settings_of (ls_task w3) = settings_of (sc_task c);
  ef_table : ps_table (ls_ps w3) = delete (sc_pid c) (ps_table (dev_ps d));
  ef_drops : n_drop_evts (ps_stat (ls_ps w3)) = n_drop_evts (ps_stat (dev_ps d));
  ef_unsolved : n_drop_evts_unsolved (ps_stat (ls_ps w3)) mod 2 ^ 64 = n_drop_evts_unsolved (ps_stat (dev_ps d)) mod 2 ^ 64
}.

Lemma exit_finishes c (d d' : dev) e w1 e1 b q1 mon mon' old : call_ok c -> loaded c e e1 w1 -> cur_pid (dv_w d) = sc_pid c -> hook_leads c (dv_hooks d') old ->
  exit_visited c d mon e1 q1 d' mon' b -> exists w2 w3, exit_finished c d' e1 old w2 w3.
Proof using Type.
  intros Hc Hl Hcur Hhook Hev. pose proof (ev_ps _ _ _ _ _ _ _ _ Hev) as Eps.
  set (w := put_task (with_nr (sc_regs c) (ve_regs (sc_visit c))) (ve_task (sc_visit c)) (dv_w d')). change (dev_ps d') with (ls_ps w) in Eps.
  destruct (lo_saved _ _ _ _ Hl) as [_ Hsec].
  destruct (exit_granted c (dv_hooks d') w (ProcState.set_buffer b e1) old (sc_task c) Hhook) as (e' & w2 & E2 & Hset & Hps & Hb); try done; try apply Hc.
  { unfold cur_pid, w in *. cbn. rewrite (ev_tsk _ _ _ _ _ _ _ _ Hev). exact Hcur. }
  { rewrite Eps. apply lookup_insert_eq. }
  { apply Hl. }
  destruct (exit_released w2 (sc_pid c) e' q1.2) as (w3 & E3 & Ht & Htab & Hd & Hu); [rewrite Hps; apply lookup_insert_eq|eapply proc_queue_buffer; [|apply Hev]; exact Hb|].
  exists w2, w3. split; [exact E2|exact E3|by rewrite Ht| | |].
  - rewrite Htab, Hps. cbn. by rewrite delete_insert_eq.
  - by rewrite Hd, Hps.
  - by rewrite Hu, Hps.
Qed.

(** A call that ends the process. *)
Lemma exit_done table qs c s q : system_ok table qs s -> call_ok c -> call_fits c s -> sc_exits c = true -> qs !! sc_pid c = Some q ->
  exists r s' qs' wr lost, sys_exit c s = Some (r, s') /\ qs' !! sc_pid c = None /\ step_done table qs c s q r s' qs' wr lost.
Proof using pkeys_ok Hinfo Hbuf Harg lua_run_script.
  intros Hs Hc Hfit Hx Hq. destruct (call_start table qs c s q Hs Hc Hfit Hq) as (mon & e & w & Hst).
  destruct (call_records c s q mon e w Hst Hc Hfit) as (r & w1 & e1 & q1 & Erec & Hr). destruct (recorded_enters table qs c s q mon e w r w1 e1 q1 Hs Hfit Hst Hr) as [Etab Hen].
  destruct (call_counts c s _ q r w1 e1 q1 (cs_life _ _ _ _ _ _ Hst) (cs_stat _ _ _ _ _ _ Hst) Hr) as [Hh Hn].
  pose proof (cr_unsolved _ _ _ _ _ _ _ Hr) as Hu. cbn [lf_stat] in Hu. rewrite (cs_stat _ _ _ _ _ _ Hst) in Hu. pose proof (cs_mon _ _ _ _ _ _ Hst) as Em.
  destruct (cr_ends _ _ _ _ _ _ _ Hr) as [[Hno _]|[Er Hl]]; [congruence|]. cbn [lf_p] in *.
  destruct (so_hooks _ _ _ Hs) as (Hlen & Hreach & Hreg). destruct (exit_hooked table (dv_hooks (sy_dev s)) c Hlen Hreach Hreg Hx) as (old & Eold & Hhook).
  destruct (exit_visits c e w1 _ mon e1 q1 Hc Hx (ou_block _ _ _ (cs_outside _ _ _ _ _ _ Hst)) Hl Hen) as (d' & mon' & b & Hev).
  assert (hook_leads c (dv_hooks d') old) as Hhook' by (by rewrite (ev_hooks _ _ _ _ _ _ _ _ Hev)).
  destruct (exit_finishes c (set_w w1 (sy_dev s)) d' e w1 e1 b q1 mon mon' old Hc Hl (en_cur _ _ _ _ _ _ Hen) Hhook' Hev) as (w2 & w3 & [Eh Ee Et Etab3 Ed Eu]).
  unfold sys_exit. rewrite (exit_asked c s q mon e w r w1 old Hst Hc Hx Erec Er Hhook). cbn [mbind option_bind]. rewrite Em. cbn [mbind option_bind].
  unfold nod_event_from, find_proc_info. rewrite Etab, lookup_insert_eq, (lo_status _ _ _ _ Hl), (ev_run _ _ _ _ _ _ _ _ Hev). cbn [mbind option_bind]. rewrite Eh. cbn [mbind option_bind].
  change (dv_w (set_w w2 d')) with w2. rewrite Ee. cbn [mbind option_bind].
  pose proof (ev_ps _ _ _ _ _ _ _ _ Hev) as Eps. change (dev_ps (set_w w1 (sy_dev s))) with (ls_ps w1) in Eps. rewrite Eps in Etab3, Ed, Eu. cbn [ps_table ps_stat set_table] in Etab3, Ed, Eu.
  eexists _, _, (delete (sc_pid c) qs), q1.1, (option_list q1.2). split; [reflexivity|]. split; [apply lookup_delete_eq|]. split.
  - apply (system_end table qs s); try done; try apply Hev. intros pid Hne. change (dev_ps (set_w w3 _)) with (ls_ps w3). rewrite Etab3, lookup_delete_ne, lookup_insert_ne, Etab, lookup_insert_ne by done. done.
  - intros pid Hne. by rewrite lookup_delete_ne.
  - by split.
  - exact (queue_ok _ _ (cr_queue _ _ _ _ _ _ _ Hr)).
  - intros f Hf. unfold file_of in *. cbn [sy_mons sy_files]. rewrite Em in Hf. rewrite lookup_delete_eq, lookup_insert_eq, (ev_file _ _ _ _ _ _ _ _ Hev). by injection Hf as ->.
  - intros pid Hne. unfold file_of. cbn [sy_mons sy_files]. by rewrite lookup_delete_ne, lookup_insert_ne.
  - unfold waits. rewrite lookup_delete_eq. rewrite <- Hh. unfold waiting. by destruct q1 as [? [|]].
  - rewrite <- Hn, <- Ed. done.
  - unfold unsolved. rewrite <- Hu. exact Eu.
  - intros [?|Hlast]; [congruence|]. destruct (cr_over _ _ _ _ _ _ _ Hr) as (a & Ha & Hno & _). by rewrite (Hno (Hlast _ a (cs_life _ _ _ _ _ _ Hst) Ha)).
  - intros _ Hlast. destruct (cr_over _ _ _ _ _ _ _ Hr) as (a & Ha & _ & Hov). destruct (Hov (Hlast _ a (cs_life _ _ _ _ _ _ Hst) Ha)) as [e' ->]. by exists e'.
Qed.

(** ** Runs *)

Lemma headers_of_cons pid pid' o os : headers_of pid ((pid', o) :: os) = (if bool_decide (pid' = pid) then option_list o else []) ++ headers_of pid os.
Proof using Type. unfold headers_of. cbn [omap list_omap fst snd]. case_bool_decide; destruct o; done. Qed.

Lemma failures_cons pid o os : failures ((pid, o) :: os) = (if o then 0 else 1) + failures os.
Proof using Type. unfold failures. rewrite filter_cons. cbn [snd]. destruct o; case_decide; try done. rewrite zlen_cons. lia. Qed.

Lemma step_completes table qs c s : system_ok table qs s -> call_ok c -> call_fits c s -> exists q r s' qs' wr lost, qs !! sc_pid c = Some q /\
  sys_step c s = Some (r, s') /\ step_done table qs c s q r s' qs' wr lost.
Proof using pkeys_ok Hinfo Hbuf Harg lua_run_script.
  intros Hs Hc Hfit. pose proof Hfit as [[mon Em] _]. pose proof (so_procs _ _ _ Hs (sc_pid c)) as Hp. rewrite Em in Hp.
  destruct (qs !! sc_pid c) as [q|] eqn:Eq; [|done]. exists q. unfold sys_step. destruct (sc_exits c) eqn:Ex.
  - destruct (exit_done table qs c s q Hs Hc Hfit Ex Eq) as (r & s' & qs' & wr & lost & E & _ & Hd). by exists r, s', qs', wr, lost.
  - destruct (call_done table qs c s q Hs Hc Hfit Ex Eq) as (r & s' & qs' & wr & E & Hd). by exists r, s', qs', wr, [].
Qed.

(** What a run does for one process. *)
Definition files_grow (qs qs' : gmap Z equeue) (s s' : system) (os : list (Z * option (Z * Z * Z * Z))) : Prop :=
  forall pid f, file_of s pid = Some f -> exists written, file_of s' pid = Some (f ++ encode_all written) /\ Forall event_ok written /\
    List.map header (written ++ waits qs' pid) = List.map header (waits qs pid) ++ headers_of pid os.

Lemma step_files table qs c s q r s' qs' wr : qs !! sc_pid c = Some q -> step_done table qs c s q r s' qs' wr [] -> files_grow qs qs' s s' [(sc_pid c, outcome c s)].
Proof using Type.
  intros Hq Hd pid f Hf. rewrite headers_of_cons, app_nil_r. case_bool_decide as Hpid.
  - subst pid. exists wr. split; [by apply Hd|]. split; [apply Hd|]. pose proof (sd_headers _ _ _ _ _ _ _ _ _ _ Hd) as Hh. rewrite app_nil_r in Hh.
    unfold waits at 2. by rewrite Hq.
  - exists []. rewrite !app_nil_r. split; [by rewrite (sd_files _ _ _ _ _ _ _ _ _ _ Hd) by done|]. split; [done|]. unfold waits. by rewrite (sd_queues _ _ _ _ _ _ _ _ _ _ Hd) by done.
Qed.

Lemma files_grow_trans qs1 qs2 qs3 s1 s2 s3 o os : files_grow qs1 qs2 s1 s2 [o] -> files_grow qs2 qs3 s2 s3 os -> files_grow qs1 qs3 s1 s3 (o :: os).
Proof using Type.
  intros H1 H2 pid f Hf. destruct (H1 pid f Hf) as (wr & Hf1 & Hev1 & Hh1). destruct (H2 pid _ Hf1) as (wr' & Hf2 & Hev2 & Hh2). exists (wr ++ wr').
  split; [by rewrite Hf2, encode_all_app, <- app_assoc|]. split; [by apply Forall_app|].
  rewrite <- app_assoc, map_app, Hh2, app_assoc, <- map_app, Hh1. destruct o as [pid' o]. rewrite (headers_of_cons pid pid' o os), (headers_of_cons pid pid' o []), <- !app_assoc. done.
Qed.

Lemma run_completes table cs s qs : system_ok table qs s -> Forall call_ok cs -> calls_fit cs s ->
  exists rs s' qs', sys_run cs s = Some (rs, s') /\ system_ok table qs' s' /\ Forall2 (returned table) cs rs /\
    drops s' mod 2 ^ 64 = (drops s + failures (sys_outcomes cs s)) mod 2 ^ 64 /\ unsolved s' mod 2 ^ 64 = unsolved s mod 2 ^ 64 /\
    files_grow qs qs' s s' (sys_outcomes cs s).
Proof using pkeys_ok Hinfo Hbuf Harg.
  intros Hs Hcs. revert s qs Hs. induction Hcs as [|c cs Hc Hcs IH]; intros s qs Hs Hfit; cbn [sys_run sys_outcomes].
  { exists [], s, qs. split_and!; try done; [by rewrite Z.add_0_r|]. intros pid f Hf. exists []. by rewrite !app_nil_r. }
  destruct Hfit as (Hfit & Hlast & Hfits). destruct (step_completes table qs c s Hs Hc Hfit) as (q & r & s1 & qs1 & wr & lost & Hq & E & Hd). rewrite E. cbn [mbind option_bind].
  assert (lost = []) as -> by (apply Hd; destruct (sc_exits c); [right; by apply Hlast|by left]).
  destruct (IH s1 qs1 (sd_ok _ _ _ _ _ _ _ _ _ _ Hd) (Hfits _ _ E)) as (rs & s' & qs' & E' & Hs' & Hrs & Hdr & Hun & Hp). rewrite E'. cbn [mbind option_bind].
  exists (r :: rs), s', qs'. split; [done|]. split; [done|]. split; [constructor; [apply Hd|done]|]. split; [|split].
  - rewrite Hdr, failures_cons, Z.add_assoc, Z.add_mod, (sd_drops _ _ _ _ _ _ _ _ _ _ Hd), <- Z.add_mod by lia. done.
  - by rewrite Hun, (sd_unsolved _ _ _ _ _ _ _ _ _ _ Hd).
  - eapply files_grow_trans; [by eapply step_files|done].
Qed.

(** C1: The system records what its processes do, from their first call to their exit.  Let any number of processes share the module while the
    recording is on, each of them outside of its monitor with its queue in order, or not known to the module yet.
    Let them make system calls and exit, in any order - calls that the probe or the filter of [exit] records, whose events are recordable (consistent
    table entries, arguments that meet no assertion of their filler) and do not run out of
    space behind the header, on machines and allocators that may differ from call to call; the last event of a process finds room for its header in the buffer
    ([exit_event_lost] is the other case). Allocations, [mmap] and [fopen] succeed, and the script returns.
    Then nothing faults: every call ends, its event recorded, the monitor loaded, run and left again whenever the module does so; each call
    returns to its process with the process's own registers, segment bases and settings, whatever the monitor did to them; an exit visits the monitor and then ends
    by the original function; and afterwards all processes are outside again or gone.
    For every process the record file has grown by encodings that decode to the events [written]; the headers of these and of those that
    still wait - none for a process that has ended - are, in order and without gaps or repetitions, those that waited before followed by those of the process's
    own calls.  The events whose fillers failed are counted as dropped, and none is counted as left over. *)
Theorem calls_recorded table cs s qs : system_ok table qs s -> Forall call_ok cs -> calls_fit cs s ->
  exists rs s' qs', sys_run cs s = Some (rs, s') /\ system_ok table qs' s' /\ Forall2 (returned table) cs rs /\
    drops s' mod 2 ^ 64 = (drops s + failures (sys_outcomes cs s)) mod 2 ^ 64 /\ unsolved s' mod 2 ^ 64 = unsolved s mod 2 ^ 64 /\
    forall pid f, file_of s pid = Some f -> exists written,
      file_of s' pid = Some (f ++ encode_all written) /\ decode_all (length written) (encode_all written) = Some written /\
      List.map header (written ++ waits qs' pid) = List.map header (waits qs pid) ++ headers_of pid (sys_outcomes cs s).
Proof using pkeys_ok Hinfo Hbuf Harg.
  intros Hs Hcs Hfit. destruct (run_completes table cs s qs Hs Hcs Hfit) as (rs & s' & qs' & E & Hs' & Hr & Hd & Hu & Hp).
  exists rs, s', qs'. repeat (split; [assumption|]). intros pid f Hf. destruct (Hp pid f Hf) as (wr & H1 & H2 & H3).
  exists wr. split; [exact H1|]. split; [by apply decode_all_encode|exact H3].
Qed.

(** The last event of a process can be lost.  When the header of the exit's event does not fit into the buffer the event goes
    to the overflow page; the monitor then writes the events of the buffer and ends the process, and nothing reads the page: the
    file ends in front of the exit, and neither statistic counts the event. *)
Theorem exit_event_lost table qs c s q h : system_ok table qs s -> call_ok c -> call_fits c s -> sc_exits c = true -> qs !! sc_pid c = Some q ->
  last_waits c s -> outcome c s = Some h ->
  exists r s' qs' written, sys_step c s = Some (r, s') /\ returned table c r /\ system_ok table qs' s' /\ qs' !! sc_pid c = None /\
    (forall f, file_of s (sc_pid c) = Some f -> file_of s' (sc_pid c) = Some (f ++ encode_all written)) /\
    List.map header written = List.map header (waiting q) /\
    drops s' mod 2 ^ 64 = drops s mod 2 ^ 64 /\ unsolved s' mod 2 ^ 64 = unsolved s mod 2 ^ 64.
Proof using pkeys_ok Hinfo Hbuf Harg lua_run_script.
  intros Hs Hc Hfit Hx Hq Hlast Ho. unfold sys_step. rewrite Hx. destruct (exit_done table qs c s q Hs Hc Hfit Hx Hq) as (r & s' & qs' & wr & lost & E & Hgone & [H1 _ H3 _ H5 _ H7 H8 H9 _ H11]).
  destruct (H11 Hx Hlast) as [e ->]. rewrite Ho in *. unfold waits in H7. rewrite Hgone in H7. cbn [option_list app] in H7. rewrite map_app in H7. cbn [List.map] in H7.
  apply app_inj_tail in H7 as [H7 _]. rewrite Z.add_0_r in H8. by exists r, s', qs', wr.
Qed.
End system.

(** ** A run *)

(** What [call_fits] asks, as a test. *)
Section tests.
Context {P : Type} `{Pkeys P} {L : Type} (conf : loader_config) (init_root : Z) (env_area : Z * Z).
Context (lua_on_event : list Z -> L -> L) (lua_run_script : list Z -> L -> L) (pkey_support : bool) (im : image) (info_at buf_at : Z -> Z) (arg_addr r1 r2 : Z).
Notation sys_step := (sys_step conf init_root env_area lua_on_event lua_run_script pkey_support im info_at buf_at arg_addr r1 r2).

Definition fits_testb (c : syscall) (s : system (P := P) (L := L)) : bool :=
  match sy_mons s !! sc_pid c with Some _ => true | None => false end &&
  match life_of c s with
  | None => true
  | Some lf =>
      match first_attempt (K := sc_kernel c) (sc_env c) (sc_type c) (sc_data c) (lf_p lf) (lf_stat lf) with Some a => (at_cbret a =? NOD_SUCCESS) && (negb (sc_exits c) || (rb_filled (at_buf a) =? 0)) | None => true end &&
      match life_step (H := the_loader conf init_root env_area) lua_on_event (fun l => l) (ORecord (sc_kernel c) (sc_env c) (sc_type c) (sc_data c)) lf with Some lf => visit_testb lf | None => true end
  end.

Fixpoint fits_testsb (cs : list syscall) (s : system (P := P) (L := L)) : bool :=
  match cs with
  | [] => true
  | c :: cs => fits_testb c s && match sys_step c s with Some (_, s) => fits_testsb cs s | None => true end
  end.

Lemma fits_testb_ok c s : fits_testb c s = true -> call_fits conf init_root env_area lua_on_event c s /\ (sc_exits c = true -> last_fits c s).
Proof.
  unfold fits_testb. intros [Hm Ht]%andb_true_iff. split; [split|].
  - destruct (sy_mons s !! sc_pid c); [by eexists|done].
  - intros lf El. rewrite El in Ht. apply andb_true_iff in Ht as [Ha Hv]. split.
    + intros a E. rewrite E in Ha. apply andb_true_iff in Ha as [Ha%Z.eqb_eq _]. rewrite Ha. split; [discriminate|]. intros Hn. by destruct Hn.
    + intros ra lf' E. apply visit_testb_ok.
      assert (life_step (H := the_loader conf init_root env_area) lua_on_event (fun l => l) (ORecord (sc_kernel c) (sc_env c) (sc_type c) (sc_data c)) lf = Some lf') as E' by exact E.
      by rewrite E' in Hv.
  - intros Hx lf a El E. rewrite El, E, Hx in Ht. apply andb_true_iff in Ht as [[_ Ha]%andb_true_iff _]. by apply Z.eqb_eq in Ha.
Qed.

Lemma fits_testsb_ok cs s : fits_testsb cs s = true ->
  calls_fit conf init_root env_area lua_on_event lua_run_script pkey_support im info_at buf_at arg_addr r1 r2 cs s.
Proof.
  revert s. induction cs as [|c cs IH]; intros s; [done|]. cbn [fits_testsb calls_fit]. intros [Hc Hcs]%andb_true_iff.
  destruct (fits_testb_ok c s Hc) as [Hf Hl]. split; [exact Hf|]. split; [exact Hl|]. intros r s' E. apply IH. by rewrite E in Hcs.
Qed.
End tests.

(** Two processes close files; the first one then exits. *)
#[local] Instance one_key : Pkeys unit := {| mm_pkey_alloc _ k := (1, k); mm_pkey_free _ _ k := k |}.

Lemma one_key_ok mm (k : unit) : - 2 ^ 31 <= (mm_pkey_alloc mm k).1 < 2 ^ 31.
Proof. cbn. lia. Qed.

Definition demo_syscall (nr pid ts : Z) : syscall :=
  mk_syscall close_kernel (mk_env ts pid 0 0) (mk_aenv true demo_alloc 8192) (mk_tsk pid 1 pid true) (call_regs nr pid) demo_ktask
    (mk_venv 3 (le_bytes 8 0x7000) (0, le_bytes 8 8) 0x55555554 (replicate 264 0xcc) zero_regs demo_ktask).
Definition demo_calls : list syscall := [demo_syscall 3 100 1000; demo_syscall 3 200 1001; demo_syscall 3 100 1002; demo_syscall __NR_exit 100 1003; demo_syscall 3 200 1004].
Definition new_monitor : monitor (L := nat) := mk_mon 0 0%nat (mk_store init_rw [] []).
Definition new_system : system (P := unit) (L := nat) :=
  mk_system (mk_dev (mk_lstate zero_regs demo_ktask demo_tsk (mk_pstate ∅ tt demo_stat) []) demo_hooks (replicate 264 0) NOD_RECORD_MODE_START 8192)
    {[100 := new_monitor; 200 := new_monitor]} ∅.
Definition no_events : gmap Z equeue := {[100 := ([], None); 200 := ([], None)]}.
(** Every process has its own address space. *)
Definition demo_info (pid : Z) : Z := 0x10000.
Definition demo_buf (pid : Z) : Z := 0x20000.

Notation demo_sys f := (f demo_conf 60 (0, 0) (fun _ n => S n) (fun _ n => n) true demo_image demo_info demo_buf 4096 0 0).
Definition demo_run : option (list call_end * system) := demo_sys (sys_run (L := nat)) demo_calls new_system.

Example demo_run_files : match demo_run with
  | Some (rs, s) => (List.map (fun r => match r with Returns regs _ => Some (r_di regs) | Exits _ _ => None end) rs,
      map_to_list ((fun m => zlen (rs_file (mn_rs m))) <$> sy_mons s), map_to_list (zlen <$> sy_files s)) = ([Some 100; Some 200; Some 100; None; Some 200], [(200, 48)], [(100, 128)])
  | None => False
  end.
Proof. vm_compute. reflexivity. Qed.

Lemma demo_syscall_ok nr pid ts : nr = 3 \/ nr = __NR_exit -> 0 <= ts < 2 ^ 64 -> 0 <= pid < 2 ^ 32 -> call_ok (demo_syscall nr pid ts).
Proof.
  intros Hnr Ht Hp. split.
  - apply close_kernel_ok.
  - by split.
  - by destruct Hnr as [->| ->]; split_and!.
  - destruct Hnr as [->| ->]; (split; [by vm_compute|]; split; [by vm_compute|]; intros f [= <-]; (exact I || (split; [vm_compute; discriminate|reflexivity]))).
  - split; [|split; [done|split; [by eexists _, _|done]]]. split; [intros s [= <-]; by vm_compute|]. split; [intros s [= <-]; by vm_compute|]. by split.
  - right. by right.
  - done.
  - split; [apply (le_bytes_ok 8)|vm_compute; discriminate].
  - reflexivity.
Qed.

Lemma new_system_ok : system_ok demo_info demo_buf demo_table no_events new_system.
Proof.
  split; [reflexivity|reflexivity|split; [reflexivity|split; [exact demo_reach|reflexivity]]|]. intros pid. cbn [sy_mons new_system]. unfold no_events.
  destruct (decide (pid = 100)) as [->|H1]; [|destruct (decide (pid = 200)) as [->|H2]].
  - rewrite !lookup_insert_eq. split; [by left|exact eq_refl].
  - rewrite !lookup_insert_ne, !lookup_singleton_eq by done. split; [by left|exact eq_refl].
  - by rewrite !lookup_insert_ne, !lookup_singleton_ne by congruence.
Qed.

Lemma calls_recorded_witness :
  exists rs s' qs', demo_run = Some (rs, s') /\ system_ok demo_info demo_buf demo_table qs' s' /\ Forall2 (returned demo_table) demo_calls rs /\ drops s' mod 2 ^ 64 = 0 /\
    exists written, file_of s' 100 = Some (encode_all written) /\ decode_all (length written) (encode_all written) = Some written /\
      List.map header (written ++ waits qs' 100) = [(1000, 100, 0, NODE_SYSCALL_CLOSE); (1002, 100, 0, NODE_SYSCALL_CLOSE); (1003, 100, 0, event_type (g_syscall_event_table __NR_exit))].
Proof.
  assert (Forall call_ok demo_calls) as Hcs by (unfold demo_calls; do 5 (apply List.Forall_cons; [apply demo_syscall_ok; [by (left + right)|lia|lia]|]); apply List.Forall_nil).
  assert (demo_sys calls_fit demo_calls new_system) as Hfit by (apply fits_testsb_ok; vm_compute; reflexivity).
  destruct (demo_sys calls_recorded one_key_ok ltac:(by split) ltac:(by split) ltac:(by split) demo_table demo_calls new_system no_events new_system_ok Hcs Hfit)
    as (rs & s' & qs' & E & Hs' & Hr & Hd & _ & Hp).
  assert (headers_of 100 (demo_sys sys_outcomes demo_calls new_system)
    = [(1000, 100, 0, NODE_SYSCALL_CLOSE); (1002, 100, 0, NODE_SYSCALL_CLOSE); (1003, 100, 0, event_type (g_syscall_event_table __NR_exit))]) as Eh by (vm_compute; reflexivity).
  assert (failures (demo_sys sys_outcomes demo_calls new_system) = 0) as Ef by (vm_compute; reflexivity).
  rewrite Ef in Hd. destruct (Hp 100 [] eq_refl) as (wr & Hfile & Hdec & Hh). rewrite Eh in Hh.
  exists rs, s', qs'. split; [exact E|]. split; [exact Hs'|]. split; [exact Hr|]. split; [exact Hd|].
  exists wr. split; [exact Hfile|]. split; [exact Hdec|]. exact Hh.
Defined.

(** A process whose buffer is full to the last byte. *)
Definition full_event : event := mk_event_ 0 100 0 NODE_SYSCALL_CLOSE [replicate (Z.to_nat 8162) 0].
Definition full_entry : nod_proc_info :=
  mk_proc 100 1 (mk_buffer (Some (encode full_event)) (Some (replicate 4096 0)) (Some (mk_info 1 8192 0 8192)) 0 (Some (replicate 4096 0)) 0)
    (-1) 65552 0 0 NOD_OUT zero_ctx zero_sec zero_stack.
Definition full_system : system (P := unit) (L := nat) :=
  mk_system (mk_dev (mk_lstate zero_regs demo_ktask demo_tsk (mk_pstate {[100 := full_entry]} tt demo_stat) []) demo_hooks (replicate 264 0) NOD_RECORD_MODE_START 8192)
    {[100 := new_monitor]} ∅.

Lemma full_event_len : event_len full_event = 8192.
Proof. by vm_compute. Qed.

Lemma full_event_ok : event_ok full_event.
Proof. split; try done. constructor; [|done]. unfold zlen. rewrite length_replicate. lia. Qed.

Lemma full_outside : outside demo_info demo_buf 100 full_entry ([full_event], None).
Proof.
  assert (encode_all [full_event] = encode full_event) as Ee by apply encode_all_one.
  assert (zlen (encode full_event) = 8192) as Hl by (rewrite zlen_encode; exact full_event_len).
  assert (proc_queue full_entry ([full_event], None)) as Hq.
  { eexists _, _. split; [reflexivity|]. split; [reflexivity|]. split; [|reflexivity]. split; cbn [rb_info tail buffer_size nevents rb_buffer fst].
    - split; cbn [rb_buffer rb_info buffer_size rb_over]; [exact Hl|unfold PAGE_SIZE; lia|reflexivity].
    - rewrite Ee. symmetry. exact Hl.
    - lia.
    - rewrite Ee. apply ztake_ge. rewrite Hl. lia.
    - reflexivity.
    - constructor; [apply full_event_ok|constructor]. }
  split; [reflexivity|reflexivity|split; [split; cbn; lia|by split; left]|exact Hq|by left|split; reflexivity].
Qed.

Lemma full_system_ok : system_ok demo_info demo_buf demo_table {[100 := ([full_event], None)]} full_system.
Proof.
  split; [reflexivity|reflexivity|split; [reflexivity|split; [exact demo_reach|reflexivity]]|]. intros pid. cbn [sy_mons full_system].
  destruct (decide (pid = 100)) as [->|H1].
  - rewrite !lookup_singleton_eq. split; [by left|]. change (ps_table (dev_ps (sy_dev full_system))) with ({[100 := full_entry]} : gmap Z nod_proc_info).
    rewrite lookup_singleton_eq. exact full_outside.
  - by rewrite !lookup_singleton_ne by congruence.
Qed.

Definition last_exit : syscall := demo_syscall __NR_exit 100 172.

(** What [exit_event_lost] asks, as a test. *)
Definition exit_testb (s : system (P := unit) (L := nat)) : bool :=
  match sy_mons s !! 100 with Some _ => true | None => false end &&
  match life_of last_exit s, outcome last_exit s with
  | Some lf, Some _ =>
      match first_attempt (K := close_kernel) (sc_env last_exit) (sc_type last_exit) (sc_data last_exit) (lf_p lf) (lf_stat lf) with
      | Some a => (at_cbret a =? NOD_SUCCESS) && (rb_filled (at_buf a) =? 1)
      | None => false
      end &&
      match life_step (H := the_loader demo_conf 60 (0, 0)) (fun _ n => S n) (fun l => l) (ORecord close_kernel (sc_env last_exit) (sc_type last_exit) (sc_data last_exit)) lf with Some lf => visit_testb lf | None => false end
  | _, _ => false
  end.

Lemma exit_testb_ok s : exit_testb s = true ->
  call_fits demo_conf 60 (0, 0) (fun _ n => S n) last_exit s /\ last_waits last_exit s /\ is_Some (outcome last_exit s).
Proof.
  unfold exit_testb. intros [Hm Ht]%andb_true_iff. change (sy_mons s !! 100) with (sy_mons s !! sc_pid last_exit) in Hm.
  destruct (life_of last_exit s) as [lf|] eqn:El; [|done]. destruct (outcome last_exit s) as [h|]; [|done]. apply andb_true_iff in Ht as [Ha Hv].
  destruct (first_attempt _ _ _ _ _) as [a|] eqn:Ea; [|done]. apply andb_true_iff in Ha as [Hc%Z.eqb_eq Hp%Z.eqb_eq]. split; [split|split; [|by eexists]].
  - destruct (sy_mons s !! sc_pid last_exit); [by eexists|done].
  - intros lf0 El0. rewrite El in El0. injection El0 as <-. split.
    + intros a0 E0. change (sc_kernel last_exit) with close_kernel in E0. rewrite Ea in E0. injection E0 as <-. rewrite Hc. split; [discriminate|]. intros Hn. by destruct Hn.
    + intros ra lf' E. apply visit_testb_ok.
      assert (life_step (H := the_loader demo_conf 60 (0, 0)) (fun _ n => S n) (fun l => l) (ORecord close_kernel (sc_env last_exit) (sc_type last_exit) (sc_data last_exit)) lf = Some lf') as E' by exact E.
      by rewrite E' in Hv.
  - intros lf0 a0 El0 E0. rewrite El in El0. injection El0 as <-. change (sc_kernel last_exit) with close_kernel in E0. rewrite Ea in E0. by injection E0 as <-.
Qed.

Lemma exit_event_lost_witness : exists r s' qs' written, demo_sys sys_step last_exit full_system = Some (r, s') /\ returned demo_table last_exit r /\ qs' !! 100 = None /\
  system_ok demo_info demo_buf demo_table qs' s' /\ file_of s' 100 = Some (encode_all written) /\ List.map header written = [header full_event] /\
  is_Some (outcome last_exit full_system) /\ drops s' mod 2 ^ 64 = 0 /\ unsolved s' mod 2 ^ 64 = 0.
Proof.
  assert (exit_testb full_system = true) as Ht by (vm_compute; reflexivity). destruct (exit_testb_ok _ Ht) as (Hf & Hw & [h Ho]).
  destruct (demo_sys exit_event_lost one_key_ok ltac:(by split) ltac:(by split) ltac:(by split) demo_table _ last_exit full_system _ h full_system_ok
    (demo_syscall_ok __NR_exit 100 172 ltac:(by right) ltac:(lia) ltac:(lia)) Hf eq_refl (lookup_singleton_eq _ _) Hw Ho)
    as (r & s' & qs' & written & E & Hr & Hs' & Hgone & Hg & Hh & Hd & Hu).
  exists r, s', qs', written. split; [exact E|]. split; [exact Hr|]. split; [exact Hgone|]. split; [exact Hs'|]. split; [exact (Hg [] eq_refl)|]. split; [exact Hh|].
  split; [by exists h|]. by split.
Defined.
