(* ===== verification/RecordPath.v ===== *)
(** * The files of the record: [set_record_path] and [nod_monitor_init]

    The names of the files a process's events are appended to, from [CONFIG_STORE_PATH] (a string
    the build configures), the thread and the time of the first visit.  [sprintf] into an array
    too short for its text is [None]. *)

From S2P Require Import Prelude Kernel FillerLib Printf LuaRuntime.

Local Open Scope Z_scope.

Definition SECOND_IN_US : Z := 1000000.

Record timeval : Type := mk_timeval { tv_sec : Z; tv_usec : Z }.

(** The static arrays [record_path] and [gz_record_path]. *)
Record record_paths : Type := mk_paths { record_path : list Z; gz_record_path : list Z }.
Definition init_paths : record_paths := mk_paths (replicate 100 0) (replicate 100 0).

Section paths.
Context (CONFIG_STORE_PATH : list Z).

Definition PATH_FMT : list Z := CONFIG_STORE_PATH ++ str_bytes "/%u-%ld.buf".

(** [sprintf(buf, fmt, ...)]: the text and its terminator. *)
Definition sprintf (fmt : list Z) (args : list parg) (buf : list Z) : option (list Z) :=
  text ← run_format None fmt args; zwrite 0 (text ++ [0]) buf.

Definition set_record_path (tv : timeval) (tid : Z) (s : record_paths) : option record_paths :=
  let args := [AInt tid; AInt (s64 (tv_sec tv * SECOND_IN_US + tv_usec tv))] in
  p ← sprintf PATH_FMT args (record_path s);
  gz ← sprintf (PATH_FMT ++ str_bytes ".gz") args (gz_record_path s);
  Some (mk_paths p gz).

(** [nod_monitor_init()], with the answers of [gettimeofday] and [gettid]. *)
Definition nod_monitor_init {V} `{LuaVM V} (tv : timeval) (tid : Z) (s : record_paths) (rt : runtime (V := V)) : option (record_paths * runtime (V := V)) :=
  s ← set_record_path tv (u32 tid) s;
  rt ← lua_runtime_init rt;
  Some (s, rt).

(** ** Names *)

(** A path that [printf] takes as it is. *)
Definition plain (s : list Z) : Prop := Forall (fun c => c <> 37 /\ c <> 0) s.

Lemma run_plain s fmt args t : plain s -> run_format None fmt args = Some t -> run_format None (s ++ fmt) args = Some (s ++ t).
Proof using Type.
  intros Hs Ht. induction Hs as [|c s [Hc _] Hs IH]; [done|]. cbn [app run_format]. destruct (Z.eqb_spec c 37); [done|]. by rewrite IH.
Qed.

(** The name of a thread's file. *)
Definition record_name (tid us : Z) : list Z :=
  CONFIG_STORE_PATH ++ 47 :: numeral 10 tid ++ 45 :: numeral 10 us ++ str_bytes ".buf".

Lemma pad_width0 l s : pad (mk_spec false 0 l) s = s.
Proof using Type. unfold pad. cbn [sp_zero sp_width]. pose proof (zlen_nonneg s). by replace (Z.to_nat (0 - zlen s)) with 0%nat by lia. Qed.

Lemma path_text tid us ext : plain CONFIG_STORE_PATH -> Forall (fun c => c <> 37) ext -> 0 <= tid < 2 ^ 32 -> 0 <= us < 2 ^ 63 ->
  run_format None (PATH_FMT ++ ext) [AInt tid; AInt us] = Some (record_name tid us ++ ext).
Proof using Type.
  intros Hp He Ht Hu. unfold PATH_FMT, record_name. rewrite <- !app_assoc. apply run_plain; [done|].
  assert (run_format None ext [] = Some ext) as Ee.
  { induction He as [|c ext Hc He IH]; [done|]. cbn [run_format]. destruct (Z.eqb_spec c 37); [done|]. by rewrite IH. }
  change (str_bytes "/%u-%ld.buf") with [47; 37; 117; 45; 37; 108; 100; 46; 98; 117; 102]. cbn [app].
  cbn -[pad numeral signed_numeral unsigned signed]. rewrite Ee. cbn -[pad numeral signed_numeral unsigned signed]. unfold spec0. rewrite !pad_width0.
  rewrite unsigned_small, signed_small by lia. unfold signed_numeral. rewrite (proj2 (Z.ltb_ge us 0)) by lia.
  rewrite <- app_assoc. cbn [app]. rewrite <- app_assoc. reflexivity.
Qed.

(** ** Numerals have no dash, and tell their numbers *)

Lemma digits_no_dash b fuel n acc : 1 < b -> Forall (fun c => c <> 45) acc -> Forall (fun c => c <> 45) (digits b fuel n acc).
Proof using Type.
  intros Hb. revert n acc. induction fuel as [|fuel IH]; intros n acc Hacc; [done|]. cbn [digits].
  assert (Forall (fun c => c <> 45) (digit_char (n mod b) :: acc)) as H.
  { constructor; [|done]. pose proof (Z.mod_pos_bound n b ltac:(lia)). unfold digit_char. destruct (_ <? _); lia. }
  destruct (n <? b); [done|by apply IH].
Qed.

Lemma numeral_inj m n : 0 <= m < 2 ^ 64 -> 0 <= n < 2 ^ 64 -> numeral 10 m = numeral 10 n -> m = n.
Proof using Type.
  intros Hm Hn E. apply (f_equal (read_numeral 10)) in E. unfold numeral in E. assert (2 ^ 64 < 10 ^ Z.of_nat 22) by done.
  rewrite !read_digits in E by lia. done.
Qed.

(** The text in front of the first dash. *)
Lemma before_dash a b a' b' : Forall (fun c => c <> 45) a -> Forall (fun c => c <> 45) a' -> a ++ 45 :: b = a' ++ 45 :: b' -> a = a' /\ b = b'.
Proof using Type.
  intros Ha. revert a'. induction Ha as [|c a Hc Ha IH]; intros a' Ha' E.
  - destruct Ha' as [|c' a' Hc' Ha']; [by injection E|]. by injection E as <- _.
  - destruct Ha' as [|c' a' Hc' Ha']; [by injection E as -> _|]. injection E as -> E. destruct (IH a' Ha' E) as [-> ->]. done.
Qed.

Lemma record_name_inj tid us tid' us' ext ext' : 0 <= tid < 2 ^ 32 -> 0 <= us < 2 ^ 63 -> 0 <= tid' < 2 ^ 32 -> 0 <= us' < 2 ^ 63 ->
  ext ∈ [[]; str_bytes ".gz"] -> ext' ∈ [[]; str_bytes ".gz"] ->
  record_name tid us ++ ext = record_name tid' us' ++ ext' -> tid = tid' /\ us = us' /\ ext = ext'.
Proof using Type.
  intros Ht Hu Ht' Hu' He He' E. unfold record_name in E. rewrite <- !app_assoc in E. apply app_inv_head in E. cbn [app] in E.
  injection E as E. rewrite <- !app_assoc in E. cbn [app] in E. apply before_dash in E as [E1 E2]; [|by apply digits_no_dash..].
  apply numeral_inj in E1; [|lia..]. rewrite <- !app_assoc in E2.
  assert (ext = ext') as ->.
  { apply (f_equal (@rev Z)) in E2. rewrite !rev_app_distr in E2. rewrite !elem_of_cons, elem_of_nil in He, He'.
    destruct He as [->|[->|[]]], He' as [->|[->|[]]]; done. }
  apply app_inv_tail, numeral_inj in E2; [done|lia..].
Qed.

Lemma numeral_length n k : 0 <= n < 10 ^ Z.of_nat (S k) -> 1 <= zlen (numeral 10 n) <= Z.of_nat (S k).
Proof using Type.
  intros Hn. split; [|apply zlen_digits; [lia|done]]. unfold numeral. rewrite digits_step, zlen_snoc. pose proof (zlen_nonneg (if n <? 10 then [] else digits 10 21 (n / 10) [])). lia.
Qed.

Lemma record_name_length tid us : 0 <= tid < 2 ^ 32 -> 0 <= us < 2 ^ 63 ->
  zlen CONFIG_STORE_PATH + 8 <= zlen (record_name tid us) <= zlen CONFIG_STORE_PATH + 35.
Proof using Type.
  intros Ht Hu. pose proof (numeral_length tid 9 ltac:(cbn in *; lia)). pose proof (numeral_length us 18 ltac:(cbn in *; lia)).
  unfold record_name. rewrite zlen_app, zlen_cons, zlen_app, zlen_cons, zlen_app. change (zlen (str_bytes ".buf")) with 4. lia.
Qed.

Lemma record_name_no_nul tid us : plain CONFIG_STORE_PATH -> no_nul (record_name tid us).
Proof using Type.
  intros Hp. apply Forall_app. split; [eapply Forall_impl; [|exact Hp]; by intros c [_ Hc]|]. constructor; [done|].
  apply Forall_app. split; [by apply no_nul_numeral|]. constructor; [done|].
  apply Forall_app. split; [by apply no_nul_numeral|by repeat constructor].
Qed.

(** [sprintf] of a name into one of the arrays. *)
Lemma sprintf_name fmt args buf text : run_format None fmt args = Some text -> no_nul text -> zlen buf = 100 ->
  match sprintf fmt args buf with
  | Some b => cstr b = Some text /\ zlen b = 100 /\ zlen text < 100
  | None => 100 <= zlen text
  end.
Proof using Type.
  intros E Hn Hb. unfold sprintf. rewrite E. cbn [mbind option_bind]. pose proof (zlen_nonneg text).
  destruct (Z.lt_ge_cases (zlen text) 100).
  - destruct (cstr_write text buf Hn ltac:(lia)) as (b & -> & Hl & Hc). split; [done|]. lia.
  - destruct (zwrite 0 _ buf) as [b|] eqn:Ew; [|lia]. apply zwrite_inv in Ew as (_ & Hw & _). rewrite zlen_snoc in Hw. lia.
Qed.

(** the files of the record. With a store path without [%], [set_record_path] succeeds exactly if
    both names fit their arrays of 100 bytes, whatever the arrays held: the store path, the thread in decimal and the
    microseconds of the time, with [.buf], and the same with [.gz]; with a store path of up to 61 bytes they always fit,
    from 89 bytes on they never do and the arrays are overrun. Different threads, or visits at different microseconds, have different files, and no plain file has
    the name of a compressed one. *)
Theorem record_path_names tv tid s : plain CONFIG_STORE_PATH -> 0 <= tid < 2 ^ 32 -> zlen (record_path s) = 100 -> zlen (gz_record_path s) = 100 ->
  0 <= tv_sec tv * SECOND_IN_US + tv_usec tv < 2 ^ 63 ->
  let us := tv_sec tv * SECOND_IN_US + tv_usec tv in
  (match set_record_path tv tid s with
   | Some s' => cstr (record_path s') = Some (record_name tid us) /\ cstr (gz_record_path s') = Some (record_name tid us ++ str_bytes ".gz") /\
       zlen (record_path s') = 100 /\ zlen (gz_record_path s') = 100
   | None => 97 <= zlen (record_name tid us)
   end) /\
  (zlen (record_name tid us) < 97 -> is_Some (set_record_path tv tid s)) /\
  (zlen CONFIG_STORE_PATH <= 61 -> zlen (record_name tid us) < 97) /\ (89 <= zlen CONFIG_STORE_PATH -> 97 <= zlen (record_name tid us)) /\
  (forall tid' us' ext ext', 0 <= tid' < 2 ^ 32 -> 0 <= us' < 2 ^ 63 -> ext ∈ [[]; str_bytes ".gz"] -> ext' ∈ [[]; str_bytes ".gz"] ->
     record_name tid us ++ ext = record_name tid' us' ++ ext' -> tid = tid' /\ us = us' /\ ext = ext').
Proof using Type.
  intros Hp Ht Hr Hg Hu us. pose proof (record_name_length tid us Ht Hu) as Hlen. pose proof (record_name_no_nul tid us Hp) as Hn.
  assert (s64 us = us) as Es by (unfold s64; apply signed_small; lia).
  pose proof (path_text tid us [] Hp ltac:(constructor) Ht Hu) as E1. rewrite !app_nil_r in E1.
  pose proof (path_text tid us (str_bytes ".gz") Hp ltac:(by repeat constructor) Ht Hu) as E2.
  pose proof (sprintf_name _ _ (record_path s) _ E1 Hn Hr) as S1.
  pose proof (sprintf_name _ _ (gz_record_path s) _ E2 ltac:(apply Forall_app; split; [done|by repeat constructor]) Hg) as S2.
  assert (zlen (record_name tid us ++ str_bytes ".gz") = zlen (record_name tid us) + 3) as E3 by (by rewrite zlen_app). rewrite E3 in S2.
  unfold set_record_path. fold us. rewrite Es.
  destruct (sprintf PATH_FMT _ _) as [b1|]; cbn [mbind option_bind]; [|split_and!; [lia|intros; lia..|intros; by eapply record_name_inj]].
  destruct (sprintf (PATH_FMT ++ _) _ _) as [b2|]; cbn [mbind option_bind]; [|split_and!; [lia|intros; lia..|intros; by eapply record_name_inj]].
  cbn [record_path gz_record_path]. split_and!; try tauto; try lia; [by intros; eexists|]. intros. by eapply record_name_inj.
Qed.
End paths.

(** ** The property at work *)

(** The default store path. *)
Lemma record_path_names_witness :
  match set_record_path (str_bytes "/tmp/nodrop") (mk_timeval 1700000000 5) 4321 init_paths with
  | Some s => cstr (record_path s) = Some (str_bytes "/tmp/nodrop/4321-1700000000000005.buf")
  | None => False
  end.
Proof.
  destruct (record_path_names (str_bytes "/tmp/nodrop") (mk_timeval 1700000000 5) 4321 init_paths) as (H & Hs & Hl & _);
    [by repeat constructor|lia|reflexivity|reflexivity|by vm_compute|].
  assert (zlen (str_bytes "/tmp/nodrop") <= 61) as H61 by (apply Z.leb_le; reflexivity). specialize (Hs (Hl H61)).
  destruct (set_record_path _ _ _ _) as [s'|]; [|by destruct Hs].
  destruct H as [H _]. refine (eq_trans H _). vm_compute. reflexivity.
Defined.
